(* ===== verification/_CoqProject ===== *)
-Q . S2P
Prelude.v
PyNum.v
PyVal.v
PyIp.v
IpText.v
PyTime.v
HubValues.v
Json.v
Storage.v
StorageDiff.v
Hub.v
Fixtures.v
Services.v
AgentQueue.v
AgentQueueFacts.v
AgentCmd.v
PortMap.v
PortMapRules.v
PortMapApi.v
PortMapQueue.v
PortMapSync.v
LabRelay.v
LabRelayFacts.v
Daily.v
OnlineTime.v
DailyFacts.v
HubNetwork.v
Ipv6Records.v
DeviceArchive.v
DeviceFacts.v
Watched.v
Hooks.v
HooksFacts.v
EventHooksFacts.v
DeviceHistory.v
DeviceHistoryFacts.v
CanonicalDevices.v
Status.v
StatusFacts.v
DeviceSync.v
Ddns.v
DdnsStore.v
Credentials.v
CredentialsFacts.v
DdnsFacts.v
DdnsReach.v
DdnsRestart.v
RouterRpc.v
RouterSite.v
Providers.v
ProvidersFacts.v
RouterActor.v
SlowCache.v
RouterFixture.v
TypedStore.v
Stun.v
StunService.v
StunFacts.v
StunQueueFacts.v
StunRouterFacts.v
WireGuard.v
WireGuardService.v
WireGuardSafe.v
WireGuardFacts.v
RouterIpv6.v
RouterTasks.v
RouterTaskFacts.v
FirewallRules.v
FirewallAutomation.v
FirewallFixture.v
FirewallFacts.v
FirewallBindings.v
FirewallRounds.v
