(* ===== verification/Prelude.v ===== *)
(** * LabProbe Hub: a verification library

    LabProbe Hub is a Flask server for a home network.  Routers report to it, an APP reads it and
    gives orders, and the documents behind both live in one SQLite file.  This library models its
    Python code under [src/] and proves what each part promises.

    ** The program and its parts

    - [labprobe_storage.py] keeps JSON documents, the rows derived from them and a log of numbered
      revisions; clients ask for the changes after the revision they know.
    - [hub.py] holds the handlers: port mappings with a command queue polled by the router, Agent
      updates, events and daily summaries, devices with their IPv6 addresses, an archive and
      watched devices, and the addresses of the Hub.
    - [hub_entry.py] imports [hub.py] and then replaces some of its functions.  The ones in force are
      modelled: [portmap_persistence_patch.py], [labrelay_sync_patch.py] and [hub0934_fixes.py] for the
      reports of port mappings and the presence of Agents, [device_history_patch.py] for snapshots
      and the daily summary, [hub0934_fixes.py] and [hub0935_sync_fix.py] for device lists,
      [router_task_manager_patch.py] with the timing of [final_stability_patch.py] for router tasks.
    - [router/ipv6/] reads and writes the IPv6 settings of the router; [lab_ddns.py] publishes
      addresses at DNS providers.
    - [router_control_actor_patch.py] runs the calls of the router one by one,
      [router_slow_cache_patch.py] answers slow reads from memory, and
      [router_relay_credentials_patch.py] passes the broadband credentials on without storing them.
    - [stun_service.py] keeps STUN channels, [wireguard_service.py] the wanted state of a WireGuard
      server, [router/firewall_automation.py] the firewall rules that follow a mapping.  The three
      write to the router through [router_rpc.py] and read what they wrote back; every confirmed
      write feeds the snapshots of [router_config_sync_patch.py].  A WireGuard server owns firewall
      rules through the STUN service, and the firewall automation reads the port mappings.

    ** Conventions

    A Python value is a [pyval] (PyVal.v); a dict is an association list without repeated keys, in
    insertion order.  Integers are [Z], floats are binary64 (PyNum.v).  A [str] is the bytes of its
    UTF-8 encoding; lengths and slices count code points, while case, white space and the digit and
    letter tests are the ASCII ones.  Code that can raise returns [result]; code that changes state is
    a [prog], and an exception keeps the state reached so far.  A handler of [hub.py] is a [prog] over
    [world]: the documents behind the interface [DocStore], the two clocks, the tokens drawn, the
    revisions announced over MQTT and the module-level dicts.  [SQLiteStore] implements the interface
    ([Hub.sqlite_laws]), and the theorems about handlers use its laws only.  A service that also
    calls the router runs over a [site] (RouterSite.v): a [world], the router and the snapshots.  The
    router is an abstract state with the interfaces [RouterClient] and [RouterBatch]; [Sha256] is a
    parameter.

    ** Files

    - Prelude.v: results, programs, weakest preconditions, strings, automation.  PyNum.v, PyVal.v,
      PyIp.v, PyTime.v: numbers, values, [ipaddress], dates.  IpText.v: an address is read back from
      its text.  HubValues.v: the value helpers of
      [hub.py].  Json.v: [json.dumps] and [json.loads] with their round trip.  Services.v: the helpers
      the service modules share.
    - Storage.v, StorageDiff.v: [labprobe_storage.py].  The state is [store]: documents, derived rows,
      revisions, checkpoint bookkeeping.  [save] compares, diffs, appends revisions and prunes;
      [changes_since] answers clients.  A full sync is exact, pages cover the log, a diff applied to the
      old document gives the new one, what is saved is read back.
    - Hub.v, Fixtures.v: requests, configuration, the three token checks, [load_json], [save_json],
      [add_event]; a concrete Hub for the witnesses.
    - AgentCmd.v: release manifest, Agent status, update and cleanup commands.
    - PortMap.v, PortMapRules.v, PortMapApi.v, PortMapQueue.v, PortMapSync.v: rules, commands, delivery,
      acknowledgement, reconciliation and the handlers of the APP and the router.  Accepted rules obey
      their contract, the handlers keep the rules document sound, at most one command per rule and
      action is active, delivery is bounded, and the router's handlers refine an abstract queue.
    - LabRelay.v, LabRelayFacts.v: presence of Agents and the replaced report handler.  A heartbeat
      makes an Agent online and silence ends it, revisions of reports grow, a report leads to exactly
      the missing commands, and the states shown to the APP are of the documented kinds.
    - Daily.v, DailyFacts.v, OnlineTime.v: events, tombstones, notes, the daily summary, online time.
    - HubNetwork.v: addresses of the Hub, operator labels, VPN rows.
    - Ipv6Records.v, DeviceArchive.v, DeviceFacts.v, Watched.v: addresses and neighbours of devices, the
      archive, the offline list, watched devices.
    - Hooks.v, HooksFacts.v, EventHooksFacts.v: [/api/router/push], the hooks of the Ruijie agent and of Lucky, wake
      on LAN.  A report of the router touches no exit address of the NAS, a failed check keeps the WAN
      address, a departure is recorded once.
    - Status.v, StatusFacts.v: exit addresses and their refresh, [status_document], [build_sync_snapshot] with
      the writes of other threads between its reads, the sync handlers.  An exit address is kept or
      replaced by a public one; a snapshot with two equal revisions misses nothing.
    - DeviceHistory.v, DeviceHistoryFacts.v, CanonicalDevices.v, DeviceSync.v: snapshots, transitions,
      rollups and their counters, the enriched summary, canonical rows, and the choice between hook,
      fallback and live poll.
    - Ddns.v, DdnsStore.v: [lab_ddns.py].  [record], [root] and [ddns] are its dicts, [accept_address],
      [save_record], [start_update], [finish_update], [auto_due] and the handlers its operations.
      DdnsFacts.v: what is sent, the gate of two samples, retry delays, and the agreement of the worker
      with the update.  DdnsReach.v: the invariant under every interleaving of the locked sections.
      DdnsRestart.v: what a restart reads back.
    - Providers.v, ProvidersFacts.v: [lab_ddns_providers.py], the eight adapters behind the parameter
      [sync_record] of the store ([sync_via]).  A synchronisation ends with at most one write, which
      carries the value; a zone that follows the class [ZoneServer] lists it afterwards.
    - Credentials.v, CredentialsFacts.v: the broadband credentials.  They stay in memory, come from one
      object of the answer, are never a masked text, and are shown within their time only.
    - RouterActor.v: the actor of the router calls.  What it runs is one serial execution, the best call
      first, and background calls are admitted when it is idle only.
    - SlowCache.v: the cache of slow reads.  A bound on the age of what it answers, and one refresh of a
      resource at a time.
    - RouterRpc.v, RouterIpv6.v: [router/ipv6/] over an abstract router; a change is validated first,
      written once and verified.
    - RouterTasks.v, RouterTaskFacts.v: the NAT, self-test and Beta tasks with their workers.  A started
      task ends, a second start joins the first, a restart leaves no active task.
    - RouterSite.v, RouterFixture.v, TypedStore.v: the site, the forced reads, [write_and_verify] and the
      snapshots; a concrete router; the rules for invariants of stored documents.
    - AgentQueue.v, AgentQueueFacts.v: the queue of Agent commands that the STUN and the WireGuard service
      share, and its soundness against the class [CommandShape].
    - Stun.v, StunService.v: the STUN service.  StunFacts.v: accepted rules, ports, the endpoint history.
      StunQueueFacts.v: one open command for each rule.  StunRouterFacts.v: what somebody edited at the
      router is kept, what is ready is not written again.
    - WireGuard.v, WireGuardService.v: the WireGuard service.  WireGuardSafe.v, WireGuardFacts.v: no secret
      is stored, accepted servers are valid, a change moves one revision, an endpoint update touches
      one profile, an Agent that lags behind is given the present state.
    - FirewallRules.v, FirewallAutomation.v, FirewallFixture.v: [router/firewall_automation.py], whose rounds are
      [reconcile] with one binding in [follow].  FirewallFacts.v: addresses have one text, a round writes
      at most the destination of one unchanged rule.  FirewallBindings.v: the bindings stay one per rule.
      FirewallRounds.v: a change made by hand stops the Hub for good, a confirmed update settles, an
      adopted rule is recognised.

    ** Bounds and fuel

    The JSON parser takes the length of the text as fuel, and [Json.loads_dumps_sorted] shows it is enough.
    The polling loops of the router tasks take fuel; [started_task_ends] shows that a number of
    polls fixed by the time limits ([RouterTaskFacts.enough]) is enough, whatever the router
    answers.  Every other recursion is structural.

    ** Not modelled

    Threads appear as an environment step between locked sections, not as a scheduler.  The SQLite
    engine, files, subprocesses and HTTP are parameters or assumed to work.  Left out because they
    only move data: the login flows and encrypted sessions of the router ([router_rpc*.py] and the
    Ruijie patches), the WebSocket lane ([router_ws_patch.py], [hub_realtime_ws.py]), the dashboard
    bridge ([router_compat.py]), page rendering, packaging scripts.  [labrelay/] is a Rust program and
    not part of this library.  The REST routes of [router_rpc.py] would come next. *)

From Stdlib Require Export Ascii String ZArith Lia List Bool Sorting.Permutation Sorting.Sorted.
From stdpp Require Export base tactics option list gmap strings.

Global Set Default Goal Selector "!".
#[global] Open Scope string_scope.
#[global] Open Scope list_scope.
#[global] Open Scope Z_scope.

(** Concatenation computes on a concrete left operand. *)
#[global] Arguments String.append !_ _ /.

(** ** Results: the exceptions of the Python code as values *)

(** A Python exception: its class name and [str(exc)]. *)
Record exn := Exn { exn_class : string; exn_msg : string }.

Inductive result (A : Type) : Type :=
| Ok (a : A)
| Err (e : exn).
Arguments Ok {A} a.
Arguments Err {A} e.

#[export] Instance result_ret : MRet result := fun A a => Ok a.
#[export] Instance result_bind : MBind result :=
  fun A B f m => match m with Ok a => f a | Err e => Err e end.
#[export] Instance result_fmap : FMap result :=
  fun A B f m => match m with Ok a => Ok (f a) | Err e => Err e end.

#[export] Instance exn_eq_dec : EqDecision exn.
Proof. solve_decision. Defined.
#[export] Instance result_eq_dec {A} `{EqDecision A} : EqDecision (result A).
Proof. solve_decision. Defined.

Definition is_ok {A} (r : result A) : bool := match r with Ok _ => true | Err _ => false end.

(** [try: m except Exception: d]. *)
Definition catch {A} (m : result A) (d : A) : A := match m with Ok a => a | Err _ => d end.

Definition raise_value_error {A} (msg : string) : result A := Err (Exn "ValueError" msg).

(** Sequencing of a list of fallible steps, left to right. *)
Fixpoint result_map {A B} (f : A -> result B) (l : list A) : result (list B) :=
  match l with
  | [] => Ok []
  | x :: l' => match f x with
               | Ok y => match result_map f l' with Ok ys => Ok (y :: ys) | Err e => Err e end
               | Err e => Err e
               end
  end.

Lemma ok_inj {A} (a b : A) : Ok a = Ok b -> a = b.
Proof. by intros [= ->]. Qed.

Lemma result_bind_ok {A B} (m : result A) (f : A -> result B) b :
  (m ≫= f) = Ok b -> exists a, m = Ok a /\ f a = Ok b.
Proof. destruct m; intros H; [exists a; auto | discriminate]. Qed.

(** ** Programs: state and exceptions

    A program takes a state to an outcome and a state.  An exception keeps the state reached
    so far, as in Python. *)

Definition prog (S A : Type) : Type := S -> result A * S.

#[export] Instance prog_ret {S} : MRet (prog S) := fun A a s => (Ok a, s).
#[export] Instance prog_bind {S} : MBind (prog S) := fun A B f m s =>
  match m s with
  | (Ok a, s') => f a s'
  | (Err e, s') => (Err e, s')
  end.
#[export] Instance prog_fmap {S} : FMap (prog S) := fun A B f m s =>
  match m s with
  | (Ok a, s') => (Ok (f a), s')
  | (Err e, s') => (Err e, s')
  end.

Definition lift {S A} (m : result A) : prog S A := fun s => (m, s).
Definition raise {S A} (e : exn) : prog S A := fun s => (Err e, s).
(** Reading and changing the state. *)
Definition reads {S A} (f : S -> A) : prog S A := fun s => (Ok (f s), s).
Definition changes {S} (f : S -> S) : prog S unit := fun s => (Ok tt, f s).

(** [try: m except Exception as e: h(e)]; what [m] changed stays. *)
Definition try_except {S A} (m : prog S A) (h : exn -> prog S A) : prog S A := fun s =>
  match m s with
  | (Ok a, s') => (Ok a, s')
  | (Err e, s') => h e s'
  end.

(** [for x in l: f(x)]. *)
Fixpoint for_each {S A} (f : A -> prog S unit) (l : list A) : prog S unit :=
  match l with
  | [] => mret tt
  | x :: l' => _ ← f x; for_each f l'
  end.

Lemma prog_bind_eq {S A B} (m : prog S A) (f : A -> prog S B) s :
  (m ≫= f) s = match m s with (Ok a, s') => f a s' | (Err e, s') => (Err e, s') end.
Proof. done. Qed.

Lemma prog_bind_ok {S A B} (m : prog S A) (f : A -> prog S B) s b s' :
  (m ≫= f) s = (Ok b, s') -> exists a s1, m s = (Ok a, s1) /\ f a s1 = (Ok b, s').
Proof.
  rewrite prog_bind_eq. destruct (m s) as [[a|e] s1]; intros H; [by exists a, s1|discriminate].
Qed.

(** *** Weakest preconditions

    [wp m Q R s]: run from [s], the program ends in a state with [Q] when it returns and with
    [R] when it raises. *)

Definition wp {S A} (m : prog S A) (Q : A -> S -> Prop) (R : exn -> S -> Prop) (s : S) : Prop :=
  match m s with (Ok a, s') => Q a s' | (Err e, s') => R e s' end.

Section WP.
Context {S : Type}.
Implicit Types (s : S) (R : exn -> S -> Prop).

Lemma wp_ret {A} (a : A) (Q : A -> S -> Prop) R s : Q a s -> wp (mret a) Q R s.
Proof. done. Qed.
Lemma wp_lift {A} (r : result A) (Q : A -> S -> Prop) R s :
  match r with Ok a => Q a s | Err e => R e s end -> wp (lift r) Q R s.
Proof. by destruct r. Qed.
Lemma wp_reads {A} (f : S -> A) (Q : A -> S -> Prop) R s : Q (f s) s -> wp (reads f) Q R s.
Proof. done. Qed.
Lemma wp_changes (f : S -> S) (Q : unit -> S -> Prop) R s : Q tt (f s) -> wp (changes f) Q R s.
Proof. done. Qed.

Lemma wp_bind {A B} (m : prog S A) (f : A -> prog S B) Q R s :
  wp m (fun a => wp (f a) Q R) R s -> wp (m ≫= f) Q R s.
Proof. unfold wp. rewrite prog_bind_eq. by destruct (m s) as [[a|e] s']. Qed.

Lemma wp_try {A} (m : prog S A) h Q R s :
  wp m Q (fun e => wp (h e) Q R) s -> wp (try_except m h) Q R s.
Proof. unfold wp, try_except. by destruct (m s) as [[a|e] s']. Qed.

Lemma wp_mono {A} (m : prog S A) (Q Q' : A -> S -> Prop) (R R' : exn -> S -> Prop) s :
  wp m Q R s -> (forall a s', Q a s' -> Q' a s') -> (forall e s', R e s' -> R' e s') -> wp m Q' R' s.
Proof. unfold wp. destruct (m s) as [[a|e] s']; auto. Qed.

Lemma wp_for_each {A} (f : A -> prog S unit) (I : S -> Prop) R l s :
  (forall x s', I s' -> wp (f x) (fun _ => I) R s') -> I s -> wp (for_each f l) (fun _ => I) R s.
Proof.
  intros Hf. revert s. induction l as [|x l IH]; intros s Hs; [done|].
  apply wp_bind. eapply wp_mono; [by apply Hf| |done]. intros u s' Hs'. by apply IH.
Qed.

Lemma wp_run {A} (m : prog S A) Q R s r s' :
  wp m Q R s -> m s = (r, s') -> match r with Ok a => Q a s' | Err e => R e s' end.
Proof. unfold wp. intros H E. rewrite E in H. by destruct r. Qed.
End WP.

(** ** Strings

    A Python [str] is the sequence of the bytes of its UTF-8 encoding.  The
    character classes below are the ASCII ones: [lower], [upper], [strip] and the
    digit tests act on ASCII characters and leave every other byte alone. *)

Definition byte_of (c : ascii) : Z := Z.of_N (N_of_ascii c).
Definition chr (z : Z) : ascii := ascii_of_N (Z.to_N z).
Definition chr_str (z : Z) : string := String (chr z) EmptyString.

Definition in_range (lo hi : Z) (c : ascii) : bool := (lo <=? byte_of c) && (byte_of c <=? hi).

Definition is_digit (c : ascii) : bool := in_range 48 57 c.
Definition is_upper (c : ascii) : bool := in_range 65 90 c.
Definition is_lower (c : ascii) : bool := in_range 97 122 c.
Definition is_alpha (c : ascii) : bool := is_upper c || is_lower c.
Definition is_alnum (c : ascii) : bool := is_alpha c || is_digit c.
(** [str.isspace] on ASCII: tab to carriage return, the four separators, space. *)
Definition is_space (c : ascii) : bool := in_range 9 13 c || in_range 28 32 c.
Definition is_hex (c : ascii) : bool := is_digit c || in_range 65 70 c || in_range 97 102 c.
(** A UTF-8 continuation byte, which starts no code point. *)
Definition is_cont (c : ascii) : bool := in_range 128 191 c.

Definition lower_char (c : ascii) : ascii := if is_upper c then chr (byte_of c + 32) else c.
Definition upper_char (c : ascii) : ascii := if is_lower c then chr (byte_of c - 32) else c.

Definition digit_val (c : ascii) : Z := byte_of c - 48.
Definition hex_val (c : ascii) : Z :=
  if is_digit c then byte_of c - 48
  else if in_range 65 70 c then byte_of c - 55
  else byte_of c - 87.

Fixpoint smap (f : ascii -> ascii) (s : string) : string :=
  match s with EmptyString => EmptyString | String c s' => String (f c) (smap f s') end.

Definition lower (s : string) : string := smap lower_char s.
Definition upper (s : string) : string := smap upper_char s.

Fixpoint sall (p : ascii -> bool) (s : string) : bool :=
  match s with EmptyString => true | String c s' => p c && sall p s' end.

Fixpoint sexists (p : ascii -> bool) (s : string) : bool :=
  match s with EmptyString => false | String c s' => p c || sexists p s' end.

Fixpoint sfilter (p : ascii -> bool) (s : string) : string :=
  match s with
  | EmptyString => EmptyString
  | String c s' => if p c then String c (sfilter p s') else sfilter p s'
  end.

(** [s.lstrip(chars)], [s.rstrip(chars)], [s.strip(chars)] for a character set. *)
Fixpoint lstrip_by (p : ascii -> bool) (s : string) : string :=
  match s with
  | EmptyString => EmptyString
  | String c s' => if p c then lstrip_by p s' else s
  end.

Fixpoint rstrip_by (p : ascii -> bool) (s : string) : string :=
  match s with
  | EmptyString => EmptyString
  | String c s' =>
      match rstrip_by p s' with
      | EmptyString => if p c then EmptyString else String c EmptyString
      | t => String c t
      end
  end.

Definition strip_by (p : ascii -> bool) (s : string) : string := rstrip_by p (lstrip_by p s).
Definition strip (s : string) : string := strip_by is_space s.

Definition is_char (c d : ascii) : bool := Ascii.eqb c d.
Definition one_of (cs : string) (d : ascii) : bool := sexists (fun c => Ascii.eqb c d) cs.

(** [s.startswith(p)], [s.endswith(p)], [p in s]. *)
Definition starts_with (p s : string) : bool := String.prefix p s.

Fixpoint ends_with (p s : string) : bool :=
  String.eqb p s || match s with EmptyString => false | String _ s' => ends_with p s' end.

Fixpoint contains (p s : string) : bool :=
  String.prefix p s || match s with EmptyString => false | String _ s' => contains p s' end.

(** [sdrop n s], [stake n s]: on bytes. *)
Fixpoint sdrop (n : nat) (s : string) : string :=
  match n, s with
  | O, _ => s
  | S n', String _ s' => sdrop n' s'
  | S _, EmptyString => EmptyString
  end.

Fixpoint stake (n : nat) (s : string) : string :=
  match n, s with
  | O, _ => EmptyString
  | S n', String c s' => String c (stake n' s')
  | S _, EmptyString => EmptyString
  end.

(** [len(s)] and [s[:n]] count code points. *)
Fixpoint py_len (s : string) : Z :=
  match s with
  | EmptyString => 0
  | String c s' => (if is_cont c then 0 else 1) + py_len s'
  end.

Fixpoint py_take (n : nat) (s : string) : string :=
  match s with
  | EmptyString => EmptyString
  | String c s' =>
      if is_cont c then String c (py_take n s')
      else match n with O => EmptyString | S n' => String c (py_take n' s') end
  end.

(** [s[n:]] on code points. *)
Fixpoint py_drop (n : nat) (s : string) : string :=
  match n with
  | O => s
  | S n' => match s with
            | EmptyString => EmptyString
            | String _ s' =>
                (fix skip (t : string) : string :=
                   match t with
                   | String c t' => if is_cont c then skip t' else py_drop n' t
                   | EmptyString => EmptyString
                   end) s'
            end
  end.

(** [s.replace(old, new)] for a non-empty [old]: the [skip] counter steps over the
    rest of an occurrence that was already replaced. *)
Fixpoint replace_go (old new : string) (skip : nat) (s : string) : string :=
  match s with
  | EmptyString => EmptyString
  | String c s' =>
      match skip with
      | S k => replace_go old new k s'
      | O => if String.prefix old s
             then new +:+ replace_go old new (String.length old - 1) s'
             else String c (replace_go old new O s')
      end
  end.
Definition replace (old new s : string) : string := replace_go old new O s.

(** [s.split(sep)] for a non-empty [sep]; [cur] is the reversed current piece. *)
Fixpoint srev_app (s acc : string) : string :=
  match s with EmptyString => acc | String c s' => srev_app s' (String c acc) end.
Definition srev (s : string) : string := srev_app s EmptyString.

Fixpoint split_go (sep : string) (skip : nat) (cur s : string) : list string :=
  match s with
  | EmptyString => [srev cur]
  | String c s' =>
      match skip with
      | S k => split_go sep k cur s'
      | O => if String.prefix sep s
             then srev cur :: split_go sep (String.length sep - 1) EmptyString s'
             else split_go sep O (String c cur) s'
      end
  end.
Definition split (sep s : string) : list string := split_go sep O EmptyString s.

(** [s.split(sep, 1)] when [sep] occurs: the parts around the first occurrence. *)
Fixpoint cut (sep s : string) : option (string * string) :=
  if String.prefix sep s then Some (EmptyString, sdrop (String.length sep) s)
  else match s with
       | EmptyString => None
       | String c s' => match cut sep s' with
                        | Some (a, b) => Some (String c a, b)
                        | None => None
                        end
       end.

(** [s.rsplit(sep, 1)] when [sep] occurs: the parts around the last occurrence. *)
Fixpoint rcut (sep s : string) : option (string * string) :=
  match s with
  | EmptyString => if String.eqb sep EmptyString then Some (EmptyString, EmptyString) else None
  | String c s' =>
      match rcut sep s' with
      | Some (a, b) => Some (String c a, b)
      | None => if String.prefix sep s then Some (EmptyString, sdrop (String.length sep) s) else None
      end
  end.

(** [sep.join(parts)]. *)
Fixpoint join (sep : string) (l : list string) : string :=
  match l with
  | [] => EmptyString
  | [x] => x
  | x :: l' => x +:+ sep +:+ join sep l'
  end.

(** The maximal leading run of characters that satisfy [p], and the rest. *)
Fixpoint span (p : ascii -> bool) (s : string) : string * string :=
  match s with
  | EmptyString => (EmptyString, EmptyString)
  | String c s' => if p c then let '(a, b) := span p s' in (String c a, b) else (EmptyString, s)
  end.

(** Non-empty runs of characters that satisfy [p] ([re.findall] of a class [+]). *)
Fixpoint runs_go (p : ascii -> bool) (cur s : string) : list string :=
  match s with
  | EmptyString => if String.eqb cur EmptyString then [] else [srev cur]
  | String c s' =>
      if p c then runs_go p (String c cur) s'
      else if String.eqb cur EmptyString then runs_go p EmptyString s'
      else srev cur :: runs_go p EmptyString s'
  end.
Definition runs (p : ascii -> bool) (s : string) : list string := runs_go p EmptyString s.

(** Truth value of a string. *)
Definition nonempty (s : string) : bool := negb (String.eqb s EmptyString).

(** [str.splitlines]: the length in bytes of the line end at the start of a text. *)
Definition line_end (s : string) : nat :=
  match s with
  | String a (String b (String c _)) =>
      if (byte_of a =? 13) && (byte_of b =? 10) then 2%nat
      else if in_range 10 13 a || in_range 28 30 a then 1%nat
      else if (byte_of a =? 194) && (byte_of b =? 133) then 2%nat
      else if (byte_of a =? 226) && (byte_of b =? 128) && in_range 168 169 c then 3%nat
      else O
  | String a (String b EmptyString) =>
      if (byte_of a =? 13) && (byte_of b =? 10) then 2%nat
      else if in_range 10 13 a || in_range 28 30 a then 1%nat
      else if (byte_of a =? 194) && (byte_of b =? 133) then 2%nat
      else O
  | String a EmptyString => if in_range 10 13 a || in_range 28 30 a then 1%nat else O
  | EmptyString => O
  end.

Fixpoint splitlines_go (skip : nat) (cur s : string) : list string :=
  match s with
  | EmptyString => if nonempty cur then [srev cur] else []
  | String c s' =>
      match skip with
      | S k => splitlines_go k cur s'
      | O => match line_end s with
             | O => splitlines_go O (String c cur) s'
             | S k => srev cur :: splitlines_go k EmptyString s'
             end
      end
  end.
Definition splitlines (s : string) : list string := splitlines_go O EmptyString s.

(** The Python string order: code points, which is the order of the UTF-8 bytes. *)
Definition sleb (a b : string) : bool :=
  match String.compare a b with Gt => false | _ => true end.
Definition sltb (a b : string) : bool :=
  match String.compare a b with Lt => true | _ => false end.

(** [a or b] on strings. *)
Definition str_or (a b : string) : string := if nonempty a then a else b.

Definition str_in (s : string) (l : list string) : bool := existsb (String.eqb s) l.

(** ** Lists *)

(** [l[-n:]] for [n > 0]: the last [n] elements. *)
Definition last_n {A} (n : nat) (l : list A) : list A := skipn (List.length l - n) l.

(** [list(dict.fromkeys(l))]: the first occurrence of each element, in order. *)
Fixpoint dedup_go (seen l : list string) : list string :=
  match l with
  | [] => []
  | x :: l' => if str_in x seen then dedup_go seen l' else x :: dedup_go (x :: seen) l'
  end.
Definition dedup (l : list string) : list string := dedup_go [] l.

(** Replace the first element on which [f] is defined. *)
Fixpoint update_first {A} (f : A -> option A) (l : list A) : option (list A) :=
  match l with
  | [] => None
  | x :: l' => match f x with
               | Some y => Some (y :: l')
               | None => option_map (cons x) (update_first f l')
               end
  end.

(** The same from the end, as [for x in reversed(l)] does. *)
Definition update_last {A} (f : A -> option A) (l : list A) : option (list A) :=
  option_map (@rev A) (update_first f (rev l)).

(** [sorted(l, key)] with the order [le] on elements: a stable insertion sort. *)
Section Sort.
Context {A : Type} (le : A -> A -> bool).

Fixpoint sort_insert (x : A) (l : list A) : list A :=
  match l with
  | [] => [x]
  | y :: l' => if le x y then x :: y :: l' else y :: sort_insert x l'
  end.

Fixpoint isort (l : list A) : list A :=
  match l with [] => [] | x :: l' => sort_insert x (isort l') end.

Lemma sort_insert_perm x l : Permutation (sort_insert x l) (x :: l).
Proof.
  induction l as [|y l IH]; simpl; [done|].
  destruct (le x y); [done|]. rewrite IH. apply perm_swap.
Qed.

Lemma isort_perm l : Permutation (isort l) l.
Proof. induction l as [|x l IH]; simpl; [done|]. by rewrite sort_insert_perm, IH. Qed.

Lemma isort_length l : List.length (isort l) = List.length l.
Proof. apply Permutation_length, isort_perm. Qed.

Lemma isort_in x l : In x (isort l) <-> In x l.
Proof. split; apply Permutation_in; [|symmetry]; apply isort_perm. Qed.

Definition ordered (l : list A) : Prop := StronglySorted (fun x y => le x y = true) l.

Hypothesis le_total : forall x y, le x y = true \/ le y x = true.
Hypothesis le_trans : forall x y z, le x y = true -> le y z = true -> le x z = true.

Lemma sort_insert_ordered x l : ordered l -> ordered (sort_insert x l).
Proof.
  induction 1 as [|y l Hl IH Hy]; simpl; [repeat constructor|].
  destruct (le x y) eqn:E.
  - constructor; [by constructor|]. constructor; [done|].
    eapply Forall_impl; [exact Hy|]. simpl. eauto.
  - constructor; [done|].
    assert (le y x = true) as Hyx by (destruct (le_total x y); congruence).
    apply (Permutation_Forall (symmetry (sort_insert_perm x l))). by constructor.
Qed.

Lemma isort_ordered l : ordered (isort l).
Proof. induction l; simpl; [constructor|]. by apply sort_insert_ordered. Qed.
End Sort.

Lemma last_n_length {A} n (l : list A) :
  List.length (last_n n l) = Nat.min n (List.length l).
Proof. unfold last_n. rewrite length_skipn. lia. Qed.

Lemma last_n_all {A} n (l : list A) : (List.length l <= n)%nat -> last_n n l = l.
Proof. unfold last_n. intros H. replace (List.length l - n)%nat with O by lia. done. Qed.

Lemma last_n_incl {A} n (l : list A) x : In x (last_n n l) -> In x l.
Proof.
  unfold last_n. intros H. rewrite <- (firstn_skipn (List.length l - n) l).
  apply in_or_app. by right.
Qed.

Lemma last_n_snoc {A} n (l : list A) x : (0 < n)%nat -> In x (last_n n (l ++ [x])).
Proof.
  intros Hn. unfold last_n. rewrite length_app, skipn_app. apply in_or_app. right.
  simpl. replace (List.length l + 1 - n - List.length l)%nat with O by lia. by left.
Qed.

Lemma last_n_suffix {A} n (l : list A) : last_n n l `suffix_of` l.
Proof. exists (firstn (List.length l - n) l). symmetry. apply firstn_skipn. Qed.

Lemma update_first_length {A} (f : A -> option A) l l' :
  update_first f l = Some l' -> List.length l' = List.length l.
Proof.
  revert l'. induction l as [|x l IH]; simpl; intros l' H; [done|].
  destruct (f x); [by simplify_eq|].
  destruct (update_first f l); simplify_eq/=. by rewrite (IH _ eq_refl).
Qed.

Lemma update_first_Forall {A} (P : A -> Prop) (f : A -> option A) l l' :
  (forall x y, P x -> f x = Some y -> P y) ->
  Forall P l -> update_first f l = Some l' -> Forall P l'.
Proof.
  intros Hf Hl. revert l'. induction Hl as [|x l Hx Hl IH]; simpl; intros l' H; [done|].
  destruct (f x) eqn:E; simplify_eq; [constructor; eauto|].
  destruct (update_first f l) eqn:E'; simplify_eq/=. constructor; eauto.
Qed.

Lemma existsb_false_Forall {A} (p : A -> bool) l :
  existsb p l = false <-> Forall (fun x => p x = false) l.
Proof.
  induction l; simpl; [split; [constructor|done]|].
  rewrite orb_false_iff, IHl. split.
  - intros [? ?]. by constructor.
  - by inversion 1.
Qed.

Lemma str_in_spec s l : str_in s l = true <-> In s l.
Proof.
  unfold str_in. rewrite existsb_exists. split.
  - intros (x & Hx & ->%String.eqb_eq). done.
  - intros H. exists s. split; [done|]. apply String.eqb_refl.
Qed.

Lemma dedup_go_in seen l x : In x (dedup_go seen l) <-> In x l /\ ~ In x seen.
Proof.
  revert seen. induction l as [|y l IH]; intros seen; simpl; [tauto|].
  destruct (str_in y seen) eqn:E.
  - rewrite IH. rewrite str_in_spec in E. split; [tauto|]. intros [[->|?] ?]; tauto.
  - assert (~ In y seen) by (rewrite <- str_in_spec; congruence).
    simpl. rewrite IH. simpl. split.
    + intros [->|[? ?]]; [tauto|]. split; [tauto|]. intros ?. tauto.
    + intros [[->|?] ?]; [tauto|]. destruct (decide (y = x)) as [->|?]; [tauto|]. right.
      split; [done|]. intros [?|?]; tauto.
Qed.

Lemma dedup_go_NoDup seen l : List.NoDup (dedup_go seen l).
Proof.
  revert seen. induction l as [|y l IH]; intros seen; simpl; [constructor|].
  destruct (str_in y seen); [done|]. constructor; [|done].
  rewrite dedup_go_in. simpl. tauto.
Qed.

Lemma dedup_NoDup l : List.NoDup (dedup l).
Proof. apply dedup_go_NoDup. Qed.

Lemma dedup_in l x : In x (dedup l) <-> In x l.
Proof. unfold dedup. rewrite dedup_go_in. simpl. tauto. Qed.

(** ** Automation *)

Create HintDb hub.

(** Turn boolean tests of the code into propositions. *)
Ltac to_prop :=
  repeat match goal with
  | H : _ && _ = true |- _ => apply andb_prop in H as [? ?]
  | H : _ || _ = false |- _ => apply orb_false_elim in H as [? ?]
  | H : negb _ = true |- _ => apply negb_true_iff in H
  | H : negb _ = false |- _ => apply negb_false_iff in H
  | H : (_ <=? _) = true |- _ => apply Z.leb_le in H
  | H : (_ <=? _) = false |- _ => apply Z.leb_gt in H
  | H : (_ <? _) = true |- _ => apply Z.ltb_lt in H
  | H : (_ <? _) = false |- _ => apply Z.ltb_ge in H
  | H : (_ >=? _) = _ |- _ => rewrite Z.geb_leb in H
  | H : (_ >? _) = _ |- _ => rewrite Z.gtb_ltb in H
  | H : (_ =? _) = true |- _ => apply Z.eqb_eq in H
  | H : (_ =? _) = false |- _ => apply Z.eqb_neq in H
  | H : String.eqb _ _ = true |- _ => apply String.eqb_eq in H
  | H : String.eqb _ _ = false |- _ => apply String.eqb_neq in H
  | H : str_in _ _ = true |- _ => apply str_in_spec in H
  end.

(** Split every [match] of the goal, closing the impossible branches. *)
Ltac split_matches := repeat (case_match; simplify_eq/=; try done).

(** Split every [match] of the hypotheses. *)
Ltac split_hyps :=
  repeat match goal with
  | H : context [match ?x with _ => _ end] |- _ =>
      lazymatch type of H with
      | _ = _ => destruct x eqn:?; simplify_eq/=
      end
  end; try done.

Lemma nonempty_spec s : nonempty s = true <-> s <> EmptyString.
Proof. unfold nonempty. rewrite negb_true_iff, String.eqb_neq. done. Qed.

Lemma nonempty_false s : nonempty s = false <-> s = EmptyString.
Proof. unfold nonempty. rewrite negb_false_iff, String.eqb_eq. done. Qed.

(** ** String lemmas *)

Lemma append_nil_r s : s +:+ EmptyString = s.
Proof. induction s as [|c s IH]; simpl; [done|]. by rewrite IH. Qed.

Lemma append_assoc s1 s2 s3 : (s1 +:+ s2) +:+ s3 = s1 +:+ (s2 +:+ s3).
Proof. induction s1 as [|c s1 IH]; simpl; [done|]. by rewrite IH. Qed.

Lemma append_length s1 s2 : String.length (s1 +:+ s2) = (String.length s1 + String.length s2)%nat.
Proof. induction s1 as [|c s1 IH]; simpl; [done|]. by rewrite IH. Qed.

Lemma sall_app p s1 s2 : sall p (s1 +:+ s2) = sall p s1 && sall p s2.
Proof. induction s1 as [|c s1 IH]; simpl; [done|]. by rewrite IH, andb_assoc. Qed.

Lemma sall_impl (p q : ascii -> bool) s :
  (forall c, p c = true -> q c = true) -> sall p s = true -> sall q s = true.
Proof.
  intros Hpq. induction s as [|c s IH]; simpl; [done|].
  intros [? ?]%andb_prop. rewrite Hpq; auto.
Qed.

Lemma prefix_app s1 s2 : String.prefix s1 (s1 +:+ s2) = true.
Proof.
  induction s1 as [|c s1 IH]; [by destruct s2|]. simpl.
  destruct (ascii_dec c c); [done|congruence].
Qed.

Lemma prefix_true s1 s2 : String.prefix s1 s2 = true -> exists t, s2 = s1 +:+ t.
Proof.
  revert s2. induction s1 as [|c s1 IH]; intros s2 H; [exists s2; reflexivity|].
  destruct s2 as [|d s2]; simpl in H; [done|].
  destruct (ascii_dec c d) as [->|]; [|done].
  destruct (IH _ H) as [t ->]. exists t. reflexivity.
Qed.

Lemma sdrop_app s1 s2 : sdrop (String.length s1) (s1 +:+ s2) = s2.
Proof. induction s1; simpl; auto. Qed.

(** [span] stops exactly at the end of a run. *)
Lemma span_app p s1 s2 :
  sall p s1 = true ->
  match s2 with EmptyString => true | String c _ => negb (p c) end = true ->
  span p (s1 +:+ s2) = (s1, s2).
Proof.
  intros H1 H2. induction s1 as [|c s1 IH]; simpl in *.
  - destruct s2 as [|c s2]; simpl; [done|]. by apply negb_true_iff in H2 as ->.
  - apply andb_prop in H1 as [-> H1]. by rewrite (IH H1).
Qed.

Lemma span_all p s : sall p s = true -> span p s = (s, EmptyString).
Proof. intros H. rewrite <- (append_nil_r s) at 1. by apply span_app. Qed.

Lemma span_eq p s a b : span p s = (a, b) -> s = a +:+ b /\ sall p a = true.
Proof.
  revert a b. induction s as [|c s IH]; simpl; intros a b H; [by simplify_eq|].
  destruct (p c) eqn:E; [|by simplify_eq].
  destruct (span p s) as [a' b'] eqn:E'. simplify_eq/=.
  destruct (IH _ _ eq_refl) as [-> ->]. by rewrite E.
Qed.

(** Strings without the characters that [strip] removes are unchanged. *)
Lemma lstrip_by_id p s : sall (fun c => negb (p c)) s = true -> lstrip_by p s = s.
Proof. destruct s as [|c s]; simpl; [done|]. by destruct (p c). Qed.

Lemma rstrip_by_id p s : sall (fun c => negb (p c)) s = true -> rstrip_by p s = s.
Proof.
  induction s as [|c s IH]; simpl; [done|]. intros [Hc Hs]%andb_prop.
  rewrite (IH Hs). apply negb_true_iff in Hc as ->. by destruct s.
Qed.

Lemma strip_by_id p s : sall (fun c => negb (p c)) s = true -> strip_by p s = s.
Proof. intros H. unfold strip_by. by rewrite (lstrip_by_id _ _ H), (rstrip_by_id _ _ H). Qed.

(** [strip] is idempotent: its result starts and ends with no stripped character. *)
Lemma lstrip_by_head p s :
  match lstrip_by p s with EmptyString => True | String c _ => p c = false end.
Proof. induction s as [|c s IH]; simpl; [done|]. by destruct (p c) eqn:E. Qed.

Lemma rstrip_by_idemp p s : rstrip_by p (rstrip_by p s) = rstrip_by p s.
Proof.
  induction s as [|c s IH]; simpl; [done|].
  destruct (rstrip_by p s) as [|d t] eqn:E.
  - destruct (p c) eqn:Ec; simpl; [done|]. by rewrite Ec.
  - change (rstrip_by p (String c (String d t))) with
      (match rstrip_by p (String d t) with
       | EmptyString => if p c then EmptyString else String c EmptyString
       | t => String c t end).
    by rewrite IH.
Qed.

Lemma rstrip_by_head p s c t : rstrip_by p s = String c t -> exists t', s = String c t'.
Proof.
  destruct s as [|d s]; simpl; [done|].
  destruct (rstrip_by p s); [destruct (p d)|]; intros; simplify_eq; eauto.
Qed.

Lemma strip_by_idemp p s : strip_by p (strip_by p s) = strip_by p s.
Proof.
  unfold strip_by. pose proof (lstrip_by_head p s) as Hh.
  destruct (rstrip_by p (lstrip_by p s)) as [|c t] eqn:E; [done|].
  destruct (rstrip_by_head _ _ _ _ E) as [t' Ht]. rewrite Ht in Hh.
  simpl (lstrip_by _ _). rewrite Hh, <- E. apply rstrip_by_idemp.
Qed.

Lemma rstrip_by_nil_all p s : rstrip_by p s = EmptyString -> sall p s = true.
Proof.
  induction s as [|c s IH]; simpl; [done|].
  destruct (rstrip_by p s); [|done]. destruct (p c); [|done]. by rewrite IH.
Qed.

(** ** Characters *)

Lemma byte_of_chr z : 0 <= z < 256 -> byte_of (chr z) = z.
Proof.
  intros Hz. unfold byte_of, chr. rewrite N_ascii_embedding; [|lia]. lia.
Qed.

Lemma chr_byte_of c : chr (byte_of c) = c.
Proof. unfold byte_of, chr. rewrite N2Z.id. apply ascii_N_embedding. Qed.

Lemma byte_of_bound c : 0 <= byte_of c < 256.
Proof. unfold byte_of. pose proof (N_ascii_bounded c). lia. Qed.

Lemma in_range_spec lo hi c : in_range lo hi c = true <-> lo <= byte_of c <= hi.
Proof. unfold in_range. rewrite andb_true_iff, !Z.leb_le. done. Qed.

Lemma in_range_false lo hi c : in_range lo hi c = false <-> byte_of c < lo \/ hi < byte_of c.
Proof. unfold in_range. rewrite andb_false_iff, !Z.leb_gt. lia. Qed.

(** A digit is in none of the other ASCII classes. *)
Lemma is_digit_not_space c : is_digit c = true -> is_space c = false.
Proof.
  unfold is_digit, is_space. rewrite in_range_spec, orb_false_iff, !in_range_false. lia.
Qed.
#[export] Hint Resolve is_digit_not_space : hub.

(** ** The string order is total *)

Lemma sleb_total a b : sleb a b = true \/ sleb b a = true.
Proof.
  unfold sleb. rewrite (String.compare_antisym b a).
  destruct (String.compare a b); simpl; [by left|by left|by right].
Qed.

Lemma sleb_refl a : sleb a a = true.
Proof. by destruct (sleb_total a a). Qed.

Lemma sleb_trans a b c : sleb a b = true -> sleb b c = true -> sleb a c = true.
Proof.
  revert b c. induction a as [|x a IH]; intros [|y b] [|z c]; try done.
  unfold sleb. cbn [String.compare]. intros H1 H2.
  destruct (Ascii.compare x y) eqn:E1; [| |done]; destruct (Ascii.compare y z) eqn:E2; try done.
  - apply Ascii.compare_eq_iff in E1 as ->, E2 as ->.
    unfold Ascii.compare. rewrite N.compare_refl. by apply (IH b c).
  - apply Ascii.compare_eq_iff in E1 as ->. by rewrite E2.
  - apply Ascii.compare_eq_iff in E2 as ->. by rewrite E1.
  - unfold Ascii.compare in *. apply N.compare_lt_iff in E1, E2.
    assert (N.compare (N_of_ascii x) (N_of_ascii z) = Lt) as ->; [|done].
    apply N.compare_lt_iff. by etransitivity.
Qed.

Lemma sltb_sleb a b : sltb a b = negb (sleb b a).
Proof. unfold sltb, sleb. rewrite (String.compare_antisym b a). by destruct (String.compare a b). Qed.

(** Joining and splitting at a character. *)
Lemma srev_app_twice s acc acc' : srev_app (srev_app s acc) acc' = srev_app acc (s +:+ acc').
Proof. revert acc. induction s as [|c s IH]; intros acc; simpl; [done|]. by rewrite IH. Qed.

Lemma srev_srev s : srev (srev s) = s.
Proof. unfold srev. rewrite srev_app_twice. simpl. apply append_nil_r. Qed.

Lemma sall_join p sep l : sall p sep = true -> Forall (fun x => sall p x = true) l -> sall p (join sep l) = true.
Proof.
  intros Hs. induction 1 as [|x l Hx Hl IH]; [done|]. destruct l as [|y l]; [done|].
  change (join sep (x :: y :: l)) with (x +:+ (sep +:+ join sep (y :: l))). by rewrite !sall_app, Hx, Hs, IH.
Qed.

Lemma srev_app_eq s acc : srev_app s acc = srev s +:+ acc.
Proof. unfold srev. revert acc. induction s as [|c s IH]; intros acc; [done|]. cbn [srev_app]. by rewrite (IH (String c acc)), (IH (String c "")), append_assoc. Qed.

Lemma prefix_nil s : String.prefix "" s = true.
Proof. by destruct s. Qed.

Lemma prefix_char c d s : String.prefix (String c "") (String d s) = is_char c d.
Proof.
  cbn [String.prefix]. rewrite prefix_nil. unfold is_char.
  destruct (ascii_dec c d) as [->|Hne]; [by rewrite Ascii.eqb_refl|by apply Ascii.eqb_neq in Hne as ->].
Qed.

Abbreviation char_free c := (sall (fun d => negb (is_char c d))).

Lemma split_go_free c p s cur : char_free c p = true ->
  split_go (String c "") O cur (p +:+ s) = split_go (String c "") O (srev_app p cur) s.
Proof.
  revert cur. induction p as [|d p IH]; intros cur Hp; [done|]. cbn in Hp. apply andb_prop in Hp as [Hd%negb_true_iff Hp].
  change (String d p +:+ s) with (String d (p +:+ s)). cbn [split_go]. rewrite prefix_char, Hd. by apply IH.
Qed.

Lemma split_join c l : l <> [] -> Forall (fun p => char_free c p = true) l -> split (String c "") (join (String c "") l) = l.
Proof.
  unfold split. intros Hne Hl. induction Hl as [|p l Hp Hl IH]; [done|]. destruct l as [|p' l].
  - cbn [join]. rewrite <- (append_nil_r p) at 1. rewrite split_go_free by done. cbn [split_go].
    change (srev_app p "") with (srev p). by rewrite srev_srev.
  - change (join (String c "") (p :: p' :: l)) with (p +:+ String c (join (String c "") (p' :: l))).
    rewrite split_go_free by done. cbn [split_go]. rewrite prefix_char. unfold is_char. rewrite Ascii.eqb_refl.
    cbn [String.length Nat.sub]. change (srev_app p "") with (srev p). rewrite srev_srev. f_equal. by apply IH.
Qed.

Lemma contains_free c s : char_free c s = true -> contains (String c "") s = false.
Proof.
  induction s as [|d s IH]; intros Hs; [done|]. cbn in Hs. apply andb_prop in Hs as [Hd%negb_true_iff Hs]. cbn [contains].
  rewrite prefix_char, Hd. by apply IH.
Qed.

Lemma cut_free c s : char_free c s = true -> cut (String c "") s = None.
Proof.
  induction s as [|d s IH]; intros Hs; [done|]. cbn in Hs. apply andb_prop in Hs as [Hd%negb_true_iff Hs]. cbn [cut].
  by rewrite prefix_char, Hd, IH.
Qed.
