(* ===== verification/PyNum.v ===== *)
(** * Python numbers and their texts

    Integers are [Z].  Floats are IEEE binary64 numbers, with the Standard Library's
    [spec_float] ([SpecFloat]): [float(text)] rounds the exact decimal value to nearest
    even, [int(x)] truncates, [repr] prints the shortest decimal that reads back.
    Texts of integers come with the round trip [int(str(n)) == n]. *)

From Stdlib Require Export Floats.SpecFloat.
From S2P Require Import Prelude.

(** ** Decimal texts of integers *)

Fixpoint digits_go (fuel : nat) (n : Z) (acc : string) : string :=
  match fuel with
  | O => acc
  | S f => let acc' := String (chr (48 + n mod 10)) acc in
           if n <? 10 then acc' else digits_go f (n / 10) acc'
  end.

(** Decimal digits of [n >= 0]; one step per digit, so [log2 n + 1] steps are enough. *)
Definition nat_str (n : Z) : string := digits_go (S (Z.to_nat (Z.log2 n))) n EmptyString.

(** [str(n)]. *)
Definition int_str (n : Z) : string :=
  if n <? 0 then String "-"%char (nat_str (- n)) else nat_str n.

Fixpoint zeros (n : nat) : string :=
  match n with O => EmptyString | S n' => String "0"%char (zeros n') end.

(** [f"{n:0wd}"] for [n >= 0]. *)
Definition pad_int (w : nat) (n : Z) : string :=
  let s := nat_str n in zeros (w - String.length s) +:+ s.

Fixpoint dec_val (acc : Z) (s : string) : Z :=
  match s with EmptyString => acc | String c s' => dec_val (acc * 10 + digit_val c) s' end.

(** The digit groups Python accepts: digits with single underscores between them. *)
Fixpoint digit_groups (prev_digit : bool) (s : string) : option string :=
  match s with
  | EmptyString => if prev_digit then Some EmptyString else None
  | String c s' =>
      if is_digit c then option_map (String c) (digit_groups true s')
      else if Ascii.eqb c "_"%char && prev_digit
           then match s' with
                | String d _ => if is_digit d then digit_groups false s' else None
                | EmptyString => None
                end
           else None
  end.

(** CPython refuses to convert more digits than this. *)
Definition max_str_digits : nat := 4300.

Definition split_sign (s : string) : bool * string :=
  match s with
  | String c s' => if Ascii.eqb c "-"%char then (true, s')
                   else if Ascii.eqb c "+"%char then (false, s') else (false, s)
  | EmptyString => (false, s)
  end.

(** [int(text)] in base 10; [None] is a [ValueError]. *)
Definition int_of_str (text : string) : option Z :=
  let '(neg, body) := split_sign (strip text) in
  match digit_groups false body with
  | Some ds => if (max_str_digits <? String.length ds)%nat then None
               else let n := dec_val 0 ds in Some (if neg then - n else n)
  | None => None
  end.

(** ** binary64 *)

Definition prec : Z := 53.
Definition emax : Z := 1024.

(** Correctly rounded [m * 2^e]. *)
Definition f_make (m e : Z) : spec_float := binary_normalize prec emax m e false.
Definition f_of_Z (n : Z) : spec_float := f_make n 0.

(** Correctly rounded [num / den] for positive operands, with a sign. *)
Definition f_ratio (neg : bool) (num den : positive) : spec_float :=
  let '(q, e, l) := SFdiv_core_binary prec emax (Zpos num) 0 (Zpos den) 0 in
  binary_round_aux prec emax neg q e l.

(** Correctly rounded [± m * 10^e].  Outside the tested decimal magnitudes the result
    is an infinity or a zero whatever the digits are. *)
Definition f_decimal (neg : bool) (m e : Z) : spec_float :=
  match m with
  | Zpos p =>
      let mag := Z.of_nat (String.length (nat_str m)) + e in
      if 310 <? mag then S754_infinity neg
      else if mag <? -330 then S754_zero neg
      else if 0 <=? e then f_make (if neg then - (m * 10 ^ e) else m * 10 ^ e) 0
      else f_ratio neg p (Z.to_pos (10 ^ (- e)))
  | _ => S754_zero neg
  end.

(** The value of a finite float as a fraction with a power of two: [m * 2^e]. *)
Definition f_parts (f : spec_float) : option (Z * Z) :=
  match f with
  | S754_zero _ => Some (0, 0)
  | S754_finite s m e => Some (if s then Zneg m else Zpos m, e)
  | _ => None
  end.

(** [int(f)]: truncation toward zero; infinities and NaN raise. *)
Definition f_trunc (f : spec_float) : option Z :=
  match f_parts f with
  | Some (m, e) => Some (if 0 <=? e then m * 2 ^ e else Z.quot m (2 ^ (- e)))
  | None => None
  end.

Definition f_mul : spec_float -> spec_float -> spec_float := SFmul prec emax.
Definition f_div : spec_float -> spec_float -> spec_float := SFdiv prec emax.
Definition f_ltb (a b : spec_float) : bool := SFltb a b.
Definition f_eqb (a b : spec_float) : bool := SFeqb a b.

Definition f_is_zero (f : spec_float) : bool :=
  match f with S754_zero _ => true | _ => false end.

(** *** [float(text)] *)

Definition exponent_of (s : string) : option Z :=
  match s with
  | EmptyString => Some 0
  | String c s' =>
      if Ascii.eqb (lower_char c) "e"%char then
        let '(neg, body) := split_sign s' in
        match digit_groups false body with
        | Some ds => let n := dec_val 0 ds in Some (if neg then - n else n)
        | None => None
        end
      else None
  end.

Definition is_digit_us (c : ascii) : bool := is_digit c || Ascii.eqb c "_"%char.

(** An optional digit group: [Some ""] when it is absent. *)
Definition opt_digits (s : string) : option string :=
  match s with EmptyString => Some EmptyString | _ => digit_groups false s end.

Definition float_of_str (text : string) : option spec_float :=
  let '(neg, body) := split_sign (strip text) in
  let low := lower body in
  if String.eqb low "inf" || String.eqb low "infinity" then Some (S754_infinity neg)
  else if String.eqb low "nan" then Some S754_nan
  else
    let '(ip, rest) := span is_digit_us body in
    let '(fp, ex) := match rest with
                     | String "."%char r => span is_digit_us r
                     | _ => (EmptyString, rest)
                     end in
    match opt_digits ip, opt_digits fp, exponent_of ex with
    | Some di, Some df, Some e =>
        if String.eqb di EmptyString && String.eqb df EmptyString then None
        else Some (f_decimal neg (dec_val 0 (di +:+ df)) (e - Z.of_nat (String.length df)))
    | _, _, _ => None
    end.

(** *** [repr(f)] *)

(** [num / den] rounded half to even. *)
Definition div_half_even (num den : Z) : Z :=
  let q := num / den in
  let r := num mod den in
  if 2 * r <? den then q
  else if den <? 2 * r then q + 1
  else if Z.even q then q else q + 1.

(** The decimal point position [k]: [10^(k-1) <= num/den < 10^k]. *)
Fixpoint dec_point_small (fuel : nat) (num den k : Z) : Z :=
  match fuel with
  | O => k
  | S f => if den <=? num * 10 then k else dec_point_small f (num * 10) den (k - 1)
  end.
Definition dec_point (num den : Z) : Z :=
  if den <=? num then Z.of_nat (String.length (nat_str (num / den)))
  else dec_point_small 400 num den 0.

Definition scale10 (num den e : Z) : Z * Z :=
  if 0 <=? e then (num * 10 ^ e, den) else (num, den * 10 ^ (- e)).

(** The first [n] for which the [n]-digit rounding reads back as [f]. *)
Fixpoint shortest_go (tries : nat) (n : Z) (f : spec_float) (num den k : Z) : Z * Z :=
  let '(a, b) := scale10 num den (n - k) in
  let q := div_half_even a b in
  match tries with
  | O => (q, k - n)
  | S t => if f_eqb (f_decimal false q (k - n)) f then (q, k - n)
           else shortest_go t (n + 1) f num den k
  end.

Definition strip_zeros (s : string) : string := rstrip_by (is_char "0"%char) s.

Definition format_repr (neg : bool) (digits : string) (point : Z) : string :=
  let len := Z.of_nat (String.length digits) in
  let body :=
    if (point <=? -4) || (16 <? point) then
      let ex := point - 1 in
      let es := pad_int 2 (Z.abs ex) in
      stake 1 digits +:+ (if 1 <? len then "." +:+ sdrop 1 digits else "")
        +:+ "e" +:+ (if ex <? 0 then "-" else "+") +:+ es
    else if point <=? 0 then "0." +:+ zeros (Z.to_nat (- point)) +:+ digits
    else if len <=? point then digits +:+ zeros (Z.to_nat (point - len)) +:+ ".0"
    else stake (Z.to_nat point) digits +:+ "." +:+ sdrop (Z.to_nat point) digits in
  if neg then "-" +:+ body else body.

Definition f_repr (f : spec_float) : string :=
  match f with
  | S754_nan => "nan"
  | S754_infinity s => if s then "-inf" else "inf"
  | S754_zero s => if s then "-0.0" else "0.0"
  | S754_finite s m e =>
      let '(num, den) := if 0 <=? e then (Zpos m * 2 ^ e, 1) else (Zpos m, 2 ^ (- e)) in
      let k := dec_point num den in
      let '(q, ex) := shortest_go 16 1 (S754_finite false m e) num den k in
      let ds := nat_str q in
      format_repr s (strip_zeros ds) (Z.of_nat (String.length ds) + ex)
  end.

(** [f"{f:.nf}"] for a finite [f]. *)
Definition f_fixed (n : nat) (f : spec_float) : string :=
  match f_parts f with
  | None => f_repr f
  | Some (m, e) =>
      let '(a, b) := scale10 (if 0 <=? e then Z.abs m * 2 ^ e else Z.abs m)
                             (if 0 <=? e then 1 else 2 ^ (- e)) (Z.of_nat n) in
      let q := div_half_even a b in
      let neg := match f with S754_zero s => s | S754_finite s _ _ => s | _ => false end in
      (if neg then "-" else "") +:+ nat_str (q / 10 ^ Z.of_nat n)
        +:+ match n with O => "" | _ => "." +:+ pad_int n (q mod 10 ^ Z.of_nat n) end
  end.

#[export] Instance spec_float_eq_dec : EqDecision spec_float.
Proof. solve_decision. Defined.

(** ** [int(str(n)) == n] *)

Lemma digit_chr n : 0 <= n < 10 -> is_digit (chr (48 + n)) = true /\ digit_val (chr (48 + n)) = n.
Proof.
  intros H. unfold is_digit, digit_val.
  rewrite in_range_spec, byte_of_chr by lia. lia.
Qed.

Lemma pow10_S f : 10 ^ Z.of_nat (S f) = 10 * 10 ^ Z.of_nat f.
Proof. rewrite Nat2Z.inj_succ, Z.pow_succ_r; lia. Qed.

Lemma dec_val_digits_go fuel n acc :
  0 <= n < 10 ^ Z.of_nat fuel -> dec_val 0 (digits_go fuel n acc) = dec_val n acc.
Proof.
  revert n acc. induction fuel as [|f IH]; intros n acc H.
  - simpl in *. f_equal. lia.
  - rewrite pow10_S in H. cbn [digits_go].
    destruct (digit_chr (n mod 10)) as [_ Hv]; [apply Z.mod_pos_bound; lia|].
    destruct (n <? 10) eqn:E; to_prop.
    + cbn [dec_val]. rewrite Hv, Z.mod_small by lia. done.
    + rewrite IH.
      * cbn [dec_val]. rewrite Hv. f_equal. pose proof (Z.div_mod n 10). lia.
      * split; [apply Z.div_pos; lia|]. apply Z.div_lt_upper_bound; lia.
Qed.

Lemma digits_go_all fuel n acc :
  0 <= n -> sall is_digit acc = true -> sall is_digit (digits_go fuel n acc) = true.
Proof.
  revert n acc. induction fuel as [|f IH]; intros n acc Hn Ha; [done|]. cbn [digits_go].
  assert (sall is_digit (String (chr (48 + n mod 10)) acc) = true) as H.
  { simpl. rewrite Ha, andb_true_r. apply digit_chr. apply Z.mod_pos_bound. lia. }
  destruct (n <? 10); [done|]. apply IH; [apply Z.div_pos; lia|done].
Qed.

Lemma digits_go_length fuel n acc k :
  0 <= n < 10 ^ Z.of_nat k -> (0 < k)%nat ->
  (String.length (digits_go fuel n acc) <= k + String.length acc)%nat.
Proof.
  revert n acc k. induction fuel as [|f IH]; intros n acc k Hn Hk; [simpl; lia|].
  cbn [digits_go]. destruct (n <? 10) eqn:E; [simpl; lia|]. to_prop.
  destruct k as [|[|k]]; [lia|simpl in Hn; lia|].
  rewrite pow10_S in Hn. etransitivity.
  - apply (IH _ _ (S k)); [|lia]. split; [apply Z.div_pos; lia|].
    apply Z.div_lt_upper_bound; lia.
  - simpl. lia.
Qed.

Lemma digits_go_ne fuel n acc : (0 < fuel)%nat -> digits_go fuel n acc <> EmptyString.
Proof.
  assert (forall fuel n acc, acc <> EmptyString -> digits_go fuel n acc <> EmptyString) as H.
  { induction fuel0 as [|f IH]; intros m a Ha; [done|]. cbn [digits_go].
    destruct (m <? 10); [done|]. by apply IH. }
  destruct fuel as [|f]; [lia|]. intros _. cbn [digits_go]. destruct (n <? 10); [done|]. by apply H.
Qed.

Lemma log2_fuel n : 0 <= n -> n < 10 ^ Z.of_nat (S (Z.to_nat (Z.log2 n))).
Proof.
  intros Hn. destruct (Z.eq_dec n 0) as [->|Hz]; [reflexivity|].
  apply Z.lt_le_trans with (2 ^ Z.succ (Z.log2 n)); [apply Z.log2_spec; lia|].
  rewrite Nat2Z.inj_succ, Z2Nat.id by apply Z.log2_nonneg.
  apply Z.pow_le_mono_l. pose proof (Z.log2_nonneg n). lia.
Qed.

Lemma dec_val_nat_str n : 0 <= n -> dec_val 0 (nat_str n) = n.
Proof. intros Hn. unfold nat_str. rewrite dec_val_digits_go; [done|]. auto using log2_fuel. Qed.

Lemma nat_str_digits n : 0 <= n -> sall is_digit (nat_str n) = true.
Proof. intros. by apply digits_go_all. Qed.

Lemma nat_str_ne n : nat_str n <> EmptyString.
Proof. apply digits_go_ne. lia. Qed.

Lemma nat_str_length n k :
  0 <= n < 10 ^ Z.of_nat k -> (0 < k)%nat -> (String.length (nat_str n) <= k)%nat.
Proof.
  intros Hn Hk. unfold nat_str.
  pose proof (digits_go_length (S (Z.to_nat (Z.log2 n))) n EmptyString k Hn Hk). simpl in *. lia.
Qed.

Lemma digit_groups_digits b s :
  sall is_digit s = true -> b = true \/ s <> EmptyString -> digit_groups b s = Some s.
Proof.
  revert b. induction s as [|c s IH]; intros b Hs Hb.
  - destruct b; [done|]. by destruct Hb.
  - simpl in *. apply andb_prop in Hs as [-> Hs]. rewrite (IH true); auto.
Qed.

Lemma digits_no_space s : sall is_digit s = true -> sall (fun c => negb (is_space c)) s = true.
Proof. apply sall_impl. intros c Hc. by rewrite is_digit_not_space. Qed.

Lemma split_sign_digits s : sall is_digit s = true -> split_sign s = (false, s).
Proof.
  destruct s as [|c s]; [done|]. simpl. intros [Hc _]%andb_prop.
  destruct (Ascii.eqb_spec c "-") as [->|_]; [discriminate|].
  by destruct (Ascii.eqb_spec c "+") as [->|_]; [discriminate|].
Qed.

Lemma int_of_str_digits s :
  sall is_digit s = true -> s <> EmptyString -> (String.length s <= max_str_digits)%nat ->
  int_of_str s = Some (dec_val 0 s).
Proof.
  intros Hs Hne Hl. unfold int_of_str, strip. rewrite strip_by_id by by apply digits_no_space.
  rewrite split_sign_digits, digit_groups_digits by auto.
  destruct (Nat.ltb_spec max_str_digits (String.length s)); [lia|done].
Qed.

Definition int_printable (n : Z) : Prop := Z.abs n < 10 ^ Z.of_nat max_str_digits.

Lemma max_str_digits_pos : (0 < max_str_digits)%nat.
Proof. apply Nat.ltb_lt. vm_compute. reflexivity. Qed.

Lemma strip_int_str n : strip (int_str n) = int_str n.
Proof.
  apply strip_by_id. unfold int_str. destruct (n <? 0) eqn:E; to_prop.
  - cbn [sall]. rewrite digits_no_space; [done|]. apply nat_str_digits. lia.
  - apply digits_no_space, nat_str_digits. lia.
Qed.

Lemma nat_str_length_max n :
  0 <= n -> int_printable n -> (max_str_digits <? String.length (nat_str n))%nat = false.
Proof.
  unfold int_printable. intros H0 Hn. rewrite Z.abs_eq in Hn by done.
  apply Nat.ltb_ge, nat_str_length; [done|apply max_str_digits_pos].
Qed.

Lemma digit_groups_nat_str n : 0 <= n -> digit_groups false (nat_str n) = Some (nat_str n).
Proof. intros H. apply digit_groups_digits; [by apply nat_str_digits|right; apply nat_str_ne]. Qed.

Lemma int_of_str_int_str n : int_printable n -> int_of_str (int_str n) = Some n.
Proof.
  intros Hn. unfold int_of_str. rewrite strip_int_str.
  unfold int_str. destruct (n <? 0) eqn:E; to_prop.
  - assert (int_printable (- n)) by (unfold int_printable in *; by rewrite Z.abs_opp).
    change (split_sign (String "-" (nat_str (- n)))) with (true, nat_str (- n)). cbv beta iota.
    rewrite digit_groups_nat_str, nat_str_length_max, dec_val_nat_str by (lia || done).
    f_equal. lia.
  - rewrite split_sign_digits by by apply nat_str_digits.
    by rewrite digit_groups_nat_str, nat_str_length_max, dec_val_nat_str.
Qed.

(** The first digit of a positive number is not zero. *)
Lemma digits_go_head fuel n acc :
  0 < n < 10 ^ Z.of_nat fuel ->
  exists c t, digits_go fuel n acc = String c t /\ byte_of c <> 48.
Proof.
  revert n acc. induction fuel as [|f IH]; intros n acc H; [simpl in H; lia|].
  rewrite pow10_S in H. cbn [digits_go]. destruct (n <? 10) eqn:E; to_prop.
  - eexists _, _. split; [done|]. rewrite Z.mod_small by lia. rewrite byte_of_chr; lia.
  - apply IH. split; [apply Z.div_str_pos; lia|]. apply Z.div_lt_upper_bound; lia.
Qed.

Lemma nat_str_head n : 0 < n -> exists c t, nat_str n = String c t /\ byte_of c <> 48.
Proof. intros H. apply digits_go_head. split; [done|]. apply log2_fuel. lia. Qed.

(** ** The magnitude of a float

    A rounded result has at most 53 significant bits and an exponent of at most 971, so
    [int(float(...))] always has a text. *)

Lemma shr_1_half r : 0 <= shr_m r -> shr_m (shr_1 r) = shr_m r / 2.
Proof.
  destruct r as [m rr s]; simpl. destruct m as [|[p|p|]|p]; intros H; try reflexivity; [| |lia];
    cbn [shr_1 shr_m]; Z.to_euclidean_division_equations; lia.
Qed.

Lemma iter_shr_1 p r : 0 <= shr_m r -> shr_m (SpecFloat.iter_pos shr_1 p r) = shr_m r / 2 ^ Zpos p.
Proof.
  revert r. induction p as [p IH|p IH|]; intros r H; cbn [SpecFloat.iter_pos].
  - assert (0 <= shr_m (shr_1 r)) as H1 by (rewrite shr_1_half by done; apply Z.div_pos; lia).
    rewrite IH by (rewrite IH by done; apply Z.div_pos; lia). rewrite IH, shr_1_half by done.
    rewrite !Z.div_div by lia. f_equal. rewrite Pos2Z.inj_xI, Z.pow_add_r, Z.pow_mul_r by lia.
    rewrite <- Z.pow_mul_r by lia. replace (2 * Zpos p) with (Zpos p + Zpos p) by lia.
    rewrite Z.pow_add_r by lia. lia.
  - rewrite IH by (rewrite IH by done; apply Z.div_pos; lia). rewrite IH by done.
    rewrite Z.div_div by lia. f_equal. rewrite <- Z.pow_add_r by lia. f_equal. lia.
  - by rewrite shr_1_half.
Qed.

Lemma digits2_bound m : 0 <= m -> m < 2 ^ Zdigits2 m.
Proof.
  destruct m as [|p|p]; simpl; [lia| |lia]. intros _.
  assert (forall p, Zpos p < 2 ^ Zpos (digits2_pos p)) as H; [|apply H].
  clear p. induction p as [p IH|p IH|]; cbn [digits2_pos]; [| |reflexivity];
    rewrite Pos2Z.inj_succ, Z.pow_succ_r by lia; lia.
Qed.

(** Rounding to the format leaves at most 53 bits. *)
Lemma shr_fexp_bound m e l :
  0 <= m -> 0 <= shr_m (shr_fexp prec emax m e l).1 < 2 ^ 53.
Proof.
  intros Hm. unfold shr_fexp, shr. pose proof (digits2_bound m Hm) as Hd.
  assert (shr_m (shr_record_of_loc m l) = m) as Hr by (by destruct l as [|[]]).
  set (n := fexp prec emax (Zdigits2 m + e) - e).
  assert (Zdigits2 m - 53 <= n) as Hn by (unfold n, fexp, prec; lia).
  destruct n as [|p|p] eqn:En; cbn [fst]; rewrite ?Hr.
  - split; [lia|]. apply Z.lt_le_trans with (2 ^ Zdigits2 m); [lia|]. apply Z.pow_le_mono_r; lia.
  - rewrite iter_shr_1, Hr by (rewrite Hr; lia). split; [apply Z.div_pos; lia|].
    apply Z.div_lt_upper_bound; [lia|]. rewrite <- Z.pow_add_r by lia.
    apply Z.lt_le_trans with (2 ^ Zdigits2 m); [lia|]. apply Z.pow_le_mono_r; lia.
  - split; [lia|]. apply Z.lt_le_trans with (2 ^ Zdigits2 m); [lia|]. apply Z.pow_le_mono_r; lia.
Qed.

Definition f_bounded (f : spec_float) : Prop :=
  match f with S754_finite _ m e => Zpos m < 2 ^ 53 /\ e <= 971 | _ => True end.

Lemma round_aux_bounded s m e l : 0 <= m -> f_bounded (binary_round_aux prec emax s m e l).
Proof.
  intros Hm. unfold binary_round_aux.
  pose proof (shr_fexp_bound m e l Hm) as H1. destruct (shr_fexp _ _ m e l) as [mrs1 e1]. simpl in H1.
  set (m2 := round_nearest_even _ _).
  assert (0 <= m2) as Hm2.
  { unfold m2, round_nearest_even. repeat case_match; lia. }
  pose proof (shr_fexp_bound m2 e1 loc_Exact Hm2) as H2.
  destruct (shr_fexp _ _ m2 e1 loc_Exact) as [mrs2 e2]. simpl in H2.
  destruct (shr_m mrs2) as [|p|p]; try done.
  destruct (Zle_bool e2 (emax - prec)) eqn:E; [|done]. apply Z.leb_le in E.
  unfold emax, prec in E. simpl. lia.
Qed.

Lemma f_make_bounded m e : f_bounded (f_make m e).
Proof.
  unfold f_make, binary_normalize, binary_round.
  destruct m; [done| |]; destruct (shl_align _ _ _); by apply round_aux_bounded.
Qed.

Lemma div_core_nonneg num den :
  0 <= (SFdiv_core_binary prec emax (Zpos num) 0 (Zpos den) 0).1.1.
Proof.
  unfold SFdiv_core_binary. cbv zeta.
  match goal with |- context [Z.div_eucl ?m (Zpos den)] => assert (0 <= m) as Hm; [|revert Hm; generalize m as m'] end.
  - case_match; [lia| |lia]. apply Z.shiftl_nonneg. lia.
  - intros m' Hm. pose proof (Z.div_pos m' (Zpos den) Hm eq_refl) as Hq. unfold Z.div in Hq.
    by destruct (Z.div_eucl m' (Zpos den)).
Qed.

Lemma f_decimal_bounded neg m e : f_bounded (f_decimal neg m e).
Proof.
  unfold f_decimal. destruct m as [|p|p]; try done. cbv zeta. do 2 (case_match; [done|]).
  destruct (0 <=? e).
  - apply f_make_bounded.
  - unfold f_ratio. pose proof (div_core_nonneg p (Z.to_pos (10 ^ (- e)))) as H'.
    destruct (SFdiv_core_binary _ _ _ _ _ _) as [[q e'] l]. by apply round_aux_bounded.
Qed.

Lemma float_of_str_bounded s f : float_of_str s = Some f -> f_bounded f.
Proof.
  unfold float_of_str. intros H. repeat (case_match; simplify_eq/=; try done).
  all: apply f_decimal_bounded.
Qed.

Lemma f_trunc_bound f n : f_bounded f -> f_trunc f = Some n -> Z.abs n < 2 ^ 1024.
Proof.
  unfold f_trunc, f_parts. destruct f as [| | |s m e]; try done; intros Hb H.
  { injection H as <-. reflexivity. }
  destruct Hb as [Hm He]. set (z := if s then Zneg m else Zpos m) in H.
  assert (Z.abs z < 2 ^ 53) as Hz by (unfold z; destruct s; lia).
  destruct (0 <=? e) eqn:E; to_prop; injection H as <-.
  - rewrite Z.abs_mul, (Z.abs_eq (2 ^ e)) by lia.
    change (2 ^ 1024) with (2 ^ 53 * 2 ^ 971).
    assert (2 ^ e <= 2 ^ 971) by (apply Z.pow_le_mono_r; lia).
    assert (0 < 2 ^ e) by lia. nia.
  - assert (0 < 2 ^ (- e)) by lia.
    rewrite <- Z.quot_abs by lia. rewrite (Z.abs_eq (2 ^ (- e))) by lia.
    apply Z.le_lt_trans with (Z.abs z); [|assert (2 ^ 53 < 2 ^ 1024) by reflexivity; lia].
    rewrite Z.quot_div_nonneg by lia. apply Z.div_le_upper_bound; nia.
Qed.

Lemma small_printable n : Z.abs n < 2 ^ 1024 -> int_printable n.
Proof.
  unfold int_printable. intros H. apply (Z.lt_le_trans _ _ _ H).
  apply Z.le_trans with (10 ^ 400); [by apply Z.leb_le; vm_compute|].
  apply Z.pow_le_mono_r; [lia|]. apply Z.leb_le. vm_compute. reflexivity.
Qed.
