(* ===== verification/PyVal.v ===== *)
(** * Python values

    The dynamic values the Hub handles: what [json.loads] returns and what the handlers
    build and store.  A dict is its items in insertion order; well-formed values have no
    duplicate key.  Truth value, [str], [repr], [==], the dict operations and
    [isinstance] tests are those of Python. *)

From S2P Require Import Prelude PyNum.

Inductive pyval : Type :=
| PNone
| PBool (b : bool)
| PInt (z : Z)
| PFloat (f : spec_float)
| PStr (s : string)
| PList (l : list pyval)
| PDict (d : list (string * pyval)).

Abbreviation dict := (list (string * pyval)).

Section Induction.
Context (P : pyval -> Prop).
Hypothesis (HNone : P PNone) (HBool : forall b, P (PBool b)) (HInt : forall z, P (PInt z)).
Hypothesis (HFloat : forall f, P (PFloat f)) (HStr : forall s, P (PStr s)).
Hypothesis HList : forall l, Forall P l -> P (PList l).
Hypothesis HDict : forall d, Forall (fun kv => P kv.2) d -> P (PDict d).

Fixpoint pyval_ind' (v : pyval) : P v :=
  match v with
  | PNone => HNone
  | PBool b => HBool b
  | PInt z => HInt z
  | PFloat f => HFloat f
  | PStr s => HStr s
  | PList l =>
      HList l ((fix go (l : list pyval) : Forall P l :=
        match l with
        | [] => List.Forall_nil _
        | x :: l' => @List.Forall_cons _ P x l' (pyval_ind' x) (go l')
        end) l)
  | PDict d =>
      HDict d ((fix go (d : dict) : Forall (fun kv => P kv.2) d :=
        match d with
        | [] => List.Forall_nil _
        | kv :: d' => @List.Forall_cons _ (fun kv => P kv.2) kv d' (pyval_ind' kv.2) (go d')
        end) d)
  end.
End Induction.

(** Structural equality, used only to compare values in statements and witnesses. *)
Fixpoint same (v w : pyval) : bool :=
  match v, w with
  | PNone, PNone => true
  | PBool a, PBool b => Bool.eqb a b
  | PInt a, PInt b => a =? b
  | PFloat a, PFloat b => bool_decide (a = b)
  | PStr a, PStr b => String.eqb a b
  | PList l, PList m =>
      (fix go (l m : list pyval) : bool :=
         match l, m with
         | [], [] => true
         | x :: l', y :: m' => same x y && go l' m'
         | _, _ => false
         end) l m
  | PDict d, PDict e =>
      (fix go (d e : dict) : bool :=
         match d, e with
         | [], [] => true
         | (k, x) :: d', (k', y) :: e' => String.eqb k k' && same x y && go d' e'
         | _, _ => false
         end) d e
  | _, _ => false
  end.

Lemma same_spec v w : same v w = true <-> v = w.
Proof.
  revert w. induction v as [| | | | |l IH|d IH] using pyval_ind'; intros w; destruct w; simpl;
    try (split; [done|congruence]).
  - rewrite eqb_true_iff. split; congruence.
  - rewrite Z.eqb_eq. split; congruence.
  - rewrite bool_decide_eq_true. split; congruence.
  - rewrite String.eqb_eq. split; congruence.
  - revert l0. induction IH as [|x l Hx _ IHl]; intros [|y m]; simpl; try (split; [done|congruence]).
    rewrite andb_true_iff, Hx, IHl. split; [intros [-> [= ->]]; done|intros [= -> ->]; done].
  - revert d0. induction IH as [|[k x] d Hx _ IHd]; intros [|[k' y] e]; simpl;
      try (split; [done|congruence]).
    simpl in Hx. rewrite !andb_true_iff, String.eqb_eq, Hx, IHd.
    split; [intros [[-> ->] [= ->]]; done|intros [= -> -> ->]; done].
Qed.

#[export] Instance pyval_eq_dec : EqDecision pyval.
Proof.
  intros v w. destruct (same v w) eqn:E; [left|right].
  - by apply same_spec.
  - intros H%same_spec. congruence.
Defined.

(** ** Dictionaries *)

Fixpoint dget (d : dict) (k : string) : option pyval :=
  match d with
  | [] => None
  | (k', v) :: d' => if String.eqb k k' then Some v else dget d' k
  end.

(** [d.get(k)] and [d.get(k, dflt)]. *)
Definition get (d : dict) (k : string) : pyval := default PNone (dget d k).
Definition get_or (d : dict) (k : string) (dflt : pyval) : pyval := default dflt (dget d k).
Definition has (d : dict) (k : string) : bool := match dget d k with Some _ => true | None => false end.

(** [d[k] = v]: in place when the key exists, at the end otherwise. *)
Fixpoint dset (k : string) (v : pyval) (d : dict) : dict :=
  match d with
  | [] => [(k, v)]
  | (k', v') :: d' => if String.eqb k k' then (k', v) :: d' else (k', v') :: dset k v d'
  end.

(** [d.pop(k, None)]. *)
Fixpoint ddel (k : string) (d : dict) : dict :=
  match d with
  | [] => []
  | (k', v') :: d' => if String.eqb k k' then d' else (k', v') :: ddel k d'
  end.

(** [d.update(e)] and [{**d, **e}]. *)
Definition dupdate (d e : dict) : dict := fold_left (fun acc kv => dset kv.1 kv.2 acc) e d.

(** A dict comprehension: later items win, at the position of the first. *)
Definition dict_of (items : dict) : dict := dupdate [] items.

Definition keys (d : dict) : list string := List.map fst d.

(** ** Type tests and truth *)

Definition is_dict (v : pyval) : bool := match v with PDict _ => true | _ => false end.
Definition is_list (v : pyval) : bool := match v with PList _ => true | _ => false end.
Definition is_str (v : pyval) : bool := match v with PStr _ => true | _ => false end.
Definition is_none (v : pyval) : bool := match v with PNone => true | _ => false end.

(** [v if isinstance(v, dict) else {}], [v if isinstance(v, list) else []]. *)
Definition dict_or_empty (v : pyval) : dict := match v with PDict d => d | _ => [] end.
Definition list_or_empty (v : pyval) : list pyval := match v with PList l => l | _ => [] end.

Definition truthy (v : pyval) : bool :=
  match v with
  | PNone => false
  | PBool b => b
  | PInt z => negb (z =? 0)
  | PFloat f => negb (f_is_zero f)
  | PStr s => nonempty s
  | PList l => match l with [] => false | _ => true end
  | PDict d => match d with [] => false | _ => true end
  end.

(** [a or b]. *)
Definition por (a b : pyval) : pyval := if truthy a then a else b.

(** [d.get(k1) or d.get(k2) or ...]: the first field that is true, or the last one. *)
Fixpoint first_of (d : dict) (ks : list string) : pyval :=
  match ks with
  | [] => PNone
  | [k] => get d k
  | k :: ks' => por (get d k) (first_of d ks')
  end.

Definition type_name (v : pyval) : string :=
  match v with
  | PNone => "NoneType" | PBool _ => "bool" | PInt _ => "int" | PFloat _ => "float"
  | PStr _ => "str" | PList _ => "list" | PDict _ => "dict"
  end.

(** [v.name] on a value whose type has no such attribute. *)
Definition attribute_error {A} (v : pyval) (name : string) : result A :=
  Err (Exn "AttributeError" ("'" +:+ type_name v +:+ "' object has no attribute '" +:+ name +:+ "'")).

(** [v.get(k)] on any value. *)
Definition vget (v : pyval) (k : string) : result pyval :=
  match v with PDict d => Ok (get d k) | _ => attribute_error v "get" end.

Definition vget_or (v : pyval) (k : string) (dflt : pyval) : result pyval :=
  match v with PDict d => Ok (get_or d k dflt) | _ => attribute_error v "get" end.

(** ** [str] and [repr] *)

Definition hex_digit (n : Z) : ascii := chr (if n <? 10 then 48 + n else 87 + n).
Definition hex2 (n : Z) : string := String (hex_digit (n / 16)) (String (hex_digit (n mod 16)) "").

Definition repr_char (quote : ascii) (c : ascii) : string :=
  let b := byte_of c in
  if Ascii.eqb c quote || (b =? 92) then String "\"%char (String c "")
  else if b =? 10 then "\n" else if b =? 13 then "\r" else if b =? 9 then "\t"
  else if (b <? 32) || (b =? 127) then "\x" +:+ hex2 b
  else String c "".

Fixpoint sconcat_map (f : ascii -> string) (s : string) : string :=
  match s with EmptyString => EmptyString | String c s' => f c +:+ sconcat_map f s' end.

Definition single_quote : ascii := chr 39.
Definition double_quote : ascii := chr 34.

(** [repr] of a string: single quotes unless it holds one and no double quote. *)
Definition repr_str (s : string) : string :=
  let q := if sexists (is_char single_quote) s && negb (sexists (is_char double_quote) s)
           then double_quote else single_quote in
  String q (sconcat_map (repr_char q) s +:+ String q "").

Fixpoint repr (v : pyval) : string :=
  match v with
  | PNone => "None"
  | PBool b => if b then "True" else "False"
  | PInt z => int_str z
  | PFloat f => f_repr f
  | PStr s => repr_str s
  | PList l => "[" +:+ join ", " (List.map repr l) +:+ "]"
  | PDict d => "{" +:+ join ", " (List.map (fun kv => repr_str kv.1 +:+ ": " +:+ repr kv.2) d) +:+ "}"
  end.

Definition py_str (v : pyval) : string := match v with PStr s => s | _ => repr v end.

(** ** Equality [==] *)

Definition f_eq_Z (f : spec_float) (n : Z) : bool :=
  match f_parts f with
  | Some (m, e) => if 0 <=? e then m * 2 ^ e =? n else m =? n * 2 ^ (- e)
  | None => false
  end.

Definition as_number (v : pyval) : option (Z + spec_float) :=
  match v with
  | PBool b => Some (inl (Z.b2z b))
  | PInt z => Some (inl z)
  | PFloat f => Some (inr f)
  | _ => None
  end.

Definition number_eq (a b : Z + spec_float) : bool :=
  match a, b with
  | inl x, inl y => x =? y
  | inl x, inr g => f_eq_Z g x
  | inr f, inl y => f_eq_Z f y
  | inr f, inr g => f_eqb f g
  end.

Fixpoint py_eq (a b : pyval) : bool :=
  match a, b with
  | PNone, PNone => true
  | PStr s, PStr t => String.eqb s t
  | PList l, PList m =>
      (fix go (l m : list pyval) : bool :=
         match l, m with
         | [], [] => true
         | x :: l', y :: m' => py_eq x y && go l' m'
         | _, _ => false
         end) l m
  | PDict d, PDict e =>
      (List.length d =? List.length e)%nat &&
      (fix go (d : dict) : bool :=
         match d with
         | [] => true
         | (k, x) :: d' =>
             match dget e k with Some y => py_eq x y | None => false end && go d'
         end) d
  | _, _ =>
      match as_number a, as_number b with
      | Some x, Some y => number_eq x y
      | _, _ => false
      end
  end.

(** [v in [a, b, ...]]. *)
Definition py_in (v : pyval) (l : list pyval) : bool := existsb (py_eq v) l.

(** [v == "text"]. *)
Definition is_text (v : pyval) (s : string) : bool := py_eq v (PStr s).

(** ** Dictionary lemmas *)

Lemma dget_dset_eq k v d : dget (dset k v d) k = Some v.
Proof.
  induction d as [|[k' v'] d IH]; simpl; [by rewrite String.eqb_refl|].
  destruct (String.eqb k k') eqn:E; simpl; rewrite E; [done|]. apply IH.
Qed.

Lemma dget_dset_ne k k' v d : k <> k' -> dget (dset k v d) k' = dget d k'.
Proof.
  intros Hne. induction d as [|[k0 v0] d IH]; simpl.
  - destruct (String.eqb_spec k' k); [congruence|done].
  - destruct (String.eqb_spec k k0) as [->|]; simpl.
    + destruct (String.eqb_spec k' k0); [congruence|done].
    + by rewrite IH.
Qed.

Lemma dget_dset k k' v d :
  dget (dset k v d) k' = if String.eqb k k' then Some v else dget d k'.
Proof.
  destruct (String.eqb_spec k k') as [->|]; [apply dget_dset_eq|by apply dget_dset_ne].
Qed.

Lemma get_dset_eq k v d : get (dset k v d) k = v.
Proof. unfold get. by rewrite dget_dset_eq. Qed.

Lemma get_dset_ne k k' v d : k <> k' -> get (dset k v d) k' = get d k'.
Proof. intros. unfold get. by rewrite dget_dset_ne. Qed.

Lemma keys_dset k v d :
  keys (dset k v d) = if has d k then keys d else keys d ++ [k].
Proof.
  unfold has. induction d as [|[k' v'] d IH]; simpl; [done|].
  destruct (String.eqb_spec k k') as [->|]; simpl; [done|]. rewrite IH. by destruct (dget d k).
Qed.

Lemma dget_None_keys d k : dget d k = None <-> ~ In k (keys d).
Proof.
  induction d as [|[k' v'] d IH]; simpl; [tauto|].
  destruct (String.eqb_spec k k') as [->|]; [|rewrite IH; intuition congruence].
  split; [done|]. intros []. by left.
Qed.

Definition nodup_keys (d : dict) : Prop := List.NoDup (keys d).

Lemma nodup_dset k v d : nodup_keys d -> nodup_keys (dset k v d).
Proof.
  unfold nodup_keys. rewrite keys_dset. unfold has. destruct (dget d k) eqn:E; [done|].
  intros H. apply dget_None_keys in E. apply NoDup_ListNoDup. apply NoDup_ListNoDup in H.
  apply NoDup_app. split; [done|]. split.
  - intros x Hx Hk. apply list_elem_of_singleton in Hk as ->. by apply list_elem_of_In in Hx.
  - apply NoDup_singleton.
Qed.

Lemma nodup_dupdate d e : nodup_keys d -> nodup_keys (dupdate d e).
Proof.
  revert d. induction e as [|[k v] e IH]; intros d H; [done|]. by apply IH, nodup_dset.
Qed.

Lemma nodup_dict_of l : nodup_keys (dict_of l).
Proof. apply nodup_dupdate. constructor. Qed.

Lemma dget_In d k v : dget d k = Some v -> In (k, v) d.
Proof.
  induction d as [|[k' v'] d IH]; simpl; [done|].
  destruct (String.eqb_spec k k') as [->|]; [|auto]. intros [= ->]. by left.
Qed.

Lemma In_dget d k v : nodup_keys d -> In (k, v) d -> dget d k = Some v.
Proof.
  unfold nodup_keys. induction d as [|[k' v'] d IH]; simpl; [done|].
  inversion 1; subst. intros [[= -> ->]|Hin]; [by rewrite String.eqb_refl|].
  destruct (String.eqb_spec k k') as [->|]; [|auto].
  match goal with H : ~ In _ _ |- _ => destruct H end.
  apply in_map_iff. by exists (k', v).
Qed.

(** Lookup in [{**d, **e}]: the later dict wins. *)
Lemma dget_dupdate d e k :
  nodup_keys e -> dget (dupdate d e) k = match dget e k with Some v => Some v | None => dget d k end.
Proof.
  unfold nodup_keys. revert d. induction e as [|[k0 v0] e IH]; intros d H; [done|].
  inversion H; subst. simpl. change (fold_left _ e _) with (dupdate (dset k0 v0 d) e).
  rewrite IH by done. destruct (String.eqb_spec k k0) as [->|Hne].
  - assert (dget e k0 = None) as -> by by apply dget_None_keys. by rewrite dget_dset_eq.
  - by rewrite dget_dset_ne by congruence.
Qed.

Lemma get_dupdate d e k : nodup_keys e -> get (dupdate d e) k = default (get d k) (dget e k).
Proof. intros H. unfold get. rewrite dget_dupdate by done. by destruct (dget e k). Qed.

Lemma dget_ddel_ne k k' d : k <> k' -> dget (ddel k d) k' = dget d k'.
Proof.
  intros Hne. induction d as [|[k0 v0] d IH]; simpl; [done|].
  destruct (String.eqb_spec k k0) as [->|]; simpl.
  - destruct (String.eqb_spec k' k0); [congruence|done].
  - by rewrite IH.
Qed.

Lemma ddel_keys_incl k d x : In x (keys (ddel k d)) -> In x (keys d).
Proof.
  induction d as [|[k0 v0] d IH]; simpl; [done|].
  destruct (String.eqb k k0); simpl; [by right|]. intros [?|?]; auto.
Qed.

Lemma nodup_ddel k d : nodup_keys d -> nodup_keys (ddel k d).
Proof.
  unfold nodup_keys. induction d as [|[k0 v0] d IH]; simpl; [done|]. inversion 1; subst.
  destruct (String.eqb k k0); [done|]. simpl. constructor; [|auto].
  by intros ?%ddel_keys_incl.
Qed.

Lemma dget_ddel_eq k d : nodup_keys d -> dget (ddel k d) k = None.
Proof.
  unfold nodup_keys. induction d as [|[k0 v0] d IH]; simpl; [done|]. inversion 1; subst.
  destruct (String.eqb_spec k k0) as [->|]; simpl.
  - by apply dget_None_keys.
  - destruct (String.eqb_spec k k0); [congruence|auto].
Qed.

#[export] Hint Rewrite dget_dset_eq get_dset_eq : hub.
#[export] Hint Resolve nodup_dset nodup_dupdate nodup_dict_of nodup_ddel : hub.

(** [py_eq] on texts and booleans. *)
Lemma is_text_spec v s : is_text v s = true <-> v = PStr s.
Proof.
  unfold is_text. destruct v; simpl; try (split; [done|congruence]).
  rewrite String.eqb_eq. split; congruence.
Qed.

Lemma truthy_por a b : truthy (por a b) = truthy a || truthy b.
Proof. unfold por. by destruct (truthy a) eqn:E; rewrite ?E. Qed.

(** Read the fields of a dict updated with a literal one. *)
Ltac get_updates d :=
  rewrite !(get_dupdate d) by (unfold nodup_keys; cbn; repeat constructor; cbn; intuition discriminate);
  cbn [dget String.eqb Ascii.eqb Bool.eqb from_option id].

(** Read the fields of a dict after assignments to single keys. *)
Ltac simpl_get := repeat first [rewrite get_dset_eq | rewrite get_dset_ne by done].
