(* ===== verification/PyIp.v ===== *)
(** * IP addresses

    The parts of Python's [ipaddress] module the Hub uses: parsing and printing of IPv4
    and IPv6 addresses, the classification properties, and networks given with
    [strict=False].  The classification is that of CPython 3.12, where an IPv4-mapped
    IPv6 address has the properties of the IPv4 address inside. *)

From S2P Require Import Prelude PyNum PyVal.

Inductive ip :=
| IPv4 (n : Z)
| IPv6 (n : Z) (scope : option string).

#[export] Instance ip_eq_dec : EqDecision ip.
Proof. solve_decision. Defined.

Definition ip_version (a : ip) : Z := match a with IPv4 _ => 4 | IPv6 _ _ => 6 end.
Definition ip_int (a : ip) : Z := match a with IPv4 n => n | IPv6 n _ => n end.
Definition ip_bits (a : ip) : Z := match a with IPv4 _ => 32 | IPv6 _ _ => 128 end.

(** ** Parsing *)

(** A decimal octet: at most three ASCII digits, no leading zero, at most 255. *)
Definition parse_octet (s : string) : option Z :=
  if nonempty s && sall is_digit s && (String.length s <=? 3)%nat
     && (String.eqb s "0" || negb (starts_with "0" s)) && (dec_val 0 s <=? 255)
  then Some (dec_val 0 s) else None.

Fixpoint fold_parts (parse : string -> option Z) (base acc : Z) (l : list string) : option Z :=
  match l with
  | [] => Some acc
  | s :: l' => match parse s with
               | Some v => fold_parts parse base (acc * base + v) l'
               | None => None
               end
  end.

Definition ipv4_of_str (s : string) : option Z :=
  let octets := split "." s in
  if (List.length octets =? 4)%nat then fold_parts parse_octet 256 0 octets else None.

Fixpoint hex_val_of (acc : Z) (s : string) : Z :=
  match s with EmptyString => acc | String c s' => hex_val_of (acc * 16 + hex_val c) s' end.

(** One to four hexadecimal digits. *)
Definition parse_hextet (s : string) : option Z :=
  if nonempty s && sall is_hex s && (String.length s <=? 4)%nat
  then Some (hex_val_of 0 s) else None.

Fixpoint hex_go (fuel : nat) (n : Z) (acc : string) : string :=
  match fuel with
  | O => acc
  | S f => let acc' := String (hex_digit (n mod 16)) acc in
           if n <? 16 then acc' else hex_go f (n / 16) acc'
  end.

(** ["%x" % n] for [n >= 0]: at most [log2 n + 1] digits. *)
Definition hex_str (n : Z) : string := hex_go (S (Z.to_nat (Z.log2 n))) n EmptyString.

(** The last part, when it holds a dotted IPv4 address, stands for two hextets. *)
Definition expand_v4_suffix (parts : list string) : option (list string) :=
  let tail := List.last parts EmptyString in
  if contains "." tail then
    match ipv4_of_str tail with
    | Some n => Some (removelast parts ++ [hex_str (Z.land (Z.shiftr n 16) 65535); hex_str (Z.land n 65535)])
    | None => None
    end
  else Some parts.

(** The positions of the empty parts strictly inside the list. *)
Definition empty_inside (parts : list string) : list nat :=
  List.filter (fun i => negb (nonempty (nth i parts EmptyString)))
    (seq 1 (List.length parts - 2)).

Definition ipv6_of_parts (parts : list string) : option Z :=
  let n := List.length parts in
  let first_empty := negb (nonempty (hd EmptyString parts)) in
  let last_empty := negb (nonempty (List.last parts EmptyString)) in
  match empty_inside parts with
  | [] =>
      if (n =? 8)%nat && negb first_empty && negb last_empty
      then fold_parts parse_hextet 65536 0 parts else None
  | [skip] =>
      let hi := if first_empty then (skip - 1)%nat else skip in
      let lo := if last_empty then (n - skip - 2)%nat else (n - skip - 1)%nat in
      if (first_empty && negb (hi =? 0)%nat) || (last_empty && negb (lo =? 0)%nat)
         || (8 <=? hi + lo)%nat then None
      else
        head ← fold_parts parse_hextet 65536 0 (firstn hi parts);
        fold_parts parse_hextet 65536 (head * 65536 ^ Z.of_nat (8 - (hi + lo)))
                   (skipn (n - lo) parts)
  | _ => None
  end.

Definition ipv6_int_of_str (s : string) : option Z :=
  let parts := split ":" s in
  if (List.length parts <? 3)%nat then None
  else
    parts ← expand_v4_suffix parts;
    if (9 <? List.length parts)%nat then None else ipv6_of_parts parts.

(** [addr%scope]; an empty scope or a second [%] is refused. *)
Definition split_scope (s : string) : option (string * option string) :=
  match cut "%" s with
  | None => Some (s, None)
  | Some (addr, scope) =>
      if nonempty scope && negb (contains "%" scope) then Some (addr, Some scope) else None
  end.

Definition ipv6_of_str (s : string) : option ip :=
  '(addr, scope) ← split_scope s;
  n ← ipv6_int_of_str addr;
  Some (IPv6 n scope).

(** [ipaddress.ip_address(text)]. *)
Definition ip_of_str (s : string) : option ip :=
  match ipv4_of_str s with
  | Some n => Some (IPv4 n)
  | None => if contains "/" s then None else ipv6_of_str s
  end.

Definition ip_address (s : string) : result ip :=
  match ip_of_str s with
  | Some a => Ok a
  | None => raise_value_error (repr_str s +:+ " does not appear to be an IPv4 or IPv6 address")
  end.

(** ** Printing *)

Definition ipv4_str (n : Z) : string :=
  join "." (List.map (fun k => nat_str (Z.land (Z.shiftr n k) 255)) [24; 16; 8; 0]).

Definition hextets (n : Z) : list string :=
  List.map (fun k => hex_str (Z.land (Z.shiftr n k) 65535)) [112; 96; 80; 64; 48; 32; 16; 0].

(** The loop of [_compress_hextets]: position, current run (start, length), best run. *)
Fixpoint best_run (i start len bstart blen : nat) (l : list string) : nat * nat :=
  match l with
  | [] => (bstart, blen)
  | h :: l' =>
      if String.eqb h "0" then
        let start := if (len =? 0)%nat then i else start in
        let len := S len in
        if (blen <? len)%nat then best_run (S i) start len start len l'
        else best_run (S i) start len bstart blen l'
      else best_run (S i) i O bstart blen l'
  end.

Definition compress_hextets (l : list string) : list string :=
  let '(start, len) := best_run O O O O O l in
  if (1 <? len)%nat then
    let l' := firstn start l ++ [EmptyString] ++ skipn (start + len) l in
    let l' := if (start + len =? List.length l)%nat then l' ++ [EmptyString] else l' in
    if (start =? 0)%nat then EmptyString :: l' else l'
  else l.

Definition ipv6_str (n : Z) : string := join ":" (compress_hextets (hextets n)).

(** [str(address)]. *)
Definition ip_str (a : ip) : string :=
  match a with
  | IPv4 n => ipv4_str n
  | IPv6 n None => ipv6_str n
  | IPv6 n (Some scope) => ipv6_str n +:+ "%" +:+ scope
  end.

(** [address.exploded] of an IPv6 address without scope. *)
Definition ipv6_exploded (n : Z) : string :=
  join ":" (List.map (fun h => zeros (4 - String.length h) +:+ h) (hextets n)).

(** ** Networks *)

(** A network by its first address and prefix length. *)
Definition in_net (bits n base len : Z) : bool :=
  Z.shiftr n (bits - len) =? Z.shiftr base (bits - len).

Definition in_nets (bits n : Z) (nets : list (Z * Z)) : bool :=
  existsb (fun net => in_net bits n net.1 net.2) nets.

Definition v4 (a b c d : Z) : Z := ((a * 256 + b) * 256 + c) * 256 + d.
Definition v6 (a b c h : Z) : Z := ((a * 65536 + b) * 65536 + c) * 65536 ^ 5 + h.

Definition v4_private : list (Z * Z) :=
  [(v4 0 0 0 0, 8); (v4 10 0 0 0, 8); (v4 127 0 0 0, 8); (v4 169 254 0 0, 16);
   (v4 172 16 0 0, 12); (v4 192 0 0 0, 24); (v4 192 0 0 170, 31); (v4 192 0 2 0, 24);
   (v4 192 168 0 0, 16); (v4 198 18 0 0, 15); (v4 198 51 100 0, 24); (v4 203 0 113 0, 24);
   (v4 240 0 0 0, 4); (v4 255 255 255 255, 32)].
Definition v4_private_exceptions : list (Z * Z) := [(v4 192 0 0 9, 32); (v4 192 0 0 10, 32)].

Definition v6_private : list (Z * Z) :=
  [(1, 128); (0, 128); (65535 * 2 ^ 32, 96); (v6 100 65435 1 0, 48); (v6 256 0 0 0, 64);
   (v6 8193 0 0 0, 23); (v6 8193 3512 0 0, 32); (v6 8194 0 0 0, 16); (v6 16383 0 0 0, 20);
   (v6 64512 0 0 0, 7); (v6 65152 0 0 0, 10)].
Definition v6_private_exceptions : list (Z * Z) :=
  [(v6 8193 1 0 1, 128); (v6 8193 1 0 2, 128); (v6 8193 3 0 0, 32); (v6 8193 4 274 0, 48);
   (v6 8193 32 0 0, 28); (v6 8193 48 0 0, 28)].

(** ** Properties of addresses *)

Definition v4_is_private (n : Z) : bool :=
  in_nets 32 n v4_private && negb (in_nets 32 n v4_private_exceptions).
Definition v4_is_global (n : Z) : bool :=
  negb (in_net 32 n (v4 100 64 0 0) 10) && negb (v4_is_private n).

(** [addr.ipv4_mapped]. *)
Definition ipv4_mapped (a : ip) : option Z :=
  match a with
  | IPv6 n _ => if Z.shiftr n 32 =? 65535 then Some (Z.land n (2 ^ 32 - 1)) else None
  | IPv4 _ => None
  end.

(** An IPv6 property defers to the IPv4 one on mapped addresses. *)
Definition ip_property (p4 p6 : Z -> bool) (a : ip) : bool :=
  match a with
  | IPv4 n => p4 n
  | IPv6 n _ => match ipv4_mapped a with Some m => p4 m | None => p6 n end
  end.

Definition v6_is_private (n : Z) : bool :=
  in_nets 128 n v6_private && negb (in_nets 128 n v6_private_exceptions).

Definition is_private : ip -> bool := ip_property v4_is_private v6_is_private.
Definition is_global : ip -> bool := ip_property v4_is_global (fun n => negb (v6_is_private n)).
Definition is_loopback : ip -> bool := ip_property (fun n => in_net 32 n (v4 127 0 0 0) 8) (fun n => n =? 1).
Definition is_unspecified : ip -> bool := ip_property (fun n => n =? 0) (fun n => n =? 0).
Definition is_link_local : ip -> bool :=
  ip_property (fun n => in_net 32 n (v4 169 254 0 0) 16) (fun n => in_net 128 n (v6 65152 0 0 0) 10).
Definition is_multicast : ip -> bool :=
  ip_property (fun n => in_net 32 n (v4 224 0 0 0) 4) (fun n => in_net 128 n (v6 65280 0 0 0) 8).

(** ** Networks given as text *)

Record ip_net := { net_base : ip; net_len : Z }.

Definition prefix_of_str (bits : Z) (s : string) : option Z :=
  if nonempty s && sall is_digit s && (String.length s <=? max_str_digits)%nat && (dec_val 0 s <=? bits)
  then Some (dec_val 0 s) else None.

(** A netmask such as 255.255.255.0, or a hostmask such as 0.0.0.255. *)
Definition v4_mask_prefix (s : string) : option Z :=
  m ← ipv4_of_str s;
  match List.find (fun k => Z.eqb m (2 ^ 32 - 2 ^ (32 - k))) (List.map Z.of_nat (seq 0 33)) with
  | Some k => Some k
  | None => List.find (fun k => Z.eqb (2 ^ 32 - 1 - m) (2 ^ 32 - 2 ^ (32 - k))) (List.map Z.of_nat (seq 0 33))
  end.

Definition mask_to (bits n len : Z) : Z := Z.shiftl (Z.shiftr n (bits - len)) (bits - len).

(** [ipaddress.ip_network(text, strict=False)]. *)
Definition ip_network (s : string) : option ip_net :=
  let '(addr, mask) := match split "/" s with
                       | [a] => (Some a, None)
                       | [a; m] => (Some a, Some m)
                       | _ => (None, None)
                       end in
  addr ← addr;
  match ipv4_of_str addr with
  | Some n =>
      len ← match mask with
            | None => Some 32
            | Some m => match prefix_of_str 32 m with Some l => Some l | None => v4_mask_prefix m end
            end;
      Some {| net_base := IPv4 (mask_to 32 n len); net_len := len |}
  | None =>
      a ← ipv6_of_str addr;
      len ← match mask with None => Some 128 | Some m => prefix_of_str 128 m end;
      let base := mask_to 128 (ip_int a) len in
      Some {| net_base := if base =? ip_int a then a else IPv6 base None; net_len := len |}
  end.

(** [addr in network]. *)
Definition ip_in (a : ip) (net : ip_net) : bool :=
  (ip_version a =? ip_version (net_base net))
  && in_net (ip_bits a) (ip_int a) (ip_int (net_base net)) (net_len net).

(** [net.broadcast_address]. *)
Definition net_broadcast (net : ip_net) : ip :=
  let host := 2 ^ (ip_bits (net_base net) - net_len net) - 1 in
  match net_base net with
  | IPv4 n => IPv4 (n + host)
  | IPv6 n s => IPv6 (n + host) s
  end.

(** [str(net)]. *)
Definition net_str (net : ip_net) : string := ip_str (net_base net) +:+ "/" +:+ int_str (net_len net).

(** A network has a property when its first and last address have it. *)
Definition net_property (p : ip -> bool) (net : ip_net) : bool :=
  p (net_base net) && p (net_broadcast net).

(** ** Facts *)

Lemma in_net_bounds bits n base len :
  0 <= len <= bits -> 0 <= n ->
  in_net bits n base len = true ->
  Z.shiftr base (bits - len) * 2 ^ (bits - len) <= n < (Z.shiftr base (bits - len) + 1) * 2 ^ (bits - len).
Proof.
  unfold in_net. intros Hl Hn H. to_prop. rewrite <- H, Z.shiftr_div_pow2 by lia.
  pose proof (Z.pow_pos_nonneg 2 (bits - len)). pose proof (Z.div_mod n (2 ^ (bits - len))).
  pose proof (Z.mod_pos_bound n (2 ^ (bits - len))). lia.
Qed.

(** An address of a private IPv4 network is never global. *)
Lemma private_not_global a : is_private a = true -> is_global a = false.
Proof.
  unfold is_private, is_global, ip_property, v4_is_global.
  destruct a; [|destruct (ipv4_mapped _)]; intros ->; by rewrite ?andb_false_r.
Qed.
