(* ===== verification/IpText.v ===== *)
(** * Addresses and their texts

    [ip_str] writes an address in normal form: it reads back as itself, with the longest run of
    zero groups of an IPv6 address left out. *)

From S2P Require Import Prelude PyNum PyVal PyIp.

(** ** Octets and groups *)

Abbreviation plain_part s := (sall is_hex s && nonempty s).

Definition octet_okb (v : Z) : bool :=
  match parse_octet (nat_str v) with Some w => Z.eqb v w | None => false end && plain_part (nat_str v).

Fixpoint all_from (p : Z -> bool) (n : nat) (v : Z) : bool :=
  match n with O => true | S n => p v && all_from p n (v + 1) end.

Lemma below_ok (p : Z -> bool) n v w : all_from p n v = true -> v <= w < v + Z.of_nat n -> p w = true.
Proof.
  revert v. induction n as [|n IH]; intros v Hp Hw; [lia|]. cbn in Hp. apply andb_prop in Hp as [Hv Hp].
  destruct (decide (w = v)) as [->|]; [done|]. apply (IH (v + 1)); [done|lia].
Qed.

Lemma octet_ok v : 0 <= v < 256 -> parse_octet (nat_str v) = Some v /\ plain_part (nat_str v) = true.
Proof.
  intros Hv. assert (octet_okb v = true) as H by (apply (below_ok _ 256 0); [vm_compute; reflexivity|lia]).
  unfold octet_okb in H. apply andb_prop in H as [H1 H2]. destruct (parse_octet _); [|done]. apply Z.eqb_eq in H1 as <-. done.
Qed.

Lemma hex_digit_ok n : 0 <= n < 16 -> is_hex (hex_digit n) = true /\ hex_val (hex_digit n) = n.
Proof.
  intros Hn. assert (is_hex (hex_digit n) && (hex_val (hex_digit n) =? n) = true) as H.
  { apply (below_ok (fun n => is_hex (hex_digit n) && (hex_val (hex_digit n) =? n)) 16 0); [done|lia]. }
  apply andb_prop in H as [? ?%Z.eqb_eq]. done.
Qed.

Lemma hex_go_ok fuel n acc : 0 <= n -> n < 16 ^ Z.of_nat fuel ->
  hex_val_of 0 (hex_go fuel n acc) = hex_val_of n acc /\ sall is_hex (hex_go fuel n acc) = sall is_hex acc.
Proof.
  revert n acc. induction fuel as [|fuel IH]; intros n acc Hn Hb; [by replace n with 0 by (cbn in Hb; lia)|].
  rewrite Nat2Z.inj_succ, Z.pow_succ_r in Hb by lia. destruct (hex_digit_ok (n mod 16)) as [Hx Hv]; [apply Z.mod_pos_bound; lia|].
  cbn [hex_go]. destruct (Z.ltb_spec n 16) as [Hs|Hs].
  - cbn [hex_val_of sall]. rewrite Hx, Hv, Z.mod_small by lia. done.
  - destruct (IH (n / 16) (String (hex_digit (n mod 16)) acc)) as [-> ->].
    + apply Z.div_pos; lia.
    + apply Z.div_lt_upper_bound; lia.
    + cbn [hex_val_of sall]. rewrite Hx, Hv. split; [|done]. f_equal. pose proof (Z.div_mod n 16). lia.
Qed.

Lemma hex_go_length fuel n acc k : 0 <= n < 16 ^ Z.of_nat k -> (0 < k)%nat ->
  (String.length (hex_go fuel n acc) <= k + String.length acc)%nat.
Proof.
  revert n acc k. induction fuel as [|fuel IH]; intros n acc k Hn Hk; [cbn; lia|]. cbn [hex_go].
  destruct (Z.ltb_spec n 16) as [Hs|Hs]; [cbn; lia|]. destruct k as [|[|k]]; [lia|change (16 ^ Z.of_nat 1) with 16 in Hn; lia|].
  rewrite (Nat2Z.inj_succ (S k)), Z.pow_succ_r in Hn by lia.
  etransitivity; [apply (IH _ _ (S k)); [|lia]|cbn; lia]. split; [apply Z.div_pos; lia|apply Z.div_lt_upper_bound; lia].
Qed.

Lemma hex_go_ne fuel n acc : (0 < fuel)%nat -> nonempty (hex_go fuel n acc) = true.
Proof.
  revert n acc. induction fuel as [|fuel IH]; intros n acc Hf; [lia|]. cbn [hex_go]. destruct (n <? 16); [done|].
  destruct fuel; [done|]. apply IH. lia.
Qed.

Lemma hextet_ok v : 0 <= v < 65536 ->
  parse_hextet (hex_str v) = Some v /\ plain_part (hex_str v) = true /\ String.eqb (hex_str v) "0" = (v =? 0).
Proof.
  intros Hv. unfold hex_str. set (fuel := S (Z.to_nat (Z.log2 v))).
  assert (v < 16 ^ Z.of_nat fuel) as Hf.
  { unfold fuel. rewrite Nat2Z.inj_succ, Z2Nat.id by apply Z.log2_nonneg. destruct (decide (v = 0)) as [->|]; [done|].
    pose proof (Z.log2_spec v ltac:(lia)) as [_ Hl]. eapply Z.lt_le_trans; [exact Hl|]. apply Z.pow_le_mono_l. lia. }
  destruct (hex_go_ok fuel v "") as [Hval Hall]; [lia|done|]. cbn [hex_val_of sall] in *.
  assert (nonempty (hex_go fuel v "") = true) as Hne by (apply hex_go_ne; unfold fuel; lia).
  pose proof (hex_go_length fuel v "" 4 ltac:(change (16 ^ Z.of_nat 4) with 65536; lia) ltac:(lia)) as Hl. cbn [String.length] in Hl.
  rewrite Hne, Hall. split; [|split; [done|]].
  - unfold parse_hextet. rewrite Hne, Hall. cbn [andb]. rewrite (proj2 (Nat.leb_le _ _)) by lia. by rewrite Hval.
  - destruct (String.eqb_spec (hex_go fuel v "") "0") as [E|E]; destruct (Z.eqb_spec v 0) as [E'|E']; try done.
    + by rewrite E in Hval.
    + by subst v.
Qed.

Lemma hex_free c s : is_hex c = false -> sall is_hex s = true -> char_free c s = true.
Proof.
  intros Hc. apply sall_impl. intros d Hd. unfold is_char. destruct (Ascii.eqb_spec c d) as [->|]; [|done]. by rewrite Hc in Hd.
Qed.

(** ** Groups of bits *)

Section Groups.
Context (w : Z) (Hw : 0 < w).

(** The lowest [k] groups of [w] bits, highest first. *)
Fixpoint groups (k : nat) (n : Z) : list Z :=
  match k with O => [] | S k => (n / 2 ^ (w * Z.of_nat k)) mod 2 ^ w :: groups k n end.

Lemma groups_bound k n v : In v (groups k n) -> 0 <= v < 2 ^ w.
Proof. induction k as [|k IH]; [done|]. intros [<-|Hv]; [|auto]. apply Z.mod_pos_bound, Z.pow_pos_nonneg; lia. Qed.

Definition value_of (acc : Z) (vs : list Z) : Z := fold_left (fun a v => a * 2 ^ w + v) vs acc.

Lemma value_groups k n acc : value_of acc (groups k n) = acc * 2 ^ (w * Z.of_nat k) + n mod 2 ^ (w * Z.of_nat k).
Proof.
  revert acc. induction k as [|k IH]; intros acc.
  - change (Z.of_nat 0) with 0. rewrite Z.mul_0_r, Z.pow_0_r, Z.mod_1_r. cbn. lia.
  - cbn [groups value_of fold_left]. fold (value_of (acc * 2 ^ w + (n / 2 ^ (w * Z.of_nat k)) mod 2 ^ w) (groups k n)).
    rewrite IH. replace (w * Z.of_nat (S k)) with (w * Z.of_nat k + w) by lia. rewrite Z.pow_add_r by lia.
    rewrite Z.rem_mul_r by (pose proof (Z.pow_pos_nonneg 2 (w * Z.of_nat k)); pose proof (Z.pow_pos_nonneg 2 w); lia). lia.
Qed.

Lemma fold_parts_groups parse show acc vs : (forall v, 0 <= v < 2 ^ w -> parse (show v) = Some v) ->
  (forall v, In v vs -> 0 <= v < 2 ^ w) -> fold_parts parse (2 ^ w) acc (List.map show vs) = Some (value_of acc vs).
Proof.
  intros Hp. revert acc. induction vs as [|v vs IH]; intros acc Hv; [done|]. cbn [List.map fold_parts].
  rewrite Hp by (apply Hv; by left). rewrite IH; [done|]. intros v' ?. apply Hv. by right.
Qed.
End Groups.

(** ** IPv4 *)

Lemma ipv4_str_groups n : ipv4_str n = join "." (List.map nat_str (groups 8 4 n)).
Proof.
  unfold ipv4_str. f_equal. cbn [List.map groups Z.of_nat Pos.of_succ_nat Pos.succ Z.mul Pos.mul].
  change 255 with (Z.ones 8). by rewrite !Z.land_ones, !Z.shiftr_div_pow2 by lia.
Qed.

Lemma ipv4_text n : 0 <= n < 2 ^ 32 -> ipv4_of_str (ipv4_str n) = Some n.
Proof.
  intros Hn. rewrite ipv4_str_groups. unfold ipv4_of_str. rewrite (split_join "."%char); [|done|].
  - rewrite length_map. change (List.length (groups 8 4 n)) with 4%nat. cbn [Nat.eqb]. change 256 with (2 ^ 8).
    rewrite (fold_parts_groups 8 parse_octet nat_str); [|intros v Hv; by apply octet_ok|by apply groups_bound].
    rewrite value_groups by lia. f_equal. rewrite Z.mod_small by exact Hn. lia.
  - apply List.Forall_map, List.Forall_forall. intros v Hv%groups_bound; [|lia]. apply octet_ok in Hv as [_ Hv].
    apply andb_prop in Hv as [Hv _]. by apply hex_free.
Qed.

(** ** IPv6 *)

Lemma ipv6_hextets n : hextets n = List.map hex_str (groups 16 8 n).
Proof.
  unfold hextets. cbn [List.map groups Z.of_nat Pos.of_succ_nat Pos.succ Z.mul Pos.mul].
  change 65535 with (Z.ones 16). by rewrite !Z.land_ones, !Z.shiftr_div_pow2 by lia.
Qed.

(** The choice of the longest run looks only at which groups are zero. *)
Fixpoint best_zeros (i start len bstart blen : nat) (zs : list bool) : nat * nat :=
  match zs with
  | [] => (bstart, blen)
  | z :: zs' =>
      if z then
        let start := if (len =? 0)%nat then i else start in
        if (blen <? S len)%nat then best_zeros (S i) start (S len) start (S len) zs'
        else best_zeros (S i) start (S len) bstart blen zs'
      else best_zeros (S i) i O bstart blen zs'
  end.

Lemma best_run_zeros i start len bstart blen l :
  best_run i start len bstart blen l = best_zeros i start len bstart blen (List.map (fun h => String.eqb h "0") l).
Proof.
  revert i start len bstart blen. induction l as [|h l IH]; intros; [done|]. cbn [best_run best_zeros List.map].
  destruct (String.eqb h "0"); [|apply IH]. cbv zeta. destruct (blen <? S len)%nat; apply IH.
Qed.

Definition run_okb (zs : list bool) : bool :=
  let '(start, len) := best_zeros 0 0 0 0 0 zs in
  (start + len <=? 8)%nat && forallb (fun i => nth i zs false) (seq start len).

Lemma run_ok zs start len : List.length zs = 8%nat -> best_zeros 0 0 0 0 0 zs = (start, len) ->
  (start + len <= 8)%nat /\ forall i, (start <= i < start + len)%nat -> nth i zs false = true.
Proof.
  intros Hl Hb. assert (run_okb zs = true) as H.
  { do 8 (destruct zs as [|[] zs]; [done| |]); (destruct zs; [vm_compute; reflexivity|done]). }
  unfold run_okb in H. rewrite Hb in H. apply andb_prop in H as [H1 H2]. apply Nat.leb_le in H1. split; [done|].
  rewrite forallb_forall in H2. intros i Hi. apply H2, in_seq. lia.
Qed.

(** Where a list of parts is cut depends only on which parts are empty. *)
Definition cut_at (full : list bool) : option (option (nat * nat)) :=
  let n := List.length full in
  let first_empty := negb (hd false full) in
  let last_empty := negb (List.last full false) in
  match List.filter (fun i => negb (nth i full false)) (seq 1 (n - 2)) with
  | [] => if (n =? 8)%nat && negb first_empty && negb last_empty then Some None else None
  | [skip] =>
      let hi := if first_empty then (skip - 1)%nat else skip in
      let lo := if last_empty then (n - skip - 2)%nat else (n - skip - 1)%nat in
      if (first_empty && negb (hi =? 0)%nat) || (last_empty && negb (lo =? 0)%nat) || (8 <=? hi + lo)%nat then None
      else Some (Some (hi, lo))
  | _ => None
  end.

Lemma nth_nonempty i l : nonempty (nth i l "") = nth i (List.map nonempty l) false.
Proof. exact (eq_sym (map_nth nonempty l "" i)). Qed.

Lemma last_nonempty l : nonempty (List.last l "") = List.last (List.map nonempty l) false.
Proof. induction l as [|x l IH]; [done|]. destruct l; [done|]. exact IH. Qed.

Lemma ipv6_of_parts_cut parts : ipv6_of_parts parts =
  match cut_at (List.map nonempty parts) with
  | Some None => fold_parts parse_hextet 65536 0 parts
  | Some (Some (hi, lo)) =>
      head ← fold_parts parse_hextet 65536 0 (firstn hi parts);
      fold_parts parse_hextet 65536 (head * 65536 ^ Z.of_nat (8 - (hi + lo))) (skipn (List.length parts - lo) parts)
  | None => None
  end.
Proof.
  unfold ipv6_of_parts, cut_at, empty_inside. rewrite length_map.
  assert (nonempty (hd "" parts) = hd false (List.map nonempty parts)) as -> by by destruct parts.
  rewrite last_nonempty. erewrite filter_ext; [|intros i; by rewrite nth_nonempty].
  destruct (List.filter _ _) as [|x [|y l]]; [by destruct (_ && _)| |done]. by destruct (_ || _).
Qed.

(** A group and its text. *)
Record shows (h : string) (v : Z) : Prop := {
  sh_parse : parse_hextet h = Some v;
  sh_nonempty : nonempty h = true;
  sh_zero : String.eqb h "0" = (v =? 0);
}.

(** The runs of at least two groups. *)
Definition runs_of_eight : list (nat * nat) :=
  List.filter (fun r => (1 <? r.2)%nat && (r.1 + r.2 <=? 8)%nat) (list_prod (seq 0 9) (seq 0 9)).

Lemma in_runs start len : (1 < len)%nat -> (start + len <= 8)%nat -> In (start, len) runs_of_eight.
Proof.
  intros. apply filter_In. split; [apply in_prod; apply in_seq; lia|]. apply andb_true_intro. split; [by apply Nat.ltb_lt|by apply Nat.leb_le].
Qed.

(** Read the groups of a list whose shape is known. *)
Ltac read_groups :=
  rewrite ipv6_of_parts_cut; cbn [List.map app firstn skipn];
  repeat match goal with H : nonempty _ = true |- _ => rewrite !H; clear H end; cbn [nonempty String.eqb negb];
  match goal with |- context [cut_at ?l] => let c := eval vm_compute in (cut_at l) in change (cut_at l) with c end;
  cbn [List.length Nat.sub firstn skipn fold_parts];
  repeat match goal with H : parse_hextet _ = _ |- _ => rewrite ?H; clear H end;
  cbn [fold_parts mbind option_bind]; f_equal; cbn [value_of fold_left]; change (2 ^ 16) with 65536;
  repeat match goal with |- context [65536 ^ ?e] => let n := eval vm_compute in (65536 ^ e) in change (65536 ^ e) with n end.

Ltac zero_groups Hrun :=
  repeat match goal with
  | v : Z |- _ => assert (v = 0) as -> by (apply Z.eqb_eq; first
      [ apply (Hrun 0%nat); lia | apply (Hrun 1%nat); lia | apply (Hrun 2%nat); lia | apply (Hrun 3%nat); lia
      | apply (Hrun 4%nat); lia | apply (Hrun 5%nat); lia | apply (Hrun 6%nat); lia | apply (Hrun 7%nat); lia ])
  end; clear Hrun; cbn [Nat.add Nat.eqb List.length]; read_groups; lia.

Lemma compressed_parts h0 h1 h2 h3 h4 h5 h6 h7 v0 v1 v2 v3 v4 v5 v6 v7 :
  shows h0 v0 -> shows h1 v1 -> shows h2 v2 -> shows h3 v3 -> shows h4 v4 -> shows h5 v5 -> shows h6 v6 -> shows h7 v7 ->
  ipv6_of_parts (compress_hextets [h0; h1; h2; h3; h4; h5; h6; h7]) = Some (value_of 16 0 [v0; v1; v2; v3; v4; v5; v6; v7]).
Proof.
  intros [P0 N0 Z0] [P1 N1 Z1] [P2 N2 Z2] [P3 N3 Z3] [P4 N4 Z4] [P5 N5 Z5] [P6 N6 Z6] [P7 N7 Z7].
  unfold compress_hextets. rewrite best_run_zeros. destruct (best_zeros _ _ _ _ _ _) as [start len] eqn:Eb.
  apply run_ok in Eb as [Hle Hrun]; [|done]. cbn [List.map] in Hrun. rewrite Z0, Z1, Z2, Z3, Z4, Z5, Z6, Z7 in Hrun.
  clear Z0 Z1 Z2 Z3 Z4 Z5 Z6 Z7. destruct (1 <? len)%nat eqn:Elen.
  - apply Nat.ltb_lt in Elen. pose proof (in_runs _ _ Elen Hle) as Hin. clear Elen Hle. vm_compute in Hin.
    repeat (destruct Hin as [[= <- <-]|Hin]; [zero_groups Hrun|]); done.
  - read_groups.
Qed.

(** What the parts of a compressed address are made of. *)
Definition part_ok (p : string) : Prop := sall is_hex p = true.

Lemma compress_shape l : l <> [] -> Forall part_ok l -> Forall part_ok (compress_hextets l) /\ compress_hextets l <> [].
Proof.
  intros Hne Hl. unfold compress_hextets. destruct (best_run _ _ _ _ _ _) as [start len]. destruct (1 <? len)%nat; [|done].
  assert (Forall part_ok (firstn start l ++ [""] ++ skipn (start + len) l)) as Hc.
  { apply Forall_app. split; [by apply Forall_take|]. apply Forall_app. split; [by repeat constructor|by apply Forall_drop]. }
  assert (Forall part_ok [""]) as He by by repeat constructor.
  destruct (start + len =? List.length l)%nat, (start =? 0)%nat; (split; [|by destruct (firstn start l)]);
    repeat first [assumption | apply Forall_cons; split; [done|] | apply Forall_app; split].
Qed.

Lemma ipv6_parts_length n : (3 <= List.length (compress_hextets (hextets n)) <= 9)%nat.
Proof.
  unfold compress_hextets. destruct (best_run _ _ _ _ _ _) as [start len] eqn:Eb. rewrite best_run_zeros in Eb.
  assert (List.length (hextets n) = 8%nat) as Hl by done.
  apply run_ok in Eb as [Hle _]; [|by rewrite length_map].
  destruct (1 <? len)%nat eqn:E1; [|lia]. apply Nat.ltb_lt in E1.
  set (l' := firstn start (hextets n) ++ [""] ++ skipn (start + len) (hextets n)).
  assert (List.length l' = (9 - len)%nat) as Hl'.
  { unfold l'. rewrite !length_app, length_firstn, length_skipn, Hl. cbn [List.length]. lia. }
  rewrite Hl. destruct (Nat.eqb_spec (start + len) 8), (Nat.eqb_spec start 0); cbn [List.length];
    rewrite ?length_app, ?Hl'; cbn [List.length]; lia.
Qed.

Lemma ipv6_chars n : 0 <= n < 2 ^ 128 -> sall (fun c => is_hex c || is_char ":" c) (ipv6_str n) = true.
Proof.
  intros Hn. unfold ipv6_str. apply sall_join; [done|]. eapply List.Forall_impl; [|apply compress_shape; [done|]].
  - intros p. apply sall_impl. by intros c ->.
  - rewrite ipv6_hextets. apply List.Forall_map, List.Forall_forall. intros v Hv%groups_bound; [|lia].
    apply hextet_ok in Hv as (_ & Hv & _). by apply andb_prop in Hv as [Hv _].
Qed.

Lemma ipv6_free c n : 0 <= n < 2 ^ 128 -> is_hex c || is_char ":" c = false -> char_free c (ipv6_str n) = true.
Proof.
  intros Hn Hc. eapply sall_impl; [|by apply ipv6_chars]. intros d Hd. unfold is_char. destruct (Ascii.eqb_spec c d) as [->|]; [|done].
  cbv beta in Hd. by rewrite Hc in Hd.
Qed.

Lemma ipv6_text n : 0 <= n < 2 ^ 128 -> ipv6_int_of_str (ipv6_str n) = Some n.
Proof.
  intros Hn. unfold ipv6_int_of_str, ipv6_str. pose proof (ipv6_parts_length n) as Hl.
  assert (Forall part_ok (hextets n)) as Hp.
  { rewrite ipv6_hextets. apply List.Forall_map, List.Forall_forall. intros v Hv%groups_bound; [|lia].
    apply hextet_ok in Hv as (_ & Hv & _). by apply andb_prop in Hv as [Hv _]. }
  apply compress_shape in Hp as [Hp Hne]; [|done].
  rewrite (split_join ":"%char); [|done|by eapply List.Forall_impl; [|exact Hp]; intros p; apply hex_free].
  rewrite (proj2 (Nat.ltb_ge _ _)) by lia. unfold expand_v4_suffix.
  rewrite contains_free; [|apply hex_free; [done|]]; cycle 1.
  { apply (proj1 (List.Forall_forall _ _) Hp). destruct (exists_last Hne) as (l' & p & ->). rewrite List.last_last. apply in_app_iff. by right; left. }
  cbn [mbind option_bind]. rewrite (proj2 (Nat.ltb_ge _ _)) by lia. rewrite ipv6_hextets.
  assert (forall v, In v (groups 16 8 n) -> shows (hex_str v) v) as Hs.
  { intros v Hv%groups_bound; [|lia]. apply hextet_ok in Hv as (H1 & H2 & H3). apply andb_prop in H2 as [_ H2]. by constructor. }
  cbn [groups List.map]. erewrite compressed_parts by (apply Hs; cbn [groups In]; tauto).
  f_equal. change (value_of 16 0 (groups 16 8 n) = n). rewrite value_groups by lia. rewrite Z.mod_small by exact Hn. lia.
Qed.

(** An address as [ip_address] builds it: in range, and without scope. *)
Definition address_ok (a : ip) : Prop :=
  match a with IPv4 n => 0 <= n < 2 ^ 32 | IPv6 n scope => 0 <= n < 2 ^ 128 /\ scope = None end.

(** The text of an address reads back as the address. *)
Lemma ip_text_round_trip a : address_ok a -> ip_of_str (ip_str a) = Some a.
Proof.
  destruct a as [n|n scope]; cbn [address_ok ip_str]; unfold ip_of_str; [by intros ->%ipv4_text|]. intros [Hn ->].
  assert (ipv4_of_str (ipv6_str n) = None) as ->.
  { unfold ipv4_of_str. rewrite <- (append_nil_r (ipv6_str n)). unfold split. rewrite split_go_free by by apply ipv6_free. done. }
  rewrite contains_free by by apply ipv6_free. unfold ipv6_of_str, split_scope. rewrite cut_free by by apply ipv6_free.
  cbn [mbind option_bind]. by rewrite ipv6_text.
Qed.

(** ** Parsed addresses are in range *)

Lemma fold_parts_bound parse base acc k l r : 0 < base -> (forall s v, parse s = Some v -> 0 <= v < base) ->
  0 <= acc < base ^ Z.of_nat k -> fold_parts parse base acc l = Some r -> 0 <= r < base ^ Z.of_nat (k + List.length l).
Proof.
  intros Hb Hp. revert k acc. induction l as [|s l IH]; intros k acc Ha Hr.
  - injection Hr as <-. by rewrite Nat.add_0_r.
  - cbn [fold_parts] in Hr. destruct (parse s) as [v|] eqn:Ev; [|done]. apply Hp in Ev. cbn [List.length].
    rewrite Nat.add_succ_r, <- Nat.add_succ_l. apply (IH _ (acc * base + v)); [|done].
    rewrite Nat2Z.inj_succ, Z.pow_succ_r by lia. nia.
Qed.

Lemma hex_val_bound c : is_hex c = true -> 0 <= hex_val c < 16.
Proof. destruct c as [[] [] [] [] [] [] [] []]; vm_compute; intros [=]; by split. Qed.

Lemma hex_val_of_bound s acc : 0 <= acc -> sall is_hex s = true ->
  0 <= hex_val_of acc s < (acc + 1) * 16 ^ Z.of_nat (String.length s).
Proof.
  revert acc. induction s as [|c s IH]; intros acc Ha Hs; [cbn; lia|]. cbn in Hs. apply andb_prop in Hs as [Hc Hs].
  pose proof (hex_val_bound _ Hc) as Hv.
  cbn [hex_val_of String.length]. specialize (IH (acc * 16 + hex_val c) ltac:(lia) Hs).
  rewrite Nat2Z.inj_succ, Z.pow_succ_r by lia. pose proof (Z.pow_pos_nonneg 16 (Z.of_nat (String.length s))). nia.
Qed.

Lemma parse_hextet_bound s v : parse_hextet s = Some v -> 0 <= v < 65536.
Proof.
  unfold parse_hextet. destruct (_ && _) eqn:E; [|done]. intros [= <-]. apply andb_prop in E as [E Hl%Nat.leb_le].
  apply andb_prop in E as [_ Hs]. pose proof (hex_val_of_bound s 0 ltac:(lia) Hs) as Hb.
  assert (16 ^ Z.of_nat (String.length s) <= 16 ^ 4) by (apply Z.pow_le_mono_r; lia). lia.
Qed.

Lemma dec_val_nonneg s acc : 0 <= acc -> sall is_digit s = true -> 0 <= dec_val acc s.
Proof.
  revert acc. induction s as [|c s IH]; intros acc Ha Hs; [done|]. cbn in Hs. apply andb_prop in Hs as [Hc Hs].
  cbn [dec_val]. apply IH; [|done]. unfold is_digit, in_range, digit_val in *. to_prop. lia.
Qed.

Lemma parse_octet_bound s v : parse_octet s = Some v -> 0 <= v < 256.
Proof.
  unfold parse_octet. destruct (_ && _) eqn:E; [|done]. intros [= <-].
  apply andb_prop in E as [E Hv%Z.leb_le]. apply andb_prop in E as [E _]. apply andb_prop in E as [E _].
  apply andb_prop in E as [_ E]. pose proof (dec_val_nonneg s 0 ltac:(lia) E). lia.
Qed.

Lemma ipv4_range s n : ipv4_of_str s = Some n -> 0 <= n < 2 ^ 32.
Proof.
  unfold ipv4_of_str. destruct (_ =? _)%nat eqn:E; [|done]. apply Nat.eqb_eq in E. intros Hf.
  apply (fold_parts_bound _ _ _ 0) in Hf; [|lia|by apply parse_octet_bound|done]. rewrite E in Hf. exact Hf.
Qed.

Lemma ipv6_parts_range parts n : ipv6_of_parts parts = Some n -> 0 <= n < 2 ^ 128.
Proof.
  rewrite ipv6_of_parts_cut. unfold cut_at. rewrite length_map.
  destruct (List.filter _ _) as [|skip [|? ?]]; [| |done].
  - destruct (_ && _) eqn:E; [|done]. apply andb_prop in E as [E _]. apply andb_prop in E as [E%Nat.eqb_eq _]. intros Hf.
    apply (fold_parts_bound _ _ _ 0) in Hf; [|lia|by apply parse_hextet_bound|done]. rewrite E in Hf. exact Hf.
  - cbv zeta. destruct (_ || (8 <=? _)%nat) eqn:E; [done|]. apply orb_false_iff in E as [_ E%Nat.leb_gt].
    set (hi := if negb _ then _ else _) in *. set (lo := if negb (List.last _ _) then _ else _) in *.
    destruct (fold_parts _ _ 0 _) as [head|] eqn:Eh; [|done]. cbn [mbind option_bind]. intros Hf.
    apply (fold_parts_bound _ _ _ 0) in Eh; [|lia|by apply parse_hextet_bound|done].
    assert (0 <= head < 65536 ^ Z.of_nat hi) as Hh.
    { split; [lia|]. eapply Z.lt_le_trans; [apply Eh|]. apply Z.pow_le_mono_r; [lia|]. rewrite length_firstn. lia. }
    apply (fold_parts_bound _ _ _ (hi + (8 - (hi + lo)))) in Hf; [|lia|by apply parse_hextet_bound|].
    + split; [lia|]. eapply Z.lt_le_trans; [apply Hf|]. change (2 ^ 128) with (65536 ^ Z.of_nat 8).
      apply Z.pow_le_mono_r; [lia|]. rewrite length_skipn. lia.
    + rewrite Nat2Z.inj_add, Z.pow_add_r by lia. pose proof (Z.pow_pos_nonneg 65536 (Z.of_nat (8 - (hi + lo)))). nia.
Qed.

Lemma ipv6_range s a : ipv6_of_str s = Some a -> exists n scope, a = IPv6 n scope /\ 0 <= n < 2 ^ 128 /\ (cut "%" s = None -> scope = None).
Proof.
  unfold ipv6_of_str, split_scope. destruct (cut "%" s) as [[addr scope]|] eqn:Ec.
  - destruct (_ && _); [|done]. cbn [mbind option_bind]. destruct (ipv6_int_of_str addr) as [n|] eqn:En; [|done].
    intros [= <-]. exists n, (Some scope). split; [done|]. split; [|done].
    unfold ipv6_int_of_str in En. destruct (_ <? _)%nat; [done|]. destruct (expand_v4_suffix _); [|done]. cbn [mbind option_bind] in En.
    destruct (_ <? _)%nat; [done|]. by eapply ipv6_parts_range.
  - cbn [mbind option_bind]. destruct (ipv6_int_of_str s) as [n|] eqn:En; [|done].
    intros [= <-]. exists n, None. split; [done|]. split; [|done].
    unfold ipv6_int_of_str in En. destruct (_ <? _)%nat; [done|]. destruct (expand_v4_suffix _); [|done]. cbn [mbind option_bind] in En.
    destruct (_ <? _)%nat; [done|]. by eapply ipv6_parts_range.
Qed.

Lemma ip_of_str_ok s a : cut "%" s = None -> ip_of_str s = Some a -> address_ok a.
Proof.
  intros Hs. unfold ip_of_str. destruct (ipv4_of_str s) as [n|] eqn:E4.
  - intros [= <-]. by apply ipv4_range in E4.
  - destruct (contains _ _); [done|]. intros (n & scope & -> & Hn & Hc)%ipv6_range. split; auto.
Qed.

(** A text made of parts holds the separator. *)
Lemma contains_join c l : (2 <= List.length l)%nat -> contains (String c "") (join (String c "") l) = true.
Proof.
  destruct l as [|x [|y l]]; cbn [List.length]; [lia|lia|]. intros _.
  change (join (String c "") (x :: y :: l)) with (x +:+ String c (join (String c "") (y :: l))).
  induction x as [|d x IH].
  - change ("" +:+ ?s) with s. cbn [contains]. rewrite prefix_char. unfold is_char. by rewrite Ascii.eqb_refl.
  - change (String d x +:+ ?s) with (String d (x +:+ s)). cbn [contains]. by rewrite IH, orb_true_r.
Qed.

Lemma ipv6_contains n : contains ":" (ipv6_str n) = true.
Proof. unfold ipv6_str. apply contains_join. pose proof (ipv6_parts_length n). lia. Qed.

Lemma hex_no_space c : is_hex c || is_char ":" c || is_char "." c = true -> is_space c = false.
Proof. destruct c as [[] [] [] [] [] [] [] []]; vm_compute; by intros [=]. Qed.

Lemma ip_str_chars a : address_ok a -> sall (fun c => is_hex c || is_char ":" c || is_char "." c) (ip_str a) = true.
Proof.
  destruct a as [n|n scope]; cbn [address_ok ip_str].
  - intros Hn. rewrite ipv4_str_groups. apply sall_join; [done|]. apply List.Forall_map, List.Forall_forall. intros v Hv%groups_bound; [|lia].
    apply octet_ok in Hv as [_ Hv]. apply andb_prop in Hv as [Hv _]. eapply sall_impl; [|exact Hv]. by intros c ->.
  - intros [Hn ->]. eapply sall_impl; [|by apply ipv6_chars]. cbv beta. by intros c ->.
Qed.

Lemma ip_str_free c a : address_ok a -> is_hex c || is_char ":" c || is_char "." c = false -> char_free c (ip_str a) = true.
Proof.
  intros Ha Hc. eapply sall_impl; [|by apply ip_str_chars]. intros d Hd. unfold is_char. destruct (Ascii.eqb_spec c d) as [->|]; [|done].
  cbv beta in Hd. by rewrite Hc in Hd.
Qed.

Lemma strip_ip_str a : address_ok a -> strip (ip_str a) = ip_str a.
Proof.
  intros Ha. apply strip_by_id. eapply sall_impl; [|by apply ip_str_chars]. intros c Hc. by rewrite hex_no_space.
Qed.
