(* ===== verification/PyTime.v ===== *)
(** * Dates and times

    A naive [datetime] is its number of seconds since 1970-01-01 00:00:00 in the
    proleptic Gregorian calendar; microseconds are dropped, since every use in the Hub
    truncates to seconds.  [datetime.strptime] for the two formats the Hub reads,
    [strftime] and [isoformat] are written out; the local time zone is an interface. *)

From S2P Require Import Prelude PyNum.

(** The local time zone of the host: [datetime.fromtimestamp] and [.timestamp()]. *)
Class TimeZone := {
  to_local : Z -> Z;   (** epoch seconds to naive local seconds *)
  of_local : Z -> Z;   (** naive local seconds to epoch seconds *)
}.

(** A zone with a constant offset, for witnesses and for hosts without DST. *)
Definition fixed_zone (offset : Z) : TimeZone :=
  {| to_local := fun e => e + offset; of_local := fun n => n - offset |}.

Definition is_leap (y : Z) : bool :=
  (y mod 4 =? 0) && (negb (y mod 100 =? 0) || (y mod 400 =? 0)).

Definition days_in_month (y m : Z) : Z :=
  if m =? 2 then (if is_leap y then 29 else 28)
  else if (m =? 4) || (m =? 6) || (m =? 9) || (m =? 11) then 30 else 31.

(** Days since 1970-01-01 of a civil date, counting years from March. *)
Definition days_of_civil (y m d : Z) : Z :=
  let y' := if m <=? 2 then y - 1 else y in
  let era := y' / 400 in
  let yoe := y' - era * 400 in
  let doy := (153 * (if 2 <? m then m - 3 else m + 9) + 2) / 5 + d - 1 in
  let doe := yoe * 365 + yoe / 4 - yoe / 100 + doy in
  era * 146097 + doe - 719468.

Definition civil_of_days (z0 : Z) : Z * Z * Z :=
  let z := z0 + 719468 in
  let era := z / 146097 in
  let doe := z - era * 146097 in
  let yoe := (doe - doe / 1460 + doe / 36524 - doe / 146096) / 365 in
  let y := yoe + era * 400 in
  let doy := doe - (365 * yoe + yoe / 4 - yoe / 100) in
  let mp := (5 * doy + 2) / 153 in
  let d := doy - (153 * mp + 2) / 5 + 1 in
  let m := if mp <? 10 then mp + 3 else mp - 9 in
  ((if m <=? 2 then y + 1 else y), m, d).

Definition secs_per_day : Z := 86400.

(** [datetime(y, m, d, H, M, S)]; [None] is a [ValueError]. *)
Definition mk_datetime (y mo d h mi s : Z) : option Z :=
  if (1 <=? y) && (y <=? 9999) && (1 <=? mo) && (mo <=? 12)
     && (1 <=? d) && (d <=? days_in_month y mo)
     && (0 <=? h) && (h <=? 23) && (0 <=? mi) && (mi <=? 59) && (0 <=? s) && (s <=? 59)
  then Some (days_of_civil y mo d * secs_per_day + h * 3600 + mi * 60 + s)
  else None.

(** A one- or two-digit field with a value in [[lo, hi]] ([%m], [%H], [%M], [%S]). *)
Definition field2 (lo hi : Z) (s : string) : option (Z * string) :=
  let '(run, rest) := span is_digit s in
  let v := dec_val 0 run in
  if ((String.length run =? 1) || (String.length run =? 2))%nat && (lo <=? v) && (v <=? hi)
  then Some (v, rest) else None.

(** [%d] also accepts a space before a single digit. *)
Definition field_day (s : string) : option (Z * string) :=
  match s with
  | String " "%char s' =>
      let '(run, rest) := span is_digit s' in
      if (String.length run =? 1)%nat && (1 <=? dec_val 0 run) then Some (dec_val 0 run, rest) else None
  | _ => field2 1 31 s
  end.

Definition field_year (s : string) : option (Z * string) :=
  let '(run, rest) := span is_digit s in
  if (String.length run =? 4)%nat then Some (dec_val 0 run, rest) else None.

Definition literal (c : ascii) (s : string) : option string :=
  match s with
  | String d s' => if Ascii.eqb c (lower_char d) then Some s' else None
  | EmptyString => None
  end.

(** The character between date and time: [\s+] for the format with a space, a
    case-insensitive [T] for the other. *)
Inductive dt_format := FmtSpace | FmtT.

Definition separator (f : dt_format) (s : string) : option string :=
  match f with
  | FmtSpace => let '(ws, rest) := span is_space s in if nonempty ws then Some rest else None
  | FmtT => literal "t"%char s
  end.

(** [datetime.strptime(s, "%Y-%m-%d %H:%M:%S")] and the format with [T]. *)
Definition strptime (f : dt_format) (s : string) : option Z :=
  '(y, s) ← field_year s; s ← literal "-"%char s;
  '(mo, s) ← field2 1 12 s; s ← literal "-"%char s;
  '(d, s) ← field_day s; s ← separator f s;
  '(h, s) ← field2 0 23 s; s ← literal ":"%char s;
  '(mi, s) ← field2 0 59 s; s ← literal ":"%char s;
  '(sec, s) ← field2 0 61 s;
  if nonempty s then None else mk_datetime y mo d h mi sec.

(** [dt.date().isoformat()] and [dt.strftime("%Y-%m-%d %H:%M:%S")]. *)
Definition format_date (n : Z) : string :=
  let '(y, m, d) := civil_of_days (n / secs_per_day) in
  pad_int 4 y +:+ "-" +:+ pad_int 2 m +:+ "-" +:+ pad_int 2 d.

Definition format_clock (n : Z) : string :=
  let t := n mod secs_per_day in
  pad_int 2 (t / 3600) +:+ ":" +:+ pad_int 2 (t mod 3600 / 60) +:+ ":" +:+ pad_int 2 (t mod 60).

Definition format_datetime (n : Z) : string := format_date n +:+ " " +:+ format_clock n.

(** Midnight of the day of [n]. *)
Definition midnight (n : Z) : Z := n / secs_per_day * secs_per_day.

Lemma midnight_le n : midnight n <= n < midnight n + secs_per_day.
Proof. unfold midnight, secs_per_day. pose proof (Z.div_mod n 86400). pose proof (Z.mod_pos_bound n 86400). lia. Qed.
