(* ===== verification/HubValues.v ===== *)
(** * Value helpers of [hub.py]

    The conversions every handler uses: saved-value cleaning, integers, MAC addresses,
    traffic counters, durations, versions and times. *)

From S2P Require Import Prelude PyNum PyVal PyTime.

(** ** Saved values, integers, MAC addresses *)

Definition clean_saved_value (v : pyval) : string :=
  let text := match v with PNone => "" | _ => strip (py_str v) end in
  if str_in (lower text) [""; "null"; "none"; "nan"] || String.eqb text "-" then "" else text.

Definition clean_str (s : string) : string := clean_saved_value (PStr s).

Definition to_int (v : pyval) (dflt : Z) : Z := default dflt (int_of_str (py_str v)).

(** The two-character slices [m[i:i+2]]. *)
Fixpoint pairs_of (n : nat) (m : string) : list string :=
  match n with O => [] | S n' => py_take 2 m :: pairs_of n' (py_drop 2 m) end.

Definition norm_mac (mac : pyval) : string :=
  if negb (truthy mac) then ""
  else
    let m := strip (replace "." "" (replace "-" ":" (lower (py_str mac)))) in
    if negb (contains ":" m) && (py_len m =? 12) then join ":" (pairs_of 6 m) else m.

Definition prefer_name (item : dict) : string :=
  match List.find (fun key => negb (py_in (get item key) [PNone; PStr ""]))
          ["devUserDefine"; "devRecommend"; "hostName"; "name"; "manufacture"; "mac"] with
  | Some key => py_str (get item key)
  | None => "未知设备"
  end.

(** ** Traffic *)

Definition overflow_error {A} : result A :=
  Err (Exn "OverflowError" "int too large to convert to float").

(** [float(n)] of an integer. *)
Definition float_of_int (n : Z) : result spec_float :=
  match f_of_Z n with S754_infinity _ => overflow_error | f => Ok f end.

(** [int(f)] of a float. *)
Definition int_of_float (f : spec_float) : result Z :=
  match f_trunc f with
  | Some n => Ok n
  | None => Err (match f with
                 | S754_nan => Exn "ValueError" "cannot convert float NaN to integer"
                 | _ => Exn "OverflowError" "cannot convert float infinity to integer" end)
  end.

Fixpoint human_units (units : list string) (size : spec_float) : string :=
  match units with
  | [] => ""
  | unit :: rest =>
      if f_ltb size (f_of_Z 1024) || match rest with [] => true | _ => false end
      then (if String.eqb unit "B" then f_fixed 0 size else f_fixed 1 size) +:+ unit
      else human_units rest (f_div size (f_of_Z 1024))
  end.

Definition human_bytes (v : pyval) : result string :=
  size ← float_of_int (to_int v 0);
  mret (human_units ["B"; "KB"; "MB"; "GB"; "TB"] size).

Definition traffic_units : list (string * Z) :=
  [("TIB", 1024 ^ 4); ("TB", 1024 ^ 4); ("T", 1024 ^ 4);
   ("GIB", 1024 ^ 3); ("GB", 1024 ^ 3); ("G", 1024 ^ 3);
   ("MIB", 1024 ^ 2); ("MB", 1024 ^ 2); ("M", 1024 ^ 2);
   ("KIB", 1024); ("KB", 1024); ("K", 1024); ("B", 1)].

(** The number and unit of the traffic pattern, at the leftmost digit. *)
Fixpoint first_digit (s : string) : option string :=
  match s with
  | EmptyString => None
  | String c s' => if is_digit c then Some s else first_digit s'
  end.

Definition traffic_match (text : string) : option (string * Z) :=
  s ← first_digit text;
  let '(ip, rest) := span is_digit s in
  let '(number, rest) :=
    match rest with
    | String "."%char r =>
        let '(fp, r') := span is_digit r in
        if nonempty fp then (ip +:+ "." +:+ fp, r') else (ip, rest)
    | _ => (ip, rest)
    end in
  let tail := upper (lstrip_by is_space rest) in
  Some (number, match List.find (fun u => starts_with u.1 tail) traffic_units with
                | Some u => u.2
                | None => 1
                end).

Definition traffic_bytes (v : pyval) : result (option Z) :=
  match v with
  | PNone | PBool _ => Ok None
  | PInt n => Ok (Some (Z.max 0 n))
  | PFloat f => n ← int_of_float f; Ok (Some (Z.max 0 n))
  | _ =>
      let text := replace "," "" (strip (py_str v)) in
      if negb (nonempty text) then Ok None
      else match traffic_match text with
           | None => Ok None
           | Some (number, unit) =>
               match float_of_str number with
               | Some x => n ← int_of_float (f_mul x (f_of_Z unit)); Ok (Some (Z.max 0 n))
               | None => Ok None
               end
           end
  end.

Definition first_traffic_value (item : dict) (ks : list string) : pyval :=
  let containers :=
    item :: omap (fun k => match get item k with PDict d => Some d | _ => None end)
              ["traffic"; "flow"; "trafficStats"; "flowStats"; "statistics"; "stats"] in
  let hits := flat_map (fun c => omap (fun k =>
    match dget c k with
    | Some v => if py_in v [PNone; PStr ""] then None else Some v
    | None => None
    end) ks) containers in
  hd PNone hits.

(** One counter of [normalize_device_traffic]: two flat aliases and a group entry. *)
Definition put_counter (v : option Z) (k1 k2 kg : string) (acc : dict * dict) : dict * dict :=
  match v with
  | Some n => (dset k2 (PInt n) (dset k1 (PInt n) acc.1), dset kg (PInt n) acc.2)
  | None => acc
  end.

Definition normalize_device_traffic (today now : string) (item : dict) : result dict :=
  up ← traffic_bytes (first_traffic_value item
    ["dailyUp"; "todayUp"; "dayUp"; "dailyUpload"; "todayUpload";
     "daily_up"; "today_up"; "todayTx"; "todayTxBytes"]);
  down ← traffic_bytes (first_traffic_value item
    ["dailyDown"; "todayDown"; "dayDown"; "dailyDownload"; "todayDownload";
     "daily_down"; "today_down"; "todayRx"; "todayRxBytes"]);
  tup ← traffic_bytes (first_traffic_value item
    ["up"; "totalUp"; "realtimeUp"; "realTimeUp"; "totalUpload";
     "total_up"; "realtime_up"; "totalTx"; "totalTxBytes"]);
  tdown ← traffic_bytes (first_traffic_value item
    ["down"; "totalDown"; "realtimeDown"; "realTimeDown"; "totalDownload";
     "total_down"; "realtime_down"; "totalRx"; "totalRxBytes"]);
  let '(out, tg) := put_counter up "todayUpload" "dailyUpBytes" "upload" ([], []) in
  let '(out, tg) := put_counter down "todayDownload" "dailyDownBytes" "download" (out, tg) in
  let '(out, rg) := put_counter tup "totalUpload" "upBytes" "upload" (out, []) in
  let '(out, rg) := put_counter tdown "totalDownload" "downBytes" "download" (out, rg) in
  let out := if truthy (PDict tg)
             then dset "trafficDate" (PStr today) (dset "todayTraffic" (PDict tg) out) else out in
  let out := if truthy (PDict rg) then dset "realtimeTraffic" (PDict rg) out else out in
  mret (if truthy (PDict tg) || truthy (PDict rg)
        then dset "trafficUpdatedAt" (PStr now) out else out).

(** ** Durations

    The digit runs of a duration text are read without CPython's limit of 4300 digits. *)

Definition human_duration (seconds : pyval) : string :=
  let sec := to_int seconds 0 in
  if sec <=? 0 then ""
  else
    let h := sec / 3600 in
    let m := sec mod 3600 / 60 in
    if 0 <? h then int_str h +:+ "小时" +:+ pad_int 2 m +:+ "分" else int_str m +:+ "分".

Definition human_duration_precise (seconds : pyval) : string :=
  let sec := to_int seconds 0 in
  if sec <=? 0 then ""
  else
    let h := sec / 3600 in
    let m := sec mod 3600 / 60 in
    let s := sec mod 60 in
    if 0 <? h then int_str h +:+ "小时" +:+ pad_int 2 m +:+ "分" +:+ pad_int 2 s +:+ "秒"
    else if 0 <? m then int_str m +:+ "分" +:+ pad_int 2 s +:+ "秒"
    else int_str s +:+ "秒".

(** [re.search(r"(\d+)lit", s)]: the first digit run directly followed by [lit]. *)
Fixpoint search_number_go (lit cur s : string) : option string :=
  match s with
  | EmptyString => None
  | String c s' =>
      if is_digit c then search_number_go lit (cur +:+ String c "") s'
      else if nonempty cur && String.prefix lit s then Some cur
      else search_number_go lit "" s'
  end.
Definition search_number (lit s : string) : option Z :=
  option_map (dec_val 0) (search_number_go lit "" s).

(** [re.match(r"^(\d+)分(\d+)秒$", s)] and [re.match(r"^(\d+)分$", s)]. *)
Definition match_min_sec (s : string) : option (Z * Z) :=
  let '(a, r) := span is_digit s in
  '(x, r') ← (if nonempty a && starts_with "分" r then Some (a, sdrop 3 r) else None);
  let '(b, r'') := span is_digit r' in
  if nonempty b && String.eqb r'' "秒" then Some (dec_val 0 x, dec_val 0 b) else None.

Definition match_min (s : string) : option Z :=
  let '(a, r) := span is_digit s in
  if nonempty a && String.eqb r "分" then Some (dec_val 0 a) else None.

Definition is_blank_duration (s : string) : bool :=
  negb (nonempty s) || str_in s ["-"; "null"; "None"].

(** [str(text or "")]. *)
Definition str_or_empty (v : pyval) : string := if truthy v then py_str v else "".

Definition pretty_duration_text (text : pyval) : string :=
  let s := strip (str_or_empty text) in
  if is_blank_duration s then ""
  else match match_min_sec s with
  | Some (total, sec) =>
      let h := total / 60 in
      let mm := total mod 60 in
      (if h =? 0 then "" else int_str h +:+ "小时")
        +:+ (if negb (mm =? 0) || (h =? 0) then int_str mm +:+ "分" else "")
        +:+ int_str sec +:+ "秒"
  | None =>
      match match_min s with
      | Some total =>
          let h := total / 60 in
          let mm := total mod 60 in
          if h =? 0 then int_str mm +:+ "分" else int_str h +:+ "小时" +:+ int_str mm +:+ "分"
      | None => replace "时" "小时" s
      end
  end.

Definition duration_text_to_seconds (text : pyval) : Z :=
  let s := replace "时" "小时" (strip (str_or_empty text)) in
  if is_blank_duration s then 0
  else default 0 (search_number "小时" s) * 3600
       + default 0 (search_number "分" s) * 60
       + default 0 (search_number "秒" s).

(** ** Times *)

(** [parse_time_safe]: a naive datetime. *)
Definition parse_time_safe (v : pyval) : option Z :=
  if negb (truthy v) then None
  else
    let text := py_take 19 (strip (py_str v)) in
    match strptime FmtSpace text with
    | Some t => Some t
    | None => strptime FmtT text
    end.

Definition time_to_epoch {tz : TimeZone} (v : pyval) : Z :=
  match parse_time_safe v with Some t => of_local t | None => 0 end.

Definition duration_between (st et : pyval) : string :=
  match parse_time_safe st, parse_time_safe et with
  | Some a, Some b => human_duration_precise (PInt (b - a))
  | _, _ => ""
  end.

(** ** Versions *)

(** [int(x)] of each digit run of [str(value or "")]; the first four, or [(0,)]. *)
Definition version_parts (v : pyval) : result (list Z) :=
  parts ← result_map (fun run => match int_of_str run with
                                 | Some n => Ok n
                                 | None => raise_value_error "Exceeds the limit (4300 digits) for integer string conversion"
                                 end) (runs is_digit (str_or_empty v));
  mret (match firstn 4 parts with [] => [0] | l => l end).

(** Comparison of tuples of integers. *)
Fixpoint tuple_leb (a b : list Z) : bool :=
  match a, b with
  | [], _ => true
  | _ :: _, [] => false
  | x :: a', y :: b' => (x <? y) || (x =? y) && tuple_leb a' b'
  end.

(** ** Dictionaries *)

Definition merge_non_empty (base overlay : dict) : dict :=
  fold_left (fun out kv =>
    if nonempty (clean_saved_value kv.2) || negb (has out kv.1) then dset kv.1 kv.2 out else out)
    overlay base.

Definition compact_blocked : list string :=
  ["raw"; "rawData"; "debug"; "debugInfo"; "packetSamples"; "scanResults"; "samples"].

Fixpoint compact_runtime_document (v : pyval) : pyval :=
  match v with
  | PList l => PList (List.map compact_runtime_document l)
  | PDict d =>
      PDict ((fix go (d : dict) : dict :=
        match d with
        | [] => []
        | (k, x) :: d' =>
            if str_in k compact_blocked then go d' else (k, compact_runtime_document x) :: go d'
        end) d)
  | PStr s => if 65536 <? py_len s then PStr (py_take 65536 s) else v
  | _ => v
  end.

Definition strip_ip_prefix (v : pyval) : string :=
  let text := clean_saved_value v in
  if negb (nonempty text) then ""
  else
    let text := match cut "/" text with
                | Some (a, _) => if starts_with "http" text then text else strip a
                | None => text
                end in
    match text with
    | String "["%char rest => match cut "]" rest with Some (a, _) => strip a | None => text end
    | _ => text
    end.
