(* ===== verification/Json.v ===== *)
(** * JSON texts: [json.dumps] and [json.loads]

    The store compares and keeps the text of a document, so the text is modelled: the
    printer with the options the code uses (compact separators, sorted keys, no ASCII
    escaping) and the parser.  [loads_dumps] is the round trip: reading a printed
    document gives it back with the keys of every dict sorted. *)

From S2P Require Import Prelude PyNum PyVal.

(** ** Printing *)

Definition json_escape (c : ascii) : string :=
  let b := byte_of c in
  if b =? 34 then String "\"%char (String c "")
  else if b =? 92 then "\\"
  else if b =? 10 then "\n" else if b =? 13 then "\r" else if b =? 9 then "\t"
  else if b =? 12 then "\f" else if b =? 8 then "\b"
  else if b <? 32 then "\u00" +:+ hex2 b
  else String c "".

Definition json_quote (s : string) : string :=
  String double_quote (sconcat_map json_escape s +:+ String double_quote "").

Definition json_float (f : spec_float) : string :=
  match f with
  | S754_nan => "NaN"
  | S754_infinity s => if s then "-Infinity" else "Infinity"
  | _ => f_repr f
  end.

Definition key_le {B} (a b : string * B) : bool := sleb a.1 b.1.

(** [json.dumps(v, ensure_ascii=False, separators=(",", ":"), sort_keys=True)]. *)
Fixpoint dumps (v : pyval) : string :=
  match v with
  | PNone => "null"
  | PBool b => if b then "true" else "false"
  | PInt z => int_str z
  | PFloat f => json_float f
  | PStr s => json_quote s
  | PList l => "[" +:+ join "," (List.map dumps l) +:+ "]"
  | PDict d =>
      "{" +:+ join "," (List.map (fun kv => json_quote kv.1 +:+ ":" +:+ kv.2)
                          (isort key_le (List.map (fun kv => (kv.1, dumps kv.2)) d))) +:+ "}"
  end.

(** ** Parsing *)

Definition json_space (c : ascii) : bool := one_of (String (chr 32) (String (chr 9) (String (chr 10) (String (chr 13) "")))) c.
Definition skip_ws (s : string) : string := lstrip_by json_space s.

(** UTF-8 encoding of a code point. *)
Definition utf8 (n : Z) : string :=
  if n <? 128 then chr_str n
  else if n <? 2048 then chr_str (192 + n / 64) +:+ chr_str (128 + n mod 64)
  else if n <? 65536 then
    chr_str (224 + n / 4096) +:+ chr_str (128 + n / 64 mod 64) +:+ chr_str (128 + n mod 64)
  else chr_str (240 + n / 262144) +:+ chr_str (128 + n / 4096 mod 64)
         +:+ chr_str (128 + n / 64 mod 64) +:+ chr_str (128 + n mod 64).

Definition hex4 (a b c d : ascii) : option Z :=
  if is_hex a && is_hex b && is_hex c && is_hex d
  then Some (((hex_val a * 16 + hex_val b) * 16 + hex_val c) * 16 + hex_val d) else None.

Definition simple_escape (c : ascii) : option string :=
  let b := byte_of c in
  if (b =? 34) || (b =? 92) || (b =? 47) then Some (String c "")
  else if b =? 98 then Some (chr_str 8) else if b =? 102 then Some (chr_str 12)
  else if b =? 110 then Some (chr_str 10) else if b =? 114 then Some (chr_str 13)
  else if b =? 116 then Some (chr_str 9) else None.

Definition hex4_of (s : string) : option Z :=
  match s with
  | String a (String b (String c (String d _))) => hex4 a b c d
  | _ => None
  end.

(** The low surrogate that directly follows a high one. *)
Definition low_surrogate (s : string) : option Z :=
  match s with
  | String k1 (String k2 r) =>
      if (byte_of k1 =? 92) && (byte_of k2 =? 117) then
        match hex4_of r with
        | Some w => if (56320 <=? w) && (w <=? 57343) then Some w else None
        | None => None
        end
      else None
  | _ => None
  end.

(** The text an escape stands for, given what follows the backslash, and the number of
    characters it takes. *)
Definition escape (s : string) : option (string * nat) :=
  match s with
  | EmptyString => None
  | String e r =>
      if byte_of e =? 117 then
        u ← hex4_of r;
        if (55296 <=? u) && (u <=? 56319) then
          match low_surrogate (sdrop 4 r) with
          | Some w => Some (utf8 (65536 + (u - 55296) * 1024 + (w - 56320)), 11%nat)
          | None => Some (utf8 u, 5%nat)
          end
        else Some (utf8 u, 5%nat)
      else x ← simple_escape e; Some (x, 1%nat)
  end.

(** The rest of a string literal after its opening quote; [skip] steps over an escape. *)
Fixpoint parse_string_go (skip : nat) (s : string) : option (string * string) :=
  match s with
  | EmptyString => None
  | String c r =>
      match skip with
      | S k => parse_string_go k r
      | O =>
          let b := byte_of c in
          if b =? 34 then Some (EmptyString, r)
          else if b =? 92 then
            '(x, n) ← escape r; '(t, r') ← parse_string_go n r; Some (x +:+ t, r')
          else if b <? 32 then None
          else '(t, r') ← parse_string_go O r; Some (String c t, r')
      end
  end.
Definition parse_string (s : string) : option (string * string) := parse_string_go O s.

(** A JSON number: an integer, or a float when it has a fraction or an exponent. *)
Definition number_frac (s : string) : string * string :=
  match s with
  | String c r => if byte_of c =? 46 then
                    let '(ds, r') := span is_digit r in
                    if nonempty ds then (String c ds, r') else (EmptyString, s)
                  else (EmptyString, s)
  | EmptyString => (EmptyString, s)
  end.

Definition number_exp (s : string) : string * string :=
  match s with
  | String c r =>
      if byte_of (lower_char c) =? 101 then
        let '(sg, r1) := match r with
                         | String d r' => if (byte_of d =? 43) || (byte_of d =? 45)
                                          then (String d "", r') else (EmptyString, r)
                         | EmptyString => (EmptyString, r)
                         end in
        let '(ds, r2) := span is_digit r1 in
        if nonempty ds then (String c (sg +:+ ds), r2) else (EmptyString, s)
      else (EmptyString, s)
  | EmptyString => (EmptyString, s)
  end.

Definition number_int (s : string) : option (string * string) :=
  match s with
  | String c r =>
      if byte_of c =? 48 then Some (String c "", r)
      else let '(ds, r') := span is_digit s in if nonempty ds then Some (ds, r') else None
  | EmptyString => None
  end.

Definition parse_number (s : string) : option (pyval * string) :=
  let '(sg, body) := match s with
                     | String c r => if byte_of c =? 45 then (String c "", r) else (EmptyString, s)
                     | EmptyString => (EmptyString, s)
                     end in
  '(ip, r) ← number_int body;
  let '(fp, r1) := number_frac r in
  let '(ep, r2) := number_exp r1 in
  if nonempty fp || nonempty ep
  then f ← float_of_str (sg +:+ ip +:+ fp +:+ ep); Some (PFloat f, r2)
  else n ← int_of_str (sg +:+ ip); Some (PInt n, r2).

(** The literal constants, and numbers otherwise. *)
Definition json_constants : list (string * pyval) :=
  [("null", PNone); ("true", PBool true); ("false", PBool false); ("NaN", PFloat S754_nan);
   ("Infinity", PFloat (S754_infinity false)); ("-Infinity", PFloat (S754_infinity true))].

Definition parse_atom (s : string) : option (pyval * string) :=
  match List.find (fun c => String.prefix c.1 s) json_constants with
  | Some c => Some (c.2, sdrop (String.length c.1) s)
  | None => parse_number s
  end.

(** Every call consumes a character or one unit of fuel per nesting level, so the length
    of the text is enough fuel. *)
Fixpoint parse_value (fuel : nat) (s : string) : option (pyval * string) :=
  match fuel with
  | O => None
  | S f =>
      match s with
      | EmptyString => None
      | String c r =>
          if byte_of c =? 34 then '(t, r') ← parse_string r; Some (PStr t, r')
          else if byte_of c =? 91 then
            match skip_ws r with
            | String e r' => if byte_of e =? 93 then Some (PList [], r')
                             else '(l, r'') ← parse_elems f (String e r'); Some (PList l, r'')
            | EmptyString => None
            end
          else if byte_of c =? 123 then
            match skip_ws r with
            | String e r' => if byte_of e =? 125 then Some (PDict [], r')
                             else '(d, r'') ← parse_members f (String e r'); Some (PDict (dict_of d), r'')
            | EmptyString => None
            end
          else parse_atom s
      end
  end
with parse_elems (fuel : nat) (s : string) : option (list pyval * string) :=
  match fuel with
  | O => None
  | S f =>
      '(v, r) ← parse_value f s;
      match skip_ws r with
      | String c r' =>
          if byte_of c =? 44 then '(l, r'') ← parse_elems f (skip_ws r'); Some (v :: l, r'')
          else if byte_of c =? 93 then Some ([v], r') else None
      | EmptyString => None
      end
  end
with parse_members (fuel : nat) (s : string) : option (dict * string) :=
  match fuel with
  | O => None
  | S f =>
      match s with
      | String q r =>
          if byte_of q =? 34 then
            '(k, r1) ← parse_string r;
            match skip_ws r1 with
            | String c r2 =>
                if byte_of c =? 58 then
                  '(v, r3) ← parse_value f (skip_ws r2);
                  match skip_ws r3 with
                  | String e r4 =>
                      if byte_of e =? 44
                      then '(d, r5) ← parse_members f (skip_ws r4); Some ((k, v) :: d, r5)
                      else if byte_of e =? 125 then Some ([(k, v)], r4) else None
                  | EmptyString => None
                  end
                else None
            | EmptyString => None
            end
          else None
      | EmptyString => None
      end
  end.

(** [json.loads(s)]; [None] is a [JSONDecodeError] (or the digit limit's [ValueError]). *)
Definition loads (s : string) : option pyval :=
  match parse_value (S (String.length s)) (skip_ws s) with
  | Some (v, r) => if nonempty (skip_ws r) then None else Some v
  | None => None
  end.

(** What a document looks like after it was stored: the keys sorted at every level. *)
Fixpoint sort_keys (v : pyval) : pyval :=
  match v with
  | PList l => PList (List.map sort_keys l)
  | PDict d => PDict (isort key_le (List.map (fun kv => (kv.1, sort_keys kv.2)) d))
  | _ => v
  end.

(** ** The round trip *)

(** Documents without duplicate keys and without floats. *)
Inductive json_ok : pyval -> Prop :=
| ok_none : json_ok PNone
| ok_bool b : json_ok (PBool b)
| ok_int z : int_printable z -> json_ok (PInt z)
| ok_str s : json_ok (PStr s)
| ok_list l : Forall json_ok l -> json_ok (PList l)
| ok_dict d : nodup_keys d -> Forall (fun kv => json_ok kv.2) d -> json_ok (PDict d).

(** Documents as they are built: no duplicate key, no float, integers of any size. *)
Inductive plain : pyval -> Prop :=
| plain_none : plain PNone
| plain_bool b : plain (PBool b)
| plain_int z : plain (PInt z)
| plain_str s : plain (PStr s)
| plain_list l : Forall plain l -> plain (PList l)
| plain_dict d : nodup_keys d -> Forall (fun kv => plain kv.2) d -> plain (PDict d).

(** [json.dumps] refuses integers whose text is too long. *)
Definition z_printable (z : Z) : bool :=
  if Z.log2 (Z.abs z) <? 14000 then true else Z.abs z <? 10 ^ Z.of_nat max_str_digits.

Fixpoint printable (v : pyval) : bool :=
  match v with
  | PInt z => z_printable z
  | PList l => forallb printable l
  | PDict d => forallb (fun kv => printable kv.2) d
  | _ => true
  end.

Definition json_text (v : pyval) : result string :=
  if printable v then Ok (dumps v)
  else raise_value_error "Exceeds the limit (4300 digits) for integer string conversion".

Lemma z_printable_spec z : z_printable z = true -> int_printable z.
Proof.
  unfold z_printable, int_printable. destruct (Z.log2 (Z.abs z) <? 14000) eqn:E; intros; to_prop; [|done].
  destruct (Z.eq_dec z 0) as [->|Hz]; [apply Z.pow_pos_nonneg; lia|].
  apply Z.lt_le_trans with (2 ^ Z.succ (Z.log2 (Z.abs z))); [apply Z.log2_spec; lia|].
  transitivity (2 ^ 14000); [apply Z.pow_le_mono_r; lia|].
  transitivity (10 ^ 4215); [apply Z.leb_le; vm_compute; reflexivity|].
  apply Z.pow_le_mono_r; [lia|]. apply Z.leb_le. vm_compute. reflexivity.
Qed.

Lemma z_printable_complete z : int_printable z -> z_printable z = true.
Proof.
  unfold z_printable, int_printable. intros Hz. destruct (_ <? 14000); [done|]. by apply Z.ltb_lt.
Qed.

Lemma json_ok_plain v : json_ok v -> plain v.
Proof.
  induction v as [| | | | |l IH|d IH] using pyval_ind'; inversion 1; subst; constructor; try done.
  - rewrite List.Forall_forall in *. auto.
  - rewrite List.Forall_forall in *. auto.
Qed.

Lemma json_ok_printable v : json_ok v -> printable v = true.
Proof.
  induction v as [| | | | |l IH|d IH] using pyval_ind'; inversion 1; subst; simpl; try done.
  - by apply z_printable_complete.
  - apply forallb_forall. rewrite List.Forall_forall in *. auto.
  - apply forallb_forall. rewrite List.Forall_forall in *. auto.
Qed.

Lemma plain_json_ok v : plain v -> printable v = true -> json_ok v.
Proof.
  induction v as [| | | | |l IH|d IH] using pyval_ind'; inversion 1; subst; simpl; intros Hp; constructor; try done.
  - by apply z_printable_spec.
  - rewrite List.Forall_forall in *. rewrite forallb_forall in Hp. auto.
  - rewrite List.Forall_forall in *. rewrite forallb_forall in Hp. auto.
Qed.

Lemma json_text_ok v : json_ok v -> json_text v = Ok (dumps v).
Proof. intros Hv. unfold json_text. by rewrite json_ok_printable. Qed.

Lemma json_text_bind {B} v (f : string -> result B) b :
  (json_text v ≫= f) = Ok b -> printable v = true /\ f (dumps v) = Ok b.
Proof. unfold json_text. by destruct (printable v). Qed.

(** *** Sorting by key *)

Lemma isort_map {A B} (le : A -> A -> bool) (le' : B -> B -> bool) (g : A -> B) l :
  (forall a b, le' (g a) (g b) = le a b) ->
  isort le' (List.map g l) = List.map g (isort le l).
Proof.
  intros H. induction l as [|x l IH]; simpl; [done|]. rewrite IH. clear IH.
  induction (isort le l) as [|y m IH]; simpl; [done|].
  rewrite H. destruct (le x y); simpl; [done|]. by rewrite IH.
Qed.

Lemma dumps_dict d :
  dumps (PDict d) =
  "{" +:+ join "," (List.map (fun kv => json_quote kv.1 +:+ ":" +:+ dumps kv.2) (isort key_le d)) +:+ "}".
Proof. simpl. by rewrite (isort_map key_le key_le), List.map_map. Qed.

Lemma sort_keys_dict d :
  sort_keys (PDict d) = PDict (List.map (fun kv => (kv.1, sort_keys kv.2)) (isort key_le d)).
Proof. simpl. by rewrite (isort_map key_le key_le). Qed.

Lemma keys_perm d d' : Permutation d d' -> Permutation (keys d) (keys d').
Proof. apply Permutation_map. Qed.

Lemma nodup_keys_perm d d' : Permutation d d' -> nodup_keys d -> nodup_keys d'.
Proof. intros H. unfold nodup_keys. apply Permutation_NoDup, keys_perm, H. Qed.

Lemma dget_perm d d' k : nodup_keys d -> Permutation d d' -> dget d' k = dget d k.
Proof.
  intros Hd Hp. pose proof (nodup_keys_perm _ _ Hp Hd) as Hd'.
  destruct (dget d k) as [v|] eqn:E.
  - apply In_dget; [done|]. apply dget_In in E. by eapply Permutation_in.
  - apply dget_None_keys. apply dget_None_keys in E. intros H. apply E.
    eapply Permutation_in; [symmetry; by apply keys_perm|done].
Qed.

Lemma json_ok_sort_keys v : json_ok v -> json_ok (sort_keys v).
Proof.
  induction v as [| | | | |l IH|d IH] using pyval_ind'; intros Hv; inversion Hv as [| | | |l' Hl|d' Hn Hd]; subst;
    try done.
  - simpl. constructor. apply List.Forall_forall. intros x (y & <- & Hy)%in_map_iff.
    apply (proj1 (List.Forall_forall _ _) IH y Hy), (proj1 (List.Forall_forall _ _) Hl y Hy).
  - simpl. set (m := List.map _ d).
    pose proof (isort_perm key_le m) as Hp. constructor.
    + apply (nodup_keys_perm m); [by symmetry|]. unfold m, nodup_keys, keys. by rewrite List.map_map.
    + apply List.Forall_forall. intros kv Hin. apply (Permutation_in _ Hp), in_map_iff in Hin as (kv' & <- & Hy).
      apply (proj1 (List.Forall_forall _ _) IH kv' Hy), (proj1 (List.Forall_forall _ _) Hd kv' Hy).
Qed.

Lemma plain_sort_keys v : plain v -> plain (sort_keys v).
Proof.
  induction v as [| | | | |l IH|d IH] using pyval_ind'; intros Hv; inversion Hv as [| | | |l' Hl|d' Hn Hd]; subst;
    try done.
  - simpl. constructor. apply List.Forall_forall. intros x (y & <- & Hy)%in_map_iff.
    apply (proj1 (List.Forall_forall _ _) IH y Hy), (proj1 (List.Forall_forall _ _) Hl y Hy).
  - simpl. set (m := List.map _ d).
    pose proof (isort_perm key_le m) as Hp. constructor.
    + apply (nodup_keys_perm m); [by symmetry|]. unfold m, nodup_keys, keys. by rewrite List.map_map.
    + apply List.Forall_forall. intros kv Hin. apply (Permutation_in _ Hp), in_map_iff in Hin as (kv' & <- & Hy).
      apply (proj1 (List.Forall_forall _ _) IH kv' Hy), (proj1 (List.Forall_forall _ _) Hd kv' Hy).
Qed.

(** Sorting keys changes no lookup. *)
Definition sorted_dict (d : dict) : dict := isort key_le (List.map (fun kv => (kv.1, sort_keys kv.2)) d).

Lemma dget_sorted d k : nodup_keys d -> dget (sorted_dict d) k = option_map sort_keys (dget d k).
Proof.
  intros Hd. unfold sorted_dict. rewrite (dget_perm (List.map (fun kv => (kv.1, sort_keys kv.2)) d)).
  - clear Hd. induction d as [|[k' v] d IH]; simpl; [done|]. by destruct (String.eqb k k').
  - unfold nodup_keys, keys. by rewrite List.map_map.
  - symmetry. apply isort_perm.
Qed.

Lemma nodup_sorted d : nodup_keys d -> nodup_keys (sorted_dict d).
Proof.
  intros Hn. unfold sorted_dict. eapply nodup_keys_perm; [symmetry; apply isort_perm|].
  unfold nodup_keys, keys. by rewrite List.map_map.
Qed.

Lemma sort_keys_sorted_dict d : sort_keys (PDict d) = PDict (sorted_dict d).
Proof. done. Qed.

Lemma get_sorted d k : nodup_keys d -> get (sorted_dict d) k = sort_keys (get d k).
Proof. intros Hd. unfold get. rewrite dget_sorted by done. by destruct (dget d k). Qed.

Lemma json_ok_get d k : json_ok (PDict d) -> json_ok (get d k).
Proof.
  intros H. inversion H as [| | | | |d' Hn Hd]; subst. unfold get.
  destruct (dget d k) as [v|] eqn:E; [|constructor]. apply dget_In in E.
  apply (proj1 (List.Forall_forall _ _) Hd _ E).
Qed.

Lemma plain_get d k : plain (PDict d) -> plain (get d k).
Proof.
  intros H. inversion H as [| | | | |d' Hn Hd]; subst. unfold get.
  destruct (dget d k) as [v|] eqn:E; [|constructor]. apply dget_In in E.
  apply (proj1 (List.Forall_forall _ _) Hd _ E).
Qed.

Lemma Forall_dset (P : pyval -> Prop) k v d :
  P v -> Forall (fun kv => P kv.2) d -> Forall (fun kv => P kv.2) (dset k v d).
Proof.
  intros Hv. induction 1 as [|[k' x] d Hx Hd IH]; simpl; [by repeat constructor|].
  destruct (String.eqb k k'); by constructor.
Qed.

Lemma json_ok_dset k v d : json_ok v -> json_ok (PDict d) -> json_ok (PDict (dset k v d)).
Proof.
  intros Hv H. inversion H as [| | | | |d' Hn Hd]; subst.
  constructor; [by apply nodup_dset|by apply Forall_dset].
Qed.

Lemma plain_dset k v d : plain v -> plain (PDict d) -> plain (PDict (dset k v d)).
Proof.
  intros Hv H. inversion H as [| | | | |d' Hn Hd]; subst.
  constructor; [by apply nodup_dset|by apply Forall_dset].
Qed.

Lemma nodup_filter (f : string * pyval -> bool) d : nodup_keys d -> nodup_keys (List.filter f d).
Proof.
  unfold nodup_keys, keys. intros Hn. induction d as [|kv d IH]; cbn in *; [done|]. inversion Hn; subst.
  destruct (f kv); cbn; [|auto]. constructor; [|auto]. intros (x & Hk & [Hin _]%List.filter_In)%List.in_map_iff.
  match goal with H : ~ In _ _ |- _ => apply H end. apply List.in_map_iff. eauto.
Qed.

Lemma json_ok_filter f d : json_ok (PDict d) -> json_ok (PDict (List.filter f d)).
Proof.
  inversion 1 as [| | | | |d' Hn Hd]; subst. constructor; [by apply nodup_filter|].
  apply List.Forall_forall. intros kv [Hin _]%List.filter_In. by apply (proj1 (List.Forall_forall _ _) Hd).
Qed.

Lemma json_ok_empty : json_ok (PDict []).
Proof. by repeat constructor. Qed.

Lemma ddel_incl k d kv : In kv (ddel k d) -> In kv d.
Proof.
  induction d as [|[k' v'] d IH]; cbn; [done|]. destruct (String.eqb k k'); cbn; [by right|]. intros [?|?]; auto.
Qed.

Lemma plain_ddel k d : plain (PDict d) -> plain (PDict (ddel k d)).
Proof.
  inversion 1 as [| | | | |d' Hn Hd]; subst. constructor; [by apply nodup_ddel|].
  rewrite List.Forall_forall in *. intros kv Hin%ddel_incl. by apply Hd.
Qed.

Lemma plain_dupdate d e : plain (PDict d) -> List.Forall (fun kv => plain kv.2) e -> plain (PDict (dupdate d e)).
Proof. intros Hd He. revert d Hd. unfold dupdate. induction He as [|[k v] e Hv _ IH]; intros d Hd; cbn; [done|]. apply IH. by apply plain_dset. Qed.
Lemma plain_dict_of items : List.Forall (fun kv => plain kv.2) items -> plain (PDict (dict_of items)).
Proof. apply plain_dupdate. repeat constructor. Qed.

Lemma plain_nodup d : plain (PDict d) -> nodup_keys d.
Proof. by inversion 1. Qed.

Lemma plain_in l v : plain (PList l) -> In v l -> plain v.
Proof. inversion 1 as [| | | |l' Hl|]; subst. by apply (proj1 (List.Forall_forall _ _) Hl). Qed.

Lemma plain_get_or d k v : plain (PDict d) -> plain v -> plain (get_or d k v).
Proof. intros Hd Hv. pose proof (plain_get d k Hd) as Hg. unfold get_or, get in *. by destruct (dget d k). Qed.

Lemma plain_por a b : plain a -> plain b -> plain (por a b).
Proof. unfold por. by destruct (truthy a). Qed.

Lemma plain_dict_or_empty v : plain v -> plain (PDict (dict_or_empty v)).
Proof. destruct v; try done; by repeat constructor. Qed.

Lemma plain_dicts rows : List.Forall (fun row => plain (PDict row)) rows -> plain (PList (List.map PDict rows)).
Proof. intros Hr. constructor. by apply List.Forall_map. Qed.

Lemma plain_empty : plain (PDict []).
Proof. by repeat constructor. Qed.

Lemma plain_first_of d ks : plain (PDict d) -> plain (first_of d ks).
Proof.
  intros Hd. induction ks as [|k ks IH]; cbn [first_of]; [constructor|].
  destruct ks as [|k' ks]; [by apply plain_get|]. by apply plain_por; [apply plain_get|].
Qed.

Lemma plain_fields d : plain (PDict d) -> List.Forall (fun kv => plain kv.2) d.
Proof. by inversion 1. Qed.

Create HintDb plain discriminated.
#[export] Hint Resolve plain_get_or plain_get plain_por plain_dict_or_empty plain_dicts plain_dset plain_empty json_ok_plain : plain.
#[export] Hint Constructors plain : plain.

Lemma json_ok_list l : json_ok (PList l) <-> Forall json_ok l.
Proof. split; [by inversion 1|by constructor]. Qed.

Lemma json_ok_in l v : json_ok (PList l) -> In v l -> json_ok v.
Proof. intros H%json_ok_list. by apply (proj1 (List.Forall_forall _ _) H). Qed.

Lemma dset_fresh k v d : ~ In k (keys d) -> dset k v d = d ++ [(k, v)].
Proof.
  induction d as [|[k' v'] d IH]; simpl; [done|]. intros H.
  destruct (String.eqb_spec k k') as [->|]; [tauto|]. rewrite IH; tauto.
Qed.

Lemma dupdate_fresh d e :
  nodup_keys e -> (forall k, In k (keys e) -> ~ In k (keys d)) -> dupdate d e = d ++ e.
Proof.
  unfold nodup_keys, dupdate. revert d. induction e as [|[k v] e IH]; intros d Hn Hf; simpl in *.
  - by rewrite app_nil_r.
  - inversion Hn; subst. rewrite (dset_fresh _ _ _ (Hf k ltac:(by left))).
    rewrite IH; [by rewrite <- app_assoc|done|].
    intros k' Hk'. unfold keys. rewrite List.map_app, in_app_iff. simpl.
    intros [?|[<-|[]]]; [by apply (Hf k'); [right|]|done].
Qed.

Lemma dict_of_nodup d : nodup_keys d -> dict_of d = d.
Proof. intros H. unfold dict_of. rewrite dupdate_fresh; [done|done|]. simpl. auto. Qed.

(** *** Strings *)

Lemma json_escape_range c :
  json_escape c = String c "" \/ byte_of c = 34 \/ byte_of c = 92 \/ byte_of c < 32.
Proof.
  unfold json_escape. repeat case_match; to_prop; auto; try (right; lia).
Qed.

Lemma byte_eq c n : byte_of c = n -> c = chr n.
Proof. intros <-. by rewrite chr_byte_of. Qed.

(** The control characters, where escaping depends on the character. *)
Lemma parse_escape_low (n : Z) t :
  0 <= n < 32 ->
  parse_string (json_escape (chr n) +:+ t) = ('(u, r) ← parse_string t; Some (String (chr n) u, r)).
Proof.
  intros Hn.
  assert (In n (List.map Z.of_nat (seq 0 32))) as Hin.
  { apply in_map_iff. exists (Z.to_nat n). split; [lia|]. apply in_seq. lia. }
  simpl in Hin. destruct_or! Hin; subst n; done || reflexivity.
Qed.

Lemma parse_string_escape c t :
  parse_string (json_escape c +:+ t) = ('(u, r) ← parse_string t; Some (String c u, r)).
Proof.
  destruct (Z_lt_dec (byte_of c) 32) as [Hlow|Hge].
  { rewrite <- (chr_byte_of c). apply parse_escape_low. pose proof (byte_of_bound c). lia. }
  unfold json_escape.
  destruct (byte_of c =? 34) eqn:E34; [apply Z.eqb_eq, byte_eq in E34 as ->; reflexivity|].
  destruct (byte_of c =? 92) eqn:E92; [apply Z.eqb_eq, byte_eq in E92 as ->; reflexivity|].
  repeat (case_match; to_prop; [exfalso; lia|]).
  unfold parse_string. simpl.
  rewrite (proj2 (Z.eqb_neq (byte_of c) 34) E34), (proj2 (Z.eqb_neq (byte_of c) 92) E92).
  case_match; to_prop; [lia|]. reflexivity.
Qed.

Lemma parse_string_quote s rest :
  parse_string (sconcat_map json_escape s +:+ String double_quote rest) = Some (s, rest).
Proof.
  induction s as [|c s IH]; [reflexivity|].
  simpl sconcat_map. rewrite append_assoc, parse_string_escape, IH. reflexivity.
Qed.

(** *** Numbers and constants *)

(** What may follow a printed value: nothing, or a separator or closing bracket. *)
Definition stop (s : string) : Prop :=
  match s with
  | EmptyString => True
  | String c _ => byte_of c = 44 \/ byte_of c = 93 \/ byte_of c = 125
  end.

Lemma stop_no_digit rest :
  stop rest -> match rest with EmptyString => true | String c _ => negb (is_digit c) end = true.
Proof.
  destruct rest as [|c r]; simpl; [done|]. intros H. apply negb_true_iff.
  unfold is_digit. rewrite in_range_false. lia.
Qed.

Lemma number_int_nat_str n rest :
  0 <= n -> stop rest -> number_int (nat_str n +:+ rest) = Some (nat_str n, rest).
Proof.
  intros Hn Hr. destruct (Z.eq_dec n 0) as [->|Hz]; [reflexivity|].
  destruct (nat_str_head n ltac:(lia)) as (c & t & E & Hc).
  assert (span is_digit (nat_str n +:+ rest) = (nat_str n, rest)) as Hs
    by (apply span_app; [by apply nat_str_digits|by apply stop_no_digit]).
  rewrite E in *. unfold number_int. simpl in *. apply Z.eqb_neq in Hc. rewrite Hc, Hs. done.
Qed.

Lemma number_frac_stop rest : stop rest -> number_frac rest = (EmptyString, rest).
Proof.
  destruct rest as [|c r]; simpl; [done|]. intros H.
  destruct (byte_of c =? 46) eqn:E; to_prop; [lia|done].
Qed.

Lemma lower_char_id c : byte_of c < 65 \/ 90 < byte_of c -> lower_char c = c.
Proof.
  intros H. unfold lower_char, is_upper.
  by rewrite (proj2 (in_range_false 65 90 c)) by lia.
Qed.

Lemma number_exp_stop rest : stop rest -> number_exp rest = (EmptyString, rest).
Proof.
  destruct rest as [|c r]; [done|]. cbn [stop number_exp]. intros H.
  rewrite lower_char_id by lia. destruct (byte_of c =? 101) eqn:E; to_prop; [lia|done].
Qed.

Lemma parse_number_int z rest :
  int_printable z -> stop rest -> parse_number (int_str z +:+ rest) = Some (PInt z, rest).
Proof.
  intros Hz Hr. pose proof (int_of_str_int_str z Hz) as Hi. unfold int_str in *.
  destruct (z <? 0) eqn:E; to_prop.
  - unfold parse_number. simpl. rewrite number_int_nat_str by (lia || done). simpl.
    rewrite number_frac_stop, number_exp_stop by done. simpl. by rewrite Hi.
  - unfold parse_number.
    assert (match nat_str z +:+ rest with
            | EmptyString => (EmptyString, nat_str z +:+ rest)
            | String c r => if byte_of c =? 45 then (String c "", r)
                            else (EmptyString, nat_str z +:+ rest)
            end = (EmptyString, nat_str z +:+ rest)) as ->.
    { pose proof (nat_str_digits z E) as Hd. destruct (nat_str z) as [|c t] eqn:En.
      - by destruct (nat_str_ne z).
      - simpl in *. apply andb_prop in Hd as [Hd _]. unfold is_digit in Hd.
        rewrite in_range_spec in Hd. destruct (byte_of c =? 45) eqn:E45; to_prop; [lia|done]. }
    rewrite number_int_nat_str by done. simpl.
    rewrite number_frac_stop, number_exp_stop by done. simpl. by rewrite Hi.
Qed.

(** The first character of a printed integer starts no constant. *)
Lemma int_str_head z : exists c t, int_str z = String c t /\ (is_digit c = true \/ byte_of c = 45).
Proof.
  unfold int_str. destruct (z <? 0) eqn:E; to_prop.
  - eexists _, _. split; [done|]. by right.
  - pose proof (nat_str_digits z E) as Hd. destruct (nat_str z) as [|c t] eqn:En.
    + by destruct (nat_str_ne z).
    + simpl in Hd. apply andb_prop in Hd as [Hd _]. eauto.
Qed.

Lemma prefix_head_ne c d p s : c <> d -> String.prefix (String c p) (String d s) = false.
Proof. intros H. simpl. by destruct (ascii_dec c d). Qed.

Lemma parse_atom_int z rest :
  int_printable z -> stop rest -> parse_atom (int_str z +:+ rest) = Some (PInt z, rest).
Proof.
  intros Hz Hr. unfold parse_atom.
  assert (List.find (fun c => String.prefix c.1 (int_str z +:+ rest)) json_constants = None) as ->;
    [|by apply parse_number_int].
  unfold int_str. destruct (z <? 0) eqn:E; to_prop.
  - assert (sall is_digit (nat_str (- z)) = true) as Hd by (apply nat_str_digits; lia).
    destruct (nat_str (- z)) as [|c t] eqn:En; [by destruct (nat_str_ne (- z))|].
    simpl in Hd. apply andb_prop in Hd as [Hd _].
    unfold json_constants. cbn [List.find fst String.append].
    assert (String.prefix "-Infinity" (String "-" (String c (t +:+ rest)))
            = String.prefix "Infinity" (String c (t +:+ rest))) as -> by reflexivity.
    rewrite !prefix_head_ne; [done|..]; try discriminate. intros <-; discriminate.
  - assert (sall is_digit (nat_str z) = true) as Hd by (apply nat_str_digits; lia).
    destruct (nat_str z) as [|c t] eqn:En; [by destruct (nat_str_ne z)|].
    simpl in Hd. apply andb_prop in Hd as [Hd _].
    unfold json_constants. cbn [List.find fst String.append].
    rewrite !prefix_head_ne; [done|..]; intros <-; discriminate.
Qed.

(** Every printed value starts with a character that is neither a space nor a closing
    bracket. *)
Definition opens (s : string) : Prop :=
  match s with
  | EmptyString => False
  | String c _ => json_space c = false /\ byte_of c <> 93 /\ byte_of c <> 125
  end.

Lemma json_space_digit c : is_digit c = true \/ byte_of c = 45 -> json_space c = false.
Proof.
  intros H. destruct (json_space c) eqn:E; [|done]. exfalso.
  assert (byte_of c = 32 \/ byte_of c = 9 \/ byte_of c = 10 \/ byte_of c = 13) as Hb.
  { unfold json_space, one_of in E. cbn [sexists] in E.
    repeat (apply orb_prop in E as [E|E]; [apply Ascii.eqb_eq in E; subst c; vm_compute; tauto|]); done. }
  unfold is_digit in H. rewrite in_range_spec in H. lia.
Qed.

Lemma dumps_opens v : json_ok v -> opens (dumps v).
Proof.
  intros [| [] | z | | |]; try (simpl; split; [reflexivity|split; discriminate]).
  - destruct (int_str_head z) as (c & t & E & Hc). simpl. rewrite E. simpl.
    split; [by apply json_space_digit|]. unfold is_digit in Hc. rewrite in_range_spec in Hc. lia.
Qed.

Lemma skip_ws_opens s t : opens s -> skip_ws (s +:+ t) = s +:+ t.
Proof.
  destruct s as [|c s]; [done|]. intros [H _]. unfold skip_ws.
  cbn [String.append lstrip_by]. by rewrite H.
Qed.

Fixpoint vsize (v : pyval) : nat :=
  match v with
  | PList l => S (list_sum (List.map (fun x => S (vsize x)) l))
  | PDict d => S (list_sum (List.map (fun kv => S (vsize kv.2)) d))
  | _ => 1%nat
  end.

Definition parses (v : pyval) : Prop :=
  forall f rest, (vsize v <= f)%nat -> stop rest ->
    parse_value f (dumps v +:+ rest) = Some (sort_keys v, rest).

Lemma parse_elems_dumps l f rest :
  l <> [] -> Forall json_ok l -> Forall parses l ->
  (list_sum (List.map (fun x => S (vsize x)) l) <= f)%nat ->
  parse_elems f (join "," (List.map dumps l) +:+ String "]" rest)
  = Some (List.map sort_keys l, rest).
Proof.
  revert f. induction l as [|v l IH]; intros f Hne Hok Hp Hf; [done|].
  inversion Hok; subst. inversion Hp as [|? ? Hv Hl]; subst. simpl in Hf.
  destruct f as [|f]; [lia|]. cbn [parse_elems].
  destruct l as [|w l].
  - simpl List.map. simpl join. rewrite Hv by (simpl in *; auto with lia). reflexivity.
  - change (join "," (List.map dumps (v :: w :: l))) with
      (dumps v +:+ "," +:+ join "," (List.map dumps (w :: l))).
    rewrite !append_assoc, Hv by (simpl in *; auto with lia).
    assert (opens (join "," (List.map dumps (w :: l)))) as Ho.
    { match goal with H : Forall json_ok (w :: l) |- _ => inversion H; subst end.
      pose proof (dumps_opens w ltac:(done)) as Hw. simpl.
      destruct l; [done|]. simpl. by destruct (dumps w). }
    simpl. rewrite skip_ws_opens by done.
    change (join "," (dumps w :: List.map dumps l)) with (join "," (List.map dumps (w :: l))).
    rewrite IH; [reflexivity|done|done|done|simpl in *; lia].
Qed.

Definition member_text (kv : string * pyval) : string := json_quote kv.1 +:+ ":" +:+ dumps kv.2.

(** One member, up to the separator that follows it. *)
Lemma parse_member_step f k v tl :
  json_ok v -> parses v -> (vsize v <= f)%nat -> stop tl ->
  parse_members (S f) (member_text (k, v) +:+ tl) =
  match skip_ws tl with
  | String e r4 =>
      if byte_of e =? 44 then '(d, r5) ← parse_members f (skip_ws r4); Some ((k, sort_keys v) :: d, r5)
      else if byte_of e =? 125 then Some ([(k, sort_keys v)], r4) else None
  | EmptyString => None
  end.
Proof.
  intros Hok Hv Hf Htl. unfold member_text, json_quote. simpl fst. simpl snd.
  rewrite !append_assoc. cbn [String.append parse_members].
  change (byte_of double_quote =? 34) with true. cbv beta iota.
  rewrite append_assoc. cbn [String.append]. rewrite parse_string_quote.
  cbn [mbind option_bind]. change (skip_ws (String ":" (dumps v +:+ tl))) with (String ":" (dumps v +:+ tl)).
  cbv beta iota. change (byte_of ":" =? 58) with true. cbv beta iota.
  rewrite skip_ws_opens by by apply dumps_opens. by rewrite Hv.
Qed.

Lemma member_text_opens kv t : skip_ws (member_text kv +:+ t) = member_text kv +:+ t.
Proof. apply skip_ws_opens. unfold member_text, json_quote. simpl. split; [reflexivity|split; discriminate]. Qed.

Lemma parse_members_dumps d f rest :
  d <> [] -> Forall (fun kv => json_ok kv.2) d -> Forall (fun kv => parses kv.2) d ->
  (list_sum (List.map (fun kv => S (vsize kv.2)) d) <= f)%nat ->
  parse_members f (join "," (List.map member_text d) +:+ String "}" rest)
  = Some (List.map (fun kv => (kv.1, sort_keys kv.2)) d, rest).
Proof.
  revert f. induction d as [|[k v] d IH]; intros f Hne Hok Hp Hf; [done|].
  inversion Hok as [|? ? Hkv Hok']; subst. inversion Hp as [|? ? Hv Hl]; subst.
  change (S (vsize v + list_sum (List.map (fun kv => S (vsize kv.2)) d)) <= f)%nat in Hf.
  cbn [snd] in Hkv, Hv. destruct f as [|f]; [lia|].
  destruct d as [|[k' v'] d].
  - cbn [List.map join]. rewrite parse_member_step by (done || lia || (simpl; tauto)). reflexivity.
  - change (join "," (List.map member_text ((k, v) :: (k', v') :: d))) with
      (member_text (k, v) +:+ "," +:+ join "," (List.map member_text ((k', v') :: d))).
    rewrite !append_assoc, parse_member_step by (done || lia || (simpl; tauto)).
    assert (forall t, skip_ws (join "," (List.map member_text ((k', v') :: d)) +:+ t)
                      = join "," (List.map member_text ((k', v') :: d)) +:+ t) as Hsk.
    { intros t. cbn [List.map join]. destruct (List.map member_text d); rewrite ?append_assoc;
        apply member_text_opens. }
    cbn [String.append]. match goal with |- context [skip_ws (String "," ?t)] =>
      change (skip_ws (String "," t)) with (String "," t) end.
    cbv beta iota. change (byte_of "," =? 44) with true. cbv beta iota.
    rewrite Hsk, IH; [reflexivity|done|done|done|lia].
Qed.

Lemma parse_dumps v : json_ok v -> parses v.
Proof.
  induction v as [| b | z | fl | s | l IH | d IH] using pyval_ind'; intros Hok f rest Hf Hr;
    (destruct f as [|f]; [simpl in Hf; lia|]).
  - by destruct rest.
  - by destruct b, rest.
  - inversion Hok; subst.
    transitivity (parse_atom (int_str z +:+ rest)); [|by apply parse_atom_int].
    simpl dumps. destruct (int_str_head z) as (c & t & E & Hc). rewrite E. cbn [String.append parse_value].
    assert (byte_of c <> 34 /\ byte_of c <> 91 /\ byte_of c <> 123) as (H1 & H2 & H3).
    { unfold is_digit in Hc. rewrite in_range_spec in Hc. lia. }
    by rewrite (proj2 (Z.eqb_neq _ _) H1), (proj2 (Z.eqb_neq _ _) H2), (proj2 (Z.eqb_neq _ _) H3).
  - inversion Hok.
  - simpl. unfold json_quote. simpl. rewrite append_assoc. cbn [String.append].
    by rewrite parse_string_quote.
  - inversion Hok as [| | | |? Hl|]; subst. simpl in Hf.
    destruct l as [|w l]; [reflexivity|].
    assert (Forall parses (w :: l)) as Hp.
    { rewrite Forall_forall in *. auto. }
    assert (opens (join "," (List.map dumps (w :: l)))) as Ho.
    { inversion Hl; subst. pose proof (dumps_opens w ltac:(done)) as Hw. simpl.
      destruct (List.map dumps l); [done|]. by destruct (dumps w). }
    pose proof (parse_elems_dumps (w :: l) f rest ltac:(done) Hl Hp ltac:(simpl in *; lia)) as He.
    change (dumps (PList (w :: l))) with ("[" +:+ join "," (List.map dumps (w :: l)) +:+ "]").
    destruct (join "," (List.map dumps (w :: l))) as [|c t]; [done|].
    rewrite !append_assoc. cbn [String.append parse_value] in *.
    change (byte_of "[" =? 34) with false. change (byte_of "[" =? 91) with true. cbv beta iota.
    destruct Ho as (Hsp & Ho & _). unfold skip_ws. cbn [lstrip_by]. rewrite Hsp.
    rewrite (proj2 (Z.eqb_neq _ _) Ho), He. reflexivity.
  - inversion Hok as [| | | | |? Hn Hd]; subst.
    pose proof (isort_perm key_le d) as Hperm.
    assert (Forall (fun kv => parses kv.2) d) as Hp.
    { rewrite Forall_forall in *. auto. }
    destruct d as [|kv0 d0] eqn:Ed; [reflexivity|]. rewrite <- Ed in *.
    assert (isort key_le d <> []) as Hne.
    { intros E. apply Permutation_length in Hperm. rewrite E, Ed in Hperm. discriminate. }
    pose proof (parse_members_dumps (isort key_le d) f rest Hne
      ltac:(by rewrite Hperm) ltac:(by rewrite Hperm)
      ltac:(rewrite (Permutation_list_sum (Permutation_map _ Hperm)); simpl in *; lia)) as Hm.
    rewrite dumps_dict, sort_keys_dict.
    change (List.map (fun kv => json_quote kv.1 +:+ ":" +:+ dumps kv.2) (isort key_le d))
      with (List.map member_text (isort key_le d)).
    assert (opens (join "," (List.map member_text (isort key_le d)))) as Ho.
    { destruct (isort key_le d) as [|kv d']; [done|]. simpl.
      destruct (List.map member_text d'); simpl; split; try reflexivity; split; discriminate. }
    destruct (join "," (List.map member_text (isort key_le d))) as [|c t]; [done|].
    rewrite !append_assoc. cbn [String.append parse_value] in *.
    change (byte_of "{" =? 34) with false. change (byte_of "{" =? 91) with false.
    change (byte_of "{" =? 123) with true. cbv beta iota.
    destruct Ho as (Hsp & _ & Ho). unfold skip_ws. cbn [lstrip_by]. rewrite Hsp.
    rewrite (proj2 (Z.eqb_neq _ _) Ho), Hm. cbn [mbind option_bind].
    rewrite dict_of_nodup; [done|]. unfold nodup_keys, keys. rewrite List.map_map. simpl.
    eapply Permutation_NoDup; [|exact Hn]. symmetry. by apply Permutation_map.
Qed.

Lemma join_length_ge sep l x :
  In x l -> (String.length x <= String.length (join sep l))%nat.
Proof.
  induction l as [|y l IH]; [done|]. intros [->|H]; destruct l as [|z l]; simpl in *; try done.
  - rewrite append_length. lia.
  - rewrite !append_length. specialize (IH H). lia.
Qed.

Lemma join_length sep l :
  l <> [] -> String.length (join sep l)
    = (list_sum (List.map String.length l) + (List.length l - 1) * String.length sep)%nat.
Proof.
  induction l as [|x l IH]; [done|]. intros _. destruct l as [|y l]; [simpl; lia|].
  change (join sep (x :: y :: l)) with (x +:+ sep +:+ join sep (y :: l)).
  rewrite !append_length, IH by done. simpl. lia.
Qed.

Lemma vsize_dumps v : json_ok v -> (vsize v <= String.length (dumps v))%nat.
Proof.
  induction v as [| b | z | fl | s | l IH | d IH] using pyval_ind'; intros Hok.
  - simpl. lia.
  - destruct b; simpl; lia.
  - simpl. destruct (int_str_head z) as (c & t & -> & _). simpl. lia.
  - inversion Hok.
  - simpl. lia.
  - inversion Hok as [| | | |? Hl|]; subst. simpl. destruct l as [|w l]; [simpl; lia|].
    rewrite append_length, join_length by done. simpl String.length.
    enough (list_sum (List.map (fun x => S (vsize x)) (w :: l)) <=
            list_sum (List.map String.length (List.map dumps (w :: l))) + List.length (w :: l))%nat
      by (rewrite length_map; simpl in *; lia).
    clear Hok. induction Hl as [|x m Hx Hm IHm]; [simpl; lia|].
    inversion IH; subst. simpl in *. specialize (IHm ltac:(done)).
    match goal with H : json_ok x -> _ |- _ => specialize (H Hx) end. lia.
  - inversion Hok as [| | | | |? Hn Hd]; subst. rewrite dumps_dict.
    change (List.map (fun kv => json_quote kv.1 +:+ ":" +:+ dumps kv.2) (isort key_le d))
      with (List.map member_text (isort key_le d)).
    destruct d as [|kv0 d0] eqn:Ed; [simpl; lia|]. rewrite <- Ed in *.
    pose proof (isort_perm key_le d) as Hperm.
    assert (List.map member_text (isort key_le d) <> []) as Hne.
    { intros E%map_eq_nil. apply Permutation_length in Hperm. rewrite E, Ed in Hperm. discriminate. }
    cbn [String.append String.length vsize].
    rewrite append_length, join_length by done. cbn [String.length].
    rewrite (Permutation_list_sum (Permutation_map String.length (Permutation_map member_text Hperm))).
    enough (list_sum (List.map (fun kv => S (vsize kv.2)) d) <=
            list_sum (List.map String.length (List.map member_text d)))%nat by lia.
    clear Ed Hne Hperm Hn Hok. induction Hd as [|[k x] m Hx Hm IHm]; [simpl; lia|].
    inversion IH; subst. simpl in *. specialize (IHm ltac:(done)). rewrite !append_length. simpl.
    match goal with H : json_ok x -> _ |- _ => specialize (H Hx) end. lia.
Qed.

(** Reading a printed document gives it back with its keys sorted. *)
Lemma loads_dumps_sorted v : json_ok v -> loads (dumps v) = Some (sort_keys v).
Proof.
  intros Hok. unfold loads.
  pose proof (skip_ws_opens _ EmptyString (dumps_opens v Hok)) as Hs.
  rewrite append_nil_r in Hs. rewrite Hs.
  pose proof (parse_dumps v Hok (S (String.length (dumps v))) EmptyString) as Hp.
  rewrite append_nil_r in Hp. rewrite Hp; [reflexivity| |done].
  pose proof (vsize_dumps v Hok). lia.
Qed.

(** ** Deciding [json_ok], for concrete documents *)

Fixpoint json_okb (v : pyval) : bool :=
  match v with
  | PNone | PBool _ | PStr _ => true
  | PInt z => Z.abs z <? 2 ^ 64
  | PFloat _ => false
  | PList l => forallb json_okb l
  | PDict d => bool_decide (NoDup (keys d)) && forallb (fun kv => json_okb kv.2) d
  end.

Lemma json_okb_sound v : json_okb v = true -> json_ok v.
Proof.
  induction v as [| | | | |l IH|d IH] using pyval_ind'; simpl; intros Hv; try done; constructor.
  - to_prop. apply small_printable. assert (2 ^ 64 < 2 ^ 1024) by reflexivity. lia.
  - apply List.Forall_forall. intros x Hx. rewrite forallb_forall in Hv.
    apply (proj1 (List.Forall_forall _ _) IH); auto.
  - apply andb_prop in Hv as [Hv _]. apply bool_decide_eq_true in Hv. by apply NoDup_ListNoDup.
  - apply andb_prop in Hv as [_ Hv]. apply List.Forall_forall. intros x Hx. rewrite forallb_forall in Hv.
    apply (proj1 (List.Forall_forall _ _) IH x Hx); auto.
Qed.
