(* ===== verification/Storage.v ===== *)
(** * [labprobe_storage.py]: documents and the revision log

    [SQLiteStore] keeps the JSON text of every document and one revision row per change,
    in one transaction.  A store is a record: the [documents] table as a finite map, the
    [revisions] table as the list of its rows in rowid order, the AUTOINCREMENT counter
    and the two timers of the object.  A transaction that raises leaves the record as it
    was, which is what ROLLBACK does. *)

From S2P Require Import Prelude PyNum PyVal PyTime Json.

(** ** Settings *)

(** [max(minimum, int(os.environ.get(name, str(default))))] with its [except]. *)
Definition env_int (value : option string) (dflt minimum : Z) : Z :=
  match value with
  | None => Z.max minimum dflt
  | Some text => match int_of_str text with Some n => Z.max minimum n | None => dflt end
  end.

Record settings := {
  revision_max_rows : Z;
  revision_max_age_days : Z;
  revision_prune_interval : Z;
  wal_checkpoint_interval : Z;
}.

Definition settings_of_env (env : string -> option string) : settings :=
  {| revision_max_rows := env_int (env "REVISION_MAX_ROWS") 1500 500;
     revision_max_age_days := env_int (env "REVISION_MAX_AGE_DAYS") 2 1;
     revision_prune_interval := env_int (env "REVISION_PRUNE_INTERVAL_SEC") 300 30;
     wal_checkpoint_interval := env_int (env "WAL_CHECKPOINT_INTERVAL_SEC") 900 60 |}.

Definition schema_version : Z := 1.

Definition non_revision_documents : list string :=
  ["device_archive.json"; "portmap_history.json"; "portmap_router_status.json";
   "portmap_commands.json"; "agent_status.json"; "agent_update_commands.json";
   "daily_online.json"; "geo_cache.json"; "router_dashboard.json"].

Definition volatile_device_keys : list string :=
  ["raw"; "rssi"; "rxrate"; "txrate"; "channel"; "activeTime";
   "activeTimeSec"; "onlinetime"; "onlineDurationText";
   "todayOnlineDurationSec"; "todayOnlineDurationText"; "todayOnlineDate";
   "lastSeenAt"; "trafficUpdatedAt"; "trafficDate"; "trafficText";
   "flowUp"; "flowDown"; "flow_cnt"; "up"; "down"; "dailyUp";
   "dailyDown"; "todayUpload"; "todayDownload"; "totalUpload";
   "totalDownload"; "dailyUpBytes"; "dailyDownBytes"; "upBytes";
   "downBytes"; "todayTraffic"; "realtimeTraffic"; "awake"; "psm"].

Definition volatile_status_keys : list string :=
  ["updatedAt"; "devicesUpdatedAt"; "backgroundRefreshedAt";
   "routerLastCheckAt"; "routerUpdatedAt"; "lastSeenAt";
   "trafficUpdatedAt"; "ipv6UpdatedAt"; "receivedAt"; "receivedEpoch"].

(** ** State *)

Record row := {
  r_revision : Z;
  r_entity : string;
  r_operation : string;
  r_key : string;
  r_payload : option string;
  r_created : string;
}.

Record store := {
  documents : gmap string (string * string);   (** key to value_json, updated_at *)
  revisions : list row;                        (** in rowid order *)
  sequence : Z;                                (** AUTOINCREMENT counter of revisions *)
  migrations : list Z;                         (** schema_migrations *)
  last_prune : Z;                              (** _last_revision_prune_at *)
  last_checkpoint : Z;                         (** _last_checkpoint_at *)
}.

Definition empty_store : store :=
  {| documents := ∅; revisions := []; sequence := 0; migrations := [];
     last_prune := 0; last_checkpoint := 0 |}.

(** The clocks one operation reads: wall time in epoch seconds, [time.monotonic()] in
    seconds. *)
Record clock := { wall : Z; mono : Z }.

(** One change of a document: entity, operation, entity key, payload. *)
Record change := { c_entity : string; c_operation : string; c_key : string; c_payload : pyval }.

(** ** What counts as a change *)

(** Iterating over [value or []]. *)
Definition iter_items (v : pyval) : result (list pyval) :=
  if negb (truthy v) then Ok []
  else match v with
       | PList l => Ok l
       | PDict d => Ok (List.map (fun k => PStr k) (keys d))
       | PStr s => Ok (List.map (fun c => PStr (String c "")) (list_ascii_of_string s))
       | _ => Err (Exn "TypeError" ("'" +:+ type_name v +:+ "' object is not iterable"))
       end.

(** [len(value or [])]. *)
Definition len_or_empty (v : pyval) : result Z :=
  if negb (truthy v) then Ok 0
  else match v with
       | PList l => Ok (Z.of_nat (List.length l))
       | PDict d => Ok (Z.of_nat (List.length d))
       | PStr s => Ok (py_len s)
       | _ => Err (Exn "TypeError" ("object of type '" +:+ type_name v +:+ "' has no len()"))
       end.

Definition stable_key (k : string) : bool :=
  negb (str_in k volatile_device_keys)
  && negb (ends_with "bytes" (lower k)) && negb (starts_with "flow" (lower k)).

Definition stable_device (item : pyval) : pyval :=
  match item with
  | PDict d => PDict (List.filter (fun kv => stable_key kv.1) d)
  | _ => item
  end.

Definition revision_blocked : list string :=
  ["raw"; "rawData"; "debug"; "debugInfo"; "ipv6Candidates"; "ipv6Records";
   "packetSamples"; "history"; "samples"; "scanResults"].

Definition revision_device_payload (item : pyval) : pyval :=
  match item with
  | PDict d =>
      PDict (List.filter (fun kv =>
        negb (str_in kv.1 revision_blocked)
        && negb (match kv.2 with PStr s => 4096 <? py_len s | _ => false end)) d)
  | _ => item
  end.

Definition volatile_status_key (k : string) : bool :=
  str_in k volatile_status_keys || ends_with "UpdatedAt" k || ends_with "RefreshedAt" k.

Fixpoint stable_status (root : bool) (v : pyval) : pyval :=
  match v with
  | PList l => PList (List.map (stable_status false) l)
  | PDict d =>
      PDict ((fix go (d : dict) : dict :=
        match d with
        | [] => []
        | (k, x) :: d' =>
            if (root && String.eqb k "devices") || volatile_status_key k then go d'
            else (k, stable_status false x) :: go d'
        end) d)
  | _ => v
  end.

Definition row_key (item : dict) (fallback : string) : string :=
  lower (strip (py_str (por (get item "mac") (por (get item "id") (por (get item "date") (PStr fallback)))))).

(** [{self._row_key(x, str(i)): x for i, x in enumerate(items) if isinstance(x, dict)}]. *)
Definition row_map (items : list pyval) : dict :=
  dict_of (omap (fun ix => match ix.2 with
                           | PDict d => Some (row_key d (int_str (Z.of_nat ix.1)), PDict d)
                           | _ => None
                           end) (imap (fun i x => (i, x)) items)).

Definition deleted_flag (v : pyval) : bool := match v with PDict d => truthy (get d "deleted") | _ => false end.

(** The two list diffs differ in the test that an item changed and in the payload.  The
    removals come in the order of the old list; Python leaves the order of a set open. *)
Definition list_diff_gen (changed : option pyval -> pyval -> bool) (payload : pyval -> pyval)
    (entity : string) (old new : pyval) : result (list change) :=
  o ← iter_items old; n ← iter_items new;
  let old_map := row_map o in
  let new_map := row_map n in
  let upserts := omap (fun kv =>
    if changed (dget old_map kv.1) kv.2 then
      let del := deleted_flag kv.2 in
      Some {| c_entity := entity; c_operation := (if del then "delete" else "upsert");
              c_key := kv.1; c_payload := (if del then PNone else payload kv.2) |}
    else None) new_map in
  let removed := omap (fun kv =>
    if has new_map kv.1 then None
    else Some {| c_entity := entity; c_operation := "delete"; c_key := kv.1; c_payload := PNone |})
    old_map in
  Ok (upserts ++ removed).

Definition changed_exact (prev : option pyval) (v : pyval) : bool :=
  negb (py_eq (default PNone prev) v).

Definition changed_stable (prev : option pyval) (v : pyval) : bool :=
  match prev with
  | None => true
  | Some p => negb (py_eq (stable_device p) (stable_device v))
  end.

Definition list_diff : string -> pyval -> pyval -> result (list change) :=
  list_diff_gen changed_exact (fun v => v).
Definition list_diff_stable : string -> pyval -> pyval -> result (list change) :=
  list_diff_gen changed_stable revision_device_payload.

(** The counters of [devices.json]; the default of [onlineDeviceCount] is computed even
    when the key is present. *)
Definition device_meta (obj : dict) : result pyval :=
  n ← len_or_empty (get_or obj "online" (PList []));
  mret (PDict [("onlineDeviceCount", get_or obj "onlineDeviceCount" (PInt n));
               ("total", get_or obj "total" (PInt 0))]).

Definition changes_for_document (key : string) (old new : pyval) : result (list change) :=
  if str_in key non_revision_documents then Ok []
  else if String.eqb key "devices.json" then
    let old_obj := dict_or_empty old in
    let new_obj := dict_or_empty new in
    old_meta ← device_meta old_obj;
    new_meta ← device_meta new_obj;
    watched ← list_diff_stable "device" (get_or old_obj "watched" (PList [])) (get_or new_obj "watched" (PList []));
    online ← list_diff_stable "online_device" (get_or old_obj "online" (PList [])) (get_or new_obj "online" (PList []));
    mret (watched ++ online ++
          if py_eq old_meta new_meta then []
          else [{| c_entity := "device_meta"; c_operation := "replace"; c_key := "devices"; c_payload := new_meta |}])
  else if String.eqb key "events.json" then
    list_diff "event" (PList (list_or_empty old)) (PList (list_or_empty new))
  else if String.eqb key "state.json" then
    if py_eq (stable_status true old) (stable_status true new) then Ok []
    else Ok [{| c_entity := "status"; c_operation := "replace"; c_key := "status";
                c_payload := stable_status true new |}]
  else Ok [{| c_entity := "document"; c_operation := "replace"; c_key := key; c_payload := new |}].

(** ** Operations *)

Section Store.
Context (cfg : settings) {tz : TimeZone}.

(** [_now()], and SQLite's [datetime('now','localtime','-N days')]. *)
Definition now_text (c : clock) : string := format_datetime (to_local (wall c)).
Definition age_cutoff (c : clock) : string :=
  format_datetime (to_local (wall c) - revision_max_age_days cfg * secs_per_day).

(** [MAX(revision)] and [MIN(revision)], 0 on an empty table. *)
Definition current_revision (s : store) : Z := fold_right Z.max 0 (List.map r_revision (revisions s)).
Definition oldest_revision (s : store) : Z :=
  match List.map r_revision (revisions s) with
  | [] => 0
  | x :: l => fold_right Z.min x l
  end.

Definition insert_revision (c : clock) (e : change) (s : store) : store :=
  {| documents := documents s;
     revisions := revisions s ++
       [{| r_revision := sequence s + 1; r_entity := c_entity e; r_operation := c_operation e;
           r_key := c_key e;
           r_payload := (if is_none (c_payload e) then None else Some (dumps (c_payload e)));
           r_created := now_text c |}];
     sequence := sequence s + 1; migrations := migrations s;
     last_prune := last_prune s; last_checkpoint := last_checkpoint s |}.

Definition insert_revisions (c : clock) (es : list change) (s : store) : store :=
  fold_left (fun s e => insert_revision c e s) es s.

Definition put_document (c : clock) (key text : string) (s : store) : store :=
  {| documents := <[key := (text, now_text c)]> (documents s);
     revisions := revisions s; sequence := sequence s; migrations := migrations s;
     last_prune := last_prune s; last_checkpoint := last_checkpoint s |}.

(** The two DELETE statements: rows outside the age window, then rows below the
    [REVISION_MAX_ROWS]-th largest revision. *)
Definition drop_old (c : clock) (rows : list row) : list row :=
  List.filter (fun r => negb (sltb (r_created r) (age_cutoff c))) rows.

Definition drop_excess (rows : list row) : list row :=
  match nth_error (rev rows) (Z.to_nat (revision_max_rows cfg - 1)) with
  | Some cut => List.filter (fun r => negb (r_revision r <? r_revision cut)) rows
  | None => rows
  end.

Definition prune_revisions (c : clock) (force : bool) (s : store) : store :=
  if negb force && (mono c - last_prune s <? revision_prune_interval cfg) then s
  else {| documents := documents s;
          revisions := drop_excess (drop_old c (revisions s));
          sequence := sequence s; migrations := migrations s;
          last_prune := mono c; last_checkpoint := last_checkpoint s |}.

(** The WAL checkpoint itself changes no table. *)
Definition checkpoint (c : clock) (s : store) : store :=
  if wal_checkpoint_interval cfg <=? mono c - last_checkpoint s
  then {| documents := documents s; revisions := revisions s; sequence := sequence s;
          migrations := migrations s; last_prune := last_prune s; last_checkpoint := mono c |}
  else s.

Definition json_error {A} : result A := Err (Exn "JSONDecodeError" "invalid JSON").

Definition parse_json (text : string) : result pyval :=
  match loads text with Some v => Ok v | None => json_error end.

(** [row is not None and row["value_json"] == encoded]. *)
Definition text_unchanged (key encoded : string) (s : store) : bool :=
  match documents s !! key with Some (text, _) => String.eqb text encoded | None => false end.

Definition old_value (key : string) (s : store) : result pyval :=
  match documents s !! key with
  | Some (text, _) => parse_json text
  | None => Ok PNone
  end.

(** [SQLiteStore.save]: the new store and the returned revision. *)
Definition save (c : clock) (key : string) (value : pyval) (s : store) : result (store * Z) :=
  old ← old_value key s;
  encoded ← json_text value;
  if text_unchanged key encoded s
  then Ok (s, current_revision s)
  else
    changes ← changes_for_document key old value;
    let s := put_document c key encoded s in
    let s := insert_revisions c changes s in
    let s := prune_revisions c false s in
    let s := checkpoint c s in
    Ok (s, current_revision s).

(** [SQLiteStore.load]. *)
Definition load (key : string) (dflt : pyval) (s : store) : pyval :=
  match documents s !! key with
  | None => dflt
  | Some (text, _) => default dflt (loads text)
  end.

(** [document_key] on resolved absolute paths. *)
Definition document_key (data_dir resolved : string) : result string :=
  if String.eqb resolved data_dir then Ok "."
  else if starts_with (data_dir +:+ "/") resolved
  then Ok (sdrop (String.length data_dir + 1) resolved)
  else raise_value_error ("document path outside DATA_DIR: " +:+ resolved).

(** *** Reading the revision log *)

Definition revision_info (s : store) : Z * Z := (oldest_revision s, current_revision s).

Record sync_page := {
  pg_oldest : Z;
  pg_revision : Z;
  pg_from : Z;
  pg_next : option Z;       (** nextRevision, absent when a full sync is required *)
  pg_full : bool;
  pg_more : bool;
  pg_rows : list row;
}.

Definition full_required (oldest current since : Z) : bool :=
  (since <? 0) || ((0 <? oldest) && (since <? oldest - 1)) || (current <? since).

Definition changes_since (since limit : Z) (s : store) : sync_page :=
  let limit := Z.max 1 (Z.min limit 1000) in
  let '(oldest, current) := revision_info s in
  if full_required oldest current since
  then {| pg_oldest := oldest; pg_revision := current; pg_from := since; pg_next := None;
          pg_full := true; pg_more := false; pg_rows := [] |}
  else
    let fetched := firstn (Z.to_nat (limit + 1)) (List.filter (fun r => since <? r_revision r) (revisions s)) in
    let rows := firstn (Z.to_nat limit) fetched in
    {| pg_oldest := oldest; pg_revision := current; pg_from := since;
       pg_next := Some (List.last (List.map r_revision rows) since);
       pg_full := false; pg_more := limit <? Z.of_nat (List.length fetched); pg_rows := rows |}.

(** One entry of the ["changes"] list of the answer. *)
Definition change_json (r : row) : result pyval :=
  payload ← match r_payload r with
            | Some text => if nonempty text then parse_json text else Ok PNone
            | None => Ok PNone
            end;
  mret (PDict [("revision", PInt (r_revision r)); ("sequence", PInt (r_revision r));
               ("entity", PStr (r_entity r)); ("operation", PStr (r_operation r));
               ("key", PStr (r_key r)); ("payload", payload); ("createdAt", PStr (r_created r))]).

(** *** Start-up *)

Definition create_schema (s : store) : result store :=
  let current := fold_right Z.max 0 (migrations s) in
  if schema_version <? current then
    Err (Exn "RuntimeError" ("database schema " +:+ int_str current +:+ " is newer than supported "
                             +:+ int_str schema_version))
  else if current <? 1 then
    Ok {| documents := documents s; revisions := revisions s; sequence := sequence s;
          migrations := migrations s ++ [1]; last_prune := last_prune s;
          last_checkpoint := last_checkpoint s |}
  else Ok s.

(** [_migrate_json_once] on the JSON files found under DATA_DIR, as relative path and
    text; the copies to the backup directory do not touch the store. *)
Definition migrate_json_once (c : clock) (files : list (string * string)) (s : store) : result store :=
  parsed ← result_map (fun f => match loads f.2 with
                                | Some v => Ok (f.1, v)
                                | None => Err (Exn "RuntimeError" ("cannot migrate invalid JSON " +:+ f.1))
                                end) files;
  let s := fold_left (fun s kv => put_document c kv.1 (dumps kv.2) s) parsed s in
  if (size (documents s) =? List.length parsed)%nat then Ok s
  else Err (Exn "RuntimeError" ("JSON migration verification failed: expected "
            +:+ int_str (Z.of_nat (List.length parsed)) +:+ ", got "
            +:+ int_str (Z.of_nat (size (documents s))))).

Definition baseline : change :=
  {| c_entity := "system"; c_operation := "baseline"; c_key := "database"; c_payload := PNone |}.

(** [integrity] is the answer of [PRAGMA integrity_check]. *)
Definition integrity_check (integrity : string) : result unit :=
  if String.eqb (lower integrity) "ok" then Ok tt
  else Err (Exn "RuntimeError" ("SQLite integrity check failed: " +:+ integrity)).

(** [initialize]: [db] is the store found on disk, if the file existed.  When it fails
    on a new database the files are removed, so nothing is left. *)
Definition initialize (c : clock) (files : list (string * string)) (integrity : string)
    (db : option store) : result store :=
  s ← create_schema (default empty_store db);
  s ← match db with None => migrate_json_once c files s | Some _ => Ok s end;
  let s := if current_revision s =? 0 then insert_revision c baseline s else s in
  let s := prune_revisions c true s in
  _ ← integrity_check integrity;
  mret s.
End Store.

(** ** The log invariant *)

(** [x], [x+1], ... *)
Fixpoint count_up (x : Z) (n : nat) : list Z :=
  match n with O => [] | S n' => x :: count_up (x + 1) n' end.

Lemma count_up_app x m n : count_up x (m + n) = count_up x m ++ count_up (x + Z.of_nat m) n.
Proof.
  revert x. induction m as [|m IH]; intros x.
  - by rewrite Z.add_0_r.
  - rewrite Nat2Z.inj_succ. simpl. rewrite IH.
    replace (x + 1 + Z.of_nat m) with (x + Z.succ (Z.of_nat m)) by lia. done.
Qed.

Lemma count_up_length x n : List.length (count_up x n) = n.
Proof. revert x. induction n; intros; simpl; auto. Qed.

Lemma count_up_in x n y : In y (count_up x n) <-> x <= y < x + Z.of_nat n.
Proof.
  revert x. induction n as [|n IH]; intros x; simpl; [lia|]. rewrite IH. lia.
Qed.

(** Keeping the elements that satisfy an upward-closed test keeps a suffix. *)
Lemma filter_suffix {A} (R : A -> A -> Prop) (p : A -> bool) l :
  (forall x y, R x y -> p x = true -> p y = true) ->
  StronglySorted R l -> List.filter p l `suffix_of` l.
Proof.
  intros Hp. induction 1 as [|x l Hl IH Hx]; simpl; [done|].
  destruct (p x) eqn:E; [|by apply suffix_cons_r].
  assert (List.filter p l = l) as ->; [|done].
  clear IH Hl. induction Hx as [|y l Hy Hl IH]; simpl; [done|].
  rewrite (Hp x y) by done. by rewrite IH.
Qed.

Lemma StronglySorted_suffix {A} (R : A -> A -> Prop) l l' :
  l `suffix_of` l' -> StronglySorted R l' -> StronglySorted R l.
Proof.
  intros [k ->]. induction k as [|x k IH]; simpl; [done|]. inversion 1; auto.
Qed.

Lemma StronglySorted_snoc_all {A} (R : A -> A -> Prop) l m :
  StronglySorted R l -> StronglySorted R m -> Forall (fun x => Forall (R x) m) l ->
  StronglySorted R (l ++ m).
Proof.
  intros Hl Hm. induction Hl as [|x l Hl IH Hx]; simpl; [done|].
  inversion 1; subst. constructor; [auto|]. apply Forall_app. auto.
Qed.

Definition created_le (a b : row) : Prop := sleb (r_created a) (r_created b) = true.
Definition revision_lt (a b : row) : Prop := r_revision a < r_revision b.

Lemma count_up_sorted l x n :
  List.map r_revision l = count_up x n -> StronglySorted revision_lt l.
Proof.
  revert x l. induction n as [|n IH]; intros x [|r l] H; try discriminate; [constructor|].
  injection H as Hr Hl. constructor; [eauto|]. apply List.Forall_forall. intros y Hy.
  apply (in_map r_revision) in Hy. rewrite Hl in Hy. apply count_up_in in Hy.
  unfold revision_lt. lia.
Qed.

(** The table against the rows ever inserted: revisions are numbered 1, 2, ... without
    gaps, time stamps never decrease, and the table is a suffix of the history. *)
Record log_inv (s : store) (hist : list row) : Prop := {
  log_suffix : revisions s `suffix_of` hist;
  log_numbers : List.map r_revision hist = count_up 1 (List.length hist);
  log_sequence : sequence s = Z.of_nat (List.length hist);
  log_created : StronglySorted created_le hist;
}.

Section Log.
Context (cfg : settings) {tz : TimeZone}.

(** The rows one transaction inserts. *)
Fixpoint new_rows (c : clock) (seq : Z) (es : list change) : list row :=
  match es with
  | [] => []
  | e :: es' =>
      {| r_revision := seq + 1; r_entity := c_entity e; r_operation := c_operation e;
         r_key := c_key e;
         r_payload := (if is_none (c_payload e) then None else Some (dumps (c_payload e)));
         r_created := now_text c |} :: new_rows c (seq + 1) es'
  end.

Lemma insert_revisions_eq c es s :
  revisions (insert_revisions c es s) = revisions s ++ new_rows c (sequence s) es
  /\ sequence (insert_revisions c es s) = sequence s + Z.of_nat (List.length es)
  /\ documents (insert_revisions c es s) = documents s.
Proof.
  revert s. induction es as [|e es IH]; intros s; simpl.
  - rewrite app_nil_r. repeat split; lia.
  - change (fold_left _ es _) with (insert_revisions c es (insert_revision c e s)).
    destruct (IH (insert_revision c e s)) as (-> & -> & ->). simpl.
    rewrite <- app_assoc. repeat split; lia.
Qed.

Lemma new_rows_numbers c seq es :
  List.map r_revision (new_rows c seq es) = count_up (seq + 1) (List.length es).
Proof. revert seq. induction es as [|e es IH]; intros; simpl; [done|]. by rewrite IH. Qed.

Lemma new_rows_length c seq es : List.length (new_rows c seq es) = List.length es.
Proof. revert seq. induction es; intros; simpl; auto. Qed.

Lemma new_rows_created c seq es : Forall (fun r => r_created r = now_text c) (new_rows c seq es).
Proof. revert seq. induction es; intros; simpl; constructor; auto. Qed.

Lemma new_rows_sorted c seq es : StronglySorted created_le (new_rows c seq es).
Proof.
  revert seq. induction es as [|e es IH]; intros; simpl; constructor; [done|].
  eapply Forall_impl; [apply new_rows_created|]. intros r Hr. unfold created_le. simpl.
  rewrite Hr. apply sleb_refl.
Qed.

(** Time has not gone backwards since the rows of [hist] were written. *)
Definition after (hist : list row) (c : clock) : Prop :=
  Forall (fun r => sleb (r_created r) (now_text c) = true) hist.

Lemma log_insert c es s hist :
  log_inv s hist -> after hist c ->
  log_inv (insert_revisions c es s) (hist ++ new_rows c (sequence s) es).
Proof.
  intros [Hs Hn Hq Hc] Ha. destruct (insert_revisions_eq c es s) as (Hr & Hseq & _).
  constructor.
  - rewrite Hr. destruct Hs as [k ->]. exists k. by rewrite app_assoc.
  - rewrite List.map_app, length_app, new_rows_numbers, new_rows_length, count_up_app, Hn, Hq.
    do 2 f_equal. lia.
  - rewrite Hseq, length_app, new_rows_length, Hq. lia.
  - apply StronglySorted_snoc_all; [done|apply new_rows_sorted|].
    eapply Forall_impl; [exact Ha|]. intros r Hle. simpl.
    eapply Forall_impl; [apply new_rows_created|]. intros r' Hr'. unfold created_le. simpl.
    by rewrite Hr'.
Qed.

Lemma drop_old_suffix c rows :
  StronglySorted created_le rows -> drop_old cfg c rows `suffix_of` rows.
Proof.
  apply filter_suffix. intros x y Hxy. rewrite !sltb_sleb, !negb_involutive.
  intros Hx. eapply sleb_trans; [exact Hx|exact Hxy].
Qed.

Lemma drop_excess_suffix rows :
  StronglySorted revision_lt rows -> drop_excess cfg rows `suffix_of` rows.
Proof.
  intros Hs. unfold drop_excess. destruct (nth_error _ _) as [cut|]; [|done].
  eapply filter_suffix; [|exact Hs]. unfold revision_lt. intros x y Hxy Hx. to_prop.
  apply negb_true_iff, Z.ltb_ge. lia.
Qed.

Lemma log_prune c force s hist :
  log_inv s hist -> log_inv (prune_revisions cfg c force s) hist.
Proof.
  intros [Hs Hn Hq Hc]. unfold prune_revisions. destruct (_ && _); [by constructor|].
  constructor; simpl; try done. etransitivity; [|exact Hs].
  assert (StronglySorted created_le (revisions s)) as Hsc by by eapply StronglySorted_suffix.
  pose proof (drop_old_suffix c _ Hsc) as H1. etransitivity; [|exact H1].
  apply drop_excess_suffix. eapply StronglySorted_suffix; [etransitivity; [exact H1|exact Hs]|].
  by eapply count_up_sorted.
Qed.

Lemma checkpoint_eq c s :
  revisions (checkpoint cfg c s) = revisions s /\ sequence (checkpoint cfg c s) = sequence s
  /\ documents (checkpoint cfg c s) = documents s.
Proof. unfold checkpoint. by destruct (_ <=? _). Qed.

Lemma log_inv_same s s' hist :
  revisions s' = revisions s -> sequence s' = sequence s -> log_inv s hist -> log_inv s' hist.
Proof. intros Hr Hs [? ? ? ?]. constructor; rewrite ?Hr, ?Hs; done. Qed.

(** The changes a save records: none when the stored text is already the new one. *)
Definition save_changes (key : string) (v : pyval) (s : store) : result (list change) :=
  old ← old_value key s;
  if text_unchanged key (dumps v) s
  then Ok [] else changes_for_document key old v.

(** The effect of a successful save on the tables. *)
Lemma save_effect c key v s s' rv :
  save cfg c key v s = Ok (s', rv) ->
  exists es, save_changes key v s = Ok es
  /\ rv = current_revision s'
  /\ ((es = [] /\ s' = s) \/
      exists s1, s1 = insert_revisions c es (put_document c key (dumps v) s)
              /\ s' = checkpoint cfg c (prune_revisions cfg c false s1)).
Proof.
  unfold save, save_changes. intros (old & Ho & [_ H]%json_text_bind)%result_bind_ok. rewrite Ho. simpl.
  destruct (text_unchanged key (dumps v) s).
  - simplify_eq. exists []. auto.
  - apply result_bind_ok in H as (es & He & H). simplify_eq. exists es. split; [done|].
    split; [done|]. right. eauto.
Qed.

Lemma log_save c key v s s' rv hist :
  log_inv s hist -> after hist c -> save cfg c key v s = Ok (s', rv) ->
  exists es, save_changes key v s = Ok es /\ log_inv s' (hist ++ new_rows c (sequence s) es).
Proof.
  intros Hl Ha H. destruct (save_effect _ _ _ _ _ _ H) as (es & He & _ & Hs).
  exists es. split; [done|]. destruct Hs as [[-> ->]|(s1 & -> & ->)].
  - simpl. by rewrite app_nil_r.
  - set (s0 := put_document c key (dumps v) s).
    apply (log_inv_same (prune_revisions cfg c false (insert_revisions c es s0)));
      [apply checkpoint_eq..|].
    apply log_prune. change (sequence s) with (sequence s0). apply log_insert; [|done].
    by apply (log_inv_same s).
Qed.
End Log.

(** ** Reading a sorted log *)

Lemma filter_all_true {A} (p : A -> bool) l : Forall (fun x => p x = true) l -> List.filter p l = l.
Proof. induction 1 as [|x l Hx _ IH]; simpl; [done|]. by rewrite Hx, IH. Qed.

Lemma filter_all_false {A} (p : A -> bool) l : Forall (fun x => p x = false) l -> List.filter p l = [].
Proof. induction 1 as [|x l Hx _ IH]; simpl; [done|]. by rewrite Hx. Qed.

Lemma StronglySorted_app_inv {A} (R : A -> A -> Prop) l m :
  StronglySorted R (l ++ m) ->
  StronglySorted R l /\ StronglySorted R m /\ Forall (fun x => Forall (R x) m) l.
Proof.
  induction l as [|x l IH]; simpl; intros H; [repeat split; (done || constructor)|].
  inversion H as [|? ? Hl Hx]; subst. apply Forall_app in Hx as [? ?].
  destruct (IH Hl) as (? & ? & ?). repeat split; try done; by constructor.
Qed.

(** The rows above the last revision of a prefix are the rows after it. *)
Lemma filter_after_prefix l m d :
  l <> [] -> StronglySorted revision_lt (l ++ m) ->
  List.filter (fun r => List.last (List.map r_revision l) d <? r_revision r) (l ++ m) = m.
Proof.
  intros Hne H. destruct (exists_last Hne) as (l' & x & ->).
  rewrite List.map_app. simpl. rewrite last_last.
  rewrite <- app_assoc in *. simpl in *.
  destruct (StronglySorted_app_inv _ _ _ H) as (Hl & Hxm & Hall).
  inversion Hxm as [|? ? Hm Hx]; subst.
  rewrite List.filter_app. simpl. rewrite (proj2 (Z.ltb_ge _ _)) by lia.
  rewrite filter_all_false, filter_all_true; [done| |].
  - eapply Forall_impl; [exact Hx|]. intros r Hr. apply Z.ltb_lt. exact Hr.
  - eapply Forall_impl; [exact Hall|]. intros r Hr. apply Forall_inv in Hr.
    apply Z.ltb_ge. unfold revision_lt in Hr. lia.
Qed.

Lemma filter_filter_weaker (a b : Z) rows :
  a <= b -> List.filter (fun r => b <? r_revision r) rows
            = List.filter (fun r => b <? r_revision r) (List.filter (fun r => a <? r_revision r) rows).
Proof.
  intros Hab. induction rows as [|r rows IH]; simpl; [done|].
  destruct (a <? r_revision r) eqn:Ea; simpl; destruct (b <? r_revision r) eqn:Eb; to_prop;
    try (by rewrite IH); lia.
Qed.

Lemma StronglySorted_filter {A} (R : A -> A -> Prop) (p : A -> bool) l :
  StronglySorted R l -> StronglySorted R (List.filter p l).
Proof.
  induction 1 as [|x l Hl IH Hx]; simpl; [constructor|].
  destruct (p x); [|done]. constructor; [done|].
  apply List.Forall_forall. intros y [Hy _]%filter_In.
  by eapply (proj1 (List.Forall_forall _ _) Hx).
Qed.

Lemma fold_max_ge l : Forall (fun x => x <= fold_right Z.max 0 l) l.
Proof.
  induction l as [|x l IH]; simpl; constructor; [lia|].
  eapply Forall_impl; [exact IH|]. simpl. lia.
Qed.

Lemma current_revision_ge s r : In r (revisions s) -> r_revision r <= current_revision s.
Proof.
  intros H. unfold current_revision.
  apply (proj1 (List.Forall_forall _ _) (fold_max_ge (List.map r_revision (revisions s)))).
  by apply in_map.
Qed.

Lemma fold_min_head x l : Forall (fun y => x <= y) l -> fold_right Z.min x l = x.
Proof. induction 1 as [|y l Hy _ IH]; simpl; [done|]. rewrite IH. lia. Qed.

Lemma oldest_head s r l :
  revisions s = r :: l -> StronglySorted revision_lt (revisions s) ->
  oldest_revision s = r_revision r.
Proof.
  intros E Hs. unfold oldest_revision. rewrite E in *. simpl.
  inversion Hs as [|? ? _ Hl]; subst. apply fold_min_head.
  apply List.Forall_forall. intros y Hy. apply in_map_iff in Hy as (r' & <- & Hr').
  apply (proj1 (List.Forall_forall _ _) Hl) in Hr'. unfold revision_lt in Hr'. lia.
Qed.

Lemma log_sorted s hist : log_inv s hist -> StronglySorted revision_lt (revisions s).
Proof. intros [Hs Hn _ _]. eapply StronglySorted_suffix; [exact Hs|]. by eapply count_up_sorted. Qed.

(** Every row the table has lost is older than its oldest row. *)
Lemma log_complete s hist since :
  log_inv s hist -> revisions s <> [] -> oldest_revision s - 1 <= since ->
  List.filter (fun r => since <? r_revision r) (revisions s)
  = List.filter (fun r => since <? r_revision r) hist.
Proof.
  intros Hl Hne Hsince. pose proof (log_sorted _ _ Hl) as Hsorted. destruct Hl as [[k Hk] Hn _ _].
  assert (StronglySorted revision_lt hist) as Hh by by eapply count_up_sorted.
  destruct (revisions s) as [|r l] eqn:E; [done|].
  rewrite (oldest_head s r l E) in Hsince by by rewrite E.
  rewrite Hk, List.filter_app in *. rewrite (filter_all_false _ k); [done|].
  destruct (StronglySorted_app_inv _ _ _ Hh) as (_ & _ & Hall).
  eapply Forall_impl; [exact Hall|]. intros x Hx. apply Forall_inv in Hx.
  unfold revision_lt in Hx. apply Z.ltb_ge. lia.
Qed.

(** ** Paging *)

(** A client that follows [nextRevision] while [hasMore] holds. *)
Fixpoint sync_all (fuel : nat) (since limit : Z) (s : store) : option (list row) :=
  match fuel with
  | O => None
  | S f =>
      let p := changes_since since limit s in
      if pg_full p then None
      else if pg_more p
      then match pg_next p with
           | Some next => option_map (app (pg_rows p)) (sync_all f next limit s)
           | None => None
           end
      else Some (pg_rows p)
  end.

Lemma changes_since_rows since limit s :
  pg_full (changes_since since limit s) = false ->
  let F := List.filter (fun r => since <? r_revision r) (revisions s) in
  let n := Z.to_nat (Z.max 1 (Z.min limit 1000)) in
  pg_rows (changes_since since limit s) = firstn n F
  /\ pg_more (changes_since since limit s) = (n <? List.length F)%nat
  /\ pg_next (changes_since since limit s) = Some (List.last (List.map r_revision (firstn n F)) since).
Proof.
  unfold changes_since. simpl. destruct (full_required _ _ _); [done|]. intros _. simpl.
  set (L := Z.max 1 (Z.min limit 1000)).
  assert (forall F : list row, firstn (Z.to_nat L) (firstn (Z.to_nat (L + 1)) F) = firstn (Z.to_nat L) F) as Hf.
  { intros F. rewrite firstn_firstn. f_equal. lia. }
  rewrite Hf. repeat split. rewrite length_firstn.
  destruct (Nat.ltb_spec (Z.to_nat L) (List.length (List.filter (fun r => since <? r_revision r) (revisions s))));
    [apply Z.ltb_lt|apply Z.ltb_ge]; lia.
Qed.

Lemma full_required_next s hist since r :
  log_inv s hist -> full_required (oldest_revision s) (current_revision s) since = false ->
  In r (revisions s) -> since < r_revision r ->
  full_required (oldest_revision s) (current_revision s) (r_revision r) = false.
Proof.
  intros Hl Hf Hr Hs. pose proof (current_revision_ge s r Hr). unfold full_required in *. to_prop.
  rewrite (proj2 (Z.ltb_ge (r_revision r) 0)), (proj2 (Z.ltb_ge (current_revision s) _)) by lia.
  rewrite orb_false_r. simpl. apply andb_false_iff.
  destruct (0 <? oldest_revision s) eqn:Eo; [right|by left].
  match goal with H : _ && _ = false |- _ => rewrite andb_false_iff in H; destruct H as [H|H] end;
    to_prop; [done|]. apply Z.ltb_ge. lia.
Qed.

Lemma changes_since_full since limit s :
  pg_full (changes_since since limit s) = full_required (oldest_revision s) (current_revision s) since.
Proof. unfold changes_since, revision_info. by destruct (full_required _ _ _). Qed.

Lemma sync_all_spec hist s since limit fuel :
  log_inv s hist ->
  pg_full (changes_since since limit s) = false ->
  (List.length (List.filter (fun r => (since <? r_revision r)%Z) (revisions s)) < fuel)%nat ->
  sync_all fuel since limit s = Some (List.filter (fun r => since <? r_revision r) (revisions s)).
Proof.
  intros Hl. pose proof (log_sorted _ _ Hl) as Hsorted.
  revert since. induction fuel as [|f IH]; intros since Hfull Hlen; [lia|].
  cbn [sync_all]. rewrite Hfull.
  destruct (changes_since_rows since limit s Hfull) as (Hrows & Hmore & Hnext).
  rewrite Hrows, Hmore, Hnext. cbv zeta in *.
  set (F := List.filter (fun r => since <? r_revision r) (revisions s)) in *.
  set (n := Z.to_nat (Z.max 1 (Z.min limit 1000))) in *.
  assert (StronglySorted revision_lt F) as HF by by apply StronglySorted_filter.
  destruct (Nat.ltb_spec n (List.length F)) as [Hlt|Hge]; [|by rewrite firstn_all2].
  assert (firstn n F <> []) as Hne.
  { intros E%(f_equal List.length). rewrite length_firstn in E. simpl in E. lia. }
  destruct (exists_last Hne) as (l' & x & Hx).
  assert (In x F) as Hin.
  { rewrite <- (firstn_skipn n F), Hx. apply in_or_app. left. apply in_or_app. right. by left. }
  apply filter_In in Hin as [HinR Hgt]. to_prop.
  set (next := List.last (List.map r_revision (firstn n F)) since) in *.
  assert (next = r_revision x) as Hnx.
  { unfold next. rewrite Hx, List.map_app. simpl. by rewrite last_last. }
  assert (List.filter (fun r => next <? r_revision r) (revisions s) = skipn n F) as Hrest.
  { rewrite (filter_filter_weaker since next) by lia. fold F.
    rewrite <- (firstn_skipn n F) at 1. apply filter_after_prefix; [done|].
    by rewrite firstn_skipn. }
  rewrite IH.
  - rewrite Hrest. simpl. by rewrite firstn_skipn.
  - rewrite changes_since_full, Hnx. apply (full_required_next s hist since); try done.
    by rewrite <- (changes_since_full since limit).
  - rewrite Hrest, length_skipn. lia.
Qed.

(** ** The size bound *)

Lemma nth_error_rev_split {A} (l : list A) k x :
  nth_error (rev l) k = Some x -> exists a b, l = a ++ x :: b /\ List.length b = k.
Proof.
  intros H. apply nth_error_split in H as (b & a & Hl & Hb).
  exists (rev a), (rev b). split; [|by rewrite length_rev].
  rewrite <- (rev_involutive l), Hl, rev_app_distr. simpl. by rewrite <- app_assoc.
Qed.

Lemma drop_excess_length cfg rows :
  1 <= revision_max_rows cfg -> StronglySorted revision_lt rows ->
  (List.length (drop_excess cfg rows) <= Z.to_nat (revision_max_rows cfg))%nat.
Proof.
  intros Hm Hs. unfold drop_excess. destruct (nth_error _ _) as [cut|] eqn:E.
  - apply nth_error_rev_split in E as (a & b & -> & Hb).
    destruct (StronglySorted_app_inv _ _ _ Hs) as (_ & Hcb & Hall).
    rewrite List.filter_app, filter_all_false, length_app; simpl.
    + rewrite Z.ltb_irrefl. simpl.
      pose proof (filter_length_le (fun r => negb (r_revision r <? r_revision cut)) b). lia.
    + eapply Forall_impl; [exact Hall|]. intros r Hr. apply Forall_inv in Hr.
      apply negb_false_iff, Z.ltb_lt. exact Hr.
  - apply nth_error_None in E. rewrite length_rev in E. lia.
Qed.

Lemma env_int_min value dflt minimum : minimum <= dflt -> minimum <= env_int value dflt minimum.
Proof. intros H. unfold env_int. repeat case_match; lia. Qed.

(** ** Histories *)

(** A store together with every row it ever inserted: creation of the database, saves and
    restarts, while the wall clock does not go backwards. *)
Inductive evolves (cfg : settings) {tz : TimeZone} : store -> list row -> Prop :=
| ev_create c files integrity s :
    initialize cfg c files integrity None = Ok s ->
    evolves cfg s (new_rows c 0 [baseline])
| ev_save c key v s h s' rv es :
    evolves cfg s h -> after h c ->
    save cfg c key v s = Ok (s', rv) -> save_changes key v s = Ok es ->
    evolves cfg s' (h ++ new_rows c (sequence s) es)
| ev_restart c files integrity s h s' :
    evolves cfg s h -> after h c ->
    initialize cfg c files integrity (Some s) = Ok s' ->
    evolves cfg s' (h ++ new_rows c (sequence s) (if current_revision s =? 0 then [baseline] else [])).

Section Histories.
Context (cfg : settings) {tz : TimeZone}.

Lemma create_schema_same s s' :
  create_schema s = Ok s' -> revisions s' = revisions s /\ sequence s' = sequence s.
Proof. unfold create_schema. repeat case_match; intros; by simplify_eq. Qed.

Lemma migrate_same c files s s' :
  migrate_json_once c files s = Ok s' -> revisions s' = revisions s /\ sequence s' = sequence s.
Proof.
  unfold migrate_json_once. intros (parsed & _ & H)%result_bind_ok. case_match; simplify_eq.
  clear. revert s. induction parsed as [|kv l IH]; intros s; simpl; [done|].
  destruct (IH (put_document c kv.1 (dumps kv.2) s)) as [-> ->]. done.
Qed.

(** [initialize] inserts at most the baseline row, then prunes. *)
Lemma initialize_effect c files integrity db s :
  initialize cfg c files integrity db = Ok s ->
  exists s0, revisions s0 = revisions (default empty_store db)
    /\ sequence s0 = sequence (default empty_store db)
    /\ s = prune_revisions cfg c true
             (insert_revisions c (if current_revision s0 =? 0 then [baseline] else []) s0).
Proof.
  unfold initialize. intros (s1 & H1 & H)%result_bind_ok.
  apply result_bind_ok in H as (s2 & H2 & H). apply result_bind_ok in H as ([] & _ & H).
  apply create_schema_same in H1 as [Hr Hq].
  assert (revisions s2 = revisions s1 /\ sequence s2 = sequence s1) as [Hr2 Hq2].
  { destruct db; [by simplify_eq|]. by eapply migrate_same. }
  exists s2. rewrite Hr2, Hq2, Hr, Hq. split; [done|]. split; [done|].
  injection H as <-. by destruct (current_revision s2 =? 0).
Qed.

Lemma current_revision_rows s s' : revisions s = revisions s' -> current_revision s = current_revision s'.
Proof. intros H. unfold current_revision. by rewrite H. Qed.

Lemma log_inv_empty s : revisions s = [] -> sequence s = 0 -> log_inv s [].
Proof. intros Hr Hs. constructor; rewrite ?Hr, ?Hs; (done || constructor). Qed.

Lemma evolves_log s h : evolves cfg s h -> log_inv s h.
Proof.
  induction 1 as [c files integrity s H|c key v s h s' rv es _ IH Ha H He|c files integrity s h s' _ IH Ha H].
  - apply initialize_effect in H as (s0 & Hr & Hq & ->). simpl in *. apply log_prune.
    rewrite (current_revision_rows s0 empty_store Hr).
    change (current_revision empty_store =? 0) with true. cbv iota. rewrite <- Hq.
    apply (log_insert c [baseline] s0 []); [by apply log_inv_empty|by apply List.Forall_nil].
  - destruct (log_save _ _ _ _ _ _ _ _ IH Ha H) as (es' & He' & Hl).
    rewrite He in He'. by injection He' as ->.
  - apply initialize_effect in H as (s0 & Hr & Hq & ->). simpl in *. apply log_prune.
    rewrite (current_revision_rows s0 s Hr), <- Hq. apply log_insert; [|done].
    by apply (log_inv_same s).
Qed.

End Histories.

(** ** Theorems *)

(** Stored documents read back. *)
Section Documents.
Context (cfg : settings) {tz : TimeZone}.

Lemma prune_documents c force s : documents (prune_revisions cfg c force s) = documents s.
Proof. unfold prune_revisions. by destruct (_ && _). Qed.

Lemma save_documents c key v s s' rv :
  save cfg c key v s = Ok (s', rv) ->
  (text_unchanged key (dumps v) s = true /\ s' = s) \/
  documents s' = <[key := (dumps v, now_text c)]> (documents s).
Proof.
  unfold save. intros (old & _ & [_ H]%json_text_bind)%result_bind_ok. destruct (text_unchanged _ _ _) eqn:E.
  - left. by simplify_eq.
  - right. apply result_bind_ok in H as (es & _ & H). simplify_eq.
    destruct (checkpoint_eq cfg c (prune_revisions cfg c false (insert_revisions c es (put_document c key (dumps v) s)))) as (_ & _ & ->).
    rewrite prune_documents. by destruct (insert_revisions_eq c es (put_document c key (dumps v) s)) as (_ & _ & ->).
Qed.

Lemma text_unchanged_spec key text s :
  text_unchanged key text s = true <-> exists t, documents s !! key = Some (text, t).
Proof.
  unfold text_unchanged. destruct (documents s !! key) as [[x t]|]; [|by split; [|intros [? ?]]].
  rewrite String.eqb_eq. split; [intros ->; eauto|intros [? ?]; congruence].
Qed.

Lemma save_text c key v s s' rv :
  save cfg c key v s = Ok (s', rv) -> exists t, documents s' !! key = Some (dumps v, t).
Proof.
  intros H. destruct (save_documents _ _ _ _ _ _ H) as [[He ->]| ->].
  - by apply text_unchanged_spec.
  - eexists. apply lookup_insert_eq.
Qed.
Lemma save_printable c key v s s' rv : save cfg c key v s = Ok (s', rv) -> printable v = true.
Proof. unfold save. by intros (old & _ & [Hp _]%json_text_bind)%result_bind_ok. Qed.
End Documents.

Definition demo_cfg : settings := settings_of_env (fun _ => None).
Definition demo_zone : TimeZone := fixed_zone 28800.
Definition demo_clock (t : Z) : clock := {| wall := 1700000000 + t; mono := t |}.
Definition run_store (r : result store) : store := catch r empty_store.
Definition run_save {tz : TimeZone} (c : clock) (key : string) (v : pyval) (s : store) : store :=
  catch (fst <$> save demo_cfg c key v s) s.
Definition demo_doc : pyval := PDict [("rules", PList [PStr "a"; PInt 7]); ("enabled", PBool true)].
Definition demo_store0 : store := run_store (initialize demo_cfg (tz := demo_zone) (demo_clock 0) [] "ok" None).
Definition demo_store1 : store := run_save (tz := demo_zone) (demo_clock 10) "portmaps.json" demo_doc demo_store0.
Definition demo_store2 : store :=
  run_save (tz := demo_zone) (demo_clock 20) "portmaps.json" (PDict [("rules", PList [])]) demo_store1.


Lemma demo_doc_ok : json_ok demo_doc.
Proof.
  apply ok_dict.
  - vm_compute. repeat constructor; simpl; intuition discriminate.
  - repeat constructor; simpl; try (apply ok_list; repeat constructor); try (vm_compute; reflexivity).
Qed.


(** Saving a document again with the same value changes nothing: no revision row is
    written, the returned revision is the current one. *)
Theorem save_idempotent (cfg : settings) (tz : TimeZone) c c' key v s s' rv :
  json_ok v -> save cfg c key v s = Ok (s', rv) ->
  save cfg c' key v s' = Ok (s', current_revision s').
Proof.
  intros Hv H. destruct (save_text _ _ _ _ _ _ _ H) as [t Ht].
  unfold save, old_value, parse_json. rewrite Ht, loads_dumps_sorted by done. rewrite json_text_ok by done. simpl.
  by rewrite (proj2 (text_unchanged_spec _ _ _) (ex_intro _ t Ht)).
Qed.

Lemma save_idempotent_witness :
  save demo_cfg (tz := demo_zone) (demo_clock 99) "portmaps.json" demo_doc demo_store1
  = Ok (demo_store1, current_revision demo_store1).
Proof.
  apply (save_idempotent demo_cfg demo_zone (demo_clock 10) (demo_clock 99) "portmaps.json"
           demo_doc demo_store0 demo_store1 2 demo_doc_ok).
  vm_compute. reflexivity.
Defined.

(** The concrete history used by the witnesses: creation and two saves. *)
Definition demo_hist : list row :=
  (new_rows (tz := demo_zone) (demo_clock 0) 0 [baseline]
   ++ new_rows (tz := demo_zone) (demo_clock 10) 1
        [{| c_entity := "document"; c_operation := "replace"; c_key := "portmaps.json"; c_payload := demo_doc |}])
  ++ new_rows (tz := demo_zone) (demo_clock 20) 2
       [{| c_entity := "document"; c_operation := "replace"; c_key := "portmaps.json";
           c_payload := PDict [("rules", PList [])] |}].

Lemma demo_evolves : evolves demo_cfg (tz := demo_zone) demo_store2 demo_hist.
Proof.
  apply (ev_save demo_cfg (demo_clock 20) "portmaps.json" (PDict [("rules", PList [])]) demo_store1 _ _ 3).
  - apply (ev_save demo_cfg (demo_clock 10) "portmaps.json" demo_doc demo_store0 _ _ 2).
    + apply (ev_create demo_cfg (demo_clock 0) [] "ok"). vm_compute. reflexivity.
    + repeat constructor; vm_compute; reflexivity.
    + vm_compute. reflexivity.
    + vm_compute. reflexivity.
  - repeat constructor; vm_compute; reflexivity.
  - vm_compute. reflexivity.
  - vm_compute. reflexivity.
Defined.

(** Incremental sync loses nothing.  Whenever the answer does not ask for a full sync
    and the log is not empty, a client that follows [nextRevision] while [hasMore] holds
    terminates and collects exactly the rows ever inserted with a revision above its own,
    in order, although pruning has deleted rows in between. *)
Theorem sync_pages_complete (cfg : settings) (tz : TimeZone) s h since limit :
  evolves cfg s h -> revisions s <> [] ->
  pg_full (changes_since since limit s) = false ->
  sync_all (S (List.length (revisions s))) since limit s
  = Some (List.filter (fun r => since <? r_revision r) h).
Proof.
  intros He Hne Hf. pose proof (evolves_log _ _ _ He) as Hl.
  rewrite (sync_all_spec h); [|done|done|].
  - f_equal. apply log_complete; [done|done|].
    rewrite changes_since_full in Hf. unfold full_required in Hf. to_prop.
    match goal with H : _ && _ = false |- _ => apply andb_false_iff in H as [H|H] end; to_prop; [|lia].
    pose proof (log_sorted _ _ Hl) as Hs. destruct Hl as [Hsuf Hn _ _].
    destruct (revisions s) as [|r l] eqn:E; [done|]. rewrite (oldest_head s r l E) in * by by rewrite E.
    assert (1 <= r_revision r); [|lia]. destruct Hsuf as [k ->].
    assert (In (r_revision r) (List.map r_revision (k ++ r :: l))) as Hin.
    { apply in_map, in_or_app. right. by left. }
    rewrite Hn in Hin. apply count_up_in in Hin. lia.
  - pose proof (filter_length_le (fun r => since <? r_revision r) (revisions s)). lia.
Qed.

Lemma sync_pages_complete_witness :
  sync_all 4 1 1 demo_store2 = Some (List.filter (fun r => 1 <? r_revision r) demo_hist).
Proof.
  apply (sync_pages_complete demo_cfg demo_zone demo_store2 demo_hist 1 1 demo_evolves);
    [vm_compute; discriminate|vm_compute; reflexivity].
Defined.

Lemma log_revision_pos s hist r : log_inv s hist -> In r hist -> 1 <= r_revision r <= sequence s.
Proof.
  intros [_ Hn Hq _] Hr. apply (in_map r_revision) in Hr. rewrite Hn in Hr.
  apply count_up_in in Hr. lia.
Qed.

Lemma log_row_in_hist s hist r : log_inv s hist -> In r (revisions s) -> In r hist.
Proof. intros [[k ->] _ _ _] Hr. apply in_or_app. by right. Qed.

(** The lost rows are exactly those below the oldest row of the table. *)
Lemma log_lost s hist r :
  log_inv s hist -> revisions s <> [] -> In r hist ->
  (~ In r (revisions s) <-> r_revision r < oldest_revision s).
Proof.
  intros Hl Hne Hr. pose proof (log_sorted _ _ Hl) as Hs. destruct Hl as [[k Hk] Hn _ _].
  assert (StronglySorted revision_lt hist) as Hh by by eapply count_up_sorted.
  destruct (revisions s) as [|o l] eqn:E; [done|]. rewrite (oldest_head s o l E) by by rewrite E.
  rewrite Hk in *. apply in_app_or in Hr. destruct (StronglySorted_app_inv _ _ _ Hh) as (_ & Hol & Hall).
  inversion Hol as [|? ? _ Ho]; subst.
  assert (forall x, In x k -> r_revision x < r_revision o) as Hkx.
  { intros x Hx. apply (proj1 (List.Forall_forall _ _) Hall) in Hx. by apply Forall_inv in Hx. }
  assert (forall x, In x (o :: l) -> r_revision o <= r_revision x) as Hox.
  { intros x [->|Hx]; [lia|]. apply (proj1 (List.Forall_forall _ _) Ho) in Hx. unfold revision_lt in Hx. lia. }
  split.
  - intros Hnot. destruct Hr as [Hr|Hr]; [auto|done].
  - intros Hlt Hin. specialize (Hox r Hin). lia.
Qed.


(** A table that keeps two rows, so that the third save prunes. *)
Definition tiny_cfg : settings :=
  {| revision_max_rows := 2; revision_max_age_days := 1; revision_prune_interval := 5;
     wal_checkpoint_interval := 60 |}.
Definition tiny_store0 : store := run_store (initialize tiny_cfg (tz := demo_zone) (demo_clock 0) [] "ok" None).
Definition tiny_save (t : Z) (v : pyval) (s : store) : store :=
  catch (fst <$> save tiny_cfg (tz := demo_zone) (demo_clock t) "portmaps.json" v s) s.
Definition tiny_store : store := tiny_save 20 (PInt 2) (tiny_save 10 (PInt 1) tiny_store0).
Definition tiny_change (v : pyval) : list change :=
  [{| c_entity := "document"; c_operation := "replace"; c_key := "portmaps.json"; c_payload := v |}].
Definition tiny_hist : list row :=
  (new_rows (tz := demo_zone) (demo_clock 0) 0 [baseline]
   ++ new_rows (tz := demo_zone) (demo_clock 10) 1 (tiny_change (PInt 1)))
  ++ new_rows (tz := demo_zone) (demo_clock 20) 2 (tiny_change (PInt 2)).

Lemma tiny_evolves : evolves tiny_cfg (tz := demo_zone) tiny_store tiny_hist.
Proof.
  apply (ev_save tiny_cfg (demo_clock 20) "portmaps.json" (PInt 2) (tiny_save 10 (PInt 1) tiny_store0) _ _ 3).
  - apply (ev_save tiny_cfg (demo_clock 10) "portmaps.json" (PInt 1) tiny_store0 _ _ 2).
    + apply (ev_create tiny_cfg (demo_clock 0) [] "ok"). vm_compute. reflexivity.
    + repeat constructor; vm_compute; reflexivity.
    + vm_compute. reflexivity.
    + vm_compute. reflexivity.
  - repeat constructor; vm_compute; reflexivity.
  - vm_compute. reflexivity.
  - vm_compute. reflexivity.
Defined.


Lemma age_cutoff_after (cfg : settings) (tz : TimeZone) s h c :
  log_inv s h -> StronglySorted revision_lt (drop_old cfg c (revisions s)).
Proof. intros Hl. apply StronglySorted_filter. by eapply log_sorted. Qed.

(** The log is bounded: a save that writes and whose prune interval has passed leaves
    at most [REVISION_MAX_ROWS] rows, and the row numbers left are the newest ones. *)
Theorem save_bounds_log (cfg : settings) (tz : TimeZone) c key v s s' rv h :
  evolves cfg s h -> after h c -> 1 <= revision_max_rows cfg ->
  text_unchanged key (dumps v) s = false ->
  revision_prune_interval cfg <= mono c - last_prune s ->
  save cfg c key v s = Ok (s', rv) ->
  (List.length (revisions s') <= Z.to_nat (revision_max_rows cfg))%nat
  /\ exists es, save_changes key v s = Ok es
     /\ revisions s' `suffix_of` revisions s ++ new_rows c (sequence s) es.
Proof.
  intros He Ha Hm Ht Hdue H. pose proof (evolves_log _ _ _ He) as Hl.
  unfold save in H. apply result_bind_ok in H as (old & Ho & [_ H]%json_text_bind). rewrite Ht in H.
  apply result_bind_ok in H as (es & Hes & H). simplify_eq.
  set (s0 := put_document c key (dumps v) s).
  set (s1 := insert_revisions c es s0).
  assert (log_inv s1 (h ++ new_rows c (sequence s0) es)) as Hl1.
  { apply log_insert; [|done]. by apply (log_inv_same s). }
  destruct (checkpoint_eq cfg c (prune_revisions cfg c false s1)) as (-> & _ & _).
  assert (prune_revisions cfg c false s1 = prune_revisions cfg c true s1) as ->.
  { unfold prune_revisions. simpl. rewrite (proj2 (Z.ltb_ge _ _)); [done|].
    assert (last_prune s1 = last_prune s) as ->; [|lia]. subst s1. clear.
    change (last_prune s) with (last_prune s0). generalize s0. clear.
    induction es as [|e es IH]; intros s0; [done|]. simpl in *. by rewrite IH. }
  split.
  - simpl. apply drop_excess_length; [done|]. by eapply age_cutoff_after.
  - exists es. split; [unfold save_changes; by rewrite Ho; simpl; rewrite Ht|].
    simpl. destruct (insert_revisions_eq c es s0) as (Hr & _ & _). fold s1 in Hr.
    simpl in Hr. rewrite <- Hr.
    etransitivity; [apply drop_excess_suffix; by eapply age_cutoff_after|].
    apply drop_old_suffix. eapply StronglySorted_suffix; [apply Hl1|apply Hl1].
Qed.

Lemma save_bounds_log_witness :
  (List.length (revisions (tiny_save 30 (PInt 3) tiny_store)) <= 2)%nat.
Proof.
  apply (save_bounds_log tiny_cfg demo_zone (demo_clock 30) "portmaps.json" (PInt 3) tiny_store
           (tiny_save 30 (PInt 3) tiny_store) 4 tiny_hist tiny_evolves).
  - repeat constructor; vm_compute; reflexivity.
  - vm_compute. discriminate.
  - vm_compute. reflexivity.
  - vm_compute. discriminate.
  - vm_compute. reflexivity.
Defined.

(** A restart after a quiet period resets the revision.  When every row is older than
    the age window, [initialize] writes no baseline (the log is not empty yet) and then
    prunes the whole log: the current revision the Hub announces is 0 although the counter
    is positive, and a client at revision 0 is told it is up to date. *)
Theorem restart_resets_revision (cfg : settings) (tz : TimeZone) c files integrity s h s' limit :
  evolves cfg s h -> revisions s <> [] ->
  Forall (fun r => sltb (r_created r) (age_cutoff cfg c) = true) (revisions s) ->
  initialize cfg c files integrity (Some s) = Ok s' ->
  0 < current_revision s /\ sequence s' = sequence s /\ current_revision s' = 0
  /\ pg_full (changes_since 0 limit s') = false /\ pg_rows (changes_since 0 limit s') = [].
Proof.
  intros He Hne Hold H. pose proof (evolves_log _ _ _ He) as Hl.
  assert (0 < current_revision s) as Hpos.
  { destruct (revisions s) as [|r l] eqn:E; [done|].
    assert (In r (revisions s)) as Hr by (rewrite E; by left).
    pose proof (current_revision_ge s r Hr).
    pose proof (log_revision_pos s h r Hl (log_row_in_hist _ _ _ Hl Hr)). lia. }
  apply initialize_effect in H as (s0 & Hr & Hq & ->). simpl in Hr, Hq.
  rewrite (current_revision_rows s0 s Hr), (proj2 (Z.eqb_neq _ _)) by lia.
  assert (revisions (prune_revisions cfg c true (insert_revisions c [] s0)) = []) as Hnil.
  { simpl. rewrite Hr. unfold drop_old.
    rewrite filter_all_false; [unfold drop_excess; simpl; by destruct (Z.to_nat _)|].
    eapply Forall_impl; [exact Hold|]. intros r Hlt. by rewrite Hlt. }
  split; [done|]. split; [done|].
  unfold changes_since, revision_info, current_revision, oldest_revision. rewrite !Hnil. cbn [List.map fold_right List.filter].
  change (full_required 0 0 0) with false. cbv iota. cbn [pg_full pg_rows].
  by rewrite !firstn_nil.
Qed.

Definition quiet_restart : store :=
  run_store (initialize demo_cfg (tz := demo_zone) (demo_clock 1000000) [] "ok" (Some demo_store2)).

Lemma restart_resets_revision_witness :
  0 < current_revision demo_store2 /\ sequence quiet_restart = 3 /\ current_revision quiet_restart = 0.
Proof.
  destruct (restart_resets_revision demo_cfg demo_zone (demo_clock 1000000) [] "ok" demo_store2
    demo_hist quiet_restart 500 demo_evolves) as (H1 & H2 & H3 & _).
  - vm_compute. discriminate.
  - apply List.Forall_forall. apply forallb_forall. vm_compute. reflexivity.
  - vm_compute. reflexivity.
  - split; [exact H1|]. split; [exact H2|exact H3].
Defined.
