(* ===== verification/StorageDiff.v ===== *)
(** * The revision diffs of [labprobe_storage.py]

    What a client that applies the revision rows of a document ends up with: the list diffs
    turn the old list into the new one, up to equality for events and up to the volatile
    fields for devices; volatile samples produce no revision at all. *)

From S2P Require Import Prelude PyNum PyVal PyTime Json Storage.

(** ** [==] on stored values *)

Lemma same_keys (d e : dict) :
  nodup_keys d -> (List.length d =? List.length e)%nat = true ->
  (forall k v, dget d k = Some v -> dget e k <> None) ->
  forall k, dget d k = None -> dget e k = None.
Proof.
  intros Hd Hlen Hin k Hk. apply Nat.eqb_eq in Hlen.
  apply dget_None_keys. intros He. apply dget_None_keys in Hk. apply Hk.
  assert (incl (keys e) (keys d)) as Hincl.
  { apply (NoDup_length_incl Hd); [unfold keys; rewrite !length_map; lia|].
    intros x Hx. destruct (dget d x) as [v|] eqn:E.
    - apply Hin in E. destruct (dget e x) eqn:E'; [|done].
      apply dget_In in E'. by apply (in_map fst) in E'.
    - by apply dget_None_keys in E. }
  by apply Hincl.
Qed.

Lemma py_eq_dict_get (d e : dict) :
  nodup_keys d -> py_eq (PDict d) (PDict e) = true ->
  forall k, match dget d k, dget e k with
            | Some x, Some y => py_eq x y = true
            | None, None => True
            | _, _ => False
            end.
Proof.
  intros Hd H k. simpl in H. apply andb_prop in H as [Hlen H].
  assert (forall k x, dget d k = Some x -> exists y, dget e k = Some y /\ py_eq x y = true) as Hall.
  { clear Hlen Hd k. induction d as [|[k' x'] d IH]; intros k x; [done|]. simpl.
    apply andb_prop in H as [H1 H2]. destruct (String.eqb_spec k k') as [->|]; [|by apply IH].
    intros [= <-]. destruct (dget e k') as [y|]; [eauto|done]. }
  destruct (dget d k) as [x|] eqn:E.
  - destruct (Hall _ _ E) as (y & -> & ?). done.
  - rewrite (same_keys d e Hd Hlen); [done| |done].
    intros k' v Hv. destruct (Hall _ _ Hv) as (y & -> & _). done.
Qed.

Definition number_nonzero (n : Z + spec_float) : bool :=
  match n with inl z => negb (z =? 0) | inr f => negb (f_is_zero f) end.

Lemma f_eq_Z_zero f n : f_eq_Z f n = true -> negb (f_is_zero f) = negb (n =? 0).
Proof.
  unfold f_eq_Z. destruct f as [s| | |s m e]; cbn [f_parts f_is_zero]; try done.
  - rewrite Z.leb_refl, Z.eqb_eq. intros <-. done.
  - set (v := if s then Z.neg m else Z.pos m). assert (v <> 0) by (subst v; destruct s; discriminate).
    intros H'. symmetry. apply negb_true_iff, Z.eqb_neq. intros ->.
    destruct (0 <=? e) eqn:E; to_prop; [|lia].
    assert (0 < 2 ^ e) by (apply Z.pow_pos_nonneg; lia). nia.
Qed.

Lemma number_eq_nonzero x y : number_eq x y = true -> number_nonzero x = number_nonzero y.
Proof.
  destruct x as [m|f], y as [n|g]; simpl.
  - by intros ->%Z.eqb_eq.
  - intros H. by rewrite (f_eq_Z_zero _ _ H).
  - apply f_eq_Z_zero.
  - by destruct f as [[]|[]| |[] ? ?], g as [[]|[]| |[] ? ?].
Qed.

Lemma as_number_truthy v n : as_number v = Some n -> truthy v = number_nonzero n.
Proof. destruct v as [|[]| | | | |]; intros [= <-]; done. Qed.

Lemma number_truthy a b :
  match as_number a, as_number b with Some x, Some y => number_eq x y | _, _ => false end = true ->
  truthy a = truthy b.
Proof.
  destruct (as_number a) as [x|] eqn:Ea; [|done]. destruct (as_number b) as [y|] eqn:Eb; [|done].
  intros H%number_eq_nonzero. by rewrite (as_number_truthy _ _ Ea), (as_number_truthy _ _ Eb).
Qed.

Lemma py_eq_truthy a b : py_eq a b = true -> truthy a = truthy b.
Proof.
  destruct a, b; try (apply number_truthy); try done; simpl.
  - by intros ->%String.eqb_eq.
  - by destruct l, l0.
  - by destruct d, d0.
Qed.

(** [==] is reflexive on values without floats (a NaN is the exception). *)
Lemma py_eq_refl v : json_ok v -> py_eq v v = true.
Proof.
  induction v as [| b | z | fl | s | l IH | d IH] using pyval_ind'; intros Hok.
  - done.
  - simpl. by destruct b.
  - simpl. apply Z.eqb_refl.
  - inversion Hok.
  - simpl. apply String.eqb_refl.
  - inversion Hok as [| | | |? Hl|]; subst. clear Hok. simpl.
    induction Hl as [|x l Hx Hl IHl]; [done|]. inversion IH; subst.
    apply andb_true_intro. auto.
  - inversion Hok as [| | | | |? Hn Hd]; subst. clear Hok. simpl. rewrite Nat.eqb_refl. simpl.
    assert (forall k x, In (k, x) d -> match dget d k with Some y => py_eq x y | None => false end = true) as Hall.
    { intros k x Hin. rewrite (In_dget _ _ _ Hn Hin).
      pose proof (proj1 (List.Forall_forall _ _) IH _ Hin) as Hx.
      pose proof (proj1 (List.Forall_forall _ _) Hd _ Hin) as Hv. by apply Hx. }
    clear IH Hn Hd. revert Hall. generalize d at 2 3 as e. induction d as [|[k x] d IHd]; intros e Hall; [done|].
    apply andb_true_intro. split; [apply Hall; by left|]. apply IHd. intros. apply Hall. by right.
Qed.

(** ** Applying a diff *)

(** A client's copy of a list: its rows by key, without those marked deleted. *)
Definition visible (m : dict) : dict := List.filter (fun kv => negb (deleted_flag kv.2)) m.

Definition apply_change (m : dict) (e : change) : dict :=
  if String.eqb (c_operation e) "delete" then ddel (c_key e) m else dset (c_key e) (c_payload e) m.
Definition apply_changes (m : dict) (es : list change) : dict := fold_left apply_change es m.

Definition result_of (e : change) : option pyval :=
  if String.eqb (c_operation e) "delete" then None else Some (c_payload e).

Lemma nodup_apply_change m e : nodup_keys m -> nodup_keys (apply_change m e).
Proof. unfold apply_change. case_match; auto with hub. Qed.

Lemma dget_apply_change m e k :
  nodup_keys m ->
  dget (apply_change m e) k = if String.eqb k (c_key e) then result_of e else dget m k.
Proof.
  intros Hm. unfold apply_change, result_of. destruct (String.eqb_spec k (c_key e)) as [->|Hne];
    case_match; auto using dget_ddel_eq, dget_dset_eq.
  - by apply dget_ddel_ne.
  - by apply dget_dset_ne.
Qed.

Lemma dget_apply_changes m es k :
  nodup_keys m -> List.NoDup (List.map c_key es) ->
  dget (apply_changes m es) k =
  match List.find (fun e => String.eqb k (c_key e)) es with
  | Some e => result_of e
  | None => dget m k
  end.
Proof.
  revert m. induction es as [|e es IH]; intros m Hm Hes; [done|]. simpl.
  inversion Hes as [|? ? Hnot Hes']; subst.
  change (fold_left apply_change es _) with (apply_changes (apply_change m e) es).
  rewrite IH by (done || by apply nodup_apply_change). rewrite dget_apply_change by done.
  destruct (String.eqb_spec k (c_key e)) as [->|]; [|done].
  destruct (List.find _ es) as [e'|] eqn:E; [|done].
  apply find_some in E as [Hin He]. to_prop. destruct Hnot. rewrite He. by apply in_map.
Qed.

(** Changes produced entry by entry from a map. *)
Section Produced.
Context (f : string * pyval -> option change).
Hypothesis f_key : forall kv e, f kv = Some e -> c_key e = kv.1.

Lemma omap_keys_incl m x : In x (List.map c_key (omap f m)) -> In x (keys m).
Proof.
  induction m as [|kv m IH]; [done|]. cbn [omap list_omap].
  destruct (f kv) as [e|] eqn:E; simpl; [|auto]. rewrite (f_key _ _ E). intros [?|?]; auto.
Qed.

Lemma omap_keys_nodup m : nodup_keys m -> List.NoDup (List.map c_key (omap f m)).
Proof.
  unfold nodup_keys. induction m as [|kv m IH]; [constructor|]. simpl keys.
  inversion 1; subst. cbn [omap list_omap]. destruct (f kv) as [e|] eqn:E; [|auto].
  simpl. constructor; [|auto]. rewrite (f_key _ _ E). by intros ?%omap_keys_incl.
Qed.

Lemma find_omap m k :
  nodup_keys m ->
  List.find (fun e => String.eqb k (c_key e)) (omap f m)
  = match dget m k with Some v => f (k, v) | None => None end.
Proof.
  unfold nodup_keys. induction m as [|[k' v] m IH]; [done|]. simpl keys. inversion 1; subst.
  cbn [omap list_omap]. destruct (f (k', v)) as [e|] eqn:E; simpl.
  - rewrite (f_key _ _ E). simpl. destruct (String.eqb_spec k k') as [->|]; auto.
  - rewrite IH by done. destruct (String.eqb_spec k k') as [->|]; [|done].
    assert (dget m k' = None) as -> by by apply dget_None_keys. done.
Qed.
End Produced.

Lemma find_app' {A} (p : A -> bool) l m :
  List.find p (l ++ m) = match List.find p l with Some x => Some x | None => List.find p m end.
Proof. induction l as [|x l IH]; simpl; [done|]. by destruct (p x). Qed.

Lemma dget_visible m k :
  nodup_keys m ->
  dget (visible m) k = match dget m k with
                       | Some v => if deleted_flag v then None else Some v
                       | None => None
                       end.
Proof.
  unfold nodup_keys. induction m as [|[k' v] m IH]; [done|]. simpl keys. inversion 1; subst. simpl.
  destruct (deleted_flag v) eqn:Ed; simpl; rewrite IH by done;
    destruct (String.eqb_spec k k') as [->|]; rewrite ?Ed; try done.
  assert (dget m k' = None) as -> by by apply dget_None_keys. done.
Qed.

Lemma nodup_visible m : nodup_keys m -> nodup_keys (visible m).
Proof.
  unfold nodup_keys. induction m as [|[k v] m IH]; [done|]. simpl keys. inversion 1; subst. simpl.
  destruct (deleted_flag v); simpl; [auto|]. constructor; [|auto].
  intros Hin. apply in_map_iff in Hin as ([k' v'] & Hk & Hin). simpl in Hk. subst.
  apply filter_In in Hin as [Hin _]. by apply (in_map fst) in Hin.
Qed.

Section Diff.
Context (changed : option pyval -> pyval -> bool) (payload : pyval -> pyval).
(** What the client's entry has to do with the server's. *)
Context (R : pyval -> pyval -> Prop).
Hypothesis changed_none : forall d, changed None (PDict d) = true.
Hypothesis payload_R : forall v, R (payload v) v.

Lemma row_map_dicts items k v : dget (row_map items) k = Some v -> exists d, v = PDict d /\ In v items.
Proof.
  unfold row_map, dict_of, dupdate. intros H. apply dget_In in H.
  assert (forall l m, (forall kv, In kv l -> exists d, kv.2 = PDict d /\ In kv.2 items) ->
    (forall kv, In kv m -> exists d, kv.2 = PDict d /\ In kv.2 items) ->
    forall kv, In kv (fold_left (fun acc kv => dset kv.1 kv.2 acc) l m) -> exists d, kv.2 = PDict d /\ In kv.2 items) as Hgen.
  { induction l as [|[k0 v0] l IHl]; intros m Hl Hm kv Hkv; [auto|]. simpl in Hkv.
    apply (IHl (dset k0 v0 m)) in Hkv; [done|intros; apply Hl; by right|].
    clear - Hl Hm. pose proof (Hl (k0, v0) (or_introl eq_refl)) as H0.
    induction m as [|[k1 v1] m IHm]; simpl; [intros kv [<-|[]]; done|].
    destruct (String.eqb k0 k1); simpl.
    - intros kv [<-|Hkv]; [done|]. apply Hm. by right.
    - intros kv [<-|Hkv]; [apply Hm; by left|]. apply IHm; [|done]. intros; apply Hm; by right. }
  apply (Hgen _ []) in H; [done| |done].
  clear. intros kv Hkv. apply list_elem_of_In, list_elem_of_omap in Hkv as ([i x] & Hix & Hf).
  apply elem_of_lookup_imap in Hix as (i' & y & Heq & Hy). simplify_eq/=.
  destruct y; simplify_eq/=. eexists. split; [done|]. by apply list_elem_of_lookup_2, list_elem_of_In in Hy.
Qed.

Definition entry_related (a b : option pyval) : Prop :=
  match a, b with
  | Some x, Some y => R x y \/ x = y
  | None, None => True
  | _, _ => False
  end.

Lemma diff_apply entity old new es :
  (forall p v, In p old -> In v new -> changed (Some p) v = false ->
     R p v /\ deleted_flag p = deleted_flag v) ->
  list_diff_gen changed payload entity (PList old) (PList new) = Ok es ->
  forall k, entry_related (dget (apply_changes (visible (row_map old)) es) k)
                          (dget (visible (row_map new)) k).
Proof.
  intros Hch H k. unfold list_diff_gen in H.
  assert (forall l, iter_items (PList l) = Ok l) as Hit by (by intros []).
  rewrite !Hit in H. simpl in H. injection H as <-.
  set (om := row_map old). set (nm := row_map new).
  assert (nodup_keys om) as Ho by apply nodup_dict_of.
  assert (nodup_keys nm) as Hn by apply nodup_dict_of.
  set (f := fun kv : string * pyval => if changed (dget om kv.1) kv.2 then _ else None).
  set (g := fun kv : string * pyval => if has nm kv.1 then None else _).
  assert (forall kv e, f kv = Some e -> c_key e = kv.1) as Hf.
  { intros kv e. unfold f. destruct (changed _ _); [|done]. by intros [= <-]. }
  assert (forall kv e, g kv = Some e -> c_key e = kv.1) as Hg.
  { intros kv e. unfold g. destruct (has _ _); [done|]. by intros [= <-]. }
  rewrite dget_apply_changes.
  - rewrite find_app', !find_omap by done. rewrite !dget_visible by done.
    destruct (dget nm k) as [v|] eqn:Env.
    + destruct (row_map_dicts _ _ _ Env) as (d & -> & Hin). unfold f. cbn [fst snd].
      destruct (changed (dget om k) (PDict d)) eqn:Ec.
      * unfold result_of. cbn [c_operation c_payload].
        destruct (deleted_flag (PDict d)); [done|]. left. apply payload_R.
      * assert (match dget om k with Some v0 => g (k, v0) | None => None end = None) as ->.
        { destruct (dget om k); [|done]. unfold g, has. simpl. by rewrite Env. }
        destruct (dget om k) as [p|] eqn:Eo; [|by rewrite changed_none in Ec].
        destruct (row_map_dicts _ _ _ Eo) as (d' & -> & Hin').
        destruct (Hch _ _ Hin' Hin Ec) as [HR Hdel]. rewrite Hdel.
        destruct (deleted_flag (PDict d)); simpl; auto.
    + destruct (dget om k) as [p|] eqn:Eo; [|done]. unfold g, has. simpl. by rewrite Env.
  - by apply nodup_visible.
  - rewrite List.map_app. apply NoDup_ListNoDup, NoDup_app. split_and!.
    + by apply NoDup_ListNoDup, omap_keys_nodup.
    + intros x Hx Hx'. apply list_elem_of_In, (omap_keys_incl f Hf) in Hx.
      apply list_elem_of_In, in_map_iff in Hx' as (e & <- & He).
      apply list_elem_of_In, list_elem_of_omap in He as (kv & _ & He).
      rewrite (Hg _ _ He) in Hx. unfold g, has in He.
      destruct (dget nm kv.1) eqn:E; [done|]. by apply dget_None_keys in E.
    + by apply NoDup_ListNoDup, omap_keys_nodup.
Qed.
End Diff.

(** ** Volatile fields *)

Lemma dget_filter_key (p : string -> bool) d k :
  p k = true -> dget (List.filter (fun kv => p kv.1) d) k = dget d k.
Proof.
  intros Hk. induction d as [|[k' v] d IH]; simpl; [done|].
  destruct (p k') eqn:E; simpl; rewrite IH; [done|].
  destruct (String.eqb_spec k k') as [Hkk|Hkk]; [|done]. rewrite Hkk in Hk. by rewrite Hk in E.
Qed.

(** Two samples of a device that differ in volatile fields only. *)
Definition same_device (a b : pyval) : Prop := stable_device a = stable_device b.

#[export] Instance same_device_equivalence : Equivalence same_device.
Proof. unfold same_device. split; [done|by intros ? ?|by intros ? ? ? -> ->]. Qed.

Lemma same_device_get d d' k :
  same_device (PDict d) (PDict d') -> stable_key k = true -> get d k = get d' k.
Proof.
  unfold same_device. simpl. intros [= H] Hk. unfold get.
  by rewrite <- (dget_filter_key stable_key d k Hk), H, dget_filter_key.
Qed.

#[export] Instance deleted_flag_proper : Proper (same_device ==> eq) deleted_flag.
Proof.
  intros [] [] H; try done. simpl. by rewrite (same_device_get _ _ "deleted" H eq_refl).
Qed.

Lemma row_key_same d d' n : same_device (PDict d) (PDict d') -> row_key d n = row_key d' n.
Proof.
  intros H. unfold row_key.
  by rewrite (same_device_get _ _ "mac" H eq_refl), (same_device_get _ _ "id" H eq_refl),
    (same_device_get _ _ "date" H eq_refl).
Qed.

Definition entry_same (a b : string * pyval) : Prop := a.1 = b.1 /\ same_device a.2 b.2.

Lemma dset_same k v v' m m' :
  same_device v v' -> Forall2 entry_same m m' -> Forall2 entry_same (dset k v m) (dset k v' m').
Proof.
  intros Hv. induction 1 as [|[k0 x] [k0' x'] m m' [Hk Hx] Hm IH]; simpl in *.
  - by repeat constructor.
  - subst. destruct (String.eqb k k0'); constructor; (done || by split).
Qed.

Lemma dupdate_same l l' m m' :
  Forall2 entry_same l l' -> Forall2 entry_same m m' ->
  Forall2 entry_same (dupdate m l) (dupdate m' l').
Proof.
  unfold dupdate. intros H. revert m m'. induction H as [|a b l l' [Hk Hv] Hl IH]; intros m m' Hm; [done|].
  simpl. apply IH. rewrite Hk. by apply dset_same.
Qed.

Lemma row_map_same old new :
  Forall2 same_device old new -> Forall2 entry_same (row_map old) (row_map new).
Proof.
  intros H. apply dupdate_same; [|constructor].
  change (fun (i : nat) (x : pyval) => (i, x)) with (fun (i : nat) (x : pyval) => ((0 + i)%nat, x)).
  generalize 0%nat as n. induction H as [|a b old new Hab H IH]; intros n; [constructor|].
  cbn [imap]. rewrite !imap_cons || idtac.
  cbn [omap list_omap fst snd].
  assert (forall l : list pyval, imap ((fun (i : nat) (x : pyval) => ((n + i)%nat, x)) ∘ S) l
                = imap (fun (i : nat) (x : pyval) => ((S n + i)%nat, x)) l) as Himap.
  { intros l. apply imap_ext. intros i x _. simpl. f_equal. lia. }
  rewrite !Himap. destruct a, b; try apply IH; try discriminate.
  constructor; [|apply IH]. split; [|done]. simpl. by apply row_key_same.
Qed.

Lemma dget_same m m' k :
  Forall2 entry_same m m' ->
  match dget m k, dget m' k with
  | Some x, Some y => same_device x y
  | None, None => True
  | _, _ => False
  end.
Proof.
  induction 1 as [|[k0 x] [k0' x'] m m' [Hk Hx] Hm IH]; simpl in *; [done|]. subst.
  by destruct (String.eqb k k0').
Qed.

Lemma json_ok_stable v : json_ok v -> json_ok (stable_device v).
Proof.
  intros [| | | | |d Hn Hd]; simpl; try by constructor. constructor; [by apply nodup_filter|].
  apply List.Forall_forall. intros kv [Hin _]%filter_In.
  by apply (proj1 (List.Forall_forall _ _) Hd).
Qed.

Lemma omap_nil {A B} (f : A -> option B) l : (forall x, In x l -> f x = None) -> omap f l = [].
Proof.
  induction l as [|x l IH]; intros H; [done|]. cbn [omap list_omap].
  rewrite (H x) by by left. apply IH. intros. apply H. by right.
Qed.

(** A sample that changes only volatile fields (signal, traffic, online time) of a
    device list writes no revision row, whatever the number of devices. *)
Theorem volatile_samples_silent entity old new :
  Forall json_ok new -> Forall2 same_device old new ->
  list_diff_stable entity (PList old) (PList new) = Ok [].
Proof.
  intros Hok H. unfold list_diff_stable, list_diff_gen.
  assert (forall l, iter_items (PList l) = Ok l) as Hit by (by intros []).
  rewrite !Hit. simpl. pose proof (row_map_same _ _ H) as Hm.
  assert (nodup_keys (row_map new)) as Hn by apply nodup_dict_of.
  rewrite !omap_nil; [done| |].
  - intros [k x] Hin. simpl. pose proof (dget_same _ _ k Hm) as Hk. unfold has.
    destruct (dget (row_map new) k) eqn:E; [done|].
    destruct (dget (row_map old) k) eqn:E'; [done|].
    apply dget_None_keys in E'. by apply (in_map fst) in Hin.
  - intros [k x] Hin. simpl. apply (In_dget _ _ _ Hn) in Hin.
    pose proof (dget_same _ _ k Hm) as Hk. rewrite Hin in Hk.
    destruct (dget (row_map old) k) as [p|]; [|done]. simpl. rewrite Hk, py_eq_refl; [done|].
    apply json_ok_stable. apply row_map_dicts in Hin as (d & -> & Hd).
    by apply (proj1 (List.Forall_forall _ _) Hok).
Qed.

Definition sample (rssi up : Z) : pyval :=
  PDict [("mac", PStr "aa:bb"); ("name", PStr "nas"); ("rssi", PInt rssi); ("dailyUp", PInt up)].

Lemma sample_ok rssi up : int_printable rssi -> int_printable up -> json_ok (sample rssi up).
Proof.
  intros H1 H2. constructor.
  - vm_compute. repeat constructor; simpl; intuition discriminate.
  - repeat constructor; done.
Qed.

Lemma volatile_samples_silent_witness :
  list_diff_stable "online_device" (PList [sample (-40) 1]) (PList [sample (-77) 900]) = Ok [].
Proof.
  apply volatile_samples_silent.
  - constructor; [apply sample_ok; vm_compute; reflexivity|constructor].
  - constructor; [reflexivity|constructor].
Defined.


Definition demo_event (id : Z) (deleted : bool) : pyval :=
  PDict [("id", PInt id); ("deleted", PBool deleted)].

Lemma demo_event_ok id b : int_printable id -> json_ok (demo_event id b).
Proof.
  intros H. constructor.
  - vm_compute. repeat constructor; simpl; intuition discriminate.
  - repeat constructor; done.
Qed.


(** The same for the device lists of [devices.json]: after applying the rows, each
    visible device of the client is the payload the Hub sent, or equal to the new device up
    to volatile fields, and no other device remains. *)
Theorem device_diff_applies entity old new es :
  Forall json_ok old -> Forall json_ok new ->
  list_diff_stable entity (PList old) (PList new) = Ok es ->
  forall k, match dget (apply_changes (visible (row_map old)) es) k, dget (visible (row_map new)) k with
            | Some x, Some y => x = revision_device_payload y \/ x = y
                                \/ py_eq (stable_device x) (stable_device y) = true
            | None, None => True
            | _, _ => False
            end.
Proof.
  intros Ho Hn H k.
  opose proof (diff_apply changed_stable revision_device_payload
    (fun a b => a = revision_device_payload b \/ py_eq (stable_device a) (stable_device b) = true)
    (fun _ => eq_refl) (fun v => or_introl eq_refl) entity old new es _ H k) as Hd.
  - intros p v Hp Hv Hc. simpl in Hc. to_prop.
    split; [by right|]. destruct p as [| | | | | |d], v as [| | | | | |e]; try done.
    assert (nodup_keys (List.filter (fun kv => stable_key kv.1) d)) as Hdn.
    { apply (proj1 (List.Forall_forall _ _) Ho) in Hp. inversion Hp. by apply nodup_filter. }
    pose proof (py_eq_dict_get _ _ Hdn Hc "deleted") as Hg.
    rewrite !(dget_filter_key stable_key) in Hg by done.
    simpl. unfold get. destruct (dget d "deleted"), (dget e "deleted"); try done.
    by apply py_eq_truthy.
  - unfold entry_related in Hd.
    destruct (dget (apply_changes _ _) k), (dget (visible (row_map new)) k); try done. tauto.
Qed.

Lemma device_diff_applies_witness :
  match dget (apply_changes (visible (row_map [sample (-40) 1]))
               (catch (list_diff_stable "device" (PList [sample (-40) 1]) (PList [sample (-41) 2])) [])) "aa:bb",
        dget (visible (row_map [sample (-41) 2])) "aa:bb" with
  | Some x, Some y => x = revision_device_payload y \/ x = y
                      \/ py_eq (stable_device x) (stable_device y) = true
  | None, None => True
  | _, _ => False
  end.
Proof.
  apply (device_diff_applies "device").
  - constructor; [apply sample_ok; vm_compute; reflexivity|constructor].
  - constructor; [apply sample_ok; vm_compute; reflexivity|constructor].
  - vm_compute. reflexivity.
Defined.
