(* ===== verification/Hub.v ===== *)
(** * The request layer of [hub.py]

    A handler runs in a monad of state and exceptions over the documents, the clocks and
    the revisions announced over MQTT.  An exception keeps the state reached so far, as in
    Python.  The documents are an interface, [DocStore]; [SQLiteStore] of [Storage.v]
    implements it.  The section ends with the configuration getters and the token checks
    of [hub.py]. *)

From S2P Require Import Prelude PyNum PyVal PyTime HubValues Json Storage.

(** ** Document stores *)

Class DocStore (S : Type) := {
  doc_read : string -> S -> option pyval;
  doc_save : clock -> string -> pyval -> S -> result (S * Z);
  doc_ok : S -> Prop;   (** the store's own invariant *)
}.

(** What a client may rely on.  Only the diff of the device lists can make a save fail. *)
Class DocStoreLaws (S : Type) `{DocStore S} : Prop := {
  doc_save_ok : forall c k v s s' r, plain v -> doc_ok s -> doc_save c k v s = Ok (s', r) -> doc_ok s';
  doc_read_save : forall c k v s s' r,
    plain v -> doc_save c k v s = Ok (s', r) -> doc_read k s' = Some (sort_keys v);
  doc_read_ok : forall k v s, doc_ok s -> doc_read k s = Some v -> json_ok v;
  doc_read_save_ne : forall c k k' v s s' r,
    k' <> k -> doc_save c k v s = Ok (s', r) -> doc_read k' s' = doc_read k' s;
  doc_save_total : forall c k v s,
    json_ok v -> doc_ok s -> k <> "devices.json" -> exists s' r, doc_save c k v s = Ok (s', r);
}.

(** *** The SQLite store implements the interface *)

Section SQLite.
Context (cfg : settings) {tz : TimeZone}.

(** Every stored text is the JSON of a value. *)
Definition texts_ok (s : store) : Prop :=
  forall k text at_, documents s !! k = Some (text, at_) -> exists v, json_ok v /\ text = dumps v.

Definition sqlite_doc_store : DocStore store :=
  {| doc_read := fun k s => match documents s !! k with Some (text, _) => loads text | None => None end;
     doc_save := fun c k v s => save cfg c k v s;
     doc_ok := texts_ok |}.

(** The check of a concrete store. *)
Definition text_okb (text : string) : bool :=
  match loads text with Some v => json_okb v && String.eqb (dumps v) text | None => false end.
Definition texts_okb (s : store) : bool := forallb (fun kv => text_okb kv.2.1) (map_to_list (documents s)).

Lemma texts_okb_sound s : texts_okb s = true -> texts_ok s.
Proof.
  unfold texts_okb. rewrite forallb_forall. intros Hs k text at_ Hk.
  apply elem_of_map_to_list, list_elem_of_In in Hk. specialize (Hs _ Hk). simpl in Hs.
  unfold text_okb in Hs. destruct (loads text) as [v|]; [|done].
  apply andb_prop in Hs as [Hv%json_okb_sound Ht%String.eqb_eq]. eauto.
Qed.

Lemma changes_total k old new : k <> "devices.json" -> is_ok (changes_for_document k old new) = true.
Proof.
  intros Hk. unfold changes_for_document, list_diff, list_diff_gen.
  destruct (str_in k _); [done|]. destruct (String.eqb_spec k "devices.json"); [done|].
  destruct (String.eqb k "events.json").
  - destruct (list_or_empty old), (list_or_empty new); reflexivity.
  - repeat case_match; reflexivity.
Qed.

Lemma texts_ok_save c k v s s' r : plain v -> texts_ok s -> save cfg c k v s = Ok (s', r) -> texts_ok s'.
Proof.
  intros Hv Hs H k' text at_ Hk'. apply plain_json_ok in Hv; [|by eapply save_printable].
  destruct (decide (k' = k)) as [->|Hne].
  - destruct (save_text _ _ _ _ _ _ _ H) as [t Ht]. rewrite Ht in Hk'.
    injection Hk' as <- <-. eauto.
  - destruct (save_documents _ _ _ _ _ _ _ H) as [[_ Hd]|Hd]; rewrite Hd in Hk'; [by eapply Hs|].
    rewrite lookup_insert_ne in Hk' by done. by eapply Hs.
Qed.

Lemma sqlite_laws_of : @DocStoreLaws store sqlite_doc_store.
Proof.
  apply (@Build_DocStoreLaws store sqlite_doc_store).
  - intros c k v s s' r Hv Hs H. exact (texts_ok_save c k v s s' r Hv Hs H).
  - intros c k v s s' r Hv H. simpl in *. apply plain_json_ok in Hv; [|by eapply save_printable].
    destruct (save_text _ _ _ _ _ _ _ H) as [t ->]. by apply loads_dumps_sorted.
  - intros k v s Hs H. simpl in *. destruct (documents s !! k) as [[text at_]|] eqn:E; [|done].
    destruct (Hs _ _ _ E) as (v0 & Hv0 & ->). rewrite loads_dumps_sorted in H by done.
    injection H as <-. by apply json_ok_sort_keys.
  - intros c k k' v s s' r Hne H. simpl in *.
    destruct (save_documents _ _ _ _ _ _ _ H) as [[_ ->]| ->]; [done|].
    by rewrite lookup_insert_ne.
  - intros c k v s Hv Hs Hk. simpl. unfold save.
    assert (exists o, old_value k s = Ok o) as [o ->].
    { unfold old_value, parse_json. destruct (documents s !! k) as [[text at_]|] eqn:E; [|by eexists].
      destruct (Hs _ _ _ E) as (v0 & Hv0 & ->). rewrite (loads_dumps_sorted v0) by done. by eexists. }
    simpl. rewrite json_text_ok by done. simpl. destruct (text_unchanged _ _ _); [by do 2 eexists|].
    pose proof (changes_total k o v Hk) as Ht.
    destruct (changes_for_document k o v); [|done]. by do 2 eexists.
Qed.

(** [SQLiteStore] implements the interface the handlers are verified against: a saved
    document reads back with its keys sorted, other documents are untouched, the stored
    texts stay JSON, and saving any document but [devices.json] cannot fail. *)
Theorem sqlite_laws : @DocStoreLaws store sqlite_doc_store.
Proof. apply sqlite_laws_of. Qed.
End SQLite.

(** ** The monad *)

(** What does not change while the Hub runs: [os.environ], the parsed [config.yaml]
    (an empty dict when it is missing or unreadable), the source of [secrets.token_hex] by
    draw number and byte count, and the JSON that [requests.get] of a URL gives at a time in
    milliseconds. *)
Record env := {
  env_var : string -> option string;
  env_config : pyval;
  env_entropy : nat -> nat -> string;
  env_http : Z -> string -> result pyval;
}.

Record world (S : Type) := World {
  w_docs : S;
  w_ms : Z;               (** [time.time()] in milliseconds *)
  w_mono : Z;             (** [time.monotonic()] in seconds *)
  w_draws : nat;          (** tokens drawn so far *)
  w_published : list Z;   (** revisions given to [MQTT_PUBLISHER.notify_revision] *)
  w_mem : gmap string pyval;   (** module-level dicts, by the name of the global *)
}.
Arguments World {S}.
Arguments w_docs {S}.
Arguments w_ms {S}.
Arguments w_mono {S}.
Arguments w_draws {S}.
Arguments w_published {S}.
Arguments w_mem {S}.

Notation hub S := (prog (world S)).

(** ** Requests and responses *)

Record request := {
  q_header : string -> option string;   (** case-insensitive, as in Werkzeug *)
  q_arg : string -> option string;      (** [request.args] *)
  q_json : option pyval;                (** [request.get_json(silent=True)] *)
}.

Record response := Response { rsp_status : Z; rsp_body : pyval }.

Definition header (q : request) (name : string) : string := default "" (q_header q name).
Definition arg (q : request) (name : string) : string := default "" (q_arg q name).
(** [request.args.get(name)]. *)
Definition arg_value (q : request) (name : string) : pyval :=
  match q_arg q name with Some s => PStr s | None => PNone end.
(** [request.get_json(silent=True) or {}]. *)
Definition json_body (q : request) : pyval := por (default PNone (q_json q)) (PDict []).

(** A JSON object has no duplicate key once parsed. *)
Definition body_ok (q : request) : Prop := match json_body q with PDict p => nodup_keys p | _ => True end.

Definition error_body (msg : string) : pyval := PDict [("ok", PBool false); ("error", PStr msg)].
Definition error_response (status : Z) (msg : string) : response := Response status (error_body msg).

(** ** Configuration *)

Section Config.
Context (E : env).

Definition cfg_get (path : string) (dflt : pyval) : pyval :=
  default dflt (fold_left (fun cur part => match cur with
                                           | Some (PDict d) => dget d part
                                           | _ => None
                                           end) (split "." path) (Some (env_config E))).

(** [os.environ.get(name) or v]. *)
Definition env_or (name : string) (v : pyval) : pyval :=
  match env_var E name with
  | Some s => if nonempty s then PStr s else v
  | None => v
  end.

Definition get_app_token : pyval := env_or "APP_TOKEN" (cfg_get "server.app_token" (PStr "change-app-token")).
Definition get_hook_token : pyval := env_or "HOOK_TOKEN" (cfg_get "server.hook_token" (PStr "change-hook-token")).

(** The first of the variables whose stripped value is not empty. *)
Definition env_compat (names : list string) (dflt : string) : string :=
  default dflt (List.find nonempty (List.map (fun n => strip (default "" (env_var E n))) names)).

Definition hub_name : string := env_compat ["HUB_NAME"] (py_str (cfg_get "home.name" (PStr "LabProbe Hub"))).
Definition primary_router_name : string :=
  env_compat ["PRIMARY_ROUTER_NAME"; "PORTMAP_ROUTER_NAME"] (py_str (cfg_get "router.name" (PStr ""))).
Definition host_ipv4 : string := env_compat ["HUB_HOST_IPV4"; "NAS_IPV4"; "LABPROBE_NAS_IPV4"; "EXIT_IPV4"] "".
Definition host_ipv6 : string := env_compat ["HUB_HOST_IPV6"; "NAS_IPV6"; "LABPROBE_NAS_IPV6"; "EXIT_IPV6"] "".
Definition host_mac : string := env_compat ["HUB_HOST_MAC"; "NAS_MAC"; "LABPROBE_NAS_MAC"] "".

(** *** Tokens *)

Definition token_headers : list string :=
  ["X-LabProbe-Token"; "X-Labprobe-Token"; "X-Hook-Token"; "X-Api-Token"; "X-API-Key";
   "X-LabProbe-Hook-Token"].
Definition token_args : list string := ["token"; "app_token"; "appToken"; "hook_token"; "hookToken"; "key"].

Definition auth_tokens (q : request) : list string :=
  let auth := strip (header q "Authorization") in
  let bearer := if starts_with "bearer " (lower auth) then [strip (py_drop 7 auth)]
                else if nonempty auth then [auth] else [] in
  List.filter nonempty
    (bearer ++ List.map (fun h => strip (header q h)) token_headers
            ++ List.map (fun a => strip (arg q a)) token_args).

Definition token_matches (candidate : string) (expected : pyval) : bool :=
  match expected with PStr e => String.eqb candidate e | _ => false end.

Definition check_app_token (q : request) : bool :=
  existsb (fun t => token_matches t get_app_token) (auth_tokens q).
Definition check_hook_token (q : request) : bool :=
  existsb (fun t => token_matches t get_hook_token) (auth_tokens q).

(** The set display hashes both tokens, which fails on a list or a dict. *)
Definition check_read_token (q : request) : result bool :=
  match List.find (fun v => is_list v || is_dict v) [get_app_token; get_hook_token] with
  | Some v => Err (Exn "TypeError" ("unhashable type: '" +:+ type_name v +:+ "'"))
  | None => Ok (existsb (fun t => existsb (token_matches t) [get_app_token; get_hook_token]) (auth_tokens q))
  end.
End Config.

(** ** Documents, time and randomness in the monad *)

Section Docs.
Context {S : Type} `{DocStore S} {tz : TimeZone} (E : env).

Definition epoch : hub S Z := fun w => (Ok (w_ms w / 1000), w).       (** [int(time.time())] *)
Definition epoch_ms : hub S Z := fun w => (Ok (w_ms w), w).
Definition now_str : hub S string := fun w => (Ok (format_datetime (to_local (w_ms w / 1000))), w).
Definition today_str : hub S string := fun w => (Ok (format_date (to_local (w_ms w / 1000))), w).

Definition token_hex (bytes : nat) : hub S string := fun w =>
  (Ok (env_entropy E (w_draws w) bytes),
   World (w_docs w) (w_ms w) (w_mono w) (1 + w_draws w)%nat (w_published w) (w_mem w)).

Definition load_json (key : string) (dflt : pyval) : hub S pyval := fun w =>
  (Ok (default dflt (doc_read key (w_docs w))), w).

(** The document itself, to tell a missing one from any default. *)
Definition load_raw (key : string) : hub S (option pyval) := fun w => (Ok (doc_read key (w_docs w)), w).

Definition mem_get (name : string) (dflt : pyval) : hub S pyval := fun w =>
  (Ok (default dflt (w_mem w !! name)), w).
Definition mem_set (name : string) (v : pyval) : hub S unit := fun w =>
  (Ok tt, World (w_docs w) (w_ms w) (w_mono w) (w_draws w) (w_published w) (<[name := v]> (w_mem w))).
Definition http_json (url : string) : hub S pyval := fun w => (env_http E (w_ms w) url, w).

Definition announced : list string := ["state.json"; "devices.json"; "events.json"].

Definition save_json (key : string) (data : pyval) : hub S unit := fun w =>
  let data := if str_in key ["state.json"; "devices.json"] then compact_runtime_document data else data in
  match doc_save {| wall := w_ms w / 1000; mono := w_mono w |} key data (w_docs w) with
  | Err e => (Err e, w)
  | Ok (s, revision) =>
      (Ok tt, World s (w_ms w) (w_mono w) (w_draws w)
                    (if str_in key announced then w_published w ++ [revision] else w_published w)
                    (w_mem w))
  end.

(** [add_event]: the caller's dict gets its number and its defaults; the last 1000
    events are kept.  The call returns the completed event. *)
Definition setdefault (k : string) (v : pyval) (d : dict) : dict := if has d k then d else dset k v d.

(** Iteration over a value: [for x in v]; [reversed(v)] accepts the same types. *)
Definition py_iter (v : pyval) : result (list pyval) :=
  match v with
  | PList l => Ok l
  | PDict d => Ok (List.map (fun k => PStr k) (keys d))
  | PStr s => Ok (List.map (fun c => PStr (String c "")) (list_ascii_of_string s))
  | _ => Err (Exn "TypeError" ("'" +:+ type_name v +:+ "' object is not iterable"))
  end.

(** [int(v)] of a JSON value. *)
Definition py_int (v : pyval) : result Z :=
  match v with
  | PInt n => Ok n
  | PBool b => Ok (Z.b2z b)
  | PFloat f => int_of_float f
  | PStr s => match int_of_str s with
              | Some n => Ok n
              | None => raise_value_error ("invalid literal for int() with base 10: " +:+ repr_str s)
              end
  | _ => Err (Exn "TypeError" ("int() argument must be a string, a bytes-like object or a real number, not '"
                               +:+ type_name v +:+ "'"))
  end.

Definition next_event_id (events : list pyval) : result Z :=
  match List.last (List.map Some events) None with
  | None => Ok 1
  | Some e => v ← vget_or e "id" (PInt 0); n ← py_int v; mret (n + 1)
  end.

(** [load_json(EVENTS_FILE, [])]: the list methods the code calls fail on anything else. *)
Definition as_list (v : pyval) (method : string) : result (list pyval) :=
  match v with PList l => Ok l | _ => attribute_error v method end.

Definition event_cap : nat := 1000.

Definition add_event (event : dict) : hub S dict :=
  doc ← load_json "events.json" (PList []);
  events ← lift (as_list doc "append");
  next_id ← lift (next_event_id events);
  now ← now_str;
  let event := setdefault "level" (PStr "normal") (setdefault "createdAt" (PStr now)
                 (dset "id" (PInt next_id) event)) in
  _ ← save_json "events.json" (PList (last_n event_cap (events ++ [PDict event])));
  mret event.
End Docs.

(** ** Which documents a handler may change

    [keeps k m]: running [m] leaves document [k] as it was, whatever the outcome. *)

Section Keeps.
Context {S : Type} `{DocStoreLaws S} {tz : TimeZone} (E : env) (k : string).

Definition keeps {A} (m : hub S A) : Prop :=
  forall w r w', m w = (r, w') -> doc_read k (w_docs w') = doc_read k (w_docs w).

Lemma keeps_ret {A} (a : A) : keeps (mret a).
Proof. intros w r w' [= <- <-]. done. Qed.

Lemma keeps_bind {A B} (m : hub S A) (f : A -> hub S B) :
  keeps m -> (forall a, keeps (f a)) -> keeps (m ≫= f).
Proof.
  intros Hm Hf w r w'. rewrite prog_bind_eq. destruct (m w) as [[a|e] w1] eqn:Em; intros Hr.
  - rewrite (Hf _ _ _ _ Hr). by eapply Hm.
  - injection Hr as <- <-. by eapply Hm.
Qed.

Lemma keeps_lift {A} (m : result A) : keeps (lift m).
Proof. intros w r w' [= <- <-]. done. Qed.

Lemma keeps_raise {A} (e : exn) : keeps (raise (A := A) e).
Proof. intros w r w' [= <- <-]. done. Qed.

Lemma keeps_try {A} (m : hub S A) h : keeps m -> (forall e, keeps (h e)) -> keeps (try_except m h).
Proof.
  intros Hm Hh w r w'. unfold try_except. destruct (m w) as [[a|e] w1] eqn:Em; intros Hr.
  - injection Hr as <- <-. by eapply Hm.
  - rewrite (Hh _ _ _ _ Hr). by eapply Hm.
Qed.

Lemma keeps_for_each {A} (f : A -> hub S unit) l : (forall a, keeps (f a)) -> keeps (for_each f l).
Proof.
  intros Hf. induction l as [|x l IH]; simpl; [apply keeps_ret|]. by apply keeps_bind.
Qed.

Lemma keeps_load_json k' d : keeps (load_json k' d).
Proof. intros w r w' [= <- <-]. done. Qed.
Lemma keeps_load_raw k' : keeps (load_raw k').
Proof. intros w r w' [= <- <-]. done. Qed.
Lemma keeps_epoch : keeps epoch.
Proof. intros w r w' [= <- <-]. done. Qed.
Lemma keeps_epoch_ms : keeps epoch_ms.
Proof. intros w r w' [= <- <-]. done. Qed.
Lemma keeps_now_str : keeps now_str.
Proof. intros w r w' [= <- <-]. done. Qed.
Lemma keeps_today_str : keeps today_str.
Proof. intros w r w' [= <- <-]. done. Qed.
Lemma keeps_token_hex n : keeps (token_hex E n).
Proof. intros w r w' [= <- <-]. done. Qed.
Lemma keeps_mem_get n d : keeps (mem_get n d).
Proof. intros w r w' [= <- <-]. done. Qed.
Lemma keeps_mem_set n v : keeps (mem_set n v).
Proof. intros w r w' [= <- <-]. done. Qed.
Lemma keeps_http_json url : keeps (http_json E url).
Proof. intros w r w' [= <- <-]. done. Qed.

Lemma keeps_save_json k' v : k <> k' -> keeps (save_json k' v).
Proof.
  intros Hne w r w'. unfold save_json.
  destruct (doc_save _ _ _ _) as [[s rev]|e] eqn:Es; intros [= <- <-]; [|done].
  simpl. by eapply doc_read_save_ne.
Qed.

Lemma keeps_add_event e : k <> "events.json" -> keeps (add_event e).
Proof.
  intros Hne. unfold add_event.
  repeat first [apply keeps_bind; [|intros ?] | apply keeps_load_json | apply keeps_lift
               | apply keeps_now_str | apply keeps_ret | by apply keeps_save_json].
Qed.
End Keeps.

#[export] Hint Resolve keeps_ret keeps_lift keeps_raise keeps_load_json keeps_load_raw keeps_epoch
  keeps_epoch_ms keeps_now_str keeps_today_str keeps_token_hex keeps_mem_get keeps_mem_set
  keeps_http_json : hub.

(** Walk through a handler, resolving the leaves with the hint database. *)
Ltac solve_keeps :=
  repeat first
    [ match goal with |- forall _, _ => intros ? end
    | solve [auto with hub nocore]
    | apply keeps_save_json; done
    | apply keeps_add_event; done
    | apply keeps_bind
    | apply keeps_try
    | apply keeps_for_each
    | case_match ].

(** A value of concrete shape whose leaves are atoms. *)
Ltac solve_plain :=
  repeat first
    [ assumption
    | match goal with |- plain (PDict _) => constructor; [unfold nodup_keys; cbn|] end
    | match goal with |- List.NoDup (_ :: _) => constructor; [cbn; intuition discriminate|] end
    | match goal with |- List.Forall _ (_ :: _) => apply List.Forall_cons; cbn [fst snd] end
    | constructor ].

Ltac solve_json :=
  repeat first
    [ assumption
    | match goal with |- json_ok (PDict (_ :: _)) => constructor; [unfold nodup_keys; cbn|] end
    | match goal with |- List.NoDup (_ :: _) => constructor; [cbn; intuition discriminate|] end
    | match goal with |- List.Forall _ (_ :: _) => apply List.Forall_cons; cbn [fst snd] end
    | constructor ].

(** A save that succeeds: the document reads back with its keys sorted, and nothing else of
    the world changes but the announced revisions. *)
Lemma save_json_read {S : Type} `{DocStoreLaws S} k v (w w' : world S) :
  str_in k ["state.json"; "devices.json"] = false -> plain v ->
  save_json k v w = (Ok tt, w') -> doc_read k (w_docs w') = Some (sort_keys v).
Proof.
  intros Hk Hv. unfold save_json. rewrite Hk.
  destruct (doc_save _ _ _ _) as [[s r]|e] eqn:Es; [|done]. intros [= <-]. by eapply doc_read_save.
Qed.

(** Whatever the outcome, a save of another document keeps the store well-formed. *)
Lemma save_json_ok {S : Type} `{DocStoreLaws S} k v r (w w' : world S) :
  str_in k ["state.json"; "devices.json"] = false -> plain v -> doc_ok (w_docs w) ->
  save_json k v w = (r, w') -> doc_ok (w_docs w').
Proof.
  intros Hk Hv Hw. unfold save_json. rewrite Hk.
  destruct (doc_save _ _ _ _) as [[s n]|e] eqn:Es; intros [= <- <-]; [by eapply doc_save_ok|done].
Qed.

(** A save of a value that is not a device list never fails. *)
Lemma save_json_total {S : Type} `{DocStoreLaws S} k v (w : world S) :
  str_in k ["state.json"; "devices.json"] = false -> json_ok v -> doc_ok (w_docs w) ->
  exists w', save_json k v w = (Ok tt, w') /\ doc_ok (w_docs w') /\ w_ms w' = w_ms w
             /\ w_draws w' = w_draws w /\ w_mem w' = w_mem w.
Proof.
  intros Hk Hv Hw. unfold save_json. rewrite Hk.
  destruct (doc_save_total {| wall := w_ms w / 1000; mono := w_mono w |} k v (w_docs w) Hv Hw) as (s & r & Hs).
  { intros ->. done. }
  rewrite Hs. eexists. split; [done|]. split; [|done]. eapply doc_save_ok; [by apply json_ok_plain|done..].
Qed.

(** ** A stored document as a dict *)

Section Document.
Context {S : Type} `{DocStoreLaws S}.

Definition document (k : string) (w : world S) : dict := dict_or_empty (default (PDict []) (doc_read k (w_docs w))).

Lemma document_plain k w : doc_ok (w_docs w) -> plain (PDict (document k w)).
Proof.
  intros Hd. unfold document. destruct (doc_read k (w_docs w)) as [v|] eqn:Ev; cbn [default]; [|by repeat constructor].
  pose proof (json_ok_plain _ (doc_read_ok _ _ _ Hd Ev)) as Hv. destruct v; try done; by repeat constructor.
Qed.

(** A field of a document that was just saved. *)
Lemma save_json_field k d f (w w' : world S) :
  str_in k ["state.json"; "devices.json"] = false -> plain (PDict d) ->
  save_json k (PDict d) w = (Ok tt, w') -> get (document k w') f = sort_keys (get d f).
Proof.
  intros Hk Hv Hs. unfold document. rewrite (save_json_read k (PDict d) w w' Hk Hv Hs).
  rewrite sort_keys_sorted_dict. cbn [default dict_or_empty]. apply get_sorted. by apply plain_nodup.
Qed.

(** A save moves no clock. *)
Lemma save_json_clock k v r (w w' : world S) : save_json k v w = (r, w') -> w_ms w' = w_ms w.
Proof. unfold save_json. destruct (doc_save _ _ _ _) as [[s rev]|e]; by intros [= <- <-]. Qed.
End Document.
