(* ===== verification/Fixtures.v ===== *)
(** * A concrete Hub

    A store, an environment and requests on which the theorems about handlers are
    instantiated: the SQLite store of [Storage.v], a host in UTC+8, and two tokens. *)

From S2P Require Import Prelude PyNum PyVal PyTime HubValues Json Storage Hub.

#[export] Instance demo_tz : TimeZone := fixed_zone 28800.
#[export] Instance demo_docs : DocStore store := sqlite_doc_store demo_cfg.
#[export] Instance demo_laws : DocStoreLaws store.
Proof. apply sqlite_laws_of. Qed.

Definition demo_env : env :=
  {| env_var := fun name => if String.eqb name "APP_TOKEN" then Some "app-secret"
                            else if String.eqb name "HOOK_TOKEN" then Some "hook-secret"
                            else if String.eqb name "PRIMARY_ROUTER_NAME" then Some "BE72" else None;
     env_config := PDict [];
     env_entropy := fun n bytes => "t" +:+ nat_str (Z.of_nat n);
     env_http := fun _ _ => raise_value_error "offline" |}.

Definition world_at (ms : Z) (s : store) : world store := World s ms (ms / 1000) 0 [] ∅.
Definition demo_world : world store := world_at 1700000000000 empty_store.

(** The same world at a later time. *)
Definition later (ms : Z) {S} (w : world S) : world S :=
  World (w_docs w) (w_ms w + ms) (w_mono w + ms / 1000) (w_draws w) (w_published w) (w_mem w).

Definition bearer (token : string) : string -> option string :=
  fun name => if String.eqb name "Authorization" then Some ("Bearer " +:+ token) else None.

Definition app_request (args : list (string * string)) (body : option pyval) : request :=
  {| q_header := bearer "app-secret";
     q_arg := fun name => option_map snd (List.find (fun kv => String.eqb name kv.1) args);
     q_json := body |}.
Definition router_request (args : list (string * string)) (body : option pyval) : request :=
  {| q_header := bearer "hook-secret";
     q_arg := fun name => option_map snd (List.find (fun kv => String.eqb name kv.1) args);
     q_json := body |}.

Definition run {A} (m : hub store A) (w : world store) : world store := snd (m w).

Lemma empty_store_ok : doc_ok (w_docs demo_world).
Proof. intros k text at_ Hk. discriminate. Qed.
