(* ===== verification/Services.v ===== *)
(** * Helpers of the service modules

    The conversions that [lab_ddns.py], [stun_service.py], [wireguard_service.py], [router/ipv6]
    and [router/firewall_automation.py] share under the names [_text], [_int] and [_now_text]. *)

From S2P Require Import Prelude PyNum PyVal PyTime HubValues Json Storage Hub.

(** [_text]: [str(value or "").strip()]. *)
Definition text_of (v : pyval) : string := strip (str_or_empty v).

(** [_int]: [int(value)], or the default for a [TypeError] or a [ValueError]; an infinite float
    raises [OverflowError], which is not caught. *)
Definition caught_by_int (e : exn) : bool := str_in (exn_class e) ["TypeError"; "ValueError"].

Definition int_or (v : pyval) (dflt : Z) : result Z :=
  match py_int v with
  | Ok n => Ok n
  | Err e => if caught_by_int e then Ok dflt else Err e
  end.

(** [_safe_int]: the same, not below zero. *)
Definition safe_int (v : pyval) (dflt : Z) : result Z :=
  match py_int v with
  | Ok n => Ok (Z.max 0 n)
  | Err e => if caught_by_int e then Ok dflt else Err e
  end.

(** [time.strftime("%Y-%m-%dT%H:%M:%SZ", time.gmtime())]. *)
Definition utc_text (seconds : Z) : string := format_date seconds +:+ "T" +:+ format_clock seconds +:+ "Z".

Lemma safe_int_int n d : 0 <= n -> safe_int (PInt n) d = Ok n.
Proof. intros Hn. unfold safe_int. cbn. by rewrite Z.max_r. Qed.

Lemma safe_int_nonneg v d n : 0 <= d -> safe_int v d = Ok n -> 0 <= n.
Proof. intros Hd. unfold safe_int. destruct (py_int v); [intros [= <-]; lia|]. destruct (caught_by_int _); [by intros [= <-]|done]. Qed.

Lemma text_of_str s : text_of (PStr s) = strip s.
Proof. unfold text_of, str_or_empty. simpl. destruct (nonempty s) eqn:E; [done|]. by apply nonempty_false in E as ->. Qed.

(** [d[k]]. *)
Definition KeyError (key : string) : exn := Exn "KeyError" (repr_str key).
Definition item (d : dict) (k : string) : result pyval :=
  match dget d k with Some v => Ok v | None => Err (KeyError k) end.

(** [[dict(row) for row in rows if isinstance(row, dict)]]. *)
Definition dict_rows (rows : pyval) : result (list dict) :=
  l ← py_iter rows; Ok (omap (fun v => match v with PDict d => Some d | _ => None end) (l : list pyval)).

(** [min(hi, max(lo, n))]. *)
Definition clamp (lo hi n : Z) : Z := Z.max lo (Z.min hi n).

(** The first of several field values that is true, or the last one, as a text. *)
Definition text_first (vs : list pyval) : string := text_of (fold_right por PNone vs).

Section ServiceHub.
Context {S : Type} (E : env).

(** [uuid.uuid4().hex]: a draw of 16 bytes. *)
Definition uuid_hex : hub S string := token_hex E 16.
Definition utc_now : hub S string := now ← epoch; mret (utc_text now).
End ServiceHub.
