(* ===== verification/AgentQueue.v ===== *)
(** * The command queues of the service Agents

    The STUN and the WireGuard service keep their commands in documents of one shape and hand
    them to the router in one way ([agent_commands] and [agent_ack] of [stun_service.py] and
    [wireguard_service.py]): a poll takes pending commands and commands that were delivered a
    while ago without an acknowledgement, at most five times each. *)

From S2P Require Import Prelude PyNum PyVal PyTime HubValues Json Storage Hub Services.

Definition read_commands (raw : pyval) : result (list dict) :=
  match raw with PDict d => dict_rows (get_or d "commands" (PList [])) | _ => Ok [] end.

Definition is_open (row : dict) : bool := is_text (get row "status") "pending" || is_text (get row "status") "delivered".

(** Delivered at least 15 seconds ago and less than five times. *)
Definition retry_due (now : Z) (row : dict) : result bool :=
  if is_text (get row "status") "delivered" then
    at_ ← int_or (get row "deliveredEpoch") 0;
    if 15 <=? now - at_ then attempts ← int_or (get row "attempts") 0; mret (attempts <? 5) else Ok false
  else Ok false.

Definition handed_out (now : Z) (now_text : string) (row : dict) : result dict :=
  attempts ← int_or (get row "attempts") 0;
  mret (dset "attempts" (PInt (attempts + 1)) (dset "deliveredEpoch" (PInt now) (dset "deliveredAt" (PStr now_text)
          (dset "status" (PStr "delivered") row)))).

(** Acknowledgements by command id; an empty one counts as none. *)
Definition ack_map (rows : list pyval) : dict :=
  dict_of (omap (fun v => match v with PDict row => Some (text_of (get row "id"), v) | _ => None end) rows).
Definition acknowledge (now : string) (values : dict) (row : dict) : dict :=
  match get values (text_of (get row "id")) with
  | PDict ack => if truthy (PDict ack)
                 then dset "finishedAt" (PStr now) (dset "result" (get ack "result")
                        (dset "status" (PStr (if truthy (get ack "ok") then "done" else "failed")) row))
                 else row
  | _ => row
  end.
Definition acknowledged (values : dict) (row : dict) : bool := truthy (get values (text_of (get row "id"))).

Section Poll.
(** Whether a command is due for a router, and the fields the router gets. *)
Context (due : Z -> string -> dict -> result bool) (keys : list string).

Definition picked (row : dict) : dict := List.map (fun k => (k, get row k)) keys.

(** The rows after a poll and the commands handed out, at most [limit] of them. *)
Fixpoint hand_out (now : Z) (now_text router : string) (limit : nat) (rows : list dict) : result (list dict * list dict) :=
  match rows with
  | [] => Ok ([], [])
  | row :: rows' =>
      match limit with
      | O => Ok (rows, [])
      | S n =>
          ready ← due now router row;
          if ready : bool then
            row' ← handed_out now now_text row;
            x ← hand_out now now_text router n rows';
            mret (row' :: x.1, picked row' :: x.2)
          else x ← hand_out now now_text router limit rows'; mret (row :: x.1, x.2)
      end
  end.
End Poll.

(** ** The documents of a service *)

Section Documents.
Context {S : Type} `{DocStore S} (file : string).

Definition load_queue : hub S (list dict) := raw ← load_json file (PDict [("commands", PList [])]); lift (read_commands raw).
Definition save_queue (rows : list dict) : hub S unit := save_json file (PDict [("commands", PList (List.map PDict rows))]).

(** [agent_commands] once the router and the limit are known. *)
Definition poll_queue (due : Z -> string -> dict -> result bool) (ks : list string) (router : string) (limit : nat) : hub S (list dict) :=
  now ← epoch;
  now_text ← utc_now;
  commands ← load_queue;
  '(rows, out) ← lift (hand_out due ks now now_text router limit commands);
  _ ← (match out with [] => mret tt | _ => save_queue rows end);
  mret out.

(** [agent_ack]: how many commands were acknowledged. *)
Definition ack_queue (acks : list pyval) : hub S Z :=
  let values := ack_map acks in
  commands ← load_queue;
  now ← utc_now;
  let changed := List.filter (acknowledged values) commands in
  _ ← (match changed with [] => mret tt | _ => save_queue (List.map (acknowledge now values) commands) end);
  mret (Z.of_nat (List.length changed)).
End Documents.

(** ** What a poll does *)

(** The fields of a command the queue works with. *)
Record command_sane (row : dict) : Prop := {
  cs_plain : plain (PDict row);
  cs_status : exists s, get row "status" = PStr s;
  cs_attempts : exists n, get row "attempts" = PInt n /\ 0 <= n <= 5;
  cs_pending : is_text (get row "status") "pending" = true -> get row "attempts" = PInt 0;
  cs_delivered : is_text (get row "status") "delivered" = true -> exists t, get row "deliveredEpoch" = PInt t;
}.

Definition attempts_of (row : dict) : Z := match get row "attempts" with PInt n => n | _ => 0 end.
Definition delivered_at (row : dict) : Z := match get row "deliveredEpoch" with PInt n => n | _ => 0 end.
Definition is_pending (row : dict) : bool := is_text (get row "status") "pending".

(** A sane command may go out: it waits, or it went out at least 15 seconds ago and less than five
    times. *)
Definition may_go (now : Z) (row : dict) : Prop :=
  is_pending row = true \/ is_text (get row "status") "delivered" = true /\ delivered_at row + 15 <= now /\ attempts_of row < 5.

Lemma retry_due_sane now row : command_sane row ->
  exists b, retry_due now row = Ok b
    /\ (b = true <-> is_text (get row "status") "delivered" = true /\ delivered_at row + 15 <= now /\ attempts_of row < 5).
Proof.
  intros [_ _ (n & Ha & Hn) _ Hd]. unfold retry_due, delivered_at, attempts_of. rewrite Ha.
  destruct (is_text (get row "status") "delivered") eqn:Ed; [|exists false; split; [done|]; split; [done|by intros [? _]]].
  destruct (Hd eq_refl) as [t Ht]. rewrite Ht. cbn. destruct (Z.leb_spec 15 (now - t)); cbn.
  - exists (n <? 5). split; [done|]. rewrite Z.ltb_lt. lia.
  - exists false. split; [done|]. split; [done|lia].
Qed.

(** What happens to a command that goes out. *)
Record sent (now : Z) (row row' : dict) : Prop := {
  se_may : may_go now row;
  se_status : get row' "status" = PStr "delivered";
  se_at : get row' "deliveredEpoch" = PInt now;
  se_attempts : attempts_of row' = attempts_of row + 1;
  se_rest : forall k, str_in k ["status"; "deliveredAt"; "deliveredEpoch"; "attempts"] = false -> get row' k = get row k;
}.

Lemma handed_out_sane now now_text row :
  command_sane row -> may_go now row ->
  exists row', handed_out now now_text row = Ok row' /\ command_sane row' /\ sent now row row'.
Proof.
  intros [Hpl [s Hs] (n & Ha & Hn) Hp Hd] Hdue. unfold handed_out. rewrite Ha. cbn [int_or py_int mbind result_bind mret result_ret].
  assert (n < 5) as Hlt.
  { destruct Hdue as [Hpend|(_ & _ & Hlt)]; [rewrite Hp in Ha by done; injection Ha as <-; lia|].
    unfold attempts_of in Hlt. by rewrite Ha in Hlt. }
  eexists. split; [done|]. split.
  - constructor; simpl_get; [|by eexists|exists (n + 1); split; [done|lia]|done|by eexists].
    by repeat (apply plain_dset; [constructor|]).
  - constructor; [done|by simpl_get..| |].
    + unfold attempts_of. simpl_get. by rewrite Ha.
    + intros k Hk. cbn [str_in existsb] in Hk. rewrite !orb_false_iff, !String.eqb_neq in Hk.
      rewrite !get_dset_ne by (intros <-; tauto). done.
Qed.

(** A poll as a relation: it walks through the commands in order, hands out those for the router
    that may go, and stops when the limit is reached. *)
Section PollSpec.
Context (due : Z -> string -> dict -> result bool) (ks : list string) (now : Z) (router : string).

Definition ready_for (row : dict) : Prop := is_text (get row "router") router = true /\ may_go now row.

Inductive polled : nat -> list dict -> list dict -> list dict -> Prop :=
| polled_full rows : polled 0 rows rows []
| polled_end n : polled n [] [] []
| polled_skip n row rows rows' out : ~ ready_for row -> polled (S n) rows rows' out -> polled (S n) (row :: rows) (row :: rows') out
| polled_send n row row' rows rows' out :
    ready_for row -> sent now row row' -> command_sane row' -> polled n rows rows' out ->
    polled (S n) (row :: rows) (row' :: rows') (picked ks row' :: out).

Lemma hand_out_polled (good : dict -> Prop) now_text limit rows :
  (forall row, good row -> command_sane row /\ exists b, due now router row = Ok b /\ (b = true <-> ready_for row)) ->
  List.Forall good rows ->
  exists rows' out, hand_out due ks now now_text router limit rows = Ok (rows', out) /\ polled limit rows rows' out.
Proof.
  intros Hdue Hrows. revert limit. induction Hrows as [|row rows Hrow Hrows IH]; intros limit; cbn.
  - do 2 eexists. split; [done|constructor].
  - destruct limit as [|n]; [do 2 eexists; split; [done|constructor]|].
    destruct (Hdue row Hrow) as (Hsane & b & -> & Hb). cbn. destruct b.
    + destruct Hb as [Hb _]. destruct (handed_out_sane now now_text row Hsane (proj2 (Hb eq_refl))) as (row' & -> & Hs' & Hsent).
      destruct (IH n) as (rows' & out & -> & Hp). cbn. do 2 eexists. split; [done|]. constructor; auto.
    + destruct (IH (S n)) as (rows' & out & -> & Hp). cbn. do 2 eexists. split; [done|]. constructor; [|done].
      intros Hr%Hb. done.
Qed.

Definition total_attempts (rows : list dict) : Z := fold_right (fun row n => attempts_of row + n) 0 rows.

Lemma polled_bounds limit rows rows' out : polled limit rows rows' out ->
  (List.length out <= limit)%nat /\ total_attempts rows' = total_attempts rows + Z.of_nat (List.length out).
Proof.
  induction 1 as [| | |n row row' rows rows' out Hr [] _ _ [IH1 IH2]]; cbn [List.length total_attempts fold_right] in *; try lia.
  - unfold total_attempts in *. cbn [fold_right]. lia.
  - unfold total_attempts in *. cbn [fold_right]. lia.
Qed.

Lemma polled_rows limit rows rows' out : polled limit rows rows' out ->
  List.Forall2 (fun row row' => row' = row \/ ready_for row /\ sent now row row') rows rows'.
Proof.
  induction 1 as [rows| |n row rows rows' out _ _ IH|n row row' rows rows' out Hr Hs _ _ IH]; [|constructor|constructor; auto..].
  induction rows; constructor; auto.
Qed.

Lemma polled_sane limit rows rows' out : polled limit rows rows' out -> List.Forall command_sane rows -> List.Forall command_sane rows'.
Proof. induction 1; intros Hs; [done|done|inversion Hs; subst..]; constructor; auto. Qed.

(** What went out, and nothing that could go is passed over while there is room. *)
Lemma polled_out limit rows rows' out : polled limit rows rows' out ->
  (forall p, In p out -> exists row row', In row rows /\ In row' rows' /\ ready_for row /\ sent now row row' /\ p = picked ks row')
  /\ ((List.length out < limit)%nat -> forall row, In row rows -> ready_for row ->
        exists row', In (picked ks row') out /\ sent now row row').
Proof.
  induction 1 as [| |n row rows rows' out Hr _ [IH1 IH2]|n row row' rows rows' out Hr Hs _ _ [IH1 IH2]]; cbn [List.length In].
  - split; [done|lia].
  - done.
  - split; [intros p Hp; destruct (IH1 p Hp) as (a & b & ? & ? & ?); exists a, b; tauto|].
    intros Hl a [<-|Ha] Hready; [by destruct Hr|]. by apply IH2.
  - split.
    + intros p [<-|Hp]; [exists row, row'; tauto|]. destruct (IH1 p Hp) as (a & b & ? & ? & ?). exists a, b. tauto.
    + intros Hl a [<-|Ha] Hready; [exists row'; tauto|]. destruct (IH2 ltac:(lia) a Ha Hready) as (b & ? & ?). exists b. tauto.
Qed.
End PollSpec.

(** ** Acknowledgements *)

Lemma acknowledge_sane now values row : plain (PDict values) -> command_sane row -> command_sane (acknowledge now values row).
Proof.
  intros Hv Hrow. unfold acknowledge. pose proof (plain_get values (text_of (get row "id")) Hv) as Hack.
  destruct (get values _) as [| | | | | |ack]; try done. destruct (truthy _); [|done]. destruct Hrow as [Hpl Hs Ha Hp Hd]. assert (exists s, PStr (if truthy (get ack "ok") then "done" else "failed") = PStr s
    /\ s <> "pending" /\ s <> "delivered") as (s & -> & Hs1 & Hs2) by (destruct (truthy (get ack "ok")); by eexists).
  constructor; simpl_get; [|by eexists|done|intros ?%is_text_spec; by simplify_eq..].
  by repeat (apply plain_dset; [first [by apply plain_get|constructor]|]).
Qed.

(** ** Open commands

    A service files its commands under a key; a key has at most one open command. *)
Definition one_open {K} (key : dict -> K) (rows : list dict) : Prop := List.NoDup (List.map key (List.filter is_open rows)).

Lemma one_open_app {K} (key : dict -> K) rows row :
  one_open key rows -> (forall r, In r rows -> is_open r = true -> key r <> key row) -> one_open key (rows ++ [row]).
Proof.
  unfold one_open. intros Hrows Hne. rewrite List.filter_app, List.map_app. cbn. destruct (is_open row); [|by rewrite app_nil_r].
  apply NoDup_ListNoDup. apply NoDup_ListNoDup in Hrows. apply NoDup_app. split; [done|]. split; [|apply NoDup_singleton].
  intros x Hx%list_elem_of_In Hk%list_elem_of_singleton. apply List.in_map_iff in Hx as (r & <- & [Hr Ho]%List.filter_In).
  by apply (Hne r Hr Ho).
Qed.

(** Sublists in the same order. *)
Lemma one_open_filter {K} (key : dict -> K) f rows : one_open key rows -> one_open key (List.filter f rows).
Proof.
  unfold one_open. induction rows as [|r rows IH]; cbn; [done|]. destruct (is_open r) eqn:Eo; cbn.
  - inversion 1; subst. destruct (f r); cbn; [|auto]. rewrite Eo. cbn. constructor; [|auto].
    intros (x & Hk & Hin)%List.in_map_iff. apply List.filter_In in Hin as [[Hin _]%List.filter_In Ho].
    match goal with H : ~ In _ _ |- _ => apply H end. apply List.in_map_iff. exists x. split; [done|]. by apply List.filter_In.
  - intros Hn. destruct (f r); cbn; [rewrite Eo|]; auto.
Qed.

Lemma one_open_skipn {K} (key : dict -> K) n rows : one_open key rows -> one_open key (skipn n rows).
Proof.
  unfold one_open. revert n. induction rows as [|r rows IH]; intros [|n]; cbn; try done. intros Hn. apply IH.
  destruct (is_open r); [by inversion Hn|done].
Qed.

(** Steps that close commands or leave them open under the same key. *)
Lemma one_open_mono {K} (key : dict -> K) rows rows' :
  List.Forall2 (fun row row' => is_open row' = true -> is_open row = true /\ key row' = key row) rows rows' ->
  one_open key rows -> one_open key rows'.
Proof.
  unfold one_open. induction 1 as [|row row' rows rows' Hr Hrows IH]; cbn; [done|]. intros Hn.
  assert (forall k, In k (List.map key (List.filter is_open rows')) -> In k (List.map key (List.filter is_open rows))) as Hincl.
  { clear -Hrows. induction Hrows as [|a b l l' Hab _ IH]; cbn; [done|]. intros k. destruct (is_open b); cbn.
    - destruct (Hab eq_refl) as [-> ->]. cbn. intros [?|?]; [by left|right; auto].
    - intros ?. destruct (is_open a); [right|]; auto. }
  destruct (is_open row') eqn:E'; cbn.
  - destruct (Hr eq_refl) as [Ho Hk]. rewrite Ho in Hn. cbn in Hn. inversion Hn; subst. constructor; [|auto].
    rewrite Hk. auto.
  - apply IH. destruct (is_open row); [by inversion Hn|done].
Qed.

(** What a service promises of the commands it files: their shape and their key do not depend on
    the delivery fields or on the order in which a document stores its keys. *)
Definition same_but_delivery (row row' : dict) : Prop := forall k,
  str_in k ["status"; "deliveredAt"; "deliveredEpoch"; "attempts"; "result"; "finishedAt"] = false -> get row' k = get row k.

Class CommandShape {K} (key : dict -> K) (shaped : dict -> Prop) : Prop := {
  shaped_stable : forall row row', same_but_delivery row row' -> shaped row -> shaped row';
  key_stable : forall row row', same_but_delivery row row' -> key row' = key row;
  shaped_sorted : forall row, plain (PDict row) -> shaped row -> shaped (sorted_dict row);
  key_sorted : forall row, plain (PDict row) -> shaped row -> key (sorted_dict row) = key row;
}.

Lemma sent_same now row row' : sent now row row' -> same_but_delivery row row'.
Proof. intros [_ _ _ _ Hrest] k Hk. apply Hrest. cbn [str_in existsb] in *. rewrite !orb_false_iff in *. tauto. Qed.

Lemma acknowledge_same now values row : same_but_delivery row (acknowledge now values row).
Proof.
  intros k Hk. unfold acknowledge. destruct (get values _) as [| | | | | |ack]; try done. destruct (truthy _); [|done].
  cbn [str_in existsb] in Hk. rewrite !orb_false_iff, !String.eqb_neq in Hk. rewrite !get_dset_ne by (intros <-; tauto). done.
Qed.

(** A command that is open after a poll or an acknowledgement was open before. *)
Lemma sent_open now row row' : sent now row row' -> is_open row = true.
Proof. intros [Hmay _ _ _ _]. unfold may_go, is_pending in Hmay. unfold is_open. destruct Hmay as [->|[-> _]]; [done|by rewrite orb_true_r]. Qed.

Lemma acknowledge_open now values row : is_open (acknowledge now values row) = true -> is_open row = true.
Proof.
  unfold acknowledge. destruct (get values _) as [| | | | | |ack]; try done. destruct (truthy (PDict ack)); [|done].
  unfold is_open. simpl_get. by destruct (truthy (get ack "ok")).
Qed.
