(* ===== verification/AgentQueueFacts.v ===== *)
(** * The command documents of the service Agents stay sound

    Whatever a service files, the router polls and the router acknowledges, the stored commands
    keep their fields, no key has two open commands, and none goes out more than five times. *)

From S2P Require Import Prelude PyNum PyVal PyTime HubValues Json Storage Hub Services AgentQueue.

Lemma dict_rows_map rows : dict_rows (PList (List.map PDict rows)) = Ok rows.
Proof.
  unfold dict_rows. cbn. f_equal. induction rows as [|r rows IH]; [done|]. cbn in *. by rewrite IH.
Qed.

Lemma plain_map_PDict rows : List.Forall (fun row => plain (PDict row)) rows -> plain (PList (List.map PDict rows)).
Proof. intros Hr. constructor. by apply List.Forall_map. Qed.

Lemma plain_queue_doc rows : List.Forall (fun row => plain (PDict row)) rows ->
  plain (PDict [("commands", PList (List.map PDict rows))]).
Proof.
  intros Hr. constructor; [repeat constructor; intros []|]. repeat constructor. by apply List.Forall_map.
Qed.

Lemma ack_map_plain acks : List.Forall plain acks -> plain (PDict (ack_map acks)).
Proof.
  intros Ha. apply plain_dict_of. induction Ha as [|v acks Hv _ IH]; [constructor|]. destruct v; try exact IH. by constructor.
Qed.

Section Sound.
Context {S : Type} `{DocStoreLaws S} (file : string) (Hfile : str_in file ["state.json"; "devices.json"] = false).
Context {K : Type} (key : dict -> K) (shaped : dict -> Prop) `{Hshape : !CommandShape key shaped}.

Definition good (row : dict) : Prop := command_sane row /\ shaped row.
Definition stored (w : world S) (rows : list dict) : Prop :=
  read_commands (default (PDict [("commands", PList [])]) (doc_read file (w_docs w))) = Ok rows.

(** Every stored command is well-formed, and no key has two open ones. *)
Record queue_sound (w : world S) (rows : list dict) : Prop := {
  qs_docs : doc_ok (w_docs w);
  qs_stored : stored w rows;
  qs_good : List.Forall good rows;
  qs_open : one_open key rows;
}.
Definition sound_queue (w : world S) : Prop := exists rows, queue_sound w rows.

Lemma load_queue_eq w rows : stored w rows -> load_queue file w = (Ok rows, w).
Proof. intros Hs. unfold load_queue. rewrite prog_bind_eq. cbn. unfold lift. by rewrite Hs. Qed.

Lemma good_sorted row : good row -> good (sorted_dict row).
Proof.
  intros [[Hpl [s Hs] (n & Ha & Hn) Hp Hd] Hsh]. pose proof (plain_nodup _ Hpl) as Hnd. split; [|by apply shaped_sorted].
  assert (forall k v, get row k = v -> sort_keys v = v -> get (sorted_dict row) k = v) as Hget.
  { intros k v Hk Hv. by rewrite get_sorted, Hk, Hv. }
  assert (get (sorted_dict row) "status" = PStr s) as Hs' by (by apply Hget). rewrite Hs in Hp, Hd. constructor.
  - by apply plain_sort_keys in Hpl.
  - by exists s.
  - exists n. by rewrite (Hget _ _ Ha).
  - rewrite Hs'. intros Hst. by rewrite (Hget _ _ (Hp Hst)).
  - rewrite Hs'. intros Hst. destruct (Hd Hst) as [t Ht]. exists t. by apply Hget.
Qed.

Lemma save_queue_stored rows w w' : List.Forall (fun row => plain (PDict row)) rows ->
  save_queue file rows w = (Ok tt, w') -> stored w' (List.map sorted_dict rows).
Proof.
  intros Hpl Hsave. unfold stored. rewrite (save_json_read _ _ _ _ Hfile (plain_queue_doc rows Hpl) Hsave). cbn [default].
  change (sort_keys (PDict [("commands", PList (List.map PDict rows))]))
    with (PDict [("commands", PList (List.map sort_keys (List.map PDict rows)))]).
  rewrite List.map_map. unfold read_commands, get_or. cbn [dget String.eqb Ascii.eqb Bool.eqb default from_option id].
  rewrite <- (dict_rows_map (List.map sorted_dict rows)). by rewrite List.map_map.
Qed.

(** Filing sound rows leaves a sound queue, also when the save fails. *)
Lemma save_queue_sound rows old w r w' :
  queue_sound w old -> List.Forall good rows -> one_open key rows -> save_queue file rows w = (r, w') -> sound_queue w'.
Proof.
  intros [Hdocs Hst Hold Hopen] Hrows Ho Hsave.
  assert (List.Forall (fun row => plain (PDict row)) rows) as Hpl by (eapply List.Forall_impl; [|exact Hrows]; by intros row [[? _ _ _ _] _]).
  pose proof (plain_queue_doc rows Hpl) as Hdoc. unfold save_queue in Hsave. destruct r as [[]|e].
  - exists (List.map sorted_dict rows). constructor.
    + by eapply save_json_ok.
    + by apply (save_queue_stored rows w).
    + apply List.Forall_map. eapply List.Forall_impl; [|exact Hrows]. apply good_sorted.
    + revert Ho. apply one_open_mono. clear -Hrows Hshape. induction Hrows as [|row rows Hrow Hrows IH]; cbn; constructor; [|done].
      destruct Hrow as [[Hpl [s Hs] _ _ _] Hsh]. pose proof (plain_nodup _ Hpl) as Hnd.
      unfold is_open. rewrite get_sorted, Hs by done. intros Hop. split; [done|by apply key_sorted].
  - exists old. unfold save_json in Hsave. destruct (doc_save _ _ _ _) as [[]|]; [done|]. injection Hsave as _ <-. by constructor.
Qed.

Lemma stored_good_sent ks now router limit rows rows' out :
  polled ks now router limit rows rows' out -> List.Forall good rows -> List.Forall good rows'.
Proof.
  intros Hp Hg. apply polled_rows in Hp as Hr. assert (List.Forall command_sane rows') as Hs.
  { eapply polled_sane; [done|]. eapply List.Forall_impl; [|exact Hg]. by intros row [? _]. }
  clear Hp. induction Hr as [|row row' rows rows' Hrow _ IH]; [constructor|]. inversion Hg; subst. inversion Hs; subst.
  constructor; [|auto]. destruct Hrow as [->|[_ Hsent]]; [done|]. split; [done|]. eapply shaped_stable; [by eapply sent_same|].
  match goal with H : good _ |- _ => apply H end.
Qed.

(** A poll answers what the relation [polled] says and keeps the queue sound. *)
Lemma poll_queue_sound due ks router limit w rows r w' :
  (forall now row, good row -> exists b, due now router row = Ok b /\ (b = true <-> ready_for now router row)) ->
  queue_sound w rows -> poll_queue file due ks router limit w = (r, w') ->
  sound_queue w' /\ forall out, r = Ok out -> exists rows', polled ks (w_ms w / 1000) router limit rows rows' out.
Proof.
  intros Hdue [Hdocs Hst Hg Ho]. unfold poll_queue. rewrite prog_bind_eq. cbn [epoch].
  rewrite prog_bind_eq. unfold utc_now at 1. rewrite prog_bind_eq. cbn [epoch mret prog_ret].
  rewrite prog_bind_eq, (load_queue_eq _ _ Hst), prog_bind_eq. cbn [lift]. set (now := w_ms w / 1000).
  destruct (hand_out_polled due ks now router good (utc_text now) limit rows) as (rows' & out & -> & Hp).
  { intros row Hrow. split; [apply Hrow|by apply Hdue]. }
  { done. }
  rewrite prog_bind_eq. pose proof (stored_good_sent _ _ _ _ _ _ _ Hp Hg) as Hg'.
  assert (one_open key rows') as Ho'.
  { revert Ho. apply one_open_mono. pose proof (polled_rows _ _ _ _ _ _ _ Hp) as Hr.
    eapply List.Forall2_impl; [|exact Hr]. intros row row' [->|[_ Hsent]]; [done|]. intros _.
    split; [by eapply sent_open|]. eapply key_stable. by eapply sent_same. }
  destruct out as [|p out].
  - cbn. intros [= <- <-]. split; [by exists rows|]. intros out [= <-]. by exists rows'.
  - destruct (save_queue file rows' w) as [[[]|e] w1] eqn:Es; intros [= <- <-];
      (split; [eapply save_queue_sound; [by constructor|done..]|]); [|done]. intros o [= <-]. by exists rows'.
Qed.

(** Acknowledgements of a plain report keep the queue sound. *)
Lemma ack_queue_sound acks w rows r w' :
  List.Forall plain acks -> queue_sound w rows -> ack_queue file acks w = (r, w') -> sound_queue w'.
Proof.
  intros Hacks [Hdocs Hst Hg Ho]. unfold ack_queue. rewrite prog_bind_eq, (load_queue_eq _ _ Hst), prog_bind_eq.
  unfold utc_now at 1. rewrite prog_bind_eq. cbn [epoch mret prog_ret]. rewrite prog_bind_eq.
  destruct (List.filter _ rows); [intros [= <- <-]; by exists rows|].
  destruct (save_queue _ _ w) as [[[]|e] w1] eqn:Es; intros [= <- <-].
  all: eapply save_queue_sound; [by constructor| | |exact Es].
  all: try (apply List.Forall_map; eapply List.Forall_impl; [|exact Hg]; intros row [Hs Hsh]; split;
    [by apply acknowledge_sane; [apply ack_map_plain|]|eapply shaped_stable; [apply acknowledge_same|done]]).
  all: revert Ho; apply one_open_mono; clear -Hshape; induction rows as [|row rows IH]; cbn; constructor; [|done];
    intros Hop; (split; [by eapply acknowledge_open|apply key_stable, acknowledge_same]).
Qed.
End Sound.
