(* ===== verification/AgentCmd.v ===== *)
(** * Agent commands of [hub.py]

    The release manifest with its cache, the status each router Agent reports, and the
    queue of update and cleanup commands: the APP adds a command, the router fetches the
    pending ones, acknowledges them, and a status report closes the updates it proves
    done. *)

From S2P Require Import Prelude PyNum PyVal PyTime HubValues Json Storage Hub.

(** ** Rows of the command document *)

(** [data.get("commands", []) if isinstance(data, dict) else []]. *)
Definition commands_of (data : pyval) : pyval :=
  match data with PDict d => get_or d "commands" (PList []) | _ => PList [] end.

Definition commands_doc (rows : list pyval) : pyval := PDict [("commands", PList rows)].

(** [next((row for row in reversed(rows) if isinstance(row, dict) and p), {})]. *)
Definition newest (p : dict -> bool) (rows : list pyval) : dict :=
  match List.find (fun v => match v with PDict d => p d | _ => false end) (rev rows) with
  | Some (PDict d) => d
  | _ => []
  end.

(** [row.get(k) == text]. *)
Definition field_is (d : dict) (k text : string) : bool := is_text (get d k) text.

Definition empty_commands : pyval := PDict [("commands", PList [])].

Definition tuple_ltb (a b : list Z) : bool := negb (tuple_leb b a).

Section AgentCmd.
Context {S : Type} `{DocStore S} {tz : TimeZone} (E : env).

(** ** The release manifest *)

Definition update_repository_root : string :=
  str_or (rstrip_by (is_char "/"%char) (strip (default "" (env_var E "UPDATE_REPOSITORY_ROOT"))))
         "https://lab.net86.dynv6.net:27772".
Definition agent_manifest_url : string := update_repository_root +:+ "/agent/latest.json".
Definition agent_installer_url : string := update_repository_root +:+ "/agent/install.sh".
Definition agent_github_manifest_url : string :=
  strip (str_or (default "" (env_var E "AGENT_GITHUB_MANIFEST_URL"))
    "https://github.com/OnlyChallgener/labprobe-hub/releases/latest/download/latest.json").

Definition manifest_version (manifest : dict) : string :=
  clean_saved_value (por (get manifest "versionName") (get manifest "version")).

Definition normalized_agent_manifest (root : pyval) (source_url : string) : result dict :=
  match root with
  | PDict manifest =>
      let version := manifest_version manifest in
      let arm64 := match get manifest "binaries" with PDict b => get b "arm64" | _ => PNone end in
      match arm64 with
      | PDict a =>
          if nonempty version then
            let installer_url := str_or (clean_saved_value (get manifest "installUrl")) agent_installer_url in
            let binary_url := clean_saved_value (get a "url") in
            let release_asset_url := str_or binary_url installer_url in
            let repository_root :=
              if contains "/releases/download/" release_asset_url
              then match rcut "/" release_asset_url with Some (r, _) => r | None => release_asset_url end
              else update_repository_root in
            Ok (dset "_stale" (PBool false) (dset "_repositoryRoot" (PStr repository_root)
                 (dset "_installerUrl" (PStr installer_url) (dset "_manifestUrl" (PStr source_url) manifest))))
          else raise_value_error "agent latest.json is invalid"
      | _ => raise_value_error "agent latest.json is invalid"
      end
  | _ => raise_value_error "agent latest.json is invalid"
  end.

(** [AGENT_RELEASE_CACHE]; its ["at"] is kept in milliseconds here. *)
Definition release_cache : string := "AGENT_RELEASE_CACHE".
Definition empty_cache : pyval := PDict [("at", PInt 0); ("data", PNone)].
Definition cache_value (at_ms : Z) (data : dict) : pyval := PDict [("at", PInt at_ms); ("data", PDict data)].

Definition cached_manifest (cache : pyval) : option dict :=
  match cache with
  | PDict c => match get c "data" with PDict m => Some m | _ => None end
  | _ => None
  end.

Definition cached_at (cache : pyval) : Z :=
  match cache with PDict c => match get c "at" with PInt n => n | _ => 0 end | _ => 0 end.

(** The loop over the sources: the first manifest that loads and is valid, or the errors. *)
Fixpoint try_sources (urls : list string) (errors : list string) : hub S (dict + list string) :=
  match urls with
  | [] => mret (inr errors)
  | url :: rest =>
      found ← try_except
        (root ← http_json E url;
         manifest ← lift (normalized_agent_manifest root url);
         now ← epoch_ms;
         _ ← mem_set release_cache (cache_value now manifest);
         mret (inl manifest))
        (fun e => mret (inr (url +:+ ": " +:+ exn_msg e)));
      match found with
      | inl manifest => mret (inl manifest)
      | inr error => try_sources rest (errors ++ [error])
      end
  end.

Definition manifest_sources : list string :=
  dedup (List.filter nonempty [agent_manifest_url; agent_github_manifest_url]).

Definition agent_release_manifest (force : bool) : hub S dict :=
  cache ← mem_get release_cache empty_cache;
  now ← epoch_ms;
  match cached_manifest cache with
  | Some m => if negb force && (now - cached_at cache <? 600000) then mret m
              else
                found ← try_sources manifest_sources [];
                match found with
                | inl manifest => mret manifest
                | inr errors =>
                    let stale := dset "_stale" (PBool true) m in
                    _ ← mem_set release_cache (cache_value now stale);
                    mret stale
                end
  | None =>
      found ← try_sources manifest_sources [];
      match found with
      | inl manifest => mret manifest
      | inr errors => raise (Exn "RuntimeError" ("agent manifest sources unavailable: " +:+ join " | " errors))
      end
  end.

(** ** Reported status *)

Definition agent_status_for (router : string) : hub S dict :=
  statuses ← load_json "agent_status.json" (PDict []);
  mret (match statuses with PDict d => dict_or_empty (get d router) | _ => [] end).

(** The time a router was last heard of. *)
Definition last_seen (d : dict) : Z := time_to_epoch (por (get d "lastSeenAt") (get d "time")).

Definition reported_routers (statuses : dict) : list (string * dict) :=
  omap (fun kv => match kv.2 with
                  | PDict d => let name := clean_str kv.1 in if nonempty name then Some (name, d) else None
                  | _ => None
                  end) statuses.

Definition choose_router (statuses : pyval) (preferred : string) : string :=
  match statuses with
  | PDict d =>
      let preferred := clean_str preferred in
      if nonempty preferred && is_dict (get d preferred) then preferred
      else match isort (fun a b => last_seen b.2 <=? last_seen a.2) (reported_routers d) with
           | (name, _) :: _ => name
           | [] => preferred
           end
  | _ => preferred
  end.

Definition resolve_agent_router (preferred : string) : hub S string :=
  statuses ← load_json "agent_status.json" (PDict []);
  mret (choose_router statuses preferred).

(** ** Commands *)

Definition load_agent_commands : hub S pyval :=
  data ← load_json "agent_update_commands.json" empty_commands; mret (commands_of data).

Definition latest_agent_command (router action : string) : hub S dict :=
  doc ← load_agent_commands; rows ← lift (py_iter doc);
  mret (newest (fun row => field_is row "router" router
                           && (negb (nonempty action) || field_is row "action" action)) rows).

Definition agent_command_by_id (command_id router action : string) : hub S dict :=
  doc ← load_agent_commands; rows ← lift (py_iter doc);
  mret (newest (fun row => field_is row "id" command_id
                           && (negb (nonempty router) || field_is row "router" router)
                           && (negb (nonempty action) || field_is row "action" action)) rows).

Definition agent_command_cap : nat := 100.

(** [commands.append(command)] and the save of the last hundred. *)
Definition append_agent_command (command : dict) : hub S unit :=
  doc ← load_agent_commands;
  rows ← lift (as_list doc "append");
  save_json "agent_update_commands.json" (commands_doc (last_n agent_command_cap (rows ++ [PDict command]))).

Definition unauthorized : response := error_response 401 "unauthorized".
Definition bad_agent_token : response := error_response 401 "bad agent token".

(** [payload.get("router")] on the request body. *)
Definition target_router (name : string) : hub S string :=
  router ← resolve_agent_router (str_or name (primary_router_name E));
  mret (str_or router "router").

Definition command_state (command status : dict) : pyval :=
  por (por (get command "state") (get status "updateState")) (PStr "idle").

Definition api_agent_update_status (q : request) : hub S response :=
  if negb (check_app_token E q) then mret unauthorized
  else
    router ← target_router (clean_saved_value (arg_value q "router"));
    status ← agent_status_for router;
    command ← latest_agent_command router "update";
    try_except
      (manifest ← agent_release_manifest (String.eqb (arg q "refresh") "1");
       let latest := manifest_version manifest in
       let current := str_or (clean_saved_value (get status "version")) "未知" in
       newer ← lift (if String.eqb current "未知" then Ok false
                     else l ← version_parts (PStr latest); c ← version_parts (PStr current);
                          mret (tuple_ltb c l));
       let message := str_or (clean_saved_value (get manifest "changelog"))
                             (if newer : bool then "发现新版本" else "当前已是最新版本") in
       mret (Response 200 (PDict
         [("ok", PBool true); ("router", PStr router); ("currentVersion", PStr current);
          ("latestVersion", PStr latest); ("updateAvailable", PBool newer);
          ("state", command_state command status); ("message", PStr message);
          ("lastSeenAt", get_or status "lastSeenAt" (PStr ""));
          ("manifestUrl", por (get manifest "_manifestUrl") (PStr agent_manifest_url));
          ("installerUrl", por (get manifest "_installerUrl") (PStr agent_installer_url));
          ("manifestStale", PBool (truthy (get manifest "_stale")))])))
      (fun exc => mret (Response 200 (PDict
         [("ok", PBool false); ("router", PStr router);
          ("currentVersion", get_or status "version" (PStr "未知"));
          ("latestVersion", PStr "未知"); ("updateAvailable", PBool false);
          ("state", command_state command status);
          ("message", PStr ("更新仓检查失败：" +:+ exn_msg exc));
          ("lastSeenAt", get_or status "lastSeenAt" (PStr ""))]))).

Definition manifest_unavailable (exc : exn) : response :=
  Response 502 (PDict [("ok", PBool false); ("error", PStr "manifest_unavailable");
                       ("message", PStr ("更新仓检查失败：" +:+ exn_msg exc))]).

(** The handler goes on with the manifest, or answers 502. *)
Definition with_manifest (k : dict -> hub S response) : hub S response :=
  found ← try_except (m ← agent_release_manifest true; mret (inl m))
                     (fun exc => mret (inr (manifest_unavailable exc)));
  match found with inl m => k m | inr r => mret r end.

Definition api_agent_update_request (q : request) : hub S response :=
  if negb (check_app_token E q) then mret unauthorized
  else
    name ← lift (vget (json_body q) "router");
    router ← target_router (clean_saved_value name);
    with_manifest (fun manifest =>
      let target := manifest_version manifest in
      id ← token_hex E 12;
      now ← now_str;
      _ ← append_agent_command
        [("id", PStr id); ("router", PStr router); ("action", PStr "update"); ("state", PStr "pending");
         ("targetVersion", PStr target);
         ("repositoryRoot", por (get manifest "_repositoryRoot") (PStr update_repository_root));
         ("manifestUrl", por (get manifest "_manifestUrl") (PStr agent_manifest_url));
         ("installerUrl", por (get manifest "_installerUrl") (PStr agent_installer_url));
         ("createdAt", PStr now); ("updatedAt", PStr now); ("message", PStr "等待路由器领取更新指令")];
      mret (Response 200 (PDict [("ok", PBool true); ("commandId", PStr id); ("targetVersion", PStr target);
                                 ("message", PStr "Rust Agent 更新指令已发送")]))).

Definition api_agent_update_check (q : request) : hub S response :=
  if negb (check_app_token E q) then mret unauthorized
  else with_manifest (fun _ => api_agent_update_status q).

Definition api_agent_cleanup_request (q : request) : hub S response :=
  if negb (check_app_token E q) then mret unauthorized
  else
    name ← lift (vget (json_body q) "router");
    router ← target_router (clean_saved_value name);
    id ← token_hex E 12;
    now ← now_str;
    _ ← append_agent_command
      [("id", PStr id); ("router", PStr router); ("action", PStr "cleanup"); ("state", PStr "pending");
       ("createdAt", PStr now); ("updatedAt", PStr now);
       ("message", PStr "等待路由器清理 Agent 备份和临时日志"); ("result", PDict [])];
    mret (Response 200 (PDict [("ok", PBool true); ("commandId", PStr id); ("router", PStr router);
                               ("state", PStr "pending"); ("message", PStr "清理指令已发送")])).

Definition api_agent_cleanup_status (q : request) : hub S response :=
  if negb (check_app_token E q) then mret unauthorized
  else
    router ← target_router (clean_saved_value (arg_value q "router"));
    let command_id := clean_saved_value (arg_value q "commandId") in
    command ← (if nonempty command_id then agent_command_by_id command_id router "cleanup"
               else latest_agent_command router "cleanup");
    match command with
    | [] => mret (Response 404 (PDict [("ok", PBool false); ("state", PStr "missing"); ("message", PStr "未找到清理任务")]))
    | _ =>
        let result := dict_or_empty (get command "result") in
        mret (Response 200 (PDict
          [("ok", PBool true); ("commandId", get_or command "id" (PStr "")); ("router", PStr router);
           ("state", get_or command "state" (PStr "pending")); ("message", get_or command "message" (PStr ""));
           ("cleanedItems", get_or result "cleanedItems" (PList []));
           ("reclaimedBytes", PInt (to_int (get result "reclaimedBytes") 0));
           ("reclaimedText", PStr (clean_saved_value (get result "reclaimedText")));
           ("errors", get_or result "errors" (PList []));
           ("createdAt", get_or command "createdAt" (PStr "")); ("updatedAt", get_or command "updatedAt" (PStr ""))]))
    end.

(** *** The router's side *)

(** What a router is given: its pending commands, five at a time. *)
Definition pending_for (router : string) (rows : list pyval) : list pyval :=
  firstn 5 (List.filter (fun v => match v with
                                  | PDict row => field_is row "router" router && field_is row "state" "pending"
                                  | _ => false
                                  end) rows).

Definition api_router_agent_commands (q : request) : hub S response :=
  if negb (check_hook_token E q) then mret bad_agent_token
  else
    let router := str_or (clean_saved_value (arg_value q "router")) (primary_router_name E) in
    doc ← load_agent_commands; rows ← lift (py_iter doc);
    now ← now_str;
    mret (Response 200 (PDict [("ok", PBool true); ("commands", PList (pending_for router rows)); ("time", PStr now)])).

(** The acknowledged row: the first one with the id. *)
Definition ack_row (command_id : string) (update : dict) (v : pyval) : option pyval :=
  match v with
  | PDict row => if field_is row "id" command_id then Some (PDict (dupdate row update)) else None
  | _ => None
  end.

Definition api_router_agent_ack (q : request) : hub S response :=
  if negb (check_hook_token E q) then mret bad_agent_token
  else
    let payload := json_body q in
    id ← lift (vget payload "id");
    let command_id := clean_saved_value id in
    st ← lift (vget payload "state");
    let state_value := str_or (clean_saved_value st) "accepted" in
    if negb (str_in state_value ["accepted"; "completed"; "failed"])
    then mret (error_response 400 "invalid state")
    else
      doc ← load_agent_commands; rows ← lift (py_iter doc);
      now ← now_str;
      let body := dict_or_empty payload in
      let update := [("state", PStr state_value); ("message", PStr (clean_saved_value (get body "message")));
                     ("updatedAt", PStr now)]
                    ++ (if is_dict (get body "result") then [("result", get body "result")] else []) in
      match update_first (ack_row command_id update) rows with
      | Some rows' =>
          _ ← save_json "agent_update_commands.json" (commands_doc rows');
          mret (Response 200 (PDict [("ok", PBool true); ("acknowledged", PBool true)]))
      | None => mret (Response 200 (PDict [("ok", PBool true); ("acknowledged", PBool false)]))
      end.

(** One row of the loop of [api_router_agent_status]: [None] when it is left alone. *)
Definition close_update (router version now : string) (v : pyval) : result (option pyval) :=
  match v with
  | PDict row =>
      if field_is row "router" router && field_is row "action" "update" && field_is row "state" "accepted"
      then
        reported ← version_parts (PStr version);
        target ← version_parts (get row "targetVersion");
        mret (if tuple_leb target reported
              then Some (PDict (dupdate row [("state", PStr "completed");
                                             ("message", PStr ("已更新到 " +:+ version)); ("updatedAt", PStr now)]))
              else None)
      else Ok None
  | _ => Ok None
  end.

Definition close_updates (router version now : string) (rows : list pyval) : result (bool * list pyval) :=
  closed ← result_map (fun v => o ← close_update router version now v; mret (v, o)) rows;
  mret (existsb (fun vo => match vo.2 with Some _ => true | None => false end) closed,
        List.map (fun vo => default vo.1 vo.2) closed).

Definition api_router_agent_status (q : request) : hub S response :=
  if negb (check_hook_token E q) then mret bad_agent_token
  else
    let payload := json_body q in
    r ← lift (vget payload "router");
    let router := str_or (clean_saved_value r) (primary_router_name E) in
    let body := dict_or_empty payload in
    let version := str_or (clean_saved_value (get body "version")) "未知" in
    now ← now_str;
    let status := [("router", PStr router); ("version", PStr version);
                   ("architecture", PStr (clean_saved_value (get body "architecture")));
                   ("updateState", PStr (str_or (clean_saved_value (get body "updateState")) "idle"));
                   ("message", PStr (clean_saved_value (get body "message"))); ("lastSeenAt", PStr now)] in
    statuses ← load_json "agent_status.json" (PDict []);
    _ ← save_json "agent_status.json" (PDict (dset router (PDict status) (dict_or_empty statuses)));
    doc ← load_agent_commands; rows ← lift (py_iter doc);
    closed ← lift (close_updates router version now rows);
    _ ← (if closed.1 : bool then save_json "agent_update_commands.json" (commands_doc closed.2) else mret tt);
    mret (Response 200 (PDict [("ok", PBool true); ("time", PStr now)])).
End AgentCmd.
