(* ===== verification/PortMap.v ===== *)
(** * Port mappings of [hub.py]

    The APP owns the desired rules; the router reports what it runs and executes queued
    commands.  The file has the validation of a rule, the rules document, the command
    queue with its delivery and acknowledgement, the reconciliation of a status report,
    the traffic history, and the HTTP handlers. *)

From S2P Require Import Prelude PyNum PyVal PyIp PyTime HubValues Json Storage Hub AgentCmd.

(** ** Ids, times and leases *)

(** [re.sub("[^a-zA-Z0-9_-]+", "-", s)]: each run of other characters becomes one dash. *)
Definition id_char (c : ascii) : bool := is_alnum c || Ascii.eqb c "_"%char || Ascii.eqb c "-"%char.

Fixpoint dash_runs (in_run : bool) (s : string) : string :=
  match s with
  | EmptyString => EmptyString
  | String c s' => if id_char c then String c (dash_runs false s')
                   else if in_run then dash_runs true s'
                   else String "-"%char (dash_runs true s')
  end.

(** The id made of the given text; empty when nothing is left of it. *)
Definition rule_id_text (value : pyval) : string :=
  py_take 48 (lower (strip_by (is_char "-"%char) (dash_runs false (strip (str_or_empty value))))).

(** [int(float(str(value)))], with milliseconds reduced to seconds. *)
Definition portmap_epoch (value : pyval) : option Z :=
  if py_in value [PNone; PStr ""; PInt 0; PStr "0"] then None
  else
    f ← float_of_str (py_str value);
    n ← f_trunc f;
    let n := if 10000000000 <? n then n / 1000 else n in
    if 0 <? n then Some n else None.

Definition opt_int (v : option Z) : pyval := match v with Some n => PInt n | None => PNone end.

Definition week : Z := 7 * 86400.

Section Lease.
Context {tz : TimeZone}.

Definition portmap_time_epoch (value : pyval) : option Z :=
  let raw := clean_saved_value value in
  if nonempty raw then option_map of_local (strptime FmtSpace raw) else None.

(** [x is not None and x is not 0], with the seconds from [base] to the expiry. *)
Definition lease_from (base expires_at : option Z) : option Z :=
  match base, expires_at with
  | Some b, Some e => if negb (b =? 0) && (b <? e) then Some (Z.max 60 (Z.min week (e - b))) else None
  | _, _ => None
  end.

Definition portmap_lease_seconds (src old : dict) (expires_at : option Z) : Z :=
  let raw := get_or src "leaseSeconds" (get old "leaseSeconds") in
  let lease := Z.max 0 (Z.min week (to_int raw 0)) in
  if (0 <? lease) || (match expires_at with None => true | Some _ => false end) then lease
  else
    match lease_from (portmap_time_epoch (por (get old "createdAt") (get src "createdAt"))) expires_at with
    | Some l => l
    | None =>
        default 0 (lease_from (portmap_time_epoch (por (get old "updatedAt") (get src "updatedAt"))) expires_at)
    end.
End Lease.

(** ** Addresses of a rule *)

Definition strip_brackets (s : string) : string := strip_by (one_of "[]") s.

Definition low64 : Z := 2 ^ 64 - 1.

Definition normalize_ipv6_suffix (value : pyval) : result string :=
  let text := strip_brackets (lower (clean_saved_value value)) in
  if negb (nonempty text) then Ok ""
  else
    let candidate := if contains "::" text then text else "::" +:+ lstrip_by (is_char ":"%char) text in
    addr ← ip_address candidate;
    if negb (ip_version addr =? 6) then raise_value_error "IPv6 后缀无效"
    else
      let iid := Z.land (ip_int addr) low64 in
      if iid =? 0 then raise_value_error "IPv6 后缀不能全部为 0" else Ok (ipv6_str iid).

(** [[0-9a-f]{2}(:[0-9a-f]{2}){5}] on the whole text. *)
Definition is_lower_hex (c : ascii) : bool := is_digit c || in_range 97 102 c.
Definition mac_shape (s : string) : bool :=
  let parts := split ":" s in
  (List.length parts =? 6)%nat
  && forallb (fun p => (String.length p =? 2)%nat && sall is_lower_hex p) parts.

(** An IPv6 address a rule may forward to. *)
Definition usable_ipv6 (a : ip) : bool :=
  (ip_version a =? 6) && negb (is_link_local a) && negb (is_multicast a)
  && negb (is_loopback a) && negb (is_unspecified a).

Definition usable_ipv4 (a : ip) : bool :=
  (ip_version a =? 4) && (is_private a || is_loopback a || is_link_local a).

(** The addresses of a cleaned rule: mode of the target, IPv4, IPv6, snapshot, suffix. *)
Record target := {
  t_mode : string;
  t_ipv4 : string;
  t_ipv6 : string;
  t_snapshot : string;
  t_suffix : string;
}.

Definition require {A} (b : bool) (msg : string) (k : result A) : result A :=
  if b then k else raise_value_error msg.

Definition clean_target (mode : string) (src : dict) : result target :=
  let target_mode := lower (clean_saved_value (get src "targetMode")) in
  let target_ipv4 := clean_saved_value (get src "targetIpv4") in
  let target_ipv6 := strip_brackets (clean_saved_value (get src "targetIpv6")) in
  let snapshot := strip_brackets (clean_saved_value (get src "targetIpv6Snapshot")) in
  let suffix := lower (clean_saved_value (get src "targetIpv6Suffix")) in
  if String.eqb mode "6to4" then
    a ← ip_address target_ipv4;
    require (usable_ipv4 a) "6to4 目标必须是内网 IPv4"
      (Ok {| t_mode := "ipv4"; t_ipv4 := target_ipv4; t_ipv6 := ""; t_snapshot := ""; t_suffix := "" |})
  else if String.eqb target_mode "ipv6_full" then
    a ← ip_address target_ipv6;
    require (usable_ipv6 a) "目标 IPv6 无效"
      (Ok {| t_mode := "ipv6_full"; t_ipv4 := ""; t_ipv6 := ip_str a; t_snapshot := ip_str a; t_suffix := "" |})
  else
    suffix ← normalize_ipv6_suffix (PStr suffix);
    require (nonempty suffix) "请输入目标 IPv6 后缀"
      (snapshot ← (if nonempty snapshot then
                     a ← ip_address snapshot;
                     require (usable_ipv6 a) "目标 IPv6 快照无效" (Ok (ip_str a))
                   else Ok snapshot);
       Ok {| t_mode := "ipv6_suffix"; t_ipv4 := ""; t_ipv6 := ""; t_snapshot := snapshot; t_suffix := suffix |}).

(** [to_int(v, d) or d], kept between two bounds. *)
Definition bounded_int (v : pyval) (dflt lo hi : Z) : Z :=
  let n := to_int v dflt in
  Z.max lo (Z.min hi (if n =? 0 then dflt else n)).

(** [_clean_portmap_rule]: the cleaned rule, without the id drawn for a new rule. *)
Definition transport (v : pyval) : string := clean_saved_value (por v (PStr "TCP")).

Definition clean_rule_fields {tz : TimeZone} (now rule_id : string) (src old : dict) : result dict :=
  let mode := lower (clean_saved_value (por (get src "mode") (PStr "6to4"))) in
  let listen_port := to_int (get src "listenPort") 0 in
  let target_port := to_int (get src "targetPort") 0 in
  let name := py_take 64 (clean_saved_value (get src "name")) in
  let service_type := py_take 24 (clean_saved_value (get src "serviceType")) in
  let protocol := upper (transport (get src "transportProtocol")) in
  let mac := norm_mac (get src "targetMac") in
  let expires_at := portmap_epoch (get src "expiresAt") in
  require (str_in mode ["6to4"; "6to6"]) "映射类型只能是 6to4 或 6to6" (
  require ((20000 <=? listen_port) && (listen_port <=? 20020)) "监听端口必须在 20000-20020" (
  require ((1 <=? target_port) && (target_port <=? 65535)) "目标端口无效" (
  require (nonempty name) "规则名称不能为空" (
  require (str_in protocol ["TCP"; "UDP"]) "传输协议只能是 TCP 或 UDP" (
  require (negb (nonempty mac) || mac_shape mac) "目标 MAC 格式无效" (
    t ← clean_target mode src;
    Ok [("id", PStr rule_id); ("name", PStr name); ("enabled", PBool (truthy (get_or src "enabled" (PBool false))));
        ("mode", PStr mode); ("listenPort", PInt listen_port); ("targetMode", PStr (t_mode t));
        ("targetIpv4", PStr (t_ipv4 t)); ("targetIpv6", PStr (t_ipv6 t));
        ("targetIpv6Snapshot", PStr (t_snapshot t)); ("targetIpv6Suffix", PStr (t_suffix t));
        ("targetMac", PStr mac); ("targetPort", PInt target_port); ("serviceType", PStr service_type);
        ("transportProtocol", PStr protocol);
        ("preferCurrentPrefix", PBool (truthy (get_or src "preferCurrentPrefix" (PBool true))));
        ("expiresAt", opt_int expires_at);
        ("leaseSeconds", PInt (match expires_at with
                               | None => 0
                               | Some _ => portmap_lease_seconds src old expires_at
                               end));
        ("maxConnections", PInt (bounded_int (get src "maxConnections") 32 1 256));
        ("idleTimeoutSec", PInt (bounded_int (get src "idleTimeoutSec") 300 30 3600));
        ("createdAt", por (get old "createdAt") (PStr now)); ("updatedAt", PStr now)])))))).

(** ** Rules *)

Definition rule_id (r : dict) : string := clean_saved_value (get r "id").

(** [[x for x in rows if isinstance(x, dict) and clean_saved_value(x.get("id"))]] *)
Definition rules_of (rows : list pyval) : list dict :=
  omap (fun v => match v with
                 | PDict r => if nonempty (rule_id r) then Some r else None
                 | _ => None
                 end) rows.

Definition rules_value (rows : list dict) : pyval := PList (List.map PDict rows).

Record rules_doc := {
  rd_revision : Z;
  rd_updated : string;
  rd_rules : list dict;
  rd_loaded : bool;
}.

(** [_load_portmap_rules_document] on what the store returned ([None]: missing). *)
Definition read_rules (raw : option pyval) : rules_doc :=
  match raw with
  | Some (PDict d) =>
      match get d "rules" with
      | PList rows => {| rd_revision := Z.max 1 (to_int (get d "revision") 1);
                         rd_updated := clean_saved_value (get d "updatedAt");
                         rd_rules := rules_of rows; rd_loaded := true |}
      | _ => {| rd_revision := 0; rd_updated := ""; rd_rules := []; rd_loaded := false |}
      end
  | Some (PList rows) => {| rd_revision := 1; rd_updated := ""; rd_rules := rules_of rows; rd_loaded := true |}
  | _ => {| rd_revision := 0; rd_updated := ""; rd_rules := []; rd_loaded := false |}
  end.

(** The sort key: port, protocol, name. *)
Definition rule_le (a b : dict) : bool :=
  let pa := to_int (get a "listenPort") 0 in
  let pb := to_int (get b "listenPort") 0 in
  let ta := transport (get a "transportProtocol") in
  let tb := transport (get b "transportProtocol") in
  (pa <? pb) || (pa =? pb) && (sltb ta tb
    || String.eqb ta tb && sleb (clean_saved_value (get a "name")) (clean_saved_value (get b "name"))).

(** The key of the replacement in [portmap_persistence_patch.py]: port and name. *)
Definition rule_le_patched (a b : dict) : bool :=
  let pa := to_int (get a "listenPort") 0 in
  let pb := to_int (get b "listenPort") 0 in
  (pa <? pb) || (pa =? pb) && sleb (clean_saved_value (get a "name")) (clean_saved_value (get b "name")).

Definition rules_cap : nat := 100.

Definition rules_document (version revision : Z) (now : string) (rows : list dict) : pyval :=
  PDict [("version", PInt version); ("revision", PInt revision); ("updatedAt", PStr now);
         ("rules", rules_value rows)].

Definition port_key (r : dict) : Z * string :=
  (to_int (get r "listenPort") 0, upper (transport (get r "transportProtocol"))).

Definition conflicts (rule item : dict) : bool :=
  negb (py_eq (get item "id") (get rule "id"))
  && (fst (port_key item) =? fst (port_key rule)) && String.eqb (snd (port_key item)) (snd (port_key rule)).

Definition check_conflict (rows : list dict) (rule : dict) : result unit :=
  match List.find (conflicts rule) rows with
  | Some item => raise_value_error (py_str (get rule "transportProtocol") +:+ " 监听端口 "
                   +:+ py_str (get rule "listenPort") +:+ " 已被规则 " +:+ py_str (get item "name") +:+ " 使用")
  | None => Ok tt
  end.

(** [rule if x.get("id") == rule_id else x]. *)
Definition replace_rule (id : string) (rule : dict) (rows : list dict) : list dict :=
  List.map (fun x => if field_is x "id" id then rule else x) rows.

Definition remove_rule (id : string) (rows : list dict) : list dict :=
  List.filter (fun x => negb (field_is x "id" id)) rows.

Definition find_rule (id : string) (rows : list dict) : option dict :=
  List.find (fun x => field_is x "id" id) rows.

(** ** The command queue *)

Definition upsert_payload (rule : dict) : dict := [("rule", PDict rule)].
Definition id_payload (id : string) : dict := [("id", PStr id)].

(** [_portmap_command_rule_id]; the payload of a stored command can be anything. *)
Definition command_rule_id (action : string) (payload : pyval) : result string :=
  r ← (if String.eqb action "upsert" then vget payload "rule" else Ok PNone);
  match r with
  | PDict rule => Ok (clean_saved_value (get rule "id"))
  | _ => id ← vget payload "id"; mret (clean_saved_value id)
  end.

Definition queue_cap : nat := 500.

(** Finished more than a day ago. *)
Definition expired (now : Z) (c : dict) : bool :=
  py_in (get c "status") [PStr "done"; PStr "failed"] && (86400 <? now - to_int (get c "finishedEpoch") now).

(** The commands kept when a command is queued. *)
Definition live_commands (now : Z) (rows : list pyval) : list dict :=
  last_n queue_cap (omap (fun v => match v with
                                   | PDict c => if expired now c then None else Some c
                                   | _ => None
                                   end) rows).

Definition active (router : string) (c : dict) : bool :=
  field_is c "router" router && py_in (get c "status") [PStr "pending"; PStr "delivered"].

(** The search over [reversed(commands)] for an active command of the same action and
    rule, and the update of the one found. *)
Fixpoint coalesce_rev (router action id : string) (upd : dict -> dict) (rows : list dict)
  : result (option (dict * list dict)) :=
  match rows with
  | [] => Ok None
  | c :: rest =>
      hit ← (if active router c && field_is c "action" action
             then cid ← command_rule_id action (por (get c "payload") (PDict []));
                  mret (String.eqb cid id)
             else Ok false);
      if hit : bool then Ok (Some (upd c, upd c :: rest))
      else
        found ← coalesce_rev router action id upd rest;
        mret (match found with Some (c', rest') => Some (c', c :: rest') | None => None end)
  end.

Definition refresh_command (payload : dict) (now : string) (c : dict) : dict :=
  dset "updatedAt" (PStr now) (dset "status" (PStr "pending") (dset "payload" (PDict payload) c)).

Definition new_command (id router action : string) (payload : dict) (now : string) (now_epoch : Z) : dict :=
  [("id", PStr id); ("router", PStr router); ("action", PStr action); ("payload", PDict payload);
   ("status", PStr "pending"); ("attempts", PInt 0); ("createdAt", PStr now); ("createdEpoch", PInt now_epoch)].

(** The active command of the same action and rule, updated, and the rows with it. *)
Definition coalesce (router action : string) (payload : dict) (now_text : string) (commands : list dict)
  : result (option (dict * list dict)) :=
  rid ← command_rule_id action (PDict payload);
  found ← coalesce_rev router action rid (refresh_command payload now_text) (rev commands);
  mret (match found with Some (c, rows) => Some (c, rev rows) | None => None end).

(** *** Delivery *)

Definition max_attempts : Z := 5.
Definition retry_after : Z := 15.

Definition deliverable (now : Z) (c : dict) : bool :=
  field_is c "status" "pending"
  || (field_is c "status" "delivered" && (retry_after <=? now - to_int (get c "deliveredEpoch") 0)
      && (to_int (get c "attempts") 0 <? max_attempts)).

Definition mark_delivered (now : Z) (now_text : string) (c : dict) : dict :=
  dset "attempts" (PInt (to_int (get c "attempts") 0 + 1))
    (dset "deliveredEpoch" (PInt now) (dset "deliveredAt" (PStr now_text) (dset "status" (PStr "delivered") c))).

Definition delivered_view (c : dict) : dict :=
  List.map (fun k => (k, get c k)) ["id"; "action"; "payload"; "createdAt"].

(** The loop of [api_router_portmap_commands]: [room] commands may still be selected. *)
Fixpoint deliver (now : Z) (now_text router : string) (room : nat) (rows : list pyval)
  : list pyval * list dict :=
  match rows with
  | [] => ([], [])
  | v :: rest =>
      match v with
      | PDict c =>
          if field_is c "router" router && deliverable now c then
            let c' := mark_delivered now now_text c in
            let '(rest', sel) := match room with
                                 | O | 1%nat => (rest, [])
                                 | S n => deliver now now_text router n rest
                                 end in
            (PDict c' :: rest', delivered_view c' :: sel)
          else let '(rest', sel) := deliver now now_text router room rest in (v :: rest', sel)
      | _ => let '(rest', sel) := deliver now now_text router room rest in (v :: rest', sel)
      end
  end.

(** *** Acknowledgement *)

Definition ack_map (acks : list pyval) : dict :=
  dict_of (omap (fun v => match v with
                          | PDict a => Some (clean_saved_value (get a "id"), PDict a)
                          | _ => None
                          end) acks).

Definition finish_command (ack : dict) (now : Z) (now_text : string) (c : dict) : dict :=
  dset "finishedEpoch" (PInt now) (dset "finishedAt" (PStr now_text)
    (dset "result" (get ack "result")
      (dset "status" (PStr (if truthy (get ack "ok") then "done" else "failed")) c))).

(** One command of the loop; the flag tells whether it was acknowledged. *)
Definition ack_command (acks : dict) (now : Z) (now_text : string) (v : pyval) : result (bool * pyval) :=
  id ← vget v "id";
  mret (match v, get acks (clean_saved_value id) with
        | PDict c, PDict (x :: a) => (true, PDict (finish_command (x :: a) now now_text c))
        | _, _ => (false, v)
        end).

(** *** What the APP is told about a rule *)

Definition sync_state_of (status : string) : option string :=
  if str_in status ["pending"; "delivered"] then Some "syncing"
  else if String.eqb status "failed" then Some "error"
  else if String.eqb status "done" then Some "synced" else None.

(** [rows] is the queue in reverse order. *)
Fixpoint sync_states (router : pyval) (rows : list pyval) (states : dict) : result dict :=
  match rows with
  | [] => Ok states
  | PDict c :: rest =>
      if py_eq (get c "router") router then
        rid ← command_rule_id (clean_saved_value (get c "action")) (por (get c "payload") (PDict []));
        if negb (nonempty rid) || has states rid then sync_states router rest states
        else sync_states router rest
               (match sync_state_of (clean_saved_value (get c "status")) with
                | Some st => dset rid (PStr st) states
                | None => states
                end)
      else sync_states router rest states
  | _ :: rest => sync_states router rest states
  end.

(** ** Status reports *)

(** [status_payload.get("status")] when it is a dict, else the payload itself. *)
Definition inner_status (doc : pyval) : result pyval :=
  st ← vget doc "status"; mret (if is_dict st then st else doc).

(** [for row in status.get("rules", []) if isinstance(status, dict) else []]. *)
Definition status_rows (status : pyval) : result (list pyval) :=
  match status with PDict d => py_iter (get_or d "rules" (PList [])) | _ => Ok [] end.

Definition normalize_runtime (runtime : dict) : dict :=
  fold_left (fun r k => match portmap_epoch (get r k) with Some e => dset k (PInt e) r | None => r end)
            ["startedAt"; "expiresAt"; "lastResolvedAt"] runtime.

(** [_portmap_runtime_map]: the runtime of each reported rule, by id. *)
Definition runtime_map (router_status : pyval) : result dict :=
  status ← inner_status router_status;
  rows ← status_rows status;
  mret (dict_of (omap (fun v => match v with
    | PDict row =>
        let runtime := normalize_runtime (dict_or_empty (get row "runtime")) in
        let rule := dict_or_empty (get row "rule") in
        let rid := clean_saved_value (por (get runtime "id") (get rule "id")) in
        if nonempty rid then Some (rid, PDict runtime) else None
    | _ => None
    end) rows)).

Definition history_cap : nat := 1440.

(** The id of a row: [clean_saved_value(runtime.get("id") or (row.get("rule") or {}).get("id"))]. *)
Definition row_rule_id (first second : pyval) : result string :=
  if truthy first then Ok (clean_saved_value first)
  else id ← vget (por second (PDict [])) "id"; mret (clean_saved_value id).

Definition history_sample (now : Z) (runtime : dict) : dict :=
  [("time", PInt now); ("activeConnections", PInt (to_int (get runtime "activeConnections") 0));
   ("activePeers", PInt (to_int (get runtime "activePeers") 0));
   ("uploadBytes", PInt (to_int (get runtime "totalUploadBytes") 0));
   ("downloadBytes", PInt (to_int (get runtime "totalDownloadBytes") 0));
   ("uploadPackets", PInt (to_int (get runtime "totalUploadPackets") 0));
   ("downloadPackets", PInt (to_int (get runtime "totalDownloadPackets") 0));
   ("state", PStr (clean_saved_value (get runtime "state")))].

(** A new sample at most once a minute. *)
Definition sample_due (now : Z) (samples : list pyval) : result bool :=
  match List.last (List.map Some samples) None with
  | None => Ok true
  | Some last => t ← vget last "time"; mret (negb (now - to_int t 0 <? 60))
  end.

(** One row of [_append_portmap_history]; the flag tells whether the history changed. *)
Definition history_row (now : Z) (acc : dict * bool) (v : pyval) : result (dict * bool) :=
  match v with
  | PDict row =>
      let runtime := dict_or_empty (get row "runtime") in
      rid ← row_rule_id (get runtime "id") (get row "rule");
      if negb (nonempty rid) then Ok acc
      else
        let samples := list_or_empty (get acc.1 rid) in
        due ← sample_due now samples;
        mret (if due : bool
              then (dset rid (PList (last_n history_cap (samples ++ [PDict (history_sample now runtime)]))) acc.1, true)
              else acc)
  | _ => Ok acc
  end.

Fixpoint result_fold {A B} (f : A -> B -> result A) (acc : A) (l : list B) : result A :=
  match l with
  | [] => Ok acc
  | x :: l' => acc' ← f acc x; result_fold f acc' l'
  end.

(** *** Reconciliation *)

Definition compare_keys : list string :=
  ["enabled"; "mode"; "listenPort"; "targetMode"; "targetIpv4"; "targetIpv6"; "targetIpv6Suffix";
   "targetMac"; "targetPort"; "transportProtocol"; "expiresAt"; "leaseSeconds"; "maxConnections";
   "idleTimeoutSec"].

Definition differs (rule local_rule : dict) : bool :=
  match local_rule with
  | [] => true
  | _ => existsb (fun k => negb (py_eq (get local_rule k) (get rule k))) compare_keys
  end.

Definition desired_map (rules : list dict) : dict :=
  dict_of (omap (fun r => if nonempty (rule_id r) then Some (rule_id r, PDict r) else None) rules).

(** The router's rules by id, from the reported rows. *)
Definition local_map (rows : list pyval) : result dict :=
  pairs ← result_map (fun v => match v with
    | PDict row =>
        let local_rule := dict_or_empty (get row "rule") in
        rid ← row_rule_id (get local_rule "id") (get row "runtime");
        mret (if nonempty rid then Some (rid, PDict local_rule) else None)
    | _ => Ok None
    end) rows;
  mret (dict_of (omap id pairs)).

Definition wanted_upserts (desired local : dict) : list dict :=
  omap (fun kv => match kv.2 with
                  | PDict rule => if differs rule (dict_or_empty (get local kv.1)) then Some rule else None
                  | _ => None
                  end) desired.

(** [set(local) - set(desired)], in the order of the report. *)
Definition unwanted (desired local : dict) : list string :=
  List.filter (fun k => negb (has desired k)) (keys local).

(** ** Handlers *)

Section Handlers.
Context {S : Type} `{DocStore S} {tz : TimeZone} (E : env).

Definition portmap_router_name : hub S string :=
  resolved ← resolve_agent_router "";
  mret (default "router" (List.find nonempty
    [clean_saved_value (env_or E "PRIMARY_ROUTER_NAME" PNone);
     clean_saved_value (env_or E "PORTMAP_ROUTER_NAME" PNone);
     clean_saved_value (cfg_get E "router.portmap_id" (PStr ""));
     clean_saved_value (cfg_get E "router.agent_name" (PStr ""));
     clean_saved_value (cfg_get E "router.name" (PStr "")); resolved])).

Definition portmap_rule_id (value : pyval) : hub S string :=
  let raw := rule_id_text value in
  if nonempty raw then mret raw
  else now ← epoch; token ← token_hex E 3; mret ("pm-" +:+ int_str now +:+ "-" +:+ token).

(** [{**old, **(payload or {})}]. *)
Definition merge_payload (old : dict) (payload : pyval) : result dict :=
  match por payload (PDict []) with
  | PDict p => Ok (dupdate old p)
  | v => Err (Exn "TypeError" ("'" +:+ type_name v +:+ "' object is not a mapping"))
  end.

Definition clean_portmap_rule (payload : pyval) (old : dict) : hub S dict :=
  src ← lift (merge_payload old payload);
  rid ← portmap_rule_id (por (get src "id") (get old "id"));
  now ← now_str;
  lift (clean_rule_fields now rid src old).

Definition load_portmap_rules_document : hub S rules_doc :=
  raw ← load_raw "portmaps.json"; mret (read_rules raw).

Definition load_portmap_rules : hub S (list dict) :=
  doc ← load_portmap_rules_document; mret (rd_rules doc).

Definition save_portmap_rules (rows : list dict) : hub S unit :=
  previous ← load_portmap_rules_document;
  now ← now_str;
  save_json "portmaps.json"
    (rules_document 1 (Z.max 0 (rd_revision previous) + 1) now (isort rule_le (last_n rules_cap rows))).

(** The [save_rules] that [install_portmap_persistence_patch] puts in its place. *)
Definition save_rules_patched (rows : list dict) : hub S unit :=
  previous ← load_json "portmaps.json" (PDict []);
  let revision := match previous with PDict d => to_int (get d "revision") 0 + 1 | _ => 1 end in
  now ← now_str;
  save_json "portmaps.json" (rules_document 2 revision now (isort rule_le_patched (last_n rules_cap rows))).

Definition load_portmap_commands : hub S pyval :=
  data ← load_json "portmap_commands.json" empty_commands; mret (commands_of data).

Definition queue_portmap_command (action : string) (payload : dict) (router : option string) : hub S dict :=
  doc ← load_portmap_commands;
  now ← epoch;
  rows ← lift (py_iter doc);
  name ← portmap_router_name;
  now_text ← now_str;
  let commands := live_commands now rows in
  let target_router := match router with Some r => str_or r name | None => name end in
  found ← lift (coalesce target_router action payload now_text commands);
  match found with
  | Some (existing, commands') =>
      _ ← save_json "portmap_commands.json" (commands_doc (List.map PDict commands'));
      mret existing
  | None =>
      ms ← epoch_ms;
      token ← token_hex E 3;
      let command := new_command ("cmd-" +:+ int_str ms +:+ "-" +:+ token) target_router action payload now_text now in
      _ ← save_json "portmap_commands.json" (commands_doc (List.map PDict (commands ++ [command])));
      mret command
  end.

Definition portmap_command_sync_states (router : pyval) : hub S dict :=
  doc ← load_portmap_commands;
  lift (sync_states router (rev (list_or_empty doc)) []).

Definition append_portmap_history (status_payload : pyval) : hub S unit :=
  doc ← load_json "portmap_history.json" (PDict []);
  now ← epoch;
  status ← lift (inner_status status_payload);
  rows ← lift (status_rows status);
  h ← lift (result_fold (history_row now) (dict_or_empty doc, false) rows);
  if h.2 : bool then save_json "portmap_history.json" (PDict h.1) else mret tt.

(** The handlers save rules through the module attribute [_save_portmap_rules], which the
    persistence patch replaces at start-up. *)
Context (save_rules : list dict -> hub S unit).

Definition bad_hook_token : response := error_response 401 "bad hook token".

Definition runtime_of (runtime : dict) (r : dict) : result pyval :=
  match get r "id" with
  | PStr id => Ok (get_or runtime id (PDict []))
  | PList _ | PDict _ => Err (Exn "TypeError" ("unhashable type: '" +:+ type_name (get r "id") +:+ "'"))
  | _ => Ok (PDict [])
  end.

Definition sync_state (states r : dict) : pyval :=
  match get r "id" with PStr id => get_or states id (PStr "synced") | _ => PStr "synced" end.

Definition api_portmaps_get (q : request) : hub S response :=
  allowed ← lift (check_read_token E q);
  if negb allowed then mret unauthorized
  else
    document ← load_portmap_rules_document;
    router_status ← load_json "portmap_router_status.json" (PDict []);
    runtime ← lift (runtime_map router_status);
    name ← portmap_router_name;
    let status := dict_or_empty router_status in
    let router := if is_dict router_status then get_or status "router" (PStr name) else PStr name in
    states ← portmap_command_sync_states router;
    rows ← lift (result_map (fun r => rt ← runtime_of runtime r;
                                      mret (PDict (dset "syncState" (sync_state states r) (dset "runtime" rt r))))
                            (rd_rules document));
    ms ← epoch_ms;
    let received := to_int (get status "receivedEpoch") 0 in
    mret (Response 200 (PDict
      [("ok", PBool true); ("rules", PList rows); ("rulesLoaded", PBool (rd_loaded document));
       ("rulesRevision", PInt (rd_revision document)); ("rulesUpdatedAt", PStr (rd_updated document));
       ("revision", PInt (rd_revision document));
       ("portRange", PDict [("min", PInt 20000); ("max", PInt 20020)]); ("router", router);
       ("agentOnline", PBool (negb (received =? 0) && (ms - received * 1000 <=? 35000)));
       ("agentLastSeenAt", get_or status "receivedAt" (PStr ""))])).

(** [except Exception as e: return jsonify({"ok": False, "error": str(e)}), 400]. *)
Definition or_bad_request (m : hub S response) : hub S response :=
  try_except m (fun e => mret (error_response 400 (exn_msg e))).

Definition port_event (kind title : string) (name : pyval) (rest : dict) : dict :=
  [("type", PStr kind); ("title", PStr (title +:+ py_str name)); ("name", name)] ++ rest.

Definition api_portmaps_post (q : request) : hub S response :=
  if negb (check_app_token E q) then mret unauthorized
  else or_bad_request
    (rule ← clean_portmap_rule (json_body q) [];
     rows ← load_portmap_rules;
     _ ← lift (check_conflict rows rule);
     _ ← save_rules (rows ++ [rule]);
     _ ← queue_portmap_command "upsert" (upsert_payload rule) None;
     _ ← add_event (port_event "portmap_created" "端口映射已创建：" (get rule "name")
                      [("newValue", PStr ("IPv6:" +:+ py_str (get rule "listenPort")))]);
     mret (Response 201 (PDict [("ok", PBool true); ("rule", PDict rule)]))).

Definition rule_not_found : response := error_response 404 "rule not found".

Definition api_portmap_delete (q : request) (id : string) : hub S response :=
  if negb (check_app_token E q) then mret unauthorized
  else
    rows ← load_portmap_rules;
    match find_rule id rows with
    | None => mret rule_not_found
    | Some old =>
        _ ← save_rules (remove_rule id rows);
        _ ← queue_portmap_command "delete" (id_payload id) None;
        _ ← add_event (port_event "portmap_deleted" "端口映射已删除：" (get old "name")
                         [("oldValue", PStr (py_str (get old "listenPort")))]);
        mret (Response 200 (PDict [("ok", PBool true); ("deleted", PBool true); ("id", PStr id)]))
    end.

(** [payload["id"] = rule_id]. *)
Definition set_id (id : string) (payload : pyval) : result dict :=
  match payload with
  | PDict p => Ok (dset "id" (PStr id) p)
  | PList _ => Err (Exn "TypeError" "list indices must be integers or slices, not str")
  | v => Err (Exn "TypeError" ("'" +:+ type_name v +:+ "' object does not support item assignment"))
  end.

Definition api_portmap_put (q : request) (id : string) : hub S response :=
  if negb (check_app_token E q) then mret unauthorized
  else
    rows ← load_portmap_rules;
    match find_rule id rows with
    | None => mret rule_not_found
    | Some old => or_bad_request
        (payload ← lift (set_id id (json_body q));
         rule ← clean_portmap_rule (PDict payload) old;
         _ ← lift (check_conflict rows rule);
         _ ← save_rules (replace_rule id rule rows);
         _ ← queue_portmap_command "upsert" (upsert_payload rule) None;
         mret (Response 200 (PDict [("ok", PBool true); ("rule", PDict rule)])))
    end.

(** The rule after a start or a stop; an expired lease starts afresh. *)
Definition switch_rule (now : Z) (now_text action : string) (rule : dict) : option dict :=
  let start := String.eqb action "start" in
  let rule := dset "enabled" (PBool start) rule in
  let expired_at := match portmap_epoch (get rule "expiresAt") with
                    | Some e => start && (e <=? now)
                    | None => false
                    end in
  let lease := Z.max 0 (to_int (get rule "leaseSeconds") 0) in
  if expired_at && (lease <=? 0) then None
  else Some (dset "updatedAt" (PStr now_text)
               (if expired_at then dset "expiresAt" (PInt (now + lease)) rule else rule)).

Definition api_portmap_action (q : request) (id action : string) : hub S response :=
  if negb (check_app_token E q) then mret unauthorized
  else if negb (str_in action ["start"; "stop"]) then mret (error_response 400 "invalid action")
  else
    rows ← load_portmap_rules;
    match find_rule id rows with
    | None => mret rule_not_found
    | Some old =>
        now ← epoch; now_text ← now_str;
        match switch_rule now now_text action old with
        | None => mret (error_response 400 "旧规则缺少有效期时长，请编辑并重新选择有效期")
        | Some rule =>
            _ ← save_rules (replace_rule id rule rows);
            _ ← (if String.eqb action "start"
                 then queue_portmap_command "upsert" (upsert_payload rule) None
                 else queue_portmap_command "stop" (id_payload id) None);
            mret (Response 200 (PDict [("ok", PBool true); ("rule", PDict rule); ("action", PStr action)]))
        end
    end.

Definition api_portmap_history (q : request) (id : string) : hub S response :=
  allowed ← lift (check_read_token E q);
  if negb allowed then mret unauthorized
  else
    let minutes := bounded_int (arg_value q "minutes") 60 5 1440 in
    now ← epoch;
    history ← load_json "portmap_history.json" (PDict []);
    let samples := list_or_empty (get (dict_or_empty history) id) in
    kept ← lift (result_map (fun x => t ← vget x "time"; mret (x, now - minutes * 60 <=? to_int t 0)) samples);
    mret (Response 200 (PDict [("ok", PBool true); ("id", PStr id); ("minutes", PInt minutes);
                               ("samples", PList (List.map fst (List.filter snd kept)))])).

Definition api_router_portmap_commands (q : request) : hub S response :=
  if negb (check_hook_token E q) then mret bad_hook_token
  else
    name ← portmap_router_name;
    let router := str_or (clean_saved_value (arg_value q "router")) name in
    let limit := bounded_int (arg_value q "limit") 20 1 50 in
    doc ← load_portmap_commands;
    now ← epoch; now_text ← now_str;
    rows ← lift (py_iter doc);
    let '(rows', selected) := deliver now now_text router (Z.to_nat limit) rows in
    _ ← (match selected with
         | [] => mret tt
         | _ => save_json "portmap_commands.json" (commands_doc rows')
         end);
    mret (Response 200 (PDict [("ok", PBool true); ("commands", PList (List.map PDict selected));
                               ("time", PStr now_text)])).

Definition api_router_portmap_ack (q : request) : hub S response :=
  if negb (check_hook_token E q) then mret bad_hook_token
  else
    acks ← lift (vget (json_body q) "acks");
    doc ← load_portmap_commands;
    now ← epoch; now_text ← now_str;
    rows ← lift (py_iter doc);
    done ← lift (result_map (ack_command (ack_map (list_or_empty acks)) now now_text) rows);
    let changed := List.length (List.filter fst done) in
    _ ← (if (changed =? 0)%nat then mret tt
         else save_json "portmap_commands.json" (commands_doc (List.map snd done)));
    mret (Response 200 (PDict [("ok", PBool true); ("acknowledged", PInt (Z.of_nat changed))])).

(** The commands a status report leads to. *)
Definition reconcile (router : string) (payload : pyval) : hub S unit :=
  document ← load_portmap_rules_document;
  let desired := desired_map (rd_rules document) in
  rows ← lift (vget payload "rules");
  local ← lift (local_map (list_or_empty rows));
  _ ← for_each (fun rule => _ ← queue_portmap_command "upsert" (upsert_payload rule) (Some router); mret tt)
               (wanted_upserts desired local);
  if rd_loaded document
  then for_each (fun id => _ ← queue_portmap_command "delete" (id_payload id) (Some router); mret tt)
                (unwanted desired local)
  else mret tt.

Definition api_router_portmap_status (q : request) : hub S response :=
  if negb (check_hook_token E q) then mret bad_hook_token
  else
    let payload := json_body q in
    name ← portmap_router_name;
    let router := str_or (clean_saved_value (arg_value q "router")) name in
    now ← epoch; now_text ← now_str;
    let record := PDict [("router", PStr router); ("receivedAt", PStr now_text);
                         ("receivedEpoch", PInt now); ("status", payload)] in
    _ ← save_json "portmap_router_status.json" record;
    _ ← append_portmap_history record;
    _ ← reconcile router payload;
    mret (Response 200 (PDict [("ok", PBool true); ("receivedAt", PStr now_text)])).

(** The GET answer after [install_portmap_persistence_patch]. *)
Definition api_portmaps_with_revision (q : request) : hub S response :=
  result ← api_portmaps_get q;
  match rsp_status result, rsp_body result with
  | 200, PDict root =>
      document ← load_json "portmaps.json" (PDict []);
      let document := dict_or_empty document in
      mret (Response 200 (PDict (dupdate root
        [("rulesLoaded", PBool true); ("rulesRevision", PInt (to_int (get document "revision") 0));
         ("rulesUpdatedAt", PStr (clean_saved_value (get document "updatedAt")));
         ("rulesSource", PStr "hub_persistent_desired_state")])))
  | _, _ => mret result
  end.
End Handlers.
