(* ===== verification/PortMapRules.v ===== *)
(** * Port-mapping rules: what a stored rule satisfies

    The contract of [_clean_portmap_rule], and the invariant of the rules document: rules
    are well formed, no two share an id, and no two share a port and protocol. *)

From S2P Require Import Prelude PyNum PyVal PyIp PyTime HubValues Json Storage Hub AgentCmd PortMap.

(** ** The contract of a cleaned rule *)

Definition target_ok (r : dict) : Prop :=
  (get r "mode" = PStr "6to4" /\ get r "targetMode" = PStr "ipv4"
   /\ (exists s a, get r "targetIpv4" = PStr s /\ ip_of_str s = Some a /\ usable_ipv4 a = true)
   /\ get r "targetIpv6" = PStr "" /\ get r "targetIpv6Suffix" = PStr "")
  \/ (get r "mode" = PStr "6to6" /\ get r "targetMode" = PStr "ipv6_full"
   /\ (exists a, get r "targetIpv6" = PStr (ip_str a) /\ usable_ipv6 a = true)
   /\ get r "targetIpv4" = PStr "" /\ get r "targetIpv6Suffix" = PStr "")
  \/ (get r "mode" = PStr "6to6" /\ get r "targetMode" = PStr "ipv6_suffix"
   /\ (exists n, get r "targetIpv6Suffix" = PStr (ipv6_str n) /\ 0 < n < 2 ^ 64)
   /\ get r "targetIpv4" = PStr "" /\ get r "targetIpv6" = PStr "").

(** The schedule of a rule: permanent, or with an expiry and a lease of at most a week. *)
Definition schedule_ok (r : dict) : Prop :=
  (get r "expiresAt" = PNone /\ get r "leaseSeconds" = PInt 0)
  \/ exists e l, get r "expiresAt" = PInt e /\ get r "leaseSeconds" = PInt l
                 /\ 0 < e < 2 ^ 1024 /\ 0 <= l <= week.

Record rule_ok (r : dict) : Prop := {
  ok_listen : exists p, get r "listenPort" = PInt p /\ 20000 <= p <= 20020;
  ok_target_port : exists p, get r "targetPort" = PInt p /\ 1 <= p <= 65535;
  ok_name : exists s, get r "name" = PStr s /\ s <> "" /\ py_len s <= 64;
  ok_protocol : get r "transportProtocol" = PStr "TCP" \/ get r "transportProtocol" = PStr "UDP";
  ok_mac : exists m, get r "targetMac" = PStr m /\ (m = "" \/ mac_shape m = true);
  ok_target : target_ok r;
  ok_connections : exists n, get r "maxConnections" = PInt n /\ 1 <= n <= 256;
  ok_idle : exists n, get r "idleTimeoutSec" = PInt n /\ 30 <= n <= 3600;
  ok_enabled : exists b, get r "enabled" = PBool b;
  ok_schedule : schedule_ok r;
}.

Lemma py_len_take n s : py_len (py_take n s) <= Z.of_nat n.
Proof.
  revert n. induction s as [|c s IH]; intros n; cbn [py_take]; [simpl; lia|].
  destruct (is_cont c) eqn:E; [|destruct n as [|n]]; cbn [py_len]; rewrite ?E; [apply IH|lia|].
  specialize (IH n). lia.
Qed.

Lemma bounded_int_range v dflt lo hi : lo <= hi -> lo <= bounded_int v dflt lo hi <= hi.
Proof. unfold bounded_int. lia. Qed.

Lemma require_ok {A} b msg (k : result A) a : require b msg k = Ok a -> b = true /\ k = Ok a.
Proof. unfold require. by destruct b. Qed.

Lemma ip_address_ok s a : ip_address s = Ok a -> ip_of_str s = Some a.
Proof. unfold ip_address. destruct (ip_of_str s); [by intros [= ->]|discriminate]. Qed.

Lemma portmap_epoch_range v e : portmap_epoch v = Some e -> 0 < e < 2 ^ 1024.
Proof.
  unfold portmap_epoch. destruct (py_in _ _); [done|]. simpl.
  destruct (float_of_str (py_str v)) as [f|] eqn:Ef; [|done]. simpl.
  destruct (f_trunc f) as [n|] eqn:En; [|done]. simpl.
  pose proof (f_trunc_bound f n (float_of_str_bounded _ _ Ef) En) as Hn.
  intros H. repeat case_match; simplify_eq; to_prop.
  - pose proof (Z.div_le_upper_bound n 1000 n). lia.
  - lia.
Qed.

Lemma lease_from_range b e l : lease_from b e = Some l -> 60 <= l <= week.
Proof. unfold lease_from, week. intros H. repeat case_match; simplify_eq. lia. Qed.

Lemma lease_range {tz : TimeZone} src old e : 0 <= portmap_lease_seconds src old e <= week.
Proof.
  unfold portmap_lease_seconds.
  assert (0 <= Z.max 0 (Z.min week (to_int (get_or src "leaseSeconds" (get old "leaseSeconds")) 0)) <= week) as Hl
    by (unfold week; lia).
  destruct (_ || _); [done|].
  destruct (lease_from _ _) eqn:E; [apply lease_from_range in E; lia|].
  destruct (lease_from (portmap_time_epoch (por (get old "updatedAt") _)) _) eqn:E'; simpl;
    [apply lease_from_range in E'; lia|unfold week; lia].
Qed.

Lemma suffix_ok v s :
  normalize_ipv6_suffix v = Ok s -> s <> "" -> exists n, s = ipv6_str n /\ 0 < n < 2 ^ 64.
Proof.
  unfold normalize_ipv6_suffix. intros H Hne. cbv zeta in H.
  destruct (negb (nonempty _)); [by injection H as <-|].
  apply result_bind_ok in H as (a & Ha & H). destruct (negb _); [discriminate|].
  set (iid := Z.land (ip_int a) low64) in H. destruct (iid =? 0) eqn:E; [discriminate|].
  injection H as <-. exists iid. split; [done|]. to_prop. unfold iid, low64 in *.
  change (2 ^ 64 - 1) with (Z.ones 64) in *. rewrite Z.land_ones in * by lia.
  pose proof (Z.mod_pos_bound (ip_int a) (2 ^ 64)). lia.
Qed.

(** What [clean_target] returns, by mode. *)
Definition clean_target_ok (mode : string) (t : target) : Prop :=
  (mode = "6to4" /\ t_mode t = "ipv4" /\ t_ipv6 t = "" /\ t_suffix t = ""
   /\ exists a, ip_of_str (t_ipv4 t) = Some a /\ usable_ipv4 a = true)
  \/ (mode <> "6to4" /\ t_mode t = "ipv6_full" /\ t_ipv4 t = "" /\ t_suffix t = ""
   /\ exists a, t_ipv6 t = ip_str a /\ usable_ipv6 a = true)
  \/ (mode <> "6to4" /\ t_mode t = "ipv6_suffix" /\ t_ipv4 t = "" /\ t_ipv6 t = ""
   /\ exists n, t_suffix t = ipv6_str n /\ 0 < n < 2 ^ 64).

Lemma clean_target_spec mode src t : clean_target mode src = Ok t -> clean_target_ok mode t.
Proof.
  unfold clean_target. cbv zeta. destruct (String.eqb_spec mode "6to4") as [Hm|Hm].
  - intros (a & Ha%ip_address_ok & [Hu H]%require_ok)%result_bind_ok. injection H as <-.
    left. eauto 10.
  - destruct (String.eqb _ "ipv6_full").
    + intros (a & Ha%ip_address_ok & [Hu H]%require_ok)%result_bind_ok. injection H as <-.
      right. left. eauto 10.
    + intros (s & Hs & [Hne (sn & Hsn & H)%result_bind_ok]%require_ok)%result_bind_ok. injection H as <-.
      right. right. repeat split; [done|]. by apply (suffix_ok _ _ Hs), nonempty_spec.
Qed.

Lemma clean_rule_fields_ok {tz : TimeZone} now id src old r :
  clean_rule_fields now id src old = Ok r -> rule_ok r /\ get r "id" = PStr id.
Proof.
  unfold clean_rule_fields. cbv zeta.
  generalize (lower (clean_saved_value (por (get src "mode") (PStr "6to4")))) as mode,
    (upper (transport (get src "transportProtocol"))) as proto.
  intros mode proto [Hmode [Hlp [Htp [Hname [Hproto [Hmac (t & Ht & H)%result_bind_ok]%require_ok]%require_ok]%require_ok]%require_ok]%require_ok]%require_ok.
  injection H as <-. split; [|done]. to_prop. apply clean_target_spec in Ht.
  split.
  - eexists. split; [reflexivity|]. lia.
  - eexists. split; [reflexivity|]. lia.
  - eexists. split; [reflexivity|]. split; [by apply nonempty_spec|]. apply py_len_take.
  - destruct Hproto as [<-|[<-|[]]]; [by left|by right].
  - eexists. split; [reflexivity|]. apply orb_prop in Hmac as [Hm|Hm]; [left|by right].
    by apply negb_true_iff, nonempty_false in Hm.
  - unfold target_ok, get. simpl.
    destruct Ht as [(Hm & -> & -> & -> & a & Ha & Hu)|[(Hm & -> & -> & -> & a & -> & Hu)|(Hm & -> & -> & -> & n & -> & Hn)]].
    + left. subst mode. eauto 10.
    + right. left. destruct Hmode as [<-|[<-|[]]]; [done|]. eauto 10.
    + right. right. destruct Hmode as [<-|[<-|[]]]; [done|]. eauto 10.
  - eexists. split; [reflexivity|]. by apply bounded_int_range.
  - eexists. split; [reflexivity|]. by apply bounded_int_range.
  - eexists. reflexivity.
  - unfold schedule_ok, get. simpl. destruct (portmap_epoch _) as [e|] eqn:E; [|by left].
    right. eexists _, _. split; [reflexivity|]. split; [reflexivity|].
    split; [by eapply portmap_epoch_range|]. apply lease_range.
Qed.

(** ** The rules document *)

(** No two rules share an id, no two share a port and protocol. *)
Record rules_inv (rows : list dict) : Prop := {
  ri_rules : Forall rule_ok rows;
  ri_named : Forall (fun r => exists s, get r "id" = PStr s /\ clean_str s <> "") rows;
  ri_ids : List.NoDup (List.map (fun r => get r "id") rows);
  ri_ports : List.NoDup (List.map port_key rows);
}.

Lemma to_int_small p d : Z.abs p < 2 ^ 1024 -> to_int (PInt p) d = p.
Proof.
  intros Hp. unfold to_int. change (py_str (PInt p)) with (int_str p).
  by rewrite int_of_str_int_str by by apply small_printable.
Qed.

(** Only the lookups of a rule matter, and its schedule and switch can be set apart. *)
Definition fixed_fields : list string :=
  ["listenPort"; "targetPort"; "name"; "transportProtocol"; "targetMac"; "mode"; "targetMode"; "targetIpv4";
   "targetIpv6"; "targetIpv6Suffix"; "maxConnections"; "idleTimeoutSec"].

Definition scalar (v : pyval) : bool := negb (is_dict v) && negb (is_list v).

Lemma rule_ok_fields r r' :
  (forall k, str_in k fixed_fields = true -> scalar (get r k) = true -> get r' k = get r k) ->
  (exists b, get r' "enabled" = PBool b) -> schedule_ok r' -> rule_ok r -> rule_ok r'.
Proof.
  intros Hget He Hs [].
  assert (forall k v, str_in k fixed_fields = true -> get r k = v -> scalar v = true -> get r' k = v) as Hk.
  { intros k v Hin Hv Hsc. rewrite <- Hv in *. by apply Hget. }
  split; try done.
  all: try match goal with
       | H : exists x, get _ _ = _ /\ _ |- _ =>
           let x := fresh in let Hx := fresh in
           destruct H as (x & Hx & ?); exists x; split; [by apply Hk|done]
       end.
  - destruct ok_protocol0; [left|right]; by apply Hk.
  - unfold target_ok in *. destruct ok_target0 as [(?&?&(s&a&?&?&?)&?&?)|[(?&?&(a&?&?)&?&?)|(?&?&(n&?&?)&?&?)]].
    + left. repeat split; [by apply Hk| by apply Hk| |by apply Hk|by apply Hk].
      exists s, a. split; [by apply Hk|done].
    + right. left. repeat split; [by apply Hk|by apply Hk| |by apply Hk|by apply Hk].
      exists a. split; [by apply Hk|done].
    + right. right. repeat split; [by apply Hk|by apply Hk| |by apply Hk|by apply Hk].
      exists n. split; [by apply Hk|done].
Qed.

Lemma rule_ok_ext r r' :
  (forall k, scalar (get r k) = true -> get r' k = get r k) -> rule_ok r -> rule_ok r'.
Proof.
  intros Hget Hr. apply (rule_ok_fields r r'); [by intros; apply Hget| | |done]; destruct Hr.
  - destruct ok_enabled0 as [b Hb]. exists b. rewrite Hget; by rewrite Hb.
  - destruct ok_schedule0 as [[He Hl]|(e & l & He & Hl & ?)]; [left|right; exists e, l];
      rewrite !Hget by by rewrite ?He, ?Hl. all: by rewrite ?He, ?Hl.
Qed.

Lemma rule_ok_sorted r : nodup_keys r -> rule_ok r -> rule_ok (sorted_dict r).
Proof.
  intros Hn. apply rule_ok_ext. intros k Hs. rewrite get_sorted by done.
  by destruct (get r k).
Qed.

Lemma port_key_ok r : rule_ok r ->
  exists p t, port_key r = (p, t) /\ get r "listenPort" = PInt p /\ get r "transportProtocol" = PStr t
              /\ 20000 <= p <= 20020 /\ (t = "TCP" \/ t = "UDP").
Proof.
  intros [(p & Hp & Hb) _ _ Ht _ _ _ _ _ _]. unfold port_key. rewrite Hp, to_int_small by (simpl; lia).
  destruct Ht as [Ht|Ht]; rewrite Ht; exists p; eexists; repeat split; (done || lia || auto).
Qed.

Lemma port_key_ext r r' :
  get r' "listenPort" = get r "listenPort" -> get r' "transportProtocol" = get r "transportProtocol" ->
  port_key r' = port_key r.
Proof. unfold port_key. by intros -> ->. Qed.

(** Reading a stored rule back changes no field of the invariant. *)
Lemma port_key_sorted r : nodup_keys r -> rule_ok r -> port_key (sorted_dict r) = port_key r.
Proof.
  intros Hn Hr. destruct (port_key_ok r Hr) as (p & t & _ & Hp & Ht & _).
  apply port_key_ext; rewrite get_sorted by done; by rewrite ?Hp, ?Ht.
Qed.

Lemma conflicts_false rule item :
  rule_ok rule -> rule_ok item -> conflicts rule item = false ->
  get item "id" <> get rule "id" -> (exists s, get rule "id" = PStr s) -> (exists s, get item "id" = PStr s) ->
  port_key item <> port_key rule.
Proof.
  unfold conflicts. intros Hr Hi H Hne [s Hs] [s' Hs'] He. rewrite He, Z.eqb_refl, String.eqb_refl in H.
  rewrite Hs, Hs' in *. simpl in H. rewrite !andb_true_r in H. to_prop. congruence.
Qed.

Lemma check_conflict_ok rows rule :
  check_conflict rows rule = Ok tt -> forall item, In item rows -> conflicts rule item = false.
Proof.
  unfold check_conflict. destruct (List.find _ _) eqn:E; [done|]. intros _ item Hin.
  by apply (find_none _ _ E).
Qed.

(** *** Editing the rows *)

Lemma NoDup_map_suffix {A B} (f : A -> B) l l' :
  l' `suffix_of` l -> List.NoDup (List.map f l) -> List.NoDup (List.map f l').
Proof.
  intros [k ->]. rewrite List.map_app. intros H. apply NoDup_ListNoDup in H. apply NoDup_ListNoDup.
  by apply NoDup_app in H as (_ & _ & H).
Qed.

Lemma NoDup_map_filter {A B} (f : A -> B) p l :
  List.NoDup (List.map f l) -> List.NoDup (List.map f (List.filter p l)).
Proof.
  induction l as [|x l IH]; simpl; [done|]. inversion 1 as [|? ? Hx Hl]; subst.
  destruct (p x); [|auto]. simpl. constructor; [|auto].
  intros (y & Hy & Hin)%in_map_iff. apply filter_In in Hin as [Hin _]. apply Hx.
  rewrite <- Hy. by apply in_map.
Qed.

Lemma rules_inv_perm rows rows' : Permutation rows rows' -> rules_inv rows -> rules_inv rows'.
Proof.
  intros Hp []. split; [by rewrite <- Hp|by rewrite <- Hp| |].
  - exact (Permutation_NoDup (Permutation_map _ Hp) ri_ids0).
  - exact (Permutation_NoDup (Permutation_map _ Hp) ri_ports0).
Qed.

Lemma rules_inv_suffix rows rows' : rows' `suffix_of` rows -> rules_inv rows -> rules_inv rows'.
Proof.
  intros Hs []. destruct Hs as [k Hk]. split.
  - subst. by apply Forall_app in ri_rules0 as [_ ?].
  - subst. by apply Forall_app in ri_named0 as [_ ?].
  - eapply NoDup_map_suffix; [by exists k|done].
  - eapply NoDup_map_suffix; [by exists k|done].
Qed.

Lemma rules_inv_remove id rows : rules_inv rows -> rules_inv (remove_rule id rows).
Proof.
  intros []. split; [| |by apply NoDup_map_filter|by apply NoDup_map_filter];
    (apply List.Forall_forall; intros x [Hx _]%filter_In).
  - by apply (proj1 (List.Forall_forall _ _) ri_rules0).
  - by apply (proj1 (List.Forall_forall _ _) ri_named0).
Qed.

(** Mapping one element of a list with distinct keys to a new one. *)
Lemma replace_nodup {B} (key : dict -> B) id rule rows :
  List.NoDup (List.map (fun r => get r "id") rows) -> List.NoDup (List.map key rows) ->
  (forall x, In x rows -> field_is x "id" id = false -> key x <> key rule) ->
  List.NoDup (List.map key (replace_rule id rule rows)).
Proof.
  unfold replace_rule. induction rows as [|x rows IH]; simpl; intros Hid Hk Hne; [done|].
  inversion Hid as [|? ? Hx Hid']; subst. inversion Hk as [|? ? Hkx Hk']; subst.
  constructor; [|by apply IH; auto].
  intros (y & Hy & (z & Hz & Hin)%in_map_iff)%in_map_iff. subst y.
  destruct (field_is x "id" id) eqn:Ex.
  - assert (field_is z "id" id = false) as Ez.
    { apply not_true_iff_false. intros Hz%is_text_spec. apply is_text_spec in Ex. apply Hx.
      rewrite Ex, <- Hz. by apply (in_map (fun r => get r "id")). }
    rewrite Ez in Hy. exact (Hne z (or_intror Hin) Ez Hy).
  - destruct (field_is z "id" id) eqn:Ez.
    + exact (Hne x (or_introl eq_refl) Ex (eq_sym Hy)).
    + apply Hkx. rewrite <- Hy. by apply in_map.
Qed.

Lemma rules_inv_replace id rule rows :
  rules_inv rows -> rule_ok rule -> get rule "id" = PStr id -> clean_str id <> "" ->
  (forall x, In x rows -> conflicts rule x = false) ->
  rules_inv (replace_rule id rule rows).
Proof.
  intros [Hok Hnm Hid Hport] Hr Hrid Hne Hc. split.
  - apply List.Forall_map, (Forall_impl _ _ _ Hok). intros x Hx. by case_match.
  - apply List.Forall_map, (Forall_impl _ _ _ Hnm). intros x Hx. case_match; eauto.
  - apply replace_nodup; [done|done|]. intros x _ Hx. rewrite Hrid. intros He.
    unfold field_is in Hx. by rewrite He, (proj2 (is_text_spec _ _)) in Hx.
  - apply replace_nodup; [done|done|]. intros x Hin Hx. apply conflicts_false; auto.
    + by apply (proj1 (List.Forall_forall _ _) Hok).
    + rewrite Hrid. intros He. unfold field_is in Hx. by rewrite He, (proj2 (is_text_spec _ _)) in Hx.
    + eauto.
    + destruct (proj1 (List.Forall_forall _ _) Hnm x Hin) as (s & Hs & _). eauto.
Qed.

(** A new rule has a fresh id. *)
Definition fresh_id (id : string) (rows : list dict) : Prop :=
  Forall (fun r => field_is r "id" id = false) rows.

Lemma rules_inv_add id rule rows :
  rules_inv rows -> rule_ok rule -> get rule "id" = PStr id -> clean_str id <> "" -> fresh_id id rows ->
  (forall x, In x rows -> conflicts rule x = false) ->
  rules_inv (rows ++ [rule]).
Proof.
  intros [Hok Hnm Hid Hport] Hr Hrid Hne Hfresh Hc.
  assert (forall x, In x rows -> get x "id" <> get rule "id") as Hdiff.
  { intros x Hin He. pose proof (proj1 (List.Forall_forall _ _) Hfresh x Hin) as Hx.
    unfold field_is in Hx. by rewrite He, (proj2 (is_text_spec _ _)) in Hx. }
  split.
  - apply Forall_app. auto.
  - apply Forall_app. split; [done|]. constructor; [eauto|constructor].
  - rewrite List.map_app. apply NoDup_ListNoDup, NoDup_app. split_and!; [by apply NoDup_ListNoDup| |apply NoDup_singleton].
    intros v Hv ->%list_elem_of_singleton. apply list_elem_of_In, in_map_iff in Hv as (x & Hx & Hin).
    by apply (Hdiff x Hin).
  - rewrite List.map_app. apply NoDup_ListNoDup, NoDup_app. split_and!; [by apply NoDup_ListNoDup| |apply NoDup_singleton].
    intros v Hv ->%list_elem_of_singleton. apply list_elem_of_In, in_map_iff in Hv as (x & Hx & Hin).
    revert Hx. apply conflicts_false; auto.
    + by apply (proj1 (List.Forall_forall _ _) Hok).
    + eauto.
    + destruct (proj1 (List.Forall_forall _ _) Hnm x Hin) as (s & Hs & _). eauto.
Qed.
