(* ===== verification/PortMapApi.v ===== *)
(** * The port-mapping handlers keep the rules document sound

    The handlers are verified against an interface for the module attribute
    [_save_portmap_rules]; the function of [hub.py] and its replacement in
    [portmap_persistence_patch.py] both implement it. *)

From S2P Require Import Prelude PyNum PyVal PyIp PyTime HubValues Json Storage Hub Fixtures.
From S2P Require Import AgentCmd PortMap PortMapRules.

Section Api.
Context {S : Type} `{DocStoreLaws S} {tz : TimeZone} (E : env).

(** ** The rules in the store *)

Definition stored_document (w : world S) : rules_doc := read_rules (doc_read "portmaps.json" (w_docs w)).
Definition stored_rules (w : world S) : list dict := rd_rules (stored_document w).

(** The rules are sound, the documents are readable, and the clock is a sane one. *)
Record portmaps_inv (w : world S) : Prop := {
  pi_rules : rules_inv (stored_rules w);
  pi_docs : doc_ok (w_docs w);
  pi_clock : 0 <= w_ms w < 2 ^ 63;
}.

Definition plain_rules (rows : list dict) : Prop := Forall (fun r => plain (PDict r)) rows.

(** What the handlers need of [_save_portmap_rules]. *)
Class RulesSaver (save : list dict -> hub S unit) : Prop :=
  saver_keeps : forall rows w r w',
    portmaps_inv w -> rules_inv rows -> plain_rules rows -> save rows w = (r, w') ->
    rules_inv (stored_rules w').

(** ** Reading back what was saved *)

Lemma rules_of_sorted rows :
  rules_inv rows -> plain_rules rows ->
  rules_of (List.map sort_keys (List.map PDict rows)) = List.map sorted_dict rows.
Proof.
  intros [_ Hnm _ _] Hj. rewrite List.map_map. revert Hj.
  induction Hnm as [|r rows (s & Hs & Hne) Hnm IH]; [done|].
  intros Hj. inversion Hj as [|? ? Hr Hj']; subst. cbn [List.map].
  assert (rule_id (sorted_dict r) = clean_str s) as Hid.
  { unfold rule_id. by rewrite get_sorted, Hs by by apply plain_nodup. }
  change (rules_of (PDict (sorted_dict r) :: List.map (fun x => sort_keys (PDict x)) rows)
          = sorted_dict r :: List.map sorted_dict rows).
  apply nonempty_spec in Hne. unfold rules_of. cbn [omap list_omap].
  rewrite Hid, Hne. f_equal. by apply IH.
Qed.

Lemma rules_inv_sorted rows : rules_inv rows -> plain_rules rows -> rules_inv (List.map sorted_dict rows).
Proof.
  intros [Hok Hnm Hid Hport] Hj.
  assert (forall r, In r rows -> nodup_keys r) as Hn.
  { intros r Hr. apply plain_nodup. by apply (proj1 (List.Forall_forall _ _) Hj). }
  pose proof (proj1 (List.Forall_forall _ _) Hnm) as Hnm'.
  pose proof (proj1 (List.Forall_forall _ _) Hok) as Hok'.
  split.
  - apply List.Forall_map, List.Forall_forall. intros r Hr. apply rule_ok_sorted; auto.
  - apply List.Forall_map, List.Forall_forall. intros r Hr. destruct (Hnm' r Hr) as (s & Hs & Hne).
    exists s. split; [|done]. by rewrite get_sorted, Hs by auto.
  - rewrite List.map_map. erewrite List.map_ext_in; [exact Hid|]. intros r Hr. simpl.
    destruct (Hnm' r Hr) as (s & Hs & _). by rewrite get_sorted, Hs by auto.
  - rewrite List.map_map. erewrite List.map_ext_in; [exact Hport|]. intros r Hr. apply port_key_sorted; auto.
Qed.

Lemma plain_rules_document version rev now rows :
  plain_rules rows -> plain (rules_document version rev now rows).
Proof.
  intros Hj. constructor.
  - repeat constructor; simpl; intuition discriminate.
  - repeat constructor; try done. by apply List.Forall_map.
Qed.

(** Saving rows: either the document did not change, or it holds the rows. *)
Lemma save_rows version rev now rows w r w' :
  rules_inv rows -> plain_rules rows ->
  save_json "portmaps.json" (rules_document version rev now rows) w = (r, w') ->
  w' = w \/ (r = Ok tt /\ stored_rules w' = List.map sorted_dict rows).
Proof.
  intros Hi Hj Hs. destruct r as [[]|e].
  - right. split; [done|]. unfold stored_rules, stored_document.
    rewrite (save_json_read "portmaps.json" _ w w' eq_refl (plain_rules_document version rev now rows Hj) Hs).
    by apply rules_of_sorted.
  - left. unfold save_json in Hs. destruct (doc_save _ _ _ _) as [[]|]; congruence.
Qed.

Lemma plain_rules_perm rows rows' : Permutation rows rows' -> plain_rules rows -> plain_rules rows'.
Proof. unfold plain_rules. by intros ->. Qed.

Lemma plain_rules_suffix rows rows' : rows' `suffix_of` rows -> plain_rules rows -> plain_rules rows'.
Proof. unfold plain_rules. intros [k ->]. by intros [_ ?]%Forall_app. Qed.

(** The rows that are saved: the last hundred, sorted. *)
Lemma sorted_rows_sound le rows :
  rules_inv rows -> plain_rules rows ->
  rules_inv (isort le (last_n rules_cap rows)) /\ plain_rules (isort le (last_n rules_cap rows)).
Proof.
  intros Hi Hj. pose proof (isort_perm le (last_n rules_cap rows)) as Hp. symmetry in Hp.
  split.
  - apply (rules_inv_perm _ _ Hp). eapply rules_inv_suffix; [apply last_n_suffix|done].
  - apply (plain_rules_perm _ _ Hp). eapply plain_rules_suffix; [apply last_n_suffix|done].
Qed.

#[export] Instance save_portmap_rules_saver : RulesSaver save_portmap_rules.
Proof.
  intros rows w r w' Hw Hi Hj Hs.
  destruct (sorted_rows_sound rule_le rows Hi Hj) as [Hi' Hj'].
  change (save_portmap_rules rows w) with
    (save_json "portmaps.json" (rules_document 1 (Z.max 0 (rd_revision (stored_document w)) + 1)
       (format_datetime (to_local (w_ms w / 1000))) (isort rule_le (last_n rules_cap rows))) w) in Hs.
  destruct (save_rows _ _ _ _ _ _ _ Hi' Hj' Hs) as [->|[_ ->]]; [apply Hw|by apply rules_inv_sorted].
Qed.

#[export] Instance save_rules_patched_saver : RulesSaver save_rules_patched.
Proof.
  intros rows w r w' Hw Hi Hj Hs.
  destruct (sorted_rows_sound rule_le_patched rows Hi Hj) as [Hi' Hj'].
  unfold save_rules_patched in Hs. rewrite prog_bind_eq in Hs. cbn [load_json] in Hs. rewrite prog_bind_eq in Hs.
  unfold now_str at 1 in Hs. cbv beta iota in Hs.
  destruct (save_rows _ _ _ _ _ _ _ Hi' Hj' Hs) as [->|[_ ->]]; [apply Hw|by apply rules_inv_sorted].
Qed.

(** ** Cleaning a rule *)

Lemma clean_portmap_rule_spec payload old (w : world S) r w' :
  clean_portmap_rule E payload old w = (r, w') ->
  (w_docs w' = w_docs w /\ w_ms w' = w_ms w /\ w_mono w' = w_mono w)
  /\ forall rule, r = Ok rule ->
     exists src id, merge_payload old payload = Ok src
       /\ clean_rule_fields (format_datetime (to_local (w_ms w / 1000))) id src old = Ok rule
       /\ (rule_id_text (por (get src "id") (get old "id")) <> "" ->
           id = rule_id_text (por (get src "id") (get old "id"))).
Proof.
  unfold clean_portmap_rule. rewrite prog_bind_eq. unfold lift at 1.
  destruct (merge_payload old payload) as [src|e]; [|by intros [= <- <-]].
  rewrite prog_bind_eq. unfold portmap_rule_id. set (raw := rule_id_text _).
  destruct (nonempty raw) eqn:Eraw; intros Hr.
  - cbn in Hr. injection Hr as <- <-. split; [done|]. intros rule Hrule. eauto 10.
  - cbn in Hr. injection Hr as <- <-. split; [done|]. intros rule Hrule.
    apply nonempty_false in Eraw. eexists _, _. split; [done|]. split; [exact Hrule|done].
Qed.

Lemma clean_rule_plain now id src old r :
  plain (get old "createdAt") -> clean_rule_fields now id src old = Ok r -> plain (PDict r).
Proof.
  intros Hc. unfold clean_rule_fields. cbv zeta.
  intros [_ [_ [_ [_ [_ [_ (t & _ & Hr)%result_bind_ok]%require_ok]%require_ok]%require_ok]%require_ok]%require_ok]%require_ok.
  assert (plain (por (get old "createdAt") (PStr now))) as Hcreated.
  { unfold por. destruct (truthy (get old "createdAt")); [exact Hc|constructor]. }
  injection Hr as <-. constructor; [repeat constructor; simpl; intuition discriminate|].
  repeat (apply List.Forall_cons; [cbn [snd]; try done; try (constructor; fail)|]); [|constructor].
  unfold opt_int. destruct (portmap_epoch _); constructor.
Qed.

(** C23. A rule that passes validation is well formed, whatever the request and the old rule
    held: ports and limits in range, a usable target for its mode, a lease of at most a week
    exactly when it expires.  Validation itself touches no document. *)
Theorem clean_rule_contract payload old (w : world S) rule w' :
  clean_portmap_rule E payload old w = (Ok rule, w') ->
  rule_ok rule /\ is_str (get rule "id") = true /\ w_docs w' = w_docs w.
Proof.
  intros Hr. destruct (clean_portmap_rule_spec _ _ _ _ _ Hr) as ((Hd & _) & Hspec).
  destruct (Hspec _ eq_refl) as (src & id & _ & Hc & _).
  apply clean_rule_fields_ok in Hc as [Hok Hid]. by rewrite Hid.
Qed.

(** ** The handlers *)

Lemma stored_rules_plain w : portmaps_inv w -> plain_rules (stored_rules w).
Proof.
  intros [_ Hd _]. unfold stored_rules, stored_document, read_rules.
  destruct (doc_read "portmaps.json" (w_docs w)) as [v|] eqn:Ev; [|constructor].
  pose proof (json_ok_plain _ (doc_read_ok _ _ _ Hd Ev)) as Hv.
  assert (forall rows, plain (PList rows) -> plain_rules (rules_of rows)) as Hrows.
  { intros rows Hj. apply List.Forall_forall. intros r Hr.
    apply list_elem_of_In, list_elem_of_omap in Hr as (x & Hx & Hr). apply list_elem_of_In in Hx.
    destruct x as [| | | | | |d]; try done. destruct (nonempty _); [|done]. injection Hr as <-.
    by apply (plain_in rows). }
  destruct v as [| | | | |l|d]; try constructor; [by apply Hrows|].
  pose proof (plain_get d "rules" Hv) as Hg. destruct (get d "rules"); try constructor. by apply Hrows.
Qed.

Lemma portmaps_inv_same w w' :
  w_docs w' = w_docs w -> w_ms w' = w_ms w -> portmaps_inv w -> portmaps_inv w'.
Proof.
  intros Hd Hm [Hr Hdoc Hc]. split; unfold stored_rules, stored_document in *; rewrite ?Hd, ?Hm; done.
Qed.

Lemma keeps_stored {A} (m : hub S A) w r w' :
  keeps "portmaps.json" m -> m w = (r, w') -> stored_rules w' = stored_rules w.
Proof. intros Hk Hm. unfold stored_rules, stored_document. by rewrite (Hk _ _ _ Hm). Qed.

Lemma keeps_queue k action payload router :
  k <> "portmap_commands.json" -> keeps k (queue_portmap_command E action payload router).
Proof.
  intros Hk. unfold queue_portmap_command, load_portmap_commands, portmap_router_name, resolve_agent_router.
  solve_keeps.
Qed.

Context (save : list dict -> hub S unit) `{!RulesSaver save}.

(** The part of a handler from the save on. *)
Lemma save_then {A} rows (m : hub S A) w r w' :
  portmaps_inv w -> rules_inv rows -> plain_rules rows -> keeps "portmaps.json" m ->
  (save rows ≫= fun _ => m) w = (r, w') -> rules_inv (stored_rules w').
Proof.
  intros Hw Hi Hj Hm. rewrite prog_bind_eq. destruct (save rows w) as [[u|e] w1] eqn:Es; intros Hr.
  - rewrite (keeps_stored _ _ _ _ Hm Hr). by eapply saver_keeps.
  - injection Hr as <- <-. by eapply saver_keeps.
Qed.

Lemma bad_request_inv (m : hub S response) w r w' :
  (forall r w', m w = (r, w') -> rules_inv (stored_rules w')) ->
  or_bad_request m w = (r, w') -> rules_inv (stored_rules w').
Proof.
  intros Hm. unfold or_bad_request, try_except. destruct (m w) as [[a|e] w1] eqn:Em; intros Hr;
    injection Hr as <- <-; by eapply Hm.
Qed.

Ltac keeps_tail := intros; repeat (apply keeps_bind; [by apply keeps_queue || by apply keeps_add_event|intros ?]); apply keeps_ret.

(** Creating a rule keeps the rules document sound: every rule well formed, ids unique,
    no port and protocol used twice.  The id must be new; the handler does not check it. *)
Theorem post_keeps_rules q w r w' :
  portmaps_inv w ->
  (forall rule w1, clean_portmap_rule E (json_body q) [] w = (Ok rule, w1) ->
     exists id, get rule "id" = PStr id /\ clean_str id <> "" /\ fresh_id id (stored_rules w)) ->
  api_portmaps_post E save q w = (r, w') -> rules_inv (stored_rules w').
Proof.
  intros Hw Hfresh. unfold api_portmaps_post. destruct (check_app_token E q); [|by intros [= <- <-]; apply Hw].
  cbn [negb]. apply bad_request_inv. clear r w'. intros r w'. rewrite prog_bind_eq.
  destruct (clean_portmap_rule E (json_body q) [] w) as [[rule|e] w1] eqn:Ec;
    destruct (clean_portmap_rule_spec _ _ _ _ _ Ec) as ((Hd & Hms & _) & Hspec);
    pose proof (portmaps_inv_same _ _ Hd Hms Hw) as Hw1; [|by intros [= <- <-]; apply Hw1].
  destruct (Hfresh _ _ eq_refl) as (id & Hid & Hne & Hfr).
  destruct (Hspec _ eq_refl) as (src & id' & _ & Hclean & _).
  destruct (clean_rule_fields_ok _ _ _ _ _ Hclean) as [Hok _].
  pose proof (clean_rule_plain _ _ _ [] _ plain_none Hclean) as Hjr.
  assert (stored_rules w1 = stored_rules w) as Hst by (unfold stored_rules, stored_document; by rewrite Hd).
  rewrite prog_bind_eq. change (load_portmap_rules w1) with (Ok (stored_rules w1), w1). cbv beta iota. rewrite Hst.
  rewrite prog_bind_eq. unfold lift at 1. cbv beta iota.
  destruct (check_conflict (stored_rules w) rule) as [[]|e] eqn:Ek; [|by intros [= <- <-]; apply Hw1].
  apply save_then; [done| | |keeps_tail].
  - apply (rules_inv_add id); try done; [apply Hw|]. by apply check_conflict_ok.
  - apply Forall_app. split; [by apply stored_rules_plain|apply List.Forall_cons; [exact Hjr|constructor]].
Qed.

(** Editing a rule keeps the rules document sound, whatever the request holds. *)
Theorem put_keeps_rules q id w r w' :
  portmaps_inv w -> body_ok q -> rule_id_text (PStr id) = id -> clean_str id <> "" ->
  api_portmap_put E save q id w = (r, w') -> rules_inv (stored_rules w').
Proof.
  intros Hw Hq Htext Hne. unfold api_portmap_put.
  destruct (check_app_token E q); [|by intros [= <- <-]; apply Hw]. cbn [negb].
  rewrite prog_bind_eq. change (load_portmap_rules w) with (Ok (stored_rules w), w). cbv beta iota.
  destruct (find_rule id (stored_rules w)) as [old|] eqn:Ef; [|by intros [= <- <-]; apply Hw].
  apply bad_request_inv. clear r w'. intros r w'.
  rewrite prog_bind_eq. unfold lift at 1. cbv beta iota.
  destruct (set_id id (json_body q)) as [payload|e] eqn:Ep; [|by intros [= <- <-]; apply Hw].
  rewrite prog_bind_eq.
  destruct (clean_portmap_rule E (PDict payload) old w) as [[rule|e] w1] eqn:Ec;
    destruct (clean_portmap_rule_spec _ _ _ _ _ Ec) as ((Hd & Hms & _) & Hspec);
    pose proof (portmaps_inv_same _ _ Hd Hms Hw) as Hw1; [|by intros [= <- <-]; apply Hw1].
  destruct (Hspec _ eq_refl) as (src & id' & Hsrc & Hclean & Hid').
  assert (id' = id) as ->.
  { assert (get src "id" = PStr id) as Hs; [|rewrite Hs in Hid'].
    - unfold body_ok in Hq. unfold set_id in Ep. destruct (json_body q) as [| | | | | |p]; try discriminate. injection Ep as <-.
      unfold merge_payload, por in Hsrc. destruct (truthy (PDict (dset "id" (PStr id) p))) eqn:Et.
      + injection Hsrc as <-. unfold get. rewrite dget_dupdate, dget_dset_eq; [done|].
        by apply nodup_dset.
      + exfalso. revert Et. destruct p as [|[k v] p]; cbn [dset truthy]; [done|]. by destruct (String.eqb "id" k).
    - assert (truthy (PStr id) = true) as Hid.
      { simpl. apply nonempty_spec. intros ->. by apply Hne. }
      unfold por in Hid'. rewrite Hid, Htext in Hid'. apply Hid'. intros ->. by apply Hne. }
  destruct (clean_rule_fields_ok _ _ _ _ _ Hclean) as [Hok Hrid].
  assert (plain (PDict old)) as Hjo.
  { apply find_some in Ef as [Hin _]. by apply (proj1 (List.Forall_forall _ _) (stored_rules_plain w Hw)). }
  pose proof (clean_rule_plain _ _ _ _ _ (plain_get _ _ Hjo) Hclean) as Hjr.
  rewrite prog_bind_eq. unfold lift at 1. cbv beta iota.
  destruct (check_conflict (stored_rules w) rule) as [[]|e] eqn:Ek; [|by intros [= <- <-]; apply Hw1].
  apply save_then; [done| | |keeps_tail].
  - apply rules_inv_replace; try done; [apply Hw|]. by apply check_conflict_ok.
  - apply List.Forall_map, (Forall_impl _ _ _ (stored_rules_plain w Hw)). intros x Hx. by case_match.
Qed.

(** *** Starting and stopping *)

Lemma switch_rule_ok now now_text action old rule :
  0 <= now < 2 ^ 63 -> rule_ok old -> switch_rule now now_text action old = Some rule ->
  rule_ok rule /\ get rule "id" = get old "id" /\ port_key rule = port_key old
  /\ get rule "enabled" = PBool (String.eqb action "start").
Proof.
  intros Hnow Hok. unfold switch_rule. set (base := dset "enabled" _ old).
  assert (forall k, k <> "enabled" -> get base k = get old k) as Hb by (intros; by apply get_dset_ne).
  rewrite !Hb by done.
  set (ex := match portmap_epoch (get old "expiresAt") with Some e => _ | None => false end).
  set (lease := Z.max 0 (to_int (get old "leaseSeconds") 0)).
  destruct (ex && (lease <=? 0)) eqn:El; [done|]. intros Hrule. injection Hrule as <-.
  assert (forall k, str_in k ["enabled"; "expiresAt"; "updatedAt"] = false ->
    get (dset "updatedAt" (PStr now_text) (if ex then dset "expiresAt" (PInt (now + lease)) base else base)) k = get old k)
    as Hk.
  { intros k Hne. simpl in Hne. rewrite orb_false_r in Hne. to_prop.
    rewrite get_dset_ne by done. destruct ex; rewrite ?get_dset_ne by done; by apply Hb. }
  assert (get (dset "updatedAt" (PStr now_text) (if ex then dset "expiresAt" (PInt (now + lease)) base else base)) "enabled"
          = PBool (String.eqb action "start")) as Hen.
  { rewrite get_dset_ne by done. destruct ex; rewrite ?get_dset_ne by done; apply get_dset_eq. }
  split; [|split; [by apply Hk|split; [by apply port_key_ext; apply Hk|done]]].
  apply (rule_ok_fields old); [|by eexists| |done].
  { intros k Hin _. apply Hk. apply str_in_spec in Hin. simpl in Hin. by intuition subst. }
  assert (get (dset "updatedAt" (PStr now_text) (if ex then dset "expiresAt" (PInt (now + lease)) base else base)) "expiresAt"
          = if ex then PInt (now + lease) else get old "expiresAt") as Hex.
  { rewrite get_dset_ne by done. destruct ex; [apply get_dset_eq|by apply Hb]. }
  unfold schedule_ok. rewrite Hex, (Hk "leaseSeconds") by done.
  destruct Hok as [_ _ _ _ _ _ _ _ _ Hs]. destruct Hs as [[He Hl]|(e & l & He & Hl & Hre & Hrl)].
  - left. unfold ex. by rewrite He, Hl.
  - right. unfold lease in *. rewrite Hl in *.
    assert (to_int (PInt l) 0 = l) as Hli.
    { apply to_int_small. assert (week < 2 ^ 1024) by reflexivity. lia. }
    rewrite Hli in *. rewrite Z.max_r in * by lia.
    destruct ex; simpl in El; to_prop.
    + exists (now + l), l. repeat split; try lia.
      assert (2 ^ 63 + week < 2 ^ 1024) by reflexivity. lia.
    + exists e, l. repeat split; try done; lia.
Qed.

Lemma find_rule_ok id rows old : find_rule id rows = Some old -> In old rows /\ get old "id" = PStr id.
Proof. intros [Hin Hid%is_text_spec]%find_some. done. Qed.

Lemma NoDup_map_inj {A B} (f : A -> B) l x y :
  List.NoDup (List.map f l) -> In x l -> In y l -> f x = f y -> x = y.
Proof.
  induction l as [|z l IH]; simpl; [done|]. inversion 1 as [|? ? Hz Hl]; subst.
  intros [->|Hx] [->|Hy] He; auto; exfalso; apply Hz; [rewrite He|rewrite <- He]; by apply in_map.
Qed.

(** A rule that keeps the id and port of an old one conflicts with no other rule. *)
Lemma same_port_no_conflict rows old rule x :
  rules_inv rows -> In old rows -> In x rows -> get rule "id" = get old "id" -> port_key rule = port_key old ->
  conflicts rule x = false.
Proof.
  intros Hi Hold Hx Hid Hp. apply not_true_iff_false. unfold conflicts. intros Hc. to_prop.
  assert (x = old) as ->.
  { apply (NoDup_map_inj port_key rows); [apply Hi|done|done|]. rewrite <- Hp.
    by apply injective_projections. }
  rewrite Hid in *. destruct (proj1 (List.Forall_forall _ _) (ri_named _ Hi) _ Hold) as (s & Hs & _).
  rewrite Hs in *. simpl in *. rewrite String.eqb_refl in *. done.
Qed.

Lemma switch_rule_plain now now_text action old rule :
  plain (PDict old) -> switch_rule now now_text action old = Some rule -> plain (PDict rule).
Proof.
  intros Hj. unfold switch_rule.
  set (ex := match portmap_epoch _ with Some e => _ | None => false end).
  destruct (ex && _); [done|]. intros Heq. injection Heq as <-.
  apply plain_dset; [constructor|]. destruct ex; repeat (apply plain_dset; [constructor|]); done.
Qed.

(** Starting or stopping a rule keeps the rules document sound. *)
Theorem action_keeps_rules q id action w r w' :
  portmaps_inv w -> api_portmap_action E save q id action w = (r, w') -> rules_inv (stored_rules w').
Proof.
  intros Hw. unfold api_portmap_action.
  destruct (check_app_token E q); [|by intros [= <- <-]; apply Hw]. cbn [negb].
  destruct (str_in action _); [|by intros [= <- <-]; apply Hw]. cbn [negb].
  rewrite prog_bind_eq. change (load_portmap_rules w) with (Ok (stored_rules w), w). cbv beta iota.
  destruct (find_rule id (stored_rules w)) as [old|] eqn:Ef; [|by intros [= <- <-]; apply Hw].
  destruct (find_rule_ok _ _ _ Ef) as [Hin Hid].
  assert (rule_ok old) as Hok by by apply (proj1 (List.Forall_forall _ _) (ri_rules _ (pi_rules _ Hw))).
  assert (plain (PDict old)) as Hj by by apply (proj1 (List.Forall_forall _ _) (stored_rules_plain w Hw)).
  rewrite !prog_bind_eq. cbn [epoch]. rewrite prog_bind_eq. unfold now_str at 1. cbv beta iota.
  set (now := w_ms w / 1000). set (now_text := format_datetime _).
  assert (0 <= now < 2 ^ 63) as Hnow.
  { pose proof (pi_clock _ Hw). unfold now. split; [apply Z.div_pos; lia|]. apply Z.div_lt_upper_bound; lia. }
  destruct (switch_rule now now_text action old) as [rule|] eqn:Es; [|by intros [= <- <-]; apply Hw].
  destruct (switch_rule_ok _ _ _ _ _ Hnow Hok Es) as (Hr & Hrid & Hrp & _).
  apply save_then; [done| | |].
  - apply rules_inv_replace; [apply Hw|done|by rewrite Hrid| |].
    + destruct (proj1 (List.Forall_forall _ _) (ri_named _ (pi_rules _ Hw)) _ Hin) as (s & Hs & Hne). congruence.
    + intros x Hx. apply (same_port_no_conflict (stored_rules w) old); try done. apply Hw.
  - apply List.Forall_map, (Forall_impl _ _ _ (stored_rules_plain w Hw)). intros x Hx.
    case_match; [|done]. exact (switch_rule_plain _ _ _ _ _ Hj Es).
  - apply keeps_bind; [|intros; apply keeps_ret]. destruct (String.eqb action "start"); by apply keeps_queue.
Qed.

(** Deleting a rule keeps the rules document sound. *)
Theorem delete_keeps_rules q id w r w' :
  portmaps_inv w -> api_portmap_delete E save q id w = (r, w') -> rules_inv (stored_rules w').
Proof.
  intros Hw. unfold api_portmap_delete.
  destruct (check_app_token E q); [|by intros [= <- <-]; apply Hw]. cbn [negb].
  rewrite prog_bind_eq. change (load_portmap_rules w) with (Ok (stored_rules w), w). cbv beta iota.
  destruct (find_rule id (stored_rules w)) as [old|]; [|by intros [= <- <-]; apply Hw].
  apply save_then; [done|apply rules_inv_remove, Hw| |keeps_tail].
  apply List.Forall_forall. intros x [Hx _]%filter_In.
  by apply (proj1 (List.Forall_forall _ _) (stored_rules_plain w Hw)).
Qed.
End Api.

(** ** A concrete run *)

Definition nas_rule (name : string) (port : Z) : pyval :=
  PDict [("name", PStr name); ("mode", PStr "6to4"); ("targetIpv4", PStr "192.168.1.20");
         ("listenPort", PInt port); ("targetPort", PInt 443); ("enabled", PBool true)].

Definition nas_world : world store :=
  later 1000 (run (api_portmaps_post demo_env save_rules_patched (app_request [] (Some (nas_rule "NAS" 20001)))) demo_world).

(** A cleaned rule, read back, is well formed. *)
Lemma nas_rule_ok : rules_inv (stored_rules nas_world).
Proof.
  assert (stored_rules nas_world = [sorted_dict (catch (fst (clean_portmap_rule demo_env (nas_rule "NAS" 20001) [] demo_world)) [])]) as ->
    by (vm_compute; reflexivity).
  destruct (clean_portmap_rule demo_env (nas_rule "NAS" 20001) [] demo_world) as [[r|e] w1] eqn:Er;
    [|exfalso; revert Er; vm_compute; discriminate].
  destruct (clean_portmap_rule_spec _ _ _ _ _ _ Er) as (_ & Hspec).
  destruct (Hspec _ eq_refl) as (src & id & _ & Hclean & _).
  pose proof (clean_rule_fields_ok _ _ _ _ _ Hclean) as [Hok Hid].
  pose proof (clean_rule_plain _ _ _ [] _ plain_none Hclean) as Hj.
  cbn [fst catch]. apply (rules_inv_sorted [r]).
  - split; [apply List.Forall_cons; [exact Hok|constructor]| |apply List.NoDup_cons; [by intros []|constructor]
            |apply List.NoDup_cons; [by intros []|constructor]].
    apply List.Forall_cons; [|constructor]. exists id. split; [done|].
    assert (get r "id" = PStr "pm-1700000000-t0") as Hid'.
    { assert (forall x, Ok r = x -> match x with Ok r => get r "id" | _ => PNone end = get r "id") as Hx by (by intros ? <-).
      rewrite <- (Hx (fst (clean_portmap_rule demo_env (nas_rule "NAS" 20001) [] demo_world))); [|by rewrite Er].
      vm_compute. reflexivity. }
    rewrite Hid' in Hid. injection Hid as <-. vm_compute. discriminate.
  - exact (List.Forall_cons _ _ _ Hj (List.Forall_nil _)).
Qed.

Lemma nas_world_inv : portmaps_inv nas_world.
Proof.
  split.
  - exact nas_rule_ok.
  - apply (texts_okb_sound (w_docs nas_world)). vm_compute. reflexivity.
  - assert (w_ms nas_world = 1700000001000) as -> by (vm_compute; reflexivity). split; [done|reflexivity].
Qed.

Definition web_request : request := app_request [] (Some (nas_rule "Web" 20002)).
Definition edit_request : request :=
  app_request [] (Some (PDict [("listenPort", PInt 20007); ("maxConnections", PInt 9999)])).

Lemma post_keeps_rules_witness :
  rules_inv (stored_rules (run (api_portmaps_post demo_env save_rules_patched web_request) nas_world)).
Proof.
  apply (post_keeps_rules demo_env save_rules_patched web_request nas_world
           (fst (api_portmaps_post demo_env save_rules_patched web_request nas_world))).
  - exact nas_world_inv.
  - intros rule w1 Hc.
    assert (rule = catch (fst (clean_portmap_rule demo_env (json_body web_request) [] nas_world)) []) as ->
      by by rewrite Hc.
    exists "pm-1700000001-t2". split; [vm_compute; reflexivity|]. split; [vm_compute; discriminate|].
    assert (forallb (fun r => negb (field_is r "id" "pm-1700000001-t2")) (stored_rules nas_world) = true) as Hf
      by (vm_compute; reflexivity).
    apply List.Forall_forall. intros x Hx. rewrite forallb_forall in Hf. by apply negb_true_iff, Hf.
  - apply surjective_pairing.
Defined.

Lemma put_keeps_rules_witness :
  rules_inv (stored_rules (run (api_portmap_put demo_env save_rules_patched edit_request "pm-1700000000-t0") nas_world)).
Proof.
  apply (put_keeps_rules demo_env save_rules_patched edit_request "pm-1700000000-t0" nas_world
           (fst (api_portmap_put demo_env save_rules_patched edit_request "pm-1700000000-t0" nas_world))).
  - exact nas_world_inv.
  - assert (json_okb (json_body edit_request) = true) as Hj by (vm_compute; reflexivity).
    exact (plain_nodup _ (json_ok_plain _ (json_okb_sound _ Hj))).
  - vm_compute. reflexivity.
  - vm_compute. discriminate.
  - apply surjective_pairing.
Defined.

Lemma action_keeps_rules_witness :
  rules_inv (stored_rules (run (api_portmap_action demo_env save_portmap_rules (app_request [] None)
                                  "pm-1700000000-t0" "stop") nas_world)).
Proof.
  apply (action_keeps_rules demo_env save_portmap_rules (app_request [] None) "pm-1700000000-t0" "stop" nas_world
           (fst (api_portmap_action demo_env save_portmap_rules (app_request [] None) "pm-1700000000-t0" "stop" nas_world))).
  - exact nas_world_inv.
  - apply surjective_pairing.
Defined.

Lemma delete_keeps_rules_witness :
  rules_inv (stored_rules (run (api_portmap_delete demo_env save_rules_patched (app_request [] None)
                                  "pm-1700000000-t0") nas_world)).
Proof.
  apply (delete_keeps_rules demo_env save_rules_patched (app_request [] None) "pm-1700000000-t0" nas_world
           (fst (api_portmap_delete demo_env save_rules_patched (app_request [] None) "pm-1700000000-t0" nas_world))).
  - exact nas_world_inv.
  - apply surjective_pairing.
Defined.

(** The create handler takes the id of the request as it is.  With the id of an existing
    rule it answers 201 and stores a second rule with that id and even with its port and
    protocol, so ids and ports are no longer unique. *)
Theorem post_accepts_existing_id :
  let q := app_request [] (Some (PDict [("id", PStr "pm-1700000000-t0"); ("name", PStr "copy");
             ("targetIpv4", PStr "192.168.1.30"); ("listenPort", PInt 20001); ("targetPort", PInt 80)])) in
  let w := run (api_portmaps_post demo_env save_rules_patched q) nas_world in
  (exists body, fst (api_portmaps_post demo_env save_rules_patched q nas_world) = Ok (Response 201 body))
  /\ List.map (fun r => get r "id") (stored_rules w) = [PStr "pm-1700000000-t0"; PStr "pm-1700000000-t0"]
  /\ List.map port_key (stored_rules w) = [(20001, "TCP"); (20001, "TCP")].
Proof. split; [eexists|split]; vm_compute; reflexivity. Qed.

(** An id such as [none] passes validation and the create handler answers 201, but the
    stored rule is filtered out on every read, so it is never listed. *)
Theorem post_loses_null_id :
  let q := app_request [] (Some (PDict [("id", PStr "none"); ("name", PStr "lost");
             ("targetIpv4", PStr "192.168.1.30"); ("listenPort", PInt 20003); ("targetPort", PInt 80)])) in
  let w := run (api_portmaps_post demo_env save_rules_patched q) nas_world in
  (exists body, fst (api_portmaps_post demo_env save_rules_patched q nas_world) = Ok (Response 201 body))
  /\ stored_rules w = stored_rules nas_world.
Proof. split; [eexists|]; vm_compute; reflexivity. Qed.

Lemma clean_rule_contract_witness :
  let rule := catch (fst (clean_portmap_rule demo_env (nas_rule "NAS" 20001) [] demo_world)) [] in
  rule_ok rule /\ is_str (get rule "id") = true
  /\ w_docs (run (clean_portmap_rule demo_env (nas_rule "NAS" 20001) []) demo_world) = w_docs demo_world.
Proof.
  intros rule. apply (clean_rule_contract demo_env (nas_rule "NAS" 20001) [] demo_world).
  vm_compute. reflexivity.
Defined.
