(* ===== verification/PortMapQueue.v ===== *)
(** * The port-mapping command queue

    Three operations work on the stored rows: queueing a command, handing commands to the
    router, and acknowledging them.  The file shows that a rule never has two active
    commands of one kind, that the router gets the oldest deliverable commands, at most five
    times each and at least fifteen seconds apart, and that an acknowledged command is never
    handed out again. *)

From S2P Require Import Prelude PyNum PyVal PyIp PyTime HubValues Json Storage Hub Fixtures.
From S2P Require Import AgentCmd PortMap.

(** ** Well-formed commands *)

(** The payload of the commands the Hub creates: a rule with a text id, or an id. *)
Definition payload_ok (action : string) (payload : pyval) (rid : string) : Prop :=
  exists p, payload = PDict p /\ nodup_keys p /\
    if String.eqb action "upsert"
    then exists rule s, get p "rule" = PDict rule /\ nodup_keys rule /\ get rule "id" = PStr s /\ rid = clean_str s
    else exists s, get p "id" = PStr s /\ rid = clean_str s.

Record command_ok (c : dict) (router action rid status : string) : Prop := {
  co_router : get c "router" = PStr router;
  co_action : get c "action" = PStr action;
  co_status : get c "status" = PStr status;
  co_payload : payload_ok action (get c "payload") rid;
  co_keys : nodup_keys c;
}.

Definition is_active (status : string) : bool := str_in status ["pending"; "delivered"].

(** What identifies an active command. *)
Definition active_key (c : dict) : option (string * string * string) :=
  match get c "router", get c "action", get c "status" with
  | PStr router, PStr action, PStr status =>
      if is_active status then
        match command_rule_id action (get c "payload") with
        | Ok rid => Some (router, action, rid)
        | Err _ => None
        end
      else None
  | _, _, _ => None
  end.

Definition active_keys (rows : list dict) : list (string * string * string) := omap active_key rows.

Lemma payload_rule_id action payload rid :
  payload_ok action payload rid -> command_rule_id action payload = Ok rid.
Proof.
  intros (p & -> & _ & Hp). unfold command_rule_id. destruct (String.eqb action "upsert").
  - destruct Hp as (rule & s & Hr & _ & Hid & ->). simpl. rewrite Hr. by rewrite Hid.
  - destruct Hp as (s & Hid & ->). simpl. by rewrite Hid.
Qed.

Lemma payload_truthy action payload rid : payload_ok action payload rid -> por payload (PDict []) = payload.
Proof.
  intros (p & -> & _ & Hp). unfold por. destruct p; [|done]. exfalso.
  destruct (String.eqb action "upsert").
  - destruct Hp as (? & ? & Hr & _). discriminate.
  - destruct Hp as (? & Hr & _). discriminate.
Qed.

Lemma active_key_ok c router action rid status :
  command_ok c router action rid status ->
  active_key c = if is_active status then Some (router, action, rid) else None.
Proof.
  intros [Hr Ha Hs Hp _]. unfold active_key. rewrite Hr, Ha, Hs. by rewrite (payload_rule_id _ _ _ Hp).
Qed.

Lemma active_test c router action rid status name :
  command_ok c router action rid status ->
  active name c = String.eqb router name && is_active status.
Proof.
  intros [Hr _ Hs _ _]. unfold active, field_is, is_text. rewrite Hr, Hs. done.
Qed.

Definition commands_ok (rows : list dict) : Prop :=
  Forall (fun c => exists router action rid status, command_ok c router action rid status) rows.

(** ** Queueing *)

(** The rows [_queue_portmap_command] stores, for a command id [id] if one is created. *)
Definition enqueue (now : Z) (now_text id router action : string) (payload : dict) (rows : list pyval)
  : result (list dict) :=
  let commands := live_commands now rows in
  found ← coalesce router action payload now_text commands;
  mret (match found with
        | Some (_, rows') => rows'
        | None => commands ++ [new_command id router action payload now_text now]
        end).

Lemma refresh_ok c router action rid status payload now_text :
  command_ok c router action rid status -> payload_ok action (PDict payload) rid ->
  command_ok (refresh_command payload now_text c) router action rid "pending".
Proof.
  intros [Hr Ha Hs Hp Hn] Hpl. unfold refresh_command.
  split; repeat first [rewrite get_dset_eq | rewrite get_dset_ne by done | apply nodup_dset]; done.
Qed.

Lemma new_command_ok id router action payload now_text now rid :
  payload_ok action (PDict payload) rid ->
  command_ok (new_command id router action payload now_text now) router action rid "pending".
Proof.
  intros Hp. split; try done. repeat constructor; simpl; intuition discriminate.
Qed.

(** The search over the reversed rows: nothing active with the key, or the rows around the
    one command that is updated. *)
Lemma coalesce_rev_spec router action rid upd rows :
  commands_ok rows ->
  (coalesce_rev router action rid upd rows = Ok None /\ ~ In (router, action, rid) (active_keys rows))
  \/ exists a c b, rows = a ++ c :: b /\ coalesce_rev router action rid upd rows = Ok (Some (upd c, a ++ upd c :: b))
     /\ exists status, command_ok c router action rid status /\ is_active status = true.
Proof.
  induction 1 as [|c rows (r & a & i & st & Hc) Hrows IH]; [left; split; [done|by intros []]|].
  cbn [coalesce_rev]. rewrite (active_test _ _ _ _ _ router Hc).
  pose proof Hc as [Hr Ha Hs Hp _].
  assert (field_is c "action" action = String.eqb a action) as -> by (unfold field_is, is_text; by rewrite Ha).
  unfold active_keys. cbn [omap list_omap]. rewrite (active_key_ok _ _ _ _ _ Hc).
  destruct (String.eqb_spec r router) as [->|Hner]; simpl.
  - destruct (is_active st) eqn:Est; simpl.
    + destruct (String.eqb_spec a action) as [->|Hnea]; simpl.
      * rewrite (payload_truthy _ _ _ Hp), (payload_rule_id _ _ _ Hp). simpl.
        destruct (String.eqb_spec i rid) as [->|Hnei].
        -- right. exists [], c, rows. split; [done|]. split; [done|]. eauto.
        -- destruct IH as [[-> Hin]|(x & c' & b & -> & -> & ?)]; [left|right].
           ++ split; [done|]. intros [[=]|?]; [congruence|auto].
           ++ exists (c :: x), c', b. done.
      * destruct IH as [[-> Hin]|(x & c' & b & -> & -> & ?)]; [left|right].
        -- split; [done|]. intros [[=]|?]; [congruence|auto].
        -- exists (c :: x), c', b. done.
    + destruct IH as [[-> Hin]|(x & c' & b & -> & -> & ?)]; [by left|right].
      exists (c :: x), c', b. done.
  - destruct IH as [[-> Hin]|(x & c' & b & -> & -> & ?)]; [left|right].
    + split; [done|]. destruct (is_active st); [|done]. intros [[=]|?]; [congruence|auto].
    + exists (c :: x), c', b. done.
Qed.

(** Rows that change in place: each keeps its key or stops being active. *)
Definition settles (c c' : dict) : Prop := active_key c' = active_key c \/ active_key c' = None.

Lemma settles_refl rows : Forall2 settles rows rows.
Proof. induction rows; constructor; [by left|done]. Qed.

Lemma settles_keys_incl rows rows' k :
  Forall2 settles rows rows' -> In k (active_keys rows') -> In k (active_keys rows).
Proof.
  unfold active_keys. induction 1 as [|c c' rows rows' Hc Hr IH]; [done|]. cbn [omap list_omap].
  destruct Hc as [->| ->]; destruct (active_key c); simpl; intuition auto.
Qed.

Lemma settles_unique rows rows' :
  Forall2 settles rows rows' -> List.NoDup (active_keys rows) -> List.NoDup (active_keys rows').
Proof.
  induction 1 as [|c c' rows rows' Hc Hr IH]; [done|]. unfold active_keys in *. cbn [omap list_omap].
  destruct Hc as [->| ->]; destruct (active_key c) as [k|]; intros Hn; auto.
  - inversion Hn as [|? ? Hk Hn']; subst. constructor; [|by apply IH].
    intros Hin. by apply Hk, (settles_keys_incl rows rows').
  - inversion Hn; subst. by apply IH.
Qed.

Lemma active_keys_app a b : active_keys (a ++ b) = active_keys a ++ active_keys b.
Proof.
  unfold active_keys. induction a as [|x a IH]; [done|]. cbn [omap list_omap app].
  rewrite IH. by destruct (active_key x).
Qed.

Lemma active_keys_rev a : Permutation (active_keys (rev a)) (active_keys a).
Proof.
  induction a as [|x a IH]; [done|]. cbn [rev]. rewrite active_keys_app, IH, Permutation_app_comm.
  unfold active_keys. cbn [omap list_omap]. by destruct (active_key x).
Qed.

Definition queue_inv (rows : list dict) : Prop := commands_ok rows /\ List.NoDup (active_keys rows).

Lemma queue_inv_rev rows : queue_inv rows -> queue_inv (rev rows).
Proof.
  intros [Hok Hn]. split; [by apply List.Forall_rev|].
  by rewrite active_keys_rev.
Qed.

Lemma queue_inv_app_r a b : queue_inv (a ++ b) -> queue_inv b.
Proof.
  intros [Hok Hn]. apply Forall_app in Hok as [_ Hok]. split; [done|].
  rewrite active_keys_app in Hn. apply NoDup_ListNoDup, NoDup_app in Hn as (_ & _ & Hn). by apply NoDup_ListNoDup.
Qed.

Lemma queue_inv_filter p rows : queue_inv rows -> queue_inv (List.filter p rows).
Proof.
  intros [Hok Hn]. split.
  - apply List.Forall_forall. intros c [Hc _]%filter_In. by apply (proj1 (List.Forall_forall _ _) Hok).
  - clear Hok. revert Hn. unfold active_keys. induction rows as [|c rows IH]; [done|]. cbn [omap list_omap List.filter].
    assert (forall k, In k (omap active_key (List.filter p rows)) -> In k (omap active_key rows)) as Hincl.
    { clear. induction rows as [|c rows IH]; [done|]. intros k. cbn [List.filter omap list_omap].
      destruct (p c); cbn [omap list_omap]; destruct (active_key c); simpl; intuition auto. }
    destruct (active_key c) as [k|] eqn:Ek; intros Hn.
    + inversion Hn; subst. destruct (p c); cbn [omap list_omap]; [rewrite Ek|by apply IH].
      constructor; [|by apply IH]. auto.
    + destruct (p c); cbn [omap list_omap]; [rewrite Ek|]; by apply IH.
Qed.

Lemma live_commands_dicts now rows :
  live_commands now (List.map PDict rows) = last_n queue_cap (List.filter (fun c => negb (expired now c)) rows).
Proof.
  unfold live_commands. f_equal. induction rows as [|c rows IH]; [done|]. cbn [List.map omap list_omap List.filter].
  rewrite IH. by destruct (expired now c).
Qed.

Lemma live_commands_inv now rows : queue_inv rows -> queue_inv (live_commands now (List.map PDict rows)).
Proof.
  intros Hi. rewrite live_commands_dicts. apply (queue_inv_filter (fun c => negb (expired now c))) in Hi.
  destruct (last_n_suffix queue_cap (List.filter (fun c => negb (expired now c)) rows)) as [k Hk].
  rewrite Hk in Hi. by apply queue_inv_app_r in Hi.
Qed.

Lemma enqueue_inv now now_text id router action payload rid rows rows' :
  queue_inv rows -> payload_ok action (PDict payload) rid ->
  enqueue now now_text id router action payload (List.map PDict rows) = Ok rows' -> queue_inv rows'.
Proof.
  intros Hi Hp. apply (live_commands_inv now) in Hi. unfold enqueue, coalesce.
  set (live := live_commands now (List.map PDict rows)) in *. clearbody live.
  rewrite (payload_rule_id _ _ _ Hp). simpl.
  pose proof (queue_inv_rev _ Hi) as Hrev. destruct Hrev as [Hok Hn].
  destruct (coalesce_rev_spec router action rid (refresh_command payload now_text) (rev live) Hok)
    as [[-> Hnew]|(a & c & b & Hrows & -> & st & Hc & Hst)]; simpl; intros Heq; injection Heq as <-.
  - destruct Hi as [Hok' Hn']. split.
    + apply Forall_app. split; [done|]. constructor; [|constructor]. eauto 10 using new_command_ok.
    + rewrite active_keys_app. unfold active_keys at 2. cbn [omap list_omap].
      rewrite (active_key_ok _ _ _ _ _ (new_command_ok id router action payload now_text now rid Hp)). simpl.
      apply NoDup_ListNoDup, NoDup_app. split_and!; [by apply NoDup_ListNoDup| |apply NoDup_singleton].
      intros k Hk ->%list_elem_of_singleton. apply Hnew. apply list_elem_of_In in Hk.
      by rewrite active_keys_rev.
  - apply queue_inv_rev. rewrite Hrows in Hok, Hn.
    pose proof (refresh_ok _ _ _ _ _ _ now_text Hc Hp) as Hc'. split.
    + apply Forall_app in Hok as [Ha Hb]. apply Forall_app. split; [done|].
      inversion Hb; subst. constructor; [eauto 10|done].
    + refine (settles_unique (a ++ c :: b) _ _ Hn).
      apply Forall2_app; [apply settles_refl|]. constructor; [|apply settles_refl].
      left. rewrite (active_key_ok _ _ _ _ _ Hc), (active_key_ok _ _ _ _ _ Hc'), Hst. done.
Qed.

(** ** Delivery *)

Definition handed (now : Z) (router : string) (c : dict) : bool :=
  field_is c "router" router && deliverable now c.

(** [deliver] on rows that are all commands. *)
Fixpoint deliver_dicts (now : Z) (now_text router : string) (room : nat) (rows : list dict) : list dict :=
  match rows with
  | [] => []
  | c :: rest =>
      if handed now router c then
        mark_delivered now now_text c
          :: match room with O | 1%nat => rest | S n => deliver_dicts now now_text router n rest end
      else c :: deliver_dicts now now_text router room rest
  end.

Lemma deliver_rows now now_text router room rows :
  (deliver now now_text router room (List.map PDict rows)).1
  = List.map PDict (deliver_dicts now now_text router room rows).
Proof.
  revert room. induction rows as [|c rows IH]; intros room; [done|].
  cbn [List.map deliver deliver_dicts]. fold (handed now router c). destruct (handed now router c).
  - destruct room as [|[|n]]; [done|done|]. specialize (IH (S n)).
    destruct (deliver now now_text router (S n) (List.map PDict rows)). simpl in *. by rewrite IH.
  - specialize (IH room). destruct (deliver now now_text router room (List.map PDict rows)). simpl in *. by rewrite IH.
Qed.

(** What is handed out: the oldest deliverable commands of the router, at most [room]. *)
Lemma deliver_selected now now_text router room rows :
  (0 < room)%nat ->
  (deliver now now_text router room (List.map PDict rows)).2
  = List.map (fun c => delivered_view (mark_delivered now now_text c))
             (firstn room (List.filter (handed now router) rows)).
Proof.
  revert room. induction rows as [|c rows IH]; intros room Hroom; [by destruct room|].
  cbn [List.map deliver List.filter]. fold (handed now router c). destruct (handed now router c).
  - destruct room as [|[|n]]; [lia|done|]. specialize (IH (S n)).
    destruct (deliver now now_text router (S n) (List.map PDict rows)). simpl in *. rewrite IH by lia. done.
  - specialize (IH room Hroom). destruct (deliver now now_text router room (List.map PDict rows)). simpl in *. by rewrite IH.
Qed.

Lemma deliver_pointwise now now_text router room rows :
  Forall2 (fun c c' => c' = c \/ (handed now router c = true /\ c' = mark_delivered now now_text c))
          rows (deliver_dicts now now_text router room rows).
Proof.
  revert room. induction rows as [|c rows IH]; intros room; [constructor|]. cbn [deliver_dicts].
  destruct (handed now router c) eqn:E.
  - constructor; [by right|]. destruct room as [|[|n]]; [| |apply IH];
      (clear; induction rows; constructor; [by left|done]).
  - constructor; [by left|apply IH].
Qed.

Lemma field_is_str c k s t : get c k = PStr s -> field_is c k t = String.eqb s t.
Proof. intros H. unfold field_is, is_text. by rewrite H. Qed.

Lemma mark_delivered_ok now now_text c router action rid status :
  command_ok c router action rid status ->
  command_ok (mark_delivered now now_text c) router action rid "delivered".
Proof.
  intros [Hr Ha Hs Hp Hn]. unfold mark_delivered.
  split; repeat first [rewrite get_dset_eq | rewrite get_dset_ne by done | apply nodup_dset]; done.
Qed.

Lemma deliverable_active now c router action rid status :
  command_ok c router action rid status -> deliverable now c = true -> is_active status = true.
Proof.
  intros [_ _ Hs _ _]. unfold deliverable. rewrite !(field_is_str _ _ _ _ Hs). unfold is_active, str_in.
  simpl. destruct (String.eqb status "pending"), (String.eqb status "delivered"); done.
Qed.

Lemma deliver_inv now now_text router room rows :
  queue_inv rows -> queue_inv (deliver_dicts now now_text router room rows).
Proof.
  intros [Hok Hn]. pose proof (deliver_pointwise now now_text router room rows) as Hp. split.
  - clear Hn. revert Hok. induction Hp as [|c c' rows rows' Hc Hr IH]; [done|].
    inversion 1 as [|? ? (r & a & i & st & Hcok) Hok']; subst. constructor; [|by apply IH].
    destruct Hc as [->|[_ ->]]; [eauto 10|]. eauto 10 using mark_delivered_ok.
  - refine (settles_unique rows _ _ Hn). clear Hn.
    revert Hok. induction Hp as [|c c' rows rows' Hc Hr IH]; [constructor|].
    inversion 1 as [|? ? (r & a & i & st & Hcok) Hok']; subst. constructor; [|by apply IH].
    destruct Hc as [->|[Hh ->]]; [by left|]. left.
    rewrite (active_key_ok _ _ _ _ _ Hcok), (active_key_ok _ _ _ _ _ (mark_delivered_ok now now_text _ _ _ _ _ Hcok)).
    apply andb_prop in Hh as [_ Hd]. by rewrite (deliverable_active _ _ _ _ _ _ Hcok Hd).
Qed.

(** ** Acknowledgement *)

Lemma finish_ok ack now now_text c router action rid status :
  command_ok c router action rid status ->
  command_ok (finish_command ack now now_text c) router action rid (if truthy (get ack "ok") then "done" else "failed").
Proof.
  intros [Hr Ha Hs Hp Hn]. unfold finish_command.
  split; repeat first [rewrite get_dset_eq | rewrite get_dset_ne by done | apply nodup_dset]; done.
Qed.

(** One acknowledged row: unchanged when no acknowledgement names it. *)
Definition acked (acks : dict) (now : Z) (now_text : string) (c : dict) : dict :=
  match get acks (clean_saved_value (get c "id")) with
  | PDict (x :: a) => finish_command (x :: a) now now_text c
  | _ => c
  end.

Lemma ack_rows acks now now_text rows :
  exists flags, result_map (ack_command acks now now_text) (List.map PDict rows)
    = Ok (List.combine flags (List.map PDict (List.map (acked acks now now_text) rows)))
  /\ List.length flags = List.length rows.
Proof.
  induction rows as [|c rows (flags & IH & Hl)]; [by exists []|].
  cbn [List.map result_map]. unfold ack_command at 1. cbn [vget mbind result_bind mret result_ret].
  set (a := get acks (clean_saved_value (get c "id"))).
  exists (match a with PDict (_ :: _) => true | _ => false end :: flags). rewrite IH. simpl.
  split; [|by rewrite Hl]. unfold acked. fold a. destruct a as [| | | | | |[|x d]]; done.
Qed.

Lemma acked_inv acks now now_text rows : queue_inv rows -> queue_inv (List.map (acked acks now now_text) rows).
Proof.
  intros [Hok Hn]. split.
  - apply List.Forall_map, (Forall_impl _ _ _ Hok). intros c (r & a & i & st & Hc). unfold acked.
    repeat case_match; eauto 10 using finish_ok.
  - refine (settles_unique rows _ _ Hn). clear Hn. induction Hok as [|c rows (r & a & i & st & Hc) Hok IH]; [constructor|].
    constructor; [|done]. unfold acked. destruct (get acks _) as [| | | | | |[|x d]]; try by left. right.
    rewrite (active_key_ok _ _ _ _ _ (finish_ok (x :: d) now now_text _ _ _ _ _ Hc)).
    by destruct (truthy (get (x :: d) "ok")).
Qed.

(** ** Storing and reading back *)

Lemma payload_sorted action payload rid :
  payload_ok action payload rid -> payload_ok action (sort_keys payload) rid.
Proof.
  intros (p & -> & Hn & Hp). exists (sorted_dict p).
  assert (nodup_keys (sorted_dict p)) as Hn'.
  { unfold sorted_dict. eapply nodup_keys_perm; [symmetry; apply isort_perm|].
    unfold nodup_keys, keys. by rewrite List.map_map. }
  split; [done|]. split; [done|]. destruct (String.eqb action "upsert").
  - destruct Hp as (rule & s & Hr & Hnr & Hid & ->). exists (sorted_dict rule), s.
    rewrite get_sorted, Hr by done. split; [done|].
    rewrite get_sorted, Hid by done. split; [|done].
    unfold sorted_dict. eapply nodup_keys_perm; [symmetry; apply isort_perm|].
    unfold nodup_keys, keys. by rewrite List.map_map.
  - destruct Hp as (s & Hid & ->). exists s. by rewrite get_sorted, Hid.
Qed.

Lemma command_sorted c router action rid status :
  command_ok c router action rid status -> command_ok (sorted_dict c) router action rid status.
Proof.
  intros [Hr Ha Hs Hp Hn]. split; rewrite ?get_sorted by done; rewrite ?Hr, ?Ha, ?Hs; try done.
  - by apply payload_sorted.
  - by apply nodup_sorted.
Qed.

Lemma reload_inv rows : queue_inv rows -> queue_inv (List.map sorted_dict rows).
Proof.
  intros [Hok Hn]. split.
  - apply List.Forall_map, (Forall_impl _ _ _ Hok). intros c (r & a & i & st & Hc). eauto 10 using command_sorted.
  - refine (settles_unique rows _ _ Hn). clear Hn. induction Hok as [|c rows (r & a & i & st & Hc) Hok IH]; [constructor|].
    constructor; [|done]. left. by rewrite (active_key_ok _ _ _ _ _ Hc), (active_key_ok _ _ _ _ _ (command_sorted _ _ _ _ _ Hc)).
Qed.

(** ** The queue as a state machine *)

Inductive queue_step : list dict -> list dict -> Prop :=
| step_enqueue now now_text id router action payload rid rows rows' :
    payload_ok action (PDict payload) rid ->
    enqueue now now_text id router action payload (List.map PDict rows) = Ok rows' ->
    queue_step rows rows'
| step_deliver now now_text router room rows rows' sel :
    deliver now now_text router room (List.map PDict rows) = (List.map PDict rows', sel) ->
    queue_step rows rows'
| step_ack acks now now_text rows rows' done :
    result_map (ack_command acks now now_text) (List.map PDict rows) = Ok done ->
    List.map snd done = List.map PDict rows' ->
    queue_step rows rows'
| step_reload rows : queue_step rows (List.map sorted_dict rows).

Inductive queue_reachable : list dict -> Prop :=
| reach_empty : queue_reachable []
| reach_step rows rows' : queue_reachable rows -> queue_step rows rows' -> queue_reachable rows'.

Lemma map_PDict_inj l l' : List.map PDict l = List.map PDict l' -> l = l'.
Proof.
  revert l'. induction l as [|x l IH]; intros [|y l'] He; try discriminate; [done|].
  injection He as -> He. f_equal. by apply IH.
Qed.

Lemma snd_combine {A B} (l : list A) (m : list B) :
  List.length l = List.length m -> List.map snd (List.combine l m) = m.
Proof. revert m. induction l as [|x l IH]; intros [|y m] Hl; try discriminate; simpl; [done|]. f_equal. apply IH. by injection Hl. Qed.

Lemma queue_step_inv rows rows' : queue_inv rows -> queue_step rows rows' -> queue_inv rows'.
Proof.
  intros Hi. destruct 1 as [? ? ? ? ? ? ? ? ? Hp He|? ? ? ? ? ? ? He|? ? ? ? ? ? He Hm|].
  - by eapply enqueue_inv.
  - assert (rows' = deliver_dicts now now_text router room rows) as ->; [|by apply deliver_inv].
    apply map_PDict_inj. rewrite <- deliver_rows. by rewrite He.
  - destruct (ack_rows acks now now_text rows) as (flags & Hr & Hl). rewrite Hr in He. injection He as <-.
    rewrite snd_combine in Hm by (rewrite Hl, !List.length_map; done).
    apply map_PDict_inj in Hm as <-. by apply acked_inv.
  - by apply reload_inv.
Qed.

(** C1. However commands are queued, delivered, acknowledged and reloaded from the store, a
    router never has two active commands of one action for one rule. *)
Theorem one_active_command rows : queue_reachable rows -> List.NoDup (active_keys rows).
Proof.
  intros Hr. enough (queue_inv rows) as [_ Hn] by done.
  induction Hr as [|rows rows' Hr IH Hs]; [split; constructor|]. by eapply queue_step_inv.
Qed.

(** Two rules are queued, and a poll delivers the first. *)
Definition queued_rows : list dict :=
  catch (rows ← enqueue 0 "t" "c1" "BE72" "stop" (id_payload "r1") [];
         enqueue 1 "t" "c2" "BE72" "delete" (id_payload "r2") (List.map PDict rows)) [].

Lemma id_payload_ok id : payload_ok "stop" (PDict (id_payload id)) (clean_str id) /\
                         payload_ok "delete" (PDict (id_payload id)) (clean_str id).
Proof.
  split; (exists (id_payload id); split; [done|]; split; [repeat constructor; intros []|]; by exists id).
Qed.

Lemma queued_rows_reachable : queue_reachable (deliver_dicts 2 "t" "BE72" 1 queued_rows).
Proof.
  eapply reach_step; [eapply reach_step; [eapply reach_step; [constructor|]|]|].
  - eapply (step_enqueue 0 "t" "c1" "BE72" "stop" (id_payload "r1")); [apply id_payload_ok|vm_compute; reflexivity].
  - eapply (step_enqueue 1 "t" "c2" "BE72" "delete" (id_payload "r2")); [apply id_payload_ok|].
    instantiate (1 := queued_rows). vm_compute. reflexivity.
  - eapply (step_deliver 2 "t" "BE72" 1). rewrite <- deliver_rows. apply surjective_pairing.
Qed.

Lemma one_active_command_witness :
  active_keys (deliver_dicts 2 "t" "BE72" 1 queued_rows) = [("BE72", "stop", "r1"); ("BE72", "delete", "r2")]
  /\ List.NoDup (active_keys (deliver_dicts 2 "t" "BE72" 1 queued_rows)).
Proof.
  split; [vm_compute; reflexivity|]. exact (one_active_command _ queued_rows_reachable).
Defined.

(** ** The handlers take queue steps *)

Section Handlers.
Context {S : Type} `{DocStoreLaws S} {tz : TimeZone} (E : env).

Definition stored_commands (w : world S) : pyval :=
  commands_of (default empty_commands (doc_read "portmap_commands.json" (w_docs w))).

(** The stored queue is these commands. *)
Definition queue_is (w : world S) (rows : list dict) : Prop := stored_commands w = PList (List.map PDict rows).

Definition plain_rows (rows : list dict) : Prop := Forall (fun c => plain (PDict c)) rows.

Lemma plain_commands_doc rows : plain_rows rows -> plain (commands_doc (List.map PDict rows)).
Proof.
  intros Hp. unfold commands_doc. constructor; [repeat constructor; intros []|].
  constructor; [|constructor]. constructor. by apply List.Forall_map.
Qed.

(** Saving rows: nothing changes, or the queue is the saved rows. *)
Lemma save_commands rows w r w' :
  plain_rows rows -> save_json "portmap_commands.json" (commands_doc (List.map PDict rows)) w = (r, w') ->
  (is_ok r = false /\ w' = w) \/ (r = Ok tt /\ queue_is w' (List.map sorted_dict rows)).
Proof.
  intros Hp Hs. destruct r as [[]|e].
  - right. split; [done|]. unfold queue_is, stored_commands.
    rewrite (save_json_read "portmap_commands.json" _ w w' eq_refl (plain_commands_doc rows Hp) Hs). simpl.
    by rewrite !List.map_map.
  - left. split; [done|]. unfold save_json in Hs. destruct (doc_save _ _ _ _) as [[]|]; congruence.
Qed.

Lemma save_commands_frame rows w r w' :
  plain_rows rows -> save_json "portmap_commands.json" (commands_doc (List.map PDict rows)) w = (r, w') ->
  (doc_ok (w_docs w) -> doc_ok (w_docs w')) /\ w_ms w' = w_ms w.
Proof.
  intros Hp. unfold save_json. cbn [str_in existsb].
  change (str_in "portmap_commands.json" ["state.json"; "devices.json"]) with false. cbv beta iota zeta.
  destruct (doc_save _ _ _ _) as [[s' rev]|] eqn:Es; intros [= <- <-]; [|done]. split; [|done].
  intros Hd. exact (doc_save_ok _ _ _ _ _ _ (plain_commands_doc rows Hp) Hd Es).
Qed.

Lemma stored_commands_plain w rows : doc_ok (w_docs w) -> queue_is w rows -> plain_rows rows.
Proof.
  intros Hd. unfold queue_is, stored_commands.
  destruct (doc_read "portmap_commands.json" (w_docs w)) as [v|] eqn:Ev.
  - pose proof (json_ok_plain _ (doc_read_ok _ _ _ Hd Ev)) as Hv. simpl.
    destruct v as [| | | | | |d]; simpl; intros Heq;
      try (injection Heq as Heq; symmetry in Heq; destruct rows; [constructor|discriminate]).
    assert (plain (get_or d "commands" (PList []))) as Hg.
    { unfold get_or. destruct (dget d "commands") as [x|] eqn:Ex; [|by repeat constructor].
      replace x with (get d "commands") by (unfold get; by rewrite Ex). by apply plain_get. }
    rewrite Heq in Hg. inversion Hg as [| | | |l Hl|]; subst. exact (proj1 (List.Forall_map _ _ _) Hl).
  - simpl. intros Heq. injection Heq as Heq. symmetry in Heq. destruct rows; [constructor|discriminate].
Qed.

Lemma coalesce_rev_plain router action id upd rows c rows' :
  (forall d, plain (PDict d) -> plain (PDict (upd d))) -> plain_rows rows ->
  coalesce_rev router action id upd rows = Ok (Some (c, rows')) -> plain_rows rows'.
Proof.
  intros Hu Hp. revert c rows'. induction Hp as [|x rows Hx Hr IH]; intros c rows'; [done|]. cbn [coalesce_rev].
  intros (hit & _ & Hc)%result_bind_ok. destruct hit.
  - injection Hc as <- <-. constructor; [by apply Hu|done].
  - apply result_bind_ok in Hc as (found & Hf & Hc). destruct found as [[c' rest']|]; [|done].
    injection Hc as <- <-. constructor; [done|]. by eapply IH.
Qed.

Lemma plain_rows_live now rows : plain_rows rows -> plain_rows (live_commands now (List.map PDict rows)).
Proof.
  intros Hp. rewrite live_commands_dicts. apply List.Forall_forall. intros x Hx%last_n_incl.
  apply filter_In in Hx as [Hx _]. by apply (proj1 (List.Forall_forall _ _) Hp).
Qed.

Lemma coalesce_plain router action payload now_text rows c rows' :
  plain (PDict payload) -> plain_rows rows ->
  coalesce router action payload now_text rows = Ok (Some (c, rows')) -> plain_rows rows'.
Proof.
  intros Hpl Hp. unfold coalesce. intros (rid & _ & (found & Hf & Hc)%result_bind_ok)%result_bind_ok.
  destruct found as [[c0 rows0]|]; [|done]. injection Hc as <- <-. apply List.Forall_rev.
  eapply coalesce_rev_plain; [|by apply List.Forall_rev|exact Hf].
  intros d Hpd. unfold refresh_command. repeat (apply plain_dset; [first [exact Hpl|constructor]|]). exact Hpd.
Qed.

Lemma new_command_plain id router action payload now_text now :
  plain (PDict payload) -> plain (PDict (new_command id router action payload now_text now)).
Proof.
  intros Hpl. unfold new_command. constructor; [repeat constructor; simpl; intuition discriminate|].
  repeat (apply List.Forall_cons; [cbn [snd]; first [exact Hpl|constructor]|]). constructor.
Qed.

(** A call that returns has enqueued the command and stored the rows; one that raises left
    the queue alone. *)
Lemma queue_command_enqueue action payload rid router w r w' rows :
  doc_ok (w_docs w) -> queue_is w rows ->
  plain (PDict payload) -> payload_ok action (PDict payload) rid ->
  queue_portmap_command E action payload router w = (r, w') ->
  (is_ok r = false /\ queue_is w' rows)
  \/ exists text id target rows1,
       enqueue (w_ms w / 1000) text id target action payload (List.map PDict rows) = Ok rows1
       /\ plain_rows rows1
       /\ queue_is w' (List.map sorted_dict rows1)
       /\ (forall name, router = Some name -> name <> "" -> target = name).
Proof.
  intros Hd Hq Hpl Hpo. pose proof (stored_commands_plain w rows Hd Hq) as Hrows.
  unfold queue_portmap_command. rewrite prog_bind_eq.
  change (load_portmap_commands w) with (Ok (stored_commands w), w). cbv beta iota. rewrite Hq.
  set (now := w_ms w / 1000). set (now_text := format_datetime (to_local now)).
  rewrite prog_bind_eq. cbn [epoch]. rewrite prog_bind_eq. cbn [lift py_iter].
  rewrite prog_bind_eq.
  change (portmap_router_name E w) with (match portmap_router_name E w with (a, _) => (a, w) end).
  destruct (portmap_router_name E w) as [[name|e] ?]; [|by intros [= <- <-]; left].
  rewrite prog_bind_eq. unfold now_str at 1. cbv beta iota. fold now. fold now_text.
  set (target := match router with Some r => _ | None => _ end). cbv zeta.
  assert (forall n, router = Some n -> n <> "" -> target = n) as Htarget.
  { intros n -> Hn. unfold target, str_or. by apply nonempty_spec in Hn as ->. }
  set (live := live_commands now (List.map PDict rows)).
  assert (plain_rows live) as Hlive by by apply plain_rows_live.
  rewrite prog_bind_eq. unfold lift at 1. cbv beta iota.
  destruct (coalesce target action payload now_text live) as [[[c commands']|]|e] eqn:Ec.
  - pose proof (coalesce_plain _ _ _ _ _ _ _ Hpl Hlive Ec) as Hc.
    rewrite prog_bind_eq. destruct (save_json _ _ w) as [r1 w1] eqn:Es.
    apply (save_commands _ _ _ _ Hc) in Es as [[Hr1 ->]|[-> Hq']].
    + destruct r1; [done|]. intros [= <- <-]. by left.
    + intros [= <- <-]. right. exists now_text, "", target, commands'. unfold enqueue. fold live. by rewrite Ec.
  - rewrite prog_bind_eq. cbn [epoch_ms]. rewrite prog_bind_eq. unfold token_hex at 1. cbv beta iota.
    set (w2 := World _ _ _ _ _ _). set (id := "cmd-" +:+ _). set (command := new_command _ _ _ _ _ _).
    assert (plain_rows (live ++ [command])) as Hc.
    { apply Forall_app. split; [done|]. apply List.Forall_cons; [by apply new_command_plain|constructor]. }
    rewrite prog_bind_eq. destruct (save_json _ _ w2) as [r1 w1] eqn:Es.
    apply (save_commands _ _ _ _ Hc) in Es as [[Hr1 ->]|[-> Hq']].
    + destruct r1; [done|]. intros [= <- <-]. by left.
    + intros [= <- <-]. right. exists now_text, id, target, (live ++ [command]). unfold enqueue. fold live. by rewrite Ec.
  - intros [= <- <-]. by left.
Qed.

(** The store stays readable. *)
Lemma queue_command_frame action payload rid router w r w' rows :
  doc_ok (w_docs w) -> queue_is w rows ->
  plain (PDict payload) -> payload_ok action (PDict payload) rid ->
  queue_portmap_command E action payload router w = (r, w') ->
  doc_ok (w_docs w') /\ w_ms w' = w_ms w.
Proof.
  intros Hd Hq Hpl Hpo. pose proof (stored_commands_plain w rows Hd Hq) as Hrows.
  unfold queue_portmap_command. rewrite prog_bind_eq.
  change (load_portmap_commands w) with (Ok (stored_commands w), w). cbv beta iota. rewrite Hq.
  rewrite prog_bind_eq. cbn [epoch]. rewrite prog_bind_eq. cbn [lift py_iter].
  rewrite prog_bind_eq.
  change (portmap_router_name E w) with (match portmap_router_name E w with (a, _) => (a, w) end).
  destruct (portmap_router_name E w) as [[name|e] ?]; [|by intros [= <- <-]].
  rewrite prog_bind_eq. unfold now_str at 1. cbv beta iota zeta.
  rewrite prog_bind_eq. unfold lift at 1. cbv beta iota.
  pose proof (plain_rows_live (w_ms w / 1000) rows Hrows) as Hlive.
  destruct (coalesce _ _ _ _ _) as [[[c commands']|]|e] eqn:Ec; [| |by intros [= <- <-]].
  - rewrite prog_bind_eq. destruct (save_json _ _ w) as [r1 w1] eqn:Es. intros Hr.
    assert (w' = w1) as -> by (by destruct r1; injection Hr).
    apply save_commands_frame in Es as [? ?]; [auto|].
    eapply coalesce_plain; [exact Hpl|exact Hlive|exact Ec].
  - rewrite prog_bind_eq. cbn [epoch_ms]. rewrite prog_bind_eq. unfold token_hex at 1. cbv beta iota.
    set (w2 := World _ _ _ _ _ _). rewrite prog_bind_eq. destruct (save_json _ _ w2) as [r1 w1] eqn:Es. intros Hr.
    assert (w' = w1) as -> by (by destruct r1; injection Hr).
    apply save_commands_frame in Es as [? ?]; [auto|].
    apply Forall_app. split; [done|]. apply List.Forall_cons; [by apply new_command_plain|constructor].
Qed.

(** Queueing a command takes one queue step and a reload, or leaves the queue alone. *)
Lemma queue_command_steps action payload rid router w r w' rows :
  doc_ok (w_docs w) -> queue_is w rows ->
  plain (PDict payload) -> payload_ok action (PDict payload) rid ->
  queue_portmap_command E action payload router w = (r, w') ->
  exists rows', queue_is w' rows' /\ rtc queue_step rows rows'.
Proof.
  intros Hd Hq Hpl Hpo Hr.
  destruct (queue_command_enqueue _ _ _ _ _ _ _ _ Hd Hq Hpl Hpo Hr) as [[_ ?]|(text & id & target & rows1 & He & _ & Hq' & _)].
  - exists rows. by split.
  - exists (List.map sorted_dict rows1). split; [done|]. eapply rtc_l; [|apply rtc_once, step_reload].
    by eapply step_enqueue.
Qed.

Lemma deliver_plain now now_text router room rows :
  plain_rows rows -> plain_rows (deliver_dicts now now_text router room rows).
Proof.
  intros Hp. pose proof (deliver_pointwise now now_text router room rows) as Hd. revert Hp.
  induction Hd as [|c c' rows rows' Hc Hr IH]; [done|]. inversion 1; subst. constructor; [|by apply IH].
  destruct Hc as [->|[_ ->]]; [done|]. unfold mark_delivered.
  repeat (apply plain_dset; [constructor|]). done.
Qed.

Lemma acked_plain acks now now_text rows :
  plain (PDict acks) -> plain_rows rows -> plain_rows (List.map (acked acks now now_text) rows).
Proof.
  intros Ha Hp. apply List.Forall_map, (Forall_impl _ _ _ Hp). intros c Hc. unfold acked.
  pose proof (plain_get acks (clean_saved_value (get c "id")) Ha) as Hg.
  destruct (get acks _) as [| | | | | |[|x d]]; try done. unfold finish_command.
  repeat (apply plain_dset; [first [by apply plain_get|constructor]|]). done.
Qed.

Lemma acks_plain acks : Forall plain acks -> plain (PDict (ack_map acks)).
Proof.
  intros Ha. apply plain_dict_of. induction Ha as [|v acks Hv _ IH]; [constructor|]. destruct v; try exact IH. by constructor.
Qed.

End Handlers.

(** ** How often and how fast a command is handed out *)

(** The times at which row [i] is handed out over a series of polls, each a time and its
    text. *)
Fixpoint handouts (router : string) (room i : nat) (polls : list (Z * string)) (rows : list dict) : list Z :=
  match polls with
  | [] => []
  | (now, text) :: polls' =>
      let rows' := deliver_dicts now text router room rows in
      let served := match rows !! i, rows' !! i with
                    | Some c, Some c' => negb (same (PDict c) (PDict c'))
                    | _, _ => false
                    end in
      (if served then [now] else []) ++ handouts router room i polls' rows'
  end.

Definition sane_times (polls : list (Z * string)) : Prop := Forall (fun p => 0 <= p.1 < 2 ^ 63) polls.

(** Each time is at least fifteen seconds after the one before. *)
Fixpoint spaced (last : Z) (times : list Z) : Prop :=
  match times with
  | [] => True
  | t :: times' => last + retry_after <= t /\ spaced t times'
  end.

Lemma small_to_int n d : 0 <= n < 2 ^ 63 + 10 -> to_int (PInt n) d = n.
Proof.
  intros Hn. unfold to_int. change (py_str (PInt n)) with (int_str n).
  rewrite int_of_str_int_str; [done|]. apply small_printable. assert (2 ^ 63 + 10 < 2 ^ 1024) by reflexivity. lia.
Qed.

(** A poll leaves row [i] alone, or delivers it when it is due. *)
Lemma deliver_lookup now text router room rows i c :
  rows !! i = Some c ->
  deliver_dicts now text router room rows !! i = Some c
  \/ (handed now router c = true /\ deliver_dicts now text router room rows !! i = Some (mark_delivered now text c)).
Proof.
  intros Hi. pose proof (deliver_pointwise now text router room rows) as Hp.
  destruct (Forall2_lookup_l _ _ _ _ _ Hp Hi) as (c' & Hi' & [->|[Hh ->]]); auto.
Qed.

Lemma same_refl v : same v v = true.
Proof. by apply same_spec. Qed.

(** A command that is done or failed is never handed out again, whatever polls follow. *)
Theorem finished_never_handed_out router room i polls rows c status :
  rows !! i = Some c -> get c "status" = PStr status -> status = "done" \/ status = "failed" ->
  handouts router room i polls rows = [].
Proof.
  intros Hi Hs Hst. revert rows Hi. induction polls as [|[now text] polls IH]; intros rows Hi; [done|]. cbn [handouts].
  destruct (deliver_lookup now text router room rows i c Hi) as [Hi'|[Hh _]].
  - rewrite Hi, Hi', same_refl. by rewrite (IH _ Hi').
  - exfalso. revert Hh. unfold handed, deliverable. rewrite !(field_is_str _ _ _ _ Hs).
    destruct Hst as [-> | ->]; simpl; by rewrite andb_false_r.
Qed.

(** After a delivery at [t] with [n] attempts, at most [5 - n] follow, well apart. *)
Lemma delivered_handouts router room i polls rows c n t :
  sane_times polls -> rows !! i = Some c -> get c "status" = PStr "delivered" ->
  get c "attempts" = PInt n -> 0 <= n <= 5 -> get c "deliveredEpoch" = PInt t -> 0 <= t < 2 ^ 63 ->
  (List.length (handouts router room i polls rows) <= Z.to_nat (5 - n))%nat
  /\ spaced t (handouts router room i polls rows).
Proof.
  intros Hp. revert rows c n t. induction Hp as [|[now text] polls Hnow Hp IH]; intros rows c n t Hi Hs Ha Hn Hd Ht;
    [split; [simpl; lia|done]|]. cbn [handouts]. simpl in Hnow.
  destruct (deliver_lookup now text router room rows i c Hi) as [Hi'|[Hh Hi']].
  - rewrite Hi, Hi', same_refl. simpl. by apply (IH _ c n t).
  - assert (t + retry_after <= now /\ n < 5) as [Hdue Hlt].
    { revert Hh. unfold handed, deliverable. rewrite !(field_is_str _ _ _ _ Hs), Hd, Ha, !small_to_int by lia.
      unfold max_attempts. simpl. intros [_ Hx]%andb_prop. to_prop. lia. }
    set (c' := mark_delivered now text c) in *.
    assert (get c' "attempts" = PInt (n + 1)) as Ha'.
    { unfold c', mark_delivered. by rewrite get_dset_eq, Ha, small_to_int by lia. }
    assert (get c' "deliveredEpoch" = PInt now) as Hd'.
    { unfold c', mark_delivered. by rewrite get_dset_ne, get_dset_eq by done. }
    assert (get c' "status" = PStr "delivered") as Hs'.
    { unfold c', mark_delivered. by rewrite !get_dset_ne, get_dset_eq by done. }
    destruct (IH _ c' (n + 1) now Hi' Hs' Ha' ltac:(lia) Hd' Hnow) as [Hl Hsp].
    rewrite Hi, Hi'. assert (same (PDict c) (PDict c') = false) as ->.
    { apply not_true_iff_false. intros Hc%same_spec. injection Hc as Hc. rewrite <- Hc, Ha in Ha'.
      injection Ha' as Ha'. lia. }
    cbn [negb app List.length]. split; [lia|]. split; [exact Hdue|exact Hsp].
Qed.

(** Between two refreshes a command is handed out at most five times, and each time at
    least fifteen seconds after the one before. *)
Theorem handed_out_at_most_five_times router room i polls rows id name action payload text now :
  sane_times polls -> rows !! i = Some (new_command id name action payload text now) ->
  (List.length (handouts router room i polls rows) <= 5)%nat
  /\ spaced (hd 0 (handouts router room i polls rows) - retry_after) (handouts router room i polls rows).
Proof.
  set (c := new_command id name action payload text now).
  intros Hp. revert rows. induction Hp as [|[t tx] polls Hnow Hp IH]; intros rows Hi; [split; [simpl; lia|done]|].
  cbn [handouts]. simpl in Hnow. destruct (deliver_lookup t tx router room rows i c Hi) as [Hi'|[Hh Hi']].
  - rewrite Hi, Hi', same_refl. simpl. by apply IH.
  - destruct (delivered_handouts router room i polls _ (mark_delivered t tx c) 1 t Hp Hi') as [Hl Hsp]; try done.
    rewrite Hi, Hi'. assert (same (PDict c) (PDict (mark_delivered t tx c)) = false) as ->.
    { apply not_true_iff_false. intros Hc%same_spec.
      apply (f_equal (fun v => get (dict_or_empty v) "attempts")) in Hc. vm_compute in Hc. discriminate. }
    cbn [negb app List.length hd]. split; [simpl in Hl; lia|]. split; [lia|exact Hsp].
Qed.

Definition ten_polls : list (Z * string) := List.map (fun k => (1000 + 10 * Z.of_nat k, "t")) (seq 0 20).
Definition one_command : list dict := [new_command "c1" "BE72" "stop" (id_payload "r1") "t" 900].

Lemma ten_polls_sane : sane_times ten_polls.
Proof.
  assert (forallb (fun p => (0 <=? p.1) && (p.1 <? 2 ^ 63)) ten_polls = true) as Hf by (vm_compute; reflexivity).
  rewrite forallb_forall in Hf. apply List.Forall_forall. intros x Hx. specialize (Hf x Hx). to_prop. lia.
Qed.

Lemma handed_out_at_most_five_times_witness :
  handouts "BE72" 20 0 ten_polls one_command = [1000; 1020; 1040; 1060; 1080]
  /\ (List.length (handouts "BE72" 20 0 ten_polls one_command) <= 5)%nat.
Proof.
  split; [vm_compute; reflexivity|].
  exact (proj1 (handed_out_at_most_five_times "BE72" 20 0 ten_polls one_command "c1" "BE72" "stop" (id_payload "r1") "t" 900
                  ten_polls_sane eq_refl)).
Defined.

Lemma finished_never_handed_out_witness :
  handouts "BE72" 20 0 ten_polls (List.map (acked (ack_map [PDict [("id", PStr "c1"); ("ok", PBool true)]]) 950 "t") one_command) = [].
Proof.
  apply (finished_never_handed_out "BE72" 20 0 ten_polls _
           (finish_command [("id", PStr "c1"); ("ok", PBool true)] 950 "t" (new_command "c1" "BE72" "stop" (id_payload "r1") "t" 900))
           "done"); [reflexivity|reflexivity|by left].
Defined.

(** A poll hands out the oldest commands of the router that are due, up to the limit, and
    changes no other command. *)
Theorem poll_hands_out_oldest now text router room rows :
  (0 < room)%nat ->
  (deliver now text router room (List.map PDict rows)).2
    = List.map (fun c => delivered_view (mark_delivered now text c)) (firstn room (List.filter (handed now router) rows))
  /\ exists rows', (deliver now text router room (List.map PDict rows)).1 = List.map PDict rows'
     /\ Forall2 (fun c c' => c' = c \/ (handed now router c = true /\ c' = mark_delivered now text c)) rows rows'.
Proof.
  intros Hroom. split; [by apply deliver_selected|].
  exists (deliver_dicts now text router room rows). split; [apply deliver_rows|apply deliver_pointwise].
Qed.

Lemma poll_hands_out_oldest_witness :
  (deliver 1000 "t" "BE72" 1 (List.map PDict (one_command ++ one_command))).2
  = [[("id", PStr "c1"); ("action", PStr "stop"); ("payload", PDict (id_payload "r1")); ("createdAt", PStr "t")]].
Proof. apply (poll_hands_out_oldest 1000 "t" "BE72" 1 (one_command ++ one_command)). lia. Defined.

(** ** The order of coalesced commands *)

Definition enqueue_all (router : string) (cmds : list (string * dict)) : result (list dict) :=
  result_fold (fun rows cmd => enqueue 1000 "t" ("c" +:+ nat_str (Z.of_nat (List.length rows))) router cmd.1 cmd.2
                                 (List.map PDict rows)) [] cmds.

(** Start, stop and start again, before the router polls: the second start is merged into
    the first command, which stays ahead of the stop.  The router receives the start and then
    the stop, so it ends with the rule stopped while the APP shows it started. *)
Theorem restart_is_delivered_before_stop (rule : dict) :
  get rule "id" = PStr "r1" ->
  (fun rows => List.map (fun c => get c "action") (deliver 1001 "t" "BE72" 20 (List.map PDict rows)).2)
    <$> enqueue_all "BE72" [("upsert", upsert_payload rule); ("stop", id_payload "r1"); ("upsert", upsert_payload rule)]
  = Ok [PStr "upsert"; PStr "stop"].
Proof.
  intros Hid. unfold enqueue_all, result_fold, enqueue, coalesce, command_rule_id. simpl. rewrite !Hid.
  vm_compute. reflexivity.
Qed.

Lemma restart_is_delivered_before_stop_witness :
  (fun rows => List.map (fun c => get c "action") (deliver 1001 "t" "BE72" 20 (List.map PDict rows)).2)
    <$> enqueue_all "BE72" [("upsert", upsert_payload [("id", PStr "r1")]); ("stop", id_payload "r1");
                            ("upsert", upsert_payload [("id", PStr "r1")])]
  = Ok [PStr "upsert"; PStr "stop"].
Proof. apply (restart_is_delivered_before_stop [("id", PStr "r1")]). reflexivity. Defined.

Definition queue_world : world store :=
  run (save_json "portmap_commands.json" (commands_doc (List.map PDict queued_rows))) demo_world.

