(* ===== verification/PortMapSync.v ===== *)
(** * Reconciliation of a status report

    A router's report is compared with the rules the APP wants.  An unreadable rules document
    leads to no command; a router that already runs the wanted rules is left alone; otherwise
    every missing or different rule has an active upsert and every unwanted one an active
    delete. *)

From S2P Require Import Prelude PyNum PyVal PyIp PyTime HubValues Json Storage Hub Fixtures.
From S2P Require Import AgentCmd PortMap PortMapRules PortMapApi PortMapQueue.

Section Sync.
Context {S : Type} `{DocStoreLaws S} {tz : TimeZone} (E : env).

(** ** No destructive reconciliation *)

(** When the rules document is missing or malformed, a status report queues nothing: in
    particular no rule running on the router is deleted. *)
Theorem unreadable_rules_queue_nothing router payload w r w' :
  rd_loaded (stored_document w) = false -> reconcile E router payload w = (r, w') -> w' = w.
Proof.
  intros Hl. assert (rd_rules (stored_document w) = []) as Hnil.
  { revert Hl. unfold stored_document, read_rules. by repeat case_match. }
  unfold reconcile. rewrite prog_bind_eq.
  change (load_portmap_rules_document w) with (Ok (stored_document w), w). cbv beta iota.
  rewrite prog_bind_eq. unfold lift at 1. destruct (vget payload "rules") as [rows|e]; [|by intros [= _ <-]].
  rewrite prog_bind_eq. unfold lift at 1. destruct (local_map (list_or_empty rows)) as [local|e]; [|by intros [= _ <-]].
  rewrite Hnil, Hl. simpl. by intros [= _ <-].
Qed.

(** ** A synchronized router *)

(** The report of a router: one row per rule it runs. *)
Definition report (rules : list dict) : pyval :=
  PDict [("rules", PList (List.map (fun r => PDict [("rule", PDict r)]) rules))].

(** The local copy of a rule: same id, and equal on the compared fields. *)
Definition same_rule (rule local : dict) : Prop :=
  get local "id" = get rule "id" /\ forall k, In k compare_keys -> py_eq (get local k) (get rule k) = true.

Lemma named_id r : (exists s, get r "id" = PStr s /\ clean_str s <> "") ->
  exists s, get r "id" = PStr s /\ rule_id r = clean_str s /\ nonempty (rule_id r) = true /\ truthy (get r "id") = true.
Proof.
  intros (s & Hs & Hne). exists s. split; [done|]. unfold rule_id. rewrite Hs. split; [done|].
  split; [by apply nonempty_spec|]. simpl. apply nonempty_spec. intros ->. by apply Hne.
Qed.

Lemma local_map_report rules :
  Forall (fun r => exists s, get r "id" = PStr s /\ clean_str s <> "") rules ->
  local_map (list_or_empty (get (dict_or_empty (report rules)) "rules"))
  = Ok (dict_of (List.map (fun r => (rule_id r, PDict r)) rules)).
Proof.
  intros Hn. unfold local_map.
  change (list_or_empty (get (dict_or_empty (report rules)) "rules"))
    with (List.map (fun r => PDict [("rule", PDict r)]) rules).
  assert (forall f, (forall r, In r rules -> f (PDict [("rule", PDict r)]) = Ok (Some (rule_id r, PDict r))) ->
    result_map f (List.map (fun r => PDict [("rule", PDict r)]) rules)
    = Ok (List.map (fun r => Some (rule_id r, PDict r)) rules)) as Hmap.
  { clear Hn. intros f. induction rules as [|r rules IH]; intros Hf; [done|]. simpl.
    rewrite Hf by by left. rewrite IH; [done|]. intros; apply Hf; by right. }
  rewrite Hmap.
  - cbn [mbind result_bind mret result_ret]. unfold dict_of. do 2 f_equal. clear.
    induction rules as [|r rules IH]; [done|]. cbn [List.map omap list_omap]. by rewrite <- IH.
  - intros r Hr. destruct (named_id r (proj1 (List.Forall_forall _ _) Hn r Hr)) as (s & Hs & Hid & Hne & Ht).
    change (dict_or_empty (get [("rule", PDict r)] "rule")) with r. unfold row_rule_id. rewrite Ht. simpl.
    fold (rule_id r). by rewrite Hne.
Qed.

Lemma dict_of_ids (rules : list dict) k v :
  dget (dict_of (List.map (fun r => (rule_id r, PDict r)) rules)) k = Some v ->
  exists r, In r rules /\ rule_id r = k /\ v = PDict r.
Proof.
  unfold dict_of, dupdate.
  assert (forall acc, dget (fold_left (fun acc kv => dset kv.1 kv.2 acc) (List.map (fun r => (rule_id r, PDict r)) rules) acc) k = Some v ->
    (exists r, In r rules /\ rule_id r = k /\ v = PDict r) \/ dget acc k = Some v) as Hgen.
  { induction rules as [|r rules IH]; intros acc; simpl; [auto|]. intros [(r' & ? & ?)|Ha]%IH; [naive_solver|].
    rewrite dget_dset in Ha. destruct (String.eqb_spec (rule_id r) k) as [<-|]; [|by right].
    injection Ha as <-. left. exists r. auto. }
  intros [?|?]%Hgen; [done|discriminate].
Qed.

Lemma desired_map_rules rules :
  Forall (fun r => exists s, get r "id" = PStr s /\ clean_str s <> "") rules ->
  desired_map rules = dict_of (List.map (fun r => (rule_id r, PDict r)) rules).
Proof.
  intros Hn. unfold desired_map. f_equal. induction Hn as [|r rules Hr Hn IH]; [done|].
  cbn [omap list_omap List.map]. destruct (named_id r Hr) as (s & _ & _ & -> & _). by rewrite IH.
Qed.

(** Wanted rules and local ones that match them, position by position. *)
Section Matched.
Context (R : dict -> dict -> Prop) (R_id : forall r l, R r l -> get l "id" = get r "id").

Definition matched_at (o o' : option pyval) : Prop :=
  match o, o' with
  | Some (PDict r), Some (PDict l) => R r l
  | None, None => True
  | _, _ => False
  end.

Lemma keys_dict_of_ids rules locals :
  Forall2 R rules locals ->
  forall acc acc', keys acc = keys acc' -> (forall k, matched_at (dget acc k) (dget acc' k)) ->
  let d := fold_left (fun acc kv => dset kv.1 kv.2 acc) (List.map (fun r => (rule_id r, PDict r)) rules) acc in
  let d' := fold_left (fun acc kv => dset kv.1 kv.2 acc) (List.map (fun r => (rule_id r, PDict r)) locals) acc' in
  keys d = keys d' /\ forall k, matched_at (dget d k) (dget d' k).
Proof.
  induction 1 as [|r l rules locals Hrl Hr IH]; intros acc acc' Hk Hv; [done|]. simpl.
  assert (rule_id l = rule_id r) as Hid by (unfold rule_id; by rewrite (R_id r l Hrl)).
  rewrite Hid. apply IH.
  - rewrite !keys_dset. unfold has. specialize (Hv (rule_id r)). rewrite Hk. unfold matched_at in Hv.
    destruct (dget acc (rule_id r)) as [[]|], (dget acc' (rule_id r)) as [[]|]; done.
  - intros k. rewrite !dget_dset. destruct (String.eqb (rule_id r) k); [done|apply Hv].
Qed.

Lemma matched_maps rules locals :
  Forall2 R rules locals ->
  let d := dict_of (List.map (fun r => (rule_id r, PDict r)) rules) in
  let d' := dict_of (List.map (fun r => (rule_id r, PDict r)) locals) in
  unwanted d d' = []
  /\ forall k v, In (k, v) d -> exists r l, v = PDict r /\ In r rules /\ dget d' k = Some (PDict l) /\ R r l.
Proof.
  intros Hs. destruct (keys_dict_of_ids rules locals Hs [] [] eq_refl (fun _ => I)) as [Hk Hv].
  fold (dupdate [] (List.map (fun r => (rule_id r, PDict r)) rules)) in Hk, Hv.
  fold (dupdate [] (List.map (fun r => (rule_id r, PDict r)) locals)) in Hk, Hv.
  cbv zeta. unfold dict_of. set (d := dupdate [] (List.map _ rules)) in *. set (d' := dupdate [] (List.map _ locals)) in *.
  split.
  - unfold unwanted. rewrite <- Hk. clear Hv Hk. assert (forall k, In k (keys d) -> has d k = true) as Hh.
    { intros k Hk. unfold has. destruct (dget d k) eqn:Ek; [done|]. by apply dget_None_keys in Ek. }
    revert Hh. generalize (keys d) as ks. intros ks. induction ks as [|k ks IH]; intros Hh; [done|]. simpl.
    rewrite Hh by by left. apply IH. intros; apply Hh; by right.
  - intros k v Hin%In_dget; [|apply nodup_dict_of]. specialize (Hv k). rewrite Hin in Hv.
    destruct (dict_of_ids rules k v Hin) as (r & Hr & _ & ->). cbn [matched_at] in Hv.
    destruct (dget d' k) as [[| | | | | |l]|]; try done. by exists r, l.
Qed.
End Matched.

Lemma omap_nothing {A B} (f : A -> option B) (l : list A) : (forall x, In x l -> f x = None) -> omap f l = [].
Proof.
  induction l as [|x l IH]; intros Hf; [done|]. cbn [omap list_omap]. rewrite Hf by by left.
  apply IH. intros; apply Hf; by right.
Qed.

(** A router that reports exactly the wanted rules, field by field, gets no command: the
    report changes nothing. *)
Theorem synchronized_router_is_left_alone router locals w :
  rules_inv (stored_rules w) -> Forall2 same_rule (stored_rules w) locals ->
  reconcile E router (report locals) w = (Ok tt, w).
Proof.
  intros Hi Hs. pose proof (ri_named _ Hi) as Hnr.
  assert (Forall (fun r => exists s, get r "id" = PStr s /\ clean_str s <> "") locals) as Hnl.
  { clear Hi. induction Hs as [|r l rules locals [Hid _] Hs IH]; [constructor|].
    inversion Hnr as [|? ? (s & Hr & Hne) Hnr']; subst. constructor; [|by apply IH].
    exists s. by rewrite Hid. }
  unfold reconcile. rewrite prog_bind_eq.
  change (load_portmap_rules_document w) with (Ok (stored_document w), w). cbv beta iota zeta.
  fold (stored_rules w). rewrite prog_bind_eq. unfold lift at 1. cbn [vget report].
  rewrite prog_bind_eq. unfold lift at 1.
  change (get _ "rules") with (get (dict_or_empty (report locals)) "rules").
  rewrite (local_map_report locals Hnl), (desired_map_rules _ Hnr). cbv beta iota.
  destruct (matched_maps same_rule (fun r l H => proj1 H) _ _ Hs) as [-> Hm].
  assert (wanted_upserts (dict_of (List.map (fun r => (rule_id r, PDict r)) (stored_rules w)))
            (dict_of (List.map (fun r => (rule_id r, PDict r)) locals)) = []) as ->.
  { apply omap_nothing. intros [k v] (r & l & -> & Hr & Hl & Hid & He)%Hm. cbn [fst snd]. unfold get at 1.
    rewrite Hl. cbn [default dict_or_empty]. unfold differs. destruct l as [|x l].
    - destruct (proj1 (List.Forall_forall _ _) Hnr r Hr) as (s & Hs' & _). by rewrite Hs' in Hid.
    - destruct (existsb _ compare_keys) eqn:Hx; [|done]. apply existsb_exists in Hx as (k' & Hk' & Hne).
      by rewrite He in Hne. }
  simpl. by destruct (rd_loaded (stored_document w)).
Qed.

(** ** A router that differs *)

Lemma active_keys_filter now rows :
  commands_ok rows -> active_keys (List.filter (fun c => negb (expired now c)) rows) = active_keys rows.
Proof.
  induction 1 as [|c rows (r & a & i & st & Hc) Hrows IH]; [done|]. cbn [List.filter].
  destruct (expired now c) eqn:Ee; simpl; unfold active_keys in *; cbn [omap list_omap]; rewrite IH; [|done].
  rewrite (active_key_ok _ _ _ _ _ Hc). destruct (is_active st) eqn:Es; [|done]. exfalso. revert Ee.
  unfold expired. destruct Hc as [_ _ -> _ _]. unfold py_in. simpl. unfold is_active, str_in in Es. simpl in Es.
  destruct (String.eqb_spec st "pending") as [->|]; [done|]. by destruct (String.eqb_spec st "delivered") as [->|].
Qed.

Lemma active_keys_sorted rows : commands_ok rows -> active_keys (List.map sorted_dict rows) = active_keys rows.
Proof.
  induction 1 as [|c rows (r & a & i & st & Hc) Hrows IH]; [done|]. unfold active_keys in *.
  cbn [List.map omap list_omap]. rewrite IH.
  by rewrite (active_key_ok _ _ _ _ _ Hc), (active_key_ok _ _ _ _ _ (command_sorted _ _ _ _ _ Hc)).
Qed.

(** With room in the queue, enqueueing adds exactly the command's key. *)
Lemma enqueue_keys now text id router action payload rid rows rows1 :
  queue_inv rows -> (List.length rows <= queue_cap)%nat -> payload_ok action (PDict payload) rid ->
  enqueue now text id router action payload (List.map PDict rows) = Ok rows1 ->
  (List.length rows1 <= 1 + List.length rows)%nat /\
  forall k, In k (active_keys rows1) <-> In k (active_keys rows) \/ k = (router, action, rid).
Proof.
  intros [Hok Hn] Hl Hp. unfold enqueue, coalesce. rewrite live_commands_dicts.
  assert (List.length (List.filter (fun c => negb (expired now c)) rows) <= List.length rows)%nat as Hfl
    by apply List.filter_length_le.
  rewrite last_n_all by lia. set (live := List.filter _ rows) in *.
  assert (commands_ok live) as Hlok.
  { apply List.Forall_forall. intros c [Hc _]%filter_In. by apply (proj1 (List.Forall_forall _ _) Hok). }
  rewrite <- (active_keys_filter now rows Hok). fold live.
  rewrite (payload_rule_id _ _ _ Hp). cbn [mbind result_bind].
  destruct (coalesce_rev_spec router action rid (refresh_command payload text) (rev live)) as
    [[-> Hnew]|(a & c & b & Hrows & -> & st & Hc & Hst)]; [by apply List.Forall_rev| |];
    cbn [mbind result_bind mret result_ret]; intros Heq; injection Heq as <-.
  - rewrite length_app. split; [simpl; lia|]. intros k. rewrite active_keys_app, in_app_iff.
    unfold active_keys at 2. cbn [omap list_omap].
    rewrite (active_key_ok _ _ _ _ _ (new_command_ok id router action payload text now rid Hp)). simpl. intuition auto.
  - pose proof (refresh_ok _ _ _ _ _ _ text Hc Hp) as Hc'.
    assert (Permutation (active_keys (a ++ refresh_command payload text c :: b)) (active_keys live)) as Hperm.
    { rewrite <- (active_keys_rev live), Hrows, !active_keys_app. unfold active_keys at 2 4. cbn [omap list_omap].
      by rewrite (active_key_ok _ _ _ _ _ Hc), (active_key_ok _ _ _ _ _ Hc'), Hst. }
    split.
    + rewrite length_rev, length_app. simpl. assert (List.length (rev live) = List.length live) as Hr by apply length_rev.
      rewrite Hrows, length_app in Hr. simpl in Hr. lia.
    + intros k. rewrite active_keys_rev, Hperm. split; [auto|]. intros [?| ->]; [done|].
      rewrite <- (active_keys_rev live), Hrows, active_keys_app. apply in_app_iff. right.
      unfold active_keys. cbn [omap list_omap]. rewrite (active_key_ok _ _ _ _ _ Hc), Hst. by left.
Qed.

(** The state in which a series of commands is queued. *)
Record queue_ready (w : world S) (rows : list dict) : Prop := {
  qr_docs : doc_ok (w_docs w);
  qr_rows : queue_is w rows;
  qr_inv : queue_inv rows;
}.

(** A series of commands for one router: action, payload and rule id. *)
Lemma queue_series router (cmds : list (string * dict * string)) w w' rows :
  router <> "" -> queue_ready w rows -> (List.length rows + List.length cmds <= queue_cap)%nat ->
  Forall (fun c => plain (PDict c.1.2) /\ payload_ok c.1.1 (PDict c.1.2) c.2) cmds ->
  for_each (fun c => _ ← queue_portmap_command E c.1.1 c.1.2 (Some router); mret tt) cmds w = (Ok tt, w') ->
  exists rows', queue_ready w' rows' /\ (List.length rows' <= List.length rows + List.length cmds)%nat
    /\ forall k, In k (active_keys rows') <-> In k (active_keys rows) \/ exists c, In c cmds /\ k = (router, c.1.1, c.2).
Proof.
  intros Hne Hr Hlen Hc. revert w rows Hr Hlen. induction Hc as [|[[action payload] rid] cmds [Hpl Hpo] Hc IH]; intros w rows Hr Hlen.
  - simpl. intros [= <-]. exists rows. split; [done|]. split; [lia|]. intros k. split; [by left|].
    by intros [?|(? & [] & _)].
  - cbn [for_each]. rewrite prog_bind_eq, prog_bind_eq. cbn [fst snd] in *.
    destruct (queue_portmap_command E action payload (Some router) w) as [[c|e] w1] eqn:Eq; [|done].
    destruct Hr as [Hd Hq Hi].
    destruct (queue_command_enqueue E _ _ _ _ _ _ _ _ Hd Hq Hpl Hpo Eq) as [[? _]|(text & id & target & rows1 & He & Hp1 & Hq1 & Ht)];
      [done|]. rewrite (Ht router eq_refl Hne) in He. clear Ht.
    destruct (queue_command_frame E _ _ _ _ _ _ _ _ Hd Hq Hpl Hpo Eq) as [Hd1 _].
    simpl in Hlen. destruct (enqueue_keys _ _ _ _ _ _ _ _ _ Hi ltac:(lia) Hpo He) as [Hl1 Hk1].
    assert (queue_inv rows1) as Hi1 by by eapply enqueue_inv.
    cbn [mret prog_ret]. intros Hrest.
    destruct (IH w1 (List.map sorted_dict rows1)) as (rows' & Hr' & Hl' & Hk').
    + split; [done|done|by apply reload_inv].
    + rewrite List.length_map. lia.
    + exact Hrest.
    + exists rows'. split; [done|]. rewrite List.length_map in Hl'. split; [simpl; lia|].
      intros k. rewrite Hk', (active_keys_sorted rows1) by apply Hi1. rewrite Hk1. simpl.
      split; [intros [[?| ->]|(c0 & ? & ->)]|intros [?|(c0 & [<-|?] & ->)]]; eauto 10.
Qed.

Definition upsert_cmd (rule : dict) : string * dict * string := ("upsert", upsert_payload rule, rule_id rule).
Definition delete_cmd (id : string) : string * dict * string := ("delete", id_payload id, clean_str id).

Lemma upsert_cmd_ok rule :
  plain (PDict rule) -> (exists s, get rule "id" = PStr s) ->
  plain (PDict (upsert_payload rule)) /\ payload_ok "upsert" (PDict (upsert_payload rule)) (rule_id rule).
Proof.
  intros Hp [s Hs]. split.
  - constructor; [repeat constructor; intros []|]. apply List.Forall_cons; [exact Hp|constructor].
  - exists (upsert_payload rule). split; [done|]. split; [repeat constructor; intros []|].
    exists rule, s. split; [done|]. split; [by apply plain_nodup|]. split; [done|]. unfold rule_id. by rewrite Hs.
Qed.

Lemma delete_cmd_ok id :
  plain (PDict (id_payload id)) /\ payload_ok "delete" (PDict (id_payload id)) (clean_str id).
Proof.
  split; [|apply id_payload_ok]. constructor; [repeat constructor; intros []|].
  apply List.Forall_cons; [constructor|constructor].
Qed.

Lemma for_each_map {A B} (f : B -> hub S unit) (g : A -> B) l w :
  for_each f (List.map g l) w = for_each (fun x => f (g x)) l w.
Proof.
  revert w. induction l as [|x l IH]; intros w; [done|]. cbn [List.map for_each]. rewrite !prog_bind_eq.
  destruct (f (g x) w) as [[]]; [apply IH|done].
Qed.

(** Upserts of stored rules, then deletes: what they add to the queue. *)
Lemma repair_series router upserts deletes w w' rows :
  router <> "" -> portmaps_inv w -> queue_is w rows -> queue_inv rows ->
  (forall r, In r upserts -> In r (stored_rules w)) ->
  (List.length rows + List.length upserts + List.length deletes <= queue_cap)%nat ->
  (_ ← for_each (fun rule => _ ← queue_portmap_command E "upsert" (upsert_payload rule) (Some router); mret tt) upserts;
   for_each (fun id => _ ← queue_portmap_command E "delete" (id_payload id) (Some router); mret tt) deletes) w = (Ok tt, w') ->
  exists rows', queue_is w' rows' /\ forall k,
    In k (active_keys rows') <->
    In k (active_keys rows) \/ (exists r, In r upserts /\ k = (router, "upsert", rule_id r))
    \/ (exists id, In id deletes /\ k = (router, "delete", clean_str id)).
Proof.
  intros Hne Hw Hq Hi Hstored Hlen. rewrite prog_bind_eq.
  pose proof (for_each_map (fun c => _ ← queue_portmap_command E c.1.1 c.1.2 (Some router); mret tt) upsert_cmd upserts w) as Hmap.
  cbn [upsert_cmd fst snd] in Hmap. rewrite <- Hmap. clear Hmap.
  destruct (for_each _ (List.map upsert_cmd upserts) w) as [[[]|e] w1] eqn:E1; [|done].
  apply (queue_series router _ _ _ rows Hne) in E1 as (rows1 & Hr1 & Hl1 & Hk1);
    [|by split; [apply Hw| |]|rewrite List.length_map; lia|].
  2: { apply List.Forall_map, List.Forall_forall. intros rule Hin%Hstored.
       apply upsert_cmd_ok; [by apply (proj1 (List.Forall_forall _ _) (stored_rules_plain w Hw))|].
       destruct (proj1 (List.Forall_forall _ _) (ri_named _ (pi_rules _ Hw)) rule Hin) as (s & Hs & _). eauto. }
  rewrite List.length_map in Hl1.
  pose proof (for_each_map (fun c => _ ← queue_portmap_command E c.1.1 c.1.2 (Some router); mret tt) delete_cmd deletes w1) as Hmap.
  cbn [delete_cmd fst snd] in Hmap. rewrite <- Hmap. clear Hmap. intros E2.
  apply (queue_series router _ _ _ rows1 Hne Hr1) in E2 as (rows2 & Hr2 & _ & Hk2);
    [|rewrite List.length_map; lia|apply List.Forall_map, List.Forall_forall; intros; apply delete_cmd_ok].
  exists rows2. split; [apply Hr2|]. intros k. rewrite Hk2, Hk1.
  setoid_rewrite in_map_iff. unfold upsert_cmd, delete_cmd. naive_solver.
Qed.

Lemma wanted_sound rules local rule :
  Forall (fun r => exists s, get r "id" = PStr s /\ clean_str s <> "") rules ->
  In rule (wanted_upserts (desired_map rules) local) -> In rule rules.
Proof.
  intros Hn Hin. unfold wanted_upserts in Hin. rewrite (desired_map_rules rules Hn) in Hin.
  apply list_elem_of_In, list_elem_of_omap in Hin as ([k v] & Hkv & Hr). apply list_elem_of_In in Hkv.
  apply In_dget in Hkv; [|apply nodup_dict_of].
  destruct (dict_of_ids rules k v Hkv) as (r & Hin & _ & ->). simpl in Hr.
  destruct (differs r _); [|done]. by injection Hr as <-.
Qed.

(** After a status report, the queue holds for every wanted rule the router lacks or runs
    differently an active upsert, for every rule it should not run an active delete, and
    beyond those only what was active before. *)
Theorem report_requests_repairs router p local w w' rows :
  router <> "" -> portmaps_inv w -> queue_is w rows -> queue_inv rows ->
  local_map (list_or_empty (get p "rules")) = Ok local ->
  let upserts := wanted_upserts (desired_map (stored_rules w)) local in
  let deletes := if rd_loaded (stored_document w) then unwanted (desired_map (stored_rules w)) local else [] in
  (List.length rows + List.length upserts + List.length deletes <= queue_cap)%nat ->
  reconcile E router (PDict p) w = (Ok tt, w') ->
  exists rows', queue_is w' rows' /\ forall k,
    In k (active_keys rows') <->
    In k (active_keys rows) \/ (exists r, In r upserts /\ k = (router, "upsert", rule_id r))
    \/ (exists id, In id deletes /\ k = (router, "delete", clean_str id)).
Proof.
  intros Hne Hw Hq Hi Hlocal. cbv zeta. intros Hlen. unfold reconcile. rewrite prog_bind_eq.
  change (load_portmap_rules_document w) with (Ok (stored_document w), w). cbv beta iota zeta.
  fold (stored_rules w). rewrite prog_bind_eq. unfold lift at 1. cbn [vget]. rewrite prog_bind_eq. unfold lift at 1.
  rewrite Hlocal. cbv beta iota. intros Hrun. apply (repair_series router) with (w := w); [done..| |done|].
  - intros r Hr. apply wanted_sound in Hr; [done|apply Hw].
  - by destruct (rd_loaded (stored_document w)).
Qed.
End Sync.

(** ** Concrete reports *)

Lemma unreadable_rules_queue_nothing_witness :
  run (reconcile demo_env "BE72" (PDict [("rules", PList [PDict [("rule", PDict [("id", PStr "r9")])]])])) demo_world
  = demo_world.
Proof.
  eapply (unreadable_rules_queue_nothing demo_env "BE72" _ demo_world); [reflexivity|]. apply surjective_pairing.
Defined.

Lemma synchronized_router_is_left_alone_witness :
  reconcile demo_env "BE72" (report (stored_rules nas_world)) nas_world = (Ok tt, nas_world).
Proof.
  apply (synchronized_router_is_left_alone demo_env "BE72" (stored_rules nas_world) nas_world nas_rule_ok).
  pose proof nas_rule_ok as _.
  assert (forallb (fun r => forallb (fun k => py_eq (get r k) (get r k)) compare_keys) (stored_rules nas_world) = true) as Hf
    by (vm_compute; reflexivity).
  rewrite List.forallb_forall in Hf. revert Hf. generalize (stored_rules nas_world). intros rules Hf.
  induction rules as [|r rules IH]; [constructor|]. constructor; [|apply IH; intros; apply Hf; by right].
  split; [done|]. apply List.forallb_forall. apply Hf. by left.
Defined.

(** The stored rule is not on the router, and the router runs a rule nobody wants. *)
Definition quiet_world : world store := run (save_json "portmap_commands.json" (commands_doc [])) nas_world.
Definition stray_report : dict := [("rules", PList [PDict [("rule", PDict [("id", PStr "r9")])]])].

Lemma quiet_world_inv : portmaps_inv quiet_world.
Proof.
  split.
  - assert (stored_rules quiet_world = stored_rules nas_world) as -> by (vm_compute; reflexivity). exact nas_rule_ok.
  - apply (texts_okb_sound (w_docs quiet_world)). vm_compute. reflexivity.
  - assert (w_ms quiet_world = 1700000001000) as -> by (vm_compute; reflexivity). split; [done|reflexivity].
Qed.

Lemma report_requests_repairs_witness :
  exists rows', queue_is (run (reconcile demo_env "BE72" (PDict stray_report)) quiet_world) rows' /\ forall k,
    In k (active_keys rows') <->
    In k (active_keys []) \/ (exists r, In r (stored_rules quiet_world) /\ k = ("BE72", "upsert", rule_id r))
    \/ (exists id, In id ["r9"] /\ k = ("BE72", "delete", clean_str id)).
Proof.
  pose proof (report_requests_repairs demo_env "BE72" stray_report [("r9", PDict [("id", PStr "r9")])] quiet_world
                (run (reconcile demo_env "BE72" (PDict stray_report)) quiet_world) []) as Hrep.
  cbv zeta in Hrep.
  assert (wanted_upserts (desired_map (stored_rules quiet_world)) [("r9", PDict [("id", PStr "r9")])] = stored_rules quiet_world) as Hu
    by (vm_compute; reflexivity).
  assert (rd_loaded (stored_document quiet_world) = true) as Hl by (vm_compute; reflexivity).
  assert (unwanted (desired_map (stored_rules quiet_world)) [("r9", PDict [("id", PStr "r9")])] = ["r9"]) as Hd
    by (vm_compute; reflexivity).
  rewrite Hu, Hl, Hd in Hrep. apply Hrep.
  - discriminate.
  - exact quiet_world_inv.
  - vm_compute. reflexivity.
  - split; [constructor|constructor].
  - vm_compute. reflexivity.
  - assert (List.length (stored_rules quiet_world) = 1%nat) as -> by (vm_compute; reflexivity). vm_compute. repeat constructor.
  - assert (fst (reconcile demo_env "BE72" (PDict stray_report) quiet_world) = Ok tt) as He by (vm_compute; reflexivity).
    rewrite <- He. apply surjective_pairing.
Defined.
