(* ===== verification/LabRelay.v ===== *)
(** * LabRelay state

    The presence of the Agent on the router, the revisions of its reports, and the handlers
    that replace those of [hub.py] when the Hub starts: [labrelay_sync_patch.py], with the
    port-map part of [hub0934_fixes.py] in front of it.  The frame each report sends to the
    WebSocket clients is not modelled: it goes out under [except Exception] and changes no
    document. *)

From S2P Require Import Prelude PyNum PyVal PyIp PyTime HubValues Json Storage Hub AgentCmd PortMap.

Definition number (v : pyval) : Z := Z.max 0 (to_int v 0).

(** ** Presence *)

Definition online_grace : Z := 12.
Definition stale_grace : Z := 30.

(** The age of the last sign of life, zero when there was none. *)
Definition agent_age (seen now : Z) : Z := if seen =? 0 then 0 else Z.max 0 (now - seen).

Definition agent_state (seen now : Z) : string :=
  if negb (seen =? 0) && (agent_age seen now <=? online_grace) then "online"
  else if negb (seen =? 0) && (agent_age seen now <=? stale_grace) then "stale" else "offline".

Definition same_router (router : string) (runtime : dict) : bool :=
  String.eqb (clean_saved_value (get runtime "router")) router.

(** The last sign of life: a heartbeat, or a runtime report of the same router. *)
Definition last_sign (router : string) (heartbeat runtime : dict) : Z :=
  Z.max (number (get heartbeat "lastSeenEpoch"))
        (if same_router router runtime then number (get runtime "receivedEpoch") else 0).

Definition presence_of (now : Z) (router : string) (heartbeat runtime : dict) : dict :=
  let seen := last_sign router heartbeat runtime in
  let state := agent_state seen now in
  [("router", PStr router); ("agentOnline", PBool (String.eqb state "online")); ("agentState", PStr state);
   ("agentLastSeenAt", PStr (clean_saved_value (por (get heartbeat "lastSeenAt") (get runtime "receivedAt"))));
   ("agentLastSeenEpoch", PInt seen); ("agentAgeSeconds", PInt (agent_age seen now));
   ("agentVersion", PStr (clean_saved_value (get heartbeat "version")));
   ("agentArchitecture", PStr (clean_saved_value (get heartbeat "architecture")));
   ("agentRevision", PInt (Z.max (number (get heartbeat "revision"))
                                 (if same_router router runtime then number (get runtime "presenceRevision") else 0)));
   ("serverTime", PInt now)].

(** ** Reconciliation *)

(** A rule stored before UDP support has no protocol and counts as TCP. *)
Definition compare_value (row : dict) (key : string) : pyval :=
  if String.eqb key "transportProtocol" then PStr (upper (transport (get row key))) else get row key.

Definition rule_differs (rule local_rule : dict) : bool :=
  existsb (fun k => negb (py_eq (compare_value local_rule k) (compare_value rule k))) compare_keys.

Definition local_row (v : pyval) : option (string * pyval) :=
  match v with
  | PDict row =>
      let local_rule := dict_or_empty (get row "rule") in
      let runtime := dict_or_empty (get row "runtime") in
      let rid := clean_saved_value (por (get local_rule "id") (get runtime "id")) in
      if nonempty rid then Some (rid, PDict local_rule) else None
  | _ => None
  end.

(** The router's rules by id. *)
Definition local_rules (rows : list pyval) : dict := dict_of (omap local_row rows).

Definition missing_rules (desired local : dict) : list dict :=
  omap (fun kv => match kv.2 with
                  | PDict rule => if negb (has local kv.1) || rule_differs rule (dict_or_empty (get local kv.1))
                                  then Some rule else None
                  | _ => None
                  end) desired.

(** ** What the APP is told about a rule *)

(** The actual state, the state of the synchronisation, and the runtime shown. *)
Definition rule_state (now : Z) (alive : bool) (row local : dict) : string * string * dict :=
  let running := truthy (get row "enabled") in
  let state := clean_saved_value (get local "state") in
  let error := clean_saved_value (get local "lastError") in
  let expired := match portmap_epoch (get row "expiresAt") with Some e => (e <=? now) && running | None => false end in
  if expired then ("expired", "synced", dset "state" (PStr "expired") local)
  else if String.eqb state "running" && negb (nonempty error) then ("running", "synced", dset "lastError" (PStr "") local)
  else if str_in state ["starting"; "waiting_target"; "draining"] then (state, "syncing", local)
  else if String.eqb state "error" && nonempty error then ("error", "error", local)
  else if negb running then
    let actual := str_or state "stopped" in
    (actual, if str_in actual ["running"; "starting"; "draining"] then "syncing" else "synced", local)
  else if alive then ("waiting_agent", "syncing", local)
  else ("waiting_agent", "agent_offline", local).

Definition decorated_rule (now runtime_revision : Z) (alive : bool) (runtime row : dict) : dict :=
  let local := dict_or_empty (get runtime (clean_saved_value (get row "id"))) in
  let '(actual, sync, shown) := rule_state now alive row local in
  dupdate row
    [("desiredState", PStr (if truthy (get row "enabled") then "running" else "stopped")); ("actualState", PStr actual);
     ("syncState", PStr sync); ("runtime", PDict shown);
     ("revision", PInt (Z.max (number (get row "revision")) runtime_revision))].

(** ** Sparse reports *)

(** The rule of a report with the lease the router does not know, and its runtime with the
    start time known before. *)
Definition with_lease (expected local_rule : dict) : dict :=
  if has local_rule "leaseSeconds" then local_rule
  else dset "leaseSeconds" (PInt (number (get expected "leaseSeconds"))) local_rule.

Definition with_start (old_runtime runtime : dict) : dict :=
  if is_text (PStr (clean_saved_value (get runtime "state"))) "running" then
    match portmap_epoch (get runtime "startedAt"), portmap_epoch (get old_runtime "startedAt") with
    | None, Some e => dset "startedAt" (PInt e) runtime
    | _, _ => runtime
    end
  else runtime.

Definition normalize_item (desired previous : dict) (v : pyval) : pyval :=
  match v with
  | PDict item =>
      let local_rule := dict_or_empty (get item "rule") in
      let runtime := dict_or_empty (get item "runtime") in
      let rid := clean_saved_value (por (get local_rule "id") (get runtime "id")) in
      PDict (dset "runtime" (PDict (with_start (dict_or_empty (get previous rid)) runtime))
              (dset "rule" (PDict (with_lease (dict_or_empty (get desired rid)) local_rule)) item))
  | _ => v
  end.

Definition normalize_payload (desired previous payload : dict) : dict :=
  match get payload "rules" with
  | PList rows => dset "rules" (PList (List.map (normalize_item desired previous) rows)) payload
  | _ => payload
  end.

(** ** Redundant commands *)

Definition integer_keys : list string := ["listenPort"; "targetPort"; "leaseSeconds"; "maxConnections"; "idleTimeoutSec"].

(** The value of a rule's field with the spelling taken out. *)
Definition portmap_value (row : dict) (key : string) : pyval :=
  let v := get row key in
  if String.eqb key "enabled" then PBool (truthy v)
  else if str_in key integer_keys then PInt (number v)
  else if String.eqb key "expiresAt" then opt_int (portmap_epoch v)
  else if String.eqb key "transportProtocol" then PStr (upper (transport v))
  else PStr (clean_saved_value v).

Definition portmap_rules_equal (expected local : dict) : bool :=
  forallb (fun k => py_eq (portmap_value expected k) (portmap_value local k)) compare_keys.

(** The rules and the runtimes of the last report, by id. *)
Definition reported (part : string) (rows : list pyval) : dict :=
  dict_of (omap (fun v => match v with
    | PDict item =>
        let rule := dict_or_empty (get item "rule") in
        let runtime := dict_or_empty (get item "runtime") in
        let rid := clean_saved_value (por (get rule "id") (get runtime "id")) in
        if nonempty rid then Some (rid, PDict (if String.eqb part "rule" then rule else runtime)) else None
    | _ => None
    end) rows).

Definition redundant (desired rules runtimes command : dict) : bool :=
  let rule := dict_or_empty (get (dict_or_empty (get command "payload")) "rule") in
  let rid := rule_id rule in
  let runtime := dict_or_empty (get runtimes rid) in
  let wanted := dict_or_empty (get desired rid) in
  py_in (get command "status") [PStr "pending"; PStr "delivered"] && field_is command "action" "upsert"
  && nonempty rid && truthy (get wanted "enabled") && String.eqb (clean_saved_value (get runtime "state")) "running"
  && (match portmap_epoch (get runtime "startedAt") with Some _ => true | None => false end)
  && portmap_rules_equal wanted (dict_or_empty (get rules rid)).

(** [hub.to_int] of [time.time()]: the text of a float is not an integer, so the time is
    always zero. *)
Definition close_redundant (now_text : string) (command : dict) : dict :=
  dupdate command
    [("status", PStr "done");
     ("result", PDict [("ok", PBool true); ("unchanged", PBool true); ("message", PStr "already synchronized")]);
     ("finishedAt", PStr now_text); ("finishedEpoch", PInt 0)].

Definition prune_row (now_text : string) (desired rules runtimes : dict) (v : pyval) : pyval :=
  match v with
  | PDict command => if redundant desired rules runtimes command then PDict (close_redundant now_text command) else v
  | _ => v
  end.

Definition prune_count (desired rules runtimes : dict) (rows : list pyval) : nat :=
  List.length (List.filter (fun v => match v with PDict c => redundant desired rules runtimes c | _ => false end) rows).

Section LabRelay.
Context {S : Type} `{DocStore S} {tz : TimeZone} (E : env).

(** A configured router name wins over the one in the report. *)
Definition router_name (value : pyval) : string :=
  str_or (clean_str (primary_router_name E)) (str_or (clean_saved_value value) "router").

Definition statuses : hub S dict := v ← load_json "agent_status.json" (PDict []); mret (dict_or_empty v).
Definition runtime_document : hub S dict := v ← load_json "portmap_router_status.json" (PDict []); mret (dict_or_empty v).

Definition presence (router : pyval) : hub S dict :=
  let router := router_name router in
  all ← statuses;
  runtime ← runtime_document;
  now ← epoch;
  mret (presence_of now router (dict_or_empty (get all router)) runtime).

Definition reconcile_report (payload : dict) (router : string) : hub S unit :=
  rules ← load_portmap_rules;
  let desired := desired_map rules in
  let local := local_rules (list_or_empty (get payload "rules")) in
  _ ← for_each (fun rule => _ ← queue_portmap_command E "upsert" (upsert_payload rule) (Some router); mret tt)
               (missing_rules desired local);
  for_each (fun id => _ ← queue_portmap_command E "delete" (id_payload id) (Some router); mret tt)
           (unwanted desired local).

Definition decorated_rules (rules : list dict) (router : string) : hub S (list dict * Z) :=
  document ← runtime_document;
  let same := same_router router document in
  runtime ← (if same then lift (runtime_map (PDict document)) else mret []);
  let revision := if same then number (get document "runtimeRevision") else 0 in
  agent ← presence (PStr router);
  now ← epoch;
  let alive := truthy (get agent "agentOnline") || field_is agent "agentState" "stale" in
  mret (List.map (decorated_rule now revision alive runtime) rules, revision).

(** *** The handlers *)

Definition api_portmaps (q : request) : hub S response :=
  allowed ← lift (check_read_token E q);
  if negb allowed then mret unauthorized
  else
    doc ← load_json "portmaps.json" (PDict []);
    let document := dict_or_empty doc in
    rules ← lift (if is_dict doc then py_iter (get_or document "rules" (PList [])) else Ok []);
    let rows := omap (fun v => match v with PDict r => Some r | _ => None end) rules in
    let router := router_name (arg_value q "router") in
    decorated ← decorated_rules rows router;
    let '(rows, runtime_revision) := decorated in
    let rules_revision := number (get document "revision") in
    agent ← presence (PStr router);
    now ← epoch;
    mret (Response 200 (PDict (dupdate
      [("ok", PBool true); ("router", PStr router); ("rules", PList (List.map PDict rows)); ("rulesLoaded", PBool true);
       ("rulesRevision", PInt rules_revision); ("runtimeRevision", PInt runtime_revision);
       ("revision", PInt (Z.max rules_revision (Z.max runtime_revision (number (get agent "agentRevision")))));
       ("rulesUpdatedAt", PStr (clean_saved_value (get document "updatedAt"))); ("serverTime", PInt now);
       ("portRange", PDict [("min", PInt 20000); ("max", PInt 20020)])] agent))).

(** A revision above the one before it and not below the clock. *)
Definition next_revision (before : pyval) (now : Z) : Z := Z.max (number before + 1) now.

Definition heartbeat_of (now : Z) (now_text router : string) (payload old : dict) : dict :=
  [("router", PStr router);
   ("version", PStr (str_or (clean_saved_value (get payload "version")) (str_or (clean_saved_value (get old "version")) "unknown")));
   ("architecture", PStr (str_or (clean_saved_value (get payload "architecture")) (clean_saved_value (get old "architecture"))));
   ("updateState", PStr (str_or (clean_saved_value (get payload "updateState")) "idle"));
   ("message", PStr (clean_saved_value (get payload "message"))); ("lastSeenAt", PStr now_text);
   ("lastSeenEpoch", PInt now); ("revision", PInt (next_revision (get old "revision") now))].

(** One command of the loop: an accepted update is completed by a version that reaches it. *)
Definition complete_update (router version now : string) (v : pyval) : result (option pyval) :=
  match v with
  | PDict row =>
      if field_is row "router" router && field_is row "action" "update" && field_is row "state" "accepted"
      then
        reported ← version_parts (PStr version);
        target ← version_parts (get row "targetVersion");
        mret (if tuple_leb target reported
              then Some (PDict (dupdate row [("state", PStr "completed"); ("message", PStr ("updated to " +:+ version));
                                             ("updatedAt", PStr now)]))
              else None)
      else Ok None
  | _ => Ok None
  end.

Definition api_agent_status (q : request) : hub S response :=
  if negb (check_hook_token E q) then mret bad_agent_token
  else
    named ← lift (vget (json_body q) "router");
    let payload := dict_or_empty (json_body q) in
    let router := router_name named in
    now ← epoch; now_text ← now_str;
    data ← statuses;
    let heartbeat := heartbeat_of now now_text router payload (dict_or_empty (get data router)) in
    _ ← save_json "agent_status.json" (PDict (dset router (PDict heartbeat) data));
    doc ← load_json "agent_update_commands.json" empty_commands;
    rows ← lift (match doc with PDict d => py_iter (get_or d "commands" (PList [])) | _ => Ok [] end);
    closed ← lift (result_map (fun v => o ← complete_update router (py_str (get heartbeat "version")) now_text v; mret (v, o)) rows);
    _ ← (if existsb (fun vo => match vo.2 with Some _ => true | None => false end) closed
         then save_json "agent_update_commands.json" (commands_doc (List.map (fun vo => default vo.1 vo.2) closed))
         else mret tt);
    mret (Response 200 (PDict [("ok", PBool true); ("router", PStr router); ("revision", get heartbeat "revision");
                               ("serverTime", PInt now)])).

Definition runtime_record (now : Z) (now_text router : string) (revision : Z) (payload : pyval) : dict :=
  [("router", PStr router); ("receivedAt", PStr now_text); ("receivedEpoch", PInt now); ("runtimeRevision", PInt revision);
   ("presenceRevision", PInt revision); ("status", payload)].

(** The report of the router; [payload] is its JSON body after [_normalize_portmap_payload]. *)
Definition portmap_status (q : request) (payload : pyval) : hub S response :=
  if negb (check_hook_token E q) then mret bad_hook_token
  else
    named ← lift (if truthy (arg_value q "router") then Ok (arg_value q "router") else vget payload "router");
    let router := router_name named in
    now ← epoch; now_text ← now_str;
    old ← runtime_document;
    let revision := next_revision (get old "runtimeRevision") now in
    let record := PDict (runtime_record now now_text router revision payload) in
    _ ← save_json "portmap_router_status.json" record;
    _ ← append_portmap_history record;
    rows ← lift (vget payload "rules");
    _ ← reconcile_report (dict_or_empty payload) router;
    mret (Response 200 (PDict [("ok", PBool true); ("router", PStr router); ("runtimeRevision", PInt revision);
                               ("serverTime", PInt now)])).

(** *** [hub0934_fixes.py]: what runs in front of the report, and once at start-up *)

Definition normalize_portmap_payload (payload : dict) : hub S dict :=
  rules ← load_portmap_rules;
  previous ← load_json "portmap_router_status.json" (PDict []);
  runtimes ← lift (runtime_map (PDict (dict_or_empty previous)));
  mret (normalize_payload (desired_map rules) runtimes payload).

Definition api_router_portmap_status_fixed (q : request) : hub S response :=
  payload ← (match default PNone (q_json q) with
             | PDict d => d ← normalize_portmap_payload d; mret (por (PDict d) (PDict []))
             | _ => mret (json_body q)
             end);
  portmap_status q payload.

Definition prune_redundant_portmap_commands : hub S Z :=
  rules ← load_portmap_rules;
  let desired := desired_map rules in
  doc ← load_json "portmap_router_status.json" (PDict []);
  let inner := get (dict_or_empty doc) "status" in
  match (if is_dict inner then inner else doc) with
  | PDict status =>
      status ← normalize_portmap_payload status;
      let rows := list_or_empty (get status "rules") in
      queue ← load_json "portmap_commands.json" empty_commands;
      match queue with
      | PDict d =>
          match get_or d "commands" (PList []) with
          | PList commands =>
              now_text ← now_str;
              let rs := reported "rule" rows in
              let rts := reported "runtime" rows in
              let changed := prune_count desired rs rts commands in
              _ ← (if (changed =? 0)%nat then mret tt
                   else save_json "portmap_commands.json" (commands_doc (List.map (prune_row now_text desired rs rts) commands)));
              mret (Z.of_nat changed)
          | _ => mret 0
          end
      | _ => mret 0
      end
  | _ => mret 0
  end.
End LabRelay.
