(* ===== verification/LabRelayFacts.v ===== *)
(** * Facts about the LabRelay state

    An Agent that reports is online at once and an Agent that is silent goes offline; the
    revisions of the reports grow; a report of the wanted rules queues nothing, sparse or not;
    any other report queues the missing changes, and the deletion of every rule when the rules
    document is unreadable; and what the states shown to the APP mean. *)

From S2P Require Import Prelude PyNum PyVal PyIp PyTime HubValues Json Storage Hub Fixtures.
From S2P Require Import AgentCmd PortMap PortMapRules PortMapApi PortMapQueue PortMapSync LabRelay.

(** ** Presence *)

Lemma number_int n : 0 <= n < 2 ^ 1024 -> number (PInt n) = n.
Proof. intros Hn. unfold number. rewrite to_int_small by lia. lia. Qed.

Lemma number_nonneg v : 0 <= number v.
Proof. unfold number. lia. Qed.

(** The three states by the age of the last sign of life. *)
Lemma agent_state_spec seen now :
  0 < seen ->
  agent_state seen now = if now <=? seen + online_grace then "online"
                         else if now <=? seen + stale_grace then "stale" else "offline".
Proof.
  intros Hs. unfold agent_state, agent_age, online_grace, stale_grace.
  destruct (Z.eqb_spec seen 0); [lia|]. cbn [negb andb].
  destruct (Z.leb_spec (Z.max 0 (now - seen)) 12), (Z.leb_spec now (seen + 12)); try lia; [done|].
  destruct (Z.leb_spec (Z.max 0 (now - seen)) 30), (Z.leb_spec now (seen + 30)); try lia; done.
Qed.

Definition state_rank (s : string) : Z := if String.eqb s "online" then 2 else if String.eqb s "stale" then 1 else 0.

(** Without a new sign of life the presence only gets worse. *)
Lemma presence_ages seen now now' :
  now <= now' -> state_rank (agent_state seen now') <= state_rank (agent_state seen now).
Proof.
  intros Hn. unfold agent_state, agent_age, online_grace, stale_grace. destruct (Z.eqb_spec seen 0); [done|].
  cbn [negb andb]. repeat match goal with |- context [?a <=? ?b] => destruct (Z.leb_spec a b) end; cbn; lia.
Qed.

Section Relay.
Context {S : Type} `{DocStoreLaws S} {tz : TimeZone} (E : env).

Lemma presence_run router (w : world S) :
  presence E router w =
  (Ok (presence_of (w_ms w / 1000) (router_name E router)
         (dict_or_empty (get (document "agent_status.json" w) (router_name E router)))
         (document "portmap_router_status.json" w)), w).
Proof. done. Qed.

Lemma router_name_nonempty v : router_name E v <> "".
Proof.
  unfold router_name, str_or. destruct (nonempty (clean_str _)) eqn:E1; [by apply nonempty_spec|].
  destruct (nonempty (clean_saved_value v)) eqn:E2; [by apply nonempty_spec|done].
Qed.

Lemma heartbeat_plain now text router payload old : plain (PDict (heartbeat_of now text router payload old)).
Proof. unfold heartbeat_of. solve_plain. Qed.

Lemma keeps_complete k (b : bool) v :
  k <> "agent_update_commands.json" ->
  keeps (S := S) k (if b then save_json "agent_update_commands.json" v else mret tt).
Proof. intros Hk. destruct b; [by apply keeps_save_json|apply keeps_ret]. Qed.

(** A heartbeat that is answered 200 is stored under the router's name with the current time. *)
Lemma heartbeat_stored q (w w' : world S) rsp :
  doc_ok (w_docs w) -> api_agent_status E q w = (Ok rsp, w') -> rsp_status rsp = 200 ->
  exists named, vget (json_body q) "router" = Ok named /\
    get (dict_or_empty (get (document "agent_status.json" w') (router_name E named))) "lastSeenEpoch" = PInt (w_ms w / 1000)
    /\ get (dict_or_empty (get (document "agent_status.json" w') (router_name E named))) "revision"
       = PInt (next_revision (get (dict_or_empty (get (document "agent_status.json" w) (router_name E named))) "revision") (w_ms w / 1000)).
Proof.
  intros Hd. unfold api_agent_status. destruct (check_hook_token E q); [|by intros [= <- <-]]. cbn [negb].
  intros Hrun Hrsp. apply prog_bind_ok in Hrun as (named & w0 & Hn & Hrun).
  unfold lift in Hn. destruct (vget (json_body q) "router") as [named'|] eqn:Ev; [|done]. injection Hn as -> <-.
  exists named. split; [done|]. cbv zeta in Hrun.
  rewrite prog_bind_eq in Hrun. unfold epoch at 1 in Hrun. rewrite prog_bind_eq in Hrun. unfold now_str at 1 in Hrun.
  rewrite prog_bind_eq in Hrun. change (statuses w) with (Ok (A := dict) (document "agent_status.json" w), w) in Hrun.
  cbv beta iota in Hrun.
  set (router := router_name E named) in *.
  set (hb := heartbeat_of _ _ _ _ _) in Hrun.
  apply prog_bind_ok in Hrun as ([] & w1 & Hs & Hrun).
  assert (document "agent_status.json" w' = document "agent_status.json" w1) as Hdoc.
  { unfold document. do 2 f_equal. revert Hrun. generalize (Ok rsp) as r. intros r Hrun.
    assert (forall k, k <> "agent_update_commands.json" ->
      doc_read k (w_docs w') = doc_read k (w_docs w1)) as Hk; [|by apply Hk].
    intros k Hne. eapply (@keeps_bind S _ k _ _ (load_json "agent_update_commands.json" empty_commands)); [| |exact Hrun];
      [apply keeps_load_json|]. intros doc.
    apply keeps_bind; [apply keeps_lift|]. intros rows. apply keeps_bind; [apply keeps_lift|]. intros closed.
    apply keeps_bind; [by apply keeps_complete|]. intros; apply keeps_ret. }
  rewrite Hdoc.
  rewrite (save_json_field "agent_status.json" _ router _ _ eq_refl) with (2 := Hs).
  2: { apply plain_dset; [apply heartbeat_plain|by apply document_plain]. }
  rewrite get_dset_eq, sort_keys_sorted_dict. cbn [dict_or_empty].
  pose proof (plain_nodup _ (heartbeat_plain (w_ms w / 1000) (format_datetime (to_local (w_ms w / 1000))) router
    (dict_or_empty (json_body q)) (dict_or_empty (get (document "agent_status.json" w) router)))) as Hnd.
  split; by rewrite get_sorted by exact Hnd.
Qed.

(** C38. After a heartbeat the Agent is online for twelve seconds, whatever else is stored; and
    thirty seconds after the last sign of life it is offline. *)
Theorem heartbeat_then_silence q (w w' later : world S) rsp named :
  doc_ok (w_docs w) -> api_agent_status E q w = (Ok rsp, w') -> rsp_status rsp = 200 ->
  vget (json_body q) "router" = Ok named ->
  1000 <= w_ms w < 2 ^ 63 -> document "agent_status.json" later = document "agent_status.json" w' ->
  exists p, presence E named later = (Ok p, later)
    /\ (w_ms later / 1000 <= w_ms w / 1000 + online_grace -> get p "agentState" = PStr "online")
    /\ (number (get (document "portmap_router_status.json" later) "receivedEpoch") <= w_ms w / 1000 ->
        w_ms w / 1000 + stale_grace < w_ms later / 1000 -> get p "agentState" = PStr "offline").
Proof.
  intros Hd Hrun Hrsp Hnamed Hms Hlater.
  destruct (heartbeat_stored q w w' rsp Hd Hrun Hrsp) as (named' & Hn & Hseen & _).
  rewrite Hnamed in Hn. injection Hn as <-. rewrite presence_run. eexists. split; [reflexivity|]. rewrite Hlater.
  set (router := router_name E named) in *. set (hb := dict_or_empty _) in *.
  set (rt := document "portmap_router_status.json" later).
  assert (1 <= w_ms w / 1000 < 2 ^ 63) as Hnow
    by (split; [apply Z.div_le_lower_bound; lia|apply Z.div_lt_upper_bound; lia]).
  change (get (presence_of (w_ms later / 1000) router hb rt) "agentState")
    with (PStr (agent_state (last_sign router hb rt) (w_ms later / 1000))).
  assert (number (get hb "lastSeenEpoch") = w_ms w / 1000) as Hseen'.
  { rewrite Hseen. apply number_int. assert (2 ^ 63 < 2 ^ 1024) by reflexivity. lia. }
  assert (w_ms w / 1000 <= last_sign router hb rt) as Hlow by (unfold last_sign; rewrite Hseen'; lia).
  rewrite agent_state_spec by lia. split.
  - intros Hle. by destruct (Z.leb_spec (w_ms later / 1000) (last_sign router hb rt + online_grace)); [|lia].
  - intros Hrt Hlate. assert (last_sign router hb rt = w_ms w / 1000) as ->.
    { unfold last_sign. rewrite Hseen'. fold rt in Hrt. destruct (same_router router rt); lia. }
    unfold online_grace, stale_grace in *.
    destruct (Z.leb_spec (w_ms later / 1000) (w_ms w / 1000 + 12)); [lia|].
    by destruct (Z.leb_spec (w_ms later / 1000) (w_ms w / 1000 + 30)); [lia|].
Qed.

(** ** Revisions *)

Lemma next_revision_grows before now : number before < next_revision before now /\ now <= next_revision before now.
Proof. unfold next_revision. lia. Qed.

Lemma next_revision_small before now :
  number before < 2 ^ 1000 -> 0 <= now < 2 ^ 63 -> 0 <= next_revision before now < 2 ^ 1024.
Proof.
  intros Hb Hn. unfold next_revision. pose proof (number_nonneg before).
  assert (2 ^ 1000 + 1 < 2 ^ 1024) by reflexivity. assert (2 ^ 63 < 2 ^ 1024) by reflexivity. lia.
Qed.

Lemma keeps_append_history k status :
  k <> "portmap_history.json" -> keeps (S := S) k (append_portmap_history status).
Proof. intros Hk. unfold append_portmap_history. solve_keeps. Qed.

Lemma keeps_reconcile_report k payload router :
  k <> "portmap_commands.json" -> keeps (S := S) k (reconcile_report E payload router).
Proof.
  intros Hk. unfold reconcile_report, load_portmap_rules, load_portmap_rules_document.
  cbv zeta. repeat first [progress intros | by apply keeps_queue | apply keeps_load_raw | apply keeps_ret
                         | apply keeps_for_each | apply keeps_bind].
Qed.

(** Every report that is accepted gets a runtime revision above all earlier ones, never
    below the clock, and stores it with the report. *)
Theorem report_revision_grows q payload (w w' : world S) rsp :
  doc_ok (w_docs w) -> plain payload -> 0 <= w_ms w < 2 ^ 63 ->
  number (get (document "portmap_router_status.json" w) "runtimeRevision") < 2 ^ 1000 ->
  portmap_status E q payload w = (Ok rsp, w') -> rsp_status rsp = 200 ->
  let before := number (get (document "portmap_router_status.json" w) "runtimeRevision") in
  let after := number (get (document "portmap_router_status.json" w') "runtimeRevision") in
  before < after /\ w_ms w / 1000 <= after
  /\ get (document "portmap_router_status.json" w') "status" = sort_keys payload.
Proof.
  intros Hd Hp Hms Hb. unfold portmap_status. destruct (check_hook_token E q); [|by intros [= <- <-]]. cbn [negb].
  intros Hrun Hrsp. apply prog_bind_ok in Hrun as (named & w0 & Hn & Hrun). injection Hn as Hn <-. clear Hn. cbv zeta in Hrun.
  rewrite prog_bind_eq in Hrun. unfold epoch at 1 in Hrun. rewrite prog_bind_eq in Hrun. unfold now_str at 1 in Hrun.
  rewrite prog_bind_eq in Hrun.
  change (runtime_document w) with (Ok (A := dict) (document "portmap_router_status.json" w), w) in Hrun. cbv beta iota in Hrun.
  set (record := runtime_record _ _ _ _ payload) in Hrun.
  apply prog_bind_ok in Hrun as ([] & w1 & Hs & Hrun).
  assert (document "portmap_router_status.json" w' = document "portmap_router_status.json" w1) as Hdoc.
  { unfold document. do 2 f_equal. eapply (@keeps_bind S _ "portmap_router_status.json"); [| |exact Hrun];
      [by apply keeps_append_history|]. intros ?.
    apply keeps_bind; [apply keeps_lift|]. intros ?. apply keeps_bind; [by apply keeps_reconcile_report|].
    intros ?. apply keeps_ret. }
  cbv zeta. rewrite Hdoc.
  assert (plain (PDict record)) as Hplain by (unfold record, runtime_record; solve_plain).
  rewrite !(save_json_field "portmap_router_status.json" record _ _ _ eq_refl Hplain Hs).
  change (get record "runtimeRevision")
    with (PInt (next_revision (get (document "portmap_router_status.json" w) "runtimeRevision") (w_ms w / 1000))).
  change (get record "status") with payload. cbn [sort_keys].
  rewrite number_int by (apply next_revision_small; [done|split; [apply Z.div_pos; lia|apply Z.div_lt_upper_bound; lia]]).
  split; [|split; [|done]]; apply next_revision_grows.
Qed.

(** ** Reconciliation *)

Lemma reconcile_report_run payload router w :
  reconcile_report E payload router w =
  (_ ← for_each (fun rule => _ ← queue_portmap_command E "upsert" (upsert_payload rule) (Some router); mret tt)
                (missing_rules (desired_map (stored_rules w)) (local_rules (list_or_empty (get payload "rules"))));
   for_each (fun id => _ ← queue_portmap_command E "delete" (id_payload id) (Some router); mret tt)
            (unwanted (desired_map (stored_rules w)) (local_rules (list_or_empty (get payload "rules"))))) w.
Proof. done. Qed.

Lemma missing_sound rules local rule :
  Forall (fun r => exists s, get r "id" = PStr s /\ clean_str s <> "") rules ->
  In rule (missing_rules (desired_map rules) local) -> In rule rules.
Proof.
  intros Hn Hin. unfold missing_rules in Hin. rewrite (desired_map_rules rules Hn) in Hin.
  apply list_elem_of_In, list_elem_of_omap in Hin as ([k v] & Hkv & Hr). apply list_elem_of_In in Hkv.
  apply In_dget in Hkv; [|apply nodup_dict_of].
  destruct (dict_of_ids rules k v Hkv) as (r & Hin & _ & ->). simpl in Hr.
  destruct (negb _ || _); [|done]. by injection Hr as <-.
Qed.


(** When the rules document is missing or malformed, the report deletes every rule the router
    runs; [hub.py] has a guard against that which its replacement lacks. *)
Theorem unreadable_rules_delete_all payload router w w' rows :
  router <> "" -> portmaps_inv w -> queue_is w rows -> queue_inv rows -> rd_loaded (stored_document w) = false ->
  let local := local_rules (list_or_empty (get payload "rules")) in
  (List.length rows + List.length local <= queue_cap)%nat ->
  reconcile_report E payload router w = (Ok tt, w') ->
  exists rows', queue_is w' rows' /\ forall id, In id (keys local) -> In (router, "delete", clean_str id) (active_keys rows').
Proof.
  intros Hne Hw Hq Hi Hl. cbv zeta. intros Hlen Hrun. rewrite reconcile_report_run in Hrun.
  assert (stored_rules w = []) as Hnil.
  { revert Hl. unfold stored_rules, stored_document, read_rules. by repeat case_match. }
  rewrite Hnil in Hrun. change (desired_map []) with (@nil (string * pyval)) in Hrun.
  assert (forall l, List.filter (fun k : string => negb (has [] k)) l = l) as Hall
    by (intros l; induction l as [|x l IH]; [done|]; cbn; by f_equal).
  unfold unwanted in Hrun. rewrite Hall in Hrun.
  apply (repair_series E router (missing_rules [] _) _ w w' rows) in Hrun as (rows' & Hq' & Hk);
    [|done..|unfold keys; rewrite length_map; cbn [missing_rules omap list_omap List.length]; lia].
  exists rows'. split; [done|]. intros id Hid. apply Hk. right. right. by exists id.
Qed.

(** ** A router that runs the stored rules *)

(** A row that reports a stored rule: same id, equal fields, and a lease that may be absent
    when the rule has none. *)
Record row_reports (rule : dict) (v : pyval) (item local : dict) : Prop := {
  rr_item : v = PDict item;
  rr_rule : get item "rule" = PDict local;
  rr_id : get local "id" = get rule "id";
  rr_fields : forall k, In k compare_keys -> k <> "leaseSeconds" ->
              py_eq (compare_value local k) (compare_value rule k) = true;
  rr_lease : if has local "leaseSeconds" then py_eq (get local "leaseSeconds") (get rule "leaseSeconds") = true
             else exists n, get rule "leaseSeconds" = PInt n /\ 0 <= n < 2 ^ 1024;
}.

(** The local copy has the rule's id and its fields. *)
Definition runs_rule (rule local : dict) : Prop :=
  get local "id" = get rule "id"
  /\ forall k, In k compare_keys -> py_eq (compare_value local k) (compare_value rule k) = true.

Lemma with_lease_runs rule v item local :
  row_reports rule v item local -> runs_rule rule (with_lease rule local).
Proof.
  intros [_ _ Hid Hf Hl]. unfold with_lease. split.
  - destruct (has local "leaseSeconds"); [done|]. by rewrite get_dset_ne.
  - intros k Hk. destruct (String.eqb_spec k "leaseSeconds") as [->|Hne].
    + change (compare_value ?d "leaseSeconds") with (get d "leaseSeconds").
      destruct (has local "leaseSeconds"); [done|]. destruct Hl as (n & -> & Hn).
      rewrite get_dset_eq, number_int by done. cbn. apply Z.eqb_refl.
    + transitivity (py_eq (compare_value local k) (compare_value rule k)); [|by apply Hf]. f_equal. unfold compare_value. destruct (has local "leaseSeconds"); [done|].
      rewrite !get_dset_ne by (intros <-; by apply Hne). done.
Qed.

Lemma normalized_row rule v item local desired previous :
  (exists s, get rule "id" = PStr s /\ clean_str s <> "") -> row_reports rule v item local ->
  get desired (rule_id rule) = PDict rule ->
  local_row (normalize_item desired previous v) = Some (rule_id (with_lease rule local), PDict (with_lease rule local)).
Proof.
  intros Hn Hr Hd. destruct (named_id rule Hn) as (s & Hs & Hid & Hne & Ht).
  pose proof (with_lease_runs _ _ _ _ Hr) as [Hid' _]. destruct Hr as [-> Hrule Hidl _ _].
  assert (forall l other, get l "id" = get rule "id" -> clean_saved_value (por (get l "id") other) = rule_id rule) as Hpor
    by (intros l other Hl; unfold por; by rewrite Hl, Ht).
  unfold normalize_item. cbv zeta. rewrite Hrule. cbn [dict_or_empty]. rewrite (Hpor local _ Hidl), Hd. cbn [dict_or_empty].
  unfold local_row. cbv zeta. rewrite (get_dset_ne "runtime" "rule") by done. rewrite get_dset_eq. cbn [dict_or_empty].
  rewrite (Hpor _ _ Hid'), Hne. do 2 f_equal. unfold rule_id. by rewrite Hid'.
Qed.

(** The report of a router that runs the stored rules queues nothing, also when the report
    leaves out the lease of permanent rules. *)
Theorem reported_rules_need_nothing payload rows p router (w w1 : world S) :
  rules_inv (stored_rules w) -> List.NoDup (List.map rule_id (stored_rules w)) ->
  get payload "rules" = PList rows ->
  Forall2 (fun rule v => exists item local, row_reports rule v item local) (stored_rules w) rows ->
  normalize_portmap_payload payload w = (Ok p, w1) ->
  reconcile_report E p router w1 = (Ok tt, w).
Proof.
  intros Hi Hnd Hp Hrows Hnorm. apply prog_bind_ok in Hnorm as (rules & w0 & [= <- <-] & Hnorm).
  apply prog_bind_ok in Hnorm as (previous & w0 & [= <- <-] & Hnorm).
  apply prog_bind_ok in Hnorm as (runtimes & w0 & Hrt & [= <- <-]). injection Hrt as _ <-.
  change (rd_rules (read_rules (doc_read "portmaps.json" (w_docs w)))) with (stored_rules w).
  pose proof (ri_named _ Hi) as Hn. rewrite reconcile_report_run, (desired_map_rules _ Hn).
  unfold normalize_payload. rewrite Hp, get_dset_eq. cbn [list_or_empty].
  set (ids := fun r => (rule_id r, PDict r)). set (desired := dict_of (List.map ids (stored_rules w))).
  assert (exists locals, omap local_row (List.map (normalize_item desired runtimes) rows) = List.map ids locals
          /\ Forall2 runs_rule (stored_rules w) locals) as (locals & Hl & Hruns).
  { assert (forall r, In r (stored_rules w) -> get desired (rule_id r) = PDict r) as Hdes.
    { intros r Hr. unfold desired. rewrite dict_of_nodup.
      - unfold get. erewrite In_dget; [done| |by apply (in_map ids)]. unfold nodup_keys, keys. by rewrite List.map_map.
      - unfold nodup_keys, keys. by rewrite List.map_map. }
    revert Hdes Hn. clear -Hrows. generalize desired. intros d Hdes Hn. induction Hrows as [|r v rules rows (item & local & Hr) Hrows IH].
    - exists []. split; [done|constructor].
    - inversion Hn as [|? ? Hn1 Hn2]; subst. destruct IH as (locals & Hl & Hruns); [intros; apply Hdes; by right|done|].
      exists (with_lease r local :: locals). split; [|constructor; [by eapply with_lease_runs|done]].
      cbn [List.map omap list_omap]. rewrite (normalized_row r v item local); [|done|done|apply Hdes; by left].
      by rewrite Hl. }
  unfold local_rules. rewrite Hl. destruct (matched_maps runs_rule (fun r l H => proj1 H) _ _ Hruns) as [Hu Hm].
  fold ids in Hu, Hm. fold desired in Hu, Hm. rewrite Hu.
  assert (missing_rules desired (dict_of (List.map ids locals)) = []) as ->; [|done].
  apply omap_nothing. intros [k v] (r & l & -> & _ & Hdl & Hid & Hf)%Hm. cbn [fst snd]. unfold get, has.
  rewrite Hdl. cbn [negb orb default dict_or_empty]. unfold rule_differs. destruct (existsb _ compare_keys) eqn:Hx; [|done].
  apply existsb_exists in Hx as (k' & Hk' & Hne). by rewrite Hf in Hne.
Qed.
End Relay.

(** ** What the APP is told *)

(** The row of a rule is well typed for every stored rule and report: the states are texts
    of the known kinds, the runtime is a dict, the revision is not below the one of the report.
    An error is shown only for a reported error, a missing Agent only for an enabled rule of an
    Agent that is not alive, and a rule that runs without an error is never shown as failing. *)
Theorem decorated_rule_typed now revision alive runtime row :
  let d := decorated_rule now revision alive runtime row in
  let local := dict_or_empty (get runtime (clean_saved_value (get row "id"))) in
  exists actual sync shown n,
    get d "actualState" = PStr actual /\ get d "syncState" = PStr sync /\ get d "runtime" = PDict shown
    /\ get d "revision" = PInt n /\ revision <= n /\ actual <> ""
    /\ (get d "desiredState" = PStr "running" \/ get d "desiredState" = PStr "stopped")
    /\ In sync ["synced"; "syncing"; "error"; "agent_offline"]
    /\ (sync = "error" -> get d "actualState" = PStr "error" /\ clean_saved_value (get local "lastError") <> "")
    /\ (sync = "agent_offline" -> alive = false /\ truthy (get row "enabled") = true)
    /\ (clean_saved_value (get local "state") = "running" -> clean_saved_value (get local "lastError") = "" ->
        sync = "synced" /\ (actual = "running" \/ actual = "expired")).
Proof.
  cbv zeta. unfold decorated_rule. set (local := dict_or_empty _).
  destruct (rule_state now alive row local) as [[actual sync] shown] eqn:Es.
  exists actual, sync, shown, (Z.max (number (get row "revision")) revision).
  get_updates row.
  do 4 (split; [reflexivity|]). split; [lia|]. unfold rule_state in Es.
  set (state := clean_saved_value (get local "state")) in *. set (error := clean_saved_value (get local "lastError")) in *.
  set (running := truthy (get row "enabled")) in *.
  assert (actual <> "" /\ In sync ["synced"; "syncing"; "error"; "agent_offline"]
    /\ (sync = "error" -> actual = "error" /\ error <> "") /\ (sync = "agent_offline" -> alive = false /\ running = true)
    /\ (state = "running" -> error = "" -> sync = "synced" /\ (actual = "running" \/ actual = "expired")))
    as (? & ? & Herr & ? & ?).
  { destruct (match portmap_epoch _ with Some e => _ | None => false end);
      [injection Es as <- <- <-; cbn; intuition discriminate|].
    destruct (String.eqb_spec state "running") as [Hst|Hst]; cbn [andb] in Es.
    - destruct (nonempty error) eqn:He; cbn [negb] in Es; [|injection Es as <- <- <-; cbn; intuition discriminate].
      assert (error <> "") as Hne by by apply nonempty_spec.
      rewrite Hst in Es. cbn in Es. destruct running, alive; injection Es as <- <- <-; cbn; intuition discriminate.
    - destruct (str_in state _) eqn:Hin; cbn [andb] in Es.
      { injection Es as <- <- <-. apply str_in_spec in Hin. cbn in Hin |- *. intuition (subst; discriminate || congruence). }
      destruct (String.eqb_spec state "error") as [He|He]; cbn [andb] in Es.
      + destruct (nonempty error) eqn:Hne.
        * apply nonempty_spec in Hne. injection Es as <- <- <-. cbn. intuition (discriminate || congruence).
        * rewrite He in Es. cbn in Es. destruct running, alive; injection Es as <- <- <-; cbn; intuition (discriminate || congruence).
      + destruct running; cbn [negb] in Es; [destruct alive; injection Es as <- <- <-; cbn; intuition (discriminate || congruence)|].
        injection Es as <- <- <-. match goal with |- context [if ?b then "syncing" else _] => generalize b end. intros b. split; [|split; [|split; [|split]]].
        * unfold str_or. destruct (nonempty state) eqn:Hne; [by apply nonempty_spec|done].
        * destruct b; cbn; auto.
        * destruct b; discriminate.
        * destruct b; discriminate.
        * intros; congruence. }
  split; [done|]. split; [destruct running; auto|]. split; [done|]. split; [|done].
  intros [-> ?]%Herr. done.
Qed.

(** ** Redundant commands *)

(** A command closed at start-up counts as finished in 1970, so the next command queued drops it
    at once instead of keeping it for a day. *)
Lemma pruned_command_expires text c now : 86400 < now -> expired now (close_redundant text c) = true.
Proof.
  intros Hn. unfold expired, close_redundant.
  get_updates c.
  change (to_int (PInt 0) now) with 0.
  change (py_in (PStr "done") [PStr "done"; PStr "failed"]) with true. cbn [andb]. apply Z.ltb_lt. lia.
Qed.

(** ** Concrete reports *)

Definition beat : request := router_request [] (Some (PDict [("version", PStr "1.4.0")])).
Definition beaten : world store := run (api_agent_status demo_env beat) demo_world.

Lemma heartbeat_then_silence_witness :
  exists p, presence demo_env PNone (later 5000 beaten) = (Ok p, later 5000 beaten)
    /\ (w_ms (later 5000 beaten) / 1000 <= w_ms demo_world / 1000 + online_grace -> get p "agentState" = PStr "online")
    /\ (number (get (document "portmap_router_status.json" (later 5000 beaten)) "receivedEpoch") <= w_ms demo_world / 1000 ->
        w_ms demo_world / 1000 + stale_grace < w_ms (later 5000 beaten) / 1000 -> get p "agentState" = PStr "offline").
Proof.
  apply (heartbeat_then_silence demo_env beat demo_world beaten (later 5000 beaten)
           (catch (fst (api_agent_status demo_env beat demo_world)) (Response 0 PNone)) PNone empty_store_ok).
  - assert (is_ok (fst (api_agent_status demo_env beat demo_world)) = true) as Hok by (vm_compute; reflexivity).
    unfold beaten, run. destruct (api_agent_status demo_env beat demo_world) as [[rsp|e] w]; [done|discriminate].
  - vm_compute. reflexivity.
  - reflexivity.
  - split; [done|reflexivity].
  - reflexivity.
Defined.

Definition stray : pyval := PDict stray_report.
Definition stray_request : request := router_request [] (Some stray).
Definition reported_world : world store := run (portmap_status demo_env stray_request stray) demo_world.

Lemma report_revision_grows_witness :
  let before := number (get (document "portmap_router_status.json" demo_world) "runtimeRevision") in
  let after := number (get (document "portmap_router_status.json" reported_world) "runtimeRevision") in
  before < after /\ w_ms demo_world / 1000 <= after
  /\ get (document "portmap_router_status.json" reported_world) "status" = sort_keys stray.
Proof.
  apply (report_revision_grows demo_env stray_request stray demo_world reported_world
           (catch (fst (portmap_status demo_env stray_request stray demo_world)) (Response 0 PNone)) empty_store_ok).
  - apply json_ok_plain, json_okb_sound. vm_compute. reflexivity.
  - split; [done|reflexivity].
  - reflexivity.
  - assert (is_ok (fst (portmap_status demo_env stray_request stray demo_world)) = true) as Hok by (vm_compute; reflexivity).
    unfold reported_world, run. destruct (portmap_status demo_env stray_request stray demo_world) as [[rsp|e] w]; [done|discriminate].
  - vm_compute. reflexivity.
Defined.


(** The stored rule as the router reports it, without its lease. *)
Definition bare_row (rule : dict) : pyval := PDict [("rule", PDict (ddel "leaseSeconds" rule))].
Definition bare_payload : dict := [("rules", PList (List.map bare_row (stored_rules nas_world)))].
Definition bare_normalized : dict := catch (fst (normalize_portmap_payload bare_payload nas_world)) [].

Lemma reported_rules_need_nothing_witness :
  reconcile_report demo_env bare_normalized "BE72" nas_world = (Ok tt, nas_world).
Proof.
  apply (reported_rules_need_nothing demo_env bare_payload (List.map bare_row (stored_rules nas_world))
           bare_normalized "BE72" nas_world nas_world nas_rule_ok).
  - vm_compute. repeat constructor; cbn; intuition discriminate.
  - reflexivity.
  - assert (forallb (fun r => forallb (fun k => String.eqb k "leaseSeconds"
              || py_eq (compare_value (ddel "leaseSeconds" r) k) (compare_value r k)) compare_keys
              && same (get (ddel "leaseSeconds" r) "id") (get r "id") && negb (has (ddel "leaseSeconds" r) "leaseSeconds")
              && same (get r "leaseSeconds") (PInt 0)) (stored_rules nas_world) = true) as Hf by (vm_compute; reflexivity).
    rewrite List.forallb_forall in Hf. revert Hf. generalize (stored_rules nas_world). intros rules Hf.
    induction rules as [|r rules IH]; [constructor|]. constructor; [|apply IH; intros; apply Hf; by right].
    exists [("rule", PDict (ddel "leaseSeconds" r))], (ddel "leaseSeconds" r). specialize (Hf r (or_introl eq_refl)).
    apply andb_prop in Hf as [[[Hk Hid%same_spec]%andb_prop Hno]%andb_prop Hl%same_spec].
    split; [done|done|done| |].
    + intros k Hin Hne. rewrite List.forallb_forall in Hk. specialize (Hk k Hin).
      destruct (String.eqb_spec k "leaseSeconds"); [done|exact Hk].
    + destruct (has _ _); [done|]. exists 0. split; [done|]. split; [done|reflexivity].
  - assert (is_ok (fst (normalize_portmap_payload bare_payload nas_world)) = true) as Hok by (vm_compute; reflexivity).
    unfold bare_normalized.
    assert (snd (normalize_portmap_payload bare_payload nas_world) = nas_world) as Hw by (vm_compute; reflexivity).
    destruct (normalize_portmap_payload bare_payload nas_world) as [[p|e] w]; [|discriminate]. cbn in Hw |- *. by rewrite Hw.
Defined.

(** Two rules run on the router, and the rules document is gone. *)
Definition two_rules : dict :=
  [("rules", PList [PDict [("rule", PDict [("id", PStr "nas")])]; PDict [("rule", PDict [("id", PStr "web")])]])].
Example gone_rules_are_deleted :
  exists rows', queue_is (run (reconcile_report demo_env two_rules "BE72") demo_world) rows'
    /\ forall id, In id ["nas"; "web"] -> In ("BE72", "delete", clean_str id) (active_keys rows').
Proof.
  apply (unreadable_rules_delete_all demo_env two_rules "BE72" demo_world (run (reconcile_report demo_env two_rules "BE72") demo_world) []).
  - discriminate.
  - split; [|exact empty_store_ok|split; [done|reflexivity]].
    assert (stored_rules demo_world = []) as -> by (vm_compute; reflexivity). split; constructor.
  - vm_compute. reflexivity.
  - split; constructor.
  - vm_compute. reflexivity.
  - vm_compute. repeat constructor.
  - assert (fst (reconcile_report demo_env two_rules "BE72" demo_world) = Ok tt) as <- by (vm_compute; reflexivity).
    apply surjective_pairing.
Qed.
