(* ===== verification/Daily.v ===== *)
(** * Events and the daily summary

    The event feed and its tombstones, the clean-up of online and offline events, the daily
    aggregation, the daily notes, and the per-day online time of each device
    ([api_events], [api_delete_event], [normalize_device_events_for_daily],
    [aggregate_daily], [update_daily_online_durations] of [hub.py]). *)

From S2P Require Import Prelude PyNum PyVal PyTime HubValues Json Storage Hub.

(** The first truthy value of a list of keys, or the empty string. *)
Definition first_text_of (e : dict) (ks : list string) : pyval :=
  fold_right (fun k rest => por (get e k) rest) (PStr "") ks.

Definition event_timestamp (e : dict) : string :=
  py_str (first_text_of e ["createdAt"; "time"; "offlineAt"; "onlineSince"]).

(** [e.get(...)] of every event fails on the first one that is no object. *)
Definition event_dict (v : pyval) : result dict :=
  match v with PDict d => Ok d | _ => attribute_error v "get" end.

Definition event_id (e : dict) : result Z := py_int (get_or e "id" (PInt 0)).

(** ** The feed *)

(** The events after a number that are not deleted. *)
Definition live_events (after : Z) (events : list pyval) : result (list pyval) :=
  rows ← result_map (fun v => e ← event_dict v; n ← event_id e;
                              mret (v, (after <? n) && negb (truthy (get e "deleted")))) events;
  mret (List.map fst (List.filter snd rows)).

(** The tombstone on the first event with the number; the flag tells whether there was one. *)
Fixpoint mark_deleted (id : Z) (now : string) (events : list pyval) : result (list pyval * bool) :=
  match events with
  | [] => Ok ([], false)
  | v :: rest =>
      e ← event_dict v; n ← event_id e;
      if n =? id
      then Ok (PDict (dset "deletedAt" (PStr now) (dset "deleted" (PBool true) e)) :: rest, true)
      else '(rest', changed) ← mark_deleted id now rest; Ok (v :: rest', changed)
  end.

Section Feed.
Context {S : Type} `{DocStore S} {tz : TimeZone} (E : env).

Definition api_events (q : request) : hub S response :=
  ok ← lift (check_read_token E q);
  if negb ok then mret (error_response 401 "unauthorized")
  else
    after ← lift (py_int (PStr (default "0" (q_arg q "after"))));
    doc ← load_json "events.json" (PList []);
    events ← lift (py_iter doc);
    live ← lift (live_events after events);
    mret (Response 200 (PDict [("ok", PBool true); ("events", PList live)])).

Definition api_delete_event (q : request) (id : Z) : hub S response :=
  if negb (check_app_token E q) then mret (error_response 401 "unauthorized")
  else
    doc ← load_json "events.json" (PList []);
    events ← lift (py_iter doc);
    now ← now_str;
    '(events', changed) ← lift (mark_deleted id now events);
    _ ← save_json "events.json" (match doc with PList _ => PList events' | _ => doc end);
    mret (Response 200 (PDict [("ok", PBool true); ("deleted", PBool changed); ("id", PInt id)])).
End Feed.

(** ** Sessions of a day *)

Definition event_device_key (e : dict) : string :=
  let mac := norm_mac (get e "mac") in
  if nonempty mac then "mac:" +:+ mac
  else
    let title := replace " 离线" "" (replace " 上线" "" (str_or_empty (get e "title"))) in
    let name := lower (clean_saved_value (por (get e "name") (PStr title))) in
    if nonempty name then "name:" +:+ name
    else
      let ip := clean_saved_value (por (get e "ip") (get e "lastIp")) in
      if nonempty ip then "ip:" +:+ ip else "".

Definition event_type (e : dict) : string := py_str (get_or e "type" (PStr "")).

(** The seconds an offline event claims. *)
Definition claimed_seconds (e : dict) : Z :=
  duration_text_to_seconds (PStr (pretty_duration_text (PStr (str_or_empty (get e "onlineDurationText"))))).

Record sessions := Sessions {
  ss_state : gmap string string;       (** last kept type by device: online or offline *)
  ss_online_at : gmap string Z;
  ss_last_offline : gmap string Z;
  ss_kept : list dict;                 (** newest first *)
}.
Definition no_sessions : sessions := Sessions ∅ ∅ ∅ [].
Definition keep_event (e : dict) (s : sessions) : sessions :=
  Sessions (ss_state s) (ss_online_at s) (ss_last_offline s) (e :: ss_kept s).

Section Daily.
Context {tz : TimeZone}.

(** One round of the loop of [normalize_device_events_for_daily]. *)
Definition daily_step (s : sessions) (e : dict) : sessions :=
  let typ := event_type e in
  if negb (str_in typ ["device_online"; "device_offline"]) then keep_event e s
  else
    let key := event_device_key e in
    if negb (nonempty key) then keep_event e s
    else
      let at_ := time_to_epoch (PStr (event_timestamp e)) in
      let prev := ss_state s !! key in
      if String.eqb typ "device_online" then
        if bool_decide (prev = Some "online") then s
        else keep_event e
               (Sessions (<[key := "online"]> (ss_state s))
                         (if at_ =? 0 then ss_online_at s else <[key := at_]> (ss_online_at s))
                         (ss_last_offline s) (ss_kept s))
      else
        let claimed := claimed_seconds e in
        let since := default 0 (ss_online_at s !! key) in
        let measured := (claimed <=? 0) && negb (since =? 0) && negb (at_ =? 0) && (since <=? at_) in
        let dur := if measured then at_ - since else claimed in
        let e := if measured then dset "onlineDurationText" (PStr (human_duration_precise (PInt dur))) e else e in
        if dur <=? 0 then s
        else if bool_decide (prev = Some "offline") then s
        else if negb (at_ =? 0) && match ss_last_offline s !! key with
                                   | Some t => (0 <=? at_ - t) && (at_ - t <=? 300)
                                   | None => false
                                   end then s
        else keep_event e
               (Sessions (<[key := "offline"]> (ss_state s))
                         (delete key (ss_online_at s))
                         (if at_ =? 0 then ss_last_offline s else <[key := at_]> (ss_last_offline s))
                         (ss_kept s)).

(** [sorted(events, key=(time, id))]. *)
Definition daily_le (a b : Z * Z * dict) : bool :=
  (a.1.1 <? b.1.1) || (a.1.1 =? b.1.1) && (a.1.2 <=? b.1.2).

Definition daily_order (events : list dict) : result (list dict) :=
  rows ← result_map (fun e => n ← event_id e;
                              mret (time_to_epoch (PStr (event_timestamp e)), n, e)) events;
  mret (List.map snd (isort daily_le rows)).

Definition normalize_device_events_for_daily (events : list dict) : result (list dict) :=
  ordered ← daily_order events;
  mret (rev (ss_kept (fold_left daily_step ordered no_sessions))).
End Daily.

(** ** The summary of a day *)

(** What is collected for one device. *)
Record daily_device := DailyDevice {
  dd_name : string;
  dd_online : Z;
  dd_offline : Z;
  dd_seconds : Z;
  dd_last_ip : pyval;
  dd_signal : string;
}.

Record daily_acc := DailyAcc {
  da_devices : list (string * daily_device);   (** in insertion order *)
  da_vpn : list pyval;
  da_network : list pyval;
  da_ddns : list pyval;
  da_online : Z;
  da_offline : Z;
}.
Definition no_daily : daily_acc := DailyAcc [] [] [] [] 0 0.

(** [d = devices.setdefault(key, new)] followed by the changes [f] of [d]. *)
Fixpoint upsert_device (key : string) (new : daily_device) (f : daily_device -> daily_device)
    (l : list (string * daily_device)) : list (string * daily_device) :=
  match l with
  | [] => [(key, f new)]
  | (k, d) :: l' => if String.eqb key k then (k, f d) :: l' else (k, d) :: upsert_device key new f l'
  end.

Definition str_of_keys (e : dict) (ks : list string) : string := strip (py_str (first_text_of e ks)).

Definition shown (s : string) : bool := nonempty s && negb (str_in s ["-"; "null"; "None"]).

Definition signal_text (e : dict) : string :=
  let rssi := str_of_keys e ["rssi"; "lastRssi"] in
  let band := str_of_keys e ["band"; "lastBand"] in
  let rxrate := str_of_keys e ["rxrate"; "lastRxrate"] in
  join " " ((if shown rssi then [if ends_with "dBm" rssi then rssi else rssi +:+ "dBm"] else [])
            ++ (if shown band then [band] else []) ++ (if shown rxrate then [rxrate] else [])).

Definition add_device_event (e : dict) (d : daily_device) : daily_device :=
  let typ := event_type e in
  let ip := first_text_of e ["ip"; "lastIp"] in
  let signal := signal_text e in
  let seconds := claimed_seconds e in
  DailyDevice (dd_name d)
    (dd_online d + if String.eqb typ "device_online" then 1 else 0)
    (dd_offline d + if String.eqb typ "device_offline" then 1 else 0)
    (dd_seconds d + if 0 <? seconds then seconds else 0)
    (if truthy ip then ip else dd_last_ip d)
    (if nonempty signal then signal else dd_signal d).

Definition dotted (a b : string) : string := if nonempty b then a +:+ " · " +:+ b else a.

Definition address_row (time name address : string) : pyval :=
  PDict [("time", PStr time); ("name", PStr name); ("address", PStr address); ("text", PStr (dotted name address))].

(** One round of the loop of [aggregate_daily]. *)
Definition aggregate_event (acc : daily_acc) (e : dict) : daily_acc :=
  let typ := event_type e in
  let name := py_str (por (first_text_of e ["name"; "title"]) (PStr "未知")) in
  let ts := event_timestamp e in
  let t := if 16 <=? py_len ts then py_take 5 (py_drop 11 ts) else "" in
  let new_value := str_of_keys e ["newValue"; "value"; "address"] in
  let title := py_str (por (get e "title") (por (PStr name) (por (PStr typ) (PStr "事件")))) in
  let named := py_str (por (get e "name") (PStr title)) in
  if starts_with "device_" typ then
    DailyAcc (upsert_device (str_or (event_device_key e) name) (DailyDevice name 0 0 0 (PStr "") "")
                (add_device_event e) (da_devices acc))
      (da_vpn acc) (da_network acc) (da_ddns acc)
      (da_online acc + if String.eqb typ "device_online" then 1 else 0)
      (da_offline acc + if String.eqb typ "device_offline" then 1 else 0)
  else if contains "stun" typ || contains "wireguard" typ || contains "vpn" typ then
    let service := str_or (strip (replace "地址变化" "" (replace " STUN 地址变化" "" named))) "VPN/STUN" in
    DailyAcc (da_devices acc) (da_vpn acc ++ [address_row t service new_value]) (da_network acc) (da_ddns acc)
      (da_online acc) (da_offline acc)
  else if contains "router" typ || contains "wan" typ || contains "nas" typ || contains "network" typ then
    let service := str_or (strip named) "网络变化" in
    let address := str_or new_value (str_of_keys e ["ip"; "ipv6"; "wanIpv6"]) in
    DailyAcc (da_devices acc) (da_vpn acc) (da_network acc ++ [address_row t service address]) (da_ddns acc)
      (da_online acc) (da_offline acc)
  else if contains "ddns" typ then
    DailyAcc (da_devices acc) (da_vpn acc) (da_network acc)
      (da_ddns acc ++ [PDict [("time", PStr t); ("name", PStr name); ("text", PStr (dotted title new_value))]])
      (da_online acc) (da_offline acc)
  else acc.

Definition device_row (d : daily_device) : pyval :=
  let duration := human_duration_precise (PInt (dd_seconds d)) in
  let detail := (if nonempty duration then ["在线 " +:+ duration] else [])
                ++ (if truthy (dd_last_ip d) then [py_str (dd_last_ip d)] else [])
                ++ (if nonempty (dd_signal d) then [dd_signal d] else []) in
  let line2 := "上线 " +:+ int_str (dd_online d) +:+ " 次 · 下线 " +:+ int_str (dd_offline d) +:+ " 次" in
  let line2 := match detail with [] => line2 | _ => line2 +:+ " · " +:+ join " · " detail end in
  PDict [("name", PStr (dd_name d)); ("online", PInt (dd_online d)); ("offline", PInt (dd_offline d));
         ("onlineDurationText", PStr duration); ("lastIp", dd_last_ip d); ("lastSignal", PStr (dd_signal d));
         ("text", PStr (dd_name d +:+ String (chr 10) line2))].

Definition count {A} (l : list A) : pyval := PInt (Z.of_nat (List.length l)).

Definition daily_document (day note : string) (n : Z) (acc : daily_acc) : pyval :=
  let device_list := List.map (fun kd => device_row kd.2) (da_devices acc) in
  let summary := PDict
    [("deviceChanges", PInt (da_online acc + da_offline acc)); ("deviceOnline", PInt (da_online acc));
     ("deviceOffline", PInt (da_offline acc)); ("vpnChanges", count (da_vpn acc));
     ("networkChanges", count (da_network acc)); ("ddnsChanges", count (da_ddns acc));
     ("noteCount", PInt (if nonempty (strip note) then 1 else 0)); ("eventCount", PInt n)] in
  let sections := List.filter (fun kv => truthy kv.2)
    [("devices", PList device_list); ("vpn", PList (da_vpn acc)); ("network", PList (da_network acc));
     ("ddns", PList (da_ddns acc))] in
  PDict [("date", PStr day); ("summary", summary); ("sections", PDict sections); ("note", PStr note)].

(** ** Notes and handlers *)

Section DailyApi.
Context {S : Type} `{DocStore S} {tz : TimeZone} (E : env).

(** The document of a day's note: the digits and dashes of the date name it. *)
Definition note_file (day : string) : hub S string :=
  today ← today_str;
  let safe := sfilter (fun c => is_digit c || is_char "-"%char c) (str_or day today) in
  mret ("notes/" +:+ str_or safe today +:+ ".json").

Definition get_daily_note (day : string) : hub S string :=
  key ← note_file day;
  doc ← load_json key (PDict []);
  note ← lift (vget_or doc "note" (PStr ""));
  mret (str_or_empty note).

Definition set_daily_note (day note : string) : hub S unit :=
  key ← note_file day;
  now ← now_str;
  save_json key (PDict [("date", PStr day); ("note", PStr note); ("updatedAt", PStr now)]).

(** The events of the day that are not deleted. *)
Definition events_of_day (day : string) (events : list pyval) : result (list dict) :=
  rows ← result_map event_dict events;
  mret (List.filter (fun e => negb (truthy (get e "deleted")) && starts_with day (event_timestamp e)) rows).

Definition aggregate_daily (day : string) : hub S pyval :=
  doc ← load_json "events.json" (PList []);
  rows ← lift (py_iter doc);
  today ← lift (events_of_day day rows);
  events ← lift (normalize_device_events_for_daily today);
  note ← get_daily_note day;
  mret (daily_document day note (Z.of_nat (List.length events)) (fold_left aggregate_event events no_daily)).

Definition recent_dates (days : nat) : hub S (list string) := fun w =>
  (Ok (List.map (fun i => format_date (to_local (w_ms w / 1000) - Z.of_nat i * secs_per_day)) (seq 0 days)), w).

Definition requested_day (q : request) : hub S string :=
  today ← today_str;
  mret (default today (q_arg q "date")).

Definition api_daily_note_get (q : request) : hub S response :=
  if negb (check_app_token E q) then mret (error_response 401 "unauthorized")
  else
    day ← requested_day q;
    note ← get_daily_note day;
    mret (Response 200 (PDict [("ok", PBool true); ("date", PStr day); ("note", PStr note)])).

Definition api_daily_note_put (q : request) : hub S response :=
  if negb (check_app_token E q) then mret (error_response 401 "unauthorized")
  else
    day ← requested_day q;
    v ← lift (vget_or (json_body q) "note" (PStr ""));
    let note := py_take 2000 (py_str v) in
    _ ← set_daily_note day note;
    now ← now_str;
    mret (Response 200 (PDict [("ok", PBool true); ("date", PStr day); ("note", PStr note); ("updatedAt", PStr now)])).

Definition api_daily_latest (q : request) : hub S response :=
  if negb (check_app_token E q) then mret (error_response 401 "unauthorized")
  else
    today ← today_str;
    daily ← aggregate_daily today;
    mret (Response 200 (PDict [("ok", PBool true); ("daily", daily)])).

Definition api_daily_by_date (q : request) : hub S response :=
  if negb (check_app_token E q) then mret (error_response 401 "unauthorized")
  else
    day ← requested_day q;
    daily ← aggregate_daily day;
    mret (Response 200 (PDict [("ok", PBool true); ("daily", daily)])).

Definition api_daily_list (q : request) : hub S response :=
  if negb (check_app_token E q) then mret (error_response 401 "unauthorized")
  else
    dates ← recent_dates 7;
    mret (Response 200 (PDict [("ok", PBool true); ("dates", PList (List.map PStr dates))])).
End DailyApi.
