(* ===== verification/OnlineTime.v ===== *)
(** * Online time of the day

    The seconds each device has been online today, counted from consecutive snapshots
    ([today_online_seconds_from_item], [update_daily_online_durations] of [hub.py]), and the
    bound that makes the count credible: no device is credited with more than the day has had. *)

From S2P Require Import Prelude PyNum PyVal PyTime HubValues Json Storage Hub Fixtures.

(** ** The seed from one record of the router *)

Definition today_online_seconds_from_item (item : dict) (now : Z) : Z :=
  let since_midnight := Z.max 0 (now - midnight now) in
  let active := to_int (por (get item "activeTime") (por (get item "onlineDurationSec") (get item "durationSec"))) 0 in
  match parse_time_safe (por (get item "onlinetime") (por (get item "onlineSince") (get item "startTime"))) with
  | Some start => Z.max 0 (Z.min since_midnight (now - Z.max start (midnight now)))
  | None => if 0 <? active then Z.min active since_midnight else 0
  end.

(** ** One snapshot *)

(** The devices by MAC address: the last of several with one address. *)
Definition by_mac (devices : list dict) : list (string * dict) :=
  fold_left (fun acc dev =>
    let mac := norm_mac (get dev "mac") in
    if nonempty mac
    then if existsb (fun kd => String.eqb kd.1 mac) acc
         then List.map (fun kd => if String.eqb kd.1 mac then (mac, dev) else kd) acc
         else acc ++ [(mac, dev)]
    else acc) devices [].

Definition idle_entry (now_epoch : Z) : dict :=
  [("seconds", PInt 0); ("online", PBool false); ("lastSampleEpoch", PInt now_epoch)].

(** The entries of the devices that left, closed. *)
Definition close_absent (present : list string) (now_epoch : Z) (entries : dict) : dict :=
  List.map (fun ke => (ke.1, match ke.2 with
                             | PDict entry =>
                                 if str_in ke.1 present then ke.2
                                 else PDict (dset "lastSampleEpoch" (PInt now_epoch) (dset "online" (PBool false) entry))
                             | _ => PDict (idle_entry now_epoch)
                             end)) entries.

(** The longest time between two snapshots that counts as online. *)
Definition gap_cap : Z := 300.

Definition sampled_seconds (entry dev : dict) (now now_epoch : Z) : Z :=
  let raw := match get dev "raw" with PDict raw => raw | _ => dev end in
  let seed := today_online_seconds_from_item raw now in
  let seconds := Z.max 0 (to_int (get entry "seconds") 0) in
  let last_epoch := to_int (get entry "lastSampleEpoch") 0 in
  let seconds := if truthy (get entry "online") && (0 <? last_epoch)
                 then seconds + Z.min (Z.max 0 (now_epoch - last_epoch)) gap_cap
                 else seconds in
  if seconds <? seed then seed else seconds.

Definition sampled_entry (entry : dict) (seconds now now_epoch : Z) : dict :=
  let text := format_datetime now in
  [("seconds", PInt seconds); ("online", PBool true);
   ("firstSeenAt", PStr (str_or (clean_saved_value (get entry "firstSeenAt")) text));
   ("lastSeenAt", PStr text); ("lastSampleEpoch", PInt now_epoch)].

Definition timed_device (seconds now : Z) (dev : dict) : dict :=
  dset "todayOnlineDate" (PStr (format_date now))
    (dset "todayOnlineDurationText" (PStr (human_duration (PInt seconds)))
      (dset "todayOnlineDurationSec" (PInt seconds) dev)).

(** The entry of each present device. *)
Definition sample_present (now now_epoch : Z) (present : list (string * dict)) (entries : dict) : dict :=
  fold_left (fun entries kd =>
    let entry := dict_or_empty (get entries kd.1) in
    dset kd.1 (PDict (sampled_entry entry (sampled_seconds entry kd.2 now now_epoch) now now_epoch)) entries)
    present entries.

Definition sample (now now_epoch : Z) (devices : list dict) (entries : dict) : dict :=
  let present := by_mac devices in
  sample_present now now_epoch present (close_absent (List.map fst present) now_epoch entries).

(** The devices with their online time; of several with one address only the last is marked. *)
Fixpoint timed_devices (now now_epoch : Z) (entries : dict) (devices : list dict) : list dict :=
  match devices with
  | [] => []
  | dev :: rest =>
      let mac := norm_mac (get dev "mac") in
      (if nonempty mac && negb (existsb (fun d => String.eqb (norm_mac (get d "mac")) mac) rest)
       then timed_device (sampled_seconds (dict_or_empty (get entries mac)) dev now now_epoch) now dev
       else dev) :: timed_devices now now_epoch entries rest
  end.

Section Update.
Context {S : Type} `{DocStore S} {tz : TimeZone} (E : env).

(** The entries kept for a day; those of another day are dropped. *)
Definition state_of (day : string) (state : pyval) : option dict :=
  match state with PDict d => if is_text (get d "date") day then Some d else None | _ => None end.

Definition entries_of (state : dict) : dict := dict_or_empty (get state "devices").

Definition update_daily_online_durations (devices : list dict) (now : Z) : hub S (list dict) :=
  let day := format_date now in
  let now_epoch := of_local now in
  doc ← load_json "daily_online.json" (PDict []);
  text ← now_str;
  let state := default [("date", PStr day); ("devices", PDict []); ("updatedAt", PStr text)] (state_of day doc) in
  let present := by_mac devices in
  let closed := close_absent (List.map fst present) now_epoch (entries_of state) in
  let entries := sample_present now now_epoch present closed in
  _ ← save_json "daily_online.json"
        (PDict (dset "updatedAt" (PStr (format_datetime now)) (dset "devices" (PDict entries)
                 (dset "date" (PStr day) state))));
  mret (timed_devices now now_epoch closed devices).
End Update.

(** ** The count never exceeds the day *)

Lemma to_int_int n d : int_printable n -> to_int (PInt n) d = n.
Proof. intros Hn. unfold to_int. simpl. by rewrite int_of_str_int_str. Qed.

Lemma seed_bound item now : 0 <= today_online_seconds_from_item item now <= now - midnight now.
Proof.
  unfold today_online_seconds_from_item. pose proof (midnight_le now).
  destruct (parse_time_safe _); [lia|]. destruct (0 <? to_int _ _) eqn:E; to_prop; lia.
Qed.

Lemma midnight_date n : format_date (midnight n) = format_date n.
Proof. unfold format_date, midnight. rewrite Z.div_mul; done. Qed.

(** The zone has one offset on the day, which is not before 1970 nor absurdly far away. *)
Definition day_zone {tz : TimeZone} (day offset : Z) : Prop :=
  (forall n, midnight n = day -> of_local n = n - offset) /\ 0 <= day - offset /\ 0 <= day < 2 ^ 62 /\ Z.abs offset < 2 ^ 62.

(** An entry last sampled by [now]: its seconds fit between midnight and its last sample. *)
Definition credit_ok (day offset now : Z) (v : pyval) : Prop :=
  exists e s l, v = PDict e /\ plain v /\ get e "seconds" = PInt s /\ get e "lastSampleEpoch" = PInt l
                /\ 0 <= s <= l + offset - day /\ l + offset <= now.

Lemma credit_ok_sort day offset now v : credit_ok day offset now v -> credit_ok day offset now (sort_keys v).
Proof.
  intros (e & s & l & -> & Hp & Hs & Hl & Hb). rewrite sort_keys_sorted_dict.
  exists (sorted_dict e), s, l. split; [done|]. rewrite !get_sorted by by apply plain_nodup.
  rewrite Hs, Hl. split; [|done]. rewrite <- sort_keys_sorted_dict. by apply plain_sort_keys.
Qed.

Section Bound.
Context {tz : TimeZone} (day offset now prev : Z).
Hypothesis Hzone : day_zone day offset.
Hypothesis Hnow : midnight now = day.
Hypothesis Hprev : prev <= now.

Lemma today_bounds : day <= now < day + 86400 /\ of_local now = now - offset.
Proof. pose proof (midnight_le now) as Hm. unfold secs_per_day in Hm. destruct Hzone as [Hz _]. rewrite (Hz now Hnow). lia. Qed.

Lemma absent_credit present entries :
  Forall (fun ke => credit_ok day offset prev ke.2) entries ->
  Forall (fun ke => credit_ok day offset now ke.2) (close_absent present (of_local now) entries).
Proof.
  destruct today_bounds as [Hd ->]. intros He. unfold close_absent. apply List.Forall_map.
  eapply List.Forall_impl; [|exact He]. intros [k v] (e & s & l & Hv & Hp & Hs & Hl & Hb & Ht). simpl in *. subst v.
  destruct (str_in k present).
  - exists e, s, l. repeat split; try done; lia.
  - eexists _, s, (now - offset). split; [done|]. split; [apply plain_dset; [constructor|apply plain_dset; [constructor|done]]|].
    rewrite get_dset_ne, get_dset_ne by done. rewrite get_dset_eq. repeat split; try done; lia.
Qed.

(** What an entry, or its absence, contributes. *)
Lemma sampled_bound v dev :
  credit_ok day offset now v \/ v = PNone ->
  0 <= sampled_seconds (dict_or_empty v) dev now (of_local now) <= now - day.
Proof.
  destruct today_bounds as [Hd Ho]. destruct Hzone as (_ & Hz0 & Hz1 & Hz2). unfold sampled_seconds.
  set (raw := match get dev "raw" with PDict raw => raw | _ => dev end).
  pose proof (seed_bound raw now) as Hseed. rewrite Hnow in Hseed.
  intros [(e & s & l & -> & _ & Hs & Hl & Hb & Ht)| ->].
  - cbn [dict_or_empty]. rewrite Hs, Hl. rewrite !to_int_int by (apply small_printable; lia).
    rewrite Ho. unfold gap_cap. destruct (truthy _ && (0 <? l)); destruct (_ <? _) eqn:E; to_prop; lia.
  - cbn [dict_or_empty]. change (to_int (get [] "seconds") 0) with 0. simpl (truthy _ && _).
    destruct (_ <? _) eqn:E; to_prop; lia.
Qed.

Lemma sampled_entry_credit entry s :
  0 <= s <= now - day -> credit_ok day offset now (PDict (sampled_entry entry s now (of_local now))).
Proof.
  destruct today_bounds as [Hd ->]. intros Hs. eexists _, s, (now - offset). split; [done|].
  split; [unfold sampled_entry; solve_plain|]. repeat split; try done; lia.
Qed.

Lemma get_credit entries k :
  Forall (fun ke => credit_ok day offset now ke.2) entries ->
  credit_ok day offset now (get entries k) \/ get entries k = PNone.
Proof.
  intros He. unfold get. destruct (dget entries k) as [v|] eqn:E; [left|by right].
  apply dget_In in E. by apply (proj1 (List.Forall_forall _ _) He) in E.
Qed.

Lemma present_credit present entries :
  Forall (fun ke => credit_ok day offset now ke.2) entries ->
  Forall (fun ke => credit_ok day offset now ke.2) (sample_present now (of_local now) present entries).
Proof.
  unfold sample_present. revert entries. induction present as [|[k d] present IH]; intros entries He; [done|].
  cbn [fold_left]. apply IH. apply (Forall_dset (credit_ok day offset now)); [|done].
  apply sampled_entry_credit, sampled_bound, get_credit, He.
Qed.

Lemma sample_nodup present entries :
  nodup_keys entries ->
  nodup_keys (sample_present now (of_local now) present (close_absent (List.map fst present) (of_local now) entries)).
Proof.
  intros Hn. unfold sample_present. assert (nodup_keys (close_absent (List.map fst present) (of_local now) entries)) as Hc.
  { unfold nodup_keys, keys, close_absent. rewrite List.map_map. exact Hn. }
  revert Hc. generalize (close_absent (List.map fst present) (of_local now) entries). clear.
  induction present as [|[k d] present IH]; intros entries Hn; [done|]. cbn [fold_left]. apply IH. by apply nodup_dset.
Qed.

Lemma timed_devices_bound entries devices dev :
  Forall (fun ke => credit_ok day offset now ke.2) entries ->
  In dev (timed_devices now (of_local now) entries devices) ->
  In dev devices \/ exists s, get dev "todayOnlineDurationSec" = PInt s /\ 0 <= s <= now - day.
Proof.
  intros He. induction devices as [|d devices IH]; [done|]. cbn [timed_devices]. intros [Hd|Hd].
  - destruct (_ && _); [|left; by left]. right. subst dev. eexists.
    unfold timed_device. rewrite get_dset_ne, get_dset_ne, get_dset_eq by done. split; [done|].
    by apply sampled_bound, get_credit.
  - destruct (IH Hd); [left; by right|by right].
Qed.
End Bound.

Section Invariant.
Context {S : Type} `{DocStoreLaws S} {tz : TimeZone}.

(** The entries stored for a day. *)
Definition day_entries (day : Z) (w : world S) : dict :=
  match state_of (format_date day) (default (PDict []) (doc_read "daily_online.json" (w_docs w))) with
  | Some state => entries_of state
  | None => []
  end.

Definition credits (day offset now : Z) (w : world S) : Prop :=
  Forall (fun ke => credit_ok day offset now ke.2) (day_entries day w).

(** Every stored entry gives its device at most the seconds from midnight to [now]. *)
Lemma credits_bound day offset now w mac v :
  credits day offset now w -> dget (day_entries day w) mac = Some v ->
  exists e s, v = PDict e /\ get e "seconds" = PInt s /\ 0 <= s <= now - day.
Proof.
  intros Hc Hv%dget_In. apply (proj1 (List.Forall_forall _ _) Hc) in Hv as (e & s & l & Hv & _ & Hs & _ & Hb & Ht).
  exists e, s. repeat split; try done; lia.
Qed.

Lemma credit_dict day offset now d :
  nodup_keys d -> Forall (fun ke => credit_ok day offset now ke.2) d -> plain (PDict d).
Proof.
  intros Hn Hd. constructor; [done|]. eapply List.Forall_impl; [|exact Hd]. by intros ke (e & s & l & _ & Hp & _).
Qed.

Lemma credits_sorted day offset now d :
  Forall (fun ke => credit_ok day offset now ke.2) d -> Forall (fun ke => credit_ok day offset now ke.2) (sorted_dict d).
Proof.
  intros Hd. apply List.Forall_forall. intros ke Hin. unfold sorted_dict in Hin.
  apply isort_in, in_map_iff in Hin as ([k v] & <- & Hin). apply credit_ok_sort.
  by apply (proj1 (List.Forall_forall _ _) Hd) in Hin.
Qed.

Lemma sort_keys_get d k : plain (PDict d) -> get (sorted_dict d) k = sort_keys (get d k).
Proof. intros Hp. by apply get_sorted, plain_nodup. Qed.

(** C37. Within a day no device is credited with more online time than the day has had, however
    irregular the snapshots are: the bound holds for the stored entries after every snapshot,
    and for the number each device carries away from it. *)
Theorem online_time_within_day day offset prev now devices w ds w' :
  day_zone day offset -> midnight now = day -> prev <= now -> doc_ok (w_docs w) -> credits day offset prev w ->
  update_daily_online_durations devices now w = (Ok ds, w') ->
  credits day offset now w'
  /\ forall dev, In dev ds ->
     In dev devices \/ exists s, get dev "todayOnlineDurationSec" = PInt s /\ 0 <= s <= now - day.
Proof.
  intros Hz Hday Hprev Hdoc Hc. unfold update_daily_online_durations. rewrite prog_bind_eq.
  unfold load_json at 1. rewrite prog_bind_eq. unfold now_str at 1.
  assert (format_date now = format_date day) as Hfd by by rewrite <- Hday, midnight_date. rewrite Hfd.
  set (text := format_datetime _). set (doc := default (PDict []) (doc_read _ _)).
  set (state := default _ (state_of _ doc)). set (closed := close_absent _ _ _). set (present := by_mac devices).
  assert (Forall (fun ke => credit_ok day offset prev ke.2) (entries_of state) /\ nodup_keys (entries_of state)
          /\ plain (PDict state)) as (He & Hn & Hp).
  { unfold credits, day_entries in Hc. fold doc in Hc. subst state. destruct (state_of _ doc) as [d|] eqn:Ed.
    - split; [exact Hc|]. assert (plain (PDict d)) as Hpd.
      { unfold state_of in Ed. destruct doc as [| | | | | |d0] eqn:Edoc; try done.
        destruct (is_text _ _); [|done]. injection Ed as ->. unfold doc in Edoc.
        destruct (doc_read "daily_online.json" (w_docs w)) as [v|] eqn:Er.
        - simpl in Edoc. subst v. eapply json_ok_plain, doc_read_ok; [exact Hdoc|exact Er].
        - simpl in Edoc. injection Edoc as <-. constructor; constructor. }
      split; [|exact Hpd]. change (nodup_keys (dict_or_empty (get d "devices"))). pose proof (plain_get d "devices" Hpd) as Hg.
      destruct (get d "devices"); first [by apply plain_nodup|exact (List.NoDup_nil _)].
    - split; [constructor|]. split; [exact (List.NoDup_nil _)|]. solve_plain. }
  pose proof (absent_credit day offset now prev Hz Hday Hprev (List.map fst present) _ He) as Hcl. fold closed in Hcl.
  pose proof (present_credit day offset now Hz Hday present _ Hcl) as Hpr.
  assert (nodup_keys (sample_present now (of_local now) present closed)) as Hnp by by apply sample_nodup.
  set (entries := sample_present now (of_local now) present closed) in *.
  rewrite prog_bind_eq. destruct (save_json _ _ _) as [[[]|e] w1] eqn:Es; [|done]. intros [= <- <-].
  split.
  - apply save_json_read in Es; [|done|].
    + unfold credits, day_entries. rewrite Es, sort_keys_sorted_dict. cbn [default from_option id state_of].
      set (d := dset "updatedAt" _ _) in *.
      assert (plain (PDict d)) as Hd.
      { subst d. apply plain_dset; [constructor|]. apply plain_dset; [by eapply credit_dict|].
        apply plain_dset; [constructor|done]. }
      rewrite !sort_keys_get by done. unfold d at 1. rewrite get_dset_ne, get_dset_ne, get_dset_eq by done.
      simpl sort_keys. rewrite (proj2 (is_text_spec _ _) eq_refl). unfold entries_of. rewrite sort_keys_get by done.
      unfold d. rewrite get_dset_ne, get_dset_eq by done. rewrite sort_keys_sorted_dict. by apply credits_sorted.
    + apply plain_dset; [constructor|]. apply plain_dset; [by eapply credit_dict|]. apply plain_dset; [constructor|done].
  - intros dev Hin. exact (timed_devices_bound day offset now Hz Hday _ _ _ Hcl Hin).
Qed.

(** A device present in a snapshot keeps its count or gains: the time since its last
    sample, at most five minutes of it, or what the router itself claims if that is more. *)
Theorem snapshot_counts entry dev now s l :
  get entry "seconds" = PInt s -> get entry "lastSampleEpoch" = PInt l -> int_printable s -> int_printable l -> 0 <= s ->
  let counted := sampled_seconds entry dev now (of_local now) in
  let raw := match get dev "raw" with PDict raw => raw | _ => dev end in
  s <= counted
  /\ (get entry "online" = PBool true -> 0 < l <= of_local now ->
      counted = Z.max (s + Z.min (of_local now - l) 300) (today_online_seconds_from_item raw now))
  /\ (get entry "online" = PBool false -> counted = Z.max s (today_online_seconds_from_item raw now)).
Proof.
  intros Hs Hl Ps Pl Hpos. cbv zeta. unfold sampled_seconds. rewrite Hs, Hl, !to_int_int by done.
  set (raw := match get dev "raw" with PDict raw => raw | _ => dev end). unfold gap_cap.
  split; [|split].
  - destruct (truthy _ && (0 <? l)); destruct (_ <? _) eqn:E; to_prop; lia.
  - intros -> Hle. simpl. assert (0 <? l = true) as -> by (apply Z.ltb_lt; lia).
    destruct (_ <? _) eqn:E; to_prop; lia.
  - intros ->. simpl. destruct (_ <? _) eqn:E; to_prop; lia.
Qed.
End Invariant.

(** ** A wired device over two minutes *)

Definition wired : dict := [("mac", PStr "AA-BB-CC-00-11-22"); ("name", PStr "NAS")].
Definition noon : Z := 1700020000 + 28800.

Definition one_sample : world store := later 20120000 (run (update_daily_online_durations [wired] noon) demo_world).

Lemma online_time_within_day_witness :
  credits (midnight noon) 28800 (noon + 120) (run (update_daily_online_durations [wired] (noon + 120)) one_sample)
  /\ forall dev, In dev [timed_device 120 (noon + 120) wired] ->
     In dev [wired] \/ exists s, get dev "todayOnlineDurationSec" = PInt s /\ 0 <= s <= noon + 120 - midnight noon.
Proof.
  apply (online_time_within_day (midnight noon) 28800 noon (noon + 120) [wired] one_sample).
  - split; [done|]. split; [by vm_compute|]. split; [split; by vm_compute|by vm_compute].
  - vm_compute. reflexivity.
  - unfold noon. lia.
  - apply (texts_okb_sound (w_docs one_sample)). vm_compute. reflexivity.
  - unfold credits.
    assert (day_entries (midnight noon) one_sample
            = [("aa:bb:cc:00:11:22", PDict (sorted_dict (sampled_entry [] 0 noon (noon - 28800))))]) as ->
      by (vm_compute; reflexivity).
    apply List.Forall_cons; [|constructor]. cbn [snd].
    change (PDict (sorted_dict ?e)) with (sort_keys (PDict e)). apply credit_ok_sort.
    eexists _, 0, (noon - 28800). split; [reflexivity|]. split; [unfold sampled_entry; solve_plain|].
    split; [reflexivity|]. split; [reflexivity|]. split; [split; by vm_compute|unfold noon; lia].
  - assert (fst (update_daily_online_durations [wired] (noon + 120) one_sample)
            = Ok [timed_device 120 (noon + 120) wired]) as <- by (vm_compute; reflexivity).
    apply surjective_pairing.
Defined.

Lemma snapshot_counts_witness :
  sampled_seconds (sampled_entry [] 40 noon 1700020000) wired (noon + 900) (of_local (noon + 900)) = 340.
Proof.
  assert (sampled_seconds (sampled_entry [] 40 noon 1700020000) wired (noon + 900) (of_local (noon + 900))
          = Z.max (40 + Z.min (of_local (noon + 900) - 1700020000) 300)
              (today_online_seconds_from_item wired (noon + 900))) as ->; [|vm_compute; reflexivity].
  apply (snapshot_counts (sampled_entry [] 40 noon 1700020000) wired (noon + 900) 40 1700020000);
    try reflexivity; try lia; try (apply small_printable; reflexivity).
  split; [reflexivity|]. vm_compute. discriminate.
Defined.
