(* ===== verification/DailyFacts.v ===== *)
(** * Facts about the event feed and the daily summary

    Deleted events leave the feed, event numbers only grow, the clean-up leaves every device
    with alternating online and offline events, the counts of the summary add up, and what
    the reading of duration texts loses. *)

From S2P Require Import Prelude PyNum PyVal PyTime HubValues Json Storage Hub Fixtures Daily.
From S2P Require Import OnlineTime.

(** ** Sessions alternate *)

(** The device and the type of an event the clean-up looks at. *)
Definition session_mark (e : dict) : option (string * string) :=
  if str_in (event_type e) ["device_online"; "device_offline"] && nonempty (event_device_key e)
  then Some (event_device_key e, event_type e) else None.

(** The types of the session events of a device, in order. *)
Definition marks_of (key : string) (events : list dict) : list string :=
  omap (fun e => match session_mark e with
                 | Some (k, t) => if String.eqb k key then Some t else None
                 | None => None
                 end) events.

Definition others (events : list dict) : list dict :=
  List.filter (fun e => match session_mark e with Some _ => false | None => true end) events.

(** No two neighbours are equal. *)
Definition alternates (l : list string) : Prop := forall i x y, l !! i = Some x -> l !! (1 + i)%nat = Some y -> x <> y.

Lemma alternates_snoc l x : alternates l -> last l <> Some x -> alternates (l ++ [x]).
Proof.
  intros Hl Hx i a b Ha Hb. destruct (decide (1 + i < List.length l)%nat) as [Hi|Hi].
  - rewrite lookup_app_l in Ha, Hb by lia. by eapply Hl.
  - assert (1 + i = List.length l)%nat as He by (apply lookup_lt_Some in Hb; rewrite length_app in Hb; simpl in Hb; lia).
    rewrite lookup_app_r in Hb by lia. rewrite He, Nat.sub_diag in Hb. injection Hb as <-.
    rewrite lookup_app_l in Ha by lia. intros ->. apply Hx. rewrite last_lookup, <- Ha, <- He. done.
Qed.

Lemma marks_of_app key a b : marks_of key (a ++ b) = marks_of key a ++ marks_of key b.
Proof. apply omap_app. Qed.

Lemma others_app a b : others (a ++ b) = others a ++ others b.
Proof. apply List.filter_app. Qed.

Section Sessions.
Context {tz : TimeZone}.

(** A kept session event leaves its device in its own state. *)
Definition stands_for (typ : string) : string := if String.eqb typ "device_online" then "online" else "offline".

Record sessions_inv (seen : list dict) (s : sessions) : Prop := {
  si_state : forall key, ss_state s !! key = stands_for <$> last (marks_of key (rev (ss_kept s)));
  si_alternate : forall key, alternates (marks_of key (rev (ss_kept s)));
  si_others : others (rev (ss_kept s)) = others seen;
}.

Lemma session_mark_some e key :
  str_in (event_type e) ["device_online"; "device_offline"] = true -> event_device_key e = key -> nonempty key = true ->
  session_mark e = Some (key, event_type e).
Proof. intros Ht <- Hk. unfold session_mark. by rewrite Ht, Hk. Qed.

(** Keeping a session event of the type its device was not in. *)
Lemma keep_session seen s s' e0 e key :
  sessions_inv seen s -> session_mark e = Some (key, event_type e) -> session_mark e0 <> None ->
  In (event_type e) ["device_online"; "device_offline"] ->
  ss_state s !! key <> Some (stands_for (event_type e)) ->
  ss_state s' = <[key := stands_for (event_type e)]> (ss_state s) -> ss_kept s' = ss_kept s ->
  sessions_inv (seen ++ [e0]) (keep_event e s').
Proof.
  intros Hi Hm H0 Ht Hne Hs Hk. destruct Hi as [Hst Ha Ho].
  assert (forall k, marks_of k (rev (ss_kept (keep_event e s'))) =
                    marks_of k (rev (ss_kept s)) ++ if String.eqb key k then [event_type e] else []) as Hmk.
  { intros k. cbn [keep_event ss_kept rev]. rewrite Hk, marks_of_app. f_equal. unfold marks_of. simpl. rewrite Hm.
    by destruct (String.eqb key k). }
  split.
  - intros k. cbn [keep_event ss_state]. rewrite Hs, Hmk. destruct (String.eqb_spec key k) as [<-|Hne'].
    + by rewrite lookup_insert_eq, last_snoc.
    + by rewrite lookup_insert_ne, app_nil_r.
  - intros k. rewrite Hmk. destruct (String.eqb_spec key k) as [<-|]; [|by rewrite app_nil_r].
    apply alternates_snoc; [done|]. intros Hl. apply Hne. by rewrite Hst, Hl.
  - cbn [keep_event ss_kept rev]. rewrite Hk, !others_app, Ho. f_equal. unfold others. simpl. rewrite Hm.
    by destruct (session_mark e0).
Qed.

Lemma skip_session seen s e : sessions_inv seen s -> session_mark e <> None -> sessions_inv (seen ++ [e]) s.
Proof.
  intros [Hst Ha Ho] He. split; [done|done|]. rewrite others_app, Ho. unfold others at 3. simpl.
  destruct (session_mark e); [by rewrite app_nil_r|done].
Qed.

Lemma keep_other seen s e : sessions_inv seen s -> session_mark e = None -> sessions_inv (seen ++ [e]) (keep_event e s).
Proof.
  intros [Hst Ha Ho] He.
  assert (forall k, marks_of k (rev (ss_kept (keep_event e s))) = marks_of k (rev (ss_kept s))) as Hmk.
  { intros k. cbn [keep_event ss_kept rev]. rewrite marks_of_app. unfold marks_of at 2. simpl. by rewrite He, app_nil_r. }
  split; try (intros k; rewrite Hmk; auto).
  cbn [keep_event ss_kept rev]. by rewrite !others_app, Ho.
Qed.

Lemma timed_same_device e text :
  event_type (dset "onlineDurationText" text e) = event_type e
  /\ event_device_key (dset "onlineDurationText" text e) = event_device_key e.
Proof.
  unfold event_type, event_device_key, get_or. rewrite dget_dset_ne, !get_dset_ne by done. done.
Qed.

Lemma state_ne (s : sessions) key (t : string) :
  bool_decide (ss_state s !! key = Some t) = false -> ss_state s !! key <> Some t.
Proof. by intros ?%bool_decide_eq_false. Qed.

Lemma daily_step_inv seen s e : sessions_inv seen s -> sessions_inv (seen ++ [e]) (daily_step s e).
Proof.
  intros Hi. unfold daily_step. destruct (str_in (event_type e) _) eqn:Ht; cbn [negb].
  2: { apply keep_other; [done|]. unfold session_mark. by rewrite Ht. }
  destruct (nonempty (event_device_key e)) eqn:Hk; cbn [negb].
  2: { apply keep_other; [done|]. unfold session_mark. by rewrite Ht, Hk. }
  pose proof (session_mark_some e _ Ht eq_refl Hk) as Hm.
  assert (session_mark e <> None) as Hm0 by by rewrite Hm.
  assert (In (event_type e) ["device_online"; "device_offline"]) as Hin.
  { unfold str_in in Ht. apply existsb_exists in Ht as (t & Hin & ->%String.eqb_eq). done. }
  destruct (String.eqb (event_type e) "device_online") eqn:Hon.
  - destruct (bool_decide _) eqn:Hp; [by apply skip_session|].
    eapply (keep_session seen s _ e e); [done|exact Hm|done|done| |unfold stands_for; rewrite Hon; reflexivity|done].
    unfold stands_for. rewrite Hon. by apply state_ne.
  - set (measured := (claimed_seconds e <=? 0) && _ && _ && _). set (dur := if measured then _ else _).
    set (e' := if measured then _ else e).
    assert (event_type e' = event_type e /\ event_device_key e' = event_device_key e) as [Ht' Hk'].
    { subst e'. destruct measured; [apply timed_same_device|done]. }
    destruct (dur <=? 0); [by apply skip_session|]. destruct (bool_decide _) eqn:Hp; [by apply skip_session|].
    destruct (negb _ && _); [by apply skip_session|].
    eapply (keep_session seen s _ e e' (event_device_key e)); [done| |done| | | |].
    + rewrite Ht'. apply session_mark_some in Hk'; [|by rewrite Ht'|done]. by rewrite Hk', Ht'.
    + by rewrite Ht'.
    + rewrite Ht'. unfold stands_for. rewrite Hon. by apply state_ne.
    + rewrite Ht'. unfold stands_for. rewrite Hon. reflexivity.
    + done.
Qed.

Lemma daily_fold_inv events seen s :
  sessions_inv seen s -> sessions_inv (seen ++ events) (fold_left daily_step events s).
Proof.
  revert seen s. induction events as [|e events IH]; intros seen s Hi; [by rewrite app_nil_r|].
  cbn [fold_left]. replace (seen ++ e :: events) with ((seen ++ [e]) ++ events) by by rewrite <- app_assoc.
  by apply IH, daily_step_inv.
Qed.

(** After the clean-up of a day's events, the online and offline events of every device
    alternate, and no other event is lost or moved. *)
Theorem daily_sessions_alternate events kept :
  normalize_device_events_for_daily events = Ok kept ->
  (forall key, alternates (marks_of key kept))
  /\ exists ordered, daily_order events = Ok ordered /\ Permutation ordered events /\ others kept = others ordered.
Proof.
  unfold normalize_device_events_for_daily. destruct (daily_order events) as [ordered|] eqn:Eo; [|done].
  simpl. intros [= <-]. assert (sessions_inv [] no_sessions) as H0.
  { by split. }
  pose proof (daily_fold_inv ordered [] no_sessions H0) as [_ Ha Ho]. simpl in Ho.
  split; [exact Ha|]. exists ordered. split; [done|]. split; [|exact Ho]. clear Ha Ho H0.
  unfold daily_order in Eo. apply result_bind_ok in Eo as (rows & Hr & [= <-]). rewrite (isort_perm daily_le rows).
  revert rows Hr. induction events as [|e events IH]; intros rows Hr; simpl in Hr; [by injection Hr as <-|].
  destruct (event_id e) as [n|]; simpl in Hr; [|done].
  destruct (result_map _ events) as [rows'|] eqn:Er; [|done]. injection Hr as <-. simpl. by rewrite (IH rows').
Qed.
End Sessions.

(** ** The counts of the summary *)

Definition total {A} (f : A -> Z) (l : list A) : Z := fold_right (fun x n => f x + n) 0 l.

Definition is_type (typ : string) (e : dict) : Z := if String.eqb (event_type e) typ then 1 else 0.

(** The seconds a device event adds. *)
Definition counted_seconds (e : dict) : Z :=
  if starts_with "device_" (event_type e) then Z.max 0 (claimed_seconds e) else 0.

Lemma total_app {A} (f : A -> Z) a b : total f (a ++ b) = total f a + total f b.
Proof. induction a as [|x a IH]; simpl; [done|]. rewrite IH. lia. Qed.

Lemma upsert_device_total (g : daily_device -> Z) key new f delta l :
  (forall d, g (f d) = g d + delta) -> g new = 0 ->
  total (fun kd => g kd.2) (upsert_device key new f l) = total (fun kd => g kd.2) l + delta.
Proof.
  intros Hf Hn. induction l as [|[k d] l IH]; simpl; [rewrite Hf; lia|].
  destruct (String.eqb key k); simpl; [rewrite Hf; lia|]. rewrite IH. lia.
Qed.

Lemma upsert_device_keys key new f l :
  List.map fst (upsert_device key new f l)
  = if existsb (fun kd => String.eqb key kd.1) l then List.map fst l else List.map fst l ++ [key].
Proof.
  induction l as [|[k d] l IH]; simpl; [done|]. destruct (String.eqb key k); simpl; [done|]. rewrite IH.
  by destruct (existsb _ l).
Qed.

Lemma device_types typ : starts_with "device_" typ = false ->
  String.eqb typ "device_online" = false /\ String.eqb typ "device_offline" = false.
Proof.
  intros Hs. split; apply String.eqb_neq; intros ->; discriminate.
Qed.

(** The totals of an accumulator that has seen these events. *)
Record totals (events : list dict) (acc : daily_acc) : Prop := {
  to_online : da_online acc = total (is_type "device_online") events;
  to_offline : da_offline acc = total (is_type "device_offline") events;
  to_devices_online : total (fun kd => dd_online kd.2) (da_devices acc) = da_online acc;
  to_devices_offline : total (fun kd => dd_offline kd.2) (da_devices acc) = da_offline acc;
  to_seconds : total (fun kd => dd_seconds kd.2) (da_devices acc) = total counted_seconds events;
  to_devices : List.NoDup (List.map fst (da_devices acc));
}.

Lemma totals_step events acc e : totals events acc -> totals (events ++ [e]) (aggregate_event acc e).
Proof.
  intros [Hon Hoff Hdn Hdf Hs Hd].
  assert (forall f : dict -> Z, total f (events ++ [e]) = total f events + f e) as Ht
    by (intros f; rewrite total_app; simpl; lia).
  unfold aggregate_event.
  destruct (starts_with "device_" (event_type e)) eqn:Et.
  - split; cbn [da_devices da_online da_offline]; rewrite ?Ht.
    + by rewrite Hon.
    + by rewrite Hoff.
    + by rewrite (upsert_device_total dd_online _ _ _ (is_type "device_online" e)), Hdn.
    + by rewrite (upsert_device_total dd_offline _ _ _ (is_type "device_offline" e)), Hdf.
    + rewrite (upsert_device_total dd_seconds _ _ _ (counted_seconds e)), Hs; [done| |done].
      intros d. unfold counted_seconds. rewrite Et. cbn [add_device_event dd_seconds].
      destruct (0 <? claimed_seconds e) eqn:E; to_prop; lia.
    + rewrite upsert_device_keys. destruct (existsb _ _) eqn:Ex; [done|]. apply NoDup_ListNoDup, NoDup_app.
      split; [by apply NoDup_ListNoDup|]. split; [|apply NoDup_singleton].
      intros k Hk Hin. apply list_elem_of_singleton in Hin. apply list_elem_of_In, in_map_iff in Hk as (kd & Hkd & Hk).
      apply not_true_iff_false in Ex. apply Ex, existsb_exists. exists kd. split; [done|].
      apply String.eqb_eq. congruence.
  - assert (forall acc', da_devices acc' = da_devices acc -> da_online acc' = da_online acc ->
              da_offline acc' = da_offline acc -> totals (events ++ [e]) acc') as Hkeep.
    { intros acc' Ed En Ef. apply device_types in Et as He. destruct He as [H1 H2].
      assert (is_type "device_online" e = 0) as E1 by (unfold is_type; by rewrite H1).
      assert (is_type "device_offline" e = 0) as E2 by (unfold is_type; by rewrite H2).
      assert (counted_seconds e = 0) as E3 by (unfold counted_seconds; by rewrite Et).
      split; rewrite ?Ed, ?En, ?Ef, ?Ht, ?E1, ?E2, ?E3, ?Z.add_0_r; done. }
    repeat case_match; by apply Hkeep.
Qed.

(** The counts of a day's summary are exact: the online and offline totals count the
    events of each kind, the rows of the devices add up to those totals and to the seconds
    of the events, and every device has one row. *)
Theorem summary_counts_add_up events :
  let acc := fold_left aggregate_event events no_daily in
  da_online acc = total (is_type "device_online") events
  /\ da_offline acc = total (is_type "device_offline") events
  /\ total (fun kd => dd_online kd.2) (da_devices acc) = da_online acc
  /\ total (fun kd => dd_offline kd.2) (da_devices acc) = da_offline acc
  /\ total (fun kd => dd_seconds kd.2) (da_devices acc) = total counted_seconds events
  /\ List.NoDup (List.map fst (da_devices acc)).
Proof.
  assert (forall rest seen acc, totals seen acc -> totals (seen ++ rest) (fold_left aggregate_event rest acc)) as Hf.
  { induction rest as [|e rest IH]; intros seen acc Hi; [by rewrite app_nil_r|]. cbn [fold_left].
    replace (seen ++ e :: rest) with ((seen ++ [e]) ++ rest) by by rewrite <- app_assoc. by apply IH, totals_step. }
  destruct (Hf events [] no_daily) as [? ? ? ? ? ?]; [split; try done; constructor|]. simpl in *. auto 10.
Qed.

(** ** What duration texts lose *)

(** The minutes and seconds of a duration of an hour or more. *)
Definition hour_tail (m s : Z) : string := "小时" +:+ pad_int 2 m +:+ "分" +:+ pad_int 2 s +:+ "秒".

Lemma replace_digits new d t :
  sall is_digit d = true -> replace "时" new (d +:+ t) = d +:+ replace "时" new t.
Proof.
  intros Hd. unfold replace. induction d as [|c d IH]; [done|]. simpl in Hd. apply andb_prop in Hd as [Hc Hd].
  change (String c d +:+ t) with (String c (d +:+ t)). cbn [replace_go].
  destruct (String.prefix "时" (String c (d +:+ t))) eqn:Ep.
  - exfalso. apply prefix_true in Ep as (u & Hu). injection Hu as -> _. discriminate.
  - rewrite IH by done. reflexivity.
Qed.

Lemma search_digits lit cur d t :
  sall is_digit d = true -> search_number_go lit cur (d +:+ t) = search_number_go lit (cur +:+ d) t.
Proof.
  revert cur. induction d as [|c d IH]; intros cur Hd; [by rewrite append_nil_r|].
  simpl in Hd. apply andb_prop in Hd as [Hc Hd].
  change (String c d +:+ t) with (String c (d +:+ t)). cbn [search_number_go]. rewrite Hc, IH by done.
  by rewrite append_assoc.
Qed.

(** A digit run not followed by the literal is passed over. *)
Lemma search_passes lit d t :
  sall is_digit d = true ->
  match t with String c _ => negb (is_digit c) | EmptyString => false end = true -> String.prefix lit t = false ->
  search_number lit (d +:+ t) = search_number lit t.
Proof.
  intros Hd Ht Hp. unfold search_number. rewrite search_digits by done. destruct t as [|c t]; [done|].
  apply negb_true_iff in Ht. cbn [search_number_go]. by rewrite Ht, Hp, !andb_false_r.
Qed.

Definition literals : list string := ["小时"; "分"; "秒"].
Definition twice_replaced (m s : Z) : string := replace "时" "小时" (replace "时" "小时" (hour_tail m s)).

(** What is checked of each of the 3600 tails. *)
Definition tail_okb (m s : Z) : bool :=
  let t := hour_tail m s in let t1 := replace "时" "小时" t in let t2 := twice_replaced m s in
  sall (fun c => negb (is_space c)) t && sall (fun c => negb (is_space c)) t1 && sall (fun c => negb (is_space c)) t2
  && (match span is_digit t with (a, b) => negb (nonempty a) && negb (starts_with "分" b) && negb (String.eqb b "分") end)
  && match t2 with String c _ => negb (is_digit c) | EmptyString => false end
  && forallb (fun lit => negb (String.prefix lit t2)) literals
  && (default 0 (search_number "小时" t2) * 3600 + default 0 (search_number "分" t2) * 60
      + default 0 (search_number "秒" t2) =? m * 60 + s).

Definition sixty : list Z := List.map Z.of_nat (seq 0 60).

Lemma in_sixty n : 0 <= n < 60 -> In n sixty.
Proof. intros Hn. apply in_map_iff. exists (Z.to_nat n). split; [lia|]. apply in_seq. lia. Qed.

Lemma tails_ok m s : 0 <= m < 60 -> 0 <= s < 60 -> tail_okb m s = true.
Proof.
  intros Hm%in_sixty Hs%in_sixty.
  assert (forallb (fun m => forallb (tail_okb m) sixty) sixty = true) as H by (vm_compute; reflexivity).
  rewrite forallb_forall in H. specialize (H m Hm). rewrite forallb_forall in H. by apply H.
Qed.

Lemma sall_no_space d : sall is_digit d = true -> sall (fun c => negb (is_space c)) d = true.
Proof. apply digits_no_space. Qed.

Lemma str_or_empty_str s : str_or_empty (PStr s) = s.
Proof. unfold str_or_empty. simpl. destruct (nonempty s) eqn:E; [done|]. by apply nonempty_false in E as ->. Qed.

(** A text that starts with a digit is no blank duration. *)
Lemma digit_not_blank d t : sall is_digit d = true -> d <> "" -> is_blank_duration (d +:+ t) = false.
Proof.
  intros Hd Hne. destruct d as [|c d]; [done|]. simpl in Hd. apply andb_prop in Hd as [Hc _].
  change (String c d +:+ t) with (String c (d +:+ t)). unfold is_blank_duration. simpl.
  repeat (match goal with |- context [Ascii.eqb c ?x] =>
    destruct (Ascii.eqb_spec c x) as [->|]; [discriminate|] end).
  reflexivity.
Qed.

Lemma strip_digits d t :
  sall is_digit d = true -> sall (fun c => negb (is_space c)) t = true -> strip (d +:+ t) = d +:+ t.
Proof. intros Hd Ht. apply strip_by_id. by rewrite sall_app, sall_no_space, Ht. Qed.

Lemma pretty_hours d m s :
  sall is_digit d = true -> d <> "" -> 0 <= m < 60 -> 0 <= s < 60 ->
  pretty_duration_text (PStr (d +:+ hour_tail m s)) = d +:+ replace "时" "小时" (hour_tail m s).
Proof.
  intros Hd Hne Hm Hs. pose proof (tails_ok m s Hm Hs) as Hok. unfold tail_okb in Hok. rewrite !andb_true_iff in Hok.
  destruct Hok as ((((((Hs0 & _) & _) & Hspan) & _) & _) & _). unfold pretty_duration_text.
  rewrite str_or_empty_str, strip_digits, digit_not_blank by done. unfold match_min_sec, match_min.
  assert (span is_digit (d +:+ hour_tail m s) = (d, hour_tail m s)) as ->.
  { apply span_app; [done|]. unfold hour_tail. reflexivity. }
  assert (span is_digit (hour_tail m s) = ("", hour_tail m s)) as Eh by reflexivity. rewrite Eh in Hspan.
  rewrite !andb_true_iff, !negb_true_iff in Hspan. destruct Hspan as [[_ Hp] He].
  rewrite Hp, He, !andb_false_r. cbn [mbind option_bind]. by apply replace_digits.
Qed.

Lemma hours_lost d m s :
  sall is_digit d = true -> d <> "" -> 0 <= m < 60 -> 0 <= s < 60 ->
  duration_text_to_seconds (PStr (pretty_duration_text (PStr (d +:+ hour_tail m s)))) = m * 60 + s.
Proof.
  intros Hd Hne Hm Hs. rewrite pretty_hours by done.
  pose proof (tails_ok m s Hm Hs) as Hok. unfold tail_okb in Hok. rewrite !andb_true_iff in Hok.
  destruct Hok as ((((((_ & Hs1) & Hs2) & _) & Hh) & Hlit) & Hsum%Z.eqb_eq). rewrite <- Hsum.
  unfold duration_text_to_seconds. rewrite str_or_empty_str, strip_digits, replace_digits by done.
  change (replace "时" "小时" (replace "时" "小时" (hour_tail m s))) with (twice_replaced m s).
  rewrite digit_not_blank by done. rewrite forallb_forall in Hlit.
  rewrite !search_passes; [done|done| |apply negb_true_iff, Hlit|done| |apply negb_true_iff, Hlit|done| |apply negb_true_iff, Hlit];
    first [done|unfold literals; simpl; tauto].
Qed.

(** Below an hour the text is read back exactly. *)
Lemma short_durations n :
  0 < n < 3600 -> duration_text_to_seconds (PStr (pretty_duration_text (PStr (human_duration_precise (PInt n))))) = n.
Proof.
  intros Hn. set (f := fun n => duration_text_to_seconds (PStr (pretty_duration_text (PStr (human_duration_precise (PInt n)))))).
  assert (forallb (fun n => f n =? n) (List.map Z.of_nat (seq 1 3599)) = true) as H by (vm_compute; reflexivity).
  rewrite forallb_forall in H. apply Z.eqb_eq, H, in_map_iff. exists (Z.to_nat n). split; [lia|]. apply in_seq. lia.
Qed.

Lemma precise_hours n : int_printable n -> 3600 <= n ->
  human_duration_precise (PInt n) = int_str (n / 3600) +:+ hour_tail (n mod 3600 / 60) (n mod 60).
Proof.
  intros Hp Hn. unfold human_duration_precise. rewrite to_int_int by done.
  assert (n <=? 0 = false) as -> by (apply Z.leb_gt; lia).
  assert (0 <? n / 3600 = true) as -> by (apply Z.ltb_lt, Z.div_str_pos; lia). done.
Qed.

(** A session length written by [human_duration_precise] is read back without its hours:
    an offline event whose session lasted [n] seconds counts [n mod 3600] of them, so a
    session of exactly one hour counts nothing. *)
Theorem duration_text_drops_hours e n :
  0 < n -> int_printable n -> get e "onlineDurationText" = PStr (human_duration_precise (PInt n)) ->
  claimed_seconds e = n mod 3600.
Proof.
  intros Hn Hp He. unfold claimed_seconds. rewrite He, str_or_empty_str.
  destruct (Z.lt_ge_cases n 3600) as [Hs|Hl]; [rewrite short_durations by lia; symmetry; apply Z.mod_small; lia|].
  rewrite precise_hours by done. pose proof (Z.mod_pos_bound n 3600 eq_refl) as H1.
  pose proof (Z.mod_pos_bound n 60 eq_refl) as H2.
  assert (0 < n / 3600) as Hh by (apply Z.div_str_pos; lia).
  unfold int_str. assert (n / 3600 <? 0 = false) as -> by (apply Z.ltb_ge; lia).
  rewrite hours_lost; [|apply nat_str_digits; lia|apply nat_str_ne| |done].
  - rewrite (Z.div_mod (n mod 3600) 60) at 2 by done. replace (n mod 3600 mod 60) with (n mod 60); [lia|].
    change 3600 with (60 * 60). rewrite Z.rem_mul_r by lia. rewrite Z.mul_comm, Z.mod_add by lia.
    by rewrite Z.mod_mod.
  - split; [by apply Z.div_pos; lia|]. apply Z.div_lt_upper_bound; lia.
Qed.

Lemma duration_text_drops_hours_witness :
  claimed_seconds [("onlineDurationText", PStr "2小时00分30秒")] = 30.
Proof.
  rewrite (duration_text_drops_hours _ 7230); [reflexivity|reflexivity|apply small_printable; reflexivity|reflexivity].
Defined.

(** ** The event feed *)

Definition number (e : dict) : Z := match get e "id" with PInt n => n | _ => 0 end.
Definition has_number (e : dict) : Prop := exists n, get e "id" = PInt n.
Definition deleted (e : dict) : bool := truthy (get e "deleted").

(** What a client that has seen the events up to [after] receives. *)
Definition fresh (after : Z) (rows : list dict) : list dict :=
  List.filter (fun e => (after <? number e) && negb (deleted e)) rows.

Lemma event_id_number e : has_number e -> event_id e = Ok (number e).
Proof.
  intros [n Hn]. unfold event_id, number. unfold get, get_or in *. destruct (dget e "id"); simpl in *; by subst.
Qed.

Lemma live_events_rows after rows :
  Forall has_number rows -> live_events after (List.map PDict rows) = Ok (List.map PDict (fresh after rows)).
Proof.
  intros Hn. unfold live_events, fresh.
  assert (forall f : pyval -> result (pyval * bool), (forall e, In e rows -> f (PDict e) = Ok (PDict e, (after <? number e) && negb (deleted e))) ->
     result_map f (List.map PDict rows) = Ok (List.map (fun e => (PDict e, (after <? number e) && negb (deleted e))) rows)) as Hm.
  { clear. intros f. induction rows as [|e rows IH]; intros Hf; [done|]. simpl. rewrite Hf by by left.
    rewrite IH; [done|]. intros; apply Hf; by right. }
  rewrite Hm.
  - cbn [mbind result_bind mret result_ret]. f_equal. clear. induction rows as [|e rows IH]; [done|]. simpl.
    destruct (_ && _); simpl; by rewrite IH.
  - intros e He. cbn [event_dict mbind result_bind]. rewrite event_id_number; [done|].
    by apply (proj1 (List.Forall_forall _ _) Hn).
Qed.

Definition tombstone (now : string) (e : dict) : dict :=
  dset "deletedAt" (PStr now) (dset "deleted" (PBool true) e).

Lemma tombstone_get now e k : k <> "deleted" -> k <> "deletedAt" -> get (tombstone now e) k = get e k.
Proof. intros H1 H2. unfold tombstone. rewrite !get_dset_ne; congruence. Qed.

Fixpoint bury (id : Z) (now : string) (rows : list dict) : list dict :=
  match rows with
  | [] => []
  | e :: rows' => if number e =? id then tombstone now e :: rows' else e :: bury id now rows'
  end.

Lemma mark_deleted_rows id now rows :
  Forall has_number rows ->
  mark_deleted id now (List.map PDict rows)
  = Ok (List.map PDict (bury id now rows), existsb (fun e => number e =? id) rows).
Proof.
  induction 1 as [|e rows He _ IH]; [done|]. cbn [List.map mark_deleted bury existsb event_dict mbind result_bind].
  rewrite event_id_number by done. cbn [mbind result_bind]. destruct (number e =? id); [reflexivity|].
  rewrite IH. reflexivity.
Qed.

Lemma fresh_bury after id now rows :
  List.NoDup (List.map number rows) ->
  fresh after (bury id now rows) = List.filter (fun e => negb (number e =? id)) (fresh after rows).
Proof.
  induction rows as [|e rows IH]; [done|]. cbn [List.map]. inversion 1 as [|? ? Hni Hnd]; subst. cbn [bury].
  destruct (number e =? id) eqn:E; to_prop.
  - unfold fresh. cbn [List.filter]. assert (deleted (tombstone now e) = true) as ->.
    { unfold deleted, tombstone. rewrite get_dset_ne, get_dset_eq; done. }
    rewrite andb_false_r. subst id.
    assert (forall l, ~ In (number e) (List.map number l) ->
              List.filter (fun e' => negb (number e' =? number e)) (List.filter (fun e => (after <? number e) && negb (deleted e)) l)
              = List.filter (fun e => (after <? number e) && negb (deleted e)) l) as Hl.
    { clear. induction l as [|x l IH]; intros Hx; [done|]. simpl in Hx. cbn [List.filter].
      destruct (_ && _) eqn:Ex; cbn [List.filter]; [|apply IH; tauto].
      assert (number x =? number e = false) as -> by (apply Z.eqb_neq; tauto). simpl. f_equal. apply IH. tauto. }
    destruct ((after <? number e) && negb (deleted e)); cbn [List.filter]; [rewrite Z.eqb_refl; simpl|]; by rewrite Hl.
  - unfold fresh in *. cbn [List.filter]. destruct ((after <? number e) && negb (deleted e)); cbn [List.filter].
    + assert (number e =? id = false) as -> by by apply Z.eqb_neq. simpl. by rewrite IH.
    + by apply IH.
Qed.

Lemma truthy_sort_keys v : truthy (sort_keys v) = truthy v.
Proof.
  destruct v as [| | | | |[|x l]|d]; try done. rewrite sort_keys_sorted_dict. unfold sorted_dict. simpl.
  set (m := List.map _ d). pose proof (isort_length key_le m) as Hl. unfold m in Hl at 2. rewrite List.length_map in Hl.
  destruct (isort key_le m), d; done.
Qed.

Lemma sorted_number e : nodup_keys e -> number (sorted_dict e) = number e /\ deleted (sorted_dict e) = deleted e
                                        /\ (has_number e -> has_number (sorted_dict e)).
Proof.
  intros Hn. unfold number, deleted, has_number. rewrite !get_sorted, truthy_sort_keys by done.
  split; [by destruct (get e "id")|]. split; [done|]. intros [n ->]. by exists n.
Qed.

Lemma fresh_sorted after rows :
  Forall nodup_keys rows -> fresh after (List.map sorted_dict rows) = List.map sorted_dict (fresh after rows).
Proof.
  induction 1 as [|e rows He _ IH]; [done|]. unfold fresh in *. cbn [List.map List.filter].
  destruct (sorted_number e He) as (-> & -> & _). rewrite IH. by destruct (_ && _).
Qed.

Section Feed.
Context {S : Type} `{DocStoreLaws S} {tz : TimeZone} (E : env).

Definition feed_is (w : world S) (rows : list dict) : Prop :=
  default (PList []) (doc_read "events.json" (w_docs w)) = PList (List.map PDict rows).

Lemma feed_plain w rows : doc_ok (w_docs w) -> feed_is w rows -> Forall (fun e => plain (PDict e)) rows.
Proof.
  unfold feed_is. intros Hd Hf. destruct (doc_read "events.json" (w_docs w)) as [v|] eqn:Er.
  - simpl in Hf. subst v. apply (doc_read_ok _ _ _ Hd), json_ok_plain in Er. inversion Er as [| | | |l Hl|]; subst.
    exact (proj1 (List.Forall_map _ _ _) Hl).
  - simpl in Hf. injection Hf as Hf. destruct rows; [constructor|discriminate].
Qed.

(** Deleting an event removes it, and nothing else, from what every client receives. *)
Theorem deleted_event_leaves_feed q q' id after w r w' rows :
  doc_ok (w_docs w) -> feed_is w rows -> Forall has_number rows -> List.NoDup (List.map number rows) ->
  check_app_token E q = true -> check_read_token E q' = Ok true -> py_int (PStr (default "0" (q_arg q' "after"))) = Ok after ->
  api_delete_event E q id w = (Ok r, w') ->
  fst (api_events E q' w')
  = Ok (Response 200 (PDict [("ok", PBool true);
          ("events", PList (List.map (fun e => PDict (sorted_dict e))
                              (List.filter (fun e => negb (number e =? id)) (fresh after rows))))])).
Proof.
  intros Hd Hf Hn Hnd Hq Hq' Hafter. pose proof (feed_plain w rows Hd Hf) as Hp.
  unfold api_delete_event. rewrite Hq. cbn [negb]. rewrite prog_bind_eq. unfold load_json at 1. unfold feed_is in Hf. rewrite Hf.
  rewrite prog_bind_eq. unfold lift at 1. cbn [py_iter]. rewrite prog_bind_eq. unfold now_str at 1.
  set (now := format_datetime _). rewrite prog_bind_eq. unfold lift at 1. rewrite mark_deleted_rows by done.
  rewrite prog_bind_eq. destruct (save_json _ _ _) as [[[]|e] w1] eqn:Es; [|done]. intros [= <- <-].
  apply save_json_read in Es; [|done|].
  2: { constructor. apply (proj2 (List.Forall_map _ _ _)). clear -Hp. induction Hp as [|e rows He Hp IH]; [constructor|]. cbn [bury].
       destruct (number e =? id); apply List.Forall_cons; try done.
       unfold tombstone. apply plain_dset; [constructor|]. apply plain_dset; [constructor|done]. }
  assert (Forall nodup_keys (bury id now rows) /\ Forall has_number (bury id now rows)) as [Hbn Hbh].
  { clear -Hp Hn. induction Hp as [|e rows He Hp IH]; [split; constructor|]. inversion Hn as [|? ? He0 Hn0]; subst.
    destruct (IH Hn0) as [IH1 IH2]. cbn [bury]. destruct (number e =? id); split; apply List.Forall_cons; try done.
    - unfold tombstone. apply nodup_dset, nodup_dset. by apply plain_nodup.
    - clear -Hp. induction Hp as [|x l Hx Hl IH]; constructor; [by apply plain_nodup|done].
    - destruct He0 as [n Hn']. exists n. by rewrite tombstone_get.
    - by apply plain_nodup. }
  unfold api_events. rewrite prog_bind_eq. unfold lift at 1. rewrite Hq'. cbn [negb]. rewrite prog_bind_eq. unfold lift at 1.
  rewrite Hafter. rewrite prog_bind_eq. unfold load_json at 1. rewrite Es. simpl (default _ _).
  rewrite prog_bind_eq. unfold lift at 1. cbn [sort_keys py_iter]. rewrite prog_bind_eq. unfold lift at 1.
  rewrite List.map_map. change (fun x => sort_keys (PDict x)) with (fun x => PDict (sorted_dict x)).
  rewrite <- (List.map_map sorted_dict PDict), live_events_rows.
  - rewrite fresh_sorted, fresh_bury by done. cbn [mret prog_ret fst]. by rewrite List.map_map.
  - apply (proj2 (List.Forall_map _ _ _)). apply List.Forall_forall. intros e He.
    apply sorted_number; [by apply (proj1 (List.Forall_forall _ _) Hbn)|by apply (proj1 (List.Forall_forall _ _) Hbh)].
Qed.
(** Event numbers grow along the feed. *)
Definition ordered_feed (rows : list dict) : Prop :=
  Forall has_number rows /\ StronglySorted Z.lt (List.map number rows) /\ (List.length rows <= event_cap)%nat.

Lemma sorted_snoc ids n : StronglySorted Z.lt ids -> Forall (fun m => m < n) ids -> StronglySorted Z.lt (ids ++ [n]).
Proof.
  induction 1 as [|m ids Hs IH Hm]; intros Hn; simpl; [repeat constructor|]. inversion Hn; subst.
  constructor; [by apply IH|]. apply Forall_app. split; [done|]. by constructor.
Qed.

Lemma sorted_last_max ids m : StronglySorted Z.lt (ids ++ [m]) -> Forall (fun k => k < m + 1) (ids ++ [m]).
Proof.
  induction ids as [|k ids IH]; intros Hs; simpl; [constructor; [lia|constructor]|]. inversion Hs as [|? ? Hs' Hk]; subst.
  constructor; [|by apply IH]. rewrite Forall_app in Hk. destruct Hk as [_ Hk]. inversion Hk; subst. lia.
Qed.

Lemma sorted_suffix ids ids' : ids' `suffix_of` ids -> StronglySorted Z.lt ids -> StronglySorted Z.lt ids'.
Proof. intros [k ->]. induction k as [|x k IH]; [done|]. simpl. inversion 1; subst. by apply IH. Qed.

(** The number of the last event, 0 before the first. *)
Definition last_number (rows : list dict) : Z := default 0 (last (List.map number rows)).

Lemma next_event_id_rows rows :
  Forall has_number rows -> next_event_id (List.map PDict rows) = Ok (last_number rows + 1).
Proof.
  intros Hn. unfold next_event_id, last_number. destruct rows as [|e rows _] using rev_ind; [done|].
  rewrite !List.map_app. cbn [List.map]. rewrite last_snoc, List.last_last. cbn [default from_option].
  rewrite Forall_app in Hn. destruct Hn as [_ He]. inversion He as [|? ? [n Hn] _]; subst.
  cbn [vget_or mbind result_bind]. unfold get_or, number, get in *. destruct (dget e "id"); simpl in *; by subst.
Qed.

Lemma setdefault_get k v e k' : k <> k' -> get (setdefault k v e) k' = get e k'.
Proof. intros Hk. unfold setdefault. destruct (has e k); [done|]. by rewrite get_dset_ne. Qed.

Lemma setdefault_plain k v e : plain v -> plain (PDict e) -> plain (PDict (setdefault k v e)).
Proof. intros Hv He. unfold setdefault. destruct (has e k); [done|]. by apply plain_dset. Qed.

Lemma last_number_max rows : Forall has_number rows -> StronglySorted Z.lt (List.map number rows) ->
  Forall (fun m => m < last_number rows + 1) (List.map number rows).
Proof.
  intros _ Hs. unfold last_number. destruct rows as [|e rows _] using rev_ind; [constructor|].
  rewrite List.map_app in *. cbn [List.map] in *. rewrite last_snoc. cbn [default from_option]. by apply sorted_last_max.
Qed.

Lemma fresh_none after rows : Forall (fun m => m < after + 1) (List.map number rows) -> fresh after rows = [].
Proof.
  intros Hm. induction rows as [|e rows IH]; [done|]. inversion Hm; subst. unfold fresh in *. cbn [List.filter].
  assert (after <? number e = false) as -> by (apply Z.ltb_ge; lia). by apply IH.
Qed.

Lemma fresh_incl_none after rows rows' : rows' `suffix_of` rows -> fresh after rows = [] -> fresh after rows' = [].
Proof. intros [k ->]. unfold fresh. rewrite List.filter_app. by intros [_ ?]%app_eq_nil. Qed.

(** Every new event gets a number above all stored ones, the feed stays ordered and
    bounded by a thousand events, and a client that has seen the previous last event receives
    exactly the new one. *)
Theorem new_event_reaches_clients e w e' w' rows :
  doc_ok (w_docs w) -> feed_is w rows -> ordered_feed rows -> plain (PDict e) -> deleted e = false ->
  add_event e w = (Ok e', w') ->
  exists rows', feed_is w' rows' /\ ordered_feed rows' /\ number e' = last_number rows + 1
    /\ Forall (fun m => m < number e') (List.map number rows)
    /\ live_events (last_number rows) (List.map PDict rows') = Ok [PDict (sorted_dict e')].
Proof.
  intros Hd Hf (Hn & Hs & Hl) He Hdel. pose proof (feed_plain w rows Hd Hf) as Hp. unfold add_event. rewrite prog_bind_eq.
  unfold load_json at 1. unfold feed_is in Hf. rewrite Hf, prog_bind_eq. unfold lift at 1. cbn [as_list].
  rewrite prog_bind_eq. unfold lift at 1. rewrite next_event_id_rows by done. rewrite prog_bind_eq. unfold now_str at 1.
  set (n := last_number rows + 1). set (new := setdefault "level" _ _).
  assert (get new "id" = PInt n /\ deleted new = false /\ plain (PDict new)) as (Hid & Hdl & Hpl).
  { unfold deleted. subst new. rewrite !setdefault_get, get_dset_eq, get_dset_ne by done.
    split; [done|]. split; [exact Hdel|].
    apply setdefault_plain; [constructor|]. apply setdefault_plain; [constructor|]. apply plain_dset; [constructor|done]. }
  rewrite prog_bind_eq. destruct (save_json _ _ _) as [[[]|x] w1] eqn:Es; [|done]. intros [= <- <-].
  replace (List.map PDict rows ++ [PDict new]) with (List.map PDict (rows ++ [new])) in Es by by rewrite List.map_app.
  assert (last_n event_cap (List.map PDict (rows ++ [new])) = List.map PDict (last_n event_cap (rows ++ [new]))) as Hmap.
  { unfold last_n. by rewrite List.length_map, List.skipn_map. }
  rewrite Hmap in Es. set (kept := last_n event_cap (rows ++ [new])) in *.
  assert (kept `suffix_of` rows ++ [new]) as Hsuf by apply last_n_suffix.
  assert (Forall (fun e => plain (PDict e)) kept) as Hpk.
  { destruct Hsuf as [k Hk]. assert (Forall (fun e => plain (PDict e)) (rows ++ [new])) as Ha
      by (apply Forall_app; split; [done|by constructor]). rewrite Hk in Ha. by apply Forall_app in Ha as [_ ?]. }
  assert (Forall nodup_keys kept) as Hnk by (eapply List.Forall_impl; [|exact Hpk]; intros ? ?; by apply plain_nodup).
  apply save_json_read in Es; [|done|constructor; by apply (proj2 (List.Forall_map _ _ _))].
  assert (number new = n) as Hnn by (unfold number; by rewrite Hid).
  assert (Forall has_number (rows ++ [new])) as Hha by (apply Forall_app; split; [done|constructor; [by exists n|constructor]]).
  assert (Forall has_number kept) as Hhk by (destruct Hsuf as [k Hk]; rewrite Hk in Hha; by apply Forall_app in Hha as [_ ?]).
  assert (Forall has_number (List.map sorted_dict kept)) as Hhs.
  { apply (proj2 (List.Forall_map _ _ _)), List.Forall_forall. intros x Hx.
    apply sorted_number; [by apply (proj1 (List.Forall_forall _ _) Hnk)|by apply (proj1 (List.Forall_forall _ _) Hhk)]. }
  assert (List.map number (List.map sorted_dict kept) = List.map number kept) as Hmn.
  { rewrite List.map_map. apply List.map_ext_in. intros x Hx. apply sorted_number.
    by apply (proj1 (List.Forall_forall _ _) Hnk). }
  pose proof (last_number_max rows Hn Hs) as Hmax. fold n in Hmax.
  exists (List.map sorted_dict kept). split; [|split; [|split; [done|split; [by rewrite Hnn|]]]].
  - unfold feed_is. rewrite Es. simpl. by rewrite List.map_map, List.map_map.
  - split; [exact Hhs|]. rewrite Hmn. split.
    + apply (sorted_suffix (List.map number (rows ++ [new]))).
      * destruct Hsuf as [k ->]. exists (List.map number k). apply List.map_app.
      * rewrite List.map_app. cbn [List.map]. rewrite Hnn. by apply sorted_snoc.
    + rewrite List.length_map. subst kept. rewrite last_n_length. lia.
  - rewrite live_events_rows, fresh_sorted by done. do 2 f_equal.
    assert (exists pre, kept = pre ++ [new] /\ pre `suffix_of` rows) as (pre & -> & Hpre).
    { destruct Hsuf as [k Hk]. assert (kept <> []) as Hne.
      { intros Hnil. assert (List.length kept = 0%nat) as H0' by by rewrite Hnil.
        subst kept. rewrite last_n_length, length_app in H0'. cbn [List.length] in H0'.
        assert (0 < event_cap)%nat by (unfold event_cap; lia). lia. }
      destruct kept as [|y pre _] using rev_ind; [done|]. rewrite app_assoc in Hk.
      apply app_inj_tail in Hk as [Hk ->]. exists pre. split; [done|]. by exists k. }
    unfold fresh. rewrite List.filter_app. fold (fresh (last_number rows) pre).
    rewrite (fresh_incl_none _ rows) by first [done|by apply fresh_none]. cbn [List.filter app].
    rewrite Hdl, Hnn. assert (last_number rows <? n = true) as -> by (apply Z.ltb_lt; lia). done.
Qed.
End Feed.

(** ** A feed with two events *)

Definition feed_world : world store :=
  run (_ ← add_event [("type", PStr "device_online"); ("mac", PStr "aa:bb:cc:00:11:22")];
       _ ← add_event [("type", PStr "wan_changed")]; mret tt) demo_world.
Definition feed_rows : list dict :=
  [[("createdAt", PStr "2023-11-15 06:13:20"); ("id", PInt 1); ("level", PStr "normal");
    ("mac", PStr "aa:bb:cc:00:11:22"); ("type", PStr "device_online")];
   [("createdAt", PStr "2023-11-15 06:13:20"); ("id", PInt 2); ("level", PStr "normal"); ("type", PStr "wan_changed")]].

Lemma feed_world_is : doc_ok (w_docs feed_world) /\ feed_is feed_world feed_rows /\ Forall has_number feed_rows.
Proof.
  split; [apply (texts_okb_sound (w_docs feed_world)); vm_compute; reflexivity|]. split; [vm_compute; reflexivity|].
  repeat (apply List.Forall_cons; [by eexists|]). constructor.
Qed.

Lemma deleted_event_leaves_feed_witness :
  fst (api_events demo_env (app_request [] None) (run (api_delete_event demo_env (app_request [] None) 1) feed_world))
  = Ok (Response 200 (PDict [("ok", PBool true); ("events", PList [PDict (List.nth 1 feed_rows [])])])).
Proof.
  destruct feed_world_is as (Hd & Hf & Hn).
  apply (deleted_event_leaves_feed demo_env (app_request [] None) (app_request [] None) 1 0 feed_world
           (Response 200 (PDict [("ok", PBool true); ("deleted", PBool true); ("id", PInt 1)])) _ feed_rows Hd Hf Hn).
  - repeat (constructor; [simpl; intuition discriminate|]). constructor.
  - vm_compute. reflexivity.
  - vm_compute. reflexivity.
  - vm_compute. reflexivity.
  - assert (fst (api_delete_event demo_env (app_request [] None) 1 feed_world)
            = Ok (Response 200 (PDict [("ok", PBool true); ("deleted", PBool true); ("id", PInt 1)]))) as <-
      by (vm_compute; reflexivity). apply surjective_pairing.
Defined.

Lemma new_event_reaches_clients_witness :
  exists rows', feed_is (run (add_event [("type", PStr "nas")]) feed_world) rows' /\ ordered_feed rows' /\ 3 = 2 + 1
    /\ Forall (fun m => m < 3) [1; 2]
    /\ live_events 2 (List.map PDict rows')
       = Ok [PDict (sorted_dict (catch (fst (add_event [("type", PStr "nas")] feed_world)) []))].
Proof.
  destruct feed_world_is as (Hd & Hf & Hn).
  apply (new_event_reaches_clients [("type", PStr "nas")] feed_world
           [("type", PStr "nas"); ("id", PInt 3); ("createdAt", PStr "2023-11-15 06:13:20"); ("level", PStr "normal")]
           _ feed_rows Hd Hf).
  - split; [exact Hn|]. split; [repeat constructor|]. unfold event_cap. simpl. lia.
  - solve_plain.
  - reflexivity.
  - assert (fst (add_event [("type", PStr "nas")] feed_world)
            = Ok [("type", PStr "nas"); ("id", PInt 3); ("createdAt", PStr "2023-11-15 06:13:20"); ("level", PStr "normal")])
      as <- by (vm_compute; reflexivity). apply surjective_pairing.
Defined.

Lemma daily_sessions_alternate_witness :
  exists kept, normalize_device_events_for_daily feed_rows = Ok kept
               /\ forall key, alternates (marks_of key kept).
Proof.
  exists feed_rows. assert (normalize_device_events_for_daily feed_rows = Ok feed_rows) as Hk by (vm_compute; reflexivity).
  split; [exact Hk|]. exact (proj1 (daily_sessions_alternate _ _ Hk)).
Defined.
