(* ===== verification/HubNetwork.v ===== *)
(** * Addresses of the Hub, geo labels and VPN services

    The configured and the probed addresses of the Hub's machine, the operator labels of an
    address with their cache, and the VPN and STUN addresses with their repair from the event
    history ([hub.py]). *)

From S2P Require Import Prelude PyNum PyVal PyIp PyTime HubValues Json Storage Hub.

(** ** Public addresses *)

Definition is_public_ip_text (v : pyval) (ipv6 : bool) : bool :=
  match ip_of_str (strip_ip_prefix v) with
  | Some a => (if ipv6 then ip_version a =? 6 else ip_version a =? 4) && is_global a
  | None => false
  end.

Definition is_public_ipv6 (addr : string) : bool :=
  match ip_of_str (strip (hd "" (split "/" addr))) with
  | Some a => (ip_version a =? 6) && is_global a && negb (is_link_local a) && negb (is_multicast a) && negb (is_loopback a)
  | None => false
  end.

Definition hex_colon (c : ascii) : bool := is_hex c || is_char ":"%char c.

(** The first public address among the values. *)
Definition first_public (ipv6 : bool) (values : list pyval) : string :=
  default "" (List.find (fun v => nonempty v && is_public_ip_text (PStr v) ipv6) (List.map strip_ip_prefix values)).

Section Manual.
Context (E : env).

Definition environ (name : string) : pyval := match env_var E name with Some s => PStr s | None => PNone end.

Definition get_manual_nas_ip (ipv6 : bool) : string :=
  first_public ipv6
    (List.map environ (if ipv6 then ["HUB_HOST_IPV6"; "NAS_IPV6"; "LABPROBE_NAS_IPV6"; "EXIT_IPV6"]
                       else ["HUB_HOST_IPV4"; "NAS_IPV4"; "LABPROBE_NAS_IPV4"; "EXIT_IPV4"])
     ++ List.map (fun k => cfg_get E k (PStr ""))
          (if ipv6 then ["nas.exit_ipv6"; "nas.exitIpv6"; "nas.ipv6"; "exit_ip.manual_ipv6"; "exit_ip.ipv6_manual"]
           else ["nas.exit_ipv4"; "nas.exitIpv4"; "nas.ipv4"; "exit_ip.manual_ipv4"; "exit_ip.ipv4_manual"])).
End Manual.

(** *** The addresses the kernel uses

    [run] gives the output of a command, [None] when it fails. *)

Section Commands.
Context (run : list string -> option string).

Definition words (s : string) : list string := runs (fun c => negb (is_space c)) s.

(** The word after [src], when it has the wanted shape: [(?:^|\s)src\s+(shape)(?:\s|$)]. *)
Fixpoint src_word (shape : string -> bool) (l : list string) : option string :=
  match l with
  | a :: (b :: _) as rest => if String.eqb a "src" && shape b then Some b else src_word shape rest
  | _ => None
  end.

Definition hex_colons (w : string) : bool := nonempty w && sall hex_colon w.
Definition four_numbers (w : string) : bool :=
  let parts := split "." w in
  (List.length parts =? 4)%nat && forallb (fun p => nonempty p && sall is_digit p) parts.

Definition get_route_source_ipv6 : string :=
  default "" (List.find nonempty (List.map (fun target =>
    match run ["ip"; "-6"; "route"; "get"; target] with
    | None => ""
    | Some out =>
        let ip := match src_word hex_colons (words out) with Some w => strip_ip_prefix (PStr w) | None => "" end in
        if nonempty ip && is_public_ip_text (PStr ip) true then ip else ""
    end) ["2606:4700:4700::1111"; "2001:4860:4860::8888"])).

Definition get_local_lan_ipv4 : string :=
  default "" (List.find nonempty (List.map (fun target =>
    match run ["ip"; "-4"; "route"; "get"; target] with
    | None => ""
    | Some out =>
        match src_word four_numbers (words out) with
        | None => ""
        | Some w => match ip_of_str w with
                    | Some a => if (ip_version a =? 4) && negb (is_loopback a) && negb (is_unspecified a) then ip_str a else ""
                    | None => ""
                    end
        end
    end) ["1.1.1.1"; "8.8.8.8"])).

(** A candidate line of [ip addr show]: its score and address. *)
Definition addr_candidate (ipv6 : bool) (line : string) : option (Z * string) :=
  let line := strip line in
  if negb (starts_with (if ipv6 then "inet6 " else "inet ") line)
     || contains "tentative" line || contains "deprecated" line then None
  else match words line with
       | _ :: w :: _ =>
           let ip := strip_ip_prefix (PStr w) in
           if is_public_ip_text (PStr ip) ipv6
           then Some ((if contains "temporary" (lower line) then 10 else 0), ip) else None
       | _ => None
       end.

Definition get_local_global_ip (ipv6 : bool) : string :=
  let route_src := if ipv6 then get_route_source_ipv6 else "" in
  if nonempty route_src then route_src
  else match run ["ip"; if ipv6 then "-6" else "-4"; "addr"; "show"; "scope"; "global"] with
       | None => ""
       | Some out =>
           match isort (fun a b => a.1 <=? b.1) (omap (addr_candidate ipv6) (splitlines out)) with
           | [] => ""
           | (_, ip) :: _ => ip
           end
       end.
End Commands.

(** *** An address in the text of a command *)

(** The group of [inet6\s+([0-9a-fA-F:]+)] at its first match. *)
Fixpoint find_inet6 (s : string) : option string :=
  match s with
  | EmptyString => None
  | String _ s' =>
      let after := sdrop 5 s in
      let word := fst (span hex_colon (lstrip_by is_space after)) in
      if starts_with "inet6" s && negb (String.eqb after (lstrip_by is_space after)) && nonempty word
      then Some word else find_inet6 s'
  end.

Definition inet6_candidate (line : string) : option (Z * string) :=
  addr ← find_inet6 line;
  if is_public_ipv6 addr
  then Some ((if contains "scope global" (lower line) then 10 else 0) - (if contains "temporary" (lower line) then 3 else 0)
             - (if contains "deprecated" (lower line) then 5 else 0), addr)
  else None.

Definition extract_public_ipv6 (text : string) : option string :=
  match isort (fun a b => b.1 <=? a.1) (omap inet6_candidate (splitlines text)) with
  | (_, addr) :: _ => Some addr
  | [] => List.find (fun token => (3 <=? String.length token)%nat && contains ":" token && is_public_ipv6 token)
            (runs hex_colon text)
  end.

(** ** Operators of addresses *)

Definition normalize_ip (text : string) : option ip := ip_of_str (strip (hd "" (split "/" text))).

Definition operator_from_text (asn org : pyval) : string :=
  let org_l := lower (str_or_empty org) in
  let asn_s := str_or_empty asn in
  let named ks := existsb (fun k => contains k org_l) ks in
  if named ["unicom"; "联通"; "china169"] || str_in asn_s ["4837"; "9929"; "10099"; "136958"] then "中国联通"
  else if named ["telecom"; "chinanet"; "电信"] || str_in asn_s ["4134"; "4812"; "58466"; "4809"] then "中国电信"
  else if named ["mobile"; "cmcc"; "移动"] || str_in asn_s ["9808"; "56040"; "56046"; "56048"; "24400"] then "中国移动"
  else if named ["cernet"; "教育"] then "教育网"
  else str_or_empty org.

(** An entry of [geo.local_prefixes] that covers the address; anything unreadable is passed over. *)
Definition local_label (a : ip) (v : pyval) : option dict :=
  match v with
  | PDict item =>
      net ← ip_network (py_str (get item "prefix"));
      if ip_in a net
      then Some [("localLabel", por (get item "label") (por (get item "name") (PStr "本地标记")));
                 ("operator", por (get item "operator") (por (get item "isp") (PStr "")));
                 ("source", PStr "local_prefix"); ("confidence", PStr "本地标记最高")]
      else None
  | _ => None
  end.

Definition local_geo_match (E : env) (text : string) : result (option dict) :=
  match normalize_ip text with
  | None => Ok None
  | Some a =>
      items ← py_iter (por (cfg_get E "geo.local_prefixes" (PList [])) (PList []));
      mret (hd_error (omap (local_label a) items))
  end.

(** What [ipwho.is] says of the operator and the ASN; nothing when the request fails. *)
Definition geo_answer (data : result pyval) : string * string :=
  catch (data ← data;
         success ← vget data "success";
         if truthy success then
           conn ← vget data "connection";
           let conn := por conn (PDict []) in
           asn ← vget conn "asn";
           org ← vget conn "org";
           org2 ← vget data "org";
           let asn := str_or_empty asn in
           Ok (operator_from_text (PStr asn) (por org (por org2 (PStr ""))), asn)
         else Ok ("", "")) ("", "").

Definition geo_cap : nat := 1000.

Section Stored.
Context {S : Type} `{DocStore S} {tz : TimeZone} (E : env).

Definition lookup_geo (text : string) : hub S dict :=
  doc ← load_json "geo_cache.json" (PDict []);
  cached ← lift (vget doc text);
  stamp ← lift (if truthy cached then vget cached "cachedAt" else Ok PNone);
  if truthy cached && truthy stamp then mret (ddel "location" (ddel "geoText" (dict_or_empty cached)))
  else
    let cache := dict_or_empty doc in
    local ← lift (local_geo_match E text);
    now ← now_str;
    match local with
    | Some local =>
        let result := [("ip", PStr text); ("localLabel", get_or local "localLabel" (PStr ""));
                       ("operator", get_or local "operator" (PStr "")); ("asn", PStr "");
                       ("source", get_or local "source" (PStr "local_prefix")); ("confidence", PStr "本地标记最高");
                       ("note", PStr "命中 config.yaml 的 geo.local_prefixes；仅显示运营商/本地标记，不显示城市 Geo。");
                       ("cachedAt", PStr now)] in
        _ ← save_json "geo_cache.json" (PDict (dset text (PDict result) cache));
        mret result
    | None =>
        answer ← (fun w => (Ok (geo_answer (env_http E (w_ms w) ("https://ipwho.is/" +:+ text))), w)) : hub S (string * string);
        let '(operator, asn) := answer in
        let result := [("ip", PStr text); ("localLabel", PStr ""); ("operator", PStr operator); ("asn", PStr asn);
                       ("source", PStr "ipwho.is_connection");
                       ("confidence", PStr (if nonempty operator then "运营商识别" else "运营商未知"));
                       ("note", PStr "已移除城市 Geo，仅返回运营商/ASN，避免城市漂移误导。"); ("cachedAt", PStr now)] in
        _ ← save_json "geo_cache.json" (PDict (last_n geo_cap (dset text (PDict result) cache)));
        mret result
    end.

(** ** VPN addresses *)

Definition clean_vpn_address (v : pyval) : string :=
  let text := clean_saved_value v in
  if existsb (fun b => contains b (lower text)) ["#{"; "{stun_"; "token="; "bearer "; "authorization"] then "" else text.

(** The code points U+4E00 to U+9FFF, three bytes each. *)
Definition cjk_at (s : string) : bool :=
  match s with
  | String a (String b (String c _)) =>
      let n := Z.land (byte_of a) 15 * 4096 + Z.land (byte_of b) 63 * 64 + Z.land (byte_of c) 63 in
      in_range 224 239 a && is_cont b && is_cont c && (19968 <=? n) && (n <=? 40959)
  | _ => false
  end.

Definition key_char (c : ascii) : bool := is_lower c || is_digit c || is_char "_"%char c || is_char "-"%char c.

(** [re.sub] of every run of other characters by one underscore. *)
Fixpoint key_go (skip : nat) (in_run : bool) (s : string) : string :=
  match s with
  | EmptyString => EmptyString
  | String c s' =>
      match skip with
      | Datatypes.S k => String c (key_go k false s')
      | O => if key_char c then String c (key_go O false s')
             else if cjk_at s then String c (key_go 2 false s')
             else if in_run then key_go O true s' else String "_"%char (key_go O true s')
      end
  end.

Definition vpn_service_key (name : pyval) : string :=
  let raw := str_or (clean_saved_value name) "STUN" in
  let key := replace "/" "_" (replace " " "_" (strip (lower raw))) in
  str_or (strip_by (is_char "_"%char) (key_go O false key)) "stun".

Definition load_vpn_addresses : hub S dict :=
  raw ← load_json "vpn_stun_addresses.json" (PDict []); mret (dict_or_empty raw).

Definition vpn_item (name address source updated : string) : pyval :=
  PDict [("name", PStr name); ("address", PStr address); ("stun", PStr address); ("source", PStr source);
         ("updatedAt", PStr updated)].

(** An entry under its own name: the key and the row. *)
Definition vpn_row (source updated : string) (k : string) (item : dict) (ks : list string) : option (string * pyval) :=
  let name := str_or (clean_saved_value (get item "name")) k in
  let address := clean_vpn_address (first_of item ks) in
  if nonempty address
  then Some (vpn_service_key (PStr name),
             vpn_item name address (str_or (clean_saved_value (get item "source")) source)
                      (str_or (clean_saved_value (get item "updatedAt")) updated))
  else None.

Definition vpn_fields : list string := ["address"; "stun"].

Definition clean_vpn_data (now : string) (data : dict) : dict :=
  dict_of (omap (fun kv => match kv.2 with
                           | PDict item => vpn_row "webhook" now kv.1 item vpn_fields
                           | _ => None
                           end) data).

Definition save_vpn_addresses (data : dict) : hub S unit :=
  now ← now_str; save_json "vpn_stun_addresses.json" (PDict (clean_vpn_data now data)).

(** The item, [{}] when there is no address, and the address before. *)
Definition upsert_vpn_address (name address : pyval) (source : string) : hub S (dict * string) :=
  let service := str_or (clean_saved_value name) "STUN" in
  let addr := clean_vpn_address address in
  if negb (nonempty addr) then mret ([], "")
  else
    let key := vpn_service_key (PStr service) in
    data ← load_vpn_addresses;
    before ← lift (vget (por (get data key) (PDict [])) "address");
    now ← now_str;
    let item := vpn_item service addr source now in
    _ ← save_vpn_addresses (dset key item data);
    mret (dict_or_empty item, clean_vpn_address before).

Definition put_row (acc : dict) (row : option (string * pyval)) : dict :=
  match row with Some (k, v) => dset k v acc | None => acc end.
Definition put_new_row (acc : dict) (row : option (string * pyval)) : dict :=
  match row with Some (k, v) => setdefault k v acc | None => acc end.

(** The rows of the state document, then those of the older fields. *)
Definition state_vpn (state : dict) : dict :=
  let merged := fold_left (fun acc kv => match kv.2 with
                                         | PDict item => put_row acc (vpn_row "state" "" kv.1 item vpn_fields)
                                         | _ => acc
                                         end) (dict_or_empty (get state "vpn")) [] in
  fold_left (fun acc kv => match get state kv.1 with
                           | PDict item => put_new_row acc (vpn_row "legacy" "" kv.2 item (vpn_fields ++ ["publicAddress"]))
                           | _ => acc
                           end) [("luckyStun", "Lucky"); ("stun", "STUN")] merged.

Fixpoint stored_vpn (entries merged : dict) : result dict :=
  match entries with
  | [] => Ok merged
  | (k, PDict item) :: rest => stored_vpn rest (put_row merged (vpn_row "webhook" "" k item vpn_fields))
  | (_, v) :: _ => attribute_error v "get"
  end.

Definition preferred : list (string * Z) := [("wireguard", 0); ("openvpn", 1); ("lucky", 2); ("easytier", 3); ("stun", 4)].
Definition vpn_rank (row : pyval) : Z :=
  let key := vpn_service_key (get (dict_or_empty row) "name") in
  match List.find (fun kv => String.eqb kv.1 key) preferred with Some kv => kv.2 | None => 50 end.
Definition vpn_name (row : pyval) : string := py_str (get_or (dict_or_empty row) "name" (PStr "")).
Definition vpn_le (a b : pyval) : bool :=
  (vpn_rank a <? vpn_rank b) || (vpn_rank a =? vpn_rank b) && sleb (vpn_name a) (vpn_name b).

Definition vpn_addresses_list (state : pyval) : hub S (list pyval) :=
  stored ← load_vpn_addresses;
  merged ← lift (stored_vpn stored (match state with PDict d => state_vpn d | _ => [] end));
  mret (isort vpn_le (List.map snd merged)).

(** *** Events that carry an address *)

(** The bytes of a colon at the start of a text, ASCII or full width. *)
Definition colon_at (s : string) : nat :=
  if starts_with ":" s then 1 else if starts_with "：" s then 3 else 0.

(** The text before and after the first colon. *)
Fixpoint split_colon (s : string) : option (string * string) :=
  match colon_at s with
  | Datatypes.S k => Some (EmptyString, sdrop (Datatypes.S k) s)
  | O => match s with
         | EmptyString => None
         | String c s' => match split_colon s' with Some (a, b) => Some (String c a, b) | None => None end
         end
  end.

Definition newline_space (s : string) : string := smap (fun c => if in_range 10 10 c || in_range 13 13 c then " "%char else c) s.

(** [^\s*([^:：]{1,32})\s*[:：]\s*(.+?)\s*$] on a stripped text. *)
Definition name_and_address (raw : string) : option (string * string) :=
  match split_colon raw with
  | Some (name, rest) =>
      if nonempty name && sall is_space (py_drop 32 name) && nonempty (strip rest)
      then Some (py_take 32 name, strip rest) else None
  | None => None
  end.

Definition parse_vpn_text_content (text : pyval) : string * string :=
  let raw := newline_space (strip (str_or_empty text)) in
  if negb (nonempty raw) then ("", "")
  else match name_and_address raw with
       | Some (name, address) => (clean_str name, clean_vpn_address (PStr address))
       | None => ("", clean_vpn_address (PStr raw))
       end.

Definition known_services : list string :=
  ["wireguard"; "openvpn"; "open_vpn"; "lucky"; "easytier"; "easy_tier"; "stun"].

Definition vpn_address_from_event (event : pyval) : string * string :=
  match event with
  | PDict e =>
      let typ := str_or_empty (get e "type") in
      let title := str_or_empty (get e "title") in
      let content := por (get e "content") (por (get e "text") (PStr "")) in
      let name := clean_saved_value (por (get e "name") (get e "service")) in
      let addr := clean_vpn_address (por (get e "address") (por (get e "newValue") (por (get e "value") (get e "stun")))) in
      let '(parsed_name, parsed_addr) := parse_vpn_text_content content in
      let name := str_or name parsed_name in
      let addr := str_or addr parsed_addr in
      let name := if negb (nonempty name) && nonempty title
                  then clean_str (strip (replace "地址变化" "" (replace "STUN 地址变化" "" title))) else name in
      let low_name := replace " " "_" (lower name) in
      let low_type := lower typ in
      if negb (nonempty name) then ("", "")
      else if negb (existsb (fun k => contains k low_name) known_services)
              && negb (existsb (fun k => contains k low_type) ["stun"; "vpn"; "lucky"]) then ("", "")
      else (name, addr)
  | _ => ("", "")
  end.

(** [events[-300:]]. *)
Definition recent_events (v : pyval) : result (list pyval) :=
  match v with
  | PList l => Ok (last_n 300 l)
  | PStr _ => Ok []
  | PDict _ => Err (Exn "KeyError" "slice(-300, None, None)")
  | _ => Err (Exn "TypeError" ("'" +:+ type_name v +:+ "' object is not subscriptable"))
  end.

(** [state.setdefault("vpn", {})[key] = item]. *)
Definition put_state_vpn (key : string) (item : dict) (state : dict) : result dict :=
  match get_or state "vpn" (PDict []) with
  | PDict vpn => Ok (dset "vpn" (PDict (dset key (PDict item) vpn)) state)
  | v => Err (Exn "TypeError" ("'" +:+ type_name v +:+ "' object does not support item assignment"))
  end.

(** The events from the newest on: the current rows by key, the state, and whether it changed. *)
Fixpoint repair_events (events : list pyval) (current state : dict) (changed : bool) : hub S (dict * bool) :=
  match events with
  | [] => mret (state, changed)
  | e :: rest =>
      let '(name, addr) := vpn_address_from_event e in
      let key := vpn_service_key (PStr name) in
      if negb (nonempty name) || negb (nonempty addr)
         || nonempty (clean_vpn_address (get (dict_or_empty (get current key)) "address"))
      then repair_events rest current state changed
      else
        up ← upsert_vpn_address (PStr name) (PStr addr)
               (str_or (clean_saved_value (get (dict_or_empty e) "source")) "event_repair");
        let item := fst up in
        match item with
        | [] => repair_events rest current state changed
        | _ => state ← lift (put_state_vpn key item state);
               repair_events rest (dset key (PDict item) current) state true
        end
  end.

Definition ensure_vpn_addresses_from_events (state : dict) : hub S dict :=
  rows ← vpn_addresses_list (PDict state);
  let current := dict_of (List.map (fun row => (vpn_service_key (get (dict_or_empty row) "name"), row)) rows) in
  doc ← load_json "events.json" (PList []);
  events ← lift (recent_events doc);
  repaired ← repair_events (rev events) current state false;
  let '(state, changed) := repaired in
  if (changed : bool) then
    rows ← vpn_addresses_list (PDict state);
    now ← now_str;
    let state := dset "updatedAt" (PStr now) (dset "vpnAddresses" (PList rows) (dset "vpnStunAddresses" (PList rows) state)) in
    _ ← save_json "state.json" (PDict state);
    mret state
  else mret state.
End Stored.
