(* ===== verification/Ipv6Records.v ===== *)
(** * IPv6 addresses of the devices

    The address lists, prefixes and records of [hub.py], the score that orders the records of
    a device, the parsing of the router's neighbour table and its merging into the device
    archive. *)

From S2P Require Import Prelude PyNum PyVal PyIp PyTime HubValues Json Storage Hub HubNetwork.

(** ** Lists and prefixes *)

(** [re.split(r"[\s,]+", text)] without the empty parts. *)
Definition comma_words (s : string) : list string := runs (fun c => negb (is_space c || is_char ","%char c)) s.

(** An address a list may hold: its text, when it parses. *)
Definition listable_ipv6 (a : ip) : bool :=
  (ip_version a =? 6) && negb (is_link_local a) && negb (is_multicast a) && negb (is_loopback a)
  && match ipv4_mapped a with None => true | Some _ => false end.

Definition clean_ipv6 (v : string) : option string :=
  let text := hd "" (split "/" (strip v)) in
  if negb (nonempty text) || negb (contains ":" text) || starts_with "fe80:" (lower text) then None
  else match ip_of_str text with
       | Some a => if listable_ipv6 a then Some (ip_str a) else None
       | None => None
       end.

Definition ipv6_list_cap : nat := 8.

Definition normalize_ipv6_list (values : pyval) : list string :=
  let raw := match values with
             | PList l => List.map str_or_empty l
             | PStr s => comma_words s
             | _ => []
             end in
  firstn ipv6_list_cap (dedup (omap clean_ipv6 raw)).

Definition clean_prefix (v : string) : option string :=
  let text := clean_str v in
  if negb (nonempty text) || negb (contains ":" text) then None
  else match ip_network text with
       | Some net =>
           if (ip_version (net_base net) =? 6) && negb (net_property is_link_local net)
              && negb (net_property is_multicast net) && negb (net_property is_loopback net)
           then Some (net_str net) else None
       | None => None
       end.

Definition normalize_ipv6_prefixes (values : pyval) : list string :=
  let raw := match values with
             | PList l => List.map (fun x => py_str (match x with PDict d => get d "prefix" | _ => x end)) l
             | PStr s => comma_words s
             | _ => []
             end in
  firstn 16 (dedup (omap clean_prefix raw)).

Definition as_item (v : pyval) : option dict :=
  match v with PStr s => Some [("ip", PStr s)] | PDict d => Some d | _ => None end.

(** One item of [normalize_ipv6_items] at its position, given the addresses already taken. *)
Definition ipv6_item (default_name : string) (i : Z) (seen : list string) (v : pyval) : option (string * dict) :=
  item ← as_item v;
  match normalize_ipv6_list (PList [first_of item ["ip"; "address"; "ipv6"; "value"]]) with
  | [] => None
  | addr :: _ =>
      if str_in addr seen then None
      else
        let dflt := if i =? 0 then default_name else default_name +:+ " " +:+ int_str (i + 1) in
        Some (addr, [("name", PStr (str_or (clean_saved_value (get item "name")) dflt)); ("ip", PStr addr);
                     ("dev", PStr (clean_saved_value (first_of item ["dev"; "iface"; "ifname"])));
                     ("primary", PBool (truthy (get item "primary") || (i =? 0)))])
  end.

Fixpoint ipv6_items_go (default_name : string) (i : Z) (seen : list string) (items : list pyval) : list dict :=
  match items with
  | [] => []
  | v :: rest =>
      match ipv6_item default_name i seen v with
      | Some (addr, row) => row :: ipv6_items_go default_name (i + 1) (addr :: seen) rest
      | None => ipv6_items_go default_name (i + 1) seen rest
      end
  end.

Definition normalize_ipv6_items (values : pyval) (default_name : string) : list dict :=
  let out := ipv6_items_go default_name 0 [] (list_or_empty values) in
  let out := match out with
             | first :: rest => if existsb (fun x => truthy (get x "primary")) out then out
                                else dset "primary" (PBool true) first :: rest
             | [] => []
             end in
  firstn 16 out.

(** ** Classification and score *)

(** The prefixes are read in order; a bad one ends the search. *)
Fixpoint in_prefixes_go (a : ip) (prefixes : list string) : bool :=
  match prefixes with
  | [] => false
  | p :: rest => match ip_network p with
                 | Some net => ip_in a net || in_prefixes_go a rest
                 | None => false
                 end
  end.

Definition ipv6_in_prefixes (text : string) (prefixes : list string) : bool :=
  match ip_of_str text with Some a => in_prefixes_go a prefixes | None => false end.

Definition is_ula_ipv6 (text : string) : bool :=
  match ip_of_str text with
  | Some a => (ip_version a =? 6) && is_private a
              && (starts_with "fc" (lower (ip_str a)) || starts_with "fd" (lower (ip_str a)))
  | None => false
  end.

Definition is_temporary_ipv6 (source : string) : bool :=
  existsb (fun token => contains token (lower source)) ["temporary"; "privacy"; " temp"; "临时"; "隐私"].

Definition ipv6_reachability_score (state : pyval) : Z :=
  let s := upper (clean_saved_value state) in
  if String.eqb s "REACHABLE" then 20
  else if str_in s ["DELAY"; "PROBE"] then 12
  else if String.eqb s "STALE" then 4
  else if String.eqb s "FAILED" then -30
  else 0.

Definition unusable_score : Z := -9999.

(** The score of the address itself. *)
Definition address_score (text : string) : option Z :=
  match ip_of_str text with
  | Some a => if listable_ipv6 a then Some (if is_global a then 100 else if is_ula_ipv6 text then 40 else 0) else None
  | None => None
  end.

Section Records.
Context {tz : TimeZone}.

(** [min(5, int(epoch // 86400) % 6)]. *)
Definition recency (rec : dict) : Z := Z.min 5 ((time_to_epoch (first_of rec ["lastSeen"; "lastSeenAt"]) / 86400) mod 6).

Definition score_ipv6_record (rec : dict) : Z :=
  let text := clean_saved_value (get rec "ip") in
  if negb (nonempty text) then unusable_score
  else match address_score text with
       | None => unusable_score
       | Some base =>
           let source := str_or_empty (get rec "source") in
           base + (if truthy (get rec "currentPrefix") then 25 else 0)
           - (if truthy (get rec "historical") then 35 else 0)
           + ipv6_reachability_score (first_of rec ["state"; "ndState"])
           + (if contains "hub_local" source then 160 else 0)
           + (if truthy (get rec "primary") then 120 else 0)
           - (if contains "crosscheck" (lower source) then 80 else 0)
           + (if contains "dhcp" (lower source) then 10 else 0)
           + (if is_temporary_ipv6 source then -10 else 8)
           + recency rec
       end.

(** [reverse=True] keeps the order of equal records. *)
Definition by_score (a b : dict) : bool := score_ipv6_record b <=? score_ipv6_record a.

Definition last_reached (rec : dict) : Z := time_to_epoch (first_of rec ["lastReachable"; "lastSeen"]).
Definition by_score_time (a b : dict) : bool :=
  (score_ipv6_record b <? score_ipv6_record a)
  || (score_ipv6_record b =? score_ipv6_record a) && (last_reached b <=? last_reached a).

Definition pick_primary_ipv6 (records : list dict) : string :=
  match isort by_score_time (List.filter (fun r => unusable_score <? score_ipv6_record r) records) with
  | [] => ""
  | best :: _ => clean_saved_value (get best "ip")
  end.

Definition reached_states : list string := ["REACHABLE"; "DELAY"; "PROBE"].

(** One record at the time [now]. *)
Definition ipv6_record (now : string) (prefixes : list string) (v : pyval) : option (string * dict) :=
  item ← as_item v;
  match normalize_ipv6_list (PList [first_of item ["ip"; "ipv6"; "address"; "addr"]]) with
  | [] => None
  | addr :: _ =>
      let state := clean_saved_value (first_of item ["state"; "ndState"]) in
      let source := str_or (clean_saved_value (get item "source")) "unknown" in
      let known := match prefixes with [] => false | _ => true end in
      let current := if known then ipv6_in_prefixes addr prefixes else truthy (get item "currentPrefix") in
      let last_seen := str_or (clean_saved_value (first_of item ["lastSeen"; "seenAt"])) now in
      let reachable := clean_saved_value (get item "lastReachable") in
      Some (addr,
        [("ip", PStr addr);
         ("firstSeen", PStr (str_or (clean_saved_value (first_of item ["firstSeen"; "seenAt"; "lastSeen"])) now));
         ("lastSeen", PStr last_seen);
         ("lastReachable", PStr (if negb (nonempty reachable) && str_in (upper state) reached_states then last_seen else reachable));
         ("source", PStr source);
         ("state", PStr state);
         ("dev", PStr (clean_saved_value (first_of item ["dev"; "iface"; "ifname"])));
         ("currentPrefix", PBool current);
         ("temporary", PBool (truthy (get item "temporary") || is_temporary_ipv6 source));
         ("primary", PBool (truthy (get item "primary")));
         ("historical", PBool (if known then negb current && negb (is_ula_ipv6 addr) else truthy (get item "historical")))])
  end.

Definition values_of (v : pyval) : list pyval :=
  match v with PDict d => List.map snd d | PList l => l | _ => [] end.

Definition rows_of (d : dict) : list dict := List.map (fun kv => dict_or_empty kv.2) d.

(** The last record of an address wins, at the place of its first one. *)
Definition normalize_ipv6_records (now : string) (records : pyval) (prefixes : list string) : list dict :=
  let out := omap (ipv6_record now prefixes) (values_of records) in
  firstn 24 (rows_of (dict_of (List.map (fun kv => (kv.1, PDict kv.2)) out))).

(** The primary address first, then the others by score. *)
Definition ordered_ips (best : string) (records : list dict) : list string :=
  best :: omap (fun r => match get r "ip" with
                         | PStr s => if String.eqb s best then None else Some s
                         | _ => None
                         end) (isort by_score records).

Definition texts_list (l : list string) : pyval := PList (List.map PStr l).
End Records.

(** ** Neighbours *)

(** [lladdr\s+MAC(\s+STATE)?] at the start of a text: the MAC and the state. *)
Definition mac_length : nat := 17.
Fixpoint mac_shape (i : nat) (s : string) : bool :=
  match s with
  | EmptyString => true
  | String c s' => (if (i mod 3 =? 2)%nat then is_char ":"%char c else hex_colon c) && mac_shape (S i) s'
  end.

Definition lladdr_at (s : string) : option (string * string) :=
  if negb (starts_with "lladdr" s) then None
  else
    let after := sdrop 6 s in
    let rest := lstrip_by is_space after in
    let mac := stake mac_length rest in
    if String.eqb after rest || negb (String.length mac =? mac_length)%nat || negb (mac_shape 0 mac) then None
    else
      let tail := sdrop mac_length rest in
      let words := lstrip_by is_space tail in
      let state := if String.eqb words tail then ""
                   else fst (span (fun c => is_upper c || is_char "_"%char c) words) in
      Some (mac, state).

Fixpoint find_lladdr (s : string) : option (string * string) :=
  match lladdr_at s with
  | Some r => Some r
  | None => match s with EmptyString => None | String _ s' => find_lladdr s' end
  end.

(** The longest start of the interface's name after which the rest of the pattern is found. *)
Fixpoint dev_and_lladdr (n : nat) (s : string) : option (string * (string * string)) :=
  match n with
  | O => None
  | S n' => match find_lladdr (sdrop n s) with
            | Some r => Some (stake n s, r)
            | None => dev_and_lladdr n' s
            end
  end.

(** The neighbour pattern at the start of a text: address, interface, MAC, state. *)
Definition neighbor_at (s : string) : option (string * string * string * string) :=
  let '(addr, rest) := span hex_colon s in
  if (String.length addr <? 3)%nat then None
  else
    let rest := match rest with
                | String "/"%char tail => match span is_digit tail with
                                          | (EmptyString, _) => rest
                                          | (_, tail') => tail'
                                          end
                | _ => rest
                end in
    let word := lstrip_by is_space rest in
    let after := sdrop 3 word in
    let name := lstrip_by is_space after in
    if String.eqb rest word || negb (starts_with "dev" word) || String.eqb after name then None
    else
      let token := fst (span (fun c => negb (is_space c)) name) in
      match dev_and_lladdr (String.length token) name with
      | Some (dev, (mac, state)) => Some (addr, dev, mac, state)
      | None => None
      end.

Fixpoint search_neighbor (s : string) : option (string * string * string * string) :=
  match neighbor_at s with
  | Some r => Some r
  | None => match s with EmptyString => None | String _ s' => search_neighbor s' end
  end.

Definition neighbor (mac ip state dev seen_at source : string) : dict :=
  [("mac", PStr mac); ("ip", PStr ip); ("state", PStr state); ("dev", PStr dev); ("seenAt", PStr seen_at);
   ("source", PStr source)].

Definition neighbor_of_line (now line : string) : option dict :=
  '(addr, dev, mac, state) ← search_neighbor (strip line);
  match norm_mac (PStr mac), normalize_ipv6_list (PList [PStr addr]) with
  | mac, ip :: _ => if nonempty mac then Some (neighbor mac ip (clean_str state) (clean_str dev) now "router_ndp") else None
  | _, [] => None
  end.

Definition parse_ipv6_neighbor_text (now : string) (text : string) : list dict :=
  omap (neighbor_of_line now) (splitlines text).

Definition ip_fields : list string := ["ip"; "ipv6"; "address"; "addr"].

Definition neighbor_of_item (now : string) (v : pyval) : option dict :=
  match v with
  | PDict item =>
      let mac := norm_mac (first_of item ["mac"; "lladdr"; "linkLayerAddress"]) in
      match normalize_ipv6_list (PList [PStr (clean_saved_value (first_of item ip_fields))]) with
      | ip :: _ =>
          if nonempty mac
          then Some (neighbor mac ip (clean_saved_value (get item "state"))
                      (clean_saved_value (first_of item ["dev"; "iface"; "ifname"]))
                      (str_or (clean_saved_value (first_of item ["seenAt"; "collectedAt"])) now)
                      (str_or (clean_saved_value (get item "source")) "router_ndp"))
          else None
      | [] => None
      end
  | _ => None
  end.

Definition neighbor_of_lease (now : string) (v : pyval) : option dict :=
  match v with
  | PDict item =>
      let mac := norm_mac (first_of item ["mac"; "duidMac"; "lladdr"]) in
      match normalize_ipv6_list (PList [PStr (clean_saved_value (first_of item ip_fields))]) with
      | ip :: _ =>
          if nonempty mac
          then Some (neighbor mac ip (str_or (clean_saved_value (get item "state")) "LEASED")
                      (str_or (clean_saved_value (first_of item ["dev"; "iface"; "ifname"])) "dhcpv6")
                      (str_or (clean_saved_value (first_of item ["seenAt"; "collectedAt"])) now)
                      "dhcpv6_lease")
          else None
      | [] => None
      end
  | _ => None
  end.

Definition neighbor_key (n : dict) : string := norm_mac (get n "mac") +:+ "|" +:+ clean_saved_value (get n "ip").

(** The last neighbour of a MAC and address wins. *)
Definition dedup_neighbors (out : list dict) : list dict :=
  rows_of (dict_of (omap (fun n => if nonempty (strip_by (is_char "|"%char) (neighbor_key n))
                                   then Some (neighbor_key n, PDict n) else None) out)).

Definition parse_ipv6_neighbors (now : string) (payload : pyval) : list dict :=
  match payload with
  | PDict d =>
      let items := first_of d ["ipv6_neighbors"; "ipv6Neighbors"; "ndp"; "neighbors"] in
      let leases := por (first_of d ["dhcpv6_leases"; "dhcpv6Leases"; "leases"]) (PList []) in
      let text := first_of d ["ipv6_neighbors_text"; "ipv6NeighborsText"; "ip6_neigh"; "ip6Neigh"; "ndpText"] in
      dedup_neighbors
        (match items with PStr s => parse_ipv6_neighbor_text now s | _ => [] end
         ++ match text with PStr s => parse_ipv6_neighbor_text now s | _ => [] end
         ++ omap (neighbor_of_item now) (list_or_empty items)
         ++ omap (neighbor_of_lease now) (list_or_empty leases))
  | _ => []
  end.

(** ** The Hub's own machine *)

Definition mac_separator (c : ascii) : bool := is_space c || is_char ","%char c || is_char ";"%char c.

Definition configured_nas_macs (E : env) : list string :=
  let env_raw := host_mac E in
  let words s := runs (fun c => negb (mac_separator c)) s in
  let of_key key := match cfg_get E key PNone with
                    | PList l => List.map py_str l
                    | raw => if truthy raw then words (py_str raw) else []
                    end in
  let vals := (if nonempty env_raw then words env_raw else [])
              ++ List.concat (List.map of_key ["nas.mac"; "nas.macs"; "nas.device_mac"]) in
  dedup (List.filter nonempty (List.map (fun x => norm_mac (PStr x)) vals)).

(** [own] is [get_local_global_ip(True)]. *)
Definition local_hub_ipv6_records (now own : string) : list dict :=
  List.map (fun ip =>
    [("ip", PStr ip); ("firstSeen", PStr now); ("lastSeen", PStr now); ("lastReachable", PStr now);
     ("source", PStr "hub_local_probe"); ("state", PStr "REACHABLE"); ("dev", PStr "hub");
     ("currentPrefix", PBool true); ("temporary", PBool (is_temporary_ipv6 "hub_local_probe"));
     ("historical", PBool false); ("primary", PBool true)])
    (normalize_ipv6_list (PList [PStr own])).
