(* ===== verification/DeviceArchive.v ===== *)
(** * The device archive

    One lasting snapshot per MAC address: what is archived, how a device is completed from
    it, the offline list, and the merging of neighbours ([hub.py]). *)

From S2P Require Import Prelude PyNum PyVal PyIp PyTime HubValues Json Storage Hub.
From S2P Require Import HubNetwork Ipv6Records.

(** ** Snapshots *)

Definition keep_keys : list string :=
  ["name"; "mac"; "ip"; "lastIp"; "ssid"; "band"; "rssi"; "rxrate"; "channel";
   "connectType"; "onlineSince"; "onlineDurationText"; "lastSeenAt"; "offlineAt";
   "todayOnlineDurationSec"; "todayOnlineDurationText"; "todayOnlineDate";
   "hostName"; "devType"; "osType"; "manufacture"; "devRecommend"; "ipv6"; "ipv6Address"; "globalIpv6";
   "ipv6List"; "ipv6Records"; "ipv6UpdatedAt"; "ndpState"; "ndpDev"; "wolMode";
   "todayUpload"; "todayDownload"; "totalUpload"; "totalDownload"; "todayTraffic"; "realtimeTraffic";
   "dailyUpBytes"; "dailyDownBytes"; "upBytes"; "downBytes"; "trafficDate"; "trafficUpdatedAt"; "trafficText"].

Definition day_traffic_keys : list string :=
  ["todayUpload"; "todayDownload"; "todayTraffic"; "dailyUpBytes"; "dailyDownBytes"].

Definition snapshot_of (dev : dict) : dict :=
  dict_of (omap (fun k => option_map (pair k) (dget dev k)) keep_keys).

(** The counters of the day leave with the day. *)
Definition drop_old_day (snap old : dict) : dict :=
  if nonempty (clean_saved_value (get snap "trafficDate"))
     && negb (py_eq (get snap "trafficDate") (get old "trafficDate"))
  then fold_left (fun d k => ddel k d) day_traffic_keys old else old.

Definition archived_entry (mac now : string) (dev old : dict) : dict :=
  let snap := snapshot_of dev in
  let old := drop_old_day snap old in
  let snap := if nonempty (clean_saved_value (get snap "ip")) then dset "lastIp" (get snap "ip") snap else snap in
  dset "archivedAt" (PStr now) (dset "mac" (PStr mac) (merge_non_empty old snap)).

(** An entry of the archive, [{}] when there is none. *)
Definition entry (archive : dict) (mac : string) : result dict :=
  match dget archive mac with
  | None => Ok []
  | Some (PDict d) => Ok d
  | Some v => attribute_error v "get"
  end.

(** [dict(v)]; a list of pairs is not modelled. *)
Definition to_dict (v : pyval) : result dict :=
  match v with
  | PDict d => Ok d
  | PStr "" | PList [] => Ok []
  | PStr _ | PList _ => raise_value_error "dictionary update sequence element #0 has length 1; 2 is required"
  | _ => Err (Exn "TypeError" ("'" +:+ type_name v +:+ "' object is not iterable"))
  end.

Definition archive_cap : nat := 500.

Section Archive.
Context {S : Type} `{DocStore S} {tz : TimeZone} (E : env).

Definition load_device_archive : hub S dict :=
  raw ← load_json "device_archive.json" (PDict []); mret (dict_or_empty raw).

Definition save_device_archive (data : dict) : hub S unit :=
  save_json "device_archive.json" (PDict (last_n archive_cap data)).

Definition archive_device_snapshot (dev : dict) : hub S unit :=
  let mac := norm_mac (get dev "mac") in
  if negb (nonempty mac) then mret tt
  else
    archive ← load_device_archive;
    old ← lift (match get_or archive mac (PDict []) with
                | PDict d => Ok d
                | v => if nonempty (clean_saved_value (get dev "trafficDate")) then attribute_error v "get"
                       else to_dict (por v (PDict []))
                end);
    now ← now_str;
    save_device_archive (dset mac (PDict (archived_entry mac now dev old)) archive).

(** ** Completing a device *)

Definition hydrate_keys : list string :=
  ["name"; "lastIp"; "ssid"; "band"; "rssi"; "rxrate"; "channel"; "connectType"; "onlineSince";
   "onlineDurationText"; "lastSeenAt";
   "hostName"; "devType"; "osType"; "manufacture"; "devRecommend";
   "ipv6"; "ipv6Address"; "globalIpv6"; "ipv6List"; "ipv6Records"; "ipv6UpdatedAt"; "ndpState"; "ndpDev"; "wolMode";
   "totalUpload"; "totalDownload"; "realtimeTraffic"; "upBytes"; "downBytes"; "trafficUpdatedAt"; "trafficText"].

Definition is_blank (v : pyval) : bool := negb (nonempty (clean_saved_value v)).

(** [if not clean(out.get(k)) and clean(old.get(k)): out[k] = old.get(k)]. *)
Definition fill (old out : dict) (k : string) : dict :=
  if is_blank (get out k) && negb (is_blank (get old k)) then dset k (get old k) out else out.

Definition hydrate_fields (today : string) (old : dict) : list string :=
  hydrate_keys
  ++ (if is_text (get old "trafficDate") today
      then ["todayUpload"; "todayDownload"; "todayTraffic"; "dailyUpBytes"; "dailyDownBytes"; "trafficDate"] else [])
  ++ (if is_text (get old "todayOnlineDate") today
      then ["todayOnlineDurationSec"; "todayOnlineDurationText"; "todayOnlineDate"] else []).

Definition set_ipv6 (addr : string) (out : dict) : dict :=
  dset "globalIpv6" (PStr addr) (dset "ipv6Address" (PStr addr) (dset "ipv6" (PStr addr) out)).

(** The records of the device, its list of addresses and its preferred address. *)
Definition put_records (records : list dict) (out : dict) : dict :=
  match records with
  | [] => out
  | _ =>
      let best := pick_primary_ipv6 records in
      let out := dset "ipv6List" (texts_list (normalize_ipv6_list (texts_list (ordered_ips best records))))
                   (dset "ipv6Records" (PList (List.map PDict records)) out) in
      if nonempty best then set_ipv6 best out else out
  end.

Definition fill_text (addr : string) (out : dict) (k : string) : dict :=
  if is_blank (get out k) then dset k (PStr addr) out else out.

Definition put_list (ipv6_list : list string) (out : dict) : dict :=
  match ipv6_list with
  | [] => out
  | first :: _ => fold_left (fill_text first) ["ipv6"; "ipv6Address"; "globalIpv6"] (dset "ipv6List" (texts_list ipv6_list) out)
  end.

(** The last address and the time of leaving of a device that is offline. *)
Definition put_offline (old out : dict) : dict :=
  if truthy (get out "online") then out
  else
    let last := first_of old ["lastIp"; "ip"] in
    let out := if is_blank (get out "ip") && negb (is_blank last) then dset "lastIp" last out else out in
    fill old out "offlineAt".

(** [hydrate_device_with_archive] with the entry found, at a time and for the prefixes. *)
Definition hydrated (today now : string) (prefixes : list string) (old dev : dict) : dict :=
  let out := fold_left (fill old) (hydrate_fields today old) dev in
  let out := put_records (normalize_ipv6_records now
                            (por (get out "ipv6Records") (por (get old "ipv6Records") (PList []))) prefixes) out in
  let out := put_list (normalize_ipv6_list (por (get out "ipv6List") (por (get old "ipv6List") (PList [])))) out in
  put_offline old out.

(** The prefixes of the router's LAN, from the state document. *)
Definition lan_prefixes : hub S (list string) :=
  state ← load_json "state.json" (PDict []);
  router ← lift (vget state "router");
  values ← lift (vget (por router (PDict [])) "lanIpv6Prefixes");
  mret (normalize_ipv6_prefixes (por values (PList []))).

Definition hydrate_device_with_archive (dev archive : dict) : hub S dict :=
  let mac := norm_mac (get dev "mac") in
  if negb (nonempty mac) then mret dev
  else
    let found := get_or archive mac (PDict []) in
    if negb (truthy found) then mret dev
    else
      old ← lift (entry archive mac);
      today ← today_str;
      now ← now_str;
      prefixes ← lan_prefixes;
      mret (hydrated today now prefixes old dev).

Fixpoint hydrate_all (archive : dict) (items : list pyval) : hub S (list pyval) :=
  match items with
  | [] => mret []
  | PDict d :: rest =>
      d' ← hydrate_device_with_archive d archive; rest' ← hydrate_all archive rest; mret (PDict d' :: rest')
  | v :: _ => raise (Exn "AttributeError" ("'" +:+ type_name v +:+ "' object has no attribute 'get'"))
  end.

Definition hydrate_watched_list (items : pyval) : hub S (list pyval) :=
  archive ← load_device_archive;
  l ← lift (py_iter (por items (PList [])));
  hydrate_all archive l.

(** ** The offline devices *)

Definition offline_row (mac : string) (snapshot : dict) : dict :=
  let item := dset "online" (PBool false) (dset "mac" (PStr mac) snapshot) in
  let offline := str_or (clean_saved_value (get item "offlineAt")) (clean_saved_value (get item "archivedAt")) in
  let item := dset "offlineAt" (PStr offline) item in
  dset "lastSeenAt" (PStr (str_or (clean_saved_value (get item "lastSeenAt")) offline)) item.

Definition left_at (item : dict) : string := clean_saved_value (first_of item ["offlineAt"; "lastSeenAt"; "archivedAt"]).
Definition later_first (a b : dict) : bool := sleb (left_at b) (left_at a).

Fixpoint offline_rows (online_macs : list string) (archive : dict) (entries : dict) : hub S (list dict) :=
  match entries with
  | [] => mret []
  | (mac, snapshot) :: rest =>
      key ← lift (if nonempty mac then Ok (PStr mac) else vget snapshot "mac");
      let mac := norm_mac key in
      if negb (nonempty mac) || str_in mac online_macs then offline_rows online_macs archive rest
      else
        d ← lift (to_dict snapshot);
        row ← hydrate_device_with_archive (offline_row mac d) archive;
        rows ← offline_rows online_macs archive rest;
        mret (row :: rows)
  end.

Definition archived_offline_devices (online : list dict) (archive : dict) : hub S (list dict) :=
  let online_macs := List.filter nonempty (List.map (fun item => norm_mac (get item "mac")) online) in
  rows ← offline_rows online_macs archive archive;
  mret (firstn 500 (isort later_first rows)).

(** ** Merging the neighbours

    [own] is the Hub's global IPv6 address and [lan] its IPv4 address in the LAN; [run] gives
    the output of the commands that tell them. *)

Definition by_ip (records : list dict) : dict :=
  dict_of (omap (fun r => match get r "ip" with
                          | PStr s => if nonempty s then Some (s, PDict r) else None
                          | _ => None
                          end) records).

Definition neighbor_record (prefixes : list string) (now : string) (is_nas : bool) (n : dict) (ip : string) (known : dict) : dict :=
  let source := if is_nas then "router_ndp_crosscheck" else str_or (clean_saved_value (get n "source")) "router_ndp" in
  let seen_at := str_or (clean_saved_value (get n "seenAt")) now in
  let state := clean_saved_value (get n "state") in
  let current := ipv6_in_prefixes ip prefixes in
  let rec := dict_or_empty (get_or known ip (PDict [("ip", PStr ip); ("firstSeen", PStr seen_at)])) in
  let rec := dset "primary" (PBool false)
               (dset "temporary" (PBool (is_temporary_ipv6 source))
                 (dset "currentPrefix" (PBool current)
                   (dset "dev" (PStr (clean_saved_value (get n "dev")))
                     (dset "state" (PStr state) (dset "source" (PStr source) (dset "lastSeen" (PStr seen_at) rec)))))) in
  let rec := if str_in (upper state) ["REACHABLE"; "DELAY"; "PROBE"; "LEASED"] then dset "lastReachable" (PStr seen_at) rec else rec in
  dset "historical" (PBool (match prefixes with [] => false | _ => negb current && negb (is_ula_ipv6 ip) end)) rec.

(** The Hub's own records over those of the same address. *)
Definition add_local (known local_rec : dict) : dict :=
  match get local_rec "ip" with
  | PStr ip =>
      if nonempty ip
      then dset ip (PDict (dupdate (dict_or_empty (get_or known ip
             (PDict [("ip", PStr ip); ("firstSeen", get local_rec "firstSeen")]))) local_rec)) known
      else known
  | _ => known
  end.

Definition mark_primary (best : string) (r : dict) : dict :=
  dset "primary" (PBool (nonempty best && is_text (get r "ip") best)) r.

(** The records after a change, with the primary one marked, and the preferred address. *)
Definition rank_records (now : string) (prefixes : list string) (known : dict) : list dict * string :=
  let merged := normalize_ipv6_records now (PList (List.map snd known)) prefixes in
  let best := pick_primary_ipv6 merged in
  (List.map (mark_primary best) merged, best).

Definition merged_neighbor (now : string) (prefixes : list string) (is_nas : bool) (local_records : list dict)
    (mac ip : string) (n old : dict) : dict * bool :=
  let known := by_ip (normalize_ipv6_records now (por (get old "ipv6Records") (por (get old "ipv6List") (PList []))) prefixes) in
  let known := dset ip (PDict (neighbor_record prefixes now is_nas n ip known)) known in
  let known := if is_nas then fold_left add_local local_records known else known in
  let '(records, best) := rank_records now prefixes known in
  let ipv6_list := normalize_ipv6_list (texts_list (ordered_ips best records)) in
  let rows := PList (List.map PDict records) in
  let differs := negb (py_eq rows (get old "ipv6Records")) || negb (py_eq (texts_list ipv6_list) (get old "ipv6List"))
                 || negb (py_eq (PStr best) (get old "ipv6")) in
  let old := if differs
             then let old := dset "ipv6List" (texts_list ipv6_list) (dset "ipv6Records" rows old) in
                  dset "ipv6UpdatedAt" (PStr now) (if nonempty best then set_ipv6 best old else old)
             else old in
  (dset "archivedAt" (PStr now) (dset "ndpDev" (get n "dev") (dset "ndpState" (get n "state") (dset "mac" (PStr mac) old))), differs).

Definition is_nas_device (nas_macs : list string) (lan mac : string) (ip : pyval) : bool :=
  str_in mac nas_macs || nonempty lan && String.eqb (clean_saved_value ip) lan.

Fixpoint merge_neighbors_go (now own lan : string) (prefixes : list string) (neighbors : list dict)
    (archive : dict) (changed : Z) : result (dict * Z) :=
  match neighbors with
  | [] => Ok (archive, changed)
  | n :: rest =>
      let mac := norm_mac (get n "mac") in
      let ip := clean_saved_value (get n "ip") in
      if negb (nonempty mac) || negb (nonempty ip) then merge_neighbors_go now own lan prefixes rest archive changed
      else
        old ← entry archive mac;
        let is_nas := is_nas_device (configured_nas_macs E) lan mac (first_of old ["ip"; "lastIp"]) in
        let '(old, differs) := merged_neighbor now prefixes is_nas (local_hub_ipv6_records now own) mac ip n old in
        merge_neighbors_go now own lan prefixes rest (dset mac (PDict old) archive) (changed + Z.b2z differs)
  end.

Definition merge_ipv6_neighbors_to_archive (run : list string -> option string) (neighbors : list dict)
    (prefixes : list string) : hub S Z :=
  match neighbors with
  | [] => mret 0
  | _ =>
      archive ← load_device_archive;
      now ← now_str;
      merged ← lift (merge_neighbors_go now (get_local_global_ip run true) (get_local_lan_ipv4 run) prefixes neighbors archive 0);
      let '(archive, changed) := merged in
      _ ← save_device_archive archive;
      mret changed
  end.

(** The records a device is known by, its own first. *)
Definition known_records (dev : dict) (old : pyval) : result pyval :=
  if truthy (get dev "ipv6Records") then Ok (get dev "ipv6Records")
  else
    a ← vget old "ipv6Records";
    if truthy a then Ok a
    else if truthy (get dev "ipv6List") then Ok (get dev "ipv6List")
    else b ← vget old "ipv6List"; Ok (por b (PList [])).

Definition attach_local (now own lan : string) (prefixes : list string) (archive dev : dict) : result dict :=
  let mac := norm_mac (get dev "mac") in
  if negb (is_nas_device (configured_nas_macs E) lan mac (get dev "ip")) then Ok dev
  else
    source ← known_records dev (if nonempty mac then get_or archive mac (PDict []) else PDict []);
    let known := by_ip (normalize_ipv6_records now source prefixes) in
    let known := fold_left add_local (local_hub_ipv6_records now own) known in
    let '(records, best) := rank_records now prefixes known in
    let dev := dset "ipv6List" (texts_list (normalize_ipv6_list (texts_list (ordered_ips best records))))
                 (dset "ipv6Records" (PList (List.map PDict records)) dev) in
    Ok (if nonempty best then dset "ipv6UpdatedAt" (PStr now) (set_ipv6 best dev) else dev).

Definition attach_hub_local_ipv6_to_nas_devices (run : list string -> option string) (devices : list dict)
    : hub S (list dict) :=
  now ← now_str;
  let own := get_local_global_ip run true in
  match devices, local_hub_ipv6_records now own with
  | [], _ | _, [] => mret devices
  | _, _ =>
      prefixes ← lan_prefixes;
      archive ← load_device_archive;
      lift (result_map (attach_local now own (get_local_lan_ipv4 run) prefixes archive) devices)
  end.
End Archive.
