(* ===== verification/DeviceFacts.v ===== *)
(** * Facts about the device records

    The primary address of a device, the parsing of the neighbour table, what the archive
    keeps, and the offline list. *)

From S2P Require Import Prelude PyNum PyVal PyIp PyTime HubValues Json Storage Hub Fixtures.
From S2P Require Import HubNetwork Ipv6Records DeviceArchive.

(** ** The primary address *)

Section Primary.
Context {tz : TimeZone}.

Lemma by_score_time_total : forall a b, by_score_time a b = true \/ by_score_time b a = true.
Proof. intros a b. unfold by_score_time. rewrite !orb_true_iff, !andb_true_iff, !Z.ltb_lt, !Z.eqb_eq, !Z.leb_le. lia. Qed.

Lemma by_score_time_trans : forall a b c, by_score_time a b = true -> by_score_time b c = true -> by_score_time a c = true.
Proof.
  intros a b c. unfold by_score_time. rewrite !orb_true_iff, !andb_true_iff, !Z.ltb_lt, !Z.eqb_eq, !Z.leb_le. lia.
Qed.

Lemma by_score_time_score a b : by_score_time a b = true -> score_ipv6_record b <= score_ipv6_record a.
Proof. unfold by_score_time. rewrite orb_true_iff, andb_true_iff, Z.ltb_lt, Z.eqb_eq, Z.leb_le. lia. Qed.

(** A record that scores has a listable address. *)
Lemma scored_address r :
  unusable_score < score_ipv6_record r ->
  exists a, ip_of_str (clean_saved_value (get r "ip")) = Some a /\ listable_ipv6 a = true.
Proof.
  unfold score_ipv6_record. destruct (nonempty (clean_saved_value (get r "ip"))); cbn [negb]; [|lia].
  unfold address_score. destruct (ip_of_str _) as [a|]; [|lia].
  destruct (listable_ipv6 a) eqn:E; [|lia]. intros _. eauto.
Qed.

(** The primary address of a list of records is that of a record with the highest score, and
    it is an IPv6 address that is not link-local, multicast, loopback or IPv4-mapped; it is empty
    exactly when no record is usable. *)
Theorem primary_has_best_score records :
  match pick_primary_ipv6 records with
  | EmptyString => Forall (fun r => score_ipv6_record r <= unusable_score) records
  | best => exists r a, In r records /\ best = clean_saved_value (get r "ip")
                        /\ Forall (fun r' => score_ipv6_record r' <= score_ipv6_record r) records
                        /\ ip_of_str best = Some a /\ listable_ipv6 a = true
  end.
Proof.
  unfold pick_primary_ipv6. set (usable := List.filter _ records).
  pose proof (isort_perm by_score_time usable) as Hp.
  pose proof (isort_ordered by_score_time by_score_time_total by_score_time_trans usable) as Ho.
  destruct (isort by_score_time usable) as [|r l].
  - apply Permutation_nil in Hp. apply Forall_forall. intros x Hx%list_elem_of_In.
    destruct (Z.ltb_spec unusable_score (score_ipv6_record x)) as [Hlt|]; [|lia].
    assert (In x usable) as Hin by (apply filter_In; split; [done|]; by apply Z.ltb_lt). by rewrite Hp in Hin.
  - assert (In r usable) as Hr by (eapply Permutation_in; [exact Hp|by left]).
    apply filter_In in Hr as [Hr Hs]. apply Z.ltb_lt in Hs.
    destruct (scored_address r Hs) as (a & Ha & Hl). destruct (clean_saved_value (get r "ip")) eqn:Ec; [done|].
    exists r, a. rewrite Ec. repeat split; try done. apply Forall_forall. intros x Hx%list_elem_of_In.
    destruct (Z.ltb_spec unusable_score (score_ipv6_record x)) as [Hlt|]; [|lia].
    assert (In x (r :: l)) as Hin.
    { eapply Permutation_in; [symmetry; exact Hp|]. apply filter_In. split; [done|]. by apply Z.ltb_lt. }
    destruct Hin as [<-|Hin]; [lia|]. inversion Ho as [|? ? _ Hf]; subst.
    apply by_score_time_score. by eapply List.Forall_forall in Hf.
Qed.
End Primary.

(** Two records that differ only in the day they were last seen: the points for recency count
    the day modulo six, so the older record can be the primary one. *)
Definition seen_on (day : string) (addr : string) : dict :=
  [("ip", PStr addr); ("lastSeen", PStr (day +:+ " 12:00:00")); ("lastReachable", PStr "");
   ("source", PStr "router_ndp"); ("state", PStr "STALE"); ("currentPrefix", PBool true)].

Example older_record_wins :
  pick_primary_ipv6 [seen_on "2024-05-29" "2409:8a00::2"; seen_on "2024-05-28" "2409:8a00::1"] = "2409:8a00::1".
Proof. vm_compute. reflexivity. Qed.

(** ** The neighbour table *)

(** A line of [ip -6 neigh show] as the router prints it. *)
Definition neighbor_line (addr dev mac state : string) : string :=
  addr +:+ " dev " +:+ dev +:+ " lladdr " +:+ mac +:+ " " +:+ state.

Definition state_char (c : ascii) : bool := is_upper c || is_char "_"%char c.
Definition word_char (c : ascii) : bool := negb (is_space c).

Lemma stake_app s1 s2 : stake (String.length s1) (s1 +:+ s2) = s1.
Proof. induction s1 as [|c s1 IH]; [by destruct s2|]. cbn. by rewrite IH. Qed.

Lemma eqb_longer s t : String.length s <> String.length t -> String.eqb s t = false.
Proof. intros H. apply String.eqb_neq. by intros ->. Qed.

(** Spaces before a word are stripped, and seen. *)
Lemma strip_space w s :
  nonempty w = true -> sall word_char w = true ->
  lstrip_by is_space (" " +:+ w +:+ s) = w +:+ s /\ String.eqb (" " +:+ w +:+ s) (w +:+ s) = false.
Proof.
  destruct w as [|c w]; [done|]. intros _ Hc. apply andb_prop in Hc as [Hc _]. unfold word_char in Hc. split.
  - cbn. by destruct (is_space c).
  - apply eqb_longer. cbn. rewrite append_length. lia.
Qed.

Lemma char_range_word c lo hi : in_range lo hi c = true -> 32 < lo -> is_space c = false.
Proof. intros H%in_range_spec Hlo. unfold is_space. apply orb_false_iff. split; apply in_range_false; lia. Qed.

Lemma hex_colon_word c : hex_colon c = true -> word_char c = true.
Proof.
  unfold hex_colon, is_hex, is_digit, word_char, is_char. rewrite !orb_true_iff.
  intros [[[H|H]|H]|H]; [by erewrite char_range_word..|]. apply Ascii.eqb_eq in H as <-. done.
Qed.

Lemma mac_words i mac : mac_shape i mac = true -> sall word_char mac = true.
Proof.
  revert i. induction mac as [|c mac IH]; intros i; [done|]. cbn [mac_shape sall]. intros [Hc Hm]%andb_prop. rewrite (IH _ Hm), andb_true_r.
  destruct (_ =? 2)%nat; [|by apply hex_colon_word]. apply Ascii.eqb_eq in Hc as <-. done.
Qed.

Lemma lladdr_at_line mac state :
  String.length mac = mac_length -> mac_shape 0 mac = true -> sall state_char state = true -> nonempty state = true ->
  lladdr_at ("lladdr " +:+ mac +:+ " " +:+ state) = Some (mac, state).
Proof.
  intros Hl Hm Hs Hne. unfold lladdr_at. change (starts_with "lladdr" ("lladdr " +:+ ?x)) with true. cbn [negb].
  change (sdrop 6 ("lladdr " +:+ ?x)) with (" " +:+ x).
  destruct (strip_space mac (" " +:+ state)) as [E1 E2]; [by destruct mac|by eapply mac_words|].
  rewrite E1, E2, <- Hl, stake_app, sdrop_app, Nat.eqb_refl, Hm. cbn [negb orb].
  assert (sall word_char state = true) as Hw.
  { eapply sall_impl; [|exact Hs]. intros c. unfold state_char, is_upper, word_char, is_char. rewrite orb_true_iff.
    intros [H|H]; [by erewrite char_range_word|]. apply Ascii.eqb_eq in H as <-. done. }
  destruct (strip_space state "" Hne Hw) as [E3 E4]. rewrite !append_nil_r in E3, E4. rewrite E3, String.eqb_sym, E4.
  rewrite <- (append_nil_r state) at 1. change (fun c => is_upper c || _) with state_char. by rewrite span_app.
Qed.

Lemma find_lladdr_line mac state :
  String.length mac = mac_length -> mac_shape 0 mac = true -> sall state_char state = true -> nonempty state = true ->
  find_lladdr (" lladdr " +:+ mac +:+ " " +:+ state) = Some (mac, state).
Proof.
  intros Hl Hm Hs Hne. change (" lladdr " +:+ ?x) with (String " "%char ("lladdr " +:+ x)). cbn [find_lladdr].
  assert (lladdr_at (String " " ("lladdr " +:+ mac +:+ " " +:+ state)) = None) as -> by done.
  pose proof (lladdr_at_line mac state Hl Hm Hs Hne) as H.
  destruct ("lladdr " +:+ mac +:+ " " +:+ state) eqn:E; [done|]. cbn [find_lladdr]. by rewrite H.
Qed.

Lemma dev_and_lladdr_line dev mac state :
  nonempty dev = true -> String.length mac = mac_length -> mac_shape 0 mac = true ->
  sall state_char state = true -> nonempty state = true ->
  dev_and_lladdr (String.length dev) (dev +:+ " lladdr " +:+ mac +:+ " " +:+ state) = Some (dev, (mac, state)).
Proof.
  intros Hd Hl Hm Hs Hne. destruct dev as [|c dev]; [done|]. set (dev' := String c dev).
  change (String.length dev') with (S (String.length dev)). cbn [dev_and_lladdr].
  change (S (String.length dev)) with (String.length dev').
  rewrite sdrop_app, stake_app, find_lladdr_line by done. done.
Qed.

(** The neighbour pattern reads every line the router prints back into its parts: an address
    of at least three characters, an interface without spaces, a MAC and a state. *)
Theorem neighbor_line_read_back addr dev mac state :
  sall hex_colon addr = true -> (3 <= String.length addr)%nat ->
  nonempty dev = true -> sall word_char dev = true ->
  String.length mac = mac_length -> mac_shape 0 mac = true ->
  nonempty state = true -> sall state_char state = true ->
  search_neighbor (neighbor_line addr dev mac state) = Some (addr, dev, mac, state).
Proof.
  intros Ha Hlen Hd Hw Hl Hm Hne Hs.
  assert (neighbor_at (neighbor_line addr dev mac state) = Some (addr, dev, mac, state)) as H.
  2:{ destruct addr as [|c addr]; [cbn in Hlen; lia|].
      change (neighbor_line (String c addr) dev mac state) with (String c (neighbor_line addr dev mac state)) in *.
      cbn [search_neighbor]. by rewrite H. }
  unfold neighbor_at, neighbor_line. rewrite span_app by done.
  assert ((String.length addr <? 3)%nat = false) as -> by (apply Nat.ltb_ge; lia).
  set (tail := dev +:+ " lladdr " +:+ mac +:+ " " +:+ state).
  change (" dev " +:+ tail) with (" " +:+ ("dev" +:+ (" " +:+ tail))).
  destruct (strip_space "dev" (" " +:+ tail) eq_refl eq_refl) as [E1 E2].
  change (" " +:+ "dev" +:+ " " +:+ tail) with (String " "%char ("dev" +:+ " " +:+ tail)) in *. cbv iota beta.
  rewrite E1, E2. cbn [orb]. change (starts_with "dev" ("dev" +:+ ?x)) with (starts_with "" x).
  assert (starts_with "" (" " +:+ tail) = true) as -> by done. cbn [negb orb].
  change (sdrop 3 ("dev" +:+ ?x)) with x.
  destruct (strip_space dev (" lladdr " +:+ mac +:+ " " +:+ state) Hd Hw) as [E3 E4]. fold tail in E3, E4.
  rewrite E3, E4. unfold tail. change (fun c => negb (is_space c)) with word_char. rewrite span_app by done. cbn [fst].
  by rewrite dev_and_lladdr_line.
Qed.

Lemma neighbor_line_read_back_witness :
  search_neighbor (neighbor_line "2409:8a00::1" "br-lan" "6c:1f:f7:76:71:04" "REACHABLE")
  = Some ("2409:8a00::1", "br-lan", "6c:1f:f7:76:71:04", "REACHABLE").
Proof. apply neighbor_line_read_back; vm_compute; try reflexivity. lia. Defined.

(** ** What the archive keeps *)

Lemma has_dset k k' v d : has (dset k v d) k' = String.eqb k k' || has d k'.
Proof. unfold has. rewrite dget_dset. by destruct (String.eqb k k'). Qed.

Lemma get_merge base overlay k :
  nodup_keys overlay ->
  get (merge_non_empty base overlay) k
  = match dget overlay k with
    | Some v => if negb (is_blank v) || negb (has base k) then v else get base k
    | None => get base k
    end.
Proof.
  unfold merge_non_empty, nodup_keys. revert base. induction overlay as [|[k0 v0] o IH]; intros base H; [done|].
  inversion H as [|? ? Hn Ho]; subst. cbn [fold_left fst snd dget]. rewrite IH by done. clear IH.
  destruct (String.eqb_spec k k0) as [->|Hne].
  - assert (dget o k0 = None) as -> by by apply dget_None_keys. unfold is_blank. rewrite negb_involutive.
    destruct (nonempty _ || _); [by rewrite get_dset_eq|done].
  - assert (forall v, get (dset k0 v base) k = get base k /\ has (dset k0 v base) k = has base k) as Hsame.
    { intros v. rewrite get_dset_ne, has_dset by congruence.
      destruct (String.eqb_spec k0 k); [congruence|done]. }
    destruct (nonempty _ || _); [|done]. by destruct (Hsame v0) as [-> ->].
Qed.

Lemma dget_snapshot dev k : dget (snapshot_of dev) k = if str_in k keep_keys then dget dev k else None.
Proof.
  unfold snapshot_of. rewrite dict_of_nodup.
  - assert (forall l, dget (omap (fun k => option_map (pair k) (dget dev k)) l) k
                      = if str_in k l then dget dev k else None) as H; [|apply H].
    induction l as [|k0 l IH]; [done|]. cbn [omap list_omap str_in existsb]. unfold str_in in IH.
    destruct (String.eqb_spec k k0) as [->|Hne]; cbn [orb].
    + destruct (dget dev k0) as [v|] eqn:E; cbn [option_map]; [cbn [dget]; by rewrite String.eqb_refl|].
      rewrite IH. by case_match.
    + destruct (dget dev k0) as [v|]; cbn [option_map]; [|done]. cbn [dget].
      destruct (String.eqb_spec k k0); [congruence|done].
  - unfold nodup_keys.
    assert (forall l, List.NoDup l -> List.NoDup (keys (omap (fun k => option_map (pair k) (dget dev k)) l))
             /\ forall x, In x (keys (omap (fun k => option_map (pair k) (dget dev k)) l)) -> In x l) as H.
    { induction l as [|k0 l IH]; intros Hl; [done|]. inversion Hl as [|? ? Hn Hl']; subst.
      destruct (IH Hl') as [H1 H2]. cbn [omap list_omap]. destruct (dget dev k0); cbn [option_map].
      - split; [constructor; auto|]. intros x [<-|Hx]; [by left|right; auto].
      - split; [done|]. intros x Hx. right. auto. }
    apply H. assert (dedup keep_keys = keep_keys) as <- by (vm_compute; reflexivity). apply dedup_NoDup.
Qed.

Lemma snapshot_nodup dev : nodup_keys (snapshot_of dev).
Proof. apply nodup_dict_of. Qed.

Lemma get_del_keys ks d k : ~ In k ks -> get (fold_left (fun d k => ddel k d) ks d) k = get d k.
Proof.
  revert d. induction ks as [|k0 ks IH]; intros d Hk; [done|]. cbn [fold_left]. cbn in Hk.
  rewrite IH by tauto. unfold get. rewrite dget_ddel_ne by (intros ->; tauto). done.
Qed.

(** The fields that the archive sets itself. *)
Definition own_fields : list string := ["mac"; "archivedAt"; "lastIp"].

Lemma archived_get mac now dev old k :
  ~ In k own_fields ->
  get (archived_entry mac now dev old) k = get (merge_non_empty (drop_old_day (snapshot_of dev) old) (snapshot_of dev)) k.
Proof.
  intros Hk. unfold archived_entry. set (old' := drop_old_day _ _).
  assert (k <> "mac" /\ k <> "archivedAt" /\ k <> "lastIp") as (H1 & H2 & H3) by (cbn in Hk; naive_solver).
  rewrite !get_dset_ne by done. destruct (nonempty _); [|done].
  rewrite !get_merge by auto using nodup_dset, snapshot_nodup. by rewrite dget_dset_ne by done.
Qed.

Lemma get_has d k : is_blank (get d k) = false -> has d k = true.
Proof. unfold has, get. by destruct (dget d k). Qed.

Lemma get_some d k v : dget d k = Some v -> get d k = v.
Proof. unfold get. by intros ->. Qed.

(** A new snapshot of a device takes over every archived field it brings a value for, and
    erases nothing: a field it leaves blank keeps its archived value.  Only the traffic counters
    of a day are dropped, when the snapshot names another day. *)
Theorem snapshot_keeps_information mac now dev old k :
  ~ In k own_fields ->
  (is_blank (get dev k) = false -> In k keep_keys -> get (archived_entry mac now dev old) k = get dev k)
  /\ (is_blank (get dev k) = true -> is_blank (get old k) = false ->
      ~ In k day_traffic_keys \/ is_blank (get dev "trafficDate") = true
        \/ py_eq (get dev "trafficDate") (get old "trafficDate") = true ->
      get (archived_entry mac now dev old) k = get old k).
Proof.
  intros Hk. rewrite archived_get, get_merge, dget_snapshot by auto using snapshot_nodup. split.
  - intros Hb Hin. apply str_in_spec in Hin. rewrite Hin. destruct (dget dev k) as [p|] eqn:E.
    + by rewrite <- (get_some _ _ _ E), Hb.
    + assert (get dev k = PNone) as Hp by (unfold get; by rewrite E). by rewrite Hp in Hb.
  - intros Hb Ho Hday.
    assert (get (drop_old_day (snapshot_of dev) old) k = get old k) as Hold.
    { unfold drop_old_day. assert (get (snapshot_of dev) "trafficDate" = get dev "trafficDate") as ->
        by (unfold get; by rewrite dget_snapshot).
      destruct (nonempty _ && _) eqn:E; [|done]. apply andb_prop in E as [E1 E2]. apply get_del_keys.
      destruct Hday as [Hd|[Hd|Hd]]; [done| |]; exfalso; unfold is_blank in *.
      - by rewrite E1 in Hd.
      - by rewrite Hd in E2. }
    assert (has (drop_old_day (snapshot_of dev) old) k = true) as Hh by (apply get_has; by rewrite Hold).
    rewrite Hold, Hh. destruct (str_in k keep_keys); [|done].
    destruct (dget dev k) as [p|] eqn:E1; [|done].
    by rewrite <- (get_some _ _ _ E1), Hb.
Qed.

Lemma snapshot_keeps_information_witness :
  get (archived_entry "6c:1f:f7:76:71:04" "2024-05-28 12:00:00" [("name", PStr "-"); ("ip", PStr "192.168.1.9")]
         [("name", PStr "NAS"); ("ip", PStr "192.168.1.8")]) "name" = PStr "NAS".
Proof. apply snapshot_keeps_information; [cbn; intuition discriminate|done..|]. left. cbn. intuition discriminate. Defined.

(** ** Completing a device *)

Definition ipv6_fields : list string := ["ipv6Records"; "ipv6List"; "ipv6"; "ipv6Address"; "globalIpv6"].

Lemma get_fill_ne old out k k' : k <> k' -> get (fill old out k) k' = get out k'.
Proof. unfold fill. intros H. destruct (_ && _); [by rewrite get_dset_ne|done]. Qed.

(** A field that has a value is not filled. *)
Lemma get_fill_some old out k k' : is_blank (get out k') = false -> get (fill old out k) k' = get out k'.
Proof.
  intros Hb. destruct (decide (k = k')) as [->|]; [|by apply get_fill_ne]. unfold fill. by rewrite Hb.
Qed.

Lemma get_fill_all old ks out k :
  ~ In k ks \/ is_blank (get out k) = false -> get (fold_left (fill old) ks out) k = get out k.
Proof.
  revert out. induction ks as [|k0 ks IH]; intros out H; [done|]. cbn [fold_left].
  assert (get (fill old out k0) k = get out k) as E.
  { destruct H as [H|H]; [|by apply get_fill_some]. apply get_fill_ne. intros ->. apply H. by left. }
  rewrite IH, E; [done|]. rewrite E. destruct H as [H|H]; [left|by right]. intros Hi. apply H. by right.
Qed.

Lemma not_ipv6 k k' : In k' ipv6_fields -> ~ In k ipv6_fields -> k' <> k.
Proof. intros H1 H2 ->. done. Qed.

Lemma get_put_records {tz : TimeZone} records out k : ~ In k ipv6_fields -> get (put_records records out) k = get out k.
Proof.
  intros Hk. unfold put_records, set_ipv6. destruct records; [done|].
  destruct (nonempty _); rewrite !get_dset_ne by (apply not_ipv6; [cbn; tauto|done]); done.
Qed.

Lemma get_put_list l out k : ~ In k ipv6_fields -> get (put_list l out) k = get out k.
Proof.
  intros Hk. unfold put_list. destruct l; [done|]. cbn [fold_left]. unfold fill_text.
  repeat (destruct (is_blank _); [rewrite get_dset_ne by (apply not_ipv6; [cbn; tauto|done])|]);
    by rewrite get_dset_ne by (apply not_ipv6; [cbn; tauto|done]).
Qed.

Lemma get_put_offline old out k :
  k <> "lastIp" -> k <> "offlineAt" \/ is_blank (get out k) = false -> get (put_offline old out) k = get out k.
Proof.
  intros H1 H2. unfold put_offline. destruct (truthy _); [done|].
  set (out' := if is_blank (get out "ip") && _ then _ else out).
  assert (get out' k = get out k) as E by (unfold out'; destruct (_ && _); [by rewrite get_dset_ne by congruence|done]).
  destruct H2 as [H2|H2]; [rewrite get_fill_ne by congruence|rewrite get_fill_some by by rewrite E]; done.
Qed.

Lemma hydrated_get {tz : TimeZone} today now prefixes old dev k :
  ~ In k ipv6_fields -> k <> "lastIp" ->
  ~ In k ("offlineAt" :: hydrate_fields today old) \/ is_blank (get dev k) = false ->
  get (hydrated today now prefixes old dev) k = get dev k.
Proof.
  intros H6 Hl H. unfold hydrated. set (out := fold_left _ _ dev).
  assert (get out k = get dev k) as E.
  { apply get_fill_all. destruct H as [H|H]; [left|by right]. intros Hi. apply H. by right. }
  assert (forall l records, get (put_list l (put_records records out)) k = get dev k) as E'.
  { intros l records. by rewrite get_put_list, get_put_records, E. }
  rewrite get_put_offline, E'; [done|done|]. rewrite E'. destruct H as [H|H]; [left|by right].
  intros ->. apply H. by left.
Qed.

(** Completing a device from the archive only fills in what it lacks: outside the IPv6 fields
    and the last address, a field with a value keeps it, and so does every field that is not
    one of those to complete. *)
Theorem hydration_only_fills {tz : TimeZone} today now prefixes old dev k :
  ~ In k ipv6_fields -> k <> "lastIp" ->
  ~ In k ("offlineAt" :: hydrate_fields today old) \/ is_blank (get dev k) = false ->
  get (hydrated today now prefixes old dev) k = get dev k.
Proof. apply hydrated_get. Qed.

Lemma hydration_only_fills_witness :
  get (hydrated "2024-05-28" "2024-05-28 12:00:00" [] [("name", PStr "old"); ("ssid", PStr "home")]
         [("name", PStr "NAS"); ("online", PBool true)]) "name" = PStr "NAS".
Proof.
  apply (hydration_only_fills "2024-05-28" "2024-05-28 12:00:00" [] [("name", PStr "old"); ("ssid", PStr "home")]
           [("name", PStr "NAS"); ("online", PBool true)] "name"); [cbn; intuition discriminate|done|by right].
Defined.

(** ** The offline list *)

Lemma sorted_firstn {A} (R : A -> A -> Prop) n l : StronglySorted R l -> StronglySorted R (firstn n l).
Proof.
  intros H. revert n. induction H as [|x l Hs IH Hf]; intros [|n]; cbn; try constructor; [done|].
  apply List.Forall_forall. intros y Hy. eapply List.Forall_forall in Hf; [done|].
  rewrite <- (firstn_skipn n l). apply in_app_iff. by left.
Qed.

Section Offline.
Context {S : Type} `{DocStore S} {tz : TimeZone}.

Lemma not_in k l : str_in k l = false -> ~ In k l.
Proof. intros Hn Hi. apply str_in_spec in Hi. by rewrite Hn in Hi. Qed.

(** Every field that a completion may fill. *)
Definition fillable : list string := "offlineAt" :: hydrate_keys ++ day_traffic_keys ++
  ["trafficDate"; "todayOnlineDurationSec"; "todayOnlineDurationText"; "todayOnlineDate"].

Lemma not_hydrated today old k : str_in k fillable = false -> ~ In k ("offlineAt" :: hydrate_fields today old).
Proof.
  intros Hn. apply not_in in Hn. intros [Hi|Hi]; apply Hn; unfold fillable; [by left|]. right.
  unfold hydrate_fields in Hi. rewrite !in_app_iff in *. destruct Hi as [Hi|[Hi|Hi]]; [by left| |]; right.
  - destruct (is_text _ _); [|done]. cbn in *. tauto.
  - destruct (is_text _ _); [|done]. cbn in *. tauto.
Qed.

Lemma hydrate_get archive dev (w w' : world S) r :
  hydrate_device_with_archive dev archive w = (Ok r, w') ->
  w' = w /\ get r "mac" = get dev "mac" /\ get r "online" = get dev "online".
Proof.
  unfold hydrate_device_with_archive. destruct (negb _); [by intros [= <- <-]|].
  destruct (negb _); [by intros [= <- <-]|]. rewrite prog_bind_eq. unfold lift at 1.
  destruct (entry _ _) as [old|e]; [|done]. rewrite prog_bind_eq. cbn [today_str]. rewrite prog_bind_eq. cbn [now_str].
  intros Hr. apply prog_bind_ok in Hr as (prefixes & w1 & Hp & [= <- <-]).
  assert (w1 = w) as ->.
  { unfold lan_prefixes in Hp. apply prog_bind_ok in Hp as (v & w2 & [= <- <-] & Hp).
    apply prog_bind_ok in Hp as (router & w3 & Hp1 & Hp). unfold lift in Hp1. injection Hp1 as _ <-.
    apply prog_bind_ok in Hp as (values & w4 & Hp2 & [= <- <-]). unfold lift in Hp2. by injection Hp2 as _ <-. }
  split; [done|]. split; (apply hydrated_get; [apply not_in; reflexivity|done|left; apply not_hydrated; reflexivity]).
Qed.

Definition offline_ok (online_macs : list string) (r : dict) : Prop :=
  exists mac, get r "mac" = PStr mac /\ nonempty mac = true /\ str_in mac online_macs = false /\ get r "online" = PBool false.

Lemma offline_rows_ok online_macs archive entries (w w' : world S) rows :
  offline_rows online_macs archive entries w = (Ok rows, w') -> w' = w /\ Forall (offline_ok online_macs) rows.
Proof.
  revert w w' rows. induction entries as [|[mac snapshot] rest IH]; intros w w' rows; [by intros [= <- <-]|].
  cbn [offline_rows]. intros Hr. apply prog_bind_ok in Hr as (key & w1 & Hk & Hr).
  unfold lift in Hk. injection Hk as _ <-. destruct (_ || _) eqn:E; [by apply IH|]. apply orb_false_iff in E as [E1 E2].
  apply negb_false_iff in E1. apply prog_bind_ok in Hr as (d & w2 & Hd & Hr). unfold lift in Hd. injection Hd as _ <-.
  apply prog_bind_ok in Hr as (row & w3 & Hrow & Hr). apply hydrate_get in Hrow as (-> & Hm & Ho).
  apply prog_bind_ok in Hr as (rows' & w4 & Hrest & [= <- <-]). apply IH in Hrest as [-> Hrest]. split; [done|].
  apply List.Forall_cons; [|done]. exists (norm_mac key). rewrite Hm, Ho. unfold offline_row.
  repeat split; try done; by rewrite !get_dset_ne, ?get_dset_eq by done.
Qed.

(** The offline list changes no document, holds at most 500 devices, the one that left last
    first, and none of them is online: each has a MAC address that no online device has. *)
Theorem offline_list_sound online archive (w w' : world S) rows :
  archived_offline_devices online archive w = (Ok rows, w') ->
  w' = w /\ (List.length rows <= 500)%nat /\ StronglySorted (fun a b => sleb (left_at b) (left_at a) = true) rows
  /\ forall r, In r rows -> get r "online" = PBool false
       /\ exists mac, get r "mac" = PStr mac /\ forall d, In d online -> norm_mac (get d "mac") <> mac.
Proof.
  unfold archived_offline_devices. intros Hr. apply prog_bind_ok in Hr as (all & w1 & Hall & [= <- <-]).
  apply offline_rows_ok in Hall as [-> Hall]. split; [done|]. split; [rewrite length_firstn; lia|].
  assert (StronglySorted (fun a b => later_first a b = true) (isort later_first all)) as Hs.
  { apply isort_ordered; unfold later_first; [intros a b; destruct (sleb_total (left_at b) (left_at a)); auto|].
    intros a b c H1 H2. by eapply sleb_trans. }
  split.
  - by apply sorted_firstn.
  - intros r Hr. assert (In r all) as Hin.
    { eapply Permutation_in; [apply (isort_perm later_first)|]. rewrite <- (firstn_skipn 500). apply in_app_iff. by left. }
    eapply List.Forall_forall in Hin; [|exact Hall]. destruct Hin as (mac & Hm & Hne & Hnot & Ho).
    split; [done|]. exists mac. split; [done|]. intros d Hd Heq. apply not_true_iff_false in Hnot. apply Hnot.
    apply str_in_spec, filter_In. split; [|done]. rewrite <- Heq. by apply (in_map (fun item => norm_mac (get item "mac"))).
Qed.
End Offline.

Definition two_archived : dict :=
  [("6c:1f:f7:76:71:04", PDict [("name", PStr "NAS"); ("archivedAt", PStr "2024-05-28 10:00:00")]);
   ("a4:c3:f0:11:22:33", PDict [("name", PStr "Phone"); ("offlineAt", PStr "2024-05-28 11:00:00")])].
Definition phone_online : list dict := [[("mac", PStr "A4-C3-F0-11-22-33"); ("online", PBool true)]].

Lemma offline_list_sound_witness :
  snd (archived_offline_devices phone_online two_archived demo_world) = demo_world.
Proof.
  apply (offline_list_sound phone_online two_archived demo_world
           (snd (archived_offline_devices phone_online two_archived demo_world))
           (catch (fst (archived_offline_devices phone_online two_archived demo_world)) [])).
  assert (fst (archived_offline_devices phone_online two_archived demo_world)
          = Ok (catch (fst (archived_offline_devices phone_online two_archived demo_world)) [])) as <-
    by (vm_compute; reflexivity).
  apply surjective_pairing.
Defined.
