(* ===== verification/Watched.v ===== *)
(** * Watched devices and the router's device list

    The devices of the router's [user_list], the watched devices with their online and offline
    events, and the snapshots that arrive with the router's own events ([hub.py]). *)

From S2P Require Import Prelude PyNum PyVal PyIp PyTime HubValues Json Storage Hub.
From S2P Require Import OnlineTime HubNetwork Ipv6Records DeviceArchive.

(** ** The device list of the router *)

(** One entry; [now] is the local time in seconds, [text] the same as [now_str()]. *)
Definition ruijie_device (now : Z) (item : dict) : result (option dict) :=
  let mac := norm_mac (get item "mac") in
  if negb (nonempty mac) then Ok None
  else
    let text := format_datetime now in
    traffic ← normalize_device_traffic (format_date now) text item;
    let today_online := today_online_seconds_from_item item now in
    up ← human_bytes (get traffic "totalUpload");
    down ← human_bytes (get traffic "totalDownload");
    Ok (Some (dupdate
      [("name", PStr (prefer_name item)); ("mac", PStr mac); ("online", PBool true); ("ip", get item "userIp");
       ("ipv6List", texts_list (normalize_ipv6_list (por (first_of item ["ipv6"; "ipv6List"; "userIpv6"; "userIPv6"]) (PList []))));
       ("connectType", get item "connectType"); ("ssid", get item "ssid"); ("band", get item "band");
       ("rssi", get item "rssi"); ("rxrate", get item "rxrate"); ("channel", get item "channel");
       ("onlinetime", get item "onlinetime"); ("onlineSince", get item "onlinetime");
       ("activeTimeSec", PInt (to_int (get item "activeTime") 0));
       ("onlineDurationText", PStr (human_duration (get item "activeTime")));
       ("todayOnlineDurationSec", PInt today_online);
       ("todayOnlineDurationText", PStr (human_duration (PInt today_online)));
       ("todayOnlineDate", PStr (format_date now)); ("lastSeenAt", PStr text);
       ("hostName", get item "hostName"); ("manufacture", get item "manufacture"); ("osType", get item "osType");
       ("devType", get item "devType"); ("devRecommend", get item "devRecommend");
       ("deviceAliasName", get item "deviceAliasName"); ("trafficText", PStr ("↑" +:+ up +:+ " ↓" +:+ down));
       ("raw", PDict item)] traffic)).

(** The message of a decoding error is not modelled. *)
Definition json_error {A} : result A := Err (Exn "JSONDecodeError" "").

Definition parse_ruijie_devices (now : Z) (payload : pyval) : result (list dict * Z) :=
  payload ← match payload with
            | PStr s => match loads s with Some v => Ok v | None => json_error end
            | _ => Ok payload
            end;
  items ← match payload with PDict d => py_iter (get_or d "list" (PList [])) | _ => Ok [] end;
  rows ← result_map (fun v => match v with PDict item => ruijie_device now item | _ => Ok None end) items;
  let devices := omap id rows in
  let n := Z.of_nat (List.length devices) in
  mret (devices, match payload with PDict d => to_int (get d "total") n | _ => n end).

(** ** The watched devices *)

(** [{norm_mac(d.get("mac")): d for d in rows}]. *)
Definition rows_by_mac (rows : list pyval) : result dict :=
  pairs ← result_map (fun v => m ← vget v "mac"; mret (norm_mac m, v)) rows;
  mret (dict_of pairs).

Definition pick_keys (ks : list string) (d : dict) : pyval := PDict (List.map (fun k => (k, get d k)) ks).
Definition event_device_keys : list string :=
  ["name"; "mac"; "ip"; "rssi"; "band"; "rxrate"; "ssid"; "connectType"; "onlineSince"; "hostName"; "devType"].

(** The row of a watched device that is online. *)
Definition watched_online (now : string) (w old found : dict) : dict :=
  dupdate found
    [("name", por (get w "name") (get found "name")); ("online", PBool true); ("lastSeenAt", PStr now);
     ("offlineAt", PNone);
     ("onlineSince", por (get found "onlineSince") (por (get old "onlineSince") (PStr now)));
     ("onlineDurationText", por (get found "onlineDurationText") (PStr (human_duration (get found "activeTimeSec"))));
     ("lastChangedAt", por (get old "lastChangedAt") (PStr now))].

Definition watched_offline (now mac : string) (w old : dict) (was_online : bool) : dict :=
  [("name", por (get w "name") (por (get old "name") (PStr mac))); ("mac", PStr mac); ("online", PBool false);
   ("ip", PNone); ("lastIp", first_of old ["ip"; "lastIp"]); ("ssid", get old "ssid"); ("band", get old "band");
   ("rssi", get old "rssi"); ("rxrate", get old "rxrate"); ("onlineSince", get old "onlineSince");
   ("onlineDurationText", get old "onlineDurationText"); ("lastSeenAt", get old "lastSeenAt");
   ("offlineAt", if was_online then PStr now else get old "offlineAt");
   ("lastChangedAt", if was_online then PStr now else por (get old "lastChangedAt") (PStr now))].

Definition online_event (mac : string) (dev : dict) : dict :=
  [("type", PStr "device_online"); ("title", PStr (py_str (get dev "name") +:+ " 上线")); ("name", get dev "name");
   ("mac", PStr mac); ("oldValue", PStr "offline"); ("newValue", PStr "online"); ("ip", get dev "ip");
   ("rssi", get dev "rssi"); ("band", get dev "band"); ("rxrate", get dev "rxrate"); ("ssid", get dev "ssid");
   ("connectType", get dev "connectType"); ("onlineSince", get dev "onlineSince");
   ("onlineDurationText", PStr "0分"); ("device", pick_keys event_device_keys dev)].

Definition offline_event (mac : string) (offline_at : pyval) (old dev : dict) : dict :=
  let duration := duration_between (get old "onlineSince") offline_at in
  [("type", PStr "device_offline"); ("title", PStr (py_str (get dev "name") +:+ " 离线")); ("name", get dev "name");
   ("mac", PStr mac); ("oldValue", PStr "online"); ("newValue", PStr "offline"); ("ip", first_of old ["ip"; "lastIp"]);
   ("lastIp", first_of old ["ip"; "lastIp"]); ("rssi", get old "rssi"); ("band", get old "band");
   ("rxrate", get old "rxrate"); ("ssid", get old "ssid"); ("connectType", get old "connectType");
   ("onlineSince", get old "onlineSince"); ("offlineAt", offline_at);
   ("onlineDurationText", if nonempty duration then PStr duration else por (get old "onlineDurationText") (PStr ""));
   ("device", pick_keys event_device_keys old)].

Section Watched.
Context {S : Type} `{DocStore S} {tz : TimeZone} (E : env).

(** One entry of [watched_devices], at the time [now]. *)
Definition watch (now : string) (archive by_mac previous : dict) (v : pyval) : hub S dict :=
  wmac ← lift (vget v "mac");
  let mac := norm_mac wmac in
  let w := dict_or_empty v in
  base ← lift (to_dict (por (get_or archive mac (PDict [])) (PDict [])));
  overlay ← lift (match get_or previous mac (PDict []) with PDict d => Ok d | x => attribute_error x "items" end);
  let old := merge_non_empty base overlay in
  let found := get by_mac mac in
  if truthy found then
    let dev := watched_online now w old (dict_or_empty found) in
    _ ← archive_device_snapshot dev;
    match get old "online" with
    | PBool false =>
        let dev := dset "lastChangedAt" (PStr now) dev in
        _ ← add_event (online_event mac dev);
        mret dev
    | _ => mret dev
    end
  else
    let was_online := truthy (get old "online") in
    let row := watched_offline now mac w old was_online in
    dev ← hydrate_device_with_archive row archive;
    _ ← archive_device_snapshot dev;
    if (was_online : bool) then _ ← add_event (offline_event mac (get row "offlineAt") old dev); mret dev else mret dev.

Fixpoint watch_all (now : string) (archive by_mac previous : dict) (l : list pyval) : hub S (list dict) :=
  match l with
  | [] => mret []
  | v :: rest => dev ← watch now archive by_mac previous v;
                 devs ← watch_all now archive by_mac previous rest;
                 mret (dev :: devs)
  end.

Definition build_watched_devices (online : list dict) : hub S (list dict) :=
  let by_mac := dict_of (List.map (fun d => (norm_mac (get d "mac"), PDict d)) online) in
  previous_state ← load_json "devices.json" (PDict []);
  previous ← lift (vget_or previous_state "watched" (PList []));
  rows ← lift (py_iter previous);
  previous ← lift (rows_by_mac rows);
  archive ← load_device_archive;
  now ← now_str;
  watched ← lift (py_iter (por (cfg_get E "watched_devices" (PList [])) (PList [])));
  watch_all now archive by_mac previous watched.

(** ** Snapshots of device events *)

(** [str(v) if v else ""]. *)
Definition text_or_empty (v : pyval) : pyval := PStr (str_or_empty v).

(** The payload with its nested device underneath. *)
Definition flatten_payload (payload : dict) : dict :=
  match get payload "device" with
  | PDict ((_ :: _) as nested) => dupdate nested (ddel "device" payload)
  | _ => payload
  end.

Definition event_snapshot (now_text today : string) (payload : dict) : result dict :=
  let payload := flatten_payload payload in
  let mac := norm_mac (get payload "mac") in
  let name := por (first_of payload ["name"; "devRecommend"; "hostName"]) (PStr (str_or mac "未知设备")) in
  let ip := por (first_of payload ["ip"; "userIp"; "lastIp"]) (PStr "") in
  let now := por (get payload "time") (PStr now_text) in
  let online_since := por (first_of payload ["onlineSince"; "onlinetime"; "startTime"]) now in
  let is_offline := ends_with "offline" (py_str (get_or payload "type" (PStr ""))) in
  let offline_at := por (get payload "offlineAt") (if is_offline then now else PStr "") in
  let duration_sec := por (first_of payload ["onlineDurationSec"; "durationSec"]) (PStr "") in
  let duration := get payload "onlineDurationText" in
  let duration := if negb (truthy duration) && negb (py_in duration_sec [PNone; PStr ""])
                  then PStr (human_duration_precise duration_sec) else duration in
  let duration := if negb (truthy duration) && truthy offline_at
                  then PStr (duration_between online_since offline_at) else duration in
  traffic ← normalize_device_traffic today now_text payload;
  mret (dupdate
    [("name", PStr (py_str name)); ("mac", PStr mac); ("ip", text_or_empty ip); ("lastIp", text_or_empty ip);
     ("rssi", text_or_empty (get payload "rssi")); ("band", text_or_empty (get payload "band"));
     ("rxrate", text_or_empty (first_of payload ["rxrate"; "rate"])); ("ssid", text_or_empty (get payload "ssid"));
     ("connectType", text_or_empty (first_of payload ["connectType"; "connect_type"]));
     ("onlineSince", text_or_empty online_since); ("offlineAt", text_or_empty offline_at);
     ("onlineDurationText", text_or_empty duration);
     ("lastSeenAt", PStr (py_str (por (get payload "lastSeenAt") now)));
     ("hostName", text_or_empty (get payload "hostName")); ("devType", text_or_empty (get payload "devType"));
     ("raw", PDict payload)] traffic).

Definition device_snapshot_from_payload (payload : dict) : hub S dict :=
  now ← now_str; today ← today_str; lift (event_snapshot now today payload).

(** The stored row of a watched device after an event. *)
Definition event_row (online : bool) (event_time last : pyval) (archived snapshot d : dict) : dict :=
  let nd := merge_non_empty archived d in
  let nd := dupdate nd (List.filter (fun kv => negb (is_blank kv.2)) snapshot) in
  let nd := dset "lastChangedAt" event_time (dset "online" (PBool online) nd) in
  if online
  then dset "lastSeenAt" event_time
         (dset "onlineSince" (por (get snapshot "onlineSince") event_time)
           (dset "offlineAt" PNone (dset "ip" (por (first_of snapshot ["ip"; "lastIp"]) (get d "ip")) nd)))
  else dset "lastSeenAt" (por (get snapshot "lastSeenAt") (por (get d "lastSeenAt") event_time))
         (dset "offlineAt" (por (get snapshot "offlineAt") event_time)
           (dset "ip" PNone
             (dset "lastIp" last nd))).

(** A row for a device that was not watched. *)
Definition event_new_row (online : bool) (event_time : pyval) (snapshot : dict) : dict :=
  let nd := dset "lastChangedAt" event_time (dset "online" (PBool online) snapshot) in
  if online
  then dset "onlineSince" (por (get snapshot "onlineSince") event_time) (dset "offlineAt" PNone nd)
  else dset "offlineAt" (por (get snapshot "offlineAt") event_time) (dset "ip" PNone nd).

Definition finish_row (online : bool) (archive nd : dict) : hub S dict :=
  nd ← (if online then mret nd else hydrate_device_with_archive nd archive);
  _ ← archive_device_snapshot nd;
  mret nd.

Fixpoint upsert_rows (mac : string) (online : bool) (event_time : pyval) (archive snapshot : dict) (rows : list pyval)
    : hub S (list pyval * bool) :=
  match rows with
  | [] => mret ([], false)
  | v :: rest =>
      m ← lift (vget v "mac");
      if String.eqb (norm_mac m) mac then
        archived ← lift (to_dict (por (get_or archive mac (PDict [])) (PDict [])));
        let d := dict_or_empty v in
        let known := por (first_of snapshot ["lastIp"; "ip"]) (first_of d ["ip"; "lastIp"]) in
        last ← lift (if online || truthy known then Ok known else vget (get_or archive mac (PDict [])) "lastIp");
        nd ← finish_row online archive (event_row online event_time last archived snapshot d);
        more ← upsert_rows mac online event_time archive snapshot rest;
        mret (PDict nd :: more.1, true)
      else
        more ← upsert_rows mac online event_time archive snapshot rest;
        mret (v :: more.1, more.2)
  end.

Definition upsert_watched_device_from_event (snapshot : dict) (online : bool) (event_time : pyval) : hub S unit :=
  devices_state ← load_json "devices.json"
                    (PDict [("online", PList []); ("watched", PList []); ("updatedAt", PNone)]);
  watched ← lift (vget_or devices_state "watched" (PList []));
  let mac := norm_mac (get snapshot "mac") in
  archive ← load_device_archive;
  rows ← lift (py_iter (por watched (PList [])));
  upserted ← upsert_rows mac online event_time archive snapshot rows;
  let '(next, found) := upserted in
  next ← (if negb found && nonempty mac
          then nd ← finish_row online archive (event_new_row online event_time snapshot); mret (next ++ [PDict nd])
          else mret next);
  now ← now_str;
  _ ← save_json "devices.json" (PDict (dset "updatedAt" (PStr now) (dset "watched" (PList next) (dict_or_empty devices_state))));
  state ← load_json "state.json" (PDict []);
  state ← lift (match state with
                | PDict d => Ok d
                | v => Err (Exn "TypeError" ("'" +:+ type_name v +:+ "' object does not support item assignment"))
                end);
  save_json "state.json" (PDict (dset "updatedAt" (PStr now) (dset "devices" (PList next) state))).
End Watched.
