(* ===== verification/Hooks.v ===== *)
(** * Reports and events of the router

    The entry points a router script or a webhook calls: [/api/router/push], the event and status
    hooks of the Ruijie agent and the STUN hook of Lucky ([hub.py]). *)

From S2P Require Import Prelude PyNum PyVal PyIp PyTime HubValues Json Storage Hub.
From S2P Require Import HubNetwork Ipv6Records DeviceArchive Watched.

(** ** The time of a report *)

(** [float(v)]. *)
Definition py_float (v : pyval) : result spec_float :=
  match v with
  | PInt n => float_of_int n
  | PBool b => float_of_int (Z.b2z b)
  | PFloat f => Ok f
  | PStr s => match float_of_str s with
              | Some f => Ok f
              | None => raise_value_error ("could not convert string to float: " +:+ repr_str s)
              end
  | _ => Err (Exn "TypeError" ("float() argument must be a string or a real number, not '" +:+ type_name v +:+ "'"))
  end.

(** [round(x)] of a finite float given by its parts, half to even. *)
Definition round_parts (m e : Z) : Z :=
  if 0 <=? e then m * 2 ^ e else Z.sgn m * div_half_even (Z.abs m) (2 ^ (- e)).

(** The whole seconds of [datetime.fromtimestamp(f)], which rounds to microseconds first. *)
Definition timestamp_seconds (f : spec_float) : result Z :=
  whole ← int_of_float f;
  let fraction := match f_parts f with
                  | Some (m, e) => if 0 <=? e then f_of_Z 0 else f_make (Z.rem m (2 ^ (- e))) e
                  | None => f_of_Z 0
                  end in
  let micros := match f_parts (f_mul fraction (f_of_Z 1000000)) with Some (m, e) => round_parts m e | None => 0 end in
  let seconds := if 1000000 <=? micros then whole + 1 else if micros <? 0 then whole - 1 else whole in
  if (seconds <? - 2 ^ 63) || (2 ^ 63 <=? seconds)
  then Err (Exn "OverflowError" "timestamp out of range for platform time_t")
  else Ok seconds.

(** The datetime type holds the years 1 to 9999. *)
Definition first_second : Z := days_of_civil 1 1 1 * secs_per_day.
Definition end_of_years : Z := days_of_civil 10000 1 1 * secs_per_day.

Definition timestamp_text {tz : TimeZone} (ts : pyval) : result string :=
  f ← py_float ts;
  seconds ← timestamp_seconds f;
  let local := to_local seconds in
  if (local <? first_second) || (end_of_years <=? local) then raise_value_error "year is out of range"
  else Ok (format_datetime local).

(** ** Rows of the router's state *)

(** The older list of WAN addresses, for entries that are not public IPv6 addresses. *)
Fixpoint wan6_rows (wan6 : pyval) (i : nat) (seen : list string) (cleaned : list dict) (items : list pyval) : list dict :=
  match items with
  | [] => cleaned
  | PDict item :: rest =>
      let ip := clean_saved_value (first_of item ["ip"; "address"; "value"]) in
      if negb (nonempty ip) || str_in ip seen then wan6_rows wan6 (Datatypes.S i) seen cleaned rest
      else
        let primary := truthy (get item "primary") in
        let name := str_or (clean_saved_value (get item "name"))
                      (if primary || (i =? 0)%nat then "主用 WAN" else "备用 WAN") in
        let row := [("name", PStr name); ("ip", PStr ip);
                    ("primary", PBool (primary || match cleaned with [] => is_text wan6 ip | _ => false end))] in
        wan6_rows wan6 (Datatypes.S i) (ip :: seen) (cleaned ++ [row]) rest
  | _ :: rest => wan6_rows wan6 (Datatypes.S i) seen cleaned rest
  end.

Definition with_primary (rows : list dict) : list dict :=
  match rows with
  | first :: rest => if existsb (fun x => truthy (get x "primary")) rows then rows
                     else dset "primary" (PBool true) first :: rest
  | [] => []
  end.

Definition row_list (rows : list dict) : pyval := PList (List.map PDict rows).
Definition name_ip_primary (x : dict) : dict := [("name", get x "name"); ("ip", get x "ip"); ("primary", get x "primary")].
Definition has_any (d : dict) (ks : list string) : bool := existsb (has d) ks.

(** What a snapshot says of the router's addresses. *)
Record addresses := Addresses {
  a_wan : list dict;
  a_router : list dict;
  a_lan : list dict;
  a_prefixes : list string;
}.

Definition addresses_of (payload : dict) : addresses :=
  {| a_wan := normalize_ipv6_items (first_of payload ["wan_ipv6_list"; "wanIpv6List"; "router_wan6_list"; "routerWan6List"; "wan6List"]) "WAN IPv6";
     a_router := normalize_ipv6_items (first_of payload ["router_ipv6_list"; "routerIpv6List"]) "Router IPv6";
     a_lan := normalize_ipv6_items (first_of payload ["lan_ipv6_list"; "lanIpv6List"]) "LAN IPv6";
     a_prefixes := normalize_ipv6_prefixes (first_of payload ["lan_ipv6_prefixes"; "lanIpv6Prefixes"]) |}.

Definition new_ipv6_keys : list string :=
  ["ipv6_mode"; "ipv6Mode"; "wan_ipv6_list"; "wanIpv6List"; "lan_ipv6_prefixes"; "lanIpv6Prefixes"].

(** The WAN address: the reported one, the primary one of the list, its first, or the one known. *)
Definition router_wan6 (payload : dict) (wan : list dict) (router : pyval) : result pyval :=
  let told := clean_saved_value (first_of payload ["router_wan6"; "routerWanIpv6"; "wanIpv6"]) in
  let primary := match List.find (fun x => truthy (get x "primary")) wan with Some x => get x "ip" | None => PStr "" end in
  let first := match wan with x :: _ => get x "ip" | [] => PStr "" end in
  let known := por (PStr told) (por primary first) in
  if truthy known then Ok known
  else if has_any payload new_ipv6_keys then Ok (PStr "") else vget router "wanIpv6".

(** [d[k] = v] when the condition holds. *)
Definition put_if (b : bool) (k : string) (v : pyval) (d : dict) : dict := if b then dset k v d else d.
Definition some_rows {A} (l : list A) : bool := match l with [] => false | _ => true end.

Definition router_update (name event_time : string) (wan6 : pyval) (payload : dict) (a : addresses) : dict :=
  let d := [("name", PStr name); ("lanIp", PStr (clean_saved_value (get payload "lan_ip")));
            ("ipv6Mode", PStr (str_or (clean_saved_value (first_of payload ["ipv6_mode"; "ipv6Mode"])) "unknown"));
            ("ipv6DefaultIf", PStr (clean_saved_value (first_of payload ["ipv6_default_if"; "ipv6DefaultIf"])));
            ("wanIpv6", wan6); ("routerUpdatedAt", PStr event_time); ("routerStatus", PStr "ok")] in
  let d := put_if (some_rows (a_router a) || has_any payload ["router_ipv6_list"; "routerIpv6List"])
             "routerIpv6List" (row_list (a_router a)) d in
  let wan := some_rows (a_wan a) || has_any payload ["wan_ipv6_list"; "wanIpv6List"] in
  let d := put_if wan "wan6List" (row_list (List.map name_ip_primary (a_wan a)))
             (put_if wan "wanIpv6List" (row_list (a_wan a)) d) in
  let d := put_if (some_rows (a_lan a) || has_any payload ["lan_ipv6_list"; "lanIpv6List"])
             "lanIpv6List" (row_list (a_lan a)) d in
  let d := put_if (some_rows (a_prefixes a) || has_any payload ["lan_ipv6_prefixes"; "lanIpv6Prefixes"])
             "lanIpv6Prefixes" (texts_list (a_prefixes a)) d in
  match first_of payload ["router_wan6_list"; "routerWan6List"; "wan6List"] with
  | PList items =>
      let rows := with_primary (wan6_rows wan6 0 [] [] items) in
      put_if (negb (some_rows (a_wan a)) && some_rows rows) "wan6List" (row_list rows) d
  | _ => d
  end.

(** ** Device events *)

(** The event of a device snapshot; the hook of the agent adds the way of connection. *)
Definition event_fields (source typ : string) (connect : bool) (name : pyval) (event_time : string) (snap : dict) : dict :=
  let online := String.eqb typ "device_online" in
  let last := first_of snap ["lastIp"; "ip"] in
  [("type", PStr typ); ("source", PStr source);
   ("title", PStr (py_str name +:+ " " +:+ (if online then "上线" else "离线"))); ("name", name);
   ("mac", get snap "mac"); ("time", PStr event_time); ("createdAt", PStr event_time);
   ("ip", if online then get snap "ip" else last); ("lastIp", last); ("rssi", get snap "rssi");
   ("band", get snap "band"); ("rxrate", get snap "rxrate"); ("ssid", get snap "ssid")]
  ++ (if connect then [("connectType", get snap "connectType")] else [])
  ++ [("onlineSince", get snap "onlineSince");
      ("offlineAt", por (get snap "offlineAt") (PStr (if online then "" else event_time)));
      ("onlineDurationText", get snap "onlineDurationText");
      ("oldValue", PStr (if online then "offline" else "online"));
      ("newValue", PStr (if online then "online" else "offline")); ("device", PDict snap)].

Definition device_event (source typ : string) (connect : bool) (name : pyval) (event_time : string) (snap : dict) : dict :=
  let ev := event_fields source typ connect name event_time snap in
  if negb (String.eqb typ "device_online") && negb (truthy (get ev "onlineDurationText"))
  then dset "onlineDurationText" (PStr (duration_between (get ev "onlineSince") (get ev "offlineAt"))) ev else ev.

(** [norm_mac(e.get("mac")) == norm_mac(event.get("mac")) and e.get("type") == event.get("type")]. *)
Definition same_event (event : dict) (v : pyval) : result bool :=
  match v with
  | PDict e => Ok (String.eqb (norm_mac (get e "mac")) (norm_mac (get event "mac"))
                   && py_eq (get e "type") (get event "type"))
  | _ => attribute_error v "get"
  end.

(** The first of the values that matches. *)
Fixpoint first_same (event : dict) (events : list pyval) : result (option dict) :=
  match events with
  | [] => Ok None
  | v :: rest => b ← same_event event v; if b : bool then Ok (Some (dict_or_empty v)) else first_same event rest
  end.

Definition py_reversed (v : pyval) : result (list pyval) :=
  match v with
  | PList _ | PDict _ | PStr _ => l ← py_iter v; mret (rev l)
  | _ => Err (Exn "TypeError" ("'" +:+ type_name v +:+ "' object is not reversible"))
  end.

(** The last element of a value that is not empty. *)
Definition last_item (v : pyval) : result pyval :=
  match v with
  | PList _ | PStr _ => l ← py_iter v; mret (List.last l PNone)
  | PDict _ => Err (Exn "KeyError" "-1")
  | _ => Err (Exn "TypeError" ("'" +:+ type_name v +:+ "' object is not subscriptable"))
  end.

(** Both times can be read and are at most [limit] seconds apart. *)
Definition within (limit : Z) (last : dict) (event_time : string) : bool :=
  match parse_time_safe (first_of last ["createdAt"; "time"]), parse_time_safe (PStr event_time) with
  | Some lt, Some nt => Z.abs (nt - lt) <=? limit
  | _, _ => false
  end.

Definition said (fields : dict) (now : string) : response :=
  Response 200 (PDict (("ok", PBool true) :: fields ++ [("time", PStr now)])).

(** *** The text of the Lucky webhook *)

Definition lucky_placeholders : list string := ["null"; "none"; "-"; "#{"; "{stun_"; "token="; "bearer "].

(** [clean_addr]: nothing for a text that looks like an unfilled template. *)
Definition clean_addr (v : pyval) : string :=
  let text := strip (str_or_empty v) in
  if existsb (fun b => contains b (lower text)) lucky_placeholders then "" else text.

Definition parse_lucky_content (text : string) : string * string :=
  let raw := newline_space (strip text) in
  if negb (nonempty raw) then ("Lucky", "")
  else match name_and_address raw with
       | Some (name, address) => (str_or (strip name) "Lucky", clean_addr (PStr address))
       | None => ("Lucky", clean_addr (PStr raw))
       end.

(** A request whose body need not be JSON: [request.is_json], [dict(request.form)],
    [dict(request.args)] and the text of the body. *)
Record webhook := Webhook { h_request : request; h_is_json : bool; h_form : dict; h_args : dict; h_raw : string }.

Definition lucky_payload (h : webhook) : pyval :=
  if h_is_json h then json_body (h_request h)
  else PDict (match h_form h with [] => h_args h | form => form end).

(** [json.dumps(payload, ensure_ascii=False)] of texts. *)
Definition texts_json (d : dict) : string :=
  "{" +:+ join ", " (List.map (fun kv => json_quote kv.1 +:+ ": " +:+ json_quote (py_str kv.2)) d) +:+ "}".

Definition secret_key (k : string) : bool := str_in (lower k) ["token"; "password"; "secret"].

(** ** Wake on LAN *)

(** [int(x, 16)]: a sign, the prefix [0x] and single underscores between digits are accepted. *)
Fixpoint hex_groups (prev_digit : bool) (acc : Z) (s : string) : option Z :=
  match s with
  | EmptyString => if prev_digit then Some acc else None
  | String c s' =>
      if is_hex c then hex_groups true (acc * 16 + hex_val c) s'
      else if is_char "_"%char c && prev_digit then hex_groups false acc s' else None
  end.

Definition int_of_hex (text : string) : option Z :=
  let '(neg, body) := split_sign (strip text) in
  let n := if starts_with "0x" (lower body)
           then hex_groups false 0 (let rest := sdrop 2 body in if starts_with "_" rest then sdrop 1 rest else rest)
           else hex_groups false 0 body in
  option_map (fun k => if neg then - k else k) n.

Definition mac_byte (x : string) : result Z :=
  match int_of_hex x with
  | Some n => if (0 <=? n) && (n <? 256) then Ok n else raise_value_error "bytes must be in range(0, 256)"
  | None => raise_value_error ("invalid literal for int() with base 16: " +:+ repr_str x)
  end.

Fixpoint repeat_list {A} (n : nat) (l : list A) : list A :=
  match n with O => [] | Datatypes.S n' => l ++ repeat_list n' l end.

Definition build_magic_packet (mac : string) : result (list Z) :=
  parts ← result_map mac_byte (split ":" (norm_mac (PStr mac)));
  if negb (List.length parts =? 6)%nat then raise_value_error "invalid mac"
  else Ok (repeat_list 6 [255] ++ repeat_list 16 parts).

Section Hooks.
Context {S : Type} `{DocStore S} {tz : TimeZone} (E : env) (run : list string -> option string).

(** *** Tokens *)

Definition push_token (q : request) : result bool :=
  let token := strip (header q "X-LabProbe-Token") in
  if nonempty token then
    match List.find (fun v => is_list v || is_dict v) [get_hook_token E; get_app_token E] with
    | Some v => Err (Exn "TypeError" ("unhashable type: '" +:+ type_name v +:+ "'"))
    | None => Ok (existsb (token_matches token) [get_hook_token E; get_app_token E] || check_hook_token E q)
    end
  else Ok (check_hook_token E q).

(** *** The background refresh

    The number of refresh threads that were started and have not run yet. *)
Definition refresh_threads : string := "_refresh_status_cache_worker".
Definition start_refresh : hub S unit :=
  n ← mem_get refresh_threads (PInt 0);
  mem_set refresh_threads (PInt (match n with PInt k => k + 1 | _ => 1 end)).

(** [status_ttl] is [STATUS_REFRESH_TTL_SEC]. *)
Definition refresh_is_due (status_ttl now_ms : Z) (state : dict) (force : bool) : bool :=
  let hub := dict_or_empty (get state "hub") in
  let nas := dict_or_empty (get state "nas") in
  let last := time_to_epoch (por (get hub "backgroundRefreshedAt") (get state "updatedAt")) in
  let missing := is_blank (get nas "exitIpv4") || is_blank (get nas "exitIpv6") in
  force || missing || (last =? 0) || (status_ttl * 1000 <? now_ms - last * 1000).

Definition trigger_status_refresh_if_needed (status_ttl : Z) (state : dict) (force : bool) : hub S unit :=
  ms ← epoch_ms;
  if refresh_is_due status_ttl ms state force then start_refresh else mret tt.

(** *** [/api/router/push] *)

(** [d.setdefault(k, {})] of a loaded document. *)
Definition state_with (ks : list string) (v : pyval) : result dict :=
  match v with
  | PDict d => Ok (fold_left (fun d k => setdefault k (PDict []) d) ks d)
  | _ => attribute_error v "setdefault"
  end.

(** [state[k].update(fields)]. *)
Definition update_in (k : string) (fields : dict) (state : dict) : result dict :=
  match get state k with
  | PDict d => Ok (dset k (PDict (dupdate d fields)) state)
  | v => attribute_error v "update"
  end.

(** The stored device lists after the archive learned new addresses. *)
Definition rehydrate_devices (event_time : string) : hub S unit :=
  doc ← load_json "devices.json" (PDict [("online", PList []); ("watched", PList []); ("updatedAt", PNone)]);
  archive ← load_device_archive;
  online ← lift (vget doc "online");
  online ← lift (py_iter (por online (PList [])));
  online ← hydrate_all archive online;
  let d := dset "online" (PList online) (dict_or_empty doc) in
  watched ← lift (py_iter (por (get d "watched") (PList [])));
  watched ← hydrate_all archive watched;
  save_json "devices.json" (PDict (dset "updatedAt" (PStr event_time) (dset "watched" (PList watched) d))).

(** The state document after a snapshot. *)
Definition pushed_state (event_time : string) (payload state : dict) : result dict :=
  let name := str_or (clean_saved_value (get payload "router")) (primary_router_name E) in
  let a := addresses_of payload in
  wan6 ← router_wan6 payload (a_wan a) (get state "router");
  update_in "router" (router_update name event_time wan6 payload a) state.

(** [lan_prefixes or state.get("router", {}).get("lanIpv6Prefixes") or []]; the value of the state
    is one the Hub wrote, a list of texts. *)
Definition known_prefixes (payload state : dict) : list string :=
  match a_prefixes (addresses_of payload) with
  | [] => List.map py_str (list_or_empty (get (dict_or_empty (get state "router")) "lanIpv6Prefixes"))
  | l => l
  end.

Definition push_snapshot (status_ttl : Z) (event_time : string) (payload : dict) : hub S response :=
  doc ← load_json "state.json" (PDict []);
  state ← lift (state_with ["router"; "nas"] doc);
  state ← lift (pushed_state event_time payload state);
  now ← now_str;
  let neighbors := parse_ipv6_neighbors now (PDict payload) in
  changed ← merge_ipv6_neighbors_to_archive E run neighbors (known_prefixes payload state);
  _ ← (if some_rows neighbors then rehydrate_devices event_time else mret tt);
  let state := dset "updatedAt" (PStr event_time) state in
  _ ← save_json "state.json" (PDict state);
  let nas := dict_or_empty (get state "nas") in
  _ ← (if is_blank (get nas "exitIpv4") || is_blank (get nas "exitIpv6")
       then trigger_status_refresh_if_needed status_ttl state true else mret tt);
  mret (said [("message", PStr "snapshot saved"); ("ipv6NeighborCount", PInt (Z.of_nat (List.length neighbors)));
              ("ipv6Changed", PInt changed)] now).

(** The payload as the event hook would have got it. *)
Definition as_event_payload (mapped event_time : string) (payload : dict) : dict :=
  dset "lastIp" (get payload "ip") (dset "time" (PStr event_time) (dset "type" (PStr mapped) payload)).

(** What both event handlers end with: a repetition only touches the watched device. *)
Definition record_event (repeated : bool) (ignored : string) (event snap : dict) (online : bool) (event_time : string)
    : hub S response :=
  if repeated then
    _ ← upsert_watched_device_from_event snap online (PStr event_time);
    now ← now_str;
    mret (said [("dedup", PBool true); ("message", PStr ignored)] now)
  else
    saved ← add_event event;
    _ ← upsert_watched_device_from_event snap online (PStr event_time);
    now ← now_str;
    mret (said [("message", PStr "device event saved"); ("event", PDict saved)] now).

(** The newest event of the same device and type decides; only a departure is a repetition. *)
Definition push_device_event (event_time : string) (payload : dict) : hub S response :=
  let event_name := clean_saved_value (get payload "event") in
  let mapped := if String.eqb event_name "online" then "device_online"
                else if String.eqb event_name "offline" then "device_offline" else event_name in
  if negb (str_in mapped ["device_online"; "device_offline"])
  then mret (error_response 400 "event must be online/offline")
  else
    snap ← device_snapshot_from_payload (as_event_payload mapped event_time payload);
    let online := String.eqb mapped "device_online" in
    let name := por (get snap "name") (por (get snap "mac") (PStr "未知设备")) in
    let event := device_event "router_push" mapped false name event_time snap in
    doc ← load_json "events.json" (PList []);
    newest ← lift (py_reversed doc);
    last ← lift (first_same event newest);
    let repeated := match last with Some e => within 300 e event_time && negb online | None => false end in
    record_event repeated "duplicate offline ignored" event snap online event_time.

Definition api_router_push (status_ttl : Z) (q : request) : hub S response :=
  allowed ← lift (push_token q);
  if negb allowed then mret (error_response 401 "bad token")
  else
    let body := json_body q in
    typ ← lift (vget body "type");
    let payload := dict_or_empty body in
    let typ := strip (py_str (por typ (PStr "snapshot"))) in
    now ← now_str;
    event_time ← lift (if truthy (get payload "ts") then timestamp_text (get payload "ts") else Ok now);
    if String.eqb typ "snapshot" then push_snapshot status_ttl event_time payload
    else if str_in typ ["device_event"; "device"] then push_device_event event_time payload
    else mret (error_response 400 "unknown type").

(** *** [/hook/ruijie/device_event] *)

Definition hook_ruijie_device_event (q : request) : hub S response :=
  if negb (check_hook_token E q) then mret (error_response 401 "bad hook token")
  else
    let body := json_body q in
    if negb (truthy body) then mret (error_response 400 "empty json")
    else
      typ ← lift (vget body "type");
      let payload := dict_or_empty body in
      let typ := strip (str_or_empty typ) in
      if negb (str_in typ ["device_online"; "device_offline"])
      then mret (error_response 400 "type must be device_online/device_offline")
      else
        now ← now_str;
        let event_time := py_str (por (get payload "time") (PStr now)) in
        snap ← device_snapshot_from_payload payload;
        let name := por (get snap "name") (por (get payload "name") (por (get snap "mac") (PStr "未知设备"))) in
        let online := String.eqb typ "device_online" in
        let event := device_event "ruijie_agent" typ true name event_time snap in
        doc ← load_json "events.json" (PList []);
        repeated ← lift (if truthy doc
                         then last ← last_item doc; b ← same_event event last;
                              mret (b && within 10 (dict_or_empty last) event_time)
                         else Ok false);
        record_event repeated "duplicate device event ignored" event snap online event_time.

(** *** [/hook/lucky] *)

Definition set_item_error {A} (v : pyval) : result A :=
  Err (Exn "TypeError" (if is_list v then "list indices must be integers or slices, not str"
                        else "'" +:+ type_name v +:+ "' object does not support item assignment")).

Definition lucky_accept (service address content : string) : hub S response :=
  doc ← load_json "state.json" (PDict []);
  now ← now_str;
  state ← lift (match doc with PDict d => Ok (dset "updatedAt" (PStr now) d) | v => set_item_error v end);
  up ← upsert_vpn_address (PStr service) (PStr address) "Lucky Webhook";
  let '(row, old) := up in
  let service_key := vpn_service_key (PStr service) in
  state ← lift (put_state_vpn service_key row state);
  rows ← vpn_addresses_list (PDict state);
  let state := dset "vpnStunAddresses" (PList rows) state in
  let state := if contains "lucky" service_key || contains "stun" service_key
               then dset "stun" (PDict [("name", PStr service); ("publicAddress", PStr address); ("address", PStr address);
                                        ("source", PStr "Lucky Webhook"); ("updatedAt", PStr now)])
                      (dset "luckyStun" (PDict row) state)
               else state in
  _ ← (if String.eqb address old then mret tt
       else _ ← add_event [("type", PStr "stun_changed"); ("title", PStr (service +:+ " STUN 地址变化")); ("name", PStr service);
                           ("oldValue", PStr old); ("newValue", PStr address); ("source", PStr "lucky");
                           ("content", PStr content)]; mret tt);
  _ ← save_json "state.json" (PDict state);
  mret (said [("message", PStr "lucky address saved"); ("name", PStr service); ("address", PStr address)] now).

Definition hook_lucky (h : webhook) : hub S response :=
  if negb (check_hook_token E (h_request h)) then mret (error_response 401 "bad hook token")
  else
    payload ← lift (match lucky_payload h with PDict d => Ok d | v => attribute_error v "get" end);
    let content := match get payload "text" with
                   | PDict d => str_or_empty (get d "content")
                   | _ => match get payload "content" with PStr s => s | _ => "" end
                   end in
    let '(parsed_name, parsed_addr) := parse_lucky_content content in
    let name := py_str (por (get payload "name") (por (PStr parsed_name) (PStr "Lucky"))) in
    let address := clean_addr (por (first_of payload ["address"; "ipAddr"; "newValue"; "value"]) (PStr parsed_addr)) in
    if negb (nonempty address) then
      now ← now_str;
      mret (said [("ignored", PBool true); ("reason", PStr "empty or invalid lucky address");
                  ("received", PDict (List.filter (fun kv => negb (secret_key kv.1)) payload))] now)
    else
      let service := str_or (strip (py_str (por (get payload "service") (por (PStr name) (PStr "Lucky"))))) "Lucky" in
      lucky_accept service address content.

(** *** [/hook/ruijie/router] *)

Definition set_in (k : string) (fields : dict) (state : dict) : result dict :=
  match get state k with
  | PDict d => Ok (dset k (PDict (dupdate d fields)) state)
  | v => set_item_error v
  end.

Definition ruijie_body (h : webhook) : pyval := if h_is_json h then json_body (h_request h) else PDict (h_args h).

(** The reported address, or the first public one in the text of the request. *)
Definition reported_wan6 (h : webhook) (payload : dict) : pyval :=
  let told := first_of payload ["routerWanIpv6"; "wanIpv6"; "ipv6"] in
  if truthy told then told
  else match extract_public_ipv6 (str_or (h_raw h) (texts_json payload)) with Some a => PStr a | None => PNone end.

Definition usable_wan6 (v : pyval) : bool := truthy v && is_public_ipv6 (py_str v).

(** An address that is public is kept; anything else only leaves a note. *)
Definition hook_ruijie_router (h : webhook) : hub S response :=
  if negb (check_hook_token E (h_request h)) then mret (error_response 401 "bad hook token")
  else
    payload ← lift (match ruijie_body h with PDict d => Ok d | v => attribute_error v "get" end);
    let wan_if := por (first_of payload ["wanIf"; "interface"]) (PStr "pppoe-wan") in
    let wan_v6 := reported_wan6 h payload in
    doc ← load_json "state.json" (PDict []);
    state ← lift (state_with ["router"] doc);
    old ← lift (vget (get state "router") "wanIpv6");
    now ← now_str;
    state ← lift (set_in "router" [("wanIf", wan_if); ("routerLastCheckAt", PStr now)] state);
    if usable_wan6 wan_v6 then
      state ← lift (update_in "router" [("name", PStr (primary_router_name E)); ("wanIpv6", wan_v6); ("exitIpv6", wan_v6);
                                        ("routerUpdatedAt", PStr now); ("routerStatus", PStr "ok")] state);
      _ ← save_json "state.json" (PDict (dset "updatedAt" (PStr now) state));
      _ ← (if truthy old && negb (py_eq old wan_v6)
           then _ ← add_event [("type", PStr "router_wan_ipv6_changed"); ("title", PStr "路由 WAN IPv6 变化"); ("name", wan_if);
                               ("oldValue", old); ("newValue", wan_v6)]; mret tt
           else mret tt);
      mret (said [("message", PStr "router status saved"); ("wanIpv6", wan_v6); ("wanIf", wan_if)] now)
    else
      state ← lift (set_in "router"
        [("routerStatus", PStr "check_failed");
         ("routerLastError", PStr (if truthy wan_v6 then "not public IPv6: " +:+ py_str wan_v6 else "no public IPv6 found"))] state);
      _ ← save_json "state.json" (PDict (dset "updatedAt" (PStr now) state));
      mret (Response 200 (PDict [("ok", PBool true); ("message", PStr "router check failed, keep previous value");
                                 ("wanIpv6", old); ("wanIf", wan_if); ("time", PStr now); ("status", PStr "stale")])).

(** *** [/api/wol]

    [send] is [socket.sendto] of the packet: the error of a host and port, if any. *)
Definition wol_targets : pyval := por (cfg_get E "wol.broadcasts" (PList [])) (PList [PStr "255.255.255.255"]).

Definition api_wol (send : list Z -> string -> Z -> option string) (q : request) : hub S response :=
  if negb (check_app_token E q) then mret (error_response 401 "unauthorized")
  else
    raw ← lift (vget (json_body q) "mac");
    let payload := dict_or_empty (json_body q) in
    let mac := norm_mac raw in
    if negb (nonempty mac) then mret (error_response 400 "invalid mac")
    else
      let port := to_int (get payload "port") 9 in
      let port := if port =? 0 then 9 else port in
      packet ← lift (build_magic_packet mac);
      targets ← lift (match wol_targets with PStr s => Ok [PStr s] | v => py_iter v end);
      let tried := flat_map (fun host => List.map (fun p => (py_str host, p, send packet (py_str host) p)) [port; 9; 7]) targets in
      let sent := Z.of_nat (List.length (List.filter (fun t => match t.2 with None => true | _ => false end) tried)) in
      let errors := omap (fun t => option_map (fun e => t.1.1 +:+ ":" +:+ int_str t.1.2 +:+ " " +:+ e) t.2) tried in
      if sent <=? 0 then mret (error_response 500 (str_or (join "; " (last_n 3 errors)) "send failed"))
      else
        _ ← add_event [("type", PStr "wol_sent"); ("title", PStr "WOL 唤醒"); ("name", PStr mac);
                       ("newValue", PStr ("sent " +:+ int_str sent)); ("mac", PStr mac)];
        now ← now_str;
        mret (said [("message", PStr ("Hub 已发送 WOL · " +:+ int_str sent +:+ " 个广播包")); ("mac", PStr mac);
                    ("sent", PInt sent)] now).
End Hooks.
