(* ===== verification/HooksFacts.v ===== *)
(** * What reports and events of the router may change

    A snapshot of the router touches no section of the state but the router's own; a failed
    address check keeps the address known; a departure reported twice is recorded once; a magic
    packet has the shape the network cards expect. *)

From S2P Require Import Prelude PyNum PyVal PyIp PyTime HubValues Json Storage Hub Services Fixtures.
From S2P Require Import HubNetwork Ipv6Records DeviceArchive Watched Hooks.

(** ** Compaction of documents *)

Fixpoint compact_entries (d : dict) : dict :=
  match d with
  | [] => []
  | (k, x) :: d' => if str_in k compact_blocked then compact_entries d' else (k, compact_runtime_document x) :: compact_entries d'
  end.

Lemma compact_dict d : compact_runtime_document (PDict d) = PDict (compact_entries d).
Proof. done. Qed.

Lemma dget_compact d k : dget (compact_entries d) k =
  if str_in k compact_blocked then None else option_map compact_runtime_document (dget d k).
Proof.
  induction d as [|[k' v] d IH]; cbn [compact_entries dget option_map]; [by destruct (str_in k compact_blocked)|].
  destruct (String.eqb_spec k k') as [<-|Hne].
  - destruct (str_in k compact_blocked) eqn:Eb; cbn [dget]; [done|]. by rewrite String.eqb_refl.
  - destruct (str_in k' compact_blocked) eqn:Eb; cbn [dget]; [done|].
    by rewrite (proj2 (String.eqb_neq k k') Hne).
Qed.

Lemma get_compact d k : str_in k compact_blocked = false ->
  get (compact_entries d) k = compact_runtime_document (get d k).
Proof. intros Hk. unfold get. rewrite dget_compact, Hk. by destruct (dget d k). Qed.

Lemma compact_keys d : incl (keys (compact_entries d)) (keys d).
Proof.
  intros x. unfold keys, compact_entries. induction d as [|[k v] d IH]; cbn [compact_entries List.map]; [done|].
  destruct (str_in k compact_blocked); cbn [List.map fst]; [by right; apply IH|]. intros [<-|Hx]; [by left|right; auto].
Qed.

Lemma plain_compact v : plain v -> plain (compact_runtime_document v).
Proof.
  induction v as [|b|z|f|s|l IH|d IH] using pyval_ind'; intros Hv; try done.
  - cbn [compact_runtime_document]. destruct (65536 <? py_len s); constructor.
  - cbn. constructor. inversion Hv as [| | | |l' Hl|]; subst. clear Hv.
    induction l as [|x l IHl]; cbn; [done|]. inversion Hl; subst. inversion IH; subst. constructor; auto.
  - rewrite compact_dict. inversion Hv as [| | | | |d' Hn Hd]; subst. constructor.
    + clear IH Hd Hv. unfold nodup_keys in *. induction d as [|[k v] d IHd]; [done|]. cbn [compact_entries keys List.map fst] in *.
      inversion Hn; subst. destruct (str_in k compact_blocked); cbn [keys List.map fst]; [auto|].
      constructor; [|auto]. intros Hin. by apply compact_keys in Hin.
    + clear Hn Hv. induction d as [|[k v] d IHd]; [done|]. cbn [compact_entries]. inversion Hd; subst. inversion IH; subst.
      destruct (str_in k compact_blocked); [auto|]. constructor; auto.
Qed.

(** The short texts of a section survive its compaction. *)
Lemma compact_text v field a :
  plain v -> str_in field compact_blocked = false -> py_len a <= 65536 -> get (dict_or_empty v) field = PStr a ->
  get (dict_or_empty (sort_keys (compact_runtime_document v))) field = PStr a.
Proof.
  intros Hv Hf Ha Hold. destruct v as [| | | | | |d]; try discriminate. cbn [dict_or_empty] in Hold.
  apply plain_compact in Hv. rewrite compact_dict in *. rewrite sort_keys_sorted_dict. cbn [dict_or_empty].
  rewrite get_sorted by (by apply plain_nodup). rewrite get_compact, Hold by exact Hf.
  cbn [compact_runtime_document]. rewrite (proj2 (Z.ltb_ge 65536 (py_len a)) Ha). reflexivity.
Qed.

(** A section of the state document after a save. *)
Lemma save_state_section {S : Type} `{DocStoreLaws S} st k (w w' : world S) :
  plain (PDict st) -> str_in k compact_blocked = false -> save_json "state.json" (PDict st) w = (Ok tt, w') ->
  get (document "state.json" w') k = sort_keys (compact_runtime_document (get st k)).
Proof.
  intros Hst Hk. unfold save_json. change (str_in "state.json" _) with true. cbv iota.
  destruct (doc_save _ _ _ _) as [[s n]|e] eqn:Es; [|done]. intros [= <-]. apply plain_compact in Hst.
  unfold document. cbn [w_docs]. rewrite (doc_read_save _ _ _ _ _ _ Hst Es). rewrite compact_dict in *.
  rewrite sort_keys_sorted_dict. cbn [default from_option id dict_or_empty].
  rewrite get_sorted by (by apply plain_nodup). by rewrite get_compact.
Qed.

(** ** What is written while a report is handled *)

Section Keeps.
Context {S : Type} `{DocStoreLaws S} {tz : TimeZone} (E : env) (run : list string -> option string).

Lemma keeps_hydrate k dev archive : keeps k (hydrate_device_with_archive dev archive).
Proof. unfold hydrate_device_with_archive, lan_prefixes. solve_keeps. Qed.

Lemma keeps_hydrate_all k archive items : keeps k (hydrate_all archive items).
Proof.
  induction items as [|v items IH]; cbn [hydrate_all]; [apply keeps_ret|].
  destruct v; solve_keeps; apply keeps_hydrate || exact IH.
Qed.

Lemma keeps_archive k dev : k <> "device_archive.json" -> keeps k (archive_device_snapshot dev).
Proof. intros Hk. unfold archive_device_snapshot, load_device_archive, save_device_archive. solve_keeps. Qed.

Lemma keeps_merge k neighbors prefixes : k <> "device_archive.json" ->
  keeps k (merge_ipv6_neighbors_to_archive E run neighbors prefixes).
Proof. intros Hk. unfold merge_ipv6_neighbors_to_archive, load_device_archive, save_device_archive. solve_keeps. Qed.

Lemma keeps_rehydrate k event_time : k <> "devices.json" -> keeps k (rehydrate_devices event_time).
Proof.
  intros Hk. unfold rehydrate_devices, load_device_archive. solve_keeps; apply keeps_hydrate_all.
Qed.

Lemma keeps_trigger k ttl state force : keeps k (trigger_status_refresh_if_needed ttl state force).
Proof. unfold trigger_status_refresh_if_needed, start_refresh. solve_keeps. Qed.


Lemma keeps_when k (b : bool) (m : hub S unit) : keeps k m -> keeps k (if b then m else mret tt).
Proof. intros Hm. destruct b; [done|apply keeps_ret]. Qed.

Lemma keeps_upsert_rows k mac online event_time archive snapshot rows : k <> "device_archive.json" ->
  keeps k (upsert_rows mac online event_time archive snapshot rows).
Proof.
  intros Hk. induction rows as [|v rows IH]; cbn [upsert_rows]; [apply keeps_ret|].
  solve_keeps; solve [exact IH | apply keeps_hydrate | by apply keeps_archive].
Qed.

Lemma keeps_upsert_watched k snapshot online event_time :
  str_in k ["device_archive.json"; "devices.json"; "state.json"] = false ->
  keeps k (upsert_watched_device_from_event snapshot online event_time).
Proof.
  intros Hk. assert (k <> "device_archive.json" /\ k <> "devices.json" /\ k <> "state.json") as (? & ? & ?).
  { repeat split; by intros ->. }
  unfold upsert_watched_device_from_event, load_device_archive.
  solve_keeps; solve [by apply keeps_upsert_rows | apply keeps_hydrate | by apply keeps_archive].
Qed.
End Keeps.

(** ** The fields of a snapshot *)

Lemma plain_put_if b k v d : plain v -> plain (PDict d) -> plain (PDict (put_if b k v d)).
Proof. intros Hv Hd. unfold put_if. destruct b; [by apply plain_dset|done]. Qed.

Lemma plain_texts l : plain (texts_list l).
Proof. unfold texts_list. constructor. induction l; constructor; [constructor|done]. Qed.

Definition plain_rows (rows : list dict) : Prop := List.Forall (fun row => plain (PDict row)) rows.

Lemma plain_items_go name i seen items : plain_rows (ipv6_items_go name i seen items).
Proof.
  revert i seen. induction items as [|v items IH]; intros i seen; [constructor|]. cbn [ipv6_items_go].
  destruct (ipv6_item name i seen v) as [[addr row]|] eqn:Ei; [|apply IH]. constructor; [|apply IH].
  unfold ipv6_item in Ei. destruct (as_item v) as [item|]; [|done]. cbn [mbind option_bind] in Ei.
  destruct (normalize_ipv6_list _) as [|addr0 rest]; [done|]. destruct (str_in addr0 seen); [done|]. injection Ei as _ <-. solve_plain.
Qed.

Lemma plain_items values name : plain_rows (normalize_ipv6_items values name).
Proof.
  unfold normalize_ipv6_items. apply Forall_take.
  pose proof (plain_items_go name 0 [] (list_or_empty values)) as Hp. destruct (ipv6_items_go _ _ _ _) as [|first rest]; [done|].
  destruct (existsb _ _); [done|]. inversion Hp; subst. constructor; [|done]. apply plain_dset; [constructor|done].
Qed.

Lemma plain_wan6_rows wan6 i seen cleaned items : plain_rows cleaned -> plain_rows (wan6_rows wan6 i seen cleaned items).
Proof.
  revert i seen cleaned. induction items as [|v items IH]; intros i seen cleaned Hc; cbn [wan6_rows]; [done|].
  destruct v; auto. destruct (_ || _); auto. apply IH. apply Forall_app. split; [done|]. constructor; [solve_plain|constructor].
Qed.

Lemma plain_with_primary rows : plain_rows rows -> plain_rows (with_primary rows).
Proof.
  destruct rows as [|first rest]; [done|]. intros Hp. cbn. case_match; [done|]. inversion Hp; subst.
  constructor; [|done]. apply plain_dset; [constructor|done].
Qed.

Lemma plain_update name event_time wan6 payload a :
  plain wan6 -> plain_rows (a_wan a) -> plain_rows (a_router a) -> plain_rows (a_lan a) ->
  plain (PDict (router_update name event_time wan6 payload a)).
Proof.
  intros Hw Ha Hr Hl. assert (Hn : plain_rows (List.map name_ip_primary (a_wan a))).
  { clear Hr Hl. induction Ha as [|row rows Hrow _ IH]; cbn; constructor; [|done]. unfold name_ip_primary.
    pose proof (plain_get row "name" Hrow). pose proof (plain_get row "ip" Hrow). pose proof (plain_get row "primary" Hrow). solve_plain. }
  unfold router_update.
  assert (Hd : forall d, plain (PDict d) -> plain (PDict (match first_of payload ["router_wan6_list"; "routerWan6List"; "wan6List"] with
    | PList items => let rows := with_primary (wan6_rows wan6 0 [] [] items) in
                     put_if (negb (some_rows (a_wan a)) && some_rows rows) "wan6List" (row_list rows) d
    | _ => d end))).
  { intros d Hd. destruct (first_of _ _); try done. apply plain_put_if; [|done].
    apply plain_dicts, plain_with_primary, plain_wan6_rows. constructor. }
  apply Hd. repeat apply plain_put_if; try apply plain_texts; try by apply plain_dicts. solve_plain.
Qed.

Section Push.
Context {S : Type} `{DocStoreLaws S} {tz : TimeZone} (E : env) (run : list string -> option string).

(** A section of the state reads as before, compacted at most. *)
Definition section_kept (k : string) (w w' : world S) : Prop :=
  get (document "state.json" w') k = get (document "state.json" w) k
  \/ get (document "state.json" w') k = sort_keys (compact_runtime_document (get (document "state.json" w) k)).

Lemma state_with_get ks d d' k : state_with ks (PDict d) = Ok d' -> has d k = true -> get d' k = get d k.
Proof.
  cbn [state_with]. intros [= <-]. revert d. induction ks as [|k0 ks IH]; intros d Hk; cbn [fold_left]; [done|].
  unfold setdefault at 2. destruct (has d k0) eqn:E0; [by apply IH|].
  assert (k <> k0) by (intros ->; congruence). rewrite IH; [by rewrite get_dset_ne|].
  unfold has in *. by rewrite dget_dset_ne.
Qed.

Lemma state_with_plain ks v d : plain v -> state_with ks v = Ok d -> plain (PDict d).
Proof.
  intros Hv. destruct v as [| | | | | |d0]; try done. cbn [state_with]. intros [= <-]. revert d0 Hv.
  induction ks as [|k ks IH]; intros d0 Hd; cbn [fold_left]; [done|]. apply IH. unfold setdefault.
  destruct (has d0 k); [done|]. apply plain_dset; [apply plain_empty|done].
Qed.

Lemma update_in_get k fields d d' k' : update_in k fields d = Ok d' -> k' <> k -> get d' k' = get d k'.
Proof. unfold update_in. destruct (get d k); try done. intros [= <-] Hne. by apply get_dset_ne. Qed.

Lemma update_in_plain k fields d d' :
  List.Forall (fun kv => plain kv.2) fields -> plain (PDict d) -> update_in k fields d = Ok d' -> plain (PDict d').
Proof.
  intros Hf Hd. unfold update_in. pose proof (plain_get d k Hd) as Hk. destruct (get d k); try done. intros [= <-].
  apply plain_dset; [|done]. by apply plain_dupdate.
Qed.

Lemma plain_wan6 payload wan router v : plain_rows wan -> plain router -> router_wan6 payload wan router = Ok v -> plain v.
Proof.
  intros Hw Hr. unfold router_wan6.
  set (primary := match List.find _ wan with Some x => get x "ip" | None => PStr "" end).
  set (first := match wan with [] => PStr "" | x :: _ => get x "ip" end).
  assert (Hp : plain primary).
  { subst primary. destruct (List.find _ wan) as [x|] eqn:Ex; [|constructor]. apply plain_get. apply List.find_some in Ex as [Ex _].
    by apply (proj1 (List.Forall_forall _ _) Hw). }
  assert (Hf : plain first) by (subst first; destruct wan; [constructor|]; inversion Hw; subst; by apply plain_get).
  case_match; [intros [= <-]; by apply plain_por; [constructor|apply plain_por]|].
  case_match; [intros [= <-]; constructor|]. unfold vget. destruct router; try done. intros [= <-]. by apply plain_get.
Qed.

Lemma pushed_state_spec event_time payload d d' :
  plain (PDict d) -> pushed_state E event_time payload d = Ok d' ->
  plain (PDict d') /\ forall k, k <> "router" -> get d' k = get d k.
Proof.
  intros Hd. unfold pushed_state. cbv zeta. intros Hr. apply result_bind_ok in Hr as (wan6 & Hw & Hr).
  split; [|by intros k Hk; eapply update_in_get].
  eapply update_in_plain; [|exact Hd|exact Hr]. apply plain_fields, plain_update; try apply plain_items.
  eapply plain_wan6; [apply plain_items| |exact Hw]. by apply plain_get.
Qed.

Lemma snapshot_sections status_ttl event_time payload w r w' k :
  doc_ok (w_docs w) -> push_snapshot E run status_ttl event_time payload w = (r, w') ->
  str_in k compact_blocked = false -> k <> "router" -> k <> "updatedAt" -> has (document "state.json" w) k = true ->
  section_kept k w w'.
Proof.
  intros Hok Hr Hk Hrouter Hat Hhas. unfold push_snapshot in Hr. rewrite prog_bind_eq in Hr. cbn [load_json] in Hr.
  pose proof (document_plain "state.json" w Hok) as Hplain. unfold document in Hhas, Hplain.
  destruct (doc_read "state.json" (w_docs w)) as [v|] eqn:Ev; cbn [default from_option id] in *; [|done].
  destruct v as [| | | | | |d]; try done. cbn [dict_or_empty] in *.
  rewrite prog_bind_eq in Hr. unfold lift at 1 in Hr.
  destruct (state_with _ _) as [d1|e] eqn:E1; [|injection Hr as _ <-; by left].
  pose proof (state_with_get _ _ _ k E1 Hhas) as G1. pose proof (state_with_plain _ _ _ Hplain E1) as P1.
  rewrite prog_bind_eq in Hr. unfold lift at 1 in Hr.
  destruct (pushed_state _ _ _ _) as [d2|e] eqn:E2; [|injection Hr as _ <-; by left].
  destruct (pushed_state_spec _ _ _ _ P1 E2) as [P2 G2].
  rewrite prog_bind_eq in Hr. cbn [now_str] in Hr. rewrite prog_bind_eq in Hr.
  destruct (merge_ipv6_neighbors_to_archive _ _ _ _ w) as [o w1] eqn:Em.
  pose proof (keeps_merge E run "state.json" _ _ ltac:(done) _ _ _ Em) as K1.
  destruct o as [changed|e]; [|injection Hr as _ <-; left; unfold document; by rewrite K1].
  rewrite prog_bind_eq in Hr.
  match type of Hr with context [?m w1] => destruct (m w1) as [o2 w2] eqn:Er end.
  pose proof (keeps_when _ _ _ (keeps_rehydrate "state.json" event_time ltac:(done)) _ _ _ Er) as K2.
  destruct o2 as [u|e]; [|injection Hr as _ <-; left; unfold document; by rewrite K2, K1].
  rewrite prog_bind_eq in Hr. destruct (save_json _ _ w2) as [[u2|e] w3] eqn:Es.
  2: { injection Hr as _ <-. left. unfold save_json in Es. destruct (doc_save _ _ _ _) as [[s n]|e']; [done|]. injection Es as _ <-.
       unfold document. by rewrite K2, K1. }
  destruct u2. apply (save_state_section _ k) in Es; [|by apply plain_dset; [constructor|]|done].
  rewrite get_dset_ne in Es by done. rewrite G2, G1 in Es by done.
  rewrite prog_bind_eq in Hr. right. unfold document at 2. rewrite Ev. cbn [default from_option id dict_or_empty]. rewrite <- Es.
  match type of Hr with context [?m w3] => destruct (m w3) as [o4 w4] eqn:Et end.
  pose proof (keeps_when _ _ _ (keeps_trigger "state.json" _ _ _) _ _ _ Et) as K4.
  destruct o4 as [u3|e]; injection Hr as _ <-; unfold document; by rewrite K4.
Qed.

Lemma section_text k field a w w' :
  doc_ok (w_docs w) -> section_kept k w w' -> str_in field compact_blocked = false -> py_len a <= 65536 ->
  get (dict_or_empty (get (document "state.json" w) k)) field = PStr a ->
  get (dict_or_empty (get (document "state.json" w') k)) field = PStr a.
Proof.
  intros Hok Hkept Hf Ha Hold. destruct Hkept as [->| ->]; [exact Hold|].
  apply compact_text; [apply plain_get; by apply document_plain|exact Hf|exact Ha|exact Hold].
Qed.

(** C10. A snapshot of the router never changes an exit address of the NAS: whatever the router
    reports, and whether the handler succeeds or fails on the way, every text in the [nas] section of
    the state reads as before.  This is the promise in the comments of [api_router_push]. *)
Theorem push_keeps_exit_addresses status_ttl event_time payload w r w' field a :
  doc_ok (w_docs w) -> push_snapshot E run status_ttl event_time payload w = (r, w') ->
  str_in field compact_blocked = false -> py_len a <= 65536 ->
  get (dict_or_empty (get (document "state.json" w) "nas")) field = PStr a ->
  get (dict_or_empty (get (document "state.json" w') "nas")) field = PStr a.
Proof.
  intros Hok Hr Hf Ha Hold. refine (section_text "nas" field a w w' Hok _ Hf Ha Hold).
  eapply snapshot_sections; [exact Hok|exact Hr|done..|]. unfold get, has in *.
  by destruct (dget (document "state.json" w) "nas").
Qed.
End Push.

(** A Hub that knows its exit addresses, and a router that reports a WAN address and a neighbour. *)
Definition no_commands : list string -> option string := fun _ => None.
Definition known_exit : pyval :=
  PDict [("nas", PDict [("exitIpv4", PStr "203.0.113.7"); ("exitIpv6", PStr "2409:8a00::7")]);
         ("router", PDict [("wanIpv6", PStr "2409:8a00::1")])].
Definition known_world : world store := run (save_json "state.json" known_exit) demo_world.
Definition wan_report : dict :=
  [("wan_ipv6_list", PList [PStr "2409:8a00::99"]); ("wan_ipv6", PStr "2409:8a00::99");
   ("ipv6_neighbors", PList [PDict [("mac", PStr "a4:c3:f0:11:22:33"); ("ip", PStr "2409:8a00::5")]])].
Definition pushed : result response * world store :=
  push_snapshot demo_env no_commands 300 "2023-11-15 06:13:20" wan_report known_world.

Lemma push_keeps_exit_addresses_witness :
  get (dict_or_empty (get (document "state.json" pushed.2) "nas")) "exitIpv6" = PStr "2409:8a00::7"
  /\ get (dict_or_empty (get (document "state.json" pushed.2) "router")) "wanIpv6" = PStr "2409:8a00::99".
Proof.
  split; [|by vm_compute].
  apply (push_keeps_exit_addresses demo_env no_commands 300 "2023-11-15 06:13:20" wan_report known_world pushed.1 pushed.2 "exitIpv6").
  - apply texts_okb_sound. by vm_compute.
  - apply surjective_pairing.
  - by vm_compute.
  - by vm_compute.
  - by vm_compute.
Defined.

(** ** The address check of the agent *)

Section Check.
Context {S : Type} `{DocStoreLaws S} {tz : TimeZone} (E : env).

Lemma get_dupdate_ne d e k : ~ In k (keys e) -> get (dupdate d e) k = get d k.
Proof.
  revert d. unfold dupdate. induction e as [|[k' v] e IH]; intros d Hk; cbn [fold_left fst snd]; [done|]. cbn in Hk.
  rewrite IH by tauto. apply get_dset_ne. intros ->. tauto.
Qed.

(** Fields that are not set stay, in whatever section. *)
Lemma set_in_keeps k fields d d' field : set_in k fields d = Ok d' -> ~ In field (keys fields) ->
  get (dict_or_empty (get d' k)) field = get (dict_or_empty (get d k)) field.
Proof.
  unfold set_in, set_item_error. destruct (get d k) as [| | | | | |d0]; try done. intros [= <-] Hf.
  rewrite get_dset_eq. cbn [dict_or_empty]. by apply get_dupdate_ne.
Qed.

Lemma set_in_plain k fields d d' :
  List.Forall (fun kv => plain kv.2) fields -> plain (PDict d) -> set_in k fields d = Ok d' -> plain (PDict d').
Proof.
  intros Hf Hd. unfold set_in, set_item_error. pose proof (plain_get d k Hd) as Hk. destruct (get d k); try done. intros [= <-].
  apply plain_dset; [|done]. by apply plain_dupdate.
Qed.

(** A failed save leaves the world; a successful one reads back. *)
Lemma saved_section_text st k field a (w w' : world S) o :
  plain (PDict st) -> str_in k compact_blocked = false -> str_in field compact_blocked = false -> py_len a <= 65536 ->
  save_json "state.json" (PDict st) w = (o, w') -> get (dict_or_empty (get st k)) field = PStr a ->
  get (dict_or_empty (get (document "state.json" w) k)) field = PStr a ->
  get (dict_or_empty (get (document "state.json" w') k)) field = PStr a.
Proof.
  intros Hst Hk Hf Ha Hs Hnew Hold. destruct o as [[]|e].
  - rewrite (save_state_section st k w w' Hst Hk Hs). by apply compact_text; [apply plain_get|..].
  - unfold save_json in Hs. destruct (doc_save _ _ _ _) as [[s n]|e']; [done|]. by injection Hs as _ <-.
Qed.

(** A check of the WAN address that found nothing usable never replaces the address known
    from before: what is not a public IPv6 address only leaves a note in the router's state. *)
Theorem failed_check_keeps_address h payload w r w' field a :
  doc_ok (w_docs w) -> ruijie_body h = PDict payload -> plain (PDict payload) ->
  usable_wan6 (reported_wan6 h payload) = false -> hook_ruijie_router E h w = (r, w') ->
  In field ["wanIpv6"; "exitIpv6"] -> py_len a <= 65536 ->
  get (dict_or_empty (get (document "state.json" w) "router")) field = PStr a ->
  get (dict_or_empty (get (document "state.json" w') "router")) field = PStr a.
Proof.
  intros Hok Hbody Hp Hbad Hr Hf Ha Hold.
  assert (Hsame : w' = w -> get (dict_or_empty (get (document "state.json" w') "router")) field = PStr a) by (by intros ->).
  unfold hook_ruijie_router in Hr.
  destruct (check_hook_token E (h_request h)); cbn [negb] in Hr; [|injection Hr as _ <-; auto].
  rewrite prog_bind_eq, Hbody in Hr. unfold lift at 1 in Hr. rewrite prog_bind_eq in Hr. cbn [load_json] in Hr.
  pose proof (document_plain "state.json" w Hok) as Hplain. pose proof Hold as Hdoc.
  unfold document in Hold, Hplain.
  destruct (doc_read "state.json" (w_docs w)) as [v|] eqn:Ev; cbn [default from_option id] in *; [|discriminate].
  destruct v as [| | | | | |d]; try discriminate. cbn [dict_or_empty] in *.
  rewrite prog_bind_eq in Hr. unfold lift at 1 in Hr. destruct (state_with _ _) as [d1|e] eqn:E1; [|injection Hr as _ <-; auto].
  assert (Hhas : has d "router" = true) by (unfold get, has in *; destruct (dget d "router"); [done|discriminate]).
  rewrite <- (state_with_get _ _ _ _ E1 Hhas) in Hold. apply (state_with_plain _ _ _ Hplain) in E1.
  rewrite prog_bind_eq in Hr. unfold lift at 1 in Hr. destruct (vget _ _) as [old|e]; [|injection Hr as _ <-; auto].
  rewrite prog_bind_eq in Hr. cbn [now_str] in Hr. rewrite prog_bind_eq in Hr. unfold lift at 1 in Hr.
  destruct (set_in _ _ d1) as [d2|e] eqn:E2; [|injection Hr as _ <-; auto].
  rewrite <- (set_in_keeps _ _ _ _ field E2) in Hold by (destruct Hf as [<-|[<-|[]]]; cbn; intuition discriminate).
  apply set_in_plain in E2; [| |exact E1].
  2: { constructor; [|repeat constructor]. cbn [snd]. apply plain_por; [by apply plain_first_of|constructor]. }
  rewrite Hbad in Hr. rewrite prog_bind_eq in Hr. unfold lift at 1 in Hr.
  destruct (set_in _ _ d2) as [d3|e] eqn:E3; [|injection Hr as _ <-; auto].
  rewrite <- (set_in_keeps _ _ _ _ field E3) in Hold by (destruct Hf as [<-|[<-|[]]]; cbn; intuition discriminate).
  apply set_in_plain in E3; [|repeat constructor|exact E2].
  rewrite prog_bind_eq in Hr. destruct (save_json _ _ w) as [o w1] eqn:Es.
  assert (w' = w1) as -> by (destruct o as [[]|e]; by injection Hr as _ <-).
  refine (saved_section_text _ "router" field a w w1 o _ eq_refl _ Ha Es _ Hdoc).
  - by apply plain_dset; [constructor|].
  - by destruct Hf as [<-|[<-|[]]].
  - by rewrite get_dset_ne.
Qed.
End Check.

(** A check that found a private address only. *)
Definition private_check : webhook :=
  Webhook (router_request [] (Some (PDict [("wanIf", PStr "eth0"); ("wanIpv6", PStr "fe80::1")]))) true [] [] "".
Definition checked_hook : result response * world store := hook_ruijie_router demo_env private_check known_world.

Lemma failed_check_keeps_address_witness :
  get (dict_or_empty (get (document "state.json" checked_hook.2) "router")) "wanIpv6" = PStr "2409:8a00::1"
  /\ get (dict_or_empty (get (document "state.json" checked_hook.2) "router")) "routerStatus" = PStr "check_failed".
Proof.
  split; [|by vm_compute].
  apply (failed_check_keeps_address demo_env private_check [("wanIf", PStr "eth0"); ("wanIpv6", PStr "fe80::1")]
           known_world checked_hook.1 checked_hook.2 "wanIpv6").
  - apply texts_okb_sound. by vm_compute.
  - reflexivity.
  - solve_plain.
  - by vm_compute.
  - apply surjective_pairing.
  - by left.
  - by vm_compute.
  - by vm_compute.
Defined.
