(* ===== verification/EventHooksFacts.v ===== *)
(** * Events of devices, wake on LAN and the STUN hook

    What a client of the event log can rely on: a departure that was recorded is not recorded again
    by the reports of the following five minutes.  Then the shape of a magic packet, and the
    addresses the hook of Lucky takes for unfilled templates. *)

From S2P Require Import Prelude PyNum PyVal PyIp PyTime HubValues Json Storage Hub Services Fixtures.
From S2P Require Import HubNetwork Ipv6Records DeviceArchive Watched DailyFacts Hooks HooksFacts.

(** ** The snapshot of a device event *)

(** Traffic counters are integers and texts under keys of their own. *)
Definition traffic_fields (d : dict) : Prop := plain (PDict d) /\ dget d "mac" = None.

Lemma traffic_fields_dset k v d : k <> "mac" -> plain v -> traffic_fields d -> traffic_fields (dset k v d).
Proof. intros Hk Hv [Hd Hm]. split; [by apply plain_dset|]. by rewrite dget_dset_ne. Qed.

Lemma put_counter_fields v k1 k2 kg acc : k1 <> "mac" -> k2 <> "mac" ->
  traffic_fields acc.1 -> plain (PDict acc.2) ->
  traffic_fields (put_counter v k1 k2 kg acc).1 /\ plain (PDict (put_counter v k1 k2 kg acc).2).
Proof.
  intros H1 H2 Ha Hb. unfold put_counter. destruct v as [n|]; [|done]. cbn [fst snd].
  split; [by do 2 (apply traffic_fields_dset; [done|constructor|])|]. apply plain_dset; [constructor|done].
Qed.

Lemma traffic_plain today now item t : normalize_device_traffic today now item = Ok t -> traffic_fields t.
Proof.
  unfold normalize_device_traffic. intros Ht.
  apply result_bind_ok in Ht as (up & _ & Ht). apply result_bind_ok in Ht as (down & _ & Ht).
  apply result_bind_ok in Ht as (tup & _ & Ht). apply result_bind_ok in Ht as (tdown & _ & Ht).
  assert (H0 : traffic_fields []) by (split; [apply plain_empty|done]).
  pose proof (put_counter_fields up "todayUpload" "dailyUpBytes" "upload" ([], []) ltac:(done) ltac:(done) H0 plain_empty) as [H1 P1].
  destruct (put_counter up _ _ _ _) as [out1 tg1]. cbn [fst snd] in *.
  pose proof (put_counter_fields down "todayDownload" "dailyDownBytes" "download" (out1, tg1) ltac:(done) ltac:(done) H1 P1) as [H2 P2].
  destruct (put_counter down _ _ _ _) as [out2 tg2]. cbn [fst snd] in *.
  pose proof (put_counter_fields tup "totalUpload" "upBytes" "upload" (out2, []) ltac:(done) ltac:(done) H2 plain_empty) as [H3 P3].
  destruct (put_counter tup _ _ _ _) as [out3 rg3]. cbn [fst snd] in *.
  pose proof (put_counter_fields tdown "totalDownload" "downBytes" "download" (out3, rg3) ltac:(done) ltac:(done) H3 P3) as [H4 P4].
  destruct (put_counter tdown _ _ _ _) as [out4 rg4]. cbn [fst snd] in *. injection Ht as <-.
  destruct tg2, rg4; cbn [orb];
    repeat (apply traffic_fields_dset; [done|by (assumption || constructor)|]); done.
Qed.

Lemma flatten_plain payload : plain (PDict payload) -> plain (PDict (flatten_payload payload)).
Proof.
  intros Hp. unfold flatten_payload. pose proof (plain_get payload "device" Hp) as Hd.
  destruct (get payload "device") as [| | | | | |[|e nested]]; try exact Hp.
  apply plain_dupdate; [exact Hd|]. by apply plain_fields, plain_ddel.
Qed.

Definition event_mac (payload : dict) : string := norm_mac (get (flatten_payload payload) "mac").

Lemma event_snapshot_spec now today payload snap :
  plain (PDict payload) -> event_snapshot now today payload = Ok snap ->
  plain (PDict snap) /\ get snap "mac" = PStr (event_mac payload).
Proof.
  intros Hp. unfold event_snapshot. cbv zeta. intros Hs. apply result_bind_ok in Hs as (t & Ht & Hs).
  apply traffic_plain in Ht as [Pt Mt]. injection Hs as <-. split.
  - apply plain_dupdate; [|by apply plain_fields]. apply flatten_plain in Hp. unfold text_or_empty. solve_plain.
  - rewrite get_dupdate by (by apply plain_nodup). rewrite Mt. done.
Qed.

(** ** The event log *)

Lemma last_n_snoc_eq {A} n (l : list A) x : (0 < n)%nat -> exists l', last_n n (l ++ [x]) = l' ++ [x].
Proof.
  intros Hn. exists (skipn (List.length (l ++ [x]) - n) l). unfold last_n. rewrite skipn_app. f_equal.
  rewrite length_app. cbn [List.length]. by replace (_ - _ - _)%nat with O by lia.
Qed.

Section Log.
Context {S : Type} `{DocStoreLaws S} {tz : TimeZone} (E : env).

(** A new event is the last of the log and carries the fields it was given. *)
Lemma add_event_last e w e' w' :
  doc_ok (w_docs w) -> plain (PDict e) -> has e "createdAt" = true -> add_event e w = (Ok e', w') ->
  exists l d, doc_read "events.json" (w_docs w') = Some (PList (l ++ [PDict d]))
    /\ forall k, k <> "id" -> k <> "level" -> get d k = sort_keys (get e k).
Proof.
  intros Hok He Hc. unfold add_event. rewrite prog_bind_eq. cbn [load_json].
  assert (Hdoc : plain (default (PList []) (doc_read "events.json" (w_docs w)))).
  { destruct (doc_read _ _) as [v|] eqn:Ev; [|repeat constructor]. by apply json_ok_plain, (doc_read_ok _ _ _ Hok Ev). }
  rewrite prog_bind_eq. unfold lift at 1. destruct (as_list _ _) as [l|] eqn:El; [|done].
  unfold as_list in El. destruct (default _ _) as [| | | | |l0|]; try discriminate. injection El as ->.
  rewrite prog_bind_eq. unfold lift at 1. destruct (next_event_id l) as [n|]; [|done]. rewrite prog_bind_eq. cbn [now_str].
  set (new := setdefault "level" _ _). rewrite prog_bind_eq.
  destruct (save_json _ _ _) as [[[]|x] w1] eqn:Es; [|done]. intros [= _ <-].
  assert (Pn : plain (PDict new)).
  { do 2 (apply setdefault_plain; [constructor|]). by apply plain_dset; [constructor|]. }
  destruct (last_n_snoc_eq event_cap l (PDict new)) as [l' Hl']; [unfold event_cap; lia|]. rewrite Hl' in Es.
  apply save_json_read in Es; [|done|].
  2: { constructor. rewrite <- Hl'. apply List.Forall_forall. intros x Hx%last_n_incl%in_app_or.
       destruct Hx as [Hx|[<-|[]]]; [by eapply plain_in|done]. }
  exists (List.map sort_keys l'), (sorted_dict new). rewrite Es. split.
  { cbn [sort_keys]. rewrite List.map_app. done. }
  intros k Hid Hlv. rewrite get_sorted by (by apply plain_nodup). f_equal. subst new.
  rewrite setdefault_get by done. unfold setdefault.
  assert (Hh : has (dset "id" (PInt n) e) "createdAt" = true) by (unfold has in *; by rewrite dget_dset_ne).
  rewrite Hh. by apply get_dset_ne.
Qed.

(** What the log is compared by. *)
Lemma device_event_fields source typ connect name event_time snap :
  let ev := device_event source typ connect name event_time snap in
  get ev "mac" = get snap "mac" /\ get ev "type" = PStr typ /\ get ev "createdAt" = PStr event_time /\ has ev "createdAt" = true.
Proof.
  intros ev. subst ev. unfold device_event. cbv zeta. set (ev := event_fields _ _ _ _ _ _).
  assert (Hev : get ev "mac" = get snap "mac" /\ get ev "type" = PStr typ /\ get ev "createdAt" = PStr event_time
                /\ has ev "createdAt" = true) by done.
  destruct (_ && _); [|done]. unfold has in *. by rewrite !get_dset_ne, dget_dset_ne by done.
Qed.

Lemma device_event_plain source typ connect name event_time snap :
  plain name -> plain (PDict snap) -> plain (PDict (device_event source typ connect name event_time snap)).
Proof.
  intros Hn Hs. unfold device_event. cbv zeta.
  assert (Hl : plain (first_of snap ["lastIp"; "ip"])) by by apply plain_first_of.
  assert (Ho : forall s, plain (por (get snap "offlineAt") (PStr s))) by (intros s; apply plain_por; [by apply plain_get|constructor]).
  assert (Hg : forall k, plain (get snap k)) by (intros k; by apply plain_get).
  assert (Hev : plain (PDict (event_fields source typ connect name event_time snap))).
  { unfold event_fields. destruct (String.eqb typ "device_online"), connect; cbn [app]; solve_plain; apply Hg || apply Ho. }
  destruct (_ && _); [|done]. apply plain_dset; [constructor|done].
Qed.

Lemma event_mac_payload mapped t payload : plain (PDict payload) -> event_mac (as_event_payload mapped t payload) = event_mac payload.
Proof.
  intros Hp%plain_nodup. unfold event_mac, as_event_payload, flatten_payload. f_equal.
  set (p := dset "lastIp" _ _).
  assert (Hg : forall k, k <> "lastIp" -> k <> "time" -> k <> "type" -> get p k = get payload k).
  { intros k ? ? ?. subst p. by rewrite !get_dset_ne. }
  assert (Hn : nodup_keys p) by (subst p; repeat apply nodup_dset; exact Hp).
  rewrite (Hg "device") by done.
  destruct (get payload "device") as [| | | | | |[|e nested]]; try by apply Hg.
  rewrite !get_dupdate by by apply nodup_ddel. rewrite !dget_ddel_ne by done.
  subst p. by rewrite !dget_dset_ne.
Qed.

(** The log ends with the departure of a device at a time. *)
Definition ends_with_departure (mac t : string) (w : world S) : Prop :=
  exists l d, doc_read "events.json" (w_docs w) = Some (PList (l ++ [PDict d]))
    /\ get d "mac" = PStr mac /\ get d "type" = PStr "device_offline" /\ get d "createdAt" = PStr t.

(** What the handler compares the log with. *)
Lemma departure_event t payload w r w' :
  plain (PDict payload) -> clean_saved_value (get payload "event") = "offline" -> push_device_event t payload w = (r, w') ->
  w' = w /\ is_ok r = false \/ exists snap event, plain (PDict snap) /\ plain (PDict event)
    /\ get event "mac" = PStr (event_mac payload) /\ get event "type" = PStr "device_offline"
    /\ get event "createdAt" = PStr t /\ has event "createdAt" = true
    /\ (doc ← load_json "events.json" (PList []);
        newest ← lift (py_reversed doc);
        last ← lift (first_same event newest);
        record_event (match last with Some e => within 300 e t && true | None => false end)
          "duplicate offline ignored" event snap false t) w = (r, w').
Proof.
  intros Hp Hev Hr. unfold push_device_event in Hr. rewrite Hev in Hr. cbv zeta in Hr.
  change (if String.eqb "offline" "online" then _ else _) with "device_offline" in Hr.
  change (str_in "device_offline" _) with true in Hr. cbn [negb] in Hr.
  unfold device_snapshot_from_payload in Hr. rewrite !prog_bind_eq in Hr. cbn [now_str today_str] in Hr.
  rewrite prog_bind_eq in Hr. cbn [today_str] in Hr. unfold lift at 1 in Hr.
  destruct (event_snapshot _ _ _) as [snap|e] eqn:Es; [|injection Hr as <- <-; by left].
  assert (Pp : plain (PDict (as_event_payload "device_offline" t payload))).
  { unfold as_event_payload. repeat (apply plain_dset; [first [constructor | by apply plain_get]|]). done. }
  destruct (event_snapshot_spec _ _ _ _ Pp Es) as [Ps Ms]. rewrite event_mac_payload in Ms by done.
  right. exists snap, (device_event "router_push" "device_offline" false
    (por (get snap "name") (por (get snap "mac") (PStr "未知设备"))) t snap).
  destruct (device_event_fields "router_push" "device_offline" false
    (por (get snap "name") (por (get snap "mac") (PStr "未知设备"))) t snap) as (G1 & G2 & G3 & G4).
  split; [exact Ps|]. split.
  { apply device_event_plain; [|done]. apply plain_por; [by apply plain_get|]. apply plain_por; [by apply plain_get|constructor]. }
  split; [by rewrite G1|]. do 3 (split; [assumption|]). rewrite <- Hr. reflexivity.
Qed.

Lemma recorded_departure t payload w r w' :
  doc_ok (w_docs w) -> plain (PDict payload) -> clean_saved_value (get payload "event") = "offline" ->
  push_device_event t payload w = (Ok r, w') -> get (dict_or_empty (rsp_body r)) "dedup" = PNone ->
  ends_with_departure (event_mac payload) t w'.
Proof.
  intros Hok Hp Hev Hr Hnew. destruct (departure_event _ _ _ _ _ Hp Hev Hr) as [[_ [=]]|(snap & ev & Ps & Pe & G1 & G2 & G3 & G4 & Hrun)].
  rewrite prog_bind_eq in Hrun. cbn [load_json] in Hrun. rewrite prog_bind_eq in Hrun. unfold lift at 1 in Hrun.
  destruct (py_reversed _) as [newest|]; [|done]. rewrite prog_bind_eq in Hrun. unfold lift at 1 in Hrun.
  destruct (first_same _ _) as [last|]; [|done]. unfold record_event in Hrun. case_match.
  - apply prog_bind_ok in Hrun as (u & w1 & _ & Hrun). rewrite prog_bind_eq in Hrun. cbn [now_str] in Hrun.
    injection Hrun as <- _. discriminate.
  - apply prog_bind_ok in Hrun as (saved & w1 & Ha & Hrun). apply prog_bind_ok in Hrun as (u & w2 & Hu & Hrun).
    rewrite prog_bind_eq in Hrun. cbn [now_str] in Hrun. injection Hrun as _ <-.
    destruct (add_event_last _ _ _ _ Hok Pe G4 Ha) as (l & d & Hl & Hd). exists l, d.
    rewrite (keeps_upsert_watched "events.json" _ _ _ eq_refl _ _ _ Hu), Hl, !Hd, G1, G2, G3 by done. done.
Qed.

Lemma ignored_departure t0 t n0 n payload w r w' :
  plain (PDict payload) -> clean_saved_value (get payload "event") = "offline" -> ends_with_departure (event_mac payload) t0 w ->
  parse_time_safe (PStr t0) = Some n0 -> parse_time_safe (PStr t) = Some n -> Z.abs (n - n0) <= 300 ->
  push_device_event t payload w = (r, w') -> doc_read "events.json" (w_docs w') = doc_read "events.json" (w_docs w).
Proof.
  intros Hp Hev (l & d & Hl & D1 & D2 & D3) T0 T1 Hn Hr.
  destruct (departure_event _ _ _ _ _ Hp Hev Hr) as [[-> _]|(snap & ev & Ps & Pe & G1 & G2 & G3 & G4 & Hrun)]; [done|].
  rewrite prog_bind_eq in Hrun. cbn [load_json] in Hrun. rewrite Hl in Hrun. cbn [default from_option id] in Hrun.
  rewrite prog_bind_eq in Hrun. unfold lift at 1 in Hrun. cbn [py_reversed py_iter mbind result_bind mret result_ret] in Hrun.
  rewrite rev_app_distr in Hrun. cbn [rev app first_same same_event] in Hrun.
  rewrite D1, D2, G1, G2, String.eqb_refl in Hrun. rewrite prog_bind_eq in Hrun.
  change (py_eq (PStr "device_offline") (PStr "device_offline")) with true in Hrun. cbn [andb mbind result_bind lift dict_or_empty] in Hrun.
  assert (Hw : within 300 d t = true).
  { unfold within. cbn [first_of]. rewrite D3. unfold por. assert (Ht : truthy (PStr t0) = true).
    { unfold parse_time_safe in T0. by destruct (truthy (PStr t0)). }
    rewrite Ht, T0, T1. by apply Z.leb_le. }
  rewrite Hw in Hrun. cbn [andb record_event] in Hrun. rewrite prog_bind_eq in Hrun.
  destruct (upsert_watched_device_from_event _ _ _ w) as [o w1] eqn:Eu.
  rewrite <- (keeps_upsert_watched "events.json" _ _ _ eq_refl _ _ _ Eu). destruct o; by injection Hrun as _ <-.
Qed.

End Log.

(** A phone that leaves, and its next report four minutes later. *)
Definition leaves (rssi : string) : dict :=
  [("type", PStr "device_event"); ("event", PStr "offline"); ("mac", PStr "A4-C3-F0-11-22-33"); ("name", PStr "Phone");
   ("rssi", PStr rssi)].
Definition left_once : result response * world store := push_device_event "2023-11-15 06:13:20" (leaves "-60") demo_world.
Abbreviation left_twice := (push_device_event "2023-11-15 06:17:20" (leaves "-80") (later 240000 left_once.2)).

Lemma later_docs {S} ms (w : world S) : w_docs (later ms w) = w_docs w.
Proof. reflexivity. Qed.


(** ** Wake on LAN *)

Lemma result_map_forall {A B} (f : A -> result B) (P : B -> Prop) l l' :
  (forall a b, f a = Ok b -> P b) -> result_map f l = Ok l' -> List.Forall P l'.
Proof.
  intros Hf. revert l'. induction l as [|a l IH]; intros l'; cbn [result_map]; [by intros [= <-]|].
  destruct (f a) as [b|] eqn:Ea; [|done]. destruct (result_map f l) as [bs|]; [|done]. intros [= <-]. constructor; eauto.
Qed.

(** A packet is six bytes 255 and sixteen copies of the six bytes of the address: 102 bytes. *)
Lemma magic_packet_shape mac packet : build_magic_packet mac = Ok packet ->
  exists parts, packet = repeat_list 6 [255] ++ repeat_list 16 parts /\ List.length parts = 6%nat
    /\ List.length packet = 102%nat /\ List.Forall (fun b => 0 <= b < 256) packet.
Proof.
  unfold build_magic_packet. intros Hp. apply result_bind_ok in Hp as (parts & Hm & Hp).
  destruct (Nat.eqb_spec (List.length parts) 6) as [Hl|]; [|done]. injection Hp as <-. exists parts.
  assert (Hb : List.Forall (fun b => 0 <= b < 256) parts).
  { eapply result_map_forall; [|exact Hm]. intros x b. unfold mac_byte. destruct (int_of_hex x) as [n|]; [|done].
    case_match eqn:Hn; [|done]. intros [= <-]. lia. }
  split; [done|]. split; [done|]. split; [cbn [List.length]; rewrite !length_app, Hl; reflexivity|].
  do 6 (constructor; [lia|]). repeat (apply List.Forall_app; split; [exact Hb|]). constructor.
Qed.

Lemma magic_packet_example : exists packet,
  build_magic_packet "A4-C3-F0-11-22-33" = Ok packet /\ firstn 12 packet = [255; 255; 255; 255; 255; 255; 164; 195; 240; 17; 34; 51].
Proof. eexists. split; vm_compute; reflexivity. Qed.

(** ** The hook of Lucky *)

(** An address with a hyphen counts as an unfilled template, so a host name such as
    [vpn-home.example.org:51820] is never stored. *)
Lemma hyphenated_address_is_ignored text : contains "-" (lower (strip text)) = true -> clean_addr (PStr text) = "".
Proof.
  intros Ht. unfold clean_addr, str_or_empty. destruct (truthy (PStr text)) eqn:E.
  - cbn [py_str]. assert (Hx : existsb (fun b => contains b (lower (strip text))) lucky_placeholders = true); [|by rewrite Hx].
    apply List.existsb_exists. exists "-". split; [|done]. cbn. tauto.
  - done.
Qed.

Definition lucky_hook (content : string) : webhook :=
  Webhook (router_request [] (Some (PDict [("msgtype", PStr "text"); ("text", PDict [("content", PStr content)])]))) true [] [] "".

Lemma hyphenated_host_is_ignored :
  match (hook_lucky demo_env (lucky_hook "WireGuard：vpn-home.example.org:51820") demo_world) with
  | (Ok r, w) => get (dict_or_empty (rsp_body r)) "ignored" = PBool true /\ w_docs w = w_docs demo_world
  | _ => False
  end.
Proof. vm_compute. split; reflexivity. Qed.

Lemma numeric_address_is_stored :
  match (hook_lucky demo_env (lucky_hook "WireGuard：203.0.113.7:51820") demo_world) with
  | (Ok r, w) => get (dict_or_empty (get (document "vpn_stun_addresses.json" w) "wireguard")) "address" = PStr "203.0.113.7:51820"
  | _ => False
  end.
Proof. vm_compute. reflexivity. Qed.
