(* ===== verification/DeviceHistory.v ===== *)
(** * Device history

    The full device snapshots of the LabRelay: their acceptance, the transitions they cause,
    the daily rollups with their traffic counters, and the enriched daily summary
    ([device_history_patch.py]). *)

From S2P Require Import Prelude PyNum PyVal PyIp PyTime HubValues Json Storage Hub.
From S2P Require Import OnlineTime Daily HubNetwork Ipv6Records DeviceArchive Watched.

Definition rollup_retention_days : nat := 120.
Definition empty_confirmations : Z := 2.

(** [_integer]: [max(0, int(float(str(value).strip())))]; an infinity is not caught. *)
Definition integer (v : pyval) : result Z :=
  match float_of_str (strip (py_str v)) with
  | None => Ok 0
  | Some f => match int_of_float f with
              | Ok n => Ok (Z.max 0 n)
              | Err e => if String.eqb (exn_class e) "ValueError" then Ok 0 else Err e
              end
  end.

Definition device_map (rows : list pyval) : dict :=
  dict_of (omap (fun v => match v with
                          | PDict d => let mac := norm_mac (get d "mac") in
                                       if nonempty mac then Some (mac, v) else None
                          | _ => None
                          end) rows).

Definition traffic_counter (row : dict) (ks : list string) : result Z :=
  match List.find (fun k => has row k && negb (py_in (get row k) [PNone; PStr ""])) ks with
  | Some k => integer (get row k)
  | None => Ok 0
  end.

(** ** The counters of a day *)

(** The total after a sample: a smaller counter counts from zero again. *)
Definition advanced (last total current : Z) : Z :=
  if last <=? 0 then Z.max total current
  else if last <=? current then total + (current - last)
  else total + current.

Definition advance_counter (last_key total_key : string) (current : Z) (entry : dict) : result dict :=
  last ← integer (get entry last_key);
  total ← integer (get entry total_key);
  Ok (dset total_key (PInt (advanced last total current)) (dset last_key (PInt current) entry)).

Definition keep_text (d : pyval) (rest : string) : string := str_or (clean_saved_value d) rest.

(** The entry of a device that is online at [stamp]. *)
Definition online_entry (stamp mac : string) (dev entry : dict) : result dict :=
  let entry := dset "mac" (PStr mac) entry in
  let entry := dset "name" (PStr (keep_text (get dev "name") (keep_text (get entry "name") mac))) entry in
  let entry := dset "ip" (PStr (keep_text (first_of dev ["ip"; "lastIp"]) (clean_saved_value (get entry "ip")))) entry in
  let entry := dset "online" (PBool true) entry in
  let entry := dset "onlineSince" (PStr (keep_text (get dev "onlineSince") (keep_text (get entry "onlineSince") stamp))) entry in
  let entry := dset "firstSeenAt" (PStr (keep_text (get entry "firstSeenAt") stamp)) entry in
  let entry := dset "offlineAt" (PStr "") (dset "lastSeenAt" (PStr stamp) entry) in
  before ← integer (get entry "onlineDurationSec");
  today ← integer (get dev "todayOnlineDurationSec");
  let entry := dset "onlineDurationSec" (PInt (Z.max before today)) entry in
  upload ← traffic_counter dev ["todayUpload"; "dailyUpBytes"];
  download ← traffic_counter dev ["todayDownload"; "dailyDownBytes"];
  entry ← advance_counter "lastUploadCounter" "uploadBytes" upload entry;
  advance_counter "lastDownloadCounter" "downloadBytes" download entry.

(** The entry of a device that was online before and is not any more. *)
Definition offline_entry (stamp mac : string) (old entry : dict) : result dict :=
  let entry := dset "mac" (PStr mac) entry in
  let entry := dset "name" (PStr (keep_text (get old "name") (keep_text (get entry "name") mac))) entry in
  let entry := dset "ip" (PStr (keep_text (first_of old ["ip"; "lastIp"]) (clean_saved_value (get entry "ip")))) entry in
  let entry := dset "online" (PBool false) entry in
  let entry := dset "onlineSince" (PStr (keep_text (get old "onlineSince") (clean_saved_value (get entry "onlineSince")))) entry in
  let entry := dset "lastSeenAt" (PStr (keep_text (get old "lastSeenAt") (clean_saved_value (get entry "lastSeenAt")))) entry in
  let entry := dset "offlineAt" (PStr stamp) entry in
  before ← integer (get entry "onlineDurationSec");
  today ← integer (get old "todayOnlineDurationSec");
  Ok (dset "onlineDurationSec" (PInt (Z.max before today)) entry).

Fixpoint put_entries (f : string -> dict -> dict -> result dict) (rows entries : dict) : result dict :=
  match rows with
  | [] => Ok entries
  | (mac, dev) :: rest =>
      e ← f mac (dict_or_empty dev) (dict_or_empty (get entries mac));
      put_entries f rest (dset mac (PDict e) entries)
  end.

(** The rollup of a day after a snapshot. *)
Definition day_entries (stamp : string) (current previous entries : dict) : result dict :=
  entries ← put_entries (online_entry stamp) current entries;
  put_entries (offline_entry stamp) (List.filter (fun kv => negb (has current kv.1)) previous) entries.

(** ** The rollup document *)

Definition rollups_of (root : pyval) : dict :=
  let root := dict_or_empty root in
  [("version", PInt 2); ("days", PDict (dict_or_empty (get root "days"))); ("updatedAt", get_or root "updatedAt" (PStr ""))].

(** The days to drop: all but the last ones in the order of their names. *)
Definition old_days (days : dict) : list string :=
  let names := isort sleb (keys days) in firstn (List.length names - rollup_retention_days) names.

Definition trimmed_days (days : dict) : dict := fold_left (fun d k => ddel k d) (old_days days) days.

Definition saved_rollups (now : string) (root : dict) : dict :=
  dset "updatedAt" (PStr now) (dset "version" (PInt 2) (dset "days" (PDict (trimmed_days (dict_or_empty (get root "days")))) root)).

Definition day_row (day stamp : string) (entries row : dict) : dict :=
  dset "devices" (PDict entries) (dset "updatedAt" (PStr stamp) (dset "date" (PStr day) row)).

Definition count_of {A} (l : list A) : pyval := PInt (Z.of_nat (List.length l)).

Section History.
Context {S : Type} `{DocStore S} {tz : TimeZone} (E : env) (run : list string -> option string).

Definition load_rollups : hub S dict := root ← load_json "daily.json" (PDict []); mret (rollups_of root).

Definition save_rollups (root : dict) : hub S unit :=
  now ← now_str; save_json "daily.json" (PDict (saved_rollups now root)).

(** [_update_rollup]; [now] is the local time in seconds. *)
Definition update_rollup (online : list dict) (previous_online : dict) (now : Z) : hub S unit :=
  let day := format_date now in
  let stamp := format_datetime now in
  root ← load_rollups;
  let days := dict_or_empty (get root "days") in
  let row := dict_or_empty (get days day) in
  entries ← lift (day_entries stamp (device_map (List.map PDict online)) previous_online (dict_or_empty (get row "devices")));
  save_rollups (dset "days" (PDict (dset day (PDict (day_row day stamp entries row)) days)) root).

(** *** The health of the snapshots, in memory and in its document *)

Definition fresh_health : pyval := PDict [("emptyStreak", PInt 0); ("lastSnapshotAt", PStr ""); ("lastError", PStr "")].
Definition health : hub S dict := v ← mem_get "DURABLE_DEVICE_HISTORY" fresh_health; mret (dict_or_empty v).

Definition load_health : hub S unit :=
  root ← load_json "device_snapshot_health.json" (PDict []);
  match root with
  | PDict d =>
      streak ← lift (integer (get d "emptyStreak"));
      mem_set "DURABLE_DEVICE_HISTORY"
        (PDict [("emptyStreak", PInt streak); ("lastSnapshotAt", PStr (clean_saved_value (get d "lastSnapshotAt")));
                ("lastError", PStr (clean_saved_value (get d "lastError")))])
  | _ => mret tt
  end.

Definition set_streak (n : Z) : hub S unit :=
  h ← health; mem_set "DURABLE_DEVICE_HISTORY" (PDict (dset "emptyStreak" (PInt n) h)).

Definition save_health (accepted : bool) (count : Z) (error : string) : hub S unit :=
  now ← now_str;
  h ← health;
  let h := if nonempty error then dset "lastError" (PStr error) h
           else if accepted then dset "lastSnapshotAt" (PStr now) (dset "lastError" (PStr "") h) else h in
  _ ← mem_set "DURABLE_DEVICE_HISTORY" (PDict h);
  save_json "device_snapshot_health.json"
    (PDict [("accepted", PBool accepted); ("onlineDeviceCount", PInt count); ("emptyStreak", get h "emptyStreak");
            ("lastSnapshotAt", get h "lastSnapshotAt"); ("lastError", get h "lastError"); ("updatedAt", PStr now)]).

(** *** Transitions *)

Definition transition_event (online : bool) (stamp : string) (device previous : dict) : dict :=
  let name := keep_text (get device "name") (keep_text (get previous "name")
                (str_or (norm_mac (get device "mac")) "未知设备")) in
  let online_since := keep_text (get device "onlineSince") (keep_text (get previous "onlineSince") (if online then stamp else "")) in
  let offline_at := if online then "" else stamp in
  let duration := if online then ""
                  else str_or (duration_between (PStr online_since) (PStr offline_at))
                         (clean_saved_value (first_of previous ["todayOnlineDurationText"; "onlineDurationText"])) in
  let ip := clean_saved_value (por (first_of device ["ip"; "lastIp"]) (first_of previous ["ip"; "lastIp"])) in
  let either k := get_or device k (get previous k) in
  [("type", PStr (if online then "device_online" else "device_offline")); ("source", PStr "durable_device_snapshot");
   ("title", PStr (name +:+ " " +:+ (if online then "上线" else "离线"))); ("name", PStr name);
   ("mac", PStr (norm_mac (por (get device "mac") (get previous "mac")))); ("createdAt", PStr stamp); ("time", PStr stamp);
   ("ip", PStr ip); ("lastIp", PStr ip); ("rssi", either "rssi"); ("band", either "band"); ("rxrate", either "rxrate");
   ("ssid", either "ssid"); ("connectType", either "connectType"); ("onlineSince", PStr online_since);
   ("offlineAt", PStr offline_at); ("onlineDurationText", PStr duration);
   ("oldValue", PStr (if online then "offline" else "online")); ("newValue", PStr (if online then "online" else "offline"));
   ("device", PDict (if online then device else previous))].

Definition departed (stamp day : string) (old : dict) : result dict :=
  seconds ← integer (get old "todayOnlineDurationSec");
  Ok (dset "todayOnlineDate" (PStr (keep_text (get old "todayOnlineDate") day))
       (dset "todayOnlineDurationText" (PStr (keep_text (get old "todayOnlineDurationText") (human_duration (PInt seconds))))
         (dset "todayOnlineDurationSec" (PInt seconds)
           (dset "lastChangedAt" (PStr stamp)
             (dset "offlineAt" (PStr stamp)
               (dset "ip" PNone
                 (dset "lastIp" (PStr (clean_saved_value (first_of old ["ip"; "lastIp"])))
                   (dset "online" (PBool false) old)))))))).

Definition arrive (stamp : string) (previous_online : dict) (kv : string * pyval) : hub S unit :=
  if has previous_online kv.1 then mret tt
  else _ ← add_event (transition_event true stamp (dict_or_empty kv.2) []); mret tt.

Definition depart (stamp day : string) (current_online : dict) (kv : string * pyval) : hub S unit :=
  if has current_online kv.1 then mret tt
  else
    let old := dict_or_empty kv.2 in
    offline ← lift (departed stamp day old);
    _ ← add_event (transition_event false stamp offline old);
    archive_device_snapshot offline.

(** *** A snapshot *)

Fixpoint hydrate_online (stamp : string) (archive : dict) (online : list dict) : hub S (list dict) :=
  match online with
  | [] => mret []
  | dev :: rest =>
      current ← hydrate_device_with_archive dev archive;
      rest ← hydrate_online stamp archive rest;
      mret (dset "offlineAt" PNone (dset "lastSeenAt" (PStr stamp) (dset "online" (PBool true) current)) :: rest)
  end.

(** The devices of a snapshot: parsed and timed, or as the live sampler prepared them. *)
Definition snapshot_devices (now : Z) (payload : pyval) (prepared : option (list pyval * pyval)) : hub S (list dict * Z) :=
  match prepared with
  | None =>
      parsed ← lift (parse_ruijie_devices now payload);
      online ← update_daily_online_durations parsed.1 now;
      mret (online, parsed.2)
  | Some (rows, total) =>
      let online := omap (fun v => match v with PDict d => Some d | _ => None end) rows in
      n ← lift (integer total);
      mret (online, Z.max (Z.of_nat (List.length online)) n)
  end.

(** [hub.build_watched_devices]: the function of [hub.py], or the one [hub0934_fixes.py] puts in
    its place. *)
Context (build_watched : list dict -> hub S (list dict)).

(** The devices, the events and the archive after an accepted snapshot. *)
Definition accept_snapshot (now : Z) (payload : pyval) (online : list dict) (total : Z) (previous_online : dict)
    : hub S (list dict * list dict) :=
  let stamp := format_datetime now in
  let day := format_date now in
  _ ← try_except (text ← now_str; _ ← merge_ipv6_neighbors_to_archive E run (parse_ipv6_neighbors text payload) []; mret tt)
                 (fun _ => mret tt);
  archive ← load_device_archive;
  hydrated ← hydrate_online stamp archive online;
  hydrated ← attach_hub_local_ipv6_to_nas_devices E run hydrated;
  let current_online := device_map (List.map PDict hydrated) in
  _ ← for_each (arrive stamp previous_online) current_online;
  _ ← for_each (depart stamp day current_online) previous_online;
  _ ← for_each archive_device_snapshot hydrated;
  watched ← build_watched hydrated;
  let count := count_of hydrated in
  let rows l := PList (List.map PDict l) in
  _ ← save_json "devices.json"
        (PDict [("source", PStr "labrelay_durable_snapshot"); ("updatedAt", PStr stamp); ("onlineDeviceCount", count);
                ("total", PInt total); ("online", rows hydrated); ("watched", rows watched)]);
  state ← load_json "state.json" (PDict []);
  let state := setdefault "router" (PDict []) (dict_or_empty state) in
  router ← lift (match get state "router" with PDict d => Ok d | v => attribute_error v "update" end);
  let router := dupdate router
    [("name", PStr (primary_router_name E)); ("mode", PStr "labrelay_durable_snapshot"); ("onlineDeviceCount", count);
     ("total", PInt total); ("devicesUpdatedAt", PStr stamp)] in
  _ ← save_json "state.json"
        (PDict (dset "updatedAt" (PStr stamp) (dset "devices" (rows watched) (dset "router" (PDict router) state))));
  _ ← update_rollup hydrated previous_online now;
  mret (hydrated, watched).

(** The devices of a snapshot against those online before: deferred or accepted. *)
Definition judge_snapshot (now : Z) (payload : pyval) (online : list dict) (total : Z) : hub S dict :=
  previous_state ← load_json "devices.json" (PDict [("online", PList []); ("watched", PList []); ("updatedAt", PNone)]);
  let previous_online := device_map (list_or_empty (get (dict_or_empty previous_state) "online")) in
  h ← health;
  streak ← lift (py_int (get h "emptyStreak"));
  let empty := match online, previous_online with [], _ :: _ => true | _, _ => false end in
  _ ← set_streak (if empty then streak + 1 else 0);
  if empty && (streak + 1 <? empty_confirmations) then
    _ ← save_health false 0 "empty snapshot awaiting confirmation";
    mret [("accepted", PBool false); ("deferredEmpty", PBool true); ("emptyStreak", PInt (streak + 1));
          ("onlineDeviceCount", count_of previous_online)]
  else
    accepted ← accept_snapshot now payload online total previous_online;
    let '(hydrated, watched) := accepted in
    _ ← save_health true (Z.of_nat (List.length hydrated)) "";
    mret [("accepted", PBool true); ("onlineDeviceCount", count_of hydrated); ("watchedCount", count_of watched);
          ("updatedAt", PStr (format_datetime now))].

Definition local_now : hub S Z := fun w => (Ok (to_local (w_ms w / 1000)), w).

Definition ingest (payload : pyval) (prepared : option (list pyval * pyval)) : hub S dict :=
  now ← local_now;
  snap ← try_except (snapshot_devices now payload prepared)
           (fun e => _ ← save_health false 0 (exn_msg e); raise e);
  judge_snapshot now payload snap.1 snap.2.

(** ** The enriched summary *)

Definition day_devices (day : string) : hub S dict :=
  root ← load_rollups;
  mret (dict_or_empty (get (dict_or_empty (get (dict_or_empty (get root "days")) day)) "devices")).
End History.

(** The row of a device in the summary, over the row with its name. *)
Definition summary_row (mac name : string) (entry item : dict) : result dict :=
  seconds ← integer (get entry "onlineDurationSec");
  upload ← integer (get entry "uploadBytes");
  download ← integer (get entry "downloadBytes");
  up ← human_bytes (PInt upload);
  down ← human_bytes (PInt download);
  let duration := human_duration_precise (PInt seconds) in
  let traffic := "上传 " +:+ up +:+ " · 下载 " +:+ down in
  let ip := clean_saved_value (get entry "ip") in
  let details := (if nonempty duration then ["在线 " +:+ duration] else [])
                 ++ (if negb (upload =? 0) || negb (download =? 0) then [traffic] else [])
                 ++ (if nonempty ip then [ip] else []) in
  let transition := "上线 " +:+ py_str (get_or item "online" (PInt 0)) +:+ " 次 · 下线 "
                    +:+ py_str (get_or item "offline" (PInt 0)) +:+ " 次"
                    +:+ match details with [] => "" | _ => " · " +:+ join " · " details end in
  Ok (dupdate item
    [("mac", PStr mac); ("name", PStr name); ("onlineDurationSec", PInt seconds); ("onlineDurationText", PStr duration);
     ("todayUpload", PInt upload); ("todayDownload", PInt download); ("trafficText", PStr traffic);
     ("currentlyOnline", PBool (truthy (get entry "online")));
     ("onlineSince", PStr (clean_saved_value (get entry "onlineSince")));
     ("offlineAt", PStr (clean_saved_value (get entry "offlineAt")));
     ("lastSeenAt", PStr (clean_saved_value (get entry "lastSeenAt"))); ("lastIp", PStr ip);
     ("text", PStr (name +:+ String (chr 10) "" +:+ transition))]).

Record totals := { t_upload : Z; t_download : Z; t_active : Z }.

(** The rows by lower-case name and the totals, device by device. *)
Fixpoint summarize (rows by_name : dict) (t : totals) : result (dict * totals) :=
  match rows with
  | [] => Ok (by_name, t)
  | (mac, v) :: rest =>
      entry ← match v with PDict d => Ok d | x => attribute_error x "get" end;
      let name := keep_text (get entry "name") mac in
      let key := lower name in
      let item := dict_or_empty (get_or by_name key (PDict [("name", PStr name); ("online", PInt 0); ("offline", PInt 0)])) in
      upload ← integer (get entry "uploadBytes");
      download ← integer (get entry "downloadBytes");
      row ← summary_row mac name entry item;
      summarize rest (dset key (PDict row) by_name)
        {| t_upload := t_upload t + upload; t_download := t_download t + download;
           t_active := t_active t + Z.b2z (truthy (get entry "online")) |}
  end.

(** The sort key of a row: offline last, then by traffic, then by name. *)
Definition summary_key (v : pyval) : result (bool * Z * string) :=
  let item := dict_or_empty v in
  download ← integer (get item "todayDownload");
  upload ← integer (get item "todayUpload");
  Ok (negb (truthy (get item "currentlyOnline")), - download - upload, py_str (get_or item "name" (PStr ""))).

Definition summary_le (a b : bool * Z * string) : bool :=
  let '(offa, na, sa) := a in
  let '(offb, nb, sb) := b in
  if Bool.eqb offa offb then (na <? nb) || (na =? nb) && sleb sa sb else negb offa.

Definition sorted_rows (rows : list pyval) : result (list pyval) :=
  keyed ← result_map (fun v => k ← summary_key v; Ok (k, v)) rows;
  Ok (List.map snd (isort (fun a b => summary_le a.1 b.1) keyed)).

Definition rows_by_name (rows : list pyval) : dict :=
  dict_of (omap (fun v => match v with
                          | PDict item => let name := clean_saved_value (get item "name") in
                                          if nonempty name then Some (lower name, v) else None
                          | _ => None
                          end) rows).

Definition enriched (result : pyval) (day : string) (rows : dict) : Prelude.result pyval :=
  match rows with
  | [] => Ok result
  | _ =>
      result ← to_dict (por result (PDict []));
      sections ← to_dict (por (get result "sections") (PDict []));
      summed ← summarize rows (rows_by_name (list_or_empty (get sections "devices"))) {| t_upload := 0; t_download := 0; t_active := 0 |};
      let '(by_name, t) := summed in
      devices ← sorted_rows (List.map snd by_name);
      summary ← to_dict (por (get result "summary") (PDict []));
      let summary := dupdate summary
        [("trackedDevices", PInt (Z.of_nat (List.length rows))); ("activeDevices", PInt (t_active t));
         ("trafficUploadBytes", PInt (t_upload t)); ("trafficDownloadBytes", PInt (t_download t));
         ("hasDurableDeviceSnapshot", PBool true)] in
      Ok (PDict (dset "sections" (PDict (dset "devices" (PList devices) sections))
                  (dset "summary" (PDict summary) (dset "date" (PStr day) result))))
  end.

(** ** The handlers *)

Section Handlers.
Context {S : Type} `{DocStore S} {tz : TimeZone} (E : env) (run : list string -> option string).
Context (build_watched : list dict -> hub S (list dict)).

Definition enrich_daily (result : pyval) (day : string) : hub S pyval :=
  rows ← day_devices day; lift (enriched result day rows).

(** The summary that replaces [hub.aggregate_daily]. *)
Definition aggregate_daily_enriched (day : string) : hub S pyval :=
  d ← aggregate_daily day; enrich_daily d day.

Definition api_router_devices_snapshot (q : request) : hub S response :=
  if negb (check_hook_token E q) then mret (error_response 401 "bad agent token")
  else match q_json q with
       | None | Some PNone => mret (error_response 400 "empty snapshot")
       | Some payload =>
           try_except (result ← ingest E run build_watched payload None;
                       now ← now_str;
                       mret (Response 200 (PDict (dset "time" (PStr now) (dupdate [("ok", PBool true)] result)))))
             (fun e => now ← now_str;
                       mret (Response 400 (PDict [("ok", PBool false); ("error", PStr (exn_msg e)); ("time", PStr now)])))
       end.

Definition api_router_devices_snapshot_status (q : request) : hub S response :=
  ok ← lift (check_read_token E q);
  if negb ok then mret (error_response 401 "unauthorized")
  else h ← load_json "device_snapshot_health.json" (PDict []);
       mret (Response 200 (PDict (dupdate [("ok", PBool true)] (dict_or_empty h)))).
End Handlers.
