(* ===== verification/DeviceHistoryFacts.v ===== *)
(** * Facts about the device history

    The daily counters never exceed the traffic there was, a lone empty snapshot changes
    nothing, the rollups are bounded, and the totals of the enriched summary add up. *)

From S2P Require Import Prelude PyNum PyVal PyIp PyTime HubValues Json Storage Hub Fixtures.
From S2P Require Import OnlineTime Daily HubNetwork Ipv6Records DeviceArchive Watched DeviceHistory.

(** ** The counters

    A router counts the bytes of a device in a counter that a reboot sets to zero; the Hub
    samples it now and then.  [tr_used] is the traffic there really was. *)

Inductive traffic_event := Use (bytes : nat) | Reboot | Sample.

Record traffic := Traffic { tr_counter : Z; tr_used : Z; tr_last : Z; tr_total : Z }.

Definition traffic_step (s : traffic) (e : traffic_event) : traffic :=
  match e with
  | Use n => Traffic (tr_counter s + Z.of_nat n) (tr_used s + Z.of_nat n) (tr_last s) (tr_total s)
  | Reboot => Traffic 0 (tr_used s) (tr_last s) (tr_total s)
  | Sample => Traffic (tr_counter s) (tr_used s) (tr_counter s) (advanced (tr_last s) (tr_total s) (tr_counter s))
  end.

Definition traffic_run (l : list traffic_event) : traffic := fold_left traffic_step l (Traffic 0 0 0 0).

(** The bytes since the last sample are not in the total yet; without a reboot they are the
    growth of the counter. *)
Record traffic_inv (s : traffic) : Prop := {
  ti_counter : 0 <= tr_counter s;
  ti_last : 0 <= tr_last s;
  ti_bound : tr_total s + (if tr_last s <=? tr_counter s then tr_counter s - tr_last s else tr_counter s) <= tr_used s;
  ti_total : 0 <= tr_total s <= tr_used s;
  ti_seen : tr_counter s <= tr_used s;
}.

Lemma traffic_step_inv s e : traffic_inv s -> traffic_inv (traffic_step s e).
Proof.
  intros [H1 H2 H3 H4 H5]. destruct e as [n| |]; constructor; cbn; try lia.
  - revert H3. destruct (Z.leb_spec (tr_last s) (tr_counter s)), (Z.leb_spec (tr_last s) (tr_counter s + Z.of_nat n)); lia.
  - destruct (Z.leb_spec (tr_last s) 0); lia.
  - unfold advanced. rewrite Z.leb_refl. destruct (Z.leb_spec (tr_last s) 0); [lia|].
    revert H3. destruct (Z.leb_spec (tr_last s) (tr_counter s)); lia.
  - unfold advanced. destruct (Z.leb_spec (tr_last s) 0); [lia|].
    revert H3. destruct (Z.leb_spec (tr_last s) (tr_counter s)); lia.
Qed.

Lemma traffic_run_inv l : traffic_inv (traffic_run l).
Proof.
  unfold traffic_run. assert (traffic_inv (Traffic 0 0 0 0)) as H by (constructor; cbn; lia). revert H.
  generalize (Traffic 0 0 0 0). induction l as [|e l IH]; intros s Hs; [done|]. cbn. apply IH. by apply traffic_step_inv.
Qed.

Definition is_reboot (e : traffic_event) : bool := match e with Reboot => true | _ => false end.

(** Until the first reboot the total is the counter at the last sample. *)
Lemma steady_run l :
  existsb is_reboot l = false ->
  tr_total (traffic_run l) = tr_last (traffic_run l) /\ tr_counter (traffic_run l) = tr_used (traffic_run l)
  /\ tr_last (traffic_run l) <= tr_counter (traffic_run l).
Proof.
  unfold traffic_run.
  assert (forall s, tr_total s = tr_last s /\ tr_counter s = tr_used s /\ 0 <= tr_last s <= tr_counter s ->
            existsb is_reboot l = false ->
            tr_total (fold_left traffic_step l s) = tr_last (fold_left traffic_step l s)
            /\ tr_counter (fold_left traffic_step l s) = tr_used (fold_left traffic_step l s)
            /\ tr_last (fold_left traffic_step l s) <= tr_counter (fold_left traffic_step l s)) as H.
  { induction l as [|e l IH]; intros s Hs Hl; [cbn; lia|]. cbn in Hl |- *. apply orb_false_iff in Hl as [He Hl].
    apply IH; [|done]. destruct e as [n| |]; [cbn; lia|done|]. cbn. unfold advanced.
    destruct (Z.leb_spec (tr_last s) 0), (Z.leb_spec (tr_last s) (tr_counter s)); lia. }
  intros Hl. apply H; [cbn; lia|done].
Qed.


(** A sample that reads zero after a reboot: the traffic up to the next sample is lost. *)
Example zero_sample_loses_traffic :
  let s := traffic_run [Use 100; Sample; Reboot; Sample; Use 50; Sample] in
  tr_used s = 150 /\ tr_total s = 100.
Proof. vm_compute. done. Qed.

(** ** A lone empty snapshot *)

Section Empty.
Context {S : Type} `{DocStoreLaws S} {tz : TimeZone} (E : env) (run : list string -> option string).
Context (build : list dict -> hub S (list dict)) (k : string).

Lemma keeps_update_daily devices now : k <> "daily_online.json" -> keeps k (update_daily_online_durations devices now).
Proof. intros Hk. unfold update_daily_online_durations. solve_keeps. Qed.

Lemma keeps_snapshot_devices now payload prepared :
  k <> "daily_online.json" -> keeps k (snapshot_devices now payload prepared).
Proof.
  intros Hk. unfold snapshot_devices. destruct prepared as [[rows total]|]; repeat first
    [apply keeps_update_daily; done | progress solve_keeps].
Qed.

Lemma keeps_save_health accepted count error :
  k <> "device_snapshot_health.json" -> keeps k (save_health accepted count error).
Proof. intros Hk. unfold save_health, health. solve_keeps. Qed.

(** The devices online before, and the number of empty snapshots in a row, in a state of the Hub. *)
Definition online_before (w : world S) : dict :=
  device_map (list_or_empty (get (dict_or_empty (default (PDict []) (doc_read "devices.json" (w_docs w)))) "online")).
Definition empty_streak (w : world S) : pyval :=
  get (dict_or_empty (default fresh_health (w_mem w !! "DURABLE_DEVICE_HISTORY"))) "emptyStreak".

Lemma snapshot_devices_mem now payload prepared (w w' : world S) r :
  snapshot_devices now payload prepared w = (Ok r, w') -> w_mem w' = w_mem w.
Proof.
  unfold snapshot_devices. destruct prepared as [[rows total]|]; intros Hr.
  - apply prog_bind_ok in Hr as (n & w1 & [= _ <-] & [= _ <-]). done.
  - apply prog_bind_ok in Hr as (parsed & w1 & [= _ <-] & Hr). apply prog_bind_ok in Hr as (online & w2 & Hu & [= _ <-]).
    unfold update_daily_online_durations in Hu. apply prog_bind_ok in Hu as (doc & w3 & [= _ <-] & Hu).
    apply prog_bind_ok in Hu as (text & w4 & [= _ <-] & Hu). apply prog_bind_ok in Hu as ([] & w5 & Hs & [= _ <-]).
    unfold save_json in Hs. destruct (doc_save _ _ _ _) as [[s rev]|]; [|done]. by injection Hs as <-.
Qed.

Definition touched_by_empty : list string := ["daily_online.json"; "device_snapshot_health.json"].

Lemma keeps_set_streak n : keeps k (set_streak n).
Proof. unfold set_streak, health. solve_keeps. Qed.

Lemma judge_empty now payload total (w w' : world S) r :
  online_before w <> [] -> empty_streak w = PInt 0 -> k <> "device_snapshot_health.json" ->
  judge_snapshot E run build now payload [] total w = (r, w') ->
  doc_read k (w_docs w') = doc_read k (w_docs w)
  /\ (forall d, r = Ok d -> get d "accepted" = PBool false /\ get d "deferredEmpty" = PBool true).
Proof.
  intros Hb Hs Hk. unfold judge_snapshot. rewrite prog_bind_eq. cbv beta zeta iota delta [load_json].
  assert (device_map (list_or_empty (get (dict_or_empty (default
            (PDict [("online", PList []); ("watched", PList []); ("updatedAt", PNone)]) (doc_read "devices.json" (w_docs w)))) "online"))
          = online_before w) as ->.
  { unfold online_before. by destruct (doc_read "devices.json" (w_docs w)). }
  rewrite prog_bind_eq. unfold health at 1. rewrite prog_bind_eq. unfold mem_get at 1. cbn [mret prog_ret].
  change (get (dict_or_empty (default fresh_health (w_mem w !! "DURABLE_DEVICE_HISTORY"))) "emptyStreak") with (empty_streak w).
  rewrite Hs. rewrite prog_bind_eq. cbn [lift py_int]. destruct (online_before w) as [|kv previous]; [done|].
  cbn [andb]. rewrite prog_bind_eq. destruct (set_streak (0 + 1) w) as [[[]|e] w2] eqn:E2;
    assert (doc_read k (w_docs w2) = doc_read k (w_docs w)) as H2 by (by eapply keeps_set_streak in E2).
  2:{ intros [= <- <-]. by split. }
  change (0 + 1 <? empty_confirmations) with true. cbv iota. rewrite prog_bind_eq.
  destruct (save_health _ _ _ w2) as [[[]|e] w3] eqn:E3;
    (assert (doc_read k (w_docs w3) = doc_read k (w_docs w2)) as H3 by (by eapply keeps_save_health in E3)).
  - intros [= <- <-]. split; [congruence|]. by intros d [= <-].
  - intros [= <- <-]. split; [congruence|done].
Qed.
End Empty.

(** A single snapshot without devices is not believed: while devices were online and the
    snapshot before was not empty, it changes no document but the online times of the day and
    the health of the snapshots, and the answer is that it was deferred. *)
Theorem empty_snapshot_is_deferred {S : Type} `{DocStoreLaws S} {tz : TimeZone} E run build payload prepared (w w1 w' : world S) total r k :
  snapshot_devices (to_local (w_ms w / 1000)) payload prepared w = (Ok ([], total), w1) ->
  online_before w <> [] -> empty_streak w = PInt 0 ->
  ingest E run build payload prepared w = (r, w') -> str_in k touched_by_empty = false ->
  doc_read k (w_docs w') = doc_read k (w_docs w)
  /\ (forall d, r = Ok d -> get d "accepted" = PBool false /\ get d "deferredEmpty" = PBool true).
Proof.
  intros Hs Hb Hstreak Hi Hk. apply orb_false_iff in Hk as [Hk1%String.eqb_neq Hk2].
  apply orb_false_iff in Hk2 as [Hk2%String.eqb_neq _].
  assert (forall k', k' <> "daily_online.json" -> doc_read k' (w_docs w1) = doc_read k' (w_docs w)) as Hdocs.
  { intros k' Hk'. by apply (keeps_snapshot_devices k' _ _ _ Hk') in Hs. }
  assert (online_before w1 = online_before w) as Hb1 by (unfold online_before; by rewrite Hdocs).
  assert (empty_streak w1 = empty_streak w) as He1 by (unfold empty_streak; by rewrite (snapshot_devices_mem _ _ _ _ _ _ Hs)).
  revert Hi. unfold ingest. rewrite prog_bind_eq. cbn [local_now]. rewrite prog_bind_eq. unfold try_except at 1. rewrite Hs.
  cbn [fst snd]. intros Hj. apply (judge_empty E run build k) in Hj as [Hk' Hr]; [|by rewrite Hb1|by rewrite He1|done].
  split; [|done]. by rewrite Hk', Hdocs.
Qed.

Definition no_commands : list string -> option string := fun _ => None.

(** A Hub with one phone online, and a snapshot without devices. *)
Definition phone_row : dict := [("mac", PStr "a4:c3:f0:11:22:33"); ("name", PStr "Phone"); ("online", PBool true)].
Definition phone_world : world store :=
  Fixtures.run (save_json "devices.json" (PDict [("online", PList [PDict phone_row]); ("watched", PList [])])) demo_world.
Definition no_devices : pyval := PDict [("list", PList [])].
Definition parsed_empty : result (list dict * Z) * world store :=
  snapshot_devices (to_local (w_ms phone_world / 1000)) no_devices None phone_world.
Definition first_empty : result dict * world store := ingest demo_env no_commands (build_watched_devices demo_env) no_devices None phone_world.

Lemma empty_snapshot_is_deferred_witness :
  doc_read "devices.json" (w_docs (snd first_empty)) = doc_read "devices.json" (w_docs phone_world).
Proof.
  apply (empty_snapshot_is_deferred demo_env no_commands (build_watched_devices demo_env) no_devices None phone_world (snd parsed_empty) (snd first_empty) 0
           (fst first_empty) "devices.json").
  - change (parsed_empty = (Ok ([], 0), snd parsed_empty)).
    assert (fst parsed_empty = Ok ([], 0)) as <- by (vm_compute; reflexivity). apply surjective_pairing.
  - vm_compute. discriminate.
  - vm_compute. reflexivity.
  - apply surjective_pairing.
  - reflexivity.
Defined.

(** ** The totals of the summary *)

Definition bytes_of (k : string) (v : pyval) : Z := catch (integer (get (dict_or_empty v) k)) 0.
Definition sum_of (f : pyval -> Z) (rows : dict) : Z := fold_right (fun kv n => f kv.2 + n) 0 rows.
Definition is_online (v : pyval) : Z := Z.b2z (truthy (get (dict_or_empty v) "online")).

Lemma summarize_totals rows by_name t by_name' t' :
  summarize rows by_name t = Ok (by_name', t') ->
  t_upload t' = t_upload t + sum_of (bytes_of "uploadBytes") rows
  /\ t_download t' = t_download t + sum_of (bytes_of "downloadBytes") rows
  /\ t_active t' = t_active t + sum_of is_online rows.
Proof.
  revert by_name t. induction rows as [|[mac v] rest IH]; intros by_name t Hs; [injection Hs as _ <-; cbn; lia|].
  cbn [summarize] in Hs. apply result_bind_ok in Hs as (entry & He & Hs).
  assert (v = PDict entry) as -> by (destruct v; by simplify_eq).
  apply result_bind_ok in Hs as (upload & Hu & Hs). apply result_bind_ok in Hs as (download & Hd & Hs).
  apply result_bind_ok in Hs as (row & _ & Hs). apply IH in Hs. cbn in Hs.
  cbn [sum_of fold_right snd]. unfold bytes_of at 1 3, is_online at 1. cbn [dict_or_empty]. rewrite Hu, Hd. cbn [catch].
  unfold sum_of in Hs. lia.
Qed.

(** The enriched summary of a day counts every tracked device once: the devices that are
    online, the bytes sent and the bytes received are the sums over the entries of the rollup. *)
Theorem enriched_totals result day rows out :
  enriched result day rows = Ok (PDict out) -> rows <> [] ->
  let summary := dict_or_empty (get out "summary") in
  get summary "trackedDevices" = PInt (Z.of_nat (List.length rows))
  /\ get summary "activeDevices" = PInt (sum_of is_online rows)
  /\ get summary "trafficUploadBytes" = PInt (sum_of (bytes_of "uploadBytes") rows)
  /\ get summary "trafficDownloadBytes" = PInt (sum_of (bytes_of "downloadBytes") rows)
  /\ get out "date" = PStr day.
Proof.
  intros He Hne. unfold enriched in He. destruct rows as [|kv rest]; [done|]. set (rows := kv :: rest) in *.
  apply result_bind_ok in He as (res & _ & He). apply result_bind_ok in He as (sections & _ & He).
  apply result_bind_ok in He as ([by_name t] & Hs & He). apply result_bind_ok in He as (devices & _ & He).
  apply result_bind_ok in He as (summary & _ & [= <-]). apply summarize_totals in Hs as (Hu & Hd & Ha).
  cbn in Hu, Hd, Ha. rewrite Hu, Hd, Ha. rewrite !get_dset_ne, !get_dset_eq by done. cbn [dict_or_empty].
  cbn [dupdate fold_left fst snd]. repeat split; rewrite ?get_dset_ne by done; by rewrite get_dset_eq.
Qed.

Definition two_phones : dict :=
  [("a4:c3:f0:11:22:33", PDict [("name", PStr "iPhone"); ("online", PBool true); ("uploadBytes", PInt 10)]);
   ("a4:c3:f0:44:55:66", PDict [("name", PStr "iphone"); ("online", PBool true); ("uploadBytes", PInt 32)])].
Definition two_phones_day : dict := dict_or_empty (catch (enriched (PDict []) "2024-05-28" two_phones) PNone).

Lemma enriched_totals_witness : get (dict_or_empty (get two_phones_day "summary")) "trafficUploadBytes" = PInt 42.
Proof.
  refine (eq_trans (proj1 (proj2 (proj2 (enriched_totals (PDict []) "2024-05-28" two_phones two_phones_day _ _)))) _);
    [vm_compute; reflexivity|discriminate|vm_compute; reflexivity].
Defined.

(** Two devices with one name share one row, which shows the second one only. *)
Example one_row_per_name :
  List.length (list_or_empty (get (dict_or_empty (get two_phones_day "sections")) "devices")) = 1%nat.
Proof. vm_compute. reflexivity. Qed.

(** ** The rollups kept *)

Lemma keys_ddel k d : nodup_keys d -> keys (ddel k d) = List.filter (fun x => negb (String.eqb x k)) (keys d).
Proof.
  unfold nodup_keys. induction d as [|[k0 v0] d IH]; intros Hd; [done|]. inversion Hd as [|? ? Hn Hd']; subst.
  cbn [ddel keys List.map List.filter fst]. rewrite (String.eqb_sym k0 k). destruct (String.eqb_spec k k0) as [->|]; cbn [negb].
  - clear IH Hd Hd'. revert Hn. fold (keys d). generalize (keys d) as l. induction l as [|x l IHl]; intros Hn; [done|].
    cbn [List.filter]. destruct (String.eqb_spec x k0) as [->|]; [destruct Hn; by left|].
    cbn [negb]. f_equal. apply IHl. intros Hx. apply Hn. by right.
  - cbn [keys List.map fst]. f_equal. by apply IH.
Qed.

Lemma keys_del_keys ks d :
  nodup_keys d -> keys (fold_left (fun d k => ddel k d) ks d) = List.filter (fun x => negb (str_in x ks)) (keys d).
Proof.
  revert d. induction ks as [|k ks IH]; intros d Hd; cbn [fold_left].
  - induction (keys d) as [|x l IHl]; [done|]. cbn. by f_equal.
  - rewrite IH by by apply nodup_ddel. rewrite keys_ddel by done. clear.
    induction (keys d) as [|x l IHl]; [done|]. cbn [List.filter str_in existsb].
    destruct (String.eqb x k); cbn [negb orb]; [done|]. cbn [List.filter]. rewrite IHl. done.
Qed.

(** A saved rollup document holds at most 120 days, and they are the last ones: every day it
    drops comes before every day it keeps. *)
Theorem rollups_keep_last_days days :
  nodup_keys days ->
  (List.length (trimmed_days days) <= rollup_retention_days)%nat
  /\ forall kept dropped, In kept (keys (trimmed_days days)) -> In dropped (keys days) -> ~ In dropped (keys (trimmed_days days)) ->
     sleb dropped kept = true /\ In kept (keys days).
Proof.
  intros Hd. assert (keys (trimmed_days days) = List.filter (fun x => negb (str_in x (old_days days))) (keys days)) as Hk
    by by apply keys_del_keys.
  set (names := isort sleb (keys days)). set (n := (List.length names - rollup_retention_days)%nat).
  assert (Permutation names (keys days)) as Hp by apply isort_perm.
  assert (names = old_days days ++ skipn n names) as Hn by (symmetry; apply firstn_skipn).
  assert (forall x, In x (keys days) -> In x (old_days days) \/ In x (skipn n names)) as Hcase.
  { intros x Hx. apply in_app_iff. rewrite <- Hn. by eapply Permutation_in; [symmetry|]. }
  assert (StronglySorted (fun a b => sleb a b = true) names) as Hs.
  { apply isort_ordered; [apply sleb_total|apply sleb_trans]. }
  assert (forall x, In x (keys (trimmed_days days)) <-> In x (keys days) /\ ~ In x (old_days days)) as Hin.
  { intros x. rewrite Hk, filter_In, negb_true_iff, <- not_true_iff_false, str_in_spec. done. }
  split.
  - assert (List.length (trimmed_days days) = List.length (keys (trimmed_days days))) as -> by (unfold keys; by rewrite length_map).
    transitivity (List.length (skipn n names)); [|rewrite length_skipn; unfold n; lia].
    apply NoDup_incl_length; [rewrite Hk; by apply List.NoDup_filter|]. intros x [Hx Hnot]%Hin.
    by destruct (Hcase x Hx).
  - intros kept dropped [Hkept Hnk]%Hin Hdr Hnd. split; [|done]. destruct (Hcase kept Hkept) as [?|Hkept']; [done|].
    destruct (in_dec string_dec dropped (old_days days)) as [Hold|Hold]; [|destruct Hnd; by apply Hin].
    rewrite Hn in Hs. clear -Hs Hold Hkept'. induction (old_days days) as [|x l IH]; [done|].
    inversion Hs as [|? ? Hs' Hf]; subst. destruct Hold as [->|Hold]; [|by apply IH].
    eapply List.Forall_forall in Hf; [done|]. apply in_app_iff. by right.
Qed.

Lemma rollups_keep_last_days_witness :
  (List.length (trimmed_days [("2024-05-27", PDict []); ("2024-05-28", PDict [])]) <= 120)%nat.
Proof. apply rollups_keep_last_days. vm_compute. repeat constructor; cbn; intuition discriminate. Defined.
