(* ===== verification/CanonicalDevices.v ===== *)
(** * Canonical device records

    The watched devices built from one record per MAC address, and the handlers that show them
    ([hub0934_fixes.py]).  [canonical_watched_devices] replaces [hub.build_watched_devices] when
    the Hub starts. *)

From S2P Require Import Prelude PyNum PyVal PyIp PyTime HubValues Json Storage Hub AgentCmd Fixtures.
From S2P Require Import HubNetwork Ipv6Records DeviceArchive DeviceFacts Watched DeviceHistory.

(** A newer value replaces an older one unless it is blank; switches and zeros are not blank. *)
Definition keeps_value (v : pyval) : bool :=
  negb (is_blank v) || (match v with PBool _ => true | _ => false end) || py_eq v (PInt 0).

Definition overlay_non_empty (base overlay : dict) : dict :=
  fold_left (fun out kv => if keeps_value kv.2 || negb (has out kv.1) then dset kv.1 kv.2 out else out) overlay base.

(** [_device_map], with its copies. *)
Definition devices_by_mac (rows : pyval) : dict := device_map (list_or_empty rows).

(** The record of a watched device that is online, from its older record. *)
Definition canonical_online (now : string) (online row : dict) : dict :=
  let row := overlay_non_empty row online in
  let row := dset "offlineAt" PNone (dset "online" (PBool true) row) in
  let row := dset "lastSeenAt" (PStr (str_or (clean_saved_value (get online "lastSeenAt")) now)) row in
  if is_blank (get row "onlineSince") then dset "onlineSince" (PStr now) row else row.

Definition canonical_offline (row : dict) : dict :=
  let row := dset "online" (PBool false) row in
  let row := dset "ip" PNone (dset "lastIp" (PStr (clean_saved_value (first_of row ["lastIp"; "ip"]))) row) in
  let row := dset "offlineAt" (PStr (clean_saved_value (first_of row ["offlineAt"; "archivedAt"]))) row in
  dset "lastSeenAt" (PStr (str_or (clean_saved_value (get row "lastSeenAt")) (py_str (get row "offlineAt")))) row.

(** The record before it is completed from the archive. *)
Definition canonical_row (now mac : string) (config base : dict) (online : option dict) : dict :=
  let row := match online with Some d => canonical_online now d base | None => canonical_offline base end in
  let row := dset "mac" (PStr mac) row in
  let alias := clean_saved_value (get config "name") in
  if nonempty alias then dset "name" (PStr alias) row else row.

Section Canonical.
Context {S : Type} `{DocStore S} {tz : TimeZone} (E : env).

Fixpoint canonical_all (archive previous online : dict) (configured : list pyval) : hub S (list dict) :=
  match configured with
  | [] => mret []
  | PDict config :: rest =>
      let mac := norm_mac (get config "mac") in
      if negb (nonempty mac) then canonical_all archive previous online rest
      else
        overlay ← lift (match por (get_or archive mac (PDict [])) (PDict []) with PDict d => Ok d | v => attribute_error v "items" end);
        now ← now_str;
        let base := overlay_non_empty (dict_or_empty (get previous mac)) overlay in
        let found := if has online mac then Some (dict_or_empty (get online mac)) else None in
        row ← hydrate_device_with_archive (canonical_row now mac config base found) archive;
        rows ← canonical_all archive previous online rest;
        mret (row :: rows)
  | _ :: rest => canonical_all archive previous online rest
  end.

Definition canonical_watched_devices (online_devices : list pyval) : hub S (list dict) :=
  let configured := por (cfg_get E "watched_devices" (PList [])) (PList []) in
  state ← load_json "devices.json" (PDict []);
  archive ← load_device_archive;
  canonical_all archive (devices_by_mac (get (dict_or_empty state) "watched")) (device_map online_devices)
    (list_or_empty configured).

(** What replaces [hub.build_watched_devices]. *)
Definition build_canonical (online : list dict) : hub S (list dict) := canonical_watched_devices (List.map PDict online).

(** The devices of a sync snapshot: [root] is what the original [build_sync_snapshot] returned. *)
Definition sync_devices (root : dict) : hub S dict :=
  let devices := dict_or_empty (get root "devices") in
  let online := list_or_empty (get devices "online") in
  archive ← load_device_archive;
  watched ← canonical_watched_devices online;
  macs ← lift (result_map (fun v => match v with PDict d => Ok d | v => attribute_error v "get" end) online);
  offline ← archived_offline_devices macs archive;
  let rows l := PList (List.map PDict l) in
  mret (dset "devices" (PDict (dset "watched" (rows watched) (dset "offline" (rows offline) (dset "online" (PList online) devices)))) root).

Definition shown_devices (q : request) (online : list pyval) (archive : dict) : hub S (list pyval) :=
  let view := match q_arg q "view" with Some v => v | None => "watched" end in
  if String.eqb view "online" then mret online
  else if String.eqb view "offline" then
    rows ← archived_offline_devices (List.map dict_or_empty online) archive; mret (List.map PDict rows)
  else rows ← canonical_watched_devices online; mret (List.map PDict rows).

(** How many archived devices have an IPv6 address. *)
Definition ipv6_count (archive : dict) : result Z :=
  counts ← result_map (fun kv => l ← vget kv.2 "ipv6List";
                                 mret (match normalize_ipv6_list (por l (PList [])) with [] => 0 | _ => 1 end)) archive;
  mret (fold_right Z.add 0 counts).

Definition api_devices (q : request) : hub S response :=
  allowed ← lift (check_read_token E q);
  if negb allowed then mret unauthorized
  else
    state ← load_json "devices.json" (PDict [("online", PList []); ("watched", PList []); ("updatedAt", PNone)]);
    archive ← load_device_archive;
    rows ← lift (vget_or state "online" (PList []));
    items ← lift (py_iter (por rows (PList [])));
    online ← hydrate_all archive items;
    shown ← shown_devices q online archive;
    let d := dict_or_empty state in
    n ← lift (ipv6_count archive);
    mret (Response 200 (PDict
      [("ok", PBool true); ("updatedAt", get d "updatedAt"); ("devices", PList shown);
       ("onlineDeviceCount", get_or d "onlineDeviceCount" (PInt (Z.of_nat (List.length online))));
       ("ipv6Hydrated", PBool true); ("ipv6NeighborCount", PInt n)])).

(** Once at start-up: a stale list of watched devices is rebuilt. *)
Definition repair_watched : hub S unit :=
  state ← load_json "devices.json" (PDict [("online", PList []); ("watched", PList []); ("updatedAt", PNone)]);
  match state with
  | PDict d =>
      repaired ← canonical_watched_devices (list_or_empty (get d "online"));
      let rows := PList (List.map PDict repaired) in
      if py_eq rows (PList (list_or_empty (get d "watched"))) then mret tt
      else now ← now_str;
           save_json "devices.json" (PDict (dset "updatedAt" (PStr now) (dset "watched" rows d)))
  | _ => mret tt
  end.
End Canonical.

(** ** Facts *)

Definition configured_macs (configured : list pyval) : list string :=
  omap (fun v => match v with
                 | PDict config => let mac := norm_mac (get config "mac") in if nonempty mac then Some mac else None
                 | _ => None
                 end) configured.

Lemma get_canonical_row now mac config base online k :
  k = "mac" \/ k = "online" -> get (canonical_row now mac config base online) k =
  if String.eqb k "mac" then PStr mac else PBool (match online with Some _ => true | None => false end).
Proof.
  intros Hk. unfold canonical_row. set (row := match online with Some d => _ | None => _ end).
  assert (get row "online" = PBool (match online with Some _ => true | None => false end)) as Ho.
  { unfold row. destruct online as [d|]; unfold canonical_online, canonical_offline.
    - destruct (is_blank _); rewrite ?get_dset_ne by done; by rewrite get_dset_eq.
    - by rewrite !get_dset_ne, get_dset_eq by done. }
  destruct (nonempty (clean_saved_value (get config "name"))), Hk as [-> | ->]; cbn [String.eqb Ascii.eqb Bool.eqb];
    rewrite ?(get_dset_ne "name") by done; rewrite ?get_dset_eq, ?(get_dset_ne "mac") by done; done.
Qed.

Section Facts.
Context {S : Type} `{DocStore S} {tz : TimeZone} (E : env).

Lemma canonical_all_rows archive previous online configured (w w' : world S) rows :
  canonical_all archive previous online configured w = (Ok rows, w') ->
  w' = w /\ Forall2 (fun mac row => get row "mac" = PStr mac /\ get row "online" = PBool (has online mac))
              (configured_macs configured) rows.
Proof.
  revert w w' rows. induction configured as [|v configured IH]; intros w w' rows; cbn [canonical_all configured_macs omap list_omap].
  { by intros [= <- <-]. }
  destruct v as [| | | | | |config]; try apply IH. cbv zeta.
  destruct (nonempty (norm_mac (get config "mac"))) eqn:Hm; cbn [negb]; [|apply IH]. intros Hr.
  apply prog_bind_ok in Hr as (overlay & w1 & Ho & Hr). injection Ho as _ <-.
  apply prog_bind_ok in Hr as (now & w1 & [= <- <-] & Hr).
  apply prog_bind_ok in Hr as (row & w1 & Hh & Hr). apply hydrate_get in Hh as (-> & Hmac & Hon).
  apply prog_bind_ok in Hr as (rest & w1 & Hrest & [= <- <-]). apply IH in Hrest as [-> Hrest].
  split; [done|]. constructor; [|exact Hrest]. rewrite Hmac, Hon, !get_canonical_row by auto.
  cbn [String.eqb Ascii.eqb Bool.eqb]. split; [done|]. by destruct (has online _).
Qed.

(** The watched devices are the configured ones, one row each in their order, and a row is
    online exactly when the list of online devices has its MAC address. *)
Theorem watched_rows_are_configured online (w w' : world S) rows :
  canonical_watched_devices E online w = (Ok rows, w') ->
  w' = w /\ Forall2 (fun mac row => get row "mac" = PStr mac /\ get row "online" = PBool (has (device_map online) mac))
              (configured_macs (list_or_empty (por (cfg_get E "watched_devices" (PList [])) (PList [])))) rows.
Proof.
  intros Hr. apply prog_bind_ok in Hr as (state & w1 & [= <- <-] & Hr).
  apply prog_bind_ok in Hr as (archive & w1 & Ha & Hr). unfold load_device_archive in Ha.
  apply prog_bind_ok in Ha as (raw & w2 & [= <- <-] & [= <- <-]). by eapply canonical_all_rows.
Qed.
End Facts.

(** A blank value never erases what is known. *)
Lemma overlay_keeps base overlay k :
  nodup_keys overlay -> has base k = true ->
  get (overlay_non_empty base overlay) k
  = if has overlay k && keeps_value (get overlay k) then get overlay k else get base k.
Proof.
  unfold overlay_non_empty, nodup_keys. revert base. induction overlay as [|[k0 v0] overlay IH]; intros base Hn Hb; [done|].
  inversion Hn as [|? ? Hnotin Hn']; subst. cbn [fold_left fst snd].
  assert (has (if keeps_value v0 || negb (has base k0) then dset k0 v0 base else base) k = true) as Hb'
    by (destruct (_ || _); [rewrite has_dset, Hb; by rewrite orb_true_r|done]).
  rewrite IH by done.
  assert (has ((k0, v0) :: overlay) k = String.eqb k k0 || has overlay k) as ->
    by (unfold has; cbn [dget]; by destruct (String.eqb k k0)).
  assert (get ((k0, v0) :: overlay) k = if String.eqb k k0 then v0 else get overlay k) as ->
    by (unfold get; cbn [dget]; by destruct (String.eqb k k0)).
  destruct (String.eqb_spec k k0) as [->|Hne]; cbn [orb andb].
  - assert (has overlay k0 = false) as ->.
    { unfold has. by assert (dget overlay k0 = None) as -> by by apply dget_None_keys. }
    rewrite Hb. cbn [negb andb]. rewrite orb_false_r. destruct (keeps_value v0); [by rewrite get_dset_eq|done].
  - destruct (has overlay k && keeps_value (get overlay k)); [done|].
    destruct (_ || _); [by rewrite get_dset_ne by congruence|done].
Qed.

(** A Hub that watches a phone and a printer; the phone is online. *)
Definition watching : env :=
  {| env_var := env_var demo_env;
     env_config := PDict [("watched_devices", PList [PDict [("mac", PStr "A4-C3-F0-11-22-33"); ("name", PStr "My phone")];
                                                     PDict [("mac", PStr "a4:c3:f0:00:00:01")]])];
     env_entropy := env_entropy demo_env; env_http := env_http demo_env |}.
Definition phone_online : list pyval := [PDict [("mac", PStr "a4c3f0112233"); ("ip", PStr "192.168.1.20")]].
Definition two_watched : result (list dict) * world store := canonical_watched_devices watching phone_online demo_world.

Lemma watched_rows_are_configured_witness :
  Forall2 (fun mac row => get row "mac" = PStr mac /\ get row "online" = PBool (has (device_map phone_online) mac))
          ["a4:c3:f0:11:22:33"; "a4:c3:f0:00:00:01"] (catch (fst two_watched) []).
Proof.
  apply (watched_rows_are_configured watching phone_online demo_world (snd two_watched)).
  change (two_watched = (Ok (catch (fst two_watched) []), snd two_watched)).
  assert (fst two_watched = Ok (catch (fst two_watched) [])) as <- by (vm_compute; reflexivity). apply surjective_pairing.
Defined.
