(* ===== verification/Status.v ===== *)
(** * The status document, its background refresh and the sync snapshot

    The exit addresses of the NAS, the DNS records of the configured names, the worker that
    refreshes the state, the status and MQTT configuration shown to clients, and the snapshot a client
    starts its synchronisation from ([hub.py]). *)

From S2P Require Import Prelude PyNum PyVal PyIp PyTime HubValues Json Storage Hub AgentCmd.
From S2P Require Import HubNetwork Ipv6Records DeviceArchive CanonicalDevices Hooks.

(** ** Constants of the environment *)

Section Settings.
Context (E : env).

(** [int(os.environ.get(name, dflt))]; the Hub does not start with anything but an integer. *)
Definition int_setting (name : string) (dflt : Z) : Z :=
  match env_var E name with Some s => default dflt (int_of_str s) | None => dflt end.

Definition PORT : Z := int_setting "PORT" 58443.
Definition STATUS_REFRESH_TTL_SEC : Z := int_setting "STATUS_REFRESH_TTL_SEC" 180.
Definition HUB_VERSION : string := "0.10.12".

Definition advertise_url : string :=
  rstrip_by (is_char "/"%char) (env_compat E ["HUB_ADVERTISE_URL"] ("http://127.0.0.1:" +:+ int_str PORT)).

(** [(os.environ.get(name) or dflt).strip()]. *)
Definition text_setting (name dflt : string) : string := strip (str_or (default "" (env_var E name)) dflt).

Definition MQTT_PUBLIC_URL : string := text_setting "MQTT_PUBLIC_URL" "".
Definition MQTT_USERNAME : string := text_setting "MQTT_USERNAME" "labprobe".
Definition MQTT_PASSWORD : string := text_setting "MQTT_PASSWORD" "".

Definition topic_char (c : ascii) : bool := is_alnum c || one_of "._/-" c.

(** Every run of other characters becomes one hyphen. *)
Fixpoint topic_go (in_run : bool) (s : string) : string :=
  match s with
  | EmptyString => EmptyString
  | String c s' =>
      if topic_char c then String c (topic_go false s')
      else if in_run then topic_go true s' else String "-"%char (topic_go true s')
  end.

Definition MQTT_TOPIC_PREFIX : string :=
  strip_by (is_char "/"%char) (topic_go false (text_setting "MQTT_TOPIC_PREFIX" "labprobe/hub")).

Definition mqtt_enabled : bool := nonempty MQTT_PUBLIC_URL && nonempty MQTT_USERNAME && nonempty MQTT_PASSWORD.

Definition mqtt_client_config (include_secret : bool) : dict :=
  let shown s := PStr (if mqtt_enabled then s else "") in
  let topic t := shown (MQTT_TOPIC_PREFIX +:+ t) in
  [("enabled", PBool mqtt_enabled); ("publicUrl", shown MQTT_PUBLIC_URL); ("username", shown MQTT_USERNAME);
   ("revisionTopic", topic "/sync/revision"); ("availabilityTopic", topic "/availability");
   ("dashboardTopic", topic "/router/dashboard"); ("routerRealtimeTopic", topic "/router/realtime");
   ("devicesRealtimeTopic", topic "/devices/realtime"); ("realtimeDemandTopic", topic "/app/realtime-demand");
   ("transport", PStr (if starts_with "wss://" (lower MQTT_PUBLIC_URL) then "wss" else "mqtt"));
   ("keepAliveSeconds", PInt 25)]
  ++ (if include_secret then [("password", shown MQTT_PASSWORD)] else []).

Definition labprobe_discovery : response :=
  Response 200 (PDict
    [("ok", PBool true); ("name", PStr (hub_name E)); ("version", PStr HUB_VERSION); ("advertiseUrl", PStr advertise_url);
     ("capabilities", PList (List.map PStr ["snapshot"; "revision"; "incremental"; "token_auth"; "sqlite"; "mqtt_revision";
                                            "router_dashboard"; "router_credentials_ephemeral"]));
     ("mqtt", PDict (mqtt_client_config false))]).
End Settings.

(** ** The exit addresses and the DNS records

    [run] is the output of a command and [dns] what [dns.resolver.resolve] answers for a name and a
    record type, [None] when it raises. *)

Section Refresh.
Context (E : env) (run : list string -> option string) (dns : pyval -> string -> option (list string)).

Definition exit_urls (ipv6 : bool) : list string :=
  if ipv6 then ["https://api6.ipify.org"; "https://api64.ipify.org"; "https://ipv6.icanhazip.com"; "https://v6.ident.me";
                "https://6.ipw.cn"]
  else ["https://api.ipify.org"; "https://ipv4.icanhazip.com"; "https://v4.ident.me"; "https://4.ipw.cn"].

(** The first public address an outside service tells. *)
Fixpoint probe_urls (ipv6 : bool) (seen urls : list string) : string :=
  match urls with
  | [] => ""
  | url :: rest =>
      if negb (nonempty url) || str_in url seen then probe_urls ipv6 seen rest
      else
        let out := match run ["curl"; if ipv6 then "-6" else "-4"; "-s"; "--max-time"; "6"; url] with
                   | Some text => strip_ip_prefix (PStr text)
                   | None => ""
                   end in
        if nonempty out && is_public_ip_text (PStr out) ipv6 then out else probe_urls ipv6 (url :: seen) rest
  end.

(** The configured address, the one outside services see, or one of the machine; [""] for [None].
    A configured URL that is not a text cannot be called; a list or a dict cannot even be remembered. *)
Definition get_exit_ip (ipv6 : bool) : result string :=
  let manual := get_manual_nas_ip E ipv6 in
  if nonempty manual then Ok manual
  else
    let url := cfg_get E (if ipv6 then "exit_ip.ipv6_url" else "exit_ip.ipv4_url") PNone in
    configured ← match url with
                 | PStr s => Ok [s]
                 | PList (_ :: _) | PDict (_ :: _) => Err (Exn "TypeError" ("unhashable type: '" +:+ type_name url +:+ "'"))
                 | _ => Ok []
                 end;
    mret (str_or (probe_urls ipv6 [] (configured ++ exit_urls ipv6)) (get_local_global_ip run ipv6)).

Definition resolve_records (domain : pyval) (record_type : string) : list string :=
  match dns domain record_type with Some answers => List.map (rstrip_by (is_char "."%char)) answers | None => [] end.

(** [record_type in v]. *)
Definition py_contains (s : string) (v : pyval) : result bool :=
  match v with
  | PList l => Ok (py_in (PStr s) l)
  | PDict d => Ok (has d s)
  | PStr t => Ok (contains s t)
  | _ => Err (Exn "TypeError" ("argument of type '" +:+ type_name v +:+ "' is not iterable"))
  end.

Definition opt_text (s : string) : pyval := if nonempty s then PStr s else PNone.

(** A failed probe keeps the address from before. *)
Definition nas_update (now v4 v6 : string) : dict :=
  [("updatedAt", PStr now)]
  ++ (if nonempty v4 then [("exitIpv4", PStr v4); ("exitIpv4Source", PStr "manual_or_hub")]
      else [("exitIpv4LastError", PStr "detect_failed_keep_previous")])
  ++ (if nonempty v6 then [("exitIpv6", PStr v6); ("localIpv6List", texts_list (normalize_ipv6_list (PList [PStr v6])));
                           ("exitIpv6Source", PStr "manual_or_hub")]
      else [("exitIpv6LastError", PStr "detect_failed_keep_previous")]).

(** The row of a configured name; [None] when it has no domain. *)
Definition ddns_row (now v4 v6 : string) (router : dict) (item : pyval) : result (option dict) :=
  domain ← vget item "domain";
  if negb (truthy domain) then Ok None
  else
    let cfg := dict_or_empty item in
    let types := por (get cfg "record_types") (PList [PStr "A"; PStr "AAAA"]) in
    want_a ← py_contains "A" types;
    want_aaaa ← py_contains "AAAA" types;
    let a := if want_a : bool then resolve_records domain "A" else [] in
    let aaaa := if want_aaaa : bool then resolve_records domain "AAAA" else [] in
    let expect := get cfg "expect" in
    let expected := if py_in expect [PStr "host_ipv6"; PStr "nas_ipv6"] then opt_text v6
                    else if py_in expect [PStr "host_ipv4"; PStr "nas_ipv4"] then opt_text v4
                    else if is_text expect "router_ipv6" then get router "exitIpv6"
                    else if is_text expect "router_ipv4" then get router "exitIpv4" else PNone in
    let matched := if truthy expected
                   then PBool (py_in expected (List.map PStr a) || py_in expected (List.map PStr aaaa)) else PNone in
    Ok (Some [("name", por (get cfg "name") domain); ("domain", domain); ("a", texts_list a); ("aaaa", texts_list aaaa);
              ("expect", expect); ("expectedValue", expected); ("matched", matched); ("updatedAt", PStr now)]).

(** [refresh_ddns_and_exit] at a time. *)
Definition refresh_ddns_and_exit (now : string) (state : pyval) : result dict :=
  v4 ← get_exit_ip false;
  v6 ← get_exit_ip true;
  state ← state_with ["nas"] state;
  state ← update_in "nas" (nas_update now v4 v6) state;
  state ← state_with ["router"] (PDict state);
  router ← match get state "router" with
           | PDict r => Ok (setdefault "exitIpv6" (get r "wanIpv6") (setdefault "exitIpv4" PNone r))
           | v => attribute_error v "setdefault"
           end;
  items ← py_iter (por (cfg_get E "ddns" (PList [])) (PList []));
  rows ← result_map (ddns_row now v4 v6 router) items;
  mret (dset "ddnsResolved" (PList (List.map PDict (omap id rows))) (dset "router" (PDict router) state)).
End Refresh.

(** ** The worker and the handlers *)

Section Status.
Context {S : Type} `{DocStore S} {tz : TimeZone} (E : env).
Context (run : list string -> option string) (dns : pyval -> string -> option (list string)).

Definition refresh_body : hub S unit :=
  doc ← load_json "state.json" (PDict []);
  now ← now_str;
  state ← lift (refresh_ddns_and_exit E run dns now doc);
  state ← ensure_vpn_addresses_from_events state;
  state ← lift (state_with ["hub"] (PDict state));
  state ← lift (update_in "hub" [("backgroundRefreshedAt", PStr now)] state);
  save_json "state.json" (PDict (dset "updatedAt" (PStr now) state)).

(** [_refresh_status_cache_worker]: one refresh at a time, and an exception ends it quietly. *)
Definition refresh_status_cache_worker : hub S unit :=
  running ← mem_get "REFRESH_RUNNING" (PBool false);
  if truthy running then mret tt
  else
    _ ← mem_set "REFRESH_RUNNING" (PBool true);
    _ ← try_except refresh_body (fun _ => mret tt);
    mem_set "REFRESH_RUNNING" (PBool false).

Definition api_status_refresh (q : request) : hub S response :=
  if negb (check_app_token E q) then mret unauthorized
  else _ ← start_refresh; now ← now_str; mret (said [("message", PStr "refresh started")] now).

Definition hub_section (state : dict) (updated running : pyval) : dict :=
  dupdate (dict_or_empty (get state "hub"))
    [("name", PStr (hub_name E)); ("version", PStr HUB_VERSION); ("updatedAt", updated); ("statusMode", PStr "cache_first");
     ("refreshRunning", running); ("advertiseUrl", PStr (advertise_url E))].

Definition status_document : hub S dict :=
  doc ← load_json "state.json" (PDict []);
  state ← lift (match doc with PDict d => Ok d | v => attribute_error v "get" end);
  running ← mem_get "REFRESH_RUNNING" (PBool false);
  let state := dset "hub" (PDict (hub_section state (get state "updatedAt") running)) state in
  rows ← vpn_addresses_list (PDict state);
  let state := dset "vpnAddresses" (PList rows) (dset "vpnStunAddresses" (PList rows) state) in
  devices ← load_json "devices.json" (PDict [("updatedAt", PNone)]);
  devices_at ← lift (vget devices "updatedAt");
  let state := dset "devicesUpdatedAt" devices_at state in
  mret (dset "hub" (PDict (dset "updatedAt" (por (get state "updatedAt") devices_at)
                             (dict_or_empty (get state "hub")))) state).

Definition api_status (q : request) : hub S response :=
  allowed ← lift (check_read_token E q);
  if negb allowed then mret unauthorized
  else
    state ← status_document;
    _ ← trigger_status_refresh_if_needed (STATUS_REFRESH_TTL_SEC E) state (str_in (arg q "refresh") ["1"; "true"; "yes"]);
    mret (Response 200 (PDict [("ok", PBool true); ("data", PDict state)])).

Definition api_mqtt_config (q : request) : hub S response :=
  if negb (check_app_token E q) then mret unauthorized
  else now ← now_str;
       mret (Response 200 (PDict [("ok", PBool true); ("mqtt", PDict (mqtt_client_config E true)); ("time", PStr now)])).

(** *** Neighbours with an IPv6 address *)

Definition neighbor_row (mac : string) (item : pyval) : result (option pyval) :=
  l ← vget item "ipv6List";
  match normalize_ipv6_list (por l (PList [])) with
  | [] => Ok None
  | ipv6_list =>
      let d := dict_or_empty item in
      Ok (Some (PDict [("mac", PStr mac); ("ipv6List", texts_list ipv6_list); ("ipv6UpdatedAt", get_or d "ipv6UpdatedAt" (PStr ""));
                       ("ndpState", get_or d "ndpState" (PStr "")); ("ndpDev", get_or d "ndpDev" (PStr ""));
                       ("name", get_or d "name" (PStr "")); ("ip", por (first_of d ["ip"; "lastIp"]) (PStr ""))]))
  end.

Definition api_ipv6_neighbors (q : request) : hub S response :=
  allowed ← lift (check_read_token E q);
  if negb allowed then mret unauthorized
  else
    archive ← load_device_archive;
    rows ← lift (result_map (fun kv => neighbor_row kv.1 kv.2) archive);
    let rows := omap id rows in
    mret (Response 200 (PDict [("ok", PBool true); ("count", PInt (Z.of_nat (List.length rows))); ("neighbors", PList rows)])).
End Status.

(** ** The sync snapshot

    [others n i] is what other threads do to the documents before the [i]-th read of the [n]-th
    attempt. *)

Section Sync.
Context {tz : TimeZone} `{!DocStore store} (E : env) (others : nat -> nat -> store -> store).

Definition meanwhile (n i : nat) : hub store unit :=
  changes (fun w => World (others n i (w_docs w)) (w_ms w) (w_mono w) (w_draws w) (w_published w) (w_mem w)).

Definition store_revision : hub store Z := reads (fun w => current_revision (w_docs w)).

Record attempt := Attempt {
  at_before : Z; at_after : Z; at_state : dict; at_devices : pyval;
  at_online : list pyval; at_watched : list pyval; at_offline : list dict; at_events : list pyval;
}.

(** [[e for e in events if not e.get("deleted")]]. *)
Definition undeleted (events : list pyval) : result (list pyval) :=
  rows ← result_map (fun e => v ← vget e "deleted"; Ok (if truthy v then None else Some e)) events;
  Ok (omap id (rows : list (option pyval))).

Definition snapshot_attempt (n : nat) : hub store attempt :=
  before ← store_revision;
  _ ← meanwhile n 0;
  state ← status_document E;
  _ ← meanwhile n 1;
  devices ← load_json "devices.json" (PDict [("online", PList []); ("watched", PList []); ("updatedAt", PNone)]);
  devices_at ← lift (vget devices "updatedAt");
  let hub := dset "updatedAt" (por (get state "updatedAt") devices_at) (dict_or_empty (get state "hub")) in
  let state := dset "hub" (PDict hub) state in
  _ ← meanwhile n 2;
  archive ← load_device_archive;
  let d := dict_or_empty devices in
  online ← lift (py_iter (por (get_or d "online" (PList [])) (PList [])));
  online ← hydrate_all archive online;
  watched ← lift (py_iter (por (get_or d "watched" (PList [])) (PList [])));
  watched ← hydrate_all archive watched;
  offline ← archived_offline_devices (List.map dict_or_empty online) archive;
  _ ← meanwhile n 3;
  doc ← load_json "events.json" (PList []);
  events ← lift (py_iter doc);
  events ← lift (undeleted events);
  _ ← meanwhile n 4;
  after ← store_revision;
  mret (Attempt before after state devices online watched offline events).

(** Three attempts at most; the last one counts even when a writer came between. *)
Definition retry_snapshot : hub store attempt :=
  a ← snapshot_attempt 0;
  if at_before a =? at_after a then mret a
  else
    a ← snapshot_attempt 1;
    if at_before a =? at_after a then mret a else snapshot_attempt 2.

Definition snapshot_document (now : string) (a : attempt) : dict :=
  let d := dict_or_empty (at_devices a) in
  [("ok", PBool true); ("revision", PInt (at_after a)); ("sequence", PInt (at_after a)); ("generatedAt", PStr now);
   ("status", PDict (at_state a));
   ("devices", PDict [("updatedAt", get d "updatedAt");
                      ("onlineDeviceCount", get_or d "onlineDeviceCount" (PInt (Z.of_nat (List.length (at_online a)))));
                      ("online", PList (at_online a)); ("offline", PList (List.map PDict (at_offline a)));
                      ("watched", PList (at_watched a))]);
   ("events", PList (at_events a))].

Definition build_sync_snapshot : hub store dict :=
  a ← retry_snapshot; now ← now_str; mret (snapshot_document now a).

(** The function in force, with the canonical devices of [hub0934_fixes.py]. *)
Definition canonical_snapshot : hub store dict := root ← build_sync_snapshot; sync_devices E root.

Definition api_sync_snapshot (q : request) : hub store response :=
  allowed ← lift (check_read_token E q);
  if negb allowed then mret unauthorized
  else root ← canonical_snapshot; mret (Response 200 (PDict root)).

Definition api_sync_revision (q : request) : hub store response :=
  allowed ← lift (check_read_token E q);
  if negb allowed then mret unauthorized
  else
    info ← reads (fun w => revision_info (w_docs w));
    now ← now_str;
    mret (Response 200 (PDict [("ok", PBool true); ("oldestRevision", PInt info.1); ("revision", PInt info.2);
                               ("sequence", PInt info.2); ("time", PStr now)])).

(** A change of the state carries the status document of now instead of the stored payload. *)
Definition is_status_change (v : pyval) : bool :=
  let d := dict_or_empty v in is_text (get d "entity") "status" && negb (is_text (get d "operation") "delete").

Definition with_canonical (canonical : dict) (v : pyval) : pyval :=
  if is_status_change v then PDict (dset "payload" (PDict canonical) (dict_or_empty v)) else v.

Definition page_fields (p : sync_page) (rows : list pyval) : dict :=
  [("oldestRevision", PInt (pg_oldest p)); ("revision", PInt (pg_revision p)); ("sequence", PInt (pg_revision p));
   ("fromRevision", PInt (pg_from p))]
  ++ (match pg_next p with Some n => [("nextRevision", PInt n)] | None => [] end)
  ++ [("fullRequired", PBool (pg_full p)); ("hasMore", PBool (pg_more p)); ("changes", PList rows)].

Definition api_sync_changes (q : request) : hub store response :=
  allowed ← lift (check_read_token E q);
  if negb allowed then mret unauthorized
  else
    let since := match q_arg q "since" with Some s => s | None => default "0" (q_arg q "revision") end in
    match int_of_str since, int_of_str (default "500" (q_arg q "limit")) with
    | Some since, Some limit =>
        page ← reads (fun w => changes_since since limit (w_docs w));
        rows ← lift (result_map change_json (pg_rows page));
        rows ← (if existsb is_status_change rows
                then canonical ← status_document E; mret (List.map (with_canonical canonical) rows) else mret rows);
        now ← now_str;
        mret (said (page_fields page rows) now)
    | _, _ => mret (error_response 400 "invalid revision or limit")
    end.
End Sync.
