(* ===== verification/StatusFacts.v ===== *)
(** * What the refresh and the sync snapshot promise

    The background refresh replaces an exit address of the NAS by public addresses only and keeps
    it when every probe fails.  A sync snapshot whose two revisions agree was read while no client
    visible change was written; one whose three attempts all met a writer may miss a change. *)

From S2P Require Import Prelude PyNum PyVal PyIp PyTime HubValues Json Storage Hub Fixtures.
From S2P Require Import HubNetwork Ipv6Records DeviceArchive CanonicalDevices Hooks HooksFacts Status.

(** ** The exit addresses *)

Section Exit.
Context (E : env) (run : list string -> option string) (dns : pyval -> string -> option (list string)).

Definition public_or_empty (ipv6 : bool) (s : string) : Prop := s = "" \/ is_public_ip_text (PStr s) ipv6 = true.

Lemma first_public_is ipv6 values : public_or_empty ipv6 (first_public ipv6 values).
Proof.
  unfold first_public. destruct (List.find _ _) as [s|] eqn:Es; [|by left]. right. cbn.
  apply List.find_some in Es as [_ Hs]. by apply andb_prop in Hs as [_ Hs].
Qed.

Lemma probe_urls_is ipv6 seen urls : public_or_empty ipv6 (probe_urls run ipv6 seen urls).
Proof.
  revert seen. induction urls as [|url urls IH]; intros seen; cbn [probe_urls]; [by left|].
  destruct (_ || _); [apply IH|]. cbv zeta. case_match eqn:Hp; [|apply IH]. right. by apply andb_prop in Hp as [_ Hp].
Qed.

Lemma find_nonempty_is (P : string -> Prop) l : P "" -> List.Forall P l -> P (default "" (List.find nonempty l)).
Proof.
  intros H0 Hl. destruct (List.find nonempty l) as [s|] eqn:Es; [|done]. apply List.find_some in Es as [Hin _].
  by apply (proj1 (List.Forall_forall _ _) Hl).
Qed.

Lemma route_source_is : public_or_empty true (get_route_source_ipv6 run).
Proof.
  unfold get_route_source_ipv6. apply find_nonempty_is; [by left|]. apply List.Forall_forall.
  intros s (target & <- & _)%List.in_map_iff. destruct (run _); [|by left]. case_match eqn:Hp; [|by left].
  right. by apply andb_prop in Hp as [_ Hp].
Qed.

Lemma local_global_is ipv6 : public_or_empty ipv6 (get_local_global_ip run ipv6).
Proof.
  unfold get_local_global_ip. cbv zeta. destruct (nonempty (if ipv6 then _ else _)) eqn:Er.
  - destruct ipv6; [apply route_source_is|done].
  - destruct (run _) as [out|]; [|by left].
    assert (Hl : List.Forall (fun c => is_public_ip_text (PStr c.2) ipv6 = true)
                   (isort (fun a b => a.1 <=? b.1) (omap (addr_candidate ipv6) (splitlines out)))).
    { rewrite isort_perm. apply List.Forall_forall. intros [score ip] Hin%list_elem_of_In.
      apply list_elem_of_omap in Hin as (line & _ & Hc). unfold addr_candidate in Hc.
      destruct (_ || _); [done|]. destruct (words _) as [|x [|y rest]]; try done.
      destruct (is_public_ip_text _ _) eqn:Hp; [|done]. by injection Hc as _ <-. }
    destruct (isort _ _) as [|[score ip] rest]; [by left|]. right. by inversion Hl.
Qed.

(** What is taken for the exit address is public. *)
Lemma exit_ip_is ipv6 a : get_exit_ip E run ipv6 = Ok a -> public_or_empty ipv6 a.
Proof.
  unfold get_exit_ip. cbv zeta. case_match; [intros [= <-]; apply first_public_is|].
  intros (urls & _ & Ha)%result_bind_ok. injection Ha as <-. unfold str_or.
  case_match; [apply probe_urls_is|apply local_global_is].
Qed.

Definition nas_of (state : pyval) : dict := dict_or_empty (get (dict_or_empty state) "nas").

Lemma nas_update_get now v4 v6 field :
  dget (nas_update now v4 v6) field =
    if String.eqb field "exitIpv4" then (if nonempty v4 then Some (PStr v4) else None)
    else if String.eqb field "exitIpv6" then (if nonempty v6 then Some (PStr v6) else None)
    else dget (nas_update now v4 v6) field.
Proof.
  destruct (String.eqb_spec field "exitIpv4") as [->|]; [|destruct (String.eqb_spec field "exitIpv6") as [->|]; [|done]];
  unfold nas_update; by destruct (nonempty v4), (nonempty v6).
Qed.

Lemma nas_update_nodup now v4 v6 : nodup_keys (nas_update now v4 v6).
Proof.
  unfold nas_update, nodup_keys. destruct (nonempty v4), (nonempty v6); cbn;
    repeat (constructor; [cbn; intuition discriminate|]); constructor.
Qed.

End Exit.

(** A machine that reaches an IPv4 service only. *)
Definition ipv4_only : list string -> option string := fun cmd =>
  if bool_decide (cmd = ["curl"; "-4"; "-s"; "--max-time"; "6"; "https://api.ipify.org"]) then Some "8.8.4.4" else None.
Definition no_dns : pyval -> string -> option (list string) := fun _ _ => None.
Definition refreshed : dict :=
  catch (refresh_ddns_and_exit demo_env ipv4_only no_dns "2023-11-15 06:13:20" known_exit) [].


(** ** The worker *)

(** However the refresh ends, another one can start. *)
Lemma worker_releases {S : Type} `{DocStore S} {tz : TimeZone} (E : env) run dns (w : world S) :
  let '(r, w') := refresh_status_cache_worker E run dns w in
  r = Ok tt /\ (truthy (default (PBool false) (w_mem w !! "REFRESH_RUNNING")) = true \/ w_mem w' !! "REFRESH_RUNNING" = Some (PBool false)).
Proof.
  unfold refresh_status_cache_worker. rewrite prog_bind_eq. cbn [mem_get].
  destruct (truthy _) eqn:Et; [split; [done|by left]|]. rewrite prog_bind_eq. cbn [mem_set]. rewrite prog_bind_eq.
  unfold try_except. destruct (refresh_body _ _ _ _) as [[[]|e] w1]; cbn; (split; [done|right; apply lookup_insert_eq]).
Qed.

(** ** Snapshots of the documents *)

(** Saves by other threads, with the history of the revision log. *)
Inductive written (cfg : settings) {tz : TimeZone} (s : store) (h : list row) : store -> list row -> Prop :=
| written_refl : written cfg s h s h
| written_step s1 h1 c key v s2 rv es :
    written cfg s h s1 h1 -> after h1 c -> save cfg c key v s1 = Ok (s2, rv) -> save_changes key v s1 = Ok es ->
    written cfg s h s2 (h1 ++ new_rows c (sequence s1) es).

(** Saves that no client is told about. *)
Inductive quiet (cfg : settings) {tz : TimeZone} (s : store) : store -> Prop :=
| quiet_refl : quiet cfg s s
| quiet_step s1 c key v s2 rv :
    quiet cfg s s1 -> save cfg c key v s1 = Ok (s2, rv) -> save_changes key v s1 = Ok [] -> quiet cfg s s2.

Section Quiet.
Context (cfg : settings) {tz : TimeZone}.

Lemma written_log s h s' h' : log_inv s h -> written cfg s h s' h' -> log_inv s' h' /\ exists more, h' = h ++ more.
Proof.
  intros Hl. induction 1 as [|s1 h1 c key v s2 rv es _ [Hl1 [more ->]] Ha Hs He].
  - split; [done|]. exists []. by rewrite app_nil_r.
  - destruct (log_save _ _ _ _ _ _ _ _ Hl1 Ha Hs) as (es' & He' & Hl2). rewrite He in He'. injection He' as <-.
    split; [done|]. exists (more ++ new_rows c (sequence s1) es). by rewrite app_assoc.
Qed.

Lemma written_trans s h s1 h1 s2 h2 : written cfg s h s1 h1 -> written cfg s1 h1 s2 h2 -> written cfg s h s2 h2.
Proof. intros H1. induction 1; [done|]. by eapply written_step. Qed.

Lemma fold_max_le n l : 0 <= n -> List.Forall (fun x => x <= n) l -> fold_right Z.max 0 l <= n.
Proof. intros Hn. induction 1; cbn; lia. Qed.

(** A log that is not empty ends with the last revision ever given. *)
Lemma current_is_sequence s h : log_inv s h -> 0 < current_revision s -> current_revision s = sequence s.
Proof.
  intros Hl Hpos. apply Z.le_antisymm.
  - destruct (decide (revisions s = [])) as [E|]; [unfold current_revision in *; rewrite E in *; cbn in *; lia|].
    unfold current_revision. apply fold_max_le; [rewrite (log_sequence _ _ Hl); lia|]. apply List.Forall_forall.
    intros x (r & <- & Hr)%List.in_map_iff. eapply log_revision_pos; [done|]. by eapply log_row_in_hist.
  - destruct (revisions s) as [|r0 rows0 _] eqn:E using rev_ind; [unfold current_revision in Hpos; rewrite E in Hpos; cbn in Hpos; lia|].
    pose proof (log_suffix _ _ Hl) as [pre Hpre]. rewrite E in Hpre.
    pose proof (log_numbers _ _ Hl) as Hn. rewrite Hpre, app_assoc, List.map_app in Hn.
    rewrite length_app, count_up_app in Hn. cbn [List.length List.map count_up] in Hn. apply app_inj_tail in Hn as [_ Hn].
    rewrite (log_sequence _ _ Hl), Hpre, app_assoc, length_app. cbn [List.length].
    replace (Z.of_nat _) with (r_revision r0) by (rewrite Hn; lia).
    apply current_revision_ge. rewrite E. apply in_or_app. right. by left.
Qed.

Lemma written_quiet s h s' : log_inv s h -> written cfg s h s' h -> quiet cfg s s'.
Proof.
  intros Hl Hs. remember h as h' eqn:Hh in Hs at 2. revert Hh.
  induction Hs as [|s1 h1 c key v s2 rv es Hs IH Ha Hsave He]; intros Hh; [apply quiet_refl|].
  destruct (written_log _ _ _ _ Hl Hs) as [_ [more ->]]. rewrite <- app_assoc in Hh.
  assert (Hnil : more ++ new_rows c (sequence s1) es = []).
  { apply (app_inv_head h). by rewrite app_nil_r. }
  apply app_eq_nil in Hnil as [-> Hn]. rewrite app_nil_r in *. destruct es; [|discriminate].
  eapply quiet_step; [by apply IH|exact Hsave|exact He].
Qed.

(** Two equal revisions, not zero: no row was written in between. *)
Lemma equal_revisions s h s' h' :
  log_inv s h -> written cfg s h s' h' -> 0 < current_revision s -> current_revision s' = current_revision s -> h' = h.
Proof.
  intros Hl Hs Hpos Heq. destruct (written_log _ _ _ _ Hl Hs) as [Hl' [more ->]].
  assert (Hseq : sequence s' = sequence s).
  { rewrite <- (current_is_sequence s' _ Hl'), <- (current_is_sequence s _ Hl); lia. }
  rewrite (log_sequence _ _ Hl), (log_sequence _ _ Hl'), length_app in Hseq.
  destruct more; [by rewrite app_nil_r|cbn [List.length] in Hseq; lia].
Qed.

(** The same for a path in two parts. *)
Lemma split_history s h s1 h1 s' h' : log_inv s h -> written cfg s h s1 h1 -> written cfg s1 h1 s' h' -> h' = h -> h1 = h.
Proof.
  intros Hl H1 H2 ->. destruct (written_log _ _ _ _ Hl H1) as [Hl1 [m1 ->]].
  destruct (written_log _ _ _ _ Hl1 H2) as [_ [m2 Hm]]. rewrite <- app_assoc in Hm.
  assert (Hn : m1 ++ m2 = []) by (apply (app_inv_head h); by rewrite app_nil_r).
  apply app_eq_nil in Hn as [-> _]. by rewrite app_nil_r.
Qed.
End Quiet.

(** *** Programs that only read *)

Definition looks {S A} (m : hub S A) : Prop := forall w, w_docs (m w).2 = w_docs w.

Section Looks.
Context {S : Type}.

Lemma looks_ret {A} (a : A) : looks (S := S) (mret a).
Proof. by intros w. Qed.
Lemma looks_lift {A} (m : result A) : looks (S := S) (lift m).
Proof. by intros w. Qed.
Lemma looks_raise {A} e : looks (S := S) (raise (A := A) e).
Proof. by intros w. Qed.

Lemma looks_bind {A B} (m : hub S A) (f : A -> hub S B) : looks m -> (forall a, looks (f a)) -> looks (m ≫= f).
Proof.
  intros Hm Hf w. rewrite prog_bind_eq. specialize (Hm w). destruct (m w) as [[a|e] w1]; [|done].
  cbn [snd] in Hm. by rewrite Hf.
Qed.
End Looks.

Ltac solve_looks :=
  repeat first
    [ match goal with |- forall _, _ => intros ? end
    | apply looks_ret | apply looks_lift | apply looks_raise
    | solve [intros w; reflexivity]
    | apply looks_bind
    | case_match ].

Section Readers.
Context {S : Type} `{DocStore S} {tz : TimeZone} (E : env).

Lemma looks_hydrate dev archive : looks (hydrate_device_with_archive dev archive).
Proof. unfold hydrate_device_with_archive, lan_prefixes. solve_looks. Qed.

Lemma looks_hydrate_all archive items : looks (hydrate_all archive items).
Proof.
  induction items as [|v items IH]; cbn [hydrate_all]; [apply looks_ret|].
  destruct v; try apply looks_raise. apply looks_bind; [apply looks_hydrate|]. intros row.
  apply looks_bind; [exact IH|]. intros rest. apply looks_ret.
Qed.

Lemma looks_offline_rows macs archive entries : looks (offline_rows macs archive entries).
Proof.
  induction entries as [|[mac snapshot] entries IH]; cbn [offline_rows]; [apply looks_ret|].
  apply looks_bind; [apply looks_lift|]. intros key. destruct (_ || _); [exact IH|].
  apply looks_bind; [apply looks_lift|]. intros d. apply looks_bind; [apply looks_hydrate|]. intros row.
  apply looks_bind; [exact IH|]. intros rows. apply looks_ret.
Qed.

Lemma looks_status : looks (status_document E).
Proof. unfold status_document, vpn_addresses_list, load_vpn_addresses. solve_looks. Qed.
End Readers.

Section Snapshot.
Context (cfg : settings) {tz : TimeZone} `{!DocStore store} (E : env) (others : nat -> nat -> store -> store).

(** The documents after the first [i] interruptions of the [n]-th attempt. *)
Fixpoint passed (n : nat) (s : store) (i : nat) : store :=
  match i with O => s | Datatypes.S i' => others n i' (passed n s i') end.

Lemma bind_looks {A B} (m : hub store A) (f : A -> hub store B) w b w' :
  looks m -> (m ≫= f) w = (Ok b, w') -> exists a w1, w_docs w1 = w_docs w /\ f a w1 = (Ok b, w').
Proof. intros Hm (a & w1 & H1 & H2)%prog_bind_ok. exists a, w1. specialize (Hm w). by rewrite H1 in Hm. Qed.

Lemma looks_archive : looks (load_device_archive (S := store)).
Proof. by intros w. Qed.

Lemma looks_offline online archive : looks (archived_offline_devices (S := store) online archive).
Proof. apply looks_bind; [apply looks_offline_rows|]. intros rows. apply looks_ret. Qed.

(** What one attempt read, and the stores it was read from. *)
Lemma attempt_reads n w a w' : snapshot_attempt E others n w = (Ok a, w') ->
  at_before a = current_revision (w_docs w) /\ at_after a = current_revision (w_docs w')
  /\ at_devices a = default (PDict [("online", PList []); ("watched", PList []); ("updatedAt", PNone)]) (doc_read "devices.json" (passed n (w_docs w) 2))
  /\ (py_iter (default (PList []) (doc_read "events.json" (passed n (w_docs w) 4))) ≫= undeleted) = Ok (at_events a)
  /\ w_docs w' = passed n (w_docs w) 5.
Proof.
  intros Hr. unfold snapshot_attempt in Hr. cbn [passed].
  apply prog_bind_ok in Hr as (before & w0 & [= <- <-] & Hr). apply prog_bind_ok in Hr as (u0 & w1 & [= _ <-] & Hr).
  apply bind_looks in Hr as (state & w2 & D1 & Hr); [|apply looks_status]. cbn [w_docs] in D1.
  apply prog_bind_ok in Hr as (u1 & w3 & [= _ <-] & Hr). rewrite D1 in Hr.
  apply prog_bind_ok in Hr as (devices & w4 & [= Hdev <-] & Hr). cbn [w_docs] in Hdev.
  apply prog_bind_ok in Hr as (devices_at & w5 & [= _ <-] & Hr).
  apply prog_bind_ok in Hr as (u2 & w6 & [= _ <-] & Hr). cbn [w_docs] in Hr.
  apply bind_looks in Hr as (archive & w7 & D2 & Hr); [|apply looks_archive]. cbn [w_docs] in D2.
  apply prog_bind_ok in Hr as (online0 & w8 & [= _ <-] & Hr).
  apply bind_looks in Hr as (online & w9 & D3 & Hr); [|apply looks_hydrate_all].
  apply prog_bind_ok in Hr as (watched0 & w10 & [= _ <-] & Hr).
  apply bind_looks in Hr as (watched & w11 & D4 & Hr); [|apply looks_hydrate_all].
  apply bind_looks in Hr as (offline & w12 & D5 & Hr); [|apply looks_offline].
  assert (D : w_docs w12 = others n 2 (others n 1 (others n 0 (w_docs w)))) by congruence.
  apply prog_bind_ok in Hr as (u3 & w13 & [= _ <-] & Hr). rewrite D in Hr.
  apply prog_bind_ok in Hr as (doc & w14 & [= Hdoc <-] & Hr). cbn [w_docs] in Hdoc.
  apply prog_bind_ok in Hr as (events0 & w15 & [= He0 <-] & Hr).
  apply prog_bind_ok in Hr as (events & w16 & [= He <-] & Hr).
  apply prog_bind_ok in Hr as (u4 & w17 & [= _ <-] & Hr). cbn [w_docs] in Hr.
  apply prog_bind_ok in Hr as (aft & w18 & [= <- <-] & Hr). injection Hr as <- <-. cbn.
  split; [done|]. split; [done|]. split; [by rewrite Hdev|]. split; [|done].
  rewrite Hdoc, He0. exact He.
Qed.

(** C8. A sync snapshot whose revision was the same before and after its reads is consistent: devices
    and events come from stores that differ from the one at the end by saves no client is told
    about, so a client that asks for the changes after this revision misses nothing. *)
Theorem agreeing_snapshot_is_consistent n w a w' hist :
  log_inv (w_docs w) (hist O) ->
  (forall i, (i < 5)%nat -> written cfg (passed n (w_docs w) i) (hist i) (passed n (w_docs w) (Datatypes.S i)) (hist (Datatypes.S i))) ->
  snapshot_attempt E others n w = (Ok a, w') -> at_before a = at_after a -> 0 < at_before a ->
  exists s1 s3, quiet cfg (w_docs w) s1 /\ quiet cfg s1 s3 /\ quiet cfg s3 (w_docs w')
    /\ at_devices a = default (PDict [("online", PList []); ("watched", PList []); ("updatedAt", PNone)]) (doc_read "devices.json" s1)
    /\ (py_iter (default (PList []) (doc_read "events.json" s3)) ≫= undeleted) = Ok (at_events a)
    /\ at_after a = current_revision (w_docs w').
Proof.
  intros Hl Hs Hr Heq Hpos. pose proof (attempt_reads n w a w' Hr) as (Hb & Ha & Hd & He & Hw).
  assert (A1 : written cfg (w_docs w) (hist O) (passed n (w_docs w) 2) (hist 2%nat))
    by (eapply written_trans; [apply (Hs 0%nat)|apply (Hs 1%nat)]; lia).
  assert (A3 : written cfg (passed n (w_docs w) 2) (hist 2%nat) (passed n (w_docs w) 4) (hist 4%nat))
    by (eapply written_trans; [apply (Hs 2%nat)|apply (Hs 3%nat)]; lia).
  pose proof (Hs 4%nat ltac:(lia)) as S4. rewrite <- Hw in S4.
  pose proof (written_trans _ _ _ _ _ _ _ A1 A3) as A13. pose proof (written_trans _ _ _ _ _ _ _ A13 S4) as Aw.
  destruct (written_log _ _ _ _ _ Hl A1) as [L1 _]. destruct (written_log _ _ _ _ _ Hl A13) as [L3 _].
  pose proof (equal_revisions _ _ _ _ _ Hl Aw ltac:(lia) ltac:(congruence)) as Hh.
  pose proof (split_history _ _ _ _ _ _ _ Hl A13 S4 Hh) as Hh4. pose proof (split_history _ _ _ _ _ _ _ Hl A1 A3 Hh4) as Hh2.
  rewrite Hh in S4. rewrite Hh4, Hh2 in *.
  exists (passed n (w_docs w) 2), (passed n (w_docs w) 4).
  repeat split; try done; eapply written_quiet; [exact Hl|exact A1|exact L1|exact A3|exact L3|exact S4].
Qed.
End Snapshot.

(** A counter that is saved while the snapshot is read: nobody is told. *)
Definition counting (n i : nat) (s : store) : store :=
  if (i =? 2)%nat then run_save (tz := demo_zone) (demo_clock 200) "geo_cache.json" (PDict [("n", PInt 1)]) s else s.
Definition settled_world : world store := world_at 1700000100000 demo_store2.
Abbreviation settled := (snapshot_attempt demo_env counting 0 settled_world).

Lemma agreeing_snapshot_is_consistent_witness :
  exists a s1 s3, settled.1 = Ok a /\ quiet demo_cfg demo_store2 s1 /\ quiet demo_cfg s1 s3 /\ quiet demo_cfg s3 (w_docs settled.2)
    /\ at_after a = current_revision (w_docs settled.2) /\ 0 < at_after a.
Proof.
  destruct (agreeing_snapshot_is_consistent demo_cfg demo_env counting 0 settled_world
    (catch settled.1 (Attempt 0 0 [] PNone [] [] [] [])) settled.2 (fun _ => demo_hist)) as (s1 & s3 & Q1 & Q2 & Q3 & _ & _ & Ha).
  - exact (evolves_log demo_cfg demo_store2 demo_hist demo_evolves).
  - intros i Hi. destruct i as [|[|[|[|[|i]]]]]; cbn [passed counting Nat.eqb]; [apply written_refl..| |apply written_refl|apply written_refl|lia].
    change (w_docs settled_world) with demo_store2.
    replace demo_hist with (demo_hist ++ new_rows (demo_clock 200) (sequence demo_store2) []) at 2 by apply app_nil_r.
    apply (written_step demo_cfg demo_store2 demo_hist demo_store2 demo_hist (demo_clock 200) "geo_cache.json" (PDict [("n", PInt 1)]) _ 3 []).
    + apply written_refl.
    + repeat constructor; vm_compute; reflexivity.
    + vm_compute. reflexivity.
    + vm_compute. reflexivity.
  - vm_compute. reflexivity.
  - vm_compute. reflexivity.
  - vm_compute. reflexivity.
  - exists (catch settled.1 (Attempt 0 0 [] PNone [] [] [] [])), s1, s3.
    split; [vm_compute; reflexivity|]. split; [exact Q1|]. split; [exact Q2|]. split; [exact Q3|].
    split; [exact Ha|vm_compute; reflexivity].
Defined.

(** Another thread adds an event between the read of the events and the second revision, in each of
    the three attempts.  The snapshot of the third is returned under the newest revision without the
    newest event, and the changes after that revision do not contain it either. *)
Definition raced_events (n : nat) : pyval :=
  PList (List.map (fun i => PDict [("id", PInt (Z.of_nat i)); ("type", PStr "nas")]) (seq 1 (n + 1))).
Definition racing (n i : nat) (s : store) : store :=
  if (i =? 4)%nat then run_save (tz := demo_zone) (demo_clock (200 + Z.of_nat n)) "events.json" (raced_events n) s else s.

Lemma third_race_hides_an_event :
  match retry_snapshot demo_env racing settled_world with
  | (Ok a, w) =>
      List.length (at_events a) = 2%nat
      /\ default PNone (doc_read "events.json" (w_docs w)) = raced_events 2
      /\ at_after a = current_revision (w_docs w)
      /\ pg_full (changes_since (at_after a) 500 (w_docs w)) = false
      /\ pg_rows (changes_since (at_after a) 500 (w_docs w)) = []
  | _ => False
  end.
Proof. vm_compute. repeat split. Qed.
