(* ===== verification/DeviceSync.v ===== *)
(** * The two sources of device snapshots

    The LabRelay hook is the authority; the snapshot endpoint is a fallback that is used only
    when the hook has been silent, and the live poll of the Hub never writes
    ([hub0935_sync_fix.py]). *)

From S2P Require Import Prelude PyNum PyVal PyIp PyTime HubValues Json Storage Hub AgentCmd Fixtures.
From S2P Require Import OnlineTime Daily HubNetwork Ipv6Records DeviceArchive Watched DeviceHistory CanonicalDevices.

Definition hook_fallback_grace : Z := 35.

Definition source_name : string := "DEVICE_SYNC_SOURCE_STATE".
Definition fresh_sources : pyval :=
  PDict [("lastHookEpoch", PInt 0); ("lastHookAt", PStr ""); ("lastFallbackEpoch", PInt 0); ("lastFallbackAt", PStr "")].

Section DeviceSync.
Context {S : Type} `{DocStore S} {tz : TimeZone} (E : env) (run : list string -> option string).
Context (build_watched : list dict -> hub S (list dict)).

(** [DurableDeviceHistory.ingest] after the fix: rows prepared by the live poll are counted and
    dropped. *)
Definition ingest_fixed (payload : pyval) (prepared : option (list pyval * pyval)) : hub S dict :=
  match prepared with
  | Some (rows, total) =>
      let n := Z.of_nat (List.length (List.filter is_dict rows)) in
      total ← lift (py_int (por total (PInt 0)));
      now ← now_str;
      mret [("accepted", PBool true); ("liveOnly", PBool true); ("persisted", PBool false); ("onlineDeviceCount", PInt n);
            ("total", PInt (Z.max n total)); ("updatedAt", PStr now)]
  | None => ingest E run build_watched payload None
  end.

Definition sources : hub S dict := v ← mem_get source_name fresh_sources; mret (dict_or_empty v).

Definition mark_source (hook : bool) : hub S unit :=
  now ← epoch; text ← now_str;
  s ← sources;
  mem_set source_name (PDict
    (if hook then dset "lastHookAt" (PStr text) (dset "lastHookEpoch" (PInt now) s)
     else dset "lastFallbackAt" (PStr text) (dset "lastFallbackEpoch" (PInt now) s))).

(** [{"ok": True, **result, "authority": ..., "time": ...}]. *)
Definition accepted_answer (authority : string) (result : dict) : hub S response :=
  now ← now_str;
  mret (Response 200 (PDict (dset "time" (PStr now) (dset "authority" (PStr authority) (dupdate [("ok", PBool true)] result))))).

Definition rejected (e : exn) : hub S response :=
  now ← now_str; mret (Response 400 (PDict [("ok", PBool false); ("error", PStr (exn_msg e)); ("time", PStr now)])).

Definition take_snapshot (hook : bool) (authority : string) (payload : pyval) : hub S response :=
  try_except (result ← ingest_fixed payload None;
              _ ← (if truthy (get result "accepted") then mark_source hook else mret tt);
              accepted_answer authority result) rejected.

(** [raw] is the body of the request as a text. *)
Definition relay_device_hook (q : request) (raw : string) : hub S response :=
  if negb (check_hook_token E q) then mret (error_response 401 "bad hook token")
  else match q_json q with
       | None | Some PNone => match loads raw with
                              | Some payload => take_snapshot true "labrelay_hook" payload
                              | None => mret (error_response 400 "invalid device payload")
                              end
       | Some payload => take_snapshot true "labrelay_hook" payload
       end.

(** The age of the last snapshot of the hook, and whether it is recent enough. *)
Definition hook_recent (now hook_epoch : Z) : bool := negb (hook_epoch =? 0) && (now - hook_epoch <=? hook_fallback_grace).

Definition hook_epoch_of (s : dict) : result Z := py_int (por (get s "lastHookEpoch") (PInt 0)).

Definition fallback_snapshot (q : request) : hub S response :=
  if negb (check_hook_token E q) then mret bad_agent_token
  else match q_json q with
       | None | Some PNone => mret (error_response 400 "empty snapshot")
       | Some payload =>
           now ← epoch;
           s ← sources;
           hook ← lift (hook_epoch_of s);
           if hook_recent now hook then
             text ← now_str;
             mret (Response 200 (PDict
               [("ok", PBool true); ("accepted", PBool false); ("duplicateSource", PBool true);
                ("authority", PStr "labrelay_hook"); ("hookAgeSeconds", PInt (Z.max 0 (now - hook))); ("time", PStr text)]))
           else take_snapshot false "labrelay_snapshot_fallback" payload
       end.

Definition sync_status (q : request) : hub S response :=
  ok ← lift (check_read_token E q);
  if negb ok then mret unauthorized
  else
    doc ← load_json "device_snapshot_health.json" (PDict []);
    now ← epoch;
    source ← sources;
    hook ← lift (hook_epoch_of source);
    let age := if hook =? 0 then 0 else Z.max 0 (now - hook) in
    mret (Response 200 (PDict (dupdate (dupdate (dupdate [("ok", PBool true)] (dict_or_empty doc)) source)
      [("authority", PStr "labrelay_hook"); ("hookHealthy", PBool (negb (hook =? 0) && (age <=? hook_fallback_grace)));
       ("hookAgeSeconds", PInt age); ("fallbackAfterSeconds", PInt hook_fallback_grace);
       ("liveRouterPollPersistence", PBool false); ("routerWebSocketIndependent", PBool true)]))).
End DeviceSync.

(** ** Facts *)

Section Facts.
Context {S : Type} `{DocStore S} {tz : TimeZone} (E : env) (run : list string -> option string).
Context (build_watched : list dict -> hub S (list dict)).

(** Rows of the live poll never reach the store: whatever they are, the world is unchanged
    and the answer says so. *)
Theorem live_poll_is_memory_only payload rows total (w w' : world S) r :
  ingest_fixed E run build_watched payload (Some (rows, total)) w = (r, w') ->
  w' = w /\ forall d, r = Ok d -> get d "persisted" = PBool false /\ get d "liveOnly" = PBool true.
Proof.
  unfold ingest_fixed. cbv zeta. rewrite prog_bind_eq. unfold lift. destruct (py_int _) as [n|e]; [|by intros [= <- <-]].
  rewrite prog_bind_eq. cbn [now_str]. intros [= <- <-]. split; [done|]. by intros d [= <-].
Qed.

Definition hook_at (w : world S) : Z :=
  match hook_epoch_of (dict_or_empty (default fresh_sources (w_mem w !! source_name))) with Ok n => n | Err _ => 0 end.

(** A snapshot the hook delivered is accepted at that time. *)
Lemma take_marks authority payload (w w' : world S) rsp :
  take_snapshot E run build_watched true authority payload w = (Ok rsp, w') -> rsp_status rsp = 200 ->
  exists result w1, ingest_fixed E run build_watched payload None w = (Ok result, w1)
    /\ w_docs w' = w_docs w1 /\ w_ms w' = w_ms w1
    /\ (truthy (get result "accepted") = true -> hook_at w' = w_ms w1 / 1000).
Proof.
  unfold take_snapshot, try_except. rewrite prog_bind_eq.
  destruct (ingest_fixed E run build_watched payload None w) as [[result|e] w1].
  - rewrite prog_bind_eq. destruct (truthy (get result "accepted")) eqn:Ha.
    + cbn. intros [= <- <-] _. exists result, w1. split; [done|]. split; [done|]. split; [done|]. intros _.
      unfold hook_at. cbn [w_mem]. rewrite lookup_insert_eq. cbn [from_option id dict_or_empty].
      unfold hook_epoch_of. rewrite get_dset_ne, get_dset_eq by done. unfold por.
      destruct (truthy (PInt (w_ms w1 / 1000))) eqn:Et; [done|]. cbn in Et. cbn.
      by destruct (Z.eqb_spec (w_ms w1 / 1000) 0) as [->|].
    + cbn. intros [= <- <-] _. exists result, w1. do 3 (split; [done|]). by rewrite Ha.
  - cbn. by intros [= <- <-].
Qed.

(** Within thirty-five seconds after a snapshot of the hook was accepted, the fallback endpoint
    writes nothing: it answers that the hook is the authority. *)
Theorem hook_silences_fallback q q' payload (w w' later w'' : world S) rsp rsp' result w1 :
  q_json q = Some payload -> payload <> PNone -> check_hook_token E q = true ->
  ingest_fixed E run build_watched payload None w = (Ok result, w1) -> truthy (get result "accepted") = true ->
  relay_device_hook E run build_watched q "" w = (Ok rsp, w') -> rsp_status rsp = 200 ->
  1000 <= w_ms w1 -> w_mem later !! source_name = w_mem w' !! source_name ->
  w_ms w1 / 1000 <= w_ms later / 1000 <= w_ms w1 / 1000 + hook_fallback_grace ->
  check_hook_token E q' = true -> q_json q' <> None -> q_json q' <> Some PNone ->
  fallback_snapshot E run build_watched q' later = (Ok rsp', w'') ->
  w'' = later /\ exists body, rsp_body rsp' = PDict body /\ get body "accepted" = PBool false
                 /\ get body "authority" = PStr "labrelay_hook".
Proof.
  intros Hq Hnn Ht Hi Hacc Hr Hst Hms Hmem Htime Ht' Hq1 Hq2.
  assert (take_snapshot E run build_watched true "labrelay_hook" payload w = (Ok rsp, w')) as Htake.
  { revert Hr. unfold relay_device_hook. rewrite Ht, Hq. cbn [negb]. by destruct payload. }
  apply take_marks in Htake as (result' & w1' & Hi' & _ & _ & Hmark); [|done].
  rewrite Hi in Hi'. injection Hi' as <- <-. specialize (Hmark Hacc).
  unfold fallback_snapshot. rewrite Ht'. cbn [negb].
  assert (1 <= w_ms w1 / 1000) as Hpos by (apply Z.div_le_lower_bound; lia).
  assert (hook_epoch_of (dict_or_empty (default fresh_sources (w_mem later !! source_name))) = Ok (w_ms w1 / 1000)) as Hhook.
  { rewrite Hmem. revert Hmark. unfold hook_at. destruct (hook_epoch_of _); intros Hm; [by rewrite Hm|lia]. }
  assert (hook_recent (w_ms later / 1000) (w_ms w1 / 1000) = true) as Hrec.
  { unfold hook_recent, hook_fallback_grace in *. destruct (Z.eqb_spec (w_ms w1 / 1000) 0); [lia|].
    cbn [negb andb]. apply Z.leb_le. lia. }
  destruct (q_json q') as [v|]; [|done]. destruct v; try done;
    (rewrite prog_bind_eq; unfold epoch at 1; rewrite prog_bind_eq; unfold sources at 1; rewrite prog_bind_eq;
     unfold mem_get at 1; cbn [mret prog_ret]; rewrite prog_bind_eq; unfold lift at 1; rewrite Hhook; rewrite Hrec;
     rewrite prog_bind_eq; unfold now_str at 1; intros [= <- <-]; split; [done|]; eexists; split; [reflexivity|done]).
Qed.
End Facts.

(** ** A concrete Hub *)

Definition no_output : list string -> option string := fun _ => None.
Definition one_device : pyval :=
  PDict [("list", PList [PDict [("mac", PStr "a4c3f0112233"); ("userIp", PStr "192.168.1.20"); ("hostName", PStr "Phone")]])].
Definition hook_request : request := router_request [] (Some one_device).

Lemma live_poll_is_memory_only_witness :
  snd (ingest_fixed demo_env no_output (build_canonical demo_env) PNone (Some ([one_device], PInt 1)) demo_world) = demo_world.
Proof.
  apply (live_poll_is_memory_only demo_env no_output (build_canonical demo_env) PNone [one_device] (PInt 1) demo_world
           (snd (ingest_fixed demo_env no_output (build_canonical demo_env) PNone (Some ([one_device], PInt 1)) demo_world))
           (fst (ingest_fixed demo_env no_output (build_canonical demo_env) PNone (Some ([one_device], PInt 1)) demo_world))).
  apply surjective_pairing.
Defined.

Definition ingested : result dict * world store :=
  ingest_fixed demo_env no_output (build_canonical demo_env) one_device None demo_world.
Definition hooked : result response * world store :=
  relay_device_hook demo_env no_output (build_canonical demo_env) hook_request "" demo_world.
Definition after_hook : world store := later 20000 (snd hooked).
Definition fallen_back : result response * world store :=
  fallback_snapshot demo_env no_output (build_canonical demo_env) hook_request after_hook.

Lemma hook_silences_fallback_witness : snd fallen_back = after_hook.
Proof.
  apply (hook_silences_fallback demo_env no_output (build_canonical demo_env) hook_request hook_request one_device
           demo_world (snd hooked) after_hook (snd fallen_back) (catch (fst hooked) (Response 0 PNone))
           (catch (fst fallen_back) (Response 0 PNone)) (catch (fst ingested) []) (snd ingested)).
  - reflexivity.
  - discriminate.
  - vm_compute. reflexivity.
  - change (ingested = (Ok (catch (fst ingested) []), snd ingested)).
    assert (fst ingested = Ok (catch (fst ingested) [])) as <- by (vm_compute; reflexivity). apply surjective_pairing.
  - vm_compute. reflexivity.
  - change (hooked = (Ok (catch (fst hooked) (Response 0 PNone)), snd hooked)).
    assert (fst hooked = Ok (catch (fst hooked) (Response 0 PNone))) as <- by (vm_compute; reflexivity). apply surjective_pairing.
  - vm_compute. reflexivity.
  - vm_compute. discriminate.
  - vm_compute. reflexivity.
  - vm_compute. split; discriminate.
  - vm_compute. reflexivity.
  - discriminate.
  - discriminate.
  - change (fallen_back = (Ok (catch (fst fallen_back) (Response 0 PNone)), snd fallen_back)).
    assert (fst fallen_back = Ok (catch (fst fallen_back) (Response 0 PNone))) as <- by (vm_compute; reflexivity).
    apply surjective_pairing.
Defined.
