(* ===== verification/Ddns.v ===== *)
(** * DDNS records

    The DDNS store of the Hub: addresses sampled by the LabRelay, the two-sample stability gate,
    the retry delays, the update of the providers' records and the handlers ([lab_ddns.py]).

    A record in memory always comes from [_normal_record], so its dict is a Coq record here, with
    the fields every record has.  The provider adapters ([lab_ddns_providers.py]) send signed
    HTTP requests; their answers are a parameter. *)

From S2P Require Import Prelude PyNum PyVal PyIp PyTime HubValues Json Storage Hub Services AgentCmd.

(** ** Record types and providers *)

Inductive rtype := TypeA | TypeAAAA | TypeCNAME | TypeTXT.
#[export] Instance rtype_eq : EqDecision rtype.
Proof. solve_decision. Defined.

Definition record_types : list rtype := [TypeA; TypeAAAA; TypeCNAME; TypeTXT].
Definition rtype_text (t : rtype) : string :=
  match t with TypeA => "A" | TypeAAAA => "AAAA" | TypeCNAME => "CNAME" | TypeTXT => "TXT" end.
Definition rtype_of (s : string) : option rtype := List.find (fun t => String.eqb (rtype_text t) s) record_types.
Definition has_type (t : rtype) (l : list rtype) : bool := existsb (fun x => bool_decide (x = t)) l.

(** [ProviderSpec]: every provider takes addresses. *)
Record provider_spec := { ps_id : string; ps_cname : bool; ps_txt : bool }.
Definition providers : list provider_spec :=
  [{| ps_id := "alidns"; ps_cname := true; ps_txt := true |}; {| ps_id := "dnspod"; ps_cname := true; ps_txt := true |};
   {| ps_id := "cloudflare"; ps_cname := true; ps_txt := true |}; {| ps_id := "dynv6"; ps_cname := false; ps_txt := false |};
   {| ps_id := "duckdns"; ps_cname := false; ps_txt := true |}; {| ps_id := "desec"; ps_cname := false; ps_txt := false |};
   {| ps_id := "dynu"; ps_cname := false; ps_txt := false |}; {| ps_id := "ipv64"; ps_cname := false; ps_txt := false |}].

Definition find_provider (id : string) : option provider_spec := List.find (fun p => String.eqb (ps_id p) id) providers.
#[global] Arguments find_provider _ : simpl never.
Definition supports (p : provider_spec) (t : rtype) : bool :=
  match t with TypeA | TypeAAAA => true | TypeCNAME => ps_cname p | TypeTXT => ps_txt p end.

Definition provider_specs : pyval :=
  PList (List.map (fun p => PDict
    [("id", PStr (ps_id p)); ("supportsA", PBool true); ("supportsAAAA", PBool true);
     ("recordTypes", PList (List.map (fun t => PStr (rtype_text t)) (List.filter (supports p) record_types)))]) providers).

(** ** Data *)

Definition flow_statuses : list string := ["disabled"; "waiting"; "detected"; "updating"; "published"; "error"].
Definition ipv4_states : list string := ["public"; "cgnat"; "unavailable"; "ambiguous"].
Definition ipv6_states : list string := ["public"; "unavailable"; "ambiguous"].
Definition retry_delays : list Z := [30; 120; 600; 1800].
Definition address_stale : Z := 180.

(** The stability tracker of one record type. *)
Record tracker := Tracker { t_candidate : string; t_count : Z; t_attempt : Z; t_retry_at : Z; t_auth : bool }.
Definition empty_tracker : tracker := Tracker "" 0 0 0 false.

Record stability := Stability { st_a : tracker; st_aaaa : tracker; st_cname : tracker; st_txt : tracker }.
Definition tracker_of (s : stability) (t : rtype) : tracker :=
  match t with TypeA => st_a s | TypeAAAA => st_aaaa s | TypeCNAME => st_cname s | TypeTXT => st_txt s end.
Definition set_tracker (t : rtype) (x : tracker) (s : stability) : stability :=
  match t with
  | TypeA => Stability x (st_aaaa s) (st_cname s) (st_txt s)
  | TypeAAAA => Stability (st_a s) x (st_cname s) (st_txt s)
  | TypeCNAME => Stability (st_a s) (st_aaaa s) x (st_txt s)
  | TypeTXT => Stability (st_a s) (st_aaaa s) (st_cname s) x
  end.

(** The values of the records that hold no address. *)
Record values := Values { v_cname : option string; v_txt : option string }.
Definition value_of (v : values) (t : rtype) : option string :=
  match t with TypeCNAME => v_cname v | TypeTXT => v_txt v | _ => None end.
Definition set_value (t : rtype) (x : string) (v : values) : values :=
  match t with TypeCNAME => Values (Some x) (v_txt v) | TypeTXT => Values (v_cname v) (Some x) | _ => v end.
Definition restrict_values (types : list rtype) (v : values) : values :=
  Values (if has_type TypeCNAME types then v_cname v else None) (if has_type TypeTXT types then v_txt v else None).
Definition no_values (v : values) : bool := match v with Values None None => true | _ => false end.

(** What happened to one record type in the last update. *)
Record outcome := Outcome {
  o_success : bool; o_provider : string; o_id : string; o_changed : bool; o_status : string; o_code : string; o_message : string }.

(** What the user configures. *)
Record config := Config {
  c_id : string; c_provider : string; c_hostname : string; c_types : list rtype; c_ttl : Z; c_enabled : bool; c_values : values }.
(** What the last sample said. *)
Record detection := Detection {
  d_v4 : string; d_v6 : string; d_state4 : string; d_state6 : string; d_source : string; d_at : Z }.
(** What the provider was told. *)
Record publication := Publication { p_v4 : option string; p_v6 : option string; p_values : values; p_at : option Z }.
Record flow := Flow { f_status : string; f_error : option string; f_stability : stability; f_results : list (rtype * outcome) }.
Record record := Rec { r_config : config; r_detection : detection; r_publication : publication; r_flow : flow }.

Definition r_id (r : record) : string := c_id (r_config r).
Definition r_types (r : record) : list rtype := c_types (r_config r).
Definition with_flow (f : flow) (r : record) : record := Rec (r_config r) (r_detection r) (r_publication r) f.
Definition with_status (s : string) (r : record) : record :=
  let f := r_flow r in with_flow (Flow s (f_error f) (f_stability f) (f_results f)) r.
Definition with_error (e : option string) (r : record) : record :=
  let f := r_flow r in with_flow (Flow (f_status f) e (f_stability f) (f_results f)) r.
Definition with_results (l : list (rtype * outcome)) (r : record) : record :=
  let f := r_flow r in with_flow (Flow (f_status f) (f_error f) (f_stability f) l) r.
Definition with_tracker (t : rtype) (x : tracker) (r : record) : record :=
  let f := r_flow r in with_flow (Flow (f_status f) (f_error f) (set_tracker t x (f_stability f)) (f_results f)) r.
Definition with_publication (p : publication) (r : record) : record := Rec (r_config r) (r_detection r) p (r_flow r).
Definition r_tracker (r : record) (t : rtype) : tracker := tracker_of (f_stability (r_flow r)) t.

(** The two families of addresses: [ipv4State], [detectedIpv4], [publishedIpv4] and so on. *)
Definition address_types : list rtype := [TypeA; TypeAAAA].
Definition seen (d : detection) (t : rtype) : string := match t with TypeA => d_v4 d | _ => d_v6 d end.
Definition seen_state (d : detection) (t : rtype) : string := match t with TypeA => d_state4 d | _ => d_state6 d end.
Definition published (p : publication) (t : rtype) : option string := match t with TypeA => p_v4 p | _ => p_v6 p end.
Definition set_published (t : rtype) (x : option string) (p : publication) : publication :=
  match t with
  | TypeA => Publication x (p_v6 p) (p_values p) (p_at p)
  | _ => Publication (p_v4 p) x (p_values p) (p_at p)
  end.
(** [x or ""], and [x or None]. *)
Definition text_or (o : option string) : string := default "" o.
Definition some_text (s : string) : option string := if nonempty s then Some s else None.

(** A sample of the LabRelay. *)
Record address := Address {
  a_v4 : string; a_v6 : string; a_state4 : string; a_state6 : string; a_source4 : string; a_source6 : string; a_at : Z }.

Record root := Root { g_address : option address; g_records : list record }.

(** ** Normalisation *)

Definition ip_text (v : pyval) (version : Z) : string :=
  let text := text_of v in
  match ip_of_str text with Some a => if ip_version a =? version then text else "" | None => "" end.

Definition is_fresh (now detected_at : Z) : bool :=
  ((0 <? detected_at) && (detected_at <? 1000000000))
  || ((0 <? detected_at) && (detected_at <=? now + 30) && (now - detected_at <=? address_stale)).

Definition domain_value (s : string) : string := rstrip_by (is_char "."%char) (strip s).

(** One entry of [_record_values]. *)
Definition record_value (cname : bool) (v : pyval) : option string :=
  match v with
  | PNone => None
  | _ => let text := if cname then strip (py_str v) else py_str v in if nonempty (strip text) then Some text else None
  end.
Definition record_values (v : pyval) : values :=
  match v with
  | PDict d => Values (record_value true (get d "CNAME")) (record_value false (get d "TXT"))
  | _ => Values None None
  end.
Definition domain_values (v : values) : values := Values (option_map domain_value (v_cname v)) (v_txt v).

(** [_bool]. *)
Definition bool_of (v : pyval) (dflt : bool) : bool :=
  match v with
  | PBool b => b
  | PStr s => let l := lower (strip s) in
              if str_in l ["false"; "0"; "no"; "off"] then false
              else if str_in l ["true"; "1"; "yes"; "on"] then true else dflt
  | _ => dflt
  end.

Definition normal_tracker (t : rtype) (v : pyval) : result tracker :=
  match v with
  | PDict d =>
      count ← safe_int (get d "stableCount") 0;
      attempt ← safe_int (get d "retryAttempt") 0;
      retry_at ← safe_int (get d "nextRetryAt") 0;
      mret (Tracker (match t with TypeA => ip_text (get d "candidate") 4 | TypeAAAA => ip_text (get d "candidate") 6 | _ => "" end)
              (Z.min 2 count) (Z.min 4 attempt) retry_at (bool_of (get d "authError") false))
  | _ => Ok empty_tracker
  end.

Definition normal_stability (v : pyval) : result stability :=
  let d := dict_or_empty v in
  a ← normal_tracker TypeA (get d "A");
  aaaa ← normal_tracker TypeAAAA (get d "AAAA");
  cname ← normal_tracker TypeCNAME (get d "CNAME");
  txt ← normal_tracker TypeTXT (get d "TXT");
  mret (Stability a aaaa cname txt).

Definition normal_results (v : pyval) : list (rtype * outcome) :=
  omap (fun t => match get (dict_or_empty v) (rtype_text t) with
                 | PDict d => Some (t, Outcome (truthy (get d "success")) (text_of (get d "provider")) (text_of (get d "recordId"))
                                         (truthy (get d "changed")) (text_of (get d "status")) (text_of (get d "errorCode"))
                                         (py_take 240 (text_of (get d "errorMessage"))))
                 | _ => None
                 end) record_types.

Definition state_or (states : list string) (s : string) : string := if str_in s states then s else "unavailable".

(** A state that says public without an address is not kept. *)
Definition checked_state (state value : string) : string :=
  if String.eqb state "public" && negb (nonempty value) then "unavailable" else state.

Definition normal_address (v : pyval) : result (option address) :=
  match v with
  | PDict d =>
      let v4 := ip_text (get d "detectedIpv4") 4 in
      let v6 := ip_text (get d "detectedIpv6") 6 in
      at_ ← safe_int (get d "detectedAt") 0;
      mret (Some (Address v4 v6 (state_or ipv4_states (checked_state (text_of (get d "ipv4State")) v4))
                    (state_or ipv6_states (checked_state (text_of (get d "ipv6State")) v6))
                    (text_of (get d "ipv4Source")) (text_of (get d "ipv6Source")) at_))
  | _ => Ok None
  end.

(** The record types asked for: known ones, CNAME alone, addresses by default. *)
Fixpoint dedup_types (seen l : list rtype) : list rtype :=
  match l with
  | [] => []
  | t :: l' => if has_type t seen then dedup_types seen l' else t :: dedup_types (t :: seen) l'
  end.

Definition normal_types (v : pyval) : list rtype :=
  let items := match v with PStr s => [PStr s] | PList l => l | _ => [PStr "A"; PStr "AAAA"] end in
  let types := omap (fun x => rtype_of (upper (text_of x))) items in
  let types := match types with [] => address_types | _ => types end in
  dedup_types [] (if has_type TypeCNAME types then [TypeCNAME] else types).

(** [_normal_record]; [fresh_id] is the [uuid4().hex] drawn for a record without an id. *)
Definition normal_record (fresh_id : string) (v : pyval) : result (option record) :=
  match v with
  | PDict d =>
      let provider := lower (text_of (get d "provider")) in
      match find_provider provider with
      | None => Ok None
      | Some _ =>
          let types := normal_types (get d "recordTypes") in
          let enabled := bool_of (get_or d "enabled" (PBool true)) true in
          let status := text_of (get d "status") in
          let status := if negb enabled then "disabled" else if str_in status flow_statuses then status else "waiting" in
          let only s l := let t := text_of s in state_or l t in
          ttl ← safe_int (get d "ttl") 600;
          at_ ← safe_int (get d "lastDetectedAt") 0;
          updated ← safe_int (get d "lastUpdatedAt") 0;
          stab ← normal_stability (get d "stability");
          mret (Some (Rec
            (Config (str_or (text_of (get d "id")) fresh_id) provider (text_of (get d "hostname")) types
               (Z.min 86400 (Z.max 60 ttl)) enabled (restrict_values types (domain_values (record_values (get d "recordValues")))))
            (Detection (ip_text (get d "detectedIpv4") 4) (ip_text (get d "detectedIpv6") 6)
               (only (get d "ipv4State") ipv4_states) (only (get d "ipv6State") ipv6_states) (text_of (get d "source")) at_)
            (Publication (some_text (ip_text (get d "publishedIpv4") 4)) (some_text (ip_text (get d "publishedIpv6") 6))
               (restrict_values types (domain_values (record_values (get d "publishedValues"))))
               (if updated =? 0 then None else Some updated))
            (Flow status (some_text (text_of (get d "lastError"))) stab (normal_results (get d "lastRecordResults")))))
      end
  | _ => Ok None
  end.

(** ** A sample

    [accept_address] for one record: the flags tell whether durable state changed and whether an
    update can start. *)

(** The source texts that are not empty, joined. *)
Definition source_text (a : address) : string := join "," (List.filter nonempty [a_source4 a; a_source6 a]).

Definition sampled (a : address) : detection :=
  Detection (a_v4 a) (a_v6 a) (a_state4 a) (a_state6 a) (source_text a) (a_at a).

(** The tracker of one family after a new sample; the flag marks a change worth saving. *)
Definition track (types : list rtype) (state value pub : string) (t : rtype) (x : tracker) : tracker * bool :=
  if negb (has_type t types) then (Tracker "" 0 (t_attempt x) (t_retry_at x) (t_auth x), false)
  else if String.eqb state "public" && nonempty value && negb (String.eqb value pub) then
    if String.eqb (t_candidate x) value
    then (Tracker (t_candidate x) (Z.min 2 (t_count x + 1)) (t_attempt x) (t_retry_at x) (t_auth x), false)
    else (Tracker value 1 0 0 false, false)
  else
    (if String.eqb value pub then empty_tracker else Tracker "" 0 (t_attempt x) (t_retry_at x) (t_auth x),
     nonempty (t_candidate x) || negb (t_count x =? 0)).

Definition same_detection (d d' : detection) : bool :=
  String.eqb (d_v4 d) (d_v4 d') && String.eqb (d_v6 d) (d_v6 d') && String.eqb (d_state4 d) (d_state4 d')
  && String.eqb (d_state6 d) (d_state6 d') && String.eqb (d_source d) (d_source d').

(** One family: the record, with whether it changed and whether it is ready. *)
Definition track_family (new_sample : bool) (t : rtype) (r : record) : record * bool * bool :=
  let d := r_detection r in
  let pub := text_or (published (r_publication r) t) in
  let '(x, changed) := if new_sample then track (r_types r) (seen_state d t) (seen d t) pub t (r_tracker r t)
                       else (r_tracker r t, false) in
  (with_tracker t x r, changed, (2 <=? t_count x) && nonempty (seen d t) && negb (String.eqb (seen d t) pub)).

Definition is_pending (r : record) : bool :=
  existsb (fun t => has_type t (r_types r) && String.eqb (seen_state (r_detection r) t) "public"
                    && nonempty (seen (r_detection r) t)
                    && negb (String.eqb (seen (r_detection r) t) (text_or (published (r_publication r) t)))) address_types.

Definition has_published (p : publication) : bool :=
  nonempty (text_or (p_v4 p)) || nonempty (text_or (p_v6 p)) || negb (no_values (p_values p)).

Definition has_direct (r : record) : bool :=
  existsb (fun t => has_type t (r_types r) && nonempty (strip (text_or (value_of (c_values (r_config r)) t)))) [TypeCNAME; TypeTXT].

(** The status after a sample. *)
Definition sampled_status (r : record) : string * option string :=
  let f := r_flow r in
  if negb (c_enabled (r_config r)) then ("disabled", f_error f)
  else if str_in (f_status f) ["error"; "updating"] then (f_status f, f_error f)
  else if is_pending r then ("detected", None)
  else if has_published (r_publication r) then ("published", None)
  else if has_direct r then ("detected", None) else ("waiting", None).

Definition same_error (a b : option string) : bool := bool_decide (a = b).

Definition accept_record (a : address) (new_sample : bool) (r : record) : record * bool * bool :=
  let d := sampled a in
  let moved := negb (same_detection (r_detection r) d) in
  let r := Rec (r_config r) d (r_publication r) (r_flow r) in
  let '(r, c4, ready4) := track_family new_sample TypeA r in
  let '(r, c6, ready6) := track_family new_sample TypeAAAA r in
  let '(status, error) := sampled_status r in
  let restated := negb (String.eqb (f_status (r_flow r)) status) || negb (same_error (f_error (r_flow r)) error) in
  ((if restated then with_error error (with_status status r) else r), moved || c4 || c6 || restated, ready4 || ready6).

Definition same_address (a b : address) : bool :=
  String.eqb (a_v4 a) (a_v4 b) && String.eqb (a_v6 a) (a_v6 b) && String.eqb (a_state4 a) (a_state4 b)
  && String.eqb (a_state6 a) (a_state6 b) && String.eqb (a_source4 a) (a_source4 b) && String.eqb (a_source6 a) (a_source6 b).

Definition accept_all (a : address) (new_sample : bool) (rs : list record) : list record * bool * bool :=
  let l := List.map (accept_record a new_sample) rs in
  (List.map (fun x => x.1.1) l, existsb (fun x => x.1.2) l, existsb snd l).

(** ** An update *)

Definition noop (p : string) : outcome := Outcome true p "" false "noop" "" "".
Definition held (p status code message : string) : outcome := Outcome false p "" false status code message.

Definition stale_text : string := "检测地址已过期，请先刷新检测地址".

(** What to do about a family: the outcome at once, or the value to send. *)
Definition plan_address (now : Z) (force : bool) (r : record) (t : rtype) : outcome + string :=
  let d := r_detection r in
  let p := c_provider (r_config r) in
  let x := r_tracker r t in
  if String.eqb (seen_state d t) "public" && nonempty (seen d t)
     && negb (String.eqb (seen d t) (text_or (published (r_publication r) t))) then
    if negb (is_fresh now (d_at d)) then inl (held p "stale_address" "stale_address" stale_text)
    else if t_count x <? 2 then inl (held p "waiting_for_stability" "" "")
    else if t_auth x && negb force then inl (held p "credential_error" "credential_error" "credentials require correction")
    else if (now <? t_retry_at x) && negb force then inl (held p "retry_backoff" "retry_backoff" "retry is deferred")
    else inr (seen d t)
  else inl (noop p).

Definition plan_direct (now : Z) (force : bool) (spec : provider_spec) (r : record) (t : rtype) : outcome + string :=
  let p := ps_id spec in
  let x := r_tracker r t in
  let value := text_or (value_of (c_values (r_config r)) t) in
  if negb (supports spec t) then inl (held p "error" "unsupported_record_type" "provider does not support this record type")
  else if negb (nonempty value) then inl (held p "error" "value_required" "record value is required")
  else if String.eqb value (text_or (value_of (p_values (r_publication r)) t)) then inl (noop p)
  else if t_auth x && negb force then inl (held p "credential_error" "credential_error" "credentials require correction")
  else if (now <? t_retry_at x) && negb force then inl (held p "retry_backoff" "retry_backoff" "retry is deferred")
  else inr value.

Definition plan (now : Z) (force : bool) (spec : provider_spec) (r : record) : list (rtype * (outcome + string)) :=
  List.map (fun t => (t, match t with
                         | TypeA | TypeAAAA => plan_address now force r t
                         | _ => plan_direct now force spec r t
                         end)) (List.filter (fun t => has_type t (r_types r)) record_types).

Definition planned_results (l : list (rtype * (outcome + string))) : list (rtype * outcome) :=
  omap (fun tx => match tx.2 with inl o => Some (tx.1, o) | inr _ => None end) l.
Definition planned_work (l : list (rtype * (outcome + string))) : list (rtype * string) :=
  omap (fun tx => match tx.2 with inl _ => None | inr v => Some (tx.1, v) end) l.

#[global] Arguments plan _ _ _ _ : simpl never.
#[global] Arguments planned_work _ : simpl never.
#[global] Arguments planned_results _ : simpl never.

Definition any_status (statuses : list string) (l : list (rtype * outcome)) : bool :=
  existsb (fun to => str_in (o_status to.2) statuses) l.

(** The record after an update with nothing to send. *)
Definition settle_idle (results : list (rtype * outcome)) (r : record) : record :=
  let r := with_results results r in
  if any_status ["waiting_for_stability"; "retry_backoff"; "credential_error"; "stale_address"] results then
    let r := if String.eqb (f_status (r_flow r)) "error" then r else with_status "detected" r in
    match List.find (fun to => String.eqb (o_status to.2) "stale_address") results with
    | Some (_, o) => if nonempty (o_message o) then with_error (Some (o_message o)) r else r
    | None => r
    end
  else if any_status ["error"] results then with_status "error" r
  else if has_published (r_publication r) then with_error None (with_status "published" r) else r.

(** [ProviderResult]: what the adapter of a provider answers. *)
Record provider_result := ProviderResult {
  pr_ok : bool; pr_error : string; pr_provider : string; pr_id : string; pr_changed : bool; pr_code : string; pr_message : string }.

Definition credentials := list (string * string).

Definition redact_error (s : string) (c : credentials) : string :=
  py_take 240 (fold_left (fun text kv => let secret := strip kv.2 in
                                         if 3 <=? py_len secret then replace secret "[REDACTED]" text else text) c (strip s)).

(** The outcome of an answer; [None] when the adapter raised. *)
Definition answered (p : string) (c : credentials) (answer : option provider_result) : outcome :=
  match answer with
  | Some a => Outcome (pr_ok a) (str_or (pr_provider a) p) (pr_id a) (pr_changed a)
                (if pr_ok a then "published" else "error") (pr_code a) (redact_error (str_or (pr_message a) (pr_error a)) c)
  | None => Outcome false p "" false "error" "provider_error" (redact_error "provider request failed" c)
  end.

Definition auth_codes : list string :=
  ["401"; "403"; "http_401"; "http_403"; "InvalidAccessKey"; "InvalidAccessKeyId"; "AuthFailure"; "credential_error";
   "authentication_failed"].

Definition delay_after (attempt : Z) : Z := nth (Z.to_nat (Z.min (attempt - 1) 3)) retry_delays 0.

(** What the record learns from one outcome. *)
Definition publish (now : Z) (t : rtype) (r : record) : record :=
  let p := r_publication r in
  let p := match t with
           | TypeA | TypeAAAA => set_published t (some_text (seen (r_detection r) t)) p
           | _ => Publication (p_v4 p) (p_v6 p) (set_value t (text_or (value_of (c_values (r_config r)) t)) (p_values p)) (p_at p)
           end in
  with_tracker t empty_tracker (with_publication (Publication (p_v4 p) (p_v6 p) (p_values p) (Some now)) r).

Definition fail (now : Z) (c : credentials) (t : rtype) (o : outcome) (r : record) : record :=
  let x := r_tracker r t in
  let code := strip (o_code o) in
  let auth := str_in code auth_codes in
  let attempt := Z.min 4 (t_attempt x + 1) in
  with_error (Some (str_or (redact_error (o_message o) c) (str_or code "provider update failed")))
    (with_tracker t (Tracker (t_candidate x) (t_count x) attempt (if auth then 0 else now + delay_after attempt) auth) r).

Definition settle_one (now : Z) (c : credentials) (r : record) (to : rtype * outcome) : record :=
  let '(t, o) := to in
  if o_success o then publish now t r
  else if str_in (o_status o) ["waiting_for_stability"; "retry_backoff"] then r
  else if String.eqb (o_status o) "stale_address" then with_error (Some (strip (o_message o))) r
  else fail now c t o r.

Definition is_pending_outcome (o : outcome) : bool :=
  negb (o_success o) && str_in (o_status o) ["waiting_for_stability"; "retry_backoff"; "stale_address"].
Definition is_stale_outcome (o : outcome) : bool := negb (o_success o) && String.eqb (o_status o) "stale_address".
Definition is_error_outcome (o : outcome) : bool := negb (o_success o) && negb (is_pending_outcome o).

(** The record after the providers have answered. *)
Definition settle (now : Z) (c : credentials) (results : list (rtype * outcome)) (r : record) : record :=
  let r := fold_left (settle_one now c) results r in
  let any_error := existsb (fun to => is_error_outcome to.2) results in
  let pending := existsb (fun to => is_pending_outcome to.2) results in
  let r := with_status (if any_error then "error" else if pending then "detected" else "published") (with_results results r) in
  if any_error || pending then r else with_error None r.
#[global] Arguments settle_idle _ _ : simpl never.
#[global] Arguments settle _ _ _ _ : simpl never.
