(* ===== verification/DdnsStore.v ===== *)
(** * The DDNS store and its handlers

    [LabDdnsStore] and [LabDdnsSecretsStore] of [lab_ddns.py]: what is kept in memory and
    written to the file, the two locked halves of [run_update] with the calls of the provider in
    between, the background worker and the handlers of the APP.

    Writing a file succeeds.  The adapters of [lab_ddns_providers.py] and what other threads do
    while they answer are parameters. *)

From S2P Require Import Prelude PyNum PyVal PyIp PyTime HubValues Json Storage Hub Services AgentCmd Ddns.

(** ** The JSON of a record *)

Definition opt_str (o : option string) : pyval := match o with Some s => PStr s | None => PNone end.
Definition opt_int (o : option Z) : pyval := match o with Some n => PInt n | None => PNone end.

Definition values_json (v : values) : pyval :=
  PDict (match v_cname v with Some s => [("CNAME", PStr s)] | None => [] end
         ++ match v_txt v with Some s => [("TXT", PStr s)] | None => [] end).

Definition tracker_json (x : tracker) : pyval :=
  PDict [("candidate", PStr (t_candidate x)); ("stableCount", PInt (t_count x)); ("retryAttempt", PInt (t_attempt x));
         ("nextRetryAt", PInt (t_retry_at x)); ("authError", PBool (t_auth x))].
Definition stability_json (s : stability) : pyval :=
  PDict (List.map (fun t => (rtype_text t, tracker_json (tracker_of s t))) record_types).

Definition outcome_json (t : rtype) (o : outcome) : pyval :=
  PDict [("success", PBool (o_success o)); ("status", PStr (o_status o)); ("provider", PStr (o_provider o));
         ("recordType", PStr (rtype_text t)); ("recordId", PStr (o_id o)); ("changed", PBool (o_changed o));
         ("errorCode", PStr (o_code o)); ("errorMessage", PStr (o_message o))].
Definition results_json (l : list (rtype * outcome)) : pyval :=
  PDict (List.map (fun to => (rtype_text to.1, outcome_json to.1 to.2)) l).

Definition record_fields (r : record) : dict :=
  let c := r_config r in let d := r_detection r in let p := r_publication r in let f := r_flow r in
  [("id", PStr (c_id c)); ("provider", PStr (c_provider c)); ("hostname", PStr (c_hostname c));
   ("recordTypes", PList (List.map (fun t => PStr (rtype_text t)) (c_types c))); ("ttl", PInt (c_ttl c));
   ("enabled", PBool (c_enabled c)); ("detectedIpv4", PStr (d_v4 d)); ("detectedIpv6", PStr (d_v6 d));
   ("ipv4State", PStr (d_state4 d)); ("ipv6State", PStr (d_state6 d)); ("publishedIpv4", opt_str (p_v4 p));
   ("publishedIpv6", opt_str (p_v6 p)); ("recordValues", values_json (c_values c));
   ("publishedValues", values_json (p_values p)); ("source", PStr (d_source d)); ("status", PStr (f_status f));
   ("lastDetectedAt", PInt (d_at d)); ("lastUpdatedAt", opt_int (p_at p)); ("lastError", opt_str (f_error f));
   ("stability", stability_json (f_stability f)); ("lastRecordResults", results_json (f_results f))].
Definition record_json (r : record) : pyval := PDict (record_fields r).

Definition address_json (o : option address) : pyval :=
  match o with
  | None => PDict []
  | Some a => PDict [("detectedIpv4", PStr (a_v4 a)); ("detectedIpv6", PStr (a_v6 a)); ("ipv4State", PStr (a_state4 a));
                     ("ipv6State", PStr (a_state6 a)); ("ipv4Source", PStr (a_source4 a)); ("ipv6Source", PStr (a_source6 a));
                     ("detectedAt", PInt (a_at a))]
  end.

Definition root_fields (record_view : record -> pyval) (g : root) : dict :=
  [("version", PInt 1); ("address", address_json (g_address g)); ("records", PList (List.map record_view (g_records g)))].
Definition root_json (g : root) : pyval := PDict (root_fields record_json g).

(** ** The store *)

(** A call of [provider.sync_record]. *)
Record call := Call { k_id : string; k_provider : string; k_hostname : string; k_type : rtype; k_value : string; k_ttl : Z }.

Record ddns := Ddns {
  s_root : root;
  s_file : option pyval;              (** what [lab_ddns.json] holds *)
  s_secrets : gmap string credentials;
  s_event : bool;                     (** [auto_event] *)
  s_now : Z;                          (** [int(time.time())] *)
  s_draws : nat;                      (** ids drawn so far *)
  s_calls : list call;                (** calls of the providers so far *)
}.

Definition with_root (g : root) (s : ddns) : ddns :=
  Ddns g (s_file s) (s_secrets s) (s_event s) (s_now s) (s_draws s) (s_calls s).
Definition with_secrets (m : gmap string credentials) (s : ddns) : ddns :=
  Ddns (s_root s) (s_file s) m (s_event s) (s_now s) (s_draws s) (s_calls s).
Definition with_event (b : bool) (s : ddns) : ddns :=
  Ddns (s_root s) (s_file s) (s_secrets s) b (s_now s) (s_draws s) (s_calls s).
Definition drawn (s : ddns) : ddns :=
  Ddns (s_root s) (s_file s) (s_secrets s) (s_event s) (s_now s) (1 + s_draws s)%nat (s_calls s).
Definition with_call (k : call) (s : ddns) : ddns :=
  Ddns (s_root s) (s_file s) (s_secrets s) (s_event s) (s_now s) (s_draws s) (s_calls s ++ [k]).
(** [_save_locked]. *)
Definition saved (s : ddns) : ddns :=
  Ddns (s_root s) (Some (root_json (s_root s))) (s_secrets s) (s_event s) (s_now s) (s_draws s) (s_calls s).
Definition save_locked : prog ddns unit := changes saved.
Definition set_event (b : bool) : prog ddns unit := changes (with_event b).

Definition set_records (l : list record) : prog ddns unit := changes (fun s => with_root (Root (g_address (s_root s)) l) s).

(** [next((item for item in records if item["id"] == id), None)], and a change of that item. *)
Definition record_at (id : string) (s : ddns) : option record :=
  List.find (fun r => String.eqb (r_id r) id) (g_records (s_root s)).
Fixpoint change_first (id : string) (f : record -> record) (l : list record) : list record :=
  match l with
  | [] => []
  | r :: l' => if String.eqb (r_id r) id then f r :: l' else r :: change_first id f l'
  end.
Definition change_record (id : string) (f : record -> record) : prog ddns unit :=
  changes (fun s => with_root (Root (g_address (s_root s)) (change_first id f (g_records (s_root s)))) s).

(** *** The secrets *)

Definition safe_credentials (d : dict) : credentials :=
  List.filter (fun kv => nonempty kv.2) (List.map (fun kv => (kv.1, text_of kv.2)) d).

Definition save_secrets (id : string) (d : dict) : prog ddns bool :=
  match safe_credentials d with
  | [] => mret false
  | safe => _ ← changes (fun s => with_secrets (<[id := safe]> (s_secrets s)) s); mret true
  end.
Definition get_secrets (id : string) (s : ddns) : credentials := default [] (s_secrets s !! id).
Definition secrets_configured (id : string) (s : ddns) : bool := match get_secrets id s with [] => false | _ => true end.
Definition delete_secrets (id : string) : prog ddns unit := changes (fun s => with_secrets (delete id (s_secrets s)) s).

(** Reading the secrets file: the JSON text of [{"version": 1, "records": {id: {name: text}}}]. *)
Definition load_secrets (raw : pyval) : gmap string credentials :=
  list_to_map (omap (fun kv => match kv.2 with PDict d => Some (kv.1, safe_credentials d) | _ => None end)
                 (dict_or_empty (match raw with PDict d => get d "records" | _ => PNone end))).

Definition save_credentials (id : string) (d : dict) : prog ddns bool :=
  saved ← save_secrets id d;
  _ ← (if saved : bool then set_event true else mret tt);
  mret saved.

(** ** A sample from the LabRelay *)

Definition accept_address (value : pyval) : prog ddns bool :=
  address ← lift (normal_address value);
  match address with
  | None => mret false
  | Some a =>
      s ← reads id;
      let previous := g_address (s_root s) in
      let previous_at := match previous with Some p => a_at p | None => 0 end in
      let a := if a_at a =? 0
               then Address (a_v4 a) (a_v6 a) (a_state4 a) (a_state6 a) (a_source4 a) (a_source6 a)
                      (if previous_at =? 0 then s_now s else previous_at)
               else a in
      let new_sample := match previous with Some p => negb (a_at p =? a_at a) | None => true end in
      let moved := match previous with Some p => negb (same_address p a) | None => true end in
      let '(records, changed, ready) := accept_all a new_sample (g_records (s_root s)) in
      _ ← changes (with_root (Root (Some a) records));
      _ ← (if moved || changed then save_locked else mret tt);
      _ ← (if ready : bool then set_event true else mret tt);
      mret true
  end.

(** ** Start of the Hub *)

(** A restart waits for new samples before the two-sample gate is met. *)
Definition reset_candidates (r : record) : record :=
  let reset x := Tracker "" 0 (t_attempt x) (t_retry_at x) (t_auth x) in
  let s := f_stability (r_flow r) in
  with_flow (Flow (f_status (r_flow r)) (f_error (r_flow r))
    (Stability (reset (st_a s)) (reset (st_aaaa s)) (reset (st_cname s)) (reset (st_txt s))) (f_results (r_flow r))) r.

Section Providers.
Context (E : env) (fresh_uuid : nat -> string).
(** The answer to a call of a provider, by the number of the call; [None] when it raises. *)
Context (sync_record : nat -> call -> credentials -> option provider_result).
(** What other threads do to the store while the provider answers. *)
Context (meanwhile : ddns -> ddns).

(** [_normal_record], with the id it may draw. *)
Definition normal_record_m (v : pyval) : prog ddns (option record) := fun s =>
  let r := normal_record (fresh_uuid (s_draws s)) v in
  (r, match r with
      | Ok (Some _) => if nonempty (text_of (get (dict_or_empty v) "id")) then s else drawn s
      | _ => s
      end).

Fixpoint load_records (items : list pyval) : prog ddns (list record) :=
  match items with
  | [] => mret []
  | item :: items' =>
      r ← normal_record_m item;
      rs ← load_records items';
      mret (match r with Some r => reset_candidates r :: rs | None => rs end)
  end.

(** [_load]; a failure leaves what was read before it. *)
Definition load_file : prog ddns unit :=
  s ← reads id;
  match s_file s with
  | Some (PDict raw) =>
      address ← lift (normal_address (get raw "address"));
      _ ← changes (fun s => with_root (Root address (g_records (s_root s))) s);
      items ← lift (py_iter (get_or raw "records" (PList [])));
      records ← load_records items;
      set_records records
  | _ => mret tt
  end.
Definition load : prog ddns unit := try_except load_file (fun _ => mret tt).

(** ** Validation *)

Definition valid_label (s : string) : bool :=
  nonempty s && (py_len s <=? 63)
  && match s with EmptyString => false | String c _ => is_alnum c end
  && match String.get (String.length s - 1) s with Some c => is_alnum c | None => false end
  && sall (fun c => is_alnum c || is_char "-"%char c) s.

Definition valid_cname (value hostname : string) : bool :=
  let target := lower (domain_value value) in
  let owner := lower (domain_value hostname) in
  if negb (nonempty target) || negb (nonempty owner) || String.eqb target owner || contains "://" target
     || contains "/" target || sexists is_space target
  then false
  else (2 <=? Z.of_nat (List.length (split "." target))) && forallb valid_label (split "." target).

(** The distinct texts of a list. *)
Fixpoint distinct (l : list string) : list string :=
  match l with
  | [] => []
  | s :: l' => if str_in s l' then distinct l' else s :: distinct l'
  end.

Definition validate_record_input (value : dict) (r : record) : result unit :=
  let items := match get value "recordTypes" with PStr s => [PStr s] | PList l => l | _ => [] end in
  let requested := distinct (omap (fun x => let t := text_of x in if nonempty t then Some (upper t) else None) items) in
  if str_in "CNAME" requested && (1 <? Z.of_nat (List.length requested))
  then raise_value_error "CNAME cannot be combined with another record type"
  else match find_provider (c_provider (r_config r)) with
       | None => raise_value_error "unknown provider"
       | Some spec =>
           match List.find (fun t => negb (supports spec t)) (r_types r) with
           | Some t => raise_value_error ("provider does not support record type: " +:+ rtype_text t)
           | None =>
               let v := c_values (r_config r) in
               if has_type TypeCNAME (r_types r) && negb (valid_cname (text_or (v_cname v)) (c_hostname (r_config r)))
               then raise_value_error "CNAME target must be a different domain name"
               else if has_type TypeTXT (r_types r) && negb (nonempty (strip (text_or (v_txt v))))
               then raise_value_error "TXT value is required"
               else Ok tt
           end
       end.

(** ** Saving a record *)

(** Status of a record that was just configured. *)
Definition has_content (d : detection) (v : values) : bool := nonempty (d_v4 d) || nonempty (d_v6 d) || negb (no_values v).
Definition configured_status (d : detection) (v : values) : string := if has_content d v then "detected" else "waiting".

#[export] Instance values_eq : EqDecision values.
Proof. solve_decision. Defined.

(** The new state of a record that exists. *)
Definition updated_record (value : dict) (old new : record) : record :=
  let c := r_config new in
  let types := c_types c in
  let oc := r_config old in
  let types_changed := negb (bool_decide (c_types oc = types)) in
  let values_changed := negb (bool_decide (c_values oc = c_values c)) in
  let v := if has value "recordValues" then c_values c else restrict_values types (c_values oc) in
  let enabled := bool_of (get_or value "enabled" (PBool (c_enabled oc))) true in
  let p := r_publication old in
  let f := r_flow old in
  let status := if negb enabled then "disabled"
                else if types_changed || values_changed || String.eqb (f_status f) "disabled"
                     then configured_status (r_detection old) v else f_status f in
  Rec (Config (c_id oc) (c_provider c) (c_hostname c) types (if has value "ttl" then c_ttl c else c_ttl oc) enabled v)
      (r_detection old)
      (Publication (p_v4 p) (p_v6 p) (restrict_values types (p_values p)) (p_at p))
      (Flow status (f_error f) (f_stability f) (f_results f)).

(** A new record takes the address of the last sample. *)
Definition created_record (a : option address) (new : record) : record :=
  let d := match a with
           | Some a => sampled a
           | None => Detection "" "" "unavailable" "unavailable" "" 0
           end in
  let c := r_config new in
  with_status (if c_enabled c then configured_status d (c_values c) else "disabled")
    (Rec c d (r_publication new) (r_flow new)).

(** [save_record]; [id] is empty for a new record. *)
Definition save_record (value : dict) (record_id : string) : prog ddns record :=
  parsed ← normal_record_m (PDict value);
  match parsed with
  | Some new =>
      if nonempty (c_hostname (r_config new)) then
        _ ← lift (validate_record_input value new);
        s ← reads id;
        if nonempty record_id then
          match record_at record_id s with
          | Some old =>
              let r := updated_record value old new in
              _ ← change_record record_id (fun _ => r);
              _ ← save_locked;
              _ ← set_event true;
              mret r
          | None => raise (KeyError record_id)
          end
        else
          let r := created_record (g_address (s_root s)) new in
          _ ← set_records (g_records (s_root s) ++ [r]);
          _ ← save_locked;
          _ ← set_event true;
          mret r
      else lift (raise_value_error "provider and hostname are required")
  | None => lift (raise_value_error "provider and hostname are required")
  end.

Definition delete_record (id : string) : prog ddns bool :=
  s ← reads (fun s => s);
  let kept := List.filter (fun r => negb (String.eqb (r_id r) id)) (g_records (s_root s)) in
  if Nat.eqb (List.length kept) (List.length (g_records (s_root s))) then mret false
  else _ ← set_records kept; _ ← save_locked; mret true.

(** ** Running an update *)

Record update_result := UpdateResult { u_ok : bool; u_status : string; u_results : list (rtype * outcome) }.

(** The calls an update makes, with the results known before. *)
Record job := Job {
  j_record : record; j_results : list (rtype * outcome); j_work : list (rtype * string); j_credentials : credentials }.

(** The first half, under the lock. *)
Definition start_update (record_id : string) (force : bool) : prog ddns (update_result + job) :=
  s ← reads id;
  match record_at record_id s with
  | None => raise (KeyError record_id)
  | Some r =>
      if negb (c_enabled (r_config r)) then
        _ ← change_record record_id (with_status "disabled");
        _ ← save_locked;
        mret (inl (UpdateResult true "disabled" []))
      else
        match find_provider (c_provider (r_config r)) with
        | None => lift (raise_value_error "unknown provider")
        | Some spec =>
            let planned := plan (s_now s) force spec r in
            let results := planned_results planned in
            match planned_work planned with
            | [] =>
                let r' := settle_idle results r in
                _ ← change_record record_id (fun _ => r');
                _ ← save_locked;
                mret (inl (UpdateResult (negb (any_status ["error"; "stale_address"] results)) (f_status (r_flow r')) results))
            | work =>
                _ ← change_record record_id (with_status "updating");
                _ ← save_locked;
                mret (inr (Job r results work (get_secrets record_id s)))
            end
        end
  end.

(** One call of the provider, without the lock. *)
Definition call_of (c : config) (tv : rtype * string) : call :=
  Call (c_id c) (c_provider c) (c_hostname c) tv.1 tv.2 (c_ttl c).

Definition send (j : job) (tv : rtype * string) : prog ddns (rtype * outcome) := fun s =>
  let k := call_of (r_config (j_record j)) tv in
  (Ok (tv.1, answered (k_provider k) (j_credentials j) (sync_record (List.length (s_calls s)) k (j_credentials j))),
   with_call k s).

Fixpoint send_all (j : job) (work : list (rtype * string)) : prog ddns (list (rtype * outcome)) :=
  match work with
  | [] => mret []
  | tv :: work' => o ← send j tv; os ← send_all j work'; mret (o :: os)
  end.

(** The second half, under the lock again; [next] raises when the record is gone. *)
Definition finish_update (record_id : string) (c : credentials) (results : list (rtype * outcome)) : prog ddns update_result :=
  s ← reads id;
  match record_at record_id s with
  | None => raise (Exn "StopIteration" "")
  | Some current =>
      let r := settle (s_now s) c results current in
      _ ← change_record record_id (fun _ => r);
      _ ← save_locked;
      mret (UpdateResult (negb (existsb (fun to => is_error_outcome to.2 || is_stale_outcome to.2) results))
              (f_status (r_flow r)) results)
  end.

Definition run_update (record_id : string) (force : bool) : prog ddns update_result :=
  started ← start_update record_id force;
  match started with
  | inl done => mret done
  | inr j =>
      answers ← send_all j (j_work j);
      _ ← changes meanwhile;
      finish_update record_id (j_credentials j) (j_results j ++ answers)
  end.

(** ** The background worker *)

(** One family of one record in [_auto_due]: due now, or the time of its next retry. *)
Definition due_family (now : Z) (r : record) (t : rtype) : bool * option Z :=
  let d := r_detection r in
  let x := r_tracker r t in
  if negb (has_type t (r_types r)) then (false, None)
  else if negb (String.eqb (seen_state d t) "public") || negb (nonempty (strip (seen d t)))
          || String.eqb (strip (seen d t)) (strip (text_or (published (r_publication r) t)))
          || (t_count x <? 2) || t_auth x || negb (is_fresh now (d_at d)) then (false, None)
  else if t_retry_at x <=? now then (true, None) else (false, Some (t_retry_at x)).

(** The earlier of two times. *)
Definition sooner (a b : option Z) : option Z :=
  match a, b with
  | Some x, Some y => Some (Z.min x y)
  | Some x, None | None, Some x => Some x
  | None, None => None
  end.

Definition due_record (now : Z) (r : record) : bool * option Z :=
  if c_enabled (r_config r) then
    let '(b4, n4) := due_family now r TypeA in
    let '(b6, n6) := due_family now r TypeAAAA in
    (b4 || b6, sooner n4 n6)
  else (false, None).

Definition auto_due (s : ddns) : list string * option Z :=
  let l := List.map (fun r => (strip (r_id r), due_record (s_now s) r)) (g_records (s_root s)) in
  (List.filter nonempty (List.map fst (List.filter (fun x => x.2.1) l)), fold_left (fun n x => sooner n x.2.2) l None).

Definition run_pending_updates : prog ddns Z :=
  ids ← reads (fun s => (auto_due s).1);
  _ ← for_each (fun i => try_except (_ ← run_update i false; mret tt) (fun _ => mret tt)) ids;
  mret (Z.of_nat (List.length ids)).

(** One round of [_auto_loop] up to the wait: how long it waits for the event. *)
Definition wait_time (now : Z) (next_retry : option Z) : Z :=
  match next_retry with None => 300 | Some t => Z.max 1 (Z.min 300 (t - now)) end.
Definition auto_round : prog ddns Z :=
  _ ← run_pending_updates;
  reads (fun s => wait_time (s_now s) (auto_due s).2).

(** ** The handlers *)

Definition public_record (s : ddns) (r : record) : pyval :=
  PDict (dset "credentialsConfigured" (PBool (secrets_configured (r_id r) s)) (record_fields r)).
Definition public_snapshot (s : ddns) : dict := root_fields (public_record s) (s_root s).

Definition unauthorized : response := error_response 401 "unauthorized".
Definition not_found : response := error_response 404 "not_found".
Definition invalid_record (message : string) : response :=
  Response 400 (PDict [("ok", PBool false); ("error", PStr "invalid_record"); ("message", PStr message)]).

Definition get_ddns (q : request) : prog ddns response :=
  if negb (check_app_token E q) then mret unauthorized
  else s ← reads id;
       mret (Response 200 (PDict ([("ok", PBool true)] ++ public_snapshot s ++ [("providers", provider_specs)]))).

Definition get_providers (q : request) : prog ddns response :=
  if negb (check_app_token E q) then mret unauthorized
  else mret (Response 200 (PDict [("ok", PBool true); ("providers", provider_specs)])).

(** The body without the credentials, and the credentials. *)
Definition split_body (q : request) : dict * pyval :=
  let body := dict_or_empty (json_body q) in
  (ddel "credentials" body, get_or body "credentials" (PDict [])).

(** [sync_direct_values]: a CNAME or TXT record is published when it is saved. *)
Definition sync_direct_values (r : record) : prog ddns record :=
  if existsb (fun t => has_type t (r_types r)) [TypeCNAME; TypeTXT] then
    _ ← run_update (r_id r) false;
    s ← reads id;
    mret (default r (record_at (r_id r) s))
  else mret r.

(** The rest of the two handlers that save a record; [id] is the id the credentials belong to. *)
Definition finish_save (credentials : pyval) (record_id : string) (r : record) : prog ddns response :=
  _ ← (match credentials with PDict d => save_credentials record_id d | _ => mret false end);
  r ← sync_direct_values r;
  s ← reads id;
  mret (Response 200 (PDict [("ok", PBool true);
          ("record", PDict (dset "credentialsConfigured" (PBool (secrets_configured record_id s)) (record_fields r)))])).

(** [except KeyError] and [except ValueError]; anything else is raised again. *)
Definition rejected (e : exn) : prog ddns response :=
  if String.eqb (exn_class e) "KeyError" then mret not_found
  else if String.eqb (exn_class e) "ValueError" then mret (invalid_record (exn_msg e))
  else raise e.

(** [try: m except ...: return the error] and then [f]. *)
Definition try_then {A} (m : prog ddns A) (f : A -> prog ddns response) : prog ddns response := fun s =>
  match m s with
  | (Ok a, s') => f a s'
  | (Err e, s') => rejected e s'
  end.

Definition add_ddns (q : request) : prog ddns response :=
  if negb (check_app_token E q) then mret unauthorized
  else let '(body, credentials) := split_body q in
       try_then (save_record body "") (fun r => finish_save credentials (r_id r) r).

Definition update_ddns (record_id : string) (q : request) : prog ddns response :=
  if negb (check_app_token E q) then mret unauthorized
  else let '(body, credentials) := split_body q in
       try_then (save_record body record_id) (finish_save credentials record_id).

Definition update_now (record_id : string) (q : request) : prog ddns response :=
  if negb (check_app_token E q) then mret unauthorized
  else
    let force := match json_body q with PDict d => bool_of (get d "force") false | _ => false end in
    try_then (run_update record_id force) (fun u =>
      mret (Response 200 (PDict [("ok", PBool (u_ok u)); ("status", PStr (u_status u)); ("results", results_json (u_results u))]))).

Definition delete_ddns (record_id : string) (q : request) : prog ddns response :=
  if negb (check_app_token E q) then mret unauthorized
  else
    found ← delete_record record_id;
    if found : bool then _ ← delete_secrets record_id; mret (Response 200 (PDict [("ok", PBool true)]))
    else mret not_found.
End Providers.

(** ** A concrete store *)

Definition demo_uuid (n : nat) : string := "id" +:+ nat_str (Z.of_nat n).
Definition accepting (n : nat) (k : call) (c : credentials) : option provider_result :=
  Some (ProviderResult true "" (k_provider k) "r1" true "" "").
Definition refusing (n : nat) (k : call) (c : credentials) : option provider_result :=
  Some (ProviderResult false "" (k_provider k) "" false "http_500" "server error").

Definition empty_ddns : ddns := Ddns (Root None []) None ∅ false 1700000000 0 [].
(** A sample with both addresses, [n] seconds after the start. *)
Definition demo_sample (state4 v4 state6 v6 : string) (n : Z) : pyval :=
  PDict [("detectedIpv4", PStr v4); ("ipv4State", PStr state4); ("ipv4Source", PStr "wan");
         ("detectedIpv6", PStr v6); ("ipv6State", PStr state6); ("detectedAt", PInt (1700000000 - 20 + n))].
Definition demo_body (types : list string) : dict :=
  [("provider", PStr "alidns"); ("hostname", PStr "home.example.org"); ("recordTypes", PList (List.map (fun t => PStr t) types))].

(** A record of both families after three samples, so that both addresses are confirmed. *)
Definition demo_setup : prog ddns unit :=
  _ ← accept_address (demo_sample "public" "203.0.113.5" "public" "2001:db8::5" 1);
  _ ← save_record demo_uuid (demo_body ["A"; "AAAA"]) "";
  _ ← accept_address (demo_sample "public" "203.0.113.5" "public" "2001:db8::5" 2);
  _ ← accept_address (demo_sample "public" "203.0.113.5" "public" "2001:db8::5" 3);
  mret tt.
Definition demo_ddns : ddns := (demo_setup empty_ddns).2.
Definition demo_record : record :=
  default (Rec (Config "" "" "" [] 0 false (Values None None)) (Detection "" "" "" "" "" 0) (Publication None None (Values None None) None)
             (Flow "" None (Stability empty_tracker empty_tracker empty_tracker empty_tracker) [])) (record_at "id0" demo_ddns).
