(* ===== verification/Credentials.v ===== *)
(** * Broadband credentials

    The APP may ask for the PPPoE user name and password of the router.  They are read from the
    router, or pushed by the agent on it, kept in memory for a short time and shown to the APP only
    ([router_relay_credentials_patch.py], with the reader of [hub.py] behind the token check of
    [hub0934_fixes.py]).  The agent learns of a request through a counter it polls. *)

From S2P Require Import Prelude PyNum PyVal PyTime HubValues Json Storage Hub Services AgentCmd Ddns DdnsStore.

(** ** Cleaning *)

Definition normalized_key (k : string) : string := sfilter (fun c => is_lower c || is_digit c) (lower k).

(** A text of mask characters: [*], [x], [X], the full stop, U+2022 and U+00B7. *)
Fixpoint masked (s : string) : bool :=
  match s with
  | EmptyString => true
  | String c s' =>
      if one_of "*xX." c then masked s'
      else match s' with
           | String d t =>
               if (byte_of c =? 194) && (byte_of d =? 183) then masked t
               else match t with
                    | String e u => (byte_of c =? 226) && (byte_of d =? 128) && (byte_of e =? 162) && masked u
                    | EmptyString => false
                    end
           | EmptyString => false
           end
  end.

(** [_clean_value]: a scalar as a text; nothing for a placeholder, and for a masked secret. *)
Definition clean_value (secret : bool) (v : pyval) : string :=
  match v with
  | PDict _ | PList _ | PNone => ""
  | _ =>
      let text := strip (py_str v) in
      let compact := sfilter (fun c => negb (is_space c)) text in
      if negb (nonempty text) || str_in (lower text) ["none"; "null"; "undefined"; "--"] then ""
      else if secret && nonempty compact && masked compact then "" else text
  end.

(** [_safe_int]. *)
Definition nonce_of (v : pyval) : Z := default 0 (int_of_str (strip (py_str v))).

(** ** Reading an answer of the router *)

Definition envelope_keys : list string := ["data"; "code"; "id"; "error"; "rcode"; "message"; "msg"].

(** [_decode_payload]: JSON in a text and the [data] of an envelope, six levels at most. *)
Fixpoint decode_payload (n : nat) (v : pyval) : pyval :=
  match n with
  | O => v
  | Datatypes.S n' =>
      match v with
      | PStr s =>
          let text := strip s in
          if starts_with "{" text || starts_with "[" text
          then match loads text with Some v' => decode_payload n' v' | None => v end
          else v
      | PDict d =>
          if has d "data" && forallb (fun k => str_in (normalized_key k) envelope_keys) (keys d)
          then decode_payload n' (get d "data") else v
      | _ => v
      end
  end.
Definition decoded (v : pyval) : pyval := decode_payload 6 v.

Definition RecursionError {A} : result A := Err (Exn "RecursionError" "maximum recursion depth exceeded").

(** The objects of an answer, outer ones first.  [depth] is the number of calls the interpreter
    still allows. *)
Fixpoint objects (depth : nat) (v : pyval) : result (list dict) :=
  match depth with
  | O => RecursionError
  | Datatypes.S depth' =>
      match decoded v with
      | PDict d => rows ← result_map (fun kv => objects depth' kv.2) d; Ok (d :: List.concat rows)
      | PList l => rows ← result_map (objects depth') l; Ok (List.concat rows)
      | _ => Ok []
      end
  end.

(** [_walk]: every key with its value, in the same order. *)
Fixpoint walk (depth : nat) (v : pyval) : dict :=
  match depth with
  | O => []
  | Datatypes.S depth' =>
      match decoded v with
      | PDict d => flat_map (fun kv => kv :: walk depth' kv.2) d
      | PList l => flat_map (walk depth') l
      | _ => []
      end
  end.

Definition username_keys : list string :=
  ["username"; "user"; "account"; "pppoeuser"; "pppoeusername"; "pppoeaccount"; "broadbandaccount"; "broadbanduser"].
Definition password_keys : list string := ["password"; "passwd"; "pwd"; "pppoepassword"; "pppoepasswd"; "broadbandpassword"].
Definition mac_keys : list string := ["mac"; "macaddr"; "macaddress"; "hwaddr"; "lanmac"].
Definition marker_keys : list string := ["name"; "ifname"; "interface"; "type"; "role"; "proto"; "protocol"; "mode"].

Definition any_key (ks : list string) (row : dict) : bool := existsb (fun k => str_in (normalized_key k) ks) (keys row).

(** [_candidate_score]. *)
Definition candidate_score (row : dict) : Z :=
  let marker := join " " (List.map (fun k => lower (clean_value false (get row k))) marker_keys) in
  (if contains "pppoe" marker then 8 else 0) + (if contains "wan" marker then 5 else 0)
  + (if any_key username_keys row then 3 else 0) + (if any_key password_keys row then 3 else 0).
Definition better (a b : dict) : bool := candidate_score b <=? candidate_score a.

(** [[0-9a-f]{2}(?::[0-9a-f]{2}){5}]. *)
Definition mac_text (s : string) : bool :=
  let parts := split ":" s in
  (List.length parts =? 6)%nat
  && forallb (fun p => (String.length p =? 2)%nat && sall (fun c => is_digit c || in_range 97 102 c) p) parts.

(** The first usable user name and password of an object. *)
Definition first_value (ks : list string) (secret : bool) (row : dict) : string :=
  fold_left (fun found kv => if negb (nonempty found) && str_in (normalized_key kv.1) ks then clean_value secret kv.2 else found)
    row "".
Definition row_user (row : dict) : string := first_value username_keys false row.
Definition row_password (row : dict) : string := first_value password_keys true row.

Definition row_mac (mac : string) (row : dict) : string :=
  fold_left (fun mac kv =>
    if negb (nonempty mac) && str_in (normalized_key kv.1) mac_keys then
      let candidate := replace "-" ":" (lower (clean_value false kv.2)) in
      if mac_text candidate then candidate else mac
    else mac) row mac.

Record found := Found { f_user : string; f_password : string; f_mac : string; f_pair : bool }.

(** One object: the first complete pair is kept; before it, single values are. *)
Definition take_row (f : found) (row : dict) : found :=
  let u := row_user row in
  let p := row_password row in
  let mac := row_mac (f_mac f) row in
  if nonempty u && nonempty p && negb (f_pair f) then Found u p mac true
  else if f_pair f then Found (f_user f) (f_password f) mac true
  else Found (str_or (f_user f) u) (str_or (f_password f) p) mac false.

Definition take_entry (up : string * string) (kv : string * pyval) : string * string :=
  let k := normalized_key kv.1 in
  if negb (nonempty up.1) && str_in k username_keys then (clean_value false kv.2, up.2)
  else if negb (nonempty up.2) && str_in k password_keys then (up.1, clean_value true kv.2) else up.

(** [_extract_router_credentials]: user name, password and LAN address. *)
Definition extract_router_credentials (depth : nat) (v : pyval) : result (string * string * string) :=
  let root := decoded v in
  rows ← objects depth root;
  let f := fold_left take_row (isort better rows) (Found "" "" "" false) in
  let up := if nonempty (f_user f) && nonempty (f_password f) then (f_user f, f_password f)
            else fold_left take_entry (walk depth root) (f_user f, f_password f) in
  mret (up.1, up.2, f_mac f).

(** ** The memory of the Hub *)

Record credential := Credential {
  cr_router : string; cr_mac : string; cr_user : string; cr_password : string; cr_completed : Z;
  cr_at : string; cr_ms : Z; cr_source : string;
}.

(** The Hub, the router, the DDNS store, and the globals of the dashboard and the credentials.
    [ROUTER_CREDENTIALS_CACHE] is empty or holds one credential; the time it was received is in
    milliseconds, and [c_limit] is the number of calls the interpreter allows. *)
Record bridge (S R : Type) := Bridge {
  b_hub : world S; b_router : R; b_ddns : ddns; b_cache : option credential; b_nonce : Z;
  b_dashboard_nonce : Z; b_dashboard_completed : Z; b_dashboard_at : string;
}.
Arguments Bridge {S R}.
Arguments b_hub {S R}.
Arguments b_router {S R}.
Arguments b_ddns {S R}.
Arguments b_cache {S R}.
Arguments b_nonce {S R}.
Arguments b_dashboard_nonce {S R}.
Arguments b_dashboard_completed {S R}.
Arguments b_dashboard_at {S R}.

Section Bridge.
Context {S R : Type} `{DocStore S} {tz : TimeZone} (E : env) (depth : nat).

(** The ways the network settings are read from the router: as they are, decoded, and from the
    dashboard. *)
Context (loaders : list (prog R pyval)).

(** What happens while the agent's request is held open, up to so many seconds. *)
Context (waiting : Z -> bridge S R -> bridge S R).

Abbreviation bridged := (prog (bridge S R)).

Definition on_world {A} (m : hub S A) : bridged A := fun b =>
  let '(r, w) := m (b_hub b) in
  (r, Bridge w (b_router b) (b_ddns b) (b_cache b) (b_nonce b) (b_dashboard_nonce b) (b_dashboard_completed b) (b_dashboard_at b)).
Definition on_rpc {A} (m : prog R A) : bridged A := fun b =>
  let '(r, x) := m (b_router b) in
  (r, Bridge (b_hub b) x (b_ddns b) (b_cache b) (b_nonce b) (b_dashboard_nonce b) (b_dashboard_completed b) (b_dashboard_at b)).
Definition on_ddns {A} (m : prog ddns A) : bridged A := fun b =>
  let '(r, d) := m (b_ddns b) in
  (r, Bridge (b_hub b) (b_router b) d (b_cache b) (b_nonce b) (b_dashboard_nonce b) (b_dashboard_completed b) (b_dashboard_at b)).
Definition set_cache (c : credential) : bridged unit := changes (fun b =>
  Bridge (b_hub b) (b_router b) (b_ddns b) (Some c) (b_nonce b) (b_dashboard_nonce b) (b_dashboard_completed b) (b_dashboard_at b)).
Definition next_nonce : bridged Z := fun b =>
  (Ok (b_nonce b + 1),
   Bridge (b_hub b) (b_router b) (b_ddns b) (b_cache b) (b_nonce b + 1) (b_dashboard_nonce b) (b_dashboard_completed b) (b_dashboard_at b)).
Definition complete_dashboard (n : Z) (at_ : string) : bridged unit := changes (fun b =>
  if b_dashboard_completed b <? n
  then Bridge (b_hub b) (b_router b) (b_ddns b) (b_cache b) (b_nonce b) (b_dashboard_nonce b) n at_ else b).

(** *** Reading the credentials *)

Definition merge_found (a b : string * string * string) : string * string * string :=
  (str_or a.1.1 b.1.1, str_or a.1.2 b.1.2, str_or a.2 b.2).
Definition is_complete (f : string * string * string) : bool := nonempty f.1.1 && nonempty f.1.2.

(** [_read_direct_credentials]: one loader after the other until both values are known; an error
    counts when nothing at all was found. *)
Fixpoint read_with (ls : list (prog R pyval)) (merged : string * string * string) (last_error : option exn)
    : prog R (string * string * string) :=
  match ls with
  | [] => match last_error with
          | Some e => if nonempty merged.1.1 || nonempty merged.1.2 || nonempty merged.2 then mret merged else raise e
          | None => mret merged
          end
  | load :: rest =>
      answer ← (fun x => match load x with
                         | (Ok v, x') => (Ok (extract_router_credentials depth v), x')
                         | (Err e, x') => (Ok (Err e), x')
                         end) : prog R (result (string * string * string));
      match answer with
      | Ok f => let merged := merge_found merged f in
                if is_complete merged then mret merged else read_with rest merged last_error
      | Err e => read_with rest merged (Some e)
      end
  end.
Definition read_direct_credentials : prog R (string * string * string) := read_with loaders ("", "", "") None.

(** *** The handlers *)

Definition cached_router (c : option credential) : string := match c with Some c => cr_router c | None => "" end.
Definition cached_mac (c : option credential) : string := match c with Some c => cr_mac c | None => "" end.
Definition cached_completed (c : option credential) : Z := match c with Some c => cr_completed c | None => 0 end.

Definition direct_credentials_refresh_view (q : request) : bridged response :=
  if negb (check_app_token E q) then mret unauthorized
  else
    nonce ← next_nonce;
    previous ← reads b_cache;
    f ← on_rpc (try_except read_direct_credentials (fun _ => mret ("", "", "")));
    now ← on_world now_str;
    ms ← on_world epoch_ms;
    let complete := is_complete f in
    _ ← (if complete
         then set_cache {| cr_router := str_or (cached_router previous) (str_or (primary_router_name E) "router");
                           cr_mac := str_or f.2 (cached_mac previous); cr_user := f.1.1; cr_password := f.1.2;
                           cr_completed := nonce; cr_at := now; cr_ms := ms; cr_source := "hub_router_rpc" |}
         else mret tt);
    mret (Response 200 (PDict
      [("ok", PBool true); ("refreshNonce", PInt nonce); ("refreshCompletedNonce", PInt (if complete then nonce else 0));
       ("credentialsAvailable", PBool complete); ("relayFallbackPending", PBool (negb complete));
       ("message", PStr (if complete then "credentials refreshed from router" else "waiting for router-local credential fallback"));
       ("time", PStr now)])).

Definition relay_credentials_push_view (q : request) : bridged response :=
  if negb (check_hook_token E q) then mret bad_agent_token
  else
    match json_body q with
    | PDict payload =>
        let username := clean_value false (get payload "username") in
        let password := clean_value true (get payload "password") in
        let completed := nonce_of (get payload "refreshNonce") in
        requested ← reads b_nonce;
        now ← on_world now_str;
        ms ← on_world epoch_ms;
        if negb (nonempty username) || negb (nonempty password) || (completed <=? 0)
        then mret (Response 422 (PDict
               [("ok", PBool false); ("error", PStr "incomplete_credentials");
                ("message", PStr "router did not expose a complete broadband credential pair"); ("refreshNonce", PInt requested)]))
        else
          _ ← set_cache {| cr_router := str_or (clean_value false (get payload "router")) (str_or (primary_router_name E) "router");
                           cr_mac := clean_value false (get payload "lanMac"); cr_user := username; cr_password := password;
                           cr_completed := completed; cr_at := now; cr_ms := ms; cr_source := "router_local_agent" |};
          mret (Response 200 (PDict [("ok", PBool true); ("time", PStr now); ("refreshNonce", PInt requested)]))
    | _ => mret (error_response 400 "invalid payload")
    end.

(** The dashboard itself comes from the router; the push of an older agent feeds the DDNS store only. *)
Definition relay_dashboard_ack (q : request) : bridged response :=
  if negb (check_hook_token E q) then mret bad_agent_token
  else
    let body := default PNone (q_json q) in
    _ ← (match body with
         | PDict payload => _ ← on_ddns (accept_address (get payload "ddnsAddress")); mret tt
         | _ => mret tt
         end);
    now ← on_world now_str;
    _ ← complete_dashboard (match body with PDict payload => nonce_of (get payload "refreshNonce") | _ => 0 end) now;
    dashboard ← reads b_dashboard_nonce;
    nonce ← reads b_nonce;
    mret (Response 200 (PDict
      [("ok", PBool true); ("ignored", PBool true); ("source", PStr "router_rpc");
       ("message", PStr "dashboard telemetry is supplied directly by Hub"); ("refreshNonce", PInt dashboard);
       ("credentialsRefreshNonce", PInt nonce); ("time", PStr now)])).

(** [ROUTER_CREDENTIALS_TTL_SEC]. *)
Definition credentials_ttl : Z :=
  Z.max 30 (match env_var E "ROUTER_CREDENTIALS_TTL_SEC" with Some s => default 120 (int_of_str s) | None => 120 end).

Definition is_stale (now_ms : Z) (c : option credential) : bool :=
  match c with Some c => (cr_ms c =? 0) || (credentials_ttl * 1000 <? now_ms - cr_ms c) | None => true end.

(** A time in milliseconds as [time.time()] gives it. *)
Definition epoch_float (ms : Z) : pyval := PFloat (f_div (f_of_Z ms) (f_of_Z 1000)).

Definition shown_credentials (now_ms : Z) (c : option credential) : dict :=
  match c with
  | Some k =>
      if is_stale now_ms c
      then [("router", PStr (cr_router k)); ("lanMac", PStr ""); ("username", PStr ""); ("password", PStr "");
            ("refreshCompletedNonce", PInt (cr_completed k))]
      else [("router", PStr (cr_router k)); ("lanMac", PStr (cr_mac k)); ("username", PStr (cr_user k));
            ("password", PStr (cr_password k)); ("refreshCompletedNonce", PInt (cr_completed k)); ("receivedAt", PStr (cr_at k));
            ("receivedEpoch", epoch_float (cr_ms k)); ("source", PStr (cr_source k))]
  | None => [("router", PStr ""); ("lanMac", PStr ""); ("username", PStr ""); ("password", PStr ""); ("refreshCompletedNonce", PInt 0)]
  end.

Definition api_router_credentials (q : request) : bridged response :=
  if negb (check_app_token E q) then mret unauthorized
  else
    allowed ← lift (check_read_token E q);
    if negb (allowed : bool) then mret unauthorized
    else
      cache ← reads b_cache;
      requested ← reads b_nonce;
      ms ← on_world epoch_ms;
      now ← on_world now_str;
      mret (Response 200 (PDict (dupdate (shown_credentials ms cache)
        [("ok", PBool true); ("stale", PBool (is_stale ms cache)); ("refreshNonce", PInt requested); ("serverTime", PStr now)]))).

(** *** The poll of the agent *)

Definition agent_pending (router : string) (doc : pyval) : result (list pyval) :=
  commands ← match doc with PDict d => py_iter (get_or d "commands" (PList [])) | _ => Ok [] end;
  Ok (firstn 5 (List.filter (fun v => match v with
                                      | PDict row => is_text (get row "router") router && is_text (get row "state") "pending"
                                      | _ => false
                                      end) commands)).

Definition agent_command_snapshot (router : string) : bridged (list pyval * Z * Z) :=
  doc ← on_world (load_json "agent_update_commands.json" (PDict [("commands", PList [])]));
  pending ← lift (agent_pending router doc);
  requested ← reads b_nonce;
  cache ← reads b_cache;
  mret (pending, requested, cached_completed cache).

(** A request that has nothing to report waits for a notification, five minutes at most. *)
Definition agent_commands_view (q : request) : bridged response :=
  if negb (check_hook_token E q) then mret bad_agent_token
  else
    let router := str_or (clean_saved_value (arg_value q "router")) (primary_router_name E) in
    let since := Z.max 0 (nonce_of (arg_value q "credentialsSince")) in
    let seconds := Z.min 300 (Z.max 0 (nonce_of (arg_value q "wait"))) in
    first ← agent_command_snapshot router;
    let '(pending, requested, _) := first in
    snap ← (if negb (seconds =? 0) && match pending with [] => true | _ => false end && (requested <=? since)
            then _ ← changes (waiting seconds); agent_command_snapshot router else mret first);
    let '(pending, requested, completed) := snap in
    now ← on_world now_str;
    mret (Response 200 (PDict
      [("ok", PBool true); ("commands", PList pending); ("credentialsRefreshNonce", PInt requested);
       ("credentialsCompletedNonce", PInt completed); ("time", PStr now)])).

(** ** The routes *)

Inductive credential_route := RefreshCredentials | PushCredentials | PushDashboard | ReadCredentials | PollCommands.

(** [start_with_scoped_routes] puts these views in the place of those of [hub.py]. *)
Definition credential_view (route : credential_route) (q : request) : bridged response :=
  match route with
  | RefreshCredentials => direct_credentials_refresh_view q
  | PushCredentials => relay_credentials_push_view q
  | PushDashboard => relay_dashboard_ack q
  | ReadCredentials => api_router_credentials q
  | PollCommands => agent_commands_view q
  end.

(** Requests one after the other; an exception is a response of the server and no more. *)
Definition serve (calls : list (credential_route * request)) (b : bridge S R) : bridge S R :=
  fold_left (fun b call => (credential_view call.1 call.2 b).2) calls b.
End Bridge.
