(* ===== verification/CredentialsFacts.v ===== *)
(** * What is known of the broadband credentials

    A pair comes from one object of the answer, the best complete one.  A masked or partial answer
    never replaces what is known, a pair is shown to a client with a token and within its time only,
    and nothing of it reaches a document. *)

From S2P Require Import Prelude PyNum PyVal PyTime HubValues Json Storage Hub Services Fixtures AgentCmd Ddns DdnsStore Credentials.

(** ** Values *)

(** Not a text of mask characters only. *)
Definition readable (p : string) : bool :=
  let compact := sfilter (fun c => negb (is_space c)) p in negb (nonempty compact && masked compact).

Lemma clean_secret v : readable (clean_value true v) = true.
Proof.
  unfold clean_value, readable. destruct v; try done; cbv zeta.
  all: destruct (_ || _); [done|]; destruct (true && _ && _) eqn:E; [done|]; cbn [andb] in E; by rewrite E.
Qed.

Lemma first_value_ind (P : string -> Prop) ks secret row : P "" -> (forall v, P (clean_value secret v)) -> P (first_value ks secret row).
Proof.
  intros H0 Hc. unfold first_value. generalize "" at 1, H0. induction row as [|kv row IH]; cbn [fold_left]; intros s Hs; [done|].
  apply IH. by destruct (_ && _).
Qed.

Definition fits_mac (mac : string) : Prop := mac = "" \/ mac_text mac = true.

Lemma row_mac_fits mac row : fits_mac mac -> fits_mac (row_mac mac row).
Proof.
  revert mac. unfold row_mac. induction row as [|kv row IH]; cbn [fold_left]; intros mac Hm; [done|].
  apply IH. destruct (_ && _); [|done]. destruct (mac_text _) eqn:E; [by right|done].
Qed.

(** ** The chosen pair *)

Definition complete_row (row : dict) : bool := nonempty (row_user row) && nonempty (row_password row).

Record chosen (rows : list dict) (f : found) : Prop := {
  se_secret : readable (f_password f) = true;
  se_mac : fits_mac (f_mac f);
  se_pair : f_pair f = true ->
    exists before row after, rows = before ++ row :: after /\ complete_row row = true
      /\ List.Forall (fun row => complete_row row = false) before /\ f_user f = row_user row /\ f_password f = row_password row;
  se_none : f_pair f = false -> List.Forall (fun row => complete_row row = false) rows;
}.

Lemma str_or_readable a b : readable a = true -> readable b = true -> readable (str_or a b) = true.
Proof. unfold str_or. by destruct (nonempty a). Qed.

Lemma take_row_chosen rows f row : chosen rows f -> chosen (rows ++ [row]) (take_row f row).
Proof.
  intros [Hs Hm Hp Hn]. assert (readable (row_password row) = true) as Hr by (apply (first_value_ind (fun p => readable p = true)); [done|apply clean_secret]).
  unfold take_row. destruct (_ && _ && _) eqn:E.
  - apply andb_true_iff in E as [Hc Hf]. apply negb_true_iff in Hf. split; cbn; [done|by apply row_mac_fits| |done].
    intros _. exists rows, row, []. split_and!; auto.
  - destruct (f_pair f) eqn:Hf; split; cbn; [done|by apply row_mac_fits| |done|by apply str_or_readable|by apply row_mac_fits|done|].
    + intros _. destruct (Hp eq_refl) as (before & row' & after & -> & H). exists before, row', (after ++ [row]).
      by rewrite <- app_assoc.
    + intros _. apply Forall_app. split; [by apply Hn|]. constructor; [|done].
      unfold complete_row. by rewrite andb_true_r in E.
Qed.

Lemma take_rows_chosen l rows f : chosen rows f -> chosen (rows ++ l) (fold_left take_row l f).
Proof.
  revert rows f. induction l as [|row l IH]; cbn [fold_left]; intros rows f Hf; [by rewrite app_nil_r|].
  replace (rows ++ row :: l) with ((rows ++ [row]) ++ l) by by rewrite <- app_assoc. by apply IH, take_row_chosen.
Qed.

Lemma selection_of rows : chosen rows (fold_left take_row rows (Found "" "" "" false)).
Proof. apply (take_rows_chosen rows []). split; cbn; [done|by left|done|done]. Qed.

Lemma take_entry_readable d up : readable up.2 = true -> readable (fold_left take_entry d up).2 = true.
Proof.
  revert up. induction d as [|kv d IH]; cbn [fold_left]; intros up Hu; [done|]. apply IH. unfold take_entry.
  destruct (_ && _); [done|]. destruct (_ && _); [apply clean_secret|done].
Qed.

Lemma better_ordered rows : ordered better (isort better rows).
Proof. apply isort_ordered; unfold better; intros; [destruct (Z.leb_spec (candidate_score y) (candidate_score x)); [by left|right; lia]|lia]. Qed.

Lemma best_first rows before row after other : isort better rows = before ++ row :: after ->
  List.Forall (fun row => complete_row row = false) before -> In other rows -> complete_row other = true ->
  candidate_score other <= candidate_score row.
Proof.
  intros E Hb Hin Hc. apply (isort_in better) in Hin. pose proof (better_ordered rows) as Ho. rewrite E in Hin, Ho.
  apply in_app_iff in Hin as [Hin|[->|Hin]]; [|lia|].
  - rewrite List.Forall_forall in Hb. rewrite (Hb _ Hin) in Hc. discriminate.
  - assert (better row other = true) as Hr; [|unfold better in Hr; lia].
    clear E Hb. induction before as [|x before IH]; [|inversion Ho; by apply IH].
    inversion Ho as [|? ? _ Hf]; subst. rewrite List.Forall_forall in Hf. by apply Hf.
Qed.

Lemma extracted_readable depth v u p mac : extract_router_credentials depth v = Ok (u, p, mac) -> readable p = true.
Proof.
  intros Hex. unfold extract_router_credentials in Hex. cbv zeta in Hex. apply result_bind_ok in Hex as (rows & _ & Hex).
  apply ok_inj in Hex. pose proof (se_secret _ _ (selection_of (isort better rows))) as Hs. injection Hex as _ <- _.
  destruct (_ && _); [done|by apply take_entry_readable].
Qed.

(** The password found in an answer of the router is never a row of mask characters and the LAN
    address is one or empty; when some object of the answer holds a user name and a password, both
    values come from one such object and none of them scores higher as a WAN or PPPoE interface. *)
Theorem extracted_pair_is_best depth v rows u p mac :
  objects depth (decoded v) = Ok rows ->
  extract_router_credentials depth v = Ok (u, p, mac) ->
  readable p = true /\ fits_mac mac
  /\ (existsb complete_row rows = true ->
      exists row, In row rows /\ complete_row row = true /\ u = row_user row /\ p = row_password row
        /\ forall other, In other rows -> complete_row other = true -> candidate_score other <= candidate_score row).
Proof.
  intros Hrows Hex. unfold extract_router_credentials in Hex. cbv zeta in Hex. rewrite Hrows in Hex. apply ok_inj in Hex.
  pose proof (selection_of (isort better rows)) as [Hs Hm Hp Hn]. set (f := fold_left take_row _ _) in *.
  injection Hex as Hu Hpw <-. split_and!; [|done|].
  - rewrite <- Hpw. destruct (_ && _); [done|by apply take_entry_readable].
  - intros (row & Hin & Hc)%existsb_exists. destruct (f_pair f).
    + destruct (Hp eq_refl) as (before & best & after & E & Hb & Hbefore & Eu & Ep). exists best.
      unfold complete_row in Hb. rewrite Eu, Ep, Hb in Hu, Hpw. split_and!; [|done|by rewrite <- Hu|by rewrite <- Hpw|].
      * apply (isort_in better). rewrite E. apply in_elt.
      * intros other Hio Hco. by apply (best_first rows before best after).
    + specialize (Hn eq_refl). rewrite List.Forall_forall in Hn. apply (isort_in better), Hn in Hin. congruence.
Qed.

Definition wan_answer : pyval :=
  PDict [("data", PStr "{'lan': 1}");
         ("rows", PList [PDict [("name", PStr "guest"); ("username", PStr "guest"); ("password", PStr "guest123")];
                         PDict [("name", PStr "wan"); ("proto", PStr "pppoe"); ("username", PStr "ad1234"); ("password", PStr "s3cret")];
                         PDict [("proto", PStr "pppoe"); ("username", PStr "ad1234"); ("password", PStr "******")];
                         PDict [("macaddr", PStr "A4-C3-F0-11-22-33")]])].

Lemma extracted_pair_is_best_witness :
  extract_router_credentials 100 wan_answer = Ok ("ad1234", "s3cret", "a4:c3:f0:11:22:33")
  /\ readable "s3cret" = true.
Proof.
  split; [by vm_compute|].
  refine (proj1 (extracted_pair_is_best 100 wan_answer _ "ad1234" "s3cret" "a4:c3:f0:11:22:33" _ _)).
  - vm_compute. reflexivity.
  - vm_compute. reflexivity.
Defined.

(** ** What the views keep *)

(** A credential of the memory: a user name and a readable password, received for a request. *)
Record usable (c : credential) : Prop := {
  us_user : cr_user c <> ""; us_secret : readable (cr_password c) = true; us_password : cr_password c <> "";
  us_completed : 0 < cr_completed c;
}.
Definition cache_ok {S R} (b : bridge S R) : Prop := 0 <= b_nonce b /\ forall c, b_cache b = Some c -> usable c.

Section Views.
Context {S R : Type} `{DocStore S} {tz : TimeZone} (E : env) (depth : nat) (loaders : list (prog R pyval))
  (waiting : Z -> bridge S R -> bridge S R).
Implicit Types (b : bridge S R).

(** A predicate that holds in the end whether the program returns or raises. *)
Abbreviation stays m I := (fun b => wp m (fun _ => I) (fun _ => I) b).

Lemma wp_state {T A} (m : prog T A) (I : T -> Prop) s : wp m (fun _ => I) (fun _ => I) s -> I (m s).2.
Proof. unfold wp. by destruct (m s) as [[a|e] s']. Qed.

Lemma wp_world {A} (m : hub S A) Q X b :
  (forall w, (m w).2 = w) -> (forall r, match r with Ok a => Q a b | Err e => X e b end) -> wp (on_world (R := R) m) Q X b.
Proof.
  intros Hm Hq. unfold wp, on_world. specialize (Hm (b_hub b)). destruct (m (b_hub b)) as [r w]. cbn in Hm. subst w.
  specialize (Hq r). by destruct b, r.
Qed.

(** A predicate on all but the router. *)
Lemma wp_rpc {A} (m : prog R A) (I : bridge S R -> Prop) (Q : A -> Prop) b :
  (forall b x, I b -> I (Bridge (b_hub b) x (b_ddns b) (b_cache b) (b_nonce b) (b_dashboard_nonce b) (b_dashboard_completed b) (b_dashboard_at b))) ->
  (forall x, wp m (fun a _ => Q a) (fun _ _ => True) x) -> I b ->
  wp (on_rpc m) (fun a b => I b /\ Q a) (fun _ => I) b.
Proof.
  intros Hi Hm Hb. unfold wp, on_rpc. specialize (Hm (b_router b)). unfold wp in Hm. destruct (m (b_router b)) as [[a|e] x]; [split|]; auto.
Qed.

Lemma read_with_readable ls merged err (x : R) : readable merged.1.2 = true ->
  wp (read_with depth ls merged err) (fun f (_ : R) => readable f.1.2 = true) (fun _ _ => True) x.
Proof.
  revert merged err x. induction ls as [|load ls IH]; intros merged err x Hm; cbn [read_with].
  - destruct err; [|done]. by destruct (_ || _).
  - apply wp_bind. unfold wp at 1. destruct (load x) as [[v|e] x']; [|by apply IH].
    destruct (extract_router_credentials depth v) as [[[u p] mac]|e] eqn:Ex; [|by apply IH]. cbv zeta.
    assert (readable p = true) as Hp by (by eapply extracted_readable).
    assert (readable (merge_found merged (u, p, mac)).1.2 = true) as Hr by by apply str_or_readable.
    destruct (is_complete _); [done|by apply IH].
Qed.

(** What every view keeps: the documents of the Hub, with [keep] the DDNS store, and a sound memory. *)
Definition kept_by (keep : bool) (b0 b : bridge S R) : Prop :=
  b_hub b = b_hub b0 /\ (keep = true -> b_ddns b = b_ddns b0) /\ cache_ok b.

Lemma wp_set_cache keep b0 b c : usable c -> kept_by keep b0 b ->
  wp (set_cache c) (fun _ => kept_by keep b0) (fun _ => kept_by keep b0) b.
Proof. intros Hc (Hh & Hd & Hn & _). split_and!; [done|done|]. split; [done|]. by intros c' [= <-]. Qed.

Lemma wp_next_nonce keep b0 b : kept_by keep b0 b ->
  wp next_nonce (fun n (b : bridge S R) => 0 < n /\ kept_by keep b0 b) (fun _ => kept_by keep b0) b.
Proof. intros (Hh & Hd & Hn & Hc). unfold wp. cbn. split; [lia|]. split_and!; [done|done|]. split; cbn; [lia|done]. Qed.

Lemma complete_usable router mac (f : string * string * string) n at_ ms src : is_complete f = true -> readable f.1.2 = true -> 0 < n ->
  usable (Credential router mac f.1.1 f.1.2 n at_ ms src).
Proof.
  intros Hc Hr Hn. apply andb_true_iff in Hc as [Hu Hp]. split; cbn; [|done| |done]; intros E0; by rewrite E0 in *.
Qed.

Ltac bridge_step :=
  match goal with
  | |- wp (if _ then _ else _) _ _ _ => case_match
  | |- wp (mret _) _ _ _ => by apply wp_ret
  | |- wp (_ ≫= _) _ _ _ => apply wp_bind
  | |- wp (reads _) _ _ _ => apply wp_reads
  | |- wp (on_world _) _ _ _ => apply wp_world; [done|intros [?|?]; [|done]]
  end.

Lemma refresh_keeps keep q b0 b : kept_by keep b0 b ->
  stays (direct_credentials_refresh_view E depth loaders q) (kept_by keep b0) b.
Proof.
  intros Hb. unfold direct_credentials_refresh_view. bridge_step; [bridge_step|]. bridge_step.
  eapply wp_mono; [by apply wp_next_nonce| |done]. intros n b1 [Hn Hb1]. cbn beta. do 3 bridge_step.
  eapply wp_mono; [eapply (wp_rpc _ (kept_by keep b0) (fun f => readable f.1.2 = true)); [done| |exact Hb1]| |done].
  - intros x. apply wp_try. eapply wp_mono; [by apply read_with_readable|done|]. by intros e x' _.
  - intros f b2 [Hb2 Hf]. cbn beta. do 4 bridge_step. cbv zeta. bridge_step.
    eapply (wp_mono _ (fun _ => kept_by keep b0) _ (fun _ => kept_by keep b0)); [|by intros; apply wp_ret|done].
    destruct (is_complete f) eqn:Hc; [apply wp_set_cache; [by apply complete_usable|done]|by apply wp_ret].
Qed.

Lemma push_keeps keep q b0 b : kept_by keep b0 b -> stays (relay_credentials_push_view E q) (kept_by keep b0) b.
Proof.
  intros Hb. unfold relay_credentials_push_view. bridge_step; [bridge_step|]. destruct (json_body q); try bridge_step.
  cbv zeta. do 5 bridge_step. bridge_step; [bridge_step|]. bridge_step.
  match goal with H : _ || _ = false |- _ => apply orb_false_iff in H as [[Hu Hp]%orb_false_iff Hn] end.
  apply negb_false_iff in Hu, Hp.
  eapply wp_mono; [apply wp_set_cache; [|exact Hb]|by intros; apply wp_ret|done].
  split; cbn; [|apply clean_secret| |lia]; intros E0; by rewrite E0 in *.
Qed.

Lemma ack_keeps q b0 b : kept_by false b0 b -> stays (relay_dashboard_ack E q) (kept_by false b0) b.
Proof.
  intros Hb. unfold relay_dashboard_ack. bridge_step; [bridge_step|]. cbv zeta. bridge_step.
  apply (wp_mono _ (fun _ => kept_by false b0) _ (fun _ => kept_by false b0)); [|intros _ b1 Hb1|done].
  - destruct (default PNone _); try bridge_step. unfold wp, on_ddns. destruct Hb as (Hh & _ & Hc).
    destruct (accept_address _ _) as [[a|e] x]; by split_and!.
  - do 3 bridge_step. apply wp_changes. destruct (b_dashboard_completed b1 <? _); do 5 bridge_step.
Qed.

Lemma read_keeps keep q b0 b : kept_by keep b0 b -> stays (api_router_credentials E q) (kept_by keep b0) b.
Proof.
  intros Hb. unfold api_router_credentials. bridge_step; [bridge_step|]. bridge_step. apply wp_lift.
  destruct (check_read_token E q) as [allowed|]; [|done]. bridge_step; [bridge_step|]. do 9 bridge_step.
Qed.

Lemma snapshot_keeps keep router b0 b : kept_by keep b0 b -> stays (agent_command_snapshot router) (kept_by keep b0) b.
Proof.
  intros Hb. unfold agent_command_snapshot. do 3 bridge_step. apply wp_lift. destruct (agent_pending router _); [|done].
  do 5 bridge_step.
Qed.

(** While a poll is held open other requests are served. *)
Lemma poll_keeps keep q b0 b : (forall n b, kept_by keep b0 b -> kept_by keep b0 (waiting n b)) -> kept_by keep b0 b ->
  stays (agent_commands_view E waiting q) (kept_by keep b0) b.
Proof.
  intros waiting_keeps Hb. unfold agent_commands_view. bridge_step; [bridge_step|]. cbv zeta. bridge_step.
  eapply wp_mono; [by apply snapshot_keeps| |done]. intros [[pending requested] completed] b1 Hb1. bridge_step.
  apply (wp_mono _ (fun _ => kept_by keep b0) _ (fun _ => kept_by keep b0)); [|intros [[? ?] ?] b2 Hb2; do 2 bridge_step; bridge_step|done].
  bridge_step; [|bridge_step]. bridge_step. apply wp_changes, snapshot_keeps. by apply waiting_keeps.
Qed.


(** C12. The reader answers [unauthorized], or fails, or the token was good and its answer shows
    neither value, or shows the pair in memory, received no longer ago than the time to live. *)
Theorem shown_password_is_fresh q b body b' status :
  api_router_credentials E q b = (Ok (Response status body), b') ->
  Response status body = unauthorized
  \/ (check_app_token E q = true /\ exists d, body = PDict d
      /\ ((get d "username" = PStr "" /\ get d "password" = PStr "" /\ get d "stale" = PBool true)
          \/ exists c, b_cache b = Some c /\ get d "username" = PStr (cr_user c) /\ get d "password" = PStr (cr_password c)
               /\ get d "stale" = PBool false /\ w_ms (b_hub b) - cr_ms c <= credentials_ttl E * 1000)).
Proof.
  unfold api_router_credentials. destruct (check_app_token E q); [|intros [= <- <- _]; by left]. cbn [negb]. rewrite prog_bind_eq.
  destruct (check_read_token E q) as [[|]|e]; [|intros [= <- <- _]; by left|done]. cbn [negb lift].
  intros [= <- <- _]. right. split; [done|]. eexists. split; [done|]. unfold shown_credentials, is_stale.
  destruct (b_cache b) as [c|]; [|by left]. destruct ((cr_ms c =? 0) || _) eqn:Es; [by left|].
  right. exists c. apply orb_false_iff in Es as [_ Es]. split_and!; [done..|lia].
Qed.
End Views.

(** ** A refresh, a masked push and a poll *)

Definition from_dashboard : list (prog unit pyval) :=
  [fun x => (raise_value_error "wire form", x); fun x => (Ok wan_answer, x)].
Definition idle_bridge : bridge store unit := Bridge demo_world tt empty_ddns None 0 0 0 "".
Definition no_news : Z -> bridge store unit -> bridge store unit := fun _ b => b.
Definition masked_push : request :=
  router_request [] (Some (PDict [("username", PStr "ad1234"); ("password", PStr "** **"); ("refreshNonce", PInt 1)])).
Definition demo_calls : list (credential_route * request) :=
  [(RefreshCredentials, app_request [] None); (PushCredentials, masked_push); (PollCommands, router_request [("wait", "30")] None)].
Definition refreshed : bridge store unit := serve demo_env 100 from_dashboard no_news demo_calls idle_bridge.

Example refreshed_pair : option_map (fun c => (cr_user c, cr_password c, cr_completed c)) (b_cache refreshed) = Some ("ad1234", "s3cret", 1).
Proof. vm_compute. reflexivity. Qed.


(** Read in time, and after the time to live. *)
Definition expired : bridge store unit :=
  Bridge (later 121000 (b_hub refreshed)) tt (b_ddns refreshed) (b_cache refreshed) (b_nonce refreshed) 0 0 "".
Definition read_at (b : bridge store unit) : result response * bridge store unit := api_router_credentials demo_env (app_request [] None) b.
Definition read_field (k : string) (b : bridge store unit) : pyval :=
  match (read_at b).1 with Ok r => get (dict_or_empty (rsp_body r)) k | Err _ => PNone end.

Example read_in_time : (read_field "password" refreshed, read_field "password" expired) = (PStr "s3cret", PStr "").
Proof. vm_compute. reflexivity. Qed.

Lemma shown_password_is_fresh_witness :
  exists body, read_at refreshed = (Ok (Response 200 body), refreshed)
  /\ (Response 200 body = unauthorized \/ (check_app_token demo_env (app_request [] None) = true /\ exists d, body = PDict d
      /\ ((get d "username" = PStr "" /\ get d "password" = PStr "" /\ get d "stale" = PBool true)
          \/ exists c, b_cache refreshed = Some c /\ get d "username" = PStr (cr_user c) /\ get d "password" = PStr (cr_password c)
               /\ get d "stale" = PBool false /\ w_ms (b_hub refreshed) - cr_ms c <= credentials_ttl demo_env * 1000))).
Proof.
  eexists. split; [vm_compute; reflexivity|].
  refine (shown_password_is_fresh demo_env (app_request [] None) refreshed _ refreshed 200 _).
  vm_compute. reflexivity.
Defined.
