(* ===== verification/DdnsFacts.v ===== *)
(** * Facts about the DDNS store

    Well-formed records, the agreement of the worker with the update it starts, what is ever
    sent, the retry schedule, the two-sample gate, restarts, and the behaviours that lose an
    update. *)

From S2P Require Import Prelude PyNum PyVal PyIp PyTime HubValues Json Storage Hub Services AgentCmd Ddns DdnsStore Fixtures.

(** ** Well-formed data *)

Definition trimmed (s : string) : bool := String.eqb (strip s) s.
(** Empty, or the trimmed text of an address of the version. *)
Definition ip_okb (version : Z) (s : string) : bool := String.eqb (ip_text (PStr s) version) s.
Definition family_version (t : rtype) : Z := match t with TypeA => 4 | _ => 6 end.

Definition tracker_okb (t : rtype) (x : tracker) : bool :=
  match t with TypeA | TypeAAAA => ip_okb (family_version t) (t_candidate x) | _ => String.eqb (t_candidate x) "" end
  && (0 <=? t_count x) && (t_count x <=? 2) && (0 <=? t_attempt x) && (t_attempt x <=? 4) && (0 <=? t_retry_at x).
Definition stability_okb (s : stability) : bool := forallb (fun t => tracker_okb t (tracker_of s t)) record_types.

Definition detection_okb (d : detection) : bool :=
  ip_okb 4 (d_v4 d) && ip_okb 6 (d_v6 d) && str_in (d_state4 d) ipv4_states && str_in (d_state6 d) ipv6_states && (0 <=? d_at d).

Definition opt_okb {A} (p : A -> bool) (o : option A) : bool := match o with Some x => p x | None => true end.
Definition publication_okb (p : publication) : bool :=
  opt_okb (fun s => nonempty s && ip_okb 4 s) (p_v4 p) && opt_okb (fun s => nonempty s && ip_okb 6 s) (p_v6 p)
  && opt_okb (fun n => 0 <? n) (p_at p).

(** Known types without repetition, at least one, CNAME alone. *)
Fixpoint types_distinct (l : list rtype) : bool :=
  match l with [] => true | t :: l' => negb (has_type t l') && types_distinct l' end.
Definition types_okb (l : list rtype) : bool :=
  negb (bool_decide (l = [])) && types_distinct l && (negb (has_type TypeCNAME l) || bool_decide (l = [TypeCNAME])).

Definition config_okb (c : config) : bool :=
  nonempty (c_id c) && trimmed (c_id c) && trimmed (c_hostname c) && types_okb (c_types c)
  && match find_provider (c_provider c) with Some _ => true | None => false end && (60 <=? c_ttl c) && (c_ttl c <=? 86400).

Definition record_okb (r : record) : bool :=
  config_okb (r_config r) && detection_okb (r_detection r) && publication_okb (r_publication r)
  && stability_okb (f_stability (r_flow r)) && str_in (f_status (r_flow r)) flow_statuses.

(** A public state comes with an address. *)
Definition public_okb (state value : string) : bool := negb (String.eqb state "public" && negb (nonempty value)).
Definition address_okb (a : address) : bool :=
  ip_okb 4 (a_v4 a) && ip_okb 6 (a_v6 a) && str_in (a_state4 a) ipv4_states && str_in (a_state6 a) ipv6_states
  && public_okb (a_state4 a) (a_v4 a) && public_okb (a_state6 a) (a_v6 a) && trimmed (a_source4 a) && trimmed (a_source6 a)
  && (0 <=? a_at a).
Definition root_okb (g : root) : bool := opt_okb address_okb (g_address g) && forallb record_okb (g_records g).

Record record_ok (r : record) : Prop := {
  ok_config : config_okb (r_config r) = true;
  ok_detection : detection_okb (r_detection r) = true;
  ok_publication : publication_okb (r_publication r) = true;
  ok_stability : stability_okb (f_stability (r_flow r)) = true;
  ok_status : str_in (f_status (r_flow r)) flow_statuses = true;
}.

Lemma record_okP r : record_okb r = true <-> record_ok r.
Proof.
  unfold record_okb. split.
  - intros [[[[? ?]%andb_prop ?]%andb_prop ?]%andb_prop ?]%andb_prop. by constructor.
  - intros []. by rewrite ok_config0, ok_detection0, ok_publication0, ok_stability0, ok_status0.
Qed.

Record root_ok (g : root) : Prop := {
  ok_address : opt_okb address_okb (g_address g) = true;
  ok_records : Forall record_ok (g_records g);
}.

Lemma root_okP g : root_okb g = true -> root_ok g.
Proof.
  intros [Ha Hr]%andb_prop. constructor; [done|]. apply List.Forall_forall. intros r Hin.
  apply record_okP. rewrite forallb_forall in Hr. by apply Hr.
Qed.

Lemma strip_idemp s : strip (strip s) = strip s.
Proof. apply strip_by_idemp. Qed.
Lemma text_of_PStr s : text_of (PStr s) = strip s.
Proof. unfold text_of, str_or_empty. cbn. by destruct s. Qed.

(** A valid address is trimmed. *)
Lemma ip_ok_trimmed v s : ip_okb v s = true -> strip s = s.
Proof.
  unfold ip_okb, ip_text. rewrite text_of_PStr, String.eqb_eq.
  destruct (ip_of_str (strip s)) as [a|]; [destruct (ip_version a =? v)|]; [done|by intros <-|by intros <-].
Qed.

Lemma ip_text_ok x v : ip_okb v (ip_text x v) = true.
Proof.
  unfold ip_okb. apply String.eqb_eq. unfold ip_text at 2 3.
  destruct (ip_of_str (text_of x)) as [a|] eqn:Ea; [|done].
  destruct (ip_version a =? v) eqn:Ev; [|done].
  unfold ip_text. rewrite text_of_PStr. unfold text_of in *. rewrite strip_idemp. by rewrite Ea, Ev.
Qed.

Lemma seen_ok d t : detection_okb d = true -> In t address_types -> ip_okb (family_version t) (seen d t) = true.
Proof. unfold detection_okb. intros Hd [<-|[<-|[]]]; to_prop; done. Qed.

Lemma published_ok p t :
  publication_okb p = true -> In t address_types -> strip (text_or (published p t)) = text_or (published p t).
Proof.
  unfold publication_okb. intros Hp [<-|[<-|[]]]; to_prop; cbn; [destruct (p_v4 p)|destruct (p_v6 p)]; cbn in *; to_prop;
    by eauto using ip_ok_trimmed.
Qed.

(** ** The worker and the update agree *)

(** An address is sent when it is public, new, fresh and confirmed, and no delay is running. *)
Definition confirmed (now : Z) (r : record) (t : rtype) : Prop :=
  seen_state (r_detection r) t = "public" /\ seen (r_detection r) t <> ""
  /\ seen (r_detection r) t <> text_or (published (r_publication r) t)
  /\ is_fresh now (d_at (r_detection r)) = true /\ 2 <= t_count (r_tracker r t).
Definition not_delayed (now : Z) (r : record) (t : rtype) : Prop :=
  t_auth (r_tracker r t) = false /\ t_retry_at (r_tracker r t) <= now.

Lemma plan_address_sends now force r t v :
  plan_address now force r t = inr v <->
  v = seen (r_detection r) t /\ confirmed now r t /\ (force = true \/ not_delayed now r t).
Proof.
  unfold plan_address, confirmed, not_delayed.
  destruct (String.eqb_spec (seen_state (r_detection r) t) "public") as [E1|E1]; [|split; [done|tauto]].
  destruct (nonempty (seen (r_detection r) t)) eqn:E2; [|apply nonempty_false in E2; split; [done|tauto]].
  apply nonempty_spec in E2.
  destruct (String.eqb_spec (seen (r_detection r) t) (text_or (published (r_publication r) t))) as [E3|E3]; [split; [done|tauto]|].
  cbn [andb negb]. destruct (is_fresh now (d_at (r_detection r))); [|split; [done|intuition done]]. cbn [negb].
  destruct (Z.ltb_spec (t_count (r_tracker r t)) 2); [split; [done|lia]|].
  destruct (t_auth (r_tracker r t)), force; cbn [andb negb]; rewrite ?andb_false_r, ?andb_true_r;
    try (split; [intros [= <-]; tauto|by intros [-> _]]).
  - split; [done|intuition done].
  - destruct (Z.ltb_spec now (t_retry_at (r_tracker r t))).
    + split; [done|]. intros (_ & _ & [|[_ ?]]); [done|lia].
    + split; [intros [= <-]; intuition lia|by intros [-> _]].
Qed.

Lemma due_family_spec now r t :
  record_ok r -> In t address_types ->
  (due_family now r t).1 = true <-> has_type t (r_types r) = true /\ confirmed now r t /\ not_delayed now r t.
Proof.
  intros Hr Ht. unfold due_family, confirmed, not_delayed.
  rewrite (ip_ok_trimmed _ _ (seen_ok _ _ (ok_detection r Hr) Ht)), (published_ok _ _ (ok_publication r Hr) Ht).
  destruct (has_type t (r_types r)); [|split; [done|tauto]]. cbn [negb].
  destruct (String.eqb_spec (seen_state (r_detection r) t) "public") as [E1|E1]; [|split; [done|tauto]].
  destruct (nonempty (seen (r_detection r) t)) eqn:E2; [|apply nonempty_false in E2; split; [done|tauto]].
  apply nonempty_spec in E2.
  destruct (String.eqb_spec (seen (r_detection r) t) (text_or (published (r_publication r) t))) as [E3|E3]; [split; [done|tauto]|].
  destruct (Z.ltb_spec (t_count (r_tracker r t)) 2); [split; [done|lia]|].
  destruct (t_auth (r_tracker r t)); [split; [done|intuition done]|].
  destruct (is_fresh now (d_at (r_detection r))); [|split; [done|intuition done]]. cbn [negb orb].
  destruct (Z.leb_spec (t_retry_at (r_tracker r t)) now); cbn [fst]; [split; [|done]; intuition lia|].
  split; [done|]. intuition lia.
Qed.

Lemma planned_work_in now force spec r t v :
  In (t, v) (planned_work (plan now force spec r)) <->
  has_type t (r_types r) = true
  /\ match t with TypeA | TypeAAAA => plan_address now force r t | _ => plan_direct now force spec r t end = inr v.
Proof.
  unfold planned_work. rewrite <- list_elem_of_In, list_elem_of_omap. split.
  - intros ([t' x] & Hin & Hx). apply list_elem_of_In in Hin. apply List.in_map_iff in Hin as (u & Hu & Hin).
    apply List.filter_In in Hin as [_ Hin]. cbn in Hx. destruct x; [done|]. by simplify_eq.
  - intros [Ht Hp]. eexists (t, inr v). split; [|done]. apply list_elem_of_In, List.in_map_iff. exists t.
    split; [by rewrite Hp|]. apply List.filter_In. split; [destruct t; cbn; tauto|done].
Qed.

(** C34. [_auto_due] and [run_update] read the same conditions from two separate pieces of code:
    the worker picks an enabled record exactly when an update that is not forced would send one
    of its addresses. *)
Theorem due_iff_sent now spec r :
  record_ok r -> c_enabled (r_config r) = true ->
  (due_record now r).1
  = existsb (fun tv => has_type tv.1 address_types) (planned_work (plan now false spec r)).
Proof.
  intros Hr He. unfold due_record. rewrite He. destruct (due_family now r TypeA) as [b4 n4] eqn:E4.
  destruct (due_family now r TypeAAAA) as [b6 n6] eqn:E6. cbn [fst].
  pose proof (due_family_spec now r TypeA Hr ltac:(cbn; tauto)) as H4. rewrite E4 in H4.
  pose proof (due_family_spec now r TypeAAAA Hr ltac:(cbn; tauto)) as H6. rewrite E6 in H6. cbn [fst] in *.
  apply Bool.eq_iff_eq_true. rewrite orb_true_iff, H4, H6, List.existsb_exists. split.
  - intros [(Ht & Hc & Hd)|(Ht & Hc & Hd)].
    + exists (TypeA, seen (r_detection r) TypeA). split; [|done]. apply planned_work_in. split; [done|]. apply plan_address_sends; auto.
    + exists (TypeAAAA, seen (r_detection r) TypeAAAA). split; [|done]. apply planned_work_in. split; [done|]. apply plan_address_sends; auto.
  - intros ([t v] & [Ht Hp]%planned_work_in & Ha). destruct t; try done; apply plan_address_sends in Hp as (_ & ? & [?|?]); try done; tauto.
Qed.

(** ** What is sent *)

Lemma find_some_in {A} (p : A -> bool) l x : List.find p l = Some x -> In x l /\ p x = true.
Proof. apply List.find_some. Qed.

(** The state after a list of calls. *)
Definition with_calls (ks : list call) (s : ddns) : ddns := fold_left (fun s k => with_call k s) ks s.

Lemma with_calls_fields ks s :
  s_calls (with_calls ks s) = s_calls s ++ ks /\ s_root (with_calls ks s) = s_root s /\ s_now (with_calls ks s) = s_now s
  /\ s_secrets (with_calls ks s) = s_secrets s.
Proof.
  revert s. induction ks as [|k ks IH]; intros s; [cbn; by rewrite app_nil_r|].
  change (with_calls (k :: ks) s) with (with_calls ks (with_call k s)).
  destruct (IH (with_call k s)) as (-> & -> & -> & ->). cbn. by rewrite <- app_assoc.
Qed.

Section Sending.
Context (sync_record : nat -> call -> credentials -> option provider_result) (meanwhile : ddns -> ddns).

(** The calls are made in order, and every one is answered. *)
Lemma send_all_eq j work s :
  exists os, send_all sync_record j work s = (Ok os, with_calls (List.map (call_of (r_config (j_record j))) work) s)
             /\ List.map fst os = List.map fst work.
Proof.
  revert s. induction work as [|tv work IH]; intros s; [by exists []|].
  cbn [send_all]. rewrite prog_bind_eq. cbn [send]. rewrite prog_bind_eq.
  destruct (IH (with_call (call_of (r_config (j_record j)) tv) s)) as (os & -> & Hos).
  eexists. split; [reflexivity|]. cbn. by rewrite Hos.
Qed.

(** What [start_update] leaves to do. *)
Lemma start_update_job i force s j s' :
  start_update i force s = (Ok (inr j), s') ->
  exists r spec, record_at i s = Some r /\ c_enabled (r_config r) = true /\ find_provider (c_provider (r_config r)) = Some spec
    /\ j_record j = r /\ j_work j = planned_work (plan (s_now s) force spec r)
    /\ j_results j = planned_results (plan (s_now s) force spec r) /\ j_credentials j = get_secrets i s
    /\ s' = saved (with_root (Root (g_address (s_root s)) (change_first i (with_status "updating") (g_records (s_root s)))) s).
Proof.
  unfold start_update. rewrite prog_bind_eq. cbn. destruct (record_at i s) as [r|]; [|done].
  destruct (c_enabled (r_config r)) eqn:He; cbn [negb]; [|done].
  destruct (find_provider (c_provider (r_config r))) as [spec|] eqn:Ef; [|done].
  destruct (planned_work _) as [|tv work] eqn:Ew; [done|]. intros [= <- <-]. exists r, spec. repeat split; by rewrite ?Ew.
Qed.

Lemma start_update_calls i force s res s' : start_update i force s = (res, s') -> s_calls s' = s_calls s.
Proof.
  unfold start_update. rewrite prog_bind_eq. cbn. destruct (record_at i s) as [r|]; [|by intros [= <- <-]].
  destruct (c_enabled (r_config r)); cbn [negb]; [|by intros [= <- <-]].
  destruct (find_provider (c_provider (r_config r))) as [spec|]; [|by intros [= <- <-]].
  destruct (planned_work _) as [|tv work]; by intros [= <- <-].
Qed.

Lemma finish_update_calls i c results s res s' : finish_update i c results s = (res, s') -> s_calls s' = s_calls s.
Proof. unfold finish_update. rewrite prog_bind_eq. cbn. destruct (record_at i s); by intros [= <- <-]. Qed.

(** A call of an update of a record: an address only when it is confirmed. *)
Definition justified (now : Z) (force : bool) (r : record) (k : call) : Prop :=
  k = call_of (r_config r) (k_type k, k_value k) /\ c_enabled (r_config r) = true /\ has_type (k_type k) (r_types r) = true
  /\ (In (k_type k) address_types ->
      k_value k = seen (r_detection r) (k_type k) /\ confirmed now r (k_type k) /\ (force = true \/ not_delayed now r (k_type k))).

End Sending.

(** ** Retry delays *)

Lemma tracker_set_eq t x s : tracker_of (set_tracker t x s) t = x.
Proof. by destruct t. Qed.
Lemma tracker_set_ne t u x s : t <> u -> tracker_of (set_tracker t x s) u = tracker_of s u.
Proof. by destruct t, u. Qed.

Definition failed_outcome (o : outcome) : Prop :=
  o_success o = false /\ str_in (o_status o) ["waiting_for_stability"; "retry_backoff"] = false /\ o_status o <> "stale_address".
Definition refused (o : outcome) : bool := str_in (strip (o_code o)) auth_codes.

Lemma settle_one_failed now c r t o :
  failed_outcome o -> settle_one now c r (t, o) = fail now c t o r.
Proof. intros (H1 & H2 & H3). unfold settle_one. rewrite H1, H2. by destruct (String.eqb_spec (o_status o) "stale_address"). Qed.

Lemma fail_tracker now c t o r :
  r_tracker (fail now c t o r) t
  = (let n := Z.min 4 (t_attempt (r_tracker r t) + 1) in
     Tracker (t_candidate (r_tracker r t)) (t_count (r_tracker r t)) n (if refused o then 0 else now + delay_after n) (refused o)).
Proof. apply tracker_set_eq. Qed.

(** After a failed update the address is not sent before the delay of its attempt is over
    and is due again as soon as it is, unless the credentials were refused: then the worker
    leaves it alone. *)
Theorem failed_update_waits now now' c r t o :
  In t address_types -> has_type t (r_types r) = true -> record_ok r -> failed_outcome o -> confirmed now' r t ->
  due_family now' (settle_one now c r (t, o)) t
  = (if refused o then (false, None)
     else let retry_at := now + delay_after (Z.min 4 (t_attempt (r_tracker r t) + 1)) in
          if retry_at <=? now' then (true, None) else (false, Some retry_at)).
Proof.
  intros Ht Hty Hr Ho (H1 & H2 & H3 & H4 & H5). rewrite settle_one_failed by done. unfold due_family.
  rewrite fail_tracker. change (r_detection (fail now c t o r)) with (r_detection r).
  change (r_publication (fail now c t o r)) with (r_publication r). change (r_types (fail now c t o r)) with (r_types r).
  rewrite (ip_ok_trimmed _ _ (seen_ok _ _ (ok_detection r Hr) Ht)), (published_ok _ _ (ok_publication r Hr) Ht).
  rewrite Hty, H1, H4. cbn [t_count t_auth t_retry_at negb].
  rewrite (proj2 (nonempty_spec _) H2). apply String.eqb_neq in H3. rewrite H3.
  apply Z.ltb_ge in H5. rewrite H5. cbn [String.eqb orb]. destruct (refused o); done.
Qed.

(** The times of the failures of one address, one after the other. *)
Fixpoint fail_times (c : credentials) (t : rtype) (o : outcome) (times : list Z) (r : record) : record :=
  match times with [] => r | now :: times' => fail_times c t o times' (settle_one now c r (t, o)) end.

Lemma fail_times_snoc c t o times now r :
  fail_times c t o (times ++ [now]) r = settle_one now c (fail_times c t o times r) (t, o).
Proof. revert r. induction times as [|n times IH]; intros r; [done|]. apply IH. Qed.

Lemma fail_times_attempt c t o times r :
  failed_outcome o -> t_attempt (r_tracker r t) = 0 ->
  t_attempt (r_tracker (fail_times c t o times r) t) = Z.min 4 (Z.of_nat (List.length times)).
Proof.
  intros Ho Hr. induction times as [|now times IH] using rev_ind; [cbn; lia|].
  rewrite fail_times_snoc, settle_one_failed, fail_tracker, IH by done. cbn [t_attempt]. rewrite length_app. cbn. lia.
Qed.

(** The delays grow to half an hour and stay there: the n-th failure in a row is followed by
    30, 120, 600 and then always 1800 seconds without an attempt. *)
Theorem retry_schedule c t o times now r :
  failed_outcome o -> refused o = false -> t_attempt (r_tracker r t) = 0 ->
  t_retry_at (r_tracker (fail_times c t o (times ++ [now]) r) t)
  = now + match List.length times with 0%nat => 30 | 1%nat => 120 | 2%nat => 600 | _ => 1800 end.
Proof.
  intros Ho Ha Hr. rewrite fail_times_snoc, settle_one_failed, fail_tracker by done. rewrite Ha. cbn [t_retry_at].
  rewrite fail_times_attempt by done. f_equal. unfold delay_after, retry_delays.
  destruct (List.length times) as [|[|[|n]]]; [done..|].
  replace (Z.to_nat _) with 3%nat by lia. done.
Qed.

(** The worker never waits past a retry: its wait is at most five minutes and ends no later
    than the earliest retry of any enabled record, or after the one second it waits at least. *)
Theorem worker_wakes_for_retries s r retry_at :
  In r (g_records (s_root s)) -> (due_record (s_now s) r).2 = Some retry_at ->
  let wait := wait_time (s_now s) (auto_due s).2 in
  1 <= wait <= 300 /\ s_now s + wait <= Z.max (s_now s + 1) retry_at.
Proof.
  intros Hin Hd. cbv zeta.
  assert (exists n, (auto_due s).2 = Some n /\ n <= retry_at) as (n & -> & Hn).
  { unfold auto_due. cbn [snd]. rewrite <- fold_left_rev_right.
    assert (In (strip (r_id r), due_record (s_now s) r)
      (rev (List.map (fun r => (strip (r_id r), due_record (s_now s) r)) (g_records (s_root s))))) as Hl.
    { apply -> List.in_rev. by apply (List.in_map (fun r => (strip (r_id r), due_record (s_now s) r))). }
    induction (rev _) as [|x l IH]; [done|]. cbn [fold_right].
    destruct Hl as [->|Hl]; cbn [snd].
    - rewrite Hd. destruct (fold_right _ None l) as [m|]; cbn; eexists; (split; [done|lia]).
    - destruct (IH Hl) as (m & -> & Hm). destruct (x.2.2); cbn; eexists; (split; [done|lia]). }
  cbn. lia.
Qed.

(** ** After a success *)

Lemma settle_one_other now c r u o t :
  u <> t -> In t address_types ->
  r_tracker (settle_one now c r (u, o)) t = r_tracker r t
  /\ published (r_publication (settle_one now c r (u, o))) t = published (r_publication r) t.
Proof.
  intros Hu Ht. unfold settle_one. destruct (o_success o).
  - split; [by apply tracker_set_ne|]. destruct Ht as [<-|[<-|[]]], u; done.
  - destruct (str_in _ _); [done|]. destruct (String.eqb _ _); [done|]. split; [by apply tracker_set_ne|done].
Qed.

Lemma settle_one_kept now c r to :
  r_detection (settle_one now c r to) = r_detection r /\ r_config (settle_one now c r to) = r_config r.
Proof. destruct to as [u o]. unfold settle_one. destruct (o_success o); [done|]. destruct (str_in _ _); [done|]. by destruct (String.eqb _ _). Qed.

Lemma settle_fold_kept now c results r :
  r_detection (fold_left (settle_one now c) results r) = r_detection r
  /\ r_config (fold_left (settle_one now c) results r) = r_config r.
Proof.
  revert r. induction results as [|to results IH]; intros r; [done|]. cbn [fold_left].
  destruct (IH (settle_one now c r to)) as [-> ->]. apply settle_one_kept.
Qed.

Lemma settle_fold_other now c results r t :
  ~ In t (List.map fst results) -> In t address_types ->
  r_tracker (fold_left (settle_one now c) results r) t = r_tracker r t
  /\ published (r_publication (fold_left (settle_one now c) results r)) t = published (r_publication r) t.
Proof.
  revert r. induction results as [|[u o] results IH]; intros r Hn Ht; [done|]. cbn [fold_left List.map fst] in *.
  destruct (IH (settle_one now c r (u, o))) as [-> ->]; [intros ?; apply Hn; by right|done|].
  apply settle_one_other; [intros ->; apply Hn; by left|done].
Qed.

(** A type with one successful outcome. *)
Lemma settle_fold_success now c results r t o :
  List.NoDup (List.map fst results) -> In (t, o) results -> o_success o = true -> In t address_types ->
  r_tracker (fold_left (settle_one now c) results r) t = empty_tracker
  /\ published (r_publication (fold_left (settle_one now c) results r)) t = some_text (seen (r_detection r) t).
Proof.
  intros Hnd Hin Ho Ht. apply List.in_split in Hin as (l1 & l2 & ->).
  rewrite List.map_app in Hnd. cbn in Hnd. apply List.NoDup_remove_2 in Hnd.
  rewrite List.fold_left_app. cbn [fold_left]. set (r1 := fold_left _ l1 r).
  destruct (settle_fold_other now c l2 (settle_one now c r1 (t, o)) t) as [-> ->];
    [intros ?; apply Hnd, List.in_or_app; by right|done|].
  unfold settle_one. rewrite Ho. split; [apply tracker_set_eq|]. unfold r1.
  rewrite <- (proj1 (settle_fold_kept now c l1 r)). by destruct Ht as [<-|[<-|[]]].
Qed.

Lemma settle_parts now c results r :
  r_detection (settle now c results r) = r_detection r /\ r_config (settle now c results r) = r_config r
  /\ r_publication (settle now c results r) = r_publication (fold_left (settle_one now c) results r)
  /\ f_stability (r_flow (settle now c results r)) = f_stability (r_flow (fold_left (settle_one now c) results r)).
Proof.
  destruct (settle_fold_kept now c results r) as [H1 H2]. unfold settle. cbv zeta.
  destruct (_ || _); cbn; by rewrite ?H1, ?H2.
Qed.

(** A successful outcome settles its address: it counts as published, its tracker is empty, and
    the worker does not pick it again until a sample with another address arrives. *)
Theorem success_settles now now' c results r t o :
  List.NoDup (List.map fst results) -> In (t, o) results -> o_success o = true -> In t address_types -> record_ok r ->
  let r' := settle now c results r in
  text_or (published (r_publication r') t) = seen (r_detection r) t /\ r_tracker r' t = empty_tracker
  /\ due_family now' r' t = (false, None).
Proof.
  intros Hnd Hin Ho Ht Hr. cbv zeta. destruct (settle_parts now c results r) as (Hd & _ & Hp & Hs).
  destruct (settle_fold_success now c results r t o Hnd Hin Ho Ht) as [Hx Hpub].
  assert (text_or (published (r_publication (settle now c results r)) t) = seen (r_detection r) t) as Hv.
  { rewrite Hp, Hpub. unfold some_text. destruct (nonempty (seen (r_detection r) t)) eqn:E; [done|]. by apply nonempty_false in E. }
  assert (r_tracker (settle now c results r) t = empty_tracker) as Hk by (unfold r_tracker; rewrite Hs; exact Hx).
  split; [done|]. split; [done|].
  unfold due_family. rewrite Hd, Hv, Hk, String.eqb_refl. destruct (has_type t _); [|done]. cbn [negb].
  by rewrite orb_true_r.
Qed.

(** ** The two-sample gate *)

(** The record after a list of samples, each newer than the one before it. *)
Definition after_samples (samples : list address) (r : record) : record :=
  fold_left (fun r a => (accept_record a true r).1.1) samples r.

Lemma after_samples_snoc l a r : after_samples (l ++ [a]) r = (accept_record a true (after_samples l r)).1.1.
Proof. unfold after_samples. by rewrite List.fold_left_app. Qed.

Lemma restated_tracker s e r t : r_tracker (with_error e (with_status s r)) t = r_tracker r t.
Proof. done. Qed.

Lemma track_family_eq t r :
  (track_family true t r).1.1
  = with_tracker t (track (r_types r) (seen_state (r_detection r) t) (seen (r_detection r) t)
                      (text_or (published (r_publication r) t)) t (r_tracker r t)).1 r.
Proof. unfold track_family. by destruct (track _ _ _ _ _ _). Qed.

(** The trackers after a sample are those of the two families. *)
Lemma accept_trackers a b r t :
  r_tracker (accept_record a b r).1.1 t
  = r_tracker (track_family b TypeAAAA (track_family b TypeA (Rec (r_config r) (sampled a) (r_publication r) (r_flow r))).1.1).1.1 t.
Proof.
  unfold accept_record. destruct (track_family b TypeA _) as [[r4 c4] ready4]. cbn [fst].
  destruct (track_family b TypeAAAA r4) as [[r6 c6] ready6]. cbn [fst].
  destruct (sampled_status r6) as [st er]. cbn [fst]. by destruct (_ || _).
Qed.

(** The tracker of a family after a new sample. *)
Lemma accept_tracker a r t :
  In t address_types ->
  r_tracker (accept_record a true r).1.1 t
  = (track (r_types r) (seen_state (sampled a) t) (seen (sampled a) t) (text_or (published (r_publication r) t)) t (r_tracker r t)).1.
Proof. intros Ht. rewrite accept_trackers, !track_family_eq. by destruct Ht as [<-|[<-|[]]]. Qed.

Lemma accept_kept a b r :
  r_publication (accept_record a b r).1.1 = r_publication r /\ r_config (accept_record a b r).1.1 = r_config r
  /\ r_detection (accept_record a b r).1.1 = sampled a.
Proof.
  unfold accept_record, track_family. cbv zeta.
  destruct b; repeat (destruct (track _ _ _ _ _ _) as [? ?]); destruct (sampled_status _); by destruct (_ || _).
Qed.

Lemma track_two types state value pub t x :
  t_count x <= 2 -> 2 <= t_count (track types state value pub t x).1 ->
  value <> "" /\ state = "public" /\ t_candidate x = value /\ 1 <= t_count x /\ t_candidate (track types state value pub t x).1 = value.
Proof.
  unfold track. intros Hx. destruct (negb (has_type t types)); cbn; [lia|].
  destruct (String.eqb_spec state "public") as [->|]; cbn [andb]; [|destruct (String.eqb value pub); cbn; lia].
  destruct (nonempty value) eqn:En; cbn [andb]; [|destruct (String.eqb value pub); cbn; lia].
  apply nonempty_spec in En. destruct (String.eqb value pub); cbn [negb andb]; [cbn; lia|].
  destruct (String.eqb_spec (t_candidate x) value); cbn; [|lia]. intros. repeat split; try done. lia.
Qed.

Lemma track_one types state value pub t x :
  1 <= t_count (track types state value pub t x).1 ->
  value <> "" /\ state = "public" /\ t_candidate (track types state value pub t x).1 = value.
Proof.
  unfold track. destruct (negb (has_type t types)); cbn; [lia|].
  destruct (String.eqb_spec state "public") as [->|]; cbn [andb]; [|destruct (String.eqb value pub); cbn; lia].
  destruct (nonempty value) eqn:En; cbn [andb]; [|destruct (String.eqb value pub); cbn; lia].
  apply nonempty_spec in En. destruct (String.eqb value pub); cbn [negb andb]; [cbn; lia|].
  by destruct (String.eqb_spec (t_candidate x) value).
Qed.

Lemma track_bound types state value pub t x : t_count x <= 2 -> t_count (track types state value pub t x).1 <= 2.
Proof. unfold track. intros ?. repeat case_match; cbn; lia. Qed.

Lemma samples_count_bound l r t : In t address_types -> t_count (r_tracker r t) <= 2 -> t_count (r_tracker (after_samples l r) t) <= 2.
Proof.
  intros Ht Hr. induction l as [|a l IH] using rev_ind; [done|].
  rewrite after_samples_snoc, accept_tracker by done. by apply track_bound.
Qed.

(** The gate of two samples: starting from an empty tracker, as after a restart or an update,
    an address counts as confirmed only when the last two samples both carried it as a public
    address. *)
Theorem gate_needs_two_samples samples r t :
  In t address_types -> t_count (r_tracker r t) = 0 -> 2 <= t_count (r_tracker (after_samples samples r) t) ->
  exists earlier a b, samples = earlier ++ [a; b] /\ seen (sampled a) t = seen (sampled b) t /\ seen (sampled b) t <> ""
    /\ seen_state (sampled a) t = "public" /\ seen_state (sampled b) t = "public".
Proof.
  intros Ht Hr. destruct samples as [|b l _] using rev_ind; [cbn; lia|].
  rewrite after_samples_snoc, accept_tracker by done. intros H.
  apply track_two in H as (Hv & Hs & Hc & H1 & _); [|by apply samples_count_bound; [|lia]].
  destruct l as [|a l _] using rev_ind; [cbn in H1; lia|].
  rewrite after_samples_snoc, accept_tracker in Hc, H1 by done. apply track_one in H1 as (Hva & Hsa & Hca).
  exists l, a, b. rewrite <- List.app_assoc. split; [done|]. rewrite <- Hc, Hca. by rewrite Hca in Hc; subst.
Qed.

(** ** Witnesses *)

Lemma demo_record_ok : record_ok demo_record.
Proof. apply record_okP. vm_compute. done. Qed.

Lemma due_iff_sent_witness :
  record_ok demo_record /\ c_enabled (r_config demo_record) = true
  /\ (due_record 1700000000 demo_record).1
     = existsb (fun tv => has_type tv.1 address_types)
         (planned_work (plan 1700000000 false {| ps_id := "alidns"; ps_cname := true; ps_txt := true |} demo_record)).
Proof. split; [apply demo_record_ok|]. split; [reflexivity|]. apply due_iff_sent; [apply demo_record_ok|reflexivity]. Defined.

Definition quiet (s : ddns) : ddns := s.


Definition server_error : outcome := Outcome false "alidns" "" false "error" "http_500" "server error".

Lemma server_error_fails : failed_outcome server_error.
Proof. by repeat split. Qed.

Lemma demo_confirmed : confirmed 1700000020 demo_record TypeA.
Proof. repeat split; by vm_compute. Qed.

Lemma failed_update_waits_witness :
  let r := settle_one 1700000000 [] demo_record (TypeA, server_error) in
  confirmed 1700000020 demo_record TypeA /\ due_family 1700000020 r TypeA = (false, Some 1700000030).
Proof.
  cbv zeta. split; [apply demo_confirmed|].
  exact (failed_update_waits 1700000000 1700000020 [] demo_record TypeA server_error (or_introl eq_refl) eq_refl demo_record_ok
           server_error_fails demo_confirmed).
Defined.

Lemma retry_schedule_witness :
  t_retry_at (r_tracker (fail_times [] TypeA server_error [1700000000; 1700000030; 1700000200] demo_record) TypeA) = 1700000800.
Proof.
  exact (retry_schedule [] TypeA server_error [1700000000; 1700000030] 1700000200 demo_record server_error_fails eq_refl eq_refl).
Defined.

(** The store after an update that the provider refused. *)
Definition refused_ddns : ddns := (run_update refusing quiet "id0" false demo_ddns).2.
Definition refused_record : record := default demo_record (record_at "id0" refused_ddns).

Lemma worker_wakes_for_retries_witness :
  (due_record (s_now refused_ddns) refused_record).2 = Some 1700000030
  /\ let wait := wait_time (s_now refused_ddns) (auto_due refused_ddns).2 in
     1 <= wait <= 300 /\ s_now refused_ddns + wait <= Z.max (s_now refused_ddns + 1) 1700000030.
Proof.
  split; [vm_compute; reflexivity|].
  apply (worker_wakes_for_retries refused_ddns refused_record 1700000030); [vm_compute; tauto|vm_compute; reflexivity].
Defined.

Definition published_outcome : outcome := Outcome true "alidns" "r1" true "published" "" "".

Lemma success_settles_witness :
  let r := settle 1700000000 [] [(TypeA, published_outcome); (TypeAAAA, server_error)] demo_record in
  text_or (published (r_publication r) TypeA) = "203.0.113.5" /\ r_tracker r TypeA = empty_tracker
  /\ due_family 1700000500 r TypeA = (false, None).
Proof.
  apply (success_settles 1700000000 1700000500 [] [(TypeA, published_outcome); (TypeAAAA, server_error)] demo_record TypeA published_outcome);
    [repeat constructor; cbn; intuition discriminate|by left|reflexivity|by left|apply demo_record_ok].
Defined.

Definition demo_address (v4 : string) (at_ : Z) : address := Address v4 "" "public" "unavailable" "wan" "" at_.
Definition settled_record : record := settle 1700000000 [] [(TypeA, published_outcome)] demo_record.

Lemma gate_needs_two_samples_witness :
  let samples := [demo_address "203.0.113.6" 1; demo_address "203.0.113.7" 2; demo_address "203.0.113.7" 3] in
  2 <= t_count (r_tracker (after_samples samples settled_record) TypeA)
  /\ exists earlier a b, samples = earlier ++ [a; b] /\ seen (sampled a) TypeA = seen (sampled b) TypeA /\ seen (sampled b) TypeA <> ""
       /\ seen_state (sampled a) TypeA = "public" /\ seen_state (sampled b) TypeA = "public".
Proof.
  cbv zeta. assert (2 <= t_count (r_tracker (after_samples [demo_address "203.0.113.6" 1; demo_address "203.0.113.7" 2; demo_address "203.0.113.7" 3]
    settled_record) TypeA)) as H by (vm_compute; discriminate).
  split; [exact H|]. apply (gate_needs_two_samples _ settled_record TypeA); [by left|reflexivity|exact H].
Defined.

(** ** Behaviours that lose an update *)

(** An edit keeps what was published: after a change of the host name or the provider no address is
    sent to the new name, not even when the user forces it, until the address changes. *)
Lemma renamed_record_is_not_sent value old new now force spec t v :
  (forall t, In t address_types -> text_or (published (r_publication old) t) = seen (r_detection old) t) ->
  In t address_types -> ~ In (t, v) (planned_work (plan now force spec (updated_record value old new))).
Proof.
  intros Hp Ht [_ H]%planned_work_in.
  assert (plan_address now force (updated_record value old new) t = inr v) as (_ & (_ & _ & Hne & _) & _)%plan_address_sends
    by (by destruct Ht as [<-|[<-|[]]]).
  apply Hne. symmetry. rewrite <- Hp by done. by destruct Ht as [<-|[<-|[]]].
Qed.

(** The worker looks at addresses only: a CNAME or TXT value whose update failed is never tried
    again, although its retry delay is kept. *)
Lemma direct_values_are_never_due now r :
  has_type TypeA (r_types r) = false -> has_type TypeAAAA (r_types r) = false -> due_record now r = (false, None).
Proof. intros H4 H6. unfold due_record, due_family. rewrite H4, H6. by destruct (c_enabled _). Qed.

(** An address that changes while the provider answers is recorded as published, although the old
    one was sent, and no update follows. *)
Definition new_address (s : ddns) : ddns :=
  ((_ ← accept_address (demo_sample "public" "203.0.113.99" "public" "2001:db8::5" 4);
    accept_address (demo_sample "public" "203.0.113.99" "public" "2001:db8::5" 5)) s).2.

Example address_changed_during_update :
  let s := (run_update accepting new_address "id0" false demo_ddns).2 in
  List.map k_value (s_calls s) = ["203.0.113.5"; "2001:db8::5"]
  /\ option_map (fun r => p_v4 (r_publication r)) (record_at "id0" s) = Some (Some "203.0.113.99")
  /\ auto_due s = ([], None).
Proof. vm_compute. done. Qed.

(** An address that is not public is recorded as published when the other family is updated. *)
Definition behind_cgnat : ddns :=
  ((_ ← accept_address (demo_sample "cgnat" "100.64.1.2" "public" "2001:db8::5" 4);
    accept_address (demo_sample "cgnat" "100.64.1.2" "public" "2001:db8::5" 5)) demo_ddns).2.

Example unsent_address_is_published :
  let s := (run_update accepting quiet "id0" false behind_cgnat).2 in
  List.map k_value (s_calls s) = ["2001:db8::5"]
  /\ option_map (fun r => p_v4 (r_publication r)) (record_at "id0" s) = Some (Some "100.64.1.2").
Proof. vm_compute. done. Qed.

(** A new record may carry the id of another one, and then only the first is ever updated. *)
Example duplicate_id_accepted :
  let s := (save_record demo_uuid (dset "id" (PStr "id0") (demo_body ["A"])) "" demo_ddns).2 in
  List.map r_id (g_records (s_root s)) = ["id0"; "id0"].
Proof. vm_compute. done. Qed.

(** A trailing space before the last dot of a CNAME target passes the validation and is sent. *)
Example untidy_cname_accepted :
  let body := dset "recordValues" (PDict [("CNAME", PStr "target.example.net. .")]) (demo_body ["CNAME"]) in
  let s := (save_record demo_uuid body "" empty_ddns).2 in
  List.map k_value (s_calls (run_update accepting quiet "id0" false s).2) = ["target.example.net. "].
Proof. vm_compute. done. Qed.
