(* ===== verification/DdnsReach.v ===== *)
(** * DDNS: every interleaving

    The threads of the Hub meet at the lock of the store, so a run is a sequence of locked
    sections.  This file lists them as a step relation and shows that the records stay well formed
    whatever the order, the samples, the requests and the answers of the providers are, and what a
    restart reads back. *)

From S2P Require Import Prelude PyNum PyVal PyIp PyTime HubValues Json Storage Hub Services AgentCmd Ddns DdnsStore DdnsFacts Fixtures.

(** ** Normalised input is well formed *)

Lemma str_in_state_or l s : str_in "unavailable" l = true -> str_in (state_or l s) l = true.
Proof. unfold state_or. by destruct (str_in s l) eqn:E. Qed.

Lemma ip_text_trimmed x v : strip (ip_text x v) = ip_text x v.
Proof. apply (ip_ok_trimmed v), ip_text_ok. Qed.

Lemma normal_tracker_ok t v x : normal_tracker t v = Ok x -> tracker_okb t x = true.
Proof.
  unfold normal_tracker. destruct v; try (intros [= <-]; by destruct t).
  intros (count & Hc & (attempt & Ha & (retry & Hr & [= <-])%result_bind_ok)%result_bind_ok)%result_bind_ok.
  apply safe_int_nonneg in Hc, Ha, Hr; [|lia..]. unfold tracker_okb. cbn [t_candidate t_count t_attempt t_retry_at].
  destruct t; cbn [family_version]; rewrite ?ip_text_ok; cbn [andb String.eqb];
    rewrite !(proj2 (Z.leb_le _ _)); solve [done | lia].
Qed.

Lemma normal_stability_ok v s : normal_stability v = Ok s -> stability_okb s = true.
Proof.
  unfold normal_stability. intros (a & Ha & (b & Hb & (c & Hc & (d & Hd & [= <-])%result_bind_ok)%result_bind_ok)%result_bind_ok)%result_bind_ok.
  unfold stability_okb. cbn. by rewrite (normal_tracker_ok _ _ _ Ha), (normal_tracker_ok _ _ _ Hb),
    (normal_tracker_ok _ _ _ Hc), (normal_tracker_ok _ _ _ Hd).
Qed.

Lemma trimmed_text v : trimmed (text_of v) = true.
Proof. apply String.eqb_eq. unfold text_of. apply strip_idemp. Qed.

Lemma checked_public l s value : str_in "unavailable" l = true -> public_okb (state_or l (checked_state s value)) value = true.
Proof.
  intros Hl. unfold public_okb, state_or, checked_state. destruct (nonempty value); [by rewrite andb_false_r|]. cbn [negb].
  rewrite !andb_true_r. destruct (String.eqb s "public") eqn:E; [by rewrite Hl|]. by destruct (str_in s l); rewrite ?E.
Qed.

Lemma normal_address_ok v a : normal_address v = Ok (Some a) -> address_okb a = true.
Proof.
  unfold normal_address. destruct v; try done. intros (n & Hn & [= <-])%result_bind_ok.
  apply safe_int_nonneg in Hn; [|lia]. unfold address_okb. cbn [a_v4 a_v6 a_state4 a_state6 a_source4 a_source6 a_at].
  rewrite !ip_text_ok, !str_in_state_or, !trimmed_text by done.
  rewrite !checked_public by done. by apply Z.leb_le.
Qed.

Lemma has_type_cons t u l : has_type t (u :: l) = bool_decide (u = t) || has_type t l.
Proof. done. Qed.
#[local] Arguments has_type : simpl never.

Lemma dedup_types_fresh seen l t : has_type t seen = true -> has_type t (dedup_types seen l) = false.
Proof.
  revert seen. induction l as [|u l IH]; intros seen Hs; [done|]. cbn.
  destruct (has_type u seen) eqn:Eu; [by apply IH|].
  rewrite has_type_cons, (IH (u :: seen)) by (by rewrite has_type_cons, Hs, orb_true_r).
  rewrite orb_false_r. apply bool_decide_eq_false. intros ->. congruence.
Qed.

Lemma dedup_types_distinct seen l : types_distinct (dedup_types seen l) = true.
Proof.
  revert seen. induction l as [|u l IH]; intros seen; [done|]. cbn. destruct (has_type u seen); [done|]. cbn.
  rewrite IH, dedup_types_fresh; [done|]. by rewrite has_type_cons, bool_decide_true.
Qed.

Lemma has_type_dedup seen l t : has_type t (dedup_types seen l) = true -> has_type t l = true.
Proof.
  revert seen. induction l as [|u l IH]; intros seen; [done|]. cbn. rewrite has_type_cons. destruct (has_type u seen).
  - intros H%IH. by rewrite H, orb_true_r.
  - rewrite has_type_cons. intros [H|H%IH]%orb_prop; rewrite H; [done|by rewrite orb_true_r].
Qed.

Lemma normal_types_ok v : types_okb (normal_types v) = true.
Proof.
  unfold normal_types. cbv zeta. generalize (omap (fun x => rtype_of (upper (text_of x)))
    match v with PStr s => [PStr s] | PList l => l | _ => [PStr "A"; PStr "AAAA"] end) as o.
  intros o. set (l := match o with [] => address_types | _ => o end : list rtype).
  assert (l <> []) as Hl by (subst l; by destruct o).
  destruct (has_type TypeCNAME l) eqn:Ec; [done|]. unfold types_okb. rewrite dedup_types_distinct.
  assert (has_type TypeCNAME (dedup_types [] l) = false) as ->
    by (destruct (has_type TypeCNAME (dedup_types [] l)) eqn:E; [apply has_type_dedup in E; congruence|done]).
  rewrite bool_decide_false; [done|]. by destruct l.
Qed.

Lemma some_text_ok v x : opt_okb (fun s => nonempty s && ip_okb v s) (some_text (ip_text x v)) = true.
Proof. unfold some_text. destruct (nonempty _) eqn:E; [|done]. cbn. by rewrite E, ip_text_ok. Qed.

Definition uuid_ok (fresh : string) : Prop := nonempty fresh = true /\ trimmed fresh = true.

Lemma known_status s : str_in (if str_in s flow_statuses then s else "waiting") flow_statuses = true.
Proof. by destruct (str_in s flow_statuses) eqn:E. Qed.

Lemma normal_record_ok fresh v r : uuid_ok fresh -> normal_record fresh v = Ok (Some r) -> record_ok r.
Proof.
  intros [Hf1 Hf2]. unfold normal_record. destruct v as [| | | | | |d]; try done.
  destruct (find_provider (lower (text_of (get d "provider")))) as [spec|] eqn:Ep; [|done]. cbv zeta.
  intros (ttl & _ & (at_ & Hat & (up & Hup & (stab & Hs & [= <-])%result_bind_ok)%result_bind_ok)%result_bind_ok)%result_bind_ok.
  apply safe_int_nonneg in Hat, Hup; [|lia..]. constructor; cbn [r_config r_detection r_publication r_flow f_stability f_status].
  - unfold config_okb. cbn [c_id c_hostname c_types c_provider c_ttl]. rewrite Ep, trimmed_text, normal_types_ok.
    assert (nonempty (str_or (text_of (get d "id")) fresh) = true /\ trimmed (str_or (text_of (get d "id")) fresh) = true) as [-> ->].
    { unfold str_or. destruct (nonempty (text_of (get d "id"))) eqn:E; [split; [exact E|apply trimmed_text]|done]. }
    cbn [andb]. rewrite !(proj2 (Z.leb_le _ _)) by lia. done.
  - unfold detection_okb. cbn [d_v4 d_v6 d_state4 d_state6 d_at]. rewrite !ip_text_ok, !str_in_state_or by done. by apply Z.leb_le.
  - unfold publication_okb. cbn [p_v4 p_v6 p_at]. rewrite !some_text_ok. cbn [andb].
    destruct (Z.eqb_spec up 0); [done|]. cbn. apply Z.ltb_lt. lia.
  - by eapply normal_stability_ok.
  - destruct (negb _); [done|]. apply known_status.
Qed.

(** ** The operations keep records well formed *)

Lemma ip_ok_empty v : ip_okb v "" = true.
Proof. done. Qed.

Lemma tracker_ok_get s t : stability_okb s = true -> tracker_okb t (tracker_of s t) = true.
Proof. unfold stability_okb, record_types. cbn [forallb]. intros H. rewrite !andb_true_iff in H. destruct t; tauto. Qed.

Lemma tracker_ok_set s t x : stability_okb s = true -> tracker_okb t x = true -> stability_okb (set_tracker t x s) = true.
Proof.
  unfold stability_okb, record_types. cbn [forallb tracker_of]. rewrite !andb_true_iff. intros H Hx.
  destruct t; cbn [set_tracker st_a st_aaaa st_cname st_txt]; tauto.
Qed.

Lemma with_tracker_ok t x r : record_ok r -> tracker_okb t x = true -> record_ok (with_tracker t x r).
Proof. intros [] Hx. constructor; cbn; try done. by apply tracker_ok_set. Qed.

Lemma with_status_ok s r : record_ok r -> str_in s flow_statuses = true -> record_ok (with_status s r).
Proof. intros [] Hs. by constructor. Qed.
Lemma with_error_ok e r : record_ok r -> record_ok (with_error e r).
Proof. intros []. by constructor. Qed.
Lemma with_results_ok l r : record_ok r -> record_ok (with_results l r).
Proof. intros []. by constructor. Qed.

(** A tracker with another candidate and other counters. *)
Lemma tracker_ok_intro t c n a x b :
  match t with TypeA | TypeAAAA => ip_okb (family_version t) c | _ => String.eqb c "" end = true ->
  0 <= n <= 2 -> 0 <= a <= 4 -> 0 <= x -> tracker_okb t (Tracker c n a x b) = true.
Proof.
  intros Hc Hn Ha Hx. unfold tracker_okb. cbn [t_candidate t_count t_attempt t_retry_at]. rewrite Hc.
  rewrite !(proj2 (Z.leb_le _ _)) by lia. done.
Qed.

Lemma tracker_ok_elim t x :
  tracker_okb t x = true ->
  match t with TypeA | TypeAAAA => ip_okb (family_version t) (t_candidate x) | _ => String.eqb (t_candidate x) "" end = true
  /\ 0 <= t_count x <= 2 /\ 0 <= t_attempt x <= 4 /\ 0 <= t_retry_at x.
Proof. unfold tracker_okb. rewrite !andb_true_iff, !Z.leb_le. tauto. Qed.

Lemma empty_tracker_ok t : tracker_okb t empty_tracker = true.
Proof. by destruct t. Qed.

Lemma track_ok types state value pub t x :
  In t address_types -> ip_okb (family_version t) value = true -> tracker_okb t x = true ->
  tracker_okb t (track types state value pub t x).1 = true.
Proof.
  intros Ht Hv (Hc & Hn & Ha & Hr)%tracker_ok_elim. unfold track.
  assert (match t with TypeA | TypeAAAA => ip_okb (family_version t) "" | _ => String.eqb "" "" end = true) as He by (by destruct t).
  destruct (negb (has_type t types)); [apply tracker_ok_intro; by rewrite ?He || lia|].
  destruct (_ && _ && _).
  - destruct (String.eqb _ value); apply tracker_ok_intro; try lia; [done|]. destruct Ht as [<-|[<-|[]]]; done.
  - cbn [fst]. destruct (String.eqb value pub); [apply empty_tracker_ok|]. by apply tracker_ok_intro; [|lia..].
Qed.

Lemma sampled_ok a : address_okb a = true -> detection_okb (sampled a) = true.
Proof. unfold address_okb, detection_okb, sampled. cbn [d_v4 d_v6 d_state4 d_state6 d_at]. rewrite !andb_true_iff. tauto. Qed.

Lemma track_family_ok b t r : In t address_types -> record_ok r -> record_ok (track_family b t r).1.1.
Proof.
  intros Ht Hr. pose proof (tracker_ok_get _ t (ok_stability r Hr)) as Hx. destruct b.
  - rewrite track_family_eq. apply with_tracker_ok; [done|]. apply track_ok; [done| |done]. by apply seen_ok; [apply ok_detection|].
  - by apply with_tracker_ok.
Qed.

Lemma sampled_status_ok r : str_in (f_status (r_flow r)) flow_statuses = true -> str_in (sampled_status r).1 flow_statuses = true.
Proof. intros H. unfold sampled_status. cbv zeta. by repeat case_match. Qed.

Lemma accept_record_ok a b r : address_okb a = true -> record_ok r -> record_ok (accept_record a b r).1.1.
Proof.
  intros Ha Hr. unfold accept_record.
  assert (record_ok (Rec (r_config r) (sampled a) (r_publication r) (r_flow r))) as H0
    by (destruct Hr; constructor; try done; by apply sampled_ok).
  destruct (track_family b TypeA _) as [[r4 c4] ready4] eqn:E4.
  assert (record_ok r4) as H4 by (change r4 with (r4, c4, ready4).1.1; rewrite <- E4; apply track_family_ok; [cbn; tauto|done]).
  destruct (track_family b TypeAAAA r4) as [[r6 c6] ready6] eqn:E6.
  assert (record_ok r6) as H6 by (change r6 with (r6, c6, ready6).1.1; rewrite <- E6; apply track_family_ok; [cbn; tauto|done]).
  pose proof (sampled_status_ok r6 (ok_status r6 H6)) as Hs. destruct (sampled_status r6) as [st er]. cbn [fst] in *.
  destruct (_ || _); [|done]. by apply with_error_ok, with_status_ok.
Qed.

Lemma accept_all_ok a b l : address_okb a = true -> Forall record_ok l -> Forall record_ok (accept_all a b l).1.1.
Proof.
  intros Ha Hl. unfold accept_all. cbn [fst]. apply List.Forall_map, List.Forall_map. eapply List.Forall_impl; [|done].
  intros r. by apply accept_record_ok.
Qed.

Lemma publish_ok now t r : 0 < now -> record_ok r -> record_ok (publish now t r).
Proof.
  intros Hn Hr. unfold publish. apply with_tracker_ok; [|apply empty_tracker_ok].
  pose proof (ok_detection r Hr) as Hd. pose proof (ok_publication r Hr) as Hp. destruct Hr. constructor; try done. cbn [r_publication with_publication].
  unfold publication_okb in *. cbn [p_v4 p_v6 p_at].
  apply andb_prop in Hp as [[H4 H6]%andb_prop _].
  assert (opt_okb (fun n => 0 <? n) (Some now) = true) as -> by (by apply Z.ltb_lt).
  unfold some_text. destruct t; cbn [set_published p_v4 p_v6]; rewrite ?H4, ?H6; rewrite ?andb_true_r, ?andb_true_l; rewrite ?andb_true_r; try done;
    match goal with |- opt_okb _ (if nonempty ?s then _ else _) = true => destruct (nonempty s) eqn:E; [|done] end;
    cbn [opt_okb]; [pose proof (seen_ok _ TypeA Hd ltac:(cbn; tauto)) as Hs|pose proof (seen_ok _ TypeAAAA Hd ltac:(cbn; tauto)) as Hs];
    cbn [family_version] in Hs; by rewrite E, Hs.
Qed.

Lemma delay_nonneg n : 0 <= delay_after n.
Proof. unfold delay_after, retry_delays. destruct (Z.to_nat _) as [|[|[|[|k]]]]; cbn; try lia. by destruct k. Qed.

Lemma fail_ok now c t o r : 0 < now -> record_ok r -> record_ok (fail now c t o r).
Proof.
  intros Hn Hr. unfold fail. apply with_error_ok, with_tracker_ok; [done|].
  pose proof (tracker_ok_get _ t (ok_stability r Hr)) as (Hc & Hk & Ha & Hx)%tracker_ok_elim.
  change (tracker_of (f_stability (r_flow r)) t) with (r_tracker r t) in *.
  set (n := Z.min 4 (t_attempt (r_tracker r t) + 1)). pose proof (delay_nonneg n). apply tracker_ok_intro; [done|done|lia|].
  destruct (str_in _ _); lia.
Qed.

Lemma settle_one_ok now c to r : 0 < now -> record_ok r -> record_ok (settle_one now c r to).
Proof.
  intros Hn Hr. destruct to as [t o]. unfold settle_one. destruct (o_success o); [by apply publish_ok|].
  destruct (str_in _ _); [done|]. destruct (String.eqb _ _); [by apply with_error_ok|by apply fail_ok].
Qed.

Lemma settle_ok now c results r : 0 < now -> record_ok r -> record_ok (settle now c results r).
Proof.
  intros Hn Hr. unfold settle.
  assert (record_ok (fold_left (settle_one now c) results r)) as H
    by (revert r Hr; induction results as [|to l IH]; intros r Hr; [done|]; apply IH; by apply settle_one_ok).
  cbv zeta. assert (forall s, str_in s flow_statuses = true ->
    record_ok (with_status s (with_results results (fold_left (settle_one now c) results r)))) as Hw
    by (intros s Hs; by apply with_status_ok; [apply with_results_ok|]).
  repeat case_match; try apply with_error_ok; by apply Hw.
Qed.

Lemma settle_idle_ok results r : record_ok r -> record_ok (settle_idle results r).
Proof.
  intros Hr. unfold settle_idle. pose proof (with_results_ok results r Hr) as H. cbv zeta.
  assert (record_ok (with_status "detected" (with_results results r))) as Hd by (by apply with_status_ok).
  repeat case_match; auto using with_status_ok, with_error_ok.
Qed.

Lemma configured_status_ok d v : str_in (configured_status d v) flow_statuses = true.
Proof. unfold configured_status. by destruct (has_content d v). Qed.

Lemma updated_record_ok value old new : record_ok old -> record_ok new -> record_ok (updated_record value old new).
Proof.
  intros Ho Hn. unfold updated_record. cbv zeta. destruct Ho as [Hc Hd Hp Hs Ht], Hn as [Hnc _ _ _ _].
  constructor; cbn [r_config r_detection r_publication r_flow f_stability f_status]; try done.
  - unfold config_okb in *. cbn [c_id c_hostname c_types c_provider c_ttl]. rewrite !andb_true_iff, !Z.leb_le in *.
    destruct Hc as ((((((? & ?) & ?) & ?) & ?) & ?) & ?), Hnc as ((((((? & ?) & ?) & ?) & ?) & ?) & ?).
    repeat split; try done; destruct (has value "ttl"); done.
  - destruct (negb _); [done|]. destruct (_ || _ || _); [apply configured_status_ok|done].
Qed.

Lemma created_record_ok o new : opt_okb address_okb o = true -> record_ok new -> record_ok (created_record o new).
Proof.
  intros Ho Hn. unfold created_record. cbv zeta. apply with_status_ok.
  - destruct Hn. constructor; try done. cbn [r_detection]. destruct o as [a|]; [by apply sampled_ok|done].
  - destruct (c_enabled _); [apply configured_status_ok|done].
Qed.

Lemma reset_candidates_ok r : record_ok r -> record_ok (reset_candidates r).
Proof.
  intros Hr. pose proof (ok_stability r Hr) as Hs. destruct Hr as [? ? ? _ ?]. constructor; try done.
  cbn [r_flow reset_candidates with_flow f_stability]. revert Hs. unfold stability_okb, record_types. cbn [forallb tracker_of st_a st_aaaa st_cname st_txt].
  rewrite !andb_true_iff. intros (H1 & H2 & H3 & H4 & _).
  apply tracker_ok_elim in H1, H2, H3, H4. repeat split; apply tracker_ok_intro; try done; try lia; tauto.
Qed.

(** ** Steps *)

(** The store after a start of the Hub: the root is empty until [_load] has read the file. *)
Definition restarted (s : ddns) : ddns :=
  Ddns (Root None []) (s_file s) (s_secrets s) false (s_now s) (s_draws s) (s_calls s).
Definition at_time (now : Z) (s : ddns) : ddns :=
  Ddns (s_root s) (s_file s) (s_secrets s) (s_event s) now (s_draws s) (s_calls s).

Section Steps.
Context (fresh_uuid : nat -> string) (sync_record : nat -> call -> credentials -> option provider_result).

(** The locked sections and the calls of the providers.  [finish_update] takes any outcomes: they
    may come from an update that started long before, of a record that was changed since. *)
Inductive step : ddns -> ddns -> Prop :=
| step_sample v s r s' : accept_address v s = (r, s') -> step s s'
| step_save value i s r s' : save_record fresh_uuid value i s = (r, s') -> step s s'
| step_delete i s r s' : delete_record i s = (r, s') -> step s s'
| step_start i force s r s' : start_update i force s = (r, s') -> step s s'
| step_send j work s r s' : send_all sync_record j work s = (r, s') -> step s s'
| step_finish i c results s r s' : finish_update i c results s = (r, s') -> step s s'
| step_credentials i d s r s' : save_credentials i d s = (r, s') -> step s s'
| step_forget i s r s' : delete_secrets i s = (r, s') -> step s s'
| step_event b s : step s (with_event b s)
| step_restart s r s' : load fresh_uuid (restarted s) = (r, s') -> step s s'
| step_clock now s : s_now s <= now -> step s (at_time now s)
(** the file was replaced from outside while the Hub was stopped *)
| step_file f s : step s (Ddns (s_root s) f (s_secrets s) (s_event s) (s_now s) (s_draws s) (s_calls s)).

Record store_ok (s : ddns) : Prop := { ok_root : root_ok (s_root s); ok_now : 0 < s_now s }.

(** [m] keeps the store well formed and every result it returns satisfies [Q]. *)
Definition safe {A} (m : prog ddns A) (Q : A -> Prop) : Prop :=
  forall s, store_ok s -> wp m (fun a s' => store_ok s' /\ Q a) (fun _ => store_ok) s.

Lemma reach_ret {A} (a : A) (Q : A -> Prop) : Q a -> safe (mret a) Q.
Proof. intros H s Hs. by apply wp_ret. Qed.
Lemma reach_lift {A} (r : result A) (Q : A -> Prop) : (forall a, r = Ok a -> Q a) -> safe (lift r) Q.
Proof. intros H s Hs. apply wp_lift. destruct r; [split; [done|by apply H]|done]. Qed.
Lemma reach_raise {A} e (Q : A -> Prop) : safe (raise e) Q.
Proof. intros s Hs. exact Hs. Qed.
Lemma reach_state (Q : ddns -> Prop) : (forall s, store_ok s -> Q s) -> safe (reads id) Q.
Proof. intros H s Hs. apply wp_reads. split; [done|by apply H]. Qed.
Lemma reach_changes (f : ddns -> ddns) (Q : unit -> Prop) : Q tt -> (forall s, store_ok s -> store_ok (f s)) -> safe (changes f) Q.
Proof. intros HQ H s Hs. apply wp_changes. split; [by apply H|done]. Qed.
Lemma reach_bind {A B} (m : prog ddns A) (f : A -> prog ddns B) (P : A -> Prop) (Q : B -> Prop) :
  safe m P -> (forall a, P a -> safe (f a) Q) -> safe (m ≫= f) Q.
Proof.
  intros Hm Hf s Hs. apply wp_bind. eapply wp_mono; [by apply Hm| |done]. intros a s' [Hs' Ha]. by apply Hf.
Qed.
Lemma reach_run {A} (m : prog ddns A) Q s r s' : safe m Q -> store_ok s -> m s = (r, s') -> store_ok s'.
Proof. intros Hm Hs H. pose proof (wp_run _ _ _ _ _ _ (Hm s Hs) H). destruct r; [by apply H0|done]. Qed.

Lemma reach_saved : safe save_locked (fun _ => True).
Proof. apply reach_changes; [done|]. intros s []. by constructor. Qed.
Lemma reach_event b : safe (set_event b) (fun _ => True).
Proof. apply reach_changes; [done|]. intros s []. by constructor. Qed.

Lemma root_ok_records g l : root_ok g -> Forall record_ok l -> root_ok (Root (g_address g) l).
Proof. intros [] Hl. by constructor. Qed.

Lemma reach_set_records l : Forall record_ok l -> safe (set_records l) (fun _ => True).
Proof. intros Hl. apply reach_changes; [done|]. intros s [Hr Hn]. constructor; [by apply root_ok_records|done]. Qed.

Lemma change_first_ok i f l : (forall r, record_ok r -> record_ok (f r)) -> Forall record_ok l -> Forall record_ok (change_first i f l).
Proof.
  intros Hf. induction l as [|r l IH]; intros Hl; [done|]. cbn. apply List.Forall_cons_iff in Hl as [Hr Hl].
  destruct (String.eqb _ _); constructor; auto.
Qed.

Lemma reach_change i f : (forall r, record_ok r -> record_ok (f r)) -> safe (change_record i f) (fun _ => True).
Proof.
  intros Hf. apply reach_changes; [done|]. intros s [Hr Hn]. constructor; [|done].
  apply root_ok_records; [done|]. apply change_first_ok; [done|by apply ok_records].
Qed.

Lemma record_at_ok i s r : store_ok s -> record_at i s = Some r -> record_ok r.
Proof.
  intros [[_ Hr] _] [Hin _]%find_some_in. rewrite List.Forall_forall in Hr. by apply Hr.
Qed.

Lemma reach_normal v : (forall n, uuid_ok (fresh_uuid n)) -> safe (normal_record_m fresh_uuid v) (fun o => forall r, o = Some r -> record_ok r).
Proof.
  intros Hf s Hs. unfold wp, normal_record_m.
  destruct (normal_record (fresh_uuid (s_draws s)) v) as [[r|]|e] eqn:E; [|by split|done].
  apply normal_record_ok in E; [|done]. split; [|by intros ? [= <-]].
  destruct (nonempty _); [done|]. destruct Hs. by constructor.
Qed.

Lemma reach_accept v : safe (accept_address v) (fun _ => True).
Proof.
  unfold accept_address.
  apply (reach_bind _ _ (fun o => forall a, o = Some a -> address_okb a = true)).
  { apply reach_lift. intros o Ho a ->. by eapply normal_address_ok. }
  intros [a|] Ha; [|by apply reach_ret]. specialize (Ha a eq_refl).
  apply (reach_bind _ _ store_ok); [by apply reach_state|]. intros s Hs. cbv zeta.
  set (previous_at := match g_address (s_root s) with Some p => a_at p | None => 0 end).
  set (a' := if a_at a =? 0 then _ else a : address).
  assert (address_okb a' = true) as Ha'.
  { subst a'. destruct (a_at a =? 0); [|done]. unfold address_okb in *. cbn [a_v4 a_v6 a_state4 a_state6 a_at].
    rewrite !andb_true_iff in *. destruct Ha as [Ha _]. cbn [a_v4] in *. split; [exact Ha|]. apply Z.leb_le. destruct Hs as [[Hg _] Hn].
    subst previous_at. destruct (g_address (s_root s)) as [p|]; cbn in *; [|lia].
    unfold address_okb in Hg. rewrite !andb_true_iff, Z.leb_le in Hg. destruct Hg as [_ Hg]. destruct (a_at p =? 0); lia. }
  match goal with |- context [accept_all a' ?b ?l] => destruct (accept_all a' b l) as [[records changed] ready] eqn:Eall;
    assert (Forall record_ok records) as Hrec by
      (change records with (records, changed, ready).1.1; rewrite <- Eall; by apply accept_all_ok; [|apply Hs]) end.
  apply (reach_bind _ _ (fun _ => True)). { apply reach_changes; [exact I|]. intros s' [_ Hn]. by constructor. }
  intros _ _. apply (reach_bind _ _ (fun _ => True)); [destruct (_ || _); [apply reach_saved|by apply reach_ret]|].
  intros _ _. apply (reach_bind _ _ (fun _ => True)); [destruct ready; [apply reach_event|by apply reach_ret]|].
  intros _ _. by apply reach_ret.
Qed.

Lemma reach_save_tail r : record_ok r -> safe (_ ← save_locked; _ ← set_event true; mret r) record_ok.
Proof. intros Hr. eapply reach_bind; [apply reach_saved|]. intros _ _. eapply reach_bind; [apply reach_event|]. intros _ _. by apply reach_ret. Qed.

Lemma reach_save_record value i : (forall n, uuid_ok (fresh_uuid n)) -> safe (save_record fresh_uuid value i) record_ok.
Proof.
  intros Hf. unfold save_record. eapply reach_bind; [by apply reach_normal|].
  intros [new|] Hnew; [|by apply reach_lift]. specialize (Hnew new eq_refl).
  destruct (nonempty (c_hostname _)); [|by apply reach_lift].
  apply (reach_bind _ _ (fun _ => True)); [by apply reach_lift|]. intros _ _.
  apply (reach_bind _ _ store_ok); [by apply reach_state|]. intros s Hs. destruct (nonempty i).
  - destruct (record_at i s) as [old|] eqn:Eo; [|by apply reach_raise]. apply record_at_ok in Eo; [|done]. cbv zeta.
    pose proof (updated_record_ok value old new Eo Hnew) as Hu.
    eapply reach_bind; [by apply reach_change|]. intros _ _. by apply reach_save_tail.
  - pose proof (created_record_ok (g_address (s_root s)) new (ok_address _ (ok_root s Hs)) Hnew) as Hc. cbv zeta.
    eapply reach_bind; [apply reach_set_records|].
    + apply List.Forall_app. split; [apply Hs|]. by constructor.
    + intros _ _. by apply reach_save_tail.
Qed.

Lemma reach_delete i : safe (delete_record i) (fun _ => True).
Proof.
  unfold delete_record. apply (reach_bind _ _ store_ok); [by apply reach_state|]. intros s Hs. cbv zeta.
  destruct (Nat.eqb _ _); [by apply reach_ret|]. eapply reach_bind; [apply reach_set_records|].
  - pose proof (ok_records _ (ok_root s Hs)) as H. rewrite List.Forall_forall in *. intros r [Hin _]%List.filter_In. by apply H.
  - intros _ _. eapply reach_bind; [apply reach_saved|]. intros _ _. by apply reach_ret.
Qed.

Lemma reach_start i force : safe (start_update i force) (fun _ => True).
Proof.
  unfold start_update. apply (reach_bind _ _ store_ok); [by apply reach_state|]. intros s Hs.
  destruct (record_at i s) as [r|] eqn:Er; [|by apply reach_raise]. apply record_at_ok in Er; [|done].
  assert (forall A f (a : A), (forall r, record_ok r -> record_ok (f r)) ->
    safe (_ ← change_record i f; _ ← save_locked; mret a) (fun _ => True)) as Hw.
  { intros A f a Hf. eapply reach_bind; [by apply reach_change|]. intros _ _. eapply reach_bind; [apply reach_saved|].
    intros _ _. by apply reach_ret. }
  destruct (negb _); [apply Hw; intros r' ?; by apply with_status_ok|].
  destruct (find_provider _) as [spec|]; [|by apply reach_lift]. cbv zeta.
  destruct (planned_work _); apply Hw; intros r' ?; [by apply settle_idle_ok|by apply with_status_ok].
Qed.

Lemma reach_finish i c results : safe (finish_update i c results) (fun _ => True).
Proof.
  unfold finish_update. apply (reach_bind _ _ store_ok); [by apply reach_state|]. intros s Hs.
  destruct (record_at i s) as [r|] eqn:Er; [|by apply reach_raise]. apply record_at_ok in Er; [|done]. cbv zeta.
  eapply reach_bind; [apply reach_change; intros r' ?; apply settle_ok; [apply Hs|done]|].
  intros _ _. eapply reach_bind; [apply reach_saved|]. intros _ _. by apply reach_ret.
Qed.

Lemma reach_load_records items : (forall n, uuid_ok (fresh_uuid n)) -> safe (load_records fresh_uuid items) (Forall record_ok).
Proof.
  intros Hf. induction items as [|item items IH]; [by apply reach_ret|]. cbn [load_records].
  eapply reach_bind; [by apply reach_normal|]. intros o Ho. eapply reach_bind; [apply IH|]. intros rs Hrs. apply reach_ret.
  destruct o as [r|]; [|done]. constructor; [by apply reset_candidates_ok, Ho|done].
Qed.

Lemma reach_load_file : (forall n, uuid_ok (fresh_uuid n)) -> safe (load_file fresh_uuid) (fun _ => True).
Proof.
  intros Hf. unfold load_file.
  apply (reach_bind _ _ store_ok); [by apply reach_state|]. intros s Hs.
  destruct (s_file s) as [[| | | | | |raw]|]; try by apply reach_ret.
  apply (reach_bind _ _ (fun o => opt_okb address_okb o = true)).
  { apply reach_lift. intros [a|] Ha; [|done]. by eapply normal_address_ok. }
  intros address Ha. apply (reach_bind _ _ (fun _ => True)).
  { apply reach_changes; [exact I|]. intros s' [[_ Hr] Hn]. by constructor. }
  intros _ _. apply (reach_bind _ _ (fun _ => True)); [by apply reach_lift|]. intros items _.
  eapply reach_bind; [by apply reach_load_records|]. intros rs Hrs. by apply reach_set_records.
Qed.

Lemma reach_load : (forall n, uuid_ok (fresh_uuid n)) -> safe (load fresh_uuid) (fun _ => True).
Proof.
  intros Hf s Hs. unfold load. apply wp_try. eapply wp_mono; [by apply reach_load_file|by intros a s'|].
  intros e s' Hs'. by apply wp_ret.
Qed.

Lemma reach_send j work : safe (send_all sync_record j work) (fun _ => True).
Proof.
  intros s Hs. unfold wp. destruct (send_all_eq sync_record j work s) as (os & -> & _). split; [|done].
  destruct (with_calls_fields (List.map (call_of (r_config (j_record j))) work) s) as (_ & Hr & Hn & _). destruct Hs.
  constructor; [by rewrite Hr|by rewrite Hn].
Qed.

Lemma safe_credentials_step i d : safe (save_credentials i d) (fun _ => True).
Proof.
  unfold save_credentials, save_secrets. apply (reach_bind _ _ (fun _ => True)).
  - destruct (safe_credentials d); [by apply reach_ret|]. apply (reach_bind _ _ (fun _ => True)); [|intros _ _; by apply reach_ret].
    apply reach_changes; [exact I|]. intros s []. by constructor.
  - intros b _. apply (reach_bind _ _ (fun _ => True)); [destruct b; [apply reach_event|by apply reach_ret]|]. intros _ _. by apply reach_ret.
Qed.

(** C22. Whatever the samples, the requests, the answers of the providers, the contents of the file
    and the order of the locked sections are, every record of the store keeps its invariant: a
    known provider, record types that may be combined, a TTL between a minute and a day, valid
    addresses of the right family in the address fields and candidates, known states, at most two
    samples and four attempts counted. *)
Theorem reachable_records_are_well_formed s s' :
  (forall n, uuid_ok (fresh_uuid n)) -> store_ok s -> rtc step s s' -> store_ok s'.
Proof.
  intros Hf Hs Hsteps. induction Hsteps as [|s s1 s2 Hst _ IH]; [done|]. apply IH.
  inversion Hst; subst; try (eapply reach_run; [|exact Hs|eassumption];
    eauto using reach_accept, reach_save_record, reach_delete, reach_start, reach_send, reach_finish, safe_credentials_step).
  - apply (reach_changes _ (fun _ => True)); [exact I|]. intros t []. by constructor.
  - destruct Hs. by constructor.
  - apply (reach_run (load fresh_uuid) (fun _ => True) (restarted s) r); [by apply reach_load| |done]. destruct Hs as [_ Hn]. by constructor.
  - destruct Hs. constructor; [done|]. cbn. lia.
  - destruct Hs. by constructor.
Qed.
End Steps.

(** *** Witness *)

Lemma demo_uuid_ok n : uuid_ok (demo_uuid n).
Proof.
  split; [done|]. apply String.eqb_eq. unfold demo_uuid. apply strip_by_id. rewrite sall_app. apply andb_true_intro. split; [done|].
  eapply sall_impl; [|apply nat_str_digits; lia]. intros c Hc%is_digit_not_space. by rewrite Hc.
Qed.

Lemma reachable_records_are_well_formed_witness :
  let s1 := (accept_address (demo_sample "public" "203.0.113.5" "public" "2001:db8::5" 1) empty_ddns).2 in
  let s2 := (save_record demo_uuid (demo_body ["A"; "AAAA"]) "" s1).2 in
  let s3 := (start_update "id0" true s2).2 in
  let s4 := (finish_update "id0" [] [(TypeA, server_error)] s3).2 in
  store_ok empty_ddns /\ rtc (step demo_uuid accepting) empty_ddns s4 /\ store_ok s4.
Proof.
  cbv zeta. assert (store_ok empty_ddns) as H0 by (constructor; [by apply root_okP|done]).
  match goal with |- _ /\ ?R /\ _ => assert R as Hr end.
  { eapply rtc_l; [eapply step_sample, surjective_pairing|]. eapply rtc_l; [eapply step_save, surjective_pairing|].
    eapply rtc_l; [eapply step_start, surjective_pairing|]. apply rtc_once. eapply step_finish, surjective_pairing. }
  split; [exact H0|]. split; [exact Hr|].
  apply (reachable_records_are_well_formed demo_uuid accepting empty_ddns); [apply demo_uuid_ok|exact H0|exact Hr].
Defined.

(** ** Requests *)

(** A request to save a record that is refused, for a missing host name, an unknown provider,
    types that cannot be combined, a bad value or an unknown id, changes neither the records, nor
    the file, nor the credentials, and wakes no worker. *)
Theorem refused_record_changes_nothing fresh_uuid value i s e s' :
  save_record fresh_uuid value i s = (Err e, s') ->
  s_root s' = s_root s /\ s_file s' = s_file s /\ s_secrets s' = s_secrets s /\ s_event s' = s_event s /\ s_calls s' = s_calls s.
Proof.
  unfold save_record. rewrite prog_bind_eq. unfold normal_record_m.
  destruct (normal_record (fresh_uuid (s_draws s)) (PDict value)) as [[new|]|e']; [|by intros [= <- <-]..].
  set (s1 := if nonempty _ then s else drawn s).
  assert (s_root s1 = s_root s /\ s_file s1 = s_file s /\ s_secrets s1 = s_secrets s /\ s_event s1 = s_event s /\ s_calls s1 = s_calls s) as H1
    by (subst s1; by destruct (nonempty _)).
  clearbody s1. destruct (nonempty (c_hostname (r_config new))); [|by intros [= <- <-]].
  rewrite prog_bind_eq. cbn [lift]. destruct (validate_record_input value new); [|by intros [= <- <-]].
  rewrite prog_bind_eq. cbn [reads id]. destruct (nonempty i); [|done].
  destruct (record_at i s1); [done|]. by intros [= <- <-].
Qed.

Lemma refused_record_changes_nothing_witness :
  let run := save_record demo_uuid [("provider", PStr "dynv6"); ("hostname", PStr "home.example.org"); ("recordTypes", PStr "TXT")] "" demo_ddns in
  run.1 = Err (Exn "ValueError" "provider does not support record type: TXT") /\ s_root run.2 = s_root demo_ddns
  /\ s_file run.2 = s_file demo_ddns /\ s_secrets run.2 = s_secrets demo_ddns /\ s_event run.2 = s_event demo_ddns
  /\ s_calls run.2 = s_calls demo_ddns.
Proof.
  cbv zeta. match goal with |- ?a = ?b /\ _ => assert (a = b) as H by (vm_compute; reflexivity) end. split; [exact H|].
  eapply (refused_record_changes_nothing demo_uuid _ "" demo_ddns). rewrite <- H. apply surjective_pairing.
Defined.

Definition other_records (i : string) (l : list record) : list record := List.filter (fun r => negb (String.eqb (r_id r) i)) l.

Lemma other_records_absent i l : List.find (fun r => String.eqb (r_id r) i) (other_records i l) = None.
Proof.
  induction l as [|r l IH]; [done|]. cbn. destruct (String.eqb (r_id r) i) eqn:E; cbn; [exact IH|]. rewrite E. exact IH.
Qed.

Lemma other_records_le i l : (List.length (other_records i l) <= List.length l)%nat.
Proof. unfold other_records. induction l as [|r l IH]; [done|]. cbn. destruct (negb _); cbn; lia. Qed.

Lemma other_records_length i l :
  Nat.eqb (List.length (other_records i l)) (List.length l)
  = match List.find (fun r => String.eqb (r_id r) i) l with Some _ => false | None => true end.
Proof.
  induction l as [|r l IH]; [done|]. pose proof (other_records_le i l) as Hle.
  assert (other_records i (r :: l) = if String.eqb (r_id r) i then other_records i l else r :: other_records i l) as ->
    by (unfold other_records; cbn; by destruct (String.eqb _ _)).
  cbn [List.find]. destruct (String.eqb (r_id r) i); [|exact IH]. apply Nat.eqb_neq. cbn [List.length]. lia.
Qed.

(** Deleting a record removes it and its credentials and keeps every other record in order, in
    memory and in the file; an unknown id is answered with 404 and changes nothing. *)
Theorem delete_removes_record E i q s :
  check_app_token E q = true ->
  delete_ddns E i q s
  = match record_at i s with
    | Some _ =>
        let g := Root (g_address (s_root s)) (other_records i (g_records (s_root s))) in
        (Ok (Response 200 (PDict [("ok", PBool true)])), with_secrets (delete i (s_secrets s)) (saved (with_root g s)))
    | None => (Ok not_found, s)
    end
  /\ record_at i (delete_ddns E i q s).2 = None.
Proof.
  intros Hq. unfold delete_ddns. rewrite Hq. cbn [negb]. rewrite prog_bind_eq. unfold delete_record. rewrite prog_bind_eq. cbn [reads].
  pose proof (other_records_length i (g_records (s_root s))) as Hl. unfold other_records in Hl. rewrite Hl.
  change (List.find _ (g_records (s_root s))) with (record_at i s). destruct (record_at i s) as [r|] eqn:Er; cbn.
  - split; [done|]. apply other_records_absent.
  - done.
Qed.

Lemma delete_removes_record_witness :
  let q := app_request [] None in
  check_app_token demo_env q = true
  /\ delete_ddns demo_env "id0" q demo_ddns
     = (let g := Root (g_address (s_root demo_ddns)) (other_records "id0" (g_records (s_root demo_ddns))) in
        (Ok (Response 200 (PDict [("ok", PBool true)])), with_secrets (delete "id0" (s_secrets demo_ddns)) (saved (with_root g demo_ddns))))
  /\ record_at "id0" (delete_ddns demo_env "id0" q demo_ddns).2 = None.
Proof.
  cbv zeta. split; [vm_compute; reflexivity|].
  pose proof (delete_removes_record demo_env "id0" (app_request [] None) demo_ddns ltac:(vm_compute; reflexivity)) as [H1 H2].
  assert (exists r, record_at "id0" demo_ddns = Some r) as [r Hr] by (eexists; vm_compute; reflexivity).
  rewrite Hr in H1. exact (conj H1 H2).
Defined.
