(* ===== verification/DdnsRestart.v ===== *)
(** * DDNS: what a restart reads back

    The file holds the JSON of the root; reading it normalises every record again.  For a well
    formed record this keeps everything but the candidates of the two-sample gate and the
    untidiness described by [tidy]. *)

From S2P Require Import Prelude PyNum PyVal PyIp PyTime HubValues Json Storage Hub Services AgentCmd Ddns DdnsStore DdnsFacts DdnsReach Fixtures.

(** ** Tidy records

    Texts are trimmed and not empty, a value belongs to a type of the record, results follow
    the order of the types and a record that is not enabled says so. *)

Definition tidy_value (cname : bool) (o : option string) : option string :=
  s ← o;
  let text := if cname then strip s else s in
  if nonempty (strip text) then Some (if cname then domain_value text else text) else None.
Definition tidy_values (types : list rtype) (v : values) : values :=
  restrict_values types (Values (tidy_value true (v_cname v)) (tidy_value false (v_txt v))).

Definition tidy_outcome (o : outcome) : outcome :=
  Outcome (o_success o) (strip (o_provider o)) (strip (o_id o)) (o_changed o) (strip (o_status o)) (strip (o_code o))
    (py_take 240 (strip (o_message o))).
Definition result_of (l : list (rtype * outcome)) (t : rtype) : option outcome :=
  option_map snd (List.find (fun to => bool_decide (to.1 = t)) l).
Definition tidy_results (l : list (rtype * outcome)) : list (rtype * outcome) :=
  omap (fun t => option_map (fun o => (t, tidy_outcome o)) (result_of l t)) record_types.

Definition tidy (r : record) : record :=
  let c := r_config r in let d := r_detection r in let p := r_publication r in let f := r_flow r in
  Rec (Config (c_id c) (c_provider c) (c_hostname c) (c_types c) (c_ttl c) (c_enabled c) (tidy_values (c_types c) (c_values c)))
      (Detection (d_v4 d) (d_v6 d) (d_state4 d) (d_state6 d) (strip (d_source d)) (d_at d))
      (Publication (p_v4 p) (p_v6 p) (tidy_values (c_types c) (p_values p)) (p_at p))
      (Flow (if c_enabled c then f_status f else "disabled") (e ← f_error f; some_text (strip e)) (f_stability f)
            (tidy_results (f_results f))).

(** ** Parts of a record *)

Lemma rtype_text_inj t u : rtype_text t = rtype_text u -> t = u.
Proof. by destruct t, u. Qed.

Lemma dget_typed {A} (f : A -> rtype) (g : A -> pyval) l t :
  dget (List.map (fun x => (rtype_text (f x), g x)) l) (rtype_text t) = option_map g (List.find (fun x => bool_decide (f x = t)) l).
Proof.
  induction l as [|x l IH]; [done|]. cbn. destruct (String.eqb_spec (rtype_text t) (rtype_text (f x))) as [E|E].
  - by rewrite bool_decide_true by (by apply rtype_text_inj).
  - rewrite bool_decide_false; [done|]. intros H. by rewrite H in E.
Qed.

Lemma ip_text_eq v s : ip_okb v s = true -> ip_text (PStr s) v = s.
Proof. apply String.eqb_eq. Qed.

Lemma normal_tracker_json t x : tracker_okb t x = true -> normal_tracker t (tracker_json x) = Ok x.
Proof.
  intros (Hc & Hn & Ha & Hr)%tracker_ok_elim. unfold normal_tracker, tracker_json. cbn -[safe_int ip_text bool_of Z.min].
  rewrite !safe_int_int by lia. cbn -[ip_text Z.min]. rewrite !Z.min_r by lia. destruct x as [c n a r b]. cbn in *.
  destruct t; cbn in Hc; rewrite ?ip_text_eq by done; [done..| |]; apply String.eqb_eq in Hc as ->; done.
Qed.

Lemma normal_stability_json s : stability_okb s = true -> normal_stability (stability_json s) = Ok s.
Proof.
  intros Hs. unfold normal_stability, stability_json, record_types. cbn [List.map rtype_text dict_or_empty].
  cbn [get dget]. cbn -[normal_tracker tracker_json].
  rewrite (normal_tracker_json TypeA (st_a s)), (normal_tracker_json TypeAAAA (st_aaaa s)),
    (normal_tracker_json TypeCNAME (st_cname s)), (normal_tracker_json TypeTXT (st_txt s)); [by destruct s|..];
    [apply (tracker_ok_get s TypeTXT)|apply (tracker_ok_get s TypeCNAME)|apply (tracker_ok_get s TypeAAAA)|apply (tracker_ok_get s TypeA)]; done.
Qed.

Lemma normal_outcome_json l t :
  match get (dict_or_empty (results_json l)) (rtype_text t) with
  | PDict d => Some (t, Outcome (truthy (get d "success")) (text_of (get d "provider")) (text_of (get d "recordId"))
                          (truthy (get d "changed")) (text_of (get d "status")) (text_of (get d "errorCode"))
                          (py_take 240 (text_of (get d "errorMessage"))))
  | _ => None
  end = option_map (fun o => (t, tidy_outcome o)) (result_of l t).
Proof.
  unfold results_json, result_of, get at 1. cbn [dict_or_empty].
  rewrite (dget_typed fst (fun to => outcome_json to.1 to.2) l t).
  destruct (List.find _ l) as [[u o]|]; [|done]. cbn -[text_of py_take]. rewrite !text_of_PStr. done.
Qed.

Lemma omap_ext' {A B} (f g : A -> option B) (l : list A) : (forall x, f x = g x) -> omap f l = omap g l.
Proof. intros H. induction l as [|x l IH]; [done|]. cbn. rewrite H. destruct (g x); [f_equal|]; exact IH. Qed.

Lemma normal_results_json l : normal_results (results_json l) = tidy_results l.
Proof. unfold normal_results, tidy_results. apply omap_ext'. intros t. apply normal_outcome_json. Qed.

Lemma record_values_json v :
  domain_values (record_values (values_json v)) = Values (tidy_value true (v_cname v)) (tidy_value false (v_txt v)).
Proof.
  destruct v as [[c|] [t|]]; unfold values_json, domain_values; cbn; repeat (destruct (nonempty _)); done.
Qed.

Lemma dedup_types_id seen l : types_distinct l = true -> (forall t, has_type t l = true -> has_type t seen = false) -> dedup_types seen l = l.
Proof.
  revert seen. induction l as [|t l IH]; intros seen Hd Hs; [done|]. cbn [types_distinct] in Hd.
  apply andb_prop in Hd as [Ht Hd]. apply negb_true_iff in Ht. cbn [dedup_types].
  rewrite (Hs t) by (rewrite has_type_cons; by rewrite bool_decide_true). f_equal. apply IH; [done|].
  intros u Hu. rewrite has_type_cons. rewrite (Hs u) by (rewrite has_type_cons; rewrite Hu; apply orb_true_r).
  rewrite orb_false_r. apply bool_decide_eq_false. intros ->. congruence.
Qed.

Lemma normal_types_json l : types_okb l = true -> normal_types (PList (List.map (fun t => PStr (rtype_text t)) l)) = l.
Proof.
  unfold types_okb. intros [[Hl Hd]%andb_prop Hc]%andb_prop. apply negb_true_iff, bool_decide_eq_false in Hl.
  unfold normal_types.
  assert (omap (fun x => rtype_of (upper (text_of x))) (List.map (fun t => PStr (rtype_text t)) l) = l) as ->.
  { clear. induction l as [|t l IH]; [done|]. cbn [List.map]. change (t :: l) with (option_list (Some t) ++ l).
    destruct t; cbn; f_equal; exact IH. }
  destruct l as [|t l]; [done|]. cbv zeta. destruct (has_type TypeCNAME (t :: l)) eqn:E.
  - cbn [negb orb] in Hc. apply bool_decide_eq_true in Hc as ->. done.
  - by apply dedup_types_id.
Qed.

Lemma find_provider_lower p spec : find_provider p = Some spec -> lower (strip p) = p.
Proof.
  unfold find_provider. intros [Hin Hp]%find_some_in. apply String.eqb_eq in Hp as <-.
  cbn in Hin. repeat destruct Hin as [<-|Hin]; done.
Qed.

Lemma opt_ip v o : opt_okb (fun s => nonempty s && ip_okb v s) o = true -> some_text (ip_text (opt_str o) v) = o.
Proof.
  destruct o as [s|]; [|by destruct v]. cbn. intros [Hn Hs]%andb_prop. rewrite ip_text_eq by done. unfold some_text. by rewrite Hn.
Qed.

(** ** A record and the store *)

(** Look up the fields of a record. *)
Ltac record_gets r :=
  repeat match goal with
  | |- context [get (record_fields r) ?k] =>
      let v := eval cbn -[stability_json results_json values_json opt_str opt_int List.map] in (get (record_fields r) k) in
      change (get (record_fields r) k) with v
  end.

Lemma state_or_in l s : str_in s l = true -> state_or l s = s.
Proof. unfold state_or. by intros ->. Qed.

Lemma state_trimmed l s : str_in s l = true -> forallb (fun x => String.eqb (strip x) x) l = true -> strip s = s.
Proof. intros Hs%str_in_spec Hl. rewrite forallb_forall in Hl. by apply String.eqb_eq, Hl. Qed.

Lemma normal_record_json fresh r : record_ok r -> normal_record fresh (record_json r) = Ok (Some (tidy r)).
Proof.
  intros [Hc Hd Hp Hs Hst]. unfold normal_record, record_json. cbv zeta.
  change (get_or (record_fields r) "enabled" (PBool true)) with (PBool (c_enabled (r_config r))).
  record_gets r. unfold config_okb, detection_okb, publication_okb, trimmed in *.
  rewrite !andb_true_iff, !Z.leb_le, !String.eqb_eq in Hc. rewrite !andb_true_iff, !Z.leb_le in Hd. rewrite !andb_true_iff in Hp.
  destruct Hc as ((((((Hid & Htid) & Hth) & Hty) & Hpr) & Hlo) & Hhi), Hd as ((((H4 & H6) & Hs4) & Hs6) & Hat), Hp as ((P4 & P6) & Pat).
  destruct (find_provider (c_provider (r_config r))) as [spec|] eqn:Ep; [|done].
  rewrite !text_of_PStr, (find_provider_lower _ _ Ep), Ep, Htid, Hth, normal_types_json by done.
  rewrite (safe_int_int (c_ttl _)), (safe_int_int (d_at _)), normal_stability_json, normal_results_json, !record_values_json by (done || lia).
  assert (exists up, safe_int (opt_int (p_at (r_publication r))) 0 = Ok up
                     /\ (if up =? 0 then None else Some up) = p_at (r_publication r)) as (up & -> & Hup).
  { destruct (p_at (r_publication r)) as [n|]; [|by exists 0]. cbn in Pat. apply Z.ltb_lt in Pat. exists n.
    unfold opt_int. rewrite safe_int_int by lia. split; [done|]. by destruct (Z.eqb_spec n 0); [lia|]. }
  cbn [mbind result_bind mret result_ret]. rewrite Hup, !opt_ip, !ip_text_eq by done.
  rewrite (state_trimmed _ _ Hs4 eq_refl), (state_trimmed _ _ Hs6 eq_refl), !state_or_in by done.
  rewrite (state_trimmed _ _ Hst eq_refl), Hst. cbn [bool_of]. unfold str_or. rewrite Hid.
  rewrite Z.max_r, Z.min_r by lia. unfold tidy, tidy_values. cbv zeta. do 3 f_equal.
  f_equal; [by destruct (c_enabled (r_config r))|].
  destruct (f_error (r_flow r)) as [e|]; cbn [opt_str mbind option_bind]; [by rewrite text_of_PStr|done].
Qed.

Lemma normal_address_json a : address_okb a = true -> normal_address (address_json (Some a)) = Ok (Some a).
Proof.
  unfold address_okb, trimmed. rewrite !andb_true_iff, !String.eqb_eq, Z.leb_le.
  intros ((((((((H4 & H6) & Hs4) & Hs6) & P4) & P6) & T4) & T6) & Hat). unfold normal_address, address_json.
  cbn -[ip_text text_of safe_int state_or checked_state]. rewrite !text_of_PStr, safe_int_int, !ip_text_eq by done.
  rewrite (state_trimmed _ _ Hs4 eq_refl), (state_trimmed _ _ Hs6 eq_refl), T4, T6.
  assert (forall s v, public_okb s v = true -> checked_state s v = s) as Hch
    by (intros s v; unfold public_okb, checked_state; by destruct (_ && _)).
  rewrite !Hch, !state_or_in by done. by destruct a.
Qed.

Lemma load_records_json fresh_uuid l s :
  Forall record_ok l -> load_records fresh_uuid (List.map record_json l) s = (Ok (List.map (fun r => reset_candidates (tidy r)) l), s).
Proof.
  intros Hl. induction l as [|r l IH]; [done|]. apply List.Forall_cons_iff in Hl as [Hr Hl]. cbn [List.map load_records].
  rewrite prog_bind_eq. unfold normal_record_m. rewrite normal_record_json by done.
  assert (nonempty (text_of (get (dict_or_empty (record_json r)) "id")) = true) as ->.
  { change (get (dict_or_empty (record_json r)) "id") with (PStr (c_id (r_config r))). rewrite text_of_PStr.
    destruct Hr as [Hc _ _ _ _]. unfold config_okb, trimmed in Hc. rewrite !andb_true_iff, String.eqb_eq in Hc.
    destruct Hc as ((((((Hid & ->) & _) & _) & _) & _) & _). done. }
  rewrite prog_bind_eq, IH by done. done.
Qed.

(** An empty address dict is read as an address that was never seen. *)
Definition read_address (o : option address) : address :=
  default (Address "" "" "unavailable" "unavailable" "" "" 0) o.

(** C28. A restart reads back what was saved: every record in its place with its id, provider, host
    name, TTL, addresses, published addresses, retry delays and refused credentials, its texts and
    results as [tidy] says, and with the candidates of the two-sample gate forgotten.  The last
    address, the credentials and the file stay, no id is drawn and no record is lost. *)
Theorem restart_reads_back fresh_uuid s :
  store_ok s -> s_file s = Some (root_json (s_root s)) ->
  load fresh_uuid (restarted s)
  = (Ok tt, with_root (Root (Some (read_address (g_address (s_root s))))
                         (List.map (fun r => reset_candidates (tidy r)) (g_records (s_root s)))) (restarted s)).
Proof.
  intros [[Ha Hr] _] Hf. unfold load, try_except, load_file. rewrite prog_bind_eq. cbn [reads id restarted s_file]. rewrite Hf.
  unfold root_json. rewrite prog_bind_eq. cbn [lift].
  change (get (root_fields record_json (s_root s)) "address") with (address_json (g_address (s_root s))).
  change (get_or (root_fields record_json (s_root s)) "records" (PList [])) with (PList (List.map record_json (g_records (s_root s)))).
  assert (normal_address (address_json (g_address (s_root s))) = Ok (Some (read_address (g_address (s_root s))))) as ->
    by (destruct (g_address (s_root s)); [by apply normal_address_json|done]).
  rewrite prog_bind_eq. cbn [changes]. rewrite prog_bind_eq. cbn [lift py_iter].
  by rewrite prog_bind_eq, load_records_json by done.
Qed.

Lemma demo_ddns_ok : store_ok demo_ddns.
Proof. constructor; [apply root_okP; vm_compute; reflexivity|done]. Qed.

Lemma restart_reads_back_witness :
  s_file (saved demo_ddns) = Some (root_json (s_root (saved demo_ddns)))
  /\ load demo_uuid (restarted (saved demo_ddns))
     = (Ok tt, with_root (Root (Some (read_address (g_address (s_root demo_ddns))))
                            (List.map (fun r => reset_candidates (tidy r)) (g_records (s_root demo_ddns)))) (restarted (saved demo_ddns))).
Proof.
  split; [reflexivity|]. apply (restart_reads_back demo_uuid (saved demo_ddns)); [|reflexivity].
  destruct demo_ddns_ok. by constructor.
Defined.
