(* ===== verification/RouterRpc.v ===== *)
(** * Calls to the router

    The router answers remote procedure calls ([router_rpc.py]); what it holds and what it
    answers is a parameter.  [rpc method module params] is the call [client.rpc(...)]. *)

From S2P Require Import Prelude PyNum PyVal.

(** An error with a code and an HTTP status; a code holds no space. *)
Definition coded_error (name msg code : string) (http_status : Z) : exn :=
  Exn (name +:+ " " +:+ code +:+ " " +:+ int_str http_status) msg.

(** [error.code] and [error.http_status]. *)
Definition coded_parts (name : string) (e : exn) : option (string * Z) :=
  match split " " (exn_class e) with
  | [class; code; http_status] =>
      if String.eqb class name then option_map (pair code) (int_of_str http_status) else None
  | _ => None
  end.

Definition RouterRpcError : string -> string -> Z -> exn := coded_error "RouterRpcError".
Definition rpc_error_parts : exn -> option (string * Z) := coded_parts "RouterRpcError".

Class RouterClient (R : Type) := { rpc : string -> string -> pyval -> R -> result pyval * R }.
