(* ===== verification/RouterSite.v ===== *)
(** * The Hub and the router together

    The services that write to the router read and write documents of the Hub as well.  Their
    state is a [site]: the world of the Hub, the router behind [client.rpc] and [client.batch],
    and the configuration snapshots of [router_config_sync_patch.py], which every confirmed write
    feeds.  The forced reads and [RouterController.write_and_verify] are those of [router_rpc.py]. *)

From S2P Require Import Prelude PyNum PyVal PyTime HubValues Json Storage Hub Services RouterRpc.

(** [client.batch] of calls without parameters. *)
Class RouterBatch (R : Type) := { batch : list (string * string) -> R -> result pyval * R }.

(** [hashlib.sha256(text).hexdigest()]. *)
Class Sha256 := { sha256 : string -> string }.

(** ** Configuration snapshots *)

Definition config_resources : list string := ["firewall"; "ddns"; "upnp"; "portMappings"].
Definition resource_by_cache_key : list (string * string) :=
  [("firewall", "firewall"); ("ddns", "ddns"); ("upnp", "upnp"); ("native-portmap", "portMappings")].

(** [RouterConfigSync]: the last frame of each resource and the last revision, in memory and in
    the file. *)
Record sync := Sync { y_rows : dict; y_revision : Z; y_file : option pyval }.

Definition del_all (ks : list string) (d : dict) : dict := fold_left (fun d k => ddel k d) ks d.

Definition without_stats (v : pyval) : pyval := match v with PDict row => PDict (ddel "stats" row) | _ => v end.

(** What a change is judged by; [_jsonable] leaves JSON values as they are. *)
Definition comparison_value (resource : string) (v : pyval) : pyval :=
  match v with
  | PDict d =>
      let d := del_all ["updatedAt"; "checkedAt"; "receivedAt"; "receivedEpoch"] d in
      match get d "list" with
      | PList rows => if String.eqb resource "firewall" then PDict (dset "list" (PList (List.map without_stats rows)) d) else PDict d
      | _ => PDict d
      end
  | _ => v
  end.

Section Sync.
Context `{Sha256}.

Definition digest (resource : string) (v : pyval) : string := sha256 (dumps (comparison_value resource v)).

Definition sync_saved (rows : dict) (revision : Z) : sync :=
  Sync rows revision (Some (PDict [("revision", PInt revision); ("resources", PDict rows)])).

(** [accept]: the frame it answers with.  The frame goes to the WebSocket clients when the value
    changed or a command confirmed it; publishing is not modelled. *)
Definition accept (now : Z) (resource : string) (data : pyval) (source : string) (y : sync) : dict * sync :=
  if negb (str_in resource config_resources) then ([], y)
  else
    let fingerprint := digest resource data in
    let previous := dict_or_empty (get (y_rows y) resource) in
    if is_text (get previous "digest") fingerprint
    then (dset "checkedAt" (PInt now) (dset "source" (PStr source) (dset "resource" (PStr resource) previous)), y)
    else
      let revision := y_revision y + 1 in
      let frame := [("resource", PStr resource); ("revision", PInt revision); ("updatedAt", PInt now); ("checkedAt", PInt now);
                    ("source", PStr source); ("digest", PStr fingerprint); ("data", data)] in
      (frame, sync_saved (dset resource (PDict frame) (y_rows y)) revision).

Definition accept_verified (now : Z) (cache_prefix : string) (data : pyval) (y : sync) : sync :=
  match List.find (fun kv => String.eqb kv.1 cache_prefix) resource_by_cache_key with
  | Some (_, resource) => (accept now resource data "command" y).2
  | None => y
  end.

Definition snapshot (resource : string) (y : sync) : dict := dict_or_empty (get (y_rows y) resource).
Definition frames (y : sync) : list dict :=
  omap (fun kv => match kv.2 with PDict row => if is_none (get row "data") then None else Some row | _ => None end) (y_rows y).

(** [_load]: rows with data; the revision is the largest one, and stays zero when one of them is
    no number. *)
Definition usable_row (v : pyval) : bool :=
  match v with PDict row => is_dict (get row "data") || is_list (get row "data") | _ => false end.
Definition load_sync (file : option pyval) : sync :=
  match file with
  | Some (PDict root) =>
      let rows := match get root "resources" with
                  | PDict rows => List.filter (fun kv => usable_row kv.2) rows
                  | _ => []
                  end in
      let revision := (own ← py_int (por (get root "revision") (PInt 0));
                       revisions ← result_map (fun kv => py_int (por (get (dict_or_empty kv.2) "revision") (PInt 0))) rows;
                       Ok (fold_left Z.max revisions (Z.max own 0))) in
      Sync rows (catch revision 0) file
  | _ => Sync [] 0 file
  end.
End Sync.

(** ** The site *)

Record site (S R : Type) := Site { st_hub : world S; st_router : R; st_sync : sync }.
Arguments Site {S R}.
Arguments st_hub {S R}.
Arguments st_router {S R}.
Arguments st_sync {S R}.

Notation router_prog S R := (prog (site S R)).

Section Site.
Context {S R : Type} `{DocStore S} {tz : TimeZone} `{RouterClient R} `{RouterBatch R} `{Sha256}.

Definition on_hub {A} (m : hub S A) : router_prog S R A := fun s =>
  let '(r, w) := m (st_hub s) in (r, Site w (st_router s) (st_sync s)).
Definition on_router {A} (m : prog R A) : router_prog S R A := fun s =>
  let '(r, x) := m (st_router s) in (r, Site (st_hub s) x (st_sync s)).
Definition on_sync (f : sync -> sync) : router_prog S R unit := fun s =>
  (Ok tt, Site (st_hub s) (st_router s) (f (st_sync s))).

(** [client.rpc(method, module, params)]. *)
Definition call (method module : string) (params : pyval) : router_prog S R pyval := on_router (rpc method module params).

(** *** Forced reads *)

Definition native_port_mapping : router_prog S R dict :=
  raw ← call "devConfig.get" "port_mapping" PNone;
  mret (match raw with
        | PDict d => d
        | PList l => [("portMapping", PList l)]
        | _ => [("portMapping", PList [])]
        end).

Definition firewall_rows (stats config : dict) : result (list pyval) :=
  rows ← py_iter (get_or stats "list" (PList []));
  let stat_map := dict_of (omap (fun v => match v with PDict row => Some (py_str (get row "uuid"), v) | _ => None end) rows) in
  mret (omap (fun v => match v with
                       | PDict rule => Some (PDict (dset "stats"
                           (get_or stat_map (py_str (get rule "uuid")) (PDict [("packets", PInt 0); ("bytes", PInt 0)])) rule))
                       | _ => None
                       end) (list_or_empty (get config "list"))).

(** The element of a list, when it is a dict. *)
Definition dict_at (i : nat) (v : pyval) : dict := match v with PList l => dict_or_empty (nth i l PNone) | _ => [] end.

Definition firewall : router_prog S R dict :=
  data ← on_router (batch [("devConfig.get", "ip_firewall"); ("devSta.get", "ip_firewall")] : prog R pyval);
  let config := dict_at 0 data in
  rules ← lift (firewall_rows (dict_at 1 data) config);
  now ← on_hub epoch;
  mret (dset "updatedAt" (PInt now) (dset "list" (PList rules) config)).

(** [write_and_verify] with the wrapper of the snapshots: the data of the answer. *)
Definition write_and_verify (cache_prefix : string) (write : router_prog S R pyval) (read : router_prog S R dict) : router_prog S R dict :=
  _ ← write;
  current ← read;
  now ← on_hub epoch;
  _ ← on_sync (accept_verified now cache_prefix (PDict current));
  mret current.

(** [refresh] of the background thread; [reconcile] is what [FIREWALL_AUTOMATION] does with a
    confirmed firewall. *)
Definition refresh (reconcile : dict -> router_prog S R unit) (resource : string) (load : router_prog S R dict) : router_prog S R unit :=
  try_except
    (latest ← load;
     now ← on_hub epoch;
     _ ← on_sync (fun y => (accept now resource (PDict latest) "sync" y).2);
     if String.eqb resource "firewall" then reconcile latest else mret tt)
    (fun _ => mret tt).
End Site.

(** ** Facts *)

Section SyncFacts.
Context `{Sha256}.

(** A change of a resource gets a new revision, and only its frame changes. *)
Lemma accept_changed now resource data source y :
  str_in resource config_resources = true ->
  is_text (get (snapshot resource y) "digest") (digest resource data) = false ->
  let '(frame, y') := accept now resource data source y in
  y_revision y' = y_revision y + 1 /\ snapshot resource y' = frame /\ get frame "data" = data
  /\ forall other, other <> resource -> snapshot other y' = snapshot other y.
Proof.
  intros Hr Hd. unfold accept. rewrite Hr. cbn [negb]. unfold snapshot in Hd. rewrite Hd. cbn.
  split; [done|]. unfold snapshot. cbn [y_rows sync_saved]. rewrite get_dset_eq. split; [done|]. split; [done|].
  intros other Hne. by rewrite get_dset_ne.
Qed.

Lemma accept_unchanged now resource data source y :
  str_in resource config_resources = true ->
  is_text (get (snapshot resource y) "digest") (digest resource data) = true ->
  (accept now resource data source y).2 = y.
Proof. intros Hr Hd. unfold accept. rewrite Hr. cbn [negb]. unfold snapshot in Hd. by rewrite Hd. Qed.
End SyncFacts.

Section SiteFacts.
Context {S R : Type}.

Lemma on_hub_eq {A} (m : hub S A) (s : site S R) :
  on_hub m s = ((m (st_hub s)).1, Site (m (st_hub s)).2 (st_router s) (st_sync s)).
Proof. unfold on_hub. by destruct (m (st_hub s)). Qed.

Lemma on_router_eq {A} (m : prog R A) (s : site S R) :
  on_router m s = ((m (st_router s)).1, Site (st_hub s) (m (st_router s)).2 (st_sync s)).
Proof. unfold on_router. by destruct (m (st_router s)). Qed.
End SiteFacts.

(** ** Which documents a program on a site may change *)

Section SiteKeeps.
Context {S R : Type} `{DocStoreLaws S} {tz : TimeZone} `{RouterClient R} `{RouterBatch R} `{Sha256} (k : string).

Definition site_keeps {A} (m : router_prog S R A) : Prop :=
  forall s r s', m s = (r, s') -> doc_read k (w_docs (st_hub s')) = doc_read k (w_docs (st_hub s)).

Lemma site_keeps_hub {A} (m : hub S A) : keeps k m -> site_keeps (on_hub m).
Proof. intros Hm s r s'. rewrite on_hub_eq. destruct (m (st_hub s)) as [o w] eqn:Em. intros [= <- <-]. cbn. by eapply Hm. Qed.

Lemma site_keeps_ret {A} (a : A) : site_keeps (mret a).
Proof. by intros s r s' [= <- <-]. Qed.
Lemma site_keeps_lift {A} (m : result A) : site_keeps (lift m).
Proof. by intros s r s' [= <- <-]. Qed.

Lemma site_keeps_bind {A B} (m : router_prog S R A) (f : A -> router_prog S R B) :
  site_keeps m -> (forall a, site_keeps (f a)) -> site_keeps (m ≫= f).
Proof.
  intros Hm Hf s r s'. rewrite prog_bind_eq. destruct (m s) as [[a|e] s1] eqn:Em; intros Hr.
  - rewrite (Hf _ _ _ _ Hr). by eapply Hm.
  - injection Hr as <- <-. by eapply Hm.
Qed.

Lemma site_keeps_try {A} (m : router_prog S R A) h : site_keeps m -> (forall e, site_keeps (h e)) -> site_keeps (try_except m h).
Proof.
  intros Hm Hh s r s'. unfold try_except. destruct (m s) as [[a|e] s1] eqn:Em; intros Hr.
  - injection Hr as <- <-. by eapply Hm.
  - rewrite (Hh _ _ _ _ Hr). by eapply Hm.
Qed.

Lemma site_keeps_for_each {A} (f : A -> router_prog S R unit) l : (forall a, site_keeps (f a)) -> site_keeps (for_each f l).
Proof. intros Hf. induction l as [|x l IH]; cbn; [apply site_keeps_ret|]. by apply site_keeps_bind. Qed.

Lemma site_keeps_call m x p : site_keeps (call m x p).
Proof. intros s r s'. unfold call. rewrite on_router_eq. by intros [= <- <-]. Qed.
Lemma site_keeps_router {A} (m : prog R A) : site_keeps (on_router m).
Proof. intros s r s'. rewrite on_router_eq. by intros [= <- <-]. Qed.
Lemma site_keeps_sync f : site_keeps (on_sync f).
Proof. by intros s r s' [= <- <-]. Qed.
End SiteKeeps.

#[export] Hint Resolve site_keeps_ret site_keeps_lift site_keeps_call site_keeps_router site_keeps_sync : hub.

(** Walk through a program on a site. *)
Ltac solve_site_keeps :=
  repeat first
    [ match goal with |- forall _, _ => intros ? end
    | solve [auto with hub nocore]
    | apply site_keeps_hub; solve_keeps
    | apply site_keeps_bind
    | apply site_keeps_try
    | apply site_keeps_for_each
    | case_match ].
