(* ===== verification/Providers.v ===== *)
(** * The adapters of the DDNS providers

    [lab_ddns_providers.py]: eight adapters that bring one record of a host name to a value.  Three
    list the records of the zone and write one when the value differs, five send the value and read
    a short text.  The network is a parameter: what it answers to a request, and how its state
    changes.  Signatures use SHA-1, SHA-256 and HMAC as parameters. *)

From S2P Require Import Prelude PyNum PyVal PyTime HubValues Json Hub RouterSite Ddns DdnsStore.

(** ** Requests *)

Record http_request := Http {
  h_method : string; h_url : string; h_params : dict; h_json : option dict; h_headers : list (string * string);
  h_auth : option (string * string);
}.
Record http_answer := HttpAnswer { ha_status : Z; ha_json : option pyval; ha_text : string }.

(** The keyed hashes of the standard library, as bytes. *)
Class Hmac := { hmac_sha1 : string -> string -> string; hmac_sha256 : string -> string -> string }.

(** [hexdigest] and [base64.b64encode] of bytes. *)
Definition hex_of (s : string) : string := sconcat_map (fun c => hex2 (byte_of c)) s.

Definition base64_char (n : Z) : string :=
  chr_str (if n <? 26 then 65 + n else if n <? 52 then 71 + n else if n <? 62 then n - 4 else if n =? 62 then 43 else 47).
Fixpoint base64 (s : string) : string :=
  match s with
  | EmptyString => ""
  | String a EmptyString =>
      base64_char (Z.shiftr (byte_of a) 2) +:+ base64_char (Z.land (Z.shiftl (byte_of a) 4) 63) +:+ "=="
  | String a (String b EmptyString) =>
      base64_char (Z.shiftr (byte_of a) 2) +:+ base64_char (Z.land (Z.lor (Z.shiftl (byte_of a) 4) (Z.shiftr (byte_of b) 4)) 63)
        +:+ base64_char (Z.land (Z.shiftl (byte_of b) 2) 63) +:+ "="
  | String a (String b (String c s')) =>
      base64_char (Z.shiftr (byte_of a) 2) +:+ base64_char (Z.land (Z.lor (Z.shiftl (byte_of a) 4) (Z.shiftr (byte_of b) 4)) 63)
        +:+ base64_char (Z.land (Z.lor (Z.shiftl (byte_of b) 2) (Z.shiftr (byte_of c) 6)) 63)
        +:+ base64_char (Z.land (byte_of c) 63) +:+ base64 s'
  end.

(** [urllib.parse.quote]. *)
Definition percent (c : ascii) : string := String "%" (upper (hex2 (byte_of c))).
Definition quote (safe s : string) : string :=
  sconcat_map (fun c => if is_alnum c || one_of ("_.-~" +:+ safe) c then String c "" else percent c) s.

(** ** Error texts *)

(** [re.sub]: [m] is the match at the start of a text, its replacement and its length. *)
Fixpoint sub_go (m : string -> option (string * nat)) (skip : nat) (s : string) : string :=
  match s with
  | EmptyString => ""
  | String c s' =>
      match skip with
      | Datatypes.S k => sub_go m k s'
      | O => match m s with
             | Some (text, n) => text +:+ sub_go m (n - 1) s'
             | None => String c (sub_go m O s')
             end
      end
  end.

Definition text_after (n : nat) (s : string) : string := substring n (String.length s - n) s.

(** [(?i)bearer\s+[A-Za-z0-9._~+/=-]+]. *)
Definition bearer_at (s : string) : option (string * nat) :=
  if String.eqb (lower (substring 0 6 s)) "bearer" then
    let '(spaces, rest) := span is_space (text_after 6 s) in
    let '(token, _) := span (fun c => is_alnum c || one_of "._~+/=-" c) rest in
    if nonempty spaces && nonempty token
    then Some ("Bearer [REDACTED]", (6 + String.length spaces + String.length token)%nat) else None
  else None.

Definition secret_words : list string := ["accesskeysecret"; "secretkey"; "token"; "signature"; "authorization"].

(** [(?i)(accesskeysecret|secretkey|token|signature|authorization)=?[^\s&,;]+]: the optional sign is
    in the last class too. *)
Definition secret_at (s : string) : option (string * nat) :=
  match List.find (fun w => String.eqb (lower (substring 0 (String.length w) s)) w) secret_words with
  | Some w =>
      let '(value, _) := span (fun c => negb (is_space c || one_of "&,;" c)) (text_after (String.length w) s) in
      if nonempty value then Some (substring 0 (String.length w) s +:+ "=[REDACTED]", (String.length w + String.length value)%nat)
      else None
  | None => None
  end.

Definition clean_error (value : pyval) (secrets : list string) : string :=
  let text := fold_left (fun text secret => if 3 <=? py_len secret then replace secret "[REDACTED]" text else text)
                secrets (str_or_empty value) in
  py_take 240 (sub_go secret_at O (sub_go bearer_at O text)).

(** ** Results *)

Definition failure (provider : string) (code message : pyval) (secrets : list string) : provider_result :=
  let safe_code := str_or (clean_error code secrets) "provider_error" in
  let safe_message := str_or (clean_error message secrets) "provider request failed" in
  ProviderResult false safe_message provider "" false safe_code safe_message.
Definition failed (provider code message : string) : provider_result := failure provider (PStr code) (PStr message) [].

Definition succeeded (provider : string) (changed : bool) (id : string) : provider_result := ProviderResult true "" provider id changed "" "".

Definition unsupported_result (provider : string) : provider_result :=
  let text := "provider does not support this record type" in ProviderResult false text provider "" false "unsupported_record_type" text.

Definition cred (c : credentials) (k : string) : string :=
  match List.find (fun kv => String.eqb kv.1 k) c with Some kv => kv.2 | None => "" end.
Definition secrets_of (c : credentials) : list string := List.map snd c.

Definition no_credentials (provider : string) : provider_result :=
  failed provider "credential_error" "provider credentials are not configured".
Definition required (c : credentials) (ks : list string) (provider : string) : option provider_result :=
  if existsb (fun k => negb (nonempty (strip (cred c k)))) ks then Some (no_credentials provider) else None.

Definition rstrip_dots (s : string) : string := rstrip_by (is_char "."%char) s.

(** [_zone_rr]: the zone and the name in it. *)
Definition zone_rr (hostname : string) (c : credentials) (provider : string) : (string * string) + provider_result :=
  let hostname := lower (rstrip_dots (strip hostname)) in
  let zone := lower (rstrip_dots (strip (str_or (cred c "zone") (cred c "domain")))) in
  if negb (nonempty zone) then inr (failed provider "zone_required" "provider zone/domain is required")
  else if negb (String.eqb hostname zone) && negb (ends_with ("." +:+ zone) hostname)
  then inr (failed provider "zone_mismatch" "hostname is outside the configured zone")
  else inl (zone, if String.eqb hostname zone then "@" else substring 0 (String.length hostname - (String.length zone + 1)) hostname).

(** [_text_update_result]. *)
Definition default_words : list string := ["good"; "ok"; "success"; "updated"; "nochg"].
Definition auth_words : list string :=
  ["badauth"; "unauthorized"; "forbidden"; "invalid token"; "invalid_token"; "authentication failed"].

Definition text_update_result (provider body : string) (status : Z) (c : credentials) (words : list string) : result provider_result :=
  first ← (if nonempty body then match splitlines (strip body) with
                                 | l :: _ => Ok (lower (strip l))
                                 | [] => Err (Exn "IndexError" "list index out of range")
                                 end
           else Ok "");
  let words := List.map lower words in
  let secrets := secrets_of c in
  if (status =? 401) || (status =? 403)
  then mret (failure provider (PStr ("http_" +:+ int_str status)) (PStr "provider authentication failed") secrets)
  else if str_in first words || existsb (fun w => starts_with (w +:+ " ") first) words
  then mret (succeeded provider (negb (str_in first ["ok"; "nochg"])) "")
  else
    let code := if str_in first auth_words then "authentication_failed"
                else if 400 <=? status then "http_" +:+ int_str status else "provider_error" in
    mret (failure provider (PStr code)
            (PStr (if String.eqb code "authentication_failed" then "provider authentication failed" else "provider update failed")) secrets).

(** [next((item for item in records if p item), None)] on the rows of an answer. *)
Fixpoint find_item (p : dict -> bool) (l : list pyval) : result (option dict) :=
  match l with
  | [] => Ok None
  | PDict d :: l' => if p d then Ok (Some d) else find_item p l'
  | v :: _ => attribute_error v "get"
  end.
Definition find_row (p : dict -> bool) (v : pyval) : result (option dict) := items ← py_iter (por v (PList [])); find_item p items.

(** [str(d.get(k, dflt))]. *)
Definition text_at (d : dict) (k dflt : string) : string := py_str (get_or d k (PStr dflt)).

(** ** Sessions *)

(** The network, the time in seconds, the random names drawn and the requests sent so far. *)
Record session (N : Type) := Session { x_net : N; x_now : Z; x_uuids : nat; x_sent : list http_request }.
Arguments Session {N}.
Arguments x_net {N}.
Arguments x_now {N}.
Arguments x_uuids {N}.
Arguments x_sent {N}.

(** A result, or the failure to return at once. *)
Definition or_fail (N A : Type) : Type := prog (session N) (A + provider_result).
Definition unless_failed {N A} (m : or_fail N A) (f : A -> prog (session N) provider_result) : prog (session N) provider_result :=
  x ← m; match x with inl a => f a | inr e => mret e end.
Definition unless_error {N} (error : option provider_result) (m : prog (session N) provider_result) : prog (session N) provider_result :=
  match error with Some e => mret e | None => m end.

Section Adapters.
Context {N : Type} `{Sha256} `{Hmac} (uuid_hex : nat -> string).
(** The answer to a request; [None] for a failure of the connection. *)
Context (respond : http_request -> N -> option http_answer * N).

Abbreviation syncing := (prog (session N)).

Definition ask (q : http_request) : syncing (option http_answer) := fun s =>
  let '(a, n) := respond q (x_net s) in (Ok a, Session n (x_now s) (x_uuids s) (x_sent s ++ [q])).
Definition draw_uuid : syncing string := fun s => (Ok (uuid_hex (x_uuids s)), Session (x_net s) (x_now s) (1 + x_uuids s)%nat (x_sent s)).

Definition refused_status (provider : string) (status : Z) : option provider_result :=
  if (status =? 401) || (status =? 403) then Some (failed provider ("http_" +:+ int_str status) "provider authentication failed")
  else if status =? 429 then Some (failed provider "http_429" "provider rate limited") else None.

(** [_request_json] and [_request_text]. *)
Definition request_json (provider : string) (q : http_request) : or_fail N dict :=
  answer ← ask q;
  mret (match answer with
        | None => inr (failed provider "network_error" "provider request failed")
        | Some a => match ha_json a with
                    | Some (PDict payload) => match refused_status provider (ha_status a) with Some e => inr e | None => inl payload end
                    | _ => inr (failed provider ("http_" +:+ int_str (ha_status a)) "provider returned invalid JSON")
                    end
        end).
Definition request_text (provider : string) (q : http_request) : or_fail N string :=
  answer ← ask q;
  mret (match answer with
        | None => inr (failed provider "network_error" "provider request failed")
        | Some a => match refused_status provider (ha_status a) with Some e => inr e | None => inl (strip (ha_text a)) end
        end).

(** *** AliDNS *)

Definition ali_encode (s : string) : string := quote "~-_." s.
Definition ali_ttl (ttl : Z) : Z := Z.min 86400 (Z.max 600 ttl).
Definition timestamp (now : Z) : string := format_date now +:+ "T" +:+ format_clock now +:+ "Z".

(** [_signed_params]; every value is a text. *)
Definition signed_params (nonce : string) (now : Z) (action : string) (extra : dict) (c : credentials) : dict :=
  let params := dupdate
    [("AccessKeyId", PStr (cred c "AccessKeyId")); ("Action", PStr action); ("Format", PStr "JSON");
     ("SignatureMethod", PStr "HMAC-SHA1"); ("SignatureNonce", PStr nonce); ("SignatureVersion", PStr "1.0");
     ("Timestamp", PStr (timestamp now)); ("Version", PStr "2015-01-09")]
    (List.map (fun kv => (kv.1, PStr (py_str kv.2))) extra) in
  let canonical := join "&" (List.map (fun k => ali_encode k +:+ "=" +:+ ali_encode (py_str (get params k))) (isort sleb (keys params))) in
  dset "Signature" (PStr (base64 (hmac_sha1 (cred c "AccessKeySecret" +:+ "&") ("GET&%2F&" +:+ ali_encode canonical)))) params.

Definition ali_rpc (action : string) (extra : dict) (c : credentials) : or_fail N dict :=
  nonce ← draw_uuid;
  now ← reads x_now;
  answer ← request_json "alidns" (Http "GET" "https://alidns.aliyuncs.com/" (signed_params nonce now action extra c) None
                                    [("User-Agent", "LabProbe-Hub-DDNS")] None);
  mret (match answer with
        | inl payload => if truthy (get payload "Code")
                         then inr (failure "alidns" (get payload "Code") (get_or payload "Message" (PStr "provider request failed")) (secrets_of c))
                         else inl payload
        | inr e => inr e
        end).

Definition ali_record (rr : string) (t : rtype) (value : string) (ttl : Z) : dict :=
  [("RR", PStr rr); ("Type", PStr (rtype_text t)); ("Value", PStr value); ("TTL", PInt (ali_ttl ttl))].

Definition ali_sync (hostname : string) (t : rtype) (value : string) (ttl : Z) (c : credentials) : syncing provider_result :=
  unless_error (required c ["AccessKeyId"; "AccessKeySecret"] "alidns")
    (match zone_rr hostname c "alidns" with
     | inr e => mret e
     | inl (zone, rr) =>
         unless_failed (ali_rpc "DescribeDomainRecords"
             [("DomainName", PStr zone); ("RRKeyWord", PStr rr); ("TypeKeyWord", PStr (rtype_text t)); ("PageNumber", PInt 1); ("PageSize", PInt 100)] c)
           (fun payload =>
             records ← lift (vget (por (get payload "DomainRecords") (PDict [])) "Record");
             row ← lift (find_row (fun d => String.eqb (upper (text_at d "Type" "")) (rtype_text t) && String.eqb (text_at d "RR" "@") rr) records);
             match row with
             | None =>
                 unless_failed (ali_rpc "AddDomainRecord" (("DomainName", PStr zone) :: ali_record rr t value ttl) c)
                   (fun created => mret (succeeded "alidns" true (text_at created "RecordId" "")))
             | Some row =>
                 let record_id := text_at row "RecordId" "" in
                 if String.eqb (text_at row "Value" "") value then mret (succeeded "alidns" false record_id)
                 else unless_failed (ali_rpc "UpdateDomainRecord" (("RecordId", PStr record_id) :: ali_record rr t value ttl) c)
                        (fun updated => mret (succeeded "alidns" true (text_at updated "RecordId" record_id)))
             end)
     end).

(** *** DNSPod *)

(** [json.dumps(body, ensure_ascii=False, separators=(",", ":"))] of a dict of texts. *)
Definition flat_json (d : dict) : string :=
  "{" +:+ join "," (List.map (fun kv => json_quote kv.1 +:+ ":" +:+ json_quote (py_str kv.2)) d) +:+ "}".

Definition newline : string := chr_str 10.

Definition pod_headers (now : Z) (action : string) (body : dict) (c : credentials) : list (string * string) :=
  let date := format_date now in
  let canonical_request := join newline ["POST"; "/"; ""; "content-type:application/json; charset=utf-8"; "host:dnspod.tencentcloudapi.com"; "";
                                         "content-type;host"; sha256 (flat_json body)] in
  let scope := date +:+ "/dnspod/tc3_request" in
  let string_to_sign := join newline ["TC3-HMAC-SHA256"; int_str now; scope; sha256 canonical_request] in
  let secret_date := hmac_sha256 ("TC3" +:+ cred c "SecretKey") date in
  let secret_signing := hmac_sha256 (hmac_sha256 secret_date "dnspod") "tc3_request" in
  [("Content-Type", "application/json; charset=utf-8"); ("Host", "dnspod.tencentcloudapi.com"); ("X-TC-Action", action);
   ("X-TC-Version", "2021-03-23"); ("X-TC-Timestamp", int_str now);
   ("Authorization", "TC3-HMAC-SHA256 Credential=" +:+ cred c "SecretId" +:+ "/" +:+ scope +:+ ", SignedHeaders=content-type;host, Signature="
                     +:+ hex_of (hmac_sha256 secret_signing string_to_sign))].

Definition pod_rpc (action : string) (body : dict) (c : credentials) : or_fail N dict :=
  now ← reads x_now;
  answer ← request_json "dnspod" (Http "POST" "https://dnspod.tencentcloudapi.com" [] (Some body) (pod_headers now action body c) None);
  lift (match answer with
        | inl payload =>
            let response := por (get payload "Response") (PDict []) in
            error ← vget response "Error";
            let error := por error (PDict []) in
            if truthy error then
              code ← vget_or error "Code" (PStr "provider_error");
              message ← vget_or error "Message" (PStr "provider request failed");
              Ok (inr (failure "dnspod" code message (secrets_of c)))
            else Ok (inl (dict_or_empty response))
        | inr e => Ok (inr e)
        end).

Definition pod_body (zone rr : string) (t : rtype) : dict :=
  [("Domain", PStr zone); ("Subdomain", PStr rr); ("RecordType", PStr (rtype_text t)); ("RecordLine", PStr "默认")].
Definition pod_sync (hostname : string) (t : rtype) (value : string) (c : credentials) : syncing provider_result :=
  unless_error (required c ["SecretId"; "SecretKey"] "dnspod")
    (match zone_rr hostname c "dnspod" with
     | inr e => mret e
     | inl (zone, rr) =>
         let body := pod_body zone rr t in
         unless_failed (pod_rpc "DescribeRecordList" body c)
           (fun response =>
             row ← lift (find_row (fun d => String.eqb (upper (text_at d "Type" "")) (rtype_text t) && String.eqb (text_at d "Name" rr) rr)
                           (get response "RecordList"));
             match row with
             | None =>
                 unless_failed (pod_rpc "CreateRecord" (dset "Value" (PStr value) body) c)
                   (fun created => mret (succeeded "dnspod" true (text_at created "RecordId" "")))
             | Some row =>
                 let record_id := text_at row "RecordId" "" in
                 if String.eqb (text_at row "Value" "") value then mret (succeeded "dnspod" false record_id)
                 else unless_failed (pod_rpc "ModifyRecord" (dset "Value" (PStr value) (dset "RecordId" (PStr record_id) body)) c)
                        (fun _ => mret (succeeded "dnspod" true record_id))
             end)
     end).

(** *** Cloudflare *)

Definition flare_token (c : credentials) : string := str_or (cred c "apiToken") (cred c "token").
Definition flare_missing (c : credentials) : option provider_result :=
  if negb (nonempty (strip (flare_token c))) || negb (nonempty (strip (cred c "zoneId"))) then Some (no_credentials "cloudflare") else None.
Definition flare_headers (c : credentials) : list (string * string) :=
  [("Authorization", "Bearer " +:+ flare_token c); ("Content-Type", "application/json"); ("User-Agent", "LabProbe-Hub-DDNS")].

(** [_api]; the first of the reported errors is told. *)
Definition flare_api (method path : string) (params : dict) (body : option dict) (c : credentials) : or_fail N dict :=
  answer ← request_json "cloudflare" (Http method ("https://api.cloudflare.com/client/v4" +:+ path) params body (flare_headers c) None);
  lift (match answer with
        | inl payload =>
            if truthy (get_or payload "success" (PBool false)) then Ok (inl payload)
            else
              let first := match por (get payload "errors") (PList [PDict []]) with PList (v :: _) => v | _ => PDict [] end in
              code ← vget_or first "code" (PStr "provider_error");
              message ← vget_or first "message" (PStr "provider request failed");
              Ok (inr (failure "cloudflare" code message (secrets_of c)))
        | inr e => Ok (inr e)
        end).

Definition flare_record (hostname : string) (t : rtype) (value : string) (ttl : Z) : dict :=
  [("type", PStr (rtype_text t)); ("name", PStr (rstrip_dots hostname)); ("content", PStr value); ("ttl", PInt ttl)].
Definition read_only_keys : list string := ["id"; "zone_id"; "zone_name"; "created_on"; "modified_on"; "meta"].

(** [str((payload.get("result") or {}).get("id", dflt))]. *)
Definition result_id (payload : dict) (dflt : string) : result string :=
  v ← vget_or (por (get payload "result") (PDict [])) "id" (PStr dflt); Ok (py_str v).

Definition flare_sync (hostname : string) (t : rtype) (value : string) (ttl : Z) (c : credentials) : syncing provider_result :=
  unless_error (flare_missing c)
    (let name := rstrip_dots hostname in
     let records_path := "/zones/" +:+ quote "" (cred c "zoneId") +:+ "/dns_records" in
     unless_failed (flare_api "GET" records_path [("name", PStr name); ("type", PStr (rtype_text t)); ("per_page", PInt 100)] None c)
       (fun payload =>
         row ← lift (find_row (fun d => String.eqb (lower (rstrip_dots (text_at d "name" ""))) (lower name)
                                        && String.eqb (upper (text_at d "type" "")) (rtype_text t)) (get payload "result"));
         match row with
         | None =>
             let body := flare_record hostname t value ttl ++ (if bool_decide (t = TypeTXT) then [] else [("proxied", PBool false)]) in
             unless_failed (flare_api "POST" records_path [] (Some body) c)
               (fun created => i ← lift (result_id created ""); mret (succeeded "cloudflare" true i))
         | Some row =>
             let record_id := text_at row "id" "" in
             if String.eqb (text_at row "content" "") value then mret (succeeded "cloudflare" false record_id)
             else
               let kept := List.filter (fun kv => negb (str_in kv.1 read_only_keys)) row in
               let body := setdefault "proxied" (PBool false) (dupdate kept (flare_record hostname t value ttl)) in
               unless_failed (flare_api "PATCH" (records_path +:+ "/" +:+ quote "" record_id) [] (Some body) c)
                 (fun updated => i ← lift (result_id updated record_id); mret (succeeded "cloudflare" true i))
         end)).

(** *** The adapters that send one request and read a text *)

Definition text_sync (provider : string) (q : http_request) (c : credentials) (words : list string) : syncing provider_result :=
  unless_failed (request_text provider q) (fun body => lift (text_update_result provider body 200 c words)).

(** The token, required by four of them. *)
Definition with_token (provider : string) (c : credentials) (f : string -> syncing provider_result) : syncing provider_result :=
  let token := strip (cred c "token") in
  if negb (nonempty token) then mret (no_credentials provider) else f token.

Definition dynv6_sync (hostname : string) (t : rtype) (value : string) (c : credentials) : syncing provider_result :=
  with_token "dynv6" c (fun token =>
    text_sync "dynv6" (Http "GET" "https://dynv6.com/api/update"
      [("zone", PStr (rstrip_dots hostname)); ("token", PStr token); (if bool_decide (t = TypeA) then "ipv4" else "ipv6", PStr value)]
      None [] None) c default_words).

Definition duck_domain (hostname : string) : string :=
  let value := rstrip_dots hostname in
  if ends_with ".duckdns.org" (lower value) then substring 0 (String.length value - 12) value else value.
Definition duckdns_sync (hostname : string) (t : rtype) (value : string) (c : credentials) : syncing provider_result :=
  with_token "duckdns" c (fun token =>
    text_sync "duckdns" (Http "GET" "https://www.duckdns.org/update"
      [("domains", PStr (duck_domain hostname)); ("token", PStr token);
       (match t with TypeTXT => "txt" | TypeAAAA => "ipv6" | _ => "ip" end, PStr value)] None [] None) c ["OK"; "nochg"]).

Definition desec_sync (hostname : string) (t : rtype) (value : string) (c : credentials) : syncing provider_result :=
  with_token "desec" c (fun token =>
    text_sync "desec" (Http "GET" "https://update.dedyn.io/"
      [("hostname", PStr (rstrip_dots hostname)); ("myipv4", PStr (if bool_decide (t = TypeA) then value else "preserve"));
       ("myipv6", PStr (if bool_decide (t = TypeAAAA) then value else "preserve"))] None [("Authorization", "Token " +:+ token)] None)
      c default_words).

Definition dynu_sync (hostname : string) (t : rtype) (value : string) (c : credentials) : syncing provider_result :=
  unless_error (required c ["username"; "password"] "dynu")
    (text_sync "dynu" (Http "GET" "https://api.dynu.com/nic/update"
      [("hostname", PStr (rstrip_dots hostname)); ("myip", PStr (if bool_decide (t = TypeA) then value else "no"));
       ("myipv6", PStr (if bool_decide (t = TypeAAAA) then value else "no"))] None [("User-Agent", "LabProbe-Hub-DDNS")]
      (Some (cred c "username", cred c "password"))) c default_words).

Definition ipv64_result (raw : string) (c : credentials) : result provider_result :=
  match loads raw with
  | Some (PDict payload) =>
      let status := lower (str_or_empty (por (por (get payload "status") (get payload "Status")) (get payload "info"))) in
      if str_in status ["success"; "good"; "ok"; "updated"; "nochg"]
      then mret (succeeded "ipv64" (negb (str_in status ["ok"; "nochg"])) "")
      else if str_in status ["401"; "403"; "unauthorized"; "forbidden"]
      then mret (failure "ipv64" (PStr "authentication_failed") (PStr "provider authentication failed") (secrets_of c))
      else mret (failure "ipv64" (PStr "http_200") (PStr "provider update failed") (secrets_of c))
  | _ => text_update_result "ipv64" raw 200 c default_words
  end.
Definition ipv64_sync (hostname : string) (t : rtype) (value : string) (c : credentials) : syncing provider_result :=
  with_token "ipv64" c (fun token =>
    unless_failed (request_text "ipv64" (Http "GET" "https://ipv64.net/nic/update"
        [("host", PStr (rstrip_dots hostname)); (if bool_decide (t = TypeA) then "ip" else "ip6", PStr value)] None
        [("Authorization", "Bearer " +:+ token)] None))
      (fun body => lift (ipv64_result (strip body) c))).

(** ** The adapter of a provider *)

Definition adapter (spec : provider_spec) (hostname : string) (t : rtype) (value : string) (ttl : Z) (c : credentials) : syncing provider_result :=
  if negb (supports spec t) then mret (unsupported_result (ps_id spec))
  else if String.eqb (ps_id spec) "alidns" then ali_sync hostname t value ttl c
  else if String.eqb (ps_id spec) "dnspod" then pod_sync hostname t value c
  else if String.eqb (ps_id spec) "cloudflare" then flare_sync hostname t value ttl c
  else if String.eqb (ps_id spec) "dynv6" then dynv6_sync hostname t value c
  else if String.eqb (ps_id spec) "duckdns" then duckdns_sync hostname t value c
  else if String.eqb (ps_id spec) "desec" then desec_sync hostname t value c
  else if String.eqb (ps_id spec) "dynu" then dynu_sync hostname t value c
  else ipv64_sync hostname t value c.

(** [PROVIDERS] as the store of lab_ddns.py uses it: the call with number [n] starts in [start n]; [None]
    when the adapter raises. *)
Definition sync_via (start : nat -> session N) (n : nat) (k : call) (c : credentials) : option provider_result :=
  match find_provider (k_provider k) with
  | Some spec => match (adapter spec (k_hostname k) (k_type k) (k_value k) (k_ttl k) c (start n)).1 with Ok a => Some a | Err _ => None end
  | None => None
  end.
End Adapters.
