(* ===== verification/ProvidersFacts.v ===== *)
(** * What the adapters send and answer

    An adapter sends at most one request that changes anything, as its last one, with the value it
    was asked to publish; it tells of a change when it sent that request.  Failures carry a code and
    a short text. *)

From S2P Require Import Prelude PyNum PyVal PyTime HubValues Json Storage StorageDiff Hub RouterSite PortMapRules Ddns DdnsStore Providers.

(** ** Requests that change a record *)

Definition action_of (q : http_request) : string :=
  if String.eqb (h_url q) "https://alidns.aliyuncs.com/" then py_str (get (h_params q) "Action")
  else if String.eqb (h_url q) "https://dnspod.tencentcloudapi.com" then cred (h_headers q) "X-TC-Action"
  else if starts_with "https://api.cloudflare.com/" (h_url q) then h_method q else "update".
Definition is_write (q : http_request) : bool := negb (str_in (action_of q) ["DescribeDomainRecords"; "DescribeRecordList"; "GET"]).

(** Where a request carries the value of a record of a type. *)
Definition value_keys (t : rtype) : list string :=
  ["Value"; "content"] ++ match t with
                          | TypeA => ["ipv4"; "ip"; "myipv4"; "myip"]
                          | TypeAAAA => ["ipv6"; "ip6"; "myipv6"]
                          | TypeTXT => ["txt"]
                          | TypeCNAME => []
                          end.
Definition carries (t : rtype) (value : string) (q : http_request) : Prop :=
  exists k, In k (value_keys t) /\ (get (h_params q) k = PStr value \/ get (default [] (h_json q)) k = PStr value).

(** Providers that list the records before they write one. *)
Definition lists_first (spec : provider_spec) : bool := str_in (ps_id spec) ["alidns"; "dnspod"; "cloudflare"].

(** The requests of one synchronisation: none, a listing, a listing and a write, or a write. *)
Record orderly (t : rtype) (value : string) (sent : list http_request) (r : result provider_result) : Prop := {
  or_few : (List.length sent <= 2)%nat;
  or_last : List.Forall (fun q => is_write q = false) (removelast sent);
  or_value : List.Forall (fun q => is_write q = true -> carries t value q) sent;
  or_changed : forall a, r = Ok a -> pr_ok a = true -> pr_changed a = true -> existsb is_write sent = true;
}.
(** No change told, no write sent. *)
Definition told (sent : list http_request) (r : result provider_result) : Prop :=
  forall a, r = Ok a -> pr_ok a = true -> pr_changed a = false -> existsb is_write sent = false.

Lemma failure_not_ok p code message secrets : pr_ok (failure p code message secrets) = false.
Proof. done. Qed.

Section Traces.
Context {N : Type} `{Sha256} `{Hmac} (uuid_hex : nat -> string) (respond : http_request -> N -> option http_answer * N).
Implicit Types (s : session N).

(** The requests sent since [s]. *)
Definition sends s (Q : list http_request -> result provider_result -> Prop) (m : prog (session N) provider_result) (s1 : session N) : Prop :=
  wp m (fun a s' => exists sent, x_sent s' = x_sent s ++ sent /\ Q sent (Ok a))
       (fun e s' => exists sent, x_sent s' = x_sent s ++ sent /\ Q sent (Err e)) s1.

(** A request that answers or fails, and was sent. *)
Definition asks {A} (q : http_request) (m : or_fail N A) s : Prop :=
  wp m (fun x s' => x_sent s' = x_sent s ++ [q] /\ match x with inl _ => True | inr e => pr_ok e = false end)
       (fun _ s' => x_sent s' = x_sent s ++ [q]) s.

Lemma asks_json p q s : asks q (request_json respond p q) s.
Proof.
  unfold asks, wp, request_json, ask. rewrite prog_bind_eq. destruct (respond q (x_net s)) as [[a|] n]; cbn; [|done]. split; [done|].
  destruct (ha_json a) as [[]|]; try done. unfold refused_status. repeat case_match; by simplify_eq.
Qed.
Lemma asks_text p q s : asks q (request_text respond p q) s.
Proof.
  unfold asks, wp, request_text, ask. rewrite prog_bind_eq. destruct (respond q (x_net s)) as [[a|] n]; cbn; [|done]. split; [done|].
  unfold refused_status. repeat case_match; by simplify_eq.
Qed.

Lemma asks_ali action extra c s : exists nonce now,
  asks (Http "GET" "https://alidns.aliyuncs.com/" (signed_params nonce now action extra c) None [("User-Agent", "LabProbe-Hub-DDNS")] None)
    (ali_rpc uuid_hex respond action extra c) s.
Proof.
  exists (uuid_hex (x_uuids s)), (x_now s). unfold asks, ali_rpc. apply wp_bind, wp_bind. cbn [draw_uuid wp].
  apply wp_reads, wp_bind. cbn [x_now]. eapply wp_mono; [apply asks_json| |done]. intros [payload|e] s' [Hs He]; apply wp_ret; [|done].
  cbn [x_sent] in Hs. split; [done|]. by destruct (truthy _).
Qed.
Lemma asks_pod action body c s : exists now,
  asks (Http "POST" "https://dnspod.tencentcloudapi.com" [] (Some body) (pod_headers now action body c) None) (pod_rpc respond action body c) s.
Proof.
  exists (x_now s). unfold asks, pod_rpc. apply wp_bind, wp_reads, wp_bind. eapply wp_mono; [apply asks_json| |done].
  intros [payload|e] s' [Hs He]; apply wp_lift; [|done]. destruct (_ ≫= _) as [[a|e]|e] eqn:E; [done| |done]. split; [done|].
  apply result_bind_ok in E as (error & _ & E). destruct (truthy _); [|done].
  apply result_bind_ok in E as (code & _ & E). apply result_bind_ok in E as (message & _ & E). by simplify_eq.
Qed.
Lemma asks_flare method path params body c s :
  asks (Http method ("https://api.cloudflare.com/client/v4" +:+ path) params body (flare_headers c) None) (flare_api respond method path params body c) s.
Proof.
  unfold asks, flare_api. apply wp_bind. eapply wp_mono; [apply asks_json| |done].
  intros [payload|e] s' [Hs He]; apply wp_lift; [|done]. destruct (truthy _); [done|].
  destruct (_ ≫= _) as [[a|e]|e] eqn:E; [done| |done]. split; [done|].
  apply result_bind_ok in E as (code & _ & E). apply result_bind_ok in E as (message & _ & E). by simplify_eq.
Qed.

(** *** Composition *)

Lemma sends_ret s0 s1 Q pre a : x_sent s1 = x_sent s0 ++ pre -> Q pre (Ok a) -> sends s0 Q (mret a) s1.
Proof. intros Hs HQ. by exists pre. Qed.

Lemma sends_lift {A} s0 s1 Q pre (m : result A) f : x_sent s1 = x_sent s0 ++ pre ->
  (forall e, Q pre (Err e)) -> (forall a, sends s0 Q (f a) s1) -> sends s0 Q (lift m ≫= f) s1.
Proof. intros Hs He Ha. apply wp_bind, wp_lift. destruct m as [a|e]; [apply Ha|by exists pre]. Qed.

Lemma sends_ask {A} s0 s1 Q pre q (m : or_fail N A) f : asks q m s1 -> x_sent s1 = x_sent s0 ++ pre ->
  (forall e, pr_ok e = false -> Q (pre ++ [q]) (Ok e)) -> (forall e, Q (pre ++ [q]) (Err e)) ->
  (forall a s', x_sent s' = x_sent s0 ++ pre ++ [q] -> sends s0 Q (f a) s') -> sends s0 Q (unless_failed m f) s1.
Proof.
  intros Hm Hs Hf He Ha. apply wp_bind. eapply wp_mono; [exact Hm| |].
  - intros [a|e] s' [Hx Hok]; rewrite Hs, <- app_assoc in Hx; [by apply Ha|]. exists (pre ++ [q]). auto.
  - intros e s' Hx. rewrite Hs, <- app_assoc in Hx. exists (pre ++ [q]). auto.
Qed.

End Traces.

(** An answer that tells no change, or a change. *)
Definition silent (r : result provider_result) : Prop := forall a, r = Ok a -> pr_ok a = true -> pr_changed a = false.
Definition tells (r : result provider_result) : Prop := forall a, r = Ok a -> pr_ok a = true -> pr_changed a = true.

Lemma failed_silent a : pr_ok a = false -> silent (Ok a).
Proof. intros Ha b [= ->] Hb. congruence. Qed.
Lemma failed_tells a : pr_ok a = false -> tells (Ok a).
Proof. intros Ha b [= ->] Hb. congruence. Qed.
Lemma raised_silent e : silent (Err e).
Proof. done. Qed.
Lemma raised_tells e : tells (Err e).
Proof. done. Qed.
Lemma succeeded_silent p i : silent (Ok (succeeded p false i)).
Proof. by intros a [= <-]. Qed.
Lemma succeeded_tells p i : tells (Ok (succeeded p true i)).
Proof. by intros a [= <-]. Qed.
Create HintDb answers.
#[export] Hint Resolve failed_silent failed_tells raised_silent raised_tells succeeded_silent succeeded_tells failure_not_ok : answers.

Definition traced (t : rtype) (value : string) (sent : list http_request) (r : result provider_result) : Prop :=
  orderly t value sent r /\ told sent r.

Lemma traced_none t value r : silent r -> traced t value [] r.
Proof. intros Hr. split; [split; cbn; [lia|done|done|]|done]. intros a Ha Hok Hc. by rewrite (Hr a Ha Hok) in Hc. Qed.

Lemma traced_read t value q r : is_write q = false -> silent r -> traced t value [q] r.
Proof.
  intros Hq Hr. split; [split; cbn; [lia|done| |]|by intros a _ _ _; cbn; rewrite Hq].
  - constructor; [by rewrite Hq|done].
  - intros a Ha Hok Hc. by rewrite (Hr a Ha Hok) in Hc.
Qed.

Lemma traced_write t value q w r : is_write q = false -> is_write w = true -> carries t value w -> tells r -> traced t value ([q] ++ [w]) r.
Proof.
  intros Hq Hw Hc Hr. split; [split; cbn; [lia|by repeat constructor| |by rewrite Hw, orb_true_r]|].
  - repeat constructor; [by rewrite Hq|done].
  - intros a Ha Hok He. by rewrite (Hr a Ha Hok) in He.
Qed.

Lemma orderly_update t value w r : is_write w = true -> carries t value w -> orderly t value [w] r.
Proof. intros Hw Hc. split; cbn; [lia|done|by repeat constructor|by rewrite Hw]. Qed.

Section Adapters.
Context {N : Type} `{Sha256} `{Hmac} (uuid_hex : nat -> string) (respond : http_request -> N -> option http_answer * N).
Implicit Types (s : session N).

Lemma signed_get nonce now action extra c k : k <> "Signature" -> nodup_keys extra ->
  get (signed_params nonce now action extra c) k
  = default (get [("AccessKeyId", PStr (cred c "AccessKeyId")); ("Action", PStr action); ("Format", PStr "JSON");
     ("SignatureMethod", PStr "HMAC-SHA1"); ("SignatureNonce", PStr nonce); ("SignatureVersion", PStr "1.0");
     ("Timestamp", PStr (timestamp now)); ("Version", PStr "2015-01-09")] k) (option_map (fun v => PStr (py_str v)) (dget extra k)).
Proof.
  intros Hk He. unfold signed_params. cbv zeta. rewrite get_dset_ne by done. rewrite get_dupdate.
  - f_equal. clear He. induction extra as [|[k' v] extra IH]; [done|]. cbn. by destruct (String.eqb _ _).
  - unfold nodup_keys, keys in *. by rewrite List.map_map.
Qed.

(** Concrete keys. *)
Ltac distinct_keys := unfold nodup_keys; cbn; repeat (constructor; [cbn; intuition discriminate|]); constructor.
Ltac orderly_steps := eauto using traced_none, traced_read with answers.

Lemma zone_rr_failed h c p e : zone_rr h c p = inr e -> pr_ok e = false.
Proof. unfold zone_rr. cbv zeta. repeat case_match; intros E; by simplify_eq. Qed.
Lemma required_failed c ks p e : required c ks p = Some e -> pr_ok e = false.
Proof. unfold required. case_match; intros E; by simplify_eq. Qed.
Lemma flare_missing_failed c e : flare_missing c = Some e -> pr_ok e = false.
Proof. unfold flare_missing. case_match; intros E; by simplify_eq. Qed.

Lemma sends_unless_error s Q error (m : prog (session N) provider_result) :
  (forall e, error = Some e -> Q [] (Ok e)) -> sends s Q m s -> sends s Q (unless_error error m) s.
Proof. intros He Hm. destruct error as [e|]; [|done]. apply (sends_ret _ _ _ []); [by rewrite app_nil_r|by apply He]. Qed.

(** The write after the listing. *)
Lemma sends_write {A} s0 s1 t value q w (m : or_fail N A) f : asks w m s1 -> x_sent s1 = x_sent s0 ++ [q] -> is_write q = false ->
  is_write w = true -> carries t value w -> (forall a s', exists r, f a s' = (r, s') /\ tells r) ->
  sends s0 (traced t value) (unless_failed m f) s1.
Proof.
  intros Hm Hs Hq Hw Hc Hf. eapply sends_ask; [exact Hm|exact Hs|..].
  - intros e He. apply traced_write; auto with answers.
  - intros e. apply traced_write; auto with answers.
  - intros a s' Hs'. destruct (Hf a s') as (r & E & Hr). unfold sends, wp. rewrite E.
    destruct r as [b|e]; (exists ([q] ++ [w]); split; [exact Hs'|by apply traced_write]).
Qed.

Lemma ali_carries nonce now action extra c t value :
  nodup_keys extra -> get extra "Value" = PStr value -> 
  carries t value (Http "GET" "https://alidns.aliyuncs.com/" (signed_params nonce now action extra c) None [("User-Agent", "LabProbe-Hub-DDNS")] None).
Proof.
  intros He Hv. exists "Value". split; [by left|]. left. cbn [h_params]. rewrite signed_get by done.
  unfold get in Hv. destruct (dget extra "Value"); cbn in Hv; [by subst|done].
Qed.
Lemma ali_write nonce now action extra c hs a : nodup_keys extra -> dget extra "Action" = None ->
  is_write (Http "GET" "https://alidns.aliyuncs.com/" (signed_params nonce now action extra c) None hs a)
  = negb (str_in action ["DescribeDomainRecords"; "DescribeRecordList"; "GET"]).
Proof. intros He Ha. unfold is_write, action_of. cbn [h_url h_params String.eqb]. rewrite signed_get, Ha by done. done. Qed.

Lemma ali_traced hostname t value ttl c s : sends s (traced t value) (ali_sync uuid_hex respond hostname t value ttl c) s.
Proof.
  unfold ali_sync. apply sends_unless_error; [intros e He%required_failed; orderly_steps|].
  destruct (zone_rr hostname c "alidns") as [[zone rr]|e] eqn:Ez.
  2: { apply (sends_ret _ _ _ []); [by rewrite app_nil_r|]. apply zone_rr_failed in Ez. orderly_steps. }
  destruct (asks_ali uuid_hex respond "DescribeDomainRecords" [("DomainName", PStr zone); ("RRKeyWord", PStr rr);
    ("TypeKeyWord", PStr (rtype_text t)); ("PageNumber", PInt 1); ("PageSize", PInt 100)] c s) as (nonce & now & Hread).
  match type of Hread with asks ?q _ _ => assert (is_write q = false) as Hq by (apply ali_write; [distinct_keys|done]) end.
  eapply (sends_ask _ _ _ []); [exact Hread|by rewrite app_nil_r|orderly_steps..|]. intros payload s1 Hs1. cbn [app] in Hs1.
  eapply sends_lift; [exact Hs1|orderly_steps|]. intros records.
  eapply sends_lift; [exact Hs1|orderly_steps|]. intros [row|].
  - cbv zeta. destruct (String.eqb _ value); [eapply sends_ret; [exact Hs1|orderly_steps]|].
    destruct (asks_ali uuid_hex respond "UpdateDomainRecord" (("RecordId", PStr (text_at row "RecordId" "")) :: ali_record rr t value ttl) c s1)
      as (nonce' & now' & Hwrite).
    eapply sends_write; [exact Hwrite|exact Hs1|exact Hq|apply ali_write; [distinct_keys|done]|apply ali_carries; [distinct_keys|done]|].
    intros a s'. eexists. split; [done|]. auto with answers.
  - destruct (asks_ali uuid_hex respond "AddDomainRecord" (("DomainName", PStr zone) :: ali_record rr t value ttl) c s1)
      as (nonce' & now' & Hwrite).
    eapply sends_write; [exact Hwrite|exact Hs1|exact Hq|apply ali_write; [distinct_keys|done]|apply ali_carries; [distinct_keys|done]|].
    intros a s'. eexists. split; [done|]. auto with answers.
Qed.

Lemma pod_write now action body c ps a : is_write (Http "POST" "https://dnspod.tencentcloudapi.com" ps (Some body) (pod_headers now action body c) a)
  = negb (str_in action ["DescribeDomainRecords"; "DescribeRecordList"; "GET"]).
Proof. done. Qed.

Lemma body_carries t value k q : In k (value_keys t) -> get (default [] (h_json q)) k = PStr value -> carries t value q.
Proof. intros Hk Hv. exists k. auto. Qed.

Lemma pod_traced hostname t value c s : sends s (traced t value) (pod_sync respond hostname t value c) s.
Proof.
  unfold pod_sync. apply sends_unless_error; [intros e He%required_failed; orderly_steps|].
  destruct (zone_rr hostname c "dnspod") as [[zone rr]|e] eqn:Ez.
  2: { apply (sends_ret _ _ _ []); [by rewrite app_nil_r|]. apply zone_rr_failed in Ez. orderly_steps. }
  cbv zeta. set (body := pod_body zone rr t). destruct (asks_pod respond "DescribeRecordList" body c s) as (now & Hread).
  eapply (sends_ask _ _ _ []); [exact Hread|by rewrite app_nil_r|orderly_steps..|]. intros response s1 Hs1. cbn [app] in Hs1.
  eapply sends_lift; [exact Hs1|orderly_steps|]. intros [row|].
  - destruct (String.eqb _ value); [eapply sends_ret; [exact Hs1|orderly_steps]|].
    destruct (asks_pod respond "ModifyRecord" (dset "Value" (PStr value) (dset "RecordId" (PStr (text_at row "RecordId" "")) body)) c s1)
      as (now' & Hwrite).
    eapply sends_write; [exact Hwrite|exact Hs1|done|done|by eapply (body_carries _ _ "Value"); [by left|]|].
    intros a s'. eexists. split; [done|]. auto with answers.
  - destruct (asks_pod respond "CreateRecord" (dset "Value" (PStr value) body) c s1) as (now' & Hwrite).
    eapply sends_write; [exact Hwrite|exact Hs1|done|done|by eapply (body_carries _ _ "Value"); [by left|]|].
    intros a s'. eexists. split; [done|]. auto with answers.
Qed.

Lemma result_id_tells d i s' : exists r, (j ← lift (result_id d i); mret (succeeded "cloudflare" true j) : prog (session N) provider_result) s' = (r, s') /\ tells r.
Proof. rewrite prog_bind_eq. unfold lift. destruct (result_id d i) as [j|e]; eexists; (split; [done|]); auto with answers. Qed.

Lemma flare_record_kept kept hostname t value ttl k : str_in k ["type"; "name"; "content"] = true ->
  get (setdefault "proxied" (PBool false) (dupdate kept (flare_record hostname t value ttl))) k = get (flare_record hostname t value ttl) k.
Proof.
  intros Hk. assert (get (dupdate kept (flare_record hostname t value ttl)) k = get (flare_record hostname t value ttl) k) as E.
  { rewrite get_dupdate by distinct_keys. apply existsb_exists in Hk as (k' & Hin & ->%String.eqb_eq).
    by destruct Hin as [<-|[<-|[<-|[]]]]. }
  unfold setdefault. destruct (has _ _); [done|]. rewrite get_dset_ne; [done|]. by intros <-.
Qed.

Lemma flare_traced hostname t value ttl c s : sends s (traced t value) (flare_sync respond hostname t value ttl c) s.
Proof.
  unfold flare_sync. apply sends_unless_error; [intros e He%flare_missing_failed; orderly_steps|]. cbv zeta.
  eapply (sends_ask _ _ _ []); [apply asks_flare|by rewrite app_nil_r|orderly_steps..|]. intros payload s1 Hs1. cbn [app] in Hs1.
  eapply sends_lift; [exact Hs1|orderly_steps|]. intros [row|].
  - destruct (String.eqb _ value); [eapply sends_ret; [exact Hs1|orderly_steps]|].
    eapply sends_write; [apply asks_flare|exact Hs1|done|done| |intros; apply result_id_tells].
    eapply (body_carries _ _ "content"); [by right; left|by apply flare_record_kept].
  - eapply sends_write; [apply asks_flare|exact Hs1|done|done| |intros; apply result_id_tells].
    eapply (body_carries _ _ "content"); [by right; left|done].
Qed.

(** *** One request *)

Lemma param_carries t value k q : In k (value_keys t) -> get (h_params q) k = PStr value -> carries t value q.
Proof. intros Hk Hv. exists k. auto. Qed.
Ltac listed := first [left; reflexivity|right; listed].
Ltac carried_by k := apply (param_carries _ _ k); [listed|reflexivity].
Ltac carried := first [carried_by "ipv4"|carried_by "ipv6"|carried_by "ip"|carried_by "ip6"|carried_by "myipv4"|carried_by "myip"
                      |carried_by "myipv6"|carried_by "txt"].

Lemma sends_update s t value p q (f : string -> result provider_result) : is_write q = true -> carries t value q ->
  sends s (orderly t value) (unless_failed (request_text respond p q) (fun body => lift (f body))) s.
Proof.
  intros Hq Hc. eapply (sends_ask _ _ _ []); [apply asks_text|by rewrite app_nil_r|by intros; apply orderly_update..|].
  intros body s' Hs'. apply wp_lift. destruct (f body); (eexists; split; [exact Hs'|by apply orderly_update]).
Qed.

Lemma orderly_none t value a : pr_ok a = false -> orderly t value [] (Ok a).
Proof. intros Ha. by apply traced_none, failed_silent. Qed.

Lemma sends_token s t value p c f : (forall token, sends s (orderly t value) (f token) s) -> sends s (orderly t value) (with_token p c f) s.
Proof.
  intros Hf. unfold with_token. cbv zeta. destruct (negb _); [|apply Hf].
  apply (sends_ret _ _ _ []); [by rewrite app_nil_r|by apply orderly_none].
Qed.

Lemma text_traced spec hostname t value c s : supports spec t = true -> In spec providers -> lists_first spec = false ->
  forall ttl, sends s (orderly t value) (adapter uuid_hex respond spec hostname t value ttl c) s.
Proof.
  intros Ht Hin Hl ttl. unfold adapter. rewrite Ht. cbn [negb].
  repeat (destruct Hin as [<-|Hin]; [try discriminate Hl; cbn [ps_id String.eqb Ascii.eqb Bool.eqb]|]); [..|destruct Hin].
  - apply sends_token. intros token. apply sends_update; [done|]. destruct t; try discriminate Ht; carried.
  - apply sends_token. intros token. apply sends_update; [done|]. destruct t; try discriminate Ht; carried.
  - apply sends_token. intros token. apply sends_update; [done|]. destruct t; try discriminate Ht; carried.
  - apply sends_unless_error; [intros e He%required_failed; by apply orderly_none|]. apply sends_update; [done|].
    destruct t; try discriminate Ht; carried.
  - apply sends_token. intros token. apply sends_update; [done|]. destruct t; try discriminate Ht; carried.
Qed.
End Adapters.

(** C29. However the network answers, one synchronisation sends at most two requests, of which only
    the last may change anything, and a request that changes something carries the value of the
    record under a name for its type.  A result that tells of a change comes with such a request,
    and for the providers whose records are listed first, one that tells of none comes without. *)
Theorem adapter_sends_one_write {N} `{Sha256} `{Hmac} uuid_hex (respond : http_request -> N -> option http_answer * N)
    spec hostname t value ttl c s r s' :
  In spec providers ->
  adapter uuid_hex respond spec hostname t value ttl c s = (r, s') ->
  exists sent, x_sent s' = x_sent s ++ sent /\ orderly t value sent r /\ (lists_first spec = true -> told sent r).
Proof.
  intros Hin Hr. destruct (supports spec t) eqn:Ht.
  - destruct (lists_first spec) eqn:Hl.
    + assert (sends s (traced t value) (adapter uuid_hex respond spec hostname t value ttl c) s) as Hs.
      { unfold adapter. rewrite Ht. cbn [negb]. destruct Hin as [<-|[<-|[<-|Hin]]]; [apply ali_traced|apply pod_traced|apply flare_traced|].
        by repeat (destruct Hin as [<-|Hin]; [discriminate Hl|]). }
      eapply wp_run in Hs; [|exact Hr]. destruct r; destruct Hs as (sent & Hs & Ho & Hc); eauto.
    + pose proof (text_traced uuid_hex respond spec hostname t value c s Ht Hin Hl ttl) as Hs.
      eapply wp_run in Hs; [|exact Hr]. destruct r; destruct Hs as (sent & Hs & Ho); exists sent; (split_and!; [done|done|congruence]).
  - unfold adapter in Hr. rewrite Ht in Hr. injection Hr as <- <-. exists []. rewrite app_nil_r.
    split; [done|]. split; [by apply orderly_none|]. by intros _ a [= <-].
Qed.

(** ** A zone at Cloudflare

    What the code relies on: a listing shows the record of a name and a type, if there is one, and
    an accepted write makes the listing show the content that was sent. *)

Definition zone_path (zone : string) : string := "https://api.cloudflare.com/client/v4/zones/" +:+ quote "" zone +:+ "/dns_records".
Definition listing (name : string) (t : rtype) : dict := [("name", PStr name); ("type", PStr (rtype_text t)); ("per_page", PInt 100)].
Definition names (name : string) (t : rtype) (d : dict) : bool :=
  String.eqb (lower (rstrip_dots (text_at d "name" ""))) (lower name) && String.eqb (upper (text_at d "type" "")) (rtype_text t).
Definition accepted (a : http_answer) (payload : dict) : Prop := ha_json a = Some (PDict payload) /\ truthy (get_or payload "success" (PBool false)) = true.

Class ZoneServer {N : Type} (respond : http_request -> N -> option http_answer * N) := {
  listed : N -> string -> string -> rtype -> option dict;
  listing_law : forall n n' zone name t hs a payload,
    respond (Http "GET" (zone_path zone) (listing name t) None hs None) n = (Some a, n') -> accepted a payload ->
    find_row (names name t) (get payload "result") = Ok (listed n zone name t) /\ listed n' zone name t = listed n zone name t;
  create_law : forall n n' zone name t value body hs a payload,
    listed n zone name t = None ->
    get body "name" = PStr name -> get body "type" = PStr (rtype_text t) -> get body "content" = PStr value ->
    respond (Http "POST" (zone_path zone) [] (Some body) hs None) n = (Some a, n') -> accepted a payload ->
    exists row, listed n' zone name t = Some row /\ text_at row "content" "" = value;
  update_law : forall n n' zone name t row value body hs a payload,
    listed n zone name t = Some row ->
    get body "name" = PStr name -> get body "type" = PStr (rtype_text t) -> get body "content" = PStr value ->
    respond (Http "PATCH" (zone_path zone +:+ "/" +:+ quote "" (text_at row "id" "")) [] (Some body) hs None) n = (Some a, n') ->
    accepted a payload -> exists row', listed n' zone name t = Some row' /\ text_at row' "content" "" = value;
}.

Section Zone.
Context {N : Type} `{Sha256} `{Hmac} (respond : http_request -> N -> option http_answer * N) `{!ZoneServer respond}.

(** An answer of [_api] that is no failure was accepted. *)
Lemma flare_accepted method path params body c s payload s' :
  flare_api respond method path params body c s = (Ok (inl payload), s') ->
  exists a, respond (Http method ("https://api.cloudflare.com/client/v4" +:+ path) params body (flare_headers c) None) (x_net s) = (Some a, x_net s')
            /\ accepted a payload.
Proof.
  unfold flare_api. rewrite prog_bind_eq. unfold request_json, ask. rewrite prog_bind_eq.
  destruct (respond _ (x_net s)) as [[a|] n] eqn:Er; cbn [mret prog_ret lift x_net]; [|done].
  destruct (ha_json a) as [[]|] eqn:Ej; try done. destruct (refused_status _ _); [done|].
  destruct (truthy (get_or d "success" _)) eqn:Et; intros E; [|].
  - injection E as <- <-. by exists a.
  - exfalso. injection E as E _. apply result_bind_ok in E as (code & _ & E). apply result_bind_ok in E as (message & _ & E). discriminate E.
Qed.

Lemma flare_failed method path params body c s e s' : flare_api respond method path params body c s = (Ok (inr e), s') -> pr_ok e = false.
Proof. intros E. pose proof (asks_flare respond method path params body c s) as Ha. eapply wp_run in Ha; [|exact E]. apply Ha. Qed.

Lemma result_id_state d i s a s' :
  (j ← lift (result_id d i); mret (succeeded "cloudflare" true j) : prog (session N) provider_result) s = (Ok a, s') -> s = s'.
Proof. rewrite prog_bind_eq. unfold lift. by destruct (result_id d i); [intros [= _ <-]|]. Qed.

(** C30. Cloudflare, for any zone that behaves as its interface says: when the adapter answers
    success, whether it created the record, changed it or found it in place, the zone lists the
    record of this name and type with the value. *)
Theorem flare_sync_publishes hostname t value ttl c s a s' :
  flare_sync respond hostname t value ttl c s = (Ok a, s') ->
  pr_ok a = true ->
  exists row, listed (x_net s') (cred c "zoneId") (rstrip_dots hostname) t = Some row /\ text_at row "content" "" = value.
Proof.
  unfold flare_sync. destruct (flare_missing c) as [e|] eqn:Em; cbn [unless_error].
  { intros [= <- _] Hok. apply flare_missing_failed in Em. congruence. }
  cbv zeta. set (name := rstrip_dots hostname). unfold unless_failed at 1. rewrite prog_bind_eq.
  destruct (flare_api respond "GET" _ _ _ c s) as [[[payload|e]|e] s1] eqn:Eg; [| |done].
  2: { intros [= <- _] Hok. by rewrite (flare_failed _ _ _ _ _ _ _ _ Eg) in Hok. }
  apply flare_accepted in Eg as (ag & Hg & Hag). destruct (listing_law _ _ (cred c "zoneId") name t _ _ _ Hg Hag) as [Hrow Hsame].
  rewrite prog_bind_eq. unfold names in Hrow. rewrite Hrow. cbn [lift].
  destruct (listed (x_net s) (cred c "zoneId") name t) as [row|] eqn:Elist.
  - destruct (String.eqb_spec (text_at row "content" "") value) as [Hv|_]; [intros [= <- <-] _; by exists row|].
    unfold unless_failed. rewrite prog_bind_eq. destruct (flare_api respond "PATCH" _ _ _ c s1) as [[[updated|e]|e] s2] eqn:Eu; [| |done].
    2: { intros [= <- _] Hok. by rewrite (flare_failed _ _ _ _ _ _ _ _ Eu) in Hok. }
    intros Hr _. apply result_id_state in Hr. subst s'. apply flare_accepted in Eu as (au & Hu & Hau).
    refine (update_law _ _ (cred c "zoneId") name t row value _ _ _ _ Hsame _ _ _ Hu Hau); by apply flare_record_kept.
  - unfold unless_failed. rewrite prog_bind_eq. destruct (flare_api respond "POST" _ _ _ c s1) as [[[created|e]|e] s2] eqn:Eu; [| |done].
    2: { intros [= <- _] Hok. by rewrite (flare_failed _ _ _ _ _ _ _ _ Eu) in Hok. }
    intros Hr _. apply result_id_state in Hr. subst s'. apply flare_accepted in Eu as (au & Hu & Hau).
    refine (create_law _ _ (cred c "zoneId") name t value _ _ _ _ Hsame _ _ _ Hu Hau); done.
Qed.
End Zone.

(** ** A concrete zone *)

Definition succeeds (result : pyval) : option http_answer := Some (HttpAnswer 200 (Some (PDict [("success", PBool true); ("result", result)])) "").
Definition fails (code message : string) : option http_answer :=
  Some (HttpAnswer 200 (Some (PDict [("success", PBool false); ("errors", PList [PDict [("code", PStr code); ("message", PStr message)]])])) "").

(** The rows with the name and the type of a body. *)
Definition same_record (body d : dict) : bool :=
  let name := text_at body "name" "" in existsb (fun t => names name t body && names name t d) record_types.

(** A listing shows every row; a write needs a plain name and a known type. *)
Definition zone_respond (q : http_request) (rows : list dict) : option http_answer * list dict :=
  let body := default [] (h_json q) in
  if String.eqb (h_method q) "GET" then (succeeds (PList (List.map PDict rows)), rows)
  else if same_record body body then
    if String.eqb (h_method q) "POST" then
      let row := dset "id" (PStr ("r" +:+ nat_str (Z.of_nat (List.length rows)))) body in (succeeds (PDict row), rows ++ [row])
    else (succeeds (PDict body), List.map (fun d => if same_record body d then dset "id" (get d "id") body else d) rows)
  else (fails "1004" "DNS validation error, token abc", rows).

Lemma find_item_dicts p rows : find_item p (List.map PDict rows) = Ok (List.find p rows).
Proof. induction rows as [|d rows IH]; cbn; [done|]. by destruct (p d). Qed.

Lemma text_at_str d k v dflt : get d k = PStr v -> text_at d k dflt = v.
Proof. unfold get, text_at, get_or. by destruct (dget d k) as [w|]; cbn; [intros ->|]. Qed.

Lemma same_record_is body name t d : get body "name" = PStr name -> get body "type" = PStr (rtype_text t) ->
  same_record body body = true -> same_record body d = names name t d.
Proof.
  intros Hn Ht Hb. unfold same_record in *. rewrite (text_at_str _ _ _ _ Hn) in *.
  assert (forall u, names name u body = true -> u = t) as Hu.
  { unfold names. rewrite (text_at_str _ _ _ _ Ht). intros u [_ E]%andb_true_iff. by destruct u, t. }
  apply existsb_exists in Hb as (u & _ & [Hu1 _]%andb_true_iff). pose proof (Hu u Hu1) as ->.
  destruct (names name t d) eqn:E.
  - apply existsb_exists. exists t. split; [by destruct t; cbn; tauto|]. by rewrite Hu1.
  - apply not_true_iff_false. intros (u & _ & [Hu2 Hu3]%andb_true_iff)%existsb_exists. rewrite (Hu u Hu2) in Hu3. congruence.
Qed.

Lemma names_dset_id name t v d : names name t (dset "id" v d) = names name t d.
Proof. unfold names, text_at, get_or. by rewrite !dget_dset_ne. Qed.

Lemma text_dset_id v d k dflt : k <> "id" -> text_at (dset "id" v d) k dflt = text_at d k dflt.
Proof. intros Hk. unfold text_at, get_or. by rewrite dget_dset_ne. Qed.

Definition rows_named (rows : list dict) (zone name : string) (t : rtype) : option dict := List.find (names name t) rows.

Lemma zone_listing n n' zone name t hs a payload :
  zone_respond (Http "GET" (zone_path zone) (listing name t) None hs None) n = (Some a, n') -> accepted a payload ->
  find_row (names name t) (get payload "result") = Ok (rows_named n zone name t) /\ rows_named n' zone name t = rows_named n zone name t.
Proof.
  intros Hr [Ha _]. cbn in Hr. injection Hr as <- <-. injection Ha as <-. split; [|done].
  unfold find_row. cbn [get dget default]. by destruct n; [|apply find_item_dicts].
Qed.

(** A write that is accepted. *)
Lemma zone_write n n' method url body hs a payload : method <> "GET" ->
  zone_respond (Http method url [] (Some body) hs None) n = (Some a, n') -> accepted a payload ->
  same_record body body = true
  /\ n' = if String.eqb method "POST" then n ++ [dset "id" (PStr ("r" +:+ nat_str (Z.of_nat (List.length n)))) body]
          else List.map (fun d => if same_record body d then dset "id" (get d "id") body else d) n.
Proof.
  intros Hm Hr [Ha Hok]. unfold zone_respond in Hr. cbn [h_method h_json] in Hr. change (default [] (Some body)) with body in Hr. cbv zeta in Hr.
  destruct (String.eqb_spec method "GET") as [|_]; [done|]. destruct (same_record body body).
  - split; [done|]. destruct (String.eqb method "POST"); by injection Hr.
  - injection Hr as <- _. by injection Ha as <-.
Qed.

Lemma zone_creates n n' zone name t value body hs a payload :
  rows_named n zone name t = None ->
  get body "name" = PStr name -> get body "type" = PStr (rtype_text t) -> get body "content" = PStr value ->
  zone_respond (Http "POST" (zone_path zone) [] (Some body) hs None) n = (Some a, n') -> accepted a payload ->
  exists row, rows_named n' zone name t = Some row /\ text_at row "content" "" = value.
Proof.
  intros Hl Hn Ht Hc Hr Ha. apply zone_write with (payload := payload) in Hr as [Eb ->]; [|done|done].
  pose proof (same_record_is _ _ _ body Hn Ht Eb) as Es. rewrite Eb in Es. cbn [String.eqb Ascii.eqb Bool.eqb].
  eexists. unfold rows_named in *. rewrite find_app', Hl. cbn [List.find]. rewrite names_dset_id, <- Es. split; [done|].
  rewrite text_dset_id by done. by apply text_at_str.
Qed.

Lemma zone_updates n n' zone name t row value body hs a payload :
  rows_named n zone name t = Some row ->
  get body "name" = PStr name -> get body "type" = PStr (rtype_text t) -> get body "content" = PStr value ->
  zone_respond (Http "PATCH" (zone_path zone +:+ "/" +:+ quote "" (text_at row "id" "")) [] (Some body) hs None) n = (Some a, n') ->
  accepted a payload -> exists row', rows_named n' zone name t = Some row' /\ text_at row' "content" "" = value.
Proof.
  intros Hl Hn Ht Hc Hr Ha. apply zone_write with (payload := payload) in Hr as [Eb ->]; [|done|done].
  pose proof (same_record_is _ _ _ body Hn Ht Eb) as Es. rewrite Eb in Es. cbn [String.eqb Ascii.eqb Bool.eqb].
  exists (dset "id" (get row "id") body). split; [|rewrite text_dset_id by done; by apply text_at_str].
  clear Ha. unfold rows_named in *. induction n as [|d n IH]; [done|]. cbn [List.find List.map] in *.
  rewrite (same_record_is _ _ _ d Hn Ht Eb).
  destruct (names name t d) eqn:Ed; [injection Hl as ->|rewrite Ed; by apply IH]. by rewrite names_dset_id, <- Es.
Qed.

#[export] Instance zone_server : ZoneServer zone_respond :=
  { listed := rows_named; listing_law := zone_listing; create_law := zone_creates; update_law := zone_updates }.

(** ** Runs *)

#[local] Instance no_sha256 : Sha256 := { sha256 s := "hash" }.
#[local] Instance no_hmac : Hmac := { hmac_sha1 k s := "mac"; hmac_sha256 k s := "mac" }.

Definition flare_spec : provider_spec := {| ps_id := "cloudflare"; ps_cname := true; ps_txt := true |}.
Definition flare_credentials : credentials := [("apiToken", "abc"); ("zoneId", "z1")].
Definition home_row : dict :=
  [("id", PStr "r0"); ("zone_id", PStr "z1"); ("name", PStr "home.example.org"); ("type", PStr "A"); ("content", PStr "203.0.113.4"); ("proxied", PBool true)].
Definition demo_session : session (list dict) := Session [home_row] 1700000000 0 [].
Definition published_home : result provider_result * session (list dict) :=
  adapter demo_uuid zone_respond flare_spec "home.example.org." TypeA "203.0.113.5" 600 flare_credentials demo_session.

Example home_is_updated : published_home.1 = Ok (succeeded "cloudflare" true "r0")
  /\ List.map (fun d => (text_at d "content" "", get d "proxied")) (x_net published_home.2) = [("203.0.113.5", PBool true)]
  /\ List.map h_method (x_sent published_home.2) = ["GET"; "PATCH"].
Proof. vm_compute. auto. Qed.

Lemma adapter_sends_one_write_witness :
  In flare_spec providers
  /\ exists sent, x_sent published_home.2 = x_sent demo_session ++ sent /\ orderly TypeA "203.0.113.5" sent published_home.1
               /\ (lists_first flare_spec = true -> told sent published_home.1).
Proof.
  assert (In flare_spec providers) as Hin by (right; right; left; reflexivity). split; [exact Hin|].
  exact (adapter_sends_one_write demo_uuid zone_respond flare_spec "home.example.org." TypeA "203.0.113.5" 600 flare_credentials demo_session
           published_home.1 published_home.2 Hin (surjective_pairing _)).
Defined.

Definition txt_session : result provider_result * session (list dict) :=
  flare_sync zone_respond "_acme.example.org" TypeTXT "challenge" 120 flare_credentials demo_session.

Lemma flare_sync_publishes_witness :
  txt_session.1 = Ok (succeeded "cloudflare" true "r1")
  /\ exists row, rows_named (x_net txt_session.2) "z1" "_acme.example.org" TypeTXT = Some row /\ text_at row "content" "" = "challenge".
Proof.
  split; [vm_compute; reflexivity|].
  refine (flare_sync_publishes zone_respond "_acme.example.org" TypeTXT "challenge" 120 flare_credentials demo_session
           (succeeded "cloudflare" true "r1") txt_session.2 _ eq_refl).
  vm_compute. reflexivity.
Defined.

(** ** What some answers lead to *)

(** An answer that names the address counts as a change, although nothing was changed. *)
Example unchanged_counts_as_change :
  text_update_result "dynu" "nochg 203.0.113.5" 200 [] default_words = Ok (succeeded "dynu" true "")
  /\ text_update_result "dynu" "nochg" 200 [] default_words = Ok (succeeded "dynu" false "").
Proof. vm_compute. auto. Qed.

(** The code of a refused signature is taken for a secret. *)
Example signature_code_is_redacted : pr_code (failure "alidns" (PStr "SignatureDoesNotMatch") (PStr "") []) = "Signature=[REDACTED]".
Proof. vm_compute. reflexivity. Qed.

(** [json.dumps] with its default separators, which is what a [json=] argument is sent as; [json_text]
    is the JSON of a text. *)
Definition sent_json (json_text : string -> string) (d : dict) : string :=
  "{" +:+ join ", " (List.map (fun kv => json_quote kv.1 +:+ ": " +:+ json_text (py_str kv.2)) d) +:+ "}".

(** The text whose hash is signed never is the text that is sent. *)
Lemma dnspod_signs_another_text json_text zone rr t : flat_json (pod_body zone rr t) <> sent_json json_text (pod_body zone rr t).
Proof. intros E. apply (f_equal (String.get 10)) in E. cbn in E. discriminate E. Qed.

(** The store with the adapters: a confirmed address goes through the adapter to the zone and is
    recorded as published. *)
Definition flare_store : ddns := snd (
  (_ ← accept_address (demo_sample "public" "203.0.113.5" "unavailable" "" 1);
   _ ← save_record demo_uuid [("provider", PStr "cloudflare"); ("hostname", PStr "home.example.org"); ("recordTypes", PList [PStr "A"])] "";
   _ ← save_credentials "id0" [("apiToken", PStr "abc"); ("zoneId", PStr "z1")];
   _ ← accept_address (demo_sample "public" "203.0.113.5" "unavailable" "" 2);
   accept_address (demo_sample "public" "203.0.113.5" "unavailable" "" 3)) empty_ddns).

Example update_reaches_zone :
  let '(r, s) := run_update (sync_via demo_uuid zone_respond (fun _ => demo_session)) (fun s => s) "id0" false flare_store in
  match r with Ok u => (u_ok u, List.map (fun to => (o_status to.2, o_id to.2, o_changed to.2)) (u_results u)) | Err _ => (false, []) end
    = (true, [("published", "r0", true)])
  /\ option_map (fun r => p_v4 (r_publication r)) (record_at "id0" s) = Some (Some "203.0.113.5").
Proof. vm_compute. auto. Qed.
