(* ===== verification/RouterActor.v ===== *)
(** * The actor of the router calls

    [router_control_actor_patch.py]: one worker runs every call of the router, the best of a bounded
    priority queue first, and background calls give way.  Threads are interleaved: a call is admitted,
    draws its number, is put into the queue, is taken by the worker, announced and run, and between any
    two of these steps others may move.  A call made by a call that runs is part of it.  A caller that
    stops waiting changes nothing: its call stays where it is and still runs. *)

From S2P Require Import Prelude PyNum PyVal HubValues.

Definition priority_command : Z := 10.
Definition priority_task : Z := 20.
Definition priority_read : Z := 30.
Definition priority_background : Z := 50.
Definition queue_limit : nat := 96.

(** [_request_priority]: the method and the path of the request being served, and the name of the thread. *)
Definition task_paths : list string := ["nat-diagnostic"; "diagnostic"; "beta-upgrade"; "/tasks/"].
Definition request_priority (context : option (string * string)) (thread_name : string) : Z :=
  match context with
  | None =>
      let name := lower thread_name in
      if starts_with "router-task-" name || starts_with "router-nat-diagnostic-" name then priority_task else priority_background
  | Some (method, path) =>
      let task := existsb (fun token => contains token path) task_paths in
      if str_in (upper (str_or method "GET")) ["POST"; "PUT"; "PATCH"; "DELETE"]
      then if task then priority_task else priority_command
      else if task then priority_task else priority_read
  end.

(** How long a caller waits for its result. *)
Definition wait_seconds (priority : Z) : Z := if priority <=? priority_task then 35 else 25.

Definition control_error {A} (message code : string) : result A := Err (Exn code message).
Definition deferred {A} : result A := control_error "后台同步已让位于用户操作" "BACKGROUND_DEFERRED".
Definition queue_busy {A} : result A := control_error "路由控制队列繁忙，请稍后重试" "CONTROL_QUEUE_BUSY".

(** [_ActorItem]: ordered by priority, then by number. *)
Record actor_item (R : Type) := Item { i_priority : Z; i_sequence : nat; i_call : prog R pyval }.
Arguments Item {R}.
Arguments i_priority {R}.
Arguments i_sequence {R}.
Arguments i_call {R}.

Section Actor.
Context {R : Type}.

Definition item_le (a b : actor_item R) : bool :=
  (i_priority a <? i_priority b) || ((i_priority a =? i_priority b) && (i_sequence a <=? i_sequence b)%nat).
Definition foreground (p : Z) : bool := p <? priority_background.
Definition up (p n : Z) : Z := if foreground p then n + 1 else n.
Definition down (p n : Z) : Z := if foreground p then Z.max 0 (n - 1) else n.

(** The actor, with the calls on their way into the queue, the router, and the results given so far. *)
Record actor := Actor {
  a_queue : list (actor_item R);                  (** [PriorityQueue], in order *)
  a_sequence : nat;
  a_current : option (actor_item R);              (** the item the worker holds *)
  a_active : option Z;                      (** [_active_priority] *)
  a_foreground : Z;                         (** [_foreground_pending] *)
  a_admitted : list (Z * prog R pyval);     (** past the admission *)
  a_entering : list (actor_item R);               (** numbered, not in the queue *)
  a_router : R;
  a_done : list (actor_item R * result pyval);
}.

(** The first half of [submit]. *)
Definition admission (p : Z) (call : prog R pyval) (a : actor) : result actor :=
  if negb (foreground p) && (match a_active a with Some _ => true | None => false end || (0 <? a_foreground a)
                             || match a_queue a with [] => false | _ => true end)
  then deferred
  else Ok (Actor (a_queue a) (a_sequence a) (a_current a) (a_active a) (up p (a_foreground a)) (a_admitted a ++ [(p, call)]) (a_entering a)
             (a_router a) (a_done a)).

(** [next(self._sequence)] of the call at a position. *)
Definition draw_number (i : nat) (a : actor) : option actor :=
  match a_admitted a !! i with
  | Some (p, call) => Some (Actor (a_queue a) (1 + a_sequence a)%nat (a_current a) (a_active a) (a_foreground a) (delete i (a_admitted a))
                              (a_entering a ++ [Item p (a_sequence a) call]) (a_router a) (a_done a))
  | None => None
  end.

(** [self._queue.put(item, timeout=1.0)]: a full queue refuses the call. *)
Definition put (i : nat) (a : actor) : option (result actor) :=
  match a_entering a !! i with
  | Some x =>
      let entering := delete i (a_entering a) in
      if (List.length (a_queue a) <? queue_limit)%nat
      then Some (Ok (Actor (sort_insert item_le x (a_queue a)) (a_sequence a) (a_current a) (a_active a) (a_foreground a) (a_admitted a) entering
                       (a_router a) (a_done a)))
      else Some queue_busy
  | None => None
  end.
(** The exception handler of a refused call. *)
Definition refuse (i : nat) (a : actor) : option actor :=
  match a_entering a !! i with
  | Some x => Some (Actor (a_queue a) (a_sequence a) (a_current a) (a_active a) (down (i_priority x) (a_foreground a)) (a_admitted a) (delete i (a_entering a))
                      (a_router a) (a_done a))
  | None => None
  end.

(** The worker: [get], the announcement, and the run with its result. *)
Definition grab (a : actor) : option actor :=
  match a_current a, a_queue a with
  | None, x :: queue => Some (Actor queue (a_sequence a) (Some x) (a_active a) (a_foreground a) (a_admitted a) (a_entering a)
                                (a_router a) (a_done a))
  | _, _ => None
  end.
Definition announce (a : actor) : option actor :=
  match a_current a, a_active a with
  | Some x, None => Some (Actor (a_queue a) (a_sequence a) (Some x) (Some (i_priority x)) (down (i_priority x) (a_foreground a))
                            (a_admitted a) (a_entering a) (a_router a) (a_done a))
  | _, _ => None
  end.
Definition finish (a : actor) : option actor :=
  match a_current a, a_active a with
  | Some x, Some _ => let '(r, router) := i_call x (a_router a) in
                      Some (Actor (a_queue a) (a_sequence a) None None (a_foreground a) (a_admitted a) (a_entering a) router (a_done a ++ [(x, r)]))
  | _, _ => None
  end.

(** [snapshot]. *)
Definition snapshot (a : actor) : dict :=
  [("activePriority", match a_active a with Some p => PInt p | None => PNone end);
   ("foregroundPending", PInt (a_foreground a)); ("queued", PInt (Z.of_nat (List.length (a_queue a))))].

Definition idle_actor (router : R) : actor := Actor [] 0 None None 0 [] [] router [].

Inductive actor_step : actor -> actor -> Prop :=
| step_admission p call a a' : admission p call a = Ok a' -> actor_step a a'
| step_number i a a' : draw_number i a = Some a' -> actor_step a a'
| step_put i a a' : put i a = Some (Ok a') -> actor_step a a'
| step_refuse i a a' : put i a = Some queue_busy -> refuse i a = Some a' -> actor_step a a'
| step_grab a a' : grab a = Some a' -> actor_step a a'
| step_announce a a' : announce a = Some a' -> actor_step a a'
| step_finish a a' : finish a = Some a' -> actor_step a a'.

Inductive actor_reachable (router : R) : actor -> Prop :=
| reach_start : actor_reachable router (idle_actor router)
| reach_step a a' : actor_reachable router a -> actor_step a a' -> actor_reachable router a'.
End Actor.
Arguments actor : clear implicits.

(** ** What holds of every reachable actor *)

Section Facts.
Context {R : Type}.
Implicit Types (a : actor R) (x : actor_item R).

(** The foreground calls that are waiting. *)
Definition waiting_priorities a : list Z :=
  List.map fst (a_admitted a) ++ List.map i_priority (a_entering a) ++ List.map i_priority (a_queue a)
  ++ match a_current a, a_active a with Some x, None => [i_priority x] | _, _ => [] end.
Definition foreground_count (l : list Z) : Z := Z.of_nat (List.length (List.filter foreground l)).

(** The calls with a number that were not refused. *)
Definition numbered a : list (actor_item R) :=
  a_entering a ++ a_queue a ++ match a_current a with Some x => [x] | None => [] end ++ List.map fst (a_done a).

(** One call after the other. *)
Fixpoint replay (calls : list (actor_item R)) (router : R) : list (result pyval) * R :=
  match calls with
  | [] => ([], router)
  | x :: calls' => let '(r, router) := i_call x router in let '(rs, router) := replay calls' router in (r :: rs, router)
  end.

Record actor_ok (router : R) a : Prop := {
  ok_count : a_foreground a = foreground_count (waiting_priorities a);
  ok_order : ordered item_le (a_queue a);
  ok_size : (List.length (a_queue a) <= queue_limit)%nat;
  ok_fresh : List.Forall (fun x => (i_sequence x < a_sequence a)%nat) (numbered a);
  ok_unique : List.NoDup (List.map i_sequence (numbered a));
  ok_active : a_current a = None -> a_active a = None;
  ok_replay : replay (List.map fst (a_done a)) router = (List.map snd (a_done a), a_router a);
}.

Lemma foreground_count_app l m : foreground_count (l ++ m) = foreground_count l + foreground_count m.
Proof. unfold foreground_count. rewrite List.filter_app, List.length_app. lia. Qed.
Lemma foreground_count_perm l m : Permutation l m -> foreground_count l = foreground_count m.
Proof.
  intros Hp. unfold foreground_count. f_equal. induction Hp as [|p l m _ IH|p p' l|l m k _ IH1 _ IH2]; cbn; [done| | |congruence].
  - destruct (foreground p); cbn; congruence.
  - by destruct (foreground p), (foreground p').
Qed.
Lemma foreground_count_nonneg l : 0 <= foreground_count l.
Proof. unfold foreground_count. lia. Qed.

Lemma foreground_count_cons p l : foreground_count (p :: l) = (if foreground p then 1 else 0) + foreground_count l.
Proof. unfold foreground_count. cbn. destruct (foreground p); cbn; lia. Qed.
Lemma foreground_count_nil : foreground_count [] = 0.
Proof. done. Qed.

Lemma item_le_total x y : item_le x y = true \/ item_le y x = true.
Proof.
  unfold item_le. destruct (Z.ltb_spec (i_priority x) (i_priority y)), (Z.ltb_spec (i_priority y) (i_priority x)); auto.
  rewrite (proj2 (Z.eqb_eq _ _) (Z.le_antisymm _ _ H0 H)), (proj2 (Z.eqb_eq _ _) (Z.le_antisymm _ _ H H0)).
  destruct (Nat.leb_spec (i_sequence x) (i_sequence y)), (Nat.leb_spec (i_sequence y) (i_sequence x)); auto. lia.
Qed.
Lemma item_le_trans x y z : item_le x y = true -> item_le y z = true -> item_le x z = true.
Proof.
  unfold item_le. rewrite !orb_true_iff, !andb_true_iff, !Z.ltb_lt, !Z.eqb_eq, !Nat.leb_le. intros [?|[? ?]] [?|[? ?]]; lia.
Qed.

Lemma replay_app calls x router : replay (calls ++ [x]) router
  = let '(rs, s) := replay calls router in let '(r, s') := i_call x s in (rs ++ [r], s').
Proof.
  revert router. induction calls as [|y calls IH]; intros router; cbn.
  - by destruct (i_call x router).
  - destruct (i_call y router) as [r s]. rewrite IH. destruct (replay calls s) as [rs s']. by destruct (i_call x s').
Qed.

Lemma delete_perm {A} (l : list A) i (x : A) : l !! i = Some x -> Permutation l (x :: delete i l).
Proof. intros Hi. rewrite <- (take_drop_middle l i x Hi) at 1. rewrite delete_take_drop. symmetry. apply Permutation_middle. Qed.

Lemma some_inj {A} (u v : A) : Some u = Some v -> u = v.
Proof. by intros [= ->]. Qed.

Lemma idle_ok router : actor_ok router (idle_actor router).
Proof. by split; repeat constructor. Qed.

(** The numbered calls only move. *)
Lemma numbered_moves a a' n : Permutation (numbered a') (numbered a) -> (a_sequence a <= n)%nat ->
  List.Forall (fun x => (i_sequence x < a_sequence a)%nat) (numbered a) -> List.NoDup (List.map i_sequence (numbered a)) ->
  List.Forall (fun x => (i_sequence x < n)%nat) (numbered a') /\ List.NoDup (List.map i_sequence (numbered a')).
Proof.
  intros Hp Hn Hf Hd. split.
  - apply (Permutation_Forall (symmetry Hp)). eapply List.Forall_impl; [|exact Hf]. cbn. lia.
  - apply (Permutation_NoDup (Permutation_map i_sequence (symmetry Hp)) Hd).
Qed.

(** The number of waiting foreground calls, part by part. *)
Ltac counting :=
  unfold waiting_priorities in *; cbn [a_admitted a_entering a_queue a_current a_active List.map fst i_priority app] in *;
  rewrite ?List.map_app, ?foreground_count_app in *; cbn [List.map fst i_priority] in *;
  rewrite ?app_nil_r, ?foreground_count_cons, ?foreground_count_nil in *;
  repeat match goal with |- context [foreground_count ?l] => pose proof (foreground_count_nonneg l); generalize dependent (foreground_count l); intros end;
  repeat case_match; lia.

Lemma step_ok router a a' : actor_ok router a -> actor_step a a' -> actor_ok router a'.
Proof.
  intros [Hc Ho Hs Hf Hu Ha Hr] Hstep. destruct Hstep as [p call a a' E|i a a' E|i a a' E|i a a' _ E|a a' E|a a' E|a a' E].
  - unfold admission in E. destruct (negb _ && _); [done|]. apply ok_inj in E. subst a'. split; try done. cbn [a_foreground].
    rewrite Hc. unfold up. counting.
  - unfold draw_number in E. destruct (a_admitted a !! i) as [[p call]|] eqn:Ei; [|done]. apply some_inj in E. subst a'.
    assert (Permutation (numbered (Actor (a_queue a) (1 + a_sequence a) (a_current a) (a_active a) (a_foreground a) (delete i (a_admitted a))
              (a_entering a ++ [Item p (a_sequence a) call]) (a_router a) (a_done a))) (Item p (a_sequence a) call :: numbered a)) as Hp.
    { unfold numbered. cbn. rewrite <- List.app_assoc. symmetry. apply Permutation_middle. }
    split; try done.
    + cbn [a_foreground]. rewrite Hc. apply delete_perm, (Permutation_map fst), foreground_count_perm in Ei. counting.
    + apply (Permutation_Forall (symmetry Hp)). constructor; [cbn; lia|]. eapply List.Forall_impl; [|exact Hf]. cbn. lia.
    + apply (Permutation_NoDup (Permutation_map i_sequence (symmetry Hp))). cbn. constructor; [|done].
      intros (y & Ey & Hy)%List.in_map_iff. rewrite List.Forall_forall in Hf. apply Hf in Hy. lia.
  - unfold put in E. destruct (a_entering a !! i) as [x|] eqn:Ei; [|done]. destruct (Nat.ltb_spec (List.length (a_queue a)) queue_limit); [|done].
    apply some_inj, ok_inj in E. subst a'. apply delete_perm in Ei.
    pose proof (sort_insert_perm item_le x (a_queue a)) as Hq.
    assert (Permutation (numbered (Actor (sort_insert item_le x (a_queue a)) (a_sequence a) (a_current a) (a_active a) (a_foreground a)
              (a_admitted a) (delete i (a_entering a)) (a_router a) (a_done a))) (numbered a)) as Hp.
    { unfold numbered. cbn. rewrite Hq. etransitivity; [|symmetry; apply (Permutation_app_tail _ Ei)]. cbn. symmetry. apply Permutation_middle. }
    destruct (numbered_moves a _ _ Hp (le_n _) Hf Hu) as [Hf' Hu']. split; try done.
    + cbn [a_foreground]. rewrite Hc. apply (Permutation_map i_priority), foreground_count_perm in Ei, Hq. counting.
    + by apply sort_insert_ordered; [apply item_le_total|apply item_le_trans|].
    + cbn. rewrite (Permutation_length Hq). cbn. lia.
  - unfold refuse in E. destruct (a_entering a !! i) as [x|] eqn:Ei; [|done]. apply some_inj in E. subst a'. apply delete_perm in Ei.
    assert (Permutation (numbered a) (x :: numbered (Actor (a_queue a) (a_sequence a) (a_current a) (a_active a)
              (down (i_priority x) (a_foreground a)) (a_admitted a) (delete i (a_entering a)) (a_router a) (a_done a)))) as Hp.
    { unfold numbered. cbn. apply (Permutation_app_tail _ Ei). }
    split; try done.
    + cbn [a_foreground]. rewrite Hc. apply (Permutation_map i_priority), foreground_count_perm in Ei. unfold down. counting.
    + apply (Permutation_Forall Hp) in Hf. by inversion Hf.
    + apply (Permutation_NoDup (Permutation_map i_sequence Hp)) in Hu. by inversion Hu.
  - unfold grab in E. destruct (a_current a) as [x|] eqn:Ex; [done|]. destruct (a_queue a) as [|x queue] eqn:Eq; [done|].
    apply some_inj in E. subst a'. specialize (Ha eq_refl).
    assert (Permutation (numbered (Actor queue (a_sequence a) (Some x) (a_active a) (a_foreground a) (a_admitted a) (a_entering a)
              (a_router a) (a_done a))) (numbered a)) as Hp.
    { unfold numbered. cbn. rewrite Eq, Ex. cbn. apply Permutation_app_head. symmetry. apply Permutation_middle. }
    destruct (numbered_moves a _ _ Hp (le_n _) Hf Hu) as [Hf' Hu']. split; try done.
    + cbn [a_foreground]. rewrite Hc. unfold waiting_priorities. rewrite Ha, Ex, Eq. counting.
    + by inversion Ho.
    + cbn in *. lia.
  - unfold announce in E. destruct (a_current a) as [x|] eqn:Ex; [|done]. destruct (a_active a) eqn:Ev; [done|].
    apply some_inj in E. subst a'.
    assert (Permutation (numbered (Actor (a_queue a) (a_sequence a) (Some x) (Some (i_priority x)) (down (i_priority x) (a_foreground a))
              (a_admitted a) (a_entering a) (a_router a) (a_done a))) (numbered a)) as Hp by (unfold numbered; cbn; by rewrite Ex).
    destruct (numbered_moves a _ _ Hp (le_n _) Hf Hu) as [Hf' Hu']. split; try done.
    cbn [a_foreground]. rewrite Hc. unfold down, waiting_priorities. rewrite Ex, Ev. counting.
  - unfold finish in E. destruct (a_current a) as [x|] eqn:Ex; [|done]. destruct (a_active a) eqn:Ev; [|done].
    destruct (i_call x (a_router a)) as [r s] eqn:Er. apply some_inj in E. subst a'.
    assert (Permutation (numbered (Actor (a_queue a) (a_sequence a) None None (a_foreground a) (a_admitted a) (a_entering a) s (a_done a ++ [(x, r)])))
              (numbered a)) as Hp.
    { unfold numbered. cbn. rewrite Ex, List.map_app. cbn. do 2 apply Permutation_app_head. symmetry. apply Permutation_cons_append. }
    destruct (numbered_moves a _ _ Hp (le_n _) Hf Hu) as [Hf' Hu']. split; try done.
    + cbn [a_foreground]. rewrite Hc. unfold waiting_priorities. rewrite Ex, Ev. counting.
    + cbn. rewrite !List.map_app. cbn. by rewrite replay_app, Hr, Er.
Qed.

Lemma reachable_ok router a : actor_reachable router a -> actor_ok router a.
Proof. induction 1 as [|a a' _ IH Hstep]; [apply idle_ok|by eapply step_ok]. Qed.


(** The worker takes the best call that waits in the queue: no call behind it has a better priority,
    and those of the same priority drew their numbers later. *)
Theorem best_call_is_taken router a a' x :
  actor_reachable router a -> grab a = Some a' -> a_current a' = Some x ->
  forall y, In y (a_queue a') ->
  i_priority x <= i_priority y /\ (i_priority x = i_priority y -> (i_sequence x < i_sequence y)%nat).
Proof.
  intros Ha Hg Hx y Hy. destruct (reachable_ok _ _ Ha) as [_ Ho _ _ Hu _ _]. unfold grab in Hg.
  destruct (a_current a); [done|]. destruct (a_queue a) as [|z queue] eqn:Eq; [done|]. apply some_inj in Hg. subst a'.
  cbn in Hx, Hy. injection Hx as ->. inversion Ho as [|? ? _ Hle]; subst. rewrite List.Forall_forall in Hle. apply Hle in Hy as Hxy.
  assert (i_sequence x <> i_sequence y) as Hne.
  { intros Es. unfold numbered in Hu. rewrite Eq, List.map_app in Hu. apply NoDup_app_remove_l in Hu. cbn in Hu.
    inversion Hu as [|? ? Hnot]; subst. apply Hnot. rewrite Es, List.map_app. apply in_app_iff. left. by apply List.in_map. }
  unfold item_le in Hxy. apply orb_true_iff in Hxy. rewrite andb_true_iff, Z.ltb_lt, Z.eqb_eq, Nat.leb_le in Hxy. lia.
Qed.

(** A background call is admitted only when the actor is idle: nothing is announced or queued, and
    no foreground call is anywhere between its admission and its run. *)
Theorem background_gives_way router a a' p call :
  actor_reachable router a -> foreground p = false -> admission p call a = Ok a' ->
  a_active a = None /\ a_queue a = [] /\ forall q, In q (waiting_priorities a) -> foreground q = false.
Proof.
  intros Ha Hp Had. pose proof (ok_count _ _ (reachable_ok _ _ Ha)) as Hc. unfold admission in Had. rewrite Hp in Had. cbn [negb andb] in Had.
  destruct (a_active a); [done|]. destruct (Z.ltb_spec 0 (a_foreground a)) as [|H0]; [done|]. destruct (a_queue a); [|done].
  split_and!; [done|done|]. intros q Hq. apply not_true_iff_false. intros Hf. rewrite Hc in H0. unfold foreground_count in H0.
  assert (In q (List.filter foreground (waiting_priorities a))) as Hin by (by apply filter_In).
  destruct (List.filter foreground (waiting_priorities a)); [done|cbn in H0; lia].
Qed.
End Facts.

(** ** A run *)

(** The router counts its calls; a write answers the count. *)
Definition write_call : prog Z pyval := fun n => (Ok (PInt (n + 1)), n + 1).
Definition read_call : prog Z pyval := fun n => (Ok (PInt n), n).

(** A read and a task are queued, then a command: it runs before the read. *)
Definition then_do {R} (f : actor R -> option (actor R)) (o : option (actor R)) : option (actor R) := match o with Some a => f a | None => None end.
Definition enter {R} (p : Z) (call : prog R pyval) (a : actor R) : option (actor R) :=
  match admission p call a with
  | Ok a => match draw_number 0 a with Some a => match put 0 a with Some (Ok a) => Some a | _ => None end | None => None end
  | Err _ => None
  end.
Definition serve_one {R} (a : actor R) : option (actor R) := then_do finish (then_do announce (grab a)).

Lemma enter_reaches {R} (router : R) p call a a' : actor_reachable router a -> enter p call a = Some a' -> actor_reachable router a'.
Proof.
  intros Ha He. unfold enter in He. destruct (admission p call a) as [a1|] eqn:E1; [|done]. destruct (draw_number 0 a1) as [a2|] eqn:E2; [|done].
  destruct (put 0 a2) as [[a3|]|] eqn:E3; try done. apply some_inj in He. subst a3.
  eapply reach_step; [eapply reach_step; [eapply reach_step; [exact Ha|by eapply step_admission]|by eapply step_number]|by eapply step_put].
Qed.

Lemma serve_reaches {R} (router : R) a a' : actor_reachable router a -> serve_one a = Some a' -> actor_reachable router a'.
Proof.
  intros Ha He. unfold serve_one, then_do in He. destruct (grab a) as [a1|] eqn:E1; [|done]. destruct (announce a1) as [a2|] eqn:E2; [|done].
  eapply reach_step; [eapply reach_step; [eapply reach_step; [exact Ha|by apply step_grab]|by apply step_announce]|by apply step_finish].
Qed.

Definition queued_three : actor Z := Eval vm_compute in
  default (idle_actor 0) (then_do (enter priority_command write_call) (then_do (enter priority_task write_call) (enter priority_read read_call (idle_actor 0)))).
Definition first_served : actor Z := Eval vm_compute in default queued_three (serve_one queued_three).

Lemma queued_reachable : actor_reachable 0 queued_three.
Proof.
  assert (exists a b, enter priority_read read_call (idle_actor 0) = Some a /\ enter priority_task write_call a = Some b
            /\ enter priority_command write_call b = Some queued_three) as (a & b & Ha & Hb & Hc) by (do 2 eexists; by vm_compute).
  eapply enter_reaches; [|exact Hc]. eapply enter_reaches; [|exact Hb]. eapply enter_reaches; [|exact Ha]. apply reach_start.
Qed.


Lemma best_call_is_taken_witness :
  exists a', grab queued_three = Some a' /\ option_map i_priority (a_current a') = Some 10 /\ List.map i_priority (a_queue a') = [20; 30]
  /\ forall x y, a_current a' = Some x -> In y (a_queue a') -> i_priority x <= i_priority y.
Proof.
  eexists. split; [vm_compute; reflexivity|]. split; [reflexivity|]. split; [reflexivity|]. intros x y Hx Hy.
  exact (proj1 (best_call_is_taken 0 queued_three _ x queued_reachable eq_refl Hx y Hy)).
Defined.

Lemma background_gives_way_witness :
  admission priority_background read_call queued_three = deferred
  /\ exists a', admission priority_background read_call (idle_actor 0) = Ok a' /\ a_queue (idle_actor (R := Z) 0) = [].
Proof.
  split; [vm_compute; reflexivity|]. eexists. split; [reflexivity|].
  exact (proj1 (proj2 (background_gives_way 0 (idle_actor 0) _ priority_background read_call (reach_start 0) eq_refl eq_refl))).
Defined.
