(* ===== verification/SlowCache.v ===== *)
(** * The cache of slow router reads

    [router_slow_cache_patch.py] over [TinyTtlCache]: a read of one of four resources answers with the
    last value and refreshes it in a background thread when it is no longer fresh; other reads keep
    the plain cache of [router_rpc.py].  Requests, the threads that refresh and the writes that clear the
    cache are interleaved.  Times are in milliseconds. *)

From S2P Require Import Prelude PyNum PyVal HubValues.

(** The settings, with the lower bounds the module gives them. *)
Record limits := Limits { l_ttl : string -> option Z; l_retry : Z; l_prune : Z; l_stale : Z; l_entries : Z }.
Definition make_limits (ttls : string -> option Z) (retry prune stale entries : Z) : limits :=
  Limits ttls (Z.max 5000 retry) (Z.max 60000 prune) (Z.max 600000 stale) (Z.max 8 entries).
Definition default_ttls (key : string) : option Z :=
  if str_in key ["native-portmap"; "upnp"] then Some 30000 else if str_in key ["firewall"; "ddns"] then Some 60000 else None.
Definition default_limits : limits := make_limits default_ttls 15000 300000 86400000 64.

(** A row of [TinyTtlCache]: when it was saved, and the value. *)
Definition cache_row : Type := Z * pyval.

Record slow_cache := SlowCache {
  sc_data : list (string * cache_row);            (** [cache._data] *)
  sc_refreshing : gset string;
  sc_retry : gmap string Z;
  sc_scope : option string;
  sc_last_prune : Z;
}.
Definition with_data (d : list (string * cache_row)) (c : slow_cache) : slow_cache :=
  SlowCache d (sc_refreshing c) (sc_retry c) (sc_scope c) (sc_last_prune c).

(** [_data.get] and [_data[key] = row]. *)
Definition peek (key : string) (c : slow_cache) : option cache_row := option_map snd (List.find (fun kr => String.eqb kr.1 key) (sc_data c)).
Fixpoint store_row (key : string) (r : cache_row) (d : list (string * cache_row)) : list (string * cache_row) :=
  match d with
  | [] => [(key, r)]
  | kr :: d' => if String.eqb kr.1 key then (key, r) :: d' else kr :: store_row key r d'
  end.
Definition cache_put (key : string) (v : pyval) (now : Z) (c : slow_cache) : slow_cache := with_data (store_row key (now, v) (sc_data c)) c.
(** [clear]: every key, or those that start with a prefix. *)
Definition cache_clear (prefix : string) (c : slow_cache) : slow_cache :=
  with_data (if nonempty prefix then List.filter (fun kr => negb (starts_with prefix kr.1)) (sc_data c) else []) c.
(** [TinyTtlCache.get]; a saved [None] counts as absent for the caller. *)
Definition cache_get (key : string) (ttl now : Z) (c : slow_cache) : option pyval :=
  match peek key c with
  | Some (saved, v) => if ttl <? now - saved then None else match v with PNone => None | _ => Some v end
  | None => None
  end.

(** [_ensure_scope]. *)
Definition ensure_scope (scope : string) (now : Z) (c : slow_cache) : slow_cache :=
  match sc_scope c with
  | None => SlowCache (sc_data c) (sc_refreshing c) (sc_retry c) (Some scope) (sc_last_prune c)
  | Some previous => if String.eqb previous scope then c else SlowCache [] ∅ ∅ (Some scope) now
  end.

Section Cache.
Context (L : limits).

(** The rows that are not too old, and the newest of them. *)
Definition recent (now : Z) (d : list (string * cache_row)) : list (string * cache_row) := List.filter (fun kr => now - kr.2.1 <=? l_stale L) d.
Definition older (a b : string * cache_row) : bool := a.2.1 <=? b.2.1.
Definition newest_rows (d : list (string * cache_row)) : list (string * cache_row) :=
  let overflow := Z.to_nat (Z.of_nat (List.length d) - l_entries L) in
  let oldest := List.map fst (firstn overflow (isort older d)) in
  List.filter (fun kr => negb (str_in kr.1 oldest)) d.

(** [_prune]. *)
Definition prune (now : Z) (c : slow_cache) : slow_cache :=
  if now - sc_last_prune c <? l_prune L then c
  else SlowCache (newest_rows (recent now (sc_data c))) (sc_refreshing c) (filter (fun kt => now < kt.2) (sc_retry c)) (sc_scope c) now.

(** [_start_refresh]: whether a thread is started. *)
Definition start_refresh (key : string) (now : Z) (c : slow_cache) : bool * slow_cache :=
  if bool_decide (key ∈ sc_refreshing c) then (false, c)
  else if now <? default 0 (sc_retry c !! key) then (false, c)
  else (true, SlowCache (sc_data c) ({[key]} ∪ sc_refreshing c) (sc_retry c) (sc_scope c) (sc_last_prune c)).

Definition refresh_succeeded (key : string) (c : slow_cache) : slow_cache :=
  SlowCache (sc_data c) (sc_refreshing c) (delete key (sc_retry c)) (sc_scope c) (sc_last_prune c).
Definition refresh_failed (key : string) (now : Z) (c : slow_cache) : slow_cache :=
  SlowCache (sc_data c) (sc_refreshing c) (<[key := now + l_retry L]> (sc_retry c)) (sc_scope c) (sc_last_prune c).
Definition finish_refresh (key : string) (c : slow_cache) : slow_cache :=
  SlowCache (sc_data c) (sc_refreshing c ∖ {[key]}) (sc_retry c) (sc_scope c) (sc_last_prune c).

(** The end of a refreshing thread, with what the router answered. *)
Definition worker_done (key : string) (answer : result pyval) (now : Z) (c : slow_cache) : slow_cache :=
  finish_refresh key (match answer with
                      | Ok v => refresh_succeeded key (cache_put key v now c)
                      | Err _ => refresh_failed key now c
                      end).

(** What a read does: it answers, answers and starts a refresh, or has to ask the router first. *)
Inductive reading := Served (v : pyval) | Stale (v : pyval) (started : bool) | Loading.

(** [cached] up to the call of the router. *)
Definition cached (scope key : string) (ttl : Z) (force : bool) (now : Z) (c : slow_cache) : reading * slow_cache :=
  let c := prune now (ensure_scope scope now c) in
  match l_ttl L key with
  | None => match (if force then None else cache_get key ttl now c) with Some v => (Served v, c) | None => (Loading, c) end
  | Some t =>
      if force then (Loading, c)
      else match peek key c with
           | None => (Loading, c)
           | Some (saved, v) =>
               if now - saved <=? Z.max 1000 t then (Served v, c)
               else let '(started, c) := start_refresh key now c in (Stale v started, c)
           end
  end.

(** The rest of it, once the router has answered. *)
Definition loaded (key : string) (v : pyval) (now : Z) (c : slow_cache) : slow_cache :=
  cache_put key v now (match l_ttl L key with Some _ => refresh_succeeded key c | None => c end).

(** ** Threads *)

(** The cache, the clock, the threads that refresh a key, and the requests that wait for the router. *)
Record system := System { y_cache : slow_cache; y_now : Z; y_workers : list string; y_loading : list string }.
Definition idle_system (now : Z) : system := System (SlowCache [] ∅ ∅ None 0) now [] [].

(** A request at a time. *)
Definition request_step (scope key : string) (ttl : Z) (force : bool) (now : Z) (y : system) : reading * system :=
  let '(r, c) := cached scope key ttl force now (y_cache y) in
  (r, System c now (match r with Stale _ true => y_workers y ++ [key] | _ => y_workers y end)
             (match r with Loading => y_loading y ++ [key] | _ => y_loading y end)).

Inductive cache_step (scopes : string -> Prop) : system -> system -> Prop :=
| step_request scope key ttl force now y :
    scopes scope -> y_now y <= now -> cache_step scopes y (request_step scope key ttl force now y).2
| step_loaded i key answer now y :
    y_now y <= now -> y_loading y !! i = Some key ->
    cache_step scopes y (System (match answer with Ok v => loaded key v now (y_cache y) | Err _ => y_cache y end) now (y_workers y) (delete i (y_loading y)))
| step_worker i key answer now y :
    y_now y <= now -> y_workers y !! i = Some key ->
    cache_step scopes y (System (worker_done key answer now (y_cache y)) now (delete i (y_workers y)) (y_loading y))
| step_clear prefix y : cache_step scopes y (System (cache_clear prefix (y_cache y)) (y_now y) (y_workers y) (y_loading y)).

Inductive cache_reachable (scopes : string -> Prop) (start : Z) : system -> Prop :=
| reach_start : cache_reachable scopes start (idle_system start)
| reach_step y y' : cache_reachable scopes start y -> cache_step scopes y y' -> cache_reachable scopes start y'.
End Cache.

(** ** How old a value may be *)

Section Facts.
Context (L : limits).

Lemma store_row_in key r d kr : In kr (store_row key r d) -> kr = (key, r) \/ In kr d.
Proof.
  induction d as [|kr' d IH]; cbn; [by intros [<-|[]]; left|]. destruct (String.eqb kr'.1 key); cbn; intros [<-|Hin]; auto.
  destruct (IH Hin); auto.
Qed.

(** Every row was young enough at the last pruning. *)
Definition rows_ok (last now : Z) (d : list (string * cache_row)) : Prop := List.Forall (fun kr => last - kr.2.1 <= l_stale L /\ kr.2.1 <= now) d.
Definition store_ok (now : Z) (c : slow_cache) : Prop := sc_last_prune c <= now /\ rows_ok (sc_last_prune c) now (sc_data c).

Lemma rows_ok_sub last now d d' : (forall kr, In kr d' -> In kr d) -> rows_ok last now d -> rows_ok last now d'.
Proof. intros Hs Hd. apply List.Forall_forall. intros kr Hin. apply Hs in Hin. revert kr Hin. by apply List.Forall_forall. Qed.

Lemma store_ok_later now now' c : now <= now' -> store_ok now c -> store_ok now' c.
Proof. intros Hn [Hl Hd]. split; [lia|]. eapply List.Forall_impl; [|exact Hd]. cbn. lia. Qed.

Lemma put_ok key v now c : 0 <= l_stale L -> store_ok now c -> store_ok now (cache_put key v now c).
Proof.
  intros Hs [Hl Hd]. split; [done|]. apply List.Forall_forall. intros kr [->|Hin]%store_row_in; cbn; [cbn in Hl; lia|].
  revert kr Hin. by apply List.Forall_forall.
Qed.

Lemma clear_ok prefix now c : store_ok now c -> store_ok now (cache_clear prefix c).
Proof.
  intros [Hl Hd]. split; [done|]. eapply rows_ok_sub; [|exact Hd]. cbn. destruct (nonempty prefix); [|done]. by intros kr [? _]%filter_In.
Qed.

Lemma scope_ok scope now c : store_ok now c -> store_ok now (ensure_scope scope now c).
Proof. intros Hc. unfold ensure_scope. destruct (sc_scope c); [|done]. destruct (String.eqb _ _); [done|]. split; [cbn; lia|constructor]. Qed.

Lemma newest_rows_sub d kr : In kr (newest_rows L d) -> In kr d.
Proof. by intros [? _]%filter_In. Qed.

(** After [prune] the last pruning is recent. *)
Lemma prune_ok now c : 0 < l_prune L -> store_ok now c -> store_ok now (prune L now c) /\ now - sc_last_prune (prune L now c) < l_prune L.
Proof.
  intros Hp [Hl Hd]. unfold prune. destruct (Z.ltb_spec (now - sc_last_prune c) (l_prune L)); [by split|]. cbn. split; [|lia]. split; [cbn; lia|].
  apply List.Forall_forall. intros kr [Hin Hr]%newest_rows_sub%filter_In. split; [cbn; lia|].
  unfold rows_ok in Hd. rewrite List.Forall_forall in Hd. by apply Hd.
Qed.

Lemma refresh_same_data key now c : sc_data (start_refresh key now c).2 = sc_data c /\ sc_last_prune (start_refresh key now c).2 = sc_last_prune c.
Proof. unfold start_refresh. by repeat case_match. Qed.

Lemma cached_data scope key ttl force now c :
  sc_data (cached L scope key ttl force now c).2 = sc_data (prune L now (ensure_scope scope now c))
  /\ sc_last_prune (cached L scope key ttl force now c).2 = sc_last_prune (prune L now (ensure_scope scope now c)).
Proof.
  unfold cached. cbv zeta. set (c1 := prune _ _ _). destruct (l_ttl L key); [|by repeat case_match]. destruct force; [done|].
  destruct (peek key c1) as [[saved v]|]; [|done]. destruct (_ <=? _); [done|]. pose proof (refresh_same_data key now c1) as Hr.
  by destruct (start_refresh key now c1).
Qed.

Hypothesis bounds : 0 <= l_stale L /\ 0 < l_prune L.

Lemma reachable_store_ok scopes start y : 0 <= start -> cache_reachable L scopes start y -> store_ok (y_now y) (y_cache y).
Proof.
  intros Hs. induction 1 as [|y y' _ IH Hstep]; [by repeat constructor|].
  destruct Hstep as [scope key ttl force now y _ Hn|i key answer now y Hn _|i key answer now y Hn _|prefix y].
  - apply (store_ok_later _ now) in IH; [|done]. apply (scope_ok scope), prune_ok in IH as [IH _]; [|lia].
    unfold request_step. pose proof (cached_data scope key ttl force now (y_cache y)) as [E1 E2].
    destruct (cached L scope key ttl force now (y_cache y)) as [r c]. cbn in *. unfold store_ok. by rewrite E1, E2.
  - apply (store_ok_later _ now) in IH; [|done]. cbn. destruct answer as [v|]; [|done]. unfold loaded. apply put_ok; [lia|]. by destruct (l_ttl L key).
  - apply (store_ok_later _ now) in IH; [|done]. cbn. destruct answer as [v|]; [|done]. by apply (put_ok key v) in IH; [|lia].
  - by apply clear_ok.
Qed.

Lemma peek_in key c r : peek key c = Some r -> In (key, r) (sc_data c).
Proof.
  unfold peek. destruct (List.find _ _) as [[k r']|] eqn:E; [|done]. intros [= ->]. apply find_some in E as [Hin E]. cbn in E.
  apply String.eqb_eq in E. by subst.
Qed.
End Facts.


(** ** One refresh at a time *)

Record workers_ok (L : limits) (scope : string) (y : system) : Prop := {
  wk_scope : sc_scope (y_cache y) = None \/ sc_scope (y_cache y) = Some scope;
  wk_unique : List.NoDup (y_workers y);
  wk_marked : forall key, In key (y_workers y) -> key ∈ sc_refreshing (y_cache y) /\ l_ttl L key <> None;
}.

Lemma same_scope L scope now c : sc_scope c = None \/ sc_scope c = Some scope ->
  let c1 := prune L now (ensure_scope scope now c) in sc_scope c1 = Some scope /\ sc_refreshing c1 = sc_refreshing c.
Proof.
  intros Hc. cbv zeta. unfold prune, ensure_scope. destruct Hc as [Hc|Hc]; rewrite Hc, ?String.eqb_refl; by case_match.
Qed.

Lemma request_workers L scope key ttl force now y : workers_ok L scope y -> workers_ok L scope (request_step L scope key ttl force now y).2.
Proof.
  intros [Hs Hu Hm]. destruct (same_scope L scope now (y_cache y) Hs) as [Es Er]. unfold request_step, cached. cbv zeta.
  set (c1 := prune L now (ensure_scope scope now (y_cache y))) in *.
  assert (forall loading, workers_ok L scope (System c1 now (y_workers y) loading)) as Hkeep.
  { intros loading. split; cbn; [by right|done|]. intros k Hk. rewrite Er. by apply Hm. }
  destruct (l_ttl L key) as [t|] eqn:Et; [|destruct (if force then None else cache_get key ttl now c1); apply Hkeep]. destruct force; [apply Hkeep|].
  destruct (peek key c1) as [[saved v]|]; [|apply Hkeep]. destruct (now - saved <=? _); [apply Hkeep|].
  unfold start_refresh. case_bool_decide as Hin; [apply Hkeep|]. destruct (now <? _); [apply Hkeep|]. split; cbn; [by right| |].
  - apply (Permutation_NoDup (Permutation_cons_append _ _)). constructor; [|done]. intros Hk. apply Hin. rewrite Er. by apply Hm.
  - intros k [Hk|[<-|[]]]%in_app_iff; [destruct (Hm k Hk); split; [set_solver|done]|split; [set_solver|congruence]].
Qed.

Lemma worker_unmarks L key answer now c : sc_scope (worker_done L key answer now c) = sc_scope c
  /\ sc_refreshing (worker_done L key answer now c) = sc_refreshing c ∖ {[key]}.
Proof. by destruct answer. Qed.

Lemma delete_workers (l : list string) i key : List.NoDup l -> l !! i = Some key ->
  List.NoDup (delete i l) /\ forall k, In k (delete i l) -> In k l /\ k <> key.
Proof.
  intros Hn Hi. assert (Permutation l (key :: delete i l)) as Hp.
  { rewrite <- (take_drop_middle l i key Hi) at 1. rewrite delete_take_drop. symmetry. apply Permutation_middle. }
  apply (Permutation_NoDup Hp) in Hn. inversion Hn as [|? ? Hk Hd]; subst. split; [done|]. intros k Hin. split.
  - apply (Permutation_in _ (symmetry Hp)). by right.
  - by intros ->.
Qed.

Lemma reachable_workers L scope start y : cache_reachable L (eq scope) start y -> workers_ok L scope y.
Proof.
  induction 1 as [|y y' _ IH Hstep]; [split; cbn; [by left|constructor|done]|].
  destruct Hstep as [scope' key ttl force now y <- _|i key answer now y _ _|i key answer now y _ Hi|prefix y]; [by apply request_workers| | |].
  - destruct IH as [Hs Hu Hm]. split; cbn; [|done|]; destruct answer as [v|]; try done; unfold loaded; by destruct (l_ttl L key).
  - destruct IH as [Hs Hu Hm]. destruct (worker_unmarks L key answer now (y_cache y)) as [Es Er].
    destruct (delete_workers _ _ _ Hu Hi) as [Hd Hin]. split; cbn [y_cache y_workers]; [by rewrite Es|done|].
    intros k Hk. destruct (Hin k Hk) as [Hk1 Hne]. destruct (Hm k Hk1). rewrite Er. split; [set_solver|done].
  - by destruct IH as [Hs Hu Hm].
Qed.

(** C33. As long as the router stays the same, no two background threads refresh the same resource:
    whatever requests, forced reads, failures and clearings come, in any order, and only slow resources
    are refreshed in the background. *)
Theorem one_refresh_per_key L scope start y :
  cache_reachable L (eq scope) start y -> List.NoDup (y_workers y) /\ forall key, In key (y_workers y) -> l_ttl L key <> None.
Proof. intros [_ Hu Hm]%reachable_workers. split; [done|]. intros key Hk. by apply Hm. Qed.

(** ** Runs *)

Definition ask_firewall (scope : string) (now : Z) (y : system) : reading * system := request_step default_limits scope "firewall" 5 false now y.
Definition answer_request (v : pyval) (now : Z) (y : system) : system :=
  System (loaded default_limits "firewall" v now (y_cache y)) now (y_workers y) (delete 0%nat (y_loading y)).
Definition answer_worker (answer : result pyval) (now : Z) (y : system) : system :=
  System (worker_done default_limits "firewall" answer now (y_cache y)) now (delete 0%nat (y_workers y)) (y_loading y).

(** One read fills the cache, another one later finds the value stale. *)
Definition filled : system := answer_request (PStr "old rules") 2000 (ask_firewall "first" 1000 (idle_system 0)).2.
Definition stale_read : reading * system := ask_firewall "first" 100000 filled.

Lemma filled_reachable (scopes : string -> Prop) : scopes "first" -> cache_reachable default_limits scopes 0 filled.
Proof.
  intros Hs. eapply reach_step; [eapply reach_step; [apply reach_start|apply (step_request _ _ "first" "firewall" 5 false 1000); [done|by vm_compute]]|].
  apply (step_loaded _ _ 0 "firewall" (Ok (PStr "old rules")) 2000); [by vm_compute|by vm_compute].
Qed.


Lemma one_refresh_per_key_witness :
  y_workers stale_read.2 = ["firewall"] /\ (ask_firewall "first" 100001 stale_read.2).1 = Stale (PStr "old rules") false
  /\ List.NoDup (y_workers stale_read.2).
Proof.
  split; [vm_compute; reflexivity|]. split; [vm_compute; reflexivity|].
  refine (proj1 (one_refresh_per_key default_limits "first" 0 stale_read.2 _)).
  eapply reach_step; [apply filled_reachable; reflexivity|].
  apply (step_request _ _ "first" "firewall" 5 false 100000); [reflexivity|vm_compute; intros E; discriminate E].
Defined.

(** The router is changed while a refresh runs: the cache is cleared, then the thread stores what it
    read from the router before, and the next request answers it. *)
Example old_router_value_is_served :
  (ask_firewall "second" 100020 (answer_worker (Ok (PStr "rules of the first router")) 100010 (ask_firewall "second" 100005 stale_read.2).2)).1
  = Served (PStr "rules of the first router").
Proof. vm_compute. reflexivity. Qed.
