(* ===== verification/RouterFixture.v ===== *)
(** * A concrete router

    A router whose port mappings and firewall rules are two tables, on which the theorems about the
    STUN and the WireGuard service and the firewall automation are instantiated. *)

From S2P Require Import Prelude PyNum PyVal PyTime HubValues Json Storage Hub Services Fixtures RouterRpc RouterSite.

Record tables := Tables { tb_mappings : list dict; tb_firewall : list dict; tb_count : nat }.

(** The rows of a list of dicts. *)
Definition rows_in (v : pyval) : list dict := omap (fun v => match v with PDict d => Some d | _ => None end) (list_or_empty v).
Definition named (key : string) (names : list pyval) (row : dict) : bool := py_in (get row key) names.

(** A new firewall rule gets a number as its id. *)
Fixpoint numbered (n : nat) (rows : list dict) : list dict :=
  match rows with
  | [] => []
  | row :: rows' => dset "uuid" (PStr ("u" +:+ nat_str (Z.of_nat n))) row :: numbered (1 + n) rows'
  end.

(** A row in place of the one with its id. *)
Definition put_row (table : list dict) (row : dict) : list dict :=
  List.map (fun old => if py_eq (get old "uuid") (get row "uuid") then row else old) table.

Definition demo_rpc (method module : string) (params : pyval) (t : tables) : result pyval * tables :=
  let p := dict_or_empty params in
  if String.eqb module "port_mapping" then
    if String.eqb method "devConfig.get" then (Ok (PDict [("portMapping", PList (List.map PDict (tb_mappings t)))]), t)
    else if String.eqb method "devConfig.add" then (Ok (PDict []), Tables (tb_mappings t ++ rows_in (get p "list")) (tb_firewall t) (tb_count t))
    else if String.eqb method "devConfig.update" then
      (Ok (PDict []), Tables (List.map (fun row => if py_eq (PDict row) (get p "old") then dict_or_empty (get p "new") else row) (tb_mappings t))
                        (tb_firewall t) (tb_count t))
    else (Ok (PDict []), Tables (List.filter (fun row => negb (named "ruleName" (list_or_empty (get p "ruleName")) row)) (tb_mappings t))
                           (tb_firewall t) (tb_count t))
  else if String.eqb method "devConfig.add" then
    let rows := rows_in (get p "list") in
    (Ok (PDict []), Tables (tb_mappings t) (tb_firewall t ++ numbered (tb_count t) rows) (tb_count t + List.length rows))
  else if String.eqb method "devConfig.update" then
    (Ok (PDict []), Tables (tb_mappings t) (fold_left put_row (rows_in (get p "list")) (tb_firewall t)) (tb_count t))
  else (Ok (PDict []), Tables (tb_mappings t)
                         (List.filter (fun row => negb (named "uuid" (list_or_empty (get p "uuid")) row)) (tb_firewall t)) (tb_count t)).

#[export] Instance table_router : RouterClient tables := {| rpc := demo_rpc |}.
#[export] Instance table_batch : RouterBatch tables :=
  {| batch := fun _ t => (Ok (PList [PDict [("list", PList (List.map PDict (tb_firewall t)))]; PDict []]), t) |}.
(** Texts as their own digests. *)
#[export] Instance plain_digest : Sha256 := {| sha256 := fun s => s |}.

Definition demo_site (t : tables) : site store tables := Site demo_world t (Sync [] 0 None).
Definition on_site {A} (m : router_prog store tables A) (s : site store tables) : site store tables := snd (m s).
