(* ===== verification/TypedStore.v ===== *)
(** * Stores whose documents keep a property

    A service often promises something about each of its documents.  [typed P] says that every
    stored document [k] satisfies [P k]; [safe] and [site_safe] say that a program keeps this and
    what it returns.  The rules follow the structure of the program. *)

From S2P Require Import Prelude PyNum PyVal PyTime HubValues Json Storage Hub Services RouterRpc RouterSite.

(** A property of documents that does not depend on the order of keys. *)
Class DocTyping (P : string -> pyval -> Prop) : Prop := { typing_sorted : forall k v, plain v -> P k v -> P k (sort_keys v) }.

Section Typed.
Context {S : Type} `{DocStoreLaws S} {tz : TimeZone} (E : env) (P : string -> pyval -> Prop) `{!DocTyping P}.

Definition typed (s : S) : Prop := doc_ok s /\ forall k v, doc_read k s = Some v -> P k v.

Definition safe {A} (m : hub S A) (Q : A -> Prop) : Prop := forall w r w',
  typed (w_docs w) -> m w = (r, w') -> typed (w_docs w') /\ forall a, r = Ok a -> Q a.

Lemma safe_ret {A} (a : A) (Q : A -> Prop) : Q a -> safe (mret a) Q.
Proof. intros Ha w r w' Hw [= <- <-]. split; [done|]. by intros ? [= <-]. Qed.

Lemma safe_lift {A} (m : result A) (Q : A -> Prop) : (forall a, m = Ok a -> Q a) -> safe (lift m) Q.
Proof. intros Hm w r w' Hw [= <- <-]. by split. Qed.

Lemma safe_bind {A B} (m : hub S A) (f : A -> hub S B) Q Q' :
  safe m Q -> (forall a, Q a -> safe (f a) Q') -> safe (m ≫= f) Q'.
Proof.
  intros Hm Hf w r w' Hw. rewrite prog_bind_eq. destruct (m w) as [[a|e] w1] eqn:Em; destruct (Hm _ _ _ Hw Em) as [Hw1 Ha].
  - apply Hf; auto.
  - intros [= <- <-]. by split.
Qed.

Lemma safe_mono {A} (m : hub S A) (Q Q' : A -> Prop) : safe m Q -> (forall a, Q a -> Q' a) -> safe m Q'.
Proof. intros Hm HQ w r w' Hw Hr. destruct (Hm _ _ _ Hw Hr). split; eauto. Qed.

Lemma safe_try {A} (m : hub S A) h Q : safe m Q -> (forall e, safe (h e) Q) -> safe (try_except m h) Q.
Proof.
  intros Hm Hh w r w' Hw. unfold try_except. destruct (m w) as [[a|e] w1] eqn:Em; destruct (Hm _ _ _ Hw Em) as [Hw1 Ha].
  - intros [= <- <-]. by split.
  - by apply Hh.
Qed.

Lemma safe_for_each {A} (f : A -> hub S unit) l :
  (forall a, In a l -> safe (f a) (fun _ => True)) -> safe (for_each f l) (fun _ => True).
Proof.
  induction l as [|a l IH]; intros Hf; cbn; [by apply safe_ret|].
  eapply safe_bind; [apply Hf; by left|]. intros _ _. apply IH. intros b ?. apply Hf. by right.
Qed.

(** Programs that leave the documents alone. *)
Lemma safe_same {A} (m : hub S A) : (forall w, w_docs (m w).2 = w_docs w) -> safe m (fun _ => True).
Proof. intros Hm w r w' Hw Hr. specialize (Hm w). rewrite Hr in Hm. cbn in Hm. by rewrite Hm. Qed.

Lemma safe_load k d : json_ok d -> safe (load_json k d) (fun v => json_ok v /\ (v = d \/ P k v)).
Proof.
  intros Hd w r w' Hw [= <- <-]. split; [done|]. intros v [= <-]. destruct Hw as [Hok HP].
  destruct (doc_read k (w_docs w)) as [v|] eqn:Ev; cbn [default from_option id]; [|by split; [|left]].
  split; [by eapply doc_read_ok|right; by apply HP].
Qed.

Lemma safe_save k v : str_in k ["state.json"; "devices.json"] = false -> plain v -> P k v -> safe (save_json k v) (fun _ => True).
Proof.
  intros Hk Hv HP w r w' [Hok Ht] Hs. split; [|done]. split; [by eapply save_json_ok|].
  intros k' v' Hr. unfold save_json in Hs. rewrite Hk in Hs.
  destruct (doc_save _ _ _ _) as [[s n]|e] eqn:Es; injection Hs as <- <-; [|by apply Ht]. cbn [w_docs] in Hr.
  destruct (decide (k' = k)) as [->|Hne].
  - rewrite (doc_read_save _ _ _ _ _ _ Hv Es) in Hr. injection Hr as <-. by apply typing_sorted.
  - rewrite (doc_read_save_ne _ _ _ _ _ _ _ Hne Es) in Hr. by apply Ht.
Qed.

(** ** The same for programs that call the router *)

Context {R : Type} `{RouterClient R} `{RouterBatch R} `{Sha256}.

Definition site_safe {A} (m : router_prog S R A) (Q : A -> Prop) : Prop := forall s r s',
  typed (w_docs (st_hub s)) -> m s = (r, s') -> typed (w_docs (st_hub s')) /\ forall a, r = Ok a -> Q a.

Lemma site_safe_hub {A} (m : hub S A) Q : safe m Q -> site_safe (on_hub m) Q.
Proof.
  intros Hm s r s' Hs. rewrite on_hub_eq. destruct (m (st_hub s)) as [o w] eqn:Em. intros [= <- <-]. cbn [st_hub fst snd].
  by eapply Hm.
Qed.

Lemma site_safe_ret {A} (a : A) (Q : A -> Prop) : Q a -> site_safe (mret a) Q.
Proof. intros Ha s r s' Hs [= <- <-]. split; [done|]. by intros ? [= <-]. Qed.

Lemma site_safe_lift {A} (m : result A) (Q : A -> Prop) : (forall a, m = Ok a -> Q a) -> site_safe (lift m) Q.
Proof. intros Hm s r s' Hs [= <- <-]. by split. Qed.

Lemma site_safe_bind {A B} (m : router_prog S R A) (f : A -> router_prog S R B) Q Q' :
  site_safe m Q -> (forall a, Q a -> site_safe (f a) Q') -> site_safe (m ≫= f) Q'.
Proof.
  intros Hm Hf s r s' Hs. rewrite prog_bind_eq. destruct (m s) as [[a|e] s1] eqn:Em; destruct (Hm _ _ _ Hs Em) as [Hs1 Ha].
  - apply Hf; auto.
  - intros [= <- <-]. by split.
Qed.

Lemma site_safe_mono {A} (m : router_prog S R A) (Q Q' : A -> Prop) : site_safe m Q -> (forall a, Q a -> Q' a) -> site_safe m Q'.
Proof. intros Hm HQ s r s' Hs Hr. destruct (Hm _ _ _ Hs Hr). split; eauto. Qed.

Lemma site_safe_try {A} (m : router_prog S R A) h Q : site_safe m Q -> (forall e, site_safe (h e) Q) -> site_safe (try_except m h) Q.
Proof.
  intros Hm Hh s r s' Hs. unfold try_except. destruct (m s) as [[a|e] s1] eqn:Em; destruct (Hm _ _ _ Hs Em) as [Hs1 Ha].
  - intros [= <- <-]. by split.
  - by apply Hh.
Qed.

Lemma site_safe_for_each {A} (f : A -> router_prog S R unit) l :
  (forall a, In a l -> site_safe (f a) (fun _ => True)) -> site_safe (for_each f l) (fun _ => True).
Proof.
  induction l as [|a l IH]; intros Hf; cbn; [by apply site_safe_ret|].
  eapply site_safe_bind; [apply Hf; by left|]. intros _ _. apply IH. intros b ?. apply Hf. by right.
Qed.

Lemma site_safe_call m x p : site_safe (call m x p) (fun _ => True).
Proof. intros s r s' Hs. unfold call. rewrite on_router_eq. by intros [= <- <-]. Qed.

Lemma site_safe_mapping : site_safe native_port_mapping (fun _ => True).
Proof. eapply site_safe_bind; [apply site_safe_call|]. intros raw _. by apply site_safe_ret. Qed.

Lemma site_safe_firewall : site_safe firewall (fun _ => True).
Proof.
  unfold firewall. eapply (site_safe_bind _ _ (fun _ => True)).
  { intros s r s' Hs. rewrite on_router_eq. by intros [= <- <-]. }
  intros data _. eapply (site_safe_bind _ _ (fun _ => True)); [by apply site_safe_lift|]. intros rules _.
  eapply site_safe_bind; [apply site_safe_hub, safe_same; by intros w|]. intros now _. by apply site_safe_ret.
Qed.

Lemma site_safe_write prefix write read :
  site_safe write (fun _ => True) -> site_safe read (fun _ => True) -> site_safe (write_and_verify prefix write read) (fun _ => True).
Proof.
  intros Hw Hr. unfold write_and_verify. eapply site_safe_bind; [exact Hw|]. intros _ _. eapply site_safe_bind; [exact Hr|]. intros d _.
  eapply site_safe_bind; [apply site_safe_hub, safe_same; by intros w|]. intros now _.
  eapply (site_safe_bind _ _ (fun _ => True)); [intros s r s' Hs [= <- <-]; by split|]. intros _ _. by apply site_safe_ret.
Qed.
End Typed.

(** ** Plain documents

    The weakest promise: what is stored is JSON. *)
Definition any_doc (k : string) (v : pyval) : Prop := True.
#[export] Instance any_doc_typing : DocTyping any_doc.
Proof. by constructor. Qed.
