(* ===== verification/Stun.v ===== *)
(** * STUN channels

    The control plane of [stun_service.py]: the rules, the commands of the Agent, the fixed port
    mapping the router keeps for a rule, the firewall entry of a rule, the history of public
    endpoints, and the handlers.

    The ids of the rules document are texts; another value is read as its text. *)

From S2P Require Import Prelude PyNum PyVal PyIp PyTime HubValues Json Storage Hub Services AgentQueue PortMap RouterRpc RouterSite.

(** ** Templates and defaults *)

Record template := Template { tp_port : option Z; tp_protocols : list string; tp_default : string }.
Definition service_templates : list (string * template) :=
  [("HTTPS", Template (Some 443) ["TCP"] "TCP"); ("HTTP", Template (Some 80) ["TCP"] "TCP"); ("SSH", Template (Some 22) ["TCP"] "TCP");
   ("RDP", Template (Some 3389) ["TCP"] "TCP"); ("Telnet", Template (Some 23) ["TCP"] "TCP");
   ("OpenVPN", Template (Some 1194) ["TCP"; "UDP"] "UDP"); ("DNS", Template (Some 53) ["TCP"; "UDP"] "UDP");
   ("WireGuard", Template (Some 51820) ["UDP"] "UDP"); ("Custom", Template None ["TCP"; "UDP"] "TCP")].
Definition custom_template : template := Template None ["TCP"; "UDP"] "TCP".

(** The template whose name has the same letters, or Custom. *)
Definition find_template (service : string) : string * template :=
  default ("Custom", custom_template) (List.find (fun kv => String.eqb (lower kv.1) (lower service)) service_templates).

Definition default_stun_udp_server : string := "stun.cloudflare.com:3478".
Definition default_stun_tcp_server : string := "stunserver2025.stunprotocol.org:3478".

(** ** Pure parts of the rules *)

Record rules_doc := RulesDoc { rd_revision : Z; rd_updated : string; rd_rules : list dict }.

Definition read_document (raw : pyval) : result rules_doc :=
  let d := dict_or_empty raw in
  revision ← int_or (get d "revision") 0;
  rules ← dict_rows (get_or d "rules" (PList []));
  mret (RulesDoc revision (text_of (get d "updatedAt")) rules).

Definition rule_id (d : dict) : string := text_of (get d "id").
Definition protocol_of (d : dict) : string := upper (text_of (get d "transportProtocol")).
Definition is_native_forward (d : dict) : bool := String.eqb (text_of (get d "forwardMode")) "router_native".
Definition is_stun (d : dict) : bool := String.eqb (lower (text_of (get d "kind"))) "stun".

(** The ports the rows of a protocol listen on. *)
Definition used_ports (protocol : string) (rows : list dict) : result (list Z) :=
  result_map (fun row => int_or (get row "listenPort") 0) (List.filter (fun row => String.eqb (protocol_of row) protocol) rows).

Definition port_pool : list Z := List.map (fun i => 20000 + Z.of_nat i) (seq 0 21).
Definition free_port (used : list Z) : result Z :=
  match List.find (fun p => negb (existsb (Z.eqb p) used)) port_pool with
  | Some p => Ok p
  | None => raise_value_error "中继端口已用完，请先停止一个映射或穿透规则"
  end.

(** The checks of [clean_rule] before a port is allocated. *)
Record checked := Checked {
  ck_service : string; ck_protocol : string; ck_target : string; ck_port : Z; ck_id : string }.

Definition id_ok (s : string) : bool := sall (fun c => is_alnum c || is_char "-"%char c || is_char "_"%char c) s.

Definition check_target (target_ip : string) : result unit :=
  match ip_of_str target_ip with
  | None => raise_value_error "请输入有效的内网 IPv4 地址"
  | Some a => if (ip_version a =? 4) && (is_private a || is_loopback a || is_link_local a) then Ok tt
              else raise_value_error "目标地址必须是内网 IPv4 地址"
  end.

(** [fresh] is the id of a rule that has none. *)
Definition check_rule (fresh : string) (payload old : dict) : result checked :=
  let '(service, template) := find_template (text_first [get payload "serviceType"; get old "serviceType"; PStr "Custom"]) in
  let protocol := upper (text_first [get payload "transportProtocol"; get old "transportProtocol"; PStr (tp_default template)]) in
  if negb (str_in protocol (tp_protocols template)) then raise_value_error (service +:+ " 不支持 " +:+ protocol +:+ " 穿透")
  else
    let target_ip := text_first [get payload "targetIpv4"; get old "targetIpv4"] in
    _ ← check_target target_ip;
    old_port ← int_or (get old "targetPort") (default 0 (tp_port template));
    target_port ← int_or (get payload "targetPort") old_port;
    if negb ((1 <=? target_port) && (target_port <=? 65535)) then raise_value_error "目标端口必须在 1–65535"
    else
      let id := str_or (text_first [get payload "id"; get old "id"]) fresh in
      if negb (id_ok id) then raise_value_error "规则 ID 无效"
      else Ok (Checked service protocol target_ip target_port id).

(** A bounded number of the payload, of the old rule, or the default. *)
Definition bounded (k : string) (lo hi dflt : Z) (payload old : dict) : result Z :=
  was ← int_or (get old k) dflt;
  n ← int_or (get payload k) was;
  mret (clamp lo hi (if n =? 0 then dflt else n)).

Definition build_rule (c : checked) (listen : Z) (stun_server now : string) (payload old : dict) : result dict :=
  let name := str_or (text_first [get payload "name"; get old "name"])
                (ck_service c +:+ " · " +:+ ck_target c +:+ ":" +:+ int_str (ck_port c)) in
  if 64 <? py_len name then raise_value_error "名称不能超过 64 个字符"
  else
    connections ← bounded "maxConnections" 1 256 32 payload old;
    idle ← bounded "idleTimeoutSec" 30 3600 300 payload old;
    mret [("id", PStr (ck_id c)); ("kind", PStr "stun"); ("name", PStr name);
          ("enabled", PBool (truthy (get_or payload "enabled" (get_or old "enabled" (PBool true)))));
          ("mode", PStr "stun"); ("listenPort", PInt listen); ("targetMode", PStr "ipv4"); ("targetIpv4", PStr (ck_target c));
          ("targetPort", PInt (ck_port c)); ("serviceType", PStr (ck_service c)); ("transportProtocol", PStr (ck_protocol c));
          ("forwardMode", PStr "router_native"); ("stunServer", PStr stun_server); ("maxConnections", PInt connections);
          ("idleTimeoutSec", PInt idle); ("createdAt", PStr (str_or (text_of (get old "createdAt")) now)); ("updatedAt", PStr now)].

(** ** Pure parts of the commands *)

(** [_text((row.get("payload") or {}).get("id") or ((row.get("payload") or {}).get("rule") or {}).get("id"))]. *)
Definition payload_rule_id (payload : pyval) : result string :=
  let p := por payload (PDict []) in
  own ← vget p "id";
  if truthy own then mret (text_of own)
  else rule ← vget p "rule"; inner ← vget (por rule (PDict [])) "id"; mret (text_of inner).

(** An unfinished command for the same router, action and rule, which a new one replaces. *)
Definition superseded (router action id : string) (row : dict) : result bool :=
  if is_text (get row "router") router && is_text (get row "action") action then
    i ← payload_rule_id (get row "payload"); mret (String.eqb i id && is_open row)
  else Ok false.

Fixpoint drop_superseded (router action id : string) (rows : list dict) : result (list dict) :=
  match rows with
  | [] => Ok []
  | row :: rows' =>
      old ← superseded router action id row;
      rest ← drop_superseded router action id rows';
      mret (if old : bool then rest else row :: rest)
  end.

Definition stun_command (token router action : string) (payload : dict) (now : string) : dict :=
  [("id", PStr ("stun-cmd-" +:+ py_take 12 token)); ("router", PStr router); ("action", PStr action); ("payload", PDict payload);
   ("status", PStr "pending"); ("createdAt", PStr now); ("attempts", PInt 0)].

(** A command a poll of the router may take, and the fields the router gets. *)
Definition stun_due (now : Z) (router : string) (row : dict) : result bool :=
  if is_text (get row "router") router
  then retry ← retry_due now row; mret (is_text (get row "status") "pending" || retry)
  else Ok false.
Definition stun_keys : list string := ["id"; "action"; "payload"; "createdAt"].

(** ** Pure parts of the reports *)

Definition runtime_row (row : dict) : option (string * pyval) :=
  let rule := dict_or_empty (get row "rule") in
  let runtime := dict_or_empty (get row "runtime") in
  let id := text_first [get rule "id"; get runtime "id"] in
  if nonempty id then Some (id, PDict runtime) else None.

Definition runtime_of_status (status_record : dict) : result dict :=
  rows ← vget_or (get_or status_record "status" (PDict [])) "rules" (PList []);
  mret (dict_of (omap (fun v => match v with PDict row => runtime_row row | _ => None end) (list_or_empty rows))).

Definition lists_of (raw : pyval) : dict := List.filter (fun kv => is_list kv.2) (dict_or_empty raw).
Definition bindings_of (raw : pyval) : dict :=
  List.filter (fun kv => is_dict kv.2) (dict_or_empty (match raw with PDict d => get_or d "rules" (PDict []) | _ => PDict [] end)).
Definition binding (id : string) (bindings : dict) : dict := dict_or_empty (get bindings id).

(** The history of a rule with its present endpoint in front. *)
Definition remembered (now mapped_at : Z) (endpoint protocol : string) (rows : list pyval) : list pyval :=
  let rows := List.filter is_dict rows in
  let rows := match rows with
              | PDict r :: _ => if String.eqb (text_of (get r "endpoint")) endpoint then rows
                                else PDict [("endpoint", PStr endpoint); ("updatedAt", PInt (if mapped_at =? 0 then now else mapped_at));
                                            ("protocol", PStr protocol)] :: rows
              | _ => PDict [("endpoint", PStr endpoint); ("updatedAt", PInt (if mapped_at =? 0 then now else mapped_at));
                            ("protocol", PStr protocol)] :: rows
              end in
  firstn 3 rows.

Definition compared_keys : list string :=
  ["enabled"; "kind"; "listenPort"; "targetIpv4"; "targetPort"; "serviceType"; "transportProtocol"; "forwardMode"; "stunServer";
   "maxConnections"; "idleTimeoutSec"].
Definition rule_differs (local rule : dict) : bool := existsb (fun k => negb (py_eq (get local k) (get rule k))) compared_keys.

(** The rules the Agent runs, by id. *)
Definition local_rules (rows : pyval) : dict :=
  dict_of (omap (fun v => match v with
                          | PDict row => match get row "rule" with
                                         | PDict local => if nonempty (rule_id local) then Some (rule_id local, PDict local) else None
                                         | _ => None
                                         end
                          | _ => None
                          end) (list_or_empty rows)).

(** ** Pure parts of the router rules *)

Definition matches_row (row expected : dict) : bool :=
  forallb (fun kv => String.eqb (text_of (get row kv.1)) (text_of kv.2)) expected.

Definition native_mapping_rows (snapshot : dict) : list dict :=
  match por (get snapshot "portMapping") (por (get snapshot "list") (PList [])) with
  | PList l => omap (fun v => match v with PDict d => Some d | _ => None end) l
  | _ => []
  end.
Definition find_native_mapping (snapshot : dict) (rule_name : string) : option dict :=
  List.find (fun row => String.eqb (text_of (get row "ruleName")) rule_name) (native_mapping_rows snapshot).

Definition expected_native_mapping (rule : dict) : result dict :=
  id ← item rule "id"; listen ← item rule "listenPort"; target ← item rule "targetIpv4";
  port ← item rule "targetPort"; protocol ← item rule "transportProtocol";
  mret [("ruleName", PStr ("LabProbe STUN " +:+ py_str id)); ("src", PStr "wan"); ("srcIp", PStr "");
        ("srcPort", PStr (py_str listen)); ("destIp", PStr (text_of target)); ("destPort", PStr (py_str port));
        ("proto", PStr (lower (text_of protocol)))].

(** The rows of the firewall; anything but a list of dicts is skipped or raises. *)
Definition firewall_list (current : dict) : result (list dict) := dict_rows (get_or current "list" (PList [])).
Definition find_firewall (uuid : string) (rows : list dict) : option dict :=
  List.find (fun row => String.eqb (text_of (get row "uuid")) uuid) rows.

Definition is_lan_forward (rule : dict) : bool := String.eqb (lower (text_of (get rule "firewallMode"))) "wireguard_lan_forward".

Definition expected_firewall (rule : dict) : result dict :=
  id ← item rule "id";
  if is_lan_forward rule then
    tunnel ← item rule "tunnelNetwork";
    mret [("ruleName", PStr ("LabProbe WireGuard " +:+ py_str id)); ("direction", PStr "forward"); ("ipVersion", PStr "ipv4");
          ("proto", PStr "all"); ("srcIP", PStr (text_of tunnel)); ("destIP", PStr ""); ("srcPort", PStr ""); ("destPort", PStr "");
          ("target", PStr "ACCEPT"); ("enable", PStr "1"); ("ipv6SuffixSrc", PStr ""); ("ipv6SuffixDest", PStr "");
          ("inIface", PStr ""); ("outIface", PStr "lan")]
  else
    protocol ← item rule "transportProtocol"; listen ← item rule "listenPort";
    mret [("ruleName", PStr ("LabProbe STUN " +:+ py_str id)); ("direction", PStr "inbound"); ("ipVersion", PStr "ipv4");
          ("proto", PStr (lower (text_of protocol))); ("srcIP", PStr ""); ("destIP", PStr ""); ("srcPort", PStr "");
          ("destPort", PStr (py_str listen)); ("target", PStr "ACCEPT"); ("enable", PStr "1"); ("ipv6SuffixSrc", PStr "");
          ("ipv6SuffixDest", PStr ""); ("inIface", PStr "wan"); ("outIface", PStr "")].

Definition state_message (state message : string) : dict := [("state", PStr state); ("message", PStr message)].
Definition state_is (d : dict) (state : string) : bool := is_text (get d "state") state.
