(* ===== verification/StunService.v ===== *)
(** * The STUN service and its handlers

    [StunService] and [create_stun_blueprint] of [stun_service.py] over the documents of the Hub
    and the router. *)

From S2P Require Import Prelude PyNum PyVal PyIp PyTime HubValues Json Storage Hub Services AgentQueue AgentCmd PortMap RouterRpc RouterSite Stun.

(** ** Documents and commands *)

Section Documents.
Context {S : Type} `{DocStore S} {tz : TimeZone} (E : env).

(** [_stun_server]: the variables of the two protocols, or the default of the protocol. *)
Definition stun_server (protocol : string) : string :=
  let protocol := upper (strip protocol) in
  str_or (strip (default "" (env_var E ("STUN_" +:+ protocol +:+ "_SERVER"))))
    (if String.eqb protocol "TCP" then default_stun_tcp_server else default_stun_udp_server).

Definition stun_document : hub S rules_doc :=
  raw ← load_json "stun_rules.json" (PDict [("revision", PInt 0); ("rules", PList [])]); lift (read_document raw).

Definition save_stun_rules (rows : list dict) : hub S unit :=
  previous ← stun_document;
  now ← utc_now;
  save_json "stun_rules.json" (PDict [("revision", PInt (rd_revision previous + 1)); ("updatedAt", PStr now);
                                      ("rules", PList (List.map PDict rows))]).

Definition stun_router_name : hub S string := name ← portmap_router_name E; mret (str_or (strip name) "router").

Definition stun_queue_file : string := "stun_commands.json".
Definition stun_commands : hub S (list dict) := load_queue stun_queue_file.

(** [queue]; an empty router is the one of the port mappings. *)
Definition stun_queue (action : string) (payload : dict) (router : string) : hub S unit :=
  name ← (if nonempty router then mret router else stun_router_name);
  id ← lift (payload_rule_id (PDict payload));
  rows ← stun_commands;
  kept ← lift (drop_superseded name action id rows);
  token ← uuid_hex E;
  now ← utc_now;
  save_queue stun_queue_file (kept ++ [stun_command token name action payload now]).

(** [_migrate_legacy_tcp_server]: the forward mode and the TCP server of saved rules, when the
    Hub starts. *)
Definition migrated_rule (now : string) (rule : dict) : dict * bool :=
  if negb (is_stun rule) then (rule, false)
  else
    let protocol := str_or (protocol_of rule) "TCP" in
    let '(rule, moded) := if is_native_forward rule then (rule, false)
                          else (dset "updatedAt" (PStr now) (dset "forwardMode" (PStr "router_native") rule), true) in
    if String.eqb protocol "TCP" && String.eqb (text_of (get rule "stunServer")) default_stun_udp_server
    then (dset "updatedAt" (PStr now) (dset "stunServer" (PStr (stun_server "TCP")) rule), true)
    else (rule, moded).

Definition migrate_legacy_tcp_server : hub S unit :=
  document ← stun_document;
  now ← utc_now;
  let migrated := List.map (migrated_rule now) (rd_rules document) in
  if existsb snd migrated then
    _ ← save_stun_rules (List.map fst migrated);
    for_each (fun rule => if truthy (get rule "enabled") && is_stun rule
                          then stun_queue "upsert" [("rule", PDict rule)] "" else mret tt) (List.map fst migrated)
  else mret tt.

(** [_allocated_port]: a port no STUN rule but the excluded one and no port mapping uses. *)
Definition allocated_port (protocol excluding : string) : hub S Z :=
  document ← stun_document;
  stun ← lift (used_ports protocol (List.filter (fun row => negb (String.eqb (rule_id row) excluding)) (rd_rules document)));
  rows ← load_portmap_rules;
  mapped ← lift (used_ports protocol rows);
  lift (free_port (stun ++ mapped)).

(** [clean_rule]; the id is drawn when the checks before it have passed. *)
Definition has_id (payload old : dict) : bool := nonempty (text_first [get payload "id"; get old "id"]).
Definition clean_rule (payload old : dict) : hub S dict :=
  _ ← lift (check_rule "stun-0" payload old);
  token ← (if has_id payload old then mret "" else uuid_hex E);
  c ← lift (check_rule ("stun-" +:+ py_take 12 token) payload old);
  was ← lift (int_or (get old "listenPort") 0);
  listen ← (if was =? 0 then allocated_port (ck_protocol c) (ck_id c) else mret was);
  now ← utc_now;
  lift (build_rule c listen (stun_server (ck_protocol c)) now payload old).

Definition stun_status_record : hub S dict := raw ← load_json "stun_router_status.json" (PDict []); mret (dict_or_empty raw).
Definition stun_runtime : hub S dict := record ← stun_status_record; lift (runtime_of_status record).

Definition stun_history : hub S dict := raw ← load_json "stun_address_history.json" (PDict []); mret (lists_of raw).
Definition remember_endpoint (id : string) (runtime : dict) : hub S unit :=
  let endpoint := text_of (get runtime "publicEndpoint") in
  if nonempty endpoint then
    history ← stun_history;
    mapped_at ← lift (int_or (get runtime "mappingUpdatedAt") 0);
    now ← epoch;
    save_json "stun_address_history.json"
      (PDict (dset id (PList (remembered now mapped_at endpoint (text_of (get runtime "transportProtocol"))
                                (list_or_empty (get history id)))) history))
  else mret tt.

Definition load_bindings (file : string) : hub S dict := raw ← load_json file (PDict []); mret (bindings_of raw).
Definition save_bindings (file : string) (rows : dict) : hub S unit :=
  now ← utc_now; save_json file (PDict [("updatedAt", PStr now); ("rules", PDict rows)]).
Definition firewall_file : string := "stun_firewall.json".
Definition native_file : string := "stun_native_portmap.json".
End Documents.

(** ** The router *)

Section Router.
Context {S R : Type} `{DocStore S} {tz : TimeZone} `{RouterClient R} `{RouterBatch R} `{Sha256} (E : env).

Definition rule_fingerprint (row : dict) : string := sha256 (dumps (PDict (ddel "uuid" (ddel "stats" row)))).

(** An empty dict counts as no row. *)
Definition present (o : option dict) : option dict := match o with Some [] => None | _ => o end.

(** [binding.get("fingerprint") and binding["fingerprint"] != fingerprint(row)]. *)
Definition edited (b row : dict) : bool :=
  truthy (get b "fingerprint") && negb (is_text (get b "fingerprint") (rule_fingerprint row)).

(** Record the result of a rule and answer it. *)
Definition bound (file id : string) (result recorded bindings : dict) : router_prog S R dict :=
  _ ← on_hub (save_bindings file (dset id (PDict recorded) bindings)); mret result.

Definition ready_mapping (name : string) (row : dict) : dict :=
  [("state", PStr "ready"); ("ruleName", PStr name); ("fingerprint", PStr (rule_fingerprint row))].

Definition ensure_native_mapping (rule : dict) : router_prog S R dict :=
  if negb (is_native_forward rule) then mret [("state", PStr "not_required")]
  else
    expected ← lift (expected_native_mapping rule);
    bindings ← on_hub (load_bindings native_file);
    let id := py_str (get rule "id") in
    let name := text_of (get expected "ruleName") in
    let b := binding id bindings in
    let failed message := let result := state_message "verify_failed" message in
                          bound native_file id result (dupdate b result) bindings in
    let ready row := let result := ready_mapping name row in bound native_file id result result bindings in
    current ← native_port_mapping;
    match find_native_mapping current name with
    | Some existing =>
        if edited b existing then
          let result := state_message "manual_change" "已检测到路由器端口映射被手动修改" in
          bound native_file id result (dupdate b result) bindings
        else if matches_row existing expected then ready existing
        else
          verified ← write_and_verify "native-portmap"
            (call "devConfig.update" "port_mapping" (PDict [("old", PDict existing); ("new", PDict expected)])) native_port_mapping;
          match find_native_mapping verified name with
          | Some row => if matches_row row expected then ready row else failed "路由器端口映射更新后未能确认"
          | None => failed "路由器端口映射更新后未能确认"
          end
    | None =>
        verified ← write_and_verify "native-portmap"
          (call "devConfig.add" "port_mapping" (PDict [("list", PList [PDict expected])])) native_port_mapping;
        match find_native_mapping verified name with
        | Some row => if matches_row row expected then ready row else failed "路由器端口映射创建后未能确认"
        | None => failed "路由器端口映射创建后未能确认"
        end
    end.

Definition remove_native_mapping (id : string) : router_prog S R unit :=
  bindings ← on_hub (load_bindings native_file);
  let b := binding id bindings in
  if negb (truthy (PDict b)) then mret tt
  else
    current ← native_port_mapping;
    let row := present (find_native_mapping current (text_of (get b "ruleName"))) in
    _ ← (match row with
         | Some row =>
             if is_text (get b "fingerprint") (rule_fingerprint row) then
               write_and_verify "native-portmap"
                 (call "devConfig.del" "port_mapping" (PDict [("ruleName", PList [PStr (text_of (get row "ruleName"))])])) native_port_mapping
             else lift (raise_value_error "路由器端口映射已被手动修改；为避免误删，未停止穿透")
         | None => mret []
         end);
    on_hub (save_bindings native_file (ddel id bindings)).

Definition ready_firewall (row : dict) : dict :=
  [("state", PStr "ready"); ("uuid", PStr (text_of (get row "uuid"))); ("fingerprint", PStr (rule_fingerprint row))].
Definition firewall_binding (row : dict) : dict :=
  [("uuid", PStr (text_of (get row "uuid"))); ("fingerprint", PStr (rule_fingerprint row))].

Definition table_full (current : dict) (rows : list pyval) : result bool :=
  max_len ← int_or (get current "maxLen") 20;
  mret (negb (max_len =? 0) && (max_len <=? Z.of_nat (List.length rows))).

Definition ensure_firewall (rule : dict) : router_prog S R dict :=
  expected ← lift (expected_firewall rule);
  bindings ← on_hub (load_bindings firewall_file);
  let id := py_str (get rule "id") in
  let b := binding id bindings in
  current ← firewall;
  rows ← lift (firewall_list current);
  let existing := present (find_firewall (text_of (get b "uuid")) rows) in
  let foreign := List.find (fun row => String.eqb (text_of (get row "ruleName")) (text_of (get expected "ruleName"))) rows in
  match existing, is_lan_forward rule, foreign with
  | None, true, Some _ => mret (state_message "manual_change" "检测到同名但不属于 WireGuard 的防火墙规则，未接管")
  | Some row, _, _ =>
      if edited b row then mret (state_message "manual_change" "已检测到防火墙规则被手动修改")
      else if negb (matches_row row expected) then mret (state_message "verify_failed" "防火墙规则回读与穿透规则不一致")
      else bound firewall_file id (ready_firewall row) (firewall_binding row) bindings
  | None, _, _ =>
      full ← lift (table_full current (list_or_empty (get current "list")));
      if full : bool then mret (state_message "full" "路由器防火墙规则已满")
      else
        verified ← write_and_verify "firewall"
          (call "devConfig.add" "ip_firewall" (PDict [("list", PList [PDict expected])])) firewall;
        rows ← lift (firewall_list verified);
        match List.find (fun row => matches_row row expected) rows with
        | Some row => if nonempty (text_of (get row "uuid")) then bound firewall_file id (ready_firewall row) (firewall_binding row) bindings
                      else mret (state_message "verify_failed" "防火墙规则创建后未能确认")
        | None => mret (state_message "verify_failed" "防火墙规则创建后未能确认")
        end
  end.

Definition remove_firewall (id : string) : router_prog S R unit :=
  bindings ← on_hub (load_bindings firewall_file);
  let b := binding id bindings in
  if negb (truthy (PDict b)) then mret tt
  else
    current ← firewall;
    rows ← lift (firewall_list current);
    _ ← (match present (find_firewall (text_of (get b "uuid")) rows) with
         | Some row =>
             if is_text (get b "fingerprint") (rule_fingerprint row) then
               write_and_verify "firewall"
                 (call "devConfig.del" "ip_firewall" (PDict [("uuid", PList [PStr (text_of (get row "uuid"))])])) firewall
             else mret []
         | None => mret []
         end);
    on_hub (save_bindings firewall_file (ddel id bindings)).

(** ** The handlers *)

Definition bound_state (b : dict) (key : string) : string :=
  str_or (text_of (get b "state")) (if truthy (get b key) then "ready" else "pending").

(** The state shown for a rule: the router has to forward before a mapped channel counts. *)
Definition actual_state (native : bool) (actual native_state firewall_state : string) : string :=
  if native && String.eqb actual "mapped" && negb (String.eqb native_state "ready")
  then (if str_in native_state ["pending"; ""] then "router_mapping" else "router_mapping_error")
  else if negb native && String.eqb actual "mapped" && negb (String.eqb firewall_state "ready")
       then (if str_in firewall_state ["pending"; ""] then "mapping" else "firewall_error") else actual.

Definition shown_rule (runtime firewall_bindings native_bindings rule : dict) : result dict :=
  id ← item rule "id";
  let id := py_str id in
  let current := dict_or_empty (get runtime id) in
  let native_state := bound_state (binding id native_bindings) "fingerprint" in
  let firewall_state := if is_native_forward rule then "not_required" else bound_state (binding id firewall_bindings) "uuid" in
  mret (dupdate rule
    [("runtime", PDict current);
     ("actualState", PStr (actual_state (is_native_forward rule) (text_of (get current "state")) native_state firewall_state));
     ("firewallState", PStr firewall_state); ("nativeMappingState", PStr native_state)]).

Definition stun_rows : hub S (list dict) :=
  runtime ← stun_runtime;
  firewall_bindings ← load_bindings firewall_file;
  native_bindings ← load_bindings native_file;
  document ← stun_document;
  lift (result_map (shown_rule runtime firewall_bindings native_bindings) (rd_rules document)).

Definition stun_get (q : request) : hub S response :=
  allowed ← lift (check_read_token E q);
  if negb allowed then mret unauthorized
  else
    doc ← stun_document;
    status ← stun_status_record;
    rows ← stun_rows;
    now ← epoch;
    received ← lift (int_or (get status "receivedEpoch") 0);
    mret (Response 200 (PDict
      [("ok", PBool true); ("rules", PList (List.map PDict rows)); ("revision", PInt (rd_revision doc));
       ("rulesUpdatedAt", PStr (rd_updated doc)); ("portRange", PDict [("min", PInt 20000); ("max", PInt 20020)]);
       ("agentOnline", PBool (now - received <=? 35)); ("agentLastSeenAt", PStr (text_of (get status "receivedAt")))])).

(** [if mapping.get("state") != "ready": raise ValueError(...)]. *)
Definition require_ready (mapping : dict) : result unit :=
  if state_is mapping "ready" then Ok tt
  else raise_value_error (str_or (text_of (get mapping "message")) "路由器端口映射未就绪").
Definition ensured (rule : dict) : router_prog S R unit := mapping ← ensure_native_mapping rule; lift (require_ready mapping).

(** [except Exception as error: return jsonify({"ok": False, "error": str(error)}), status]. *)
Definition or_error (status : Z) (m : router_prog S R response) : router_prog S R response :=
  try_except m (fun e => mret (error_response status (exn_msg e))).

(** The dict methods of a JSON body. *)
Definition body_dict (v : pyval) : result dict := match v with PDict d => Ok d | _ => attribute_error v "get" end.
Definition assign_item (v : pyval) (k : string) (x : pyval) : result dict :=
  match v with
  | PDict d => Ok (dset k x d)
  | PList _ => Err (Exn "TypeError" "list indices must be integers or slices, not str")
  | _ => Err (Exn "TypeError" ("'" +:+ type_name v +:+ "' object does not support item assignment"))
  end.

Definition stun_post (q : request) : router_prog S R response :=
  if negb (check_app_token E q) then mret unauthorized
  else or_error 400
    (payload ← lift (body_dict (json_body q));
     rule ← on_hub (clean_rule E payload []);
     _ ← (if truthy (get rule "enabled") && is_native_forward rule then ensured rule else mret tt);
     doc ← on_hub stun_document;
     _ ← on_hub (save_stun_rules (rd_rules doc ++ [rule]));
     _ ← on_hub (stun_queue E "upsert" [("rule", PDict rule)] "");
     mret (Response 201 (PDict [("ok", PBool true); ("rule", PDict rule)]))).

Definition rule_not_found : response := error_response 404 "rule not found".
Definition find_stun_rule (id : string) (rows : list dict) : option dict := List.find (fun row => String.eqb (rule_id row) id) rows.
Definition replace_rule (id : string) (rule : dict) (rows : list dict) : list dict :=
  List.map (fun row => if String.eqb (rule_id row) id then rule else row) rows.
Definition other_rules (id : string) (rows : list dict) : list dict :=
  List.filter (fun row => negb (String.eqb (rule_id row) id)) rows.

Definition stun_delete (q : request) (id : string) : router_prog S R response :=
  if negb (check_app_token E q) then mret unauthorized
  else
    doc ← on_hub stun_document;
    match find_stun_rule id (rd_rules doc) with
    | None => mret rule_not_found
    | Some old =>
        if negb (truthy (PDict old)) then mret rule_not_found
        else
          cleaned ← try_except (_ ← remove_native_mapping id; _ ← remove_firewall id; mret None)
                               (fun e => mret (Some (error_response 409 (exn_msg e))));
          match cleaned with
          | Some refused => mret refused
          | None =>
              _ ← on_hub (save_stun_rules (other_rules id (rd_rules doc)));
              _ ← on_hub (stun_queue E "delete" [("id", PStr id)] "");
              mret (Response 200 (PDict [("ok", PBool true); ("id", PStr id); ("deleted", PBool true); ("cleanupError", PStr "")]))
          end
    end.

Definition stun_put (q : request) (id : string) : router_prog S R response :=
  if negb (check_app_token E q) then mret unauthorized
  else
    doc ← on_hub stun_document;
    match find_stun_rule id (rd_rules doc) with
    | None => mret rule_not_found
    | Some old =>
        if negb (truthy (PDict old)) then mret rule_not_found
        else or_error 400
          (payload ← lift (assign_item (json_body q) "id" (PStr id));
           rule ← on_hub (clean_rule E payload old);
           _ ← (if is_native_forward rule then
                  _ ← (if truthy (get rule "enabled") then ensured rule else remove_native_mapping id);
                  remove_firewall id
                else if is_native_forward old then remove_native_mapping id else mret tt);
           _ ← on_hub (save_stun_rules (replace_rule id rule (rd_rules doc)));
           _ ← on_hub (stun_queue E "upsert" [("rule", PDict rule)] "");
           mret (Response 200 (PDict [("ok", PBool true); ("rule", PDict rule)])))
    end.

Definition stun_action (q : request) (id action : string) : router_prog S R response :=
  if negb (check_app_token E q) then mret unauthorized
  else if negb (str_in action ["start"; "stop"]) then mret (error_response 400 "invalid action")
  else
    doc ← on_hub stun_document;
    match find_stun_rule id (rd_rules doc) with
    | None => mret rule_not_found
    | Some rule =>
        if negb (truthy (PDict rule)) then mret rule_not_found
        else
          let start := String.eqb action "start" in
          prepared ← try_except
            (_ ← (if is_native_forward rule then (if start then ensured rule else remove_native_mapping id) else mret tt); mret None)
            (fun e => mret (Some (error_response 409 (exn_msg e))));
          match prepared with
          | Some refused => mret refused
          | None =>
              now ← on_hub utc_now;
              let rule := dset "updatedAt" (PStr now) (dset "enabled" (PBool start) rule) in
              _ ← on_hub (save_stun_rules (replace_rule id rule (rd_rules doc)));
              _ ← on_hub (if start then stun_queue E "upsert" [("rule", PDict rule)] "" else stun_queue E "stop" [("id", PStr id)] "");
              _ ← (if negb start && negb (is_native_forward rule) then try_except (remove_firewall id) (fun _ => mret tt) else mret tt);
              mret (Response 200 (PDict [("ok", PBool true); ("rule", PDict rule); ("action", PStr action)]))
          end
    end.

Definition stun_addresses (q : request) (id : string) : hub S response :=
  allowed ← lift (check_read_token E q);
  if negb allowed then mret unauthorized
  else
    history ← stun_history;
    mret (Response 200 (PDict [("ok", PBool true); ("id", PStr id); ("addresses", PList (firstn 3 (list_or_empty (get history id))))])).

(** [_text(request.args.get("router")) or service._router_name()]. *)
Definition router_arg (q : request) : hub S string :=
  if nonempty (strip (arg q "router")) then mret (strip (arg q "router")) else stun_router_name E.

Definition stun_agent_commands (q : request) : hub S response :=
  if negb (check_hook_token E q) then mret bad_hook_token
  else
    router ← router_arg q;
    wanted ← lift (int_or (arg_value q "limit") 20);
    out ← poll_queue stun_queue_file stun_due stun_keys router (Z.to_nat (clamp 1 50 wanted));
    mret (Response 200 (PDict [("ok", PBool true); ("commands", PList (List.map PDict out))])).

Definition stun_agent_ack (q : request) : hub S response :=
  if negb (check_hook_token E q) then mret bad_hook_token
  else
    acks ← lift (vget_or (json_body q) "acks" (PList []));
    n ← ack_queue stun_queue_file (list_or_empty acks);
    mret (Response 200 (PDict [("ok", PBool true); ("acknowledged", PInt n)])).

(** One enabled rule of a report: the mapping or the firewall entry of its channel; the bindings
    of the firewall are the copy read when the report came in. *)
Definition settle_rule (runtime rule firewall_bindings : dict) : router_prog S R dict :=
  id ← lift (item rule "id");
  let id := py_str id in
  let current := dict_or_empty (get runtime id) in
  _ ← on_hub (remember_endpoint id current);
  if truthy (get rule "enabled") && is_native_forward rule then
    _ ← try_except (_ ← ensure_native_mapping rule; mret tt)
          (fun e => native ← on_hub (load_bindings native_file);
                    on_hub (save_bindings native_file
                      (dset id (PDict (dupdate (binding id native) (state_message "error" (exn_msg e)))) native)));
    _ ← try_except (remove_firewall id) (fun _ => mret tt);
    mret firewall_bindings
  else if truthy (get rule "enabled") && String.eqb (text_of (get current "state")) "mapped" then
    result ← try_except (ensure_firewall rule) (fun e => mret (state_message "error" (exn_msg e)));
    mret (dset id (PDict (dupdate (binding id firewall_bindings) result)) firewall_bindings)
  else mret firewall_bindings.

Fixpoint settle_rules (runtime : dict) (rules : list dict) (firewall_bindings : dict) : router_prog S R dict :=
  match rules with
  | [] => mret firewall_bindings
  | rule :: rules' => b ← settle_rule runtime rule firewall_bindings; settle_rules runtime rules' b
  end.

(** [{rule["id"]: rule for rule in rules}]. *)
Definition desired_rules (rules : list dict) : result dict :=
  rows ← result_map (fun rule => id ← item rule "id"; mret (py_str id, PDict rule)) rules; mret (dict_of rows).

(** The commands a report leads to; the ids to delete come from a set, whose order is arbitrary:
    here it is the order of the report. *)
Definition wanted_rules (desired local : dict) : list dict :=
  omap (fun kv => match kv.2 with
                  | PDict rule => match get local kv.1 with
                                  | PDict row => if rule_differs row rule then Some rule else None
                                  | _ => Some rule
                                  end
                  | _ => None
                  end) desired.
Definition unwanted_rules (desired local : dict) : list string := List.filter (fun id => negb (has desired id)) (keys local).

Definition stun_agent_status (q : request) : router_prog S R response :=
  if negb (check_hook_token E q) then mret bad_hook_token
  else
    let payload := json_body q in
    router ← on_hub (router_arg q);
    received_at ← on_hub utc_now;
    now ← on_hub epoch;
    _ ← on_hub (save_json "stun_router_status.json" (PDict
      [("router", PStr router); ("receivedAt", PStr received_at); ("receivedEpoch", PInt now); ("status", payload)]));
    runtime ← on_hub stun_runtime;
    firewall_bindings ← on_hub (load_bindings firewall_file);
    document ← on_hub stun_document;
    desired ← lift (desired_rules (rd_rules document));
    reported ← lift (vget payload "rules");
    let local := local_rules reported in
    _ ← on_hub (for_each (fun rule => stun_queue E "upsert" [("rule", PDict rule)] router) (wanted_rules desired local));
    _ ← on_hub (for_each (fun id => stun_queue E "delete" [("id", PStr id)] router) (unwanted_rules desired local));
    bindings ← settle_rules runtime (rd_rules document) firewall_bindings;
    _ ← on_hub (save_bindings firewall_file bindings);
    mret (Response 200 (PDict [("ok", PBool true); ("receivedAt", PStr received_at)])).
End Router.
