(* ===== verification/StunFacts.v ===== *)
(** * Facts about the STUN service

    The rules it accepts and the ports it gives out, the commands of the Agent, the history of
    endpoints, the router rules it may touch, and what a report can bring back. *)

From S2P Require Import Prelude PyNum PyVal PyIp PyTime HubValues Json Storage Hub Services AgentQueue AgentCmd PortMap RouterRpc RouterSite Stun StunService Fixtures.

(** ** Running programs of the Hub *)

Lemma result_map_in {A B} (f : A -> result B) l ys y :
  result_map f l = Ok ys -> In y ys <-> exists x, In x l /\ f x = Ok y.
Proof.
  revert ys. induction l as [|x l IH]; intros ys; cbn; [intros [= <-]; split; [done|by intros (? & [] & _)]|].
  destruct (f x) as [z|] eqn:Ez; [|done]. destruct (result_map f l) as [zs|]; [|done]. intros [= <-].
  cbn. rewrite (IH zs eq_refl). split.
  - intros [<-|(x' & Hin & Hx)]; [by exists x; split; [left|]|exists x'; by split; [right|]].
  - intros (x' & [<-|Hin] & Hx); [left; congruence|right; eauto].
Qed.

(** ** Ports *)

Lemma port_pool_in p : In p port_pool <-> 20000 <= p <= 20020.
Proof.
  unfold port_pool. rewrite List.in_map_iff. split.
  - intros (i & <- & Hi%List.in_seq). lia.
  - intros Hp. exists (Z.to_nat (p - 20000)). split; [lia|]. apply List.in_seq. lia.
Qed.

Lemma used_spec used p : existsb (Z.eqb p) used = true <-> In p used.
Proof. rewrite List.existsb_exists. split; [by intros (x & Hin & ->%Z.eqb_eq)|intros Hin; exists p; by rewrite Z.eqb_refl]. Qed.

(** The first element of an increasing run that satisfies a test is the least one. *)
Lemma find_first f start n p :
  List.find f (List.map (fun i => 20000 + Z.of_nat i) (seq start n)) = Some p ->
  f p = true /\ forall q, 20000 + Z.of_nat start <= q < p -> f q = false.
Proof.
  revert start. induction n as [|n IH]; intros start; cbn; [done|].
  destruct (f (20000 + Z.of_nat start)) eqn:Ef.
  - intros [= <-]. split; [done|]. lia.
  - intros H. destruct (IH _ H) as [Hp Hq]. split; [done|]. intros q Hr.
    destruct (decide (q = 20000 + Z.of_nat start)) as [->|]; [done|]. apply Hq. lia.
Qed.

Lemma free_port_least used p :
  free_port used = Ok p -> 20000 <= p <= 20020 /\ ~ In p used /\ forall q, 20000 <= q < p -> In q used.
Proof.
  unfold free_port. destruct (List.find _ port_pool) as [x|] eqn:Ef; [|done]. intros [= ->].
  pose proof (List.find_some _ _ Ef) as [Hin%port_pool_in _]. apply find_first in Ef as [Hp Hq].
  split; [done|]. rewrite negb_true_iff, <- not_true_iff_false, used_spec in Hp. split; [done|].
  intros q Hr. apply used_spec, negb_false_iff, Hq. lia.
Qed.

Lemma free_port_full used e : free_port used = Err e -> forall p, 20000 <= p <= 20020 -> In p used.
Proof.
  unfold free_port. destruct (List.find _ port_pool) eqn:Ef; [done|]. intros _ p Hp.
  apply used_spec, negb_false_iff. apply (List.find_none _ _ Ef). by apply port_pool_in.
Qed.

Lemma used_ports_in protocol rows ports p :
  used_ports protocol rows = Ok ports ->
  In p ports <-> exists row, In row rows /\ protocol_of row = protocol /\ int_or (get row "listenPort") 0 = Ok p.
Proof.
  intros Hu. rewrite (result_map_in _ _ _ _ Hu). split.
  - intros (row & [Hin Hp%String.eqb_eq]%List.filter_In & Hx). eauto.
  - intros (row & Hin & Hp & Hx). exists row. split; [|done]. apply List.filter_In. by rewrite Hp, String.eqb_refl.
Qed.

Section Ports.
Context {S : Type} `{DocStore S} {tz : TimeZone} (E : env).

(** A row of a protocol that holds a port. *)
Definition holds (protocol : string) (p : Z) (row : dict) : Prop :=
  protocol_of row = protocol /\ int_or (get row "listenPort") 0 = Ok p.

(** The rows that compete for a port: the STUN rules but the excluded one, and the port mappings. *)
Definition competitors (excluding : string) (stun mapped : list dict) (row : dict) : Prop :=
  (In row stun /\ rule_id row <> excluding) \/ In row mapped.

Lemma stun_document_pure w : exists r, stun_document w = (r, w).
Proof. unfold stun_document. rewrite prog_bind_eq. cbn. by eexists. Qed.

(** C21. The port of a new rule is the least one of the pool that no other STUN rule and no port
    mapping of the same protocol listens on, and a rule is refused only when all are taken. *)
Theorem allocated_port_is_least_free protocol excluding (w : world S) doc mapped r w' :
  stun_document w = (Ok doc, w) -> load_portmap_rules w = (Ok mapped, w) ->
  allocated_port protocol excluding w = (r, w') ->
  (forall row, competitors excluding (rd_rules doc) mapped row -> is_ok (int_or (get row "listenPort") 0) = true) ->
  let taken p := exists row, competitors excluding (rd_rules doc) mapped row /\ holds protocol p row in
  w' = w /\ match r with
            | Ok p => 20000 <= p <= 20020 /\ ~ taken p /\ forall q, 20000 <= q < p -> taken q
            | Err _ => forall p, 20000 <= p <= 20020 -> taken p
            end.
Proof.
  intros Hdoc Hmap H0 Hok. cbv zeta. revert H0. unfold allocated_port. rewrite prog_bind_eq, Hdoc, prog_bind_eq. cbn [lift].
  set (others := List.filter _ (rd_rules doc)).
  assert (forall protocol rows, (forall row, In row rows -> is_ok (int_or (get row "listenPort") 0) = true) ->
            exists ports, used_ports protocol rows = Ok ports) as Htotal.
  { clear. intros protocol rows Hrows. unfold used_ports. induction rows as [|row rows IH]; [by eexists|].
    destruct IH as [ports Hp]; [intros ? ?; apply Hrows; by right|]. cbn. destruct (String.eqb _ _); [|by eexists].
    cbn. specialize (Hrows row (or_introl eq_refl)). destruct (int_or _ _); [|done]. rewrite Hp. by eexists. }
  assert (forall row, In row others <-> In row (rd_rules doc) /\ rule_id row <> excluding) as Hothers.
  { intros row. unfold others. rewrite List.filter_In, negb_true_iff, String.eqb_neq. done. }
  destruct (Htotal protocol others) as [ports1 H1]; [intros row Hin; apply Hok; left; by apply Hothers|].
  destruct (Htotal protocol mapped) as [ports2 H2]; [intros row Hin; apply Hok; by right|].
  rewrite H1, prog_bind_eq, Hmap, prog_bind_eq. cbn [lift]. rewrite H2. intros [= <- <-]. split; [done|].
  assert (forall p, In p (ports1 ++ ports2) <-> exists row, competitors excluding (rd_rules doc) mapped row /\ holds protocol p row) as Hin.
  { intros p. rewrite List.in_app_iff, (used_ports_in _ _ _ _ H1), (used_ports_in _ _ _ _ H2). unfold competitors, holds. split.
    - intros [(row & Hr%Hothers & ? & ?)|(row & ? & ? & ?)]; exists row; tauto.
    - intros (row & [Hr|Hr] & ? & ?); [left|right]; exists row; rewrite ?Hothers; tauto. }
  destruct (free_port (ports1 ++ ports2)) as [p|e] eqn:Ef.
  - apply free_port_least in Ef as (Hp & Hn & Hq). split; [done|]. rewrite <- Hin. split; [done|]. intros q ?. by apply Hin, Hq.
  - intros p Hp. apply Hin. by eapply free_port_full.
Qed.
End Ports.

(** ** Accepted rules *)

Lemma find_template_in service : In (find_template service) service_templates.
Proof.
  unfold find_template. destruct (List.find _ service_templates) as [kv|] eqn:Ef; [by apply List.find_some in Ef as [? _]|]. cbn. tauto.
Qed.

Lemma check_target_ok target : check_target target = Ok tt ->
  exists a, ip_of_str target = Some a /\ ip_version a = 4 /\ is_private a || is_loopback a || is_link_local a = true.
Proof.
  unfold check_target. destruct (ip_of_str target) as [a|]; [|done].
  destruct (_ && _) eqn:E; [|done]. intros _. apply andb_prop in E as [Hv Hp]. apply Z.eqb_eq in Hv. eauto.
Qed.

Record checked_ok (c : checked) : Prop := {
  ok_service : exists t, In (ck_service c, t) service_templates /\ In (ck_protocol c) (tp_protocols t);
  ok_target : exists a, ip_of_str (ck_target c) = Some a /\ ip_version a = 4 /\ is_private a || is_loopback a || is_link_local a = true;
  ok_port : 1 <= ck_port c <= 65535;
  ok_id : id_ok (ck_id c) = true;
}.

Lemma check_rule_ok fresh payload old c : check_rule fresh payload old = Ok c -> checked_ok c.
Proof.
  unfold check_rule. pose proof (find_template_in (text_first [get payload "serviceType"; get old "serviceType"; PStr "Custom"])) as Ht.
  destruct (find_template _) as [service template]. cbv zeta.
  set (protocol := upper _). destruct (str_in protocol _) eqn:Ep; [|done]. cbn [negb].
  set (target := text_first _). intros ([] & Hc & (old_port & _ & (port & _ & H)%result_bind_ok)%result_bind_ok)%result_bind_ok.
  apply check_target_ok in Hc. destruct (_ && _) eqn:Er; [|done]. cbn [negb] in H. revert H. set (id := str_or _ _).
  destruct (id_ok id) eqn:Ei; [|done]. intros [= <-]. apply andb_prop in Er as [H1%Z.leb_le H2%Z.leb_le].
  constructor; cbn; [|done|done|done]. exists template. split; [done|]. by apply str_in_spec.
Qed.

Lemma clamp_bounds lo hi n : lo <= hi -> lo <= clamp lo hi n <= hi.
Proof. unfold clamp. lia. Qed.

Lemma bounded_ok k lo hi dflt payload old n : lo <= hi -> bounded k lo hi dflt payload old = Ok n -> lo <= n <= hi.
Proof.
  intros Hb. unfold bounded. intros (was & _ & (m & _ & [= <-])%result_bind_ok)%result_bind_ok. by apply clamp_bounds.
Qed.

(** What every stored rule promises. *)
Record rule_valid (rule : dict) : Prop := {
  rv_kind : get rule "kind" = PStr "stun" /\ get rule "forwardMode" = PStr "router_native";
  rv_service : exists s p t, get rule "serviceType" = PStr s /\ get rule "transportProtocol" = PStr p
                             /\ In (s, t) service_templates /\ In p (tp_protocols t);
  rv_target : exists s a, get rule "targetIpv4" = PStr s /\ ip_of_str s = Some a /\ ip_version a = 4
                          /\ is_private a || is_loopback a || is_link_local a = true;
  rv_port : exists n, get rule "targetPort" = PInt n /\ 1 <= n <= 65535;
  rv_id : exists s, get rule "id" = PStr s /\ id_ok s = true;
  rv_name : exists s, get rule "name" = PStr s /\ py_len s <= 64;
  rv_enabled : exists b, get rule "enabled" = PBool b;
  rv_connections : exists n, get rule "maxConnections" = PInt n /\ 1 <= n <= 256;
  rv_idle : exists n, get rule "idleTimeoutSec" = PInt n /\ 30 <= n <= 3600;
}.

Lemma build_rule_ok c listen server now payload old rule :
  checked_ok c -> build_rule c listen server now payload old = Ok rule ->
  rule_valid rule /\ get rule "listenPort" = PInt listen /\ get rule "id" = PStr (ck_id c)
  /\ get rule "transportProtocol" = PStr (ck_protocol c).
Proof.
  intros [(t & Ht & Hp) (a & Ha & Hv & Hl) Hport Hid]. unfold build_rule. cbv zeta. set (name := str_or _ _).
  destruct (64 <? py_len name) eqn:En; [done|]. apply Z.ltb_ge in En.
  intros (conn & Hc & (idle & Hi & [= <-])%result_bind_ok)%result_bind_ok.
  apply bounded_ok in Hc, Hi; [|lia..]. split; [|done]. constructor; cbn.
  - done.
  - by exists (ck_service c), (ck_protocol c), t.
  - by exists (ck_target c), a.
  - by exists (ck_port c).
  - by exists (ck_id c).
  - by exists name.
  - by eexists.
  - by exists conn.
  - by exists idle.
Qed.

Section Rules.
Context {S : Type} `{DocStore S} {tz : TimeZone} (E : env).

(** Every rule that is accepted, new or changed, names a known service and a transport it
    supports, targets a port of a private IPv4 address, keeps its listening port or gets one of the
    pool, and has its name, its id and its limits in range. *)
Theorem accepted_rule_is_valid payload old (w w' : world S) rule :
  clean_rule E payload old w = (Ok rule, w') ->
  rule_valid rule /\ exists listen, get rule "listenPort" = PInt listen
    /\ (int_or (get old "listenPort") 0 = Ok listen /\ listen <> 0 \/ 20000 <= listen <= 20020).
Proof.
  unfold clean_rule. intros (c0 & w0 & _ & H0)%prog_bind_ok.
  apply prog_bind_ok in H0 as (token & w1 & _ & H0). apply prog_bind_ok in H0 as (c & w2 & Hc & H0).
  assert (check_rule ("stun-" +:+ py_take 12 token) payload old = Ok c) as Hck by (by injection Hc). apply check_rule_ok in Hck.
  apply prog_bind_ok in H0 as (was & w3 & Hwas & H0). assert (int_or (get old "listenPort") 0 = Ok was) as Hold by (by injection Hwas).
  apply prog_bind_ok in H0 as (listen & w4 & Hl & H0). apply prog_bind_ok in H0 as (now & w5 & _ & H0).
  assert (build_rule c listen (stun_server E (ck_protocol c)) now payload old = Ok rule) as Hb by (by injection H0).
  apply build_rule_ok in Hb as (Hv & Hlp & _ & _); [|done]. split; [done|]. exists listen. split; [done|].
  destruct (Z.eqb_spec was 0) as [->|Hne]; [right|left; by simplify_eq/=; injection Hl as <- _].
  unfold allocated_port in Hl. apply prog_bind_ok in Hl as (doc & w6 & _ & Hl). apply prog_bind_ok in Hl as (u & w7 & _ & Hl).
  apply prog_bind_ok in Hl as (rows & w8 & _ & Hl). apply prog_bind_ok in Hl as (m & w9 & _ & Hl).
  assert (free_port (u ++ m) = Ok listen) as Hf by (by injection Hl). by apply free_port_least in Hf as [? _].
Qed.
End Rules.

(** ** The history of public endpoints *)

Definition endpoint_of (v : pyval) : string := text_of (get (dict_or_empty v) "endpoint").

Fixpoint changes_only (l : list string) : Prop :=
  match l with a :: l' => match l' with b :: _ => a <> b | [] => True end /\ changes_only l' | [] => True end.

Lemma changes_only_firstn n l : changes_only l -> changes_only (firstn n l).
Proof.
  revert n. induction l as [|a l IH]; intros [|n]; cbn; try done. intros [Ha Hl]. split; [|by apply IH].
  destruct l, n; try done.
Qed.

Lemma filter_dicts l : List.Forall (fun v => is_dict v = true) l -> List.filter is_dict l = l.
Proof. induction 1 as [|v l Hv _ IH]; cbn; [done|]. by rewrite Hv, IH. Qed.

(** The history of a rule holds its last three endpoints, newest first and without immediate
    repetition: an endpoint that differs from the newest one goes in front, the same one again
    changes nothing. *)
Theorem history_holds_last_changes now mapped_at endpoint protocol rows :
  strip endpoint = endpoint -> List.Forall (fun v => is_dict v = true) rows -> changes_only (List.map endpoint_of rows) ->
  let rows' := remembered now mapped_at endpoint protocol rows in
  List.map endpoint_of rows' = firstn 3 (match List.map endpoint_of rows with
                                         | e :: es => if String.eqb e endpoint then e :: es else endpoint :: e :: es
                                         | [] => [endpoint]
                                         end)
  /\ List.Forall (fun v => is_dict v = true) rows' /\ changes_only (List.map endpoint_of rows').
Proof.
  intros Hstrip Hd Hc. unfold remembered. rewrite filter_dicts by done.
  set (entry := PDict [("endpoint", PStr endpoint); _; _]).
  assert (endpoint_of entry = endpoint) as He by (unfold endpoint_of, entry; cbn [dict_or_empty get dget String.eqb Ascii.eqb Bool.eqb default from_option id]; by rewrite text_of_str).
  assert (List.Forall (fun v => is_dict v = true) (entry :: rows)) as Hd' by (by constructor). clearbody entry.
  assert (forall l, List.Forall (fun v => is_dict v = true) l -> List.Forall (fun v => is_dict v = true) (firstn 3 l)) as Hfirst.
  { intros l. rewrite !List.Forall_forall. intros Hl v Hin. apply Hl. rewrite <- (firstn_skipn 3 l). apply in_or_app. by left. }
  assert (forall l, List.map endpoint_of (firstn 3 l) = firstn 3 (List.map endpoint_of l)) as Hmap by (intros l; by rewrite firstn_map).
  destruct rows as [|v rows]; cbv zeta; [rewrite Hmap; cbn [List.map]; rewrite He; split; [done|]; by split; [apply Hfirst|]|].
  destruct v as [| | | | | |r]; try by apply List.Forall_inv in Hd.
  change (text_of (get r "endpoint")) with (endpoint_of (PDict r)). rewrite Hmap. cbn [List.map] in *.
  destruct (String.eqb_spec (endpoint_of (PDict r)) endpoint) as [Heq|Hne].
  - split; [done|]. split; [by apply Hfirst|]. by apply changes_only_firstn.
  - cbn [List.map]. rewrite He. split; [done|]. split; [by apply Hfirst|]. apply changes_only_firstn. by split.
Qed.

(** ** Witnesses *)

Definition taken_rules : list dict := [[("id", PStr "a"); ("transportProtocol", PStr "TCP"); ("listenPort", PInt 20000)]].
Definition taken_world : world store := run (save_stun_rules taken_rules) demo_world.
Definition taken_doc : rules_doc := Eval vm_compute in catch (stun_document taken_world).1 (RulesDoc 0 "" []).

Lemma allocated_port_is_least_free_witness :
  let taken p := exists row, competitors "b" (rd_rules taken_doc) [] row /\ holds "TCP" p row in
  taken_world = taken_world /\ (20000 <= 20001 <= 20020 /\ ~ taken 20001 /\ forall q, 20000 <= q < 20001 -> taken q).
Proof.
  apply (allocated_port_is_least_free "TCP" "b" taken_world taken_doc [] (Ok 20001) taken_world).
  - vm_compute. reflexivity.
  - vm_compute. reflexivity.
  - vm_compute. reflexivity.
  - intros row [[[<-|[]] _]|[]]. reflexivity.
Defined.

Definition ssh_payload : dict := [("name", PStr "shell"); ("serviceType", PStr "SSH"); ("targetIpv4", PStr "192.168.1.20")].
Definition ssh_rule : dict := Eval vm_compute in catch (clean_rule demo_env ssh_payload [] demo_world).1 [].

Lemma accepted_rule_is_valid_witness :
  rule_valid ssh_rule /\ exists listen, get ssh_rule "listenPort" = PInt listen
    /\ (int_or (get [] "listenPort") 0 = Ok listen /\ listen <> 0 \/ 20000 <= listen <= 20020).
Proof.
  apply (accepted_rule_is_valid demo_env ssh_payload [] demo_world (snd (clean_rule demo_env ssh_payload [] demo_world)) ssh_rule).
  vm_compute. reflexivity.
Defined.

Definition one_endpoint : list pyval := [PDict [("endpoint", PStr "203.0.113.7:20000")]].
Lemma history_holds_last_changes_witness :
  let rows' := remembered 1700000000 0 "203.0.113.8:20000" "TCP" one_endpoint in
  List.map endpoint_of rows' = firstn 3 ["203.0.113.8:20000"; "203.0.113.7:20000"]
  /\ List.Forall (fun v => is_dict v = true) rows' /\ changes_only (List.map endpoint_of rows').
Proof. apply (history_holds_last_changes 1700000000 0 "203.0.113.8:20000" "TCP" one_endpoint); [reflexivity|by repeat constructor|by cbn]. Defined.
