(* ===== verification/StunQueueFacts.v ===== *)
(** * The command queue of the STUN service

    The commands of a router name the rule they are about, and a router has at most one open
    command for an action on a rule, whatever orders, polls and acknowledgements come. *)

From S2P Require Import Prelude PyNum PyVal PyIp PyTime HubValues Json Storage Hub Services AgentQueue AgentQueueFacts AgentCmd PortMap RouterRpc RouterSite Stun StunService Fixtures.

(** ** The shape of a command *)

(** A payload that names a rule by its id, or holds the rule. *)
Definition names_rule (p : dict) : Prop :=
  (exists s, get p "id" = PStr s /\ nonempty s = true)
  \/ (get p "id" = PNone /\ exists rule s, get p "rule" = PDict rule /\ get rule "id" = PStr s).

Definition named_rule (p : dict) : string :=
  match get p "id" with PStr s => strip s | _ => text_of (get (dict_or_empty (get p "rule")) "id") end.

Lemma payload_rule_id_named p : names_rule p -> payload_rule_id (PDict p) = Ok (named_rule p).
Proof.
  unfold payload_rule_id, named_rule. intros Hp. assert (por (PDict p) (PDict []) = PDict p) as -> by (by destruct p).
  destruct Hp as [(s & Hs & Hne)|(Hn & rule & s & Hr & Hs)].
  - cbn [vget mbind result_bind]. rewrite Hs. by destruct s.
  - cbn [vget mbind result_bind]. rewrite Hn, Hr. cbn [truthy vget mbind result_bind dict_or_empty].
    assert (por (PDict rule) (PDict []) = PDict rule) as -> by (by destruct rule). cbn [vget mbind result_bind]. by rewrite Hs.
Qed.

Lemma names_rule_sorted p : plain (PDict p) -> names_rule p -> names_rule (sorted_dict p) /\ named_rule (sorted_dict p) = named_rule p.
Proof.
  intros Hpl Hp. pose proof (plain_nodup _ Hpl) as Hn. unfold named_rule.
  assert (forall rule, get p "rule" = PDict rule -> nodup_keys rule) as Hnr.
  { intros rule Hr. apply plain_nodup. rewrite <- Hr. by apply plain_get. }
  rewrite !get_sorted by done. destruct Hp as [(s & Hs & Hne)|(Hid & rule & s & Hr & Hs)].
  - rewrite Hs. cbn. split; [|done]. left. exists s. by rewrite get_sorted, Hs.
  - rewrite Hid, Hr, sort_keys_sorted_dict. cbn [sort_keys dict_or_empty]. rewrite get_sorted, Hs by eauto. split; [|done].
    right. rewrite get_sorted, Hid by done. split; [done|]. exists (sorted_dict rule), s.
    rewrite get_sorted, Hr, sort_keys_sorted_dict by done. by rewrite get_sorted, Hs by eauto.
Qed.

Definition stun_key (row : dict) : pyval * pyval * string :=
  (get row "router", get row "action", named_rule (dict_or_empty (get row "payload"))).

Record stun_shaped (row : dict) : Prop := {
  ss_router : exists s, get row "router" = PStr s;
  ss_action : exists s, get row "action" = PStr s;
  ss_payload : exists p, get row "payload" = PDict p /\ names_rule p;
}.

#[export] Instance stun_shape : CommandShape stun_key stun_shaped.
Proof.
  constructor.
  - intros row row' Hsame [[r Hr] [a Ha] (p & Hp & Hn)]. constructor; rewrite Hsame by done; eauto.
  - intros row row' Hsame. unfold stun_key. by rewrite !Hsame.
  - intros row Hpl [[r Hr] [a Ha] (p & Hp & Hn)]. pose proof (plain_nodup _ Hpl).
    constructor; rewrite get_sorted by done; [rewrite Hr|rewrite Ha|rewrite Hp]; [by eexists..|].
    exists (sorted_dict p). split; [done|]. apply names_rule_sorted; [|done]. rewrite <- Hp. by apply plain_get.
  - intros row Hpl [[r Hr] [a Ha] (p & Hp & Hn)]. pose proof (plain_nodup _ Hpl).
    unfold stun_key. rewrite !get_sorted, Hr, Ha, Hp, sort_keys_sorted_dict by done. cbn [sort_keys dict_or_empty]. f_equal.
    apply names_rule_sorted; [|done]. rewrite <- Hp. by apply plain_get.
Qed.

(** ** The queue keeps one open command per key *)

Section StunQueue.
Context {S : Type} `{DocStoreLaws S} {tz : TimeZone} (E : env).

Abbreviation stun_good := (good stun_shaped).
Abbreviation stun_sound := (sound_queue stun_queue_file stun_key stun_shaped).

Definition replaced (router action id : string) (row : dict) : bool :=
  is_text (get row "router") router && is_text (get row "action") action
  && String.eqb (named_rule (dict_or_empty (get row "payload"))) id && is_open row.

Lemma drop_superseded_good router action id rows : List.Forall stun_good rows ->
  drop_superseded router action id rows = Ok (List.filter (fun row => negb (replaced router action id row)) rows).
Proof.
  induction 1 as [|row rows [_ [_ _ (p & Hp & Hn)]] _ IH]; cbn; [done|]. unfold superseded, replaced.
  rewrite Hp, IH. cbn [dict_or_empty].
  destruct (is_text (get row "router") router && is_text (get row "action") action); cbn; [|done].
  rewrite (payload_rule_id_named _ Hn). cbn. by destruct (_ && _).
Qed.

Lemma stun_command_good token router action payload now :
  names_rule payload -> plain (PDict payload) -> stun_good (stun_command token router action payload now).
Proof.
  intros Hn Hp. split.
  - constructor; [unfold stun_command; solve_plain|cbn..]; [by eexists|by exists 0|done|done].
  - constructor; cbn; eauto.
Qed.

Lemma stun_router_name_pure w : exists r, stun_router_name E w = (r, w).
Proof.
  unfold stun_router_name. rewrite prog_bind_eq.
  change (portmap_router_name E w) with (match portmap_router_name E w with (a, _) => (a, w) end).
  destruct (portmap_router_name E w) as [[name|e] ?]; by eexists.
Qed.

Lemma stun_queue_sound action payload router w r w' :
  names_rule payload -> plain (PDict payload) -> stun_sound w ->
  stun_queue E action payload router w = (r, w') -> stun_sound w'.
Proof.
  intros Hn Hp (rows & Hsound). unfold stun_queue. rewrite prog_bind_eq.
  assert (exists o, (if nonempty router then mret router else stun_router_name E) w = (o, w)) as (o & ->).
  { destruct (nonempty router); [by eexists|apply stun_router_name_pure]. }
  destruct o as [name|e]; [|intros [= _ <-]; by exists rows].
  rewrite prog_bind_eq. cbn [lift]. rewrite (payload_rule_id_named _ Hn), prog_bind_eq. unfold stun_commands.
  rewrite (load_queue_eq _ _ _ (qs_stored _ _ _ _ _ Hsound)), prog_bind_eq. cbn [lift].
  destruct Hsound as [Hdocs Hst Hg Ho]. rewrite (drop_superseded_good _ _ _ _ Hg). rewrite prog_bind_eq. cbn [uuid_hex token_hex].
  unfold utc_now. rewrite !prog_bind_eq. cbn [epoch mret prog_ret]. intros Hsave.
  eapply save_queue_sound; [done|apply stun_shape| | | |exact Hsave].
  - by constructor.
  - apply List.Forall_app. split; [|constructor; [by apply stun_command_good|constructor]].
    apply List.Forall_forall. intros row [Hin _]%List.filter_In. by apply (proj1 (List.Forall_forall _ _) Hg).
  - apply one_open_app; [by apply one_open_filter|]. intros row [Hin Hr]%List.filter_In Hop [= Hrt Hac Hid].
    revert Hr. unfold replaced. rewrite Hrt, Hac, Hop, Hid. unfold is_text. cbn. by rewrite !String.eqb_refl.
Qed.

Lemma stun_due_spec now router row : stun_good row ->
  exists b, stun_due now router row = Ok b /\ (b = true <-> ready_for now router row).
Proof.
  intros [Hs _]. unfold stun_due, ready_for, may_go, is_pending. destruct (is_text (get row "router") router); [|by exists false; split; [|split; [|intros [? _]]]].
  destruct (retry_due_sane now row Hs) as (b & -> & Hb). cbn. eexists. split; [done|]. rewrite orb_true_iff, Hb. tauto.
Qed.

Lemma stun_poll_sound q w r w' : stun_sound w -> stun_agent_commands E q w = (r, w') -> stun_sound w'.
Proof.
  intros Hsound. unfold stun_agent_commands. destruct (check_hook_token E q); [|by intros [= _ <-]]. cbn [negb].
  rewrite prog_bind_eq. assert (exists o, router_arg E q w = (o, w)) as (o & ->).
  { unfold router_arg. destruct (nonempty _); [by eexists|apply stun_router_name_pure]. }
  destruct o as [router|e]; [|by intros [= _ <-]]. rewrite prog_bind_eq. cbn [lift].
  destruct (int_or _ _) as [wanted|e]; [|by intros [= _ <-]]. rewrite prog_bind_eq. destruct Hsound as (rows & Hsound).
  destruct (poll_queue _ _ _ _ _ w) as [out w1] eqn:Ep.
  eapply poll_queue_sound in Ep as [Hs _]; [|done|apply stun_shape|intros; by apply stun_due_spec|done].
  destruct out; by intros [= _ <-].
Qed.

Lemma stun_ack_sound q w r w' : plain (json_body q) -> stun_sound w -> stun_agent_ack E q w = (r, w') -> stun_sound w'.
Proof.
  intros Hbody Hsound. unfold stun_agent_ack. destruct (check_hook_token E q); [|by intros [= _ <-]]. cbn [negb].
  rewrite prog_bind_eq. cbn [lift]. destruct (json_body q) as [| | | | | |body] eqn:Eb; try by intros [= _ <-].
  cbn [vget_or]. rewrite prog_bind_eq. destruct Hsound as (rows & Hsound).
  assert (List.Forall plain (list_or_empty (get_or body "acks" (PList [])))) as Hacks.
  { pose proof (plain_get body "acks" Hbody) as Hg. unfold get_or, get in *.
    destruct (dget body "acks") as [v|]; cbn in *; [|constructor]. destruct v; try constructor. by inversion Hg. }
  destruct (ack_queue _ _ w) as [n w1] eqn:Ea.
  eapply ack_queue_sound in Ea as Hs; [|done|apply stun_shape|done..].
  destruct n; by intros [= _ <-].
Qed.

(** What can happen to the commands: an order, a poll, an acknowledgement, and anything that leaves
    their document alone. *)
Inductive stun_step : world S -> world S -> Prop :=
| step_order action payload router w r w' :
    names_rule payload -> plain (PDict payload) -> stun_queue E action payload router w = (r, w') -> stun_step w w'
| step_poll q w r w' : stun_agent_commands E q w = (r, w') -> stun_step w w'
| step_ack q w r w' : plain (json_body q) -> stun_agent_ack E q w = (r, w') -> stun_step w w'
| step_other w w' :
    doc_read stun_queue_file (w_docs w') = doc_read stun_queue_file (w_docs w) -> (doc_ok (w_docs w) -> doc_ok (w_docs w')) ->
    stun_step w w'.

Lemma stun_step_sound w w' : stun_step w w' -> stun_sound w -> stun_sound w'.
Proof.
  intros [action payload router w1 r w2 Hn Hp Hq|q w1 r w2 Hq|q w1 r w2 Hb Hq|w1 w2 Hd Hok] Hs.
  - by eapply stun_queue_sound.
  - by eapply stun_poll_sound.
  - by eapply stun_ack_sound.
  - destruct Hs as (rows & [Hdocs Hst Hg Ho]). exists rows. constructor; [auto| |done..]. unfold stored in *. by rewrite Hd.
Qed.

(** C15. Whatever orders, polls and acknowledgements come, in any order and with failing saves, a
    router has at most one open command for an action on a rule, and no command has gone out more
    than five times. *)
Theorem one_open_stun_command w w' :
  stun_sound w -> rtc stun_step w w' ->
  exists rows, stored stun_queue_file w' rows /\ one_open stun_key rows
    /\ forall row, In row rows -> 0 <= attempts_of row <= 5.
Proof.
  intros Hs Hsteps. assert (stun_sound w') as (rows & [_ Hst Hg Ho]).
  { revert Hs. induction Hsteps as [|w1 w2 w3 Hstep _ IH]; [done|]. intros Hs. by eapply IH, stun_step_sound. }
  exists rows. split; [done|]. split; [done|]. intros row Hin. apply (proj1 (List.Forall_forall _ _) Hg) in Hin as [[_ _ (n & Ha & Hn) _ _] _].
  unfold attempts_of. by rewrite Ha.
Qed.
End StunQueue.

(** Two orders for one rule, a poll and an acknowledgement. *)
Definition upsert_r1 : dict := [("rule", PDict [("id", PStr "r1"); ("enabled", PBool true)])].
Definition ordered_once : world store := run (stun_queue demo_env "upsert" upsert_r1 "BE72") demo_world.
Definition ordered_twice : world store := run (stun_queue demo_env "upsert" upsert_r1 "BE72") ordered_once.
Definition polled_once : world store := run (stun_agent_commands demo_env (router_request [("router", "BE72")] None)) ordered_twice.

Lemma empty_queue_sound : sound_queue stun_queue_file stun_key stun_shaped demo_world.
Proof. exists []. constructor; [exact empty_store_ok|done|constructor|constructor]. Qed.

Lemma upsert_r1_names : names_rule upsert_r1 /\ plain (PDict upsert_r1).
Proof. split; [right; split; [done|]; by do 2 eexists|]. unfold upsert_r1. solve_plain. Qed.

Lemma one_open_stun_command_witness :
  sound_queue stun_queue_file stun_key stun_shaped demo_world /\ rtc (stun_step demo_env) demo_world polled_once /\
  exists rows, stored stun_queue_file polled_once rows /\ one_open stun_key rows
    /\ forall row, In row rows -> 0 <= attempts_of row <= 5.
Proof.
  assert (rtc (stun_step demo_env) demo_world polled_once) as Hsteps.
  { destruct upsert_r1_names as [Hn Hp].
    eapply (rtc_l _ _ ordered_once); [exact (step_order demo_env _ _ _ _ _ _ Hn Hp (surjective_pairing _))|].
    eapply (rtc_l _ _ ordered_twice); [exact (step_order demo_env _ _ _ _ _ _ Hn Hp (surjective_pairing _))|].
    apply rtc_once. exact (step_poll demo_env _ _ _ _ (surjective_pairing _)). }
  split; [exact empty_queue_sound|]. split; [exact Hsteps|].
  exact (one_open_stun_command demo_env demo_world polled_once empty_queue_sound Hsteps).
Defined.

(** The second order replaced the first, and the poll handed it out. *)
Example second_order_replaces_first : exists row,
  stored stun_queue_file polled_once [row] /\ is_text (get row "status") "delivered" = true /\ attempts_of row = 1.
Proof. eexists. split; [vm_compute; reflexivity|]. by split; vm_compute. Qed.
