(* ===== verification/StunRouterFacts.v ===== *)
(** * What the STUN service does to the router

    The service owns one port mapping and one firewall rule per channel.  It recognises them by a
    fingerprint; a rule that somebody edited is neither changed nor removed, and a rule that is in
    place is not written again. *)

From S2P Require Import Prelude PyNum PyVal PyIp PyTime HubValues Json Storage Hub Services AgentQueue AgentCmd PortMap RouterRpc RouterSite Stun StunService Fixtures RouterFixture.

Section StunRouter.
Context {S R : Type} `{DocStoreLaws S} {tz : TimeZone} `{RouterClient R} `{RouterBatch R} `{Sha256} (E : env).
Implicit Types s : site S R.

(** ** The bindings of the Hub *)

Definition stored_bindings (file : string) s : dict := bindings_of (default (PDict []) (doc_read file (w_docs (st_hub s)))).

Lemma load_bindings_eq file s : on_hub (load_bindings file) s = (Ok (stored_bindings file s), s).
Proof. by destruct s. Qed.

Lemma bindings_of_ok raw : json_ok raw -> json_ok (PDict (bindings_of raw)).
Proof.
  intros Hv. unfold bindings_of. apply json_ok_filter. destruct raw as [| | | | | |d]; try apply json_ok_empty.
  assert (json_ok (get_or d "rules" (PDict []))) as Hg.
  { pose proof (json_ok_get d "rules" Hv) as Hg. unfold get_or, get in *. destruct (dget d "rules"); [done|apply json_ok_empty]. }
  destruct (get_or d "rules" (PDict [])); first [exact Hg|apply json_ok_empty].
Qed.

Lemma stored_bindings_ok file s : doc_ok (w_docs (st_hub s)) -> json_ok (PDict (stored_bindings file s)).
Proof.
  intros Hd. unfold stored_bindings. apply bindings_of_ok.
  destruct (doc_read file (w_docs (st_hub s))) as [v|] eqn:Ev; cbn [default from_option id]; [by eapply doc_read_ok|apply json_ok_empty].
Qed.

Definition bindings_doc (rows : dict) (now : string) : dict := [("updatedAt", PStr now); ("rules", PDict rows)].

Lemma get_filter_dicts d k : nodup_keys d -> dict_or_empty (get (List.filter (fun kv => is_dict kv.2) d) k) = dict_or_empty (get d k).
Proof.
  intros Hn. induction d as [|[k0 v] d IH]; [done|]. inversion Hn; subst. cbn. unfold get in *. destruct (is_dict v) eqn:Ev; cbn.
  - destruct (String.eqb k k0); [done|]. auto.
  - destruct (String.eqb_spec k k0) as [->|]; [|auto]. rewrite IH by done.
    assert (dget d k0 = None) as -> by (by apply dget_None_keys). by destruct v.
Qed.

(** Recording a result always succeeds, and the binding reads back. *)
Lemma bound_saved file rid result recorded s :
  str_in file ["state.json"; "devices.json"] = false -> doc_ok (w_docs (st_hub s)) -> json_ok (PDict recorded) ->
  exists s', bound file rid result recorded (stored_bindings file s) s = (Ok result, s') /\ doc_ok (w_docs (st_hub s'))
    /\ st_router s' = st_router s /\ st_sync s' = st_sync s /\ binding rid (stored_bindings file s') = sorted_dict recorded.
Proof.
  intros Hf Hok Hr. pose proof (json_ok_dset rid _ _ Hr (stored_bindings_ok file s Hok)) as Hrows.
  set (rows := dset rid (PDict recorded) (stored_bindings file s)) in *.
  assert (forall now, json_ok (PDict (bindings_doc rows now))) as Hdoc.
  { intros now. unfold bindings_doc. solve_json. }
  unfold bound. rewrite prog_bind_eq, on_hub_eq. unfold save_bindings. fold rows.
  change ((utc_now ≫= ?f) ?w) with (f (utc_text (w_ms w / 1000)) w). cbv beta. set (now := utc_text (w_ms (st_hub s) / 1000)).
  destruct (save_json_total file (PDict (bindings_doc rows now)) (st_hub s) Hf (Hdoc now) Hok) as (w & Hs & Hok' & _).
  unfold bindings_doc in Hs. rewrite Hs. cbn [fst snd]. eexists. split; [done|]. cbn [st_hub st_router st_sync]. split; [done|]. split; [done|]. split; [done|].
  unfold stored_bindings. cbn [st_hub]. rewrite (save_json_read _ _ _ _ Hf (json_ok_plain _ (Hdoc now)) Hs). cbn [default].
  change (sort_keys (PDict (bindings_doc rows now))) with (PDict [("rules", PDict (sorted_dict rows)); ("updatedAt", PStr now)]).
  unfold bindings_of, get_or. cbn [dget String.eqb Ascii.eqb Bool.eqb default from_option id dict_or_empty]. unfold binding.
  apply json_ok_plain, plain_nodup in Hrows. rewrite get_filter_dicts by (by apply nodup_sorted). rewrite get_sorted by done.
  unfold rows. by rewrite get_dset_eq.
Qed.

(** A write of the bindings touches neither the router nor the snapshots. *)
Lemma bound_router file rid result recorded bindings s r s' :
  bound file rid result recorded bindings s = (r, s') -> st_router s' = st_router s /\ forall d, r = Ok d -> d = result.
Proof.
  unfold bound. rewrite prog_bind_eq, on_hub_eq. destruct ((save_bindings _ _) (st_hub s)) as [[u|e] w]; intros [= <- <-]; cbn; [|done].
  split; [done|]. by intros d [= <-].
Qed.

(** ** Names *)

Lemma rstrip_by_keeps p c t : p c = false -> rstrip_by p (String c t) <> EmptyString.
Proof. cbn. intros ->. by destruct (rstrip_by p t). Qed.

Lemma labprobe_name_nonempty t : text_of (PStr ("LabProbe STUN " +:+ t)) <> EmptyString.
Proof. unfold text_of, strip, strip_by. cbn [str_or_empty py_str truthy]. by apply rstrip_by_keeps. Qed.

Lemma expected_name rule expected : expected_native_mapping rule = Ok expected ->
  text_of (get expected "ruleName") <> EmptyString.
Proof.
  unfold expected_native_mapping.
  intros (v & _ & (l & _ & (t & _ & (p & _ & (pr & _ & [= <-])%result_bind_ok)%result_bind_ok)%result_bind_ok)%result_bind_ok)%result_bind_ok.
  apply labprobe_name_nonempty.
Qed.

Lemma found_mapping snapshot name row : find_native_mapping snapshot name = Some row ->
  name <> EmptyString -> text_of (get row "ruleName") = name /\ present (Some row) = Some row.
Proof.
  unfold find_native_mapping. intros [_ Hn%String.eqb_eq]%List.find_some Hne. split; [done|]. by destruct row.
Qed.

(** ** Mappings that somebody edited *)

(** C16. A port mapping that was edited on the router since the Hub bound it is left alone: enabling
    the rule reports the manual change, disabling it fails, and deleting it answers 409 with the
    rules, the bindings and the router as they were. *)
Theorem edited_mapping_is_kept q rid rule doc expected current row s s1 :
  let b := binding rid (stored_bindings native_file s) in
  is_native_forward rule = true -> get rule "id" = PStr rid -> expected_native_mapping rule = Ok expected ->
  text_of (get b "ruleName") = text_of (get expected "ruleName") ->
  native_port_mapping s = (Ok current, s1) ->
  find_native_mapping current (text_of (get expected "ruleName")) = Some row -> edited b row = true ->
  check_app_token E q = true -> stun_document (st_hub s) = (Ok doc, st_hub s) -> find_stun_rule rid (rd_rules doc) = Some rule ->
  (forall r s', ensure_native_mapping rule s = (r, s') ->
     st_router s' = st_router s1 /\ forall d, r = Ok d -> get d "state" = PStr "manual_change")
  /\ (exists msg, remove_native_mapping rid s = (raise_value_error msg, s1))
  /\ (exists msg, stun_delete E q rid s = (Ok (error_response 409 msg), s1)).
Proof.
  intros b Hnative Hid Hexp Hname Hread Hfind Hedit Htoken Hdoc Hrule. destruct (found_mapping _ _ _ Hfind (expected_name _ _ Hexp)) as [Hrow Hpresent].
  assert (remove_native_mapping rid s = (raise_value_error "路由器端口映射已被手动修改；为避免误删，未停止穿透", s1)) as Hremove.
  { unfold remove_native_mapping. rewrite prog_bind_eq, load_bindings_eq. fold b.
    apply andb_prop in Hedit as [Hfp Hne%negb_true_iff]. assert (truthy (PDict b) = true) as -> by (destruct b; done). cbn [negb].
    rewrite prog_bind_eq, Hread, Hname, Hfind, Hpresent, prog_bind_eq. by rewrite Hne. }
  split; [|split; [by eexists|]].
  - intros r s'. unfold ensure_native_mapping. rewrite Hnative. cbn [negb]. rewrite prog_bind_eq. cbn [lift]. rewrite Hexp, prog_bind_eq, load_bindings_eq.
    rewrite prog_bind_eq, Hread. rewrite Hid. cbn [py_str]. fold b. rewrite Hfind, Hedit.
    intros Hb%bound_router. destruct Hb as [Hr Hd]. split; [done|]. by intros d ->%Hd.
  - eexists. unfold stun_delete. rewrite Htoken. cbn [negb]. rewrite prog_bind_eq, on_hub_eq, Hdoc. cbn [fst snd].
    destruct s as [w x y]. cbn [st_hub st_router st_sync] in *. rewrite Hrule.
    assert (truthy (PDict rule) = true) as -> by (by destruct rule). cbn [negb].
    rewrite prog_bind_eq. unfold try_except. rewrite prog_bind_eq, Hremove. done.
Qed.

(** A firewall rule of a channel that was edited on the router is left alone: the service
    reports the manual change and saves nothing, and when the channel goes the rule stays. *)
Theorem edited_firewall_rule_is_kept rid rule expected current rows row s s1 :
  let b := binding rid (stored_bindings firewall_file s) in
  get rule "id" = PStr rid -> expected_firewall rule = Ok expected ->
  firewall s = (Ok current, s1) -> firewall_list current = Ok rows ->
  present (find_firewall (text_of (get b "uuid")) rows) = Some row -> edited b row = true ->
  (exists msg, ensure_firewall rule s = (Ok (state_message "manual_change" msg), s1))
  /\ forall r s', remove_firewall rid s = (r, s') -> st_router s' = st_router s1.
Proof.
  intros b Hid Hexp Hread Hrows Hfind Hedit. split.
  - eexists. unfold ensure_firewall. rewrite prog_bind_eq. cbn [lift]. rewrite Hexp, prog_bind_eq, load_bindings_eq, prog_bind_eq, Hread.
    rewrite prog_bind_eq. cbn [lift]. rewrite Hrows, Hid. cbn [py_str]. fold b. rewrite Hfind, Hedit. done.
  - intros r s'. unfold remove_firewall. rewrite prog_bind_eq, load_bindings_eq. fold b.
    apply andb_prop in Hedit as [Hfp Hne%negb_true_iff]. assert (truthy (PDict b) = true) as -> by (by destruct b). cbn [negb].
    rewrite prog_bind_eq, Hread, prog_bind_eq. cbn [lift]. rewrite Hrows, Hfind, Hne, prog_bind_eq. cbn [mret prog_ret].
    rewrite on_hub_eq. intros [= _ <-]. done.
Qed.

(** ** Mappings that are in place *)

(** Reading the port mappings changes nothing on the router. *)
Definition reads_only : Prop := forall x, exists a, rpc "devConfig.get" "port_mapping" PNone x = (a, x).

(** What a read answers, given what the router holds. *)
Definition mapping_at (x : R) : result dict :=
  match (rpc "devConfig.get" "port_mapping" PNone x).1 with
  | Ok (PDict d) => Ok d
  | Ok (PList l) => Ok [("portMapping", PList l)]
  | Ok _ => Ok [("portMapping", PList [])]
  | Err e => Err e
  end.

Lemma native_port_mapping_at s : reads_only -> native_port_mapping s = (mapping_at (st_router s), s).
Proof.
  intros Hr. unfold native_port_mapping, mapping_at, call. rewrite prog_bind_eq, on_router_eq.
  destruct (Hr (st_router s)) as [a ->]. cbn [fst snd]. destruct s as [w x y]. cbn [st_hub st_router st_sync].
  destruct a as [v|e]; [|done]. by destruct v.
Qed.

Lemma sorted_ready name row : sorted_dict (ready_mapping name row) =
  [("fingerprint", PStr (rule_fingerprint row)); ("ruleName", PStr name); ("state", PStr "ready")].
Proof. done. Qed.

(** A binding written by [ready_mapping] recognises the row it was written for. *)
Lemma ready_recognised name row : edited (sorted_dict (ready_mapping name row)) row = false.
Proof.
  unfold edited. rewrite sorted_ready. cbn [get dget String.eqb Ascii.eqb Bool.eqb default from_option id].
  unfold is_text. cbn. rewrite String.eqb_refl. by rewrite andb_false_r.
Qed.

(** The state a call leaves when the mapping is in place: the router shows the row the rule asks
    for, and the binding holds its fingerprint. *)
Definition in_place (rid name : string) (expected result : dict) s : Prop :=
  doc_ok (w_docs (st_hub s)) /\ exists current row,
    mapping_at (st_router s) = Ok current /\ find_native_mapping current name = Some row /\ matches_row row expected = true
    /\ result = ready_mapping name row /\ binding rid (stored_bindings native_file s) = sorted_dict result.

Lemma ready_json name row : json_ok (PDict (ready_mapping name row)).
Proof. unfold ready_mapping. solve_json. Qed.

Lemma bound_in_place rid name expected current row s :
  doc_ok (w_docs (st_hub s)) -> mapping_at (st_router s) = Ok current -> find_native_mapping current name = Some row ->
  matches_row row expected = true ->
  exists s', bound native_file rid (ready_mapping name row) (ready_mapping name row) (stored_bindings native_file s) s
    = (Ok (ready_mapping name row), s')
    /\ st_router s' = st_router s /\ st_sync s' = st_sync s /\ in_place rid name expected (ready_mapping name row) s'.
Proof.
  intros Hok Hm Hf Hmatch. destruct (bound_saved native_file rid (ready_mapping name row) _ s eq_refl Hok (ready_json name row))
    as (s' & Hs & Hok' & Hr & Hy & Hb).
  exists s'. split; [done|]. split; [done|]. split; [done|]. split; [done|]. exists current, row. by rewrite Hr.
Qed.

Lemma bound_state rid result recorded bindings s d s' :
  bound native_file rid result recorded bindings s = (Ok d, s') -> d = result.
Proof. intros H4. apply bound_router in H4 as [_ Hd]. by apply Hd. Qed.

(** A write changes nothing of the Hub but the snapshots, and reads back what the router then holds. *)
Lemma mapping_written m args s s2 v : reads_only ->
  write_and_verify "native-portmap" (call m "port_mapping" args) native_port_mapping s = (Ok v, s2) ->
  mapping_at (st_router s2) = Ok v /\ st_hub s2 = st_hub s.
Proof.
  intros Hr. unfold write_and_verify, call. rewrite prog_bind_eq, on_router_eq.
  destruct ((rpc m "port_mapping" args (st_router s)).1) as [a|e]; [|done]. cbn [fst snd].
  rewrite prog_bind_eq, native_port_mapping_at by done. cbn [st_router]. destruct (mapping_at _) as [d|e] eqn:Ed; [|done].
  rewrite prog_bind_eq, on_hub_eq. cbn [epoch fst snd]. rewrite prog_bind_eq. cbn. intros [= <- <-]. by cbn.
Qed.

Lemma ensure_in_place rid rule expected s d s' :
  reads_only -> doc_ok (w_docs (st_hub s)) -> is_native_forward rule = true -> get rule "id" = PStr rid ->
  expected_native_mapping rule = Ok expected ->
  ensure_native_mapping rule s = (Ok d, s') -> get d "state" = PStr "ready" ->
  in_place rid (text_of (get expected "ruleName")) expected d s'.
Proof.
  intros Hr Hok Hnative Hid Hexp. unfold ensure_native_mapping. rewrite Hnative. cbn [negb].
  rewrite prog_bind_eq. cbn [lift]. rewrite Hexp, prog_bind_eq, load_bindings_eq, prog_bind_eq, native_port_mapping_at, Hid by done.
  cbn [py_str]. set (name := text_of (get expected "ruleName")). destruct (mapping_at (st_router s)) as [current|e] eqn:Em; [|done].
  assert (forall current row s2, mapping_at (st_router s2) = Ok current -> st_hub s2 = st_hub s ->
            find_native_mapping current name = Some row -> matches_row row expected = true ->
            bound native_file rid (ready_mapping name row) (ready_mapping name row) (stored_bindings native_file s) s2 = (Ok d, s') ->
            in_place rid name expected d s') as Hready.
  { intros current2 row s2 Hat Hhub Hf Hmatch. replace (stored_bindings native_file s) with (stored_bindings native_file s2)
      by (unfold stored_bindings; by rewrite Hhub). destruct (bound_in_place rid name expected current2 row s2) as (s3 & -> & _ & _ & Hin);
      [by rewrite Hhub|done..|]. by intros [= <- <-]. }
  assert (forall v s2 message (Hat : mapping_at (st_router s2) = Ok v) (Hhub : st_hub s2 = st_hub s),
    match find_native_mapping v name with
    | Some row => if matches_row row expected
                  then bound native_file rid (ready_mapping name row) (ready_mapping name row) (stored_bindings native_file s)
                  else bound native_file rid (state_message "verify_failed" message)
                         (dupdate (binding rid (stored_bindings native_file s)) (state_message "verify_failed" message)) (stored_bindings native_file s)
    | None => bound native_file rid (state_message "verify_failed" message)
                (dupdate (binding rid (stored_bindings native_file s)) (state_message "verify_failed" message)) (stored_bindings native_file s)
    end s2 = (Ok d, s') -> get d "state" = PStr "ready" -> in_place rid name expected d s') as Hverified.
  { intros v s2 message Hat Hhub. destruct (find_native_mapping v name) as [row|] eqn:Ef; [|by intros ->%bound_state].
    destruct (matches_row row expected) eqn:Emat; [intros Hb _; by eapply Hready|by intros ->%bound_state]. }
  destruct (find_native_mapping current name) as [existing|] eqn:Ef.
  - destruct (edited _ existing); [by intros ->%bound_state|].
    destruct (matches_row existing expected) eqn:Emat; [intros Hbound _; by eapply Hready|].
    rewrite prog_bind_eq. destruct (write_and_verify _ _ _ s) as [[v|e] s2] eqn:Ew; [|done].
    apply mapping_written in Ew as [Hat Hhub]; [|done]. by eapply Hverified.
  - rewrite prog_bind_eq. destruct (write_and_verify _ _ _ s) as [[v|e] s2] eqn:Ew; [|done].
    apply mapping_written in Ew as [Hat Hhub]; [|done]. by eapply Hverified.
Qed.

(** C18. Ensuring a mapping that is in place writes nothing to the router: when a call has answered
    ready, the next one gives the same answer, leaves the router and the snapshots as they are, and
    keeps the mapping in place. *)
Theorem ready_mapping_is_not_rewritten rid rule expected s d s' :
  reads_only -> doc_ok (w_docs (st_hub s)) -> is_native_forward rule = true -> get rule "id" = PStr rid ->
  expected_native_mapping rule = Ok expected ->
  ensure_native_mapping rule s = (Ok d, s') -> get d "state" = PStr "ready" ->
  exists s'', ensure_native_mapping rule s' = (Ok d, s'') /\ st_router s'' = st_router s' /\ st_sync s'' = st_sync s'
    /\ in_place rid (text_of (get expected "ruleName")) expected d s''.
Proof.
  intros Hr Hok Hnative Hid Hexp Hensure Hstate. pose proof (ensure_in_place _ _ _ _ _ _ Hr Hok Hnative Hid Hexp Hensure Hstate)
    as (Hok' & current & row & Hat & Hf & Hmatch & -> & Hb).
  destruct (bound_in_place rid _ _ _ _ _ Hok' Hat Hf Hmatch) as (s'' & Hs'' & Hr'' & Hy'' & Hin). exists s''. split; [|done].
  unfold ensure_native_mapping. rewrite Hnative. cbn [negb]. rewrite prog_bind_eq. cbn [lift].
  rewrite Hexp, prog_bind_eq, load_bindings_eq, prog_bind_eq, native_port_mapping_at, Hid, Hat by done.
  cbn [py_str]. rewrite Hf, Hb, ready_recognised, Hmatch. done.
Qed.
End StunRouter.

(** ** On the concrete router *)

Definition demo_rule : dict :=
  [("id", PStr "r1"); ("kind", PStr "stun"); ("enabled", PBool true); ("listenPort", PInt 20000); ("targetIpv4", PStr "192.168.1.20");
   ("targetPort", PInt 22); ("transportProtocol", PStr "TCP"); ("forwardMode", PStr "router_native")].
Definition demo_expected : dict := Eval vm_compute in catch (expected_native_mapping demo_rule) [].
Definition answer {A} (dflt : A) (x : result A * site store tables) : A := catch x.1 dflt.

(** A router without rules, and the same after the first call. *)
Definition empty_site : site store tables := demo_site (Tables [] [] 0).
Definition mapped_site : site store tables := on_site (ensure_native_mapping demo_rule) empty_site.

Lemma tables_read_only : reads_only (R := tables).
Proof. intros x. by eexists. Qed.

Lemma ready_mapping_is_not_rewritten_witness :
  exists s'', ensure_native_mapping demo_rule mapped_site = (Ok (answer [] (ensure_native_mapping demo_rule empty_site)), s'')
    /\ st_router s'' = st_router mapped_site /\ st_sync s'' = st_sync mapped_site
    /\ in_place "r1" (text_of (get demo_expected "ruleName")) demo_expected (answer [] (ensure_native_mapping demo_rule empty_site)) s''.
Proof.
  apply (ready_mapping_is_not_rewritten "r1" demo_rule demo_expected empty_site).
  - exact tables_read_only.
  - exact empty_store_ok.
  - reflexivity.
  - reflexivity.
  - vm_compute. reflexivity.
  - vm_compute. reflexivity.
  - vm_compute. reflexivity.
Defined.

(** The mapping of [demo_rule] with a port that somebody changed, and the rule saved. *)
Definition edited_site : site store tables :=
  let s := on_site (on_hub (save_stun_rules [demo_rule])) mapped_site in
  Site (st_hub s) (Tables (List.map (dset "destPort" (PStr "2222")) (tb_mappings (st_router s))) [] 0) (st_sync s).
Definition edited_current : dict := Eval vm_compute in answer [] (native_port_mapping edited_site).
Definition edited_row : dict := Eval vm_compute in default [] (find_native_mapping edited_current (text_of (get demo_expected "ruleName"))).
Definition edited_doc : rules_doc := Eval vm_compute in catch (stun_document (st_hub edited_site)).1 (RulesDoc 0 "" []).

Lemma edited_mapping_is_kept_witness :
  (forall r s', ensure_native_mapping (nth 0 (rd_rules edited_doc) []) edited_site = (r, s') ->
     st_router s' = st_router edited_site /\ forall d, r = Ok d -> get d "state" = PStr "manual_change")
  /\ (exists msg, remove_native_mapping "r1" edited_site = (raise_value_error msg, edited_site))
  /\ (exists msg, stun_delete demo_env (app_request [] None) "r1" edited_site = (Ok (error_response 409 msg), edited_site)).
Proof.
  apply (edited_mapping_is_kept demo_env (app_request [] None) "r1" (nth 0 (rd_rules edited_doc) []) edited_doc demo_expected
           edited_current edited_row edited_site edited_site); vm_compute; reflexivity.
Defined.

(** A firewall rule of the tunnel, created by the service and then edited. *)
Definition lan_rule : dict :=
  [("id", PStr "wireguard-lan-labwg0"); ("firewallMode", PStr "wireguard_lan_forward"); ("tunnelNetwork", PStr "10.77.0.0/24")].
Definition lan_expected : dict := Eval vm_compute in catch (expected_firewall lan_rule) [].
Definition edited_firewall : site store tables :=
  let s := on_site (ensure_firewall lan_rule) empty_site in
  Site (st_hub s) (Tables [] (List.map (dset "srcIP" (PStr "0.0.0.0/0")) (tb_firewall (st_router s))) 1) (st_sync s).
Definition firewall_current : dict := Eval vm_compute in answer [] (firewall edited_firewall).
Definition firewall_rows_now : list dict := Eval vm_compute in catch (firewall_list firewall_current) [].

Lemma edited_firewall_rule_is_kept_witness :
  (exists msg, ensure_firewall lan_rule edited_firewall = (Ok (state_message "manual_change" msg), edited_firewall))
  /\ forall r s', remove_firewall "wireguard-lan-labwg0" edited_firewall = (r, s') -> st_router s' = st_router edited_firewall.
Proof.
  apply (edited_firewall_rule_is_kept "wireguard-lan-labwg0" lan_rule lan_expected firewall_current firewall_rows_now
           (nth 0 firewall_rows_now []) edited_firewall edited_firewall); vm_compute; reflexivity.
Defined.
