(* ===== verification/WireGuard.v ===== *)
(** * WireGuard: the desired state

    The pure parts of [wireguard_service.py]: what counts as a secret, the fields of the server, of
    its peers and of its endpoint profiles, the document, the commands, and the firewall rules a
    server needs.  [hub.STUN_SERVICE] is the service of [StunService.v], installed before. *)

From S2P Require Import Prelude PyNum PyVal PyIp PyTime HubValues Json Storage Hub Services AgentQueue PortMap RouterRpc RouterSite Stun.

(** ** Secrets and keys *)

Definition secret_names : list string := ["privatekey"; "presharedkey"; "secret"; "password"].
(** [re.sub(r"[^a-z]", "", str(key).lower())]. *)
Definition normalized_key (key : string) : string := sfilter is_lower (lower key).

Fixpoint has_secret (v : pyval) : bool :=
  match v with
  | PDict d => existsb (fun kv => str_in (normalized_key kv.1) secret_names || has_secret kv.2) d
  | PList l => existsb has_secret l
  | _ => false
  end.

(** Base64 of 32 bytes: 43 characters of the alphabet and one padding character. *)
Definition is_base64 (c : ascii) : bool := is_alnum c || is_char "+"%char c || is_char "/"%char c.
Definition key_text (s : string) : bool :=
  (String.length s =? 44)%nat && sall is_base64 (stake 43 s) && String.eqb (sdrop 43 s) "=".
(** Any other base64 text decodes to another number of bytes; the two messages are told apart by
    [decodes]. *)
Definition decodes (s : string) : bool :=
  let body := rstrip_by (is_char "="%char) s in
  let pads := (String.length s - String.length body)%nat in
  sall is_base64 body
  && match Nat.modulo (String.length body) 4 with
     | O => (pads =? 0)%nat
     | 2%nat => (pads =? 2)%nat
     | 3%nat => (pads =? 1)%nat
     | _ => false
     end.
Definition public_key (v : pyval) : result string :=
  let text := text_of v in
  if negb (decodes text) then raise_value_error "Peer 公钥格式无效"
  else if key_text text then Ok text else raise_value_error "Peer 公钥必须是 32 字节 WireGuard 公钥".

(** [re.fullmatch(r"[...]{1,n}", s)]. *)
Definition fullmatch (p : ascii -> bool) (n : nat) (s : string) : bool :=
  nonempty s && sall p s && (String.length s <=? n)%nat.
Definition name_char (c : ascii) : bool := is_alnum c || is_char "_"%char c || is_char "-"%char c.
Definition interface_char (c : ascii) : bool := name_char c || is_char "."%char c.

(** ** Interfaces *)

(** [ipaddress.ip_interface]: the address and its network. *)
Record interface := Interface { if_ip : ip; if_net : ip_net }.
Definition ip_interface (s : string) : option interface :=
  net ← ip_network s;
  let addr := hd "" (split "/" s) in
  match ipv4_of_str addr with
  | Some n => Some (Interface (IPv4 n) net)
  | None => a ← ipv6_of_str addr; Some (Interface a net)
  end.
Definition interface_str (i : interface) : string := ip_str (if_ip i) +:+ "/" +:+ int_str (net_len (if_net i)).

(** ** The document *)

Record wg_doc := WgDoc {
  wd_revision : Z; wd_endpoint : Z; wd_updated : string; wd_server : option dict; wd_tombstone : option dict }.

Definition dict_opt (v : pyval) : option dict := match v with PDict d => Some d | _ => None end.
Definition opt_value (o : option dict) : pyval := match o with Some d => PDict d | None => PNone end.

Definition read_wg (raw : pyval) : result wg_doc :=
  let d := dict_or_empty raw in
  revision ← int_or (get d "revision") 0;
  endpoint ← int_or (get d "endpointRevision") 0;
  mret (WgDoc (Z.max 0 revision) (Z.max 0 endpoint) (text_of (get d "updatedAt")) (dict_opt (get d "server")) (dict_opt (get d "tombstone"))).

Definition wg_json (doc : wg_doc) : dict :=
  [("version", PInt 1); ("revision", PInt (wd_revision doc)); ("endpointRevision", PInt (wd_endpoint doc));
   ("updatedAt", PStr (wd_updated doc)); ("server", opt_value (wd_server doc)); ("tombstone", opt_value (wd_tombstone doc))].

(** [document.get("server") or {}]. *)
Definition server_of (o : option dict) : dict := default [] o.
(** [if old_server:]: an empty dict is false. *)
Definition some_server (o : option dict) : bool := match o with Some (_ :: _) => true | _ => false end.

(** ** Peers *)

Definition allowed_ip (v : pyval) : result pyval :=
  match ip_network (text_of v) with Some net => Ok (PStr (net_str net)) | None => raise_value_error "Peer AllowedIPs 无效" end.

(** One peer; [fresh] is the id of a peer that has none. *)
Definition clean_peer (fresh : string) (ids ks : list string) (raw : dict) : result (string * string * dict) :=
  let peer_id := str_or (text_of (get raw "id")) fresh in
  if negb (fullmatch name_char 48 peer_id) || str_in peer_id ids then raise_value_error "Peer ID 无效或重复"
  else
    key ← public_key (get raw "publicKey");
    if str_in key ks then raise_value_error "Peer 公钥重复"
    else
      values ← py_iter (por (get_or raw "allowedIps" (PList [])) (PList []));
      allowed ← result_map allowed_ip (values : list pyval);
      match allowed with
      | [] => raise_value_error "Peer 至少需要一个 AllowedIPs"
      | _ =>
          keepalive ← int_or (get raw "persistentKeepaliveSeconds") 25;
          if negb ((0 <=? keepalive) && (keepalive <=? 600)) then raise_value_error "Peer Keepalive 必须在 0–600 秒"
          else Ok (peer_id, key,
                   [("id", PStr peer_id); ("name", PStr (str_or (py_take 64 (text_of (get raw "name"))) peer_id)); ("publicKey", PStr key);
                    ("allowedIps", PList allowed); ("persistentKeepaliveSeconds", PInt keepalive)])
      end.

(** ** Endpoint profiles *)

Definition source_name (source : string) : string :=
  if String.eqb source "manual" then "手动地址" else if String.eqb source "ddns" then "DDNS 直连" else "STUN 穿透".

(** Rows by id; [rows or []]. *)
Definition rows_by_id (rows : list dict) : dict := dict_of (List.map (fun row => (text_of (get row "id"), PDict row)) rows).

(** The fields every profile has. *)
Definition profile_base (profile_id source : string) (listen_port : Z) (raw old_profile : dict) : result dict :=
  port ← int_or (get raw "port") listen_port;
  revision ← int_or (get_or raw "endpointRevision" (get_or old_profile "endpointRevision" (PInt 0))) 0;
  if negb ((1 <=? port) && (port <=? 65535)) then raise_value_error "Endpoint 端口无效"
  else Ok [("id", PStr profile_id); ("name", PStr (str_or (py_take 64 (text_of (get raw "name"))) (source_name source)));
           ("endpointSource", PStr source); ("enabled", PBool (truthy (get_or raw "enabled" (PBool true)))); ("port", PInt port);
           ("endpointRevision", PInt (Z.max 0 revision)); ("resolvedEndpoint", PStr (text_of (get raw "resolvedEndpoint")));
           ("forwardMode", PStr (text_of (get raw "forwardMode")))].

Definition manual_profile (raw base : dict) : result dict :=
  let endpoint := text_of (get raw "resolvedEndpoint") in
  if negb (nonempty endpoint) then raise_value_error "Manual Profile 需要固定 Endpoint"
  else Ok (dupdate base [("hostname", PStr ""); ("stunRuleId", PStr ""); ("bindingMode", PStr "manual"); ("owner", PStr "");
                         ("resolvedEndpoint", PStr endpoint)]).

Definition ddns_profile (profile_id : string) (listen_port : Z) (raw base : dict) : result dict :=
  let hostname := rstrip_by (is_char "."%char) (lower (text_of (get raw "hostname"))) in
  if negb (nonempty hostname) || (253 <? py_len hostname) || contains ":" hostname then raise_value_error "DDNS Profile 需要独立域名"
  else Ok (dupdate (dset "port" (PInt listen_port) base)
             [("hostname", PStr hostname); ("stunRuleId", PStr ""); ("bindingMode", PStr "fixed-port"); ("owner", PStr ("ddns:" +:+ profile_id));
              ("resolvedEndpoint", PStr (text_of (get raw "resolvedEndpoint")))]).

Definition stun_profile (stun_rule_id : string) (listen_port : Z) (base : dict) : dict :=
  dupdate base [("hostname", PStr ""); ("stunRuleId", PStr stun_rule_id); ("bindingMode", PStr "router-native");
                ("forwardMode", PStr "router_native"); ("transportProtocol", PStr "UDP"); ("localTargetPort", PInt listen_port);
                ("owner", PStr ("stun:" +:+ stun_rule_id))].

(** [_validate_stun_binding] of the rule found. *)
Definition check_binding (rule : option dict) (listen_port : Z) : result unit :=
  match rule with
  | None => raise_value_error "STUN Profile 关联规则不存在"
  | Some rule =>
      if negb (truthy (get_or rule "enabled" (PBool false))) then raise_value_error "STUN Profile 关联规则必须已启用"
      else if negb (is_stun rule) then raise_value_error "STUN Profile 关联规则类型无效"
      else if negb (String.eqb (protocol_of rule) "UDP") then raise_value_error "WireGuard STUN Profile 必须关联 UDP 规则"
      else if negb (is_native_forward rule) then raise_value_error "WireGuard STUN Profile 必须使用路由器原生端口映射"
      else
        port ← int_or (get rule "targetPort") 0;
        if negb (port =? listen_port) then raise_value_error "STUN 规则目标端口必须等于 WireGuard 监听端口"
        else match ip_of_str (text_of (get rule "targetIpv4")) with
             | None => raise_value_error "STUN 规则目标必须是有效的路由器/Agent IPv4 地址"
             | Some a => if (ip_version a =? 4) && is_private a then Ok tt
                         else raise_value_error "STUN 规则目标必须是路由器/Agent 私有 IPv4 地址"
             end
  end.

(** ** Commands *)

(** Open commands of a scope that a newer revision replaces. *)
Definition outdated (router scope : string) (revision : Z) (row : dict) : result bool :=
  if is_text (get row "router") router && str_in (text_of (get row "revisionScope")) [""; scope] then
    r ← int_or (get row "revision") 0; mret ((r <=? revision) && is_open row)
  else Ok false.

Fixpoint drop_outdated (router scope : string) (revision : Z) (rows : list dict) : result (list dict) :=
  match rows with
  | [] => Ok []
  | row :: rows' =>
      old ← outdated router scope revision row;
      rest ← drop_outdated router scope revision rows';
      mret (if old : bool then rest else row :: rest)
  end.

Definition wg_command (token router action scope : string) (revision : Z) (payload : dict) (now : string) : dict :=
  [("id", PStr ("wg-cmd-" +:+ py_take 12 token)); ("router", PStr router); ("action", PStr action); ("revision", PInt revision);
   ("revisionScope", PStr scope); ("payload", PDict (dset "revision" (PInt revision) payload)); ("status", PStr "pending");
   ("attempts", PInt 0); ("createdAt", PStr now)].

(** A command a poll may take; the time of the last delivery is read for every command. *)
Definition wg_due (now : Z) (router : string) (row : dict) : result bool :=
  retry ← retry_due now row;
  mret (is_text (get row "router") router && (is_text (get row "status") "pending" || retry)).
Definition wg_keys : list string := ["id"; "action"; "revision"; "payload"; "createdAt"].

(** ** Endpoints *)

Definition strip_brackets (s : string) : string := strip_by (fun c => is_char "["%char c || is_char "]"%char c) s.

(** [host:port] with an address and a port in range. *)
Definition stun_endpoint (endpoint : string) : bool :=
  match rcut ":" endpoint with
  | Some (host, port) =>
      match ip_of_str (strip_brackets host), int_of_str port with
      | Some _, Some n => (1 <=? n) && (n <=? 65535)
      | _, _ => false
      end
  | None => false
  end.

(** The endpoint that is stored: a DDNS name without a port gets the port of its profile. *)
Definition stored_endpoint (source endpoint : string) (profile : dict) : result string :=
  if String.eqb source "stun" then
    if stun_endpoint endpoint then Ok endpoint else raise_value_error "STUN endpoint 必须包含公网 IP 和端口"
  else if String.eqb source "ddns" && nonempty endpoint && negb (contains ":" endpoint) then
    port ← item profile "port"; mret (endpoint +:+ ":" +:+ py_str port)
  else Ok endpoint.

(** What an updater has to get right before the endpoint changes. *)
Definition check_updater (profile : option dict) (source owner : string) (expected : option Z) : result (dict * Z) :=
  match profile with
  | None => raise_value_error "endpoint profile not found"
  | Some profile =>
      if String.eqb (text_of (get profile "endpointSource")) "manual"
      then raise_value_error "manual endpoint profile cannot be changed by an automatic updater"
      else if negb (String.eqb (text_of (get profile "endpointSource")) (lower source))
      then raise_value_error "endpoint updater does not own this profile"
      else if negb (nonempty owner) || negb (String.eqb (text_of (get profile "owner")) owner)
      then raise_value_error "endpoint owner does not match this profile"
      else
        current ← int_or (get profile "endpointRevision") 0;
        match expected with
        | None => raise_value_error "expectedEndpointRevision is required"
        | Some n => if n =? current then Ok (profile, current) else Err (Exn "RuntimeError" "endpoint revision conflict")
        end
  end.

(** The first profile with the id, changed in place. *)
Fixpoint change_first (f : dict -> bool) (row : dict) (rows : list dict) : list dict :=
  match rows with
  | [] => []
  | r :: rows' => if f r then row :: rows' else r :: change_first f row rows'
  end.
Definition has_profile_id (id : string) (row : dict) : bool := String.eqb (text_of (get row "id")) id.

(** ** Firewall rules *)

Definition interface_name_of (server : dict) : string := str_or (text_of (get server "interfaceName")) "labwg0".
Definition server_enabled (d : dict) : bool := truthy (get_or d "enabled" (PBool true)).

Definition lan_firewall_id (server : dict) : string := "wireguard-lan-" +:+ interface_name_of server.
Definition lan_firewall_rule (server : dict) : result dict :=
  match ip_interface (text_of (get server "address")) with
  | None => raise_value_error "WireGuard 服务端地址无效，无法建立 LAN 防火墙规则"
  | Some tunnel =>
      port ← int_or (get server "listenPort") 0;
      mret [("id", PStr (lan_firewall_id server)); ("kind", PStr "wireguard-lan-forward");
            ("firewallMode", PStr "wireguard_lan_forward"); ("enabled", PBool (server_enabled server));
            ("tunnelNetwork", PStr (net_str (if_net tunnel))); ("transportProtocol", PStr "ALL"); ("listenPort", PInt port)]
  end.

Definition ddns_firewall_id (profile : dict) : string := "wireguard-ddns-" +:+ text_of (get profile "id").
Definition ddns_firewall_rule (profile server : dict) : result dict :=
  port ← int_or (get server "listenPort") 0;
  mret [("id", PStr (ddns_firewall_id profile)); ("kind", PStr "wireguard");
        ("enabled", PBool (server_enabled server && server_enabled profile)); ("listenPort", PInt port);
        ("transportProtocol", PStr "UDP"); ("targetPort", PInt port); ("forwardMode", PStr "router_native")].

(** The DDNS profiles of a server, by id. *)
Definition is_ddns (row : dict) : bool := String.eqb (lower (text_of (get row "endpointSource"))) "ddns".
Definition ddns_profiles (server : dict) : result dict :=
  rows ← dict_rows (get_or server "endpointProfiles" (PList []));
  mret (rows_by_id (List.filter is_ddns rows)).

Definition forward_state (binding server : dict) : string :=
  if nonempty (text_of (get binding "uuid")) && nonempty (text_of (get binding "fingerprint")) && server_enabled server then "ready"
  else if negb (server_enabled server) then "not_required" else "pending".

Definition ip_forward_unknown (warning : string) : pyval := PDict [("state", PStr "unknown"); ("warning", PStr warning)].
Definition not_configured : dict :=
  [("state", PStr "not_configured"); ("firewall", PDict [("state", PStr "not_configured")]);
   ("ipForward", ip_forward_unknown "WireGuard 尚未配置")].

(** [lan_forward_status] of a server, with the bindings of the STUN service. *)
Definition forward_status (bindings server : dict) : result dict :=
  rule ← lan_firewall_rule server;
  let id := lan_firewall_id server in
  let state := forward_state (binding id bindings) server in
  mret [("state", PStr state);
        ("firewall", PDict [("state", PStr state); ("ruleId", PStr id); ("sourceNetwork", get rule "tunnelNetwork");
                            ("direction", PStr "forward"); ("outIface", PStr "lan"); ("target", PStr "ACCEPT")]);
        ("ipForward", ip_forward_unknown "路由器 Web API 未提供可读的 ip_forward 状态，Hub 未假设内核转发已开启")].
