(* ===== verification/WireGuardService.v ===== *)
(** * The WireGuard service and its handlers

    [WireGuardService] and [create_wireguard_blueprint] of [wireguard_service.py] over the documents
    of the Hub and the router. *)

From S2P Require Import Prelude PyNum PyVal PyIp PyTime HubValues Json Storage Hub Services AgentQueue AgentCmd PortMap RouterRpc RouterSite Stun StunService WireGuard.

(** ** Documents and commands *)

Section Documents.
Context {S : Type} `{DocStore S} {tz : TimeZone} (E : env).

Definition wg_document : hub S wg_doc := raw ← load_json "wireguard_server.json" (PDict []); lift (read_wg raw).

(** [_save_document]: a document with a secret is refused. *)
Definition save_wg (doc : wg_doc) : hub S unit :=
  if has_secret (PDict (wg_json doc)) then lift (raise_value_error "Hub 不允许保存 WireGuard 私钥或预共享密钥")
  else save_json "wireguard_server.json" (PDict (wg_json doc)).

Definition wg_queue_file : string := "wireguard_commands.json".
Definition wg_router_name : hub S string := name ← portmap_router_name E; mret (strip name).

(** [queue]: the last 500 commands are kept. *)
Definition wg_queue (action : string) (revision : Z) (payload : dict) (router scope : string) : hub S unit :=
  name ← (if nonempty router then mret router else name ← wg_router_name; mret (str_or name "router"));
  rows ← load_queue wg_queue_file;
  kept ← lift (drop_outdated name scope revision rows);
  token ← uuid_hex E;
  now ← utc_now;
  save_queue wg_queue_file (last_n 500 (kept ++ [wg_command token name action scope revision payload now])).

(** ** The STUN rules of the profiles *)

Definition stun_rule (id : string) : hub S (option dict) :=
  doc ← stun_document; mret (List.find (fun row => String.eqb (rule_id row) id) (rd_rules doc)).

(** [_sync_stun_rule_target_port]: the rules and whether one of them changed. *)
Definition retarget (id : string) (listen_port : Z) (rule : dict) : result (dict * bool) :=
  if String.eqb (rule_id rule) id then
    port ← int_or (get rule "targetPort") 0;
    mret (if port =? listen_port then (rule, false) else (dset "targetPort" (PInt listen_port) rule, true))
  else Ok (rule, false).

Definition sync_stun_target (id : string) (listen_port : Z) : hub S unit :=
  if negb (nonempty id) then mret tt
  else
    raw ← load_json "stun_rules.json" (PDict [("revision", PInt 0); ("rules", PList [])]);
    match raw with
    | PDict d =>
        rules ← lift (dict_rows (get_or d "rules" (PList [])));
        changed ← lift (result_map (retarget id listen_port) rules);
        if existsb snd (changed : list (dict * bool)) then
          revision ← lift (int_or (get d "revision") 0);
          now ← utc_now;
          save_json "stun_rules.json" (PDict (dupdate d
            [("rules", PList (List.map (fun x => PDict x.1) changed)); ("revision", PInt (revision + 1)); ("updatedAt", PStr now)]))
        else mret tt
    | _ => mret tt
    end.

(** ** [clean_server] *)

Fixpoint clean_peers (ids ks : list string) (raws : list pyval) : hub S (list dict) :=
  match raws with
  | [] => mret []
  | PDict raw :: raws' =>
      token ← (if nonempty (text_of (get raw "id")) then mret "" else uuid_hex E);
      '(peer_id, key, peer) ← lift (clean_peer ("peer-" +:+ py_take 10 token) ids ks raw);
      rest ← clean_peers (peer_id :: ids) (key :: ks) raws';
      mret (peer :: rest)
  | _ => lift (raise_value_error "Peer 配置无效")
  end.

(** The STUN rule of a profile follows a changed listening port when it pointed to the old one. *)
Definition follow_port (old : dict) (listen_port : Z) (id : string) : hub S unit :=
  if negb (truthy (PDict old)) then mret tt
  else
    was ← lift (int_or (get old "listenPort") 0);
    if was =? listen_port then mret tt
    else
      rule ← stun_rule id;
      match rule with
      | Some rule =>
          if negb (truthy (PDict rule)) then mret tt
          else target ← lift (int_or (get rule "targetPort") 0);
               if target =? was then sync_stun_target id listen_port else mret tt
      | None => mret tt
      end.

Definition clean_profile (old old_profiles : dict) (listen_port : Z) (seen : list string) (raw : dict) : hub S (string * dict) :=
  token ← (if nonempty (text_of (get raw "id")) then mret "" else uuid_hex E);
  let profile_id := str_or (text_of (get raw "id")) ("endpoint-" +:+ py_take 8 token) in
  let source := lower (text_of (get raw "endpointSource")) in
  if negb (fullmatch name_char 48 profile_id) || str_in profile_id seen then lift (raise_value_error "Endpoint Profile ID 无效或重复")
  else if negb (str_in source ["manual"; "ddns"; "stun"]) then lift (raise_value_error "Endpoint Source 只能是 manual、ddns 或 stun")
  else
    base ← lift (profile_base profile_id source listen_port raw (dict_or_empty (get old_profiles profile_id)));
    profile ← (if String.eqb source "manual" then lift (manual_profile raw base)
               else if String.eqb source "ddns" then lift (ddns_profile profile_id listen_port raw base)
               else if nonempty (text_of (get raw "hostname")) then lift (raise_value_error "STUN Profile 不能复用 DDNS 域名字段")
               else
                 let stun_rule_id := text_of (get raw "stunRuleId") in
                 if negb (fullmatch name_char 64 stun_rule_id) then lift (raise_value_error "STUN Profile 需要独立的 UDP 穿透规则")
                 else
                   _ ← follow_port old listen_port stun_rule_id;
                   rule ← stun_rule stun_rule_id;
                   _ ← lift (check_binding rule listen_port);
                   mret (stun_profile stun_rule_id listen_port base));
    mret (profile_id, profile).

Fixpoint clean_profiles (old old_profiles : dict) (listen_port : Z) (seen : list string) (raws : list pyval) : hub S (list dict) :=
  match raws with
  | [] => mret []
  | PDict raw :: raws' =>
      '(profile_id, profile) ← clean_profile old old_profiles listen_port seen raw;
      rest ← clean_profiles old old_profiles listen_port (profile_id :: seen) raws';
      mret (profile :: rest)
  | _ => lift (raise_value_error "Endpoint Profile 无效")
  end.

(** The fields before the peers. *)
Definition clean_network (payload old : dict) : result (string * interface * Z) :=
  let name := text_first [get payload "interfaceName"; get old "interfaceName"; PStr "labwg0"] in
  if negb (fullmatch interface_char 15 name) || String.eqb name "lo" then raise_value_error "WireGuard 接口名称无效"
  else match ip_interface (text_first [get payload "address"; get old "address"; PStr "10.77.0.1/24"]) with
       | None => raise_value_error "WireGuard 服务端地址无效"
       | Some address =>
           if negb (ip_version (if_ip address) =? 4) || negb (is_private (if_ip address))
           then raise_value_error "WireGuard 服务端必须使用私有 IPv4 地址段"
           else
             was ← int_or (get old "listenPort") 51820;
             listen_port ← int_or (get payload "listenPort") was;
             if negb ((1 <=? listen_port) && (listen_port <=? 65535)) then raise_value_error "WireGuard UDP 监听端口无效"
             else Ok (name, address, listen_port)
       end.

Definition rows_or_old (k : string) (payload old : dict) : result (list pyval) :=
  py_iter (por (get_or payload k (get_or old k (PList []))) (PList [])).

Definition clean_server (payload old : dict) : hub S dict :=
  if has_secret (PDict payload) then lift (raise_value_error "私钥只能保存在路由器 Agent 本地")
  else
    '(name, address, listen_port) ← lift (clean_network payload old);
    raws ← lift (rows_or_old "peers" payload old);
    peers ← clean_peers [] [] raws;
    if (64 <? List.length peers)%nat then lift (raise_value_error "MVP 最多支持 64 个 Peer")
    else
      old_rows ← lift (dict_rows (por (get old "endpointProfiles") (PList [])));
      raws ← lift (rows_or_old "endpointProfiles" payload old);
      profiles ← clean_profiles old (rows_by_id old_rows) listen_port [] raws;
      was ← lift (int_or (get old "mtu") 1420);
      mtu ← lift (int_or (get payload "mtu") was);
      if negb ((1280 <=? mtu) && (mtu <=? 1500)) then lift (raise_value_error "WireGuard MTU 必须在 1280–1500 之间")
      else mret [("interfaceName", PStr name); ("address", PStr (interface_str address)); ("listenPort", PInt listen_port); ("mtu", PInt mtu);
                 ("enabled", PBool (truthy (get_or payload "enabled" (get_or old "enabled" (PBool true)))));
                 ("peers", PList (List.map PDict peers)); ("endpointProfiles", PList (List.map PDict profiles))].

(** ** Endpoints *)

Definition endpoint_command (profile_id source owner endpoint : string) (current : Z) : dict :=
  [("profileId", PStr profile_id); ("endpointSource", PStr source); ("owner", PStr owner); ("endpoint", PStr endpoint);
   ("expectedEndpointRevision", PInt current); ("endpointRevision", PInt (current + 1))].

Definition update_endpoint (profile_id source owner endpoint : string) (expected : option Z) : hub S dict :=
  document ← wg_document;
  let server := server_of (wd_server document) in
  profiles ← lift (dict_rows (get_or server "endpointProfiles" (PList [])));
  '(profile, current) ← lift (check_updater (List.find (has_profile_id profile_id) profiles) source owner expected);
  endpoint ← lift (stored_endpoint source endpoint profile);
  now ← utc_now;
  let changed := dset "endpointUpdatedAt" (PStr now) (dset "endpointRevision" (PInt (current + 1))
                   (dset "resolvedEndpoint" (PStr endpoint) profile)) in
  let server := dset "endpointProfiles" (PList (List.map PDict (change_first (has_profile_id profile_id) changed profiles))) server in
  _ ← save_wg (WgDoc (wd_revision document) (wd_endpoint document + 1) now (Some server) (wd_tombstone document));
  _ ← wg_queue "endpoint" (current + 1) (endpoint_command profile_id source owner endpoint current) "" ("endpoint:" +:+ profile_id);
  mret changed.
End Documents.

(** ** Firewall rules of the server *)

Section Router.
Context {S R : Type} `{DocStore S} {tz : TimeZone} `{RouterClient R} `{RouterBatch R} `{Sha256} (E : env).

(** [except Exception: logger.warning(...)]. *)
Definition ignoring (m : router_prog S R unit) : router_prog S R unit := try_except m (fun _ => mret tt).

(** A rule that no longer fits is removed by its fingerprint and created again. *)
Definition ensure_owned (id : string) (rule : dict) : router_prog S R unit :=
  result ← ensure_firewall rule;
  if state_is result "verify_failed" then _ ← remove_firewall id; _ ← ensure_firewall rule; mret tt else mret tt.

Definition ensure_lan (server : dict) : router_prog S R unit := ignoring
  (rule ← lift (lan_firewall_rule server);
   if negb (server_enabled server) then remove_firewall (lan_firewall_id server) else ensure_owned (lan_firewall_id server) rule).

Definition remove_lan (server : option dict) : router_prog S R unit :=
  if negb (some_server server) then mret tt
  else ignoring (_ ← lift (lan_firewall_rule (server_of server)); remove_firewall (lan_firewall_id (server_of server))).

Definition sync_lan (old : option dict) (server : dict) : router_prog S R unit :=
  _ ← ignoring
    (_ ← (if some_server old then lift (lan_firewall_rule (server_of old)) else mret []);
     _ ← lift (lan_firewall_rule server);
     if some_server old && negb (String.eqb (lan_firewall_id (server_of old)) (lan_firewall_id server))
     then remove_firewall (lan_firewall_id (server_of old)) else mret tt);
  ensure_lan server.

Definition ensure_ddns (profile server : dict) : router_prog S R unit := ignoring
  (if negb (server_enabled server) || negb (server_enabled profile) then remove_firewall (ddns_firewall_id profile)
   else rule ← lift (ddns_firewall_rule profile server); ensure_owned (ddns_firewall_id profile) rule).
Definition remove_ddns (profile : dict) : router_prog S R unit := ignoring (remove_firewall (ddns_firewall_id profile)).

Definition sync_ddns (old : option dict) (server : dict) : router_prog S R unit :=
  old_profiles ← lift (ddns_profiles (server_of old));
  new_profiles ← lift (ddns_profiles server);
  _ ← for_each (fun kv => if has new_profiles kv.1 then mret tt else remove_ddns (dict_or_empty kv.2)) old_profiles;
  for_each (fun kv => ensure_ddns (dict_or_empty kv.2) server) new_profiles.

(** ** Changes of the server *)

Definition revision_conflict (expected : option Z) (document : wg_doc) : bool :=
  match expected with Some n => negb (n =? wd_revision document) | None => false end.
Definition conflict_error : exn := Exn "RuntimeError" "revision conflict".

Definition wg_put (payload : dict) (expected : option Z) : router_prog S R wg_doc :=
  document ← on_hub wg_document;
  if revision_conflict expected document then lift (Err conflict_error)
  else
    cleaned ← on_hub (clean_server E payload (server_of (wd_server document)));
    let revision := wd_revision document + 1 in
    let server := dset "revision" (PInt revision) cleaned in
    now ← on_hub utc_now;
    let saved := WgDoc revision (wd_endpoint document) now (Some server) None in
    _ ← on_hub (save_wg saved);
    _ ← on_hub (wg_queue E "apply" revision [("server", PDict server)] "" "server");
    _ ← ignoring (_ ← sync_ddns (wd_server document) server; sync_lan (wd_server document) server);
    mret saved.

Definition tombstone (revision : Z) (now : string) (old : dict) : dict :=
  [("revision", PInt revision); ("deletedAt", PStr now); ("interfaceName", PStr (interface_name_of old))].

Definition wg_delete (expected : option Z) : router_prog S R wg_doc :=
  document ← on_hub wg_document;
  if revision_conflict expected document then lift (Err conflict_error)
  else
    let old := server_of (wd_server document) in
    let revision := wd_revision document + 1 in
    now ← on_hub utc_now;
    let saved := WgDoc revision (wd_endpoint document) now None (Some (tombstone revision now old)) in
    _ ← on_hub (save_wg saved);
    _ ← on_hub (wg_queue E "delete" revision [("interfaceName", PStr (interface_name_of old)); ("tombstone", PBool true)] "" "server");
    _ ← ignoring
      (rows ← lift (py_iter (get_or old "endpointProfiles" (PList [])));
       _ ← for_each (fun v => match v with PDict row => if is_ddns row then remove_ddns row else mret tt | _ => mret tt end) (rows : list pyval);
       remove_lan (Some old));
    mret saved.

(** [lan_forward_status]: the server of the caller, or the one of the document. *)
Definition lan_forward_status (server : option dict) : hub S dict :=
  document ← (match server with Some d => mret (Some d) | None => doc ← wg_document; mret (wd_server doc) end);
  if negb (some_server document) then mret not_configured
  else bindings ← load_bindings firewall_file; lift (forward_status bindings (server_of document)).

(** ** The handlers *)

Definition wg_answer (doc : wg_doc) (extra : dict) : hub S response :=
  forwarding ← lan_forward_status (wd_server doc);
  mret (Response 200 (PDict (dupdate (("ok", PBool true) :: wg_json doc) (extra ++ [("lanForwarding", PDict forwarding)])))).

Definition wg_get (q : request) : hub S response :=
  allowed ← lift (check_read_token E q);
  if negb allowed then mret unauthorized
  else
    doc ← wg_document;
    status ← load_json "wireguard_agent_status.json" (PDict []);
    wg_answer doc [("agentStatus", PDict (dict_or_empty status))].

(** [_int(expected) if expected is not None else None]. *)
Definition expected_of (v : pyval) : result (option Z) := if is_none v then Ok None else n ← int_or v 0; Ok (Some n).

Definition is_runtime_error (e : exn) : bool := String.eqb (exn_class e) "RuntimeError".

Definition wg_change (q : request) (delete : bool) : router_prog S R response :=
  if negb (check_app_token E q) then mret unauthorized
  else
    payload ← lift (body_dict (json_body q));
    expected ← lift (expected_of (get payload "expectedRevision"));
    try_except
      (doc ← (if delete then wg_delete expected else wg_put payload expected);
       on_hub (wg_answer doc []))
      (fun e => if is_runtime_error e
                then doc ← on_hub wg_document;
                     mret (Response 409 (PDict [("ok", PBool false); ("error", PStr (exn_msg e)); ("currentRevision", PInt (wd_revision doc))]))
                else mret (error_response 400 (exn_msg e))).

Definition wg_endpoint (q : request) (profile_id : string) : hub S response :=
  if negb (check_app_token E q) then mret unauthorized
  else
    payload ← lift (body_dict (json_body q));
    try_except
      (expected ← lift (expected_of (get payload "expectedEndpointRevision"));
       profile ← update_endpoint E profile_id (text_of (get payload "endpointSource")) (text_of (get payload "owner"))
                   (text_of (get payload "endpoint")) expected;
       doc ← wg_document;
       mret (Response 200 (PDict [("ok", PBool true); ("profile", PDict profile); ("endpointRevision", PInt (wd_endpoint doc))])))
      (fun e => mret (error_response (if is_runtime_error e then 409 else 400) (exn_msg e))).

Definition wg_router_arg (q : request) : hub S string :=
  if nonempty (strip (arg q "router")) then mret (strip (arg q "router")) else wg_router_name E.

Definition wg_agent_commands (q : request) : hub S response :=
  if negb (check_hook_token E q) then mret bad_hook_token
  else
    router ← wg_router_arg q;
    wanted ← lift (int_or (arg_value q "limit") 10);
    out ← poll_queue wg_queue_file wg_due wg_keys router (Z.to_nat (clamp 1 20 wanted));
    mret (Response 200 (PDict [("ok", PBool true); ("commands", PList (List.map PDict out))])).

Definition wg_agent_ack (q : request) : hub S response :=
  if negb (check_hook_token E q) then mret bad_hook_token
  else
    acks ← lift (vget_or (json_body q) "acks" (PList []));
    rows ← lift (py_iter acks);
    n ← ack_queue wg_queue_file rows;
    mret (Response 200 (PDict [("ok", PBool true); ("acknowledged", PInt n)])).

Definition not_a_mapping {A} (v : pyval) : result A := Err (Exn "TypeError" ("'" +:+ type_name v +:+ "' object is not a mapping")).

(** A report of an Agent that runs an older revision files the present one again. *)
Definition wg_agent_status (q : request) : hub S response :=
  if negb (check_hook_token E q) then mret bad_hook_token
  else
    router ← wg_router_arg q;
    let body := json_body q in
    if has_secret body then mret (error_response 400 "secret material rejected")
    else
      received_at ← utc_now;
      now ← epoch;
      payload ← lift (match body with PDict d => Ok d | v => not_a_mapping v end);
      let record := dupdate [("router", PStr router); ("receivedAt", PStr received_at); ("receivedEpoch", PInt now)] payload in
      _ ← save_json "wireguard_agent_status.json" (PDict record);
      document ← wg_document;
      agent_revision ← lift (int_or (get payload "revision") 0);
      _ ← (if agent_revision <? wd_revision document then
             if some_server (wd_server document)
             then wg_queue E "apply" (wd_revision document) [("server", opt_value (wd_server document))] router "server"
             else if some_server (wd_tombstone document)
                  then wg_queue E "delete" (wd_revision document) (dset "tombstone" (PBool true) (server_of (wd_tombstone document))) router "server"
                  else mret tt
           else mret tt);
      mret (Response 200 (PDict [("ok", PBool true); ("receivedAt", get record "receivedAt"); ("desiredRevision", PInt (wd_revision document))])).
End Router.
