(* ===== verification/WireGuardSafe.v ===== *)
(** * WireGuard keeps secrets out of the Hub

    Every program of the WireGuard service and the programs of the STUN service it calls keep a
    property of the documents; applied to [has_secret] this shows that neither the desired state nor
    the reports of the Agent ever hold a key. *)

From S2P Require Import Prelude PyNum PyVal PyIp PyTime HubValues Json Storage Hub Services AgentQueue AgentQueueFacts AgentCmd PortMap RouterRpc RouterSite TypedStore Stun StunService StunRouterFacts WireGuard WireGuardService.

(** ** Plain values *)

Lemma plain_rows_in l : plain (PList l) -> List.Forall (fun row => plain (PDict row)) (omap (fun v => match v with PDict d => Some d | _ => None end) l).
Proof.
  inversion 1 as [| | | |l' Hl|]; subst. clear H. induction Hl as [|v l Hv _ IH]; cbn; [constructor|]. by destruct v; [..|constructor].
Qed.

Lemma dict_rows_plain v rows : plain v -> dict_rows v = Ok rows -> List.Forall (fun row => plain (PDict row)) rows.
Proof.
  intros Hv. unfold dict_rows. intros (l & Hl & [= <-])%result_bind_ok. apply plain_rows_in. destruct v; try done; cbn in Hl; injection Hl as <-.
  - constructor. apply List.Forall_forall. intros x (c & <- & _)%List.in_map_iff. constructor.
  - done.
  - constructor. apply List.Forall_forall. intros x (c & <- & _)%List.in_map_iff. constructor.
Qed.

Lemma result_map_all {A B} (f : A -> result B) (Q : A -> Prop) (Q' : B -> Prop) l ys :
  (forall x y, Q x -> f x = Ok y -> Q' y) -> List.Forall Q l -> result_map f l = Ok ys -> List.Forall Q' ys.
Proof.
  intros Hf Hl. revert ys. induction Hl as [|x l Hx _ IH]; cbn; intros ys; [intros [= <-]; constructor|].
  destruct (f x) eqn:Ef; [|done]. destruct (result_map f l); [|done]. intros [= <-]. constructor; eauto.
Qed.

(** ** Programs of the STUN service *)

Section Safe.
Context {S R : Type} `{DocStoreLaws S} {tz : TimeZone} `{RouterClient R} `{RouterBatch R} `{Sha256} (E : env).
(** The property says nothing about the documents the services keep for themselves. *)
Context (P : string -> pyval -> Prop) `{!DocTyping P}.
Definition own_files : list string := [firewall_file; "stun_rules.json"; wg_queue_file].
Context (Hfree : forall k v, str_in k own_files = true -> P k v).

Abbreviation always := (fun _ => True).

Ltac leaf := first [apply safe_same; by intros w | by apply safe_lift | by apply safe_ret].

Lemma load_bindings_safe : safe P (load_bindings firewall_file) (fun d => plain (PDict d)).
Proof.
  unfold load_bindings. eapply safe_bind; [apply safe_load, json_ok_empty|]. intros raw [Hraw _]. apply safe_ret.
  by apply json_ok_plain, bindings_of_ok.
Qed.

Lemma save_bindings_safe d : plain (PDict d) -> safe P (save_bindings firewall_file d) always.
Proof.
  intros Hd. unfold save_bindings. eapply (safe_bind _ _ _ always); [leaf|]. intros now _. apply (safe_save P); [done| |by apply Hfree].
  solve_plain.
Qed.

Lemma bound_safe rid result recorded bindings : plain (PDict recorded) -> plain (PDict bindings) ->
  site_safe (R := R) P (bound firewall_file rid result recorded bindings) always.
Proof.
  intros Hr Hb. unfold bound. eapply (site_safe_bind _ _ _ always); [|intros _ _; by apply site_safe_ret].
  apply site_safe_hub, save_bindings_safe. by apply plain_dset.
Qed.

Lemma firewall_binding_plain row : plain (PDict (firewall_binding row)).
Proof. unfold firewall_binding. solve_plain. Qed.

Lemma ensure_firewall_safe rule : site_safe (R := R) P (ensure_firewall rule) always.
Proof.
  unfold ensure_firewall. eapply (site_safe_bind _ _ _ always); [by apply site_safe_lift|]. intros expected _.
  eapply site_safe_bind; [apply site_safe_hub, load_bindings_safe|]. intros bindings Hb.
  eapply site_safe_bind; [apply site_safe_firewall|]. intros current _.
  eapply (site_safe_bind _ _ _ always); [by apply site_safe_lift|]. intros rows _. cbv zeta.
  assert (forall row result, site_safe (R := R) P (bound firewall_file (py_str (get rule "id")) result (firewall_binding row) bindings) always) as Hbound
    by (intros; apply bound_safe; [apply firewall_binding_plain|done]).
  assert (forall d : dict, site_safe (R := R) P (mret d : router_prog S R dict) always) as Hret by (intros; by apply site_safe_ret).
  assert (site_safe P
    (full ← lift (table_full current (list_or_empty (get current "list")));
     if full : bool then mret (state_message "full" "路由器防火墙规则已满")
     else verified ← write_and_verify "firewall" (call "devConfig.add" "ip_firewall" (PDict [("list", PList [PDict expected])])) firewall;
          rows ← lift (firewall_list verified);
          match List.find (fun row => matches_row row expected) rows with
          | Some row => if nonempty (text_of (get row "uuid")) then bound firewall_file (py_str (get rule "id")) (ready_firewall row) (firewall_binding row) bindings
                        else mret (state_message "verify_failed" "防火墙规则创建后未能确认")
          | None => mret (state_message "verify_failed" "防火墙规则创建后未能确认")
          end) always) as Hadd.
  { eapply (site_safe_bind _ _ _ always); [by apply site_safe_lift|]. intros full _. destruct (full : bool); [apply Hret|].
    eapply site_safe_bind; [apply site_safe_write; [apply site_safe_call|apply site_safe_firewall]|]. intros verified _.
    eapply (site_safe_bind _ _ _ always); [by apply site_safe_lift|]. intros found _.
    destruct (List.find _ _); [|apply Hret]. case_match; [apply Hbound|apply Hret]. }
  destruct (present _) as [row|]; [|repeat case_match; first [exact Hadd|apply Hret]].
  destruct (edited _ _); [apply Hret|]. destruct (negb _); [apply Hret|apply Hbound].
Qed.

Lemma remove_firewall_safe rid : site_safe (R := R) P (remove_firewall rid) always.
Proof.
  unfold remove_firewall. eapply site_safe_bind; [apply site_safe_hub, load_bindings_safe|]. intros bindings Hb. cbv zeta.
  destruct (negb _); [by apply site_safe_ret|]. eapply site_safe_bind; [apply site_safe_firewall|]. intros current _.
  eapply (site_safe_bind _ _ _ always); [by apply site_safe_lift|]. intros rows _. eapply (site_safe_bind _ _ _ always).
  - destruct (present _); [|by apply site_safe_ret]. case_match; [|by apply site_safe_ret].
    apply site_safe_write; [apply site_safe_call|apply site_safe_firewall].
  - intros _ _. apply site_safe_hub, save_bindings_safe. by apply plain_ddel.
Qed.

(** ** Documents and commands of the WireGuard service *)

Record doc_plain (doc : wg_doc) : Prop := {
  dp_server : forall d, wd_server doc = Some d -> plain (PDict d);
  dp_tombstone : forall d, wd_tombstone doc = Some d -> plain (PDict d);
}.

Lemma server_of_plain doc : doc_plain doc -> plain (PDict (server_of (wd_server doc))).
Proof. intros [Hs _]. destruct (wd_server doc); [by apply Hs|apply plain_empty]. Qed.

Lemma opt_value_plain o : (forall d, o = Some d -> plain (PDict d)) -> plain (opt_value o).
Proof. intros Ho. destruct o; [by apply Ho|constructor]. Qed.

Lemma wg_json_plain doc : doc_plain doc -> plain (PDict (wg_json doc)).
Proof.
  intros [Hs Ht]. pose proof (opt_value_plain _ Hs). pose proof (opt_value_plain _ Ht). unfold wg_json. solve_plain.
Qed.

Lemma read_wg_plain raw doc : plain raw -> read_wg raw = Ok doc -> doc_plain doc.
Proof.
  intros Hraw. pose proof (plain_dict_or_empty raw Hraw) as Hd. unfold read_wg. set (d0 := dict_or_empty raw) in *.
  intros (revision & _ & (endpoint & _ & [= <-])%result_bind_ok)%result_bind_ok. constructor; cbn; intros d.
  - pose proof (plain_get d0 "server" Hd) as Hg. destruct (get d0 "server"); try done. by intros [= <-].
  - pose proof (plain_get d0 "tombstone" Hd) as Hg. destruct (get d0 "tombstone"); try done. by intros [= <-].
Qed.

Lemma wg_document_safe : safe P wg_document doc_plain.
Proof.
  unfold wg_document. eapply safe_bind; [apply safe_load, json_ok_empty|]. intros raw [Hraw _].
  apply safe_lift. intros doc. apply read_wg_plain. by apply json_ok_plain.
Qed.

Lemma load_queue_safe : safe P (load_queue wg_queue_file) (fun rows => List.Forall (fun row => plain (PDict row)) rows).
Proof.
  unfold load_queue. eapply safe_bind.
  { apply safe_load. repeat constructor. intros []. }
  intros raw [Hraw _]. apply safe_lift. intros rows. apply json_ok_plain in Hraw. unfold read_commands.
  destruct raw; try by (intros [= <-]; constructor). apply dict_rows_plain. apply plain_get_or; [done|by repeat constructor].
Qed.

Lemma save_queue_safe rows : List.Forall (fun row => plain (PDict row)) rows -> safe P (save_queue wg_queue_file rows) always.
Proof. intros Hr. apply (safe_save P); [done|by apply plain_queue_doc|by apply Hfree]. Qed.

Lemma drop_outdated_incl router scope revision rows kept :
  drop_outdated router scope revision rows = Ok kept -> forall row, In row kept -> In row rows.
Proof.
  revert kept. induction rows as [|r rows IH]; cbn; intros kept; [by intros [= <-]|].
  intros (old & _ & (rest & Hrest & [= <-])%result_bind_ok)%result_bind_ok row. destruct old; cbn; [|intros [->|Hin]; [by left|]].
  - intros Hin. right. by eapply IH.
  - right. by eapply IH.
Qed.

Lemma wg_router_name_safe : safe P (wg_router_name E) always.
Proof.
  apply safe_same. intros w. unfold wg_router_name. rewrite prog_bind_eq.
  change (portmap_router_name E w) with (match portmap_router_name E w with (a, _) => (a, w) end).
  by destruct (portmap_router_name E w) as [[]].
Qed.

Lemma wg_command_plain token router action scope revision payload now : plain (PDict payload) ->
  plain (PDict (wg_command token router action scope revision payload now)).
Proof. intros Hp. assert (plain (PDict (dset "revision" (PInt revision) payload))) by (apply plain_dset; [constructor|done]). unfold wg_command. solve_plain. Qed.

Lemma wg_queue_safe action revision payload router scope : plain (PDict payload) ->
  safe P (wg_queue E action revision payload router scope) always.
Proof.
  intros Hp. unfold wg_queue. eapply (safe_bind _ _ _ always).
  { destruct (nonempty router); [leaf|]. eapply safe_bind; [apply wg_router_name_safe|]. intros name _. leaf. }
  intros name _. eapply safe_bind; [apply load_queue_safe|]. intros rows Hrows.
  eapply (safe_bind _ _ _ (fun kept => List.Forall (fun row => plain (PDict row)) kept)).
  { apply safe_lift. intros kept Hk. rewrite List.Forall_forall in *. intros row Hin. eapply Hrows, drop_outdated_incl; eauto. }
  intros kept Hkept. eapply (safe_bind _ _ _ always); [leaf|]. intros token _. eapply (safe_bind _ _ _ always); [leaf|]. intros now _.
  apply save_queue_safe. apply List.Forall_forall. intros row Hin%last_n_incl. apply List.in_app_iff in Hin as [Hin|[<-|[]]].
  - by apply (proj1 (List.Forall_forall _ _) Hkept).
  - by apply wg_command_plain.
Qed.

Lemma handed_out_plain due router now now_text limit rows rows' out : List.Forall (fun row => plain (PDict row)) rows ->
  hand_out due wg_keys now now_text router limit rows = Ok (rows', out) -> List.Forall (fun row => plain (PDict row)) rows'.
Proof.
  intros Hrows. revert limit rows' out. induction Hrows as [|row rows Hrow Hrows IH]; intros limit rows' out; cbn; [by intros [= <- _]|].
  destruct limit as [|n]; [intros [= <- _]; by constructor|].
  intros (ready & _ & Hr)%result_bind_ok. destruct ready.
  - apply result_bind_ok in Hr as (row' & Hrow' & ([rest o] & Hrest & [= <- _])%result_bind_ok). constructor; [|by eapply IH].
    revert Hrow'. unfold handed_out. intros (n0 & _ & [= <-])%result_bind_ok. by repeat (apply plain_dset; [constructor|]).
  - apply result_bind_ok in Hr as ([rest o] & Hrest & [= <- _]). constructor; [done|by eapply IH].
Qed.

Lemma poll_safe due router limit : safe P (poll_queue wg_queue_file due wg_keys router limit) always.
Proof.
  unfold poll_queue. eapply (safe_bind _ _ _ always); [leaf|]. intros now _. eapply (safe_bind _ _ _ always); [leaf|]. intros now_text _.
  eapply safe_bind; [apply load_queue_safe|]. intros rows Hrows.
  eapply (safe_bind _ _ _ (fun x => List.Forall (fun row => plain (PDict row)) x.1)).
  { apply safe_lift. intros [rows' out]. by apply handed_out_plain. }
  intros [rows' out] Hr. eapply (safe_bind _ _ _ always); [destruct out; [leaf|by apply save_queue_safe]|]. intros _ _. leaf.
Qed.

Lemma acknowledge_plain now values row : plain (PDict values) -> plain (PDict row) -> plain (PDict (acknowledge now values row)).
Proof.
  intros Hv Hrow. unfold acknowledge. pose proof (plain_get values (text_of (get row "id")) Hv) as Hack.
  destruct (get values _) as [| | | | | |ack]; try done. destruct (truthy _); [|done].
  repeat (apply plain_dset; [first [by apply plain_get|constructor]|]). done.
Qed.

Lemma ack_safe acks : List.Forall plain acks -> safe P (ack_queue wg_queue_file acks) always.
Proof.
  intros Hacks. unfold ack_queue. eapply safe_bind; [apply load_queue_safe|]. intros rows Hrows.
  eapply (safe_bind _ _ _ always); [leaf|]. intros now _. eapply (safe_bind _ _ _ always); [|intros _ _; leaf].
  destruct (List.filter _ rows); [leaf|]. apply save_queue_safe. apply List.Forall_map. eapply List.Forall_impl; [|exact Hrows].
  intros row. apply acknowledge_plain. by apply ack_map_plain.
Qed.

(** ** The STUN rules behind the profiles *)

Lemma stun_document_safe : safe P stun_document always.
Proof. apply safe_same. by intros w. Qed.

Lemma sync_stun_target_safe id listen_port : safe P (sync_stun_target id listen_port) always.
Proof.
  unfold sync_stun_target. destruct (negb _); [leaf|]. eapply safe_bind.
  { apply safe_load. apply json_okb_sound. vm_compute. reflexivity. }
  intros raw [Hraw%json_ok_plain _]. destruct raw as [| | | | | |d]; try leaf.
  eapply (safe_bind _ _ _ (fun rows => List.Forall (fun row => plain (PDict row)) rows)).
  { apply safe_lift. intros rows. apply dict_rows_plain. apply plain_get_or; [done|by repeat constructor]. }
  intros rows Hrows. eapply (safe_bind _ _ _ (fun l => List.Forall (fun x => plain (PDict x.1)) l)).
  { apply safe_lift. intros l. apply (result_map_all _ (fun row => plain (PDict row))); [|done]. intros row [row' b] Hrow. unfold retarget.
    destruct (String.eqb _ _); [|by intros [= <- _]]. intros (port & _ & Hx)%result_bind_ok. destruct (port =? listen_port); injection Hx as <- _; [done|].
    by apply plain_dset; [constructor|]. }
  intros l Hl. destruct (existsb snd l); [|leaf]. eapply (safe_bind _ _ _ always); [by apply safe_lift|]. intros revision _.
  eapply (safe_bind _ _ _ always); [leaf|]. intros now _. apply (safe_save P); [done| |by apply Hfree].
  apply plain_dupdate; [done|]. repeat constructor. cbn. by apply List.Forall_map.
Qed.

Lemma follow_port_safe old listen_port id : safe P (follow_port old listen_port id) always.
Proof.
  unfold follow_port. destruct (negb _); [leaf|]. eapply (safe_bind _ _ _ always); [by apply safe_lift|]. intros was _.
  destruct (was =? listen_port); [leaf|]. eapply (safe_bind _ _ _ always).
  { eapply safe_bind; [apply stun_document_safe|]. intros doc _. leaf. }
  intros [rule|] _; [|leaf]. destruct (negb _); [leaf|]. eapply (safe_bind _ _ _ always); [by apply safe_lift|]. intros target _.
  destruct (target =? was); [apply sync_stun_target_safe|leaf].
Qed.

(** ** A cleaned server is plain *)

Lemma clean_peer_plain fresh ids ks raw x : clean_peer fresh ids ks raw = Ok x -> plain (PDict x.2).
Proof.
  unfold clean_peer. destruct (_ || _); [done|]. intros (key & _ & Hk)%result_bind_ok. destruct (str_in key ks); [done|].
  apply result_bind_ok in Hk as (values & _ & (allowed & Ha & Hk)%result_bind_ok).
  assert (plain (PList allowed)) as Hallowed.
  { constructor. eapply (result_map_all _ (fun _ => True)); [|by apply List.Forall_forall|exact Ha].
    intros v y _. unfold allowed_ip. destruct (ip_network _); [|done]. intros [= <-]. constructor. }
  destruct allowed; [done|]. apply result_bind_ok in Hk as (keepalive & _ & Hk). destruct (negb _); [done|]. injection Hk as <-. cbn [snd].
  solve_plain.
Qed.

Lemma clean_peers_safe ids ks raws : safe P (clean_peers E ids ks raws) (fun rows => List.Forall (fun row => plain (PDict row)) rows).
Proof.
  revert ids ks. induction raws as [|raw raws IH]; intros ids ks; cbn; [by apply safe_ret|]. destruct raw as [| | | | | |raw]; try by apply safe_lift.
  eapply (safe_bind _ _ _ always); [destruct (nonempty _); leaf|]. intros token _.
  eapply (safe_bind _ _ _ (fun x => plain (PDict x.2))); [apply safe_lift, clean_peer_plain|]. intros [[peer_id key] peer] Hpeer.
  eapply safe_bind; [apply IH|]. intros rest Hrest. apply safe_ret. by constructor.
Qed.

Lemma profile_base_plain id source port raw old base : profile_base id source port raw old = Ok base -> plain (PDict base).
Proof.
  unfold profile_base. intros (n & _ & (revision & _ & Hb)%result_bind_ok)%result_bind_ok. destruct (negb _); [done|].
  injection Hb as <-. solve_plain.
Qed.

Lemma manual_profile_plain raw base profile : plain (PDict base) -> manual_profile raw base = Ok profile -> plain (PDict profile).
Proof. intros Hb. unfold manual_profile. destruct (negb _); [done|]. intros [= <-]. by repeat (apply plain_dset; [constructor|]). Qed.

Lemma ddns_profile_plain id port raw base profile : plain (PDict base) -> ddns_profile id port raw base = Ok profile -> plain (PDict profile).
Proof.
  intros Hb. unfold ddns_profile. destruct (_ || _); [done|]. intros [= <-].
  by repeat (apply plain_dset; [constructor|]).
Qed.

Lemma stun_profile_plain id port base : plain (PDict base) -> plain (PDict (stun_profile id port base)).
Proof. intros Hb. unfold stun_profile. apply plain_dupdate; [done|]. by repeat constructor. Qed.

Lemma clean_profile_safe old old_profiles port seen raw :
  safe P (clean_profile E old old_profiles port seen raw) (fun x => plain (PDict x.2)).
Proof.
  unfold clean_profile. eapply (safe_bind _ _ _ always); [destruct (nonempty _); leaf|]. intros token _. cbv zeta.
  destruct (_ || _); [by apply safe_lift|]. destruct (negb _); [by apply safe_lift|].
  eapply (safe_bind _ _ _ (fun base => plain (PDict base))); [apply safe_lift; intros base; apply profile_base_plain|]. intros base Hbase.
  eapply (safe_bind _ _ _ (fun profile => plain (PDict profile))); [|intros profile Hp; by apply safe_ret].
  destruct (String.eqb _ "manual"); [apply safe_lift; intros p; by apply manual_profile_plain|].
  destruct (String.eqb _ "ddns"); [apply safe_lift; intros p; by apply ddns_profile_plain|].
  destruct (nonempty _); [by apply safe_lift|]. destruct (negb _); [by apply safe_lift|].
  eapply safe_bind; [apply follow_port_safe|]. intros _ _. eapply (safe_bind _ _ _ always).
  { eapply safe_bind; [apply stun_document_safe|]. intros doc _. leaf. }
  intros rule _. eapply (safe_bind _ _ _ always); [by apply safe_lift|]. intros _ _. apply safe_ret. by apply stun_profile_plain.
Qed.

Lemma clean_profiles_safe old old_profiles port seen raws :
  safe P (clean_profiles E old old_profiles port seen raws) (fun rows => List.Forall (fun row => plain (PDict row)) rows).
Proof.
  revert seen. induction raws as [|raw raws IH]; intros seen; cbn; [by apply safe_ret|]. destruct raw as [| | | | | |raw]; try by apply safe_lift.
  eapply safe_bind; [apply clean_profile_safe|]. intros [id profile] Hp. eapply safe_bind; [apply IH|]. intros rest Hrest.
  apply safe_ret. by constructor.
Qed.

Lemma clean_server_safe payload old : safe P (clean_server E payload old) (fun server => plain (PDict server)).
Proof.
  unfold clean_server. destruct (has_secret _); [by apply safe_lift|]. eapply (safe_bind _ _ _ always); [by apply safe_lift|].
  intros [[name address] port] _. eapply (safe_bind _ _ _ always); [by apply safe_lift|]. intros raws _.
  eapply safe_bind; [apply clean_peers_safe|]. intros peers Hpeers. destruct (_ <? _)%nat; [by apply safe_lift|].
  eapply (safe_bind _ _ _ always); [by apply safe_lift|]. intros old_rows _. eapply (safe_bind _ _ _ always); [by apply safe_lift|]. intros raws' _.
  eapply safe_bind; [apply clean_profiles_safe|]. intros profiles Hprofiles.
  eapply (safe_bind _ _ _ always); [by apply safe_lift|]. intros was _. eapply (safe_bind _ _ _ always); [by apply safe_lift|]. intros mtu _.
  destruct (negb _); [by apply safe_lift|]. apply safe_ret. pose proof (plain_dicts _ Hpeers). pose proof (plain_dicts _ Hprofiles). solve_plain.
Qed.

(** ** Changes of the server and the handlers *)

Context (Hsave : forall doc, has_secret (PDict (wg_json doc)) = false -> P "wireguard_server.json" (PDict (wg_json doc))).
Context (Hstatus : forall v, has_secret v = false -> P "wireguard_agent_status.json" v).

Lemma save_wg_safe doc : doc_plain doc -> safe P (save_wg doc) always.
Proof.
  intros Hd. unfold save_wg. destruct (has_secret _) eqn:Es; [by apply safe_lift|].
  apply (safe_save P); [done|by apply wg_json_plain|by apply Hsave].
Qed.

Lemma change_first_plain f row rows : plain (PDict row) -> List.Forall (fun row => plain (PDict row)) rows ->
  List.Forall (fun row => plain (PDict row)) (change_first f row rows).
Proof. intros Hrow. induction 1 as [|r rows Hr Hrows IH]; cbn; [constructor|]. destruct (f r); by constructor. Qed.

Lemma update_endpoint_safe id source owner endpoint expected : safe P (update_endpoint E id source owner endpoint expected) always.
Proof.
  unfold update_endpoint. eapply safe_bind; [apply wg_document_safe|]. intros doc Hdoc. pose proof (server_of_plain _ Hdoc) as Hserver. cbv zeta.
  eapply (safe_bind _ _ _ (fun rows => List.Forall (fun row => plain (PDict row)) rows)).
  { apply safe_lift. intros rows. apply dict_rows_plain. apply plain_get_or; [done|by repeat constructor]. }
  intros rows Hrows. eapply (safe_bind _ _ _ (fun x => plain (PDict x.1))).
  { apply safe_lift. intros x. unfold check_updater. destruct (List.find _ rows) as [profile|] eqn:Ef; [|done].
    apply List.find_some in Ef as [Hin _]. apply (proj1 (List.Forall_forall _ _) Hrows) in Hin.
    destruct (String.eqb _ "manual"); [done|]. destruct (negb (String.eqb _ (lower source))); [done|]. destruct (_ || _); [done|].
    intros (current & _ & Hx)%result_bind_ok. destruct expected as [n|]; [|done]. destruct (n =? current); [|done]. by injection Hx as <-. }
  intros [profile current] Hprofile. eapply (safe_bind _ _ _ always); [by apply safe_lift|]. intros stored _.
  eapply (safe_bind _ _ _ always); [leaf|]. intros now _. cbn [fst] in Hprofile.
  match goal with |- context [change_first _ ?c _] => set (changed := c) end.
  assert (plain (PDict changed)) as Hchanged by (unfold changed; by repeat (apply plain_dset; [constructor|])).
  eapply (safe_bind _ _ _ always).
  - apply save_wg_safe. constructor; cbn; [|apply Hdoc]. intros d [= <-]. apply plain_dset; [|done].
    apply plain_dicts. by apply change_first_plain.
  - intros _ _. eapply (safe_bind _ _ _ always); [|intros _ _; leaf]. apply wg_queue_safe. unfold endpoint_command. solve_plain.
Qed.

Lemma ignoring_safe (m : router_prog S R unit) : site_safe P m always -> site_safe P (ignoring m) always.
Proof. intros Hm. unfold ignoring. apply site_safe_try; [done|]. intros e. by apply site_safe_ret. Qed.

Lemma ensure_owned_safe id rule : site_safe (R := R) P (ensure_owned id rule) always.
Proof.
  unfold ensure_owned. eapply site_safe_bind; [apply ensure_firewall_safe|]. intros result _. destruct (state_is _ _); [|by apply site_safe_ret].
  eapply site_safe_bind; [apply remove_firewall_safe|]. intros _ _. eapply site_safe_bind; [apply ensure_firewall_safe|]. intros _ _. by apply site_safe_ret.
Qed.

Lemma sync_ddns_safe old server : site_safe (R := R) P (sync_ddns old server) always.
Proof.
  unfold sync_ddns. eapply (site_safe_bind _ _ _ always); [by apply site_safe_lift|]. intros old_profiles _.
  eapply (site_safe_bind _ _ _ always); [by apply site_safe_lift|]. intros new_profiles _. eapply (site_safe_bind _ _ _ always).
  - apply site_safe_for_each. intros kv _. destruct (has _ _); [by apply site_safe_ret|]. apply ignoring_safe, remove_firewall_safe.
  - intros _ _. apply site_safe_for_each. intros kv _. apply ignoring_safe. destruct (_ || _); [apply remove_firewall_safe|].
    eapply (site_safe_bind _ _ _ always); [by apply site_safe_lift|]. intros rule _. apply ensure_owned_safe.
Qed.

Lemma sync_lan_safe old server : site_safe (R := R) P (sync_lan old server) always.
Proof.
  unfold sync_lan. eapply (site_safe_bind _ _ _ always).
  - apply ignoring_safe. eapply (site_safe_bind _ _ _ always); [destruct (some_server old); [by apply site_safe_lift|by apply site_safe_ret]|].
    intros _ _. eapply (site_safe_bind _ _ _ always); [by apply site_safe_lift|]. intros _ _.
    destruct (_ && _); [apply remove_firewall_safe|by apply site_safe_ret].
  - intros _ _. apply ignoring_safe. eapply (site_safe_bind _ _ _ always); [by apply site_safe_lift|]. intros rule _.
    destruct (negb _); [apply remove_firewall_safe|apply ensure_owned_safe].
Qed.

Lemma remove_lan_safe server : site_safe (R := R) P (remove_lan server) always.
Proof.
  unfold remove_lan. destruct (negb _); [by apply site_safe_ret|]. apply ignoring_safe.
  eapply (site_safe_bind _ _ _ always); [by apply site_safe_lift|]. intros _ _. apply remove_firewall_safe.
Qed.

Lemma wg_put_safe payload expected : site_safe (R := R) P (wg_put E payload expected) always.
Proof.
  unfold wg_put. eapply site_safe_bind; [apply site_safe_hub, wg_document_safe|]. intros doc Hdoc.
  destruct (revision_conflict _ _); [by apply site_safe_lift|]. eapply site_safe_bind; [apply site_safe_hub, clean_server_safe|].
  intros cleaned Hcleaned. cbv zeta. eapply (site_safe_bind _ _ _ always); [apply site_safe_hub; leaf|]. intros now _.
  assert (plain (PDict (dset "revision" (PInt (wd_revision doc + 1)) cleaned))) as Hserver by (apply plain_dset; [constructor|done]).
  eapply (site_safe_bind _ _ _ always).
  { apply site_safe_hub, save_wg_safe. constructor; cbn; [by intros d [= <-]|done]. }
  intros _ _. eapply (site_safe_bind _ _ _ always); [apply site_safe_hub, wg_queue_safe; solve_plain|]. intros _ _.
  eapply (site_safe_bind _ _ _ always).
  - apply ignoring_safe. eapply site_safe_bind; [apply sync_ddns_safe|]. intros _ _. apply sync_lan_safe.
  - intros _ _. by apply site_safe_ret.
Qed.

Lemma wg_delete_safe expected : site_safe (R := R) P (wg_delete E expected) always.
Proof.
  unfold wg_delete. eapply site_safe_bind; [apply site_safe_hub, wg_document_safe|]. intros doc Hdoc.
  destruct (revision_conflict _ _); [by apply site_safe_lift|]. cbv zeta. eapply (site_safe_bind _ _ _ always); [apply site_safe_hub; leaf|]. intros now _.
  eapply (site_safe_bind _ _ _ always).
  { apply site_safe_hub, save_wg_safe. constructor; cbn; [done|]. intros d [= <-]. unfold tombstone. solve_plain. }
  intros _ _. eapply (site_safe_bind _ _ _ always); [apply site_safe_hub, wg_queue_safe; solve_plain|]. intros _ _.
  eapply (site_safe_bind _ _ _ always); [|intros _ _; by apply site_safe_ret].
  apply ignoring_safe. eapply (site_safe_bind _ _ _ always); [by apply site_safe_lift|]. intros rows _.
  eapply (site_safe_bind _ _ _ always); [|intros _ _; apply remove_lan_safe].
  apply site_safe_for_each. intros v _. destruct v; try by apply site_safe_ret. case_match; [apply ignoring_safe, remove_firewall_safe|by apply site_safe_ret].
Qed.
End Safe.
