(* ===== verification/WireGuardFacts.v ===== *)
(** * Facts about the WireGuard service

    No secret reaches the desired state or the reports, accepted servers are valid, revisions grow by
    one, an updater only touches its own profile, and an Agent that lags behind gets the present
    state again. *)

From S2P Require Import Prelude PyNum PyVal PyIp PyTime HubValues Json Storage Hub Services AgentQueue AgentQueueFacts AgentCmd PortMap RouterRpc RouterSite TypedStore Fixtures RouterFixture Stun StunService StunFacts StunRouterFacts WireGuard WireGuardService WireGuardSafe.

(** ** Secrets *)

Lemma existsb_perm {A} (f : A -> bool) l l' : Permutation l l' -> existsb f l = existsb f l'.
Proof. induction 1 as [|x l l' _ IH|x y l|l l' l'' _ IH1 _ IH2]; cbn; [done|by rewrite IH|by destruct (f x), (f y)|by rewrite IH1]. Qed.

Lemma has_secret_sorted v : has_secret (sort_keys v) = has_secret v.
Proof.
  induction v as [| | | | |l IH|d IH] using pyval_ind'; try done.
  - cbn. induction IH as [|v l Hv _ IHl]; cbn; [done|]. by rewrite Hv, IHl.
  - change (sort_keys (PDict d)) with (PDict (sorted_dict d)). unfold sorted_dict.
    transitivity (has_secret (PDict (List.map (fun kv => (kv.1, sort_keys kv.2)) d))); [apply existsb_perm, isort_perm|].
    induction IH as [|[k v] d Hv _ IHd]; [done|]. cbn in *. by rewrite Hv, IHd.
Qed.

Definition secret_name (k : string) : bool := str_in (normalized_key k) secret_names.

Lemma has_secret_cons k v d : has_secret (PDict ((k, v) :: d)) = (secret_name k || has_secret v) || has_secret (PDict d).
Proof. done. Qed.

Lemma has_secret_dset k v d : has_secret (PDict d) = false -> secret_name k = false -> has_secret v = false -> has_secret (PDict (dset k v d)) = false.
Proof.
  intros Hd Hk Hv. induction d as [|[k' v'] d IH]; cbn [dset]; [by rewrite has_secret_cons, Hk, Hv|].
  rewrite has_secret_cons in Hd. apply orb_false_elim in Hd as [Hk' Hd]. apply orb_false_elim in Hk' as [Hk' Hv'].
  destruct (String.eqb k k'); rewrite has_secret_cons; [by rewrite Hk', Hv, Hd|by rewrite Hk', Hv', IH].
Qed.

Lemma has_secret_dupdate d e : has_secret (PDict d) = false -> has_secret (PDict e) = false -> has_secret (PDict (dupdate d e)) = false.
Proof.
  unfold dupdate. revert d. induction e as [|[k v] e IH]; intros d Hd He; cbn [fold_left]; [done|].
  rewrite has_secret_cons in He. apply orb_false_elim in He as [He1 He2]. apply orb_false_elim in He1 as [Hk Hv]. apply IH; [|done]. by apply has_secret_dset.
Qed.

(** The documents that must not hold a secret. *)
Definition guarded_files : list string := ["wireguard_server.json"; "wireguard_agent_status.json"].
Definition secret_free (k : string) (v : pyval) : Prop := str_in k guarded_files = true -> has_secret v = false.

#[export] Instance secret_free_typing : DocTyping secret_free.
Proof. constructor. intros k v _ Hv Hk. rewrite has_secret_sorted. by apply Hv. Qed.

Section Secrets.
Context {S R : Type} `{DocStoreLaws S} {tz : TimeZone} `{RouterClient R} `{RouterBatch R} `{Sha256} (E : env).

Abbreviation always := (fun _ => True).
Ltac leaf := first [apply safe_same; by intros w | by apply safe_lift | by apply safe_ret].

Lemma free_of_secrets k v : str_in k own_files = true -> secret_free k v.
Proof. intros Hk Hg. apply str_in_spec in Hk, Hg. cbn in Hk, Hg. by destruct Hk as [<-|[<-|[<-|[]]]]; destruct Hg as [?|[?|[]]]. Qed.

Lemma saved_free doc : has_secret (PDict (wg_json doc)) = false -> secret_free "wireguard_server.json" (PDict (wg_json doc)).
Proof. by intros Hs _. Qed.

Lemma lan_forward_status_safe (P : string -> pyval -> Prop) `{!DocTyping P} server : safe P (lan_forward_status server) always.
Proof.
  unfold lan_forward_status. eapply (safe_bind _ _ _ always).
  - destruct server; [leaf|]. eapply safe_bind; [apply wg_document_safe|]. intros doc _. leaf.
  - intros o _. destruct (negb _); [leaf|]. eapply safe_bind; [apply load_bindings_safe|]. intros bindings _. by apply safe_lift.
Qed.

Lemma wg_change_safe q delete : site_safe (R := R) secret_free (wg_change E q delete) always.
Proof.
  unfold wg_change. destruct (negb _); [by apply site_safe_ret|]. eapply (site_safe_bind _ _ _ always); [by apply site_safe_lift|].
  intros payload _. eapply (site_safe_bind _ _ _ always); [by apply site_safe_lift|]. intros expected _. apply site_safe_try.
  - eapply (site_safe_bind _ _ _ always).
    + destruct delete; [apply wg_delete_safe|apply wg_put_safe]; first [apply free_of_secrets|apply saved_free|apply _].
    + intros doc _. apply site_safe_hub. unfold wg_answer. eapply safe_bind; [apply lan_forward_status_safe, _|]. intros f _. leaf.
  - intros e. destruct (is_runtime_error e); [|by apply site_safe_ret].
    eapply site_safe_bind; [apply site_safe_hub, wg_document_safe|]. intros doc _. by apply site_safe_ret.
Qed.

Lemma wg_endpoint_safe q id : safe secret_free (wg_endpoint E q id) always.
Proof.
  unfold wg_endpoint. destruct (negb _); [leaf|]. eapply (safe_bind _ _ _ always); [by apply safe_lift|]. intros payload _. apply safe_try.
  - eapply (safe_bind _ _ _ always); [by apply safe_lift|]. intros expected _. eapply (safe_bind _ _ _ always).
    { apply update_endpoint_safe; first [apply free_of_secrets|apply saved_free|apply _]. }
    intros profile _. eapply safe_bind; [apply wg_document_safe|]. intros doc _. leaf.
  - intros e. leaf.
Qed.

Lemma wg_router_arg_safe q : safe secret_free (wg_router_arg E q) always.
Proof. unfold wg_router_arg. destruct (nonempty _); [leaf|]. apply wg_router_name_safe. Qed.

Lemma wg_commands_safe q : safe secret_free (wg_agent_commands E q) always.
Proof.
  unfold wg_agent_commands. destruct (negb _); [leaf|]. eapply safe_bind; [apply wg_router_arg_safe|]. intros router _.
  eapply (safe_bind _ _ _ always); [by apply safe_lift|]. intros wanted _. eapply (safe_bind _ _ _ always).
  { apply poll_safe; first [exact free_of_secrets|apply _]. }
  intros out _. leaf.
Qed.

Lemma wg_ack_safe q : plain (json_body q) -> safe secret_free (wg_agent_ack E q) always.
Proof.
  intros Hb. unfold wg_agent_ack. destruct (negb _); [leaf|]. eapply (safe_bind _ _ _ plain).
  { apply safe_lift. intros acks. destruct (json_body q); try done. intros [= <-]. apply plain_get_or; [done|by repeat constructor]. }
  intros acks Hacks. eapply (safe_bind _ _ _ (List.Forall plain)).
  { apply safe_lift. intros rows Hrows. destruct acks; try done; injection Hrows as <-.
    - apply List.Forall_forall. intros x (c & <- & _)%List.in_map_iff. constructor.
    - by inversion Hacks.
    - apply List.Forall_forall. intros x (c & <- & _)%List.in_map_iff. constructor. }
  intros rows Hrows. eapply (safe_bind _ _ _ always).
  { apply ack_safe; first [exact free_of_secrets|exact Hrows|apply _]. }
  intros n _. leaf.
Qed.

Lemma wg_status_safe q : plain (json_body q) -> safe secret_free (wg_agent_status E q) always.
Proof.
  intros Hb. unfold wg_agent_status. destruct (negb _); [leaf|]. eapply safe_bind; [apply wg_router_arg_safe|]. intros router _. cbv zeta.
  destruct (has_secret (json_body q)) eqn:Es; [leaf|]. eapply (safe_bind _ _ _ always); [leaf|]. intros received _.
  eapply (safe_bind _ _ _ always); [leaf|]. intros now _.
  eapply (safe_bind _ _ _ (fun d => plain (PDict d) /\ has_secret (PDict d) = false)).
  { apply safe_lift. intros d. destruct (json_body q); try done. by intros [= <-]. }
  intros payload [Hpayload Hsecret]. eapply (safe_bind _ _ _ always).
  { apply (safe_save secret_free); [done| |].
    - apply plain_dupdate; [solve_plain|]. by inversion Hpayload.
    - intros _. by apply has_secret_dupdate. }
  intros _ _. eapply safe_bind; [apply wg_document_safe|]. intros doc [Hs Ht]. eapply (safe_bind _ _ _ always); [by apply safe_lift|]. intros revision _.
  eapply (safe_bind _ _ _ always); [|intros _ _; leaf]. destruct (revision <? wd_revision doc); [|leaf].
  destruct (some_server (wd_server doc)).
  - pose proof (opt_value_plain _ Hs). apply wg_queue_safe; first [exact free_of_secrets|apply _|solve_plain].
  - destruct (some_server (wd_tombstone doc)) eqn:Et; [|leaf].
    assert (plain (PDict (server_of (wd_tombstone doc)))) as Htomb by (destruct (wd_tombstone doc); [by apply Ht|done]).
    apply wg_queue_safe; first [exact free_of_secrets|apply _|by apply plain_dset; [constructor|]].
Qed.

(** Everything that can happen to the documents of WireGuard: the requests of the APP and of the
    router, and what the rest of the Hub does to other documents. *)
Inductive wg_step : site S R -> site S R -> Prop :=
| wg_step_change q delete s r s' : wg_change E q delete s = (r, s') -> wg_step s s'
| wg_step_endpoint q id s r s' : on_hub (wg_endpoint E q id) s = (r, s') -> wg_step s s'
| wg_step_commands q s r s' : on_hub (wg_agent_commands E q) s = (r, s') -> wg_step s s'
| wg_step_ack q s r s' : plain (json_body q) -> on_hub (wg_agent_ack E q) s = (r, s') -> wg_step s s'
| wg_step_status q s r s' : plain (json_body q) -> on_hub (wg_agent_status E q) s = (r, s') -> wg_step s s'
| wg_step_other s s' :
    (doc_ok (w_docs (st_hub s)) -> doc_ok (w_docs (st_hub s'))) ->
    (forall k, In k guarded_files -> doc_read k (w_docs (st_hub s')) = doc_read k (w_docs (st_hub s))) -> wg_step s s'.

Lemma wg_step_safe s s' : wg_step s s' -> typed secret_free (w_docs (st_hub s)) -> typed secret_free (w_docs (st_hub s')).
Proof.
  intros [q delete s1 r s2 Hr|q id s1 r s2 Hr|q s1 r s2 Hr|q s1 r s2 Hb Hr|q s1 r s2 Hb Hr|s1 s2 Hok Hsame] Ht.
  - by eapply wg_change_safe.
  - eapply site_safe_hub in Hr as [? _]; [done|apply wg_endpoint_safe|done].
  - eapply site_safe_hub in Hr as [? _]; [done|apply wg_commands_safe|done].
  - eapply site_safe_hub in Hr as [? _]; [done|by apply wg_ack_safe|done].
  - eapply site_safe_hub in Hr as [? _]; [done|by apply wg_status_safe|done].
  - destruct Ht as [Hd Ht]. split; [auto|]. intros k v Hv Hk. rewrite Hsame in Hv by (by apply str_in_spec). by apply (Ht k v).
Qed.

End Secrets.

(** ** Accepted servers *)

Definition text_at (k : string) (d : dict) : string := match get d k with PStr s => s | _ => "" end.

Record peer_valid (p : dict) : Prop := {
  pv_id : exists s, get p "id" = PStr s /\ fullmatch name_char 48 s = true;
  pv_key : exists s, get p "publicKey" = PStr s /\ key_text s = true;
  pv_allowed : exists nets, get p "allowedIps" = PList (List.map (fun n => PStr (net_str n)) nets) /\ nets <> [];
  pv_keepalive : exists n, get p "persistentKeepaliveSeconds" = PInt n /\ 0 <= n <= 600;
}.

(** A profile of each source has the owner that may update it; the port is the one of the server. *)
Definition source_valid (port : Z) (p : dict) : Prop :=
  (get p "endpointSource" = PStr "manual" /\ get p "owner" = PStr "" /\ exists s, get p "resolvedEndpoint" = PStr s /\ s <> "")
  \/ (get p "endpointSource" = PStr "ddns" /\ get p "owner" = PStr ("ddns:" +:+ text_at "id" p) /\ get p "port" = PInt port
      /\ exists s, get p "hostname" = PStr s /\ s <> "")
  \/ (get p "endpointSource" = PStr "stun" /\ get p "owner" = PStr ("stun:" +:+ text_at "stunRuleId" p) /\ get p "localTargetPort" = PInt port
      /\ fullmatch name_char 64 (text_at "stunRuleId" p) = true).

Record profile_valid (port : Z) (p : dict) : Prop := {
  fv_id : exists s, get p "id" = PStr s /\ fullmatch name_char 48 s = true;
  fv_port : exists n, get p "port" = PInt n /\ 1 <= n <= 65535;
  fv_revision : exists n, get p "endpointRevision" = PInt n /\ 0 <= n;
  fv_source : source_valid port p;
}.

Record server_valid (server : dict) : Prop := {
  sv_name : exists s, get server "interfaceName" = PStr s /\ fullmatch interface_char 15 s = true /\ s <> "lo";
  sv_address : exists i, get server "address" = PStr (interface_str i) /\ ip_version (if_ip i) = 4 /\ is_private (if_ip i) = true;
  sv_mtu : exists n, get server "mtu" = PInt n /\ 1280 <= n <= 1500;
  sv_peers : exists peers, get server "peers" = PList (List.map PDict peers) /\ (List.length peers <= 64)%nat
    /\ List.NoDup (List.map (text_at "id") peers) /\ List.NoDup (List.map (text_at "publicKey") peers) /\ List.Forall peer_valid peers;
  sv_profiles : exists port profiles, get server "listenPort" = PInt port /\ 1 <= port <= 65535
    /\ get server "endpointProfiles" = PList (List.map PDict profiles)
    /\ List.NoDup (List.map (text_at "id") profiles) /\ List.Forall (profile_valid port) profiles;
}.

Lemma in_range_and a b n : (a <=? n) && (n <=? b) = true -> a <= n <= b.
Proof. intros H. to_prop. lia. Qed.

Lemma public_key_ok v s : public_key v = Ok s -> key_text s = true.
Proof. unfold public_key. destruct (negb _); [done|]. destruct (key_text (text_of v)) eqn:Ek; [|done]. by intros [= <-]. Qed.

Lemma allowed_ips_ok values allowed : result_map allowed_ip values = Ok allowed ->
  exists nets, allowed = List.map (fun n => PStr (net_str n)) nets.
Proof.
  revert allowed. induction values as [|v values IH]; cbn; intros allowed; [intros [= <-]; by exists []|].
  unfold allowed_ip at 1. destruct (ip_network (text_of v)) as [net|]; [|done]. destruct (result_map allowed_ip values) as [rest|]; [|done].
  intros [= <-]. destruct (IH _ eq_refl) as [nets ->]. by exists (net :: nets).
Qed.

Lemma clean_peer_ok fresh ids ks raw id key peer : clean_peer fresh ids ks raw = Ok (id, key, peer) ->
  peer_valid peer /\ text_at "id" peer = id /\ text_at "publicKey" peer = key /\ ~ In id ids /\ ~ In key ks.
Proof.
  unfold clean_peer. cbv zeta. set (pid := str_or _ fresh). destruct (negb (fullmatch name_char 48 pid) || str_in pid ids) eqn:Ei; [done|].
  apply orb_false_elim in Ei as [Hf%negb_false_iff Hid]. intros (k & Hk & H0)%result_bind_ok. destruct (str_in k ks) eqn:Ek; [done|].
  apply result_bind_ok in H0 as (values & _ & (allowed & Ha & H0)%result_bind_ok). apply allowed_ips_ok in Ha as [nets ->].
  destruct nets as [|net nets]; [done|]. cbn [List.map] in H0.
  apply result_bind_ok in H0 as (keepalive & _ & H0). destruct ((0 <=? keepalive) && (keepalive <=? 600)) eqn:Er; [|done]. cbn [negb] in H0.
  injection H0 as <- <- <-. apply public_key_ok in Hk. split; [|split; [done|]; split; [done|]].
  - constructor; cbn; [by exists pid|by exists k|by exists (net :: nets)|]. exists keepalive. split; [done|by apply in_range_and].
  - by rewrite <- !str_in_spec, Hid, Ek.
Qed.

Section Accepted.
Context {S : Type} `{DocStore S} {tz : TimeZone} (E : env).

Lemma clean_peers_ok ids ks raws (w w' : world S) peers : clean_peers E ids ks raws w = (Ok peers, w') ->
  List.Forall peer_valid peers
  /\ (List.NoDup (List.map (text_at "id") peers) /\ forall x, In x (List.map (text_at "id") peers) -> ~ In x ids)
  /\ (List.NoDup (List.map (text_at "publicKey") peers) /\ forall x, In x (List.map (text_at "publicKey") peers) -> ~ In x ks).
Proof.
  revert ids ks w w' peers. induction raws as [|raw raws IH]; intros ids ks w w' peers; cbn; [intros [= <- _]; repeat split; try constructor; by intros ? []|].
  destruct raw as [| | | | | |raw]; try done. intros (token & w1 & _ & H0)%prog_bind_ok.
  apply prog_bind_ok in H0 as ([[id key] peer] & w2 & Hp & H0). injection Hp as Hp <-. apply prog_bind_ok in H0 as (rest & w3 & Hrest & H0).
  injection H0 as <- _. apply clean_peer_ok in Hp as (Hv & Hid & Hkey & Hni & Hnk). apply IH in Hrest as (Hf & [Hn1 Hd1] & [Hn2 Hd2]).
  split; [by constructor|]. cbn [List.map]. rewrite Hid, Hkey. split; split.
  - constructor; [|done]. intros Hin%Hd1. apply Hin. by left.
  - intros x [<-|Hin]; [done|]. intros Hx. apply (Hd1 x Hin). by right.
  - constructor; [|done]. intros Hin%Hd2. apply Hin. by left.
  - intros x [<-|Hin]; [done|]. intros Hx. apply (Hd2 x Hin). by right.
Qed.

Lemma profile_base_ok id source port raw old base : profile_base id source port raw old = Ok base ->
  get base "id" = PStr id /\ get base "endpointSource" = PStr source
  /\ (exists n, get base "port" = PInt n /\ 1 <= n <= 65535) /\ exists n, get base "endpointRevision" = PInt n /\ 0 <= n.
Proof.
  unfold profile_base. intros (n & _ & (revision & _ & Hb)%result_bind_ok)%result_bind_ok.
  destruct ((1 <=? n) && (n <=? 65535)) eqn:Er; [|done]. injection Hb as <-. cbn. split; [done|]. split; [done|].
  split; [exists n; split; [done|by apply in_range_and]|]. exists (Z.max 0 revision). split; [done|lia].
Qed.

Lemma clean_profile_ok old old_profiles port seen raw (w w' : world S) id p : 1 <= port <= 65535 ->
  clean_profile E old old_profiles port seen raw w = (Ok (id, p), w') ->
  profile_valid port p /\ text_at "id" p = id /\ ~ In id seen.
Proof.
  intros Hport. unfold clean_profile. intros (token & w1 & _ & H0)%prog_bind_ok. revert H0. cbv zeta.
  set (pid := str_or _ ("endpoint-" +:+ _)). set (source := lower _).
  destruct (negb (fullmatch name_char 48 pid) || str_in pid seen) eqn:Ei; [done|].
  apply orb_false_elim in Ei as [Hf%negb_false_iff Hns]. destruct (str_in source _) eqn:Es; [|done]. cbn [negb].
  intros (base & w2 & Hbase & H0)%prog_bind_ok. injection Hbase as Hbase _. apply profile_base_ok in Hbase as (Hid & Hsource & Hbport & Hrev).
  apply prog_bind_ok in H0 as (profile & w3 & Hprofile & H0). injection H0 as <- <- _.
  assert (~ In pid seen) as Hni by (by rewrite <- str_in_spec, Hns).
  destruct (String.eqb_spec source "manual") as [Em|].
  - assert (manual_profile raw base = Ok profile) as Hm by (by injection Hprofile). unfold manual_profile in Hm. cbv zeta in Hm.
    destruct (nonempty (text_of (get raw "resolvedEndpoint"))) eqn:Ene; [|done]. injection Hm as <-. apply nonempty_spec in Ene.
    split; [|split; [unfold text_at; simpl_get; by rewrite Hid|done]].
    constructor; simpl_get; [by exists pid|done|done|]. left. simpl_get. rewrite Hsource, Em. split; [done|]. split; [done|]. by eexists.
  - destruct (String.eqb_spec source "ddns") as [Ed|].
    + assert (ddns_profile pid port raw base = Ok profile) as Hm by (by injection Hprofile). unfold ddns_profile in Hm. cbv zeta in Hm.
      destruct (negb (nonempty _) || _ || _) eqn:Eh; [done|]. injection Hm as <-. apply orb_false_elim in Eh as [[Hh%negb_false_iff _]%orb_false_elim _].
      apply nonempty_spec in Hh. split; [|split; [unfold text_at; simpl_get; by rewrite Hid|done]].
      constructor; simpl_get; [by exists pid|by exists port|done|]. right. left. unfold text_at. simpl_get. rewrite Hsource, Ed, Hid.
      split; [done|]. split; [done|]. split; [done|]. by eexists.
    + destruct (nonempty _); [done|]. destruct (fullmatch name_char 64 (text_of (get raw "stunRuleId"))) eqn:Ef; [|done]. cbn [negb] in Hprofile.
      apply prog_bind_ok in Hprofile as (u & w4 & _ & Hp). apply prog_bind_ok in Hp as (rule & w5 & _ & Hp).
      apply prog_bind_ok in Hp as (u' & w6 & _ & Hp). injection Hp as <- _.
      assert (source = "stun") as Hstun by (apply str_in_spec in Es as [?|[?|[?|[]]]]; congruence).
      unfold stun_profile. cbn [dupdate fold_left fst snd]. split; [|split; [unfold text_at; simpl_get; by rewrite Hid|done]].
      constructor; simpl_get; [by exists pid|done|done|]. right. right. unfold text_at. simpl_get. rewrite Hsource, Hstun. done.
Qed.

Lemma clean_profiles_ok old old_profiles port seen raws (w w' : world S) profiles : 1 <= port <= 65535 ->
  clean_profiles E old old_profiles port seen raws w = (Ok profiles, w') ->
  List.Forall (profile_valid port) profiles /\ List.NoDup (List.map (text_at "id") profiles)
  /\ forall x, In x (List.map (text_at "id") profiles) -> ~ In x seen.
Proof.
  intros Hport. revert seen w w' profiles. induction raws as [|raw raws IH]; intros seen w w' profiles; cbn; [intros [= <- _]; repeat split; try constructor; by intros ? []|].
  destruct raw as [| | | | | |raw]; try done. intros ([id p] & w1 & Hp & H0)%prog_bind_ok. apply prog_bind_ok in H0 as (rest & w2 & Hrest & H0).
  injection H0 as <- _. apply clean_profile_ok in Hp as (Hv & Hid & Hni); [|done]. apply IH in Hrest as (Hf & Hn & Hd).
  split; [by constructor|]. cbn [List.map]. rewrite Hid. split.
  - constructor; [|done]. intros Hin%Hd. apply Hin. by left.
  - intros x [<-|Hin]; [done|]. intros Hx. apply (Hd x Hin). by right.
Qed.

Lemma clean_network_ok payload old name address port : clean_network payload old = Ok (name, address, port) ->
  fullmatch interface_char 15 name = true /\ name <> "lo" /\ ip_version (if_ip address) = 4 /\ is_private (if_ip address) = true
  /\ 1 <= port <= 65535.
Proof.
  unfold clean_network. cbv zeta. set (n := text_first _). destruct (negb (fullmatch interface_char 15 n) || String.eqb n "lo") eqn:En; [done|].
  apply orb_false_elim in En as [Hf%negb_false_iff Hlo%String.eqb_neq]. destruct (ip_interface _) as [i|]; [|done].
  destruct (negb (ip_version (if_ip i) =? 4) || negb (is_private (if_ip i))) eqn:Ei; [done|].
  apply orb_false_elim in Ei as [Hv%negb_false_iff%Z.eqb_eq Hp%negb_false_iff].
  intros (was & _ & (p & _ & Hr)%result_bind_ok)%result_bind_ok. destruct ((1 <=? p) && (p <=? 65535)) eqn:Er; [|done]. cbn [negb] in Hr.
  injection Hr as <- <- <-. apply in_range_and in Er. done.
Qed.

Lemma clean_server_ok payload old (w w' : world S) server : clean_server E payload old w = (Ok server, w') ->
  server_valid server /\ get server "revision" = PNone.
Proof.
  unfold clean_server. destruct (has_secret _); [done|]. intros ([[name address] port] & w1 & Hn & H0)%prog_bind_ok.
  assert (clean_network payload old = Ok (name, address, port)) as Hnet by (by injection Hn). apply clean_network_ok in Hnet as (Hf & Hlo & Hv & Hp & Hport).
  apply prog_bind_ok in H0 as (raws & w2 & _ & H0). apply prog_bind_ok in H0 as (peers & w3 & Hpeers & H0). apply clean_peers_ok in Hpeers as (Hpv & [Hn1 _] & [Hn2 _]).
  destruct (64 <? List.length peers)%nat eqn:E64; [done|]. apply Nat.ltb_ge in E64.
  apply prog_bind_ok in H0 as (old_rows & w4 & _ & H0). apply prog_bind_ok in H0 as (raws' & w5 & _ & H0).
  apply prog_bind_ok in H0 as (profiles & w6 & Hprofiles & H0). apply clean_profiles_ok in Hprofiles as (Hfv & Hn3 & _); [|done].
  apply prog_bind_ok in H0 as (was & w7 & _ & H0). apply prog_bind_ok in H0 as (mtu & w8 & _ & H0).
  destruct ((1280 <=? mtu) && (mtu <=? 1500)) eqn:Em; [|done]. cbn [negb] in H0. injection H0 as <- _. split; [|done]. constructor; cbn.
  - by exists name.
  - by exists address.
  - exists mtu. split; [done|by apply in_range_and].
  - by exists peers.
  - by exists port, profiles.
Qed.

End Accepted.

(** ** What the service leaves alone *)

Section Frames.
Context {S R : Type} `{DocStoreLaws S} {tz : TimeZone} `{RouterClient R} `{RouterBatch R} `{Sha256} (E : env).

Definition wg_file : string := "wireguard_server.json".

Lemma keeps_utc_now k : keeps k (utc_now (S := S)).
Proof. unfold utc_now. solve_keeps. Qed.
Lemma keeps_uuid k : keeps k (uuid_hex (S := S) E).
Proof. apply keeps_token_hex. Qed.

Lemma keeps_wg_queue action revision payload router scope : keeps wg_file (wg_queue E action revision payload router scope).
Proof.
  unfold wg_queue. apply keeps_bind.
  { case_match; [apply keeps_ret|]. apply keeps_bind; [|intros; apply keeps_ret]. intros w r w' Hr.
    unfold wg_router_name in Hr. rewrite prog_bind_eq in Hr.
    change (portmap_router_name E w) with (match portmap_router_name E w with (a, _) => (a, w) end) in Hr.
    destruct (portmap_router_name E w) as [[]]; by injection Hr as _ <-. }
  intros name. unfold load_queue, save_queue.
  repeat first [apply keeps_utc_now | apply keeps_uuid | apply keeps_bind; [|intros ?] | apply keeps_load_json | apply keeps_lift | apply keeps_save_json; discriminate].
Qed.

Lemma keeps_save_bindings file d : file <> wg_file -> keeps wg_file (save_bindings file d).
Proof. intros Hf. unfold save_bindings. apply keeps_bind; [apply keeps_utc_now|]. intros now. apply keeps_save_json. congruence. Qed.

Lemma site_keeps_bound rid result recorded bindings : site_keeps (R := R) wg_file (bound firewall_file rid result recorded bindings).
Proof.
  unfold bound. apply site_keeps_bind; [|intros; apply site_keeps_ret]. apply site_keeps_hub, keeps_save_bindings. discriminate.
Qed.

Lemma site_keeps_firewall : site_keeps (R := R) wg_file firewall.
Proof. unfold firewall. solve_site_keeps. Qed.

Lemma site_keeps_write prefix write read : site_keeps (R := R) wg_file write -> site_keeps wg_file read ->
  site_keeps wg_file (write_and_verify prefix write read).
Proof. intros Hw Hr. unfold write_and_verify. solve_site_keeps. Qed.

Lemma site_keeps_ensure_firewall rule : site_keeps (R := R) wg_file (ensure_firewall rule).
Proof.
  unfold ensure_firewall, load_bindings. pose proof site_keeps_firewall.
  repeat first [ match goal with |- forall _, _ => intros ? end | apply site_keeps_bound | apply site_keeps_write | solve_site_keeps; fail | apply site_keeps_bind | case_match ].
Qed.

Lemma site_keeps_remove_firewall rid : site_keeps (R := R) wg_file (remove_firewall rid).
Proof.
  unfold remove_firewall, load_bindings. pose proof site_keeps_firewall.
  repeat first [ match goal with |- forall _, _ => intros ? end | apply site_keeps_write | apply site_keeps_hub, keeps_save_bindings; discriminate
               | apply site_keeps_bind | solve_site_keeps; fail | case_match ].
Qed.

Lemma site_keeps_ignoring (m : router_prog S R unit) : site_keeps wg_file m -> site_keeps wg_file (ignoring m).
Proof. intros Hm. unfold ignoring. apply site_keeps_try; [done|]. intros e. apply site_keeps_ret. Qed.

Ltac solve_wg_keeps :=
  repeat first [ match goal with |- forall _, _ => intros ? end | apply site_keeps_remove_firewall | apply site_keeps_ensure_firewall
               | apply site_keeps_ignoring | apply site_keeps_ret | apply site_keeps_lift | apply site_keeps_bind | apply site_keeps_for_each | case_match ].

Lemma site_keeps_sync_ddns old server : site_keeps (R := R) wg_file (sync_ddns old server).
Proof. unfold sync_ddns, remove_ddns, ensure_ddns, ensure_owned. solve_wg_keeps. Qed.
Lemma site_keeps_sync_lan old server : site_keeps (R := R) wg_file (sync_lan old server).
Proof. unfold sync_lan, ensure_lan, ensure_owned. solve_wg_keeps. Qed.

(** ** The document, read back *)

Definition reloaded (doc : wg_doc) : wg_doc :=
  WgDoc (wd_revision doc) (wd_endpoint doc) (strip (wd_updated doc)) (option_map sorted_dict (wd_server doc)) (option_map sorted_dict (wd_tombstone doc)).

Lemma read_wg_nonneg raw doc : read_wg raw = Ok doc -> 0 <= wd_revision doc /\ 0 <= wd_endpoint doc.
Proof. unfold read_wg. intros (n & _ & (m & _ & [= <-])%result_bind_ok)%result_bind_ok. cbn. lia. Qed.

Lemma dict_opt_sorted o : dict_opt (sort_keys (opt_value o)) = option_map sorted_dict o.
Proof. by destruct o. Qed.

Lemma reload doc : 0 <= wd_revision doc -> 0 <= wd_endpoint doc -> read_wg (sort_keys (PDict (wg_json doc))) = Ok (reloaded doc).
Proof.
  intros Hr He. rewrite sort_keys_sorted_dict. unfold read_wg. cbn [dict_or_empty].
  assert (nodup_keys (wg_json doc)) as Hn by (unfold nodup_keys, wg_json; cbn; repeat constructor; cbn; intuition discriminate).
  rewrite !get_sorted by done. unfold wg_json, get. cbn [dget String.eqb Ascii.eqb Bool.eqb default from_option id]. rewrite !dict_opt_sorted.
  cbn [sort_keys int_or py_int mbind result_bind mret result_ret]. rewrite text_of_str, !Z.max_r by done. done.
Qed.

Lemma save_wg_ok doc w w' : doc_plain doc -> save_wg doc w = (Ok tt, w') -> save_json wg_file (PDict (wg_json doc)) w = (Ok tt, w')
  /\ doc_read wg_file (w_docs w') = Some (sort_keys (PDict (wg_json doc))).
Proof.
  intros Hd. unfold save_wg. destruct (has_secret _); [done|]. intros Hs. split; [done|].
  by eapply save_json_read; [|apply wg_json_plain|].
Qed.

Lemma wg_document_eq w : wg_document w = (read_wg (default (PDict []) (doc_read wg_file (w_docs w))), w).
Proof. unfold wg_document. rewrite prog_bind_eq. done. Qed.

Lemma wg_document_reloaded doc w : 0 <= wd_revision doc -> 0 <= wd_endpoint doc ->
  doc_read wg_file (w_docs w) = Some (sort_keys (PDict (wg_json doc))) -> wg_document w = (Ok (reloaded doc), w).
Proof. intros Hr He Hd. rewrite wg_document_eq, Hd. cbn [default from_option id]. by rewrite reload. Qed.

Lemma typed_any w : doc_ok (w_docs w) -> typed any_doc (w_docs w).
Proof. by split. Qed.

Lemma any_own k v : str_in k own_files = true -> any_doc k v.
Proof. done. Qed.

Lemma wg_document_plain doc w : doc_ok (w_docs w) -> wg_document w = (Ok doc, w) ->
  doc_plain doc /\ 0 <= wd_revision doc /\ 0 <= wd_endpoint doc.
Proof.
  intros Hok Hd. destruct (wg_document_safe any_doc w _ _ (typed_any w Hok) Hd) as [_ Hp]. split; [by apply Hp|].
  rewrite wg_document_eq in Hd. injection Hd as Hd. by eapply read_wg_nonneg.
Qed.

Lemma server_valid_revision server n : server_valid server -> server_valid (dset "revision" (PInt n) server).
Proof. intros [Hn Ha Hm Hp Hf]. constructor; by simpl_get. Qed.


(** ** Endpoint updates *)

(** The profile an updater may change. *)
Record updater_owns (source owner : string) (current : Z) (profile : dict) : Prop := {
  uo_source : text_of (get profile "endpointSource") = lower source /\ lower source <> "manual";
  uo_owner : text_of (get profile "owner") = owner /\ owner <> "";
  uo_revision : int_or (get profile "endpointRevision") 0 = Ok current;
}.

Lemma check_updater_ok o source owner expected profile current : check_updater o source owner expected = Ok (profile, current) ->
  o = Some profile /\ expected = Some current /\ updater_owns source owner current profile.
Proof.
  unfold check_updater. destruct o as [p|]; [|done]. destruct (String.eqb_spec (text_of (get p "endpointSource")) "manual") as [|Hm]; [done|].
  destruct (String.eqb_spec (text_of (get p "endpointSource")) (lower source)) as [Hs|]; [|done]. cbn [negb].
  destruct (negb (nonempty owner) || negb (String.eqb (text_of (get p "owner")) owner)) eqn:Eo; [done|].
  apply orb_false_elim in Eo as [Ho%negb_false_iff%nonempty_spec Hown%negb_false_iff%String.eqb_eq].
  intros (n & Hn & H4)%result_bind_ok. destruct expected as [m|]; [|done]. destruct (Z.eqb_spec m n) as [->|]; [|done]. injection H4 as <- <-.
  split; [done|]. split; [done|]. constructor; [by rewrite <- Hs|done|done].
Qed.

Definition stored_profiles (doc : wg_doc) : result (list dict) := dict_rows (get_or (server_of (wd_server doc)) "endpointProfiles" (PList [])).

Lemma find_some_has id rows profile : List.find (has_profile_id id) rows = Some profile -> has_profile_id id profile = true.
Proof. intros Hf. by apply List.find_some in Hf as [_ ?]. Qed.

Lemma stored_profiles_plain doc rows : doc_plain doc -> stored_profiles doc = Ok rows -> List.Forall (fun row => plain (PDict row)) rows.
Proof. intros Hd. apply dict_rows_plain. apply plain_get_or; [by apply server_of_plain|by repeat constructor]. Qed.


(** ** Agents that lag behind *)

Lemma wg_queue_files action revision payload router scope rows w w' :
  doc_ok (w_docs w) -> nonempty router = true -> plain (PDict payload) -> stored wg_queue_file w rows ->
  wg_queue E action revision payload router scope w = (Ok tt, w') ->
  exists token now kept, stored wg_queue_file w'
    (List.map sorted_dict (last_n 500 (kept ++ [wg_command token router action scope revision payload now]))).
Proof.
  intros Hok Hr Hp Hst. assert (List.Forall (fun row => plain (PDict row)) rows) as Hrows.
  { destruct (load_queue_safe any_doc _ _ _ (typed_any w Hok) (load_queue_eq _ _ _ Hst)) as [_ Hx]. by apply Hx. }
  unfold wg_queue. rewrite prog_bind_eq, Hr. cbn [mret prog_ret].
  rewrite prog_bind_eq, (load_queue_eq _ _ _ Hst), prog_bind_eq. cbn [lift]. destruct (drop_outdated router scope revision rows) as [kept|] eqn:Ed; [|done].
  rewrite prog_bind_eq. cbn [uuid_hex token_hex]. rewrite prog_bind_eq. set (w1 := World _ _ _ _ _ _).
  change (utc_now w1) with ((Ok (utc_text (w_ms w1 / 1000)), w1) : result string * world S). cbv iota beta. intros Hsave.
  exists (env_entropy E (w_draws w) 16), (utc_text (w_ms w1 / 1000)), kept. eapply (save_queue_stored wg_queue_file); [done| |exact Hsave].
  apply List.Forall_forall. intros row Hin%last_n_incl. apply List.in_app_iff in Hin as [Hin|[<-|[]]]; [|by apply wg_command_plain].
  apply (proj1 (List.Forall_forall _ _) Hrows). by eapply drop_outdated_incl.
Qed.

(** An open command for a router, with the revision and the payload field it carries. *)
Record orders (router action : string) (revision : Z) (row : dict) : Prop := {
  or_open : is_open row = true;
  or_router : get row "router" = PStr router;
  or_action : get row "action" = PStr action;
  or_revision : get row "revision" = PInt revision;
}.

Lemma wg_queue_orders action revision payload router scope rows w w' :
  doc_ok (w_docs w) -> nonempty router = true -> plain (PDict payload) -> stored wg_queue_file w rows ->
  wg_queue E action revision payload router scope w = (Ok tt, w') ->
  exists rows' row, stored wg_queue_file w' rows' /\ In row rows' /\ orders router action revision row
    /\ get row "payload" = sort_keys (PDict (dset "revision" (PInt revision) payload)).
Proof.
  intros Hok Hr Hp Hst Hq. destruct (wg_queue_files _ _ _ _ _ _ _ _ Hok Hr Hp Hst Hq) as (token & now & kept & Hst').
  set (cmd := wg_command token router action scope revision payload now) in *.
  pose proof (plain_nodup _ (wg_command_plain token router action scope revision payload now Hp)) as Hn. fold cmd in Hn.
  exists (List.map sorted_dict (last_n 500 (kept ++ [cmd]))), (sorted_dict cmd). split; [done|]. split.
  { apply List.in_map, last_n_snoc. lia. }
  split; [constructor|]; unfold is_open; rewrite !get_sorted by done; done.
Qed.

(** A report of an Agent whose revision is behind files the present state for it again, as an
    open command of the present revision: the server, or the deletion when there is none.  A report
    that is up to date files nothing. *)
Theorem lagging_agent_gets_present_state q payload router doc rows revision rsp w w' :
  doc_ok (w_docs w) -> plain (PDict payload) -> json_body q = PDict payload ->
  wg_router_arg E q w = (Ok router, w) -> nonempty router = true ->
  wg_document w = (Ok doc, w) -> stored wg_queue_file w rows -> int_or (get payload "revision") 0 = Ok revision ->
  wg_agent_status E q w = (Ok rsp, w') -> rsp_status rsp = 200 ->
  (wd_revision doc <= revision -> stored wg_queue_file w' rows)
  /\ (revision < wd_revision doc -> forall server, wd_server doc = Some server -> server <> [] ->
       exists rows' row p, stored wg_queue_file w' rows' /\ In row rows' /\ orders router "apply" (wd_revision doc) row
         /\ get row "payload" = PDict p /\ get p "server" = sort_keys (PDict server))
  /\ (revision < wd_revision doc -> wd_server doc = None -> forall tomb, wd_tombstone doc = Some tomb -> tomb <> [] ->
       exists rows' row, stored wg_queue_file w' rows' /\ In row rows' /\ orders router "delete" (wd_revision doc) row).
Proof.
  intros Hok Hplain Hbody Hrouter Hne Hdoc Hst Hrevision. destruct (wg_document_plain doc _ Hok Hdoc) as (Hdp & Hrev & _).
  unfold wg_agent_status. destruct (check_hook_token E q); [|by intros [= <- <-]]. cbn [negb]. rewrite prog_bind_eq, Hrouter. cbv zeta.
  rewrite Hbody. destruct (has_secret (PDict payload)); [by intros [= <- <-]|]. rewrite prog_bind_eq.
  change (utc_now w) with ((Ok (utc_text (w_ms w / 1000)), w) : result string * world S). cbv iota beta. rewrite prog_bind_eq. cbn [epoch].
  rewrite prog_bind_eq. cbn [lift]. set (record := dupdate _ payload).
  assert (plain (PDict record)) as Hrecord by (apply plain_dupdate; [solve_plain|by inversion Hplain]).
  rewrite prog_bind_eq. destruct (save_json "wireguard_agent_status.json" (PDict record) w) as [[[]|e] w1] eqn:Esave; [|done].
  pose proof (save_json_ok "wireguard_agent_status.json" _ _ _ _ eq_refl Hrecord Hok Esave) as Hok1.
  assert (stored wg_queue_file w1 rows) as Hst1.
  { unfold stored. rewrite (keeps_save_json wg_queue_file "wireguard_agent_status.json" (PDict record) ltac:(discriminate) _ _ _ Esave). exact Hst. }
  assert (wg_document w1 = (Ok doc, w1)) as Hdoc1.
  { rewrite wg_document_eq in *. rewrite (keeps_save_json wg_file "wireguard_agent_status.json" (PDict record) ltac:(discriminate) _ _ _ Esave).
    injection Hdoc as ->. done. }
  rewrite prog_bind_eq, Hdoc1, prog_bind_eq. cbn [lift]. rewrite Hrevision, prog_bind_eq.
  destruct (Z.ltb_spec revision (wd_revision doc)) as [Hlt|Hge].
  2:{ cbn. intros [= _ <-] _. split; [done|]. split; intros; lia. }
  intros Hrun Hstatus. split; [lia|].
  destruct (some_server (wd_server doc)) eqn:Esome.
  - destruct (wg_queue _ _ _ _ _ _ w1) as [[[]|e] w2] eqn:Eq; [|done]. injection Hrun as _ <-.
    pose proof (opt_value_plain _ (dp_server _ Hdp)) as Hop.
    assert (plain (PDict [("server", opt_value (wd_server doc))])) as Hpp by solve_plain.
    destruct (wg_queue_orders _ _ _ _ _ _ _ _ Hok1 Hne Hpp Hst1 Eq) as (rows' & row & Hst' & Hin & Horder & Hpay).
    split; [|intros _ Hnone; by rewrite Hnone in Esome]. intros _ server Hserver _. exists rows', row. eexists. split; [done|]. split; [done|]. split; [done|].
    rewrite Hpay, sort_keys_sorted_dict. split; [done|]. rewrite Hserver in Hop |- *. rewrite get_sorted; [by rewrite get_dset_ne|].
    apply nodup_dset. unfold nodup_keys. cbn. repeat constructor. intros [].
  - split; [intros _ server Hserver Hnil; rewrite Hserver in Esome; by destruct server|]. intros _ Hnone tomb Htomb Hnil.
    assert (some_server (wd_tombstone doc) = true) as Hst2 by (rewrite Htomb; by destruct tomb). rewrite Hst2 in Hrun.
    destruct (wg_queue _ _ _ _ _ _ w1) as [[[]|e] w2] eqn:Eq; [|done]. injection Hrun as _ <-.
    assert (plain (PDict (dset "tombstone" (PBool true) (server_of (wd_tombstone doc))))) as Hpt.
    { apply plain_dset; [constructor|]. rewrite Htomb. exact (dp_tombstone _ Hdp tomb Htomb). }
    destruct (wg_queue_orders _ _ _ _ _ _ _ _ Hok1 Hne Hpt Hst1 Eq) as (rows' & row & Hst' & Hin & Horder & _). by exists rows', row.
Qed.
End Frames.

(** ** On the concrete Hub *)

Definition demo_key : string := "AAAAAAAAAAAAAAAAAAAAAAAAAAAAAAAAAAAAAAAAAAA=".
Definition wg_payload : dict :=
  [("peers", PList [PDict [("id", PStr "phone"); ("publicKey", PStr demo_key); ("allowedIps", PList [PStr "10.77.0.2/32"])]]);
   ("endpointProfiles", PList [PDict [("id", PStr "home"); ("endpointSource", PStr "ddns"); ("hostname", PStr "home.example.org")];
                               PDict [("id", PStr "fixed"); ("endpointSource", PStr "manual"); ("resolvedEndpoint", PStr "203.0.113.5:51820")]])].
Definition bare_site : site store tables := demo_site (Tables [] [] 0).
Definition wg_site : site store tables := on_site (wg_change demo_env (app_request [] (Some (PDict wg_payload))) false) bare_site.
Definition wg_world : world store := st_hub wg_site.

Lemma empty_docs_typed P : typed P (w_docs demo_world).
Proof. split; [exact empty_store_ok|]. intros k v Hk. discriminate. Qed.

Lemma wg_world_ok : doc_ok (w_docs wg_world).
Proof.
  destruct (wg_change_safe demo_env (app_request [] (Some (PDict wg_payload))) false bare_site _ _ (empty_docs_typed _) (surjective_pairing _)) as [[Hok _] _].
  exact Hok.
Qed.


Definition clean_demo : dict := Eval vm_compute in catch (clean_server demo_env wg_payload [] demo_world).1 [].


(** The first change is accepted. *)
Example first_put_succeeds : is_ok (wg_put demo_env wg_payload (Some 0) bare_site).1 = true.
Proof. vm_compute. reflexivity. Qed.

Definition wg_demo_doc : wg_doc := Eval vm_compute in catch (wg_document wg_world).1 (WgDoc 0 0 "" None None).
Definition wg_demo_rows : list dict := Eval vm_compute in catch (stored_profiles wg_demo_doc) [].
Definition wg_home : dict := Eval vm_compute in default [] (List.find (has_profile_id "home") wg_demo_rows).


Definition stale_report : request := router_request [("router", "BE72")] (Some (PDict [("revision", PInt 0)])).
Definition wg_demo_commands : list dict := Eval vm_compute in catch (load_queue wg_queue_file wg_world).1 [].
Definition stale_answer : result response * world store := wg_agent_status demo_env stale_report wg_world.
Definition stale_rsp : response := Eval vm_compute in catch stale_answer.1 (Response 0 PNone).

Lemma lagging_agent_gets_present_state_witness :
  (wd_revision wg_demo_doc <= 0 -> stored wg_queue_file stale_answer.2 wg_demo_commands)
  /\ (0 < wd_revision wg_demo_doc -> forall server, wd_server wg_demo_doc = Some server -> server <> [] ->
       exists rows' row p, stored wg_queue_file stale_answer.2 rows' /\ In row rows' /\ orders "BE72" "apply" (wd_revision wg_demo_doc) row
         /\ get row "payload" = PDict p /\ get p "server" = sort_keys (PDict server))
  /\ (0 < wd_revision wg_demo_doc -> wd_server wg_demo_doc = None -> forall tomb, wd_tombstone wg_demo_doc = Some tomb -> tomb <> [] ->
       exists rows' row, stored wg_queue_file stale_answer.2 rows' /\ In row rows' /\ orders "BE72" "delete" (wd_revision wg_demo_doc) row).
Proof.
  apply (lagging_agent_gets_present_state demo_env stale_report [("revision", PInt 0)] "BE72" wg_demo_doc wg_demo_commands 0 stale_rsp wg_world stale_answer.2).
  - exact wg_world_ok.
  - repeat constructor. intros [].
  - reflexivity.
  - vm_compute. reflexivity.
  - reflexivity.
  - vm_compute. reflexivity.
  - vm_compute. reflexivity.
  - reflexivity.
  - assert (stale_answer.1 = Ok stale_rsp) as Hr by (vm_compute; reflexivity). change (stale_answer = (Ok stale_rsp, stale_answer.2)).
    rewrite <- Hr. apply surjective_pairing.
  - reflexivity.
Defined.

(** ** Behaviour worth knowing *)

(** The source of an updater is compared in lower case, but the endpoint of a STUN profile is only
    checked when the source is written in lower case. *)
Lemma uppercase_source_skips_check profile current owner endpoint :
  updater_owns "stun" owner current profile ->
  check_updater (Some profile) "STUN" owner (Some current) = Ok (profile, current) /\ stored_endpoint "STUN" endpoint profile = Ok endpoint.
Proof.
  intros [[Hs Hm] [Ho Hne] Hr]. split; [|done]. unfold check_updater. rewrite Hs, Ho, String.eqb_refl.
  assert (nonempty owner = true) as -> by (by apply nonempty_spec). change (lower "stun") with "stun". change (lower "STUN") with "stun".
  cbn [String.eqb Ascii.eqb Bool.eqb negb orb]. rewrite Hr. cbn [mbind result_bind]. by rewrite Z.eqb_refl, String.eqb_refl.
Qed.

(** The result of an acknowledgement is stored as it comes. *)
Definition leaking_ack : request :=
  router_request [] (Some (PDict [("acks", PList [PDict [("id", PStr (text_at "id" (nth 0 wg_demo_commands []))); ("ok", PBool true);
                                                          ("result", PDict [("privateKey", PStr demo_key)])]])])).
Lemma ack_stores_secret : exists v,
  doc_read wg_queue_file (w_docs (run (wg_agent_ack demo_env leaking_ack) wg_world)) = Some v /\ has_secret v = true.
Proof. eexists. split; vm_compute; reflexivity. Qed.

(** An endpoint update leaves the revision of the server, so a PUT prepared before it is accepted and
    takes the endpoint and its revision back. *)
Definition updated_world : world store := run (update_endpoint demo_env "home" "ddns" "ddns:home" "198.51.100.7" (Some 0)) wg_world.
Definition home_of (r : result wg_doc) : list (pyval * pyval) :=
  List.map (fun row => (get row "endpointRevision", get row "resolvedEndpoint"))
    (List.filter (has_profile_id "home") (catch (doc ← r; stored_profiles doc) [])).
(** The profiles of the payload carry the revision they had when it was prepared. *)
Definition prepared_payload : dict :=
  dset "endpointProfiles" (PList (List.map PDict wg_demo_rows)) wg_payload.
Definition reverted_prepared : result wg_doc := (wg_put demo_env prepared_payload (Some 1) (Site updated_world (Tables [] [] 0) (Sync [] 0 None))).1.
Lemma prepared_put_reverts_endpoint :
  home_of (wg_document updated_world).1 = [(PInt 1, PStr "198.51.100.7:51820")] /\ home_of reverted_prepared = [(PInt 0, PStr "")].
Proof. split; vm_compute; reflexivity. Qed.

(** A refused PUT has already moved the target port of the STUN rule. *)
Definition wg_stun_rule : dict :=
  [("id", PStr "wg"); ("kind", PStr "stun"); ("enabled", PBool true); ("listenPort", PInt 20000); ("targetIpv4", PStr "192.168.1.1");
   ("targetPort", PInt 51820); ("transportProtocol", PStr "UDP"); ("forwardMode", PStr "router_native")].
Definition stun_payload : dict :=
  [("endpointProfiles", PList [PDict [("id", PStr "away"); ("endpointSource", PStr "stun"); ("stunRuleId", PStr "wg")]])].
Definition stun_world : world store :=
  st_hub (on_site (wg_put demo_env stun_payload None) (Site (run (save_stun_rules [wg_stun_rule]) demo_world) (Tables [] [] 0) (Sync [] 0 None))).
Definition refused_put : result wg_doc * site store tables :=
  wg_put demo_env ([("listenPort", PInt 51821); ("mtu", PInt 9000)] ++ stun_payload) None (Site stun_world (Tables [] [] 0) (Sync [] 0 None)).
Definition target_ports (w : world store) : list pyval :=
  List.map (fun row => get row "targetPort") (rd_rules (catch (stun_document w).1 (RulesDoc 0 "" []))).
Lemma refused_put_moves_stun_port :
  is_ok refused_put.1 = false /\ target_ports stun_world = [PInt 51820] /\ target_ports (st_hub refused_put.2) = [PInt 51821].
Proof. split; [|split]; vm_compute; reflexivity. Qed.
