(* ===== verification/RouterIpv6.v ===== *)
(** * IPv6 settings of the router

    The translation between the router's [network6] records and the settings the APP sees,
    the validation of a change, and the read, write and verify cycle
    ([router/ipv6/mapper.py], [models.py], [service.py], [api.py]). *)

From S2P Require Import Prelude PyNum PyVal PyIp PyTime HubValues Json Storage Hub Services RouterRpc.

(** ** Reading router values *)


Definition integer_of (v : pyval) (dflt : Z) : Z := default dflt (int_of_str (strip (py_str v))).

Definition true_values : list string := ["1"; "true"; "on"; "yes"; "enabled"; "server"; "relay"].
Definition false_values : list string := ["0"; "false"; "off"; "no"; "disabled"; "none"; ""].

Definition flag_of (v : pyval) (dflt : bool) : bool :=
  match v with
  | PBool b => b
  | _ =>
      let text := lower (text_of v) in
      if str_in text true_values then true
      else if str_in text false_values then false
      else dflt
  end.

(** The mapping itself, or the first one of a list. *)
Definition first_mapping (v : pyval) : dict :=
  match v with
  | PDict d => d
  | PList l => hd [] (omap (fun x => match x with PDict d => Some d | _ => None end) l)
  | _ => []
  end.

Definition dns_separator (c : ascii) : bool := is_char ","%char c || is_char ";"%char c || is_space c.

Definition split_dns (v : pyval) : list string :=
  let candidates := match v with
                    | PList l => List.map text_of l
                    | _ => runs (fun c => negb (dns_separator c)) (text_of v)
                    end in
  dedup (List.filter nonempty candidates).

(** ** The settings *)

Record ipv6_status := Ipv6Status {
  st_connected : bool;
  st_proto : string;
  st_address : string;
  st_prefix : string;
  st_gateway : string;
  st_dns : list string;
}.

Record wan_config := WanIpv6Config {
  wc_proto : string;
  wc_ifname : string;
  wc_dns : list string;
  wc_dns_type : string;
  wc_relay : bool;
}.

Record lan_config := LanIpv6Config {
  lc_prefix_length : Z;
  lc_dhcpv6_server : bool;
  lc_slaac : bool;
  lc_dhcpv6_type : string;
  lc_ra : bool;
  lc_ra_management : string;
  lc_lease_minutes : Z;
  lc_relay : bool;
}.

Record ipv6_config := Ipv6Config { ic_wan : wan_config; ic_lan : lan_config }.

Record dhcpv6_client := Dhcpv6Client {
  dc_hostname : string;
  dc_ipv6 : string;
  dc_lease_minutes : Z;
  dc_duid : string;
}.

Definition texts (l : list string) : pyval := PList (List.map PStr l).

Definition status_dict (s : ipv6_status) : dict :=
  [("connected", PBool (st_connected s)); ("proto", PStr (st_proto s)); ("address", PStr (st_address s));
   ("prefix", PStr (st_prefix s)); ("gateway", PStr (st_gateway s)); ("dns", texts (st_dns s))].

Definition wan_dict (w : wan_config) : dict :=
  [("proto", PStr (wc_proto w)); ("ifname", PStr (wc_ifname w)); ("dns", texts (wc_dns w));
   ("dnsType", PStr (wc_dns_type w)); ("relay", PBool (wc_relay w))].

Definition lan_dict (l : lan_config) : dict :=
  [("ip6assign", PInt (lc_prefix_length l)); ("dhcpv6Server", PBool (lc_dhcpv6_server l));
   ("slaac", PBool (lc_slaac l)); ("dhcpv6Type", PStr (lc_dhcpv6_type l)); ("ra", PBool (lc_ra l));
   ("ra_management", PStr (lc_ra_management l)); ("leasetime6", PInt (lc_lease_minutes l));
   ("relay", PBool (lc_relay l))].

Definition config_dict (c : ipv6_config) : dict :=
  [("wan", PDict (wan_dict (ic_wan c))); ("lan", PDict (lan_dict (ic_lan c)))].

Definition client_dict (c : dhcpv6_client) : dict :=
  [("hostname", PStr (dc_hostname c)); ("ipv6", PStr (dc_ipv6 c)); ("leasetime", PInt (dc_lease_minutes c));
   ("duid", PStr (dc_duid c))].

Definition map_status (raw : pyval) : ipv6_status :=
  let root := dict_or_empty raw in
  let wan := first_mapping (por (get root "wan_v6") (por (get root "wan6") (PDict root))) in
  let proto := text_of (get wan "proto") in
  let address := text_of (get wan "ip6") in
  Ipv6Status (nonempty address && negb (str_in (lower proto) ["none"; "disabled"; "off"])) proto address
    (text_of (get wan "prefix")) (text_of (get wan "gateway6")) (split_dns (get wan "dns6List")).

Definition map_wan (wan : dict) : wan_config :=
  WanIpv6Config (str_or (text_of (get wan "proto")) "dhcpv6") (str_or (text_of (get wan "ifname")) "@wan")
    (split_dns (get wan "dns"))
    (if str_in (lower (text_of (get wan "dnsType"))) ["admin"; "manual"; "static"] then "manual" else "auto")
    (flag_of (get wan "relay") false).

Definition is_server (v : pyval) : bool := String.eqb (lower (text_of v)) "server" || flag_of v false.

Definition map_lan (lan : dict) : lan_config :=
  let dhcpv6_type := text_of (get lan "dhcpv6Type") in
  LanIpv6Config (integer_of (get lan "ip6assign") 64) (is_server (get lan "dhcpv6"))
    (contains "slaac" (lower dhcpv6_type)) (str_or dhcpv6_type "DHCPv6+SLAAC") (is_server (get lan "ra"))
    (str_or (text_of (get lan "ra_management")) "0") (integer_of (get lan "leasetime6") 120)
    (flag_of (get lan "relay") false).

Definition map_config (raw : pyval) : ipv6_config :=
  let root := dict_or_empty raw in
  Ipv6Config (map_wan (first_mapping (get root "wan6"))) (map_lan (first_mapping (get root "lan"))).

Definition map_client (item : dict) : dhcpv6_client :=
  Dhcpv6Client (text_of (get item "hostname")) (text_of (get item "ipv6"))
    (Z.max 0 (integer_of (get item "leasetime") 0)) (text_of (get item "duid")).

Definition map_clients (raw : pyval) : list dhcpv6_client :=
  let root := dict_or_empty raw in
  let rows := por (get root "List") (por (get root "list") (por (get root "data") (PList []))) in
  omap (fun v => match v with PDict item => Some (map_client item) | _ => None end) (list_or_empty rows).

(** ** Validation and merging of a change *)

Definition invalid {A} (msg : string) : result A := Err (Exn "Ipv6ValidationError" msg).

Definition demand {A} (b : bool) (msg : string) (k : result A) : result A := if b then k else invalid msg.

Definition require_mapping (root : dict) (key : string) : result dict :=
  match get root key with PDict d => Ok d | _ => invalid ("缺少 " +:+ key +:+ " IPv6 配置") end.

(** [ipaddress.IPv6Address(address)] succeeds. *)
Definition is_ipv6_text (s : string) : bool :=
  negb (contains "/" s) && match ipv6_of_str s with Some _ => true | None => false end.

Definition validate_dns (v : pyval) (manual : bool) : result (list string) :=
  let addresses := split_dns v in
  demand (negb (manual && match addresses with [] => true | _ => false end)) "手动 DNS 至少需要填写一个 IPv6 地址" (
  demand (List.length addresses <=? 4)%nat "IPv6 DNS 最多填写 4 个地址" (
  match List.find (fun a => negb (is_ipv6_text a)) addresses with
  | Some a => invalid ("IPv6 DNS 地址无效：" +:+ a)
  | None => Ok addresses
  end)).

Definition dhcpv6_type (server slaac : bool) : string :=
  if server && slaac then "DHCPv6+SLAAC" else if server then "DHCPv6" else if slaac then "SLAAC" else "disabled".

Definition runtime_fields : list string := ["configId"; "configTime"; "currentTime"].

Fixpoint strip_runtime_fields (v : pyval) : pyval :=
  match v with
  | PList l => PList (List.map strip_runtime_fields l)
  | PDict d =>
      PDict ((fix go (d : dict) : dict :=
        match d with
        | [] => []
        | (k, x) :: d' => if str_in k runtime_fields then go d' else (k, strip_runtime_fields x) :: go d'
        end) d)
  | _ => v
  end.

(** The WAN record with the requested change. *)
Definition merge_wan (request current : dict) : result dict :=
  let proto := lower (text_of (por (get request "proto") (get current "proto"))) in
  demand (str_in proto ["dhcpv6"; "relay"]) "WAN IPv6 模式仅支持 DHCPv6 或 IPv6 中继" (
  let dns_type := lower (text_of (por (get request "dnsType") (get current "dnsType"))) in
  let manual := str_in dns_type ["manual"; "admin"; "static"] in
  demand (str_in dns_type ["auto"; "manual"; "admin"; "static"]) "IPv6 DNS 模式无效" (
  dns ← validate_dns (get_or request "dns" (get current "dns")) manual;
  let relay := String.eqb proto "relay" || flag_of (get request "relay") false in
  Ok (dset "relay" (PStr (if relay then "1" else "0"))
       (dset "dns" (PStr (if manual then join "," dns else ""))
         (dset "dnsType" (PStr (if manual then "admin" else "auto")) (dset "proto" (PStr proto) current)))))).

Definition lan_server (request current : dict) : bool :=
  flag_of (get_or request "dhcpv6Server" (get request "dhcpv6")) (flag_of (get current "dhcpv6") false).
Definition lan_slaac (request current : dict) : bool :=
  flag_of (get request "slaac") (contains "slaac" (lower (text_of (get current "dhcpv6Type")))).
Definition lan_ra (request current : dict) : bool := flag_of (get request "ra") (flag_of (get current "ra") false).

(** The LAN record with the requested change. *)
Definition merge_lan (request current : dict) : result dict :=
  let prefix_length := integer_of (get request "ip6assign") (integer_of (get current "ip6assign") 64) in
  demand ((1 <=? prefix_length) && (prefix_length <=? 128)) "IPv6 Prefix 长度必须在 1 到 128 之间" (
  let lease := integer_of (get request "leasetime6") (integer_of (get current "leasetime6") 120) in
  demand ((1 <=? lease) && (lease <=? 10080)) "DHCPv6 租期必须在 1 到 10080 分钟之间" (
  let server := lan_server request current in
  let slaac := lan_slaac request current in
  let ra := lan_ra request current in
  Ok (dset "leasetime6" (PStr (int_str lease))
       (dset "ra_management" (PStr (str_or (text_of (get request "ra_management")) (if server then "1" else "0")))
         (dset "ra" (PStr (if ra then "server" else "disabled"))
           (dset "dhcpv6Type" (PStr (dhcpv6_type server slaac))
             (dset "dhcpv6" (PStr (if server then "server" else "disabled"))
               (dset "ip6assign" (PStr (int_str prefix_length)) current)))))))).

(** [merged[key][0] = record] when the value is a list, [merged[key] = [record]] otherwise. *)
Definition put_first (key : string) (record : dict) (root : dict) : dict :=
  dset key (PList (PDict record :: match get root key with PList (_ :: l) => l | _ => [] end)) root.

Definition merge_config (current requested : pyval) : result pyval :=
  match current with
  | PDict merged =>
      match requested with
      | PDict req =>
          wan_request ← require_mapping req "wan";
          lan_request ← require_mapping req "lan";
          let wan_current := first_mapping (get merged "wan6") in
          let lan_current := first_mapping (get merged "lan") in
          demand (truthy (PDict wan_current) && truthy (PDict lan_current)) "路由器 network6 缺少 WAN 或 LAN 配置" (
          wan ← merge_wan wan_request wan_current;
          lan ← merge_lan lan_request lan_current;
          Ok (strip_runtime_fields (PDict (put_first "lan" lan (put_first "wan6" wan merged)))))
      | _ => invalid "IPv6 配置请求格式无效"
      end
  | _ => invalid "路由器未返回完整 network6 配置"
  end.

(** ** The service

    The router answers remote procedure calls; its state and its answers are a parameter. *)

Section Service.
Context {R : Type} `{RouterClient R}.

Notation router := (prog R).

Definition read_full_config : router pyval :=
  raw ← (rpc "devConfig.get" "network6" PNone : router pyval);
  lift (if is_dict raw then Ok raw
          else Err (RouterRpcError "路由器未返回完整 network6 配置" "IPV6_CONFIG_INVALID" 502)).

Definition assert_write_success (res : pyval) : result unit :=
  match res with
  | PDict d =>
      if str_in (lower (strip (str_or_empty (get d "rcode")))) [""; "0"; "00000000"; "success"] then Ok tt
      else Err (RouterRpcError (strip (py_str (por (get d "message") (PStr "路由器拒绝保存 IPv6 配置"))))
                  "IPV6_SAVE_REJECTED" 409)
  | _ => Ok tt
  end.

Definition status : router ipv6_status :=
  raw ← (rpc "devSta.get" "ipinfo6" PNone : router pyval); lift (Ok (map_status raw)).

Definition config : router ipv6_config :=
  raw ← read_full_config; lift (Ok (map_config raw)).

Definition clients : router (list dhcpv6_client) :=
  raw ← (rpc "devSta.get" "dhcp_lease6"
           (PDict [("index", PInt 1); ("size", PInt 100); ("macaddr", PStr "")]) : router pyval);
  lift (Ok (map_clients raw)).

Definition update_config (requested : pyval) : router ipv6_config :=
  current ← read_full_config;
  payload ← lift (merge_config current requested);
  res ← (rpc "devConfig.set" "network6" payload : router pyval);
  _ ← lift (assert_write_success res);
  raw ← read_full_config;
  lift (Ok (map_config raw)).

(** *** The handlers; [t] is [int(time.time())]. *)

Definition handle_error (e : exn) : response :=
  let body code message := PDict [("ok", PBool false); ("error", PStr code); ("message", PStr message)] in
  if String.eqb (exn_class e) "Ipv6ValidationError" then Response 400 (body "INVALID_IPV6_CONFIG" (exn_msg e))
  else match rpc_error_parts e with
       | Some (code, http_status) => Response http_status (body code (exn_msg e))
       | None => Response 500 (body "INTERNAL_ERROR" "IPv6 操作失败")
       end.

(** The check before every request and the error handler of the blueprint. *)
Definition ipv6_request (authorized : bool) (handler : router response) : router response :=
  if authorized then try_except handler (fun e => mret (handle_error e))
  else mret (error_response 401 "unauthorized").

Definition get_status (t : Z) : router response :=
  s ← status;
  mret (Response 200 (PDict [("ok", PBool true); ("data", PDict (status_dict s)); ("updatedAt", PInt t)])).

Definition get_config : router response :=
  c ← config; mret (Response 200 (PDict [("ok", PBool true); ("data", PDict (config_dict c))])).

Definition get_clients : router response :=
  rows ← clients;
  mret (Response 200 (PDict [("ok", PBool true);
    ("data", PDict [("clients", PList (List.map (fun c => PDict (client_dict c)) rows));
                    ("total", PInt (Z.of_nat (List.length rows)))])])).

Definition put_config (t : Z) (q : request) : router response :=
  c ← update_config (json_body q);
  mret (Response 200 (PDict [("ok", PBool true); ("data", PDict (config_dict c)); ("verifiedAt", PInt t);
                             ("message", PStr "IPv6 设置已保存并校验")])).
End Service.

(** ** What a saved change contains *)

Definition strip_dict (d : dict) : dict :=
  omap (fun kv => if str_in kv.1 runtime_fields then None else Some (kv.1, strip_runtime_fields kv.2)) d.

Lemma strip_runtime_dict d : strip_runtime_fields (PDict d) = PDict (strip_dict d).
Proof.
  cbn [strip_runtime_fields]. f_equal. induction d as [|[k x] d IH]; [done|]. unfold strip_dict. cbn [omap list_omap fst snd].
  rewrite IH. by destruct (str_in k runtime_fields).
Qed.

Lemma get_strip d k : str_in k runtime_fields = false -> get (strip_dict d) k = strip_runtime_fields (get d k).
Proof.
  intros Hk. unfold get. induction d as [|[k' x] d IH]; [done|]. unfold strip_dict in *. cbn [omap list_omap dget fst snd].
  destruct (String.eqb_spec k k') as [<-|Hne].
  - rewrite Hk. simpl. by rewrite String.eqb_refl.
  - destruct (str_in k' runtime_fields); [exact IH|]. cbn [dget]. destruct (String.eqb_spec k k'); [done|exact IH].
Qed.

(** The record that is read back from the place [put_first] wrote it. *)
Lemma first_put_first key record root :
  str_in key runtime_fields = false ->
  first_mapping (get (strip_dict (put_first key record root)) key) = strip_dict record.
Proof.
  intros Hk. rewrite get_strip by done. unfold put_first. rewrite get_dset_eq.
  set (l := match get root key with PList (_ :: l) => l | _ => [] end).
  change (strip_runtime_fields (PList (PDict record :: l)))
    with (PList (strip_runtime_fields (PDict record) :: List.map strip_runtime_fields l)).
  by rewrite strip_runtime_dict.
Qed.

Lemma first_put_other key key' record root :
  key <> key' -> str_in key runtime_fields = false ->
  get (strip_dict (put_first key' record root)) key = get (strip_dict root) key.
Proof. intros Hne Hk. rewrite !get_strip by done. unfold put_first. by rewrite get_dset_ne. Qed.

Lemma demand_ok {A} b msg (k : result A) a : demand b msg k = Ok a -> b = true /\ k = Ok a.
Proof. by destruct b. Qed.

(** What a successful merge is made of. *)
Lemma merge_config_ok current requested p :
  merge_config current requested = Ok p ->
  exists merged req w l wan lan,
    current = PDict merged /\ requested = PDict req /\ get req "wan" = PDict w /\ get req "lan" = PDict l
    /\ merge_wan w (first_mapping (get merged "wan6")) = Ok wan
    /\ merge_lan l (first_mapping (get merged "lan")) = Ok lan
    /\ p = PDict (strip_dict (put_first "lan" lan (put_first "wan6" wan merged))).
Proof.
  unfold merge_config. destruct current as [| | | | | |merged]; try done. destruct requested as [| | | | | |req]; try done.
  unfold require_mapping. destruct (get req "wan") as [| | | | | |w] eqn:Ew; try done.
  destruct (get req "lan") as [| | | | | |l] eqn:El; try done. cbn [mbind result_bind].
  intros [_ H]%demand_ok. apply result_bind_ok in H as (wan & Hw & H). apply result_bind_ok in H as (lan & Hl & H).
  rewrite strip_runtime_dict in H. injection H as <-. by exists merged, req, w, l, wan, lan.
Qed.

Lemma merged_wan merged wan lan :
  first_mapping (get (strip_dict (put_first "lan" lan (put_first "wan6" wan merged))) "wan6") = strip_dict wan.
Proof. rewrite first_put_other by done. by apply first_put_first. Qed.

Lemma merged_lan merged wan lan :
  first_mapping (get (strip_dict (put_first "lan" lan (put_first "wan6" wan merged))) "lan") = strip_dict lan.
Proof. by apply first_put_first. Qed.

(** *** Texts that are read back *)

Lemma integer_of_text n d : int_printable n -> integer_of (PStr (int_str n)) d = n.
Proof. intros Hn. unfold integer_of. simpl. by rewrite strip_int_str, int_of_str_int_str. Qed.

Definition no_separator (s : string) : bool := sall (fun c => negb (dns_separator c)) s.

Lemma srev_ne s : s <> "" -> String.eqb (srev s) "" = false.
Proof. intros Hs. apply String.eqb_neq. intros He. apply Hs. by rewrite <- (srev_srev s), He. Qed.

Lemma runs_go_app p cur x t : sall p x = true -> runs_go p cur (x +:+ t) = runs_go p (srev_app x cur) t.
Proof.
  revert cur. induction x as [|c x IH]; intros cur Hx; [done|]. simpl in Hx. apply andb_prop in Hx as [Hc Hx].
  change (String c x +:+ t) with (String c (x +:+ t)). cbn [runs_go srev_app]. rewrite Hc. by apply IH.
Qed.

(** Joining with a separator and splitting again. *)
Lemma runs_join p c l :
  p c = false -> Forall (fun x => x <> "" /\ sall p x = true) l -> runs p (join (String c "") l) = l.
Proof.
  intros Hc. induction 1 as [|x l [Hne Hx] Hl IH]; [done|]. unfold runs in *. destruct l as [|y l].
  - cbn [join]. rewrite <- (append_nil_r x) at 1. rewrite runs_go_app by done. cbn [runs_go].
    change (srev_app x "") with (srev x). by rewrite srev_ne, srev_srev.
  - change (join (String c "") (x :: y :: l)) with (x +:+ (String c (join (String c "") (y :: l)))).
    rewrite runs_go_app by done. cbn [runs_go]. rewrite Hc. change (srev_app x "") with (srev x).
    by rewrite srev_ne, srev_srev, IH.
Qed.

Lemma dedup_go_id seen l : List.NoDup l -> (forall x, In x l -> ~ In x seen) -> dedup_go seen l = l.
Proof.
  revert seen. induction l as [|x l IH]; intros seen Hn Hs; [done|]. inversion Hn; subst. cbn [dedup_go].
  destruct (str_in x seen) eqn:E.
  - exfalso. apply (Hs x); [by left|]. unfold str_in in E. by apply existsb_exists in E as (y & Hy & ->%String.eqb_eq).
  - f_equal. apply IH; [done|]. intros y Hy [<-|Hin]; [done|]. apply (Hs y); [by right|done].
Qed.

Lemma filter_id {A} (f : A -> bool) l : Forall (fun x => f x = true) l -> List.filter f l = l.
Proof. induction 1 as [|x l Hx Hl IH]; [done|]. simpl. by rewrite Hx, IH. Qed.

Lemma split_dns_nodup v : List.NoDup (split_dns v) /\ Forall (fun x => x <> "") (split_dns v).
Proof.
  unfold split_dns. split; [apply dedup_NoDup|]. apply List.Forall_forall. intros x Hx. apply (proj1 (dedup_in _ _)) in Hx.
  apply filter_In in Hx as [_ Hx]. by apply nonempty_spec.
Qed.

Lemma no_separator_no_space s : no_separator s = true -> sall (fun c => negb (is_space c)) s = true.
Proof.
  apply sall_impl. intros c. unfold dns_separator. rewrite !negb_true_iff, !orb_false_iff. tauto.
Qed.

Lemma split_dns_join l :
  Forall (fun x => x <> "" /\ no_separator x = true) l -> List.NoDup l -> split_dns (PStr (join "," l)) = l.
Proof.
  intros Hl Hn. unfold split_dns. cbv beta iota. rewrite text_of_str. unfold strip. rewrite strip_by_id.
  - rewrite runs_join; [|done|done]. rewrite filter_id; [apply dedup_go_id; [done|by intros x _ []]|].
    eapply List.Forall_impl; [|exact Hl]. intros x [Hx _]. by apply nonempty_spec.
  - apply sall_join; [done|]. eapply List.Forall_impl; [|exact Hl]. intros x [_ Hx]. by apply no_separator_no_space.
Qed.

(** *** Merged records, read back *)

Lemma flag_text (b : bool) : flag_of (PStr (if b then "1" else "0")) false = b.
Proof. by destruct b. Qed.

Lemma server_text (b : bool) : is_server (PStr (if b then "server" else "disabled")) = b.
Proof. by destruct b. Qed.

Lemma slaac_text server slaac : contains "slaac" (lower (text_of (PStr (dhcpv6_type server slaac)))) = slaac.
Proof. by destruct server, slaac. Qed.

Lemma type_text server slaac : str_or (text_of (PStr (dhcpv6_type server slaac))) "DHCPv6+SLAAC" = dhcpv6_type server slaac.
Proof. by destruct server, slaac. Qed.

(** The addresses a change keeps. *)
Definition chosen_dns (request current : dict) : list string :=
  if str_in (lower (text_of (por (get request "dnsType") (get current "dnsType")))) ["manual"; "admin"; "static"]
  then split_dns (get_or request "dns" (get current "dns")) else [].

Lemma strip_in s l : str_in s l = true -> forallb (fun x => String.eqb (strip x) x) l = true -> strip s = s.
Proof.
  unfold str_in. intros (x & Hx & ->%String.eqb_eq)%existsb_exists Hl. rewrite forallb_forall in Hl.
  by apply String.eqb_eq, Hl.
Qed.

Lemma validate_dns_ok v manual dns :
  validate_dns v manual = Ok dns ->
  dns = split_dns v /\ (manual = true -> dns <> []) /\ (List.length dns <= 4)%nat /\ Forall (fun a => is_ipv6_text a = true) dns.
Proof.
  unfold validate_dns. intros [Hm H]%demand_ok. apply demand_ok in H as [Hl%Nat.leb_le H].
  destruct (List.find _ (split_dns v)) as [a|] eqn:Ef; [done|]. injection H as <-. split; [done|].
  split; [intros ->; by destruct (split_dns v)|]. split; [done|]. apply List.Forall_forall. intros a Ha.
  apply (List.find_none _ _ Ef) in Ha. by apply negb_false_iff in Ha.
Qed.

Lemma merge_wan_ok w cur wan :
  merge_wan w cur = Ok wan ->
  let c := map_wan (strip_dict wan) in
  In (wc_proto c) ["dhcpv6"; "relay"]
  /\ (Forall (fun a => no_separator a = true) (chosen_dns w cur) -> wc_dns c = chosen_dns w cur)
  /\ (List.length (chosen_dns w cur) <= 4)%nat /\ Forall (fun a => is_ipv6_text a = true) (chosen_dns w cur)
  /\ (wc_dns_type c = "manual" <-> chosen_dns w cur <> [])
  /\ wc_relay c = String.eqb (wc_proto c) "relay" || flag_of (get w "relay") false
  /\ forall k, ~ In k ["proto"; "dnsType"; "dns"; "relay"] -> str_in k runtime_fields = false ->
     get (strip_dict wan) k = strip_runtime_fields (get cur k).
Proof.
  unfold merge_wan, chosen_dns. set (proto := lower (text_of (por (get w "proto") (get cur "proto")))).
  set (manual := str_in _ ["manual"; "admin"; "static"]). intros [Hp H]%demand_ok. apply demand_ok in H as [_ H].
  apply result_bind_ok in H as (dns & Hd & H). injection H as <-.
  apply validate_dns_ok in Hd as (-> & Hne & Hlen & Hv). set (dns := split_dns _) in *.
  set (relay := _ || _). cbv zeta. unfold map_wan.
  rewrite !get_strip by done. simpl_get. cbn [strip_runtime_fields]. rewrite !text_of_str, flag_text. cbn [wc_proto wc_dns wc_dns_type wc_relay].
  assert (strip proto = proto) as -> by by apply (strip_in proto ["dhcpv6"; "relay"]).
  assert (str_or proto "dhcpv6" = proto) as -> by (unfold str_or; destruct (nonempty proto) eqn:E; [done|apply nonempty_false in E; by rewrite E in Hp]).
  split; [|split; [|split; [|split; [|split; [|split]]]]].
  - unfold str_in in Hp. apply existsb_exists in Hp as (x & Hx & ->%String.eqb_eq). done.
  - intros Hs. destruct manual; [|done]. destruct (split_dns_nodup (get_or w "dns" (get cur "dns"))) as [Hnd Hnn].
    apply split_dns_join; [|done]. apply List.Forall_forall. intros x Hx.
    split; [by apply (proj1 (List.Forall_forall _ _) Hnn)|by apply (proj1 (List.Forall_forall _ _) Hs)].
  - destruct manual; [done|]. simpl. lia.
  - destruct manual; [done|constructor].
  - destruct manual; split; [intros _; by apply Hne|reflexivity|intros Ha; vm_compute in Ha; discriminate|intros []; done].
  - done.
  - intros k Hk Hr. rewrite get_strip by done.
    rewrite !get_dset_ne; [done|..]; intros <-; apply Hk; simpl; tauto.
Qed.

Definition chosen_prefix (request current : dict) : Z :=
  integer_of (get request "ip6assign") (integer_of (get current "ip6assign") 64).
Definition chosen_lease (request current : dict) : Z :=
  integer_of (get request "leasetime6") (integer_of (get current "leasetime6") 120).

Lemma merge_lan_ok l cur lan :
  merge_lan l cur = Ok lan ->
  let c := map_lan (strip_dict lan) in
  1 <= lc_prefix_length c <= 128 /\ 1 <= lc_lease_minutes c <= 10080
  /\ lc_prefix_length c = chosen_prefix l cur /\ lc_lease_minutes c = chosen_lease l cur
  /\ lc_dhcpv6_server c = lan_server l cur /\ lc_slaac c = lan_slaac l cur /\ lc_ra c = lan_ra l cur
  /\ lc_dhcpv6_type c = dhcpv6_type (lan_server l cur) (lan_slaac l cur)
  /\ forall k, ~ In k ["ip6assign"; "dhcpv6"; "dhcpv6Type"; "ra"; "ra_management"; "leasetime6"] ->
     str_in k runtime_fields = false -> get (strip_dict lan) k = strip_runtime_fields (get cur k).
Proof.
  unfold merge_lan. fold (chosen_prefix l cur) (chosen_lease l cur). set (n := chosen_prefix l cur). set (m := chosen_lease l cur).
  intros [Hn H]%demand_ok. apply demand_ok in H as [Hm H]. injection H as <-. to_prop. cbv zeta. unfold map_lan.
  rewrite !get_strip by done. simpl_get. cbn [strip_runtime_fields].
  rewrite !integer_of_text by (apply small_printable; lia). rewrite !server_text, slaac_text, type_text.
  cbn [lc_prefix_length lc_dhcpv6_server lc_slaac lc_dhcpv6_type lc_ra lc_lease_minutes].
  repeat (split; [first [done|lia]|]). intros k Hk Hr. rewrite get_strip by done.
  rewrite !get_dset_ne; [done|..]; intros <-; apply Hk; simpl; tauto.
Qed.


(** A switch that the request leaves out is not kept: it is turned off, whatever the
    router's setting is, because the missing value counts as the text of a false one. *)
Theorem omitted_switches_turn_off merged req w p :
  merge_config (PDict merged) (PDict req) = Ok p -> get req "wan" = PDict w -> get req "lan" = PDict [] ->
  let c := ic_lan (map_config p) in
  lc_dhcpv6_server c = false /\ lc_slaac c = false /\ lc_ra c = false.
Proof.
  intros Hm Hw Hl. cbv zeta.
  apply merge_config_ok in Hm as (m' & r' & w' & l' & wan & lan & Em & Er & Ew & El & Hwan & Hlan & ->).
  injection Em as <-. injection Er as <-. rewrite Hl in El. injection El as <-.
  apply merge_lan_ok in Hlan as (_ & _ & _ & _ & G5 & G6 & G7 & _). unfold map_config. cbn [dict_or_empty ic_lan].
  rewrite merged_lan, G5, G6, G7. done.
Qed.

(** ** The service writes only what it validated *)

Class RouterStores (R : Type) `{RouterClient R} := {
  network6 : R -> pyval;
  (** reading leaves the record, and answers with it when it answers *)
  rpc_get : forall r a r', rpc "devConfig.get" "network6" PNone r = (a, r') ->
            network6 r' = network6 r /\ forall v, a = Ok v -> v = network6 r;
  (** an accepted write replaces the record *)
  rpc_set : forall v r a r', rpc "devConfig.set" "network6" v r = (Ok a, r') -> assert_write_success a = Ok tt ->
            network6 r' = v;
}.

Section ServiceFacts.
Context {R : Type} `{RouterStores R}.

Lemma read_full_config_spec (r r' : R) a :
  read_full_config r = (a, r') -> network6 r' = network6 r /\ forall v, a = Ok v -> v = network6 r.
Proof.
  unfold read_full_config. rewrite prog_bind_eq. destruct (rpc _ _ _ r) as [[v|e] r1] eqn:E;
    apply rpc_get in E as [Hn Hv].
  - unfold lift. destruct (is_dict v); intros [= <- <-]; split; try done; intros v' [= <-]; by apply Hv.
  - intros [= <- <-]. by split.
Qed.


(** A successful update answers with the settings the router holds afterwards, and these
    are the validated merge of what it held before with the request. *)
Theorem update_is_verified requested (r r' : R) c :
  update_config requested r = (Ok c, r') ->
  exists p, merge_config (network6 r) requested = Ok p /\ network6 r' = p /\ c = map_config p.
Proof.
  unfold update_config. rewrite prog_bind_eq.
  destruct (read_full_config r) as [[v|e'] r1] eqn:Er; [|done]. apply read_full_config_spec in Er as [Hn Hv].
  rewrite (Hv v eq_refl). rewrite prog_bind_eq. unfold lift at 1.
  destruct (merge_config _ _) as [p|e]; [|done]. rewrite prog_bind_eq.
  destruct (rpc _ _ p r1) as [[res|e] r2] eqn:Ew; [|done]. rewrite prog_bind_eq. unfold lift at 1.
  destruct (assert_write_success res) as [[]|e] eqn:Ea; [|done]. apply rpc_set in Ew; [|done]. rewrite prog_bind_eq.
  destruct (read_full_config r2) as [[v2|e] r3] eqn:Er2; [|done]. apply read_full_config_spec in Er2 as [Hn2 Hv2].
  intros [= <- <-]. exists p. rewrite Hn2, Ew. split; [done|]. split; [done|]. by rewrite (Hv2 v2 eq_refl), Ew.
Qed.
End ServiceFacts.

(** ** A router that keeps one record *)

#[export] Instance plain_router : RouterClient pyval :=
  {| rpc := fun method _ params r =>
       if String.eqb method "devConfig.set" then (Ok (PDict [("rcode", PStr "0")]), params) else (Ok r, r) |}.
#[export] Instance plain_router_stores : RouterStores pyval.
Proof.
  refine {| network6 := fun r => r |}.
  - intros r a r' [= <- <-]. split; [done|]. by intros v [= <-].
  - intros v r a r' [= <- <-]. done.
Defined.

Definition demo_network6 : dict :=
  [("configId", PStr "7");
   ("wan6", PList [PDict [("ifname", PStr "@wan"); ("proto", PStr "dhcpv6"); ("dnsType", PStr "auto"); ("dns", PStr "")]]);
   ("lan", PList [PDict [("ip6assign", PStr "60"); ("dhcpv6", PStr "server"); ("dhcpv6Type", PStr "DHCPv6+SLAAC");
                         ("ra", PStr "server"); ("leasetime6", PStr "120")]])].
Definition demo_change : dict :=
  [("wan", PDict [("proto", PStr "relay"); ("dnsType", PStr "manual"); ("dns", PStr "2400:3200::1, 2606:4700::1111")]);
   ("lan", PDict [])].

Definition demo_written : pyval := catch (merge_config (PDict demo_network6) (PDict demo_change)) PNone.


Lemma omitted_switches_turn_off_witness :
  lc_ra (map_lan (first_mapping (get demo_network6 "lan"))) = true
  /\ lc_ra (ic_lan (map_config demo_written)) = false.
Proof.
  split; [vm_compute; reflexivity|].
  destruct (omitted_switches_turn_off demo_network6 demo_change
              [("proto", PStr "relay"); ("dnsType", PStr "manual"); ("dns", PStr "2400:3200::1, 2606:4700::1111")]
              demo_written) as (_ & _ & Hra); [vm_compute; reflexivity|reflexivity|reflexivity|exact Hra].
Defined.

Definition bad_change : pyval := PDict [("wan", PDict [("dnsType", PStr "manual"); ("dns", PStr "8.8.8.8")]); ("lan", PDict [])].


Lemma update_is_verified_witness :
  exists p, merge_config (network6 (PDict demo_network6)) (PDict demo_change) = Ok p
            /\ network6 (snd (update_config (PDict demo_change) (PDict demo_network6))) = p
            /\ map_config demo_written = map_config p.
Proof.
  apply (update_is_verified (PDict demo_change) (PDict demo_network6)).
  assert (fst (update_config (PDict demo_change) (PDict demo_network6)) = Ok (map_config demo_written)) as <-
    by (vm_compute; reflexivity). apply surjective_pairing.
Defined.
