(* ===== verification/RouterTasks.v ===== *)
(** * Router tasks

    The NAT detection, the network self-test and the Beta check: one task of each kind, its
    dict, its log, its file, and the worker that follows the router until the task ends
    ([router_task_manager_patch.py], the helpers of [router_native_features_patch.py], and the
    replaced timing of [final_stability_patch.py]). *)

From S2P Require Import Prelude PyNum PyVal PyTime HubValues Json Storage Hub.
From S2P Require Import RouterRpc.

(** ** Texts *)

Definition translate_beta_message (v : pyval) : string :=
  let text := strip (str_or_empty v) in
  let low := lower text in
  if negb (nonempty text) then "检测完成"
  else if contains "no new version" low || contains "latest version" low || contains "no update" low then "暂无可用的新版本"
  else if contains "new version" low || contains "update available" low then "发现可用的新版本"
  else if contains "timeout" low || contains "timed out" low then "版本检测超时"
  else if contains "failed" low || contains "error" low then "版本检测失败"
  else text.

(** ** NAT requests and answers *)

Definition rpc_error {A} (msg code : string) (status : Z) : result A :=
  Err (RouterRpcError msg code status).

Definition default_stun_host : string := "stun.voip.aebc.com".

(** [except (TypeError, ValueError)]. *)
Definition refused_int (e : exn) : bool := str_in (exn_class e) ["TypeError"; "ValueError"].

Definition normalize_nat_request (body : pyval) : result dict :=
  h ← vget body "host";
  let host := strip (py_str (por h (PStr default_stun_host))) in
  if negb (nonempty host) || (253 <? py_len host) || sexists is_space host
  then rpc_error "STUN服务器地址无效" "INVALID_STUN_HOST" 400
  else
    p ← vget_or body "port" (PInt 3478);
    let raw_port := if is_none p || negb (nonempty (strip (py_str p))) then PInt 3478 else p in
    port ← match py_int raw_port with
           | Err e => if refused_int e then rpc_error "STUN端口无效" "INVALID_STUN_PORT" 400 else Err e
           | Ok n => Ok n
           end;
    if negb ((1 <=? port) && (port <=? 65535)) then rpc_error "STUN端口必须在1到65535之间" "INVALID_STUN_PORT" 400
    else
      i ← vget body "interface";
      let interface := lower (strip (py_str (por i (PStr "wan")))) in
      if negb (str_in interface ["wan"; "wan1"]) then rpc_error "WAN接口无效" "INVALID_WAN_INTERFACE" 400
      else
        m ← vget body "mode";
        let mode := lower (strip (py_str (por m (PStr "classic")))) in
        if negb (str_in mode ["classic"; "5780"]) then rpc_error "NAT检测模式无效" "INVALID_NAT_MODE" 400
        else Ok [("host", PStr host); ("port", PInt port); ("interface", PStr interface); ("mode", PStr mode)].

Definition first_text (data : dict) (ks : list string) : string :=
  default "" (List.find (fun t => nonempty t && negb (str_in (lower t) ["none"; "null"; "--"]))
    (omap (fun k => match get data k with PNone => None | v => Some (strip (py_str v)) end) ks)).

Definition put_text (k v : string) (d : dict) : dict := if nonempty v then dset k (PStr v) d else d.

Definition nat_failures : list string := ["cancelled"; "canceled"; "failed"; "error"; "timeout"].
Definition nat_terminals : list string := ["completed"; "success"; "failed"; "error"; "timeout"; "cancelled"; "canceled"].

Definition normalize_nat_dict (parsed : dict) : dict :=
  let mapping := first_text parsed ["mapping_behavior"; "mappingBehavior"; "mapping"] in
  let filtering := first_text parsed ["filtering_behavior"; "filteringBehavior"; "filtering"] in
  let nat_type := first_text parsed ["nat_type"; "natType"; "classic_type"; "classicType"] in
  let external := first_text parsed ["external_address"; "externalAddress"; "mapped_address"; "mappedAddress"] in
  let other := first_text parsed ["other_address"; "otherAddress"] in
  let result := put_text "other_address" other (put_text "external_address" external (put_text "nat_type" nat_type
                  (put_text "filtering_behavior" filtering (put_text "mapping_behavior" mapping parsed)))) in
  let status := lower (first_text result ["status"]) in
  if nonempty mapping && nonempty filtering && negb (str_in status nat_failures)
  then dset "status" (PStr "completed") result
  else if nonempty nat_type && negb (str_in status nat_terminals)
  then dset "status" (PStr "completed") result
  else result.

(** [_normalize_nat_payload]. *)
Definition normalize_nat_payload (v : pyval) : pyval :=
  let parsed := match v with PStr s => loads s | _ => Some v end in
  match parsed with
  | None => v
  | Some (PDict d) => PDict (normalize_nat_dict d)
  | Some other => other
  end.

Definition nat_terminal (data : pyval) : bool :=
  match data with
  | PDict d =>
      let normalized := normalize_nat_dict d in
      let status := lower (strip (str_or_empty (get normalized "status"))) in
      if str_in status nat_terminals then true
      else if nonempty (first_text normalized ["nat_type"; "natType"]) then true
      else nonempty (first_text normalized ["mapping_behavior"; "mappingBehavior"; "mapping"])
           && nonempty (first_text normalized ["filtering_behavior"; "filteringBehavior"; "filtering"])
  | _ => false
  end.

(** ** The task of a kind *)

Definition terminal_states : list string := ["succeeded"; "failed"; "timed_out"; "cancelled"].
Definition task_kinds : list string := ["nat"; "diagnostic"; "beta"].

Definition new_task (kind : string) : dict :=
  [("kind", PStr kind); ("taskId", PStr ""); ("state", PStr "idle"); ("stage", PStr "idle");
   ("stageText", PStr "尚未开始"); ("startedAt", PInt 0); ("updatedAt", PInt 0); ("lastRouterResponseAt", PInt 0);
   ("elapsedSeconds", PInt 0); ("message", PStr ""); ("log", PList []); ("result", PDict [])].

(** [state in {...}] fails on a list or a dict. *)
Definition state_in (v : pyval) (l : list string) : result bool :=
  if is_list v || is_dict v then Err (Exn "TypeError" ("unhashable type: '" +:+ type_name v +:+ "'"))
  else Ok (existsb (is_text v) l).

Definition interrupted : dict :=
  [("state", PStr "failed"); ("stage", PStr "interrupted"); ("stageText", PStr "Hub 重启，任务已中断");
   ("message", PStr "任务未完成，可重新开始")].

Definition restored_task (kind : string) (value : dict) : result dict :=
  let restored := dupdate (new_task kind) value in
  terminal ← state_in (get restored "state") terminal_states;
  mret (if terminal || is_text (get restored "state") "idle" then restored else dupdate restored interrupted).

(** The loop of [_load]: an exception leaves the remaining kinds as they are. *)
Fixpoint load_kinds (root : dict) (kinds : list string) (tasks : dict) : dict :=
  match kinds with
  | [] => tasks
  | kind :: rest =>
      match get root kind with
      | PDict value => match restored_task kind value with
                       | Ok t => load_kinds root rest (dset kind (PDict t) tasks)
                       | Err _ => tasks
                       end
      | _ => load_kinds root rest tasks
      end
  end.

Definition fresh_tasks : dict := List.map (fun k => (k, PDict (new_task k))) task_kinds.

(** [__init__]: the file's value when it exists and is JSON. *)
Definition load_tasks (file : option pyval) : dict :=
  match file with Some (PDict root) => load_kinds root task_kinds fresh_tasks | _ => fresh_tasks end.

(** *** Timing *)

Definition or_int (v : pyval) (dflt : Z) : result Z := py_int (por v (PInt dflt)).

(** The log and the result of a snapshot are copies. *)
Definition copied (value : dict) : result dict :=
  log ← py_iter (por (get value "log") (PList []));
  mret (dset "result" (PDict (dict_or_empty (get value "result"))) (dset "log" (PList log) value)).

(** What the timing of [final_stability_patch.py] replaces: the snapshot, and the stamping of
    an updated task, which may fail after it changed the dict. *)
Class TaskTiming := {
  snapshot_at : Z -> dict -> result dict;
  stamp : Z -> dict -> dict * result unit;
}.

Definition running_timing : TaskTiming :=
  {| snapshot_at := fun now value =>
       started ← or_int (get value "startedAt") 0;
       copied (if (0 <? started) && negb (is_text (get value "state") "idle")
               then dset "elapsedSeconds" (PInt (Z.max 0 (now - started))) value else value);
     stamp := fun now current => (dset "updatedAt" (PInt now) current, Ok tt) |}.

Definition state_text (d : dict) : string := py_str (por (get d "state") (PStr "idle")).

Definition frozen_snapshot (now : Z) (value : dict) : result dict :=
  started ← or_int (get value "startedAt") 0;
  let state := state_text value in
  value ← (if 0 <? started then
             if negb (str_in state terminal_states) && negb (String.eqb state "idle")
             then Ok (dset "elapsedSeconds" (PInt (Z.max 0 (now - started))) value)
             else if str_in state terminal_states then
               frozen ← or_int (get value "elapsedSeconds") 0;
               frozen ← (if frozen <=? 0
                         then ended ← py_int (por (get value "completedAt") (por (get value "updatedAt") (PInt now)));
                              Ok (Z.max 0 (ended - started))
                         else Ok frozen);
               Ok (dset "elapsedSeconds" (PInt frozen) value)
             else Ok value
           else Ok value);
  copied value.

Definition frozen_stamp (now : Z) (current : dict) : dict * result unit :=
  match or_int (get current "startedAt") 0 with
  | Err e => (current, Err e)
  | Ok started =>
      if str_in (state_text current) terminal_states then
        match or_int (get current "completedAt") now with
        | Err e => (current, Err e)
        | Ok completed =>
            let current := dset "completedAt" (PInt completed) current in
            match or_int (get current "elapsedSeconds") 0 with
            | Err e => (current, Err e)
            | Ok elapsed =>
                let current := if (elapsed <=? 0) && (0 <? started)
                               then dset "elapsedSeconds" (PInt (Z.max 0 (completed - started))) current else current in
                (dset "updatedAt" (PInt now) current, Ok tt)
            end
        end
      else (dset "updatedAt" (PInt now) current, Ok tt)
  end.

Definition frozen_timing : TaskTiming := {| snapshot_at := frozen_snapshot; stamp := frozen_stamp |}.

(** The freezing of a task that was loaded. *)
Definition freeze_task (now : Z) (current : dict) : dict * result unit :=
  match or_int (get current "startedAt") 0 with
  | Err e => (current, Err e)
  | Ok started =>
      if str_in (state_text current) terminal_states && (0 <? started) then
        match py_int (por (get current "completedAt") (por (get current "updatedAt") (PInt now))) with
        | Err e => (current, Err e)
        | Ok ended =>
            let current := dset "completedAt" (PInt ended) current in
            match or_int (get current "elapsedSeconds") 0 with
            | Err e => (current, Err e)
            | Ok elapsed =>
                (if elapsed <=? 0 then dset "elapsedSeconds" (PInt (Z.max 0 (ended - started))) current else current, Ok tt)
            end
        end
      else (current, Ok tt)
  end.

(** ** The manager *)

(** A worker thread that was started, with its arguments. *)
Inductive job :=
| NatJob (task_id : string) (requested : dict)
| DiagnosticJob (task_id : string)
| BetaJob (task_id : string).

(** [ts_file] is the value in [router_tasks.json]; the two clocks are in milliseconds. *)
Record task_state := TaskState {
  ts_tasks : dict;
  ts_file : option pyval;
  ts_published : list dict;
  ts_ms : Z;
  ts_mono : Z;
  ts_events : nat;        (** router calls, sleeps, writes and identifiers so far *)
  ts_threads : list job;
}.

(** Everything outside the manager, by event number: the router's answers, the milliseconds a
    call takes or a sleep oversleeps, the wall clock's own jumps, what other threads do to the
    tasks meanwhile, whether a write succeeds, and the identifiers drawn.  The last three are
    the configured limits in seconds. *)
Record task_env := {
  te_rpc : nat -> string -> string -> pyval -> result pyval;
  te_takes : nat -> nat;
  te_jump : nat -> Z;
  te_others : nat -> dict -> dict;
  te_writable : nat -> bool;
  te_uuid : nat -> string;
  te_nat_limit : Z;
  te_diagnostic_limit : Z;
  te_beta_limit : Z;
}.

Section Manager.
Context (T : TaskTiming) (E : task_env).

Definition nat_max_seconds : Z := Z.max 180 (te_nat_limit E).
Definition diagnostic_max_seconds : Z := Z.max 30 (te_diagnostic_limit E).
Definition beta_max_seconds : Z := Z.max 15 (te_beta_limit E).
Definition poll_ms : Z := 2000.

Notation tasks A := (prog task_state A).

Definition now : tasks Z := reads (fun s => ts_ms s / 1000).

Definition set_tasks (d : dict) (s : task_state) : task_state :=
  TaskState d (ts_file s) (ts_published s) (ts_ms s) (ts_mono s) (ts_events s) (ts_threads s).

(** [self.tasks[kind]]. *)
Definition task_of (kind : string) (s : task_state) : dict := dict_or_empty (get (ts_tasks s) kind).
Definition put_task (kind : string) (d : dict) : tasks unit :=
  changes (fun s => set_tasks (dset kind (PDict d) (ts_tasks s)) s).

(** A call that blocks: time passes and the other threads run. *)
Definition blocking (ms : Z) : tasks nat := fun s =>
  let n := ts_events s in
  let passed := ms + Z.of_nat (te_takes E n) in
  (Ok n, TaskState (te_others E n (ts_tasks s)) (ts_file s) (ts_published s)
                   (ts_ms s + passed + te_jump E n) (ts_mono s + passed) (S n) (ts_threads s)).

Definition call (method module_ : string) (params : pyval) : tasks pyval :=
  n ← blocking 0; lift (te_rpc E n method module_ params).
Definition sleep : tasks unit := _ ← blocking poll_ms; mret tt.

(** [_save]: a failed write is logged only. *)
Definition save_tasks : tasks unit :=
  changes (fun s =>
    TaskState (ts_tasks s)
      (if te_writable E (ts_events s) && printable (PDict (ts_tasks s)) then Some (PDict (ts_tasks s)) else ts_file s)
      (ts_published s) (ts_ms s) (ts_mono s) (S (ts_events s)) (ts_threads s)).

Definition snapshot (kind : string) : tasks dict :=
  t ← now; s ← reads (task_of kind); lift (snapshot_at t s).

Definition publish (kind : string) : tasks unit :=
  snap ← snapshot kind;
  changes (fun s => TaskState (ts_tasks s) (ts_file s) (ts_published s ++ [snap]) (ts_ms s) (ts_mono s)
                              (ts_events s) (ts_threads s)).

Definition update (kind : string) (values : dict) : tasks dict :=
  t ← now;
  current ← reads (task_of kind);
  let '(current, stamped) := stamp t (dupdate current values) in
  _ ← put_task kind current;
  _ ← lift stamped;
  snap ← snapshot kind;
  _ ← save_tasks;
  _ ← publish kind;
  mret snap.

Definition log_cap : nat := 300.

Definition append_log (kind : string) (line : string) : tasks unit :=
  let text := strip line in
  if negb (nonempty text) then mret tt
  else
    current ← reads (task_of kind);
    lines ← lift (py_iter (por (get current "log") (PList [])));
    _ ← (if negb match List.last (List.map Some lines) None with Some l => is_text l text | None => false end
         then t ← now;
              _ ← put_task kind (dset "updatedAt" (PInt t)
                                   (dset "log" (PList (last_n log_cap (lines ++ [PStr text]))) current));
              save_tasks
         else mret tt);
    publish kind.

Definition queued_task (kind task_id stage_text : string) (t : Z) : dict :=
  dupdate (new_task kind)
    [("taskId", PStr task_id); ("state", PStr "queued"); ("stage", PStr "queued"); ("stageText", PStr stage_text);
     ("startedAt", PInt t); ("updatedAt", PInt t)].

Definition draw_uuid : tasks string := fun s =>
  (Ok (te_uuid E (ts_events s)),
   TaskState (ts_tasks s) (ts_file s) (ts_published s) (ts_ms s) (ts_mono s) (S (ts_events s)) (ts_threads s)).

(** [_begin]: the identifier, the snapshot and whether the task is new. *)
Definition begin_task (kind stage_text : string) : tasks (string * dict * bool) :=
  active ← reads (task_of kind);
  running ← lift (state_in (get active "state") ["queued"; "running"]);
  if (running : bool) then snap ← snapshot kind; mret (str_or_empty (get active "taskId"), snap, false)
  else
    u ← draw_uuid;
    t ← now;
    let task_id := kind +:+ "-" +:+ py_take 12 u in
    _ ← put_task kind (queued_task kind task_id stage_text t);
    _ ← save_tasks;
    snap ← snapshot kind;
    _ ← publish kind;
    mret (task_id, snap, true).

Definition start_thread (j : job) : tasks unit :=
  changes (fun s => TaskState (ts_tasks s) (ts_file s) (ts_published s) (ts_ms s) (ts_mono s) (ts_events s)
                              (ts_threads s ++ [j])).

Definition start_nat (payload : pyval) : tasks dict :=
  requested ← lift (normalize_nat_request payload);
  begun ← begin_task "nat" "检测任务已排队";
  let '(task_id, snap, created) := begun in
  if (created : bool) then _ ← start_thread (NatJob task_id requested); mret snap else mret snap.

Definition start_diagnostic : tasks dict :=
  begun ← begin_task "diagnostic" "网络自检已排队";
  let '(task_id, snap, created) := begun in
  if (created : bool) then _ ← start_thread (DiagnosticJob task_id); mret snap else mret snap.

Definition start_beta : tasks dict :=
  begun ← begin_task "beta" "版本检测已排队";
  let '(task_id, snap, created) := begun in
  if (created : bool) then _ ← start_thread (BetaJob task_id); mret snap else mret snap.

(** *** The workers *)

(** How a polling loop was left; [Running] means that the fuel ran out. *)
Inductive loop_end := Finished | Superseded | Deadline | Running.

(** The router's answer with the requested parameters. *)
Definition attach_request (requested normalized : dict) : result dict :=
  port ← or_int (get requested "port") 3478;
  mret (setdefault "mode" (get_or requested "mode" (PStr "classic"))
          (dset "requested_mode" (get_or requested "mode" (PStr "classic"))
            (dset "requested_interface" (get_or requested "interface" (PStr "wan"))
              (dset "requested_port" (PInt port)
                (dset "requested_host" (get_or requested "host" (PStr "")) normalized))))).

Definition nat_stage (normalized : dict) : string * string :=
  let mapping := strip (str_or_empty (get normalized "mapping_behavior")) in
  let filtering := strip (str_or_empty (get normalized "filtering_behavior")) in
  if nonempty mapping && negb (nonempty filtering) then ("mapping_done", "映射行为已返回，等待过滤行为")
  else if nonempty filtering then ("filtering_done", "过滤行为已返回，正在整理结果")
  else ("router_running", "路由器正在执行 NAT 检测").

Definition nat_verdict (normalized : dict) : dict :=
  let failed := str_in (lower (str_or_empty (get normalized "status"))) ["failed"; "error"; "timeout"; "cancelled"; "canceled"] in
  let text := if failed then "检测失败" else "检测完成" in
  [("state", PStr (if failed then "failed" else "succeeded")); ("stage", PStr "finished"); ("stageText", PStr text);
   ("message", PStr (py_str (por (get normalized "message") (PStr text)))); ("result", PDict normalized)].

(** One answer of the router; whether it ends the task. *)
Definition nat_report (requested : dict) (latest : pyval) : tasks bool :=
  match latest with
  | PDict d =>
      normalized ← lift (attach_request requested (normalize_nat_dict d));
      let raw_log := get normalized "log" in
      _ ← (if truthy raw_log then for_each (append_log "nat") (splitlines (py_str raw_log)) else mret tt);
      let '(stage, stage_text) := nat_stage normalized in
      t ← now;
      _ ← update "nat" [("stage", PStr stage); ("stageText", PStr stage_text); ("lastRouterResponseAt", PInt t);
                        ("result", PDict normalized)];
      if nat_terminal (PDict normalized) then _ ← update "nat" (nat_verdict normalized); mret true else mret false
  | _ => mret false
  end.

Definition nat_poll (latest : pyval) : tasks pyval :=
  try_except (call "devSta.get" "nat_detector" PNone)
    (fun _ => _ ← update "nat" [("stage", PStr "router_running"); ("stageText", PStr "路由器仍在检测，等待下一次状态响应")];
              mret latest).

Definition owns (kind task_id : string) (s : task_state) : bool := is_text (get (task_of kind s) "taskId") task_id.

Fixpoint nat_loop (fuel : nat) (task_id : string) (requested : dict) (deadline : Z) (latest : pyval) : tasks loop_end :=
  match fuel with
  | O => mret Running
  | S fuel' =>
      mono ← reads ts_mono;
      if negb (mono <? deadline) then mret Deadline
      else
        mine ← reads (owns "nat" task_id);
        if negb mine then mret Superseded
        else
          done ← nat_report requested latest;
          if (done : bool) then mret Finished
          else
            _ ← sleep;
            latest ← nat_poll latest;
            nat_loop fuel' task_id requested deadline latest
  end.

Definition failure (stage_text message : string) : dict :=
  [("state", PStr "failed"); ("stage", PStr "failed"); ("stageText", PStr stage_text); ("message", PStr message)].
Definition timeout (stage_text message : string) : dict :=
  [("state", PStr "timed_out"); ("stage", PStr "timeout"); ("stageText", PStr stage_text); ("message", PStr message)].

(** [_run_nat]; the result is whether the fuel was enough. *)
Definition run_nat (fuel : nat) (task_id : string) (requested : dict) : tasks bool :=
  try_except
    (_ ← update "nat" [("state", PStr "running"); ("stage", PStr "command"); ("stageText", PStr "正在向路由器发送检测指令");
                       ("request", PDict requested)];
     _ ← append_log "nat" "Hub 已接受 NAT 检测任务";
     start ← call "devSta.set" "nat_detector" (PDict requested);
     t ← now;
     _ ← update "nat" [("lastRouterResponseAt", PInt t); ("stage", PStr "router_running");
                       ("stageText", PStr "路由器正在执行 NAT 检测")];
     _ ← append_log "nat" "检测指令已发送到路由器";
     mono ← reads ts_mono;
     ended ← nat_loop fuel task_id requested (mono + nat_max_seconds * 1000) start;
     match ended with
     | Deadline =>
         _ ← update "nat" (timeout "检测超时" "路由器长时间未返回最终检测结果");
         _ ← append_log "nat" ("已等待 " +:+ int_str nat_max_seconds +:+ " 秒，任务结束");
         mret true
     | Running => mret false
     | _ => mret true
     end)
    (fun e => _ ← update "nat" (failure "检测失败" (str_or (exn_msg e) "NAT 检测失败")); mret true).

Definition percent_of (latest : dict) : result Z :=
  let process := strip (py_str (por (get latest "process") (por (get latest "progress") (PStr "0%")))) in
  n ← py_int (por (PStr (sfilter is_digit process)) (PInt 0));
  mret (Z.min 100 n).

Definition diagnostic_report : tasks bool :=
  latest ← call "devSta.get" "dev_diag" PNone;
  let latest := dict_or_empty latest in
  percent ← lift (percent_of latest);
  t ← now;
  _ ← update "diagnostic"
        [("stage", PStr (if percent <? 100 then "router_running" else "finished"));
         ("stageText", PStr (if percent <? 100 then "网络自检进行中（" +:+ int_str percent +:+ "%）" else "网络自检完成"));
         ("lastRouterResponseAt", PInt t); ("result", PDict latest)];
  if 100 <=? percent
  then _ ← update "diagnostic" [("state", PStr "succeeded"); ("stage", PStr "finished"); ("stageText", PStr "网络自检完成");
                                ("message", PStr "检测完成"); ("result", PDict latest)]; mret true
  else mret false.

Fixpoint diagnostic_loop (fuel : nat) (task_id : string) (deadline : Z) : tasks loop_end :=
  match fuel with
  | O => mret Running
  | S fuel' =>
      mono ← reads ts_mono;
      if negb (mono <? deadline) then mret Deadline
      else
        mine ← reads (owns "diagnostic" task_id);
        if negb mine then mret Superseded
        else
          done ← try_except diagnostic_report
                   (fun _ => _ ← update "diagnostic" [("stageText", PStr "路由器仍在自检，等待下一次状态响应")]; mret false);
          if (done : bool) then mret Finished
          else _ ← sleep; diagnostic_loop fuel' task_id deadline
  end.

Definition run_diagnostic (fuel : nat) (task_id : string) : tasks bool :=
  try_except
    (_ ← update "diagnostic" [("state", PStr "running"); ("stage", PStr "command"); ("stageText", PStr "正在向路由器发送自检指令")];
     _ ← append_log "diagnostic" "Hub 已接受网络自检任务";
     _ ← call "devSta.set" "dev_diag" (PDict [("user", PStr "eweb"); ("action", PStr "start")]);
     t ← now;
     _ ← update "diagnostic" [("lastRouterResponseAt", PInt t); ("stage", PStr "router_running");
                              ("stageText", PStr "路由器正在执行网络自检")];
     _ ← append_log "diagnostic" "自检指令已发送到路由器";
     mono ← reads ts_mono;
     ended ← diagnostic_loop fuel task_id (mono + diagnostic_max_seconds * 1000);
     match ended with
     | Deadline => _ ← update "diagnostic" (timeout "网络自检超时" "路由器长时间未返回完整自检结果"); mret true
     | Running => mret false
     | _ => mret true
     end)
    (fun e => _ ← update "diagnostic" (failure "网络自检失败" (str_or (exn_msg e) "网络自检失败")); mret true).

(** The Beta answer with its message translated. *)
Definition beta_result (data : pyval) (t : Z) : string * dict :=
  let result := match data with PDict d => d | _ => [("raw", data)] end in
  let next_data := dict_or_empty (get result "new") in
  let message := translate_beta_message (por (get next_data "msg") (get result "msg")) in
  (message, dset "checkedAt" (PInt t) (dset "new" (PDict (dset "msg" (PStr message) next_data)) result)).

Definition run_beta (task_id : string) : tasks bool :=
  try_except
    (_ ← update "beta" [("state", PStr "running"); ("stage", PStr "router_query"); ("stageText", PStr "正在向路由器查询 Beta 版本")];
     started ← reads ts_mono;
     data ← call "devSta.get" "ehr_beta_upgrade" (PDict [("action", PStr "version")]);
     mono ← reads ts_mono;
     if beta_max_seconds * 1000 <? mono - started
     then _ ← update "beta" (timeout "版本检测超时" "版本检测超时"); mret true
     else
       t ← now;
       let '(message, result) := beta_result data t in
       _ ← update "beta" [("state", PStr "succeeded"); ("stage", PStr "finished"); ("stageText", PStr "版本检测完成");
                          ("message", PStr message); ("lastRouterResponseAt", PInt t); ("result", PDict result)];
       mret true)
    (fun e => _ ← update "beta" (failure "版本检测失败" (translate_beta_message (PStr (exn_msg e)))); mret true).

Definition run_job (fuel : nat) (j : job) : tasks bool :=
  match j with
  | NatJob task_id requested => run_nat fuel task_id requested
  | DiagnosticJob task_id => run_diagnostic fuel task_id
  | BetaJob task_id => run_beta task_id
  end.

(** *** The handlers *)

Definition unknown_kind : response := error_response 404 "未知任务类型".

Definition task_get (kind : string) : tasks response :=
  if negb (str_in kind task_kinds) then mret unknown_kind
  else snap ← snapshot kind; mret (Response 200 (PDict [("ok", PBool true); ("data", PDict snap)])).

Definition task_start (q : request) (kind : string) : tasks response :=
  if String.eqb kind "nat" then
    data ← start_nat (json_body q); mret (Response 202 (PDict [("ok", PBool true); ("data", PDict data)]))
  else if String.eqb kind "diagnostic" then
    data ← start_diagnostic; mret (Response 202 (PDict [("ok", PBool true); ("data", PDict data)]))
  else if String.eqb kind "beta" then
    data ← start_beta; mret (Response 202 (PDict [("ok", PBool true); ("data", PDict data)]))
  else mret unknown_kind.

(** The tasks are frozen in the order of the dict when the later timing is installed. *)
Definition freeze_kind (t : Z) (kind : string) : tasks unit :=
  current ← reads (task_of kind);
  let '(current, frozen) := freeze_task t current in
  _ ← put_task kind current; lift frozen.

Definition install_frozen_timing : tasks unit :=
  t ← now; kinds ← reads (fun s => keys (ts_tasks s)); _ ← for_each (freeze_kind t) kinds; save_tasks.

End Manager.
