(* ===== verification/RouterTaskFacts.v ===== *)
(** * Facts about the router tasks

    No task is active after a restart, a second start joins the running task, every worker
    ends, and a finished task keeps its elapsed time. *)

From S2P Require Import Prelude PyNum PyVal PyTime HubValues Json Storage Hub.
From S2P Require Import RouterRpc RouterTasks.

(** ** Timing *)

(** A task whose times are integers and whose log is a list within its bound. *)
Record timed (d : dict) : Prop := {
  td_started : exists n, get d "startedAt" = PInt n;
  td_elapsed : exists n, get d "elapsedSeconds" = PInt n;
  td_updated : exists n, get d "updatedAt" = PInt n;
  td_completed : get d "completedAt" = PNone \/ exists n, get d "completedAt" = PInt n;
  td_log : exists l, get d "log" = PList l /\ (List.length l <= log_cap)%nat;
}.

(** The keys that a stamp may set. *)
Definition stamped_keys : list string := ["completedAt"; "elapsedSeconds"; "updatedAt"].

(** What the workers rely on, whichever timing is installed. *)
Class TaskTimingLaws (T : TaskTiming) : Prop := {
  snapshot_total : forall t d, timed d -> is_ok (snapshot_at t d) = true;
  stamp_total : forall t d, timed d -> exists d', stamp t d = (d', Ok tt) /\ timed d'
                  /\ forall k, str_in k stamped_keys = false -> get d' k = get d k;
}.

Lemma or_int_int n m : or_int (PInt n) m = Ok (if n =? 0 then m else n).
Proof. unfold or_int, por. cbn [truthy]. by destruct (n =? 0). Qed.

Lemma get_dset k k' v d : get (dset k v d) k' = if String.eqb k k' then v else get d k'.
Proof.
  destruct (String.eqb_spec k k') as [->|H]; [by rewrite get_dset_eq|by rewrite get_dset_ne].
Qed.

Lemma int_or_timed v n : v = PNone \/ (exists m, v = PInt m) -> exists z, or_int v n = Ok z.
Proof. intros [->|[m ->]]; [by exists n|]. rewrite or_int_int. by eexists. Qed.

Lemma copied_ok d l : get d "log" = PList l -> is_ok (copied d) = true.
Proof. intros H. unfold copied. rewrite H. by destruct l. Qed.

Lemma timed_set_time k n d : str_in k stamped_keys = true -> timed d -> timed (dset k (PInt n) d).
Proof.
  intros Hk [H1 H2 H3 H4 (l & H5 & H6)].
  assert (k = "completedAt" \/ k = "elapsedSeconds" \/ k = "updatedAt") as [-> |[-> | ->]].
  { apply str_in_spec in Hk. cbn in Hk. naive_solver. }
  all: constructor; rewrite ?get_dset; cbn; eauto.
Qed.

Lemma get_set_time k k' n d :
  str_in k stamped_keys = true -> str_in k' stamped_keys = false -> get (dset k (PInt n) d) k' = get d k'.
Proof.
  intros Hk Hk'. rewrite get_dset. destruct (String.eqb_spec k k') as [->|]; [|done]. by rewrite Hk in Hk'.
Qed.

#[export] Instance running_laws : TaskTimingLaws running_timing.
Proof.
  constructor.
  - intros t d [(n & H1) _ _ _ (l & Hl & _)]. cbn. rewrite H1, or_int_int. cbn.
    eapply copied_ok with (l := l). destruct (_ && _); [|done]. by rewrite get_dset.
  - intros t d Hd. cbn. eexists. split; [done|]. split; [by apply timed_set_time|].
    intros k Hk. by apply get_set_time.
Qed.

Lemma frozen_snapshot_total t d : timed d -> is_ok (frozen_snapshot t d) = true.
Proof.
  intros [(n & H1) (e & H2) (u & H3) Hc (l & Hl & _)]. unfold frozen_snapshot. rewrite H1, H2, H3, !or_int_int.
  assert (exists z, py_int (por (get d "completedAt") (por (PInt u) (PInt t))) = Ok z) as [z Hz].
  { destruct Hc as [-> |[m ->]]; unfold por; cbn [truthy]; repeat case_match; by eexists. }
  cbn [mbind result_bind]. rewrite Hz. cbn [mbind result_bind].
  repeat case_match; simplify_eq/=; (eapply copied_ok with (l := l)); by rewrite ?get_dset.
Qed.

#[export] Instance frozen_laws : TaskTimingLaws frozen_timing.
Proof.
  constructor; [apply frozen_snapshot_total|].
  intros t d Hd. cbn. unfold frozen_stamp. pose proof Hd as [(n & H1) (e & H2) _ Hc _].
  rewrite H1, or_int_int. destruct (str_in _ _).
  2:{ eexists. split; [done|]. split; [by apply timed_set_time|]. intros k Hk. by apply get_set_time. }
  assert (get d "completedAt" = PNone \/ exists m, get d "completedAt" = PInt m) as [c ->]%(int_or_timed _ t) by done.
  rewrite get_dset. cbn [String.eqb Ascii.eqb Bool.eqb]. rewrite H2, or_int_int.
  eexists. split; [done|]. split.
  - destruct (_ && _); auto using timed_set_time.
  - intros k Hk. destruct (_ && _); by rewrite ?get_set_time.
Qed.

(** ** Restarts and second starts *)

Definition settled (d : dict) : bool := existsb (is_text (get d "state")) ("idle" :: terminal_states).

Lemma settled_eq d : settled d = is_text (get d "state") "idle" || existsb (is_text (get d "state")) terminal_states.
Proof. done. Qed.

Lemma restored_settled kind v d : restored_task kind v = Ok d -> settled d = true.
Proof.
  unfold restored_task. rewrite settled_eq. intros H. apply result_bind_ok in H as (b & Hb & [= <-]).
  unfold state_in in Hb. destruct (is_list _ || is_dict _); [done|].
  assert (existsb (is_text (get (dupdate (new_task kind) v) "state")) terminal_states = b) as Ht by congruence.
  destruct (is_text (get (dupdate (new_task kind) v) "state") "idle") eqn:Ei; [by rewrite orb_true_r, Ei|].
  rewrite orb_false_r. destruct b; [by rewrite Ht, orb_true_r|].
  by rewrite !get_dset.
Qed.

(** Every kind of [tasks] holds a settled task. *)
Definition all_settled (tasks : dict) : Prop := forall kind d, get tasks kind = PDict d -> settled d = true.

Lemma load_kinds_settled root kinds tasks : all_settled tasks -> all_settled (load_kinds root kinds tasks).
Proof.
  revert tasks. induction kinds as [|kind kinds IH]; intros tasks Ht; [done|]. cbn [load_kinds].
  destruct (get root kind) as [| | | | | |value]; auto.
  destruct (restored_task kind value) as [t|e] eqn:Er; [|done].
  apply IH. intros kind' d. rewrite get_dset. case_match; [intros [= <-]|apply Ht]. by eapply restored_settled.
Qed.

(** Whatever the file of the last run holds, no task is queued or running after a restart. *)
Theorem restart_leaves_no_active_task file kind d : get (load_tasks file) kind = PDict d -> settled d = true.
Proof.
  assert (all_settled fresh_tasks) as Hf.
  { intros k d'. unfold fresh_tasks, get. cbn. by repeat (case_match; [intros [= <-]; reflexivity|]). }
  destruct file as [[| | | | | |root]|]; try apply Hf. by apply load_kinds_settled.
Qed.

Section Manager.
Context (T : TaskTiming) (E : task_env).

Lemma snapshot_eq kind s : snapshot T kind s = (snapshot_at (ts_ms s / 1000) (task_of kind s), s).
Proof. done. Qed.

(** While a task is queued or running, another start of that kind changes nothing and starts
    no thread: it answers 202 with the task's snapshot, or it fails. *)
Theorem second_start_joins q kind s r s' :
  In kind task_kinds -> In (get (task_of kind s) "state") [PStr "queued"; PStr "running"] ->
  task_start T E q kind s = (r, s') ->
  s' = s /\ forall a, r = Ok a -> exists snap, snapshot_at (ts_ms s / 1000) (task_of kind s) = Ok snap
                                 /\ a = Response 202 (PDict [("ok", PBool true); ("data", PDict snap)]).
Proof.
  intros Hk Hs. assert (state_in (get (task_of kind s) "state") ["queued"; "running"] = Ok true) as Hin.
  { cbn in Hs. destruct Hs as [<-|[<-|[]]]; reflexivity. }
  assert (forall text, begin_task T E kind text s
            = match snapshot_at (ts_ms s / 1000) (task_of kind s) with
              | Ok snap => (Ok (str_or_empty (get (task_of kind s) "taskId"), snap, false), s)
              | Err e => (Err e, s)
              end) as Hb.
  { intros text. unfold begin_task. rewrite prog_bind_eq. cbn [reads]. rewrite prog_bind_eq, Hin. cbn [lift].
    rewrite prog_bind_eq, snapshot_eq. by destruct (snapshot_at _ _). }
  unfold task_start, start_nat, start_diagnostic, start_beta. cbn in Hk.
  destruct Hk as [<-|[<-|[<-|[]]]]; cbn [String.eqb Ascii.eqb Bool.eqb]; rewrite ?prog_bind_eq.
  - destruct (normalize_nat_request _) as [req|e]; [|intros [= <- <-]; by split].
    cbn [lift]. rewrite prog_bind_eq, Hb. destruct (snapshot_at _ _) as [snap|e]; intros [= <- <-]; (split; [done|]); intros a Ha; simplify_eq; eauto.
  - rewrite Hb. destruct (snapshot_at _ _) as [snap|e]; intros [= <- <-]; (split; [done|]); intros a Ha; simplify_eq; eauto.
  - rewrite Hb. destruct (snapshot_at _ _) as [snap|e]; intros [= <- <-]; (split; [done|]); intros a Ha; simplify_eq; eauto.
Qed.
End Manager.

(** ** Every worker ends *)

Definition kept_keys : list string := ["startedAt"; "elapsedSeconds"; "updatedAt"; "completedAt"; "log"; "taskId"].

(** An update whose keys are distinct and leave the kept keys alone. *)
Definition proper_values (values : dict) : bool :=
  forallb (fun k => negb (str_in k kept_keys)) (keys values) && bool_decide (dedup (keys values) = keys values).

Lemma proper_nodup values : proper_values values = true -> nodup_keys values.
Proof. unfold proper_values, nodup_keys. intros [_ H%bool_decide_eq_true]%andb_prop. rewrite <- H. apply dedup_NoDup. Qed.

Lemma proper_kept values d k : proper_values values = true -> In k kept_keys -> get (dupdate d values) k = get d k.
Proof.
  intros Hv Hk. rewrite get_dupdate by by apply proper_nodup.
  assert (dget values k = None) as ->; [|done]. apply dget_None_keys. intros Hin.
  apply andb_prop in Hv as [Hv _]. rewrite forallb_forall in Hv. specialize (Hv _ Hin).
  apply str_in_spec in Hk. by rewrite Hk in Hv.
Qed.

Lemma timed_dupdate values d : proper_values values = true -> timed d -> timed (dupdate d values).
Proof.
  intros Hv [H1 H2 H3 H4 H5]. constructor; rewrite proper_kept; try done; cbn; tauto.
Qed.

Lemma timed_log d t l : timed d -> (List.length l <= log_cap)%nat ->
  timed (dset "updatedAt" (PInt t) (dset "log" (PList l) d)).
Proof. intros [H1 H2 H3 H4 H5] Hl. constructor; rewrite ?get_dset; cbn; eauto. Qed.

Section Workers.
Context (T : TaskTiming) `{!TaskTimingLaws T} (E : task_env) (kind : string).

(** Only its worker touches the task of this kind. *)
Definition undisturbed : Prop :=
  forall n ts, dict_or_empty (get (te_others E n ts) kind) = dict_or_empty (get ts kind).

Definition terminal (s : task_state) : Prop :=
  timed (task_of kind s) /\ exists st, In st terminal_states /\ get (task_of kind s) "state" = PStr st.

(** The worker of task [id] at monotonic time [m] or later. *)
Record working (id : string) (m : Z) (s : task_state) : Prop := {
  wk_timed : timed (task_of kind s);
  wk_id : get (task_of kind s) "taskId" = PStr id;
  wk_mono : m <= ts_mono s;
}.

Lemma task_of_put d s : task_of kind (set_tasks (dset kind (PDict d) (ts_tasks s)) s) = d.
Proof. unfold task_of, set_tasks. cbn [ts_tasks]. by rewrite get_dset_eq. Qed.

Lemma working_task id m s s' :
  working id m s -> task_of kind s' = task_of kind s -> ts_mono s <= ts_mono s' -> working id m s'.
Proof. intros [H1 H2 H3] Ht Hm. constructor; rewrite ?Ht; try done. lia. Qed.

Lemma publish_wp id m s (Q : unit -> task_state -> Prop) R :
  working id m s -> (forall s', task_of kind s' = task_of kind s -> ts_mono s' = ts_mono s -> ts_threads s' = ts_threads s -> Q tt s') ->
  wp (publish T kind) Q R s.
Proof.
  intros Hs HQ. unfold publish. apply wp_bind. unfold wp at 1. rewrite snapshot_eq.
  pose proof (snapshot_total (ts_ms s / 1000) _ (wk_timed _ _ _ Hs)) as Ht.
  destruct (snapshot_at _ _); [|done]. by apply HQ.
Qed.

Lemma update_wp id m s values (Q : dict -> task_state -> Prop) R :
  working id m s -> proper_values values = true ->
  (forall snap s', working id m s' ->
     (forall k v, dget values k = Some v -> str_in k stamped_keys = false -> get (task_of kind s') k = v) ->
     Q snap s') ->
  wp (update T E kind values) Q R s.
Proof.
  intros Hs Hv HQ. unfold update. do 2 (apply wp_bind, wp_reads).
  destruct (stamp_total (ts_ms s / 1000) (dupdate (task_of kind s) values)) as (d & -> & Hd & Hget).
  { apply timed_dupdate; [done|apply Hs]. }
  apply wp_bind, wp_changes, wp_bind, wp_lift, wp_bind.
  set (s1 := set_tasks _ s). assert (task_of kind s1 = d) as Ed by apply task_of_put.
  assert (working id m s1) as Hs1.
  { constructor; rewrite ?Ed; [done| |apply Hs].
    rewrite Hget, proper_kept by (done || (cbn; tauto)). apply Hs. }
  unfold wp at 1. rewrite snapshot_eq. pose proof (snapshot_total (ts_ms s1 / 1000) _ (wk_timed _ _ _ Hs1)) as Ht.
  destruct (snapshot_at _ _) as [snap|]; [|done]. apply wp_bind, wp_changes, wp_bind.
  eapply (publish_wp id m); [by eapply working_task|]. intros s2 E2 M2 _. apply wp_ret, HQ.
  - eapply working_task; [exact Hs1|by rewrite E2|rewrite M2; cbn; lia].
  - intros k v Hk Hst. rewrite E2. change (task_of kind _) with (task_of kind s1). rewrite Ed, Hget by done.
    rewrite get_dupdate by by apply proper_nodup. by rewrite Hk.
Qed.

Lemma append_log_wp id m s line (Q : unit -> task_state -> Prop) R :
  working id m s ->
  (forall s', working id m s' -> get (task_of kind s') "state" = get (task_of kind s) "state" -> Q tt s') ->
  wp (append_log T E kind line) Q R s.
Proof.
  intros Hs HQ. unfold append_log. destruct (negb _); [by apply HQ|]. apply wp_bind, wp_reads, wp_bind.
  pose proof (td_log _ (wk_timed _ _ _ Hs)) as (l & Hl & Hlen). rewrite Hl.
  assert (py_iter (por (PList l) (PList [])) = Ok l) as -> by by destruct l. apply wp_lift, wp_bind.
  destruct (negb _).
  - apply wp_bind, wp_reads, wp_bind, wp_changes, wp_changes.
    set (s1 := set_tasks _ s).
    assert (working id m s1) as Hs1.
    { constructor; unfold s1; rewrite ?task_of_put.
      - apply timed_log; [apply Hs|rewrite last_n_length; lia].
      - rewrite !get_dset. cbn. apply Hs.
      - apply Hs. }
    eapply (publish_wp id m); [by eapply working_task|]. intros s2 E2 M2 _. apply HQ.
    + eapply working_task; [exact Hs1|by rewrite E2|rewrite M2; cbn; lia].
    + assert (task_of kind s2 = task_of kind s1) as -> by exact E2. unfold s1. rewrite task_of_put, !get_dset. done.
  - apply wp_ret. eapply (publish_wp id m); [done|]. intros s2 E2 M2 _. apply HQ; [|by rewrite E2].
    eapply working_task; [done|done|lia].
Qed.

Hypothesis quiet : undisturbed.

Lemma blocking_wp id m s ms (Q : nat -> task_state -> Prop) R :
  working id m s -> 0 <= ms -> (forall n s', working id (m + ms) s' -> Q n s') -> wp (blocking E ms) Q R s.
Proof.
  intros Hs Hms HQ. apply HQ. set (s' := TaskState _ _ _ _ _ _ _).
  assert (task_of kind s' = task_of kind s) as Et by (unfold task_of; apply quiet).
  constructor; rewrite ?Et; [apply Hs..|]. pose proof (wk_mono _ _ _ Hs). cbn. lia.
Qed.

Lemma call_wp id m s method module_ params (Q : pyval -> task_state -> Prop) (R : exn -> task_state -> Prop) :
  working id m s -> (forall v s', working id m s' -> Q v s') -> (forall e s', working id m s' -> R e s') ->
  wp (call E method module_ params) Q R s.
Proof.
  intros Hs HQ HR. unfold call. apply wp_bind. eapply blocking_wp; [done|lia|]. intros n s'. rewrite Z.add_0_r. intros Hs'.
  apply wp_lift. destruct (te_rpc _ _ _ _ _); auto.
Qed.

Lemma sleep_wp id m s (Q : unit -> task_state -> Prop) R :
  working id m s -> (forall s', working id (m + poll_ms) s' -> Q tt s') -> wp (sleep E) Q R s.
Proof.
  intros Hs HQ. unfold sleep. apply wp_bind. eapply blocking_wp; [done|done|]. intros n s' Hs'. by apply wp_ret, HQ.
Qed.

(** The worker still owns its task. *)
Definition alive (id : string) (s : task_state) : Prop := exists m, working id m s.

Lemma working_now id m s : working id m s -> working id (ts_mono s) s.
Proof. intros [H1 H2 H3]. by constructor. Qed.

(** What a polling loop with enough fuel establishes. *)
Definition loop_post (id : string) (r : loop_end) (s : task_state) : Prop :=
  match r with Finished => terminal s | Deadline => alive id s | _ => False end.

Lemma owns_working id m s : working id m s -> owns kind id s = true.
Proof. intros Hs. unfold owns. rewrite (wk_id _ _ _ Hs). by apply is_text_spec. Qed.

Lemma terminal_update id m s values st (Q : dict -> task_state -> Prop) R :
  working id m s -> proper_values values = true -> dget values "state" = Some (PStr st) -> In st terminal_states ->
  (forall snap s', working id m s' -> terminal s' -> Q snap s') -> wp (update T E kind values) Q R s.
Proof.
  intros Hs Hv Hst Hin HQ. eapply update_wp; [done|done|]. intros snap s' Hs' Hget. apply HQ; [done|].
  split; [apply Hs'|]. exists st. split; [done|]. by apply (Hget "state").
Qed.

(** The handler of a worker's exception. *)
Lemma failure_wp id s stage_text message R :
  alive id s ->
  wp (_ ← update T E kind (failure stage_text message); mret true) (fun b s' => b = true /\ terminal s') R s.
Proof.
  intros [m Hs]. apply wp_bind. eapply (terminal_update id m s _ "failed"); [done|done|done|cbn; tauto|].
  intros snap s' _ Ht. by apply wp_ret.
Qed.
End Workers.

(** One step of a worker: an update, a line of the log, a call or a sleep. *)
Ltac work := cbv beta in *;
  lazymatch goal with
  | |- wp (reads _) _ _ _ => apply wp_reads
  | |- wp now _ _ _ => apply wp_reads
  | |- wp (mret _) _ _ _ => apply wp_ret
  | |- wp (append_log _ _ _ _) _ _ _ => eapply append_log_wp; [exact _|done|intros ? ? _]
  | |- wp (update _ _ _ _) _ _ _ => eapply update_wp; [exact _|done|reflexivity|intros ? ? ? _]
  | |- wp (call _ _ _ _) _ _ _ =>
      eapply call_wp; [done|done|intros ? ? ?|intros ? ? ?; try solve [red; eauto]]
  | |- wp (sleep _) _ _ _ => eapply sleep_wp; [done|done|intros ? ?]
  | |- wp (_ ≫= _) _ _ _ => apply wp_bind; work
  end.

Section Nat.
Context (T : TaskTiming) `{!TaskTimingLaws T} (E : task_env).
Hypothesis quiet : undisturbed E "nat".

Lemma nat_report_wp id m s requested latest :
  working "nat" id m s ->
  wp (nat_report T E requested latest)
     (fun done s' => if (done : bool) then terminal "nat" s' else working "nat" id m s') (fun _ => alive "nat" id) s.
Proof.
  intros Hs. unfold nat_report. destruct latest; try by apply wp_ret. apply wp_bind, wp_lift.
  destruct (attach_request _ _) as [normalized|e]; [|by exists m].
  apply wp_bind. eapply (wp_mono _ (fun _ => working "nat" id m) _ (fun _ => alive "nat" id)); [| |done].
  { destruct (truthy _); [|by apply wp_ret]. apply (wp_for_each _ (working "nat" id m)); [|done].
    intros line s1 Hs1. by work. }
  intros [] s1 Hs1. destruct (nat_stage normalized) as [stage stage_text]. do 2 work.
  destruct (nat_terminal _); [|by apply wp_ret]. apply wp_bind.
  eapply (terminal_update T E "nat" id m _ _ (if str_in (lower (str_or_empty (get normalized "status")))
            ["failed"; "error"; "timeout"; "cancelled"; "canceled"] then "failed" else "succeeded"));
    [done|reflexivity|reflexivity|by case_match; cbn; tauto|]. intros ? s3 _ Ht. by apply wp_ret.
Qed.

Lemma nat_loop_wp id requested deadline fuel (n : nat) m s latest :
  working "nat" id m s -> deadline - m <= poll_ms * Z.of_nat n -> (n < fuel)%nat ->
  wp (nat_loop T E fuel id requested deadline latest) (loop_post "nat" id) (fun _ => alive "nat" id) s.
Proof.
  revert n m s latest. induction fuel as [|fuel IH]; intros n m s latest Hs Hn Hf; [lia|]. cbn [nat_loop].
  work. destruct (ts_mono s <? deadline) eqn:Hlt; [|by exists m]. to_prop.
  cbn [negb]. work. rewrite (owns_working _ _ _ _ Hs). cbn [negb]. apply wp_bind.
  eapply wp_mono; [by apply nat_report_wp| |done]. intros done_ s1. destruct done_; intros H1; [done|].
  work. apply wp_bind, wp_try.
  assert (forall s2 a, working "nat" id (m + poll_ms) s2 ->
            wp (nat_loop T E fuel id requested deadline a) (loop_post "nat" id) (fun _ => alive "nat" id) s2) as Hnext.
  { intros s2 a H2. pose proof (wk_mono _ _ _ _ Hs). unfold poll_ms in *.
    apply (IH (n - 1)%nat (m + 2000)); [done|lia..]. }
  eapply call_wp; [done|done|auto|]. intros e s2 H2. work. work. auto.
Qed.

(** The polls that a time limit in seconds allows. *)
Definition polls (seconds : Z) : nat := Z.to_nat (seconds * 1000 / poll_ms) + 1.

Lemma polls_enough seconds : 0 <= seconds -> seconds * 1000 <= poll_ms * Z.of_nat (polls seconds).
Proof. unfold polls, poll_ms. intros H. pose proof (Z.div_mod (seconds * 1000) 2000). pose proof (Z.mod_pos_bound (seconds * 1000) 2000). lia. Qed.

Lemma run_nat_wp id requested fuel m s R :
  working "nat" id m s -> (polls (nat_max_seconds E) < fuel)%nat ->
  wp (run_nat T E fuel id requested) (fun b s' => b = true /\ terminal "nat" s') R s.
Proof.
  intros Hs Hf. unfold run_nat. apply wp_try.
  apply (wp_mono _ (fun b s' => b = true /\ terminal "nat" s') _ (fun _ => alive "nat" id)); [|done|].
  2:{ intros e s' H'. by eapply failure_wp. }
  do 7 work. apply wp_bind.
  apply (wp_mono _ (loop_post "nat" id) _ (fun _ => alive "nat" id)); [| |done].
  - eapply nat_loop_wp; [by eapply working_now| |done]. pose proof (polls_enough (nat_max_seconds E)).
    unfold nat_max_seconds in *. lia.
  - intros [| | |] s1 Hp; try done. destruct Hp as [m1 Hm1]. apply wp_bind.
    eapply (terminal_update T E "nat" id m1 _ _ "timed_out"); [done|reflexivity|reflexivity|cbn; tauto|].
    intros ? s2 Hm2 (_ & st & Hin & Hst). apply wp_bind. eapply append_log_wp; [exact _|done|]. intros s3 Hm3 E3.
    apply wp_ret. split; [done|]. split; [apply Hm3|]. exists st. by rewrite E3.
Qed.
End Nat.

Section Diagnostic.
Context (T : TaskTiming) `{!TaskTimingLaws T} (E : task_env).
Hypothesis quiet : undisturbed E "diagnostic".

Lemma diagnostic_report_wp id m s :
  working "diagnostic" id m s ->
  wp (diagnostic_report T E)
     (fun done s' => if (done : bool) then terminal "diagnostic" s' else working "diagnostic" id m s')
     (fun _ => working "diagnostic" id m) s.
Proof.
  intros Hs. unfold diagnostic_report. apply wp_bind.
  eapply call_wp; [done|done| |done]. intros latest s1 H1. apply wp_bind, wp_lift.
  destruct (percent_of _) as [percent|e]; [|done]. work. work.
  destruct (100 <=? percent); [|by apply wp_ret]. apply wp_bind.
  eapply (terminal_update T E "diagnostic" id m _ _ "succeeded"); [done|reflexivity|reflexivity|cbn; tauto|].
  intros ? s3 _ Ht. by apply wp_ret.
Qed.

Lemma diagnostic_loop_wp id deadline fuel (n : nat) m s :
  working "diagnostic" id m s -> deadline - m <= poll_ms * Z.of_nat n -> (n < fuel)%nat ->
  wp (diagnostic_loop T E fuel id deadline) (loop_post "diagnostic" id) (fun _ => alive "diagnostic" id) s.
Proof.
  revert n m s. induction fuel as [|fuel IH]; intros n m s Hs Hn Hf; [lia|]. cbn [diagnostic_loop].
  work. destruct (ts_mono s <? deadline) eqn:Hlt; [|by exists m]. to_prop.
  cbn [negb]. work. rewrite (owns_working _ _ _ _ Hs). cbn [negb]. apply wp_bind, wp_try.
  assert (forall s2 (b : bool), (if b then terminal "diagnostic" s2 else working "diagnostic" id m s2) ->
            wp (if b then mret Finished else _ ← sleep E; diagnostic_loop T E fuel id deadline)
               (loop_post "diagnostic" id) (fun _ => alive "diagnostic" id) s2) as Hnext.
  { intros s2 [|] H2; [done|]. work. pose proof (wk_mono _ _ _ _ Hs). unfold poll_ms in *.
    apply (IH (n - 1)%nat (m + 2000)); [done|lia..]. }
  eapply wp_mono; [by apply diagnostic_report_wp|auto|]. intros e s2 H2. work. work. by apply (Hnext _ false).
Qed.

Lemma run_diagnostic_wp id fuel m s R :
  working "diagnostic" id m s -> (polls (diagnostic_max_seconds E) < fuel)%nat ->
  wp (run_diagnostic T E fuel id) (fun b s' => b = true /\ terminal "diagnostic" s') R s.
Proof.
  intros Hs Hf. unfold run_diagnostic. apply wp_try.
  apply (wp_mono _ (fun b s' => b = true /\ terminal "diagnostic" s') _ (fun _ => alive "diagnostic" id)); [|done|].
  2:{ intros e s' H'. by eapply failure_wp. }
  do 7 work. apply wp_bind.
  apply (wp_mono _ (loop_post "diagnostic" id) _ (fun _ => alive "diagnostic" id)); [| |done].
  - eapply diagnostic_loop_wp; [by eapply working_now| |done]. pose proof (polls_enough (diagnostic_max_seconds E)).
    unfold diagnostic_max_seconds in *. lia.
  - intros [| | |] s1 Hp; try done. destruct Hp as [m1 Hm1]. apply wp_bind.
    eapply (terminal_update T E "diagnostic" id m1 _ _ "timed_out"); [done|reflexivity|reflexivity|cbn; tauto|].
    intros ? s2 _ Ht. by apply wp_ret.
Qed.
End Diagnostic.

Section Beta.
Context (T : TaskTiming) `{!TaskTimingLaws T} (E : task_env).
Hypothesis quiet : undisturbed E "beta".

Lemma run_beta_wp id m s R :
  working "beta" id m s -> wp (run_beta T E id) (fun b s' => b = true /\ terminal "beta" s') R s.
Proof.
  intros Hs. unfold run_beta. apply wp_try.
  apply (wp_mono _ (fun b s' => b = true /\ terminal "beta" s') _ (fun _ => alive "beta" id)); [|done|].
  2:{ intros e s' H'. by eapply failure_wp. }
  do 4 work. destruct (_ <? _).
  - apply wp_bind. eapply (terminal_update T E "beta" id m _ _ "timed_out"); [done|reflexivity|reflexivity|cbn; tauto|].
    intros ? s2 _ Ht. by apply wp_ret.
  - work. destruct (beta_result _ _) as [message result]. apply wp_bind.
    eapply (terminal_update T E "beta" id m _ _ "succeeded"); [done|reflexivity|reflexivity|cbn; tauto|].
    intros ? s2 _ Ht. by apply wp_ret.
Qed.
End Beta.

(** ** The whole life of a task *)

Definition kind_of (j : job) : string :=
  match j with NatJob _ _ => "nat" | DiagnosticJob _ => "diagnostic" | BetaJob _ => "beta" end.
Definition id_of (j : job) : string :=
  match j with NatJob i _ => i | DiagnosticJob i => i | BetaJob i => i end.

(** Enough polls for either loop. *)
Definition enough (E : task_env) (fuel : nat) : Prop :=
  (polls (nat_max_seconds E) < fuel)%nat /\ (polls (diagnostic_max_seconds E) < fuel)%nat.

Lemma worker_ends T `{!TaskTimingLaws T} E fuel j m s :
  undisturbed E (kind_of j) -> working (kind_of j) (id_of j) m s -> enough E fuel ->
  exists s', run_job T E fuel j s = (Ok true, s') /\ terminal (kind_of j) s'.
Proof.
  intros Hq Hs [Hn Hd].
  assert (wp (run_job T E fuel j) (fun b s' => b = true /\ terminal (kind_of j) s') (fun _ _ => False) s) as Hw.
  { destruct j; [by eapply run_nat_wp|by eapply run_diagnostic_wp|by eapply run_beta_wp]. }
  unfold wp in Hw. destruct (run_job T E fuel j s) as [[b|e] s']; [|done]. destruct Hw as [-> Ht]. eauto.
Qed.

Lemma queued_timed kind id text t : timed (queued_task kind id text t).
Proof. constructor; cbn; eauto. exists []. split; [done|apply Nat.le_0_l]. Qed.

Lemma settled_not_active d : settled d = true -> state_in (get d "state") ["queued"; "running"] = Ok false.
Proof.
  rewrite settled_eq. unfold terminal_states. cbn [existsb]. rewrite !orb_true_iff, !is_text_spec.
  by intros [->|[->|[->|[->|[->|]]]]].
Qed.

(** A start of a settled task creates a new one, which its worker owns. *)
Lemma begin_wp T `{!TaskTimingLaws T} E kind text s R :
  settled (task_of kind s) = true ->
  wp (begin_task T E kind text)
     (fun r s' => r.2 = true /\ working kind r.1.1 (ts_mono s) s' /\ ts_threads s' = ts_threads s) R s.
Proof.
  intros Hs. unfold begin_task. apply wp_bind, wp_reads, wp_bind, wp_lift. rewrite settled_not_active by done.
  apply wp_bind. unfold wp at 1. cbn [draw_uuid]. set (s0 := TaskState _ _ _ _ _ _ _).
  set (id := kind +:+ "-" +:+ py_take 12 (te_uuid E (ts_events s))).
  apply wp_bind, wp_reads, wp_bind, wp_changes, wp_bind, wp_changes. set (s1 := TaskState _ _ _ _ _ _ _).
  assert (task_of kind s1 = queued_task kind id text (ts_ms s0 / 1000)) as E1 by apply task_of_put.
  assert (working kind id (ts_mono s) s1) as H1.
  { constructor; rewrite ?E1; [apply queued_timed|done|cbn; lia]. }
  apply wp_bind. unfold wp at 1. rewrite snapshot_eq.
  pose proof (snapshot_total (ts_ms s1 / 1000) _ (wk_timed _ _ _ _ H1)) as Ht.
  destruct (snapshot_at _ _) as [snap|]; [|done]. apply wp_bind.
  eapply publish_wp; [exact _|done|]. intros s2 E2 M2 T2. apply wp_ret. split; [done|].
  split; [|by rewrite T2]. eapply working_task; [done|done|rewrite M2; lia].
Qed.

Lemma started_wp T `{!TaskTimingLaws T} E kind text s (mk : string -> job) R :
  settled (task_of kind s) = true -> (forall i, kind_of (mk i) = kind /\ id_of (mk i) = i) ->
  wp (begun ← begin_task T E kind text;
      let '(task_id, snap, created) := begun in
      if (created : bool) then _ ← start_thread (mk task_id); mret snap else mret snap)
     (fun _ s' => exists j, ts_threads s' = ts_threads s ++ [j] /\ kind_of j = kind
                            /\ working kind (id_of j) (ts_mono s) s') R s.
Proof.
  intros Hs Hk. apply wp_bind. eapply wp_mono; [by apply begin_wp| |done].
  intros [[id snap] created] s1 (Hc & Hw & Ht). cbn in Hc, Hw. subst. apply wp_bind, wp_changes, wp_ret.
  exists (mk id). destruct (Hk id) as [H1 H2]. rewrite H2. cbn. rewrite Ht. split; [done|]. split; [done|].
  eapply working_task; [done|done|cbn; lia].
Qed.

(** C27. A start that succeeds while the task is settled starts one worker, and this worker ends:
    if no other thread touches the task, then within a number of polls fixed by the time limits,
    whatever the router answers and however long it takes, the task is succeeded, failed or timed
    out, and its log holds at most 300 lines.  This holds for either timing. *)
Theorem started_task_ends T `{!TaskTimingLaws T} E q kind fuel s a s1 :
  settled (task_of kind s) = true -> In kind task_kinds -> task_start T E q kind s = (Ok a, s1) ->
  undisturbed E kind -> enough E fuel ->
  exists j s2, ts_threads s1 = ts_threads s ++ [j] /\ run_job T E fuel j s1 = (Ok true, s2) /\ terminal kind s2.
Proof.
  intros Hs Hk Hstart Hq Hf.
  assert (exists j, ts_threads s1 = ts_threads s ++ [j] /\ kind_of j = kind
            /\ working kind (id_of j) (ts_mono s) s1) as (j & Hj & <- & Hw).
  2:{ destruct (worker_ends T E fuel j _ s1 Hq Hw Hf) as (s2 & Hr & Ht). eauto. }
  assert (wp (task_start T E q kind) (fun _ s' => exists j, ts_threads s' = ts_threads s ++ [j] /\ kind_of j = kind
            /\ working kind (id_of j) (ts_mono s) s') (fun _ _ => True) s) as Hwp.
  2:{ by apply (wp_run _ _ _ _ _ _ Hwp) in Hstart. }
  unfold task_start. cbn in Hk. destruct Hk as [<-|[<-|[<-|[]]]]; cbn [String.eqb Ascii.eqb Bool.eqb]; apply wp_bind.
  - unfold start_nat. apply wp_bind, wp_lift. destruct (normalize_nat_request _) as [req|e]; [|done].
    by apply (started_wp T E "nat" _ s (fun i => NatJob i req)).
  - by apply (started_wp T E "diagnostic" _ s DiagnosticJob).
  - by apply (started_wp T E "beta" _ s BetaJob).
Qed.

(** ** Elapsed time *)

(** With the later timing a task that has ended keeps its elapsed time: every later snapshot
    of it is the same. *)
Theorem finished_time_is_frozen t d t1 t2 :
  0 < t -> timed d -> str_in (state_text d) terminal_states = true ->
  frozen_snapshot t1 (fst (frozen_stamp t d)) = frozen_snapshot t2 (fst (frozen_stamp t d)).
Proof.
  intros Ht [(n & H1) (e & H2) _ Hc _] Hst. unfold frozen_stamp. rewrite H1, or_int_int, Hst.
  assert (exists c, or_int (get d "completedAt") t = Ok c /\ c <> 0) as (c & -> & Hc0).
  { destruct Hc as [->|[m ->]]; [exists t; split; [done|lia]|]. rewrite or_int_int.
    destruct (m =? 0) eqn:?; eexists; (split; [done|]); to_prop; lia. }
  rewrite get_dset. cbn [String.eqb Ascii.eqb Bool.eqb]. rewrite H2, or_int_int. cbn [fst].
  set (d' := if (_ : bool) then dset _ _ _ else dset "completedAt" _ _).
  assert (exists e', get d' "elapsedSeconds" = PInt e') as [e' He].
  { unfold d'. case_match; rewrite !get_dset; cbn; eauto. }
  assert (get d' "startedAt" = PInt n /\ get d' "completedAt" = PInt c /\ get d' "state" = get d "state") as (G1 & G2 & G3).
  { unfold d'. case_match; rewrite !get_dset; cbn; done. }
  unfold frozen_snapshot. assert (state_text (dset "updatedAt" (PInt t) d') = state_text d) as ->.
  { unfold state_text. by rewrite get_dset, G3. }
  rewrite !get_dset. cbn [String.eqb Ascii.eqb Bool.eqb]. rewrite G1, G2, He, Hst, !or_int_int. cbn [mbind result_bind].
  unfold por. cbn [truthy]. assert (c =? 0 = false) as -> by by apply Z.eqb_neq. cbn [negb]. done.
Qed.

(** ** Witnesses *)

(** A router that never finishes: every poll takes ten milliseconds and answers with an empty
    dict. *)
Definition slow_router : task_env :=
  {| te_rpc := fun _ _ _ _ => Ok (PDict []); te_takes := fun _ => 10%nat; te_jump := fun _ => 0;
     te_others := fun _ ts => ts; te_writable := fun _ => true; te_uuid := fun _ => "0123456789abcdef";
     te_nat_limit := 600; te_diagnostic_limit := 180; te_beta_limit := 45 |}.

(** The start of the Hub on the file of a run that was interrupted. *)
Definition interrupted_file : pyval :=
  PDict [("nat", PDict [("state", PStr "running"); ("taskId", PStr "nat-1"); ("startedAt", PInt 1700000000)])].
Definition fresh_manager : task_state :=
  TaskState (load_tasks (Some interrupted_file)) None [] 1700000100000 5000 0 [].
Definition busy_manager : task_state :=
  TaskState [("nat", PDict (queued_task "nat" "nat-1" "" 1700000000))] None [] 1700000100000 5000 0 [].
Definition empty_request : request := {| q_header := fun _ => None; q_arg := fun _ => None; q_json := None |}.

Lemma restart_leaves_no_active_task_witness : settled (task_of "nat" fresh_manager) = true.
Proof. apply (restart_leaves_no_active_task (Some interrupted_file) "nat"). vm_compute. reflexivity. Defined.

Lemma second_start_joins_witness : snd (task_start frozen_timing slow_router empty_request "nat" busy_manager) = busy_manager.
Proof.
  apply (second_start_joins frozen_timing slow_router empty_request "nat" busy_manager
           (fst (task_start frozen_timing slow_router empty_request "nat" busy_manager)));
    [cbn; tauto|cbn; tauto|apply surjective_pairing].
Defined.

Definition started : result response * task_state :=
  task_start frozen_timing slow_router empty_request "nat" fresh_manager.

Lemma started_task_ends_witness :
  exists j s2, ts_threads (snd started) = ts_threads fresh_manager ++ [j]
               /\ run_job frozen_timing slow_router 400 j (snd started) = (Ok true, s2) /\ terminal "nat" s2.
Proof.
  apply (started_task_ends frozen_timing slow_router empty_request "nat" 400 fresh_manager
           (catch (fst started) unknown_kind) (snd started)).
  - vm_compute. reflexivity.
  - cbn. tauto.
  - assert (fst started = Ok (catch (fst started) unknown_kind)) as <- by (vm_compute; reflexivity).
    apply surjective_pairing.
  - intros n ts. reflexivity.
  - split; vm_compute; lia.
Defined.

Definition ended_task : dict := dset "state" (PStr "succeeded") (queued_task "nat" "nat-1" "" 1700000000).

Lemma finished_time_is_frozen_witness :
  frozen_snapshot 1700009999 (fst (frozen_stamp 1700000042 ended_task))
  = frozen_snapshot 1700000042 (fst (frozen_stamp 1700000042 ended_task)).
Proof.
  apply finished_time_is_frozen; [lia| |vm_compute; reflexivity].
  constructor; cbn; eauto. exists []. split; [done|apply Nat.le_0_l].
Defined.
