(* ===== verification/FirewallRules.v ===== *)
(** * Firewall rules that follow a mapping

    The helpers of [router/firewall_automation.py] that read a rule of the router: the address a
    rule matches, its ports and protocol, its fingerprint, and the document of bindings.  A
    binding hands the destination address of one existing rule over to the Hub.

    [str.isdigit] is read on ASCII texts. *)

From S2P Require Import Prelude PyNum PyVal PyIp PyTime HubValues Json Storage Hub Services PortMap RouterRpc RouterSite.

Definition automation_error (msg code : string) (http_status : Z) : exn :=
  coded_error "FirewallAutomationError" msg code http_status.

(** [raise FirewallAutomationError(msg)] unless [b]. *)
Definition ensure (b : bool) (msg : string) : result unit :=
  if b then Ok tt else Err (automation_error msg "INVALID_AUTOMATION" 400).

Definition enabled (v : pyval) (dflt : bool) : bool :=
  match v with
  | PNone => dflt
  | PBool b => b
  | _ => str_in (lower (text_of v)) ["1"; "true"; "yes"; "on"; "enabled"]
  end.

(** ** Rules of the router *)

Definition rows (data : pyval) : list dict :=
  match data with
  | PDict d => omap (fun v => match v with PDict row => Some row | _ => None end) (list_or_empty (get d "list"))
  | _ => []
  end.

Definition find_rule (data : pyval) (uuid : string) : option dict :=
  List.find (fun row => String.eqb (text_of (get row "uuid")) uuid) (rows data).

(** [raw.split(sep, 1)[0]]. *)
Definition before (sep s : string) : string := match cut sep s with Some (a, _) => a | None => s end.

Definition ip_text (v : pyval) (family : string) : string :=
  match ip_of_str (before "%" (before "/" (text_of v))) with
  | Some a =>
      if negb (ip_version a =? (if String.eqb family "ipv4" then 4 else 6))
         || is_unspecified a || is_multicast a || is_loopback a then ""
      else if (ip_version a =? 6) && is_link_local a then ""
      else ip_str a
  | None => ""
  end.

(** The lower half of an address, as an address; empty when it is zero. *)
Definition host_text (n : Z) : string :=
  let host := Z.land n low64 in if host =? 0 then "" else ipv6_str host.

(** [_suffix]: only an IPv6 address has one. *)
Definition suffix (address : string) : result string :=
  match ipv6_of_str address with
  | Some a => Ok (host_text (ip_int a))
  | None => Err (Exn "AddressValueError" ("At least 3 parts expected in " +:+ repr_str address))
  end.

(** The address of the field a binding controls; empty when the field holds none. *)
Definition field_value (field : string) (v : pyval) (family : string) : string :=
  if String.eqb field "destIP" then ip_text v family
  else if negb (String.eqb field "ipv6SuffixDest") || negb (String.eqb family "ipv6") then ""
  else
    let raw := text_of v in
    match ipv6_of_str (if contains ":" raw then raw else "::" +:+ raw) with
    | Some a => host_text (ip_int a)
    | None => ""
    end.

Definition target_from_endpoint (v : pyval) : string :=
  let raw := text_of v in
  match starts_with "[" raw, cut "]" raw with
  | true, Some (host, _) => sdrop 1 host
  | _, _ =>
      match split ":" raw with
      | [host; port] => if nonempty port && sall is_digit port then host else raw
      | _ => raw
      end
  end.

Section Fingerprint.
Context `{Sha256}.

(** The digest of every field but the counters and the controlled one. *)
Definition rule_fingerprint (rule : dict) (field : string) : string :=
  sha256 (dumps (PDict (List.filter (fun kv => negb (str_in kv.1 ["stats"; field])) rule))).
End Fingerprint.

Definition all_digits (s : string) : bool := nonempty s && sall is_digit s.
Definition digits_value (s : string) : result Z := py_int (PStr s).

(** One item of a port list: a port, or a range of ports. *)
Definition port_item (port : Z) (item : string) : result bool :=
  let part := strip item in
  single ← (if all_digits part then n ← digits_value part; mret (n =? port) else mret false);
  if single : bool then mret true
  else match cut ":" part with
       | Some (lo, hi) =>
           if all_digits (strip lo) && all_digits (strip hi) then
             first ← digits_value lo;
             if first <=? port then last ← digits_value hi; mret (port <=? last) else mret false
           else mret false
       | None => mret false
       end.

Fixpoint any_item (port : Z) (items : list string) : result bool :=
  match items with
  | [] => Ok false
  | item :: items' => found ← port_item port item; if found : bool then mret true else any_item port items'
  end.

Definition port_contains (value target : pyval) : result bool :=
  match int_of_str (text_of target) with
  | Some port =>
      if negb ((1 <=? port) && (port <=? 65535)) then Ok false
      else if nonempty (text_of value) then any_item port (split "," (replace "-" ":" (text_of value))) else Ok false
  | None => Ok false
  end.

Definition protocol_matches (rule_protocol mapping_protocol : pyval) : bool :=
  let rule := lower (text_of rule_protocol) in
  let mapping := replace "/" "+" (lower (text_of mapping_protocol)) in
  if str_in mapping ["tcp+udp"; "udp+tcp"; "both"] then str_in rule ["tcp"; "udp"]
  else String.eqb rule mapping && str_in rule ["tcp"; "udp"].

(** ** Bindings *)

Definition binding_uuid (b : dict) : string := text_of (get b "firewallUuid").
Definition match_field (b : dict) : string := text_of (get b "matchField").
Definition address_family (b : dict) : string := text_of (get b "addressFamily").

(** [_document()["bindings"]]. *)
Definition read_bindings (v : pyval) : list dict :=
  List.filter (fun b => nonempty (binding_uuid b))
    (omap (fun v => match v with PDict row => Some row | _ => None end)
       (list_or_empty (get (dict_or_empty v) "bindings"))).

Definition uuid_le (a b : dict) : bool := sleb (binding_uuid a) (binding_uuid b).
Definition binding_cap : nat := 100.

Definition automation_document (now : string) (bs : list dict) : pyval :=
  PDict [("version", PInt 2); ("updatedAt", PStr now);
         ("bindings", PList (List.map PDict (firstn binding_cap (isort uuid_le bs))))].

Definition others (uuid : string) (bs : list dict) : list dict :=
  List.filter (fun b => negb (String.eqb (binding_uuid b) uuid)) bs.
Definition find_binding (uuid : string) (bs : list dict) : option dict :=
  List.find (fun b => String.eqb (binding_uuid b) uuid) bs.

(** [_native_rows]. *)
Definition native_rows (data : pyval) : list dict :=
  match data with
  | PDict d => omap (fun v => match v with PDict row => Some row | _ => None end)
                 (list_or_empty (por (get d "portMapping") (get d "list")))
  | _ => []
  end.

(** The scope a binding asks for, checked against the rule it adopts. *)
Record scope := Scope { s_kind : string; s_mapping : string; s_family : string; s_field : string }.

Definition field_of (body rule : dict) : string :=
  let field := text_of (get body "matchField") in
  if nonempty field then field
  else if nonempty (text_of (get rule "ipv6SuffixDest")) then "ipv6SuffixDest" else "destIP".

Definition field_fits (family field : string) : bool :=
  str_in field ["destIP"; "ipv6SuffixDest"] && negb (String.eqb family "ipv4" && negb (String.eqb field "destIP")).

Definition check_scope (body rule : dict) : result scope :=
  _ ← ensure (String.eqb (lower (text_of (get body "targetType"))) "mapping") "自动化仅支持路由器 IPv6 映射和端口映射";
  let kind := lower (text_of (por (get body "mappingKind") (PStr "relay"))) in
  _ ← ensure (str_in kind ["relay"; "native"]) "映射类型无效";
  let mapping := text_of (get body "mappingId") in
  _ ← ensure (nonempty mapping) "请选择需要关联的映射规则";
  let family := lower (text_of (por (get body "addressFamily") (get rule "ipVersion"))) in
  _ ← ensure (str_in family ["ipv4"; "ipv6"]) "双栈规则不能绑定单一地址，请分别使用 IPv4 和 IPv6 规则";
  let field := field_of body rule in
  _ ← ensure (field_fits family field) "目标地址匹配方式与 IP 版本不兼容";
  _ ← ensure (String.eqb (lower (text_of (get rule "ipVersion"))) family) "自动跟随的 IP 版本必须与原防火墙规则一致";
  _ ← ensure (nonempty (field_value field (get rule field) family))
        ("请先在原防火墙规则中填写有效的" +:+ (if String.eqb field "ipv6SuffixDest" then "目的 IPv6 后缀" else "目的 IP")
         +:+ "，自动跟随不会改变匹配模式");
  _ ← ensure (String.eqb (upper (text_of (get rule "target"))) "ACCEPT") "丢弃规则不参与映射自动化";
  _ ← ensure (String.eqb (lower (text_of (get rule "direction"))) "forward") "映射只能关联 WAN 到 LAN 的转发规则";
  _ ← ensure (String.eqb (lower (text_of (get rule "inIface"))) "wan" && String.eqb (lower (text_of (get rule "outIface"))) "lan")
        "映射防火墙规则必须使用 WAN 入接口和 LAN 出接口";
  mret (Scope kind mapping family field).

(** The rest of the checks: the mapping must ask for what the rule lets through. *)
Definition check_mapping (scope : scope) (rule : dict) (mapping : option dict) : result unit :=
  match mapping with
  | None => Err (automation_error "关联的映射规则不存在或暂不可读取" "MAPPING_NOT_FOUND" 404)
  | Some m =>
      _ ← ensure (String.eqb (text_of (get m "addressFamily")) (s_family scope)) "防火墙规则与映射的 IP 版本不一致";
      _ ← ensure (protocol_matches (get rule "proto") (get m "protocol")) "防火墙规则与映射的协议不一致";
      covered ← port_contains (get rule "destPort") (get m "targetPort");
      ensure covered "目的端口未覆盖映射的目标端口"
  end.

(** The conditions a followed rule keeps meeting; [None] stands for a mapping that is gone. *)
Definition fits (rule b : dict) (mapping : option dict) : result bool :=
  let family := address_family b in
  let field := match_field b in
  match mapping with
  | None => Ok false
  | Some m =>
      if String.eqb (lower (text_of (get rule "ipVersion"))) family && field_fits family field
         && nonempty (field_value field (get rule field) family)
         && String.eqb (upper (text_of (get rule "target"))) "ACCEPT"
         && String.eqb (lower (text_of (get rule "direction"))) "forward"
         && String.eqb (lower (text_of (get rule "inIface"))) "wan"
         && String.eqb (lower (text_of (get rule "outIface"))) "lan"
         && String.eqb (text_of (get m "addressFamily")) family
         && protocol_matches (get rule "proto") (get m "protocol")
      then port_contains (get rule "destPort") (get m "targetPort")
      else Ok false
  end.
