(* ===== verification/FirewallAutomation.v ===== *)
(** * The service that keeps adopted firewall rules on their target

    [FirewallAutomationService] and its routes, [router/firewall_automation.py].  The state is a
    [site]: the bindings are a document of the Hub, the candidates live in its memory, the rules
    are the router's.  [acquired] tells whether [reconcile] got its lock. *)

From S2P Require Import Prelude PyNum PyVal PyIp PyTime HubValues Json Storage Hub Services AgentCmd PortMap RouterRpc RouterSite FirewallRules.

Definition automation_file : string := "firewall_automation.json".
Definition candidates_name : string := "FIREWALL_AUTOMATION.candidates".

(** ** Bindings and candidates *)

Section Documents.
Context {S : Type} `{DocStore S} {tz : TimeZone}.

Definition monotonic : hub S Z := fun w => (Ok (w_mono w), w).

Definition bindings : hub S (list dict) :=
  raw ← load_json automation_file (PDict []); mret (read_bindings raw).

Definition save_rows (bs : list dict) : hub S unit :=
  now ← now_str; save_json automation_file (automation_document now bs).

Definition replace_binding (replacement : dict) : hub S unit :=
  bs ← bindings; save_rows (others (binding_uuid replacement) bs ++ [replacement]).

Definition candidates : hub S dict := v ← mem_get candidates_name (PDict []); mret (dict_or_empty v).
Definition set_candidates (rows : dict) : hub S unit := mem_set candidates_name (PDict rows).
Definition clear_candidate (uuid : string) : hub S unit := rows ← candidates; set_candidates (ddel uuid rows).

(** A new address has to be seen twice in a row. *)
Definition stable_observations : Z := 2.

Definition candidate_confirmed (uuid desired : string) : hub S bool :=
  now ← monotonic;
  rows ← candidates;
  let first := _ ← set_candidates (dset uuid (PDict [("value", PStr desired); ("count", PInt 1); ("firstSeen", PInt now)]) rows);
               mret false in
  match get rows uuid with
  | PDict previous =>
      if String.eqb (text_of (get previous "value")) desired then
        seen ← lift (py_int (por (get previous "count") (PInt 0)));
        let count := Z.min stable_observations (seen + 1) in
        _ ← set_candidates (dset uuid (PDict (dset "count" (PInt count) previous)) rows);
        mret (stable_observations <=? count)
      else first
  | _ => first
  end.

Definition suspend (b : dict) (reason : string) : hub S unit :=
  if enabled (get b "suspended") false && String.eqb (text_of (get b "suspendedReason")) reason then mret tt
  else
    now ← epoch;
    _ ← replace_binding (dupdate b [("suspended", PBool true); ("suspendedReason", PStr reason); ("suspendedAt", PInt now)]);
    clear_candidate (binding_uuid b).

Definition delete (uuid : string) : hub S bool :=
  bs ← bindings;
  if (List.length (others uuid bs) =? List.length bs)%nat then mret false
  else _ ← save_rows (others uuid bs); _ ← clear_candidate uuid; mret true.

(** ** Mappings *)

(** Where a LabRelay mapping leads: the target the Agent resolved while it runs, else the
    configured one. *)
Definition relay_candidate (family : string) (rule runtime : dict) : pyval :=
  let resolved := if str_in (lower (text_of (get runtime "state"))) ["running"; "active"]
                  then PStr (target_from_endpoint (get runtime "resolvedTarget")) else PStr "" in
  let c := if negb (truthy resolved) && String.eqb family "ipv4" then get rule "targetIpv4" else resolved in
  let c := if negb (truthy c) && String.eqb (text_of (get rule "targetMode")) "ipv6_full" then get rule "targetIpv6" else c in
  if truthy c then c else get rule "targetIpv6Snapshot".

Definition relay_mapping_spec (b : dict) : hub S (option dict) :=
  let id := text_of (get b "mappingId") in
  document ← load_portmap_rules_document;
  match (if rd_loaded document then List.find (fun row => String.eqb (text_of (get row "id")) id) (rd_rules document) else None) with
  | None => mret None
  | Some rule =>
      let family := if String.eqb (lower (text_of (get rule "mode"))) "6to4" then "ipv4" else "ipv6" in
      status ← load_json "portmap_router_status.json" (PDict []);
      runtimes ← lift (runtime_map status);
      let runtime := dict_or_empty (get runtimes id) in
      mret (Some [("mappingKind", PStr "relay"); ("mappingId", PStr id); ("name", PStr (str_or (text_of (get rule "name")) id));
                  ("addressFamily", PStr family); ("address", PStr (ip_text (relay_candidate family rule runtime) family));
                  ("protocol", PStr (lower (text_of (por (get rule "transportProtocol") (PStr "TCP")))));
                  ("targetPort", get rule "targetPort")])
  end.
End Documents.

Section Service.
Context {S R : Type} `{DocStore S} {tz : TimeZone} `{RouterClient R} `{RouterBatch R} `{Sha256} (E : env).

Definition synced_data (resource : string) : router_prog S R pyval :=
  fun s => (Ok (get (snapshot resource (st_sync s)) "data"), s).

Definition native_mapping_spec (b : dict) (fresh : bool) : router_prog S R (option dict) :=
  let id := text_of (get b "mappingId") in
  held ← synced_data "portMappings";
  data ← (match fresh, native_rows held with
          | true, [] => latest ← native_port_mapping; mret (PDict latest)
          | _, _ => mret held
          end);
  mret (option_map (fun rule =>
    [("mappingKind", PStr "native"); ("mappingId", PStr id); ("name", PStr (str_or (text_of (get rule "ruleName")) id));
     ("addressFamily", PStr "ipv4"); ("address", PStr (ip_text (get rule "destIp") "ipv4"));
     ("protocol", PStr (lower (text_of (por (get rule "proto") (PStr "tcp"))))); ("targetPort", get rule "destPort")])
    (List.find (fun row => String.eqb (text_of (get row "ruleName")) id) (native_rows data))).

Definition mapping_spec (b : dict) (fresh : bool) : router_prog S R (option dict) :=
  let kind := lower (text_of (por (get b "mappingKind") (PStr "relay"))) in
  if String.eqb kind "relay" then on_hub (relay_mapping_spec b)
  else if String.eqb kind "native" then native_mapping_spec b fresh
  else mret None.

Definition is_mapping (b : dict) : bool := String.eqb (text_of (get b "targetType")) "mapping".

(** The address a binding asks for and the name of its mapping. *)
Definition resolve (b : dict) : router_prog S R (string * string) :=
  if negb (is_mapping b) then mret ("", "")
  else
    mapping ← mapping_spec b false;
    match mapping with
    | None => mret ("", text_of (get b "mappingId"))
    | Some m =>
        let address := ip_text (get m "address") (address_family b) in
        address ← lift (if nonempty address && String.eqb (match_field b) "ipv6SuffixDest" then suffix address else Ok address);
        mret (address, text_of (get m "name"))
    end.

Definition rule_compatible (rule : option dict) (b : dict) : router_prog S R bool :=
  match rule with
  | Some rule =>
      if negb (is_mapping b) then mret false
      else mapping ← mapping_spec b false; lift (fits rule b mapping)
  | None => mret false
  end.

(** ** What is shown of a binding *)

Definition controlled (b rule : dict) : string := field_value (match_field b) (get rule (match_field b)) (address_family b).
Definition applied (b : dict) : string := field_value (match_field b) (get b "lastAppliedValue") (address_family b).

(** The rule is not what the Hub last wrote or adopted. *)
Definition drifted (b rule : dict) : bool :=
  negb (nonempty (applied b)) || negb (nonempty (text_of (get b "ruleFingerprint")))
  || negb (String.eqb (controlled b rule) (applied b))
  || negb (String.eqb (rule_fingerprint rule (match_field b)) (text_of (get b "ruleFingerprint"))).

Definition paused (b : dict) : bool := negb (enabled (get b "enabled") true) || enabled (get b "suspended") false.

Definition status_of (b : dict) (rule : option dict) (desired : string) : router_prog S R (string * string) :=
  if negb (is_mapping b) then mret ("out_of_scope", "该旧绑定不属于路由器映射，已停止自动操作")
  else if negb (enabled (get b "enabled") true) then mret ("disabled", "自动跟随已暂停")
  else if enabled (get b "suspended") false || match rule with Some rule => drifted b rule | None => false end
  then mret ("manual_override", "检测到人工修改，自动跟随已暂停，不会覆盖当前规则")
  else match rule with
       | None => mret ("missing_rule", "原规则已不存在，不会自动新建")
       | Some r =>
           compatible ← rule_compatible rule b;
           mret (if negb compatible then ("unsupported", "原规则的 IP 版本或匹配方式已改变，未执行自动更新")
                 else if negb (nonempty desired) then ("waiting_target", "尚未确认唯一有效地址，保持原规则不变")
                 else if String.eqb (controlled b r) desired then ("synced", "目的地址已同步")
                 else ("pending", "检测到地址变化，等待安全同步"))
       end.

Definition state (firewall_data : pyval) (b : dict) : router_prog S R dict :=
  let rule := find_rule firewall_data (binding_uuid b) in
  target ← resolve b;
  status ← status_of b rule target.1;
  let r := default [] rule in
  mret (dupdate b [("targetName", PStr target.2); ("ruleName", PStr (text_of (get r "ruleName")));
                   ("direction", PStr (text_of (get r "direction"))); ("currentAddress", PStr (controlled b r));
                   ("desiredAddress", PStr target.1); ("status", PStr status.1); ("statusMessage", PStr status.2)]).

Fixpoint prog_map {A B} (f : A -> router_prog S R B) (l : list A) : router_prog S R (list B) :=
  match l with
  | [] => mret []
  | x :: l' => y ← f x; ys ← prog_map f l'; mret (y :: ys)
  end.

(** [describe]; without data of the firewall it takes the snapshot, or reads the router. *)
Definition describe (uuid : string) (firewall_data : option pyval) : router_prog S R pyval :=
  data ← (match firewall_data with
          | Some v => mret v
          | None => held ← synced_data "firewall";
                    if is_dict held then mret held else latest ← firewall; mret (PDict latest)
          end);
  bs ← on_hub bindings;
  states ← prog_map (state data) bs;
  mret (if nonempty uuid then PDict (default [] (find_binding uuid states))
        else PDict [("bindings", PList (List.map PDict states)); ("total", PInt (Z.of_nat (List.length states)))]).

(** ** Reconciliation *)

Definition verify (data : pyval) (b : dict) (desired : string) : result unit :=
  if String.eqb (controlled b (default [] (find_rule data (binding_uuid b)))) desired then Ok tt
  else Err (automation_error "路由器回读地址与期望值不一致" "VERIFY_FAILED" 502).

(** The rule as it is written back: every raw field but the counters, the controlled one replaced. *)
Definition rewritten (b rule : dict) (desired : string) : dict := dset (match_field b) (PStr desired) (ddel "stats" rule).

Definition update_rule (payload : dict) : router_prog S R pyval :=
  call "devConfig.update" "ip_firewall" (PDict [("list", PList [PDict payload])]).

Definition followed (b rule : dict) (desired : string) (now : Z) : dict :=
  dupdate b [("lastAppliedValue", PStr desired); ("ruleFingerprint", PStr (rule_fingerprint rule (match_field b)));
             ("lastAppliedAt", PInt now); ("suspended", PBool false); ("suspendedReason", PStr "")].

(** Write the address, read it back and remember it. *)
Definition apply_address (b rule : dict) (desired : string) : router_prog S R dict :=
  let uuid := binding_uuid b in
  let payload := rewritten b rule desired in
  verified ← write_and_verify "firewall" (update_rule payload) firewall;
  _ ← lift (verify (PDict verified) b desired);
  now ← on_hub epoch;
  _ ← on_hub (replace_binding (followed b (default payload (find_rule (PDict verified) uuid)) desired now));
  _ ← on_hub (clear_candidate uuid);
  now ← on_hub epoch;
  mret [("ok", PBool true); ("changed", PBool true); ("firewallUuid", PStr uuid); ("field", PStr (match_field b));
        ("oldAddress", PStr (controlled b rule)); ("newAddress", PStr desired); ("verifiedAt", PInt now)].

(** One binding of the loop; [None] goes on with the next one. *)
Definition follow (current b : dict) : router_prog S R (option dict) :=
  let uuid := binding_uuid b in
  if negb (is_mapping b) || paused b then mret None
  else match find_rule (PDict current) uuid with
  | None => mret None
  | Some rule =>
      let actual := controlled b rule in
      if drifted b rule then
        _ ← on_hub (suspend b (if nonempty (applied b) then "manual_change" else "confirmation_required"));
        mret (Some [("ok", PBool true); ("changed", PBool false); ("suspended", PBool true); ("firewallUuid", PStr uuid)])
      else
        compatible ← rule_compatible (Some rule) b;
        if negb compatible then mret None
        else
          target ← resolve b;
          let desired := target.1 in
          if negb (nonempty desired) || negb (nonempty actual) || String.eqb actual desired then
            _ ← on_hub (if String.eqb actual desired then clear_candidate uuid else mret tt);
            mret None
          else
            confirmed ← on_hub (candidate_confirmed uuid desired);
            if confirmed : bool then answer ← apply_address b rule desired; mret (Some answer) else mret None
  end.

Definition unchanged : dict := [("ok", PBool true); ("changed", PBool false)].

(** The first binding that suspends or writes ends the round. *)
Fixpoint first_answer (f : dict -> router_prog S R (option dict)) (bs : list dict) : router_prog S R dict :=
  match bs with
  | [] => mret unchanged
  | b :: bs' => answer ← f b; match answer with Some a => mret a | None => first_answer f bs' end
  end.

Definition selected (uuid : string) (bs : list dict) : list dict :=
  if nonempty uuid then List.filter (fun b => String.eqb (binding_uuid b) uuid) bs else bs.

Definition reconcile (acquired : bool) (firewall_data : pyval) (uuid : string) : router_prog S R dict :=
  if negb acquired then mret (unchanged ++ [("busy", PBool true)])
  else
    current ← (match firewall_data with PDict d => mret d | _ => firewall end);
    bs ← on_hub bindings;
    first_answer (follow current) (selected uuid bs).

(** ** Adopting a rule *)

Definition body_dict (body : pyval) : result dict :=
  match body with PDict d => Ok d | v => attribute_error v "get" end.

Definition normalize_binding (uuid : string) (body : pyval) (rule : dict) : router_prog S R dict :=
  body ← lift (body_dict body);
  scope ← lift (check_scope body rule);
  mapping ← mapping_spec [("mappingKind", PStr (s_kind scope)); ("mappingId", PStr (s_mapping scope));
                          ("addressFamily", PStr (s_family scope))] true;
  _ ← lift (check_mapping scope rule mapping);
  now ← on_hub epoch;
  let field := s_field scope in
  mret [("firewallUuid", PStr uuid); ("enabled", PBool (enabled (get body "enabled") true)); ("targetType", PStr "mapping");
        ("mappingKind", PStr (s_kind scope)); ("mappingId", PStr (s_mapping scope)); ("addressFamily", PStr (s_family scope));
        ("matchField", PStr field); ("ownership", PStr (text_of (por (get body "ownership") (PStr "adopted"))));
        ("lastAppliedValue", PStr (field_value field (get rule field) (s_family scope)));
        ("ruleFingerprint", PStr (rule_fingerprint rule field)); ("suspended", PBool false); ("suspendedReason", PStr "");
        ("lastAppliedAt", PInt now)].

Definition upsert (uuid : string) (body : pyval) : router_prog S R pyval :=
  let uuid := strip uuid in
  _ ← lift (ensure (nonempty uuid) "防火墙规则 UUID 不能为空");
  current ← firewall;
  match find_rule (PDict current) uuid with
  | None => lift (Err (automation_error "原防火墙规则不存在，未创建任何新规则" "RULE_NOT_FOUND" 404))
  | Some rule =>
      b ← normalize_binding uuid body rule;
      bs ← on_hub bindings;
      _ ← on_hub (save_rows (others uuid bs ++ [b]));
      _ ← reconcile true (PDict current) uuid;
      latest ← firewall;
      describe uuid (Some (PDict latest))
  end.

(** ** The routes *)

Definition handle_error (e : exn) : response :=
  let body code message := PDict [("ok", PBool false); ("error", PStr code); ("message", PStr message)] in
  match coded_parts "FirewallAutomationError" e, rpc_error_parts e with
  | Some (code, http_status), _ | None, Some (code, http_status) => Response http_status (body code (exn_msg e))
  | None, None => Response 500 (body "INTERNAL_ERROR" "防火墙自动跟随操作失败")
  end.

Definition automation_request (q : request) (handler : router_prog S R response) : router_prog S R response :=
  if check_app_token E q then try_except handler (fun e => mret (handle_error e)) else mret unauthorized.

Definition with_data (data : pyval) : response := Response 200 (PDict [("ok", PBool true); ("data", data)]).

Definition get_bindings (q : request) : router_prog S R response :=
  automation_request q (data ← describe "" None; mret (with_data data)).

Definition put_binding (q : request) (uuid : string) : router_prog S R response :=
  automation_request q (data ← upsert uuid (json_body q); mret (with_data data)).

Definition delete_binding (q : request) (uuid : string) : router_prog S R response :=
  automation_request q
    (removed ← on_hub (delete uuid);
     mret (Response 200 (PDict [("ok", PBool true); ("removed", PBool removed);
                                ("message", PStr "已停止自动跟随，原防火墙规则保持不变")]))).

Definition sync_binding (q : request) (uuid : string) : router_prog S R response :=
  automation_request q
    (bs ← on_hub bindings;
     match find_binding uuid bs with
     | None => lift (Err (automation_error "该规则尚未开启自动跟随" "BINDING_NOT_FOUND" 404))
     | Some _ =>
         result ← reconcile true PNone uuid;
         data ← describe uuid None;
         mret (Response 200 (PDict [("ok", PBool true); ("data", data); ("result", PDict result)]))
     end).
End Service.
