(* ===== verification/FirewallFixture.v ===== *)
(** * A rule that follows a mapping

    A Hub with one LabRelay mapping to [192.168.5.46] and a router with one firewall rule that
    still leads to [192.168.5.20]: the site on which the theorems about the firewall automation are
    instantiated. *)

From S2P Require Import Prelude PyNum PyVal PyTime HubValues Json Storage Hub Fixtures Services PortMap RouterRpc RouterSite RouterFixture FirewallRules FirewallAutomation.

(** A digest in hexadecimal. *)
#[export] Instance hex_digest : Sha256 := {| sha256 := fun s => "0" +:+ sconcat_map (fun c => hex2 (byte_of c)) s |}.

Definition web_mapping : dict :=
  [("id", PStr "r1"); ("name", PStr "web"); ("mode", PStr "6to4"); ("transportProtocol", PStr "TCP");
   ("targetIpv4", PStr "192.168.5.46"); ("targetPort", PInt 9443)].

Definition web_rule (address : string) : dict :=
  [("uuid", PStr "u1"); ("ruleName", PStr "web in"); ("ipVersion", PStr "ipv4"); ("target", PStr "ACCEPT");
   ("direction", PStr "forward"); ("inIface", PStr "wan"); ("outIface", PStr "lan"); ("proto", PStr "tcp");
   ("destIP", PStr address); ("destPort", PStr "9443,10443")].

Definition follow_request : pyval :=
  PDict [("targetType", PStr "mapping"); ("mappingKind", PStr "relay"); ("mappingId", PStr "r1"); ("addressFamily", PStr "ipv4")].

Definition mapped_hub : world store := Eval vm_compute in
  run (save_json "portmaps.json" (rules_document 2 1 "now" [web_mapping])) demo_world.

Definition before_site : site store tables := Site mapped_hub (Tables [] [web_rule "192.168.5.20"] 1) (Sync [] 0 None).

(** After [PUT /api/router/firewall/automation/u1]: adopted, and the new address seen once. *)
Definition adopted_site : site store tables := Eval vm_compute in
  on_site (put_binding demo_env (app_request [] (Some follow_request)) "u1") before_site.

Definition shown (rule : dict) : dict := [("list", PList [PDict rule])].
Definition adopted_binding : dict := Eval vm_compute in
  default [] (find_binding "u1" (read_bindings (default PNone (doc_read automation_file (w_docs (st_hub adopted_site)))))).
