(* ===== verification/FirewallFacts.v ===== *)
(** * What the firewall automation guarantees

    The address of a rule is kept in a normal form, so that a rule the Hub wrote or adopted is
    recognised later.  A round of [reconcile] writes at most the destination of one rule, a rule
    somebody edited is left alone from then on, a confirmed update settles, and the bindings stay
    one per rule. *)

From S2P Require Import Prelude PyNum PyVal PyIp IpText PyTime HubValues Json Storage Hub Fixtures Services AgentCmd PortMap RouterRpc RouterSite RouterFixture TypedStore FirewallRules FirewallAutomation FirewallFixture.

(** ** Normal forms *)

Lemma cut_prefix_free c s a b : cut (String c "") s = Some (a, b) -> char_free c a = true.
Proof.
  revert a. induction s as [|d s IH]; intros a; [done|]. cbn [cut]. rewrite prefix_char.
  destruct (is_char c d) eqn:E; [by intros [= <- _]|]. destruct (cut _ s) as [[a' b']|]; [|done]. intros [= <- <-].
  cbn. by rewrite E, (IH a').
Qed.

Lemma before_cut c s : cut (String c "") (before (String c "") s) = None.
Proof. unfold before. destruct (cut _ s) as [[a b]|] eqn:E; [|done]. apply cut_free. by eapply cut_prefix_free. Qed.

Lemma before_free c s : char_free c s = true -> before (String c "") s = s.
Proof. intros Hs. unfold before. by rewrite cut_free. Qed.

Lemma ip_text_of_address a family : address_ok a ->
  ip_text (PStr (ip_str a)) family =
    (if negb (ip_version a =? (if String.eqb family "ipv4" then 4 else 6)) || is_unspecified a || is_multicast a || is_loopback a then ""
     else if (ip_version a =? 6) && is_link_local a then "" else ip_str a).
Proof.
  intros Ha. unfold ip_text. rewrite text_of_str, strip_ip_str by done.
  rewrite (before_free "/"%char), (before_free "%"%char) by by apply ip_str_free. by rewrite ip_text_round_trip.
Qed.

Lemma ip_text_cases v family : ip_text v family = "" \/
  exists a, address_ok a /\ ip_text v family = ip_str a /\ ip_text (PStr (ip_str a)) family = ip_str a.
Proof.
  unfold ip_text at 1 2. destruct (ip_of_str _) as [a|] eqn:Ea; [|by left].
  apply ip_of_str_ok in Ea; [|apply before_cut]. destruct (_ || is_loopback a) eqn:E1; [by left|].
  destruct (_ && is_link_local a) eqn:E2; [by left|]. right. exists a. split; [done|]. split; [done|].
  by rewrite ip_text_of_address, E1, E2.
Qed.

Lemma ip_text_normal v family : ip_text (PStr (ip_text v family)) family = ip_text v family.
Proof. by destruct (ip_text_cases v family) as [->|(a & _ & -> & ->)]. Qed.

Lemma low64_range n : 0 <= Z.land n low64 < 2 ^ 64.
Proof. change low64 with (Z.ones 64). rewrite Z.land_ones by lia. apply Z.mod_pos_bound. lia. Qed.

Lemma host_text_cases n : host_text n = "" \/ exists h, 0 <= h < 2 ^ 64 /\ h <> 0 /\ host_text n = ipv6_str h.
Proof.
  unfold host_text. destruct (Z.eqb_spec (Z.land n low64) 0) as [E|E]; [by left|]. right. exists (Z.land n low64).
  split; [apply low64_range|done].
Qed.

Lemma suffix_value_of_host h : 0 <= h < 2 ^ 64 -> h <> 0 -> field_value "ipv6SuffixDest" (PStr (ipv6_str h)) "ipv6" = ipv6_str h.
Proof.
  intros Hh Hne. assert (address_ok (IPv6 h None)) as Ha by (split; [lia|done]). unfold field_value. cbn [String.eqb Ascii.eqb Bool.eqb negb orb].
  rewrite text_of_str. change (ipv6_str h) with (ip_str (IPv6 h None)). rewrite strip_ip_str by done.
  change (ip_str (IPv6 h None)) with (ipv6_str h). rewrite ipv6_contains. unfold ipv6_of_str, split_scope.
  rewrite cut_free by (apply ipv6_free; [lia|done]). cbn [mbind option_bind]. rewrite ipv6_text by lia. cbn [mbind option_bind ip_int].
  unfold host_text. change low64 with (Z.ones 64). rewrite Z.land_ones, Z.mod_small by lia. by destruct (Z.eqb_spec h 0).
Qed.

(** Reading the address of a field again gives the same text. *)
Lemma field_value_normal field v family : field_value field (PStr (field_value field v family)) family = field_value field v family.
Proof.
  destruct (String.eqb_spec field "destIP") as [->|Hf].
  - apply ip_text_normal.
  - destruct (String.eqb_spec field "ipv6SuffixDest") as [->|Hs], (String.eqb_spec family "ipv6") as [->|H6].
    + assert (field_value "ipv6SuffixDest" v "ipv6" = "" \/ exists n, field_value "ipv6SuffixDest" v "ipv6" = host_text n) as Hc.
      { unfold field_value. cbn [String.eqb Ascii.eqb Bool.eqb negb orb]. destruct (ipv6_of_str _); [by right; eexists|by left]. }
      destruct Hc as [->|[n ->]]; [done|]. destruct (host_text_cases n) as [->|(h & Hh & Hne & ->)]; [done|]. by apply suffix_value_of_host.
    + unfold field_value at 2 3. apply String.eqb_neq in H6. rewrite H6. cbn. by rewrite H6.
    + unfold field_value. apply String.eqb_neq in Hf, Hs. by rewrite Hf, Hs.
    + unfold field_value. apply String.eqb_neq in Hf, Hs. by rewrite Hf, Hs.
Qed.

(** ** What the rules are judged by

    The mapping of a binding is read from the documents but the bindings themselves, and from the
    confirmed port mappings.  Two sites that agree on these resolve a binding alike. *)

Section Views.
Context {S R : Type} `{DocStore S} {tz : TimeZone} `{RouterClient R} `{RouterBatch R} `{Sha256}.

Definition hub_view (w w' : world S) : Prop :=
  forall k, k <> automation_file -> doc_read k (w_docs w') = doc_read k (w_docs w).

Definition same_view (s s' : site S R) : Prop :=
  hub_view (st_hub s) (st_hub s') /\ snapshot "portMappings" (st_sync s') = snapshot "portMappings" (st_sync s).

Lemma same_view_refl s : same_view s s.
Proof. done. Qed.

Definition views {A} (m : router_prog S R A) : Prop := forall s s', same_view s s' -> m s' = ((m s).1, s').

Lemma views_same {A} (m : router_prog S R A) s : views m -> m s = ((m s).1, s).
Proof. intros Hm. by apply Hm. Qed.

Lemma views_ret {A} (a : A) : views (mret a).
Proof. done. Qed.
Lemma views_lift {A} (r : result A) : views (lift r).
Proof. done. Qed.

Lemma views_bind {A B} (m : router_prog S R A) (f : A -> router_prog S R B) : views m -> (forall a, views (f a)) -> views (m ≫= f).
Proof.
  intros Hm Hf s s' Hs. rewrite !prog_bind_eq, (Hm s s' Hs), (views_same m s Hm). cbn [fst].
  destruct (m s).1 as [a|e]; [by apply Hf|done].
Qed.

Lemma relay_views b : views (on_hub (relay_mapping_spec b)).
Proof.
  intros s s' [Hs _]. rewrite !on_hub_eq. destruct s as [w x y], s' as [w' x' y']. cbn [st_hub st_router st_sync] in *.
  assert (relay_mapping_spec b w' = ((relay_mapping_spec b w).1, w')) as ->; [|done].
  unfold relay_mapping_spec, load_portmap_rules_document, load_raw. rewrite !prog_bind_eq. cbn [mret prog_ret]. rewrite Hs by done.
  destruct (if rd_loaded _ then _ else _) as [rule|]; [|done]. rewrite !prog_bind_eq. cbn [load_json]. rewrite Hs by done.
  rewrite !prog_bind_eq. cbn [lift]. by destruct (runtime_map _).
Qed.

Lemma native_views b : views (native_mapping_spec b false).
Proof.
  unfold native_mapping_spec. apply views_bind; [intros s s' [_ Hs]; unfold synced_data; by rewrite Hs|]. intros held. by apply views_bind.
Qed.

Lemma mapping_views b : views (mapping_spec b false).
Proof. unfold mapping_spec. cbv zeta. repeat case_match; [apply relay_views|apply native_views|apply views_ret]. Qed.

Lemma resolve_views b : views (resolve b).
Proof.
  unfold resolve. destruct (negb _); [apply views_ret|]. apply views_bind; [apply mapping_views|]. intros [m|]; [|apply views_ret].
  cbv zeta. apply views_bind; [apply views_lift|]. intros a. apply views_ret.
Qed.

Lemma compatible_views rule b : views (rule_compatible rule b).
Proof.
  unfold rule_compatible. destruct rule; [|apply views_ret]. destruct (negb _); [apply views_ret|].
  apply views_bind; [apply mapping_views|]. intros m. apply views_lift.
Qed.
End Views.

(** ** What a round may write *)

Section Round.
Context {S R : Type} `{DocStoreLaws S} {tz : TimeZone} `{RouterClient R} `{RouterBatch R} `{Sha256}.

Definition stored (s : site S R) : list dict := read_bindings (default (PDict []) (doc_read automation_file (w_docs (st_hub s)))).

Lemma bindings_eq (s : site S R) : on_hub bindings s = (Ok (stored s), s).
Proof. by destruct s. Qed.

(** The address noted for a rule in an earlier round. *)
Definition candidate (uuid : string) (s : site S R) : pyval :=
  get (dict_or_empty (default (PDict []) (w_mem (st_hub s) !! candidates_name))) uuid.
Definition observed (uuid address : string) (s : site S R) : Prop :=
  exists row, candidate uuid s = PDict row /\ text_of (get row "value") = address.

(** Nothing happened but that a candidate of this rule was noted or forgotten. *)
Record quiet (uuid : string) (s s' : site S R) : Prop := {
  q_router : st_router s' = st_router s;
  q_sync : st_sync s' = st_sync s;
  q_docs : w_docs (st_hub s') = w_docs (st_hub s);
  q_others : forall u, u <> uuid -> candidate u s' = candidate u s;
}.

Lemma quiet_refl u s : quiet u s s.
Proof. by constructor. Qed.

Lemma quiet_view u s s' : quiet u s s' -> same_view s s'.
Proof. intros []. split; [intros k _; congruence|congruence]. Qed.

(** Programs of the Hub leave the router alone. *)
Lemma hub_router {A} (m : hub S A) (s : site S R) : st_router (on_hub m s).2 = st_router s.
Proof. by rewrite on_hub_eq. Qed.

Lemma confirmed_quiet u desired s r s' : on_hub (candidate_confirmed u desired) s = (r, s') ->
  quiet u s s' /\ (r = Ok true -> observed u desired s).
Proof.
  rewrite on_hub_eq. unfold candidate_confirmed. rewrite !prog_bind_eq. cbn [monotonic candidates mem_get mbind].
  unfold candidates, set_candidates. rewrite !prog_bind_eq. cbn [mem_get mret prog_ret fst snd].
  change (get (dict_or_empty (default (PDict []) (w_mem (st_hub s) !! candidates_name))) u) with (candidate u s).
  set (rows := dict_or_empty _).
  assert (forall v, quiet u s (Site (World (w_docs (st_hub s)) (w_ms (st_hub s)) (w_mono (st_hub s)) (w_draws (st_hub s)) (w_published (st_hub s))
    (<[candidates_name := PDict (dset u v rows)]> (w_mem (st_hub s)))) (st_router s) (st_sync s))) as Hq.
  { intros v. constructor; [done..|]. intros u' Hu. unfold candidate. cbn [st_hub w_mem]. rewrite lookup_insert_eq.
    cbn [default from_option id dict_or_empty]. rewrite get_dset_ne by congruence. done. }
  destruct (candidate u s) as [| | | | | |row] eqn:Ec; try (intros [= <- <-]; split; [apply Hq|done]).
  destruct (String.eqb_spec (text_of (get row "value")) desired) as [Hv|Hv].
  - rewrite prog_bind_eq. cbn [lift]. destruct (py_int _) as [n|e].
    + cbv zeta. rewrite prog_bind_eq. cbn [mem_set fst snd]. intros [= <- <-]. split; [apply Hq|]. intros _. by exists row.
    + intros [= <- <-]. split; [by destruct s; apply quiet_refl|done].
  - intros [= <- <-]. split; [apply Hq|done].
Qed.

Lemma clear_quiet u s r s' : on_hub (clear_candidate u) s = (r, s') -> quiet u s s' /\ r = Ok tt.
Proof.
  rewrite on_hub_eq. intros [= <- <-]. split; [|done]. constructor; [done..|]. intros u' Hu. unfold candidate. cbn [st_hub w_mem].
  rewrite lookup_insert_eq. cbn [default from_option id dict_or_empty]. unfold get. by rewrite dget_ddel_ne.
Qed.

(** What [update_rule] and the forced read after it make of the router. *)
Definition written (payload : dict) (r : R) : R :=
  (rpc "devConfig.update" "ip_firewall" (PDict [("list", PList [PDict payload])]) r).2.
Definition reread (r : R) : R := (batch [("devConfig.get", "ip_firewall"); ("devSta.get", "ip_firewall")] r).2.

Lemma firewall_router (s : site S R) : st_router (firewall s).2 = reread (st_router s).
Proof.
  unfold firewall. rewrite prog_bind_eq, on_router_eq. unfold reread.
  destruct (batch _ _) as [[data|e] x]; [|done]. cbn [fst snd]. rewrite prog_bind_eq. cbn [lift].
  by destruct (firewall_rows _ _).
Qed.

Lemma apply_router b rule desired s :
  let s' := (apply_address b rule desired s).2 in
  st_router s' = written (rewritten b rule desired) (st_router s) \/ st_router s' = reread (written (rewritten b rule desired) (st_router s)).
Proof.
  cbv zeta. unfold apply_address, write_and_verify. rewrite !prog_bind_eq. unfold update_rule, call. rewrite on_router_eq. unfold written.
  destruct (rpc _ _ _ _) as [[v|e] x]; cbn [fst snd]; [|by left]. rewrite prog_bind_eq.
  destruct (firewall _) as [[data|e] s1] eqn:Ef; (pose proof (firewall_router (Site (st_hub s) x (st_sync s))) as Hf; rewrite Ef in Hf; cbn in Hf); [|by right].
  right. rewrite <- Hf. rewrite prog_bind_eq, on_hub_eq. cbn [fst snd epoch]. rewrite prog_bind_eq. cbn [on_sync mret prog_ret].
  rewrite prog_bind_eq. cbn [lift]. destruct (verify _ _ _) as [[]|e]; [|done]. rewrite prog_bind_eq, on_hub_eq. cbn [epoch fst snd st_hub].
  rewrite prog_bind_eq, on_hub_eq. cbn [st_hub st_router st_sync]. destruct (replace_binding _ _) as [[[]|e] w]; [|done]. cbn [fst snd].
  done.
Qed.

(** A binding whose rule is as the Hub left it. *)
Record follows (current b rule : dict) : Prop := {
  fo_mapping : is_mapping b = true;
  fo_active : paused b = false;
  fo_rule : find_rule (PDict current) (binding_uuid b) = Some rule;
  fo_unchanged : drifted b rule = false;
}.

(** The rule still carries the mapping, which now leads elsewhere. *)
Record moved (b rule : dict) (desired : string) (s : site S R) : Prop := {
  mo_fits : (rule_compatible (Some rule) b s).1 = Ok true;
  mo_target : exists name, (resolve b s).1 = Ok (desired, name);
  mo_known : desired <> "";
  mo_actual : controlled b rule <> "";
  mo_new : controlled b rule <> desired;
}.

(** One binding: nothing but its candidate, or a suspension, or a write. *)
Lemma follow_cases current b s r s' : follow current b s = (r, s') ->
  (st_router s' = st_router s /\ (r = Ok None -> quiet (binding_uuid b) s s'))
  \/ r <> Ok None /\ exists rule desired s1,
       follows current b rule /\ moved b rule desired s /\ observed (binding_uuid b) desired s /\
       st_router s1 = st_router s /\ s' = (apply_address b rule desired s1).2.
Proof.
  unfold follow. cbv zeta. destruct (negb (is_mapping b) || paused b) eqn:Eactive; [intros [= <- <-]; left; by split; [|intros _; apply quiet_refl]|].
  apply orb_false_iff in Eactive as [Emap%negb_false_iff Epaused].
  destruct (find_rule (PDict current) (binding_uuid b)) as [rule|] eqn:Erule;
    [|intros [= <- <-]; left; by split; [|intros _; apply quiet_refl]].
  destruct (drifted b rule) eqn:Edrift.
  - rewrite prog_bind_eq. pose proof (hub_router (suspend b (if nonempty (applied b) then "manual_change" else "confirmation_required")) s) as Hr.
    destruct (on_hub _ s) as [[[]|e] s1]; intros [= <- <-]; left; by split.
  - rewrite prog_bind_eq, (views_same _ s (compatible_views (Some rule) b)).
    destruct (rule_compatible (Some rule) b s).1 as [[]|e] eqn:Efits; cbn [negb]; cycle 1.
    { intros [= <- <-]. left. by split; [|intros _; apply quiet_refl]. } { intros [= <- <-]. left. by split. }
    rewrite prog_bind_eq, (views_same _ s (resolve_views b)).
    destruct (resolve b s).1 as [[desired name]|e] eqn:Etarget; [|intros [= <- <-]; left; by split]. cbn [fst].
    destruct (negb (nonempty desired) || negb (nonempty (controlled b rule)) || String.eqb (controlled b rule) desired) eqn:Enothing.
    + destruct (String.eqb _ desired).
      * rewrite prog_bind_eq. destruct (on_hub (clear_candidate _) s) as [o s1] eqn:Ec. apply clear_quiet in Ec as [Hq ->].
        intros [= <- <-]. left. split; [by destruct Hq|done].
      * rewrite prog_bind_eq, on_hub_eq. cbn [mret prog_ret fst snd]. intros [= <- <-]. left. destruct s.
        by split; [|intros _; apply quiet_refl].
    + apply orb_false_iff in Enothing as [Enothing Hnew%String.eqb_neq].
      apply orb_false_iff in Enothing as [Hd%negb_false_iff%nonempty_spec Ha%negb_false_iff%nonempty_spec].
      rewrite prog_bind_eq. destruct (on_hub (candidate_confirmed _ _) s) as [o s1] eqn:Ec. apply confirmed_quiet in Ec as [Hq Hseen].
      destruct o as [[]|e].
      * rewrite prog_bind_eq. destruct (apply_address b rule desired s1) as [answer s2] eqn:Ea. intros Hr. right.
        assert (s' = s2 /\ r <> Ok None) as [-> Hne] by by destruct answer; injection Hr as <- <-. split; [done|].
        exists rule, desired, s1. split; [by constructor|]. split; [by constructor; [|exists name|..]|]. split; [by apply Hseen|].
        split; [by destruct Hq|]. by rewrite Ea.
      * intros [= <- <-]. left. split; [by destruct Hq|done].
      * intros [= <- <-]. left. split; [by destruct Hq|done].
Qed.

Lemma quiet_moved u b rule desired s s1 : quiet u s s1 -> moved b rule desired s1 -> moved b rule desired s.
Proof.
  intros Hq [Hf [name Hr] H1' H2' H3']. apply quiet_view in Hq. constructor; [|exists name|done..].
  - by rewrite (compatible_views _ _ _ _ Hq) in Hf.
  - by rewrite (resolve_views _ _ _ Hq) in Hr.
Qed.

(** The router after a round. *)
Definition one_write (current : dict) (bs : list dict) (s s' : site S R) : Prop :=
  exists b rule desired, In b bs /\ follows current b rule /\ moved b rule desired s /\ observed (binding_uuid b) desired s /\
    let r := written (rewritten b rule desired) (st_router s) in st_router s' = r \/ st_router s' = reread r.

Lemma round_router current bs s r s' : List.NoDup (List.map binding_uuid bs) -> first_answer (follow current) bs s = (r, s') ->
  st_router s' = st_router s \/ one_write current bs s s'.
Proof.
  revert s. induction bs as [|b bs IH]; intros s Hn; cbn [first_answer]; [by intros [= <- <-]; left|].
  inversion Hn as [|? ? Hin Hn']; subst. rewrite prog_bind_eq. destruct (follow current b s) as [o s1] eqn:Ef.
  apply follow_cases in Ef as [[Hr Hq]|[Hne (rule & desired & s2 & Hf & Hm & Ho & Hr & ->)]].
  - destruct o as [[a|]|e]; [by intros [= <- <-]; left| |by intros [= <- <-]; left]. specialize (Hq eq_refl). intros Hl.
    apply IH in Hl as [Hl|(b' & rule & desired & Hb & Hf & Hm & [row [Hc Hv]] & Hw)]; [left; congruence| |done]. right.
    exists b', rule, desired. split; [by right|]. split; [done|]. split; [by eapply quiet_moved|].
    split; [exists row; split; [|done]|by rewrite <- Hr].
    rewrite <- Hc. symmetry. apply (q_others _ _ _ Hq). intros Heq. apply Hin. rewrite <- Heq. by apply in_map.
  - intros Hl. right. exists b, rule, desired. split; [by left|]. split; [done|]. split; [done|]. split; [done|].
    pose proof (apply_router b rule desired s2) as Ha. rewrite Hr in Ha.
    destruct o as [[a|]|e]; [|done|]; by injection Hl as _ <-.
Qed.

Lemma compatible_fits rule b (s : site S R) : (rule_compatible (Some rule) b s).1 = Ok true -> exists m, fits rule b m = Ok true.
Proof.
  unfold rule_compatible. destruct (negb _); [done|]. rewrite prog_bind_eq.
  destruct (mapping_spec b false s) as [[m|e] s1]; [|done]. cbn [lift fst]. by exists m.
Qed.

Lemma fits_field rule b m : fits rule b m = Ok true -> field_fits (address_family b) (match_field b) = true /\ controlled b rule <> "".
Proof.
  unfold fits. destruct m as [m|]; [|done]. cbv zeta.
  destruct (String.eqb (lower (text_of (get rule "ipVersion"))) (address_family b)); [|done]. cbn [andb].
  destruct (field_fits _ _); [|done]. cbn [andb]. change (field_value _ _ _) with (controlled b rule).
  destruct (nonempty (controlled b rule)) eqn:E; [|done]. intros _. split; [done|]. by apply nonempty_spec.
Qed.

Lemma field_fits_cases family field : field_fits family field = true ->
  field = "destIP" \/ field = "ipv6SuffixDest" /\ String.eqb family "ipv4" = false.
Proof.
  unfold field_fits. intros [Hf Hn]%andb_prop. apply str_in_spec in Hf as [<-|[<-|[]]]; [by left|]. right. split; [done|].
  cbn in Hn. by destruct (String.eqb family "ipv4").
Qed.

Lemma rewritten_field b rule desired : get (rewritten b rule desired) (match_field b) = PStr desired.
Proof. apply get_dset_eq. Qed.

Lemma rewritten_others b rule desired k : k <> match_field b -> k <> "stats" -> dget (rewritten b rule desired) k = dget rule k.
Proof. intros. unfold rewritten. rewrite dget_dset_ne by congruence. apply dget_ddel_ne. congruence. Qed.

Lemma reconcile_eq current uuid (s : site S R) :
  reconcile true (PDict current) uuid s = first_answer (follow current) (selected uuid (stored s)) s.
Proof. unfold reconcile. cbn [negb]. rewrite prog_bind_eq. cbn [mret prog_ret]. by rewrite prog_bind_eq, bindings_eq. Qed.

Lemma selected_in uuid bs b : In b (selected uuid bs) -> In b bs /\ (uuid = "" \/ binding_uuid b = uuid).
Proof.
  unfold selected. destruct (nonempty uuid) eqn:E; [|apply nonempty_false in E; auto].
  intros [Hb Hu%String.eqb_eq]%filter_In. auto.
Qed.

Lemma selected_nodup uuid bs : List.NoDup (List.map binding_uuid bs) -> List.NoDup (List.map binding_uuid (selected uuid bs)).
Proof.
  unfold selected. destruct (nonempty uuid); [|done]. intros Hn. induction bs as [|b bs IH]; [done|]. inversion Hn as [|? ? Hb Hn']; subst. cbn.
  destruct (String.eqb _ _); [|auto]. cbn. constructor; [|auto]. intros (b' & Hu & Hin)%in_map_iff. apply filter_In in Hin as [Hin _].
  apply Hb. rewrite <- Hu. by apply in_map.
Qed.

(** C4. A round of [reconcile] sends the router at most one write.  The write carries one rule, in
    which every field but the destination the binding controls (and the counters) is as the router
    gave it.  The binding is active, the rule is what the Hub last wrote or adopted, it still lets
    the mapping through, the mapping now leads to another known address, and that address was
    already seen in an earlier round. *)
Theorem round_writes_one_destination (s s' : site S R) current uuid r :
  List.NoDup (List.map binding_uuid (stored s)) ->
  reconcile true (PDict current) uuid s = (r, s') ->
  st_router s' = st_router s \/
  exists b rule desired,
    In b (stored s) /\ (uuid = "" \/ binding_uuid b = uuid) /\
    follows current b rule /\ moved b rule desired s /\ observed (binding_uuid b) desired s /\
    (match_field b = "destIP" \/ match_field b = "ipv6SuffixDest") /\
    let row := rewritten b rule desired in
    get row (match_field b) = PStr desired /\
    (forall k, k <> match_field b -> k <> "stats" -> dget row k = dget rule k) /\
    (st_router s' = written row (st_router s) \/ st_router s' = reread (written row (st_router s))).
Proof.
  intros Hn. rewrite reconcile_eq. intros [Hr|(b & rule & desired & Hb & Hf & Hm & Ho & Hw)]%round_router; [by left| |by apply selected_nodup].
  apply selected_in in Hb as [Hb Hu]. right. exists b, rule, desired. do 5 (split; [done|]).
  split; [|split; [apply rewritten_field|split; [apply rewritten_others|done]]].
  pose proof (mo_fits _ _ _ _ Hm) as [m [Hfit _]%fits_field]%compatible_fits. apply field_fits_cases in Hfit. tauto.
Qed.
End Round.

(** ** The concrete site *)

Lemma round_writes_one_destination_witness :
  exists b rule desired, follows (shown (web_rule "192.168.5.20")) b rule /\ moved b rule desired adopted_site /\
    observed (binding_uuid b) desired adopted_site.
Proof.
  destruct (round_writes_one_destination adopted_site (on_site (reconcile true (PDict (shown (web_rule "192.168.5.20"))) "u1") adopted_site)
    (shown (web_rule "192.168.5.20")) "u1" (reconcile true (PDict (shown (web_rule "192.168.5.20"))) "u1" adopted_site).1)
    as [Hr|(b & rule & desired & _ & _ & Hf & Hm & Ho & _)].
  - vm_compute. repeat constructor. by intros [].
  - unfold on_site. apply surjective_pairing.
  - exfalso. assert (tb_firewall (st_router (on_site (reconcile true (PDict (shown (web_rule "192.168.5.20"))) "u1") adopted_site))
      = [web_rule "192.168.5.20"]) as Ht by by rewrite Hr. vm_compute in Ht. discriminate Ht.
  - by exists b, rule, desired.
Defined.
