(* ===== verification/FirewallBindings.v ===== *)
(** * The bindings of the firewall automation

    The document of bindings stays sorted, with one binding for each rule.  Over such a document
    the service keeps its promises from one round to the next: a rule somebody edited is left
    alone, and an address the Hub wrote is recognised as its own. *)

From S2P Require Import Prelude PyNum PyVal PyIp IpText PyTime HubValues Json Storage Hub Fixtures Services AgentCmd PortMap PortMapRules RouterRpc RouterSite RouterFixture TypedStore FirewallRules FirewallAutomation FirewallFixture FirewallFacts.

(** ** The document *)

Definition atom (v : pyval) : bool := match v with PFloat _ | PList _ | PDict _ => false | _ => true end.

(** A binding holds texts, numbers and flags, and names its rule. *)
Definition flat (b : dict) : Prop := nodup_keys b /\ List.Forall (fun kv => atom kv.2 = true) b /\ binding_uuid b <> "".

Record bindings_ok (bs : list dict) : Prop := {
  bo_flat : List.Forall flat bs;
  bo_cap : (List.length bs <= binding_cap)%nat;
  bo_unique : List.NoDup (List.map binding_uuid bs);
  bo_sorted : ordered uuid_le bs;
}.

Definition document_ok (v : pyval) : Prop :=
  exists bs, list_or_empty (get (dict_or_empty v) "bindings") = List.map PDict bs /\ bindings_ok bs.

Definition automation_typing (k : string) (v : pyval) : Prop := k = automation_file -> document_ok v.

Lemma atom_sorted v : atom v = true -> sort_keys v = v.
Proof. by destruct v. Qed.

Lemma get_flat b k : List.Forall (fun kv => atom kv.2 = true) b -> atom (get b k) = true.
Proof.
  intros Hb. unfold get. destruct (dget b k) as [v|] eqn:E; [|done]. apply dget_In in E.
  exact (proj1 (List.Forall_forall _ _) Hb _ E).
Qed.

Lemma get_sorted_flat b k : flat b -> get (sorted_dict b) k = get b k.
Proof. intros (Hn & Hs & _). rewrite get_sorted by done. by apply atom_sorted, get_flat. Qed.

Lemma uuid_sorted b : flat b -> binding_uuid (sorted_dict b) = binding_uuid b.
Proof. intros Hb. unfold binding_uuid. by rewrite get_sorted_flat. Qed.

Lemma flat_sorted b : flat b -> flat (sorted_dict b).
Proof.
  intros Hb. pose proof Hb as (Hn & Hs & Hu). split; [by apply nodup_sorted|]. split; [|by rewrite uuid_sorted].
  apply List.Forall_forall. intros kv Hin. unfold sorted_dict in Hin. rewrite isort_in in Hin. apply in_map_iff in Hin as (kv' & <- & Hin).
  pose proof (proj1 (List.Forall_forall _ _) Hs _ Hin) as Hv. cbn in *. by rewrite atom_sorted.
Qed.

Lemma uuids_sorted bs : List.Forall flat bs -> List.map binding_uuid (List.map sorted_dict bs) = List.map binding_uuid bs.
Proof. intros Hb. rewrite List.map_map. apply List.map_ext_Forall. eapply List.Forall_impl; [|exact Hb]. apply uuid_sorted. Qed.

Lemma ordered_map {A} (le : A -> A -> bool) f l : (forall x y, In x l -> In y l -> le (f x) (f y) = le x y) -> ordered le l -> ordered le (List.map f l).
Proof.
  intros Hf. unfold ordered. induction 1 as [|x l Hl IH Hx]; cbn [List.map]; constructor.
  - apply IH. intros. apply Hf; by right.
  - apply List.Forall_map. apply List.Forall_forall. intros y Hy. rewrite Hf; [|by left|by right].
    exact (proj1 (List.Forall_forall _ _) Hx y Hy).
Qed.

Lemma bindings_ok_sorted bs : bindings_ok bs -> bindings_ok (List.map sorted_dict bs).
Proof.
  intros [Hf Hc Hu Hs]. constructor.
  - apply List.Forall_map. eapply List.Forall_impl; [|exact Hf]. apply flat_sorted.
  - by rewrite length_map.
  - by rewrite uuids_sorted.
  - apply ordered_map; [|done]. intros x y Hx Hy. unfold uuid_le. rewrite !uuid_sorted; [done|..]; by apply (proj1 (List.Forall_forall _ _) Hf).
Qed.

Lemma dicts_sorted bs : List.map sort_keys (List.map PDict bs) = List.map PDict (List.map sorted_dict bs).
Proof. by rewrite !List.map_map. Qed.

#[export] Instance automation_typing_sorted : DocTyping automation_typing.
Proof.
  constructor. intros k v Hv Hd ->. destruct (Hd eq_refl) as (bs & Hbs & Hok). exists (List.map sorted_dict bs).
  split; [|by apply bindings_ok_sorted]. destruct v as [| | | | | |d]; try (by destruct bs).
  rewrite sort_keys_sorted_dict. cbn [dict_or_empty] in *. rewrite get_sorted by by apply plain_nodup.
  rewrite <- dicts_sorted, <- Hbs. by destruct (get d "bindings").
Qed.

(** *** Reading and writing *)

Lemma omap_dicts bs : omap (fun v => match v with PDict row => Some row | _ => None end) (List.map PDict bs) = bs.
Proof. induction bs as [|b bs IH]; [done|]. cbn. by f_equal. Qed.

Lemma filter_all {A} (p : A -> bool) l : List.Forall (fun x => p x = true) l -> List.filter p l = l.
Proof. induction 1 as [|x l Hx _ IH]; [done|]. cbn. by rewrite Hx, IH. Qed.

Lemma flat_named bs : List.Forall flat bs -> List.Forall (fun b => nonempty (binding_uuid b) = true) bs.
Proof. apply List.Forall_impl. intros b (_ & _ & Hb). by apply nonempty_spec. Qed.

Lemma read_document_ok v : document_ok v -> bindings_ok (read_bindings v).
Proof.
  intros (bs & Hv & Hok). unfold read_bindings. rewrite Hv, omap_dicts, filter_all; [done|]. by apply flat_named, bo_flat.
Qed.

Lemma ordered_firstn {A} (le : A -> A -> bool) n l : ordered le l -> ordered le (firstn n l).
Proof.
  unfold ordered. intros Hl. revert n. induction Hl as [|x l Hl IH Hx]; intros [|n]; cbn; try constructor; [apply IH|].
  apply List.Forall_forall. intros y Hy. apply (proj1 (List.Forall_forall _ _) Hx). rewrite <- (firstn_skipn n). apply in_app_iff. by left.
Qed.

Definition kept (bs : list dict) : list dict := firstn binding_cap (isort uuid_le bs).

Lemma kept_in b bs : In b (kept bs) -> In b bs.
Proof. intros Hb. apply isort_in with (le := uuid_le). unfold kept in Hb. rewrite <- (firstn_skipn binding_cap). apply in_app_iff. by left. Qed.

Lemma kept_ok bs : List.Forall flat bs -> List.NoDup (List.map binding_uuid bs) -> bindings_ok (kept bs).
Proof.
  intros Hf Hn. constructor.
  - apply List.Forall_forall. intros b Hb%kept_in. by apply (proj1 (List.Forall_forall _ _) Hf).
  - unfold kept. rewrite length_firstn. lia.
  - unfold kept. rewrite <- firstn_map. apply (Permutation_NoDup (Permutation_map binding_uuid (Permutation_sym (isort_perm uuid_le bs)))) in Hn.
    rewrite <- (firstn_skipn binding_cap) in Hn. by apply NoDup_app_remove_r in Hn.
  - apply ordered_firstn, isort_ordered; unfold uuid_le; [intros; apply sleb_total|intros; by eapply sleb_trans].
Qed.

Lemma others_in u b bs : In b (others u bs) <-> In b bs /\ binding_uuid b <> u.
Proof. unfold others. rewrite filter_In, negb_true_iff, String.eqb_neq. done. Qed.

Lemma others_unique u bs : List.NoDup (List.map binding_uuid bs) -> List.NoDup (List.map binding_uuid (others u bs)).
Proof. apply NoDup_map_filter. Qed.

Lemma replaced_unique b bs : List.NoDup (List.map binding_uuid bs) ->
  List.NoDup (List.map binding_uuid (others (binding_uuid b) bs ++ [b])).
Proof.
  intros Hn. rewrite map_app. apply NoDup_ListNoDup, NoDup_app. split_and!.
  - by apply NoDup_ListNoDup, others_unique.
  - intros u Hu Hb%list_elem_of_singleton. apply list_elem_of_In, in_map_iff in Hu as (b' & <- & Hin). by apply others_in in Hin as [_ Hin].
  - apply NoDup_singleton.
Qed.

Lemma others_flat u bs : List.Forall flat bs -> List.Forall flat (others u bs).
Proof. intros Hf. apply List.Forall_forall. intros b [Hin _]%others_in. by apply (proj1 (List.Forall_forall _ _) Hf). Qed.

Lemma atom_plain v : atom v = true -> plain v.
Proof. intros Hv. destruct v; first [discriminate Hv|constructor]. Qed.

Lemma flat_plain b : flat b -> plain (PDict b).
Proof.
  intros (Hn & Hs & _). constructor; [done|]. eapply List.Forall_impl; [|exact Hs]. intros kv. apply atom_plain.
Qed.

Lemma document_plain_of now bs : List.Forall flat bs -> plain (automation_document now bs).
Proof.
  intros Hb. unfold automation_document. fold (kept bs).
  assert (plain (PList (List.map PDict (kept bs)))) as Hl.
  { constructor. apply List.Forall_map, List.Forall_forall. intros b Hin%kept_in. apply flat_plain. by apply (proj1 (List.Forall_forall _ _) Hb). }
  solve_plain.
Qed.

Lemma flat_dset k v b : k <> "firewallUuid" -> atom v = true -> flat b -> flat (dset k v b).
Proof.
  intros Hk Hv (Hn & Hs & Hu). split; [by apply nodup_dset|]. split; [|unfold binding_uuid; by rewrite get_dset_ne].
  clear Hn Hu. induction Hs as [|[k' v'] b Hv' Hb IH]; [by repeat constructor|]. cbn. destruct (String.eqb k k'); by constructor.
Qed.

Lemma flat_dupdate b e : flat b -> List.Forall (fun kv => kv.1 <> "firewallUuid" /\ atom kv.2 = true) e -> flat (dupdate b e).
Proof.
  intros Hb He. revert b Hb. unfold dupdate. induction He as [|[k v] e [Hk Hv] _ IH]; intros b Hb; [done|]. cbn. apply IH. by apply flat_dset.
Qed.

(** ** Every operation keeps the document *)

Section Typing.
Context {S R : Type} `{DocStoreLaws S} {tz : TimeZone} `{RouterClient R} `{RouterBatch R} `{Sha256}.

Abbreviation always := (fun _ => True).
Abbreviation safe := (safe (S := S) automation_typing).
Abbreviation site_safe := (site_safe (S := S) (R := R) automation_typing).

Lemma safe_bindings : safe bindings bindings_ok.
Proof.
  unfold bindings. eapply safe_bind; [apply safe_load; repeat constructor|]. intros raw [_ Hraw]. apply safe_ret, read_document_ok.
  destruct Hraw as [->|Hraw]; [|by apply Hraw]. exists []. split; [done|]. repeat constructor.
Qed.

Lemma safe_save_rows bs : List.Forall flat bs -> List.NoDup (List.map binding_uuid bs) -> safe (save_rows bs) always.
Proof.
  intros Hf Hn. unfold save_rows. eapply (safe_bind _ _ _ always); [apply safe_same; by intros w|]. intros now _.
  apply (safe_save automation_typing); [done|by apply document_plain_of|]. intros _. exists (kept bs). split; [done|by apply kept_ok].
Qed.

Lemma safe_replace b : flat b -> safe (replace_binding b) always.
Proof.
  intros Hb. unfold replace_binding. eapply safe_bind; [apply safe_bindings|]. intros bs [Hf _ Hu _].
  apply safe_save_rows; [|by apply replaced_unique]. apply Forall_app. split; [by apply others_flat|by constructor].
Qed.

Lemma safe_clear u : safe (clear_candidate u) always.
Proof. apply safe_same. by intros w. Qed.

Lemma safe_suspend b reason : flat b -> safe (suspend b reason) always.
Proof.
  intros Hb. unfold suspend. destruct (_ && _); [by apply safe_ret|]. eapply (safe_bind _ _ _ always); [apply safe_same; by intros w|]. intros now _.
  eapply safe_bind; [|intros _ _; apply safe_clear]. apply safe_replace, flat_dupdate; [done|]. by repeat constructor.
Qed.

Lemma safe_delete uuid : safe (delete uuid) always.
Proof.
  unfold delete. eapply safe_bind; [apply safe_bindings|]. intros bs [Hf _ Hu _]. destruct (_ =? _)%nat; [by apply safe_ret|].
  eapply (safe_bind _ _ _ always); [|intros _ _; eapply safe_bind; [apply safe_clear|intros _ _; by apply safe_ret]].
  apply safe_save_rows; [by apply others_flat|by apply others_unique].
Qed.

(** *** The rounds *)

Lemma site_safe_views {A} (m : router_prog S R A) : views m -> site_safe m always.
Proof. intros Hm s r s' Hs Hr. rewrite (views_same m s Hm) in Hr. injection Hr as <- <-. by split. Qed.

Lemma site_safe_confirmed u desired : site_safe (on_hub (candidate_confirmed u desired)) always.
Proof. intros s r s' Hs Hr. apply confirmed_quiet in Hr as [Hq _]. split; [|done]. by rewrite (q_docs _ _ _ Hq). Qed.

Lemma safe_epoch : safe epoch always.
Proof. apply safe_same. by intros w. Qed.

Lemma followed_flat b rule desired now : flat b -> flat (followed b rule desired now).
Proof. intros Hb. apply flat_dupdate; [done|]. by repeat constructor. Qed.

Lemma site_safe_apply b rule desired : flat b -> site_safe (apply_address b rule desired) always.
Proof.
  intros Hb. unfold apply_address. cbv zeta. eapply site_safe_bind; [apply site_safe_write; [apply site_safe_call|apply site_safe_firewall]|].
  intros verified _. eapply (site_safe_bind _ _ _ always); [by apply site_safe_lift|]. intros _ _.
  eapply site_safe_bind; [apply site_safe_hub, safe_epoch|]. intros now _.
  eapply site_safe_bind; [apply site_safe_hub, safe_replace; by apply followed_flat|]. intros _ _.
  eapply site_safe_bind; [apply site_safe_hub, safe_clear|]. intros _ _.
  eapply site_safe_bind; [apply site_safe_hub, safe_epoch|]. intros now' _. by apply site_safe_ret.
Qed.

Lemma site_safe_follow current b : flat b -> site_safe (follow current b) always.
Proof.
  intros Hb. unfold follow. cbv zeta. destruct (_ || _); [by apply site_safe_ret|]. destruct (find_rule _ _) as [rule|]; [|by apply site_safe_ret].
  destruct (drifted b rule).
  - eapply site_safe_bind; [apply site_safe_hub, safe_suspend; done|]. intros _ _. by apply site_safe_ret.
  - eapply site_safe_bind; [apply site_safe_views, compatible_views|]. intros fits _. destruct (negb fits); [by apply site_safe_ret|].
    eapply site_safe_bind; [apply site_safe_views, resolve_views|]. intros target _. destruct (_ || String.eqb _ _).
    + eapply (site_safe_bind _ _ _ always); [|intros _ _; by apply site_safe_ret].
      apply site_safe_hub. destruct (String.eqb _ _); [apply safe_clear|by apply safe_ret].
    + eapply site_safe_bind; [apply site_safe_confirmed|]. intros [] _; [|by apply site_safe_ret].
      eapply site_safe_bind; [by apply site_safe_apply|]. intros answer _. by apply site_safe_ret.
Qed.

Lemma site_safe_round current bs : List.Forall flat bs -> site_safe (first_answer (follow current) bs) always.
Proof.
  induction 1 as [|b bs Hb _ IH]; cbn [first_answer]; [by apply site_safe_ret|].
  eapply site_safe_bind; [by apply site_safe_follow|]. intros [a|] _; [by apply site_safe_ret|done].
Qed.

Lemma site_safe_reconcile acquired data uuid : site_safe (reconcile acquired data uuid) always.
Proof.
  unfold reconcile. destruct (negb acquired); [by apply site_safe_ret|].
  eapply (site_safe_bind _ _ _ always); [destruct data; try apply site_safe_firewall; by apply site_safe_ret|]. intros current _.
  eapply site_safe_bind; [apply site_safe_hub, safe_bindings|]. intros bs Hbs. apply site_safe_round.
  apply List.Forall_forall. intros b [Hb _]%selected_in. exact (proj1 (List.Forall_forall _ _) (bo_flat _ Hbs) b Hb).
Qed.

(** *** The routes *)

Context (E : env).

Lemma site_safe_spec b fresh : site_safe (mapping_spec b fresh) always.
Proof.
  unfold mapping_spec. cbv zeta. case_match; [apply site_safe_views, relay_views|]. case_match; [|by apply site_safe_ret].
  unfold native_mapping_spec. eapply (site_safe_bind _ _ _ always); [by intros s r s' Hs [= <- <-]|]. intros held _.
  eapply (site_safe_bind _ _ _ always); [|intros data _; by apply site_safe_ret].
  destruct fresh; [|by apply site_safe_ret]. destruct (native_rows held); [|by apply site_safe_ret].
  eapply site_safe_bind; [apply site_safe_mapping|]. intros latest _. by apply site_safe_ret.
Qed.

Lemma site_safe_normalize uuid body rule : strip uuid = uuid -> uuid <> "" ->
  site_safe (normalize_binding uuid body rule) (fun b => flat b /\ binding_uuid b = uuid).
Proof.
  intros Hs Hne. unfold normalize_binding. eapply (site_safe_bind _ _ _ always); [by apply site_safe_lift|]. intros d _.
  eapply (site_safe_bind _ _ _ always); [by apply site_safe_lift|]. intros scope _.
  eapply site_safe_bind; [apply site_safe_spec|]. intros mapping _.
  eapply (site_safe_bind _ _ _ always); [by apply site_safe_lift|]. intros _ _.
  eapply site_safe_bind; [apply site_safe_hub, safe_epoch|]. intros now _. apply site_safe_ret.
  assert (binding_uuid (("firewallUuid", PStr uuid) :: [("enabled", PBool (enabled (get d "enabled") true))]) = uuid) as Hu.
  { change (text_of (PStr uuid) = uuid). by rewrite text_of_str. }
  split; [split; [|split]|exact Hu].
  - unfold nodup_keys. cbn. repeat constructor; cbn; intuition discriminate.
  - by repeat constructor.
  - intros Hu'. apply Hne. transitivity (text_of (PStr uuid)); [by rewrite text_of_str|exact Hu'].
Qed.

Lemma site_safe_map {A B} (f : A -> router_prog S R B) l : (forall a, site_safe (f a) always) -> site_safe (prog_map f l) always.
Proof.
  intros Hf. induction l as [|a l IH]; cbn [prog_map]; [by apply site_safe_ret|].
  eapply site_safe_bind; [apply Hf|]. intros y _. eapply site_safe_bind; [apply IH|]. intros ys _. by apply site_safe_ret.
Qed.

Lemma site_safe_state data b : site_safe (state data b) always.
Proof.
  unfold state. cbv zeta. eapply site_safe_bind; [apply site_safe_views, resolve_views|]. intros target _.
  eapply (site_safe_bind _ _ _ always); [|intros status _; by apply site_safe_ret].
  unfold status_of. repeat case_match; try by apply site_safe_ret.
  all: eapply site_safe_bind; [apply site_safe_views, compatible_views|]; intros fits _; by apply site_safe_ret.
Qed.

Lemma site_safe_describe uuid data : site_safe (describe uuid data) always.
Proof.
  unfold describe. eapply (site_safe_bind _ _ _ always).
  - destruct data; [by apply site_safe_ret|]. eapply (site_safe_bind _ _ _ always); [by intros s r s' Hs [= <- <-]|]. intros held _.
    destruct (is_dict held); [by apply site_safe_ret|]. eapply site_safe_bind; [apply site_safe_firewall|]. intros latest _. by apply site_safe_ret.
  - intros shown _. eapply site_safe_bind; [apply site_safe_hub, safe_bindings|]. intros bs _.
    eapply site_safe_bind; [apply site_safe_map; intros b; apply site_safe_state|]. intros states _. by apply site_safe_ret.
Qed.

Lemma site_safe_upsert uuid body : site_safe (upsert uuid body) always.
Proof.
  unfold upsert. cbv zeta. destruct (nonempty (strip uuid)) eqn:Hne; cbn [ensure].
  2: { eapply (site_safe_bind _ _ _ (fun _ => False)); [by apply site_safe_lift|done]. }
  eapply (site_safe_bind _ _ _ always); [by apply site_safe_lift|]. intros _ _.
  eapply site_safe_bind; [apply site_safe_firewall|]. intros current _. destruct (find_rule _ _) as [rule|]; [|by apply site_safe_lift].
  eapply site_safe_bind; [apply site_safe_normalize; [apply strip_by_idemp|by apply nonempty_spec]|]. intros b [Hb Hu].
  eapply site_safe_bind; [apply site_safe_hub, safe_bindings|]. intros bs Hbs.
  eapply site_safe_bind; [apply site_safe_hub, safe_save_rows|].
  - apply Forall_app. split; [apply others_flat, Hbs|by constructor].
  - rewrite <- Hu. apply replaced_unique, Hbs.
  - intros _ _. eapply site_safe_bind; [apply site_safe_reconcile|]. intros answer _.
    eapply site_safe_bind; [apply site_safe_firewall|]. intros latest _. apply site_safe_describe.
Qed.

Lemma site_safe_request q m : site_safe m always -> site_safe (automation_request E q m) always.
Proof. intros Hm. unfold automation_request. destruct (check_app_token E q); [|by apply site_safe_ret]. apply site_safe_try; [done|]. intros e. by apply site_safe_ret. Qed.

(** A request, a round of the background thread, or anything else that leaves the bindings alone. *)
Inductive automation_step : site S R -> site S R -> Prop :=
| Step_round acquired data uuid s r s' : reconcile acquired data uuid s = (r, s') -> automation_step s s'
| Step_get q s r s' : get_bindings E q s = (r, s') -> automation_step s s'
| Step_put q uuid s r s' : put_binding E q uuid s = (r, s') -> automation_step s s'
| Step_delete q uuid s r s' : delete_binding E q uuid s = (r, s') -> automation_step s s'
| Step_sync q uuid s r s' : sync_binding E q uuid s = (r, s') -> automation_step s s'
| Step_other s s' : doc_ok (w_docs (st_hub s')) ->
    doc_read automation_file (w_docs (st_hub s')) = doc_read automation_file (w_docs (st_hub s)) -> automation_step s s'.

Definition automation_safe (s : site S R) : Prop := typed automation_typing (w_docs (st_hub s)).

Lemma step_safe s s' : automation_step s s' -> automation_safe s -> automation_safe s'.
Proof.
  unfold automation_safe. destruct 1 as [? ? ? ? ? ? Hr|? ? ? ? Hr|? ? ? ? ? Hr|? ? ? ? ? Hr|? ? ? ? ? Hr|? ? Hok Hd]; intros Hs.
  - by eapply site_safe_reconcile in Hr as [? _].
  - eapply site_safe_request in Hr as [? _]; [done| |done].
    eapply site_safe_bind; [apply site_safe_describe|]. intros d _. by apply site_safe_ret.
  - eapply site_safe_request in Hr as [? _]; [done| |done].
    eapply site_safe_bind; [apply site_safe_upsert|]. intros d _. by apply site_safe_ret.
  - eapply site_safe_request in Hr as [? _]; [done| |done].
    eapply site_safe_bind; [apply site_safe_hub, safe_delete|]. intros d _. by apply site_safe_ret.
  - eapply site_safe_request in Hr as [? _]; [done| |done].
    eapply site_safe_bind; [apply site_safe_hub, safe_bindings|]. intros bs _. destruct (find_binding uuid bs); [|by apply site_safe_lift].
    eapply site_safe_bind; [apply site_safe_reconcile|]. intros answer _.
    eapply site_safe_bind; [apply site_safe_describe|]. intros d _. by apply site_safe_ret.
  - split; [done|]. intros k v Hv ->. rewrite Hd in Hv. destruct Hs as [_ Hs]. by eapply Hs.
Qed.

Lemma safe_stored s : automation_safe s -> bindings_ok (stored s).
Proof.
  intros [_ Hs]. unfold stored. destruct (doc_read automation_file (w_docs (st_hub s))) as [v|] eqn:E'; cbn [default from_option id].
  - apply read_document_ok. by eapply Hs.
  - apply read_document_ok. exists []. split; [done|]. repeat constructor.
Qed.

(** C7. Whatever requests and rounds happen, in any order and with any router, the stored bindings
    stay one for each rule, sorted by rule, at most a hundred, and each is a flat record. *)
Theorem bindings_stay_unique s s' : automation_safe s -> rtc automation_step s s' -> bindings_ok (stored s').
Proof.
  intros Hs Hr. apply safe_stored. induction Hr as [s|s s1 s2 H1' _ IH]; [done|]. apply IH. by eapply step_safe.
Qed.
End Typing.

(** ** The concrete site *)

Lemma mapped_hub_ok : doc_ok (w_docs mapped_hub).
Proof. apply texts_okb_sound. vm_compute. reflexivity. Qed.

Lemma before_safe : automation_safe before_site.
Proof.
  split; [exact mapped_hub_ok|]. intros k v Hv ->. exfalso. revert Hv.
  assert (doc_read automation_file (w_docs (st_hub before_site)) = None) as -> by (vm_compute; reflexivity). discriminate.
Qed.

Lemma adopted_step : automation_step demo_env before_site adopted_site.
Proof.
  apply (Step_put demo_env (app_request [] (Some follow_request)) "u1" before_site
    (put_binding demo_env (app_request [] (Some follow_request)) "u1" before_site).1 adopted_site).
  vm_compute. reflexivity.
Qed.

Lemma adopted_safe : automation_safe adopted_site.
Proof. exact (step_safe demo_env _ _ adopted_step before_safe). Qed.

Lemma bindings_stay_unique_witness : stored adopted_site = [adopted_binding] /\ bindings_ok (stored adopted_site).
Proof.
  split; [vm_compute; reflexivity|].
  apply (bindings_stay_unique demo_env before_site adopted_site); [exact before_safe|]. apply rtc_once. exact adopted_step.
Defined.
