(* ===== verification/FirewallRounds.v ===== *)
(** * One round after the other

    What the firewall automation remembers of a round holds in the next ones: a suspended binding
    stays suspended, an address the Hub wrote is recognised, and a rule it adopted is followed. *)

From S2P Require Import Prelude PyNum PyVal PyIp IpText PyTime HubValues Json Storage Hub Fixtures Services AgentCmd PortMap PortMapRules RouterRpc RouterSite RouterFixture TypedStore FirewallRules FirewallAutomation FirewallFixture FirewallFacts FirewallBindings.

(** [hexdigest()] is a text of hexadecimal digits. *)
Class Sha256Hex `{Sha256} : Prop := { sha256_hex : forall s, nonempty (sha256 s) = true /\ sall is_hex (sha256 s) = true }.

Lemma text_of_hex `{Sha256Hex} s : text_of (PStr (sha256 s)) = sha256 s.
Proof.
  rewrite text_of_str. apply strip_by_id. eapply sall_impl; [|apply sha256_hex]. intros c Hc. rewrite hex_no_space; [done|]. by rewrite Hc.
Qed.

(** ** Lists of bindings *)

Lemma find_binding_unique b bs : List.NoDup (List.map binding_uuid bs) -> In b bs -> find_binding (binding_uuid b) bs = Some b.
Proof.
  unfold find_binding. induction bs as [|b' bs IH]; [done|]. intros Hn Hin. inversion Hn as [|? ? Hb Hn']; subst. cbn [List.find].
  destruct Hin as [->|Hin]; [by rewrite String.eqb_refl|].
  destruct (String.eqb_spec (binding_uuid b') (binding_uuid b)) as [Heq|]; [|by apply IH].
  exfalso. apply Hb. rewrite Heq. by apply in_map.
Qed.

Lemma find_binding_some u b bs : find_binding u bs = Some b -> In b bs /\ binding_uuid b = u.
Proof. intros [Hin Hu%String.eqb_eq]%find_some. done. Qed.

Lemma selected_one u b bs b' : List.NoDup (List.map binding_uuid bs) -> u <> "" -> find_binding u bs = Some b -> In b' (selected u bs) -> b' = b.
Proof.
  intros Hn Hu Hf [Hin [->|Hu']]%selected_in; [done|]. pose proof (find_binding_unique _ _ Hn Hin) as Hf'. rewrite Hu', Hf in Hf'. congruence.
Qed.

Lemma selected_single u b bs : List.NoDup (List.map binding_uuid bs) -> u <> "" -> find_binding u bs = Some b -> selected u bs = [b].
Proof.
  intros Hn Hu Hf. unfold selected. apply nonempty_spec in Hu as ->. revert Hn Hf. unfold find_binding. induction bs as [|b' bs IH]; [done|].
  intros Hn. inversion Hn as [|? ? Hb Hn']; subst. cbn. destruct (String.eqb_spec (binding_uuid b') u) as [E|E]; [|by apply IH].
  intros [= ->]. f_equal. destruct (List.filter _ bs) as [|c l] eqn:El; [done|].
  assert (In c (List.filter (fun b => String.eqb (binding_uuid b) u) bs)) as [Hc Hcu%String.eqb_eq]%filter_In by (rewrite El; by left).
  exfalso. apply Hb. rewrite E, <- Hcu. by apply in_map.
Qed.

Lemma others_shorter u b bs : In b bs -> binding_uuid b = u -> (List.length (others u bs) < List.length bs)%nat.
Proof.
  intros Hin Hu. unfold others. induction bs as [|b' bs IH]; [done|]. cbn.
  destruct Hin as [->|Hin].
  - rewrite Hu, String.eqb_refl. cbn. pose proof (filter_length_le (fun b => negb (String.eqb (binding_uuid b) u)) bs). lia.
  - specialize (IH Hin). destruct (negb _); cbn; lia.
Qed.

Lemma kept_all bs : (List.length bs <= binding_cap)%nat -> Permutation (kept bs) bs.
Proof. intros Hl. unfold kept. rewrite firstn_all2 by by rewrite isort_length. apply isort_perm. Qed.

Section Rounds.
Context {S R : Type} `{DocStoreLaws S} {tz : TimeZone} `{RouterClient R} `{RouterBatch R} `{Sha256}.

Implicit Types s : site S R.

Lemma stored_json s : doc_ok (w_docs (st_hub s)) -> List.Forall (fun b => json_ok (PDict b)) (stored s).
Proof.
  intros Hok. unfold stored. destruct (doc_read _ _) as [v|] eqn:Ev; cbn [default from_option id]; [|constructor].
  pose proof (doc_read_ok _ _ _ Hok Ev) as Hv. unfold read_bindings. apply List.Forall_forall. intros b [Hin _]%filter_In.
  apply list_elem_of_In, list_elem_of_omap in Hin as (x & Hx & Hb). destruct x as [| | | | | |row]; try done. injection Hb as ->.
  destruct v as [| | | | | |d]; try (by cbn in Hx; apply not_elem_of_nil in Hx). cbn [dict_or_empty] in Hx.
  pose proof (json_ok_get d "bindings" Hv) as Hl. destruct (get d "bindings") as [| | | | |l|]; try (by cbn in Hx; apply not_elem_of_nil in Hx).
  cbn in Hx. by eapply json_ok_in; [|apply list_elem_of_In].
Qed.

(** The site after a save of the bindings. *)
Record resaved (bs : list dict) s s' : Prop := {
  rs_safe : automation_safe s';
  rs_router : st_router s' = st_router s;
  rs_sync : st_sync s' = st_sync s;
  rs_ms : w_ms (st_hub s') = w_ms (st_hub s);
  rs_mem : w_mem (st_hub s') = w_mem (st_hub s);
  rs_view : same_view s s';
  rs_stored : stored s' = List.map sorted_dict (kept bs);
}.

Lemma save_rows_stored bs s : automation_safe s -> List.Forall flat bs -> List.NoDup (List.map binding_uuid bs) ->
  List.Forall (fun b => json_ok (PDict b)) bs -> exists s', on_hub (save_rows bs) s = (Ok tt, s') /\ resaved bs s s'.
Proof.
  intros Hs Hf Hn Hj. assert (forall now, json_ok (automation_document now bs)) as Hdoc.
  { intros now. unfold automation_document. fold (kept bs). assert (json_ok (PList (List.map PDict (kept bs)))) as Hl.
    { apply json_ok_list, List.Forall_map, List.Forall_forall. intros b Hin%kept_in. by apply (proj1 (List.Forall_forall _ _) Hj). }
    solve_json. }
  rewrite on_hub_eq. unfold save_rows. rewrite prog_bind_eq. cbn [now_str]. set (now := format_datetime _).
  destruct (save_json_total automation_file _ (st_hub s) eq_refl (Hdoc now) (proj1 Hs)) as (w & Hw & Hok & Hms & _ & Hmem).
  rewrite Hw. eexists. split; [done|]. pose proof (safe_save_rows bs Hf Hn (st_hub s) (Ok tt) w Hs) as Hsafe.
  assert (doc_read automation_file (w_docs w) = Some (sort_keys (automation_document now bs))) as Hr.
  { eapply save_json_read; [done|by apply json_ok_plain|exact Hw]. }
  constructor; cbn [st_hub st_router st_sync fst snd]; try done.
  - apply Hsafe. unfold save_rows. by rewrite prog_bind_eq.
  - split; [|done]. intros k Hk. cbn [st_hub fst snd]. by eapply (keeps_save_json k automation_file).
  - unfold stored. cbn [st_hub fst snd]. rewrite Hr. cbn [default from_option id].
    change (read_bindings (sort_keys (automation_document now bs))) with
      (List.filter (fun b => nonempty (binding_uuid b)) (omap (fun v => match v with PDict row => Some row | _ => None end)
         (List.map sort_keys (List.map PDict (kept bs))))).
    rewrite dicts_sorted, omap_dicts. apply filter_all. apply flat_named, bo_flat, bindings_ok_sorted, kept_ok; done.
Qed.

(** A stored binding is replaced, and the others stay. *)
Record replaced (b : dict) s s' : Prop := {
  rp_safe : automation_safe s';
  rp_router : st_router s' = st_router s;
  rp_sync : st_sync s' = st_sync s;
  rp_mem : w_mem (st_hub s') = w_mem (st_hub s);
  rp_ms : w_ms (st_hub s') = w_ms (st_hub s);
  rp_view : same_view s s';
  rp_found : find_binding (binding_uuid b) (stored s') = Some (sorted_dict b);
  rp_others : forall b', In b' (stored s) -> binding_uuid b' <> binding_uuid b -> In (sorted_dict b') (stored s');
}.

Lemma replace_stored b old s : automation_safe s -> flat b -> json_ok (PDict b) -> find_binding (binding_uuid b) (stored s) = Some old ->
  exists s', on_hub (replace_binding b) s = (Ok tt, s') /\ replaced b s s'.
Proof.
  intros Hs Hb Hj Hold. pose proof (safe_stored s Hs) as [Hf Hc Hu _]. set (bs := others (binding_uuid b) (stored s) ++ [b]).
  assert (List.Forall flat bs) as Hfl by (apply Forall_app; split; [by apply others_flat|by constructor]).
  assert (List.NoDup (List.map binding_uuid bs)) as Hn by by apply replaced_unique.
  assert (List.Forall (fun b => json_ok (PDict b)) bs) as Hjs.
  { apply Forall_app. split; [|by constructor]. apply List.Forall_forall. intros b' [Hin _]%others_in.
    exact (proj1 (List.Forall_forall _ _) (stored_json s (proj1 Hs)) b' Hin). }
  destruct (save_rows_stored bs s Hs Hfl Hn Hjs) as (s' & Hs' & [H1' H2' H3' Hms H4' H5' Hst]).
  exists s'. assert (Permutation (kept bs) bs) as Hp.
  { apply kept_all. unfold bs. rewrite length_app. cbn. apply find_binding_some in Hold as [Hin Hu'].
    pose proof (others_shorter _ _ _ Hin Hu'). lia. }
  assert (forall b', In b' bs -> In (sorted_dict b') (stored s')) as Hin.
  { intros b' Hb'. rewrite Hst. apply in_map. by apply (Permutation_in _ (Permutation_sym Hp)). }
  split.
  - rewrite <- Hs'. rewrite !on_hub_eq. unfold replace_binding. rewrite prog_bind_eq. reflexivity.
  - constructor; try done.
    + pose proof (safe_stored s' H1') as Hok. rewrite <- (uuid_sorted b Hb). apply find_binding_unique; [apply Hok|].
      apply Hin, in_app_iff. by right; left.
    + intros b' Hb' Hne. apply Hin, in_app_iff. left. by apply others_in.
Qed.

(** *** Suspension *)

Fixpoint rounds (uuid : string) (currents : list dict) s : site S R :=
  match currents with [] => s | current :: cs => rounds uuid cs (reconcile true (PDict current) uuid s).2 end.

Lemma follow_paused current b s : paused b = true -> follow current b s = (Ok None, s).
Proof. intros Hb. unfold follow. by rewrite Hb, orb_true_r. Qed.

Lemma paused_rounds uuid b currents s : automation_safe s -> uuid <> "" -> find_binding uuid (stored s) = Some b -> paused b = true ->
  rounds uuid currents s = s.
Proof.
  intros Hs Hu Hf Hb. induction currents as [|current cs IH]; [done|]. cbn [rounds]. rewrite reconcile_eq.
  assert (first_answer (follow current) (selected uuid (stored s)) s = (Ok unchanged, s)) as ->; [|done].
  assert (forall b', In b' (selected uuid (stored s)) -> paused b' = true) as Hp.
  { intros b' Hin. pose proof (safe_stored s Hs) as Hok. by rewrite (selected_one _ _ _ _ (bo_unique _ Hok) Hu Hf Hin). }
  induction (selected uuid (stored s)) as [|b' bs IHb]; [done|]. cbn [first_answer].
  rewrite prog_bind_eq, follow_paused by (apply Hp; by left). apply IHb. intros b'' ?. apply Hp. by right.
Qed.

Definition suspended_binding (b : dict) (reason : string) (now : Z) : dict :=
  dupdate b [("suspended", PBool true); ("suspendedReason", PStr reason); ("suspendedAt", PInt now)].

Lemma suspended_flat b reason now : flat b -> flat (suspended_binding b reason now).
Proof. intros Hb. apply flat_dupdate; [done|]. by repeat constructor. Qed.

Lemma json_dupdate d e : json_ok (PDict d) -> List.Forall (fun kv => json_ok kv.2) e -> json_ok (PDict (dupdate d e)).
Proof. intros Hd He. revert d Hd. unfold dupdate. induction He as [|[k v] e Hv _ IH]; intros d Hd; cbn; [done|]. apply IH. by apply json_ok_dset. Qed.

Lemma first_selected current b s answer s' : automation_safe s -> binding_uuid b <> "" -> find_binding (binding_uuid b) (stored s) = Some b ->
  follow current b s = (Ok (Some answer), s') -> reconcile true (PDict current) (binding_uuid b) s = (Ok answer, s').
Proof.
  intros Hs Hu Hf Hfo. rewrite reconcile_eq. pose proof (safe_stored s Hs) as Hok.
  assert (In b (selected (binding_uuid b) (stored s))) as Hin.
  { unfold selected. apply nonempty_spec in Hu as ->. apply filter_In. split; [by apply find_binding_some in Hf as [? _]|apply String.eqb_refl]. }
  pose proof (fun b' => selected_one _ b _ b' (bo_unique _ Hok) Hu Hf) as Hone.
  destruct (selected _ _) as [|b' bs]; [done|]. rewrite (Hone b' ltac:(by left)). cbn [first_answer]. by rewrite prog_bind_eq, Hfo.
Qed.

Lemma suspend_eq b reason s s1 s2 : paused b = false ->
  on_hub (replace_binding (suspended_binding b reason (w_ms (st_hub s) / 1000))) s = (Ok tt, s1) ->
  on_hub (clear_candidate (binding_uuid b)) s1 = (Ok tt, s2) -> on_hub (suspend b reason) s = (Ok tt, s2).
Proof.
  intros [_ Hp]%orb_false_iff. rewrite !on_hub_eq. unfold suspend. rewrite Hp. cbn [andb]. rewrite prog_bind_eq. cbn [epoch].
  fold (suspended_binding b reason (w_ms (st_hub s) / 1000)). intros Hr Hc. rewrite prog_bind_eq.
  destruct (replace_binding _ (st_hub s)) as [o w]. injection Hr as -> <-. cbn [st_hub st_router st_sync fst snd] in *. exact Hc.
Qed.

Lemma follow_suspends current b rule s s1 s2 : is_mapping b = true -> paused b = false ->
  find_rule (PDict current) (binding_uuid b) = Some rule -> drifted b rule = true ->
  on_hub (replace_binding (suspended_binding b (if nonempty (applied b) then "manual_change" else "confirmation_required")
            (w_ms (st_hub s) / 1000))) s = (Ok tt, s1) ->
  on_hub (clear_candidate (binding_uuid b)) s1 = (Ok tt, s2) ->
  follow current b s = (Ok (Some [("ok", PBool true); ("changed", PBool false); ("suspended", PBool true);
                                  ("firewallUuid", PStr (binding_uuid b))]), s2).
Proof.
  intros Hm Hp Hr Hd H1' H2'. unfold follow. rewrite Hm, Hp, Hr, Hd. cbn [negb orb]. rewrite prog_bind_eq.
  by rewrite (suspend_eq b _ s s1 s2).
Qed.

(** C6. Somebody changed a rule the Hub follows: the round writes nothing to the router, suspends
    the binding and keeps the others, and no later round of this rule changes anything. *)
Theorem manual_change_stops_following s uuid b current rule :
  automation_safe s -> int_printable (w_ms (st_hub s) / 1000) ->
  find_binding uuid (stored s) = Some b -> is_mapping b = true -> paused b = false ->
  find_rule (PDict current) uuid = Some rule -> drifted b rule = true ->
  exists s', reconcile true (PDict current) uuid s =
      (Ok [("ok", PBool true); ("changed", PBool false); ("suspended", PBool true); ("firewallUuid", PStr uuid)], s') /\
    st_router s' = st_router s /\
    (forall b', In b' (stored s) -> binding_uuid b' <> uuid -> In (sorted_dict b') (stored s')) /\
    (exists b', find_binding uuid (stored s') = Some b' /\ get b' "suspended" = PBool true) /\
    forall currents, rounds uuid currents s' = s'.
Proof.
  intros Hs Hms Hf Hmap Hpaused Hrule Hdrift. pose proof (find_binding_some _ _ _ Hf) as [Hin <-].
  pose proof (proj1 (List.Forall_forall _ _) (bo_flat _ (safe_stored s Hs)) b Hin) as Hb. pose proof Hb as (_ & _ & Hu).
  set (reason := if nonempty (applied b) then "manual_change" else "confirmation_required").
  set (b' := suspended_binding b reason (w_ms (st_hub s) / 1000)).
  assert (flat b') as Hb' by by apply suspended_flat.
  assert (binding_uuid b' = binding_uuid b) as Hu' by (unfold b', suspended_binding, binding_uuid, dupdate; cbn [fold_left fst snd]; by simpl_get).
  assert (json_ok (PDict b')) as Hj.
  { apply json_dupdate; [exact (proj1 (List.Forall_forall _ _) (stored_json s (proj1 Hs)) b Hin)|]. by repeat constructor. }
  destruct (replace_stored b' b s Hs Hb' Hj ltac:(by rewrite Hu')) as (s1 & Hs1 & [Hsafe Hr Hy Hm _ _ Hfound Ho]).
  destruct (on_hub (clear_candidate (binding_uuid b)) s1) as [o s2] eqn:Ec. pose proof (clear_quiet _ _ _ _ Ec) as [Hq ->].
  assert (stored s2 = stored s1) as Hst by (unfold stored; by rewrite (q_docs _ _ _ Hq)).
  assert (automation_safe s2) as Hsafe2 by (unfold automation_safe; by rewrite (q_docs _ _ _ Hq)).
  rewrite Hu' in Hfound. rewrite <- Hst in Hfound.
  assert (get b' "suspended" = PBool true) as Hb'' by (unfold b', suspended_binding, dupdate; cbn [fold_left fst snd]; by simpl_get).
  assert (get (sorted_dict b') "suspended" = PBool true) as Hsus by by rewrite get_sorted_flat.
  exists s2. split_and!.
  - apply first_selected; [done..|]. by eapply follow_suspends.
  - by rewrite (q_router _ _ _ Hq).
  - intros b0 Hb0 Hne. rewrite Hst. apply Ho; [done|by rewrite Hu'].
  - by exists (sorted_dict b').
  - intros currents. eapply paused_rounds; [done..|]. unfold paused. rewrite Hsus. cbn. by rewrite orb_true_r.
Qed.

(** *** Adoption *)

Lemma ensure_ok b msg : ensure b msg = Ok tt -> b = true.
Proof. by destruct b. Qed.

(** What [check_scope] accepts. *)
Record scope_ok (rule : dict) (c : scope) : Prop := {
  sc_family : s_family c = "ipv4" \/ s_family c = "ipv6";
  sc_field : field_fits (s_family c) (s_field c) = true;
  sc_version : lower (text_of (get rule "ipVersion")) = s_family c;
  sc_value : field_value (s_field c) (get rule (s_field c)) (s_family c) <> "";
  sc_target : upper (text_of (get rule "target")) = "ACCEPT";
  sc_direction : lower (text_of (get rule "direction")) = "forward";
  sc_in : lower (text_of (get rule "inIface")) = "wan";
  sc_out : lower (text_of (get rule "outIface")) = "lan";
}.

Lemma check_scope_ok body rule c : check_scope body rule = Ok c -> scope_ok rule c.
Proof.
  unfold check_scope. cbv zeta.
  intros Hc. do 3 (apply result_bind_ok in Hc as ([] & _ & Hc)).
  apply result_bind_ok in Hc as ([] & Hf%ensure_ok & Hc).
  apply result_bind_ok in Hc as ([] & Hfit%ensure_ok & Hc). apply result_bind_ok in Hc as ([] & Hver%ensure_ok & Hc).
  apply result_bind_ok in Hc as ([] & Hval%ensure_ok & Hc). apply result_bind_ok in Hc as ([] & Htg%ensure_ok & Hc).
  apply result_bind_ok in Hc as ([] & Hdir%ensure_ok & Hc). apply result_bind_ok in Hc as ([] & Hio%ensure_ok & Hc).
  injection Hc as <-. apply andb_prop in Hio as [Hi Ho]. apply String.eqb_eq in Hver, Htg, Hdir, Hi, Ho.
  apply nonempty_spec in Hval. apply str_in_spec in Hf as [Hf|[Hf|[]]]; constructor; cbn [s_family s_field]; auto.
Qed.

Lemma check_mapping_ok c rule mapping : check_mapping c rule mapping = Ok tt ->
  exists m, mapping = Some m /\ text_of (get m "addressFamily") = s_family c /\
    protocol_matches (get rule "proto") (get m "protocol") = true /\ port_contains (get rule "destPort") (get m "targetPort") = Ok true.
Proof.
  unfold check_mapping. destruct mapping as [m|]; [|done]. intros ([] & Hfam%ensure_ok & H0')%result_bind_ok.
  apply result_bind_ok in H0' as ([] & Hp%ensure_ok & H0'). apply result_bind_ok in H0' as (covered & Hc & Hcov%ensure_ok).
  exists m. apply String.eqb_eq in Hfam. subst covered. done.
Qed.

Lemma text_family c rule : scope_ok rule c -> text_of (PStr (s_family c)) = s_family c.
Proof. by intros [[-> | ->] _ _ _ _ _ _ _]. Qed.

Lemma text_field c rule : scope_ok rule c -> text_of (PStr (s_field c)) = s_field c.
Proof. by intros [_ [-> | [-> _]]%field_fits_cases _ _ _ _ _ _]. Qed.

(** A rule the Hub adopts is recognised: right after the request its state is the one the
    binding records, it lets the chosen mapping through, and only the flag of the request decides
    whether it is followed. *)
Theorem adopted_rule_is_recognised `{!Sha256Hex} s s' uuid body rule b :
  strip uuid = uuid -> normalize_binding uuid body rule s = (Ok b, s') ->
  binding_uuid b = uuid /\ is_mapping b = true /\ drifted b rule = false /\
  (exists m, fits rule b (Some m) = Ok true) /\
  paused b = negb (enabled (get (dict_or_empty body) "enabled") true).
Proof.
  intros Hu. unfold normalize_binding. intros (d & s1 & Hd & Hn)%prog_bind_ok. apply prog_bind_ok in Hn as (c & s2 & Hc & Hn).
  apply prog_bind_ok in Hn as (mapping & s3 & _ & Hn). apply prog_bind_ok in Hn as ([] & s4 & Hm & Hn).
  apply prog_bind_ok in Hn as (now & s5 & _ & Hn). injection Hn as <- _. injection Hd as Hd _. injection Hc as Hc _. injection Hm as Hm _.
  apply check_scope_ok in Hc. apply check_mapping_ok in Hm as (m & -> & Hfam & Hproto & Hport).
  set (b := _ :: _). pose proof (text_family _ _ Hc) as Htf. pose proof (text_field _ _ Hc) as Htm.
  assert (address_family b = s_family c) as Haf by exact Htf. assert (match_field b = s_field c) as Hmf by exact Htm.
  destruct Hc as [_ Hfit Hver Hval Htg Hdir Hin Hout]. split_and!.
  - unfold b, binding_uuid. change (text_of (PStr uuid) = uuid). by rewrite text_of_str.
  - done.
  - unfold drifted, applied, controlled. rewrite Haf, Hmf.
    change (get b "lastAppliedValue") with (PStr (field_value (s_field c) (get rule (s_field c)) (s_family c))).
    change (get b "ruleFingerprint") with (PStr (rule_fingerprint rule (s_field c))).
    rewrite field_value_normal. unfold rule_fingerprint. rewrite text_of_hex.
    apply nonempty_spec in Hval as ->. destruct (sha256_hex (dumps (PDict (List.filter (fun kv => negb (str_in kv.1 ["stats"; s_field c])) rule)))) as [-> _].
    by rewrite !String.eqb_refl.
  - exists m. unfold fits. rewrite Haf, Hmf, Hver, Hfit, Htg, Hdir, Hin, Hout, Hfam, Hproto. apply nonempty_spec in Hval as ->.
    by rewrite !String.eqb_refl.
  - unfold paused. change (get b "enabled") with (PBool (enabled (get d "enabled") true)). change (get b "suspended") with (PBool false).
    cbn [enabled]. rewrite orb_false_r. destruct body; try done. by injection Hd as ->.
Qed.

(** *** A confirmed update *)

(** What a binding is judged by, field by field. *)
Definition scope_fields : list string := ["targetType"; "mappingKind"; "mappingId"; "addressFamily"; "matchField"].

Lemma resolve_ext b b' : (forall k, In k scope_fields -> get b' k = get b k) -> resolve (S := S) (R := R) b' = resolve b.
Proof.
  intros Hk. unfold resolve, mapping_spec, relay_mapping_spec, native_mapping_spec, is_mapping, address_family, match_field.
  rewrite !(Hk "targetType"), !(Hk "mappingKind"), !(Hk "mappingId"), !(Hk "addressFamily"), !(Hk "matchField") by (cbn; tauto). done.
Qed.

Lemma followed_get b rule desired now k : In k scope_fields -> get (followed b rule desired now) k = get b k.
Proof. intros Hk. unfold followed, dupdate. cbn [fold_left fst snd]. destruct Hk as [<-|[<-|[<-|[<-|[<-|[]]]]]]; by simpl_get. Qed.

Lemma flat_followed_get b rule desired now k : flat b -> In k scope_fields ->
  get (sorted_dict (followed b rule desired now)) k = get b k.
Proof. intros Hb Hk. rewrite get_sorted_flat by by apply followed_flat. by apply followed_get. Qed.

Lemma field_value_empty field family : field_value field (PStr "") family = "".
Proof. unfold field_value. destruct (String.eqb field "destIP"); [done|]. by destruct (_ || _). Qed.

(** A resolved address is in the form the field is read in. *)
Lemma resolved_normal b s desired name : field_fits (address_family b) (match_field b) = true ->
  (match_field b = "ipv6SuffixDest" -> address_family b = "ipv6") ->
  (resolve b s).1 = Ok (desired, name) -> field_value (match_field b) (PStr desired) (address_family b) = desired.
Proof.
  intros Hfit H6. unfold resolve. destruct (negb (is_mapping b)); [intros [= <- _]; apply field_value_empty|].
  rewrite prog_bind_eq. destruct (mapping_spec b false s) as [[[m|]|e] s1]; [| |done]; cycle 1.
  { intros [= <- _]. apply field_value_empty. }
  cbv zeta. rewrite prog_bind_eq. cbn [lift]. set (address := ip_text (get m "address") (address_family b)).
  apply field_fits_cases in Hfit as [Ef|[Ef _]]; rewrite Ef in *.
  - cbn [String.eqb Ascii.eqb Bool.eqb]. rewrite andb_false_r. intros [= <- _]. apply ip_text_normal.
  - rewrite H6 by done. cbn [String.eqb Ascii.eqb Bool.eqb]. rewrite andb_true_r.
    destruct (nonempty address) eqn:Ene; [|intros [= <- _]; apply nonempty_false in Ene; by rewrite Ene].
    unfold suffix. destruct (ipv6_of_str address) as [a|]; [|done]. intros [= <- _].
    destruct (host_text_cases (ip_int a)) as [->|(h & Hh & Hne & ->)]; [done|]. by apply suffix_value_of_host.
Qed.

Lemma controlled_family b rule : controlled b rule <> "" -> match_field b = "ipv6SuffixDest" -> address_family b = "ipv6".
Proof.
  unfold controlled, field_value. intros Hc Hm. rewrite Hm in Hc. cbn [String.eqb Ascii.eqb Bool.eqb negb orb] in Hc.
  by destruct (String.eqb_spec (address_family b) "ipv6").
Qed.

(** The note of an earlier round. *)
Record noted (uuid address : string) (row : dict) s : Prop := {
  no_row : candidate uuid s = PDict row;
  no_value : text_of (get row "value") = address;
  no_count : exists n, get row "count" = PInt n /\ 1 <= n;
}.

Lemma noted_confirmed uuid address row s : noted uuid address row s ->
  exists s', on_hub (candidate_confirmed uuid address) s = (Ok true, s') /\ quiet uuid s s' /\ w_ms (st_hub s') = w_ms (st_hub s).
Proof.
  intros [Hr Hv (n & Hn & Hpos)]. destruct (on_hub (candidate_confirmed uuid address) s) as [o s'] eqn:Ec.
  pose proof (confirmed_quiet _ _ _ _ _ Ec) as [Hq _]. rewrite on_hub_eq in Ec. revert Ec. unfold candidate_confirmed, candidates.
  rewrite !prog_bind_eq. cbn [monotonic mem_get]. rewrite !prog_bind_eq. cbn [mem_get mret prog_ret fst snd].
  change (get (dict_or_empty (default (PDict []) (w_mem (st_hub s) !! candidates_name))) uuid) with (candidate uuid s).
  rewrite Hr, Hv, String.eqb_refl, prog_bind_eq. cbn [lift].
  assert (por (get row "count") (PInt 0) = PInt n) as ->. { rewrite Hn. unfold por. cbn. by destruct (Z.eqb_spec n 0); [lia|]. }
  cbn [py_int]. rewrite prog_bind_eq. cbn [set_candidates mem_set fst snd mret prog_ret]. intros [= <- <-].
  exists (Site (World (w_docs (st_hub s)) (w_ms (st_hub s)) (w_mono (st_hub s)) (w_draws (st_hub s)) (w_published (st_hub s))
    (<[candidates_name := PDict (dset uuid (PDict (dset "count" (PInt (Z.min stable_observations (n + 1))) row))
        (dict_or_empty (default (PDict []) (w_mem (st_hub s) !! candidates_name))))]> (w_mem (st_hub s)))) (st_router s) (st_sync s)).
  split; [|split; [exact Hq|done]]. f_equal. f_equal. apply Z.leb_le. unfold stable_observations. lia.
Qed.

(** The forced read after a write. *)
Lemma firewall_at s data r2 rows' : batch [("devConfig.get", "ip_firewall"); ("devSta.get", "ip_firewall")] (st_router s) = (Ok data, r2) ->
  firewall_rows (dict_at 1 data) (dict_at 0 data) = Ok rows' ->
  firewall s = (Ok (dset "updatedAt" (PInt (w_ms (st_hub s) / 1000)) (dset "list" (PList rows') (dict_at 0 data))), Site (st_hub s) r2 (st_sync s)).
Proof.
  intros Hb Hr. unfold firewall. rewrite prog_bind_eq, on_router_eq, Hb. cbn [fst snd]. rewrite prog_bind_eq. cbn [lift]. rewrite Hr.
  rewrite prog_bind_eq, on_hub_eq. cbn [epoch fst snd]. done.
Qed.

Lemma find_rule_list now rows' d uuid : find_rule (PDict (dset "updatedAt" now (dset "list" (PList rows') d))) uuid = find_rule (PDict [("list", PList rows')]) uuid.
Proof. unfold find_rule, rows. simpl_get. done. Qed.

Lemma accept_firewall_others now data y other : other <> "firewall" -> snapshot other (accept_verified now "firewall" data y) = snapshot other y.
Proof.
  intros Hne. unfold accept_verified. change (List.find _ resource_by_cache_key) with (Some ("firewall", "firewall")).
  destruct (is_text (get (snapshot "firewall" y) "digest") (digest "firewall" data)) eqn:Ed.
  - by rewrite accept_unchanged.
  - pose proof (accept_changed now "firewall" data "command" y eq_refl Ed) as Ha. destruct (accept _ _ _ _ _) as [frame y'].
    destruct Ha as (_ & _ & _ & Ho). by apply Ho.
Qed.

Lemma write_and_verify_at payload v r1 data r2 rows' s :
  rpc "devConfig.update" "ip_firewall" (PDict [("list", PList [PDict payload])]) (st_router s) = (Ok v, r1) ->
  batch [("devConfig.get", "ip_firewall"); ("devSta.get", "ip_firewall")] r1 = (Ok data, r2) ->
  firewall_rows (dict_at 1 data) (dict_at 0 data) = Ok rows' ->
  exists y, (forall other, other <> "firewall" -> snapshot other y = snapshot other (st_sync s)) /\
    write_and_verify "firewall" (update_rule payload) firewall s =
      (Ok (dset "updatedAt" (PInt (w_ms (st_hub s) / 1000)) (dset "list" (PList rows') (dict_at 0 data))), Site (st_hub s) r2 y).
Proof.
  intros Hw Hb Hr. unfold write_and_verify, update_rule, call. rewrite prog_bind_eq, on_router_eq, Hw. cbn [fst snd].
  rewrite prog_bind_eq, (firewall_at (Site (st_hub s) r1 (st_sync s)) data r2 rows' Hb Hr). cbn [st_hub st_sync].
  rewrite prog_bind_eq, on_hub_eq. cbn [epoch fst snd st_hub st_router st_sync]. rewrite prog_bind_eq. cbn [on_sync mret prog_ret st_hub st_router st_sync].
  eexists. split; [|done]. intros other Hne. by apply accept_firewall_others.
Qed.

(** The answer to a confirmed update. *)
Definition changed_answer (b rule : dict) (desired : string) (now : Z) : dict :=
  [("ok", PBool true); ("changed", PBool true); ("firewallUuid", PStr (binding_uuid b)); ("field", PStr (match_field b));
   ("oldAddress", PStr (controlled b rule)); ("newAddress", PStr desired); ("verifiedAt", PInt now)].

(** What the router does with the update: it accepts it and reads back the rule with the address. *)
Record accepts (b rule rule' : dict) (desired : string) (r : R) : Prop := {
  ac_update : exists v, rpc "devConfig.update" "ip_firewall" (PDict [("list", PList [PDict (rewritten b rule desired)])]) r
                = (Ok v, written (rewritten b rule desired) r);
  ac_read : exists data rows',
    (batch [("devConfig.get", "ip_firewall"); ("devSta.get", "ip_firewall")] (written (rewritten b rule desired) r)).1 = Ok data /\
    firewall_rows (dict_at 1 data) (dict_at 0 data) = Ok rows' /\
    find_rule (PDict [("list", PList rows')]) (binding_uuid b) = Some rule';
  ac_field : get rule' (match_field b) = PStr desired;
}.

Lemma apply_settles b rule rule' desired s : automation_safe s -> find_binding (binding_uuid b) (stored s) = Some b ->
  int_printable (w_ms (st_hub s) / 1000) -> field_value (match_field b) (PStr desired) (address_family b) = desired ->
  accepts b rule rule' desired (st_router s) ->
  exists s', apply_address b rule desired s = (Ok (changed_answer b rule desired (w_ms (st_hub s) / 1000)), s') /\
    automation_safe s' /\ same_view s s' /\
    find_binding (binding_uuid b) (stored s') = Some (sorted_dict (followed b rule' desired (w_ms (st_hub s) / 1000))).
Proof.
  intros Hs Hf Hms Hnormal [[v Hw] (data & rows' & Hb & Hr & Hrule) Hfield].
  destruct (batch _ _) as [o r2] eqn:Eb in Hb. cbn in Hb. subst o.
  destruct (write_and_verify_at _ _ _ _ _ _ s Hw Eb Hr) as (y & Hy & Hwv).
  unfold apply_address. cbv zeta. rewrite prog_bind_eq, Hwv. set (now := w_ms (st_hub s) / 1000) in *.
  rewrite prog_bind_eq. unfold verify. rewrite find_rule_list, Hrule. cbn [default from_option id lift].
  assert (controlled b rule' = desired) as Hc by (unfold controlled; by rewrite Hfield).
  rewrite Hc, String.eqb_refl. rewrite prog_bind_eq, on_hub_eq. cbn [epoch fst snd st_hub st_router st_sync]. fold now.
  pose proof (find_binding_some _ _ _ Hf) as [Hin _].
  pose proof (proj1 (List.Forall_forall _ _) (bo_flat _ (safe_stored s Hs)) b Hin) as Hfl.
  set (b' := followed b rule' desired now). assert (flat b') as Hfl' by by apply followed_flat.
  assert (binding_uuid b' = binding_uuid b) as Hu by (unfold b', followed, binding_uuid, dupdate; cbn [fold_left fst snd]; by simpl_get).
  assert (json_ok (PDict b')) as Hj.
  { apply json_dupdate; [exact (proj1 (List.Forall_forall _ _) (stored_json s (proj1 Hs)) b Hin)|]. by repeat constructor. }
  set (s1 := Site (st_hub s) r2 y).
  assert (same_view s s1) as Hv1 by (split; [done|by apply Hy]).
  destruct (replace_stored b' b s1 Hs Hfl' Hj ltac:(by rewrite Hu)) as (s2 & Hs2 & [Hsafe _ _ _ Hms2 Hv2 Hfound _]).
  rewrite prog_bind_eq. fold s1. rewrite Hs2. rewrite prog_bind_eq.
  destruct (on_hub (clear_candidate (binding_uuid b)) s2) as [o s3] eqn:Ec. pose proof (clear_quiet _ _ _ _ Ec) as [Hq ->].
  rewrite prog_bind_eq, on_hub_eq. cbn [epoch fst snd mret prog_ret].
  assert (w_ms (st_hub s3) = w_ms (st_hub s)) as Hms3.
  { rewrite on_hub_eq in Ec. injection Ec as <-. cbn [st_hub]. exact Hms2. }
  exists s3. split_and!.
  - rewrite Hms3. unfold changed_answer. by destruct s3.
  - unfold automation_safe. by rewrite (q_docs _ _ _ Hq).
  - destruct Hv1 as [Hva Hvb], Hv2 as [Hvc Hvd], (quiet_view _ _ _ Hq) as [Hve Hvf].
    split; [intros k Hk; by rewrite Hve, Hvc, Hva|congruence].
  - unfold stored. rewrite (q_docs _ _ _ Hq). rewrite Hu in Hfound. exact Hfound.
Qed.

Lemma follow_settled current b rule desired name s : find_rule (PDict current) (binding_uuid b) = Some rule -> drifted b rule = false ->
  (resolve b s).1 = Ok (desired, name) -> controlled b rule = desired ->
  exists o s', follow current b s = (o, s') /\ quiet (binding_uuid b) s s' /\ (o = Ok None \/ exists e, o = Err e).
Proof.
  intros Hrule Hd Hres Hc. unfold follow. destruct (_ || _); [exists (Ok None), s; split; [done|]; split; [apply quiet_refl|by left]|].
  rewrite Hrule, Hd, prog_bind_eq, (views_same _ s (compatible_views (Some rule) b)).
  destruct (rule_compatible (Some rule) b s).1 as [[]|e]; cbn [negb];
    [|exists (Ok None), s; split; [done|]; split; [apply quiet_refl|by left]|exists (Err e), s; split; [done|]; split; [apply quiet_refl|by right; exists e]].
  rewrite prog_bind_eq, (views_same _ s (resolve_views b)), Hres. cbn [fst]. rewrite Hc, String.eqb_refl, !orb_true_r.
  rewrite prog_bind_eq. destruct (on_hub (clear_candidate _) s) as [o s'] eqn:Ec. pose proof (clear_quiet _ _ _ _ Ec) as [Hq ->].
  exists (Ok None), s'. split; [done|]. split; [done|by left].
Qed.

Lemma quiet_stored u s s' : quiet u s s' -> stored s' = stored s /\ (automation_safe s -> automation_safe s').
Proof. intros Hq. unfold stored, automation_safe. by rewrite (q_docs _ _ _ Hq). Qed.

(** As long as the router shows the rule as it was confirmed, the rounds leave it alone. *)
Lemma settled_rounds b rule desired name currents s : automation_safe s -> binding_uuid b <> "" ->
  find_binding (binding_uuid b) (stored s) = Some b -> drifted b rule = false ->
  (resolve b s).1 = Ok (desired, name) -> controlled b rule = desired ->
  (forall current, In current currents -> find_rule (PDict current) (binding_uuid b) = Some rule) ->
  st_router (rounds (binding_uuid b) currents s) = st_router s /\ stored (rounds (binding_uuid b) currents s) = stored s.
Proof.
  intros Hs Hu Hf Hd Hres Hc. revert s Hs Hf Hres. induction currents as [|current cs IH]; intros s Hs Hf Hres Hcur; [done|].
  cbn [rounds]. rewrite reconcile_eq, (selected_single _ _ _ (bo_unique _ (safe_stored s Hs)) Hu Hf). cbn [first_answer].
  destruct (follow_settled current b rule desired name s (Hcur _ (or_introl eq_refl)) Hd Hres Hc) as (o & s1 & Hfo & Hq & Ho).
  rewrite prog_bind_eq, Hfo. pose proof (quiet_stored _ _ _ Hq) as [Hst Hsafe].
  assert (st_router (rounds (binding_uuid b) cs s1) = st_router s /\ stored (rounds (binding_uuid b) cs s1) = stored s) as Hcs;
    [|by destruct Ho as [-> |[e ->]]].
  rewrite <- Hst, <- (q_router _ _ _ Hq). apply IH.
  - by apply Hsafe.
  - by rewrite Hst.
  - by rewrite (resolve_views b s s1 (quiet_view _ _ _ Hq)).
  - intros c Hin. apply Hcur. by right.
Qed.

Lemma follow_moves current b rule desired name answer s s1 s2 : is_mapping b = true -> paused b = false ->
  find_rule (PDict current) (binding_uuid b) = Some rule -> drifted b rule = false ->
  (rule_compatible (Some rule) b s).1 = Ok true -> (resolve b s).1 = Ok (desired, name) ->
  desired <> "" -> controlled b rule <> "" -> controlled b rule <> desired ->
  on_hub (candidate_confirmed (binding_uuid b) desired) s = (Ok true, s1) -> apply_address b rule desired s1 = (Ok answer, s2) ->
  follow current b s = (Ok (Some answer), s2).
Proof.
  intros Hm Hp Hr Hd Hfits Hres Hk%nonempty_spec Ha%nonempty_spec Hn%String.eqb_neq Hc Happly. unfold follow. rewrite Hm, Hp, Hr, Hd. cbn [negb orb].
  rewrite prog_bind_eq, (views_same _ s (compatible_views (Some rule) b)), Hfits. cbn [negb].
  rewrite prog_bind_eq, (views_same _ s (resolve_views b)), Hres. cbn [fst]. rewrite Hk, Ha, Hn. cbn [negb orb].
  by rewrite prog_bind_eq, Hc, prog_bind_eq, Happly.
Qed.

(** C5. A mapping moved and its new address was seen before.  When the router accepts the update and
    reads back a rule with the address, the round reports the change and records it, and as long as
    the router shows that rule no later round writes again or takes the Hub's own write for a
    change made by hand. *)
Theorem confirmed_update_settles `{!Sha256Hex} s b current rule rule' desired row currents :
  automation_safe s -> int_printable (w_ms (st_hub s) / 1000) ->
  find_binding (binding_uuid b) (stored s) = Some b -> follows current b rule -> moved b rule desired s ->
  noted (binding_uuid b) desired row s -> accepts b rule rule' desired (st_router s) ->
  exists s', reconcile true (PDict current) (binding_uuid b) s = (Ok (changed_answer b rule desired (w_ms (st_hub s) / 1000)), s') /\
    (exists b', find_binding (binding_uuid b) (stored s') = Some b' /\ get b' "lastAppliedValue" = PStr desired /\ drifted b' rule' = false) /\
    ((forall c, In c currents -> find_rule (PDict c) (binding_uuid b) = Some rule') ->
     st_router (rounds (binding_uuid b) currents s') = st_router s' /\ stored (rounds (binding_uuid b) currents s') = stored s').
Proof.
  intros Hs Hms Hf [Hmap Hact Hrule Hdrift] [Hfits [name Hres] Hknown Hactual Hnew] Hnoted Hacc.
  pose proof (find_binding_some _ _ _ Hf) as [Hin _].
  pose proof (proj1 (List.Forall_forall _ _) (bo_flat _ (safe_stored s Hs)) b Hin) as Hfl. pose proof Hfl as (_ & _ & Hu).
  pose proof Hfits as [m [Hfield _]%fits_field]%compatible_fits.
  pose proof (resolved_normal b s desired name Hfield (controlled_family _ _ Hactual) Hres) as Hnormal.
  destruct (noted_confirmed _ _ _ _ Hnoted) as (s1 & Hc & Hq & Hms1). pose proof (quiet_stored _ _ _ Hq) as [Hst Hsafe1].
  rewrite <- (q_router _ _ _ Hq) in Hacc. rewrite <- Hst in Hf. rewrite <- Hms1 in *.
  destruct (apply_settles b rule rule' desired s1 (Hsafe1 Hs) Hf Hms Hnormal Hacc) as (s2 & Ha & Hsafe2 & Hview & Hf2).
  set (now := w_ms (st_hub s1) / 1000) in *. set (b' := sorted_dict (followed b rule' desired now)) in *.
  assert (Hb' : forall k, In k scope_fields -> get b' k = get b k) by (intros k Hk; by apply flat_followed_get).
  assert (match_field b' = match_field b) as Hmf by (unfold match_field; rewrite Hb'; [done|cbn; tauto]).
  assert (address_family b' = address_family b) as Haf by (unfold address_family; rewrite Hb'; [done|cbn; tauto]).
  assert (flat (followed b rule' desired now)) as Hffl by by apply followed_flat.
  assert (get b' "lastAppliedValue" = PStr desired) as Hlast.
  { unfold b'. rewrite get_sorted_flat by done. unfold followed, dupdate. cbn [fold_left fst snd]. by simpl_get. }
  assert (controlled b' rule' = desired) as Hc' by (unfold controlled; rewrite Hmf, Haf, (ac_field _ _ _ _ _ Hacc); exact Hnormal).
  assert (drifted b' rule' = false) as Hd'.
  { unfold drifted, applied. rewrite Hmf, Haf, Hlast, Hnormal, Hc', String.eqb_refl. apply nonempty_spec in Hknown as ->.
    assert (get b' "ruleFingerprint" = PStr (rule_fingerprint rule' (match_field b))) as ->.
    { unfold b'. rewrite get_sorted_flat by done. unfold followed, dupdate. cbn [fold_left fst snd]. by simpl_get. }
    unfold rule_fingerprint. rewrite text_of_hex, String.eqb_refl. by destruct (sha256_hex (dumps (PDict (List.filter (fun kv => negb (str_in kv.1 ["stats"; match_field b])) rule')))) as [-> _]. }
  assert (binding_uuid b' = binding_uuid b) as Hub.
  { unfold b'. rewrite uuid_sorted by done. unfold followed, binding_uuid, dupdate. cbn [fold_left fst snd]. by simpl_get. }
  exists s2. split_and!.
  - apply first_selected; [done|done|by rewrite <- Hst|]. by eapply follow_moves.
  - by exists b'.
  - intros Hcur. rewrite <- Hub in Hf2, Hcur |- *. eapply settled_rounds; [done|by rewrite Hub|done|done| |done|done].
    rewrite (resolve_ext b b' Hb'). pose proof (resolve_views b s s2) as Hv. rewrite Hv; [exact Hres|].
    destruct (quiet_view _ _ _ Hq) as [Hva Hvb], Hview as [Hvc Hvd]. split; [intros k Hk; by rewrite Hvc, Hva|congruence].
Qed.
End Rounds.

(** ** The concrete site *)

Lemma hex_text s : sall is_hex (sconcat_map (fun c => hex2 (byte_of c)) s) = true.
Proof.
  induction s as [|c s IH]; [done|]. cbn [sconcat_map]. rewrite sall_app, IH, andb_true_r. by destruct c as [[] [] [] [] [] [] [] []].
Qed.

#[export] Instance hex_digest_hex : Sha256Hex.
Proof.
  constructor. intros s. cbn [sha256 hex_digest]. split; [done|]. apply hex_text.
Qed.

(** The rule after somebody opened another port. *)
Definition edited_rule : dict := dset "destPort" (PStr "9443,22") (web_rule "192.168.5.20").

Lemma manual_change_stops_following_witness :
  exists s', reconcile true (PDict (shown edited_rule)) "u1" adopted_site =
      (Ok [("ok", PBool true); ("changed", PBool false); ("suspended", PBool true); ("firewallUuid", PStr "u1")], s') /\
    st_router s' = st_router adopted_site /\
    (forall b', In b' (stored adopted_site) -> binding_uuid b' <> "u1" -> In (sorted_dict b') (stored s')) /\
    (exists b', find_binding "u1" (stored s') = Some b' /\ get b' "suspended" = PBool true) /\
    forall currents, rounds "u1" currents s' = s'.
Proof.
  apply (manual_change_stops_following adopted_site "u1" adopted_binding (shown edited_rule) edited_rule);
    [exact adopted_safe|apply small_printable; vm_compute; reflexivity|vm_compute; reflexivity..].
Defined.

Definition normalized := normalize_binding (S := store) (R := tables) "u1" follow_request (web_rule "192.168.5.20") before_site.

Lemma adopted_rule_is_recognised_witness :
  let b := match fst normalized with Ok b => b | Err _ => [] end in
  binding_uuid b = "u1" /\ is_mapping b = true /\ drifted b (web_rule "192.168.5.20") = false /\
  (exists m, fits (web_rule "192.168.5.20") b (Some m) = Ok true) /\
  paused b = negb (enabled (get (dict_or_empty follow_request) "enabled") true).
Proof.
  apply (adopted_rule_is_recognised before_site (snd normalized) "u1" follow_request (web_rule "192.168.5.20")); vm_compute; reflexivity.
Defined.

(** What the table reads back: the rule with its counters. *)
Definition moved_rule : dict := dset "stats" (PDict [("packets", PInt 0); ("bytes", PInt 0)]) (web_rule "192.168.5.46").

Lemma demo_accepts : accepts adopted_binding (web_rule "192.168.5.20") moved_rule "192.168.5.46" (st_router adopted_site).
Proof.
  constructor; [by eexists| |vm_compute; reflexivity].
  exists (PList [PDict (shown (web_rule "192.168.5.46")); PDict []]), [PDict moved_rule]. split_and!; vm_compute; reflexivity.
Qed.

Lemma confirmed_update_settles_witness :
  exists s', reconcile true (PDict (shown (web_rule "192.168.5.20"))) "u1" adopted_site =
      (Ok (changed_answer adopted_binding (web_rule "192.168.5.20") "192.168.5.46" 1700000000), s') /\
    (exists b', find_binding "u1" (stored s') = Some b' /\ get b' "lastAppliedValue" = PStr "192.168.5.46" /\ drifted b' moved_rule = false) /\
    ((forall c, In c [shown moved_rule; shown moved_rule] -> find_rule (PDict c) "u1" = Some moved_rule) ->
     st_router (rounds "u1" [shown moved_rule; shown moved_rule] s') = st_router s' /\
     stored (rounds "u1" [shown moved_rule; shown moved_rule] s') = stored s').
Proof.
  apply (confirmed_update_settles adopted_site adopted_binding (shown (web_rule "192.168.5.20")) (web_rule "192.168.5.20") moved_rule
    "192.168.5.46" [("value", PStr "192.168.5.46"); ("count", PInt 1); ("firstSeen", PInt 1700000000)] [shown moved_rule; shown moved_rule]);
    [exact adopted_safe|apply small_printable; vm_compute; reflexivity|vm_compute; reflexivity| | |split; [vm_compute; reflexivity..|exists 1; split; [vm_compute; reflexivity|lia]]|exact demo_accepts].
  - constructor; vm_compute; reflexivity.
  - constructor; [vm_compute; reflexivity|exists "web"; vm_compute; reflexivity|vm_compute; discriminate..].
Defined.

(** ** Where the code falls short of its comments *)

Definition broken_read : RouterBatch tables := {| batch := fun _ t => (Err (RouterRpcError "timeout" "ROUTER_TIMEOUT" 504), t) |}.

(** An update the router took but could not be read back: the next round meets the address the Hub
    itself wrote and suspends the binding for a change made by hand. *)
Lemma own_write_counts_as_manual_change :
  let s := on_site (@reconcile store tables _ _ _ broken_read _ true (PDict (shown (web_rule "192.168.5.20"))) "u1") adopted_site in
  tb_firewall (st_router s) = [web_rule "192.168.5.46"] /\
  (reconcile true (PDict (shown (web_rule "192.168.5.46"))) "u1" s).1 =
    Ok [("ok", PBool true); ("changed", PBool false); ("suspended", PBool true); ("firewallUuid", PStr "u1")].
Proof. vm_compute. split; reflexivity. Qed.

(** A binding beyond the hundredth is not stored, although the request that made it succeeds. *)
Definition many_bindings : list dict := List.map (fun n => [("firewallUuid", PStr ("a" +:+ pad_int 3 (Z.of_nat n)))]) (seq 0 100).
Definition last_binding : dict := [("firewallUuid", PStr "z")].

Lemma hundred_and_first_binding_is_dropped :
  find_binding "z" (read_bindings (automation_document "now" (many_bindings ++ [last_binding]))) = None.
Proof. vm_compute. reflexivity. Qed.

(** A mapping of the router that the snapshots do not hold yet: the request reads it from the router
    and adopts the rule, and its own answer then calls the rule unsupported. *)
Definition native_site : site store tables :=
  Site mapped_hub (Tables [[("ruleName", PStr "Lucky"); ("destIp", PStr "192.168.5.46"); ("destPort", PStr "9443"); ("proto", PStr "tcp")]]
                     [web_rule "192.168.5.20"] 1) (Sync [] 0 None).
Definition native_request : pyval :=
  PDict [("targetType", PStr "mapping"); ("mappingKind", PStr "native"); ("mappingId", PStr "Lucky"); ("addressFamily", PStr "ipv4")].

Lemma unsynced_mapping_is_unsupported :
  match (put_binding demo_env (app_request [] (Some native_request)) "u1" native_site).1 with
  | Ok rsp => rsp_status rsp = 200 /\ get (dict_or_empty (get (dict_or_empty (rsp_body rsp)) "data")) "status" = PStr "unsupported"
  | Err _ => False
  end.
Proof. vm_compute. split; reflexivity. Qed.
